(* ===== verification/_CoqProject ===== *)
-Q . S2P
Prelude.v
PyBase.v
Encoding.v
Hashes.v
Json.v
Models.v
Store.v
IpAddress.v
Url.v
Normalization.v
Config.v
Aead.v
FindingCrypto.v
PlatformSettings.v
Remediation.v
Retention.v
LeakCheck.v
Ingest.v
Notifications.v
Alerts.v
Batches.v
Session.v
SessionSpec.v
Csrf.v
Web.v
Layout.v
Repr.v
Csv.v
Access.v
LocalAuth.v
OAuth.v
Google.v
Branding.v
SignIn.v
Enrolment.v
Headers.v
Scheduling.v
Scans.v
Worker.v
Reencrypt.v
Users.v
Workspace.v
SettingsForm.v
Admin.v
Analyst.v
Portal.v
Interactive.v
Watchlist.v
Schedules.v
Campaigns.v
AuditPages.v
OperationPages.v
UserPages.v
AnalystPages.v
Schema.v
Migrations.v
ModelSchema.v
SchemaContract.v
BootstrapSecrets.v
Deployment.v
AccountPages.v
SettingsPage.v
Pages.v
Application.v
CommandLine.v
SettingsContract.v
