(* ===== verification/Prelude.v ===== *)
(** * LeakcheckHub: a verification development

    LeakcheckHub is a FastAPI application over PostgreSQL that looks up e-mail addresses, user names,
    phone numbers and domains in the LeakCheck breach service, keeps what it finds under encryption,
    and tells people about it. This library translates the Python under src/app/ and src/migrations/
    into Rocq and proves what makes its parts correct.

    ** The program and how its parts interact

    A deployment generates its secrets, waits for the database, creates the roles, migrates the schema
    and serves the application. A request passes the middleware (security headers, CSRF, host), finds
    its route, gets a database session that commits on success and rolls back on any exception, and is
    guarded by the role of the signed-in user; the route answers with JSON, text or a page. A scan is
    created pending; a background task, or the worker that claims queued items of a batch, queries
    LeakCheck, feeds the records to the ingest, and accounts the result on the scan, the subject and
    the batch. New findings fan out to watchlist alerts; alerts and notifications are outboxes that
    the worker drains. The worker's pass also purges expired findings and lets one leader dispatch
    recurring schedules. Passwords of findings, settings and one-time-code seeds are stored under one
    root key, which a command rotates.

    ** How the code is represented

    - [Prelude], [PyBase], [Encoding], [Hashes], [Json], [IpAddress], [Url], [Csv], [Repr]: the Python
      built-ins and standard-library routines the program uses. A [str] is a list of code points, a
      [bytes] value a list of octets, an instant an integer number of microseconds, a [result] a value
      or the exception class that is raised.
    - [Models] (models.py): one record per table, its enumerations, and the check constraints as
      boolean tests; [Db] is the record of all tables.
    - [Store] (db.py, and the AsyncSession every service receives): [World] is the database as the
      session sees it, the committed database, the draws of random values, and the clock; [M] is
      the state-and-exception monad over it, in which a raised exception keeps the session's changes,
      as Python does, until something rolls them back. A mapped object that several references share
      is referred to by primary key, so that a mutation is seen through all of them.
    - [Web]: requests, responses, form bodies and query strings; [Layout] (layout.py): pages as lists
      of template text and interpolated values, rendered to a string.
    - [Aead]: AES-GCM as an interface with laws; [Store] has those of randomness, of the order in
      which a table is read, and of [CITEXT].

    ** The components

    - [Config] (config.py), [Normalization] (normalization.py), [PlatformSettings]
      (platform_settings.py), [FindingCrypto] (finding_crypto.py), [Reencrypt] (reencrypt.py).
    - [LeakCheck] (leakcheck.py): the client's own state (token bucket, circuit breaker, clock, log of
      requests) is [ClientState]; its operations are steps of [C], the same monad over that state.
    - [Ingest] (ingest.py): the class [IngestRepository] is the protocol of the code and
      [SQLAlchemyIngestRepository] its PostgreSQL implementation.
    - [Remediation] (remediation.py), [Retention] (retention.py), [Notifications] (notifications.py),
      [Alerts] (alerts.py), [Batches] (batches.py), [Scheduling] (scheduling.py): one definition per
      function; the operations that a worker repeats generate step relations.
    - [Scans] (scans.py, scan_runtime.py), [Worker] (worker.py: the turn of its loop), [Users] and [Workspace] (google_workspace.py: the
      synchronisation and the directory client).
    - [Session] (auth/session.py) with its abstract specification [SessionSpec], [Csrf] (auth/csrf.py),
      [LocalAuth] (auth/local.py), [OAuth] and [Google] (auth/google.py), [Access]
      (auth/authorization.py and audit.py).
    - Routes: [SignIn] and [Enrolment] (routers/auth.py), [SettingsForm], [Users] and [Admin]
      (routers/admin.py), [SettingsContract] (what the form writes, its readers accept), [Analyst]
      (routers/analyst.py), [Portal] (routers/user.py, user_views.py), [Interactive] (the scans of
      both, over sequences of steps), [Watchlist], [Schedules], [Campaigns] (routers/watchlist.py,
      schedules.py, batches.py, notifications.py, findings.py), [AuditPages] (routers/audit.py),
      [Branding] (branding.py), [Headers] (middleware.py).
    - Pages: [OperationPages] (watchlist_ui.py, schedule_ui.py, notification_ui.py, batch_ui.py),
      [UserPages] (user_ui.py), [AnalystPages] (analyst_ui.py), [AccountPages] and [SettingsPage] (the
      markup of routers/auth.py and routers/admin.py), and [Pages], every page together.
    - Schema: [Schema] (the statements of the migrations over a record of tables, types, roles and
      privileges), [Migrations] (migrations/versions/, bootstrap_database.py), [ModelSchema] (the
      schema the mapped classes declare), [SchemaContract].
    - Deployment: [BootstrapSecrets] and [Deployment] (bootstrap_secrets.py; the host is the record
      [Host], with every state the secrets directory goes through), [Application] (main.py: the table
      of routes, the middleware, the supervised worker), [CommandLine] (create_superadmin.py and
      the command of reencrypt.py).

    ** What the theorems show

    - The whole: whatever the endpoints do, a request outside the public paths reaches one only as an
      active user with a role of its area, every answer but the bare error page carries the security
      policy, and an unsafe request without a valid token changes nothing. From an empty volume and
      database a deployment reaches a served application.
    - Ingest: running it twice over the same records finds nothing new and appends no event; equal
      fingerprints mean equal sources (or a SHA-256 collision); raw records keep no password.
    - Scans and batches: a background scan always ends durably succeeded or failed; a claim is
      exclusive until it is stale; completing an item accounts it; a worker drains its queue, each
      item as its scan went, and closes every batch; interactive scans are spaced. Two completions
      that count before either commits leave a finished batch running: the theorem exhibits the
      interleaving.
    - The client: the token bucket's rate, the bounds on attempts, bodies and pages, and the circuit
      breaker.
    - Sign-in and sessions: what a successful sign-in went through, locally and with Google, how many
      guesses a lockout admits, that an enrolled second factor lasts; the session manager refines a
      set of grants with deadlines.
    - Secrets: round trips, binding of each ciphertext to its row, an all-or-nothing rotation,
      generated secrets that are written once, credentials that do not outlive a migration.
    - Outboxes, schedules, retention and remediation: invariants of everything reachable by their
      steps, spacing of messages, one dispatch per due schedule, deletion of only what has expired.
    - Administration: sequential changes keep an active super-admin (two concurrent ones need not), a
      synchronisation acts on a complete listing only, what the settings form accepts its readers
      accept, and its errors show no secret.
    - Pages: no interpolated value can change the structure of any page; the settings page shows no
      stored value; the exported CSV reads back.
    - Schema: the migrations build what the mapped classes declare, leave the application's role the
      least privileges, and undo what they did.
    - Normalisation: canonical forms are stable.

    ** Parameters

    Code that is not in the repository is a class, and a theorem that relies on it has its laws as
    hypotheses, with a concrete instance in the witness: [Unicode] (character tables, case mapping,
    NFC and the IDNA codec; laws on ASCII), [Aead] (a box opens under its key and data and under no
    other), [Argon2], [Cron] (the next occurrence is not before the reference), [Entropy] (fresh
    identifiers, widths), [HeapOrder] (a permutation), [Collation], [MailTransport],
    [LeakCheckService] (any reply whatever), [QueryClient] (does not touch the database),
    [GoogleHttp], [Jwt], [DirectoryHttp], [RsaSigner], [Floats] (the text of floating-point numbers),
    [Pydantic] (its own messages), [HeaderList] (Starlette's assignment of a header), [Framework] (the
    answers FastAPI makes by itself), [SettingsSource] (pydantic-settings) and [Postgres] (which
    attempt is answered, who may sign in). The image of an enrolment code, the text of a timestamp and
    the effect of foreign SQL are arguments of the definitions that use them. SHA-256, SHA-1, HMAC,
    base64, base32, JSON, UTF-8, IP addresses, URLs and CSV are executable definitions.

    ** Bounds and fuel

    Recursion that is not structural takes a natural number: [digits_of] the logarithm of the number,
    [blocks] and [b32_chunks] the length of their input, [scan_value] twice the length of the text
    (every call consumes a character or descends into a value it has just begun), [upgrade_steps] the
    number of revisions. The wait of the token bucket is given two passes: [acquire_total] proves that
    the second always succeeds, so the exhausted branch is unreachable; the wait for the database is
    given 61, with a proof that they are enough. The turns of the worker's loop are counted, and as
    many as items wait are enough. The retry loop and the
    paginations recurse on the attempts and pages that are left, as the code counts them. Integers are
    unbounded, as in Python; the columns that bound them are check constraints of [Models].

    ** What is not modelled

    The drivers and libraries behind the parameters; static assets and the encoding of the QR image
    (totp_qr.py, one call of a library); the creation of the engine and its pool (db.py); argparse and
    logging; a second constructor of the LeakCheck client that nothing
    calls. Row locks and advisory locks appear where a theorem needs them (the claim, the leader, the
    two concurrent anomalies); other transactions are otherwise taken one at a time. *)
From stdpp Require Export base option list list_numbers gmap strings sorting.
From Stdlib Require Export ZArith Lia.

#[export] Set Default Goal Selector "!".

(** ** Python values shared by every file *)

(** A Python [str] is its list of code points; a [bytes] value is its list of octets. *)
Abbreviation pystr := (list Z) (only parsing).
Abbreviation bytes := (list Z) (only parsing).
(** A [uuid.UUID] is its 128-bit integer; an instant is microseconds since the Unix epoch (UTC). *)
Abbreviation uuid := Z (only parsing).
Abbreviation instant := Z (only parsing).

Declare Scope py_scope.
Delimit Scope py_scope with py.

(** An ASCII literal as a Python string. *)
Definition py (s : string) : pystr :=
  List.map (fun a => Z.of_N (Ascii.N_of_ascii a)) (String.list_ascii_of_string s).

(** Every exception class that the modelled code raises or catches. *)
Inductive exn : Type :=
| ValueError
| TypeError
| KeyError
| LookupError
| OverflowError
| UnicodeEncodeError
| UnicodeDecodeError
| UnicodeError
| JSONDecodeError
| BinasciiError
| RuntimeError
| RecursionError
| SystemExit
| InvalidTag
| IntegrityError
| DBAPIError
| PendingRollbackError
| InvalidRequestError
| NoResultFound
| NormalizationError
| LeakCheckConfigurationError
| LeakCheckProtocolError
| LeakCheckResponseTooLarge
| LeakCheckUnavailable
| FindingCryptoError
| FindingNotFoundError
| ScheduleValidationError
| PlatformSettingError
| NotificationConfigurationError
| LocalAuthenticationError
| SuperAdminAlreadyExistsError
| GoogleOIDCError
| InvalidTokenError
| WorkspaceConfigurationError
| WorkspaceAPIError
| LogoRejected
| HTTPException (status_code : Z)
| OtherException (name : string).

#[export] Instance exn_eq_dec : EqDecision exn.
Proof. solve_decision. Defined.

(** [type(exc).__name__] *)
Definition exn_name (e : exn) : pystr :=
  match e with
  | ValueError => py "ValueError" | TypeError => py "TypeError" | KeyError => py "KeyError"
  | LookupError => py "LookupError" | OverflowError => py "OverflowError"
  | UnicodeEncodeError => py "UnicodeEncodeError" | UnicodeDecodeError => py "UnicodeDecodeError"
  | UnicodeError => py "UnicodeError" | JSONDecodeError => py "JSONDecodeError"
  | BinasciiError => py "Error" | RuntimeError => py "RuntimeError" | RecursionError => py "RecursionError" | SystemExit => py "SystemExit"
  | InvalidTag => py "InvalidTag" | IntegrityError => py "IntegrityError"
  | DBAPIError => py "DBAPIError" | PendingRollbackError => py "PendingRollbackError"
  | InvalidRequestError => py "InvalidRequestError"
  | NoResultFound => py "NoResultFound" | NormalizationError => py "NormalizationError"
  | LeakCheckConfigurationError => py "LeakCheckConfigurationError"
  | LeakCheckProtocolError => py "LeakCheckProtocolError"
  | LeakCheckResponseTooLarge => py "LeakCheckResponseTooLarge"
  | LeakCheckUnavailable => py "LeakCheckUnavailable"
  | FindingCryptoError => py "FindingCryptoError" | FindingNotFoundError => py "FindingNotFoundError"
  | ScheduleValidationError => py "ScheduleValidationError"
  | PlatformSettingError => py "PlatformSettingError"
  | NotificationConfigurationError => py "NotificationConfigurationError"
  | LocalAuthenticationError => py "LocalAuthenticationError"
  | SuperAdminAlreadyExistsError => py "SuperAdminAlreadyExistsError"
  | GoogleOIDCError => py "GoogleOIDCError" | InvalidTokenError => py "InvalidTokenError"
  | WorkspaceConfigurationError => py "WorkspaceConfigurationError"
  | WorkspaceAPIError => py "WorkspaceAPIError" | LogoRejected => py "LogoRejected"
  | HTTPException _ => py "HTTPException" | OtherException n => py n
  end.

(** [except ValueError]: the class and its subclasses among the modelled ones. *)
Definition is_value_error (e : exn) : bool :=
  match e with
  | ValueError | UnicodeEncodeError | UnicodeDecodeError | UnicodeError | JSONDecodeError
  | BinasciiError | NormalizationError | ScheduleValidationError => true
  | _ => false
  end.

(** [except Exception]: everything but [SystemExit]. *)
Definition is_exception (e : exn) : bool :=
  match e with SystemExit => false | _ => true end.

(** ** Fallible pure code *)

Inductive result (A : Type) : Type :=
| Ok (a : A)
| Raise (e : exn).
Arguments Ok {A} a.
Arguments Raise {A} e.

#[export] Instance result_eq_dec {A} `{EqDecision A} : EqDecision (result A).
Proof. solve_decision. Defined.

Definition rbind {A B} (c : result A) (k : A -> result B) : result B :=
  match c with Ok a => k a | Raise e => Raise e end.

Definition guard_or (b : bool) (e : exn) : result unit := if b then Ok tt else Raise e.

Definition of_option {A} (o : option A) (e : exn) : result A :=
  match o with Some a => Ok a | None => Raise e end.

Notation "'try!' p <- c ; k" := (rbind c (fun p => k))
  (at level 100, p pattern, c at next level, k at level 200, right associativity) : py_scope.
Open Scope py_scope.
Open Scope Z_scope.

Fixpoint rmap {A B} (f : A -> result B) (l : list A) : result (list B) :=
  match l with
  | [] => Ok []
  | x :: t => try! y <- f x; try! ys <- rmap f t; Ok (y :: ys)
  end.

(** ** Tactics *)

(** Split the condition of the innermost [match] of the goal or of a hypothesis. *)
Ltac cases_goal :=
  match goal with
  | |- context [match ?x with _ => _ end] =>
      lazymatch x with context [match _ with _ => _ end] => fail | _ => destruct x eqn:? end
  end.
Ltac cases_in H :=
  match type of H with
  | context [match ?x with _ => _ end] =>
      lazymatch x with context [match _ with _ => _ end] => fail | _ => destruct x eqn:? end
  end.

(** Turn boolean tests into propositions. *)
Ltac bools := cbv beta in *;
  repeat match goal with
  | H : (_ && _)%bool = true |- _ => apply andb_true_iff in H as [? ?]
  | H : (_ || _)%bool = false |- _ => apply orb_false_iff in H as [? ?]
  | H : negb _ = true |- _ => apply negb_true_iff in H
  | H : negb _ = false |- _ => apply negb_false_iff in H
  | H : Z.ltb _ _ = true |- _ => apply Z.ltb_lt in H
  | H : Z.ltb _ _ = false |- _ => apply Z.ltb_ge in H
  | H : Z.leb _ _ = true |- _ => apply Z.leb_le in H
  | H : Z.leb _ _ = false |- _ => apply Z.leb_gt in H
  | H : Z.eqb _ _ = true |- _ => apply Z.eqb_eq in H
  | H : Z.eqb _ _ = false |- _ => apply Z.eqb_neq in H
  | H : bool_decide _ = true |- _ => apply bool_decide_eq_true in H
  | H : bool_decide _ = false |- _ => apply bool_decide_eq_false in H
  end.

(** ** Generic lemmas *)

Lemma rbind_Ok {A B} (c : result A) (k : A -> result B) b :
  rbind c k = Ok b <-> exists a, c = Ok a /\ k a = Ok b.
Proof. destruct c; simpl; split; [eauto|intros (?&[= ->]&?); done|done|by intros (?&[=]&?)]. Qed.

Lemma rmap_length {A B} (f : A -> result B) l l' : rmap f l = Ok l' -> length l' = length l.
Proof.
  revert l'. induction l as [|x l IH]; intros l'; simpl; [by intros [= <-]|].
  intros (y&Hy&(ys&Hys&[= <-])%rbind_Ok)%rbind_Ok. simpl. f_equal. by apply IH.
Qed.

Lemma rmap_Forall2 {A B} (f : A -> result B) l l' :
  rmap f l = Ok l' <-> Forall2 (fun x y => f x = Ok y) l l'.
Proof.
  revert l'. induction l as [|x l IH]; intros l'; simpl.
  - split; [by intros [= <-]|by inversion 1].
  - rewrite rbind_Ok. setoid_rewrite rbind_Ok. split.
    + intros (y&Hy&ys&Hys&[= <-]). constructor; [done|]. by apply IH.
    + inversion 1 as [|? y ? ys Hy Hys]; subst. exists y. split; [done|]. exists ys. split; [|done].
      by apply IH.
Qed.

(** An appended prefix of known length determines both halves. *)
Lemma app_inj_length {A} (a b c d : list A) :
  length a = length c -> a ++ b = c ++ d -> a = c /\ b = d.
Proof. intros Hl H. by apply app_inj_1 in H. Qed.

Lemma forallb_Forall {A} (f : A -> bool) l : forallb f l = true <-> Forall (fun x => f x = true) l.
Proof. rewrite List.forallb_forall, Forall_forall. by setoid_rewrite <- list_elem_of_In. Qed.

Lemma existsb_Exists {A} (f : A -> bool) l : existsb f l = true <-> Exists (fun x => f x = true) l.
Proof. rewrite List.existsb_exists, Exists_exists. by setoid_rewrite <- list_elem_of_In. Qed.

Lemma existsb_false_Forall {A} (f : A -> bool) l :
  existsb f l = false <-> Forall (fun x => f x = false) l.
Proof.
  induction l as [|x l IH]; simpl; [done|]. rewrite orb_false_iff, IH, Forall_cons. done.
Qed.

Lemma find_none_elem {A} (f : A -> bool) l : (forall x, x ∈ l -> f x = false) -> List.find f l = None.
Proof.
  induction l as [|x l IH]; intros Hall; simpl; [done|]. rewrite (Hall x) by left.
  apply IH. intros y Hy. apply Hall. by right.
Qed.

Lemma last_cons_default {A} (x d : A) l : List.last (x :: l) d = List.last l x.
Proof.
  revert x d. induction l as [|y l IH]; intros x d; [done|].
  change (List.last (x :: y :: l) d) with (List.last (y :: l) d). by rewrite !IH.
Qed.

Lemma py_ascii s : Forall (fun c => 0 <= c < 256) (py s).
Proof.
  unfold py. apply Forall_forall. intros c [a [-> _]]%list_elem_of_fmap.
  pose proof (Ascii.N_ascii_bounded a). lia.
Qed.

Create HintDb py discriminated.
Create Rewrite HintDb py.
#[export] Hint Resolve py_ascii : py.
