(* ===== verification/PyBase.v ===== *)
(** Python's built-in text, integer, byte and date operations, as far as the program uses them:
    character classes, [str] methods, [int(...)], UTF-8, hexadecimal, base64, base32, fixed-width
    big-endian integers, dates and timezone-aware instants. *)
From S2P Require Import Prelude.

(** ** Characters *)

Definition is_ascii (c : Z) : bool := (0 <=? c) && (c <? 128).
Definition ascii_digit (c : Z) : bool := (48 <=? c) && (c <=? 57).
Definition ascii_upper (c : Z) : bool := (65 <=? c) && (c <=? 90).
Definition ascii_lowerc (c : Z) : bool := (97 <=? c) && (c <=? 122).
Definition ascii_alpha (c : Z) : bool := ascii_upper c || ascii_lowerc c.
Definition ascii_alnum (c : Z) : bool := ascii_alpha c || ascii_digit c.
Definition ascii_space (c : Z) : bool := ((9 <=? c) && (c <=? 13)) || ((28 <=? c) && (c <=? 32)).
Definition ascii_printable (c : Z) : bool := (32 <=? c) && (c <? 127).
Definition to_lower (c : Z) : Z := if ascii_upper c then c + 32 else c.

(** [str.isascii] *)
Definition isascii (s : pystr) : bool := forallb is_ascii s.

(** The Unicode character database is data shipped with the interpreter, not code of the
    repository: its functions are the operations of a class, and their values on ASCII text, which
    the Unicode standard fixes, are its laws. The interpreter's limit on nested calls of its JSON
    decoder, which depends on its build, is there too. *)
Class Unicode := {
  json_nesting : nat;               (* how deeply the JSON decoder descends before RecursionError *)
  nfkc : pystr -> pystr;            (* unicodedata.normalize("NFKC", s) *)
  casefold : pystr -> pystr;        (* str.casefold *)
  lower : pystr -> pystr;           (* str.lower *)
  isspace : Z -> bool;              (* str.isspace of one character *)
  isprintable : Z -> bool;          (* str.isprintable of one character *)
  islower : Z -> bool;
  isupper : Z -> bool;
  isdigit : Z -> bool;
  isalnum : Z -> bool;
  punct_or_symbol : Z -> bool;      (* unicodedata.category(c).startswith(("P", "S")) *)
  decimal_value : Z -> option Z;    (* the decimal digit int() accepts *)
  idna_encode : pystr -> option pystr; (* str.encode("idna") of a string that is not ASCII *)
}.

Class UnicodeLaws `{Unicode} : Prop := {
  json_nesting_min : (64 <= json_nesting)%nat;
  nfkc_ascii s : isascii s = true -> nfkc s = s;
  casefold_ascii s : isascii s = true -> casefold s = map to_lower s;
  lower_ascii s : isascii s = true -> lower s = map to_lower s;
  isspace_ascii c : is_ascii c = true -> isspace c = ascii_space c;
  isprintable_ascii c : is_ascii c = true -> isprintable c = ascii_printable c;
  isalnum_ascii c : is_ascii c = true -> isalnum c = ascii_alnum c;
  isdigit_ascii c : is_ascii c = true -> isdigit c = ascii_digit c;
  decimal_ascii c : is_ascii c = true -> decimal_value c = if ascii_digit c then Some (c - 48) else None;
}.

(** A database that knows ASCII and treats every other code point as an inert printable symbol. *)
Definition ascii_unicode : Unicode := {|
  json_nesting := 1000;
  nfkc s := s;
  casefold := map to_lower;
  lower := map to_lower;
  isspace := ascii_space;
  isprintable c := ascii_printable c || (160 <? c);
  islower := ascii_lowerc;
  isupper := ascii_upper;
  isdigit := ascii_digit;
  isalnum := ascii_alnum;
  punct_or_symbol c := ascii_printable c && negb (ascii_alnum c) && negb (c =? 32);
  decimal_value c := if ascii_digit c then Some (c - 48) else None;
  idna_encode _ := None;
|}.

#[export] Instance ascii_unicode_laws : @UnicodeLaws ascii_unicode.
Proof.
  constructor; [apply Nat.leb_le; reflexivity|..]; cbn -[json_nesting]; try done.
  intros c Hc. unfold is_ascii, ascii_printable in *.
  destruct (160 <? c) eqn:E; [|by rewrite orb_false_r]. bools. lia.
Qed.

(** ** [str] methods *)

Section Strings.
Context `{Unicode}.

Fixpoint lstrip_by (p : Z -> bool) (s : pystr) : pystr :=
  match s with
  | [] => []
  | c :: t => if p c then lstrip_by p t else s
  end.
Definition rstrip_by (p : Z -> bool) (s : pystr) : pystr := rev (lstrip_by p (rev s)).
Definition lstrip (s : pystr) : pystr := lstrip_by isspace s.
Definition rstrip (s : pystr) : pystr := rstrip_by isspace s.
Definition strip (s : pystr) : pystr := rstrip (lstrip s).

Fixpoint startswith (s p : pystr) : bool :=
  match p, s with
  | [], _ => true
  | _, [] => false
  | c :: p', d :: s' => (c =? d) && startswith s' p'
  end.
Definition endswith (s p : pystr) : bool := startswith (rev s) (rev p).

(** [s.count(c)] for a one-character [c] *)
Definition count_char (c : Z) (s : pystr) : nat := length (List.filter (Z.eqb c) s).

(** [s.split(c)] for a one-character separator: never empty *)
Fixpoint split_char (c : Z) (s : pystr) : list pystr :=
  match s with
  | [] => [[]]
  | d :: t =>
      if d =? c then [] :: split_char c t
      else match split_char c t with
           | w :: ws => (d :: w) :: ws
           | [] => [[d]]
           end
  end.

(** [s.split(c, maxsplit=1)]: the part before the first separator and the part after it. *)
Fixpoint split_once (c : Z) (s : pystr) : pystr * option pystr :=
  match s with
  | [] => ([], None)
  | d :: t => if d =? c then ([], Some t) else let '(a, b) := split_once c t in (d :: a, b)
  end.

(** [s.rsplit(c, maxsplit=1)] *)
Definition rsplit_once (c : Z) (s : pystr) : option pystr * pystr :=
  let '(a, b) := split_once c (rev s) in ((fun x => rev x) <$> b, rev a).

(** [needle in s] *)
Fixpoint contains (s needle : pystr) : bool :=
  startswith s needle || match s with [] => false | _ :: t => contains t needle end.

(** [s.replace(old, new)] for a one-character [old] *)
Definition replace_char (old : Z) (new : pystr) (s : pystr) : pystr :=
  flat_map (fun c => if c =? old then new else [c]) s.

(** [sep.join(parts)] *)
Fixpoint join (sep : pystr) (parts : list pystr) : pystr :=
  match parts with
  | [] => []
  | [p] => p
  | p :: ps => p ++ sep ++ join sep ps
  end.

(** Digits with single underscores between them, as [int] accepts them. *)
Fixpoint int_digits (acc : Z) (after_digit : bool) (s : pystr) : option Z :=
  match s with
  | [] => if after_digit then Some acc else None
  | c :: t =>
      match decimal_value c with
      | Some d => int_digits (acc * 10 + d) true t
      | None => if (c =? 95) && after_digit then int_digits acc false t else None
      end
  end.

(** [sys.get_int_max_str_digits()]: longer decimal literals are refused with [ValueError]. *)
Definition MAX_STR_DIGITS : nat := Z.to_nat 4300.

(** [int(s)] of a string: surrounding whitespace, an optional sign, decimal digits. *)
Definition py_int (s : pystr) : result Z :=
  let body := strip s in
  let '(sign, ds) := match body with
                     | 45 :: t => (-1, t)
                     | 43 :: t => (1, t)
                     | _ => (1, body)
                     end in
  if (MAX_STR_DIGITS <? length (List.filter (fun c => negb (c =? 95)%Z) ds))%nat then Raise ValueError
  else match int_digits 0 false ds with Some v => Ok (sign * v) | None => Raise ValueError end.

End Strings.

(** [str(n)] of an integer. *)
Fixpoint digits_of (fuel : nat) (n : Z) (acc : pystr) : pystr :=
  match fuel with
  | O => acc
  | S f => let acc' := (48 + n mod 10) :: acc in if n <? 10 then acc' else digits_of f (n / 10) acc'
  end.
Definition str_nat (n : Z) : pystr := digits_of (S (Z.to_nat (Z.log2 n))) n [].
Definition str_int (n : Z) : pystr := if n <? 0 then 45 :: str_nat (- n) else str_nat n.

(** [f"{n:0{width}d}"] of a non-negative integer *)
Definition zfill (width : nat) (s : pystr) : pystr := replicate (width - length s) 48 ++ s.

(** [s[:n]] *)
Definition slice_to {A} (n : nat) (s : list A) : list A := take n s.

(** Lexicographic order of code points, Python's [<=] on strings. *)
Fixpoint str_leb (a b : pystr) : bool :=
  match a, b with
  | [], _ => true
  | _ :: _, [] => false
  | x :: a', y :: b' => if x =? y then str_leb a' b' else x <? y
  end.

(** ** Fixed-width integers *)

(** Big-endian octets of [z mod 256^n]. *)
Fixpoint be_split (n : nat) (z : Z) : bytes :=
  match n with
  | O => []
  | S m => (z / 256 ^ Z.of_nat m) mod 256 :: be_split m z
  end.
Definition be_combine (b : bytes) : Z := foldl (fun acc x => acc * 256 + x) 0 b.

(** [n.to_bytes(width, "big")] *)
Definition to_bytes (width : nat) (z : Z) : result bytes :=
  if (0 <=? z) && (z <? 256 ^ Z.of_nat width) then Ok (be_split width z) else Raise OverflowError.

(** [int.from_bytes(b, "big", signed=True)] *)
Definition from_bytes_signed (b : bytes) : Z :=
  let m := 256 ^ Z.of_nat (length b) in
  let v := be_combine b in
  if v <? m / 2 then v else v - m.

(** [uuid.bytes] *)
Definition uuid_bytes (u : uuid) : bytes := be_split 16 u.

(** Lower-case hexadecimal. *)
Definition hex_digit (d : Z) : Z := if d <? 10 then 48 + d else 87 + d.
Definition hex (b : bytes) : pystr := flat_map (fun x => [hex_digit (x / 16); hex_digit (x mod 16)]) b.

(** [str(uuid)] *)
Definition uuid_str (u : uuid) : pystr :=
  let h := hex (uuid_bytes u) in
  take 8 h ++ [45] ++ take 4 (drop 8 h) ++ [45] ++ take 4 (drop 12 h) ++ [45] ++
  take 4 (drop 16 h) ++ [45] ++ drop 20 h.

(** [int] of a string can only fail with [ValueError]. *)
Lemma py_int_error `{Unicode} s e : py_int s = Raise e -> e = ValueError.
Proof.
  unfold py_int. destruct (strip s) as [|c t]; [by intros [= <-]|].
  repeat case_match; by intros; simplify_eq.
Qed.

(** ** Lemmas on [str] methods *)

Definition trimmed (p : Z -> bool) (s : pystr) : Prop :=
  (forall c t, s = c :: t -> p c = false) /\ (forall c t, s = t ++ [c] -> p c = false).

Lemma lstrip_by_spec p s :
  exists pre, s = pre ++ lstrip_by p s /\ Forall (fun c => p c = true) pre
  /\ forall c t, lstrip_by p s = c :: t -> p c = false.
Proof.
  induction s as [|c s (pre&E&Hpre&Hhd)]; simpl; [by exists []|]. destruct (p c) eqn:Hc.
  - exists (c :: pre). simpl. split; [by f_equal|]. split; [by constructor|done].
  - exists []. split; [done|]. split; [done|]. by intros ?? [= <- <-].
Qed.

Lemma rstrip_by_spec p s :
  exists suf, s = rstrip_by p s ++ suf /\ Forall (fun c => p c = true) suf
  /\ forall c t, rstrip_by p s = t ++ [c] -> p c = false.
Proof.
  unfold rstrip_by. destruct (lstrip_by_spec p (rev s)) as (pre&E&Hpre&Hhd).
  exists (rev pre). split; [|split].
  - rewrite <- rev_app_distr, <- E. by rewrite rev_involutive.
  - by apply Forall_rev in Hpre.
  - intros c t Ht. apply (Hhd c (rev t)).
    apply (f_equal (fun x => rev x)) in Ht. rewrite rev_involutive, rev_app_distr in Ht. done.
Qed.

Lemma lstrip_by_fixed p s : (forall c t, s = c :: t -> p c = false) -> lstrip_by p s = s.
Proof. destruct s as [|c t]; simpl; [done|]. intros Hs. by rewrite (Hs c t). Qed.

Lemma rstrip_by_fixed p s : (forall c t, s = t ++ [c] -> p c = false) -> rstrip_by p s = s.
Proof.
  intros Hs. unfold rstrip_by. rewrite lstrip_by_fixed; [apply rev_involutive|].
  intros c t E. apply (Hs c (rev t)). apply (f_equal (fun x => rev x)) in E.
  by rewrite rev_involutive in E.
Qed.

Section StringLemmas.
Context `{Unicode}.

Lemma strip_fixed s : trimmed isspace s -> strip s = s.
Proof. intros [Hh Hl]. unfold strip, lstrip, rstrip. rewrite lstrip_by_fixed by done. by apply rstrip_by_fixed. Qed.

Lemma strip_trimmed s : trimmed isspace (strip s).
Proof.
  unfold strip, lstrip, rstrip.
  destruct (lstrip_by_spec isspace s) as (pre&E&_&Hhd).
  destruct (rstrip_by_spec isspace (lstrip_by isspace s)) as (suf&E2&_&Hlast).
  split; [|exact Hlast]. intros c t Ht. rewrite Ht in E2. simpl in E2. by apply (Hhd c (t ++ suf)).
Qed.

Lemma strip_sublist s : exists pre suf, s = pre ++ strip s ++ suf.
Proof.
  unfold strip, lstrip, rstrip.
  destruct (lstrip_by_spec isspace s) as (pre&E&_).
  destruct (rstrip_by_spec isspace (lstrip_by isspace s)) as (suf&E2&_).
  exists pre, suf. by rewrite <- E2.
Qed.

Lemma strip_Forall (P : Z -> Prop) s : Forall P s -> Forall P (strip s).
Proof.
  destruct (strip_sublist s) as (pre&suf&E). rewrite E at 1. rewrite !Forall_app. by intros (_&?&_).
Qed.
End StringLemmas.

Lemma Forall_trimmed p s : Forall (fun c => p c = false) s -> trimmed p s.
Proof.
  intros Hs. split; intros c t ->.
  - by apply Forall_cons in Hs as [? _].
  - apply Forall_app in Hs as [_ Hs]. by apply Forall_cons in Hs as [? _].
Qed.

Lemma rstrip_by_Forall (P : Z -> Prop) p s : Forall P s -> Forall P (rstrip_by p s).
Proof.
  destruct (rstrip_by_spec p s) as (suf&E&_). rewrite E at 1. rewrite Forall_app. by intros [? _].
Qed.

Lemma split_char_nonempty c s : split_char c s <> [].
Proof. destruct s as [|d t]; simpl; [done|]. destruct (d =? c); [done|]. by destruct (split_char c t). Qed.

Lemma join_split_char c s : join [c] (split_char c s) = s.
Proof.
  induction s as [|d t IH]; simpl; [done|]. pose proof (split_char_nonempty c t) as Hne.
  destruct (d =? c) eqn:E; destruct (split_char c t) as [|w ws] eqn:Es; try done.
  - apply Z.eqb_eq in E as ->. simpl in *. by rewrite IH.
  - simpl in *. destruct ws; simpl in *; by rewrite <- IH.
Qed.

Lemma split_char_Forall (P : Z -> Prop) c s :
  Forall (Forall P) (split_char c s) -> Forall (fun x => P x \/ x = c) s.
Proof.
  induction s as [|d t IH]; simpl; [by constructor|].
  pose proof (split_char_nonempty c t) as Hne. destruct (d =? c) eqn:E.
  - intros [_ Ht]%Forall_cons. constructor; [right; bools; lia|]. by apply IH.
  - destruct (split_char c t) as [|w ws]; [done|].
    intros [[Hd Hw]%Forall_cons Hws]%Forall_cons. constructor; [by left|]. apply IH. by constructor.
Qed.

Lemma startswith_spec s p : startswith s p = true <-> exists t, s = p ++ t.
Proof.
  revert s. induction p as [|c p IH]; intros s; [split; [by exists s|by destruct s]|].
  destruct s as [|d s]; simpl; [split; [done|by intros [t [=]]]|].
  rewrite andb_true_iff, Z.eqb_eq, IH. split.
  - intros [<- [t ->]]. by exists t.
  - intros [t [= -> ->]]. split; [done|by exists t].
Qed.

Lemma endswith_spec s p : endswith s p = true <-> exists t, s = t ++ p.
Proof.
  unfold endswith. rewrite startswith_spec. split; intros [t E].
  - exists (rev t). apply (f_equal (fun x => rev x)) in E. by rewrite rev_app_distr, !rev_involutive in E.
  - exists (rev t). by rewrite E, rev_app_distr.
Qed.

Lemma isascii_Forall s : isascii s = true <-> Forall (fun c => is_ascii c = true) s.
Proof. apply forallb_Forall. Qed.

Lemma to_lower_idem c : to_lower (to_lower c) = to_lower c.
Proof. unfold to_lower. destruct (ascii_upper c) eqn:E; [|by rewrite E].
  unfold ascii_upper in *. bools. destruct ((65 <=? c + 32) && (c + 32 <=? 90)) eqn:E2; bools; lia. Qed.

Lemma to_lower_ascii c : is_ascii c = true -> is_ascii (to_lower c) = true.
Proof.
  unfold to_lower, ascii_upper, is_ascii. intros Hc. bools.
  destruct ((65 <=? c) && (c <=? 90)) eqn:E; bools; apply andb_true_iff; lia.
Qed.

Lemma map_lower_idem s : map to_lower (map to_lower s) = map to_lower s.
Proof. rewrite map_map. apply map_ext. apply to_lower_idem. Qed.

Lemma isascii_lower s : isascii s = true -> isascii (map to_lower s) = true.
Proof.
  rewrite !isascii_Forall, Forall_map. intros Hs. eapply Forall_impl; [exact Hs|].
  apply to_lower_ascii.
Qed.

Lemma map_fixed {A} (f : A -> A) l : Forall (fun x => f x = x) l -> map f l = l.
Proof. induction 1; simpl; congruence. Qed.

Lemma split_once_Some c s a b :
  split_once c s = (a, Some b) <-> s = a ++ c :: b /\ Forall (fun x => x <> c) a.
Proof.
  revert a. induction s as [|d t IH]; intros a; simpl.
  - split; [by intros [=]|]. intros [E _]. by destruct a.
  - destruct (d =? c) eqn:E; bools; [subst d|].
    + split; [intros [= <- <-]; by split; [|constructor]|].
      intros [Ha Hf]. destruct a as [|x a]; simpl in Ha; injection Ha; [by intros ->|].
      intros _ <-. by apply Forall_cons in Hf as [? _].
    + destruct (split_once c t) as [x y] eqn:Es. split.
      * intros [= <- ->]. destruct (IH x) as [IH1 _]. destruct IH1 as [-> ?]; [done|].
        split; [done|]. by constructor.
      * intros [Ha Hf]. destruct a as [|z a]; simpl in Ha; injection Ha; [intros; lia|].
        intros Ht ->. apply Forall_cons in Hf as [_ Hf]. destruct (IH a) as [_ IH2].
        injection (IH2 (conj Ht Hf)). by intros -> ->.
Qed.

Lemma split_once_None c s a : split_once c s = (a, None) -> a = s /\ Forall (fun x => x <> c) s.
Proof.
  revert a. induction s as [|d t IH]; intros a; simpl; [by intros [= <-]|].
  destruct (d =? c) eqn:E; [done|]. destruct (split_once c t) as [x y]. intros [= <- ->].
  destruct (IH x eq_refl) as [-> ?]. split; [done|]. constructor; [by bools|done].
Qed.

Lemma rsplit_once_Some c s a b :
  rsplit_once c s = (Some a, b) <-> s = a ++ c :: b /\ Forall (fun x => x <> c) b.
Proof.
  unfold rsplit_once. destruct (split_once c (rev s)) as [x [y|]] eqn:E; simpl.
  - apply split_once_Some in E as [E Hf]. split.
    + intros [= <- <-]. split; [|by apply Forall_rev in Hf].
      apply (f_equal (fun x => rev x)) in E. rewrite rev_involutive, rev_app_distr in E.
      simpl in E. by rewrite <- app_assoc in E.
    + intros [-> Hb]. rewrite rev_app_distr in E. simpl in E. rewrite <- app_assoc in E. simpl in E.
      assert (split_once c (rev b ++ c :: rev a) = (x, Some y)) as E2 by by apply split_once_Some.
      assert (split_once c (rev b ++ c :: rev a) = (rev b, Some (rev a))) as E3.
      { apply split_once_Some. split; [done|]. by apply Forall_rev. }
      rewrite E3 in E2. injection E2 as <- <-. by rewrite !rev_involutive.
  - apply split_once_None in E as [_ Hf]. split; [done|]. intros [-> _].
    rewrite rev_app_distr in Hf. simpl in Hf. rewrite !Forall_app, Forall_cons in Hf. tauto.
Qed.

Lemma count_char_app c s t : count_char c (s ++ t) = (count_char c s + count_char c t)%nat.
Proof. unfold count_char. by rewrite List.filter_app, length_app. Qed.

Lemma count_char_0 c s : count_char c s = 0%nat <-> Forall (fun x => x <> c) s.
Proof.
  unfold count_char. induction s as [|d t IH]; simpl; [by split|].
  destruct (c =? d) eqn:E; bools; simpl; rewrite Forall_cons.
  - split; [lia|]. intros [? _]. lia.
  - rewrite IH. split; [intros; split; [lia|done]|tauto].
Qed.
