(* ===== verification/Encoding.v ===== *)
(** Python's byte encodings and calendar: UTF-8, base64 (standard, URL-safe, strict), base32,
    ISO dates and timezone-aware instants, with their inversion lemmas. *)
From S2P Require Import Prelude PyBase.

(** ** UTF-8 *)

Definition utf8_char (c : Z) : result bytes :=
  if c <? 0 then Raise UnicodeEncodeError
  else if c <? 128 then Ok [c]
  else if c <? 2048 then Ok [192 + c / 64; 128 + c mod 64]
  else if (55296 <=? c) && (c <? 57344) then Raise UnicodeEncodeError
  else if c <? 65536 then Ok [224 + c / 4096; 128 + (c / 64) mod 64; 128 + c mod 64]
  else if c <? 1114112 then
    Ok [240 + c / 262144; 128 + (c / 4096) mod 64; 128 + (c / 64) mod 64; 128 + c mod 64]
  else Raise UnicodeEncodeError.

(** [s.encode("utf-8")] *)
Fixpoint utf8_encode (s : pystr) : result bytes :=
  match s with
  | [] => Ok []
  | c :: t => try! b <- utf8_char c; try! r <- utf8_encode t; Ok (b ++ r)
  end.

Definition cont (x : Z) : bool := (128 <=? x) && (x <? 192).

(** [b.decode("utf-8")], strict: overlong forms, surrogates and stray bytes are errors. *)
Fixpoint utf8_decode (b : bytes) : result pystr :=
  match b with
  | [] => Ok []
  | b0 :: t =>
      if (0 <=? b0) && (b0 <? 128) then try! r <- utf8_decode t; Ok (b0 :: r)
      else match t with
      | b1 :: t1 =>
          if (194 <=? b0) && (b0 <? 224) && cont b1 then
            try! r <- utf8_decode t1; Ok ((b0 - 192) * 64 + (b1 - 128) :: r)
          else match t1 with
          | b2 :: t2 =>
              let v3 := (b0 - 224) * 4096 + (b1 - 128) * 64 + (b2 - 128) in
              if (224 <=? b0) && (b0 <? 240) && cont b1 && cont b2 then
                if (v3 <? 2048) || ((55296 <=? v3) && (v3 <? 57344)) then Raise UnicodeDecodeError
                else try! r <- utf8_decode t2; Ok (v3 :: r)
              else match t2 with
              | b3 :: t3 =>
                  let v4 := (b0 - 240) * 262144 + (b1 - 128) * 4096 + (b2 - 128) * 64 + (b3 - 128) in
                  if (240 <=? b0) && (b0 <? 245) && cont b1 && cont b2 && cont b3
                     && (65536 <=? v4) && (v4 <? 1114112) then
                    try! r <- utf8_decode t3; Ok (v4 :: r)
                  else Raise UnicodeDecodeError
              | [] => Raise UnicodeDecodeError
              end
          | [] => Raise UnicodeDecodeError
          end
      | [] => Raise UnicodeDecodeError
      end
  end.

(** [b.decode("utf-8", "surrogatepass")]: as the strict decoder, but an encoded surrogate is a character. *)
Fixpoint utf8_decode_pass (b : bytes) : result pystr :=
  match b with
  | [] => Ok []
  | b0 :: t =>
      if (0 <=? b0) && (b0 <? 128) then try! r <- utf8_decode_pass t; Ok (b0 :: r)
      else match t with
      | b1 :: t1 =>
          if (194 <=? b0) && (b0 <? 224) && cont b1 then
            try! r <- utf8_decode_pass t1; Ok ((b0 - 192) * 64 + (b1 - 128) :: r)
          else match t1 with
          | b2 :: t2 =>
              let v3 := (b0 - 224) * 4096 + (b1 - 128) * 64 + (b2 - 128) in
              if (224 <=? b0) && (b0 <? 240) && cont b1 && cont b2 then
                if v3 <? 2048 then Raise UnicodeDecodeError
                else try! r <- utf8_decode_pass t2; Ok (v3 :: r)
              else match t2 with
              | b3 :: t3 =>
                  let v4 := (b0 - 240) * 262144 + (b1 - 128) * 4096 + (b2 - 128) * 64 + (b3 - 128) in
                  if (240 <=? b0) && (b0 <? 245) && cont b1 && cont b2 && cont b3
                     && (65536 <=? v4) && (v4 <? 1114112) then
                    try! r <- utf8_decode_pass t3; Ok (v4 :: r)
                  else Raise UnicodeDecodeError
              | [] => Raise UnicodeDecodeError
              end
          | [] => Raise UnicodeDecodeError
          end
      | [] => Raise UnicodeDecodeError
      end
  end.

(** ** UTF-16 and UTF-32, with [surrogatepass] *)

(** The 16-bit units of an even number of octets. *)
Fixpoint units16 (big : bool) (b : bytes) : result (list Z) :=
  match b with
  | [] => Ok []
  | x :: y :: t => try! r <- units16 big t; Ok ((if big then x * 256 + y else y * 256 + x) :: r)
  | [_] => Raise UnicodeDecodeError
  end.
(** A high surrogate and the low one after it are one character; any other surrogate is itself one. *)
Fixpoint join_surrogates (units : list Z) : pystr :=
  match units with
  | [] => []
  | u :: t =>
      match t with
      | v :: t' =>
          if (55296 <=? u) && (u <? 56320) && (56320 <=? v) && (v <? 57344)
          then 65536 + (u - 55296) * 1024 + (v - 56320) :: join_surrogates t'
          else u :: join_surrogates t
      | [] => [u]
      end
  end.
Definition utf16_decode_pass (big : bool) (b : bytes) : result pystr :=
  try! units <- units16 big b; Ok (join_surrogates units).
Fixpoint utf32_decode_pass (big : bool) (b : bytes) : result pystr :=
  match b with
  | [] => Ok []
  | x :: y :: z :: w :: t =>
      let v := if big then ((x * 256 + y) * 256 + z) * 256 + w else ((w * 256 + z) * 256 + y) * 256 + x in
      if v <? 1114112 then try! r <- utf32_decode_pass big t; Ok (v :: r) else Raise UnicodeDecodeError
  | _ => Raise UnicodeDecodeError
  end.

(** [s.encode("ascii")] and [b.decode("ascii")] *)
Definition ascii_encode (s : pystr) : result bytes :=
  if isascii s then Ok s else Raise UnicodeEncodeError.
Definition ascii_decode (b : bytes) : result pystr :=
  if isascii b then Ok b else Raise UnicodeDecodeError.

(** ** base64 *)

Definition b64_char (d : Z) : Z :=
  if d <? 26 then 65 + d else if d <? 52 then 71 + d else if d <? 62 then d - 4
  else if d =? 62 then 45 else 95.

(** URL-safe alphabet with padding: [base64.urlsafe_b64encode] *)
Fixpoint urlsafe_b64encode (b : bytes) : pystr :=
  match b with
  | [] => []
  | [x] => [b64_char (x / 4); b64_char (x mod 4 * 16); 61; 61]
  | [x; y] => [b64_char (x / 4); b64_char (x mod 4 * 16 + y / 16); b64_char (y mod 16 * 4); 61]
  | x :: y :: z :: t =>
      b64_char (x / 4) :: b64_char (x mod 4 * 16 + y / 16) :: b64_char (y mod 16 * 4 + z / 64)
      :: b64_char (z mod 64) :: urlsafe_b64encode t
  end.

(** The decoding table: both the standard and the URL-safe spellings of 62 and 63. *)
Definition b64_value (c : Z) : option Z :=
  if ascii_upper c then Some (c - 65)
  else if ascii_lowerc c then Some (c - 71)
  else if ascii_digit c then Some (c + 4)
  else if (c =? 45) || (c =? 43) then Some 62
  else if (c =? 95) || (c =? 47) then Some 63
  else None.

(** One pass of the C decoder: [quad] is the position in the current quadruple, [left] the bits
    carried over, [pads] the padding characters seen since the last data character, [started]
    whether padding has started; [strict] is [validate=True]. *)
Fixpoint a2b_base64 (strict : bool) (quad : nat) (left : Z) (pads : nat) (started : bool) (s : pystr)
  : result bytes :=
  match s with
  | [] => if (quad =? 0)%nat then Ok [] else Raise BinasciiError
  | c :: t =>
      if c =? 61 then
        if (2 <=? quad)%nat && (4 <=? quad + S pads)%nat then
          if strict && negb (bool_decide (t = [])) then Raise BinasciiError else Ok []
        else a2b_base64 strict quad left (if (2 <=? quad)%nat then S pads else pads) true t
      else match b64_value c with
      | None => if strict then Raise BinasciiError else a2b_base64 strict quad left pads started t
      | Some d =>
          if strict && started then Raise BinasciiError
          else match quad with
          | O => a2b_base64 strict 1 d 0 started t
          | 1%nat => try! r <- a2b_base64 strict 2 (d mod 16) 0 started t; Ok (left * 4 + d / 16 :: r)
          | 2%nat => try! r <- a2b_base64 strict 3 (d mod 4) 0 started t; Ok (left * 16 + d / 4 :: r)
          | _ => try! r <- a2b_base64 strict 0 0 0 started t; Ok (left * 64 + d :: r)
          end
      end
  end.

(** [base64.urlsafe_b64decode(s)] of a string: ASCII characters outside the alphabet are skipped. *)
Definition urlsafe_b64decode (s : pystr) : result bytes :=
  if isascii s then a2b_base64 false 0 0 0 false s else Raise ValueError.
(** [base64.b64decode(s, altchars=b"-_", validate=True)] *)
Definition b64decode_strict (s : pystr) : result bytes :=
  if startswith s [61] then Raise BinasciiError else a2b_base64 true 0 0 0 false s.

(** [encoded + "=" * (-len(encoded) % m)] *)
Definition pad_to (m : Z) (s : pystr) : pystr :=
  s ++ replicate (Z.to_nat ((- Z.of_nat (length s)) mod m)) 61.

(** ** base32 *)

Definition b32_char (d : Z) : Z := if d <? 26 then 65 + d else 24 + d.
Definition b32_value (c : Z) : option Z :=
  if ascii_upper c then Some (c - 65)
  else if (50 <=? c) && (c <=? 55) then Some (c - 24) else None.

(** Five octets as eight digits, most significant first. *)
Fixpoint b32_digits (n : nat) (v : Z) : pystr :=
  match n with
  | O => []
  | S m => b32_char ((v / 32 ^ Z.of_nat m) mod 32) :: b32_digits m v
  end.

(** [base64.b32encode(b).rstrip("=")] for a byte string whose length is a multiple of five. *)
Fixpoint b32encode_quintets (b : bytes) : pystr :=
  match b with
  | x :: y :: z :: u :: v :: t => b32_digits 8 (be_combine [x; y; z; u; v]) ++ b32encode_quintets t
  | _ => []
  end.

Fixpoint b32_acc (acc : Z) (s : pystr) : option Z :=
  match s with
  | [] => Some acc
  | c :: t => match b32_value c with Some d => b32_acc (acc * 32 + d) t | None => None end
  end.

Fixpoint b32_chunks (fuel : nat) (s : pystr) : result bytes :=
  match fuel with
  | O => Ok []
  | S f =>
      match s with
      | [] => Ok []
      | _ =>
          let q := take 8 s in
          match b32_acc 0 q with
          | None => Raise BinasciiError
          | Some acc =>
              let padchars := (8 - length q)%nat in
              let whole := be_split 5 (acc * 32 ^ Z.of_nat padchars) in
              try! rest <- b32_chunks f (drop 8 s);
              Ok (take ((43 - 5 * padchars) / 8)%nat whole ++ rest)
          end
      end
  end.

(** [base64.b32decode(s, casefold=False)]; a full chunk keeps five octets ((43 - 0) / 8 = 5). *)
Definition b32decode (s : pystr) : result bytes :=
  if (Z.of_nat (length s) mod 8 =? 0) then
    let body := rstrip_by (Z.eqb 61) s in
    let padchars := (length s - length body)%nat in
    try! out <- b32_chunks (length body) body;
    if bool_decide (padchars ∈ [0; 1; 3; 4; 6]%nat) then Ok out else Raise BinasciiError
  else Raise BinasciiError.

(** ** Dates and instants *)

Record date := mkDate { year : Z; month : Z; day : Z }.

#[export] Instance date_eq_dec : EqDecision date.
Proof. solve_decision. Defined.

Definition is_leap (y : Z) : bool := (y mod 4 =? 0) && (negb (y mod 100 =? 0) || (y mod 400 =? 0)).
Definition days_in_month (y m : Z) : Z :=
  if m =? 2 then (if is_leap y then 29 else 28)
  else if (m =? 4) || (m =? 6) || (m =? 9) || (m =? 11) then 30 else 31.

(** [date(y, m, d)] *)
Definition make_date (y m d : Z) : result date :=
  if (1 <=? y) && (y <=? 9999) && (1 <=? m) && (m <=? 12) && (1 <=? d) && (d <=? days_in_month y m)
  then Ok (mkDate y m d) else Raise ValueError.

Definition date_leb (a b : date) : bool :=
  if year a =? year b then
    if month a =? month b then day a <=? day b else month a <? month b
  else year a <? year b.

(** [date.isoformat()] *)
Definition date_isoformat (d : date) : pystr :=
  zfill 4 (str_nat (year d)) ++ [45] ++ zfill 2 (str_nat (month d)) ++ [45] ++ zfill 2 (str_nat (day d)).

Definition days_before_year (y : Z) : Z :=
  (y - 1) * 365 + (y - 1) / 4 - (y - 1) / 100 + (y - 1) / 400.
Fixpoint days_before_month (y : Z) (m : nat) : Z :=
  match m with
  | O => 0
  | S p => days_before_month y p + days_in_month y (Z.of_nat m)
  end.
(** [date.toordinal()]: 1 is 0001-01-01 *)
Definition toordinal (d : date) : Z :=
  days_before_year (year d) + days_before_month (year d) (Z.to_nat (month d - 1)) + day d.

Fixpoint month_of_day (y : Z) (n : nat) (m rest : Z) : Z * Z :=
  match n with
  | O => (m, rest)
  | S k => if rest <=? days_in_month y m then (m, rest)
           else month_of_day y k (m + 1) (rest - days_in_month y m)
  end.
(** [date.fromordinal(n)] *)
Definition fromordinal (n : Z) : date :=
  let n0 := n - 1 in
  let n400 := n0 / 146097 in let r := n0 mod 146097 in
  let n100 := Z.min 3 (r / 36524) in let r := r - n100 * 36524 in
  let n4 := r / 1461 in let r := r mod 1461 in
  let n1 := Z.min 3 (r / 365) in let r := r - n1 * 365 in
  let y := n400 * 400 + n100 * 100 + n4 * 4 + n1 + 1 in
  let '(m, d) := month_of_day y 12 1 (r + 1) in mkDate y m d.

(** The Gregorian date of an ISO year, week and weekday. *)
Definition iso_to_date (y w d : Z) : result date :=
  let first := days_before_year y + 1 in
  let wd := (first + 6) mod 7 in
  let start := first - wd + (if 3 <? wd then 7 else 0) in
  let long := (wd =? 3) || ((wd =? 2) && is_leap y) in
  if (1 <=? y) && (1 <=? w) && ((w <=? 52) || ((w =? 53) && long)) && (1 <=? d) && (d <=? 7) then
    let n := start + (w - 1) * 7 + (d - 1) in
    if (1 <=? n) && (n <=? 3652059) then Ok (fromordinal n) else Raise ValueError
  else Raise ValueError.

Fixpoint digits_value (acc : Z) (s : pystr) : option Z :=
  match s with
  | [] => Some acc
  | c :: t => if ascii_digit c then digits_value (acc * 10 + (c - 48)) t else None
  end.
(** [n] ASCII digits at the head of [s], and the rest. *)
Definition parse_digits (n : nat) (s : pystr) : option (Z * pystr) :=
  if (length s <? n)%nat then None
  else match digits_value 0 (take n s) with Some v => Some (v, drop n s) | None => None end.

Definition fromiso_fields (s : pystr) : option (result date) :=
  match parse_digits 4 s with
  | None => None
  | Some (y, r) =>
      let sep := match r with 45 :: _ => true | _ => false end in
      let r := if sep then drop 1 r else r in
      let dash q := if sep then match q with 45 :: t => Some t | _ => None end else Some q in
      match r with
      | 87 :: r =>
          match parse_digits 2 r with
          | None => None
          | Some (w, []) => Some (iso_to_date y w 1)
          | Some (w, r) =>
              match dash r with
              | None => None
              | Some r => match parse_digits 1 r with
                          | Some (d, _) => Some (iso_to_date y w d) | None => None end
              end
          end
      | _ =>
          match parse_digits 2 r with
          | None => None
          | Some (m, r) =>
              match dash r with
              | None => None
              | Some r => match parse_digits 2 r with
                          | Some (d, _) => Some (make_date y m d) | None => None end
              end
          end
      end
  end.

(** [date.fromisoformat(s)] *)
Definition fromisoformat (s : pystr) : result date :=
  if bool_decide (length s ∈ [7; 8; 10]%nat) then
    match fromiso_fields s with Some r => r | None => Raise ValueError end
  else Raise ValueError.

(** A [datetime]: local wall-clock microseconds and the UTC offset of its timezone, if it has one. *)
Record pydatetime := mkDatetime { wall : Z; utcoffset : option Z }.

Definition second : Z := 1000000.
Definition timedelta_seconds (s : Z) : Z := s * second.
Definition timedelta_days (d : Z) : Z := d * 86400 * second.

(** The UTC calendar date of an instant; 719163 is the ordinal of 1970-01-01. *)
Definition date_of_instant (t : instant) : date := fromordinal (t / (86400 * second) + 719163).

(** [dt.isoformat()] of a UTC instant *)
Definition instant_isoformat (t : instant) : pystr :=
  let us := t mod (86400 * second) in
  let s := us / second in
  let frac := us mod second in
  date_isoformat (date_of_instant t) ++ [84] ++ zfill 2 (str_nat (s / 3600)) ++ [58] ++
  zfill 2 (str_nat (s / 60 mod 60)) ++ [58] ++ zfill 2 (str_nat (s mod 60)) ++
  (if frac =? 0 then [] else 46 :: zfill 6 (str_nat frac)) ++ py "+00:00".

(** The shared body of the modules' [_utc_now]: a supplied value must be timezone-aware and is
    converted to UTC; without one the clock is read. *)
Definition utc_now (clock : instant) (value : option pydatetime) : result instant :=
  match value with
  | None => Ok clock
  | Some d => match utcoffset d with Some off => Ok (wall d - off) | None => Raise ValueError end
  end.

(** ** Lemmas *)

Lemma utf8_decode_char c b r :
  utf8_char c = Ok b -> utf8_decode (b ++ r) = (try! t <- utf8_decode r; Ok (c :: t)).
Proof.
  unfold utf8_char. intros H.
  destruct (c <? 0) eqn:E0; [done|]. destruct (c <? 128) eqn:E1.
  { injection H as <-. simpl. by replace ((0 <=? c) && (c <? 128)) with true by lia. }
  assert (Hcont : forall x, cont (128 + x mod 64) = true).
  { intros x. unfold cont. pose proof (Z.mod_pos_bound x 64). lia. }
  pose proof (Z.mod_pos_bound c 64). pose proof (Z.div_mod c 64).
  destruct (c <? 2048) eqn:E2.
  { injection H as <-. simpl.
    replace ((0 <=? 192 + c / 64) && (192 + c / 64 <? 128)) with false by lia.
    rewrite Hcont.
    replace ((194 <=? 192 + c / 64) && (192 + c / 64 <? 224) && true) with true by lia.
    by replace ((192 + c / 64 - 192) * 64 + (128 + c mod 64 - 128)) with c by lia. }
  pose proof (Z.mod_pos_bound (c / 64) 64). pose proof (Z.div_mod (c / 64) 64).
  assert (Hd : c / 64 / 64 = c / 4096) by (rewrite Z.div_div by lia; done).
  destruct ((55296 <=? c) && (c <? 57344)) eqn:Es; [done|]. destruct (c <? 65536) eqn:E3.
  { injection H as <-. cbn [app utf8_decode]. rewrite !Hcont.
    replace ((0 <=? 224 + c / 4096) && (224 + c / 4096 <? 128)) with false by lia.
    replace ((194 <=? 224 + c / 4096) && (224 + c / 4096 <? 224) && true) with false by lia.
    replace ((224 <=? 224 + c / 4096) && (224 + c / 4096 <? 240) && true && true) with true by lia.
    replace ((224 + c / 4096 - 224) * 4096 + (128 + c / 64 mod 64 - 128) * 64 + (128 + c mod 64 - 128))
      with c by lia.
    rewrite Es. by replace (c <? 2048) with false by lia. }
  destruct (c <? 1114112) eqn:E4; [|done]. injection H as <-.
  pose proof (Z.mod_pos_bound (c / 4096) 64). pose proof (Z.div_mod (c / 4096) 64).
  assert (Hd' : c / 4096 / 64 = c / 262144) by (rewrite Z.div_div by lia; done).
  cbn [app utf8_decode]. rewrite !Hcont.
  replace ((0 <=? 240 + c / 262144) && (240 + c / 262144 <? 128)) with false by lia.
  replace ((194 <=? 240 + c / 262144) && (240 + c / 262144 <? 224) && true) with false by lia.
  replace ((224 <=? 240 + c / 262144) && (240 + c / 262144 <? 240) && true && true) with false by lia.
  replace ((240 + c / 262144 - 240) * 262144 + (128 + c / 4096 mod 64 - 128) * 4096
    + (128 + c / 64 mod 64 - 128) * 64 + (128 + c mod 64 - 128)) with c by lia.
  replace ((240 <=? 240 + c / 262144) && (240 + c / 262144 <? 245) && true && true && true
    && (65536 <=? c) && (c <? 1114112)) with true by lia.
  done.
Qed.

(** Decoding what was encoded gives the text back. *)
Lemma utf8_roundtrip s b : utf8_encode s = Ok b -> utf8_decode b = Ok s.
Proof.
  revert b. induction s as [|c s IH]; intros b; [by intros [= <-]|]. cbn [utf8_encode].
  intros (x&Hx&(r&Hr&[= <-])%rbind_Ok)%rbind_Ok.
  by rewrite (utf8_decode_char c x r Hx), (IH r Hr).
Qed.

(** A run of ASCII text decodes to itself. *)
Lemma utf8_pass_ascii s : isascii s = true -> utf8_decode_pass s = Ok s.
Proof.
  unfold isascii, is_ascii. induction s as [|c s IH]; [done|]. cbn [forallb utf8_decode_pass]. intros [Hc Hs]%andb_true_iff.
  rewrite Hc, (IH Hs). done.
Qed.

(** A lenient decoder can only fail with [UnicodeDecodeError]. *)
Definition decode_fails (r : result pystr) : Prop := forall e, r = Raise e -> e = UnicodeDecodeError.
Lemma decode_fails_cons r c : decode_fails r -> decode_fails (try! t <- r; Ok (c :: t)).
Proof. intros Hr e. destruct r as [t|e']; cbn; [done|]. intros [= <-]. by apply Hr. Qed.
Lemma decode_fails_here : decode_fails (Raise UnicodeDecodeError).
Proof. by intros e [= <-]. Qed.

Lemma utf8_pass_fails b : decode_fails (utf8_decode_pass b).
Proof.
  assert (H : forall n b, (length b <= n)%nat -> decode_fails (utf8_decode_pass b)); [|by apply (H (length b))].
  induction n as [|n IH]; intros b' Hl; destruct b' as [|b0 t]; cbn [length] in Hl; try done; [lia|].
  cbn [utf8_decode_pass]. destruct (_ && _); [apply decode_fails_cons, IH; lia|].
  destruct t as [|b1 t1]; [apply decode_fails_here|]. cbn [length] in Hl.
  destruct (_ && _ && _); [apply decode_fails_cons, IH; lia|].
  destruct t1 as [|b2 t2]; [apply decode_fails_here|]. cbn [length] in Hl. cbv zeta. destruct (_ && _ && _ && _).
  { destruct (_ <? 2048); [apply decode_fails_here|apply decode_fails_cons, IH; lia]. }
  destruct t2 as [|b3 t3]; [apply decode_fails_here|]. cbn [length] in Hl.
  destruct (_ && _); [apply decode_fails_cons, IH; lia|apply decode_fails_here].
Qed.
Lemma utf16_pass_fails big b : decode_fails (utf16_decode_pass big b).
Proof.
  assert (H : forall n b, (length b <= n)%nat -> forall e, units16 big b = Raise e -> e = UnicodeDecodeError).
  { induction n as [|n IH]; intros [|x [|y t]] Hl e; cbn in Hl; try lia; cbn [units16]; try done; try by intros [= <-].
    destruct (units16 big t) eqn:E; cbn [rbind]; [done|]. intros [= <-]. apply (IH t); [lia|done]. }
  intros e. unfold utf16_decode_pass. destruct (units16 big b) eqn:E; cbn [rbind]; [done|]. intros [= <-].
  by apply (H (length b) b).
Qed.
Lemma utf32_pass_fails big b : decode_fails (utf32_decode_pass big b).
Proof.
  assert (H : forall n b, (length b <= n)%nat -> decode_fails (utf32_decode_pass big b)); [|by apply (H (length b))].
  induction n as [|n IH]; intros [|x [|y [|z [|w t]]]] Hl; cbn in Hl; try lia; try done; try apply decode_fails_here.
  cbn [utf32_decode_pass]. cbv zeta. destruct (_ <? 1114112); [|apply decode_fails_here].
  apply decode_fails_cons, IH. lia.
Qed.

Lemma utf8_encode_inj s t b : utf8_encode s = Ok b -> utf8_encode t = Ok b -> s = t.
Proof. intros Hs%utf8_roundtrip Ht%utf8_roundtrip. congruence. Qed.

Lemma utf8_encode_ascii s : isascii s = true -> utf8_encode s = Ok s.
Proof.
  induction s as [|c s IH]; [done|]. unfold isascii, is_ascii in *. cbn [forallb].
  intros [Hc Hs]%andb_true_iff. cbn [utf8_encode]. rewrite IH by done. unfold utf8_char.
  replace (c <? 0) with false by lia. by replace (c <? 128) with true by lia.
Qed.

(** The strict decoder accepts a subset of what the lenient one accepts, with the same octets. *)
Lemma a2b_strict_lenient s quad left pads started r :
  a2b_base64 true quad left pads started s = Ok r -> a2b_base64 false quad left pads started s = Ok r.
Proof.
  revert quad left pads started r. induction s as [|c s IH]; intros quad left pads started r; [done|].
  cbn [a2b_base64]. destruct (c =? 61).
  - destruct (_ && _)%bool; [|by apply IH]. by destruct (bool_decide _).
  - destruct (b64_value c) as [d|]; [|done]. simpl. destruct started; [done|].
    destruct quad as [|[|[|q]]]; try by apply IH.
    all: intros (x&Hx&[= <-])%rbind_Ok; by rewrite (IH _ _ _ _ _ Hx).
Qed.

Lemma digits_value_app a s t :
  digits_value a (s ++ t) = match digits_value a s with Some v => digits_value v t | None => None end.
Proof. revert a. induction s as [|c s IH]; intros a; [done|]. cbn. by destruct (ascii_digit c). Qed.

(** The decimal digits of a number: no leading zero, and their value is the number. *)
Lemma digits_of_value fuel n acc :
  0 <= n < 10 ^ Z.of_nat fuel -> (0 < fuel)%nat ->
  exists c ds, digits_of fuel n acc = (c :: ds) ++ acc /\ forallb ascii_digit (c :: ds) = true /\
    (c = 48 -> ds = []) /\ digits_value 0 (c :: ds) = Some n.
Proof.
  revert n acc. induction fuel as [|f IH]; intros n acc Hn Hf; [lia|]. cbn [digits_of].
  pose proof (Z.mod_pos_bound n 10) as Hb. pose proof (Z.div_mod n 10) as Hdm.
  assert (Hd : forall m, 0 <= m < 10 -> ascii_digit (48 + m) = true) by (intros; unfold ascii_digit; lia).
  destruct (n <? 10) eqn:E.
  - rewrite (Z.mod_small n 10) by lia. exists (48 + n), []. cbn [forallb digits_value app]. rewrite Hd by lia.
    split; [done|]. split; [done|]. split; [done|]. f_equal. lia.
  - destruct f as [|f]; [cbn in Hn; lia|].
    destruct (IH (n / 10) ((48 + n mod 10) :: acc)) as (c&ds&->&Hds&H0&Hv); [|lia|].
    { rewrite Nat2Z.inj_succ, Z.pow_succ_r in Hn by lia.
      split; [apply Z.div_pos; lia|apply Z.div_lt_upper_bound; lia]. }
    exists c, (ds ++ [48 + n mod 10]). rewrite app_comm_cons, <- app_assoc, forallb_app, Hds. cbn [forallb].
    rewrite Hd by lia. split; [done|]. split; [done|]. split.
    + intros ->. rewrite (H0 eq_refl) in Hv. cbn in Hv. injection Hv as Hv. lia.
    + rewrite digits_value_app, Hv. cbn [digits_value]. rewrite Hd by lia. f_equal. lia.
Qed.

Lemma str_nat_value n : 0 <= n ->
  exists c ds, str_nat n = c :: ds /\ forallb ascii_digit (c :: ds) = true /\ (c = 48 -> ds = []) /\
    digits_value 0 (c :: ds) = Some n.
Proof.
  intros Hn. destruct (digits_of_value (S (Z.to_nat (Z.log2 n))) n []) as (c&ds&E&H); [|lia|].
  - split; [done|]. destruct (decide (n = 0)) as [->|]; [done|].
    rewrite Nat2Z.inj_succ, Z2Nat.id by apply Z.log2_nonneg.
    pose proof (Z.log2_spec n ltac:(lia)) as [_ Hl]. eapply Z.lt_le_trans; [exact Hl|].
    apply Z.pow_le_mono_l. lia.
  - exists c, ds. rewrite app_nil_r in E. done.
Qed.
