(* ===== verification/Hashes.v ===== *)
(** The standard library's digests, executable: SHA-256, SHA-1 and HMAC over any digest with a
    64-octet block, with the length facts the table constraints need. *)
From S2P Require Import Prelude PyBase.

Definition w32 (x : Z) : Z := Z.land x 4294967295.
Definition add32 (x y : Z) : Z := w32 (x + y).
Definition rotr32 (n x : Z) : Z := Z.lor (Z.shiftr x n) (w32 (Z.shiftl x (32 - n))).
Definition rotl32 (n x : Z) : Z := rotr32 (32 - n) x.
Definition not32 (x : Z) : Z := Z.lxor x 4294967295.

(** Merkle-Damgard padding: a one bit, zeros, and the 64-bit message length in bits. *)
Definition md_pad (m : bytes) : bytes :=
  let n := Z.of_nat (length m) in
  m ++ [128] ++ replicate (Z.to_nat ((55 - n) mod 64)) 0 ++ be_split 8 (8 * n).

Fixpoint words32 (b : bytes) : list Z :=
  match b with
  | a :: b :: c :: d :: t => be_combine [a; b; c; d] :: words32 t
  | _ => []
  end.

Fixpoint blocks (fuel : nat) (w : list Z) : list (list Z) :=
  match fuel with
  | O => []
  | S f => match w with [] => [] | _ => take 16 w :: blocks f (drop 16 w) end
  end.

Definition md_blocks (m : bytes) : list (list Z) :=
  let w := words32 (md_pad m) in blocks (length w) w.

Record st8 := mkSt8 { ra : Z; rb : Z; rc : Z; rd : Z; re : Z; rf : Z; rg : Z; rh : Z }.
Record st5 := mkSt5 { sa : Z; sb : Z; sc : Z; sd : Z; se : Z }.

Definition K256 : list Z :=
  [1116352408; 1899447441; 3049323471; 3921009573; 961987163; 1508970993; 2453635748; 2870763221;
   3624381080; 310598401; 607225278; 1426881987; 1925078388; 2162078206; 2614888103; 3248222580;
   3835390401; 4022224774; 264347078; 604807628; 770255983; 1249150122; 1555081692; 1996064986;
   2554220882; 2821834349; 2952996808; 3210313671; 3336571891; 3584528711; 113926993; 338241895;
   666307205; 773529912; 1294757372; 1396182291; 1695183700; 1986661051; 2177026350; 2456956037;
   2730485921; 2820302411; 3259730800; 3345764771; 3516065817; 3600352804; 4094571909; 275423344;
   430227734; 506948616; 659060556; 883997877; 958139571; 1322822218; 1537002063; 1747873779;
   1955562222; 2024104815; 2227730452; 2361852424; 2428436474; 2756734187; 3204031479; 3329325298].

Definition H256 : st8 :=
  mkSt8 1779033703 3144134277 1013904242 2773480762 1359893119 2600822924 528734635 1541459225.

(** One round: [win] holds the next sixteen schedule words. *)
Definition round256 (s : st8 * list Z) (k : Z) : st8 * list Z :=
  let '(st, win) := s in
  let w := nth 0 win 0 in
  let w1 := nth 1 win 0 in let w9 := nth 9 win 0 in let w14 := nth 14 win 0 in
  let s0 := Z.lxor (Z.lxor (rotr32 7 w1) (rotr32 18 w1)) (Z.shiftr w1 3) in
  let s1 := Z.lxor (Z.lxor (rotr32 17 w14) (rotr32 19 w14)) (Z.shiftr w14 10) in
  let w16 := w32 (w + s0 + w9 + s1) in
  let e1 := Z.lxor (Z.lxor (rotr32 6 (re st)) (rotr32 11 (re st))) (rotr32 25 (re st)) in
  let ch := Z.lxor (Z.land (re st) (rf st)) (Z.land (not32 (re st)) (rg st)) in
  let t1 := w32 (rh st + e1 + ch + k + w) in
  let e0 := Z.lxor (Z.lxor (rotr32 2 (ra st)) (rotr32 13 (ra st))) (rotr32 22 (ra st)) in
  let maj := Z.lxor (Z.lxor (Z.land (ra st) (rb st)) (Z.land (ra st) (rc st)))
                    (Z.land (rb st) (rc st)) in
  let t2 := w32 (e0 + maj) in
  (mkSt8 (add32 t1 t2) (ra st) (rb st) (rc st) (add32 (rd st) t1) (re st) (rf st) (rg st),
   tail win ++ [w16]).

Definition compress256 (h : st8) (block : list Z) : st8 :=
  let '(s, _) := foldl round256 (h, block) K256 in
  mkSt8 (add32 (ra h) (ra s)) (add32 (rb h) (rb s)) (add32 (rc h) (rc s)) (add32 (rd h) (rd s))
        (add32 (re h) (re s)) (add32 (rf h) (rf s)) (add32 (rg h) (rg s)) (add32 (rh h) (rh s)).

(** [hashlib.sha256(m).digest()] *)
Definition sha256 (m : bytes) : bytes :=
  let s := foldl compress256 H256 (md_blocks m) in
  flat_map (be_split 4) [ra s; rb s; rc s; rd s; re s; rf s; rg s; rh s].
(** [hashlib.sha256(m).hexdigest()] *)
Definition sha256_hex (m : bytes) : pystr := hex (sha256 m).

Definition H160 : st5 := mkSt5 1732584193 4023233417 2562383102 271733878 3285377520.

Definition round160 (s : st5 * list Z) (t : nat) : st5 * list Z :=
  let '(st, win) := s in
  let w := nth 0 win 0 in
  let w16 := rotl32 1 (Z.lxor (Z.lxor (nth 13 win 0) (nth 8 win 0)) (Z.lxor (nth 2 win 0) w)) in
  let '(f, k) :=
    if (t <? 20)%nat then (Z.lor (Z.land (sb st) (sc st)) (Z.land (not32 (sb st)) (sd st)), 1518500249)
    else if (t <? 40)%nat then (Z.lxor (Z.lxor (sb st) (sc st)) (sd st), 1859775393)
    else if (t <? 60)%nat then
      (Z.lor (Z.lor (Z.land (sb st) (sc st)) (Z.land (sb st) (sd st))) (Z.land (sc st) (sd st)),
       2400959708)
    else (Z.lxor (Z.lxor (sb st) (sc st)) (sd st), 3395469782) in
  let tmp := w32 (rotl32 5 (sa st) + f + se st + k + w) in
  (mkSt5 tmp (sa st) (rotl32 30 (sb st)) (sc st) (sd st), tail win ++ [w16]).

Definition compress160 (h : st5) (block : list Z) : st5 :=
  let '(s, _) := foldl round160 (h, block) (seq 0 80) in
  mkSt5 (add32 (sa h) (sa s)) (add32 (sb h) (sb s)) (add32 (sc h) (sc s)) (add32 (sd h) (sd s))
        (add32 (se h) (se s)).

(** [hashlib.sha1(m).digest()] *)
Definition sha1 (m : bytes) : bytes :=
  let s := foldl compress160 H160 (md_blocks m) in
  flat_map (be_split 4) [sa s; sb s; sc s; sd s; se s].

(** [hmac.new(key, msg, hash).digest()] *)
Definition hmac (hash : bytes -> bytes) (key msg : bytes) : bytes :=
  let k0 := if (64 <? length key)%nat then hash key else key in
  let k := k0 ++ replicate (64 - length k0) 0 in
  hash (map (Z.lxor 92) k ++ hash (map (Z.lxor 54) k ++ msg)).
Definition hmac_sha256 : bytes -> bytes -> bytes := hmac sha256.
Definition hmac_sha1 : bytes -> bytes -> bytes := hmac sha1.

(** [hmac.compare_digest] *)
Definition compare_digest (a b : list Z) : bool := bool_decide (a = b).

(** ** Lengths *)

Lemma length_be_split n z : length (be_split n z) = n.
Proof. revert z. induction n; intros; simpl; auto. Qed.

Lemma be_split_range n z : Forall (fun x => 0 <= x < 256) (be_split n z).
Proof.
  induction n; simpl; constructor; [|done]. apply Z.mod_pos_bound. lia.
Qed.

Lemma length_sha256 m : length (sha256 m) = 32%nat.
Proof. unfold sha256. simpl. done. Qed.

Lemma length_sha1 m : length (sha1 m) = 20%nat.
Proof. unfold sha1. simpl. done. Qed.

Lemma length_hmac_sha256 k m : length (hmac_sha256 k m) = 32%nat.
Proof. apply length_sha256. Qed.

Lemma length_hex b : length (hex b) = (2 * length b)%nat.
Proof. induction b; simpl in *; [done|]. lia. Qed.

Lemma length_sha256_hex m : length (sha256_hex m) = 64%nat.
Proof. unfold sha256_hex. by rewrite length_hex, length_sha256. Qed.

Lemma sha256_range m : Forall (fun x => 0 <= x < 256) (sha256 m).
Proof.
  unfold sha256. cbv [flat_map]. rewrite !Forall_app. repeat split; try apply be_split_range. done.
Qed.

#[export] Hint Rewrite length_be_split length_sha256 length_sha1 length_hmac_sha256
  length_sha256_hex : py.

(** Published test vectors: FIPS 180-4 and RFC 2202, RFC 4231. *)
Example sha256_abc :
  sha256_hex (py "abc") = py "ba7816bf8f01cfea414140de5dae2223b00361a396177a9cb410ff61f20015ad".
Proof. vm_compute. reflexivity. Qed.
Example sha256_two_blocks :
  sha256_hex (py "abcdbcdecdefdefgefghfghighijhijkijkljklmklmnlmnomnopnopq")
  = py "248d6a61d20638b8e5c026930c3e6039a33ce45964ff2167f6ecedd419db06c1".
Proof. vm_compute. reflexivity. Qed.
Example sha1_abc : hex (sha1 (py "abc")) = py "a9993e364706816aba3e25717850c26c9cd0d89d".
Proof. vm_compute. reflexivity. Qed.
Example hmac_sha256_jefe :
  hex (hmac_sha256 (py "Jefe") (py "what do ya want for nothing?"))
  = py "5bdcc146bf60754e6a042426089575c75a003f089d2739839dec58b964ec3843".
Proof. vm_compute. reflexivity. Qed.
Example hmac_sha1_jefe :
  hex (hmac_sha1 (py "Jefe") (py "what do ya want for nothing?"))
  = py "effcdf6ae5eb2fa2d27416d5f184df9c259a7c79".
Proof. vm_compute. reflexivity. Qed.

(** ** Injectivity of fixed-width encodings *)

Lemma be_split_mod n a b : be_split n a = be_split n b -> a mod 256 ^ Z.of_nat n = b mod 256 ^ Z.of_nat n.
Proof.
  induction n as [|n IH]; intros H; [by rewrite !Z.mod_1_r|].
  cbn [be_split] in H. injection H as H1 H2. apply IH in H2.
  replace (256 ^ Z.of_nat (S n)) with (256 ^ Z.of_nat n * 256)
    by (rewrite Nat2Z.inj_succ, Z.pow_succ_r; lia).
  assert (0 < 256 ^ Z.of_nat n) by (apply Z.pow_pos_nonneg; lia).
  rewrite !Z.rem_mul_r by lia. by rewrite H1, H2.
Qed.

Lemma be_split_inj n a b :
  0 <= a < 256 ^ Z.of_nat n -> 0 <= b < 256 ^ Z.of_nat n -> be_split n a = be_split n b -> a = b.
Proof. intros Ha Hb H%be_split_mod. by rewrite !Z.mod_small in H. Qed.

Lemma uuid_bytes_inj u v : 0 <= u < 2 ^ 128 -> 0 <= v < 2 ^ 128 -> uuid_bytes u = uuid_bytes v -> u = v.
Proof. intros Hu Hv. by apply be_split_inj. Qed.
