(* ===== verification/Json.v ===== *)
(** The standard library's [json]: values, [dumps] with compact separators and ASCII escapes, and
    [loads], with the theorem that loading a dumped value gives it back ([json_loads_dumps]).
    Numbers with a fraction or an exponent stay as their source text. *)
From S2P Require Import Prelude PyBase Encoding.

Inductive json : Type :=
| JNull
| JBool (b : bool)
| JInt (n : Z)
| JFloat (text : pystr)
| JStr (s : pystr)
| JList (l : list json)
| JDict (d : list (pystr * json)).

(** Induction with the hypotheses for the nested lists. *)
Definition json_ind' (P : json -> Prop)
  (Hnull : P JNull) (Hbool : forall b, P (JBool b)) (Hint : forall n, P (JInt n))
  (Hfloat : forall t, P (JFloat t)) (Hstr : forall s, P (JStr s))
  (Hlist : forall l, Forall P l -> P (JList l))
  (Hdict : forall d, Forall (fun kv => P (snd kv)) d -> P (JDict d)) : forall j, P j :=
  fix go j := match j with
  | JNull => Hnull | JBool b => Hbool b | JInt n => Hint n | JFloat t => Hfloat t | JStr s => Hstr s
  | JList l => Hlist l ((fix gl l := match l return Forall P l with
      | [] => Forall_nil_2 _ | x :: t => Forall_cons_2 _ _ _ (go x) (gl t) end) l)
  | JDict d => Hdict d ((fix gd d := match d return Forall (fun kv => P (snd kv)) d with
      | [] => Forall_nil_2 _ | x :: t => Forall_cons_2 _ _ _ (go (snd x)) (gd t) end) d)
  end.

(** [d.get(k)] of a dict *)
Fixpoint dict_get (k : pystr) (d : list (pystr * json)) : option json :=
  match d with
  | [] => None
  | (k', v) :: t => if bool_decide (k = k') then Some v else dict_get k t
  end.
(** [d[k] = v]: a new key goes last, an existing key keeps its place. *)
Fixpoint dict_set (k : pystr) (v : json) (d : list (pystr * json)) : list (pystr * json) :=
  match d with
  | [] => [(k, v)]
  | (k', v') :: t => if bool_decide (k = k') then (k', v) :: t else (k', v') :: dict_set k v t
  end.
(** [d.get(k)] of any value: [None] for an absent key. *)
Definition jget (k : string) (d : list (pystr * json)) : json := default JNull (dict_get (py k) d).

(** ** [json.dumps(value, separators=(",", ":"))] *)

Definition hex4 (c : Z) : pystr :=
  [hex_digit (c / 4096 mod 16); hex_digit (c / 256 mod 16); hex_digit (c / 16 mod 16);
   hex_digit (c mod 16)].

Definition escape_char (c : Z) : pystr :=
  if c =? 34 then [92; 34]
  else if c =? 92 then [92; 92]
  else if c =? 10 then [92; 110]
  else if c =? 13 then [92; 114]
  else if c =? 9 then [92; 116]
  else if c =? 12 then [92; 102]
  else if c =? 8 then [92; 98]
  else if (32 <=? c) && (c <=? 126) then [c]
  else if c <? 65536 then 92 :: 117 :: hex4 c
  else let v := c - 65536 in
       (92 :: 117 :: hex4 (55296 + v / 1024)) ++ (92 :: 117 :: hex4 (56320 + v mod 1024)).

Definition dump_str (s : pystr) : pystr := 34 :: flat_map escape_char s ++ [34].

Fixpoint dumps (j : json) : pystr :=
  match j with
  | JNull => py "null"
  | JBool true => py "true"
  | JBool false => py "false"
  | JInt n => str_int n
  | JFloat t => t
  | JStr s => dump_str s
  | JList l => 91 :: join [44] (map dumps l) ++ [93]
  | JDict d => 123 :: join [44] (map (fun kv => dump_str (fst kv) ++ 58 :: dumps (snd kv)) d) ++ [125]
  end.

(** ** [json.loads] *)

Definition json_ws (c : Z) : bool := (c =? 32) || (c =? 9) || (c =? 10) || (c =? 13).
Fixpoint skip_ws (s : pystr) : pystr :=
  match s with c :: t => if json_ws c then skip_ws t else s | [] => [] end.

Definition hex_value (c : Z) : option Z :=
  if ascii_digit c then Some (c - 48)
  else if (97 <=? c) && (c <=? 102) then Some (c - 87)
  else if (65 <=? c) && (c <=? 70) then Some (c - 55) else None.
Definition hex4_value (a b c d : Z) : option Z :=
  match hex_value a, hex_value b, hex_value c, hex_value d with
  | Some a, Some b, Some c, Some d => Some (a * 4096 + b * 256 + c * 16 + d)
  | _, _, _, _ => None
  end.
Definition short_escape (c : Z) : option Z :=
  if (c =? 34) || (c =? 92) || (c =? 47) then Some c
  else if c =? 98 then Some 8 else if c =? 102 then Some 12
  else if c =? 110 then Some 10 else if c =? 114 then Some 13 else if c =? 116 then Some 9 else None.

Definition push (c : Z) (r : option (pystr * pystr)) : option (pystr * pystr) :=
  match r with Some (s, rest) => Some (c :: s, rest) | None => None end.

(** The body of a string literal after its opening quote; a surrogate pair is one character. *)
Fixpoint scan_string (s : pystr) : option (pystr * pystr) :=
  match s with
  | [] => None
  | c :: t =>
      if c =? 34 then Some ([], t)
      else if c =? 92 then
        match t with
        | [] => None
        | e :: t =>
            if e =? 117 then
              match t with
              | h1 :: h2 :: h3 :: h4 :: t =>
                  match hex4_value h1 h2 h3 h4 with
                  | None => None
                  | Some v =>
                      match t with
                      | 92 :: 117 :: l1 :: l2 :: l3 :: l4 :: t' =>
                          match hex4_value l1 l2 l3 l4 with
                          | Some w =>
                              if (55296 <=? v) && (v <? 56320) && (56320 <=? w) && (w <? 57344)
                              then push (65536 + (v - 55296) * 1024 + (w - 56320)) (scan_string t')
                              else push v (scan_string t)
                          | None => None
                          end
                      | _ => push v (scan_string t)
                      end
                  end
              | _ => None
              end
            else match short_escape e with
                 | Some v => push v (scan_string t)
                 | None => None
                 end
        end
      else if c <? 32 then None
      else push c (scan_string t)
  end.

Fixpoint span_digits (s : pystr) : pystr * pystr :=
  match s with
  | c :: t => if ascii_digit c then let '(d, r) := span_digits t in (c :: d, r) else ([], s)
  | [] => ([], [])
  end.

(** A fraction or exponent after the integer part, kept as text. *)
Definition scan_frac (s : pystr) : pystr * pystr :=
  match s with
  | 46 :: t => match span_digits t with ([], _) => ([], s) | (d, r) => (46 :: d, r) end
  | _ => ([], s)
  end.
Definition scan_exp (s : pystr) : pystr * pystr :=
  match s with
  | c :: t =>
      if (c =? 101) || (c =? 69) then
        let '(sg, t') := match t with 43 :: u => ([43], u) | 45 :: u => ([45], u) | _ => ([], t) end in
        match span_digits t' with ([], _) => ([], s) | (d, r) => (c :: sg ++ d, r) end
      else ([], s)
  | [] => ([], [])
  end.

Definition scan_sign (s : pystr) : bool * pystr :=
  match s with 45 :: t => (true, t) | _ => (false, s) end.
(** The digits of an integer part: a leading zero stands alone. *)
Definition scan_digits (s : pystr) : pystr * pystr :=
  match s with 48 :: t => ([48], t) | _ => span_digits s end.

Definition scan_number (s : pystr) : result (json * pystr) :=
  let '(neg, t) := scan_sign s in
  let '(ds, r) := scan_digits t in
  match digits_value 0 ds with
  | Some v =>
      if bool_decide (ds = []) then Raise JSONDecodeError else
      let '(f, r1) := scan_frac r in
      let '(e, r2) := scan_exp r1 in
      if bool_decide (f ++ e = []) then
        if (MAX_STR_DIGITS <? length ds)%nat then Raise ValueError
        else Ok (JInt (if neg then - v else v), r)
      else Ok (JFloat ((if neg then [45] else []) ++ ds ++ f ++ e), r2)
  | None => Raise JSONDecodeError
  end.

Definition literal (s : pystr) (word : string) (j : json) : option (json * pystr) :=
  if startswith s (py word) then Some (j, drop (length (py word)) s) else None.

Definition scan_atom (s : pystr) : result (json * pystr) :=
  match literal s "null" JNull with Some r => Ok r | None =>
  match literal s "true" (JBool true) with Some r => Ok r | None =>
  match literal s "false" (JBool false) with Some r => Ok r | None =>
  match literal s "NaN" (JFloat (py "nan")) with Some r => Ok r | None =>
  match literal s "Infinity" (JFloat (py "inf")) with Some r => Ok r | None =>
  match literal s "-Infinity" (JFloat (py "-inf")) with Some r => Ok r | None =>
  scan_number s end end end end end end.

(** [depth] is how many more containers may be entered. *)
Fixpoint scan_value (n depth : nat) (s : pystr) {struct n} : result (json * pystr) :=
  match n with
  | O => Raise JSONDecodeError
  | S n =>
      match s with
      | 34 :: t => match scan_string t with Some (v, r) => Ok (JStr v, r) | None => Raise JSONDecodeError end
      | 91 :: t =>
          match depth with
          | O => Raise RecursionError
          | S depth =>
              match skip_ws t with
              | 93 :: r => Ok (JList [], r)
              | t => try! (l, r) <- scan_items n depth t; Ok (JList l, r)
              end
          end
      | 123 :: t =>
          match depth with
          | O => Raise RecursionError
          | S depth =>
              match skip_ws t with
              | 125 :: r => Ok (JDict [], r)
              | t => try! (d, r) <- scan_members n depth t []; Ok (JDict d, r)
              end
          end
      | _ => scan_atom s
      end
  end
with scan_items (n depth : nat) (s : pystr) {struct n} : result (list json * pystr) :=
  match n with
  | O => Raise JSONDecodeError
  | S n =>
      try! (v, r) <- scan_value n depth s;
      match skip_ws r with
      | 93 :: r => Ok ([v], r)
      | 44 :: r => try! (l, r) <- scan_items n depth (skip_ws r); Ok (v :: l, r)
      | _ => Raise JSONDecodeError
      end
  end
with scan_members (n depth : nat) (s : pystr) (acc : list (pystr * json)) {struct n}
  : result (list (pystr * json) * pystr) :=
  match n with
  | O => Raise JSONDecodeError
  | S n =>
      match s with
      | 34 :: t =>
          match scan_string t with
          | None => Raise JSONDecodeError
          | Some (k, r) =>
              match skip_ws r with
              | 58 :: r =>
                  try! (v, r) <- scan_value n depth (skip_ws r);
                  let acc := dict_set k v acc in
                  match skip_ws r with
                  | 125 :: r => Ok (acc, r)
                  | 44 :: r => scan_members n depth (skip_ws r) acc
                  | _ => Raise JSONDecodeError
                  end
              | _ => Raise JSONDecodeError
              end
          end
      | _ => Raise JSONDecodeError
      end
  end.

(** [json.loads(s)] of a string; the fuel exceeds the nesting and the number of items.  Besides
    [JSONDecodeError] it can raise [ValueError], for an integer of too many digits, and
    [RecursionError], for values nested too deeply. *)
Definition json_loads `{Unicode} (s : pystr) : result json :=
  try! (j, r) <- scan_value (2 * length s + 2) json_nesting (skip_ws s);
  if bool_decide (skip_ws r = []) then Ok j else Raise JSONDecodeError.

(** [json.detect_encoding] and the decoding of [json.loads(b)], which lets surrogates pass. *)
Definition json_decode (b : bytes) : result pystr :=
  match b with
  | 0 :: 0 :: 254 :: 255 :: t => utf32_decode_pass true t
  | 255 :: 254 :: 0 :: 0 :: t => utf32_decode_pass false t
  | 254 :: 255 :: t => utf16_decode_pass true t
  | 255 :: 254 :: t => utf16_decode_pass false t
  | 239 :: 187 :: 191 :: t => utf8_decode_pass t
  | 0 :: 0 :: _ :: _ :: _ => utf32_decode_pass true b
  | 0 :: _ :: _ :: _ :: _ => utf16_decode_pass true b
  | _ :: 0 :: 0 :: 0 :: _ => utf32_decode_pass false b
  | _ :: 0 :: _ :: _ :: _ => utf16_decode_pass false b
  | [0; _] => utf16_decode_pass true b
  | [_; 0] => utf16_decode_pass false b
  | _ => utf8_decode_pass b
  end.
Definition json_loads_bytes `{Unicode} (b : bytes) : result json :=
  try! s <- json_decode b; json_loads s.

(** ** Truth of a value *)

(** The text before and after the exponent mark of a number. *)
Fixpoint split_exponent (s : pystr) : pystr * pystr :=
  match s with
  | [] => ([], [])
  | c :: t => if (c =? 101) || (c =? 69) then ([], t) else let '(a, b) := split_exponent t in (c :: a, b)
  end.
Definition exponent_value (s : pystr) : Z :=
  match s with
  | 45 :: t => - default 0 (digits_value 0 t)
  | 43 :: t => default 0 (digits_value 0 t)
  | _ => default 0 (digits_value 0 s)
  end.
(** Whether a number with a fraction or an exponent is the float zero: its digits are all zero, or it
    is at most half the smallest subnormal, [2 ^ -1075], and rounds to zero. *)
Definition json_float_zero (text : pystr) : bool :=
  let '(mantissa, exponent) := split_exponent text in
  let fraction := match split_once 46 mantissa with (_, Some f) => f | _ => [] end in
  match mantissa with
  | [] => false
  | _ => match digits_value 0 (List.filter ascii_digit mantissa) with
         | None => false
         | Some m =>
             let k := exponent_value exponent - Z.of_nat (length fraction) in
             forallb (fun c => ascii_digit c || (c =? 45) || (c =? 46)) mantissa
             && ((m =? 0) || ((k <? 0) && (m * 2 ^ 1075 <=? 10 ^ (- k))))
         end
  end.
(** [bool(value)] *)
Definition json_truthy (j : json) : bool :=
  match j with
  | JNull => false
  | JBool b => b
  | JInt n => negb (n =? 0)
  | JFloat t => negb (json_float_zero t)
  | JStr s => negb (bool_decide (s = []))
  | JList l => match l with [] => false | _ => true end
  | JDict d => match d with [] => false | _ => true end
  end.

(** ** Round trips *)

Lemma ascii_digit_cases c : ascii_digit c = true ->
  c = 48 \/ c = 49 \/ c = 50 \/ c = 51 \/ c = 52 \/ c = 53 \/ c = 54 \/ c = 55 \/ c = 56 \/ c = 57.
Proof. unfold ascii_digit. lia. Qed.
Lemma span_digits_app ds rest :
  forallb ascii_digit ds = true -> (forall c t, rest = c :: t -> ascii_digit c = false) ->
  span_digits (ds ++ rest) = (ds, rest).
Proof.
  intros Hds Hr. induction ds as [|c ds IH].
  - destruct rest as [|c t]; [done|]. cbn. by rewrite (Hr c t).
  - cbn in Hds |- *. apply andb_true_iff in Hds as [Hc Hds]. by rewrite Hc, (IH Hds).
Qed.

(** What may follow a number: not a character that would continue it. *)
Definition num_end (s : pystr) : Prop :=
  match s with [] => True | c :: _ => ascii_digit c = false /\ c <> 46 /\ c <> 101 /\ c <> 69 end.

Lemma scan_frac_end s : num_end s -> scan_frac s = ([], s).
Proof.
  destruct s as [|c s]; [done|]. intros (_&Hc&_). unfold scan_frac.
  repeat (case_match; try done).
Qed.
Lemma scan_exp_end s : num_end s -> scan_exp s = ([], s).
Proof.
  destruct s as [|c s]; [done|]. intros (_&_&H1&H2). unfold scan_exp.
  by replace ((c =? 101) || (c =? 69)) with false by lia.
Qed.


Lemma scan_digits_spec c ds rest :
  forallb ascii_digit (c :: ds) = true -> (c = 48 -> ds = []) -> num_end rest ->
  scan_digits ((c :: ds) ++ rest) = (c :: ds, rest) /\ scan_sign ((c :: ds) ++ rest) = (false, (c :: ds) ++ rest).
Proof.
  intros Hds H0 Hr. pose proof (proj1 (proj1 (andb_true_iff _ _) Hds)) as Hc.
  assert (Hspan : span_digits ((c :: ds) ++ rest) = (c :: ds, rest)).
  { apply span_digits_app; [done|]. intros c' t ->. by destruct Hr. }
  apply ascii_digit_cases in Hc. unfold scan_digits, scan_sign.
  repeat destruct Hc as [->|Hc]; try subst c; (split; [|done]).
  1: by rewrite (H0 eq_refl).
  all: cbn [app] in Hspan |- *; by rewrite Hspan.
Qed.

(** The decimal digits of an integer, and whether the decoder takes so many. *)
Definition int_fits (n : Z) : Prop := (length (str_nat (Z.abs n)) <= MAX_STR_DIGITS)%nat.

Lemma scan_number_int n rest : int_fits n -> num_end rest -> scan_number (str_int n ++ rest) = Ok (JInt n, rest).
Proof.
  intros Hfit Hr. unfold str_int, int_fits in *.
  assert (Hfin : forall (b : bool) c ds m s, scan_sign s = (b, (c :: ds) ++ rest) ->
    forallb ascii_digit (c :: ds) = true -> (c = 48 -> ds = []) -> digits_value 0 (c :: ds) = Some m ->
    (length (c :: ds) <= MAX_STR_DIGITS)%nat -> scan_number s = Ok (JInt (if b then - m else m), rest)).
  { intros b c ds m s Hs Hds H0 Hv Hlen. destruct (scan_digits_spec c ds rest Hds H0 Hr) as [Hd _].
    unfold scan_number. rewrite Hs, Hd, Hv. rewrite bool_decide_false by done.
    rewrite (scan_frac_end _ Hr), (scan_exp_end _ Hr). cbn [app]. rewrite bool_decide_true by done.
    by rewrite (proj2 (Nat.ltb_ge _ _) Hlen). }
  destruct (n <? 0) eqn:E.
  - rewrite Z.abs_neq in Hfit by lia. destruct (str_nat_value (- n)) as (c&ds&Eds&Hds&H0&Hv); [lia|]. rewrite Eds in *.
    cbn [app]. rewrite (Hfin true c ds _ (45 :: c :: ds ++ rest) eq_refl Hds H0 Hv Hfit). by rewrite Z.opp_involutive.
  - rewrite Z.abs_eq in Hfit by lia. destruct (str_nat_value n) as (c&ds&Eds&Hds&H0&Hv); [lia|]. rewrite Eds in *.
    apply (Hfin false c ds _ _ (proj2 (scan_digits_spec c ds rest Hds H0 Hr)) Hds H0 Hv Hfit).
Qed.

(** Code points of text that no surrogate encodes. *)
Definition scalar (c : Z) : Prop := 0 <= c < 55296 \/ 57344 <= c < 1114112.

Lemma hex_value_digit d : 0 <= d < 16 -> hex_value (hex_digit d) = Some d.
Proof.
  intros Hd. unfold hex_value, hex_digit, ascii_digit. destruct (d <? 10) eqn:E.
  - replace ((48 <=? 48 + d) && (48 + d <=? 57)) with true by lia. f_equal. lia.
  - replace ((48 <=? 87 + d) && (87 + d <=? 57)) with false by lia.
    replace ((97 <=? 87 + d) && (87 + d <=? 102)) with true by lia. f_equal. lia.
Qed.
Lemma hex4_inv c rest : 0 <= c < 65536 ->
  exists a b d e, hex4 c ++ rest = a :: b :: d :: e :: rest /\ hex4_value a b d e = Some c.
Proof.
  intros Hc. unfold hex4. eexists _, _, _, _. split; [reflexivity|]. unfold hex4_value.
  rewrite !hex_value_digit by (apply Z.mod_pos_bound; lia). f_equal.
  rewrite (Z.mod_small (c / 4096)) by (split; [apply Z.div_pos|apply Z.div_lt_upper_bound]; lia).
  pose proof (Z.div_mod c 16 ltac:(lia)). pose proof (Z.div_mod (c / 16) 16 ltac:(lia)).
  pose proof (Z.div_mod (c / 256) 16 ltac:(lia)).
  assert (c / 16 / 16 = c / 256) by (rewrite Z.div_div by lia; done).
  assert (c / 256 / 16 = c / 4096) by (rewrite Z.div_div by lia; done). lia.
Qed.

Lemma scan_escape c rest : scalar c -> scan_string (escape_char c ++ rest) = push c (scan_string rest).
Proof.
  intros Hc. unfold escape_char.
  repeat (match goal with |- context[if ?c =? ?k then _ else _] =>
    destruct (Z.eqb_spec c k) as [->|?]; [reflexivity|] end).
  destruct ((32 <=? c) && (c <=? 126)) eqn:Ep.
  { cbn [app scan_string]. replace (c =? 34) with false by lia. replace (c =? 92) with false by lia.
    by replace (c <? 32) with false by lia. }
  destruct (c <? 65536) eqn:E6.
  - destruct (hex4_inv c rest) as (a&b&d&e&Ea&Ev); [unfold scalar in Hc; lia|].
    cbn [app]. rewrite Ea. cbn -[hex4_value]. rewrite Ev.
    assert (Hns : (55296 <=? c) && (c <? 56320) = false) by (unfold scalar in Hc; lia). rewrite Hns.
    cbn [andb]. repeat (case_match; try done). simplify_eq.
    cbn -[hex4_value]. by match goal with E : hex4_value _ _ _ _ = None |- _ => rewrite E end.
  - set (v := c - 65536). pose proof (Z.mod_pos_bound v 1024 ltac:(lia)). pose proof (Z.div_mod v 1024 ltac:(lia)).
    assert (0 <= v / 1024 < 1024).
    { unfold scalar in Hc. split; [apply Z.div_pos|apply Z.div_lt_upper_bound]; lia. }
    rewrite <- app_assoc. cbn [app].
    destruct (hex4_inv (56320 + v mod 1024) rest) as (a'&b'&d'&e'&Ea'&Ev'); [lia|].
    destruct (hex4_inv (55296 + v / 1024) (92 :: 117 :: hex4 (56320 + v mod 1024) ++ rest)) as (a&b&d&e&Ea&Ev); [lia|].
    rewrite Ea, Ea'. cbn -[hex4_value Z.add Z.mul Z.sub]. rewrite Ev, Ev'.
    replace (_ && _) with true by lia. f_equal. lia.
Qed.

Lemma scan_dump_str s rest : Forall scalar s -> scan_string (flat_map escape_char s ++ 34 :: rest) = Some (s, rest).
Proof.
  induction 1 as [|c s Hc _ IH]; [done|]. cbn [flat_map]. rewrite <- app_assoc, scan_escape by done. by rewrite IH.
Qed.

(** Values that [dumps] writes and [loads] reads back: no fraction, no integer of too many digits, text
    without surrogates, and no key twice in one object. *)
Fixpoint json_ok (j : json) : Prop :=
  match j with
  | JNull | JBool _ => True
  | JInt n => int_fits n
  | JFloat _ => False
  | JStr s => Forall scalar s
  | JList l => foldr (fun x p => json_ok x /\ p) True l
  | JDict d => NoDup d.*1 /\ Forall (Forall scalar) d.*1 /\ foldr (fun kv p => json_ok kv.2 /\ p) True d
  end.

(** How many containers a value nests. *)
Fixpoint json_depth (j : json) : nat :=
  match j with
  | JList l => S (foldr (fun x n => json_depth x `max` n)%nat 0%nat l)
  | JDict d => S (foldr (fun kv n => json_depth kv.2 `max` n)%nat 0%nat d)
  | _ => 0%nat
  end.

Lemma dict_set_new k v d : k ∉ d.*1 -> dict_set k v d = d ++ [(k, v)].
Proof.
  induction d as [|[k' v'] d IH]; [done|]. cbn. rewrite not_elem_of_cons. intros [Hk Hd].
  rewrite bool_decide_false by done. by rewrite IH.
Qed.

(** A dumped value starts neither with white space nor with a closing bracket. *)
Lemma dumps_head j : json_ok j -> exists c t, dumps j = c :: t /\ json_ws c = false /\ c <> 93 /\ c <> 125.
Proof.
  destruct j as [|[]|n|f|s|l|d]; intros Hj; try (by destruct Hj); try by (eexists _, _; split; [reflexivity|]; split; [done|split; done]).
  cbn [dumps]. unfold str_int. destruct (n <? 0) eqn:E; [by (eexists _, _; split; [reflexivity|]; split; [done|split; done])|].
  destruct (str_nat_value n) as (c&ds&->&Hds&_); [lia|]. exists c, ds. split; [done|].
  cbn in Hds. apply andb_true_iff in Hds as [Hc _]. unfold json_ws, ascii_digit in *. split; [|split]; lia.
Qed.

Lemma skip_ws_head c t : json_ws c = false -> skip_ws (c :: t) = c :: t.
Proof. intros Hc. cbn. by rewrite Hc. Qed.

Definition after_value (s : pystr) : Prop :=
  match s with [] => True | c :: _ => c = 44 \/ c = 93 \/ c = 125 end.
Lemma after_num_end s : after_value s -> num_end s.
Proof. destruct s as [|c s]; [done|]. cbn. unfold ascii_digit. intros [->|[->| ->]]; done. Qed.

Lemma scan_atom_int m k n rest : int_fits n -> num_end rest -> scan_value (S m) k (str_int n ++ rest) = Ok (JInt n, rest).
Proof.
  intros Hfit Hr. pose proof (scan_number_int n rest Hfit Hr) as Hs. clear Hfit. unfold str_int in *. revert Hs. destruct (n <? 0) eqn:E.
  - destruct (str_nat_value (- n)) as (c&ds&->&Hds&_); [lia|]. cbn [app].
    pose proof (proj1 (proj1 (andb_true_iff _ _) Hds)) as Hc. apply ascii_digit_cases in Hc.
    repeat destruct Hc as [->|Hc]; try subst c; intros Hs; cbn -[scan_number]; exact Hs.
  - destruct (str_nat_value n) as (c&ds&->&Hds&_); [lia|]. cbn [app].
    pose proof (proj1 (proj1 (andb_true_iff _ _) Hds)) as Hc. apply ascii_digit_cases in Hc.
    repeat destruct Hc as [->|Hc]; try subst c; intros Hs; cbn -[scan_number]; exact Hs.
Qed.


(** What the induction gives for the elements of a list or the values of an object. *)
Definition scans (j : json) : Prop := json_ok j -> forall n k rest, (length (dumps j) <= n)%nat -> (json_depth j <= k)%nat ->
  after_value rest -> scan_value n k (dumps j ++ rest) = Ok (j, rest).

Lemma dumps_nonempty j : json_ok j -> (1 <= length (dumps j))%nat.
Proof. intros Hj. destruct (dumps_head j Hj) as (c&t&->&_). cbn. lia. Qed.

Lemma join_cons sep x y l : join sep (x :: y :: l) = x ++ sep ++ join sep (y :: l).
Proof. done. Qed.

Lemma skip_ws_items x l rest : json_ok x ->
  exists c t, join [44] (map dumps (x :: l)) ++ rest = c :: t /\ json_ws c = false /\ c <> 93.
Proof.
  intros Hx. destruct (dumps_head x Hx) as (c&t&E&Hw&H93&_). cbn [map]. destruct l as [|y l]; cbn [map].
  - cbn [join]. rewrite E. by exists c, (t ++ rest).
  - rewrite join_cons, E. eexists c, _. split; [reflexivity|done].
Qed.

Lemma scan_items_dumps x l n k rest :
  Forall scans (x :: l) -> foldr (fun x p => json_ok x /\ p) True (x :: l) ->
  (length (join [44%Z] (map dumps (x :: l))) < n)%nat ->
  (foldr (fun x n => json_depth x `max` n)%nat 0%nat (x :: l) <= k)%nat ->
  scan_items n k (join [44] (map dumps (x :: l)) ++ 93 :: rest) = Ok (x :: l, rest).
Proof.
  revert x n. induction l as [|y l IH]; intros x n Hs [Hx Hok] Hl Hd; cbn [foldr] in Hd; (destruct n as [|n]; [lia|]);
    apply Forall_cons in Hs as [Hsx Hs]; cbn [map] in *.
  - cbn [join scan_items] in *. rewrite (Hsx Hx n k) by (try lia; cbn; auto). reflexivity.
  - rewrite join_cons in *. rewrite !length_app in Hl. pose proof (dumps_nonempty x Hx).
    cbn [scan_items]. rewrite <- !app_assoc. rewrite (Hsx Hx n k) by (cbn in *; auto; lia).
    cbn [rbind app skip_ws json_ws Z.eqb Pos.eqb orb].
    destruct (skip_ws_items y l (93 :: rest) (proj1 Hok)) as (c&t&E&Hw&_).
    cbn [map] in E. rewrite E, skip_ws_head, <- E by done. rewrite (IH y n) by (cbn in *; auto; lia). done.
Qed.
Lemma scan_value_list l n k rest :
  Forall scans l -> json_ok (JList l) -> (length (dumps (JList l)) <= S n)%nat -> (json_depth (JList l) <= k)%nat ->
  scan_value (S n) k (dumps (JList l) ++ rest) = Ok (JList l, rest).
Proof.
  intros Hs Hok Hl Hd. destruct k as [|k]; [cbn in Hd; lia|]. destruct l as [|x l]; [reflexivity|]. cbn [dumps app length] in *.
  rewrite <- app_assoc. cbn [app]. cbn [scan_value]. rewrite length_app in Hl. cbn [length] in Hl.
  destruct (skip_ws_items x l (93 :: rest)) as (c&t&E&Hw&H93); [apply Hok|].
  pose proof (scan_items_dumps x l n k rest Hs Hok ltac:(lia) ltac:(cbn in Hd |- *; lia)) as Hi. rewrite E in Hi |- *.
  rewrite skip_ws_head by done. repeat (case_match; try congruence); subst; rewrite Hi; reflexivity.
Qed.

Definition member (kv : pystr * json) : pystr := dump_str kv.1 ++ 58 :: dumps kv.2.
Lemma dumps_dict d : dumps (JDict d) = 123 :: join [44] (map member d) ++ [125].
Proof. done. Qed.

Lemma scan_member k v n m acc rest :
  Forall scalar k -> scans v -> json_ok v -> (length (dumps v) <= n)%nat -> (json_depth v <= m)%nat -> after_value rest ->
  k ∉ acc.*1 -> skip_ws rest = rest ->
  scan_members (S n) m (member (k, v) ++ rest) acc =
    match rest with
    | 125 :: r => Ok (acc ++ [(k, v)], r)
    | 44 :: r => scan_members n m (skip_ws r) (acc ++ [(k, v)])
    | _ => Raise JSONDecodeError
    end.
Proof.
  intros Hk Hs Hv Hl Hd Hr Hnew Hrest. unfold member. cbn [fst snd dump_str app scan_members].
  rewrite <- !app_assoc. cbn [app]. rewrite scan_dump_str by done. cbn [skip_ws json_ws Z.eqb Pos.eqb orb].
  destruct (dumps_head v Hv) as (c&t&E&Hw&_). rewrite E at 1. cbn [app]. rewrite skip_ws_head by done.
  rewrite app_comm_cons, <- E, (Hs Hv n m rest Hl Hd Hr). cbn [rbind]. rewrite Hrest, dict_set_new by done. done.
Qed.

Lemma members_head kv d rest : exists t, join [44] (map member (kv :: d)) ++ rest = 34 :: t.
Proof. destruct d; cbn [map]; [|rewrite join_cons]; cbn [join member dump_str app]; by eexists. Qed.
Lemma skip_ws_members kv d rest :
  skip_ws (join [44] (map member (kv :: d)) ++ rest) = join [44] (map member (kv :: d)) ++ rest.
Proof. destruct (members_head kv d rest) as [t ->]. done. Qed.

Lemma scan_members_dumps kv d n m acc rest :
  Forall (fun kv => scans kv.2) (kv :: d) -> NoDup (acc ++ kv :: d).*1 ->
  Forall (Forall scalar) (kv :: d).*1 -> foldr (fun kv p => json_ok kv.2 /\ p) True (kv :: d) ->
  (length (join [44%Z] (map member (kv :: d))) < n)%nat ->
  (foldr (fun kv n => json_depth kv.2 `max` n)%nat 0%nat (kv :: d) <= m)%nat ->
  scan_members n m (join [44] (map member (kv :: d)) ++ 125 :: rest) acc = Ok (acc ++ kv :: d, rest).
Proof.
  revert kv n acc. induction d as [|kv' d IH]; intros [k v] n acc Hs Hnd Hk [Hv Hok] Hl Hd; cbn [foldr snd] in Hd;
    (destruct n as [|n]; [lia|]); apply Forall_cons in Hs as [Hsv Hs]; cbn [map fmap list_fmap] in *;
    apply Forall_cons in Hk as [Hk Hks].
  all: assert (Hnew : k ∉ acc.*1) by (rewrite fmap_app in Hnd; apply NoDup_app in Hnd as (_&Hdis&_);
    intros Hin; apply (Hdis k Hin); by left).
  - cbn [join] in *. rewrite (scan_member k v n m acc (125 :: rest)); try done; [|lia|cbn; auto].
    unfold member in Hl. cbn [fst snd] in Hl. rewrite length_app in Hl. cbn in Hl. lia.
  - rewrite join_cons in *. rewrite !length_app in Hl. rewrite <- !app_assoc. cbn [app].
    change (member kv' :: map member d) with (map member (kv' :: d)) in *.
    rewrite (scan_member k v n m acc (44 :: join [44] (map member (kv' :: d)) ++ 125 :: rest)); try done; [| |lia|cbn; auto].
    2: { unfold member in Hl. cbn [fst snd] in Hl. rewrite length_app in Hl. cbn in Hl. lia. }
    rewrite skip_ws_members. change (map member (kv' :: d)) with (member kv' :: map member d) in *.
    rewrite (IH kv' n (acc ++ [(k, v)])); try done.
    + by rewrite <- app_assoc.
    + by rewrite <- app_assoc.
    + cbn in Hl. cbn. lia.
    + cbn [foldr]. lia.
Qed.

Lemma scan_value_dict d n k rest :
  Forall (fun kv => scans kv.2) d -> json_ok (JDict d) -> (length (dumps (JDict d)) <= S n)%nat ->
  (json_depth (JDict d) <= k)%nat -> scan_value (S n) k (dumps (JDict d) ++ rest) = Ok (JDict d, rest).
Proof.
  intros Hs (Hnd&Hk&Hok) Hl Hd. destruct k as [|k]; [cbn in Hd; lia|]. destruct d as [|kv d]; [reflexivity|]. rewrite dumps_dict in *. cbn [app length] in *.
  rewrite <- app_assoc. cbn [app scan_value]. rewrite length_app in Hl. cbn [length] in Hl.
  rewrite skip_ws_members. pose proof (scan_members_dumps kv d n k [] rest Hs Hnd Hk Hok ltac:(lia) ltac:(cbn in Hd |- *; lia)) as Hi.
  destruct (members_head kv d (125 :: rest)) as (t&E). rewrite E in Hi |- *. by rewrite Hi.
Qed.

Lemma scan_value_dumps j : scans j.
Proof.
  assert (Hn : forall j n, json_ok j -> (length (dumps j) <= n)%nat -> exists m, n = S m).
  { intros j0 n Hj Hl. destruct (dumps_head j0 Hj) as (c&t&E&_). rewrite E in Hl. destruct n as [|m]; [cbn in Hl; lia|eauto]. }
  induction j as [|b|k|f|s|l IH|d IH] using json_ind'; intros Hj n depth rest Hl Hd Hr;
    destruct (Hn _ _ Hj Hl) as [m ->].
  - destruct rest; by vm_compute.
  - destruct b, rest; by vm_compute.
  - apply scan_atom_int; [exact Hj|apply after_num_end, Hr].
  - done.
  - cbn [dumps dump_str app scan_value]. rewrite <- app_assoc. cbn [app]. by rewrite scan_dump_str.
  - apply scan_value_list; done.
  - apply scan_value_dict; done.
Qed.

(** [json.loads] of [json.dumps]. *)
Lemma json_loads_dumps `{Unicode} j : json_ok j -> (json_depth j <= json_nesting)%nat -> json_loads (dumps j) = Ok j.
Proof.
  intros Hj Hd. unfold json_loads. destruct (dumps_head j Hj) as (c&t&E&Hw&_). rewrite E at 2.
  rewrite skip_ws_head, <- E, <- (app_nil_r (dumps j)) by done.
  rewrite (scan_value_dumps j Hj); [done| |exact Hd|done]. rewrite app_nil_r. lia.
Qed.

(** ASCII text without a null character is read as it is. *)
Lemma json_loads_bytes_ascii `{Unicode} s : isascii s = true -> ~ In 0 s -> json_loads_bytes s = json_loads s.
Proof.
  intros Ha Hz. unfold json_loads_bytes. replace (json_decode s) with (Ok s : result pystr); [done|].
  rewrite <- (utf8_pass_ascii s Ha). unfold isascii, is_ascii in Ha. rewrite forallb_forall in Ha.
  unfold json_decode. repeat (case_match; subst; try done; try (by destruct Hz; cbn; auto)).
  all: exfalso; match goal with H : forall _, In _ (?c :: _) -> _ |- _ => specialize (H c (or_introl eq_refl)); lia end.
Qed.

(** What is dumped is ASCII text without a null character. *)
Definition printable (s : pystr) : Prop := Forall (fun c => 0 < c < 128) s.

Lemma hex_digit_printable d : 0 <= d < 16 -> 0 < hex_digit d < 128.
Proof. intros Hd. unfold hex_digit. destruct (d <? 10) eqn:E; lia. Qed.
Lemma hex4_printable c : printable (hex4 c).
Proof. unfold hex4, printable. repeat constructor; apply hex_digit_printable, Z.mod_pos_bound; lia. Qed.
Lemma escape_printable c : printable (escape_char c).
Proof.
  unfold escape_char, printable. pose proof (hex4_printable c) as Hc.
  repeat (match goal with |- context[if ?c =? ?k then _ else _] =>
    destruct (c =? k); [repeat (constructor; [lia|]); constructor|] end).
  destruct (_ && _) eqn:E; [constructor; [lia|constructor]|]. cbv zeta.
  destruct (c <? 65536); [do 2 (constructor; [lia|]); exact Hc|]. apply Forall_app. split; do 2 (constructor; [lia|]); apply hex4_printable.
Qed.
Lemma dump_str_printable s : printable (dump_str s).
Proof.
  unfold dump_str, printable. constructor; [lia|]. apply Forall_app. split; [|constructor; [lia|constructor]].
  induction s as [|c s IH]; [constructor|]. cbn [flat_map]. apply Forall_app. split; [apply escape_printable|exact IH].
Qed.
Lemma join_printable l : Forall printable l -> printable (join [44] l).
Proof.
  unfold printable. induction l as [|x l IH]; [constructor|]. intros [Hx Hl]%Forall_cons. destruct l as [|y l]; [done|].
  rewrite join_cons. apply Forall_app. split; [done|]. apply Forall_app. split; [constructor; [lia|constructor]|by apply IH].
Qed.
Lemma str_int_printable n : printable (str_int n).
Proof.
  assert (H : forall m, 0 <= m -> printable (str_nat m)).
  { intros m Hm. destruct (str_nat_value m Hm) as (c&ds&->&Hds&_). apply forallb_Forall in Hds.
    eapply Forall_impl; [exact Hds|]. unfold ascii_digit. intros x Hx. cbn in Hx. destruct ((48 <=? x) && (x <=? 57)) eqn:E; [lia|done]. }
  unfold str_int. destruct (n <? 0) eqn:E; [constructor; [lia|]|]; apply H; lia.
Qed.
Lemma dumps_printable j : json_ok j -> printable (dumps j).
Proof.
  induction j as [|b|n|f|s|l IH|d IH] using json_ind'; intros Hj; try done.
  - unfold printable. vm_compute. repeat (constructor; [by split|]). constructor.
  - unfold printable. destruct b; vm_compute; repeat (constructor; [by split|]); constructor.
  - apply str_int_printable.
  - apply dump_str_printable.
  - cbn [dumps]. constructor; [lia|]. apply Forall_app. split; [|constructor; [lia|constructor]]. apply join_printable.
    cbn in Hj. clear -IH Hj. induction IH as [|x l Hx _ IHl]; [constructor|]. destruct Hj as [Hjx Hjl].
    constructor; [exact (Hx Hjx)|exact (IHl Hjl)].
  - rewrite dumps_dict. constructor; [lia|]. apply Forall_app. split; [|constructor; [lia|constructor]]. apply join_printable.
    destruct Hj as (_&_&Hj). clear -IH Hj. induction IH as [|x l Hx _ IHl]; [constructor|]. destruct Hj as [Hjx Hjl].
    constructor; [|exact (IHl Hjl)]. unfold member. apply Forall_app. split; [apply dump_str_printable|]. constructor; [lia|exact (Hx Hjx)].
Qed.

(** [json.loads] of the octets of [json.dumps]. *)
Lemma json_loads_bytes_dumps `{Unicode} j : json_ok j -> (json_depth j <= json_nesting)%nat ->
  json_loads_bytes (dumps j) = Ok j.
Proof.
  intros Hj Hd. pose proof (dumps_printable j Hj) as Hp. rewrite json_loads_bytes_ascii; [by apply json_loads_dumps| |].
  - unfold isascii. apply forallb_forall. intros c Hc. unfold printable in Hp. rewrite Forall_forall in Hp.
    apply list_elem_of_In, Hp in Hc. unfold is_ascii. lia.
  - intros Hz. unfold printable in Hp. rewrite Forall_forall in Hp. apply list_elem_of_In, Hp in Hz. lia.
Qed.

(** What the decoder can raise. *)
Definition json_fails {A} (r : result A) : Prop :=
  forall e, r = Raise e -> e = JSONDecodeError \/ e = ValueError \/ e = RecursionError.
Lemma json_fails_bind {A B} (r : result A) (k : A -> result B) :
  json_fails r -> (forall a, json_fails (k a)) -> json_fails (rbind r k).
Proof. intros Hr Hk. destruct r as [a|e']; [apply Hk|]. intros e [= <-]. by apply Hr. Qed.

Lemma scan_atom_fails s : json_fails (scan_atom s).
Proof.
  unfold scan_atom, scan_number. repeat (case_match; try (intros e [= <-]; auto; fail); try done).
  all: intros e; repeat case_match; intros; simplify_eq; auto.
Qed.

Ltac json_fails := repeat first
  [ progress cbv zeta
  | apply scan_atom_fails
  | done
  | by intros e [= <-]; auto
  | by apply json_fails_bind; [done|intros [? ?] ? ?]
  | apply json_fails_bind; [done|intros [? ?]]
  | case_match ].
Lemma scan_fails n : (forall k s, json_fails (scan_value n k s)) /\ (forall k s, json_fails (scan_items n k s)) /\
  (forall k s acc, json_fails (scan_members n k s acc)).
Proof.
  induction n as [|n (IHv&IHi&IHm)]; [by split_and!; intros; intros e [= <-]; auto|]. split_and!.
  - intros k s. cbn [scan_value]. json_fails.
  - intros k s. cbn [scan_items]. json_fails.
  - intros k s acc. cbn [scan_members]. json_fails.
Qed.

Lemma json_loads_fails `{Unicode} s : json_fails (json_loads s).
Proof.
  unfold json_loads. apply json_fails_bind; [apply scan_fails|]. intros [j r]. destruct (bool_decide _); [done|].
  intros e [= <-]. auto.
Qed.

Lemma json_decode_fails b : decode_fails (json_decode b).
Proof.
  unfold json_decode.
  repeat (case_match; try apply utf8_pass_fails; try apply utf16_pass_fails; try apply utf32_pass_fails).
Qed.

Lemma json_loads_bytes_fails `{Unicode} b e : json_loads_bytes b = Raise e ->
  e = UnicodeDecodeError \/ e = JSONDecodeError \/ e = ValueError \/ e = RecursionError.
Proof.
  unfold json_loads_bytes. destruct (json_decode b) as [s|e'] eqn:E; cbn [rbind].
  - intros Hj. right. exact (json_loads_fails s e Hj).
  - intros [= <-]. left. exact (json_decode_fails b _ E).
Qed.

(** Three inputs that are refused in three ways. *)
Example json_depth_refused : @json_loads ascii_unicode (replicate 1001 91) = Raise RecursionError.
Proof. vm_compute. reflexivity. Qed.
Example json_digits_refused : @json_loads ascii_unicode (49 :: replicate 4300 48) = Raise ValueError.
Proof. vm_compute. reflexivity. Qed.
Example json_utf16_read : @json_loads_bytes ascii_unicode [255; 254; 91; 0; 93; 0] = Ok (JList []).
Proof. vm_compute. reflexivity. Qed.
