(* ===== verification/Models.v ===== *)
(** The persisted state (app/models.py): the enumerations, one record per table with the columns of
    the mapped class, the check constraints as boolean tests, and the database as one record of
    tables. A column [c] of class [K] is the projection with [K]'s prefix; [set_<prefix>c] replaces
    it in a row. *)
From S2P Require Import Prelude PyBase Encoding Json.

(** ** Enumerations *)

Inductive UserRole : Type :=
| Role_USER | Role_ANALYST | Role_SUPER_ADMIN.
Definition UserRole_value (x : UserRole) : pystr :=
  match x with
  | Role_USER => py "user"
  | Role_ANALYST => py "analyst"
  | Role_SUPER_ADMIN => py "super_admin"
  end.
#[export] Instance UserRole_eq_dec : EqDecision UserRole.
Proof. solve_decision. Defined.

Inductive UserSource : Type :=
| Source_GOOGLE | Source_WORKSPACE_SYNC | Source_MANUAL.
Definition UserSource_value (x : UserSource) : pystr :=
  match x with
  | Source_GOOGLE => py "google"
  | Source_WORKSPACE_SYNC => py "workspace_sync"
  | Source_MANUAL => py "manual"
  end.
#[export] Instance UserSource_eq_dec : EqDecision UserSource.
Proof. solve_decision. Defined.

Inductive SubjectKind : Type :=
| Kind_EMAIL | Kind_DOMAIN | Kind_USERNAME | Kind_PHONE | Kind_ORIGIN | Kind_PASSWORD.
Definition SubjectKind_value (x : SubjectKind) : pystr :=
  match x with
  | Kind_EMAIL => py "email"
  | Kind_DOMAIN => py "domain"
  | Kind_USERNAME => py "username"
  | Kind_PHONE => py "phone"
  | Kind_ORIGIN => py "origin"
  | Kind_PASSWORD => py "password"
  end.
#[export] Instance SubjectKind_eq_dec : EqDecision SubjectKind.
Proof. solve_decision. Defined.

Inductive ScanTrigger : Type :=
| Trigger_MANUAL | Trigger_SELF | Trigger_BATCH | Trigger_SCHEDULED.
Definition ScanTrigger_value (x : ScanTrigger) : pystr :=
  match x with
  | Trigger_MANUAL => py "manual"
  | Trigger_SELF => py "self"
  | Trigger_BATCH => py "batch"
  | Trigger_SCHEDULED => py "scheduled"
  end.
#[export] Instance ScanTrigger_eq_dec : EqDecision ScanTrigger.
Proof. solve_decision. Defined.

Inductive ScanStatus : Type :=
| Scan_PENDING | Scan_RUNNING | Scan_SUCCEEDED | Scan_FAILED.
Definition ScanStatus_value (x : ScanStatus) : pystr :=
  match x with
  | Scan_PENDING => py "pending"
  | Scan_RUNNING => py "running"
  | Scan_SUCCEEDED => py "succeeded"
  | Scan_FAILED => py "failed"
  end.
#[export] Instance ScanStatus_eq_dec : EqDecision ScanStatus.
Proof. solve_decision. Defined.

Inductive BatchTarget : Type :=
| Target_OU | Target_DOMAIN | Target_SELECTION.
Definition BatchTarget_value (x : BatchTarget) : pystr :=
  match x with
  | Target_OU => py "ou"
  | Target_DOMAIN => py "domain"
  | Target_SELECTION => py "selection"
  end.
#[export] Instance BatchTarget_eq_dec : EqDecision BatchTarget.
Proof. solve_decision. Defined.

Inductive BatchStatus : Type :=
| Batch_PENDING | Batch_RUNNING | Batch_SUCCEEDED | Batch_PARTIAL | Batch_FAILED.
Definition BatchStatus_value (x : BatchStatus) : pystr :=
  match x with
  | Batch_PENDING => py "pending"
  | Batch_RUNNING => py "running"
  | Batch_SUCCEEDED => py "succeeded"
  | Batch_PARTIAL => py "partial"
  | Batch_FAILED => py "failed"
  end.
#[export] Instance BatchStatus_eq_dec : EqDecision BatchStatus.
Proof. solve_decision. Defined.

Inductive QueueStatus : Type :=
| Queue_QUEUED | Queue_RUNNING | Queue_SUCCEEDED | Queue_FAILED.
Definition QueueStatus_value (x : QueueStatus) : pystr :=
  match x with
  | Queue_QUEUED => py "queued"
  | Queue_RUNNING => py "running"
  | Queue_SUCCEEDED => py "succeeded"
  | Queue_FAILED => py "failed"
  end.
#[export] Instance QueueStatus_eq_dec : EqDecision QueueStatus.
Proof. solve_decision. Defined.

Inductive ScheduleKind : Type :=
| Schedule_SCAN_OU | Schedule_SCAN_DOMAIN | Schedule_DIGEST.
Definition ScheduleKind_value (x : ScheduleKind) : pystr :=
  match x with
  | Schedule_SCAN_OU => py "scan_ou"
  | Schedule_SCAN_DOMAIN => py "scan_domain"
  | Schedule_DIGEST => py "digest"
  end.
#[export] Instance ScheduleKind_eq_dec : EqDecision ScheduleKind.
Proof. solve_decision. Defined.

Inductive NotificationStatus : Type :=
| Notification_PENDING | Notification_DRY_RUN | Notification_SENT | Notification_SUPPRESSED | Notification_FAILED.
Definition NotificationStatus_value (x : NotificationStatus) : pystr :=
  match x with
  | Notification_PENDING => py "pending"
  | Notification_DRY_RUN => py "dry_run"
  | Notification_SENT => py "sent"
  | Notification_SUPPRESSED => py "suppressed"
  | Notification_FAILED => py "failed"
  end.
#[export] Instance NotificationStatus_eq_dec : EqDecision NotificationStatus.
Proof. solve_decision. Defined.

Inductive AlertSinkName : Type :=
| Sink_WAZUH | Sink_DFIR_IRIS.
Definition AlertSinkName_value (x : AlertSinkName) : pystr :=
  match x with
  | Sink_WAZUH => py "wazuh"
  | Sink_DFIR_IRIS => py "dfir_iris"
  end.
#[export] Instance AlertSinkName_eq_dec : EqDecision AlertSinkName.
Proof. solve_decision. Defined.

Inductive AlertOutboxStatus : Type :=
| Alert_PENDING | Alert_DELIVERED | Alert_DEAD_LETTER.
Definition AlertOutboxStatus_value (x : AlertOutboxStatus) : pystr :=
  match x with
  | Alert_PENDING => py "pending"
  | Alert_DELIVERED => py "delivered"
  | Alert_DEAD_LETTER => py "dead_letter"
  end.
#[export] Instance AlertOutboxStatus_eq_dec : EqDecision AlertOutboxStatus.
Proof. solve_decision. Defined.

Inductive FindingSeverity : Type :=
| Severity_LOW | Severity_MEDIUM | Severity_HIGH.
Definition FindingSeverity_value (x : FindingSeverity) : pystr :=
  match x with
  | Severity_LOW => py "low"
  | Severity_MEDIUM => py "medium"
  | Severity_HIGH => py "high"
  end.
#[export] Instance FindingSeverity_eq_dec : EqDecision FindingSeverity.
Proof. solve_decision. Defined.

Inductive FindingEventType : Type :=
| Event_DISCOVERED | Event_REMEDIATED | Event_UNREMEDIATED | Event_RE_LEAKED | Event_PASSWORD_VIEWED | Event_NOTIFIED | Event_ALERTED.
Definition FindingEventType_value (x : FindingEventType) : pystr :=
  match x with
  | Event_DISCOVERED => py "discovered"
  | Event_REMEDIATED => py "remediated"
  | Event_UNREMEDIATED => py "unremediated"
  | Event_RE_LEAKED => py "re_leaked"
  | Event_PASSWORD_VIEWED => py "password_viewed"
  | Event_NOTIFIED => py "notified"
  | Event_ALERTED => py "alerted"
  end.
#[export] Instance FindingEventType_eq_dec : EqDecision FindingEventType.
Proof. solve_decision. Defined.

(** ** Tables *)

Record User := mkUser {
  u_id : uuid;
  u_email : pystr;
  u_google_sub : option pystr;
  u_display_name : pystr;
  u_ou_path : option pystr;
  u_role : UserRole;
  u_is_active : bool;
  u_source : UserSource;
  u_created_at : instant;
  u_last_login_at : option instant;
}.
Definition set_u_email (v : pystr) (r : User) : User :=
  mkUser (u_id r) v (u_google_sub r) (u_display_name r) (u_ou_path r) (u_role r) (u_is_active r)
    (u_source r) (u_created_at r) (u_last_login_at r).
Definition set_u_google_sub (v : option pystr) (r : User) : User :=
  mkUser (u_id r) (u_email r) v (u_display_name r) (u_ou_path r) (u_role r) (u_is_active r)
    (u_source r) (u_created_at r) (u_last_login_at r).
Definition set_u_display_name (v : pystr) (r : User) : User :=
  mkUser (u_id r) (u_email r) (u_google_sub r) v (u_ou_path r) (u_role r) (u_is_active r)
    (u_source r) (u_created_at r) (u_last_login_at r).
Definition set_u_ou_path (v : option pystr) (r : User) : User :=
  mkUser (u_id r) (u_email r) (u_google_sub r) (u_display_name r) v (u_role r) (u_is_active r)
    (u_source r) (u_created_at r) (u_last_login_at r).
Definition set_u_role (v : UserRole) (r : User) : User :=
  mkUser (u_id r) (u_email r) (u_google_sub r) (u_display_name r) (u_ou_path r) v (u_is_active r)
    (u_source r) (u_created_at r) (u_last_login_at r).
Definition set_u_is_active (v : bool) (r : User) : User :=
  mkUser (u_id r) (u_email r) (u_google_sub r) (u_display_name r) (u_ou_path r) (u_role r) v
    (u_source r) (u_created_at r) (u_last_login_at r).
Definition set_u_last_login_at (v : option instant) (r : User) : User :=
  mkUser (u_id r) (u_email r) (u_google_sub r) (u_display_name r) (u_ou_path r) (u_role r)
    (u_is_active r) (u_source r) (u_created_at r) v.

Record AdminCredential := mkAdminCredential {
  ac_user_id : uuid;
  ac_password_hash : pystr;
  ac_totp_secret_enc : option bytes;
  ac_totp_enabled_at : option instant;
  ac_failed_attempts : Z;
  ac_locked_until : option instant;
}.
Definition set_ac_password_hash (v : pystr) (r : AdminCredential) : AdminCredential :=
  mkAdminCredential (ac_user_id r) v (ac_totp_secret_enc r) (ac_totp_enabled_at r)
    (ac_failed_attempts r) (ac_locked_until r).
Definition set_ac_totp_secret_enc (v : option bytes) (r : AdminCredential) : AdminCredential :=
  mkAdminCredential (ac_user_id r) (ac_password_hash r) v (ac_totp_enabled_at r)
    (ac_failed_attempts r) (ac_locked_until r).
Definition set_ac_totp_enabled_at (v : option instant) (r : AdminCredential) : AdminCredential :=
  mkAdminCredential (ac_user_id r) (ac_password_hash r) (ac_totp_secret_enc r) v
    (ac_failed_attempts r) (ac_locked_until r).
Definition set_ac_failed_attempts (v : Z) (r : AdminCredential) : AdminCredential :=
  mkAdminCredential (ac_user_id r) (ac_password_hash r) (ac_totp_secret_enc r)
    (ac_totp_enabled_at r) v (ac_locked_until r).
Definition set_ac_locked_until (v : option instant) (r : AdminCredential) : AdminCredential :=
  mkAdminCredential (ac_user_id r) (ac_password_hash r) (ac_totp_secret_enc r)
    (ac_totp_enabled_at r) (ac_failed_attempts r) v.

Record AdminLoginRateLimit := mkAdminLoginRateLimit {
  rl_ip_hash : bytes;
  rl_window_started_at : instant;
  rl_attempts : Z;
  rl_blocked_until : option instant;
}.
Definition set_rl_window_started_at (v : instant) (r : AdminLoginRateLimit) : AdminLoginRateLimit :=
  mkAdminLoginRateLimit (rl_ip_hash r) v (rl_attempts r) (rl_blocked_until r).
Definition set_rl_attempts (v : Z) (r : AdminLoginRateLimit) : AdminLoginRateLimit :=
  mkAdminLoginRateLimit (rl_ip_hash r) (rl_window_started_at r) v (rl_blocked_until r).
Definition set_rl_blocked_until (v : option instant) (r : AdminLoginRateLimit) : AdminLoginRateLimit :=
  mkAdminLoginRateLimit (rl_ip_hash r) (rl_window_started_at r) (rl_attempts r) v.

Record Session := mkSession {
  se_id_hash : bytes;
  se_user_id : uuid;
  se_created_at : instant;
  se_expires_at : instant;
  se_last_seen_at : instant;
  se_idle_expires_at : instant;
  se_ip_hash : bytes;
  se_ua_hash : bytes;
  se_revoked_at : option instant;
}.
Definition set_se_last_seen_at (v : instant) (r : Session) : Session :=
  mkSession (se_id_hash r) (se_user_id r) (se_created_at r) (se_expires_at r) v
    (se_idle_expires_at r) (se_ip_hash r) (se_ua_hash r) (se_revoked_at r).
Definition set_se_idle_expires_at (v : instant) (r : Session) : Session :=
  mkSession (se_id_hash r) (se_user_id r) (se_created_at r) (se_expires_at r) (se_last_seen_at r)
    v (se_ip_hash r) (se_ua_hash r) (se_revoked_at r).
Definition set_se_revoked_at (v : option instant) (r : Session) : Session :=
  mkSession (se_id_hash r) (se_user_id r) (se_created_at r) (se_expires_at r) (se_last_seen_at r)
    (se_idle_expires_at r) (se_ip_hash r) (se_ua_hash r) v.

Record PlatformSetting := mkPlatformSetting {
  ps_key : pystr;
  ps_ciphertext : bytes;
  ps_nonce : bytes;
  ps_schema_version : Z;
  ps_updated_at : instant;
  ps_updated_by : uuid;
}.
Definition set_ps_ciphertext (v : bytes) (r : PlatformSetting) : PlatformSetting :=
  mkPlatformSetting (ps_key r) v (ps_nonce r) (ps_schema_version r) (ps_updated_at r)
    (ps_updated_by r).

Record AuditLog := mkAuditLog {
  al_id : uuid;
  al_actor_id : option uuid;
  al_action : pystr;
  al_target_type : option pystr;
  al_target_id : option pystr;
  al_ip_hash : bytes;
  al_at : instant;
  al_meta : list (pystr * json);
}.

Record Subject := mkSubject {
  su_id : uuid;
  su_kind : SubjectKind;
  su_value_norm : pystr;
  su_value_display : pystr;
  su_first_scanned_at : option instant;
  su_last_scanned_at : option instant;
  su_linked_user_id : option uuid;
}.
Definition set_su_value_display (v : pystr) (r : Subject) : Subject :=
  mkSubject (su_id r) (su_kind r) (su_value_norm r) v (su_first_scanned_at r)
    (su_last_scanned_at r) (su_linked_user_id r).
Definition set_su_first_scanned_at (v : option instant) (r : Subject) : Subject :=
  mkSubject (su_id r) (su_kind r) (su_value_norm r) (su_value_display r) v (su_last_scanned_at r)
    (su_linked_user_id r).
Definition set_su_last_scanned_at (v : option instant) (r : Subject) : Subject :=
  mkSubject (su_id r) (su_kind r) (su_value_norm r) (su_value_display r) (su_first_scanned_at r) v
    (su_linked_user_id r).
Definition set_su_linked_user_id (v : option uuid) (r : Subject) : Subject :=
  mkSubject (su_id r) (su_kind r) (su_value_norm r) (su_value_display r) (su_first_scanned_at r)
    (su_last_scanned_at r) v.

Record Scan := mkScan {
  sc_id : uuid;
  sc_subject_id : uuid;
  sc_requested_by : option uuid;
  sc_trigger : ScanTrigger;
  sc_status : ScanStatus;
  sc_started_at : option instant;
  sc_finished_at : option instant;
  sc_result_count : Z;
  sc_new_count : Z;
  sc_quota : option Z;
  sc_truncated : bool;
  sc_error : option pystr;
}.
Definition set_sc_status (v : ScanStatus) (r : Scan) : Scan :=
  mkScan (sc_id r) (sc_subject_id r) (sc_requested_by r) (sc_trigger r) v (sc_started_at r)
    (sc_finished_at r) (sc_result_count r) (sc_new_count r) (sc_quota r) (sc_truncated r)
    (sc_error r).
Definition set_sc_started_at (v : option instant) (r : Scan) : Scan :=
  mkScan (sc_id r) (sc_subject_id r) (sc_requested_by r) (sc_trigger r) (sc_status r) v
    (sc_finished_at r) (sc_result_count r) (sc_new_count r) (sc_quota r) (sc_truncated r)
    (sc_error r).
Definition set_sc_finished_at (v : option instant) (r : Scan) : Scan :=
  mkScan (sc_id r) (sc_subject_id r) (sc_requested_by r) (sc_trigger r) (sc_status r)
    (sc_started_at r) v (sc_result_count r) (sc_new_count r) (sc_quota r) (sc_truncated r)
    (sc_error r).
Definition set_sc_result_count (v : Z) (r : Scan) : Scan :=
  mkScan (sc_id r) (sc_subject_id r) (sc_requested_by r) (sc_trigger r) (sc_status r)
    (sc_started_at r) (sc_finished_at r) v (sc_new_count r) (sc_quota r) (sc_truncated r)
    (sc_error r).
Definition set_sc_new_count (v : Z) (r : Scan) : Scan :=
  mkScan (sc_id r) (sc_subject_id r) (sc_requested_by r) (sc_trigger r) (sc_status r)
    (sc_started_at r) (sc_finished_at r) (sc_result_count r) v (sc_quota r) (sc_truncated r)
    (sc_error r).
Definition set_sc_quota (v : option Z) (r : Scan) : Scan :=
  mkScan (sc_id r) (sc_subject_id r) (sc_requested_by r) (sc_trigger r) (sc_status r)
    (sc_started_at r) (sc_finished_at r) (sc_result_count r) (sc_new_count r) v (sc_truncated r)
    (sc_error r).
Definition set_sc_truncated (v : bool) (r : Scan) : Scan :=
  mkScan (sc_id r) (sc_subject_id r) (sc_requested_by r) (sc_trigger r) (sc_status r)
    (sc_started_at r) (sc_finished_at r) (sc_result_count r) (sc_new_count r) (sc_quota r) v
    (sc_error r).
Definition set_sc_error (v : option pystr) (r : Scan) : Scan :=
  mkScan (sc_id r) (sc_subject_id r) (sc_requested_by r) (sc_trigger r) (sc_status r)
    (sc_started_at r) (sc_finished_at r) (sc_result_count r) (sc_new_count r) (sc_quota r)
    (sc_truncated r) v.

Record BreachSource := mkBreachSource {
  bs_id : uuid;
  bs_name : pystr;
  bs_name_norm : pystr;
  bs_breach_date : option date;
  bs_breach_date_norm : date;
  bs_unverified : option bool;
  bs_passwordless : option bool;
  bs_compilation : option bool;
  bs_extra : list (pystr * json);
}.
Definition set_bs_unverified (v : option bool) (r : BreachSource) : BreachSource :=
  mkBreachSource (bs_id r) (bs_name r) (bs_name_norm r) (bs_breach_date r) (bs_breach_date_norm r)
    v (bs_passwordless r) (bs_compilation r) (bs_extra r).
Definition set_bs_passwordless (v : option bool) (r : BreachSource) : BreachSource :=
  mkBreachSource (bs_id r) (bs_name r) (bs_name_norm r) (bs_breach_date r) (bs_breach_date_norm r)
    (bs_unverified r) v (bs_compilation r) (bs_extra r).
Definition set_bs_compilation (v : option bool) (r : BreachSource) : BreachSource :=
  mkBreachSource (bs_id r) (bs_name r) (bs_name_norm r) (bs_breach_date r) (bs_breach_date_norm r)
    (bs_unverified r) (bs_passwordless r) v (bs_extra r).
Definition set_bs_extra (v : list (pystr * json)) (r : BreachSource) : BreachSource :=
  mkBreachSource (bs_id r) (bs_name r) (bs_name_norm r) (bs_breach_date r) (bs_breach_date_norm r)
    (bs_unverified r) (bs_passwordless r) (bs_compilation r) v.

Record Finding := mkFinding {
  f_id : uuid;
  f_subject_id : uuid;
  f_source_id : uuid;
  f_email : option pystr;
  f_username : option pystr;
  f_phone : option pystr;
  f_origin : option pystr;
  f_identity_key : option bytes;
  f_password_ciphertext : option bytes;
  f_password_nonce : option bytes;
  f_password_sha256 : option bytes;
  f_password_mask : option pystr;
  f_password_len : option Z;
  f_password_charset : option pystr;
  f_fields : list pystr;
  f_raw : list (pystr * json);
  f_fingerprint : bytes;
  f_severity : FindingSeverity;
  f_first_seen_at : instant;
  f_last_seen_at : instant;
  f_remediated_at : option instant;
  f_remediated_by : option uuid;
  f_remediation_note : option pystr;
  f_superseded_by_id : option uuid;
  f_notified_at : option instant;
}.
Definition set_f_origin (v : option pystr) (r : Finding) : Finding :=
  mkFinding (f_id r) (f_subject_id r) (f_source_id r) (f_email r) (f_username r) (f_phone r) v
    (f_identity_key r) (f_password_ciphertext r) (f_password_nonce r) (f_password_sha256 r)
    (f_password_mask r) (f_password_len r) (f_password_charset r) (f_fields r) (f_raw r)
    (f_fingerprint r) (f_severity r) (f_first_seen_at r) (f_last_seen_at r) (f_remediated_at r)
    (f_remediated_by r) (f_remediation_note r) (f_superseded_by_id r) (f_notified_at r).
Definition set_f_password_ciphertext (v : option bytes) (r : Finding) : Finding :=
  mkFinding (f_id r) (f_subject_id r) (f_source_id r) (f_email r) (f_username r) (f_phone r)
    (f_origin r) (f_identity_key r) v (f_password_nonce r) (f_password_sha256 r)
    (f_password_mask r) (f_password_len r) (f_password_charset r) (f_fields r) (f_raw r)
    (f_fingerprint r) (f_severity r) (f_first_seen_at r) (f_last_seen_at r) (f_remediated_at r)
    (f_remediated_by r) (f_remediation_note r) (f_superseded_by_id r) (f_notified_at r).
Definition set_f_fields (v : list pystr) (r : Finding) : Finding :=
  mkFinding (f_id r) (f_subject_id r) (f_source_id r) (f_email r) (f_username r) (f_phone r)
    (f_origin r) (f_identity_key r) (f_password_ciphertext r) (f_password_nonce r)
    (f_password_sha256 r) (f_password_mask r) (f_password_len r) (f_password_charset r) v
    (f_raw r) (f_fingerprint r) (f_severity r) (f_first_seen_at r) (f_last_seen_at r)
    (f_remediated_at r) (f_remediated_by r) (f_remediation_note r) (f_superseded_by_id r)
    (f_notified_at r).
Definition set_f_raw (v : list (pystr * json)) (r : Finding) : Finding :=
  mkFinding (f_id r) (f_subject_id r) (f_source_id r) (f_email r) (f_username r) (f_phone r)
    (f_origin r) (f_identity_key r) (f_password_ciphertext r) (f_password_nonce r)
    (f_password_sha256 r) (f_password_mask r) (f_password_len r) (f_password_charset r)
    (f_fields r) v (f_fingerprint r) (f_severity r) (f_first_seen_at r) (f_last_seen_at r)
    (f_remediated_at r) (f_remediated_by r) (f_remediation_note r) (f_superseded_by_id r)
    (f_notified_at r).
Definition set_f_severity (v : FindingSeverity) (r : Finding) : Finding :=
  mkFinding (f_id r) (f_subject_id r) (f_source_id r) (f_email r) (f_username r) (f_phone r)
    (f_origin r) (f_identity_key r) (f_password_ciphertext r) (f_password_nonce r)
    (f_password_sha256 r) (f_password_mask r) (f_password_len r) (f_password_charset r)
    (f_fields r) (f_raw r) (f_fingerprint r) v (f_first_seen_at r) (f_last_seen_at r)
    (f_remediated_at r) (f_remediated_by r) (f_remediation_note r) (f_superseded_by_id r)
    (f_notified_at r).
Definition set_f_last_seen_at (v : instant) (r : Finding) : Finding :=
  mkFinding (f_id r) (f_subject_id r) (f_source_id r) (f_email r) (f_username r) (f_phone r)
    (f_origin r) (f_identity_key r) (f_password_ciphertext r) (f_password_nonce r)
    (f_password_sha256 r) (f_password_mask r) (f_password_len r) (f_password_charset r)
    (f_fields r) (f_raw r) (f_fingerprint r) (f_severity r) (f_first_seen_at r) v
    (f_remediated_at r) (f_remediated_by r) (f_remediation_note r) (f_superseded_by_id r)
    (f_notified_at r).
Definition set_f_remediated_at (v : option instant) (r : Finding) : Finding :=
  mkFinding (f_id r) (f_subject_id r) (f_source_id r) (f_email r) (f_username r) (f_phone r)
    (f_origin r) (f_identity_key r) (f_password_ciphertext r) (f_password_nonce r)
    (f_password_sha256 r) (f_password_mask r) (f_password_len r) (f_password_charset r)
    (f_fields r) (f_raw r) (f_fingerprint r) (f_severity r) (f_first_seen_at r) (f_last_seen_at r)
    v (f_remediated_by r) (f_remediation_note r) (f_superseded_by_id r) (f_notified_at r).
Definition set_f_remediated_by (v : option uuid) (r : Finding) : Finding :=
  mkFinding (f_id r) (f_subject_id r) (f_source_id r) (f_email r) (f_username r) (f_phone r)
    (f_origin r) (f_identity_key r) (f_password_ciphertext r) (f_password_nonce r)
    (f_password_sha256 r) (f_password_mask r) (f_password_len r) (f_password_charset r)
    (f_fields r) (f_raw r) (f_fingerprint r) (f_severity r) (f_first_seen_at r) (f_last_seen_at r)
    (f_remediated_at r) v (f_remediation_note r) (f_superseded_by_id r) (f_notified_at r).
Definition set_f_remediation_note (v : option pystr) (r : Finding) : Finding :=
  mkFinding (f_id r) (f_subject_id r) (f_source_id r) (f_email r) (f_username r) (f_phone r)
    (f_origin r) (f_identity_key r) (f_password_ciphertext r) (f_password_nonce r)
    (f_password_sha256 r) (f_password_mask r) (f_password_len r) (f_password_charset r)
    (f_fields r) (f_raw r) (f_fingerprint r) (f_severity r) (f_first_seen_at r) (f_last_seen_at r)
    (f_remediated_at r) (f_remediated_by r) v (f_superseded_by_id r) (f_notified_at r).
Definition set_f_superseded_by_id (v : option uuid) (r : Finding) : Finding :=
  mkFinding (f_id r) (f_subject_id r) (f_source_id r) (f_email r) (f_username r) (f_phone r)
    (f_origin r) (f_identity_key r) (f_password_ciphertext r) (f_password_nonce r)
    (f_password_sha256 r) (f_password_mask r) (f_password_len r) (f_password_charset r)
    (f_fields r) (f_raw r) (f_fingerprint r) (f_severity r) (f_first_seen_at r) (f_last_seen_at r)
    (f_remediated_at r) (f_remediated_by r) (f_remediation_note r) v (f_notified_at r).

Record FindingEvent := mkFindingEvent {
  fe_id : uuid;
  fe_finding_id : uuid;
  fe_event : FindingEventType;
  fe_actor_id : option uuid;
  fe_at : instant;
  fe_meta : list (pystr * json);
}.

Record ScanBatch := mkScanBatch {
  sb_id : uuid;
  sb_target_type : BatchTarget;
  sb_target : list (pystr * json);
  sb_status : BatchStatus;
  sb_created_by : uuid;
  sb_total_count : Z;
  sb_completed_count : Z;
  sb_failed_count : Z;
  sb_created_at : instant;
  sb_started_at : option instant;
  sb_finished_at : option instant;
}.
Definition set_sb_status (v : BatchStatus) (r : ScanBatch) : ScanBatch :=
  mkScanBatch (sb_id r) (sb_target_type r) (sb_target r) v (sb_created_by r) (sb_total_count r)
    (sb_completed_count r) (sb_failed_count r) (sb_created_at r) (sb_started_at r)
    (sb_finished_at r).
Definition set_sb_completed_count (v : Z) (r : ScanBatch) : ScanBatch :=
  mkScanBatch (sb_id r) (sb_target_type r) (sb_target r) (sb_status r) (sb_created_by r)
    (sb_total_count r) v (sb_failed_count r) (sb_created_at r) (sb_started_at r)
    (sb_finished_at r).
Definition set_sb_failed_count (v : Z) (r : ScanBatch) : ScanBatch :=
  mkScanBatch (sb_id r) (sb_target_type r) (sb_target r) (sb_status r) (sb_created_by r)
    (sb_total_count r) (sb_completed_count r) v (sb_created_at r) (sb_started_at r)
    (sb_finished_at r).
Definition set_sb_started_at (v : option instant) (r : ScanBatch) : ScanBatch :=
  mkScanBatch (sb_id r) (sb_target_type r) (sb_target r) (sb_status r) (sb_created_by r)
    (sb_total_count r) (sb_completed_count r) (sb_failed_count r) (sb_created_at r) v
    (sb_finished_at r).
Definition set_sb_finished_at (v : option instant) (r : ScanBatch) : ScanBatch :=
  mkScanBatch (sb_id r) (sb_target_type r) (sb_target r) (sb_status r) (sb_created_by r)
    (sb_total_count r) (sb_completed_count r) (sb_failed_count r) (sb_created_at r)
    (sb_started_at r) v.

Record ScanQueue := mkScanQueue {
  q_id : uuid;
  q_batch_id : uuid;
  q_subject_id : uuid;
  q_status : QueueStatus;
  q_attempts : Z;
  q_locked_by : option pystr;
  q_locked_at : option instant;
  q_last_error : option pystr;
  q_created_at : instant;
  q_finished_at : option instant;
}.

Record Schedule := mkSchedule {
  sd_id : uuid;
  sd_kind : ScheduleKind;
  sd_target : pystr;
  sd_cron : pystr;
  sd_timezone : pystr;
  sd_enabled : bool;
  sd_misfire_grace_seconds : Z;
  sd_last_run_at : option instant;
  sd_last_batch_id : option uuid;
  sd_next_run_at : instant;
  sd_last_error : option pystr;
  sd_created_by : uuid;
  sd_created_at : instant;
}.
Definition set_sd_enabled (v : bool) (r : Schedule) : Schedule :=
  mkSchedule (sd_id r) (sd_kind r) (sd_target r) (sd_cron r) (sd_timezone r) v
    (sd_misfire_grace_seconds r) (sd_last_run_at r) (sd_last_batch_id r) (sd_next_run_at r)
    (sd_last_error r) (sd_created_by r) (sd_created_at r).
Definition set_sd_last_run_at (v : option instant) (r : Schedule) : Schedule :=
  mkSchedule (sd_id r) (sd_kind r) (sd_target r) (sd_cron r) (sd_timezone r) (sd_enabled r)
    (sd_misfire_grace_seconds r) v (sd_last_batch_id r) (sd_next_run_at r) (sd_last_error r)
    (sd_created_by r) (sd_created_at r).
Definition set_sd_last_batch_id (v : option uuid) (r : Schedule) : Schedule :=
  mkSchedule (sd_id r) (sd_kind r) (sd_target r) (sd_cron r) (sd_timezone r) (sd_enabled r)
    (sd_misfire_grace_seconds r) (sd_last_run_at r) v (sd_next_run_at r) (sd_last_error r)
    (sd_created_by r) (sd_created_at r).
Definition set_sd_next_run_at (v : instant) (r : Schedule) : Schedule :=
  mkSchedule (sd_id r) (sd_kind r) (sd_target r) (sd_cron r) (sd_timezone r) (sd_enabled r)
    (sd_misfire_grace_seconds r) (sd_last_run_at r) (sd_last_batch_id r) v (sd_last_error r)
    (sd_created_by r) (sd_created_at r).
Definition set_sd_last_error (v : option pystr) (r : Schedule) : Schedule :=
  mkSchedule (sd_id r) (sd_kind r) (sd_target r) (sd_cron r) (sd_timezone r) (sd_enabled r)
    (sd_misfire_grace_seconds r) (sd_last_run_at r) (sd_last_batch_id r) (sd_next_run_at r) v
    (sd_created_by r) (sd_created_at r).

Record Notification := mkNotification {
  n_id : uuid;
  n_user_id : uuid;
  n_template : pystr;
  n_finding_ids : list pystr;
  n_status : NotificationStatus;
  n_dedupe_key : bytes;
  n_attempts : Z;
  n_error : option pystr;
  n_created_at : instant;
  n_sent_at : option instant;
}.
Definition set_n_status (v : NotificationStatus) (r : Notification) : Notification :=
  mkNotification (n_id r) (n_user_id r) (n_template r) (n_finding_ids r) v (n_dedupe_key r)
    (n_attempts r) (n_error r) (n_created_at r) (n_sent_at r).
Definition set_n_attempts (v : Z) (r : Notification) : Notification :=
  mkNotification (n_id r) (n_user_id r) (n_template r) (n_finding_ids r) (n_status r)
    (n_dedupe_key r) v (n_error r) (n_created_at r) (n_sent_at r).
Definition set_n_error (v : option pystr) (r : Notification) : Notification :=
  mkNotification (n_id r) (n_user_id r) (n_template r) (n_finding_ids r) (n_status r)
    (n_dedupe_key r) (n_attempts r) v (n_created_at r) (n_sent_at r).
Definition set_n_sent_at (v : option instant) (r : Notification) : Notification :=
  mkNotification (n_id r) (n_user_id r) (n_template r) (n_finding_ids r) (n_status r)
    (n_dedupe_key r) (n_attempts r) (n_error r) (n_created_at r) v.

Record WatchlistEntry := mkWatchlistEntry {
  wl_id : uuid;
  wl_subject_id : option uuid;
  wl_user_id : option uuid;
  wl_alert_soc : bool;
  wl_alert_user : bool;
  wl_alert_wazuh : bool;
  wl_alert_iris : bool;
  wl_enabled : bool;
  wl_created_by : uuid;
  wl_created_at : instant;
}.
Definition set_wl_alert_soc (v : bool) (r : WatchlistEntry) : WatchlistEntry :=
  mkWatchlistEntry (wl_id r) (wl_subject_id r) (wl_user_id r) v (wl_alert_user r)
    (wl_alert_wazuh r) (wl_alert_iris r) (wl_enabled r) (wl_created_by r) (wl_created_at r).
Definition set_wl_alert_user (v : bool) (r : WatchlistEntry) : WatchlistEntry :=
  mkWatchlistEntry (wl_id r) (wl_subject_id r) (wl_user_id r) (wl_alert_soc r) v
    (wl_alert_wazuh r) (wl_alert_iris r) (wl_enabled r) (wl_created_by r) (wl_created_at r).
Definition set_wl_alert_wazuh (v : bool) (r : WatchlistEntry) : WatchlistEntry :=
  mkWatchlistEntry (wl_id r) (wl_subject_id r) (wl_user_id r) (wl_alert_soc r) (wl_alert_user r) v
    (wl_alert_iris r) (wl_enabled r) (wl_created_by r) (wl_created_at r).
Definition set_wl_alert_iris (v : bool) (r : WatchlistEntry) : WatchlistEntry :=
  mkWatchlistEntry (wl_id r) (wl_subject_id r) (wl_user_id r) (wl_alert_soc r) (wl_alert_user r)
    (wl_alert_wazuh r) v (wl_enabled r) (wl_created_by r) (wl_created_at r).
Definition set_wl_enabled (v : bool) (r : WatchlistEntry) : WatchlistEntry :=
  mkWatchlistEntry (wl_id r) (wl_subject_id r) (wl_user_id r) (wl_alert_soc r) (wl_alert_user r)
    (wl_alert_wazuh r) (wl_alert_iris r) v (wl_created_by r) (wl_created_at r).

Record AlertOutbox := mkAlertOutbox {
  ao_id : uuid;
  ao_sink : AlertSinkName;
  ao_payload : list (pystr * json);
  ao_status : AlertOutboxStatus;
  ao_dedupe_key : bytes;
  ao_attempts : Z;
  ao_next_attempt_at : instant;
  ao_last_error : option pystr;
  ao_created_at : instant;
  ao_delivered_at : option instant;
}.
Definition set_ao_status (v : AlertOutboxStatus) (r : AlertOutbox) : AlertOutbox :=
  mkAlertOutbox (ao_id r) (ao_sink r) (ao_payload r) v (ao_dedupe_key r) (ao_attempts r)
    (ao_next_attempt_at r) (ao_last_error r) (ao_created_at r) (ao_delivered_at r).
Definition set_ao_attempts (v : Z) (r : AlertOutbox) : AlertOutbox :=
  mkAlertOutbox (ao_id r) (ao_sink r) (ao_payload r) (ao_status r) (ao_dedupe_key r) v
    (ao_next_attempt_at r) (ao_last_error r) (ao_created_at r) (ao_delivered_at r).
Definition set_ao_next_attempt_at (v : instant) (r : AlertOutbox) : AlertOutbox :=
  mkAlertOutbox (ao_id r) (ao_sink r) (ao_payload r) (ao_status r) (ao_dedupe_key r)
    (ao_attempts r) v (ao_last_error r) (ao_created_at r) (ao_delivered_at r).
Definition set_ao_last_error (v : option pystr) (r : AlertOutbox) : AlertOutbox :=
  mkAlertOutbox (ao_id r) (ao_sink r) (ao_payload r) (ao_status r) (ao_dedupe_key r)
    (ao_attempts r) (ao_next_attempt_at r) v (ao_created_at r) (ao_delivered_at r).
Definition set_ao_delivered_at (v : option instant) (r : AlertOutbox) : AlertOutbox :=
  mkAlertOutbox (ao_id r) (ao_sink r) (ao_payload r) (ao_status r) (ao_dedupe_key r)
    (ao_attempts r) (ao_next_attempt_at r) (ao_last_error r) (ao_created_at r) v.

Record Branding := mkBranding {
  br_id : Z;
  br_organization_name : option pystr;
  br_logo : option bytes;
  br_logo_content_type : option pystr;
  br_logo_sha256 : option pystr;
  br_updated_at : instant;
}.
Definition set_br_organization_name (v : option pystr) (r : Branding) : Branding :=
  mkBranding (br_id r) v (br_logo r) (br_logo_content_type r) (br_logo_sha256 r) (br_updated_at r).
Definition set_br_logo (v : option bytes) (r : Branding) : Branding :=
  mkBranding (br_id r) (br_organization_name r) v (br_logo_content_type r) (br_logo_sha256 r)
    (br_updated_at r).
Definition set_br_logo_content_type (v : option pystr) (r : Branding) : Branding :=
  mkBranding (br_id r) (br_organization_name r) (br_logo r) v (br_logo_sha256 r) (br_updated_at r).
Definition set_br_logo_sha256 (v : option pystr) (r : Branding) : Branding :=
  mkBranding (br_id r) (br_organization_name r) (br_logo r) (br_logo_content_type r) v
    (br_updated_at r).

(** ** Check constraints *)

Definition octets (n : nat) (b : bytes) : bool := (length b =? n)%nat.
Definition null_or {A} (p : A -> bool) (o : option A) : bool := match o with Some a => p a | None => true end.

Definition AdminCredential_ok (r : AdminCredential) : bool := 0 <=? ac_failed_attempts r.
Definition AdminLoginRateLimit_ok (r : AdminLoginRateLimit) : bool :=
  (0 <=? rl_attempts r) && octets 32 (rl_ip_hash r).
Definition Session_ok (r : Session) : bool :=
  (se_created_at r <? se_expires_at r) && (se_created_at r <? se_idle_expires_at r)
  && octets 32 (se_id_hash r) && octets 32 (se_ip_hash r) && octets 32 (se_ua_hash r).
Definition PlatformSetting_ok (r : PlatformSetting) : bool :=
  octets 12 (ps_nonce r) && (0 <? ps_schema_version r).
Definition AuditLog_ok (r : AuditLog) : bool := octets 32 (al_ip_hash r).
(** A count in an [INTEGER] column: non-negative, and of four octets. *)
Definition count4 (n : Z) : bool := (0 <=? n) && (n <? 2 ^ 31).
Definition Scan_ok (r : Scan) : bool :=
  count4 (sc_result_count r) && count4 (sc_new_count r) && null_or count4 (sc_quota r).
Definition Finding_ok (r : Finding) : bool :=
  octets 32 (f_fingerprint r) && null_or (octets 32) (f_identity_key r)
  && null_or (octets 32) (f_password_sha256 r) && null_or (octets 12) (f_password_nonce r)
  && null_or (Z.leb 0) (f_password_len r).
Definition ScanBatch_ok (r : ScanBatch) : bool :=
  (0 <=? sb_total_count r) && (0 <=? sb_completed_count r) && (0 <=? sb_failed_count r).
Definition ScanQueue_ok (r : ScanQueue) : bool := 0 <=? q_attempts r.
Definition Schedule_ok (r : Schedule) : bool := 0 <=? sd_misfire_grace_seconds r.
Definition Notification_ok (r : Notification) : bool :=
  octets 32 (n_dedupe_key r) && (0 <=? n_attempts r).
Definition WatchlistEntry_ok (r : WatchlistEntry) : bool :=
  xorb (bool_decide (is_Some (wl_subject_id r))) (bool_decide (is_Some (wl_user_id r))).
Definition AlertOutbox_ok (r : AlertOutbox) : bool :=
  octets 32 (ao_dedupe_key r) && (0 <=? ao_attempts r).
Definition Branding_ok (r : Branding) : bool :=
  (br_id r =? 1) && null_or (fun b => (Z.of_nat (length b) <=? 1048576)) (br_logo r).

(** ** The database *)

Record Db := mkDb {
  users : gmap uuid User;
  admin_credentials : gmap uuid AdminCredential;
  rate_limits : gmap bytes AdminLoginRateLimit;
  sessions : gmap bytes Session;
  platform_settings : gmap pystr PlatformSetting;
  audit_log : list AuditLog;
  subjects : gmap uuid Subject;
  scans : gmap uuid Scan;
  breach_sources : gmap uuid BreachSource;
  findings : gmap uuid Finding;
  finding_events : list FindingEvent;
  scan_batches : gmap uuid ScanBatch;
  scan_queue : gmap uuid ScanQueue;
  schedules : gmap uuid Schedule;
  notifications : gmap uuid Notification;
  watchlist : gmap uuid WatchlistEntry;
  alert_outbox : gmap uuid AlertOutbox;
  branding : option Branding;
}.

Definition empty_db : Db := mkDb ∅ ∅ ∅ ∅ ∅ [] ∅ ∅ ∅ ∅ [] ∅ ∅ ∅ ∅ ∅ ∅ None.

Definition set_users (v : gmap uuid User) (d : Db) : Db :=
  mkDb v (admin_credentials d) (rate_limits d) (sessions d) (platform_settings d) (audit_log d)
    (subjects d) (scans d) (breach_sources d) (findings d) (finding_events d) (scan_batches d)
    (scan_queue d) (schedules d) (notifications d) (watchlist d) (alert_outbox d) (branding d).
Definition set_admin_credentials (v : gmap uuid AdminCredential) (d : Db) : Db :=
  mkDb (users d) v (rate_limits d) (sessions d) (platform_settings d) (audit_log d) (subjects d)
    (scans d) (breach_sources d) (findings d) (finding_events d) (scan_batches d) (scan_queue d)
    (schedules d) (notifications d) (watchlist d) (alert_outbox d) (branding d).
Definition set_rate_limits (v : gmap bytes AdminLoginRateLimit) (d : Db) : Db :=
  mkDb (users d) (admin_credentials d) v (sessions d) (platform_settings d) (audit_log d)
    (subjects d) (scans d) (breach_sources d) (findings d) (finding_events d) (scan_batches d)
    (scan_queue d) (schedules d) (notifications d) (watchlist d) (alert_outbox d) (branding d).
Definition set_sessions (v : gmap bytes Session) (d : Db) : Db :=
  mkDb (users d) (admin_credentials d) (rate_limits d) v (platform_settings d) (audit_log d)
    (subjects d) (scans d) (breach_sources d) (findings d) (finding_events d) (scan_batches d)
    (scan_queue d) (schedules d) (notifications d) (watchlist d) (alert_outbox d) (branding d).
Definition set_platform_settings (v : gmap pystr PlatformSetting) (d : Db) : Db :=
  mkDb (users d) (admin_credentials d) (rate_limits d) (sessions d) v (audit_log d) (subjects d)
    (scans d) (breach_sources d) (findings d) (finding_events d) (scan_batches d) (scan_queue d)
    (schedules d) (notifications d) (watchlist d) (alert_outbox d) (branding d).
Definition set_audit_log (v : list AuditLog) (d : Db) : Db :=
  mkDb (users d) (admin_credentials d) (rate_limits d) (sessions d) (platform_settings d) v
    (subjects d) (scans d) (breach_sources d) (findings d) (finding_events d) (scan_batches d)
    (scan_queue d) (schedules d) (notifications d) (watchlist d) (alert_outbox d) (branding d).
Definition set_subjects (v : gmap uuid Subject) (d : Db) : Db :=
  mkDb (users d) (admin_credentials d) (rate_limits d) (sessions d) (platform_settings d)
    (audit_log d) v (scans d) (breach_sources d) (findings d) (finding_events d) (scan_batches d)
    (scan_queue d) (schedules d) (notifications d) (watchlist d) (alert_outbox d) (branding d).
Definition set_scans (v : gmap uuid Scan) (d : Db) : Db :=
  mkDb (users d) (admin_credentials d) (rate_limits d) (sessions d) (platform_settings d)
    (audit_log d) (subjects d) v (breach_sources d) (findings d) (finding_events d)
    (scan_batches d) (scan_queue d) (schedules d) (notifications d) (watchlist d) (alert_outbox d)
    (branding d).
Definition set_breach_sources (v : gmap uuid BreachSource) (d : Db) : Db :=
  mkDb (users d) (admin_credentials d) (rate_limits d) (sessions d) (platform_settings d)
    (audit_log d) (subjects d) (scans d) v (findings d) (finding_events d) (scan_batches d)
    (scan_queue d) (schedules d) (notifications d) (watchlist d) (alert_outbox d) (branding d).
Definition set_findings (v : gmap uuid Finding) (d : Db) : Db :=
  mkDb (users d) (admin_credentials d) (rate_limits d) (sessions d) (platform_settings d)
    (audit_log d) (subjects d) (scans d) (breach_sources d) v (finding_events d) (scan_batches d)
    (scan_queue d) (schedules d) (notifications d) (watchlist d) (alert_outbox d) (branding d).
Definition set_finding_events (v : list FindingEvent) (d : Db) : Db :=
  mkDb (users d) (admin_credentials d) (rate_limits d) (sessions d) (platform_settings d)
    (audit_log d) (subjects d) (scans d) (breach_sources d) (findings d) v (scan_batches d)
    (scan_queue d) (schedules d) (notifications d) (watchlist d) (alert_outbox d) (branding d).
Definition set_scan_batches (v : gmap uuid ScanBatch) (d : Db) : Db :=
  mkDb (users d) (admin_credentials d) (rate_limits d) (sessions d) (platform_settings d)
    (audit_log d) (subjects d) (scans d) (breach_sources d) (findings d) (finding_events d) v
    (scan_queue d) (schedules d) (notifications d) (watchlist d) (alert_outbox d) (branding d).
Definition set_scan_queue (v : gmap uuid ScanQueue) (d : Db) : Db :=
  mkDb (users d) (admin_credentials d) (rate_limits d) (sessions d) (platform_settings d)
    (audit_log d) (subjects d) (scans d) (breach_sources d) (findings d) (finding_events d)
    (scan_batches d) v (schedules d) (notifications d) (watchlist d) (alert_outbox d) (branding d).
Definition set_schedules (v : gmap uuid Schedule) (d : Db) : Db :=
  mkDb (users d) (admin_credentials d) (rate_limits d) (sessions d) (platform_settings d)
    (audit_log d) (subjects d) (scans d) (breach_sources d) (findings d) (finding_events d)
    (scan_batches d) (scan_queue d) v (notifications d) (watchlist d) (alert_outbox d)
    (branding d).
Definition set_notifications (v : gmap uuid Notification) (d : Db) : Db :=
  mkDb (users d) (admin_credentials d) (rate_limits d) (sessions d) (platform_settings d)
    (audit_log d) (subjects d) (scans d) (breach_sources d) (findings d) (finding_events d)
    (scan_batches d) (scan_queue d) (schedules d) v (watchlist d) (alert_outbox d) (branding d).
Definition set_watchlist (v : gmap uuid WatchlistEntry) (d : Db) : Db :=
  mkDb (users d) (admin_credentials d) (rate_limits d) (sessions d) (platform_settings d)
    (audit_log d) (subjects d) (scans d) (breach_sources d) (findings d) (finding_events d)
    (scan_batches d) (scan_queue d) (schedules d) (notifications d) v (alert_outbox d)
    (branding d).
Definition set_alert_outbox (v : gmap uuid AlertOutbox) (d : Db) : Db :=
  mkDb (users d) (admin_credentials d) (rate_limits d) (sessions d) (platform_settings d)
    (audit_log d) (subjects d) (scans d) (breach_sources d) (findings d) (finding_events d)
    (scan_batches d) (scan_queue d) (schedules d) (notifications d) (watchlist d) v (branding d).
Definition set_branding (v : option Branding) (d : Db) : Db :=
  mkDb (users d) (admin_credentials d) (rate_limits d) (sessions d) (platform_settings d)
    (audit_log d) (subjects d) (scans d) (breach_sources d) (findings d) (finding_events d)
    (scan_batches d) (scan_queue d) (schedules d) (notifications d) (watchlist d) (alert_outbox d)
    v.
