(* ===== verification/Store.v ===== *)
(** The environment of every stateful operation: one SQLAlchemy session over the database (the
    session's view and the committed state, app/db.py), the clock, and the sources of fresh
    identifiers and random octets; the error monad over it; and the query helpers. *)
From S2P Require Import Prelude PyBase Encoding Hashes Json Models.

(** [uuid.uuid4] and [secrets.token_bytes]: the [n]-th draw of a process. *)
Class Entropy := {
  uuid_at : nat -> uuid;
  octets_at : nat -> nat -> bytes;  (* draw number, width *)
}.
Class EntropyLaws `{Entropy} : Prop := {
  uuid_at_fresh : forall m n, (m < n)%nat -> Z.of_nat n < 2 ^ 64 -> uuid_at m <> uuid_at n;
  uuid_at_range : forall n, 0 <= uuid_at n < 2 ^ 128;
  octets_at_length : forall n w, length (octets_at n w) = w;
  octets_at_range : forall n w, Forall (fun x => 0 <= x < 256) (octets_at n w);
}.

(** A draw sequence for evaluation: consecutive identifiers, and octets that name the draw. *)
Definition counting_entropy : Entropy := {|
  uuid_at n := Z.of_nat n mod 2 ^ 128;
  octets_at n w := be_split w (Z.of_nat n);
|}.

#[export] Instance counting_entropy_laws : @EntropyLaws counting_entropy.
Proof.
  constructor; simpl.
  - intros m n Hmn Hn. rewrite !Z.mod_small by lia. lia.
  - intros n. apply Z.mod_pos_bound. lia.
  - intros n w. apply length_be_split.
  - intros n w. apply be_split_range.
Qed.

(** PostgreSQL returns rows in no particular order unless a query asks for one. *)
Class HeapOrder := heap_order : forall A, list A -> list A.
Class HeapOrderLaws `{HeapOrder} : Prop := {
  heap_order_perm : forall A (l : list A), heap_order A l ≡ₚ l;
}.
Definition plain_heap : HeapOrder := fun _ l => l.

(** Case folding and order of a [CITEXT] column are the database's: it lower-cases character by
    character, and no character folds to one that is special in a pattern or an address. *)
Class Collation := {
  citext_char : Z -> Z;
  citext_leb : pystr -> pystr -> bool;
}.
Definition special_char (c : Z) : Prop := c = 37 \/ c = 64 \/ c = 92 \/ c = 95.
Class CollationLaws `{Collation} : Prop := {
  citext_special : forall c, special_char c -> citext_char c = c;
  citext_not_special : forall c, special_char (citext_char c) -> citext_char c = c;
}.
Definition ascii_collation : Collation := {| citext_char := to_lower; citext_leb := str_leb |}.
#[export] Instance ascii_collation_laws : @CollationLaws ascii_collation.
Proof.
  constructor; unfold special_char, citext_char, ascii_collation, to_lower, ascii_upper; intros c;
    destruct (_ && _) eqn:E; try done; lia.
Qed.
Definition citext_lower `{Collation} (s : pystr) : pystr := map citext_char s.
(** Equality of a [CITEXT] column with a text. *)
Definition citext_eq `{Collation} (a b : pystr) : bool := bool_decide (citext_lower a = citext_lower b).

Record World := mkWorld {
  w_db : Db;              (* what the session sees: committed state and its own changes *)
  w_committed : Db;       (* what is durable *)
  w_draws : nat;          (* identifiers and random strings drawn so far *)
  w_now : instant;        (* the clock *)
}.

Definition with_db (d : Db) (w : World) : World := mkWorld d (w_committed w) (w_draws w) (w_now w).

(** A step either returns a value or raises, and threads its state through either way. *)
Definition ST (S A : Type) : Type := S -> result A * S.
(** Code with a database session: an exception keeps the session's changes so far. *)
Definition M : Type -> Type := ST World.

Definition mret {S A} (a : A) : ST S A := fun w => (Ok a, w).
Definition raise {S A} (e : exn) : ST S A := fun w => (Raise e, w).
Definition mbind {S A B} (c : ST S A) (k : A -> ST S B) : ST S B := fun w =>
  match c w with
  | (Ok a, w') => k a w'
  | (Raise e, w') => (Raise e, w')
  end.
Definition lift {S A} (r : result A) : ST S A := fun w => (r, w).

Notation "'let!' p <- c ; k" := (mbind c (fun p => k))
  (at level 100, p pattern, c at next level, k at level 200, right associativity) : py_scope.
Notation "'do!' c ; k" := (mbind c (fun _ => k))
  (at level 100, c at next level, k at level 200, right associativity) : py_scope.

(** [try: c / except <handled>: h] *)
Definition try_except {S A} (c : ST S A) (handled : exn -> bool) (h : exn -> ST S A) : ST S A := fun w =>
  match c w with
  | (Raise e, w') => if handled e then h e w' else (Raise e, w')
  | r => r
  end.

Fixpoint mfor {S A B} (f : A -> ST S B) (l : list A) : ST S (list B) :=
  match l with
  | [] => mret []
  | x :: t => let! y <- f x; let! ys <- mfor f t; mret (y :: ys)
  end.

(** A [for] loop that threads local variables. *)
Fixpoint mfold {W A S} (f : S -> A -> ST W S) (s : S) (l : list A) : ST W S :=
  match l with
  | [] => mret s
  | x :: t => let! s' <- f s x; mfold f s' t
  end.

Definition get_db : M Db := fun w => (Ok (w_db w), w).
Definition modify_db (f : Db -> Db) : M unit := fun w => (Ok tt, with_db (f (w_db w)) w).
Definition clock : M instant := fun w => (Ok (w_now w), w).
Definition uuid4 `{Entropy} : M uuid := fun w =>
  (Ok (uuid_at (w_draws w)), mkWorld (w_db w) (w_committed w) (S (w_draws w)) (w_now w)).
Definition token_bytes `{Entropy} (n : nat) : M bytes := fun w =>
  (Ok (octets_at (w_draws w) n), mkWorld (w_db w) (w_committed w) (S (w_draws w)) (w_now w)).

(** [session.commit()], [session.rollback()], and a [begin_nested()] savepoint, which undoes the
    block's changes when it raises. *)
Definition commit : M unit := fun w => (Ok tt, mkWorld (w_db w) (w_db w) (w_draws w) (w_now w)).
Definition rollback : M unit := fun w =>
  (Ok tt, mkWorld (w_committed w) (w_committed w) (w_draws w) (w_now w)).
Definition begin_nested {A} (c : M A) : M A := fun w =>
  match c w with
  | (Raise e, w') => (Raise e, with_db (w_db w) w')
  | r => r
  end.

(** [get_db_session] around a request handler: commit after success, roll back and re-raise any
    exception.  The commit after the handler cannot fail here (a lost connection is not modelled); a handler that can leave a
    row which the database refuses has its own flush (scans: [Scans.flush_scan]).  What the pair does not say is
    when the answer leaves: with the FastAPI that the project pins it is sent before this commit. *)
Definition get_db_session {A} (handler : M A) : M A := fun w =>
  match handler w with
  | (Ok a, w') => (Ok a, (commit w').2)
  | (Raise e, w') => if is_exception e then (Raise e, (rollback w').2) else (Raise e, w')
  end.

(** [async with session_factory() as db]: leaving the block without a commit discards the changes. *)
Definition session_scope {A} (block : M A) : M A := fun w =>
  let '(r, w') := block (mkWorld (w_committed w) (w_committed w) (w_draws w) (w_now w)) in
  (r, (rollback w').2).

(** The rows of a table that satisfy a condition. *)
Definition select `{Countable K} {V} `{HeapOrder} (p : V -> bool) (t : gmap K V) : list V :=
  heap_order V (List.filter p (map_to_list t).*2).

(** Insertion of a row whose key must be new and whose check constraints must hold. *)
Definition insert_row `{Countable K} {V} (ok : bool) (k : K) (v : V) (t : gmap K V)
  : result (gmap K V) :=
  if ok then match t !! k with None => Ok (<[k := v]> t) | Some _ => Raise IntegrityError end
  else Raise IntegrityError.

(** [_utc_now(value)]: the given instant or the clock, converted to UTC; [ValueError] when the given
    one has no offset. Every service module repeats this helper. *)
Definition utc_now_m (value : option pydatetime) : M instant := fun w =>
  (utc_now (w_now w) value, w).

(** The row that a unique constraint singles out. *)
Definition find_row `{Countable K} {V} (p : V -> bool) (t : gmap K V) : option V :=
  List.find p (map_to_list t).*2.

Arguments insert_row : simpl never.
Arguments find_row : simpl never.
Arguments select : simpl never.

(** [scalar_one()] *)
Definition scalar_one {A} (o : option A) : M A :=
  match o with Some a => mret a | None => raise NoResultFound end.

(** [ORDER BY]: a stable sort by a key comparison. *)
Fixpoint insert_by {A} (leb : A -> A -> bool) (x : A) (l : list A) : list A :=
  match l with
  | [] => [x]
  | y :: t => if leb x y then x :: l else y :: insert_by leb x t
  end.
Fixpoint sort_by {A} (leb : A -> A -> bool) (l : list A) : list A :=
  match l with [] => [] | x :: t => insert_by leb x (sort_by leb t) end.

(** ** The monad's equations *)

Lemma mbind_ok {S A B} (c : ST S A) (k : A -> ST S B) w a w' :
  c w = (Ok a, w') -> mbind c k w = k a w'.
Proof. unfold mbind. by intros ->. Qed.

Lemma mbind_raise {S A B} (c : ST S A) (k : A -> ST S B) w e w' :
  c w = (Raise e, w') -> mbind c k w = (Raise e, w').
Proof. unfold mbind. by intros ->. Qed.

Lemma mbind_inv {S A B} (c : ST S A) (k : A -> ST S B) w b w' :
  mbind c k w = (Ok b, w') -> exists a w1, c w = (Ok a, w1) /\ k a w1 = (Ok b, w').
Proof. unfold mbind. destruct (c w) as [[a|e] w1]; [eauto|done]. Qed.

Lemma mbind_inv_raise {S A B} (c : ST S A) (k : A -> ST S B) w e w' :
  mbind c k w = (Raise e, w') ->
  c w = (Raise e, w') \/ exists a w1, c w = (Ok a, w1) /\ k a w1 = (Raise e, w').
Proof. unfold mbind. destruct (c w) as [[a|e1] w1]; [eauto|]. intros [= -> ->]. by left. Qed.

Lemma lift_inv {S A} (r : result A) (w : S) a w' : lift r w = (Ok a, w') -> r = Ok a /\ w' = w.
Proof. unfold lift. by intros [= -> ->]. Qed.

(** A loop invariant holds after the loop. *)
Lemma mfold_inv {W A S} (f : S -> A -> ST W S) (I : S -> W -> Prop) l s w s' w' :
  (forall x s1 w1 s2 w2, x ∈ l -> I s1 w1 -> f s1 x w1 = (Ok s2, w2) -> I s2 w2) ->
  I s w -> mfold f s l w = (Ok s', w') -> I s' w'.
Proof.
  revert s w. induction l as [|x l IH]; intros s w Hstep Hi; cbn [mfold]; [by intros [= <- <-]|].
  intros (s1&w1&H1&H2)%mbind_inv. eapply (IH s1 w1); [|eapply (Hstep x); [left|done|done]|done].
  intros y ? ? ? ? Hy. apply Hstep. by right.
Qed.

(** A loop whose every pass returns returns. *)
Lemma mfold_total {W A S} (f : S -> A -> ST W S) (I : list A -> S -> W -> Prop) l s w :
  (forall x t s1 w1, I (x :: t) s1 w1 -> exists s2 w2, f s1 x w1 = (Ok s2, w2) /\ I t s2 w2) ->
  I l s w -> exists s' w', mfold f s l w = (Ok s', w') /\ I [] s' w'.
Proof.
  intros Hstep. revert s w. induction l as [|x l IH]; intros s w Hi; cbn [mfold]; [by exists s, w|].
  destruct (Hstep x l s w Hi) as (s1&w1&E&Hi1). destruct (IH s1 w1 Hi1) as (s'&w'&E'&Hi').
  exists s', w'. split; [|done]. unfold mbind. by rewrite E.
Qed.

(** ** Sorting *)

Lemma insert_by_perm {A} (leb : A -> A -> bool) x l : insert_by leb x l ≡ₚ x :: l.
Proof.
  induction l as [|y l IH]; simpl; [done|]. destruct (leb x y); [done|]. rewrite IH. constructor.
Qed.

Lemma sort_by_perm {A} (leb : A -> A -> bool) l : sort_by leb l ≡ₚ l.
Proof. induction l as [|x l IH]; simpl; [done|]. by rewrite insert_by_perm, IH. Qed.

Lemma elem_of_sort_by {A} (leb : A -> A -> bool) x l : x ∈ sort_by leb l <-> x ∈ l.
Proof. by rewrite (sort_by_perm leb l). Qed.

Section Sorted.
Context {A : Type} (leb : A -> A -> bool).
Hypothesis leb_total : forall x y, leb x y = true \/ leb y x = true.
Hypothesis leb_trans : forall x y z, leb x y = true -> leb y z = true -> leb x z = true.

Lemma insert_by_head x l :
  Forall (fun y => leb x y = true) l -> insert_by leb x l = x :: l.
Proof. destruct l; simpl; [done|]. intros [-> _]%Forall_cons. done. Qed.

Lemma insert_by_sorted x l :
  StronglySorted (fun a b => leb a b = true) l ->
  StronglySorted (fun a b => leb a b = true) (insert_by leb x l).
Proof using leb_total leb_trans.
  induction 1 as [|y l Hs IH Hy]; simpl; [repeat constructor|].
  destruct (leb x y) eqn:E.
  - constructor; [by constructor|]. constructor; [done|]. eapply Forall_impl; [exact Hy|].
    intros z Hz. by eapply leb_trans.
  - constructor; [done|]. rewrite insert_by_perm. constructor; [|done].
    destruct (leb_total x y); congruence.
Qed.

Lemma sort_by_sorted l : StronglySorted (fun a b => leb a b = true) (sort_by leb l).
Proof using leb_total leb_trans. induction l; simpl; [constructor|]. by apply insert_by_sorted. Qed.

Lemma sorted_take n l :
  StronglySorted (fun a b => leb a b = true) l -> StronglySorted (fun a b => leb a b = true) (take n l).
Proof using Type.
  intros Hs. revert n. induction Hs as [|x l Hs IH Hx]; intros [|n]; try constructor; [apply IH|by apply Forall_take].
Qed.
Lemma sorted_filter p l :
  StronglySorted (fun a b => leb a b = true) l -> StronglySorted (fun a b => leb a b = true) (List.filter p l).
Proof using Type.
  induction 1 as [|x l Hs IH Hx]; [constructor|]. cbn [List.filter]. destruct (p x); [|done]. constructor; [done|].
  apply List.Forall_forall. intros y [Hy _]%filter_In. rewrite List.Forall_forall in Hx. by apply Hx.
Qed.

(** The first row of an [ORDER BY] is below every row. *)
Lemma sort_by_head l x t :
  sort_by leb l = x :: t -> x ∈ l /\ Forall (fun y => leb x y = true) l.
Proof using leb_total leb_trans.
  intros H. pose proof (sort_by_sorted l) as Hs. rewrite H in Hs.
  apply StronglySorted_inv in Hs as [_ Hall].
  assert (Hx : leb x x = true) by (by destruct (leb_total x x)).
  split.
  - rewrite <- (sort_by_perm leb l), H. left.
  - rewrite <- (sort_by_perm leb l), H. by constructor.
Qed.
End Sorted.

Lemma find_row_Some `{Countable K} {V} (p : V -> bool) (t : gmap K V) v :
  find_row p t = Some v -> p v = true /\ exists k, t !! k = Some v.
Proof.
  intros E. apply List.find_some in E as [Hin Hp]. split; [done|].
  apply list_elem_of_In, list_elem_of_fmap in Hin as ([k x]&->&Hk%elem_of_map_to_list). by exists k.
Qed.

Lemma find_row_None `{Countable K} {V} (p : V -> bool) (t : gmap K V) :
  find_row p t = None <-> forall k v, t !! k = Some v -> p v = false.
Proof.
  split.
  - intros E k v Hk. eapply List.find_none; [exact E|].
    apply list_elem_of_In, list_elem_of_fmap. exists (k, v). split; [done|by apply elem_of_map_to_list].
  - intros Hall. apply find_none_elem. intros x ([k v]&->&Hk%elem_of_map_to_list)%list_elem_of_fmap.
    by eapply Hall.
Qed.

Lemma insert_row_inv `{Countable K} {V} ok (k : K) (v : V) t t' :
  insert_row ok k v t = Ok t' -> ok = true /\ t !! k = None /\ t' = <[k := v]> t.
Proof.
  unfold insert_row. destruct ok; [|done]. destruct (t !! k); [done|]. by intros [= <-].
Qed.

(** Checking a table by evaluation. *)
Lemma table_check `{Countable K} {V} (P : K -> V -> bool) (t : gmap K V) :
  forallb (fun kv => P kv.1 kv.2) (map_to_list t) = true -> forall k v, t !! k = Some v -> P k v = true.
Proof.
  intros Hall k v Hk%elem_of_map_to_list. rewrite List.forallb_forall in Hall.
  apply (Hall (k, v)). by apply list_elem_of_In.
Qed.

(** Every row is stored under its own identifier, by evaluation. *)
Lemma keyed_check {V} (id : V -> Z) (t : gmap Z V) :
  forallb (fun kv => id kv.2 =? kv.1) (map_to_list t) = true -> forall k v, t !! k = Some v -> id v = k.
Proof. intros Hc k v Hk. apply Z.eqb_eq. by apply (table_check (fun k v => id v =? k) t Hc). Qed.

(** Case analysis on the insertion or the unique row in the goal. *)
Ltac split_insert t H :=
  match goal with |- context [insert_row ?a ?b ?c ?d] => destruct (insert_row a b c d) as [t|] eqn:H end.
Ltac split_find r H :=
  match goal with |- context [find_row ?p ?t] => destruct (find_row p t) as [r|] eqn:H end.

Section Select.
Context `{Countable K} {V : Type} `{HeapOrderLaws}.

Lemma elem_of_select (p : V -> bool) (t : gmap K V) v :
  v ∈ select p t <-> p v = true /\ exists k, t !! k = Some v.
Proof.
  unfold select. rewrite (heap_order_perm V). rewrite list_elem_of_In, filter_In, <- list_elem_of_In.
  rewrite list_elem_of_fmap. setoid_rewrite <- elem_of_map_to_list. split.
  - intros [([k v']&->&Hk)%id Hp]. eauto.
  - intros [Hp [k Hk]]. split; [|done]. by exists (k, v).
Qed.

Lemma select_nil (p : V -> bool) (t : gmap K V) :
  select p t = [] <-> forall k v, t !! k = Some v -> p v = false.
Proof.
  split.
  - intros E k v Hk. destruct (p v) eqn:Hp; [|done].
    assert (Hin : v ∈ select p t) by (apply elem_of_select; eauto). rewrite E in Hin. inversion Hin.
  - intros Hall. destruct (select p t) as [|v l] eqn:E; [done|].
    assert (Hin : v ∈ select p t) by (rewrite E; left).
    apply elem_of_select in Hin as [Hp [k Hk]]. rewrite (Hall k v Hk) in Hp. done.
Qed.

End Select.

(** ** Frames: what a computation leaves alone *)

(** The computation keeps a part of the session's database, and commits nothing. *)
Definition keeps {T A} (part : Db -> T) (c : M A) : Prop :=
  forall w, part (w_db (c w).2) = part (w_db w) /\ w_committed (c w).2 = w_committed w.

Section Frames.
Context {T : Type} (part : Db -> T).

Lemma keeps_mret {A} (a : A) : keeps part (mret a).
Proof. done. Qed.
Lemma keeps_raise {A} e : keeps part (@raise World A e).
Proof. done. Qed.
Lemma keeps_lift {A} (r : result A) : keeps part (lift r).
Proof. done. Qed.
Lemma keeps_get_db : keeps part get_db.
Proof. done. Qed.
Lemma keeps_clock : keeps part clock.
Proof. done. Qed.
Lemma keeps_utc_now now : keeps part (utc_now_m now).
Proof. done. Qed.
Lemma keeps_uuid4 `{Entropy} : keeps part uuid4.
Proof. done. Qed.
Lemma keeps_token_bytes `{Entropy} n : keeps part (token_bytes n).
Proof. done. Qed.
Lemma keeps_modify f : (forall d, part (f d) = part d) -> keeps part (modify_db f).
Proof. intros Hf w. split; [apply Hf|done]. Qed.

Lemma keeps_bind {A B} (c : M A) (k : A -> M B) :
  keeps part c -> (forall a, keeps part (k a)) -> keeps part (mbind c k).
Proof.
  intros Hc Hk w. unfold mbind. specialize (Hc w). destruct (c w) as [[a|e] w1]; [|done].
  cbn in Hc. destruct Hc as [Hp Hw], (Hk a w1) as [Hp' Hw']. by rewrite Hp', Hp, Hw', Hw.
Qed.

Lemma keeps_try {A} (c : M A) handled (h : exn -> M A) :
  keeps part c -> (forall e, keeps part (h e)) -> keeps part (try_except c handled h).
Proof.
  intros Hc Hh w. unfold try_except. specialize (Hc w). destruct (c w) as [[a|e] w1]; [done|].
  cbn in Hc. destruct (handled e); [|done]. destruct Hc as [Hp Hw], (Hh e w1) as [Hp' Hw'].
  by rewrite Hp', Hp, Hw', Hw.
Qed.

Lemma keeps_nested {A} (c : M A) : keeps part c -> keeps part (begin_nested c).
Proof.
  intros Hc w. unfold begin_nested. specialize (Hc w). destruct (c w) as [[a|e] w1]; [done|].
  cbn in *. split; [done|by destruct Hc].
Qed.

Lemma keeps_mfor {A B} (f : A -> M B) l : (forall x, keeps part (f x)) -> keeps part (mfor f l).
Proof.
  intros Hf. induction l as [|x l IH]; [apply keeps_mret|]. cbn [mfor].
  apply keeps_bind; [done|]. intros y. apply keeps_bind; [done|]. intros ys. apply keeps_mret.
Qed.

Lemma keeps_mfold {A S} (f : S -> A -> M S) l s :
  (forall s x, keeps part (f s x)) -> keeps part (mfold f s l).
Proof.
  intros Hf. revert s. induction l as [|x l IH]; intros s; [apply keeps_mret|]. cbn [mfold].
  by apply keeps_bind.
Qed.

End Frames.

(** Walk through a computation whose only effects on the session are its [modify_db]s. *)
Ltac frame_step :=
  first
    [ done
    | apply keeps_mret | apply keeps_raise | apply keeps_lift | apply keeps_get_db | apply keeps_clock
    | apply keeps_utc_now | apply keeps_uuid4 | apply keeps_token_bytes
    | apply keeps_modify; intros ?; reflexivity
    | apply keeps_bind; [|intros ?]
    | apply keeps_try; [|intros ?]
    | apply keeps_nested
    | apply keeps_mfor; intros ?
    | apply keeps_mfold; intros ? ?
    | match goal with |- keeps _ (match ?x with _ => _ end) => destruct x end
    | progress cbv zeta ].
Ltac frame := repeat frame_step.

(** A computation takes no time, as far as the clock of the model goes. *)
Definition timeless {A} (c : M A) : Prop := forall w, w_now (c w).2 = w_now w.

Section Timeless.
Lemma timeless_bind {A B} (c : M A) (k : A -> M B) : timeless c -> (forall a, timeless (k a)) -> timeless (mbind c k).
Proof. intros Hc Hk w. specialize (Hc w). unfold mbind. destruct (c w) as [[a|e] w1]; [|done]. by rewrite Hk. Qed.
Lemma timeless_try {A} (c : M A) handled (h : exn -> M A) :
  timeless c -> (forall e, timeless (h e)) -> timeless (try_except c handled h).
Proof.
  intros Hc Hh w. specialize (Hc w). unfold try_except. destruct (c w) as [[a|e] w1]; [done|].
  destruct (handled e); [by rewrite Hh|done].
Qed.
End Timeless.
Ltac timeless_step :=
  first
    [ done
    | apply timeless_bind; [|intros ?]
    | apply timeless_try; [|intros ?]
    | match goal with |- timeless (match ?x with _ => _ end) => destruct x end
    | progress cbv zeta ].
Ltac timeless := repeat timeless_step.

(** ** Invariants and results: what a computation maintains and what it returns *)

(** The computation maintains [I] however it ends, and a value it returns satisfies [Q]. *)
Definition holds {S A} (I : S -> Prop) (c : ST S A) (Q : A -> Prop) : Prop :=
  forall s, I s -> I (c s).2 /\ forall a, (c s).1 = Ok a -> Q a.

Section Holds.
Context {S : Type} (I : S -> Prop).

Lemma holds_mret {A} (a : A) (Q : A -> Prop) : Q a -> holds I (mret a) Q.
Proof. intros HQ s Hs. split; [done|]. by intros ? [= <-]. Qed.
Lemma holds_raise {A} e (Q : A -> Prop) : holds I (raise e) Q.
Proof. by intros s Hs. Qed.
Lemma holds_lift {A} (r : result A) (Q : A -> Prop) : (forall a, r = Ok a -> Q a) -> holds I (lift r) Q.
Proof. by intros HQ s Hs. Qed.
Lemma holds_bind {A B} (c : ST S A) (k : A -> ST S B) (Q : A -> Prop) (R : B -> Prop) :
  holds I c Q -> (forall a, Q a -> holds I (k a) R) -> holds I (mbind c k) R.
Proof.
  intros Hc Hk s Hs. destruct (Hc s Hs) as [Hi HQ]. unfold mbind. destruct (c s) as [[a|e] s1]; [|done].
  apply Hk; [by apply HQ|done].
Qed.
Lemma holds_weaken {A} (c : ST S A) (Q R : A -> Prop) :
  holds I c Q -> (forall a, Q a -> R a) -> holds I c R.
Proof. intros Hc HQR s Hs. destruct (Hc s Hs) as [Hi HQ]. split; [done|]. auto. Qed.
Lemma holds_try {A} (c : ST S A) handled (h : exn -> ST S A) (Q : A -> Prop) :
  holds I c Q -> (forall e, holds I (h e) Q) -> holds I (try_except c handled h) Q.
Proof.
  intros Hc Hh s Hs. destruct (Hc s Hs) as [Hi HQ]. unfold try_except. destruct (c s) as [[a|e] s1]; [done|].
  destruct (handled e); [by apply Hh|done].
Qed.
End Holds.

(** A property of both the session's view and the durable state. *)
Definition both (P : Db -> Prop) (w : World) : Prop := P (w_db w) /\ P (w_committed w).

Lemma holds_modify P f : (forall d, P d -> P (f d)) -> holds (both P) (modify_db f) (fun _ => True).
Proof. intros Hf w [Hd Hc]. split; [|done]. split; [by apply Hf|done]. Qed.
Lemma holds_commit P : holds (both P) commit (fun _ => True).
Proof. by intros w [Hd Hc]. Qed.
Lemma holds_rollback P : holds (both P) rollback (fun _ => True).
Proof. by intros w [Hd Hc]. Qed.
Lemma holds_scope {A} P (c : M A) Q : holds (both P) c Q -> holds (both P) (session_scope c) Q.
Proof.
  intros Hc w [_ Hw]. destruct (Hc (mkWorld (w_committed w) (w_committed w) (w_draws w) (w_now w))) as [[_ Hcm] HQ]; [by split|].
  unfold session_scope. destruct (c _) as [a w1]. by split.
Qed.
(** A computation that keeps a part of the database maintains what depends on that part alone. *)
Lemma holds_of_keeps {T A} (part : Db -> T) P (c : M A) :
  (forall d d', part d' = part d -> P d -> P d') -> keeps part c -> holds (both P) c (fun _ => True).
Proof.
  intros HP Hk w [Hd Hc]. destruct (Hk w) as [Ed Ec]. split; [|done]. split; [by apply (HP (w_db w))|by rewrite Ec].
Qed.
(** A request keeps what its handler keeps: commit and roll-back only copy one state over the other. *)
Lemma holds_session {A} P (c : M A) Q : holds (both P) c Q -> holds (both P) (get_db_session c) Q.
Proof.
  intros Hc w Hw. destruct (Hc w Hw) as [[Hd Hcm] HQ]. unfold get_db_session.
  destruct (c w) as [[a|e] w1]; [by split|]. destruct (is_exception e); by split.
Qed.

(** The exceptions that a computation can raise satisfy [P]. *)
Definition fails (P : exn -> Prop) {A} (r : result A) : Prop := forall e, r = Raise e -> P e.
Definition raises (P : exn -> Prop) {S A} (c : ST S A) : Prop := forall s, fails P (c s).1.

Section Raises.
Context (P : exn -> Prop) {S : Type}.

Lemma fails_Ok {A} (a : A) : fails P (Ok a).
Proof. by intros e. Qed.
Lemma fails_Raise {A} e : P e -> fails P (@Raise A e).
Proof. by intros HP ? [= <-]. Qed.
Lemma fails_rbind {A B} (r : result A) (k : A -> result B) : fails P r -> (forall a, fails P (k a)) -> fails P (rbind r k).
Proof. intros Hr Hk. destruct r as [a|e]; [apply Hk|]. intros e' [= <-]. by apply Hr. Qed.
Lemma fails_rmap {A B} (f : A -> result B) l : (forall a, fails P (f a)) -> fails P (rmap f l).
Proof.
  intros Hf. induction l as [|x l IH]; [done|]. cbn [rmap].
  apply fails_rbind; [done|]. intros y. by apply fails_rbind.
Qed.
Lemma raises_mret {A} (a : A) : raises P (@mret S A a).
Proof. by intros s e. Qed.
Lemma raises_raise {A} e : P e -> raises P (@raise S A e).
Proof. by intros HP s ? [= <-]. Qed.
Lemma raises_lift {A} (r : result A) : fails P r -> raises P (@lift S A r).
Proof. by intros Hr s. Qed.
Lemma raises_bind {A B} (c : ST S A) (k : A -> ST S B) :
  raises P c -> (forall a, raises P (k a)) -> raises P (mbind c k).
Proof.
  intros Hc Hk s. specialize (Hc s). unfold mbind. destruct (c s) as [[a|e] s1]; [apply Hk|].
  intros e' [= <-]. by apply Hc.
Qed.
Lemma raises_mfor {A B} (f : A -> ST S B) l : (forall x, raises P (f x)) -> raises P (mfor f l).
Proof.
  intros Hf. induction l as [|x l IH]; [apply raises_mret|]. cbn [mfor].
  apply raises_bind; [done|]. intros y. apply raises_bind; [done|]. intros ys. apply raises_mret.
Qed.
Lemma raises_inv {A} (c : ST S A) s e s' : raises P c -> c s = (Raise e, s') -> P e.
Proof. intros Hc E. apply (Hc s e). by rewrite E. Qed.
Lemma raises_get_db : raises P get_db.
Proof. by intros s e. Qed.
Lemma raises_clock : raises P clock.
Proof. by intros s e. Qed.
Lemma raises_modify f : raises P (modify_db f).
Proof. by intros s e. Qed.
Lemma raises_uuid4 `{Entropy} : raises P uuid4.
Proof. by intros s e. Qed.
Lemma raises_token_bytes `{Entropy} n : raises P (token_bytes n).
Proof. by intros s e. Qed.
Lemma raises_utc_now now : P ValueError -> raises P (utc_now_m now).
Proof. intros HP s e. cbn. unfold utc_now. destruct now as [d|]; [|done]. destruct (utcoffset d); [done|]. by intros [= <-]. Qed.
Lemma fails_insert_row `{Countable K} {V} ok (k : K) (v : V) t : P IntegrityError -> fails P (insert_row ok k v t).
Proof. unfold insert_row. intros HP e. destruct ok; [destruct (t !! k); [|done]|]; by intros [= <-]. Qed.

End Raises.

Lemma fails_weaken (P Q : exn -> Prop) {A} (r : result A) : fails P r -> (forall e, P e -> Q e) -> fails Q r.
Proof. intros Hr HPQ e He. by apply HPQ, Hr. Qed.

Lemma fails_utf8 (P : exn -> Prop) s : P UnicodeEncodeError -> fails P (utf8_encode s).
Proof.
  intros HP. induction s as [|c s IH]; cbn [utf8_encode]; [apply fails_Ok|]. apply fails_rbind.
  - unfold utf8_char. intros e. by repeat case_match; try (intros [= <-]).
  - intros b. apply fails_rbind; [done|]. intros ?. apply fails_Ok.
Qed.

(** Walk through a computation's raises; what is left are the results it lifts and its exceptions. *)
Ltac raises_step :=
  first
    [ done
    | apply fails_Ok | apply fails_Raise; done | apply fails_rbind; [|intros ?] | apply fails_rmap; intros ?
    | apply fails_insert_row; done | apply fails_utf8; done
    | apply raises_mret | apply raises_raise; done | apply raises_get_db | apply raises_clock
    | apply raises_modify | apply raises_uuid4 | apply raises_token_bytes | apply raises_utc_now; done
    | apply raises_lift
    | apply raises_bind; [|intros ?]
    | apply raises_mfor; intros ?
    | match goal with
      | |- raises _ (match ?x with _ => _ end) => destruct x
      | |- fails _ (match ?x with _ => _ end) => destruct x
      end
    | progress cbv zeta ].
Ltac raises := repeat raises_step.

(** ** Loops over the rows of a query *)

Lemma alter_at `{Countable K} {V} (f : V -> V) (k : K) (x : V) (m : gmap K V) :
  m !! k = Some x -> alter f k m = <[k := f x]> m.
Proof.
  intros Hk. apply map_eq. intros i. rewrite lookup_alter. destruct (decide (k = i)) as [<-|Hne].
  - by rewrite lookup_insert_eq, Hk.
  - by rewrite lookup_insert_ne.
Qed.

Section TableFold.
Context `{Countable K} {V S : Type} (key : V -> K) (table : Db -> gmap K V) (step : S -> V -> M S).
(** A pass over [x] replaces its row by one that is [P]-related to it; the accumulator is [ok] at the
    end of a pass only if it was before. *)
Context (P : V -> V -> Prop) (ok : S -> Prop).
Hypothesis step_row : forall s x w s' w',
  table (w_db w) !! key x = Some x -> step s x w = (Ok s', w') ->
  exists x', table (w_db w') = <[key x := x']> (table (w_db w)) /\ (ok s' -> ok s /\ P x x').

Lemma mfold_rows l s w s' w' :
  NoDup (map key l) -> (forall x, x ∈ l -> table (w_db w) !! key x = Some x) ->
  mfold step s l w = (Ok s', w') ->
  (forall i, i ∉ map key l -> table (w_db w') !! i = table (w_db w) !! i) /\
  (ok s' -> ok s /\ forall x, x ∈ l -> exists x', table (w_db w') !! key x = Some x' /\ P x x').
Proof using step_row.
  revert s w. induction l as [|x l IH]; intros s w Hnd Hin; cbn [mfold].
  { intros [= <- <-]. split; [done|]. intros Hok. split; [done|]. intros x Hx. by apply elem_of_nil in Hx. }
  intros (s1&w1&E1&E)%mbind_inv. cbn [map] in Hnd. apply NoDup_cons in Hnd as [Hnotin Hnd].
  apply step_row in E1 as (x'&Hw1&HP); [|apply Hin; left].
  assert (Hkeep : forall y, y ∈ l -> table (w_db w1) !! key y = Some y).
  { intros y Hy. rewrite Hw1, lookup_insert_ne.
    - apply Hin. by right.
    - intros Heq. apply Hnotin. rewrite Heq. apply list_elem_of_fmap. by exists y. }
  destruct (IH s1 w1 Hnd Hkeep E) as [Hother Hall]. split.
  - cbn [map]. intros i Hi. apply not_elem_of_cons in Hi as [Hi1 Hi2]. rewrite (Hother i Hi2), Hw1.
    by rewrite lookup_insert_ne.
  - intros Hok. destruct (Hall Hok) as [Hok1 Hall']. destruct (HP Hok1) as [Hok0 HPx]. split; [done|].
    intros y [->|Hy]%elem_of_cons; [|by apply Hall'].
    exists x'. split; [|done]. rewrite (Hother _ Hnotin), Hw1. apply lookup_insert_eq.
Qed.
End TableFold.

Section Keyed.
Context `{Countable K} {V : Type} `{HeapOrderLaws}.

(** Rows are stored under their own key. *)
Lemma select_nodup (key : V -> K) (p : V -> bool) (t : gmap K V) :
  (forall k v, t !! k = Some v -> key v = k) -> NoDup (map key (select p t)).
Proof.
  intros Hk. unfold select. rewrite (heap_order_perm V). set (l := map_to_list t).
  assert (Hl : forall kv, kv ∈ l -> key kv.2 = kv.1).
  { intros [k v] Hin. apply elem_of_map_to_list in Hin. by apply Hk. }
  assert (Hnd : NoDup l.*1) by apply NoDup_fst_map_to_list. clearbody l.
  induction l as [|[k v] l IH]; [constructor|]. cbn in Hnd. apply NoDup_cons in Hnd as [Hni Hnd].
  assert (IH' : NoDup (map key (List.filter p l.*2))).
  { apply IH; [|done]. intros kv Hin. apply Hl. by right. }
  cbn [fmap list_fmap snd List.filter]. destruct (p v); [|done]. cbn [map]. apply NoDup_cons. split; [|done].
  intros Hin. apply Hni. apply list_elem_of_fmap in Hin as (x&Hx&Hin).
  apply list_elem_of_In, filter_In in Hin as [Hin _]. apply list_elem_of_In, list_elem_of_fmap in Hin as ([k' y]&->&Hin).
  apply list_elem_of_fmap. exists (k', y). split; [|done].
  assert (Ha : key y = k') by (apply (Hl (k', y)); by right).
  assert (Hb : key v = k) by (apply (Hl (k, v)); left). cbn in *. congruence.
Qed.
End Keyed.
