(* ===== verification/IpAddress.v ===== *)
(** Python's [ipaddress.ip_address] on text, as the request fingerprints use it: strict dotted quads,
    IPv6 with one compressed run, an embedded dotted quad and a zone, and the compressed spelling. *)
From S2P Require Import Prelude PyBase Encoding.

Inductive IpAddress : Type :=
| IPv4 (ip : Z)
| IPv6 (ip : Z) (scope_id : option pystr).

(** [AddressValueError] is a [ValueError]; the constructors' parse errors end as [ValueError]. *)
Definition parse_octet (s : pystr) : result Z :=
  if bool_decide (s = []) then Raise ValueError
  else if negb (forallb ascii_digit s) then Raise ValueError
  else if (3 <? length s)%nat then Raise ValueError
  else if negb (bool_decide (s = [48])) && startswith s [48] then Raise ValueError
  else match digits_value 0 s with
       | Some n => if 255 <? n then Raise ValueError else Ok n
       | None => Raise ValueError
       end.

Definition parse_ipv4 (s : pystr) : result Z :=
  let octets := split_char 46 s in
  if (length octets =? 4)%nat then
    try! bs <- rmap parse_octet octets; Ok (be_combine bs)
  else Raise ValueError.

Definition hex_value (c : Z) : option Z :=
  if ascii_digit c then Some (c - 48)
  else if (65 <=? c) && (c <=? 70) then Some (c - 55)
  else if (97 <=? c) && (c <=? 102) then Some (c - 87)
  else None.

Fixpoint hex_int (acc : Z) (s : pystr) : option Z :=
  match s with
  | [] => Some acc
  | c :: t => match hex_value c with Some d => hex_int (acc * 16 + d) t | None => None end
  end.

Definition parse_hextet (s : pystr) : result Z :=
  if bool_decide (s = []) || (4 <? length s)%nat then Raise ValueError
  else of_option (hex_int 0 s) ValueError.

(** ['%x' % n] for a sixteen-bit number *)
Definition hextet_str (n : Z) : pystr :=
  match lstrip_by (Z.eqb 48) (hex (be_split 2 n)) with [] => [48] | s => s end.

(** The positions of the empty inner parts. *)
Fixpoint empty_positions (i : nat) (parts : list pystr) : list nat :=
  match parts with
  | [] => []
  | p :: t => if bool_decide (p = []) then i :: empty_positions (S i) t else empty_positions (S i) t
  end.

Definition hextets_value (l : list Z) : Z := foldl (fun acc h => acc * 65536 + h) 0 l.

Definition parse_ipv6_parts (parts : list pystr) : result (list Z) :=
  let n := length parts in
  let first_empty := bool_decide (head parts = Some []) in
  let last_empty := bool_decide (last parts = Some []) in
  if (9 <? n)%nat then Raise ValueError
  else match empty_positions 1 (drop 1 (take (n - 1) parts)) with
  | [] =>
      if negb (n =? 8)%nat || first_empty || last_empty then Raise ValueError
      else rmap parse_hextet parts
  | [skip] =>
      let hi := if first_empty then (skip - 1)%nat else skip in
      let lo := if last_empty then (n - skip - 2)%nat else (n - skip - 1)%nat in
      if first_empty && negb (hi =? 0)%nat then Raise ValueError
      else if last_empty && negb (lo =? 0)%nat then Raise ValueError
      else if (8 <=? hi + lo)%nat then Raise ValueError
      else
        try! high <- rmap parse_hextet (take hi parts);
        try! low <- rmap parse_hextet (drop (n - lo) parts);
        Ok (high ++ replicate (8 - (hi + lo)) 0 ++ low)
  | _ => Raise ValueError
  end.

Definition contains_char (c : Z) (s : pystr) : bool := existsb (Z.eqb c) s.

Definition parse_ipv6_int (s : pystr) : result Z :=
  let parts := split_char 58 s in
  if bool_decide (s = []) || (length parts <? 3)%nat then Raise ValueError
  else
    let tail_part := List.last parts [] in
    try! parts <- (if contains_char 46 tail_part
                   then try! ip <- parse_ipv4 tail_part;
                        Ok (take (length parts - 1) parts
                            ++ [hextet_str (Z.land (Z.shiftr ip 16) 65535); hextet_str (Z.land ip 65535)])
                   else Ok parts);
    try! hextets <- parse_ipv6_parts parts;
    Ok (hextets_value hextets).

Definition parse_ipv6 (s : pystr) : result IpAddress :=
  let '(addr, scope) := split_once 37 s in
  match scope with
  | None => try! ip <- parse_ipv6_int addr; Ok (IPv6 ip None)
  | Some scope_id =>
      if bool_decide (scope_id = []) || contains_char 37 scope_id then Raise ValueError
      else try! ip <- parse_ipv6_int addr; Ok (IPv6 ip (Some scope_id))
  end.

(** [ipaddress.ip_address(s)]: an IPv4 address, else an IPv6 address. *)
Definition ip_address (s : pystr) : result IpAddress :=
  if contains_char 47 s then Raise ValueError
  else match parse_ipv4 s with
  | Ok ip => Ok (IPv4 ip)
  | Raise _ => parse_ipv6 s
  end.

(** ** Spelling *)

Fixpoint hextets_of (b : bytes) : list Z :=
  match b with x :: y :: t => x * 256 + y :: hextets_of t | _ => [] end.

(** The leftmost longest run of zero groups: start and length. *)
Fixpoint zero_run (l : list Z) : nat := match l with 0 :: t => S (zero_run t) | _ => O end.
Fixpoint best_run (i : nat) (best : nat * nat) (l : list Z) : nat * nat :=
  match l with
  | [] => best
  | _ :: t => let n := zero_run l in
              best_run (S i) (if (best.2 <? n)%nat then (i, n) else best) t
  end.

Definition ipv6_str (ip : Z) : pystr :=
  let hextets := hextets_of (be_split 16 ip) in
  let strs := map hextet_str hextets in
  let '(start, len) := best_run 0 (O, O) hextets in
  join [58]
    (if (1 <? len)%nat then
       (if (start =? 0)%nat then [[]] else []) ++ take start strs ++ [[]] ++ drop (start + len) strs
         ++ (if (start + len =? 8)%nat then [[]] else [])
     else strs).

(** [str(address)], which is also [address.compressed] *)
Definition ip_str (a : IpAddress) : pystr :=
  match a with
  | IPv4 ip => join [46] (map str_nat (be_split 4 ip))
  | IPv6 ip None => ipv6_str ip
  | IPv6 ip (Some scope_id) => ipv6_str ip ++ 37 :: scope_id
  end.

(** [str(ipaddress.ip_address(value))] *)
Definition canonical_ip (value : pystr) : result pystr := try! a <- ip_address value; Ok (ip_str a).

(** The spellings of one address agree; malformed text is refused. *)
Example canonical_ip_examples :
  map canonical_ip [py "10.0.0.1"; py "2001:DB8:0:0:8:800:200C:417A"; py "::"; py "::ffff:1.2.3.4";
                    py "fe80::1%eth0"; py "1:0:0:2:0:0:0:3"; py "1::"]
    = map Ok [py "10.0.0.1"; py "2001:db8::8:800:200c:417a"; py "::"; py "::ffff:102:304";
              py "fe80::1%eth0"; py "1:0:0:2::3"; py "1::"]
  /\ map canonical_ip [py "10.0.0.01"; py "256.1.1.1"; py "1.2.3"; py "::1::"; py ":1"; py "1:2:3:4:5:6:7:8:9";
                       py "12345::"; py "fe80::1%"; py "10.0.0.1/8"; py ""]
    = replicate 10 (Raise ValueError).
Proof. split; vm_compute; reflexivity. Qed.
