(* ===== verification/Url.v ===== *)
(** The standard library's [urllib.parse.urlsplit] and [urlunsplit], with the accessors of a split
    result, and percent quoting, as the origin normaliser, the settings form and the Google client use them. *)
From S2P Require Import Prelude PyBase Encoding IpAddress.

Record SplitResult := mkSplit {
  url_scheme : pystr; url_netloc : pystr; url_path : pystr; url_query : pystr; url_fragment : pystr;
}.

(** ** Quoting *)

Definition unreserved (b : Z) : bool :=
  ascii_alnum b || (b =? 95) || (b =? 46) || (b =? 45) || (b =? 126).
Definition upper_hex (d : Z) : Z := if d <? 10 then 48 + d else 55 + d.
Definition quote_octet (x : Z) : pystr :=
  if unreserved x then [x] else [37; upper_hex (x / 16); upper_hex (x mod 16)].
(** [quote(s, safe="")] and [quote_plus(s)] *)
Definition quote (s : pystr) : result pystr := try! b <- utf8_encode s; Ok (flat_map quote_octet b).
Definition quote_plus (s : pystr) : result pystr :=
  try! b <- utf8_encode s; Ok (flat_map (fun x => if x =? 32 then [43] else quote_octet x) b).
(** [urlencode(parameters)] of a dict of strings. *)
Definition urlencode (parameters : list (pystr * pystr)) : result pystr :=
  try! parts <- rmap (fun '(k, v) => try! k <- quote_plus k; try! v <- quote_plus v; Ok (k ++ 61 :: v)) parameters;
  Ok (join [38] parts).

Section Url.
Context `{Unicode}.

(** [s.partition(c)]: the text before, whether the separator occurs, the text after. *)
Definition partition (c : Z) (s : pystr) : pystr * bool * pystr :=
  match split_once c s with (a, Some b) => (a, true, b) | (a, None) => (a, false, []) end.
(** [s.rpartition(c)] *)
Definition rpartition (c : Z) (s : pystr) : pystr * bool * pystr :=
  match rsplit_once c s with (Some a, b) => (a, true, b) | (None, b) => ([], false, b) end.

Definition scheme_char (c : Z) : bool := ascii_alnum c || (c =? 43) || (c =? 45) || (c =? 46).
Definition has_char (c : Z) (s : pystr) : bool := existsb (Z.eqb c) s.

Fixpoint split_netloc (s : pystr) : pystr * pystr :=
  match s with
  | [] => ([], [])
  | c :: t => if (c =? 47) || (c =? 63) || (c =? 35) then ([], s)
              else let '(a, b) := split_netloc t in (c :: a, b)
  end.

(** [_checknetloc]: reject a host that NFKC would turn into URL syntax. *)
Definition check_netloc (netloc : pystr) : bool :=
  isascii netloc ||
  let n := List.filter (fun c => negb ((c =? 64) || (c =? 58) || (c =? 35) || (c =? 63))) netloc in
  let n2 := nfkc n in
  bool_decide (n = n2) ||
  negb (existsb (fun c => (c =? 47) || (c =? 63) || (c =? 35) || (c =? 64) || (c =? 58)) n2).

Definition hex_char (c : Z) : bool :=
  ascii_digit c || ((97 <=? c) && (c <=? 102)) || ((65 <=? c) && (c <=? 70)).
(** [_check_bracketed_host]: an IPvFuture literal or an IPv6 address. *)
Definition bracketed_host_ok (h : pystr) : bool :=
  match h with
  | 118 :: t => match split_once 46 t with
                | (v, Some r) => negb (bool_decide (v = [])) && forallb hex_char v
                                 && negb (bool_decide (r = []))
                | _ => false
                end
  | _ => match ip_address h with Ok (IPv6 _ _) => true | _ => false end
  end.

Definition urlsplit (url : pystr) : result SplitResult :=
  let url := lstrip_by (fun c => (0 <=? c) && (c <=? 32)) url in
  let url := List.filter (fun c => negb ((c =? 9) || (c =? 10) || (c =? 13))) url in
  let '(scheme, rest) :=
    match split_once 58 url with
    | (c :: s, Some r) =>
        if ascii_alpha c && forallb scheme_char (c :: s) then (map to_lower (c :: s), r) else ([], url)
    | _ => ([], url)
    end in
  let '(netloc, rest) :=
    match rest with 47 :: 47 :: t => split_netloc t | _ => ([], rest) end in
  if xorb (has_char 91 netloc) (has_char 93 netloc) then Raise ValueError
  else if has_char 91 netloc
          && negb (bracketed_host_ok (partition 93 (partition 91 netloc).2).1.1) then Raise ValueError
  else
    let '(rest, _, fragment) := partition 35 rest in
    let '(path, _, query) := partition 63 rest in
    if check_netloc netloc then Ok (mkSplit scheme netloc path query fragment) else Raise ValueError.

Definition hostinfo (u : SplitResult) : pystr * option pystr :=
  let '(_, _, info) := rpartition 64 (url_netloc u) in
  let '(_, open, bracketed) := partition 91 info in
  let '(host, port) :=
    if (open : bool) then
      let '(host, _, after) := partition 93 bracketed in (host, (partition 58 after).2)
    else let '(host, _, port) := partition 58 info in (host, port) in
  (host, if bool_decide (port = []) then None else Some port).

(** [parsed.hostname] *)
Definition url_hostname (u : SplitResult) : option pystr :=
  match (hostinfo u).1 with
  | [] => None
  | h => let '(name, pct, zone) := partition 37 h in
         Some (lower name ++ (if (pct : bool) then 37 :: zone else []))
  end.
(** [parsed.port] *)
Definition url_port (u : SplitResult) : result (option Z) :=
  match (hostinfo u).2 with
  | None => Ok None
  | Some p =>
      if forallb isdigit p && isascii p then
        try! n <- py_int p;
        if (0 <=? n) && (n <=? 65535) then Ok (Some n) else Raise ValueError
      else Raise ValueError
  end.
(** [parsed.username], [parsed.password] *)
Definition url_userinfo (u : SplitResult) : option pystr * option pystr :=
  match rpartition 64 (url_netloc u) with
  | (info, true, _) =>
      let '(name, has_pw, pw) := partition 58 info in
      (Some name, if (has_pw : bool) then Some pw else None)
  | _ => (None, None)
  end.

(** [urlunsplit((scheme, netloc, path, query, ""))] with a non-empty netloc. *)
Definition urlunsplit_netloc (scheme netloc path query : pystr) : pystr :=
  let path := match path with [] => [] | 47 :: _ => path | _ => 47 :: path end in
  let url := [47; 47] ++ netloc ++ path in
  let url := if bool_decide (scheme = []) then url else scheme ++ [58] ++ url in
  if bool_decide (query = []) then url else url ++ [63] ++ query.

End Url.
