(* ===== verification/Normalization.v ===== *)
(** Subject and identity normalisation (app/normalization.py): one definition per function, with
    the shape of the canonical values, their stability, and what the lenient variants still
    reject. *)
From S2P Require Import Prelude PyBase Encoding Hashes Json Models Url.

Record NormalizedSubject := mkNormalized {
  ns_kind : SubjectKind; ns_value_norm : pystr; ns_value_display : pystr;
}.

Section Normalization.
Context `{Unicode}.

(** [_text]: NFKC, stripped, and then non-empty and printable. *)
Definition text_ (value : pystr) : result pystr :=
  let normalized := strip (nfkc value) in
  if bool_decide (normalized = []) || existsb (fun c => negb (isprintable c)) normalized
  then Raise NormalizationError else Ok normalized.

Definition bounded (value : pystr) (maximum : nat) : result pystr :=
  if (maximum <? length value)%nat then Raise NormalizationError else Ok value.

(** [domain.encode("idna").decode("ascii")]: an ASCII name passes through once its labels have a
    legal length, the last one possibly empty. *)
Definition idna (domain : pystr) : result pystr :=
  match domain with
  | [] => Ok []
  | _ =>
      if isascii domain then
        let labels := split_char 46 domain in
        let inner := removelast labels in
        let last_label := List.last labels [] in
        if forallb (fun l => (0 <? length l)%nat && (length l <? 64)%nat) inner
           && (length last_label <? 64)%nat
        then Ok domain else Raise UnicodeError
      else match idna_encode domain with
           | Some b => ascii_decode b
           | None => Raise UnicodeError
           end
  end.

Definition label_ok (label : pystr) : bool :=
  negb (bool_decide (label = [])) && (length label <=? 63)%nat
  && negb (startswith label [45]) && negb (endswith label [45])
  && forallb (fun c => isalnum c || (c =? 45)) label.

Definition normalize_domain (value : pystr) : result pystr :=
  try! t <- text_ value;
  let domain := rstrip_by (Z.eqb 46) (casefold t) in
  match idna domain with
  | Raise _ => Raise NormalizationError
  | Ok normalized =>
      let labels := split_char 46 normalized in
      if (253 <? length normalized)%nat || (length labels <? 2)%nat || negb (forallb label_ok labels)
      then Raise NormalizationError else Ok normalized
  end.

Definition normalize_email (value : pystr) : result pystr :=
  try! t <- text_ value;
  try! value <- bounded (casefold t) 320;
  if (count_char 64 value =? 1)%nat then
    match rsplit_once 64 value with
    | (Some local, domain) =>
        if bool_decide (local = []) || existsb isspace local then Raise NormalizationError
        else try! d <- normalize_domain domain; Ok (local ++ [64] ++ d)
    | (None, _) => Raise NormalizationError
    end
  else Raise NormalizationError.

(** [re.fullmatch(r"^\+[1-9][0-9]{7,14}$", s)] *)
Definition phone_match (s : pystr) : bool :=
  match s with
  | c :: d :: t => (c =? 43) && (49 <=? d) && (d <=? 57) && forallb ascii_digit t
                    && (7 <=? length t)%nat && (length t <=? 14)%nat
  | _ => false
  end.

(** Characters that [re.sub(r"[\s().-]", "", s)] removes. *)
Definition phone_noise (c : Z) : bool :=
  isspace c || (c =? 40) || (c =? 41) || (c =? 46) || (c =? 45).

Definition normalize_phone (value : pystr) : result pystr :=
  try! t <- text_ value;
  let compact := List.filter (fun c => negb (phone_noise c)) t in
  if phone_match compact then Ok compact else Raise NormalizationError.

Definition normalize_origin (value : pystr) : result pystr :=
  try! t <- text_ value;
  try! raw <- bounded t 4096;
  if negb (contains raw (py "://")) then Ok (casefold raw)
  else
    let parsed_host_port :=
      try! parsed <- urlsplit raw;
      try! hostname <- normalize_domain (default [] (url_hostname parsed));
      try! port <- url_port parsed;
      Ok (parsed, hostname, port) in
    match parsed_host_port with
    | Raise e => Raise (if is_value_error e then NormalizationError else e)
    | Ok (parsed, hostname, port) =>
        let scheme := casefold (url_scheme parsed) in
        let is_http := bool_decide (scheme = py "http") in
        let is_https := bool_decide (scheme = py "https") in
        if negb (is_http || is_https) || bool_decide (is_Some (url_userinfo parsed).1)
           || bool_decide (is_Some (url_userinfo parsed).2)
        then Raise NormalizationError
        else
          let netloc :=
            match port with
            | Some p => if (is_http && (p =? 80)) || (is_https && (p =? 443)) then hostname
                        else hostname ++ [58] ++ str_int p
            | None => hostname
            end in
          Ok (urlunsplit_netloc scheme netloc (url_path parsed) (url_query parsed))
    end.

Definition normalize_subject (kind : SubjectKind) (value : pystr) : result NormalizedSubject :=
  match kind with
  | Kind_PASSWORD =>
      if bool_decide (value = []) then Raise NormalizationError
      else
        try! encoded <- utf8_encode value;
        if (4096 <? length encoded)%nat then Raise NormalizationError
        else let digest := sha256_hex encoded in
             Ok (mkNormalized kind digest (py "sha256:" ++ slice_to 12 digest ++ [8230]))
  | _ =>
      try! value <- text_ value;
      match kind with
      | Kind_EMAIL => try! n <- normalize_email value; Ok (mkNormalized kind n n)
      | Kind_DOMAIN => try! n <- normalize_domain value; Ok (mkNormalized kind n n)
      | Kind_PHONE => try! n <- normalize_phone value; Ok (mkNormalized kind n n)
      | Kind_USERNAME => try! n <- bounded (casefold value) 1024; Ok (mkNormalized kind n value)
      | _ => try! n <- normalize_origin value; Ok (mkNormalized kind n n)
      end
  end.

(** The lenient variants for vendor rows: an unparsable value keeps a folded identity. *)
Definition normalize_optional_email (value : option pystr) : result pystr :=
  match value with
  | None | Some [] => Ok []
  | Some v => match normalize_email v with
              | Raise NormalizationError => try! t <- text_ v; bounded (casefold t) 320
              | r => r
              end
  end.

Definition normalize_optional_username (value : option pystr) : result pystr :=
  match value with
  | None | Some [] => Ok []
  | Some v => try! t <- text_ v; bounded (casefold t) 1024
  end.

Definition normalize_optional_phone (value : option pystr) : result pystr :=
  match value with
  | None | Some [] => Ok []
  | Some v => match normalize_phone v with
              | Raise NormalizationError => try! t <- text_ v; bounded (casefold t) 64
              | r => r
              end
  end.

End Normalization.

Section Lemmas.
Context `{UnicodeLaws}.

Lemma text_Ok v t :
  text_ v = Ok t ->
  t = strip (nfkc v) /\ t <> [] /\ Forall (fun c => isprintable c = true) t /\ trimmed isspace t.
Proof using Type.
  unfold text_. destruct (bool_decide _ || _) eqn:E; [done|]. intros [= <-].
  apply orb_false_iff in E as [E1 E2]. apply existsb_false_Forall in E2. bools.
  split; [done|]. split; [done|]. split; [|apply strip_trimmed].
  eapply Forall_impl; [exact E2|]. intros c Hc. by bools.
Qed.

Lemma text_ascii v t : isascii v = true -> text_ v = Ok t -> isascii t = true.
Proof using H0.
  intros Hv (->&_&_&_)%text_Ok. rewrite nfkc_ascii by done.
  apply isascii_Forall, strip_Forall. by apply isascii_Forall.
Qed.

(** Printable ASCII text without outer whitespace passes [_text] unchanged. *)
Lemma text_fixed t :
  isascii t = true -> t <> [] -> Forall (fun c => isprintable c = true) t ->
  trimmed isspace t -> text_ t = Ok t.
Proof using H0.
  intros Ha Hne Hp Ht. unfold text_. rewrite nfkc_ascii, strip_fixed by done.
  rewrite bool_decide_false by done. simpl.
  replace (existsb _ t) with false; [done|]. symmetry. apply existsb_false_Forall.
  eapply Forall_impl; [exact Hp|]. by intros c ->.
Qed.

(** A letter, digit or hyphen, in ASCII. *)
Definition ldh (c : Z) : Prop := is_ascii c = true /\ (ascii_alnum c = true \/ c = 45).

Lemma ldh_plain c : ldh c \/ c = 46 ->
  isspace c = false /\ isprintable c = true /\ is_ascii c = true.
Proof using H0.
  intros Hc. assert (Ha : is_ascii c = true) by (destruct Hc as [[? _]| ->]; done).
  rewrite isspace_ascii, isprintable_ascii by done. split; [|split; [|done]];
    unfold ldh, ascii_space, ascii_printable, ascii_alnum, ascii_alpha, ascii_upper, ascii_lowerc, ascii_digit in *; lia.
Qed.

Lemma label_ok_ldh l : isascii l = true -> label_ok l = true -> Forall ldh l.
Proof using H0.
  intros Ha Hl. unfold label_ok in Hl. apply andb_true_iff in Hl as [_ Hl].
  apply forallb_Forall in Hl. apply isascii_Forall in Ha. rewrite Forall_forall in *.
  intros c Hc. specialize (Hl c Hc). specialize (Ha c Hc). split; [done|].
  simpl in Hl. rewrite isalnum_ascii in Hl by done.
  apply orb_true_iff in Hl as [?|?]; [by left|right]. by bools.
Qed.

(** The canonical form of a domain: at least two labels of letters, digits and inner hyphens. *)
Definition domain_shape (d : pystr) : Prop :=
  (length d <= 253)%nat /\ (2 <= length (split_char 46 d))%nat /\
  Forall (fun l => label_ok l = true) (split_char 46 d).

Lemma idna_ascii v d : isascii v = true -> idna v = Ok d -> d = v.
Proof using Type.
  unfold idna. destruct v; [by intros _ [= <-]|]. intros ->. destruct (_ && _); [|done]. by intros [= <-].
Qed.

Lemma idna_is_ascii v d : idna v = Ok d -> isascii d = true.
Proof using Type.
  unfold idna. destruct v as [|c v]; [by intros [= <-]|]. destruct (isascii (c :: v)) eqn:E.
  - destruct (_ && _); [|done]. by intros [= <-].
  - destruct (idna_encode _) as [b|]; [|done]. unfold ascii_decode.
    destruct (isascii b) eqn:Eb; [|done]. by intros [= <-].
Qed.

Lemma split_char_sub (P : Z -> Prop) c s : Forall P s -> Forall (Forall P) (split_char c s).
Proof using Type.
  induction s as [|d t IH]; simpl; [by repeat constructor|]. intros [Hd Ht]%Forall_cons.
  specialize (IH Ht). destruct (d =? c); [by constructor|].
  destruct (split_char c t) as [|w ws]; [by repeat constructor|].
  apply Forall_cons in IH as [? ?]. constructor; [by constructor|done].
Qed.

Lemma normalize_domain_shape v d :
  normalize_domain v = Ok d ->
  isascii d = true /\ domain_shape d /\ Forall (fun c => ldh c \/ c = 46) d.
Proof using H0.
  unfold normalize_domain. intros (t&_&Hd)%rbind_Ok.
  destruct (idna _) as [n|] eqn:E; [|done]. apply idna_is_ascii in E.
  destruct (_ || _) eqn:Ec; [done|]. injection Hd as <-.
  apply orb_false_iff in Ec as [[E1 E2]%orb_false_iff E3].
  apply Nat.ltb_ge in E1, E2. apply negb_false_iff, forallb_Forall in E3.
  split; [done|]. split; [by repeat split|].
  apply split_char_Forall, Forall_forall. intros l Hl.
  assert (Hal : Forall (fun l => isascii l = true) (split_char 46 n)).
  { eapply Forall_impl; [apply (split_char_sub (fun c => is_ascii c = true)), isascii_Forall, E|].
    intros. by apply isascii_Forall. }
  rewrite Forall_forall in Hal, E3. apply label_ok_ldh; auto.
Qed.

(** A value in canonical form is a fixed point. *)
Lemma normalize_domain_fixed d :
  isascii d = true -> domain_shape d -> Forall (fun c => ldh c \/ c = 46) d ->
  map to_lower d = d -> (forall c t, d = t ++ [c] -> c <> 46) ->
  idna d = Ok d -> normalize_domain d = Ok d.
Proof using H0.
  intros Ha (Hlen&Hn&Hlab) Hc Hlow Hlast Hidna. unfold normalize_domain.
  assert (Hplain : Forall (fun c => isspace c = false /\ isprintable c = true) d).
  { eapply Forall_impl; [exact Hc|]. intros c Hcc. by destruct (ldh_plain c Hcc) as (?&?&_). }
  rewrite text_fixed; try done.
  - simpl. rewrite casefold_ascii, Hlow by done.
    rewrite rstrip_by_fixed; [|intros c t E; apply Z.eqb_neq; intros <-; by apply (Hlast _ _ E)].
    rewrite Hidna. replace (_ || _) with false; [done|]. symmetry.
    apply orb_false_iff. split; [apply orb_false_iff; split; apply Nat.ltb_ge; done|].
    by apply negb_false_iff, forallb_Forall.
  - intros ->. simpl in Hn. lia.
  - eapply Forall_impl; [exact Hplain|]. by intros ? [_ ?].
  - apply Forall_trimmed. eapply Forall_impl; [exact Hplain|]. by intros ? [? _].
Qed.

Lemma normalize_domain_stable v d :
  isascii v = true -> normalize_domain v = Ok d -> normalize_domain d = Ok d.
Proof using H0.
  intros Hv Hd. destruct (normalize_domain_shape v d Hd) as (Ha&Hshape&Hc).
  revert Hd. unfold normalize_domain at 1. intros (t&Ht&Hd)%rbind_Ok.
  apply text_ascii in Ht; [|done]. rewrite casefold_ascii in Hd by done.
  destruct (idna _) as [n|] eqn:E; [|done].
  assert (n = d) as -> by (destruct (_ || _); [done|by injection Hd]).
  pose proof E as E'. apply idna_ascii in E'.
  2:{ apply isascii_Forall, rstrip_by_Forall, isascii_Forall, isascii_lower, Ht. }
  apply normalize_domain_fixed; try done.
  - rewrite E'. apply map_fixed, rstrip_by_Forall, Forall_map, Forall_true. intros; apply to_lower_idem.
  - intros c t' Et. rewrite E' in Et.
    destruct (rstrip_by_spec (Z.eqb 46) (map to_lower t)) as (_&_&_&Hl).
    specialize (Hl _ _ Et). bools. lia.
  - by rewrite E' at 1.
Qed.

(** The parts of a canonical email: a non-empty local part and a canonical domain. *)
Lemma normalize_email_parts v e :
  normalize_email v = Ok e ->
  exists t local domain d, text_ v = Ok t /\ casefold t = local ++ [64] ++ domain
    /\ count_char 64 (casefold t) = 1%nat /\ (length (casefold t) <= 320)%nat
    /\ local <> [] /\ Forall (fun c => isspace c = false) local
    /\ normalize_domain domain = Ok d /\ e = local ++ [64] ++ d.
Proof using Type.
  unfold normalize_email. intros (t&Ht&(b&Hb&He)%rbind_Ok)%rbind_Ok.
  unfold bounded in Hb. destruct (_ <? _)%nat eqn:El in Hb; [done|]. injection Hb as <-.
  apply Nat.ltb_ge in El. destruct (count_char 64 _ =? 1)%nat eqn:Ec; [|done].
  destruct (rsplit_once 64 (casefold t)) as [[local|] domain] eqn:Es; [|done].
  destruct (bool_decide _ || _) eqn:Eg; [done|]. apply orb_false_iff in Eg as [E1 E2].
  apply rbind_Ok in He as (d&Hd&[= <-]). apply rsplit_once_Some in Es as [Es _].
  exists t, local, domain, d. repeat split; try done; [by apply Nat.eqb_eq|by bools|].
  by apply existsb_false_Forall.
Qed.


Lemma normalize_domain_ascii v d :
  isascii v = true -> normalize_domain v = Ok d ->
  map to_lower d = d /\ (length d <= length v)%nat.
Proof using H0.
  intros Hv. unfold normalize_domain. intros (t&Ht&Hd)%rbind_Ok.
  pose proof (text_ascii v t Hv Ht) as Hta. apply text_Ok in Ht as (->&_).
  rewrite nfkc_ascii in * by done. rewrite casefold_ascii in Hd by done.
  destruct (idna _) as [n|] eqn:E; [|done].
  assert (n = d) as -> by (destruct (_ || _); [done|by injection Hd]).
  apply idna_ascii in E; [|by apply isascii_Forall, rstrip_by_Forall, isascii_Forall, isascii_lower].
  split.
  - rewrite E. apply map_fixed, rstrip_by_Forall, Forall_map, Forall_true. intros; apply to_lower_idem.
  - rewrite E. destruct (rstrip_by_spec (Z.eqb 46) (map to_lower (strip v))) as (suf&Es&_).
    apply (f_equal length) in Es. rewrite length_app, length_map in Es.
    destruct (strip_sublist v) as (pre&post&Ev). apply (f_equal length) in Ev.
    rewrite !length_app in Ev. lia.
Qed.

Lemma printable_lower c : is_ascii c = true -> isprintable c = true -> isprintable (to_lower c) = true.
Proof using H0.
  intros Hc. rewrite !isprintable_ascii by (done || by apply to_lower_ascii).
  unfold ascii_printable, to_lower, ascii_upper. intros Hp. bools.
  destruct ((65 <=? c) && (c <=? 90)) eqn:E; bools; apply andb_true_iff; lia.
Qed.

Lemma trimmed_ends p (a b : pystr) :
  a <> [] -> b <> [] -> trimmed p a -> trimmed p b -> forall m, trimmed p (a ++ m ++ b).
Proof using Type.
  intros Ha Hb [Ha1 _] [_ Hb2] m. split; intros c t E.
  - destruct a as [|x a]; [done|]. injection E as <- _. by apply (Ha1 x a).
  - destruct b as [|x b _] using rev_ind; [done|]. rewrite !app_assoc in E.
    apply app_inj_tail in E as [_ <-]. by apply (Hb2 x b).
Qed.

(** The canonical email is its own normal form. *)
Lemma normalize_email_stable v e :
  isascii v = true -> normalize_email v = Ok e -> normalize_email e = Ok e.
Proof using H0.
  intros Hv He.
  destruct (normalize_email_parts v e He) as (t&local&domain&d&Ht&Hc&Hcount&Hlen&Hne&Hsp&Hd&->).
  pose proof (text_ascii v t Hv Ht) as Hta. rewrite casefold_ascii in * by done.
  assert (Hlow : Forall (fun c => is_ascii c = true /\ isprintable c = true /\ to_lower c = c)
                        (local ++ [64] ++ domain)).
  { rewrite <- Hc. apply Forall_map. apply text_Ok in Ht as (_&_&Hp&_).
    apply isascii_Forall in Hta. rewrite Forall_forall in *. intros c Hin.
    split; [by apply to_lower_ascii, Hta|]. split; [|apply to_lower_idem].
    apply printable_lower; auto. }
  rewrite !Forall_app in Hlow. destruct Hlow as (Hl&_&Hdom).
  assert (Hda : isascii domain = true).
  { apply isascii_Forall. eapply Forall_impl; [exact Hdom|]. by intros ? (?&?&?). }
  pose proof (normalize_domain_shape _ _ Hd) as (Hdasc&(Hd1&Hd2&_)&Hldh).
  pose proof (normalize_domain_ascii _ _ Hda Hd) as [Hdlow Hdlen].
  pose proof (normalize_domain_stable _ _ Hda Hd) as Hstable.
  assert (Hdne : d <> []) by (intros ->; simpl in Hd2; lia).
  assert (Hplain : Forall (fun c => isspace c = false /\ isprintable c = true) d).
  { eapply Forall_impl; [exact Hldh|]. intros c Hcc. by destruct (ldh_plain c Hcc) as (?&?&_). }
  assert (Hno : count_char 64 local = 0%nat).
  { rewrite Hc, !count_char_app in Hcount. change (count_char 64 [64]) with 1%nat in Hcount. lia. }
  assert (Hdno : Forall (fun x => x <> 64) d).
  { eapply Forall_impl; [exact Hldh|]. intros c [[_ Hcc]| ->]; [|done].
    unfold ascii_alnum, ascii_alpha, ascii_upper, ascii_lowerc, ascii_digit in Hcc. lia. }
  assert (Hasc : isascii (local ++ [64] ++ d) = true).
  { apply isascii_Forall. rewrite !Forall_app. split; [|split]; [|by repeat constructor|].
    - eapply Forall_impl; [exact Hl|]. by intros ? (?&_).
    - by apply isascii_Forall. }
  unfold normalize_email at 1. rewrite text_fixed; try done.
  - simpl. rewrite casefold_ascii by done. rewrite map_app. simpl. rewrite Hdlow.
    rewrite (map_fixed to_lower local).
    2:{ eapply Forall_impl; [exact Hl|]. by intros ? (_&_&?). }
    change (to_lower 64) with 64. unfold bounded.
    rewrite Hc, !length_app in Hlen. simpl in Hlen.
    replace (320 <? _)%nat with false.
    2:{ symmetry. apply Nat.ltb_ge. rewrite length_app. simpl. lia. }
    simpl. change (64 :: d) with ([64] ++ d). rewrite !count_char_app, Hno.
    rewrite (proj2 (count_char_0 64 d) Hdno). simpl.
    rewrite (proj2 (rsplit_once_Some 64 (local ++ 64 :: d) local d)); [|done].
    rewrite bool_decide_false by done. simpl.
    rewrite (proj2 (existsb_false_Forall _ _) Hsp). by rewrite Hstable.
  - by destruct local.
  - rewrite !Forall_app. split; [|split].
    + eapply Forall_impl; [exact Hl|]. by intros ? (_&?&_).
    + constructor; [|constructor]. by rewrite isprintable_ascii.
    + eapply Forall_impl; [exact Hplain|]. by intros ? [_ ?].
  - apply trimmed_ends; [done|done|by apply Forall_trimmed|].
    apply Forall_trimmed. eapply Forall_impl; [exact Hplain|]. by intros ? [? _].
Qed.

Lemma phone_match_chars p :
  phone_match p = true ->
  p <> [] /\ Forall (fun c => is_ascii c = true /\ (ascii_digit c = true \/ c = 43)) p.
Proof using Type.
  destruct p as [|a [|d t]]; [done|done|]. unfold phone_match. intros Hm.
  bools. subst a. split; [done|]. constructor; [split; [done|by right]|]. constructor.
  - unfold is_ascii, ascii_digit. split; [|left]; apply andb_true_iff; lia.
  - apply Forall_forall. intros c Hc.
    assert (Hd : ascii_digit c = true)
      by (eapply (proj1 (List.forallb_forall ascii_digit t)); [done|by apply list_elem_of_In]).
    split; [|by left]. unfold ascii_digit, is_ascii in *. bools. apply andb_true_iff. lia.
Qed.

Lemma normalize_phone_fixed p : phone_match p = true -> normalize_phone p = Ok p.
Proof using H0.
  intros Hp. destruct (phone_match_chars p Hp) as [Hne Hch].
  assert (Hplain : Forall (fun c => isspace c = false /\ isprintable c = true /\ phone_noise c = false) p).
  { eapply Forall_impl; [exact Hch|]. intros c [Ha Hd]. unfold phone_noise.
    rewrite isspace_ascii, isprintable_ascii by done.
    unfold ascii_digit, ascii_space, ascii_printable in *. lia. }
  unfold normalize_phone. rewrite text_fixed; try done.
  - simpl. replace (List.filter _ p) with p; [by rewrite Hp|].
    clear -Hplain. induction Hplain as [|c t (_&_&Hc) _ IH]; simpl; [done|].
    rewrite Hc. simpl. by rewrite <- IH.
  - apply isascii_Forall. eapply Forall_impl; [exact Hch|]. by intros ? [? _].
  - eapply Forall_impl; [exact Hplain|]. by intros ? (_&?&_).
  - apply Forall_trimmed. eapply Forall_impl; [exact Hplain|]. by intros ? (?&_).
Qed.

End Lemmas.

Section Properties.
Context `{UnicodeLaws}.

(** an ASCII address that [normalize_email] accepts is mapped to a canonical form (one at-sign,
    a non-empty local part without whitespace, a domain of at least two legal labels within 253
    characters), and normalising the canonical form again changes nothing. *)
Theorem normalize_email_canonical v e :
  isascii v = true -> normalize_email v = Ok e ->
  normalize_email e = Ok e /\
  exists local d, e = local ++ [64] ++ d /\ local <> [] /\
    Forall (fun c => isspace c = false) local /\ domain_shape d /\ normalize_domain d = Ok d.
Proof using H0.
  intros Hv He. split; [by eapply normalize_email_stable|].
  destruct (normalize_email_parts v e He) as (t&local&domain&d&Ht&Hc&_&_&Hne&Hsp&Hd&->).
  exists local, d. split; [done|]. split; [done|]. split; [done|].
  split; [by eapply normalize_domain_shape|].
  apply text_ascii in Ht; [|done]. rewrite casefold_ascii in Hc by done.
  apply isascii_lower in Ht. rewrite Hc in Ht.
  eapply normalize_domain_stable; [|exact Hd].
  apply isascii_Forall in Ht. rewrite !Forall_app in Ht. destruct Ht as (_&_&Hda).
  by apply isascii_Forall.
Qed.

(** whatever text [normalize_phone] accepts, the stored number is a plus sign, a non-zero digit
    and seven to fourteen further digits, and it is its own normal form. *)
Theorem normalize_phone_e164 v p :
  normalize_phone v = Ok p ->
  normalize_phone p = Ok p /\
  exists d t, p = 43 :: d :: t /\ 49 <= d <= 57 /\ Forall (fun c => ascii_digit c = true) t /\
    (7 <= length t <= 14)%nat.
Proof using H0.
  intros Hp. assert (Hm : phone_match p = true).
  { revert Hp. unfold normalize_phone. intros (t&_&Hp)%rbind_Ok.
    destruct (phone_match _) eqn:E; [|done]. by injection Hp as <-. }
  split; [by apply normalize_phone_fixed|]. destruct p as [|a [|d t]]; [done|done|].
  unfold phone_match in Hm. rewrite !andb_true_iff, !Nat.leb_le, !Z.leb_le, Z.eqb_eq in Hm.
  destruct Hm as [[[[[-> ?] ?] Hd] ?] ?]. exists d, t. apply forallb_Forall in Hd.
  repeat split; (done || lia).
Qed.

(** A password subject never stores its text: the normalised value is the 64-character
    SHA-256 hexadecimal digest of the UTF-8 encoding and the display value shows only the first
    twelve digits of that digest; empty and oversized passwords are rejected. *)
Theorem password_subject_digest_only v s :
  normalize_subject Kind_PASSWORD v = Ok s ->
  exists b, utf8_encode v = Ok b /\ (1 <= length v)%nat /\ (length b <= 4096)%nat /\
    ns_value_norm s = sha256_hex b /\ length (ns_value_norm s) = 64%nat /\
    ns_value_display s = py "sha256:" ++ take 12 (sha256_hex b) ++ [8230].
Proof using Type.
  unfold normalize_subject. destruct (bool_decide _) eqn:E; [done|]. bools.
  intros (b&Hb&Hs)%rbind_Ok. destruct (_ <? _)%nat eqn:El; [done|]. injection Hs as <-.
  apply Nat.ltb_ge in El. exists b. repeat split; try done.
  - destruct v; [done|]. simpl. lia.
Qed.

End Properties.

(** ** Instances at concrete inputs *)

Lemma normalize_email_canonical_witness :
  let e := py "foo.bar@example.com" in
  @normalize_email ascii_unicode (py " Foo.Bar@Example.COM. ") = Ok e
  /\ @normalize_email ascii_unicode e = Ok e.
Proof.
  split; [vm_compute; reflexivity|].
  apply (@normalize_email_canonical ascii_unicode _ (py " Foo.Bar@Example.COM. "));
    vm_compute; reflexivity.
Defined.

Lemma normalize_phone_e164_witness :
  exists d t, py "+14155550100" = 43 :: d :: t /\ 49 <= d <= 57 /\ (7 <= length t <= 14)%nat.
Proof.
  destruct (@normalize_phone_e164 ascii_unicode _ (py "+1 (415) 555-0100") (py "+14155550100"))
    as (_&d&t&E&Hd&_&Hl); [vm_compute; reflexivity|].
  exists d, t. repeat split; (done || lia).
Defined.

Lemma password_subject_digest_only_witness : (1 <= length (py "hunter2"))%nat.
Proof.
  destruct (@password_subject_digest_only ascii_unicode (py "hunter2")
    (mkNormalized Kind_PASSWORD (sha256_hex (py "hunter2"))
       (py "sha256:" ++ take 12 (sha256_hex (py "hunter2")) ++ [8230]))) as (b&_&Hl&_);
    [vm_compute; reflexivity|]. exact Hl.
Defined.

(** The lenient variants are partial: a vendor row whose username is a single space is rejected. *)
Example optional_username_blank_rejected :
  @normalize_optional_username ascii_unicode (Some (py " ")) = Raise NormalizationError.
Proof. reflexivity. Qed.
