(* ===== verification/Config.v ===== *)
(** Deployment configuration (app/config.py): the settings record, the field and model validators,
    and what a validated configuration guarantees to the components that decode its keys. *)
From S2P Require Import Prelude PyBase Encoding.

Inductive Environment : Type :=
| DEVELOPMENT | TEST | PRODUCTION.

#[export] Instance Environment_eq_dec : EqDecision Environment.
Proof. solve_decision. Defined.

Record Settings := mkSettings {
  environment : Environment;
  database_url : pystr;
  session_secret : pystr;
  session_idle_ttl_seconds : Z;
  session_absolute_ttl_seconds : Z;
  admin_login_max_failures : Z;
  admin_login_lockout_seconds : Z;
  admin_login_ip_max_failures : Z;
  admin_login_ip_window_seconds : Z;
  admin_login_ip_lockout_seconds : Z;
  data_key : pystr;
  trusted_hosts : list pystr;
  allow_unconfigured_hosts : bool;
  run_inprocess_worker : bool;
}.

Definition KNOWN_PLACEHOLDERS : list pystr :=
  [py "changeme"; py "change-me"; py "replace-me"; py "replace-with-a-long-random-password";
   py "replace-with-at-least-32-random-characters";
   py "replace-with-a-base64url-encoded-32-byte-key"].

Section Config.
Context `{Unicode}.

Definition database_url_must_be_async_postgres (value : pystr) : result pystr :=
  if startswith value (py "postgresql+asyncpg://") then Ok value else Raise ValueError.

Definition placeholder (secret : pystr) : bool :=
  bool_decide (casefold secret ∈ KNOWN_PLACEHOLDERS) || startswith secret (py "replace-with-").

Definition session_secret_must_be_strong (secret : pystr) : result pystr :=
  if placeholder secret then Raise ValueError
  else
    try! encoded <- utf8_encode secret;
    if (length encoded <? 32)%nat then Raise ValueError else Ok secret.

Definition data_key_must_be_aes_256_key (encoded : pystr) : result pystr :=
  if placeholder encoded then Raise ValueError
  else
    match (try! padded <- ascii_encode (pad_to 4 encoded); b64decode_strict padded) with
    | Raise e => Raise (if is_value_error e then ValueError else e)
    | Ok key => if (length key =? 32)%nat then Ok encoded else Raise ValueError
    end.

(** A string is split at commas; a sequence is taken as it is. *)
Definition parse_trusted_hosts (value : pystr + list pystr) : list pystr :=
  match value with
  | inl s => List.filter (fun h => negb (bool_decide (h = []))) (map strip (split_char 44 s))
  | inr l => l
  end.

Definition between (lo hi x : Z) : bool := (lo <=? x) && (x <=? hi).

(** The annotated bounds of the integer fields. *)
Definition limits_ok (s : Settings) : bool :=
  (1 <=? session_idle_ttl_seconds s) && (1 <=? session_absolute_ttl_seconds s)
  && between 1 20 (admin_login_max_failures s)
  && between 60 (24 * 60 * 60) (admin_login_lockout_seconds s)
  && between 1 100 (admin_login_ip_max_failures s)
  && between 60 (24 * 60 * 60) (admin_login_ip_window_seconds s)
  && between 60 (24 * 60 * 60) (admin_login_ip_lockout_seconds s).

Definition require_explicit_production_hosts (s : Settings) : result Settings :=
  if session_absolute_ttl_seconds s <? session_idle_ttl_seconds s then Raise ValueError
  else if bool_decide (trusted_hosts s = [])
          || (bool_decide (py "*" ∈ trusted_hosts s) && negb (allow_unconfigured_hosts s))
  then Raise ValueError
  else if bool_decide (environment s = PRODUCTION)
          && existsb (fun h => bool_decide (h ∈ [py "localhost"; py "127.0.0.1"])) (trusted_hosts s)
  then Raise ValueError
  else Ok s.

(** [Settings.model_validate]: every field, then the model. *)
Definition validate_settings (s : Settings) : result Settings :=
  try! _ <- database_url_must_be_async_postgres (database_url s);
  try! _ <- session_secret_must_be_strong (session_secret s);
  try! _ <- guard_or (limits_ok s) ValueError;
  try! _ <- data_key_must_be_aes_256_key (data_key s);
  require_explicit_production_hosts s.

(** [base64.urlsafe_b64decode(encoded + "=" * (-len(encoded) % 4))], the decoding every user of the
    data key repeats. *)
Definition decode_data_key (encoded : pystr) : result bytes := urlsafe_b64decode (pad_to 4 encoded).

Lemma validated_limits s : validate_settings s = Ok s -> limits_ok s = true.
Proof using Type.
  unfold validate_settings. intros (?&_&(?&_&(?&Hl&_)%rbind_Ok)%rbind_Ok)%rbind_Ok.
  revert Hl. unfold guard_or. by destruct (limits_ok s).
Qed.

Lemma validated_hosts s :
  validate_settings s = Ok s -> require_explicit_production_hosts s = Ok s.
Proof using Type.
  unfold validate_settings.
  by intros (?&_&(?&_&(?&_&(?&_&Hm)%rbind_Ok)%rbind_Ok)%rbind_Ok)%rbind_Ok.
Qed.

Lemma validated_ttl s :
  validate_settings s = Ok s ->
  1 <= session_idle_ttl_seconds s <= session_absolute_ttl_seconds s.
Proof using Type.
  intros Hs. pose proof (validated_limits s Hs) as Hl. apply validated_hosts in Hs.
  unfold require_explicit_production_hosts in Hs.
  destruct (_ <? _) eqn:E in Hs; [done|]. unfold limits_ok, between in Hl. bools. lia.
Qed.

Lemma validated_key s :
  validate_settings s = Ok s ->
  exists key, decode_data_key (data_key s) = Ok key /\ length key = 32%nat.
Proof using Type.
  unfold validate_settings. intros (?&_&(?&_&(?&_&(k&Hk&_)%rbind_Ok)%rbind_Ok)%rbind_Ok)%rbind_Ok.
  revert Hk. unfold data_key_must_be_aes_256_key. destruct (placeholder _); [done|].
  destruct (rbind _ _) as [key|] eqn:E; [|done]. destruct (_ =? _)%nat eqn:El; [|done]. intros _.
  apply rbind_Ok in E as (p&Hp&Hd). revert Hp. unfold ascii_encode. destruct (isascii _) eqn:Ea; [|done].
  intros [= <-]. exists key. split; [|by apply Nat.eqb_eq]. unfold decode_data_key, urlsafe_b64decode.
  rewrite Ea. apply a2b_strict_lenient. revert Hd. unfold b64decode_strict.
  by destruct (startswith _ _).
Qed.

Lemma validated_session_secret s :
  validate_settings s = Ok s ->
  exists secret, utf8_encode (session_secret s) = Ok secret /\ (32 <= length secret)%nat.
Proof using Type.
  unfold validate_settings. intros (?&_&(?&Hk&_)%rbind_Ok)%rbind_Ok.
  revert Hk. unfold session_secret_must_be_strong. destruct (placeholder _); [done|].
  intros (b&Hb&Hl)%rbind_Ok. exists b. split; [done|].
  destruct (_ <? _)%nat eqn:E; [done|]. by apply Nat.ltb_ge in E.
Qed.

End Config.

Section Properties.
Context `{Unicode}.

(** A configuration that passes validation gives every component what it needs: the data key
    decodes, by the lenient decoder the components use, to a 32-octet AES-256 key; the session
    secret has at least 32 octets; the idle lifetime is positive and at most the absolute one; and
    in production no local or wildcard host is trusted unless the wildcard is explicitly allowed. *)
Theorem validated_settings_usable s :
  validate_settings s = Ok s ->
  (exists key, decode_data_key (data_key s) = Ok key /\ length key = 32%nat) /\
  (exists secret, utf8_encode (session_secret s) = Ok secret /\ (32 <= length secret)%nat) /\
  1 <= session_idle_ttl_seconds s <= session_absolute_ttl_seconds s /\
  trusted_hosts s <> [] /\
  (py "*" ∈ trusted_hosts s -> allow_unconfigured_hosts s = true) /\
  (environment s = PRODUCTION -> (py "localhost" ∉ trusted_hosts s) /\ (py "127.0.0.1" ∉ trusted_hosts s)).
Proof using Type.
  intros Hs. split; [by apply validated_key|]. split.
  { apply (validated_session_secret s Hs). }
  split; [by apply validated_ttl|]. apply validated_hosts in Hs. revert Hs.
  unfold require_explicit_production_hosts. destruct (_ <? _); [done|].
  destruct (bool_decide _ || _) eqn:E1; [done|]. destruct (bool_decide (environment s = _) && _) eqn:E2; [done|].
  intros _. apply orb_false_iff in E1 as [En Ew]. apply bool_decide_eq_false in En.
  split; [done|]. split.
  - intros Hin. rewrite (bool_decide_eq_true_2 _ Hin) in Ew. by apply negb_false_iff in Ew.
  - intros He. rewrite (bool_decide_eq_true_2 _ He) in E2. simpl in E2.
    rewrite existsb_false_Forall, Forall_forall in E2.
    split; intros Hin; apply E2, bool_decide_eq_false in Hin; apply Hin; [left|right; left].
Qed.

End Properties.

(** A complete development configuration. *)
Definition sample_settings : Settings :=
  mkSettings DEVELOPMENT (py "postgresql+asyncpg://portal@db/portal")
    (py "0123456789abcdef0123456789abcdef") 3600 43200 5 900 10 900 900
    (py "AAECAwQFBgcICQoLDA0ODxAREhMUFRYXGBkaGxwdHh8") [py "localhost"; py "127.0.0.1"] false false.

Lemma validated_settings_usable_witness :
  exists key, decode_data_key (data_key sample_settings) = Ok key /\ length key = 32%nat.
Proof.
  apply (@validated_settings_usable ascii_unicode sample_settings). vm_compute. reflexivity.
Defined.
