(* ===== verification/Aead.v ===== *)
(** The interface of the authenticated cipher: AES-GCM is the [cryptography] package's, so its
    operations are those of a class and its documented guarantees are laws. Every component that
    stores a secret is proved against this interface. *)
From S2P Require Import Prelude PyBase Encoding Hashes.

(** [AESGCM(key).encrypt(nonce, data, aad)] and [AESGCM(key).decrypt(nonce, data, aad)], where
    [None] is [InvalidTag]. *)
Class Aead := {
  aes_encrypt : bytes -> bytes -> bytes -> bytes -> bytes;
  aes_decrypt : bytes -> bytes -> bytes -> bytes -> option bytes;
}.

(** Encryption is invertible under the same key, nonce and associated data, appends a 16-octet tag,
    and decryption accepts nothing but what encryption produces for them. *)
Class AeadLaws `{Aead} : Prop := {
  aes_decrypt_encrypt : forall key nonce data aad,
    aes_decrypt key nonce (aes_encrypt key nonce data aad) aad = Some data;
  aes_decrypt_inv : forall key nonce data aad plaintext,
    aes_decrypt key nonce data aad = Some plaintext -> data = aes_encrypt key nonce plaintext aad;
  aes_encrypt_length : forall key nonce data aad,
    length (aes_encrypt key nonce data aad) = (length data + 16)%nat;
}.

(** [AESGCM(key)] accepts the three AES key sizes. *)
Definition aesgcm (key : bytes) : result bytes :=
  if bool_decide (length key ∈ [16; 24; 32]%nat) then Ok key else Raise ValueError.

Definition aes_open `{Aead} (key nonce data aad : bytes) : result bytes :=
  of_option (aes_decrypt key nonce data aad) InvalidTag.

(** A stand-in for evaluation: the data in clear with a 16-octet authentication tag. *)
Definition tag (key nonce data aad : bytes) : bytes :=
  take 16 (hmac_sha256 key (nonce ++ be_split 8 (Z.of_nat (length aad)) ++ aad ++ data)).
Definition tagged_aead : Aead := {|
  aes_encrypt key nonce data aad := data ++ tag key nonce data aad;
  aes_decrypt key nonce data aad :=
    let plaintext := take (length data - 16) data in
    if bool_decide (data = plaintext ++ tag key nonce plaintext aad) then Some plaintext else None;
|}.

Lemma length_tag key nonce data aad : length (tag key nonce data aad) = 16%nat.
Proof. unfold tag. by rewrite length_take, length_hmac_sha256. Qed.

#[export] Instance tagged_aead_laws : @AeadLaws tagged_aead.
Proof.
  constructor; intros key nonce data aad; simpl.
  - replace (take _ _) with data; [by rewrite bool_decide_eq_true_2|].
    rewrite length_app, length_tag, Nat.add_sub, take_app_length. done.
  - intros plaintext. destruct (bool_decide _) eqn:E; [|done]. intros [= <-].
    by apply bool_decide_eq_true in E.
  - by rewrite length_app, length_tag.
Qed.

Lemma aes_open_encrypt `{AeadLaws} key nonce data aad :
  aes_open key nonce (aes_encrypt key nonce data aad) aad = Ok data.
Proof. unfold aes_open. by rewrite aes_decrypt_encrypt. Qed.

Lemma aes_open_inv `{AeadLaws} key nonce data aad plaintext :
  aes_open key nonce data aad = Ok plaintext -> data = aes_encrypt key nonce plaintext aad.
Proof.
  unfold aes_open. destruct (aes_decrypt _ _ _ _) eqn:E; [|done]. intros [= <-].
  by apply aes_decrypt_inv.
Qed.

Lemma aesgcm_256 key : length key = 32%nat -> aesgcm key = Ok key.
Proof.
  intros Hl. unfold aesgcm. rewrite Hl, bool_decide_eq_true_2; [done|]. right; right; left.
Qed.
