(* ===== verification/FindingCrypto.v ===== *)
(** Finding passwords (app/finding_crypto.py): encryption bound to the finding, the mask and the
    character classes shown in its place, and the reveal path. *)
From S2P Require Import Prelude PyBase Encoding Hashes Config Models Store Aead.

Record ProtectedPassword := mkProtected {
  pp_ciphertext : bytes;
  pp_nonce : bytes;
  pp_sha256 : bytes;
  pp_mask : pystr;
  pp_length : Z;
  pp_charset : pystr;
}.

Definition NONCE_BYTES : nat := 12.
Definition bullet : Z := 8226.

Section FindingCrypto.
Context `{Unicode} `{Aead} `{Entropy}.

(** [_key]: lenient decoding; [AESGCM] then checks the size. *)
Definition key_ (settings : Settings) : result bytes := decode_data_key (data_key settings).

Definition aad_ (finding_id : uuid) : bytes :=
  py "leakcheck/finding-password/v1" ++ [0] ++ uuid_bytes finding_id.

Definition safe_mask_character (c : Z) : Z := if isprintable c && negb (isspace c) then c else bullet.

Definition mask_password (password : pystr) : pystr :=
  match password with
  | [] => []
  | c :: _ =>
      if (length password <? 6)%nat
      then safe_mask_character c :: replicate (length password - 1) bullet
      else map safe_mask_character (take 2 password) ++ replicate (length password - 3) bullet
           ++ [safe_mask_character (List.last password 0)]
  end.

Definition password_charset (password : pystr) : pystr :=
  let classes :=
    (if existsb islower password then [py "lower"] else [])
    ++ (if existsb isupper password then [py "upper"] else [])
    ++ (if existsb isdigit password then [py "digits"] else [])
    ++ (if existsb punct_or_symbol password then [py "symbols"] else [])
    ++ (if existsb (fun c => negb (is_ascii c)) password then [py "unicode"] else []) in
  match classes with [] => py "other" | _ => join [43] classes end.

Definition protect_password (settings : Settings) (finding_id : uuid) (password : pystr)
  : M ProtectedPassword :=
  let! plaintext <- lift (utf8_encode password);
  let! nonce <- token_bytes NONCE_BYTES;
  let! key <- lift (try! k <- key_ settings; aesgcm k);
  mret (mkProtected (aes_encrypt key nonce plaintext (aad_ finding_id)) nonce (sha256 plaintext)
          (mask_password password) (Z.of_nat (length password)) (password_charset password)).

(** [except (InvalidTag, UnicodeDecodeError)] *)
Definition tag_or_decode (e : exn) : bool :=
  match e with InvalidTag | UnicodeDecodeError => true | _ => false end.

Definition reveal_password (settings : Settings) (finding_id : uuid) (ciphertext nonce : bytes)
  : result pystr :=
  if negb (length nonce =? NONCE_BYTES)%nat then Raise FindingCryptoError
  else
    match (try! k <- key_ settings;
           try! key <- aesgcm k;
           try! plaintext <- aes_open key nonce ciphertext (aad_ finding_id);
           utf8_decode plaintext) with
    | Raise e => if tag_or_decode e then Raise FindingCryptoError else Raise e
    | r => r
    end.

(** ** Lemmas *)

Lemma length_mask_password p : length (mask_password p) = length p.
Proof using Type.
  unfold mask_password. destruct p as [|c t]; [done|].
  destruct (_ <? 6)%nat eqn:E.
  - simpl. rewrite length_replicate. simpl. lia.
  - apply Nat.ltb_ge in E. rewrite !length_app, length_map, length_take, length_replicate.
    cbn [length] in *. lia.
Qed.

Lemma aad_inj f g :
  0 <= f < 2 ^ 128 -> 0 <= g < 2 ^ 128 -> aad_ f = aad_ g -> f = g.
Proof using Type.
  intros Hf Hg E. unfold aad_ in E. apply app_inv_head, app_inv_head in E.
  by apply uuid_bytes_inj.
Qed.

Lemma protect_password_ok settings fid password p w w' :
  protect_password settings fid password w = (Ok p, w') ->
  exists plaintext key, utf8_encode password = Ok plaintext /\ key_ settings = Ok key /\
    aesgcm key = Ok key /\
    p = mkProtected (aes_encrypt key (octets_at (w_draws w) 12) plaintext (aad_ fid))
          (octets_at (w_draws w) 12) (sha256 plaintext) (mask_password password)
          (Z.of_nat (length password)) (password_charset password)
    /\ w' = mkWorld (w_db w) (w_committed w) (S (w_draws w)) (w_now w).
Proof using Type.
  unfold protect_password. intros (plaintext&w1&E1&E)%mbind_inv.
  injection E1 as E1 ->. apply mbind_inv in E as (nonce&w2&E2&E). injection E2 as <- <-.
  apply mbind_inv in E as (key&w3&E3&E). injection E3 as E3 <-. injection E as <- <-.
  apply rbind_Ok in E3 as (k&Hk&Ha). exists plaintext, k.
  assert (k = key) as <-; [|done].
  revert Ha. unfold aesgcm. by destruct (bool_decide _); [intros [= ->]|].
Qed.

Lemma reveal_password_ok settings fid c n pw :
  reveal_password settings fid c n = Ok pw ->
  exists key plaintext, key_ settings = Ok key /\ aesgcm key = Ok key /\ length n = 12%nat /\
    aes_open key n c (aad_ fid) = Ok plaintext /\ utf8_decode plaintext = Ok pw.
Proof using Type.
  unfold reveal_password. destruct (negb _) eqn:En; [done|]. bools. apply Nat.eqb_eq in En.
  destruct (rbind _ _) as [x|e] eqn:E; [|by destruct (tag_or_decode e)]. intros [= ->].
  apply rbind_Ok in E as (k&Hk&(key&Ha&(pt&Ho&Hd)%rbind_Ok)%rbind_Ok).
  assert (k = key) as <- by (revert Ha; unfold aesgcm; by destruct (bool_decide _); [intros [= ->]|]).
  by exists k, pt.
Qed.

(** Where the mask may show a character of the password. *)
Definition shown (n i : nat) : bool := ((i =? 0) || ((6 <=? n) && ((i =? 1) || (i =? n - 1))))%nat.

Lemma mask_password_nth p i c :
  mask_password p !! i = Some c -> c <> bullet -> shown (length p) i = true /\ p !! i = Some c.
Proof using Type.
  assert (Hs : forall d, safe_mask_character d = c -> c <> bullet -> d = c).
  { intros d. unfold safe_mask_character. destruct (_ && _); congruence. }
  unfold mask_password. destruct p as [|c0 t]; [done|]. unfold shown.
  destruct (_ <? 6)%nat eqn:E; intros Hi Hc.
  - destruct i as [|i]; simpl in Hi.
    + injection Hi as Hi. split; [done|]. simpl. f_equal. by apply Hs.
    + apply lookup_replicate in Hi as [-> _]. done.
  - apply Nat.ltb_ge in E. rewrite lookup_app in Hi.
    destruct (map safe_mask_character (take 2 (c0 :: t)) !! i) as [d|] eqn:Em.
    + injection Hi as ->. apply list_lookup_fmap_Some in Em as (x&->&Hx).
      apply lookup_take_Some in Hx as [Hx Hi2]. split.
      * apply orb_true_iff. destruct i as [|[|i]]; [by left|right|lia].
        apply andb_true_iff. split; [by apply Nat.leb_le|done].
      * rewrite Hx. f_equal. by apply Hs.
    + apply lookup_ge_None in Em. rewrite length_map, length_take in *.
      replace (2 `min` length (c0 :: t))%nat with 2%nat in * by lia.
      rewrite lookup_app in Hi. destruct (replicate _ _ !! _) as [d|] eqn:Er.
      { apply lookup_replicate in Er as [-> _]. congruence. }
      apply lookup_ge_None in Er. rewrite length_replicate in *.
      apply list_lookup_singleton_Some in Hi as [Hi0 Hi]. split.
      * apply orb_true_iff. right. rewrite !andb_true_iff, orb_true_iff.
        split; [by apply Nat.leb_le|]. right. apply Nat.eqb_eq. lia.
      * replace i with (length (c0 :: t) - 1)%nat by lia.
        rewrite <- (Hs _ Hi Hc). destruct (exists_last (l := c0 :: t)) as (l'&x&->); [done|].
        rewrite last_last, length_app, lookup_app_r by (simpl; lia).
        replace (_ - _)%nat with 0%nat by (simpl; lia). done.
Qed.

End FindingCrypto.

Section Properties.
Context `{Unicode} `{AeadLaws} `{EntropyLaws}.

(** C13: under any validated configuration, a password that can be encoded is protected without
    error, the stored metadata describe it (nonce, digest and length have the widths the table
    checks), and revealing the stored ciphertext for the same finding gives the password back. *)
Theorem protect_then_reveal settings fid password plaintext w :
  validate_settings settings = Ok settings -> utf8_encode password = Ok plaintext ->
  exists p w', protect_password settings fid password w = (Ok p, w') /\
    reveal_password settings fid (pp_ciphertext p) (pp_nonce p) = Ok password /\
    length (pp_nonce p) = 12%nat /\ pp_sha256 p = sha256 plaintext /\
    pp_length p = Z.of_nat (length password) /\
    w_db w' = w_db w /\ w_committed w' = w_committed w.
Proof.
  intros Hs Hp. destruct (validated_key settings Hs) as (key&Hk&Hl).
  pose proof (aesgcm_256 key Hl) as Ha. eexists _, _. split.
  - unfold protect_password, mbind, lift, token_bytes, key_. rewrite Hp, Hk. cbn [rbind].
    rewrite Ha. reflexivity.
  - cbn [pp_ciphertext pp_nonce pp_sha256 pp_length]. split; [|by rewrite octets_at_length].
    unfold reveal_password, key_. rewrite octets_at_length, Hk. cbn [rbind negb Nat.eqb NONCE_BYTES].
    rewrite Ha. cbn [rbind]. rewrite aes_open_encrypt. cbn [rbind].
    by rewrite (utf8_roundtrip _ _ Hp).
Qed.

(** a ciphertext is bound to its finding: revealed for any other finding it is rejected with
    [FindingCryptoError], unless the cipher itself gives two different associated data the same
    ciphertext. *)
Theorem relocated_ciphertext_rejected settings fid other password p w w' :
  0 <= fid < 2 ^ 128 -> 0 <= other < 2 ^ 128 -> fid <> other ->
  protect_password settings fid password w = (Ok p, w') ->
  reveal_password settings other (pp_ciphertext p) (pp_nonce p) = Raise FindingCryptoError \/
  exists key x y, aad_ fid <> aad_ other /\
    aes_encrypt key (pp_nonce p) x (aad_ fid) = aes_encrypt key (pp_nonce p) y (aad_ other).
Proof.
  intros Hf Ho Hne (pt&key&_&Hk&Ha&->&_)%protect_password_ok. cbn [pp_ciphertext pp_nonce].
  unfold reveal_password. rewrite octets_at_length, Hk. cbn [rbind negb Nat.eqb NONCE_BYTES].
  rewrite Ha. cbn [rbind]. destruct (aes_open _ _ _ (aad_ other)) as [y|e] eqn:E.
  - right. exists key, pt, y. split; [intros Haad; by apply Hne, aad_inj|]. by apply aes_open_inv.
  - left. revert E. unfold aes_open. destruct (aes_decrypt _ _ _ _); [done|]. by intros [= <-].
Qed.

(** A mask has the password's length and shows at most its first character, or for passwords
    of six characters and more its first two and its last; every other position is a bullet. *)
Theorem mask_shows_at_most_three password :
  length (mask_password password) = length password /\
  (forall i c, mask_password password !! i = Some c -> c <> bullet ->
     shown (length password) i = true /\ password !! i = Some c) /\
  (length (List.filter (shown (length password)) (seq 0 (length password))) <= 3)%nat /\
  ((length password < 6)%nat ->
   length (List.filter (shown (length password)) (seq 0 (length password))) <= 1)%nat.
Proof.
  split; [apply length_mask_password|]. split; [intros i c; apply mask_password_nth|].
  set (n := length password).
  assert (Hincl : forall i, shown n i = true -> i ∈ (if (n <? 6)%nat then [0] else [0; 1; n - 1])%nat).
  { intros i. unfold shown. destruct (n <? 6)%nat eqn:E; rewrite orb_true_iff, andb_true_iff, orb_true_iff,
      !Nat.eqb_eq, Nat.leb_le; [apply Nat.ltb_lt in E|]; intros [->|[? [->| ->]]]; try lia;
      repeat first [left; done | right]. }
  assert (Hlen : (length (List.filter (shown n) (seq 0 n))
                  <= length (if (n <? 6)%nat then [0] else [0; 1; n - 1])%nat)%nat).
  { apply NoDup_incl_length; [apply List.NoDup_filter, List.seq_NoDup|].
    intros i [_ Hi]%filter_In. by apply list_elem_of_In, Hincl. }
  destruct (n <? 6)%nat eqn:E; simpl in Hlen; split; try lia. apply Nat.ltb_ge in E. lia.
Qed.

End Properties.

Definition sample_world : World := mkWorld empty_db empty_db 7 1700000000000000.

Lemma protect_then_reveal_witness :
  exists p w', @protect_password ascii_unicode tagged_aead counting_entropy sample_settings 5
                 (py "hunter22") sample_world = (Ok p, w') /\ pp_mask p = [104; 117; 8226; 8226; 8226; 8226; 8226; 50] /\
    @reveal_password tagged_aead sample_settings 5 (pp_ciphertext p) (pp_nonce p) = Ok (py "hunter22").
Proof.
  destruct (@protect_then_reveal ascii_unicode tagged_aead _ counting_entropy _ sample_settings 5
    (py "hunter22") (py "hunter22") sample_world) as (p&w'&E&R&_);
    [vm_compute; reflexivity|vm_compute; reflexivity|].
  exists p, w'. split; [exact E|]. split; [|exact R]. vm_compute in E. injection E as <- _. reflexivity.
Defined.

Lemma relocated_ciphertext_rejected_witness :
  exists p w', @protect_password ascii_unicode tagged_aead counting_entropy sample_settings 5
                 (py "hunter22") sample_world = (Ok p, w') /\
    (@reveal_password tagged_aead sample_settings 6 (pp_ciphertext p) (pp_nonce p)
       = Raise FindingCryptoError \/
     exists key x y, aad_ 5 <> aad_ 6 /\
       @aes_encrypt tagged_aead key (pp_nonce p) x (aad_ 5)
         = @aes_encrypt tagged_aead key (pp_nonce p) y (aad_ 6)).
Proof.
  eexists _, _. split; [vm_compute; reflexivity|].
  eapply (@relocated_ciphertext_rejected ascii_unicode tagged_aead _ counting_entropy _
    sample_settings 5 6 (py "hunter22") _ sample_world); [lia|lia|lia|vm_compute; reflexivity].
Defined.

Example relocation_fails :
  match @protect_password ascii_unicode tagged_aead counting_entropy sample_settings 5
          (py "hunter22") sample_world with
  | (Ok p, _) => @reveal_password tagged_aead sample_settings 6 (pp_ciphertext p) (pp_nonce p)
                 = Raise FindingCryptoError
  | _ => False
  end.
Proof. vm_compute. reflexivity. Qed.
