(* ===== verification/PlatformSettings.v ===== *)
(** The encrypted settings store (app/platform_settings.py): reading, writing and listing the
    operational settings, each bound to its key and schema version. *)
From S2P Require Import Prelude PyBase Encoding Hashes Json Config Models Store Aead.

Inductive SettingKey : Type :=
| LEAKCHECK_API_KEY | LEAKCHECK_RPS | LEAKCHECK_CONCURRENCY | LEAKCHECK_MAX_RESPONSE_BYTES
| SELF_CHECK_COOLDOWN_SECONDS | GOOGLE_CLIENT_ID | GOOGLE_CLIENT_SECRET | GOOGLE_REDIRECT_URI
| GOOGLE_WORKSPACE_DOMAINS | GOOGLE_WORKSPACE_SERVICE_ACCOUNT_JSON
| GOOGLE_WORKSPACE_DELEGATED_ADMIN | WAZUH_URL | WAZUH_USERNAME | WAZUH_PASSWORD | DFIR_IRIS_URL
| DFIR_IRIS_API_KEY | DFIR_IRIS_CUSTOMER_ID | SMTP_HOST | SMTP_PORT | SMTP_USERNAME
| SMTP_PASSWORD | SMTP_FROM | SMTP_SECURITY | PUBLIC_BASE_URL | NOTIFY_DRY_RUN
| NOTIFY_COOLDOWN_SECONDS | SOC_EMAIL | RETENTION_MODE | RETENTION_DAYS.

#[export] Instance SettingKey_eq_dec : EqDecision SettingKey.
Proof. solve_decision. Defined.

Definition all_setting_keys : list SettingKey :=
  [LEAKCHECK_API_KEY; LEAKCHECK_RPS; LEAKCHECK_CONCURRENCY; LEAKCHECK_MAX_RESPONSE_BYTES;
   SELF_CHECK_COOLDOWN_SECONDS; GOOGLE_CLIENT_ID; GOOGLE_CLIENT_SECRET; GOOGLE_REDIRECT_URI;
   GOOGLE_WORKSPACE_DOMAINS; GOOGLE_WORKSPACE_SERVICE_ACCOUNT_JSON;
   GOOGLE_WORKSPACE_DELEGATED_ADMIN; WAZUH_URL; WAZUH_USERNAME; WAZUH_PASSWORD; DFIR_IRIS_URL;
   DFIR_IRIS_API_KEY; DFIR_IRIS_CUSTOMER_ID; SMTP_HOST; SMTP_PORT; SMTP_USERNAME;
   SMTP_PASSWORD; SMTP_FROM; SMTP_SECURITY; PUBLIC_BASE_URL; NOTIFY_DRY_RUN;
   NOTIFY_COOLDOWN_SECONDS; SOC_EMAIL; RETENTION_MODE; RETENTION_DAYS].

Definition SettingKey_value (k : SettingKey) : pystr :=
  match k with
  | LEAKCHECK_API_KEY => py "leakcheck_api_key"
  | LEAKCHECK_RPS => py "leakcheck_rps"
  | LEAKCHECK_CONCURRENCY => py "leakcheck_concurrency"
  | LEAKCHECK_MAX_RESPONSE_BYTES => py "leakcheck_max_response_bytes"
  | SELF_CHECK_COOLDOWN_SECONDS => py "self_check_cooldown_seconds"
  | GOOGLE_CLIENT_ID => py "google_client_id"
  | GOOGLE_CLIENT_SECRET => py "google_client_secret"
  | GOOGLE_REDIRECT_URI => py "google_redirect_uri"
  | GOOGLE_WORKSPACE_DOMAINS => py "google_workspace_domains"
  | GOOGLE_WORKSPACE_SERVICE_ACCOUNT_JSON => py "google_workspace_service_account_json"
  | GOOGLE_WORKSPACE_DELEGATED_ADMIN => py "google_workspace_delegated_admin"
  | WAZUH_URL => py "wazuh_url"
  | WAZUH_USERNAME => py "wazuh_username"
  | WAZUH_PASSWORD => py "wazuh_password"
  | DFIR_IRIS_URL => py "dfir_iris_url"
  | DFIR_IRIS_API_KEY => py "dfir_iris_api_key"
  | DFIR_IRIS_CUSTOMER_ID => py "dfir_iris_customer_id"
  | SMTP_HOST => py "smtp_host"
  | SMTP_PORT => py "smtp_port"
  | SMTP_USERNAME => py "smtp_username"
  | SMTP_PASSWORD => py "smtp_password"
  | SMTP_FROM => py "smtp_from"
  | SMTP_SECURITY => py "smtp_security"
  | PUBLIC_BASE_URL => py "public_base_url"
  | NOTIFY_DRY_RUN => py "notify_dry_run"
  | NOTIFY_COOLDOWN_SECONDS => py "notify_cooldown_seconds"
  | SOC_EMAIL => py "soc_email"
  | RETENTION_MODE => py "retention_mode"
  | RETENTION_DAYS => py "retention_days"
  end.

(** [SettingKey(value)]: [ValueError] for an unknown key. *)
Definition SettingKey_of (value : pystr) : result SettingKey :=
  of_option (List.find (fun k => bool_decide (SettingKey_value k = value)) all_setting_keys) ValueError.

Definition SECRET_KEYS : list SettingKey :=
  [LEAKCHECK_API_KEY; GOOGLE_CLIENT_SECRET; GOOGLE_WORKSPACE_SERVICE_ACCOUNT_JSON; WAZUH_PASSWORD;
   DFIR_IRIS_API_KEY; SMTP_PASSWORD].

Definition SCHEMA_VERSION : Z := 1.

(** The values of a [dict[SettingKey, str]]. *)
Definition SettingValues : Type := list (SettingKey * pystr).
Fixpoint values_get (key : SettingKey) (values : SettingValues) : option pystr :=
  match values with
  | [] => None
  | (k, v) :: t => if bool_decide (key = k) then Some v else values_get key t
  end.

(** A store holds the cipher's key. *)
Record PlatformSettingsStore := mkStore { store_key : bytes }.

Section PlatformSettings.
Context `{Aead} `{Entropy}.

Definition open_store (settings : Settings) : result PlatformSettingsStore :=
  try! raw <- decode_data_key (data_key settings);
  try! key <- aesgcm raw;
  Ok (mkStore key).

Definition setting_aad (key : SettingKey) (schema_version : Z) : result bytes :=
  ascii_encode (py "leakcheck/platform-setting/" ++ str_int schema_version ++ py "/"
                ++ SettingKey_value key).

Definition tag_or_decode_error (e : exn) : bool :=
  match e with InvalidTag | UnicodeDecodeError => true | _ => false end.

Definition decrypt_row (store : PlatformSettingsStore) (key : SettingKey) (row : PlatformSetting)
  : result pystr :=
  match (try! aad <- setting_aad key (ps_schema_version row);
         try! plaintext <- aes_open (store_key store) (ps_nonce row) (ps_ciphertext row) aad;
         utf8_decode plaintext) with
  | Raise e => if tag_or_decode_error e then Raise PlatformSettingError else Raise e
  | r => r
  end.

Definition read (store : PlatformSettingsStore) (key : SettingKey) : M (option pystr) :=
  let! d <- get_db;
  match platform_settings d !! SettingKey_value key with
  | None => mret None
  | Some row => let! v <- lift (decrypt_row store key row); mret (Some v)
  end.

(** The keys come as a set: its iteration order is the list's. *)
Fixpoint read_many (store : PlatformSettingsStore) (keys : list SettingKey) : M SettingValues :=
  match keys with
  | [] => mret []
  | key :: t =>
      let! value <- read store key;
      let! rest <- read_many store t;
      mret (match value with Some v => (key, v) :: rest | None => rest end)
  end.

Definition skipped (key : SettingKey) (value : option pystr) : bool :=
  match value with
  | None => true
  | Some v => bool_decide (key ∈ SECRET_KEYS) && bool_decide (v = [])
  end.

Definition write_one (store : PlatformSettingsStore) (actor_id : uuid) (kv : SettingKey * option pystr)
  : M unit :=
  let '(key, value) := kv in
  if skipped key value then mret tt
  else
    let! nonce <- token_bytes 12;
    let! encoded <- lift (utf8_encode (default [] value));
    let! aad <- lift (setting_aad key SCHEMA_VERSION);
    let ciphertext := aes_encrypt (store_key store) nonce encoded aad in
    let! now <- clock;
    modify_db (fun d => set_platform_settings
      (<[SettingKey_value key := mkPlatformSetting (SettingKey_value key) ciphertext nonce
                                   SCHEMA_VERSION now actor_id]> (platform_settings d)) d).

Definition write_many (store : PlatformSettingsStore) (values : list (SettingKey * option pystr))
    (actor_id : uuid) : M unit :=
  let! _ <- mfor (write_one store actor_id) values; mret tt.

Definition configured_state : M (list (pystr * bool)) :=
  let! d <- get_db;
  mret (map (fun k => (SettingKey_value k,
                       bool_decide (is_Some (platform_settings d !! SettingKey_value k))))
            all_setting_keys).

Definition encode_domains (domains : list pystr) : pystr := dumps (JList (map JStr domains)).

Definition decode_domains `{Unicode} (value : pystr) : result (list pystr) :=
  match json_loads value with
  | Raise JSONDecodeError => Raise PlatformSettingError
  | Raise e => Raise e
  | Ok (JList l) =>
      rmap (fun j => match j with JStr s => Ok s | _ => Raise PlatformSettingError end) l
  | Ok _ => Raise PlatformSettingError
  end.

(** ** Lemmas *)

Lemma SettingKey_value_inj k k' : SettingKey_value k = SettingKey_value k' -> k = k'.
Proof using Type. destruct k, k'; (done || discriminate). Qed.

Lemma setting_aad_ok key : exists aad, setting_aad key SCHEMA_VERSION = Ok aad.
Proof using Type. destruct key; eexists; vm_compute; reflexivity. Qed.

Lemma open_store_validated `{Unicode} settings :
  validate_settings settings = Ok settings ->
  exists store, open_store settings = Ok store /\ length (store_key store) = 32%nat.
Proof using Type.
  intros Hs. destruct (validated_key settings Hs) as (key&Hk&Hl). exists (mkStore key).
  split; [|done]. unfold open_store. rewrite Hk. cbn [rbind]. by rewrite aesgcm_256.
Qed.

(** What one write does: it replaces one row, or fails before touching the database. *)
Lemma write_one_inv store actor key value w u w' :
  write_one store actor (key, value) w = (Ok u, w') ->
  if skipped key value then w' = w
  else exists row encoded aad, utf8_encode (default [] value) = Ok encoded
    /\ setting_aad key SCHEMA_VERSION = Ok aad
    /\ row = mkPlatformSetting (SettingKey_value key)
        (aes_encrypt (store_key store) (octets_at (w_draws w) 12) encoded aad)
        (octets_at (w_draws w) 12) SCHEMA_VERSION (w_now w) actor
    /\ w' = mkWorld (set_platform_settings (<[SettingKey_value key := row]> (platform_settings (w_db w)))
             (w_db w)) (w_committed w) (S (w_draws w)) (w_now w).
Proof using Type.
  unfold write_one. destruct (skipped key value); [by intros [= _ <-]|].
  unfold mbind, token_bytes, lift, clock, modify_db, with_db; cbn.
  destruct (utf8_encode _) as [e|]; [|done]. destruct (setting_aad _ _) as [a|]; [|done]; cbn.
  intros [= _ <-]. by exists (mkPlatformSetting (SettingKey_value key)
        (aes_encrypt (store_key store) (octets_at (w_draws w) 12) e a)
        (octets_at (w_draws w) 12) SCHEMA_VERSION (w_now w) actor), e, a.
Qed.

Lemma read_written `{!AeadLaws} store key value w w' actor u :
  write_one store actor (key, Some value) w = (Ok u, w') -> skipped key (Some value) = false ->
  read store key w' = (Ok (Some value), w').
Proof using Type.
  intros Hw%write_one_inv Hs. rewrite Hs in Hw. destruct Hw as (row&e&a&He&Ha&Hrow&->).
  unfold read, mbind, get_db, lift; cbn. rewrite lookup_insert_eq. unfold decrypt_row. subst row. cbn.
  rewrite Ha. cbn [rbind]. rewrite aes_open_encrypt. cbn [rbind].
  by rewrite (utf8_roundtrip _ _ He).
Qed.

Lemma read_other store key kv w w' actor u :
  write_one store actor kv w = (Ok u, w') -> kv.1 <> key \/ skipped kv.1 kv.2 = true ->
  (read store key w').1 = (read store key w).1.
Proof using Type.
  destruct kv as [k v]. intros Hw%write_one_inv Hne. simpl in Hne.
  destruct (skipped k v); [by subst|]. destruct Hne as [Hne|]; [|done].
  destruct Hw as (row&e&a&_&_&_&->). unfold read, mbind, get_db; cbn.
  rewrite lookup_insert_ne by (intros E%SettingKey_value_inj; done).
  destruct (_ !! _); [|done]. unfold lift. by destruct (decrypt_row _ _ _).
Qed.

Lemma read_value_world store key w r w' : read store key w = (r, w') -> w' = w.
Proof using Type.
  unfold read, mbind, get_db; cbn. destruct (_ !! _); [|by intros [= _ <-]]. unfold lift.
  destruct (decrypt_row _ _ _); by intros [= _ <-].
Qed.

Lemma read_many_world store keys w r w' : read_many store keys w = (r, w') -> w' = w.
Proof using Type.
  revert r w'. induction keys as [|k keys IH]; intros r w'; cbn [read_many]; [by intros [= _ <-]|].
  unfold mbind. destruct (read store k w) as [[v|e] w1] eqn:E; apply read_value_world in E as ->;
    [|by intros [= _ <-]]. destruct (read_many store keys w) as [[vs|e] w2];
    rewrite (IH _ w2 eq_refl); by intros [= _ <-].
Qed.

(** Reading depends on the settings table alone. *)
Lemma read_many_table store keys w1 w2 :
  platform_settings (w_db w1) = platform_settings (w_db w2) ->
  (read_many store keys w1).1 = (read_many store keys w2).1.
Proof using Type.
  intros Ht. induction keys as [|k keys IH]; [done|]. cbn [read_many]. unfold mbind.
  assert (Hr : (read store k w1).1 = (read store k w2).1).
  { unfold read, mbind, get_db. cbn. rewrite Ht. destruct (_ !! _); [|done]. unfold lift.
    by destruct (decrypt_row _ _ _). }
  destruct (read store k w1) as [r1 x1] eqn:E1, (read store k w2) as [r2 x2] eqn:E2. cbn in Hr. subst r2.
  apply read_value_world in E1 as ->. apply read_value_world in E2 as ->. destruct r1 as [v|e]; [|done].
  destruct (read_many store keys w1) as [q1 y1], (read_many store keys w2) as [q2 y2]. cbn in IH. subst q2.
  by destruct q1.
Qed.

End PlatformSettings.

Section Properties.
Context `{AeadLaws} `{Entropy}.

(** a successful [write_many] over distinct keys is exactly the map update it documents: each
    key with a supplied value reads back as that value; a key that was not supplied, was [None],
    or is a secret left blank, reads back exactly as before. *)
Theorem write_many_then_read store values actor w u w' :
  NoDup values.*1 -> write_many store values actor w = (Ok u, w') ->
  forall key,
    (read store key w').1 =
      match List.find (fun kv => bool_decide (kv.1 = key)) values with
      | Some (_, Some v) => if skipped key (Some v) then (read store key w).1 else Ok (Some v)
      | _ => (read store key w).1
      end.
Proof.
  intros Hnd (l&w1&Hm&E)%mbind_inv. injection E as _ <-. revert w l Hnd Hm.
  induction values as [|[k v] values IH]; intros w l Hnd Hm key; cbn [mfor] in Hm.
  { by injection Hm as _ <-. }
  apply mbind_inv in Hm as (u1&w2&Hw1&Hm). apply mbind_inv in Hm as (l'&w3&Hw2&E).
  injection E as _ ->. rewrite fmap_cons in Hnd. apply NoDup_cons in Hnd as [Hk Hnd].
  rewrite (IH w2 l' Hnd Hw2 key). cbn [List.find fst].
  destruct (bool_decide (k = key)) eqn:Ek.
  - bools. subst k. assert (List.find (fun kv => bool_decide (kv.1 = key)) values = None) as ->.
    { apply find_none_elem. intros [k' v'] Hin. apply bool_decide_eq_false_2. simpl. intros ->.
      apply Hk, list_elem_of_fmap. by exists (key, v'). }
    destruct v as [v|].
    + destruct (skipped key (Some v)) eqn:Es.
      * eapply read_other; [exact Hw1|]. by right.
      * by rewrite (read_written _ _ _ _ _ _ _ Hw1 Es).
    + eapply read_other; [exact Hw1|]. by right.
  - bools. assert (Ho : (read store key w2).1 = (read store key w).1)
      by (eapply read_other; [exact Hw1|by left]). by rewrite !Ho.
Qed.

End Properties.

(** Three writes over an empty store: a value, an empty non-secret value and a blank secret. *)
Definition sample_values : list (SettingKey * option pystr) :=
  [(SMTP_HOST, Some (py "mail.example.com")); (SMTP_USERNAME, Some []); (SMTP_PASSWORD, Some [])].

Lemma write_many_then_read_witness :
  exists w', @write_many tagged_aead counting_entropy (mkStore (py "0123456789abcdef0123456789abcdef"))
               sample_values 9 (mkWorld empty_db empty_db 0 1700000000000000) = (Ok tt, w') /\
    (@read tagged_aead (mkStore (py "0123456789abcdef0123456789abcdef")) SMTP_HOST w').1
      = Ok (Some (py "mail.example.com")) /\
    (@read tagged_aead (mkStore (py "0123456789abcdef0123456789abcdef")) SMTP_PASSWORD w').1 = Ok None.
Proof.
  pose (w0 := mkWorld empty_db empty_db 0 1700000000000000).
  pose (st := mkStore (py "0123456789abcdef0123456789abcdef")).
  destruct (@write_many tagged_aead counting_entropy st sample_values 9 w0) as [[[]|e] w'] eqn:E;
    [|vm_compute in E; discriminate].
  exists w'. split; [exact E|].
  assert (Hnd : NoDup (sample_values.*1)).
  { apply (bool_decide_unpack (NoDup (sample_values.*1))). vm_compute. exact I. }
  pose proof (@write_many_then_read tagged_aead _ counting_entropy st sample_values 9 w0 tt w' Hnd E) as Hr.
  split; [etransitivity; [exact (Hr SMTP_HOST)|]|etransitivity; [exact (Hr SMTP_PASSWORD)|]];
    vm_compute; reflexivity.
Defined.
