(* ===== verification/Remediation.v ===== *)
(** Finding remediation (app/remediation.py): the two transitions of a finding between open and
    remediated, the events they append, and the step relation they generate. *)
From S2P Require Import Prelude PyBase Encoding Json Models Store.

Section Remediation.
Context `{Entropy}.

Definition locked_finding (finding_id : uuid) : M Finding :=
  let! d <- get_db;
  match findings d !! finding_id with
  | Some finding => mret finding
  | None => raise FindingNotFoundError
  end.

Definition add_event_ (finding_id : uuid) (event : FindingEventType) (actor_id : uuid) (at_ : instant)
  : M unit :=
  let! id <- uuid4;
  modify_db (fun d => set_finding_events
    (finding_events d ++ [mkFindingEvent id finding_id event (Some actor_id) at_ []]) d).

Definition put_finding (f : Finding) : M unit :=
  modify_db (fun d => set_findings (<[f_id f := f]> (findings d)) d).

Definition remediate_finding (finding_id actor_id : uuid) (note : option pystr)
    (now : option pydatetime) : M Finding :=
  let! finding <- locked_finding finding_id;
  match f_remediated_at finding with
  | Some _ => mret finding
  | None =>
      let! at_ <- utc_now_m now;
      let finding := set_f_remediation_note note (set_f_remediated_by (Some actor_id)
                       (set_f_remediated_at (Some at_) finding)) in
      do! put_finding finding;
      do! add_event_ (f_id finding) Event_REMEDIATED actor_id at_;
      mret finding
  end.

Definition unremediate_finding (finding_id actor_id : uuid) (now : option pydatetime) : M Finding :=
  let! finding <- locked_finding finding_id;
  match f_remediated_at finding with
  | None => mret finding
  | Some _ =>
      let! at_ <- utc_now_m now;
      let finding := set_f_remediation_note None (set_f_remediated_by None
                       (set_f_remediated_at None finding)) in
      do! put_finding finding;
      do! add_event_ (f_id finding) Event_UNREMEDIATED actor_id at_;
      mret finding
  end.

(** ** The transition system of one finding *)

(** Rows are stored under their own identifier. *)
Definition keyed (d : Db) : Prop := forall k f, findings d !! k = Some f -> f_id f = k.

(** One committed call of either operation by anyone, successful or not. *)
Inductive remediation_step (w : World) : World -> Prop :=
| step_remediate finding_id actor_id note now :
    remediation_step w (remediate_finding finding_id actor_id note now w).2
| step_unremediate finding_id actor_id now :
    remediation_step w (unremediate_finding finding_id actor_id now w).2.

(** The state that a finding's transition events lead to, [None] when they do not alternate. *)
Definition transition (state : option bool) (e : FindingEventType) : option bool :=
  match e, state with
  | Event_REMEDIATED, Some false => Some true
  | Event_UNREMEDIATED, Some true => Some false
  | (Event_REMEDIATED | Event_UNREMEDIATED), _ => None
  | _, _ => state
  end.
Definition history (d : Db) (finding_id : uuid) : list FindingEventType :=
  map fe_event (List.filter (fun e => bool_decide (fe_finding_id e = finding_id)) (finding_events d)).
Definition replay (d : Db) (finding_id : uuid) : option bool :=
  foldl transition (Some false) (history d finding_id).

(** The event log determines whether each finding is remediated. *)
Definition log_consistent (d : Db) : Prop :=
  keyed d /\
  forall k f, findings d !! k = Some f -> replay d k = Some (bool_decide (is_Some (f_remediated_at f))).

(** ** Lemmas *)

Lemma history_app d l k :
  history (set_finding_events (finding_events d ++ l) d) k
  = history d k ++ map fe_event (List.filter (fun e => bool_decide (fe_finding_id e = k)) l).
Proof using Type. unfold history. cbn. by rewrite List.filter_app, map_app. Qed.

(** Writing one finding with the event that explains its new state keeps the log consistent. *)
Lemma transition_consistent d f0 f e :
  log_consistent d -> findings d !! f_id f = Some f0 -> f_id f0 = f_id f -> fe_finding_id e = f_id f ->
  transition (Some (bool_decide (is_Some (f_remediated_at f0)))) (fe_event e)
    = Some (bool_decide (is_Some (f_remediated_at f))) ->
  log_consistent (set_finding_events (finding_events d ++ [e]) (set_findings (<[f_id f := f]> (findings d)) d)).
Proof using Type.
  intros [Hk Hlog] Hf0 Hid He Ht. split.
  - intros k g Hg. cbn in Hg. apply lookup_insert_Some in Hg as [[<- <-]|[_ Hg]]; [done|by apply Hk].
  - intros k g Hg. cbn in Hg. unfold replay.
    change (finding_events d) with (finding_events (set_findings (<[f_id f := f]> (findings d)) d)).
    rewrite history_app, foldl_app. unfold history at 1. cbn [finding_events set_findings].
    change (foldl transition (Some false) _) with (replay d k) at 1. cbn [List.filter]. rewrite He.
    apply lookup_insert_Some in Hg as [[<- <-]|[Hne Hg]].
    + rewrite (Hlog _ _ Hf0), (bool_decide_eq_true_2 (f_id f = f_id f)) by done. exact Ht.
    + rewrite (Hlog _ _ Hg). by rewrite (bool_decide_eq_false_2 (f_id f = k)) by congruence.
Qed.

Lemma locked_finding_inv fid w f w' :
  locked_finding fid w = (Ok f, w') -> w' = w /\ findings (w_db w) !! fid = Some f.
Proof using Type.
  unfold locked_finding, mbind, get_db. destruct (_ !! _) eqn:E; [|done].
  intros [= <- <-]. done.
Qed.

Lemma remediate_cases fid actor note now w :
  let '(r, w') := remediate_finding fid actor note now w in
  match findings (w_db w) !! fid with
  | None => r = Raise FindingNotFoundError /\ w' = w
  | Some f =>
      match f_remediated_at f, utc_now (w_now w) now with
      | Some _, _ => r = Ok f /\ w' = w
      | None, Raise e => r = Raise e /\ w' = w
      | None, Ok t =>
          let g := set_f_remediation_note note (set_f_remediated_by (Some actor)
                     (set_f_remediated_at (Some t) f)) in
          r = Ok g /\
          w_db w' = set_finding_events (finding_events (w_db w) ++
                      [mkFindingEvent (uuid_at (w_draws w)) (f_id f) Event_REMEDIATED (Some actor) t []])
                      (set_findings (<[f_id f := g]> (findings (w_db w))) (w_db w))
      end
  end.
Proof using Type.
  unfold remediate_finding, locked_finding, mbind, get_db, utc_now_m.
  destruct (findings (w_db w) !! fid) as [f|]; cbn; [|done].
  destruct (f_remediated_at f); cbn; [done|]. by destruct (utc_now (w_now w) now).
Qed.

Lemma unremediate_cases fid actor now w :
  let '(r, w') := unremediate_finding fid actor now w in
  match findings (w_db w) !! fid with
  | None => r = Raise FindingNotFoundError /\ w' = w
  | Some f =>
      match f_remediated_at f, utc_now (w_now w) now with
      | None, _ => r = Ok f /\ w' = w
      | Some _, Raise e => r = Raise e /\ w' = w
      | Some _, Ok t =>
          let g := set_f_remediation_note None (set_f_remediated_by None
                     (set_f_remediated_at None f)) in
          r = Ok g /\
          w_db w' = set_finding_events (finding_events (w_db w) ++
                      [mkFindingEvent (uuid_at (w_draws w)) (f_id f) Event_UNREMEDIATED (Some actor) t []])
                      (set_findings (<[f_id f := g]> (findings (w_db w))) (w_db w))
      end
  end.
Proof using Type.
  unfold unremediate_finding, locked_finding, mbind, get_db, utc_now_m.
  destruct (findings (w_db w) !! fid) as [f|]; cbn; [|done].
  destruct (f_remediated_at f); cbn; [|done]. by destruct (utc_now (w_now w) now).
Qed.

Lemma step_consistent w w' :
  log_consistent (w_db w) -> remediation_step w w' -> log_consistent (w_db w').
Proof using Type.
  intros Hc [fid actor note now|fid actor now].
  - pose proof (remediate_cases fid actor note now w) as Hr.
    destruct (remediate_finding _ _ _ _ _) as [r w1]. cbn [snd].
    destruct (findings (w_db w) !! fid) as [f|] eqn:Ef; [|by destruct Hr as [_ ->]].
    pose proof (proj1 Hc _ _ Ef) as Hid. subst fid.
    destruct (f_remediated_at f) eqn:Er; [by destruct Hr as [_ ->]|].
    destruct (utc_now _ _); [|by destruct Hr as [_ ->]]. destruct Hr as [_ ->].
    by eapply (transition_consistent _ f (set_f_remediation_note note (set_f_remediated_by (Some actor)
                     (set_f_remediated_at (Some a) f)))); [..|rewrite Er].
  - pose proof (unremediate_cases fid actor now w) as Hr.
    destruct (unremediate_finding _ _ _ _) as [r w1]. cbn [snd].
    destruct (findings (w_db w) !! fid) as [f|] eqn:Ef; [|by destruct Hr as [_ ->]].
    pose proof (proj1 Hc _ _ Ef) as Hid. subst fid.
    destruct (f_remediated_at f) eqn:Er; [|by destruct Hr as [_ ->]].
    destruct (utc_now _ _); [|by destruct Hr as [_ ->]]. destruct Hr as [_ ->].
    by eapply (transition_consistent _ f (set_f_remediation_note None (set_f_remediated_by None
                     (set_f_remediated_at None f)))); [..|rewrite Er].
Qed.

End Remediation.

Section Properties.
Context `{Entropy}.

(** whatever sequence of remediation and reopening calls is made, by whomever and however often
    repeated, the append-only event log of every finding alternates between the two transitions and
    ends in the state the finding's row is in. *)
Theorem remediation_log_reachable w w' :
  log_consistent (w_db w) -> rtc remediation_step w w' -> log_consistent (w_db w').
Proof. intros Hc. induction 1; [done|]. by eauto using step_consistent. Qed.

(** Remediating is idempotent: the first call on an open finding stamps it once and appends one
    event, and a second call, whoever makes it and whatever it says, returns the same row, keeps
    the first actor, note and instant, and appends nothing. *)
Theorem remediate_once fid a1 n1 t1 a2 n2 t2 w f f1 w1 :
  keyed (w_db w) -> findings (w_db w) !! fid = Some f -> f_remediated_at f = None ->
  remediate_finding fid a1 n1 t1 w = (Ok f1, w1) ->
  f_remediated_by f1 = Some a1 /\ f_remediation_note f1 = n1 /\
  length (finding_events (w_db w1)) = S (length (finding_events (w_db w))) /\
  remediate_finding fid a2 n2 t2 w1 = (Ok f1, w1).
Proof.
  intros Hkey Hf Hr H1. pose proof (Hkey _ _ Hf) as Hid.
  pose proof (remediate_cases fid a1 n1 t1 w) as Hc. rewrite H1, Hf, Hr in Hc.
  destruct (utc_now _ _) as [t|]; [|by destruct Hc]. destruct Hc as [[= ->] Hdb].
  split; [done|]. split; [done|]. split.
  { rewrite Hdb. cbn. rewrite length_app. simpl. lia. }
  pose proof (remediate_cases fid a2 n2 t2 w1) as Hc2.
  destruct (remediate_finding fid a2 n2 t2 w1) as [r2 w2]. rewrite Hdb in Hc2. cbn in Hc2.
  rewrite Hid, lookup_insert_eq in Hc2. cbn in Hc2. by destruct Hc2 as [-> ->].
Qed.

End Properties.

(** A finding row for evaluation. *)
Definition sample_finding (id : uuid) (remediated : option instant) : Finding :=
  mkFinding id 1 2 None None None None None None None None None None None [] []
    (be_split 32 id) Severity_MEDIUM 0 0 remediated None None None None.

Definition world_with (fs : list Finding) : World :=
  let d := set_findings (list_to_map (map (fun f => (f_id f, f)) fs)) empty_db in mkWorld d d 0 1000.

Lemma remediation_log_reachable_witness :
  let w := world_with [sample_finding 3 None] in
  let w1 := (@remediate_finding counting_entropy 3 8 None None w).2 in
  let w2 := (@unremediate_finding counting_entropy 3 8 None w1).2 in
  log_consistent (w_db w2) /\ length (finding_events (w_db w2)) = 2%nat.
Proof.
  intros w w1 w2. split; [|vm_compute; reflexivity].
  apply (@remediation_log_reachable counting_entropy w).
  - split; intros k f Hf;
      change (({[3 := sample_finding 3 None]} : gmap Z Finding) !! k = Some f) in Hf;
      apply lookup_singleton_Some in Hf as [<- <-]; vm_compute; reflexivity.
  - apply (rtc_l _ _ w1); [apply step_remediate|]. apply rtc_once. apply step_unremediate.
Defined.

Lemma remediate_once_witness :
  let w := world_with [sample_finding 3 None] in
  exists f1 w1, @remediate_finding counting_entropy 3 8 (Some (py "done")) None w = (Ok f1, w1) /\
    @remediate_finding counting_entropy 3 9 None None w1 = (Ok f1, w1).
Proof.
  intros w. eexists _, _. split; [vm_compute; reflexivity|].
  eapply (@remediate_once counting_entropy 3 8 (Some (py "done")) None 9 None None w (sample_finding 3 None)).
  - intros k f Hf. change (({[3 := sample_finding 3 None]} : gmap Z Finding) !! k = Some f) in Hf.
    apply lookup_singleton_Some in Hf as [<- <-]. reflexivity.
  - vm_compute. reflexivity.
  - reflexivity.
  - vm_compute. reflexivity.
Defined.
