(* ===== verification/Retention.v ===== *)
(** Finding retention (app/retention.py): the configured policy, its cutoff, and the bounded purge of
    remediated findings with the foreign keys that can refuse it. *)
From S2P Require Import Prelude PyBase Encoding Hashes Json Config.
From S2P Require Import Models Store Aead PlatformSettings Remediation.

Definition MODE_INDEFINITE : pystr := py "indefinite".
Definition MODE_NONE : pystr := py "none".
Definition MODE_DAYS : pystr := py "days".

Record RetentionPolicy := mkPolicy { rp_mode : pystr; rp_days : option Z }.
Definition default_policy : RetentionPolicy := mkPolicy MODE_INDEFINITE None.

Definition RETENTION_KEYS : list SettingKey := [RETENTION_MODE; RETENTION_DAYS].

Definition deletes_anything (p : RetentionPolicy) : bool :=
  bool_decide (rp_mode p ∈ [MODE_NONE; MODE_DAYS]).

(** [now - timedelta(days=d)]: both the interval and the result have a range. *)
Definition MIN_INSTANT : instant := -62135596800 * second.
Definition MAX_INSTANT : instant := 253402300800 * second - 1.
Definition subtract_days (now : instant) (d : Z) : result instant :=
  if (999999999 <? Z.abs d) then Raise OverflowError
  else
    let t := now - timedelta_days d in
    if (t <? MIN_INSTANT) || (MAX_INSTANT <? t) then Raise OverflowError else Ok t.

Definition cutoff (p : RetentionPolicy) (now : instant) : result instant :=
  if bool_decide (rp_mode p = MODE_NONE) then Ok now
  else match rp_days p with
       | Some d => if bool_decide (rp_mode p = MODE_DAYS) then subtract_days now d else Raise ValueError
       | None => Raise ValueError
       end.

Definition describe (p : RetentionPolicy) : pystr :=
  if bool_decide (rp_mode p = MODE_NONE)
  then py "Remediated findings are deleted as soon as they are closed."
  else match rp_days p with
       | Some d =>
           if bool_decide (rp_mode p = MODE_DAYS)
           then py "Remediated findings are deleted " ++ str_int d ++ py " days after remediation."
           else py "Findings are kept indefinitely. Nothing is deleted automatically."
       | None => py "Findings are kept indefinitely. Nothing is deleted automatically."
       end.

Section Retention.
Context `{Unicode} `{Aead} `{Entropy} `{HeapOrder}.

(** The policy that stored values stand for: anything unreadable keeps everything. *)
Definition policy_of (values : SettingValues) : RetentionPolicy :=
  let mode := strip (match values_get RETENTION_MODE values with
                     | None | Some [] => MODE_INDEFINITE | Some m => m end) in
  if negb (bool_decide (mode ∈ [MODE_INDEFINITE; MODE_NONE; MODE_DAYS])) then default_policy
  else
    match values_get RETENTION_DAYS values with
    | None => if bool_decide (mode = MODE_DAYS) then default_policy else mkPolicy mode None
    | Some raw =>
        match py_int raw with
        | Raise _ => default_policy
        | Ok days => if bool_decide (mode = MODE_DAYS) && (days <? 1) then default_policy
                     else mkPolicy mode (Some days)
        end
    end.

Definition load_policy (store : PlatformSettingsStore) : M RetentionPolicy :=
  let! values <- read_many store RETENTION_KEYS;
  mret (policy_of values).

Definition expired (cut : instant) (f : Finding) : bool :=
  match f_remediated_at f with Some t => t <=? cut | None => false end.

(** [DELETE FROM findings WHERE id IN ids]: refused when a surviving row or an event still refers to
    a deleted one. *)
Definition referenced (ids : list uuid) (f : Finding) : bool :=
  match f_superseded_by_id f with
  | Some other => bool_decide (other ∈ ids) && negb (bool_decide (f_id f ∈ ids))
  | None => false
  end.
Definition delete_findings (ids : list uuid) (d : Db) : result Db :=
  if existsb (referenced ids) (map_to_list (findings d)).*2
     || existsb (fun e => bool_decide (fe_finding_id e ∈ ids)) (finding_events d)
  then Raise IntegrityError
  else Ok (set_findings (filter (fun kf => kf.1 ∉ ids) (findings d)) d).

Definition delete_events (ids : list uuid) (d : Db) : Db :=
  set_finding_events
    (List.filter (fun e => negb (bool_decide (fe_finding_id e ∈ ids))) (finding_events d)) d.

Definition purge_expired_findings (store : PlatformSettingsStore) (now : option instant) (limit : nat)
  : M Z :=
  let! policy <- load_policy store;
  if negb (deletes_anything policy) then mret 0
  else
    let! wall <- clock;
    let! cut <- lift (cutoff policy (default wall now));
    let! d <- get_db;
    let ids := map f_id (take limit (select (expired cut) (findings d))) in
    match ids with
    | [] => mret 0
    | _ =>
        do! modify_db (delete_events ids);
        let! d <- get_db;
        let! d' <- lift (delete_findings ids d);
        do! modify_db (fun _ => d');
        mret (Z.of_nat (length ids))
    end.

(** ** Lemmas *)

Lemma cutoff_total p now :
  deletes_anything p = true -> (rp_mode p = MODE_DAYS -> is_Some (rp_days p)) ->
  (exists t, cutoff p now = Ok t) \/ cutoff p now = Raise OverflowError.
Proof using Type.
  unfold deletes_anything, cutoff. intros Hm Hd. apply bool_decide_eq_true in Hm.
  destruct (bool_decide (rp_mode p = MODE_NONE)) eqn:E; [left; eauto|].
  apply bool_decide_eq_false in E. assert (rp_mode p = MODE_DAYS) as Hdays.
  { rewrite !elem_of_cons in Hm. destruct Hm as [?|[?|Hm]]; [done..|]. inversion Hm. }
  destruct (Hd Hdays) as [d ->]. rewrite bool_decide_eq_true_2 by done. unfold subtract_days.
  destruct (_ <? _); [by right|]. destruct (_ || _); [by right|left; eauto].
Qed.

Lemma policy_of_days values :
  rp_mode (policy_of values) = MODE_DAYS -> exists d, rp_days (policy_of values) = Some d /\ 1 <= d.
Proof using Type.
  unfold policy_of. destruct (negb _); [done|].
  destruct (values_get RETENTION_DAYS values) as [raw|].
  - destruct (py_int raw) as [d|]; [|done]. destruct (_ && _) eqn:E; [done|]. cbn. intros Hm.
    rewrite (bool_decide_eq_true_2 _ Hm) in E. cbn in E. bools. by exists d.
  - destruct (bool_decide _) eqn:E; [done|]. bools. done.
Qed.

Lemma delete_findings_ok ids d d' :
  delete_findings ids d = Ok d' ->
  d' = set_findings (filter (fun kf => kf.1 ∉ ids) (findings d)) d /\
  (forall k f, findings d !! k = Some f -> f_superseded_by_id f ∈ Some <$> ids -> f_id f ∈ ids).
Proof using Type.
  unfold delete_findings. destruct (existsb (referenced ids) _) eqn:E; [done|].
  cbn [orb]. destruct (existsb _ (finding_events d)); [done|]. intros [= <-]. split; [done|]. intros k f Hk Hin.
  rewrite existsb_false_Forall, Forall_forall in E.
  assert (Hr : referenced ids f = false).
  { apply E, list_elem_of_fmap. exists (k, f). split; [done|]. by apply elem_of_map_to_list. }
  unfold referenced in Hr. apply list_elem_of_fmap in Hin as (other&Ho&Hin). rewrite Ho in Hr.
  rewrite (bool_decide_eq_true_2 _ Hin) in Hr. cbn in Hr. by bools.
Qed.

Lemma delete_events_gone ids d :
  existsb (fun e => bool_decide (fe_finding_id e ∈ ids)) (finding_events (delete_events ids d)) = false.
Proof using Type.
  apply existsb_false_Forall, Forall_forall. intros e He%list_elem_of_In. cbn in He.
  apply filter_In in He as [_ He]. by apply negb_true_iff in He.
Qed.

End Retention.

Section Properties.
Context `{Unicode} `{Aead} `{Entropy} `{HeapOrderLaws}.

(** What a purge that deleted rows may have done to the database, and to nothing else. *)
Definition purged (cut : instant) (ids : list uuid) (d d' : Db) : Prop :=
  d' = set_findings (filter (fun kf => kf.1 ∉ ids) (findings d)) (delete_events ids d) /\
  forall id, id ∈ ids -> exists f t, findings d !! id = Some f /\ f_remediated_at f = Some t /\ t <= cut.

(** C19: a purge never deletes an open finding: every deleted row was remediated at or before the
    cutoff of the configured policy (at least one full day before now for a day-based policy), at
    most [limit] rows go, exactly their events go with them, every other row survives unchanged,
    and without a deleting policy nothing changes at all. *)
Theorem purge_only_expired_remediated store now limit w n w' :
  keyed (w_db w) -> purge_expired_findings store now limit w = (Ok n, w') ->
  exists values, read_many store RETENTION_KEYS w = (Ok values, w) /\
    (deletes_anything (policy_of values) = false -> n = 0 /\ w' = w) /\
    (deletes_anything (policy_of values) = true ->
     exists cut ids, cutoff (policy_of values) (default (w_now w) now) = Ok cut /\
       cut <= default (w_now w) now /\
       (rp_mode (policy_of values) = MODE_DAYS -> cut <= default (w_now w) now - timedelta_days 1) /\
       n = Z.of_nat (length ids) /\ (length ids <= limit)%nat /\
       (ids = [] -> w_db w' = w_db w) /\ (ids <> [] -> purged cut ids (w_db w) (w_db w')) /\
       w_committed w' = w_committed w).
Proof.
  intros Hk (policy&w1&Hp&E)%mbind_inv. apply mbind_inv in Hp as (values&w2&Hv&Hp).
  pose proof (read_many_world _ _ _ _ _ Hv) as ->. injection Hp as <- <-. exists values.
  split; [done|]. destruct (deletes_anything (policy_of values)) eqn:Hd; cbn [negb] in E.
  2:{ split; [|done]. intros _. by injection E as <- <-. }
  split; [done|]. intros _. apply mbind_inv in E as (wall&w3&Hw&E). injection Hw as <- <-.
  apply mbind_inv in E as (cut&w3&Hc&E). injection Hc as Hc <-.
  apply mbind_inv in E as (d&w4&Hg&E). injection Hg as <- <-.
  assert (Hcut : cut <= default (w_now w) now /\
    (rp_mode (policy_of values) = MODE_DAYS -> cut <= default (w_now w) now - timedelta_days 1)).
  { revert Hc. unfold cutoff. destruct (bool_decide (_ = MODE_NONE)) eqn:Em.
    - intros [= <-]. apply bool_decide_eq_true in Em. rewrite Em. split; [lia|done].
    - destruct (bool_decide (_ = MODE_DAYS)) eqn:Em2; [|by destruct (rp_days _)].
      apply bool_decide_eq_true in Em2. destruct (policy_of_days values Em2) as (dd&->&Hdd).
      unfold subtract_days. destruct (_ <? _); [done|]. destruct (_ || _); [done|].
      intros [= <-]. unfold timedelta_days, second. split; [nia|]. intros _. nia. }
  set (ids := map f_id (take limit (select (expired cut) (findings (w_db w))))) in E.
  assert (Hids : forall id, id ∈ ids ->
    exists f t, findings (w_db w) !! id = Some f /\ f_remediated_at f = Some t /\ t <= cut).
  { intros id (f&->&Hf)%list_elem_of_fmap. apply elem_of_take in Hf as (i&Hi&_).
    apply list_elem_of_lookup_2, elem_of_select in Hi as [Hx [k Hkf]].
    rewrite (Hk _ _ Hkf). unfold expired in Hx. destruct (f_remediated_at f) as [t|] eqn:Et; [|done].
    exists f, t. split; [done|]. split; [done|]. by bools. }
  assert (Hlen : (length ids <= limit)%nat) by (unfold ids; rewrite length_map, length_take; lia).
  exists cut, ids. split; [done|]. destruct Hcut as [Hc1 Hc2]. split; [done|]. split; [done|].
  assert (Hcase : (ids = [] /\ n = 0 /\ w' = w) \/
    (ids <> [] /\ n = Z.of_nat (length ids) /\ w_committed w' = w_committed w /\
     exists d', delete_findings ids (delete_events ids (w_db w)) = Ok d' /\ w_db w' = d')).
  { destruct ids as [|i ids'] eqn:Ei; [left; by injection E as <- <-|right].
    split; [done|]. unfold mbind, modify_db, get_db, with_db, lift in E. cbn in E.
    destruct (delete_findings _ _) as [d'|] eqn:Ed; [|done]. injection E as <- <-. eauto 10. }
  clear E. destruct Hcase as [(->&->&->)|(Hne&->&->&d'&Hdel&->)].
  - repeat split; (done || lia).
  - split; [done|]. split; [done|]. split; [done|]. split; [|done]. intros _.
    split; [|exact Hids]. by apply delete_findings_ok in Hdel as [-> _].
Qed.

(** the purge is refused as a whole exactly when a row that would survive is still linked by
    [superseded_by_id] to a row that would go, which happens as soon as a superseded finding has been
    reopened; nothing in the sweep avoids such rows, so the same rows refuse every later sweep. *)
Theorem delete_refused_by_reopened_predecessor ids d :
  delete_findings ids (delete_events ids d) = Raise IntegrityError <->
  exists k f other, findings d !! k = Some f /\ f_superseded_by_id f = Some other /\
    other ∈ ids /\ f_id f ∉ ids.
Proof.
  unfold delete_findings. rewrite delete_events_gone, orb_false_r. cbn [findings delete_events set_finding_events].
  destruct (existsb _ _) eqn:E.
  - split; [|done]. intros _. apply existsb_Exists, Exists_exists in E as (f&Hf&Hr).
    apply list_elem_of_fmap in Hf as ([k f']&->&Hk%elem_of_map_to_list). cbn in Hr.
    unfold referenced in Hr. destruct (f_superseded_by_id f') as [o|] eqn:Eo; [|done]. bools.
    by exists k, f', o.
  - split; [done|]. intros (k&f&o&Hk&Ho&Hin&Hout). exfalso.
    rewrite existsb_false_Forall, Forall_forall in E.
    assert (Hr : referenced ids f = false).
    { apply E, list_elem_of_fmap. exists (k, f). split; [done|]. by apply elem_of_map_to_list. }
    unfold referenced in Hr. rewrite Ho, (bool_decide_eq_true_2 _ Hin), (bool_decide_eq_false_2 _ Hout) in Hr.
    done.
Qed.

End Properties.

(** Remediated rows 3 (day 10) and 4 (now), an open row 5, and a policy of thirty days. *)
Definition sample_store : PlatformSettingsStore := mkStore (py "0123456789abcdef0123456789abcdef").
Definition retention_world : World :=
  let w := world_with [sample_finding 3 (Some (timedelta_days 10)); sample_finding 4 (Some (timedelta_days 100));
                       sample_finding 5 None] in
  (@write_many tagged_aead counting_entropy sample_store
     [(RETENTION_MODE, Some MODE_DAYS); (RETENTION_DAYS, Some (py "30"))] 8
     (mkWorld (w_db w) (w_db w) 0 (timedelta_days 100))).2.

Lemma purge_only_expired_remediated_witness :
  exists w', @purge_expired_findings ascii_unicode tagged_aead plain_heap sample_store None 500
               retention_world = (Ok 1, w') /\ w_committed w' = w_committed retention_world.
Proof.
  assert (Hr : (@purge_expired_findings ascii_unicode tagged_aead plain_heap sample_store None 500
                  retention_world).1 = Ok 1) by (vm_compute; reflexivity).
  destruct (@purge_expired_findings ascii_unicode tagged_aead plain_heap sample_store None 500
              retention_world) as [r w'] eqn:E. cbn [fst] in Hr. subst r.
  exists w'. split; [reflexivity|].
  destruct (@purge_only_expired_remediated ascii_unicode tagged_aead plain_heap
    (Build_HeapOrderLaws plain_heap (fun A l => reflexivity l)) sample_store None 500%nat
    retention_world 1 w') as (values&Hv&_&Hd).
  - intros k f Hf. change (({[3 := sample_finding 3 (Some (timedelta_days 10));
      4 := sample_finding 4 (Some (timedelta_days 100)); 5 := sample_finding 5 None]}
      : gmap Z Finding) !! k = Some f) in Hf.
    repeat (apply lookup_insert_Some in Hf as [[<- <-]|[_ Hf]]; [reflexivity|]).
    by apply lookup_singleton_Some in Hf as [<- <-].
  - exact E.
  - assert (Hdel : deletes_anything (@policy_of ascii_unicode values) = true).
    { assert (Hv' : (@read_many tagged_aead sample_store RETENTION_KEYS retention_world).1
                    = Ok [(RETENTION_MODE, MODE_DAYS); (RETENTION_DAYS, py "30")])
        by (vm_compute; reflexivity).
      rewrite Hv in Hv'. injection Hv' as ->. vm_compute. reflexivity. }
    destruct (Hd Hdel) as (cut&ids&_&_&_&_&_&_&_&Hc). exact Hc.
Defined.

(** A finding re-leaked and then reopened: the successor's deletion is refused. *)
Example reopened_predecessor_blocks :
  let w := world_with [set_f_superseded_by_id (Some 4) (sample_finding 3 None);
                       sample_finding 4 (Some 0)] in
  delete_findings [4] (delete_events [4] (w_db w)) = Raise IntegrityError.
Proof. vm_compute. reflexivity. Qed.
