(* ===== verification/LeakCheck.v ===== *)
(** The LeakCheck client (app/leakcheck.py): the response parser, the token bucket, the circuit
    breaker, the bounded response reader, the retry loop and the two pagination paths. Seconds are
    rationals; the HTTP service is an interface that answers the n-th request. *)
From Stdlib Require Import QArith Qminmax Lqa.
From S2P Require Import Prelude PyBase Encoding Json Models Store Url.
Open Scope Z_scope.

(** ** Data *)

Inductive QueryType : Type :=
| Query_EMAIL | Query_DOMAIN | Query_USERNAME | Query_PHONE | Query_ORIGIN | Query_PASSWORD.
#[export] Instance QueryType_eq_dec : EqDecision QueryType.
Proof. solve_decision. Defined.
Definition QueryType_value (q : QueryType) : pystr :=
  match q with
  | Query_EMAIL => py "email" | Query_DOMAIN => py "domain" | Query_USERNAME => py "username"
  | Query_PHONE => py "phone" | Query_ORIGIN => py "origin" | Query_PASSWORD => py "password"
  end.

Record VendorSource := mkVendorSource {
  vs_name : option pystr;
  vs_breach_date : option pystr;
  vs_unverified : option bool;
  vs_passwordless : option bool;
  vs_compilation : option bool;
}.
Record LeakRecord := mkLeakRecord {
  lr_email : option pystr;
  lr_username : option pystr;
  lr_phone : option pystr;
  lr_origin : option pystr;
  lr_password : option pystr;
  lr_fields : list pystr;
  lr_source : VendorSource;
  lr_raw : list (pystr * json);
}.
Record ParsedPage := mkPage { pg_records : list LeakRecord; pg_quota : option Z; pg_found : Z }.
Record QueryResult := mkQueryResult {
  qr_query_type : QueryType;
  qr_records : list LeakRecord;
  qr_quota : option Z;
  qr_found : Z;
  qr_truncated : bool;
}.

Definition BASE_URL : pystr := py "https://leakcheck.io/api/v2/query".
Definition DOMAIN_PAGE_SIZE : nat := 1000.

(** ** Response parsing *)

Definition optional_string (value : json) : option pystr :=
  match value with JStr s => Some s | _ => None end.
Definition optional_bool (value : json) : option bool :=
  match value with
  | JBool b => Some b
  | JInt n => if (n =? 0) || (n =? 1) then Some (n =? 1) else None
  | _ => None
  end.

Definition strings_of (l : list json) : list pystr :=
  omap (fun j => match j with JStr s => Some s | _ => None end) l.

Section Parsing.
Context `{Unicode}.

Definition optional_origin (value : json) : option pystr :=
  match value with
  | JStr s => Some s
  | JList l =>
      let origins := List.filter (fun s => negb (bool_decide (s = []))) (map strip (strings_of l)) in
      match join (py ", ") origins with [] => None | joined => Some joined end
  | _ => None
  end.

Definition parse_record (value : json) : result LeakRecord :=
  match value with
  | JDict d =>
      let source := match jget "source" d with JDict s => s | _ => [] end in
      let fields := match jget "fields" d with JList l => strings_of l | _ => [] end in
      Ok (mkLeakRecord
            (optional_string (jget "email" d)) (optional_string (jget "username" d))
            (optional_string (jget "phone" d)) (optional_origin (jget "origin" d))
            (optional_string (jget "password" d)) fields
            (mkVendorSource (optional_string (jget "name" source))
               (optional_string (jget "breach_date" source)) (optional_bool (jget "unverified" source))
               (optional_bool (jget "passwordless" source))
               (optional_bool (jget "compilation" source)))
            d)
  | _ => Raise LeakCheckProtocolError
  end.

Definition decode_or_json (e : exn) : bool :=
  match e with UnicodeDecodeError | JSONDecodeError => true | _ => false end.

Definition parse_page (body : bytes) : result ParsedPage :=
  match json_loads_bytes body with
  | Raise e => if decode_or_json e then Raise LeakCheckProtocolError else Raise e
  | Ok (JDict d) =>
      match jget "success" d with
      | JBool true =>
          match jget "result" d, jget "found" d with
          | JList raw_results, JInt found =>
              let quota_ok := match jget "quota" d with JNull => true | JInt q => 0 <=? q | _ => false end in
              if (found <? 0) || negb quota_ok then Raise LeakCheckProtocolError
              else
                try! records <- rmap parse_record raw_results;
                Ok (mkPage records (match jget "quota" d with JInt q => Some q | _ => None end) found)
          | _, _ => Raise LeakCheckProtocolError
          end
      | _ => Raise LeakCheckProtocolError
      end
  | Ok _ => Raise LeakCheckProtocolError
  end.

End Parsing.

(** ** Token bucket *)

Record TokenBucket := mkBucket { tb_rate : Q; tb_tokens : Q; tb_updated_at : option Q }.
Definition CAPACITY : Q := 1%Q.

Definition new_bucket (rate : Q) : result TokenBucket :=
  if Qle_bool 1%Q rate then Ok (mkBucket rate 1%Q None) else Raise ValueError.

Definition refill (now : Q) (b : TokenBucket) : TokenBucket :=
  match tb_updated_at b with
  | None => mkBucket (tb_rate b) (tb_tokens b) (Some now)
  | Some before =>
      let elapsed := Qmax 0%Q (now - before)%Q in
      mkBucket (tb_rate b) (Qmin CAPACITY (tb_tokens b + elapsed * tb_rate b)%Q) (Some now)
  end.

(** One pass of the loop of [acquire] under the lock: [None] when a token was taken, otherwise the
    delay before the next pass. *)
Definition try_acquire (now : Q) (b : TokenBucket) : option Q * TokenBucket :=
  let b := refill now b in
  if Qle_bool 1%Q (tb_tokens b)
  then (None, mkBucket (tb_rate b) (tb_tokens b - 1)%Q (tb_updated_at b))
  else (Some ((1 - tb_tokens b) / tb_rate b)%Q, b).

(** Any interleaving of passes by any tasks, as the times at which they take the lock. *)
Fixpoint passes (times : list Q) (b : TokenBucket) : nat * TokenBucket :=
  match times with
  | [] => (0%nat, b)
  | now :: t =>
      let '(r, b) := try_acquire now b in
      let '(granted, b) := passes t b in
      ((match r with None => S granted | Some _ => granted end), b)
  end.

(** ** The client *)

Record LeakCheckClient := mkClient {
  cl_api_key : pystr;
  cl_concurrency : Z;
  cl_max_response_bytes : Z;
  cl_max_retries : nat;
  cl_max_domain_pages : nat;
  cl_circuit_failure_threshold : Z;
  cl_circuit_reset_seconds : Q;
}.
Record Request := mkRequest { rq_url : pystr; rq_params : list (pystr * pystr) }.
Record ClientState := mkClientState {
  cs_bucket : TokenBucket;
  cs_circuit_failures : Z;
  cs_circuit_opened_at : option Q;
  cs_now : Q;
  cs_sent : list Request;
}.

(** An answer: a transport failure before the headers, or a status with an optional declared length
    and the body's chunks, after which the stream ends or breaks. *)
Inductive Reply : Type :=
| Transport_failure
| Response (status_code : Z) (content_length : option pystr) (chunks : list bytes) (complete : bool).

Class LeakCheckService := {
  reply : nat -> Request -> Reply;
  latency : nat -> Q;
}.

Definition C : Type -> Type := ST ClientState.
Definition modify_client (f : ClientState -> ClientState) : C unit := fun s => (Ok tt, f s).
Definition set_bucket (b : TokenBucket) (s : ClientState) : ClientState :=
  mkClientState b (cs_circuit_failures s) (cs_circuit_opened_at s) (cs_now s) (cs_sent s).
Definition set_circuit (failures : Z) (opened : option Q) (s : ClientState) : ClientState :=
  mkClientState (cs_bucket s) failures opened (cs_now s) (cs_sent s).
Definition sleep (d : Q) : C unit := modify_client (fun s =>
  mkClientState (cs_bucket s) (cs_circuit_failures s) (cs_circuit_opened_at s) (cs_now s + d)%Q (cs_sent s)).

Definition ensure_circuit_available (cl : LeakCheckClient) : C unit := fun s =>
  match cs_circuit_opened_at s with
  | None => (Ok tt, s)
  | Some opened =>
      if negb (Qle_bool (cl_circuit_reset_seconds cl) (cs_now s - opened)%Q)
      then (Raise LeakCheckUnavailable, s)
      else (Ok tt, set_circuit 0 None s)
  end.
Definition record_failure (cl : LeakCheckClient) : C unit := modify_client (fun s =>
  let failures := cs_circuit_failures s + 1 in
  set_circuit failures
    (if cl_circuit_failure_threshold cl <=? failures then Some (cs_now s) else cs_circuit_opened_at s) s).
Definition record_success : C unit := modify_client (set_circuit 0 None).

(** [acquire]: pass, sleep, pass again; two passes always suffice for a task on its own. *)
Fixpoint acquire (fuel : nat) : C unit := fun s =>
  match try_acquire (cs_now s) (cs_bucket s) with
  | (None, b) => (Ok tt, set_bucket b s)
  | (Some delay, b) =>
      match fuel with
      | O => (Raise (OtherException "acquire out of fuel"), set_bucket b s)
      | S fuel => mbind (sleep delay) (fun _ => acquire fuel) (set_bucket b s)
      end
  end.

(** The body is read chunk by chunk and given up at the first one that crosses the limit. *)
Fixpoint read_body (limit : Z) (complete : bool) (body : bytes) (chunks : list bytes)
  : result (option bytes) :=
  match chunks with
  | [] => Ok (if complete then Some body else None)
  | c :: t =>
      let body := body ++ c in
      if limit <? Z.of_nat (length body) then Raise LeakCheckResponseTooLarge
      else read_body limit complete body t
  end.

Section Client.
Context `{Unicode} `{LeakCheckService}.

(** The part of [_send] after the request went out: [None] is a transport error or a timeout. *)
Definition read_reply (cl : LeakCheckClient) (answer : Reply) : result (option (Z * bytes)) :=
  match answer with
  | Transport_failure => Ok None
  | Response status_code content_length chunks complete =>
      try! _ <- match content_length with
                | None => Ok tt
                | Some text =>
                    match py_int text with
                    | Raise ValueError => Raise LeakCheckProtocolError
                    | Raise e => Raise e
                    | Ok n => if cl_max_response_bytes cl <? n then Raise LeakCheckResponseTooLarge
                              else Ok tt
                    end
                end;
      try! body <- read_body (cl_max_response_bytes cl) complete [] chunks;
      Ok (match body with Some b => Some (status_code, b) | None => None end)
  end.

Definition send (cl : LeakCheckClient) (r : Request) : C (option (Z * bytes)) := fun s =>
  let n := length (cs_sent s) in
  (read_reply cl (reply n r),
   mkClientState (cs_bucket s) (cs_circuit_failures s) (cs_circuit_opened_at s)
     (cs_now s + latency n)%Q (cs_sent s ++ [r])).

Definition backoff (attempt : nat) : Q := inject_Z (Z.min (2 ^ Z.of_nat attempt) 8).

(** What the loop does with an answer, where [again] is a further attempt or giving up. *)
Definition handle_reply (again : C ParsedPage) (sent : option (Z * bytes)) : C ParsedPage :=
  match sent with
  | None => again
  | Some (status_code, body) =>
      if status_code =? 401 then do! record_success; raise LeakCheckConfigurationError
      else if status_code =? 400 then do! record_success; raise LeakCheckProtocolError
      else if (status_code =? 429) || (500 <=? status_code) then again
      else if negb (status_code =? 200) then do! record_success; raise LeakCheckProtocolError
      else do! record_success; lift (parse_page body)
  end.

(** The [for] loop of [_request_page]: [remaining] retries are left after attempt [attempt]. *)
Fixpoint request_attempts (cl : LeakCheckClient) (r : Request) (attempt remaining : nat) : C ParsedPage :=
  do! ensure_circuit_available cl;
  do! acquire 1;
  let! sent <- send cl r;
  handle_reply
    (do! record_failure cl;
     match remaining with
     | O => raise LeakCheckUnavailable
     | S remaining => do! sleep (backoff attempt); request_attempts cl r (S attempt) remaining
     end)
    sent.

Definition request_page (cl : LeakCheckClient) (query_type : QueryType) (query : pystr)
    (parameters : list (pystr * pystr)) : C ParsedPage :=
  let! quoted <- lift (quote query);
  request_attempts cl (mkRequest (BASE_URL ++ [47] ++ quoted)
                         ((py "type", QueryType_value query_type) :: parameters))
    0 (cl_max_retries cl).

Definition page_parameters (page_number : nat) : list (pystr * pystr) :=
  [(py "limit", str_int (Z.of_nat DOMAIN_PAGE_SIZE));
   (py "offset", str_int (Z.of_nat page_number * Z.of_nat DOMAIN_PAGE_SIZE))].

(** The [for] loop of [_query_domain]: [remaining] pages may still be requested. *)
Fixpoint domain_pages (cl : LeakCheckClient) (query : pystr) (page_number remaining : nat)
    (records : list LeakRecord) (quota : option Z) (found : Z) : C QueryResult :=
  match remaining with
  | O => mret (mkQueryResult Query_DOMAIN records quota found true)
  | S remaining =>
      let! page <- request_page cl Query_DOMAIN query (page_parameters page_number);
      let records := records ++ pg_records page in
      let found := found + Z.of_nat (length (pg_records page)) in
      if (length (pg_records page) <? DOMAIN_PAGE_SIZE)%nat
      then mret (mkQueryResult Query_DOMAIN records (pg_quota page) found false)
      else domain_pages cl query (S page_number) remaining records (pg_quota page) found
  end.

Definition query_domain (cl : LeakCheckClient) (query : pystr) : C QueryResult :=
  domain_pages cl query 0 (cl_max_domain_pages cl) [] None 0.

Definition query (cl : LeakCheckClient) (query_type : QueryType) (text : pystr) : C QueryResult :=
  if bool_decide (text = []) then raise ValueError
  else
    let! encoded <- lift (utf8_encode text);
    if (4096 <? length encoded)%nat then raise ValueError
    else if bool_decide (query_type = Query_DOMAIN) then query_domain cl text
    else
      let! page <- request_page cl query_type text [];
      mret (mkQueryResult query_type (pg_records page) (pg_quota page) (pg_found page) false).

(** [LeakCheckClient(...)] with the defaults of the optional arguments. *)
Definition make_client (api_key : pystr) (requests_per_second : Q)
    (concurrency max_response_bytes max_retries max_domain_pages circuit_failure_threshold : Z)
    (circuit_reset_seconds : Q) : result (LeakCheckClient * ClientState) :=
  if bool_decide (api_key = []) || (1024 <? length api_key)%nat then Raise LeakCheckConfigurationError
  else if (concurrency <? 1) || (max_response_bytes <? 1) || (max_retries <? 0) || (max_domain_pages <? 1)
  then Raise ValueError
  else
    try! bucket <- new_bucket requests_per_second;
    Ok (mkClient api_key concurrency max_response_bytes (Z.to_nat max_retries)
          (Z.to_nat max_domain_pages) circuit_failure_threshold circuit_reset_seconds,
        mkClientState bucket 0 None 0 []).

End Client.

(** ** Lemmas: the token bucket *)

Definition bucket_ok (b : TokenBucket) : Prop := (1 <= tb_rate b)%Q /\ (tb_tokens b <= 1)%Q.

Lemma refill_ok now b : bucket_ok b -> bucket_ok (refill now b).
Proof.
  unfold bucket_ok, refill. intros [? ?]. destruct (tb_updated_at b); cbn; [|done].
  split; [done|]. apply Q.le_min_l.
Qed.

Lemma refill_gain now b before :
  bucket_ok b -> tb_updated_at b = Some before -> (before <= now)%Q ->
  (tb_tokens (refill now b) <= tb_tokens b + (now - before) * tb_rate b)%Q /\
  tb_updated_at (refill now b) = Some now /\ tb_rate (refill now b) = tb_rate b.
Proof.
  unfold bucket_ok, refill. intros [Hr Ht] -> Hle. cbn. split; [|done].
  rewrite (Q.max_r 0 (now - before)) by lra. apply Q.le_min_r.
Qed.

Lemma try_acquire_spec now b r b' :
  bucket_ok b -> try_acquire now b = (r, b') ->
  bucket_ok b' /\ tb_rate b' = tb_rate b /\ tb_updated_at b' = Some now /\
  match r with
  | None => tb_tokens b' = (tb_tokens (refill now b) - 1)%Q /\ (0 <= tb_tokens b')%Q
  | Some delay => b' = refill now b /\ (tb_tokens b' < 1)%Q /\
      delay = ((1 - tb_tokens b') / tb_rate b')%Q
  end.
Proof.
  intros Hok. pose proof (refill_ok now b Hok) as [Hr Ht]. unfold try_acquire.
  assert (Hrate : tb_rate (refill now b) = tb_rate b) by (unfold refill; by destruct (tb_updated_at b)).
  assert (Hup : tb_updated_at (refill now b) = Some now) by (unfold refill; by destruct (tb_updated_at b)).
  destruct (Qle_bool _ _) eqn:E; intros [= <- <-].
  - apply Qle_bool_iff in E. unfold bucket_ok. cbn. repeat split; try done; lra.
  - split; [done|]. split; [done|]. split; [done|]. split; [done|]. split; [|done].
    apply Qnot_le_lt. intros Hle%Qle_bool_iff. congruence.
Qed.

(** Grants are paid for: at most the tokens in hand plus what the elapsed time earns. *)
Lemma passes_paid times b before n b' :
  bucket_ok b -> tb_updated_at b = Some before -> Sorted Qle (before :: times) ->
  passes times b = (n, b') ->
  (inject_Z (Z.of_nat n) <= Qmax 0 (tb_tokens b)
     + (List.last times before - before) * tb_rate b)%Q.
Proof.
  revert b before n b'. induction times as [|now times IH]; intros b before n b' Hok Hup Hs; cbn [passes].
  { intros [= <- <-]. cbn [List.last]. change (inject_Z (Z.of_nat 0)) with 0%Q.
    pose proof (Q.le_max_l 0 (tb_tokens b)). lra. }
  destruct (try_acquire now b) as [r b1] eqn:E. destruct (passes times b1) as [g b2] eqn:Ep.
  intros [= <- <-]. apply Sorted_inv in Hs as [Hs Hh]. apply HdRel_inv in Hh.
  destruct (try_acquire_spec _ _ _ _ Hok E) as (Hok1&Hrate&Hup1&Hr).
  destruct (refill_gain now b before Hok Hup Hh) as (Hg&_&_).
  specialize (IH b1 now g b2 Hok1 Hup1 Hs Ep). rewrite Hrate in IH.
  rewrite last_cons_default. set (l := List.last times now) in *.
  assert (Hmul : ((l - before) * tb_rate b == (l - now) * tb_rate b + (now - before) * tb_rate b)%Q) by ring.
  assert (Hpos : (0 <= (now - before) * tb_rate b)%Q).
  { apply Qmult_le_0_compat; [lra|]. destruct Hok. lra. }
  rewrite Hmul. destruct r as [delay|].
  - destruct Hr as (->&_&_). pose proof (Q.max_spec 0 (tb_tokens b)). pose proof (Q.max_spec 0 (tb_tokens (refill now b))).
    lra.
  - destruct Hr as [Ht Ht0]. rewrite Nat2Z.inj_succ. unfold Z.succ. rewrite inject_Z_plus.
    pose proof (Q.max_spec 0 (tb_tokens b)). pose proof (Q.max_spec 0 (tb_tokens b1)). rewrite Ht in *. 
    change (inject_Z 1) with 1%Q. lra.
Qed.

(** A task on its own gets its token on the second pass at the latest. *)
Lemma second_pass now b delay b' :
  bucket_ok b -> try_acquire now b = (Some delay, b') ->
  (0 < delay)%Q /\ exists b'', try_acquire (now + delay)%Q b' = (None, b'') /\ bucket_ok b''.
Proof.
  intros Hok E. destruct (try_acquire_spec _ _ _ _ Hok E) as (Hok'&_&Hup&_&Hlt&->).
  destruct Hok' as [Hr Ht].
  assert (Hd : (0 < (1 - tb_tokens b') / tb_rate b')%Q).
  { apply Qlt_shift_div_l; lra. }
  split; [done|]. set (d := ((1 - tb_tokens b') / tb_rate b')%Q) in *.
  destruct (try_acquire (now + d)%Q b') as [r b''] eqn:E2.
  destruct (try_acquire_spec (now + d) b' r b'' (conj Hr Ht) E2) as (Hok''&_&_&Hres).
  destruct r as [d2|]; [|by exists b'']. exfalso. destruct Hres as (->&Hlt2&_).
  revert Hlt2. unfold refill. rewrite Hup. cbn.
  assert (Hq : (d * tb_rate b' == 1 - tb_tokens b')%Q) by (unfold d; field; lra).
  rewrite (Q.max_r 0 (now + d - now)) by lra.
  assert (Hone : (tb_tokens b' + (now + d - now) * tb_rate b' == 1)%Q).
  { assert (Hz : (now + d - now == d)%Q) by ring. rewrite Hz. lra. }
  rewrite Hone. unfold CAPACITY. rewrite Q.min_id. lra.
Qed.

(** ** Lemmas: parsing *)

Lemma rmap_error {A B} (f : A -> result B) (l : list A) e :
  rmap f l = Raise e -> exists x, x ∈ l /\ f x = Raise e.
Proof.
  induction l as [|x l IH]; cbn [rmap]; [done|]. destruct (f x) as [y|e'] eqn:E; cbn [rbind].
  - destruct (rmap f l) as [ys|e'']; cbn [rbind]; [done|]. intros [= ->].
    destruct IH as (z&Hz&Hf); [done|]. exists z. split; [by right|done].
  - intros [= ->]. exists x. split; [left|done].
Qed.

Section ClientLemmas.
Context `{Unicode} `{LeakCheckService}.

(** A body that is not a page; the decoder's other two exceptions pass unchanged. *)
Definition page_error (e : exn) : Prop := e = LeakCheckProtocolError \/ e = ValueError \/ e = RecursionError.

Lemma parse_page_error body e : parse_page body = Raise e -> page_error e.
Proof using Type.
  unfold parse_page, page_error. destruct (json_loads_bytes body) as [j|e'] eqn:E.
  - intros He. left. revert He. destruct j as [| | | | | |d]; try (by intros [= <-]).
    destruct (jget "success" d) as [|[]| | | | |]; try (by intros [= <-]).
    destruct (jget "result" d) as [| | | | |l|]; try (by intros [= <-]).
    destruct (jget "found" d); try (by intros [= <-]). destruct (_ || _); [by intros [= <-]|].
    destruct (rmap parse_record l) as [|e'] eqn:Er; cbn [rbind]; [done|]. intros [= <-].
    apply rmap_error in Er as (x&_&Hx). revert Hx. unfold parse_record.
    by destruct x; intros [= <-].
  - apply json_loads_bytes_fails in E as [->|[->|[->| ->]]]; cbn; intros [= <-]; auto.
Qed.

(** *** Bounded reading *)

Lemma read_body_spec limit complete chunks body :
  Z.of_nat (length body) <= limit ->
  read_body limit complete body chunks =
    if limit <? Z.of_nat (length (body ++ concat chunks)) then Raise LeakCheckResponseTooLarge
    else Ok (if complete then Some (body ++ concat chunks) else None).
Proof using Type.
  revert body. induction chunks as [|c chunks IH]; intros body Hb; cbn [read_body concat].
  - rewrite app_nil_r, (proj2 (Z.ltb_ge _ _) Hb). done.
  - rewrite app_assoc. destruct (limit <? Z.of_nat (length (body ++ c))) eqn:E.
    + replace (limit <? Z.of_nat (length ((body ++ c) ++ concat chunks))) with true; [done|].
      symmetry. apply Z.ltb_lt. apply Z.ltb_lt in E. rewrite (length_app (body ++ c)). lia.
    + apply IH. by apply Z.ltb_ge in E.
Qed.

Lemma read_reply_error cl answer e :
  read_reply cl answer = Raise e -> e = LeakCheckProtocolError \/ e = LeakCheckResponseTooLarge.
Proof using Type.
  assert (Hbody : forall limit complete chunks body e',
    read_body limit complete body chunks = Raise e' -> e' = LeakCheckResponseTooLarge).
  { intros limit complete chunks. induction chunks as [|c chunks IH]; intros body e'; cbn [read_body]; [done|].
    destruct (_ <? _); [by intros [= <-]|apply IH]. }
  unfold read_reply. destruct answer as [|st len chunks complete]; [done|].
  assert (Hrest : forall e', (try! body <- read_body (cl_max_response_bytes cl) complete [] chunks;
      Ok (match body with Some b => Some (st, b) | None => None end)) = Raise e' ->
      e' = LeakCheckResponseTooLarge).
  { intros e'. destruct (read_body _ _ _ _) eqn:E; cbn [rbind]; [done|]. intros [= <-]. by eapply Hbody. }
  destruct len as [text|]; cbn [rbind]; [|intros E; right; by eapply Hrest].
  destruct (py_int text) as [n|e'] eqn:Ei; [|rewrite (py_int_error _ _ Ei); intros [= <-]; by left].
  destruct (_ <? _); cbn [rbind]; [intros [= <-]; by right|]. intros E; right; by eapply Hrest.
Qed.

(** *** One page *)

(** The replies after which the loop tries again. *)
Definition retryable (cl : LeakCheckClient) (answer : Reply) : bool :=
  match read_reply cl answer with
  | Ok None => true
  | Ok (Some (status_code, _)) => (status_code =? 429) || (500 <=? status_code)
  | Raise _ => false
  end.

Definition state_ok (s : ClientState) : Prop := bucket_ok (cs_bucket s).

(** With no other task on the client, [acquire] returns, and only paces. *)
Lemma acquire_total s :
  state_ok s -> exists s', acquire 1 s = (Ok tt, s') /\ state_ok s' /\ cs_sent s' = cs_sent s /\
    cs_circuit_failures s' = cs_circuit_failures s /\
    cs_circuit_opened_at s' = cs_circuit_opened_at s /\ (cs_now s <= cs_now s')%Q.
Proof using Type.
  unfold state_ok. intros Hok. cbn [acquire].
  destruct (try_acquire (cs_now s) (cs_bucket s)) as [[d|] b] eqn:E.
  - destruct (second_pass _ _ _ _ Hok E) as (Hd&b2&E2&Hok2).
    cbn -[try_acquire Qplus]. rewrite E2. eexists. split; [done|]. cbn -[Qplus].
    repeat split; try done; try apply Hok2. lra.
  - destruct (try_acquire_spec _ _ _ _ Hok E) as (Hok2&_). eexists. split; [done|]. cbn.
    repeat split; try done; try apply Hok2. lra.
Qed.

Lemma ensure_circuit_cases cl s :
  (ensure_circuit_available cl s = (Raise LeakCheckUnavailable, s)) \/
  (exists s', ensure_circuit_available cl s = (Ok tt, s') /\ cs_bucket s' = cs_bucket s /\
     cs_sent s' = cs_sent s).
Proof using Type.
  unfold ensure_circuit_available. destruct (cs_circuit_opened_at s); [|right; eauto].
  destruct (negb _); [by left|right]. eexists. by split.
Qed.

Definition client_error (e : exn) : Prop :=
  e = LeakCheckUnavailable \/ e = LeakCheckConfigurationError \/ e = LeakCheckProtocolError \/
  e = LeakCheckResponseTooLarge \/ e = ValueError \/ e = RecursionError.

(** What one page costs: identical requests, each but the last answered by something retryable. *)
Definition attempts_spec (cl : LeakCheckClient) (r : Request) (bound : nat) (s : ClientState)
    (res : result ParsedPage) (s' : ClientState) : Prop :=
  state_ok s' /\
  exists k, (k <= bound)%nat /\ cs_sent s' = cs_sent s ++ replicate k r /\
    (forall i, (i + 1 < k)%nat -> retryable cl (reply (length (cs_sent s) + i) r) = true) /\
    match res with
    | Ok page => exists n body, k = S n /\
        read_reply cl (reply (length (cs_sent s) + n) r) = Ok (Some (200, body)) /\
        parse_page body = Ok page /\ cs_circuit_failures s' = 0 /\ cs_circuit_opened_at s' = None
    | Raise e => client_error e
    end.

Lemma attempts_spec_retry cl r bound s s1 res s' :
  cs_sent s1 = cs_sent s ++ [r] -> retryable cl (reply (length (cs_sent s)) r) = true ->
  attempts_spec cl r bound s1 res s' -> attempts_spec cl r (S bound) s res s'.
Proof using Type.
  intros Hs1 Hr (Hok&k&Hk&Hsent&Hretry&Hres). split; [done|]. exists (S k).
  assert (Hlen : length (cs_sent s1) = S (length (cs_sent s))) by (rewrite Hs1, length_app; simpl; lia).
  rewrite Hlen in *. split; [lia|]. split; [by rewrite Hsent, Hs1, <- app_assoc|]. split.
  - intros [|i] Hi; [by rewrite Nat.add_0_r|]. rewrite Nat.add_succ_r. apply (Hretry i). lia.
  - destruct res as [page|]; [|done]. destruct Hres as (n&body&->&Hrd&Hp). exists (S n), body.
    split; [done|]. split; [|done]. by rewrite Nat.add_succ_r.
Qed.

(** An answer that is not retried ends the loop: one request, and a verdict. *)
Lemma handle_reply_final cl r bound s s3 again res s' :
  state_ok s3 -> cs_sent s3 = cs_sent s ++ [r] ->
  retryable cl (reply (length (cs_sent s)) r) = false ->
  match read_reply cl (reply (length (cs_sent s)) r) with
  | Ok sent => handle_reply again sent s3
  | Raise e => (Raise e, s3)
  end = (res, s') ->
  attempts_spec cl r (S bound) s res s'.
Proof using Type.
  intros Hok Hsent Hretry. unfold retryable in Hretry.
  assert (Hfail : forall e sx, client_error e -> cs_sent sx = cs_sent s3 -> state_ok sx ->
    attempts_spec cl r (S bound) s (Raise e) sx).
  { intros e sx He Hsx Hokx. split; [done|]. exists 1%nat. split; [lia|].
    split; [by rewrite Hsx, Hsent|]. split; [lia|done]. }
  destruct (read_reply cl _) as [[[st body]|]|e] eqn:Er; [|done|].
  2:{ intros [= <- <-]. apply Hfail; [|done|done]. apply read_reply_error in Er as [->| ->];
      unfold client_error; auto 6. }
  unfold handle_reply. destruct (st =? 401); [intros [= <- <-]; apply Hfail; unfold client_error; auto|].
  destruct (st =? 400); [intros [= <- <-]; apply Hfail; unfold client_error; auto|]. rewrite Hretry.
  destruct (st =? 200) eqn:E2; cbn [negb]; [|intros [= <- <-]; apply Hfail; unfold client_error; auto].
  apply Z.eqb_eq in E2 as ->. unfold mbind, record_success, modify_client, lift.
  destruct (parse_page body) as [page|e] eqn:Ep; intros [= <- <-].
  - split; [done|]. exists 1%nat. split; [lia|]. split; [done|]. split; [lia|].
    exists 0%nat, body. by rewrite Nat.add_0_r.
  - apply Hfail; [|done|done]. apply parse_page_error in Ep as [->|[->| ->]]; unfold client_error; auto 6.
Qed.

(** An answer that is retried ends the page only through the continuation. *)
Lemma handle_reply_retry cl r s s3 again res s' :
  retryable cl (reply (length (cs_sent s)) r) = true ->
  match read_reply cl (reply (length (cs_sent s)) r) with
  | Ok sent => handle_reply again sent s3
  | Raise e => (Raise e, s3)
  end = (res, s') -> again s3 = (res, s').
Proof using Type.
  unfold retryable. destruct (read_reply cl _) as [[[st body]|]|e]; [|done|done].
  intros Hr. unfold handle_reply. rewrite Hr.
  destruct (st =? 401) eqn:E1; [apply Z.eqb_eq in E1 as ->; done|].
  destruct (st =? 400) eqn:E2; [apply Z.eqb_eq in E2 as ->; done|]. done.
Qed.

Lemma request_attempts_spec cl r remaining attempt s res s' :
  state_ok s -> request_attempts cl r attempt remaining s = (res, s') ->
  attempts_spec cl r (S remaining) s res s'.
Proof using Type.
  revert attempt s res s'. induction remaining as [|remaining IH]; intros attempt s res s' Hok Hrun.
  all: cbn [request_attempts] in Hrun; unfold mbind at 1 in Hrun.
  all: destruct (ensure_circuit_cases cl s) as [E|(s1&E&Hb1&Hsent1)]; rewrite E in Hrun;
    [injection Hrun as <- <-; split; [done|]; exists 0%nat; rewrite app_nil_r;
     split; [lia|]; split; [done|]; split; [lia|by left]|].
  all: destruct (acquire_total s1) as (s2&Ea&Hok2&Hsent2&_); [unfold state_ok; by rewrite Hb1|].
  all: unfold mbind at 1 in Hrun; rewrite Ea in Hrun; unfold mbind at 1, send in Hrun.
  all: assert (Hsent : cs_sent s2 = cs_sent s) by congruence; rewrite Hsent in Hrun.
  all: set (s3 := mkClientState (cs_bucket s2) _ _ _ _) in Hrun.
  all: destruct (retryable cl (reply (length (cs_sent s)) r)) eqn:Hr;
    [|by eapply (handle_reply_final cl r _ s s3); [..|exact Hr|exact Hrun]].
  all: apply (handle_reply_retry cl r s s3) in Hrun; [|exact Hr].
  - injection Hrun as <- <-. split; [done|]. exists 1%nat. split; [lia|]. split; [done|].
    split; [lia|by left].
  - eapply attempts_spec_retry; [|exact Hr|eapply IH; [|exact Hrun]]; [done|done].
Qed.

(** *** The circuit breaker *)

(** A closed circuit has seen fewer consecutive failures than the threshold. *)
Definition circuit_inv (cl : LeakCheckClient) (s : ClientState) : Prop :=
  cs_circuit_opened_at s = None -> cs_circuit_failures s < cl_circuit_failure_threshold cl.

Lemma success_circuit cl s : 1 <= cl_circuit_failure_threshold cl -> circuit_inv cl (set_circuit 0 None s).
Proof using Type. unfold circuit_inv. cbn. lia. Qed.

Lemma failure_circuit cl s u s' : circuit_inv cl s -> record_failure cl s = (u, s') -> circuit_inv cl s'.
Proof using Type.
  unfold circuit_inv, record_failure, modify_client. intros _ [= _ <-]. cbn.
  destruct (_ <=? _) eqn:E; [done|]. intros _. apply Z.leb_gt in E. lia.
Qed.

Lemma handle_reply_circuit cl again sent s res s' :
  1 <= cl_circuit_failure_threshold cl ->
  (again s = (res, s') -> circuit_inv cl s') ->
  handle_reply again sent s = (res, s') -> circuit_inv cl s'.
Proof using Type.
  intros Hth Hagain. unfold handle_reply. destruct sent as [[st body]|]; [|done].
  unfold mbind, record_success, modify_client, raise, lift.
  repeat (destruct (st =? _); [by intros [= _ <-]; apply success_circuit|]).
  destruct ((st =? 429) || _); [done|]. destruct (negb _); intros [= _ <-]; by apply success_circuit.
Qed.

Lemma acquire_circuit n s u s' : acquire n s = (u, s') ->
  cs_circuit_failures s' = cs_circuit_failures s /\ cs_circuit_opened_at s' = cs_circuit_opened_at s.
Proof using Type.
  revert s. induction n as [|n IH]; intros s; cbn [acquire];
    destruct (try_acquire _ _) as [[d|] b]; try (by intros [= _ <-]).
  unfold mbind, sleep, modify_client. by intros ?%IH.
Qed.

Lemma request_attempts_circuit cl r remaining attempt s res s' :
  1 <= cl_circuit_failure_threshold cl ->
  circuit_inv cl s -> request_attempts cl r attempt remaining s = (res, s') -> circuit_inv cl s'.
Proof using Type.
  intros Hth. revert attempt s. induction remaining as [|remaining IH]; intros attempt s Hinv Hrun.
  all: cbn [request_attempts] in Hrun; unfold mbind at 1 in Hrun.
  all: assert (He : circuit_inv cl (ensure_circuit_available cl s).2) by
    (unfold ensure_circuit_available; destruct (cs_circuit_opened_at s); [|done];
     destruct (negb _); [done|by apply success_circuit]).
  all: destruct (ensure_circuit_available cl s) as [[[]|e] s1]; [|by injection Hrun as _ <-]; cbn [snd] in He.
  all: unfold mbind at 1 in Hrun; destruct (acquire 1 s1) as [[[]|e] s2] eqn:Ea;
    apply acquire_circuit in Ea as [Hf Ho]; (assert (Hinv2 : circuit_inv cl s2)
      by (unfold circuit_inv in *; by rewrite Hf, Ho)); [|by injection Hrun as _ <-].
  all: unfold mbind at 1, send in Hrun; set (s3 := mkClientState (cs_bucket s2) _ _ _ _) in Hrun.
  all: assert (Hinv3 : circuit_inv cl s3) by exact Hinv2.
  all: destruct (read_reply cl _) as [sent|e]; [|by injection Hrun as _ <-].
  all: revert Hrun; apply handle_reply_circuit; [done|]; unfold mbind at 1.
  all: destruct (record_failure cl s3) as [[[]|e] s4] eqn:Ef; apply failure_circuit in Ef; try done.
  all: try (by intros [= _ <-]). unfold mbind, sleep, modify_client. apply IH. exact Ef.
Qed.

(** *** Pagination *)

Lemma request_page_inv cl qt text ps s res s' :
  state_ok s -> request_page cl qt text ps s = (res, s') ->
  match quote text with
  | Raise e => res = Raise e /\ s' = s
  | Ok quoted =>
      attempts_spec cl (mkRequest (BASE_URL ++ [47] ++ quoted) ((py "type", QueryType_value qt) :: ps))
        (S (cl_max_retries cl)) s res s'
  end.
Proof using Type.
  intros Hok. unfold request_page, mbind, lift. destruct (quote text) as [q|e]; [|by intros [= <- <-]].
  by apply request_attempts_spec.
Qed.

(** The requests of a sequence of pages, page by page. *)
Definition page_requests (cl : LeakCheckClient) (url : pystr) (page : nat) (rs : list Request) : Prop :=
  exists k, (1 <= k <= S (cl_max_retries cl))%nat /\
    rs = replicate k (mkRequest url ((py "type", QueryType_value Query_DOMAIN) :: page_parameters page)).

Lemma domain_pages_spec cl text quoted remaining n records quota found s r s' :
  quote text = Ok quoted -> state_ok s -> found = Z.of_nat (length records) ->
  domain_pages cl text n remaining records quota found s = (Ok r, s') ->
  exists pages requests,
    (length pages <= remaining)%nat /\
    qr_records r = records ++ concat (map pg_records pages) /\
    qr_found r = Z.of_nat (length (qr_records r)) /\
    cs_sent s' = cs_sent s ++ concat requests /\
    length requests = length pages /\
    (forall i rs, requests !! i = Some rs -> page_requests cl (BASE_URL ++ [47] ++ quoted) (n + i) rs) /\
    (if qr_truncated r
     then length pages = remaining /\ Forall (fun p => (DOMAIN_PAGE_SIZE <= length (pg_records p))%nat) pages
     else exists full short, pages = full ++ [short] /\
       Forall (fun p => (DOMAIN_PAGE_SIZE <= length (pg_records p))%nat) full /\
       (length (pg_records short) < DOMAIN_PAGE_SIZE)%nat /\ qr_quota r = pg_quota short).
Proof using Type.
  intros Hq. revert n records quota found s.
  induction remaining as [|remaining IH]; intros n records quota found s Hok Hf; cbn [domain_pages].
  { intros [= <- <-]. exists [], []. cbn. rewrite !app_nil_r. repeat split; try done. }
  intros (page&s1&Hp&Hrun)%mbind_inv. apply request_page_inv in Hp; [|done]. rewrite Hq in Hp.
  destruct Hp as (Hok1&k&Hk&Hsent&_&m&body&Hkm&_).
  assert (Hpr : page_requests cl (BASE_URL ++ [47] ++ quoted) n
    (replicate k (mkRequest (BASE_URL ++ [47] ++ quoted)
       ((py "type", QueryType_value Query_DOMAIN) :: page_parameters n)))) by (exists k; split; [lia|done]).
  destruct (_ <? _)%nat eqn:E.
  - injection Hrun as <- <-. apply Nat.ltb_lt in E. exists [page], [replicate k
      (mkRequest (BASE_URL ++ [47] ++ quoted) ((py "type", QueryType_value Query_DOMAIN) :: page_parameters n))].
    cbn [concat map length]. rewrite !app_nil_r. split; [lia|]. split; [done|].
    split; [cbn; rewrite length_app; lia|]. split; [exact Hsent|]. split; [done|]. split.
    { intros i rs Hi. apply list_lookup_singleton_Some in Hi as [-> <-]. by rewrite Nat.add_0_r. }
    exists [], page. by repeat split.
  - apply Nat.ltb_ge in E. apply IH in Hrun; [|done|rewrite length_app; lia].
    destruct Hrun as (pages&requests&Hl&Hrec&Hfd&Hs&Hlen&Hreq&Htr).
    exists (page :: pages), (replicate k (mkRequest (BASE_URL ++ [47] ++ quoted)
       ((py "type", QueryType_value Query_DOMAIN) :: page_parameters n)) :: requests).
    cbn [concat map length]. split; [lia|]. split; [by rewrite Hrec, <- app_assoc|]. split; [done|].
    split; [by rewrite Hs, Hsent, <- app_assoc|]. split; [lia|]. split.
    { intros [|i] rs Hi; [injection Hi as <-; by rewrite Nat.add_0_r|].
      rewrite Nat.add_succ_r. by apply (Hreq i). }
    destruct (qr_truncated r).
    + destruct Htr as [-> Hall]. split; [done|]. by constructor.
    + destruct Htr as (full&short&->&Hall&Hsh&Hqq). exists (page :: full), short.
      repeat split; try done. by constructor.
Qed.

End ClientLemmas.

Section Properties.
Context `{Unicode} `{LeakCheckService}.

(** C18: whichever tasks contend for the bucket and at whatever times they take the lock, any window
    of passes that starts at [first] and ends at [last] grants at most one request plus what the
    rate earns in between, so a half-open second never sees more than the configured rate. *)
Theorem token_bucket_rate times b first n b' :
  bucket_ok b -> Sorted Qle (first :: times) -> passes (first :: times) b = (n, b') ->
  (inject_Z (Z.of_nat n) <= 1 + (List.last times first - first) * tb_rate b)%Q.
Proof using Type.
  intros Hok Hs. cbn [passes]. destruct (try_acquire first b) as [r b1] eqn:E.
  destruct (passes times b1) as [g b2] eqn:Ep. intros [= <- <-].
  destruct (try_acquire_spec _ _ _ _ Hok E) as (Hok1&Hrate&Hup&Hr).
  pose proof (passes_paid times b1 first g b2 Hok1 Hup Hs Ep) as Hp. rewrite Hrate in Hp.
  pose proof (refill_ok first b Hok) as [_ Ht].
  pose proof (Q.max_spec 0 (tb_tokens b1)). destruct r as [d|].
  - destruct Hr as (->&Hlt&_). lra.
  - destruct Hr as [Hr Hr0]. rewrite Nat2Z.inj_succ. unfold Z.succ. rewrite inject_Z_plus.
    rewrite Hr in *. change (inject_Z 1) with 1%Q. lra.
Qed.

(** a page costs at most [max_retries + 1] identical requests; only a transport failure, a broken
    stream, HTTP 429 or a 5xx answer is followed by another; a page is returned exactly from an HTTP
    200 answer within the size limit that parses; and every failure is one of the four client
    errors. *)
Theorem request_page_retries cl qt text ps quoted s res s' :
  state_ok s -> quote text = Ok quoted -> request_page cl qt text ps s = (res, s') ->
  let r := mkRequest (BASE_URL ++ [47] ++ quoted) ((py "type", QueryType_value qt) :: ps) in
  exists k, (k <= S (cl_max_retries cl))%nat /\ cs_sent s' = cs_sent s ++ replicate k r /\
    (forall i, (i + 1 < k)%nat -> retryable cl (reply (length (cs_sent s) + i) r) = true) /\
    match res with
    | Ok page => exists n body, k = S n /\
        read_reply cl (reply (length (cs_sent s) + n) r) = Ok (Some (200, body)) /\
        parse_page body = Ok page /\ cs_circuit_failures s' = 0 /\ cs_circuit_opened_at s' = None
    | Raise e => client_error e
    end.
Proof using Type.
  intros Hok Hq Hp. apply request_page_inv in Hp; [|done]. rewrite Hq in Hp. by destruct Hp as [_ Hp].
Qed.

(** a response body is never kept beyond the limit: reading [n] chunks yields their
    concatenation if it fits, and [LeakCheckResponseTooLarge] otherwise, whatever length was
    declared. *)
Theorem read_body_bounded limit complete chunks :
  0 <= limit ->
  read_body limit complete [] chunks =
    if limit <? Z.of_nat (length (concat chunks)) then Raise LeakCheckResponseTooLarge
    else Ok (if complete then Some (concat chunks) else None).
Proof using Type. intros Hl. by apply read_body_spec. Qed.

(** after the threshold of consecutive failures the circuit is open, in every state the client
    can reach; while it is open and the reset time has not passed, a page is refused without sending
    anything or waiting; and no sequence of attempts breaks this. *)
Theorem circuit_breaker_blocks cl qt text ps quoted s res s' :
  1 <= cl_circuit_failure_threshold cl -> quote text = Ok quoted -> circuit_inv cl s ->
  request_page cl qt text ps s = (res, s') ->
  circuit_inv cl s' /\
  (cl_circuit_failure_threshold cl <= cs_circuit_failures s ->
   exists opened, cs_circuit_opened_at s = Some opened /\
     ((cs_now s - opened < cl_circuit_reset_seconds cl)%Q ->
      res = Raise LeakCheckUnavailable /\ s' = s)).
Proof using Type.
  intros Hth Hq Hinv. unfold request_page, mbind at 1, lift. rewrite Hq. intros Hrun. split.
  { by eapply request_attempts_circuit. }
  intros Hf. unfold circuit_inv in Hinv. destruct (cs_circuit_opened_at s) as [opened|] eqn:Eo.
  2:{ specialize (Hinv eq_refl). lia. }
  exists opened. split; [done|]. intros Hlt. revert Hrun.
  assert (He : ensure_circuit_available cl s = (Raise LeakCheckUnavailable, s)).
  { unfold ensure_circuit_available. rewrite Eo. destruct (Qle_bool _ _) eqn:E; [|done].
    apply Qle_bool_iff in E. lra. }
  destruct (cl_max_retries cl); cbn [request_attempts]; unfold mbind at 1; rewrite He; by intros [= <- <-].
Qed.

(** a domain query asks for page 0, 1, 2, ... in order, each with limit 1000 and its own offset,
    returns the concatenation of the pages with their number as [found], stops at the first page
    that is not full, and reports truncation exactly when every allowed page came back full. *)
Theorem domain_pagination cl text quoted s r s' :
  quote text = Ok quoted -> state_ok s -> query_domain cl text s = (Ok r, s') ->
  exists pages requests,
    (length pages <= cl_max_domain_pages cl)%nat /\
    qr_records r = concat (map pg_records pages) /\
    qr_found r = Z.of_nat (length (qr_records r)) /\
    cs_sent s' = cs_sent s ++ concat requests /\ length requests = length pages /\
    (forall i rs, requests !! i = Some rs -> page_requests cl (BASE_URL ++ [47] ++ quoted) i rs) /\
    (if qr_truncated r
     then length pages = cl_max_domain_pages cl /\
       Forall (fun p => (DOMAIN_PAGE_SIZE <= length (pg_records p))%nat) pages
     else exists full short, pages = full ++ [short] /\
       Forall (fun p => (DOMAIN_PAGE_SIZE <= length (pg_records p))%nat) full /\
       (length (pg_records short) < DOMAIN_PAGE_SIZE)%nat /\ qr_quota r = pg_quota short).
Proof using Type.
  intros Hq Hok Hrun. unfold query_domain in Hrun.
  exact (domain_pages_spec cl text quoted _ 0 [] None 0 s r s' Hq Hok eq_refl Hrun).
Qed.

(** No query but a domain query ever carries a parameter besides its type, so an email request
    can never acquire an offset; empty and over-long texts are refused before anything is sent. *)
Theorem query_never_sends_offset cl qt text s res s' :
  qt <> Query_DOMAIN -> state_ok s -> query cl qt text s = (res, s') ->
  exists k url, cs_sent s' = cs_sent s ++ replicate k (mkRequest url [(py "type", QueryType_value qt)]) /\
    (k <= S (cl_max_retries cl))%nat /\
    ((text = [] \/ exists b, utf8_encode text = Ok b /\ (4096 < length b)%nat) ->
     res = Raise ValueError /\ k = 0%nat).
Proof using Type.
  intros Hqt Hok. unfold query. destruct (bool_decide (text = [])) eqn:Et.
  { intros [= <- <-]. exists 0%nat, []. rewrite app_nil_r. split; [done|]. split; [lia|done]. }
  apply bool_decide_eq_false in Et. unfold mbind at 1, lift.
  destruct (utf8_encode text) as [b|e] eqn:Eb.
  2:{ intros [= <- <-]. exists 0%nat, []. rewrite app_nil_r. split; [done|]. split; [lia|].
      intros [?|(?&?&_)]; done. }
  destruct (_ <? _)%nat eqn:El.
  { intros [= <- <-]. exists 0%nat, []. rewrite app_nil_r. split; [done|]. split; [lia|done]. }
  rewrite bool_decide_eq_false_2 by done. unfold mbind at 1.
  destruct (request_page cl qt text [] s) as [rp s1] eqn:Ep. apply request_page_inv in Ep; [|done].
  intros Hrun. assert (s1 = s') as -> by (destruct rp; by injection Hrun).
  assert (Hlong : ~ (text = [] \/ exists b0, Ok b = Ok b0 /\ (4096 < length b0)%nat)).
  { intros [?|(b0&[= <-]&Hb)]; [done|]. apply Nat.ltb_ge in El. lia. }
  destruct (quote text) as [q|e].
  - destruct Ep as (_&k&Hk&Hs&_). exists k, (BASE_URL ++ [47] ++ q). split; [exact Hs|]. split; [lia|].
    by intros ?%Hlong.
  - destruct Ep as [-> ->]. exists 0%nat, []. rewrite app_nil_r. split; [done|]. split; [lia|].
    by intros ?%Hlong.
Qed.

End Properties.

(** ** A scripted service *)

(** It answers the n-th request with the n-th reply of a script. *)
Definition scripted (script : list Reply) : LeakCheckService := {|
  reply n _ := nth n script Transport_failure;
  latency _ := 0%Q;
|}.
Definition page_of (n : nat) : bytes :=
  dumps (JDict [(py "success", JBool true); (py "found", JInt (Z.of_nat n)); (py "quota", JInt 40);
                (py "result", JList (replicate n (JDict [(py "email", JStr (py "a@example.com"))])))]).
Definition sample_client : LeakCheckClient := mkClient (py "key") 3 (32 * 1024 * 1024) 3 2 5 30%Q.
Definition fresh_state : ClientState := mkClientState (mkBucket 3%Q 1%Q None) 0 None 0%Q [].

Lemma fresh_ok : state_ok fresh_state.
Proof. split; cbn; lra. Qed.

Example retry_then_page :
  let s := scripted [Response 503 None [] true; Response 429 None [] true;
                     Response 200 None [page_of 1] true] in
  (@request_page ascii_unicode s sample_client Query_EMAIL (py "a@example.com") [] fresh_state).1
  = Ok (mkPage [mkLeakRecord (Some (py "a@example.com")) None None None None []
                  (mkVendorSource None None None None None) [(py "email", JStr (py "a@example.com"))]]
          (Some 40) 1).
Proof. vm_compute. reflexivity. Qed.

Lemma token_bucket_rate_witness :
  (inject_Z (Z.of_nat (passes [0; 1 # 3; 2 # 3; 2 # 3]%Q (mkBucket 3 1 None)).1)
   <= 1 + ((2 # 3) - 0) * 3)%Q /\ (passes [0; 1 # 3; 2 # 3; 2 # 3]%Q (mkBucket 3 1 None)).1 = 3%nat.
Proof.
  split; [|vm_compute; reflexivity].
  apply (token_bucket_rate [1 # 3; 2 # 3; 2 # 3]%Q (mkBucket 3 1 None) 0%Q
    (passes [0; 1 # 3; 2 # 3; 2 # 3]%Q (mkBucket 3 1 None)).1
    (passes [0; 1 # 3; 2 # 3; 2 # 3]%Q (mkBucket 3 1 None)).2).
  - split; cbn; lra.
  - repeat constructor; cbn; lra.
  - apply surjective_pairing.
Defined.

Lemma request_page_retries_witness :
  exists k, (k <= 4)%nat /\
    length (cs_sent (@request_page ascii_unicode (scripted [Response 503 None [] true; Response 401 None [] true])
      sample_client Query_EMAIL (py "a@example.com") [] fresh_state).2) = k.
Proof.
  pose (svc := scripted [Response 503 None [] true; Response 401 None [] true]).
  destruct (@request_page_retries ascii_unicode svc sample_client Query_EMAIL (py "a@example.com") []
    (py "a%40example.com") fresh_state
    (@request_page ascii_unicode svc sample_client Query_EMAIL (py "a@example.com") [] fresh_state).1
    (@request_page ascii_unicode svc sample_client Query_EMAIL (py "a@example.com") [] fresh_state).2)
    as (k&Hk&Hs&_); [exact fresh_ok|vm_compute; reflexivity|apply surjective_pairing|].
  exists k. split; [exact Hk|]. etransitivity; [exact (f_equal length Hs)|].
  rewrite length_app, length_replicate. reflexivity.
Defined.

Lemma read_body_bounded_witness :
  read_body 3 true [] [[1; 2]; [3; 4]; [5]] = Raise LeakCheckResponseTooLarge.
Proof. etransitivity; [apply (read_body_bounded 3 true [[1; 2]; [3; 4]; [5]]); lia|reflexivity]. Defined.

(** A circuit that opened ten seconds ago. *)
Definition open_state : ClientState := mkClientState (mkBucket 3%Q 1%Q None) 5 (Some 0%Q) 10%Q [].

Lemma circuit_breaker_blocks_witness :
  (@request_page ascii_unicode (scripted []) sample_client Query_EMAIL (py "a@example.com") [] open_state).1
  = Raise LeakCheckUnavailable.
Proof.
  destruct (@circuit_breaker_blocks ascii_unicode (scripted []) sample_client Query_EMAIL
    (py "a@example.com") [] (py "a%40example.com") open_state
    (@request_page ascii_unicode (scripted []) sample_client Query_EMAIL (py "a@example.com") [] open_state).1
    (@request_page ascii_unicode (scripted []) sample_client Query_EMAIL (py "a@example.com") [] open_state).2)
    as [_ Hb]; [cbn; lia|vm_compute; reflexivity|discriminate|apply surjective_pairing|].
  destruct Hb as (opened&Ho&Hb); [cbn; lia|]. injection Ho as <-.
  destruct Hb as [Hres _]; [cbn; lra|exact Hres].
Defined.

Lemma domain_pagination_witness :
  exists r s', @query_domain ascii_unicode (scripted [Response 200 None [page_of 2] true]) sample_client
                 (py "example.com") fresh_state = (Ok r, s') /\
    qr_found r = Z.of_nat (length (qr_records r)) /\ qr_truncated r = false.
Proof.
  eexists _, _. split; [vm_compute; reflexivity|]. split; [|reflexivity].
  edestruct (@domain_pagination ascii_unicode (scripted [Response 200 None [page_of 2] true]) sample_client
    (py "example.com") (py "example.com") fresh_state) as (pages&requests&_&_&Hf&_);
    [vm_compute; reflexivity|exact fresh_ok|vm_compute; reflexivity|exact Hf].
Defined.

Lemma query_never_sends_offset_witness :
  exists k url, cs_sent (@query ascii_unicode (scripted [Response 200 None [page_of 1] true]) sample_client
      Query_EMAIL (py "a@example.com") fresh_state).2
    = replicate k (mkRequest url [(py "type", py "email")]).
Proof.
  destruct (@query_never_sends_offset ascii_unicode (scripted [Response 200 None [page_of 1] true])
    sample_client Query_EMAIL (py "a@example.com") fresh_state
    (@query ascii_unicode (scripted [Response 200 None [page_of 1] true]) sample_client
      Query_EMAIL (py "a@example.com") fresh_state).1
    (@query ascii_unicode (scripted [Response 200 None [page_of 1] true]) sample_client
      Query_EMAIL (py "a@example.com") fresh_state).2) as (k&url&Hs&_);
    [discriminate|exact fresh_ok|apply surjective_pairing|].
  exists k, url. exact Hs.
Defined.
