(* ===== verification/Ingest.v ===== *)
(** Ingestion of vendor records (app/ingest.py): source identities, fingerprints, drafts, the
    repository interface with its PostgreSQL implementation, and the ingest loop. Objects of the
    session are referred to by primary key, so a mutation is seen through every reference. *)
From S2P Require Import Prelude PyBase Encoding Hashes Json Config Models Store.
From S2P Require Import Aead FindingCrypto Normalization Url LeakCheck Remediation.

Definition UNKNOWN_DATE : date := mkDate 1 1 1.
Definition UNKNOWN_SOURCE : pystr := py "Unknown".
Definition ZERO_PASSWORD_HASH : bytes := replicate 32 0.

Record SourceIdentity := mkSourceIdentity {
  si_name : pystr;
  si_name_norm : pystr;
  si_breach_date : option date;
  si_breach_date_norm : date;
  si_unverified : option bool;
  si_passwordless : option bool;
  si_compilation : option bool;
  si_extra : list (pystr * json);
}.

Record FindingDraft := mkFindingDraft {
  fd_id : uuid;
  fd_subject_id : uuid;
  fd_source_id : uuid;
  fd_email : option pystr;
  fd_username : option pystr;
  fd_phone : option pystr;
  fd_origin : option pystr;
  fd_identity_key : option bytes;
  fd_password : option ProtectedPassword;
  fd_fields : list pystr;
  fd_raw : list (pystr * json);
  fd_fingerprint : bytes;
  fd_seen_at : instant;
}.

Record IngestSummary := mkIngestSummary {
  is_findings : list uuid;
  is_new_count : Z;
  is_re_leaked_count : Z;
  is_new_finding_ids : list uuid;
}.

(** [IngestRepository]: what the loop asks of its store. *)
Class IngestRepository := {
  resolve_source : SourceIdentity -> M BreachSource;
  upsert_finding : FindingDraft -> M (Finding * bool);
  find_remediated_predecessor : Finding -> SourceIdentity -> M (option Finding);
  link_releak : uuid -> uuid -> M unit;
  add_event : uuid -> FindingEventType -> option uuid -> instant -> list (pystr * json) -> M unit;
}.

Section Ingest.
Context `{Unicode} `{Aead} `{Entropy}.

(** ** Source identity and fingerprint *)

Definition parse_date (value : option pystr) : option date :=
  match value with
  | None | Some [] => None
  | Some v => match fromisoformat v with Ok d => Some d | Raise _ => None end
  end.

Definition or_null (o : option pystr) : json := match o with Some s => JStr s | None => JNull end.

Definition normalize_source (source : VendorSource) : SourceIdentity :=
  let given := match vs_name source with None | Some [] => UNKNOWN_SOURCE | Some n => n end in
  let name := match strip (nfkc given) with [] => UNKNOWN_SOURCE | n => n end in
  let name := map (fun c => if isprintable c then c else 65533) name in
  let name := slice_to 1024 name in
  let breach_date := parse_date (vs_breach_date source) in
  mkSourceIdentity name (casefold name) breach_date (default UNKNOWN_DATE breach_date)
    (vs_unverified source) (vs_passwordless source) (vs_compilation source)
    [(py "vendor_name", or_null (vs_name source));
     (py "vendor_breach_date", or_null (vs_breach_date source))].

(** A part behind its length in four octets. *)
Definition framed (part : bytes) : result bytes :=
  try! len <- to_bytes 4 (Z.of_nat (length part)); Ok (len ++ part).
Definition framed_all (parts : list bytes) : result bytes :=
  try! fs <- rmap framed parts; Ok (concat fs).

Definition identity_key (email username phone : pystr) : result (option bytes) :=
  if bool_decide (email = []) && bool_decide (username = []) && bool_decide (phone = [])
  then Ok None
  else
    try! encoded <- rmap utf8_encode [email; username; phone];
    try! data <- framed_all encoded;
    Ok (Some (sha256 data)).

Definition fingerprint_parts (subject : Subject) (source : SourceIdentity)
    (email_norm username_norm phone_norm : pystr) (password_sha256 : option bytes) : result (list bytes) :=
  try! texts <- rmap utf8_encode
    [SubjectKind_value (su_kind subject); su_value_norm subject; si_name_norm source;
     date_isoformat (si_breach_date_norm source); email_norm; username_norm; phone_norm];
  Ok (texts ++ [match password_sha256 with None | Some [] => ZERO_PASSWORD_HASH | Some h => h end]).

Definition finding_fingerprint (subject : Subject) (source : SourceIdentity)
    (email_norm username_norm phone_norm : pystr) (password_sha256 : option bytes) : result bytes :=
  try! parts <- fingerprint_parts subject source email_norm username_norm phone_norm password_sha256;
  try! data <- framed_all parts;
  Ok (sha256 data).

(** ** Sanitising the raw record *)

Definition secret_key (k : pystr) : bool := bool_decide (casefold k = py "password").

Fixpoint sanitize_value (value : json) : json :=
  match value with
  | JDict d =>
      JDict ((fix go (d : list (pystr * json)) : list (pystr * json) :=
        match d with
        | [] => []
        | (key, item) :: t => if secret_key key then go t else (key, sanitize_value item) :: go t
        end) d)
  | JList l => JList (map sanitize_value l)
  | _ => value
  end.
Definition sanitized_raw (value : list (pystr * json)) : list (pystr * json) :=
  match sanitize_value (JDict value) with JDict d => d | _ => [] end.

Definition build_finding_draft (settings : Settings) (subject : Subject) (source : BreachSource)
    (source_identity : SourceIdentity) (record : LeakRecord) (seen_at : instant) : M FindingDraft :=
  let! finding_id <- uuid4;
  let! protected <-
    match lr_password record with
    | Some password => let! p <- protect_password settings finding_id password; mret (Some p)
    | None => mret None
    end;
  let! email_norm <- lift (normalize_optional_email (lr_email record));
  let! username_norm <- lift (normalize_optional_username (lr_username record));
  let! phone_norm <- lift (normalize_optional_phone (lr_phone record));
  let! key <- lift (identity_key email_norm username_norm phone_norm);
  let! fingerprint <- lift (finding_fingerprint subject source_identity email_norm username_norm
                              phone_norm (option_map pp_sha256 protected));
  mret (mkFindingDraft finding_id (su_id subject) (bs_id source) (lr_email record) (lr_username record)
          (lr_phone record) (lr_origin record) key protected (lr_fields record)
          (sanitized_raw (lr_raw record)) fingerprint seen_at).

(** ** The loop *)

Section Loop.
Context `{IngestRepository}.

(** The loop's variables: [findings], [new_count], [re_leaked_count], [new_finding_ids]. *)
Definition ingest_record (settings : Settings) (subject : Subject) (actor_id : option uuid)
    (seen_at : instant) (acc : IngestSummary) (record : LeakRecord) : M IngestSummary :=
  let source_identity := normalize_source (lr_source record) in
  let! source <- resolve_source source_identity;
  let! draft <- build_finding_draft settings subject source source_identity record seen_at;
  let! upserted <- upsert_finding draft;
  let '(finding, is_new) := upserted in
  let findings_ := is_findings acc ++ [f_id finding] in
  if negb is_new
  then mret (mkIngestSummary findings_ (is_new_count acc) (is_re_leaked_count acc) (is_new_finding_ids acc))
  else
    let new_count := is_new_count acc + 1 in
    let new_ids := is_new_finding_ids acc ++ [f_id finding] in
    do! add_event (f_id finding) Event_DISCOVERED actor_id seen_at [];
    let! predecessor <- find_remediated_predecessor finding source_identity;
    match predecessor with
    | None => mret (mkIngestSummary findings_ new_count (is_re_leaked_count acc) new_ids)
    | Some previous =>
        do! link_releak (f_id previous) (f_id finding);
        do! add_event (f_id finding) Event_RE_LEAKED actor_id seen_at
              [(py "previous_finding_id", JStr (uuid_str (f_id previous)))];
        mret (mkIngestSummary findings_ new_count (is_re_leaked_count acc + 1) new_ids)
    end.

Definition ingest_records (settings : Settings) (subject : Subject) (records : list LeakRecord)
    (actor_id : option uuid) (now : option pydatetime) : M IngestSummary :=
  let! seen_at <- utc_now_m now;
  mfold (ingest_record settings subject actor_id seen_at) (mkIngestSummary [] 0 0 []) records.
End Loop.

(** ** [SQLAlchemyIngestRepository] *)

Definition same_source (source : SourceIdentity) (row : BreachSource) : bool :=
  bool_decide (bs_name_norm row = si_name_norm source)
  && bool_decide (bs_breach_date_norm row = si_breach_date_norm source).

Definition sql_resolve_source (source : SourceIdentity) : M BreachSource :=
  let! id <- uuid4;
  let! d <- get_db;
  match find_row (same_source source) (breach_sources d) with
  | Some row =>
      let row := set_bs_extra (si_extra source) (set_bs_compilation (si_compilation source)
                   (set_bs_passwordless (si_passwordless source)
                     (set_bs_unverified (si_unverified source) row))) in
      do! modify_db (fun d => set_breach_sources (<[bs_id row := row]> (breach_sources d)) d);
      mret row
  | None =>
      let row := mkBreachSource id (si_name source) (si_name_norm source) (si_breach_date source)
                   (si_breach_date_norm source) (si_unverified source) (si_passwordless source)
                   (si_compilation source) (si_extra source) in
      let! t <- lift (insert_row true id row (breach_sources d));
      do! modify_db (set_breach_sources t);
      mret row
  end.

Definition row_of_draft (draft : FindingDraft) : Finding :=
  let p := fd_password draft in
  mkFinding (fd_id draft) (fd_subject_id draft) (fd_source_id draft) (fd_email draft)
    (fd_username draft) (fd_phone draft) (fd_origin draft) (fd_identity_key draft)
    (option_map pp_ciphertext p) (option_map pp_nonce p) (option_map pp_sha256 p)
    (option_map pp_mask p) (option_map pp_length p) (option_map pp_charset p)
    (fd_fields draft) (fd_raw draft) (fd_fingerprint draft) Severity_MEDIUM (fd_seen_at draft)
    (fd_seen_at draft) None None None None None.

Definition same_fingerprint (fp : bytes) (f : Finding) : bool := bool_decide (f_fingerprint f = fp).

Definition sql_upsert_finding (draft : FindingDraft) : M (Finding * bool) :=
  let! d <- get_db;
  match find_row (same_fingerprint (fd_fingerprint draft)) (findings d) with
  | Some f =>
      let f := set_f_origin (fd_origin draft) (set_f_fields (fd_fields draft)
                 (set_f_raw (fd_raw draft) (set_f_last_seen_at (fd_seen_at draft) f))) in
      do! modify_db (fun d => set_findings (<[f_id f := f]> (findings d)) d);
      mret (f, false)
  | None =>
      let f := row_of_draft draft in
      let! t <- lift (insert_row (Finding_ok f) (f_id f) f (findings d));
      do! modify_db (set_findings t);
      mret (f, true)
  end.

(** The [WHERE] clause of the predecessor query. *)
Definition is_predecessor (d : Db) (finding : Finding) (source : SourceIdentity) (f : Finding) : bool :=
  bool_decide (f_subject_id f = f_subject_id finding) && negb (bool_decide (f_id f = f_id finding))
  && bool_decide (f_identity_key f = f_identity_key finding)
  && bool_decide (is_Some (f_remediated_at f)) && bool_decide (f_superseded_by_id f = None)
  && negb (bool_decide (f_password_sha256 f = f_password_sha256 finding))
  && match breach_sources d !! f_source_id f with
     | Some row => bool_decide (bs_name_norm row = si_name_norm source)
     | None => false
     end.
Definition remediated_desc (a b : Finding) : bool :=
  default 0 (f_remediated_at b) <=? default 0 (f_remediated_at a).

Definition sql_find_remediated_predecessor `{HeapOrder} (finding : Finding) (source : SourceIdentity)
  : M (option Finding) :=
  if bool_decide (si_name_norm source = casefold UNKNOWN_SOURCE)
     || bool_decide (f_identity_key finding = None)
  then mret None
  else
    let! d <- get_db;
    mret (head (sort_by remediated_desc (select (is_predecessor d finding source) (findings d)))).

Definition update_finding (id : uuid) (f : Finding -> Finding) (d : Db) : Db :=
  set_findings (alter f id (findings d)) d.

Definition sql_link_releak (previous current : uuid) : M unit :=
  do! modify_db (update_finding previous (set_f_superseded_by_id (Some current)));
  modify_db (update_finding current (set_f_severity Severity_HIGH)).

Definition sql_add_event (finding_id : uuid) (event : FindingEventType) (actor_id : option uuid)
    (at_ : instant) (meta : list (pystr * json)) : M unit :=
  let! id <- uuid4;
  modify_db (fun d => set_finding_events
    (finding_events d ++ [mkFindingEvent id finding_id event actor_id at_ meta]) d).

Definition SQLAlchemyIngestRepository `{HeapOrder} : IngestRepository := {|
  resolve_source := sql_resolve_source;
  upsert_finding := sql_upsert_finding;
  find_remediated_predecessor := sql_find_remediated_predecessor;
  link_releak := sql_link_releak;
  add_event := sql_add_event;
|}.

End Ingest.

(** ** Lemmas: framing and fingerprints *)

Lemma framed_inv p d : framed p = Ok d -> d = be_split 4 (Z.of_nat (length p)) ++ p /\ Z.of_nat (length p) < 256 ^ 4.
Proof.
  unfold framed, to_bytes. destruct (_ && _) eqn:E; cbn [rbind]; [|done]. intros [= <-].
  split; [done|]. apply andb_true_iff in E as [_ E]. by apply Z.ltb_lt in E.
Qed.

Lemma framed_concat_inj ps qs fs gs r1 r2 :
  rmap framed ps = Ok fs -> rmap framed qs = Ok gs -> length ps = length qs ->
  concat fs ++ r1 = concat gs ++ r2 -> ps = qs.
Proof.
  revert qs fs gs r1 r2. induction ps as [|p ps IH]; intros [|q qs] fs gs r1 r2; try done.
  cbn [rmap]. intros (f&Hf&(fs'&Hfs&[= <-])%rbind_Ok)%rbind_Ok (g&Hg&(gs'&Hgs&[= <-])%rbind_Ok)%rbind_Ok [= Hl].
  apply framed_inv in Hf as [-> Hp]. apply framed_inv in Hg as [-> Hq]. cbn [concat].
  rewrite <- !app_assoc. intros E.
  apply app_inj_length in E as [El E]; [|by rewrite !length_be_split].
  apply be_split_inj in El; [|lia|lia]. apply app_inj_length in E as [-> E]; [|lia].
  f_equal. by eapply IH.
Qed.

Lemma framed_all_inj ps qs d :
  framed_all ps = Ok d -> framed_all qs = Ok d -> length ps = length qs -> ps = qs.
Proof.
  unfold framed_all. intros (fs&Hfs&[= <-])%rbind_Ok (gs&Hgs&[= E])%rbind_Ok Hl.
  eapply (framed_concat_inj ps qs fs gs [] []); try done. by rewrite !app_nil_r.
Qed.

(** ** Lemmas: sanitising *)

Section Sanitize.
Context `{Unicode}.

Fixpoint secret_free (value : json) : bool :=
  match value with
  | JDict d => forallb (fun kv => negb (secret_key (fst kv)) && secret_free (snd kv)) d
  | JList l => forallb secret_free l
  | _ => true
  end.

Lemma sanitize_secret_free j : secret_free (sanitize_value j) = true.
Proof.
  induction j as [| | | | |l IH|d IH] using json_ind'; try done.
  - cbn. apply forallb_Forall, Forall_map. done.
  - cbn. induction IH as [|[k v] d Hv _ IHd]; [done|]. destruct (secret_key k) eqn:E; [exact IHd|].
    cbn. rewrite E. cbn in Hv. rewrite Hv. exact IHd.
Qed.

Lemma sanitize_fixed j : secret_free j = true -> sanitize_value j = j.
Proof.
  induction j as [| | | | |l IH|d IH] using json_ind'; try done.
  - cbn. intros Hl%forallb_Forall. f_equal. apply map_fixed.
    induction IH as [|x l Hx _ IHl]; constructor; apply Forall_cons in Hl as [? ?]; auto.
  - cbn. intros Hd. f_equal. induction IH as [|[k v] d Hv _ IHd]; [done|]. cbn in Hd.
    apply andb_true_iff in Hd as [[Hk Hs]%andb_true_iff Hd]. apply negb_true_iff in Hk.
    rewrite Hk. cbn in Hv. rewrite (Hv Hs). f_equal. by apply IHd.
Qed.
End Sanitize.

(** ** Lemmas: the tables under ingestion *)

Section IngestLemmas.
Context `{Unicode} `{Aead} `{Entropy} `{HeapOrder}.

Definition tables_keyed (d : Db) : Prop :=
  (forall k f, findings d !! k = Some f -> f_id f = k) /\
  (forall k r, breach_sources d !! k = Some r -> bs_id r = k).

Definition has_fingerprint (d : Db) (fp : bytes) : Prop :=
  exists k f, findings d !! k = Some f /\ f_fingerprint f = fp.
Definition has_source (d : Db) (s : SourceIdentity) : Prop :=
  exists k r, breach_sources d !! k = Some r /\ same_source s r = true.

(** Ingestion only adds rows; it never removes one or changes its identity. *)
Definition grows (d d' : Db) : Prop :=
  (forall k f, findings d !! k = Some f ->
     exists f', findings d' !! k = Some f' /\ f_fingerprint f' = f_fingerprint f) /\
  (forall k r, breach_sources d !! k = Some r ->
     exists r', breach_sources d' !! k = Some r' /\ bs_name_norm r' = bs_name_norm r
       /\ bs_breach_date_norm r' = bs_breach_date_norm r).

#[export] Instance grows_preorder : PreOrder grows.
Proof.
  split.
  - intros d. split; eauto.
  - intros a b c [Hab1 Hab2] [Hbc1 Hbc2]. split.
    + intros k f Hf. destruct (Hab1 k f Hf) as (f1&Hf1&E1). destruct (Hbc1 k f1 Hf1) as (f2&Hf2&E2).
      exists f2. split; [done|congruence].
    + intros k r Hr. destruct (Hab2 k r Hr) as (r1&Hr1&E1&E1'). destruct (Hbc2 k r1 Hr1) as (r2&Hr2&E2&E2').
      exists r2. repeat split; [done|congruence|congruence].
Qed.

Lemma grows_fingerprint d d' fp : grows d d' -> has_fingerprint d fp -> has_fingerprint d' fp.
Proof using Type.
  intros [Hg _] (k&f&Hf&<-). destruct (Hg k f Hf) as (f'&Hf'&E). by exists k, f'.
Qed.

Lemma grows_source d d' s : grows d d' -> has_source d s -> has_source d' s.
Proof using Type.
  intros [_ Hg] (k&r&Hr&Hs). destruct (Hg k r Hr) as (r'&Hr'&E1&E2). exists k, r'.
  split; [done|]. unfold same_source. by rewrite E1, E2.
Qed.

Lemma same_fingerprint_true fp f : same_fingerprint fp f = true <-> f_fingerprint f = fp.
Proof using Type. unfold same_fingerprint. apply bool_decide_eq_true. Qed.

(** Storing a row under its own key, either over the row with its fingerprint or as a new one. *)
Lemma put_finding_grows d f :
  tables_keyed d -> (forall f0, findings d !! f_id f = Some f0 -> f_fingerprint f0 = f_fingerprint f) ->
  let d' := set_findings (<[f_id f := f]> (findings d)) d in tables_keyed d' /\ grows d d'.
Proof using Type.
  intros [Hk Hs] Hf0. repeat split; cbn; try done.
  - intros k g [[<- <-]|[_ Hg]]%lookup_insert_Some; [done|by apply Hk].
  - intros k g Hg. destruct (decide (f_id f = k)) as [<-|Hne].
    + exists f. rewrite lookup_insert_eq. split; [done|]. symmetry. by apply Hf0.
    + exists g. by rewrite lookup_insert_ne.
  - eauto.
Qed.

Lemma put_source_grows d r :
  tables_keyed d ->
  (forall r0, breach_sources d !! bs_id r = Some r0 ->
     bs_name_norm r = bs_name_norm r0 /\ bs_breach_date_norm r = bs_breach_date_norm r0) ->
  let d' := set_breach_sources (<[bs_id r := r]> (breach_sources d)) d in tables_keyed d' /\ grows d d'.
Proof using Type.
  intros [Hk Hs] Hr0. repeat split; cbn; try done.
  - intros k g [[<- <-]|[_ Hg]]%lookup_insert_Some; [done|by apply Hs].
  - eauto.
  - intros k g Hg. destruct (decide (bs_id r = k)) as [<-|Hne].
    + exists r. rewrite lookup_insert_eq. split; [done|]. by apply Hr0.
    + exists g. by rewrite lookup_insert_ne.
Qed.

Lemma resolve_source_spec s w row w' :
  tables_keyed (w_db w) -> sql_resolve_source s w = (Ok row, w') ->
  tables_keyed (w_db w') /\ grows (w_db w) (w_db w') /\ has_source (w_db w') s /\
  findings (w_db w') = findings (w_db w) /\ finding_events (w_db w') = finding_events (w_db w).
Proof using Type.
  intros Hk. unfold sql_resolve_source, mbind, uuid4, get_db, modify_db, lift, mret, with_db; cbn.
  split_find r E; cbn.
  - intros [= <- <-]. cbn. apply find_row_Some in E as [Hs [k Hr]]. pose proof (proj2 Hk _ _ Hr) as Hid.
    set (r' := set_bs_extra _ _).
    destruct (put_source_grows (w_db w) r' Hk) as [Hk' Hg].
    { intros r0 Hr0. change (bs_id r') with (bs_id r) in Hr0. rewrite Hid in Hr0.
      replace r0 with r by congruence. done. }
    split; [exact Hk'|]. split; [exact Hg|]. split; [|done].
    exists (bs_id r'), r'. cbn. rewrite lookup_insert_eq. split; [done|exact Hs].
  - split_insert t Ei; [|done]. intros [= <- <-].
    apply insert_row_inv in Ei as (_&Hn&->). set (r' := mkBreachSource _ _ _ _ _ _ _ _ _).
    destruct (put_source_grows (w_db w) r' Hk) as [Hk' Hg]; [intros r0 Hr0; cbn in Hr0; congruence|].
    split; [exact Hk'|]. split; [exact Hg|]. split; [|done].
    exists (bs_id r'), r'. cbn. rewrite lookup_insert_eq. split; [done|].
    unfold same_source. cbn. by rewrite !bool_decide_eq_true_2.
Qed.

Lemma resolve_source_total s w :
  has_source (w_db w) s -> exists row w', sql_resolve_source s w = (Ok row, w').
Proof using Type.
  intros (k&r&Hr&Hs). unfold sql_resolve_source, mbind, uuid4, get_db, modify_db, lift, mret; cbn.
  split_find x E; [eauto|]. rewrite find_row_None in E.
  specialize (E k r Hr). congruence.
Qed.

(** What an upsert did: the row's fingerprint is now present, and it is new or merely refreshed. *)
Lemma upsert_spec draft w f is_new w' :
  tables_keyed (w_db w) -> sql_upsert_finding draft w = (Ok (f, is_new), w') ->
  tables_keyed (w_db w') /\ grows (w_db w) (w_db w') /\
  has_fingerprint (w_db w') (fd_fingerprint draft) /\
  finding_events (w_db w') = finding_events (w_db w) /\
  breach_sources (w_db w') = breach_sources (w_db w) /\
  findings (w_db w') !! f_id f = Some f /\
  (if is_new
   then ~ has_fingerprint (w_db w) (fd_fingerprint draft) /\ findings (w_db w) !! f_id f = None /\
     f = row_of_draft draft /\ dom (findings (w_db w')) = {[f_id f]} ∪ dom (findings (w_db w))
   else has_fingerprint (w_db w) (fd_fingerprint draft) /\
     dom (findings (w_db w')) = dom (findings (w_db w))).
Proof using Type.
  intros Hk. unfold sql_upsert_finding, mbind, get_db, modify_db, lift, mret, with_db; cbn.
  split_find g E; cbn.
  - apply find_row_Some in E as [Hfp [k Hg]]. apply same_fingerprint_true in Hfp.
    pose proof (proj1 Hk _ _ Hg) as Hid. subst k. set (g' := set_f_origin _ _).
    assert (Hgid : f_id g' = f_id g) by done.
    intros [= <- <- <-]. cbn [w_db]. destruct (put_finding_grows (w_db w) g' Hk) as [Hk' Hgr].
    { intros f0 Hf0. rewrite Hgid in Hf0. by replace f0 with g by congruence. }
    split; [exact Hk'|]. split; [exact Hgr|]. split.
    { exists (f_id g'), g'. cbn. rewrite lookup_insert_eq. by split. }
    split; [done|]. split; [done|]. split; [cbn; apply lookup_insert_eq|]. split; [by exists (f_id g), g|].
    cbn [findings set_findings]. rewrite dom_insert_L.
    assert (Hin : f_id g ∈ dom (findings (w_db w))) by (by eapply elem_of_dom_2).
    change ({[f_id g]} ∪ dom (findings (w_db w)) = dom (findings (w_db w))).
    apply subseteq_union_1_L. by apply singleton_subseteq_l.
  - rewrite find_row_None in E. split_insert t Ei; [|done].
    apply insert_row_inv in Ei as (_&Hn&->). intros [= <- <- <-]. cbn [w_db].
    destruct (put_finding_grows (w_db w) (row_of_draft draft) Hk) as [Hk' Hgr];
      [intros f0 Hf0; change (findings (w_db w) !! fd_id draft = Some f0) in Hf0; by rewrite Hn in Hf0|].
    split; [exact Hk'|]. split; [exact Hgr|]. split.
    { exists (f_id (row_of_draft draft)), (row_of_draft draft). cbn. rewrite lookup_insert_eq. by split. }
    split; [done|]. split; [done|]. split; [cbn; apply lookup_insert_eq|]. split.
    { intros (k&g&Hg&Hfp). specialize (E k g Hg). apply same_fingerprint_true in Hfp. congruence. }
    split; [done|]. split; [done|]. cbn [findings set_findings]. by rewrite dom_insert_L.
Qed.

Lemma upsert_known_total draft w :
  has_fingerprint (w_db w) (fd_fingerprint draft) ->
  exists f w', sql_upsert_finding draft w = (Ok (f, false), w').
Proof using Type.
  intros (k&g&Hg&Hfp). unfold sql_upsert_finding, mbind, get_db, modify_db, lift, mret; cbn.
  split_find x E; [eauto|]. rewrite find_row_None in E.
  specialize (E k g Hg). apply same_fingerprint_true in Hfp. congruence.
Qed.

(** *** Drafts *)

(** The draft's identity is a function of the subject and the record alone. *)
Lemma build_draft_again settings subject src sid record t w draft w' :
  build_finding_draft settings subject src sid record t w = (Ok draft, w') ->
  w_db w' = w_db w /\
  forall src2 t2 w2, exists draft2 w2',
    build_finding_draft settings subject src2 sid record t2 w2 = (Ok draft2, w2') /\
    fd_fingerprint draft2 = fd_fingerprint draft /\ w_db w2' = w_db w2.
Proof using Type.
  unfold build_finding_draft. intros (fid&w1&Hu&Hb)%mbind_inv. injection Hu as Hfid <-.
  apply mbind_inv in Hb as (prot&w2&Hp&Hb).
  assert (Hprot : w_db w2 = w_db w /\ forall fid2 wx, exists prot2 wx',
    (match lr_password record with
     | Some password => let! p <- protect_password settings fid2 password; mret (Some p)
     | None => mret None end) wx = (Ok prot2, wx') /\ w_db wx' = w_db wx /\
    option_map pp_sha256 prot2 = option_map pp_sha256 prot).
  { destruct (lr_password record) as [pw|].
    - apply mbind_inv in Hp as (p&w3&Hp&Hr). injection Hr as <- <-.
      apply protect_password_ok in Hp as (pt&key&Hpt&Hk&Ha&->&->). split; [done|]. intros fid2 wx.
      exists (Some (mkProtected (aes_encrypt key (octets_at (w_draws wx) 12) pt (aad_ fid2))
        (octets_at (w_draws wx) 12) (sha256 pt) (mask_password pw) (Z.of_nat (length pw)) (password_charset pw))),
        (mkWorld (w_db wx) (w_committed wx) (S (w_draws wx)) (w_now wx)).
      split; [|done]. unfold mbind, protect_password, lift, token_bytes, mbind.
      rewrite Hpt, Hk. cbn [rbind]. rewrite Ha. reflexivity.
    - injection Hp as <- <-. split; [done|]. intros fid2 wx. by exists None, wx. }
  destruct Hprot as [Hdb Hprot]. apply mbind_inv in Hb as (e&w3&He&Hb). apply lift_inv in He as [He ->].
  apply mbind_inv in Hb as (u&w3&Hun&Hb). apply lift_inv in Hun as [Hun ->].
  apply mbind_inv in Hb as (ph&w3&Hph&Hb). apply lift_inv in Hph as [Hph ->].
  apply mbind_inv in Hb as (key&w3&Hkey&Hb). apply lift_inv in Hkey as [Hkey ->].
  apply mbind_inv in Hb as (fp&w3&Hfp&Hb). apply lift_inv in Hfp as [Hfp ->]. injection Hb as <- <-.
  split; [done|]. intros src2 t2 wx.
  destruct (Hprot (uuid_at (w_draws wx)) (mkWorld (w_db wx) (w_committed wx) (S (w_draws wx)) (w_now wx)))
    as (prot2&wy&Hp2&Hdb2&Hsha).
  exists (mkFindingDraft (uuid_at (w_draws wx)) (su_id subject) (bs_id src2) (lr_email record)
    (lr_username record) (lr_phone record) (lr_origin record) key prot2 (lr_fields record)
    (sanitized_raw (lr_raw record)) fp t2), wy.
  split; [|split; [reflexivity|exact Hdb2]].
  unfold mbind at 1, uuid4. unfold mbind at 1. rewrite Hp2. unfold mbind at 1, lift at 1. rewrite He.
  unfold mbind at 1, lift at 1. rewrite Hun. unfold mbind at 1, lift at 1. rewrite Hph.
  unfold mbind at 1, lift at 1. rewrite Hkey. unfold mbind at 1, lift at 1. rewrite Hsha, Hfp. reflexivity.
Qed.

(** *** One record *)

#[local] Existing Instance SQLAlchemyIngestRepository.

(** The record has been ingested for the subject: its source and its fingerprint are stored. *)
Definition stored (settings : Settings) (subject : Subject) (record : LeakRecord) (d : Db) : Prop :=
  has_source d (normalize_source (lr_source record)) /\
  exists src t w draft w',
    build_finding_draft settings subject src (normalize_source (lr_source record)) record t w = (Ok draft, w')
    /\ has_fingerprint d (fd_fingerprint draft).

Lemma stored_grows settings subject record d d' :
  grows d d' -> stored settings subject record d -> stored settings subject record d'.
Proof using Type.
  intros Hg [Hs (src&t&w&draft&w'&Hb&Hfp)]. split; [by eapply grows_source|].
  exists src, t, w, draft, w'. split; [done|by eapply grows_fingerprint].
Qed.

Lemma update_finding_grows d id f :
  tables_keyed d -> (forall x, f_id (f x) = f_id x) -> (forall x, f_fingerprint (f x) = f_fingerprint x) ->
  tables_keyed (update_finding id f d) /\ grows d (update_finding id f d) /\
  dom (findings (update_finding id f d)) = dom (findings d).
Proof using Type.
  intros [Hk Hs] Hid Hfp. unfold update_finding. split; [|split].
  - split; cbn; [|done]. intros k g. rewrite lookup_alter.
    destruct (decide (id = k)) as [<-|]; [|by apply Hk]. intros (x&Hx&->)%fmap_Some. rewrite Hid. by apply Hk.
  - split; cbn; [|eauto]. intros k g Hg. rewrite lookup_alter.
    destruct (decide (id = k)) as [->|]; rewrite Hg; cbn; [|by exists g]. exists (f g). by split.
  - cbn. apply dom_alter_L.
Qed.

(** The events that a pass appended for one new finding. *)
Definition discovery (id : uuid) (evs : list FindingEvent) (linked : bool) : Prop :=
  map fe_event evs = Event_DISCOVERED :: (if linked then [Event_RE_LEAKED] else []) /\
  Forall (fun e => fe_finding_id e = id) evs.

Lemma ingest_record_spec settings subject actor t acc record w acc' w' :
  tables_keyed (w_db w) -> ingest_record settings subject actor t acc record w = (Ok acc', w') ->
  tables_keyed (w_db w') /\ grows (w_db w) (w_db w') /\ stored settings subject record (w_db w') /\
  exists id,
    is_findings acc' = is_findings acc ++ [id] /\
    ((~ stored settings subject record (w_db w) /\ id ∉ dom (findings (w_db w)) /\
      is_new_finding_ids acc' = is_new_finding_ids acc ++ [id] /\
      is_new_count acc' = is_new_count acc + 1 /\
      dom (findings (w_db w')) = {[id]} ∪ dom (findings (w_db w)) /\
      exists evs linked, finding_events (w_db w') = finding_events (w_db w) ++ evs /\
        discovery id evs linked /\
        is_re_leaked_count acc' = is_re_leaked_count acc + (if linked then 1 else 0))
     \/
     (is_new_finding_ids acc' = is_new_finding_ids acc /\ is_new_count acc' = is_new_count acc /\
      is_re_leaked_count acc' = is_re_leaked_count acc /\
      dom (findings (w_db w')) = dom (findings (w_db w)) /\
      finding_events (w_db w') = finding_events (w_db w))).
Proof using Type.
  intros Hk. unfold ingest_record. cbn [resolve_source upsert_finding find_remediated_predecessor
    link_releak add_event SQLAlchemyIngestRepository].
  intros (src&w1&Hsrc&E)%mbind_inv.
  destruct (resolve_source_spec _ _ _ _ Hk Hsrc) as (Hk1&Hg1&Hs1&Hf1&He1).
  apply mbind_inv in E as (draft&w2&Hd&E).
  destruct (build_draft_again _ _ _ _ _ _ _ _ _ Hd) as [Hdb2 Hagain].
  apply mbind_inv in E as ([f is_new]&w3&Hu&E). rewrite <- Hdb2 in Hk1, Hg1, Hs1, Hf1, He1.
  destruct (upsert_spec _ _ _ _ _ Hk1 Hu) as (Hk3&Hg3&Hfp3&He3&Hb3&Hf3&Hcase).
  assert (Hs3 : stored settings subject record (w_db w3)).
  { split; [by eapply grows_source|]. by exists src, t, w1, draft, w2. }
  assert (Hgw : grows (w_db w) (w_db w3)) by (by etransitivity).
  destruct is_new; cbn [negb] in E.
  2:{ injection E as <- <-. split; [done|]. split; [done|]. split; [done|]. exists (f_id f).
      split; [done|]. right. destruct Hcase as [_ Hdom]. repeat split; try done; congruence. }
  destruct Hcase as (Hnew&Hnone&Hrow&Hdom). rewrite Hf1 in Hnone, Hdom. rewrite He1 in He3.
  assert (Hns : ~ stored settings subject record (w_db w)).
  { intros [_ (src0&t0&w0&draft0&w0'&Hb0&Hfp0)]. apply Hnew.
    destruct (build_draft_again _ _ _ _ _ _ _ _ _ Hb0) as [_ Hag0].
    destruct (Hag0 src t w1) as (draft1&w1'&Hb1&Hfp1&_). rewrite Hd in Hb1. injection Hb1 as <- _.
    rewrite Hfp1. eapply grows_fingerprint; [|exact Hfp0]. exact Hg1. }
  apply mbind_inv in E as (u&w4&Hev&E). unfold sql_add_event, mbind, uuid4, modify_db, with_db in Hev.
  injection Hev as _ <-. apply mbind_inv in E as (pred&w5&Hp&E).
  assert (Hw5 : w5 = mkWorld (set_finding_events (finding_events (w_db w3) ++
      [mkFindingEvent (uuid_at (w_draws w3)) (f_id f) Event_DISCOVERED actor t []]) (w_db w3))
      (w_committed w3) (S (w_draws w3)) (w_now w3)).
  { revert Hp. unfold sql_find_remediated_predecessor. destruct (_ || _); [by intros [= _ <-]|].
    unfold mbind, get_db, mret. by intros [= _ <-]. }
  clear Hp. assert (Hni : f_id f ∉ dom (findings (w_db w))) by (by apply not_elem_of_dom).
  destruct pred as [previous|].
  - apply mbind_inv in E as (u2&w6&Hl&E). unfold sql_link_releak, mbind, modify_db, with_db in Hl.
    injection Hl as _ <-. apply mbind_inv in E as (u3&w7&Hev&E).
    unfold sql_add_event, mbind, uuid4, modify_db, with_db in Hev. injection Hev as _ <-.
    injection E as <- <-. subst w5. cbn [w_db].
    set (d1 := set_finding_events (finding_events (w_db w3) ++ _) (w_db w3)).
    assert (Hk4 : tables_keyed d1) by exact Hk3.
    destruct (update_finding_grows d1 (f_id previous) (set_f_superseded_by_id (Some (f_id f))) Hk4)
      as (Hk5&Hg5&Hd5); [done|done|].
    destruct (update_finding_grows _ (f_id f) (set_f_severity Severity_HIGH) Hk5)
      as (Hk6&Hg6&Hd6); [done|done|].
    assert (Hg' : grows (w_db w3) (update_finding (f_id f) (set_f_severity Severity_HIGH)
      (update_finding (f_id previous) (set_f_superseded_by_id (Some (f_id f))) d1))).
    { etransitivity; [|exact Hg6]. etransitivity; [|exact Hg5]. exact (@reflexivity _ grows _ (w_db w3)). }
    split; [exact Hk6|]. split; [etransitivity; [exact Hgw|exact Hg']|].
    split; [exact (stored_grows _ _ _ _ _ Hg' Hs3)|]. exists (f_id f). split; [done|]. left.
    split; [done|]. split; [done|]. split; [done|]. split; [done|]. split.
    { etransitivity; [exact Hd6|]. etransitivity; [exact Hd5|]. exact Hdom. }
    eexists _, true. split; [cbn; by rewrite He3, <- app_assoc|]. split; [split; [done|by repeat constructor]|done].
  - injection E as <- <-. subst w5. cbn [w_db]. split; [exact Hk3|]. split; [exact Hgw|].
    split; [exact Hs3|]. exists (f_id f). split; [done|]. left.
    split; [done|]. split; [done|]. split; [done|]. split; [done|]. split; [exact Hdom|].
    eexists _, false. split; [cbn; by rewrite He3|]. split; [split; [done|by repeat constructor]|]. cbn. lia.
Qed.

Lemma ingest_record_stored settings subject actor t acc record w :
  tables_keyed (w_db w) -> stored settings subject record (w_db w) ->
  exists acc' w', ingest_record settings subject actor t acc record w = (Ok acc', w').
Proof using Type.
  intros Hk [Hs (src0&t0&w0&draft0&w0'&Hb0&Hfp)].
  destruct (resolve_source_total _ _ Hs) as (src&w1&Hsrc).
  destruct (resolve_source_spec _ _ _ _ Hk Hsrc) as (_&Hg1&_).
  destruct (build_draft_again _ _ _ _ _ _ _ _ _ Hb0) as [_ Hag].
  destruct (Hag src t w1) as (draft&w2&Hb&Hfp2&Hdb).
  destruct (upsert_known_total draft w2) as (f&w3&Hu).
  { rewrite Hdb, Hfp2. by eapply grows_fingerprint. }
  eexists _, w3. unfold ingest_record. cbn [resolve_source upsert_finding SQLAlchemyIngestRepository].
  unfold mbind. rewrite Hsrc, Hb, Hu. reflexivity.
Qed.

End IngestLemmas.

Section Properties.
Context `{Unicode} `{Aead} `{Entropy} `{HeapOrder}.
#[local] Existing Instance SQLAlchemyIngestRepository.

Definition events_of (kind : FindingEventType) (evs : list FindingEvent) : nat :=
  length (List.filter (fun e => bool_decide (fe_event e = kind)) evs).

(** The bookkeeping of a run that started in [d0]. *)
Definition accounted (d0 : Db) (s : IngestSummary) (d : Db) : Prop :=
  tables_keyed d /\ grows d0 d /\ NoDup (is_new_finding_ids s) /\
  (forall id, id ∈ is_new_finding_ids s -> id ∉ dom (findings d0)) /\
  dom (findings d) = list_to_set (is_new_finding_ids s) ∪ dom (findings d0) /\
  is_new_count s = Z.of_nat (length (is_new_finding_ids s)) /\
  exists evs, finding_events d = finding_events d0 ++ evs /\
    map fe_finding_id (List.filter (fun e => bool_decide (fe_event e = Event_DISCOVERED)) evs)
      = is_new_finding_ids s /\
    is_re_leaked_count s = Z.of_nat (events_of Event_RE_LEAKED evs) /\
    Forall (fun e => fe_event e = Event_DISCOVERED \/ fe_event e = Event_RE_LEAKED) evs.

Lemma accounted_step settings subject actor t d0 s record w s' w' :
  accounted d0 s (w_db w) -> ingest_record settings subject actor t s record w = (Ok s', w') ->
  accounted d0 s' (w_db w') /\ length (is_findings s') = S (length (is_findings s)).
Proof using Type.
  intros (Hk&Hg&Hnd&Hout&Hdom&Hcnt&evs&Hev&Hdisc&Hre&Hall) Hr.
  destruct (ingest_record_spec _ _ _ _ _ _ _ _ _ Hk Hr) as (Hk'&Hg'&_&id&Hfs&Hcase).
  split; [|rewrite Hfs, length_app; simpl; lia]. split; [done|]. split; [by etransitivity|].
  destruct Hcase as [(_&Hid&Hids&Hc&Hd&evs'&linked&He&[Hevs Hfid]&Hrl)|(->&->&->&->&->)].
  2:{ repeat (split; [done|]). by exists evs. }
  rewrite Hdom in Hid. apply not_elem_of_union in Hid as [Hid1 Hid2].
  rewrite not_elem_of_list_to_set in Hid1. rewrite Hids, Hc, Hd, Hrl. split.
  { apply NoDup_app. split; [done|]. split; [|apply NoDup_singleton].
    intros x Hx ->%list_elem_of_singleton. done. }
  split. { intros x [Hx| ->%list_elem_of_singleton]%elem_of_app; [by apply Hout|done]. }
  split. { rewrite Hdom, list_to_set_app_L. cbn. rewrite (right_id_L ∅ (∪)).
    by rewrite (assoc_L (∪)), (comm_L (∪) {[id]}). }
  split. { rewrite length_app, Hcnt. simpl. lia. }
  exists (evs ++ evs'). split; [by rewrite He, Hev, <- app_assoc|].
  assert (Hshape : exists e1 rest, evs' = e1 :: rest /\ fe_event e1 = Event_DISCOVERED /\
    fe_finding_id e1 = id /\ map fe_event rest = if linked then [Event_RE_LEAKED] else []).
  { destruct evs' as [|e1 rest]; [done|]. injection Hevs as Hd1 Hrest. apply Forall_cons in Hfid as [? _].
    by exists e1, rest. }
  destruct Hshape as (e1&rest&->&Hd1&Hi1&Hrest). unfold events_of in *.
  rewrite !List.filter_app, map_app, length_app. cbn [List.filter]. rewrite Hd1.
  change (bool_decide (Event_DISCOVERED = Event_DISCOVERED)) with true.
  change (bool_decide (Event_DISCOVERED = Event_RE_LEAKED)) with false.
  destruct linked.
  - destruct rest as [|e2 [|]]; try done. injection Hrest as He2. cbn [List.filter]. rewrite He2.
    change (bool_decide (Event_RE_LEAKED = Event_DISCOVERED)) with false.
    change (bool_decide (Event_RE_LEAKED = Event_RE_LEAKED)) with true. cbn [map length].
    rewrite Hdisc, Hi1, Hre. split; [done|]. split; [lia|].
    apply Forall_app. split; [done|]. constructor; [by left|]. constructor; [by right|constructor].
  - destruct rest; [|done]. cbn [List.filter map length]. rewrite Hdisc, Hi1, Hre. split; [done|]. split; [lia|].
    apply Forall_app. split; [done|]. constructor; [by left|constructor].
Qed.

Lemma accounted_start d : tables_keyed d -> accounted d (mkIngestSummary [] 0 0 []) d.
Proof using Type.
  intros Hk. split; [done|]. split; [reflexivity|]. split; [constructor|].
  split; [intros x Hx; by apply not_elem_of_nil in Hx|]. split; [cbn; by rewrite (left_id_L ∅ (∪))|].
  split; [done|]. exists []. by rewrite app_nil_r.
Qed.

Lemma ingest_loop_grows settings subject actor t l s w s' w' :
  tables_keyed (w_db w) -> mfold (ingest_record settings subject actor t) s l w = (Ok s', w') ->
  tables_keyed (w_db w') /\ grows (w_db w) (w_db w').
Proof using Type.
  intros Hk. apply (mfold_inv _ (fun _ w' => tables_keyed (w_db w') /\ grows (w_db w) (w_db w'))).
  - intros x s1 w1 s2 w2 _ [Hk1 Hg1] Hr.
    destruct (ingest_record_spec _ _ _ _ _ _ _ _ _ Hk1 Hr) as (Hk2&Hg2&_). split; [done|by etransitivity].
  - by split.
Qed.

Lemma ingest_loop settings subject actor t l s d0 w s' w' :
  accounted d0 s (w_db w) ->
  mfold (ingest_record settings subject actor t) s l w = (Ok s', w') ->
  accounted d0 s' (w_db w') /\ length (is_findings s') = (length (is_findings s) + length l)%nat /\
  Forall (fun r => stored settings subject r (w_db w')) l.
Proof using Type.
  revert s w. induction l as [|r l IH]; intros s w Ha; cbn [mfold].
  { intros [= <- <-]. split; [done|]. split; [simpl; lia|constructor]. }
  intros (s1&w1&Hr&Hrest)%mbind_inv. destruct (accounted_step _ _ _ _ _ _ _ _ _ _ Ha Hr) as [Ha1 Hl1].
  destruct (IH s1 w1 Ha1 Hrest) as (Ha'&Hl'&Hst). split; [done|]. split; [simpl; lia|].
  constructor; [|done]. destruct (ingest_record_spec _ _ _ _ _ _ _ _ _ (proj1 Ha) Hr) as (Hk1&_&Hs1&_).
  destruct (ingest_loop_grows _ _ _ _ _ _ _ _ _ Hk1 Hrest) as [_ Hg].
  by eapply stored_grows.
Qed.

(** C1: ingestion is idempotent: running the same records for the same subject again, later, by
    anyone, always succeeds, creates no finding, appends no event, links no re-leak, and reports
    zero new findings, even though every password is encrypted afresh. *)
Theorem ingest_again settings subject records actor now s1 w w1 actor2 now2 t2 :
  tables_keyed (w_db w) ->
  ingest_records settings subject records actor now w = (Ok s1, w1) ->
  utc_now (w_now w1) now2 = Ok t2 ->
  exists s2 w2, ingest_records settings subject records actor2 now2 w1 = (Ok s2, w2) /\
    is_new_count s2 = 0 /\ is_new_finding_ids s2 = [] /\ is_re_leaked_count s2 = 0 /\
    length (is_findings s2) = length records /\
    finding_events (w_db w2) = finding_events (w_db w1) /\
    dom (findings (w_db w2)) = dom (findings (w_db w1)).
Proof using Type.
  intros Hk Hrun Ht2. apply mbind_inv in Hrun as (t&w0&Ht&Hrun). injection Ht as Ht <-.
  destruct (ingest_loop _ _ _ _ _ _ _ _ _ _ (accounted_start _ Hk) Hrun) as (Ha&_&Hst).
  pose (I := fun (l : list LeakRecord) (s : IngestSummary) (w : World) =>
    tables_keyed (w_db w) /\ Forall (fun r => stored settings subject r (w_db w)) l /\
    is_new_count s = 0 /\ is_new_finding_ids s = [] /\ is_re_leaked_count s = 0 /\
    (length (is_findings s) + length l = length records)%nat /\
    finding_events (w_db w) = finding_events (w_db w1) /\
    dom (findings (w_db w)) = dom (findings (w_db w1))).
  destruct (mfold_total (ingest_record settings subject actor2 t2) I records
    (mkIngestSummary [] 0 0 []) w1) as (s2&w2&Hloop&(_&_&Hc&Hi&Hrl&Hl&He&Hd)).
  - intros r l s w2 (Hk2&Hall&Hc&Hi&Hrl&Hl&He&Hd). apply Forall_cons in Hall as [Hr Hall].
    destruct (ingest_record_stored settings subject actor2 t2 s r w2 Hk2 Hr) as (s3&w3&Hrec).
    exists s3, w3. split; [done|].
    destruct (ingest_record_spec _ _ _ _ _ _ _ _ _ Hk2 Hrec) as (Hk3&Hg3&_&id&Hfs&Hcase).
    destruct Hcase as [(Hno&_)|(Hids&Hcn&Hrc&Hdm&Hev)]; [done|].
    split; [done|]. split. { eapply Forall_impl; [exact Hall|]. intros x Hx. by eapply stored_grows. }
    split; [congruence|]. split; [congruence|]. split; [congruence|].
    split; [rewrite Hfs, length_app; simpl in *; lia|]. split; congruence.
  - split; [apply Ha|]. by repeat (split; [done|]).
  - exists s2, w2. split; [|repeat (split; [done|]); split; [simpl in Hl; lia|done]].
    unfold ingest_records, mbind, utc_now_m. by rewrite Ht2.
Qed.

(** the summary of a run tells the truth: the new identifiers are exactly the rows that were not
    there before, without repetition and even when the page repeats a record; each has one
    DISCOVERED event, in order; the re-leak count is the number of RE_LEAKED events; nothing else is
    appended, nothing is removed, and every record has its row. *)
Theorem ingest_summary_exact settings subject records actor now s w w' :
  tables_keyed (w_db w) -> ingest_records settings subject records actor now w = (Ok s, w') ->
  accounted (w_db w) s (w_db w') /\ length (is_findings s) = length records /\
  Forall (fun r => stored settings subject r (w_db w')) records.
Proof using Type.
  intros Hk Hrun. apply mbind_inv in Hrun as (t&w0&Ht&Hrun). injection Ht as Ht <-.
  destruct (ingest_loop _ _ _ _ _ _ _ _ _ _ (accounted_start _ Hk) Hrun) as (Ha&Hl&Hst). done.
Qed.

(** two findings have the same fingerprint only if the subject's kind and value, the source's
    name and date, the three normalised identities and the password digest all agree, unless two
    different byte strings with the same SHA-256 digest are exhibited. *)
Theorem fingerprint_identifies subject source e u p pw subject' source' e' u' p' pw' fp parts parts' :
  fingerprint_parts subject source e u p pw = Ok parts ->
  fingerprint_parts subject' source' e' u' p' pw' = Ok parts' ->
  finding_fingerprint subject source e u p pw = Ok fp ->
  finding_fingerprint subject' source' e' u' p' pw' = Ok fp ->
  (su_value_norm subject = su_value_norm subject' /\
   SubjectKind_value (su_kind subject) = SubjectKind_value (su_kind subject') /\
   si_name_norm source = si_name_norm source' /\
   date_isoformat (si_breach_date_norm source) = date_isoformat (si_breach_date_norm source') /\
   e = e' /\ u = u' /\ p = p' /\ List.last parts [] = List.last parts' []) \/
  exists x y, x <> y /\ sha256 x = sha256 y.
Proof using Type.
  intros Hp Hp'. unfold finding_fingerprint. rewrite Hp, Hp'. cbn [rbind].
  intros (d&Hd&[= Hs])%rbind_Ok (d'&Hd'&[= Hs'])%rbind_Ok.
  destruct (decide (d = d')) as [<-|Hne]; [left|right; exists d, d'; split; [done|congruence]].
  revert Hp Hp'. unfold fingerprint_parts.
  intros (ts&Hts&[= <-])%rbind_Ok (ts'&Hts'&[= <-])%rbind_Ok.
  assert (Heq : ts ++ [match pw with None | Some [] => ZERO_PASSWORD_HASH | Some h => h end]
    = ts' ++ [match pw' with None | Some [] => ZERO_PASSWORD_HASH | Some h => h end]).
  { eapply framed_all_inj; [exact Hd|exact Hd'|]. rewrite !length_app.
    apply rmap_length in Hts as ->. by apply rmap_length in Hts' as ->. }
  assert (ts = ts') as <-.
  { apply app_inj_length in Heq as [? _]; [done|]. apply rmap_length in Hts as ->.
    by apply rmap_length in Hts' as ->. }
  rewrite Heq. apply rmap_Forall2 in Hts, Hts'.
  repeat match goal with
  | H : Forall2 _ (_ :: _) _ |- _ => apply Forall2_cons_inv_l in H as (?&?&?&?&?)
  | H : Forall2 _ [] _ |- _ => apply Forall2_nil_inv_l in H
  end. simplify_eq.
  repeat split; by eapply utf8_encode_inj.
Qed.

(** C17: no key that case-folds to "password" survives sanitising, at any depth of nested objects and
    lists; a record without such keys is stored unchanged. *)
Theorem sanitized_raw_drops_passwords (raw : list (pystr * json)) :
  secret_free (JDict (sanitized_raw raw)) = true /\
  (secret_free (JDict raw) = true -> sanitized_raw raw = raw).
Proof using Type.
  assert (Hd : sanitize_value (JDict raw) = JDict (sanitized_raw raw)) by done.
  split; [rewrite <- Hd; apply sanitize_secret_free|].
  intros Hs%sanitize_fixed. rewrite Hd in Hs. by injection Hs.
Qed.

(** a new finding is linked to exactly the predecessor the query describes: a remediated finding
    of the same subject, identity and source with a different password that nothing supersedes yet,
    the most recently remediated of them; there is no link when the source is unknown, the record
    has no identity, or no such finding exists. *)
Theorem predecessor_is_latest `{!HeapOrderLaws} finding source w o w' :
  sql_find_remediated_predecessor finding source w = (Ok o, w') ->
  w' = w /\
  match o with
  | Some p =>
      is_predecessor (w_db w) finding source p = true /\
      (exists k, findings (w_db w) !! k = Some p) /\
      forall k f, findings (w_db w) !! k = Some f -> is_predecessor (w_db w) finding source f = true ->
        default 0 (f_remediated_at f) <= default 0 (f_remediated_at p)
  | None => si_name_norm source = casefold UNKNOWN_SOURCE \/ f_identity_key finding = None \/
      forall k f, findings (w_db w) !! k = Some f -> is_predecessor (w_db w) finding source f = false
  end.
Proof using Type.
  unfold sql_find_remediated_predecessor. destruct (_ || _) eqn:E.
  { intros [= <- <-]. split; [done|]. apply orb_true_iff in E as [E|E]; apply bool_decide_eq_true in E; auto. }
  unfold mbind, get_db, mret. intros [= <- <-]. split; [done|].
  destruct (sort_by _ _) as [|p t] eqn:Es; cbn [head].
  - right; right. apply select_nil. apply Permutation_nil_r. rewrite <- Es. symmetry. apply sort_by_perm.
  - apply sort_by_head in Es as [Hin Hall].
    + apply elem_of_select in Hin as [Hp Hk]. split; [done|]. split; [done|]. intros k f Hf Hpf.
      rewrite Forall_forall in Hall. specialize (Hall f). unfold remediated_desc in Hall.
      apply Z.leb_le, Hall, elem_of_select. eauto.
    + intros a b. unfold remediated_desc. destruct (Z.le_ge_cases (default 0 (f_remediated_at a)) (default 0 (f_remediated_at b)));
        [right|left]; by apply Z.leb_le.
    + unfold remediated_desc. intros a b c Hab%Z.leb_le Hbc%Z.leb_le. apply Z.leb_le. lia.
Qed.

End Properties.

(** ** A page for evaluation: the same exposure twice and one without a password *)

Definition sample_subject : Subject :=
  mkSubject 40 Kind_EMAIL (py "ann@example.com") (py "ann@example.com") None None None.
Definition sample_source : VendorSource :=
  mkVendorSource (Some (py "Forum")) (Some (py "2020-05-01")) (Some false) None None.
Definition sample_record (password : option pystr) : LeakRecord :=
  mkLeakRecord (Some (py "Ann@Example.com")) None None None password [py "email"] sample_source
    [(py "email", JStr (py "Ann@Example.com")); (py "Password", JStr (py "x"))].
Definition sample_page : list LeakRecord :=
  [sample_record (Some (py "hunter22")); sample_record None; sample_record (Some (py "hunter22"))].
Definition ingest_world : World := mkWorld empty_db empty_db 0 1700000000000000.

Definition run_sample (w : World) : result IngestSummary * World :=
  @ingest_records ascii_unicode tagged_aead counting_entropy
    (@SQLAlchemyIngestRepository ascii_unicode counting_entropy plain_heap)
    sample_settings sample_subject sample_page (Some 9) None w.

Example sample_run :
  match (run_sample ingest_world).1 with Ok s => is_new_count s = 2 | Raise _ => False end.
Proof. vm_compute. reflexivity. Qed.

Lemma empty_tables_keyed : tables_keyed (w_db ingest_world).
Proof. split; intros k x Hx; cbn in Hx; by rewrite lookup_empty in Hx. Qed.

Lemma ingest_again_witness :
  exists s1 w1 s2 w2, run_sample ingest_world = (Ok s1, w1) /\ run_sample w1 = (Ok s2, w2) /\
    is_new_count s2 = 0 /\ is_new_finding_ids s2 = [].
Proof.
  assert (Hok : exists s, (run_sample ingest_world).1 = Ok s) by (eexists; vm_compute; reflexivity).
  destruct (run_sample ingest_world) as [r w1] eqn:E. destruct Hok as [s1 Hok]. cbn [fst] in Hok. subst r.
  destruct (@ingest_again ascii_unicode tagged_aead counting_entropy plain_heap sample_settings
    sample_subject sample_page (Some 9) None s1 ingest_world w1 (Some 9) None (w_now w1)
    empty_tables_keyed E eq_refl) as (s2&w2&Hr&Hc&Hi&_).
  exists s1, w1, s2, w2. split; [reflexivity|]. split; [exact Hr|]. split; [exact Hc|exact Hi].
Defined.

Lemma ingest_summary_exact_witness :
  exists s w', run_sample ingest_world = (Ok s, w') /\ length (is_findings s) = 3%nat.
Proof.
  assert (Hok : exists s, (run_sample ingest_world).1 = Ok s) by (eexists; vm_compute; reflexivity).
  destruct (run_sample ingest_world) as [r w'] eqn:E. destruct Hok as [s Hok]. cbn [fst] in Hok. subst r.
  exists s, w'. split; [reflexivity|].
  apply (@ingest_summary_exact ascii_unicode tagged_aead counting_entropy plain_heap sample_settings
    sample_subject sample_page (Some 9) None s ingest_world w' empty_tables_keyed E).
Defined.

Definition sample_identity : SourceIdentity := @normalize_source ascii_unicode sample_source.

Lemma fingerprint_identifies_witness :
  exists fp parts,
    finding_fingerprint sample_subject sample_identity (py "ann@example.com") [] [] None = Ok fp /\
    fingerprint_parts sample_subject sample_identity (py "ann@example.com") [] [] None = Ok parts /\
    ((su_value_norm sample_subject = su_value_norm sample_subject) \/ exists x y, x <> y /\ sha256 x = sha256 y).
Proof.
  eexists _, _. split; [vm_compute; reflexivity|]. split; [vm_compute; reflexivity|].
  edestruct (fingerprint_identifies sample_subject sample_identity (py "ann@example.com") [] [] None
    sample_subject sample_identity (py "ann@example.com") [] [] None) as [Hl|Hr];
    [vm_compute; reflexivity|vm_compute; reflexivity|vm_compute; reflexivity|vm_compute; reflexivity| |].
  - left. exact (proj1 Hl).
  - right. exact Hr.
Defined.

(** Two remediated findings of one identity and source; a third one arrives with another password. *)
Definition keyed_finding (id : uuid) (remediated : option instant) (sha : Z) : Finding :=
  mkFinding id 1 2 None None None None (Some (be_split 32 77)) None None (Some (be_split 32 sha)) None
    None None [] [] (be_split 32 id) Severity_MEDIUM 0 0 remediated None None None None.
Definition releak_world : World :=
  let w := world_with [keyed_finding 3 (Some 5) 1; keyed_finding 4 (Some 9) 2] in
  let row := mkBreachSource 2 (si_name sample_identity) (si_name_norm sample_identity) None UNKNOWN_DATE
               None None None [] in
  with_db (set_breach_sources {[2 := row]} (w_db w)) w.

Lemma predecessor_is_latest_witness :
  @sql_find_remediated_predecessor ascii_unicode plain_heap (keyed_finding 8 None 3) sample_identity releak_world
    = (Ok (Some (keyed_finding 4 (Some 9) 2)), releak_world) /\
  forall k f, findings (w_db releak_world) !! k = Some f ->
    is_predecessor (w_db releak_world) (keyed_finding 8 None 3) sample_identity f = true ->
    default 0 (f_remediated_at f) <= 9.
Proof.
  assert (E : @sql_find_remediated_predecessor ascii_unicode plain_heap (keyed_finding 8 None 3)
    sample_identity releak_world = (Ok (Some (keyed_finding 4 (Some 9) 2)), releak_world))
    by (vm_compute; reflexivity).
  split; [exact E|].
  exact (proj2 (proj2 (proj2 (@predecessor_is_latest ascii_unicode plain_heap
    (Build_HeapOrderLaws plain_heap (fun A l => reflexivity l)) (keyed_finding 8 None 3) sample_identity
    releak_world (Some (keyed_finding 4 (Some 9) 2)) releak_world E)))).
Defined.
