(* ===== verification/Notifications.v ===== *)
(** Notifications (app/notifications.py): the deduplicated outbox, delivery with dry-run and
    cooldown, the SMTP exchange, and the portal message. The SMTP server is an interface. *)
From S2P Require Import Prelude PyBase Encoding Hashes Json Config Models Store Aead PlatformSettings.

Definition TEMPLATE : pystr := py "new_findings".
Definition DIGEST_TEMPLATE : pystr := py "findings_digest".

Record MailMessage := mkMailMessage { mm_recipient : pystr; mm_subject : pystr; mm_body : pystr }.
Record SMTPConfig := mkSMTPConfig {
  smtp_host : pystr;
  smtp_port : Z;
  smtp_username : option pystr;
  smtp_password : option pystr;
  smtp_sender : pystr;
  smtp_security : pystr;
}.

(** The calls on the [smtplib] connection. *)
Inductive SmtpStep : Type :=
| Connect_tls (host : pystr) (port : Z)
| Connect_plain (host : pystr) (port : Z)
| Ehlo
| Starttls
| Login (username password : pystr)
| Send_message (sender : pystr) (message : MailMessage).

Class MailTransport := transmit : list SmtpStep -> result unit.

(** [SMTPMailSender._send_sync] *)
Definition smtp_steps (config : SMTPConfig) (message : MailMessage) : list SmtpStep :=
  [if bool_decide (smtp_security config = py "tls")
   then Connect_tls (smtp_host config) (smtp_port config)
   else Connect_plain (smtp_host config) (smtp_port config)]
  ++ (if bool_decide (smtp_security config = py "starttls") then [Ehlo; Starttls; Ehlo] else [])
  ++ match smtp_username config with
     | None | Some [] => []
     | Some username => [Login username (default [] (smtp_password config))]
     end
  ++ [Send_message (smtp_sender config) message].

Definition notification_dedupe_key (user_id : uuid) (template : pystr) (ids : list pystr) : result bytes :=
  try! template_ <- ascii_encode template;
  try! ids_ <- rmap ascii_encode ids;
  Ok (sha256 (py "leakcheck/notification/v1" ++ [0] ++ uuid_bytes user_id ++ template_ ++ concat ids_)).

Definition portal_body (base_url : pystr) : pystr :=
  py "LeakCheck Hub has security information requiring your review." ++ [10; 10]
  ++ py "Sign in to review and remediate it: " ++ base_url ++ py "/portal" ++ [10; 10]
  ++ py "For your protection, exposure details are available only after sign-in.".

Definition render_portal_message (recipient base_url : pystr) : MailMessage :=
  mkMailMessage recipient (py "LeakCheck Hub: security action available") (portal_body base_url).

Section Notifications.
Context `{Unicode} `{Aead} `{Entropy} `{HeapOrder} `{MailTransport}.

(** ** Queueing *)

Definition sorted_ids (finding_ids : list uuid) : list pystr :=
  sort_by str_leb (remove_dups (map uuid_str finding_ids)).

Definition same_key (key : bytes) (n : Notification) : bool := bool_decide (n_dedupe_key n = key).

Definition enqueue_notification (user_id : uuid) (finding_ids : list uuid) (template : pystr) : M unit :=
  match sorted_ids finding_ids with
  | [] => mret tt
  | ids =>
      let! id <- uuid4;
      let! key <- lift (notification_dedupe_key user_id template ids);
      let! d <- get_db;
      let! now <- clock;
      match find_row (same_key key) (notifications d) with
      | Some _ => mret tt
      | None =>
          let n := mkNotification id user_id template ids Notification_PENDING key 0 None now None in
          let! t <- lift (insert_row (Notification_ok n) id n (notifications d));
          modify_db (set_notifications t)
      end
  end.

Definition enqueue_new_findings (subject : Subject) (finding_ids : list uuid) : M unit :=
  match su_linked_user_id subject, finding_ids with
  | Some user_id, _ :: _ => enqueue_notification user_id finding_ids TEMPLATE
  | _, _ => mret tt
  end.

(** The open findings of a user's subjects, by identifier. *)
Definition open_findings_of (d : Db) (user_id : uuid) : list uuid :=
  sort_by Z.leb (map f_id (select (fun f =>
    bool_decide (f_remediated_at f = None)
    && match subjects d !! f_subject_id f with
       | Some s => bool_decide (su_linked_user_id s = Some user_id)
       | None => false
       end) (findings d))).

(** The joined rows ordered by user and finding, grouped by user. *)
Definition digest_groups (d : Db) : list (uuid * list uuid) :=
  List.filter (fun g => negb (bool_decide (g.2 = [])))
    (map (fun u => (u, open_findings_of d u))
       (sort_by Z.leb (map u_id (select u_is_active (users d))))).

Definition enqueue_digest_notifications (now : option instant) : M Z :=
  let! wall <- clock;
  let digest_template := DIGEST_TEMPLATE ++ [58] ++ date_isoformat (date_of_instant (default wall now)) in
  let! d <- get_db;
  let grouped := digest_groups d in
  let! _ <- mfor (fun g => enqueue_notification g.1 g.2 digest_template) grouped;
  mret (Z.of_nat (length grouped)).

(** ** Settings *)

Definition bool_setting (value : option pystr) (default_ : bool) : result bool :=
  match value with
  | None => Ok default_
  | Some v =>
      if bool_decide (casefold v ∈ [py "true"; py "1"; py "yes"; py "on"]) then Ok true
      else if bool_decide (casefold v ∈ [py "false"; py "0"; py "no"; py "off"]) then Ok false
      else Raise PlatformSettingError
  end.

Definition int_setting (value : option pystr) (default_ : Z) : result Z :=
  try! parsed <- match value with None => Ok default_ | Some v => py_int v end;
  if (0 <=? parsed) && (parsed <=? 30 * 24 * 60 * 60) then Ok parsed else Raise PlatformSettingError.

Definition smtp_config (values : SettingValues) : result SMTPConfig :=
  let parsed :=
    try! host <- of_option (values_get SMTP_HOST values) KeyError;
    try! port_text <- of_option (values_get SMTP_PORT values) KeyError;
    try! port <- py_int port_text;
    try! sender <- of_option (values_get SMTP_FROM values) KeyError;
    Ok (host, port, sender, default (py "starttls") (values_get SMTP_SECURITY values)) in
  match parsed with
  | Raise e => if bool_decide (e = KeyError) || is_value_error e
               then Raise NotificationConfigurationError else Raise e
  | Ok (host, port, sender, security) =>
      if bool_decide (host = []) || bool_decide (sender = [])
         || negb (bool_decide (security ∈ [py "starttls"; py "tls"]))
         || negb ((1 <=? port) && (port <=? 65535))
      then Raise NotificationConfigurationError
      else Ok (mkSMTPConfig host port (values_get SMTP_USERNAME values)
                 (values_get SMTP_PASSWORD values) sender security)
  end.

Definition base_url_setting (values : SettingValues) : result pystr :=
  let value := rstrip_by (Z.eqb 47) (default [] (values_get PUBLIC_BASE_URL values)) in
  if startswith value (py "https://") then Ok value else Raise NotificationConfigurationError.

(** ** Delivery *)

(** The order of the outbox: creation, then identifier. *)
Definition created_then_id (a b : Notification) : bool :=
  (n_created_at a <? n_created_at b)
  || ((n_created_at a =? n_created_at b) && (n_id a <=? n_id b)).

Definition deliverable (d : Db) (n : Notification) : bool :=
  bool_decide (n_status n = Notification_PENDING) && bool_decide (is_Some (users d !! n_user_id n)).

Definition next_notification (d : Db) : option Notification :=
  head (sort_by created_then_id (select (deliverable d) (notifications d))).

Definition put_notification (n : Notification) : M unit :=
  modify_db (fun d => set_notifications (<[n_id n := n]> (notifications d)) d).

Definition recently_sent (user_id : uuid) (since : instant) (n : Notification) : bool :=
  bool_decide (n_user_id n = user_id) && bool_decide (n_status n = Notification_SENT)
  && match n_sent_at n with Some t => since <? t | None => false end.

(** [send] of the given sender, or of an [SMTPMailSender] for the stored configuration. *)
Definition send_mail (sender : option (MailMessage -> result unit)) (values : SettingValues)
    (recipient : pystr) : result unit :=
  try! base_url <- base_url_setting values;
  try! resolved <- match sender with
                   | Some send => Ok send
                   | None => try! config <- smtp_config values;
                             Ok (fun message => transmit (smtp_steps config message))
                   end;
  resolved (render_portal_message recipient base_url).

Definition deliver_next (store : PlatformSettingsStore) (sender : option (MailMessage -> result unit))
    (now : option instant) : M bool :=
  let! wall <- clock;
  let current := default wall now in
  let! d <- get_db;
  match next_notification d with
  | None => mret false
  | Some row =>
      match users d !! n_user_id row with
      | None => mret false
      | Some user =>
          let notification := set_n_attempts (n_attempts row + 1) row in
          do! put_notification notification;
          let! values <- read_many store all_setting_keys;
          let! dry_run <- lift (bool_setting (values_get NOTIFY_DRY_RUN values) true);
          if dry_run then
            do! put_notification (set_n_status Notification_DRY_RUN notification);
            do! commit; mret true
          else
            let! cooldown <- lift (int_setting (values_get NOTIFY_COOLDOWN_SECONDS values) 86400);
            let! d <- get_db;
            let recent := select (recently_sent (u_id user) (current - timedelta_seconds cooldown))
                            (notifications d) in
            if negb (cooldown =? 0) && (0 <? length recent)%nat then
              do! put_notification (set_n_error (Some (py "notification cooldown active"))
                                      (set_n_status Notification_SUPPRESSED notification));
              do! commit; mret true
            else
              let! notification <- lift (
                match send_mail sender values (u_email user) with
                | Raise e =>
                    if is_exception e
                    then Ok (set_n_error (Some (exn_name e)) (set_n_status Notification_FAILED notification))
                    else Raise e
                | Ok _ => Ok (set_n_error None (set_n_sent_at (Some current)
                                (set_n_status Notification_SENT notification)))
                end);
              do! put_notification notification;
              do! commit; mret true
      end
  end.

End Notifications.

(** ** Lemmas *)

Section NotificationLemmas.
Context `{Unicode} `{Aead} `{Entropy} `{HeapOrderLaws} `{MailTransport}.

Definition notifications_keyed (d : Db) : Prop :=
  forall k n, notifications d !! k = Some n -> n_id n = k.

(** Queueing only adds: what [P] allows, pending and unattempted. *)
Definition notified_only (P : uuid -> pystr -> list pystr -> Prop) (d d' : Db) : Prop :=
  (forall k n, notifications d !! k = Some n -> notifications d' !! k = Some n) /\
  (forall k n, notifications d' !! k = Some n -> notifications d !! k = Some n \/
     (P (n_user_id n) (n_template n) (n_finding_ids n) /\ n_status n = Notification_PENDING /\ n_attempts n = 0)).
Definition has_notification (user_id : uuid) (finding_ids : list uuid) (template : pystr) (d : Db) : Prop :=
  exists key k n, notification_dedupe_key user_id template (sorted_ids finding_ids) = Ok key /\
    notifications d !! k = Some n /\ n_dedupe_key n = key.

Lemma sorted_ids_nil ids : sorted_ids ids = [] <-> ids = [].
Proof using Type.
  split; [|by intros ->]. destruct ids as [|i ids]; [done|]. intros E. exfalso.
  assert (Hin : uuid_str i ∈ sorted_ids (i :: ids)).
  { unfold sorted_ids. rewrite (sort_by_perm str_leb). apply elem_of_remove_dups. left. }
  rewrite E in Hin. by apply elem_of_nil in Hin.
Qed.

Lemma notified_only_refl P d : notified_only P d d.
Proof using Type. split; [done|by left]. Qed.
Lemma notified_only_trans (P Q R : uuid -> pystr -> list pystr -> Prop) d1 d2 d3 :
  (forall u t l, P u t l \/ Q u t l -> R u t l) -> notified_only P d1 d2 -> notified_only Q d2 d3 -> notified_only R d1 d3.
Proof using Type.
  intros HR [Hk1 Hn1] [Hk2 Hn2]. split; [auto|]. intros k n [Hn|[Hq Hs]]%Hn2; [|right; auto].
  apply Hn1 in Hn as [Hn|[Hp Hs]]; [by left|right; auto].
Qed.

Lemma enqueue_notification_spec user_id ids template w w' : ids <> [] ->
  enqueue_notification user_id ids template w = (Ok tt, w') ->
  notified_only (fun u t l => u = user_id /\ t = template /\ l = sorted_ids ids) (w_db w) (w_db w') /\
  has_notification user_id ids template (w_db w').
Proof using Type.
  intros Hids. unfold enqueue_notification, has_notification. pose proof (proj1 (sorted_ids_nil ids)) as Hnil.
  destruct (sorted_ids ids) as [|i l] eqn:Es; [by rewrite Hnil in Hids|].
  unfold mbind, uuid4, lift, get_db, clock. destruct (notification_dedupe_key user_id template (i :: l)) as [key|e] eqn:Ek; [|done].
  cbn [w_db w_now]. split_find n0 Ef.
  - intros [= <-]. cbn. apply find_row_Some in Ef as [Hkey [k Hn]]. unfold same_key in Hkey. apply bool_decide_eq_true in Hkey.
    split; [apply notified_only_refl|]. by exists key, k, n0.
  - split_insert t Ei; [|done]. apply insert_row_inv in Ei as (_&Hnew&->). unfold modify_db, with_db. intros [= <-]. cbn.
    split; [split|].
    + intros k n Hn. cbn. rewrite lookup_insert_ne; [done|]. intros Heq. congruence.
    + intros k n Hn. cbn in Hn. apply lookup_insert_Some in Hn as [[<- <-]|[_ Hn]]; [by right|by left].
    + eexists key, _, _. split; [done|]. split; [apply lookup_insert_eq|done].
Qed.

Lemma enqueue_groups template groups w ys w' :
  (forall g, g ∈ groups -> g.2 <> []) -> mfor (fun g => enqueue_notification g.1 g.2 template) groups w = (Ok ys, w') ->
  notified_only (fun u t l => exists g, g ∈ groups /\ u = g.1 /\ t = template /\ l = sorted_ids g.2) (w_db w) (w_db w') /\
  (forall g, g ∈ groups -> has_notification g.1 g.2 template (w_db w')).
Proof using Type.
  revert w ys. induction groups as [|g groups IH]; intros w ys Hne; cbn [mfor].
  - intros [= <- <-]. split; [apply notified_only_refl|]. intros g Hg. by apply elem_of_nil in Hg.
  - intros ([]&w1&E1&(ys1&w2&E2&E3)%mbind_inv)%mbind_inv. injection E3 as <- <-.
    apply enqueue_notification_spec in E1 as [Hq Hh]; [|apply Hne; left].
    destruct (IH w1 ys1) as [Hq' Hh']; [intros g' Hg'; apply Hne; by right|done|]. split.
    + eapply notified_only_trans; [|exact Hq|exact Hq']. intros u t l [(->&->&->)|(g'&Hg'&Hr)]; [exists g|exists g'];
        (split; [|done]); [left|by right].
    + intros g' [->|Hg']%elem_of_cons; [|by apply Hh']. destruct Hh as (key&k&n&Hkey&Hn&Hd).
      exists key, k, n. split; [done|]. split; [|done]. by apply (proj1 Hq').
Qed.

(** The keys of the messages are made of ASCII text. *)
Lemma str_nat_ascii n : Forall (fun c => is_ascii c = true) (str_nat n).
Proof using Type.
  unfold str_nat. assert (Hgen : forall fuel k acc, Forall (fun c => is_ascii c = true) acc ->
    Forall (fun c => is_ascii c = true) (digits_of fuel k acc)); [|apply Hgen; constructor].
  induction fuel as [|fuel IH]; intros k acc Hacc; cbn [digits_of]; [done|].
  assert (Hd : is_ascii (48 + k mod 10) = true) by (pose proof (Z.mod_pos_bound k 10); unfold is_ascii; lia).
  destruct (k <? 10); [by constructor|]. apply IH. by constructor.
Qed.

Lemma zfill_ascii width s : Forall (fun c => is_ascii c = true) s -> Forall (fun c => is_ascii c = true) (zfill width s).
Proof using Type. intros Hs. apply Forall_app. split; [by apply Forall_replicate|done]. Qed.

Ltac ascii_text := repeat lazymatch goal with
  | |- Forall _ (_ ++ _) => apply Forall_app; split
  | |- Forall _ (take _ _) => apply Forall_take
  | |- Forall _ (drop _ _) => apply Forall_drop
  | |- Forall _ (_ :: _) => apply Forall_cons; split; [reflexivity|]
  | |- Forall _ [] => constructor
  | |- Forall _ DIGEST_TEMPLATE => by apply (bool_decide_unpack _); vm_compute
  end.

Lemma uuid_str_ascii u : isascii (uuid_str u) = true.
Proof using Type.
  assert (Hh : Forall (fun c => is_ascii c = true) (hex (uuid_bytes u))).
  { unfold hex, uuid_bytes. pose proof (be_split_range 16 u) as Hr. induction Hr as [|x b Hx _ IH]; [constructor|].
    assert (Hd : forall d, 0 <= d < 16 -> is_ascii (hex_digit d) = true).
    { intros d Hd. unfold is_ascii, hex_digit. destruct (d <? 10) eqn:E; lia. }
    cbn [flat_map]. do 2 (constructor; [apply Hd; Z.div_mod_to_equations; lia|]). exact IH. }
  apply isascii_Forall. unfold uuid_str. cbv zeta. ascii_text; exact Hh.
Qed.

Definition digest_template (tick : instant) : pystr :=
  DIGEST_TEMPLATE ++ [58] ++ date_isoformat (date_of_instant tick).

Lemma digest_template_ascii tick : isascii (digest_template tick) = true.
Proof using Type.
  apply isascii_Forall. unfold digest_template, date_isoformat. ascii_text; apply zfill_ascii, str_nat_ascii.
Qed.

Lemma rmap_ascii l : Forall (fun s => isascii s = true) l -> rmap ascii_encode l = Ok l.
Proof using Type.
  induction 1 as [|s l Hs _ IH]; [done|]. cbn [rmap]. unfold ascii_encode at 1. rewrite Hs. cbn [rbind]. by rewrite IH.
Qed.

(** The digest raises no [ValueError]. *)
Lemma digest_raises now : raises (fun e => is_value_error e = false) (enqueue_digest_notifications now).
Proof using Type.
  unfold enqueue_digest_notifications. apply raises_bind; [apply raises_clock|intros wall]. cbv zeta.
  apply raises_bind; [apply raises_get_db|intros d]. apply raises_bind; [|intros ?; apply raises_mret].
  apply raises_mfor. intros g. unfold enqueue_notification.
  assert (Hids : Forall (fun s => isascii s = true) (sorted_ids g.2)).
  { apply Forall_forall. intros s. unfold sorted_ids. rewrite (sort_by_perm str_leb), elem_of_remove_dups.
    intros (u&->&_)%list_elem_of_fmap. apply uuid_str_ascii. }
  destruct (sorted_ids g.2) as [|i l]; [apply raises_mret|].
  apply raises_bind; [apply raises_uuid4|intros id]. apply raises_bind; [|intros key; raises].
  apply raises_lift. unfold notification_dedupe_key. fold (digest_template (default wall now)). unfold ascii_encode at 1.
  rewrite digest_template_ascii. cbn [rbind]. rewrite rmap_ascii by done. apply fails_Ok.
Qed.

(** The tables that queueing a message leaves alone. *)
Definition not_messages (d : Db) :=
  (users d, findings d, subjects d, scans d, schedules d, scan_batches d, scan_queue d).

Lemma digest_keeps_rest now : keeps not_messages (enqueue_digest_notifications now).
Proof using Type. unfold enqueue_digest_notifications, enqueue_notification. frame. Qed.

Lemma digest_spec now w n w' :
  enqueue_digest_notifications now w = (Ok n, w') ->
  not_messages (w_db w') = not_messages (w_db w) /\ notifications (w_db w) ⊆ notifications (w_db w') /\
  forall g, g ∈ digest_groups (w_db w) -> has_notification g.1 g.2 (digest_template (default (w_now w) now)) (w_db w').
Proof using Type.
  intros E. pose proof (digest_keeps_rest now w) as [Hk _]. rewrite E in Hk. split; [exact Hk|].
  unfold enqueue_digest_notifications in E. unfold mbind at 1, clock in E. unfold mbind at 1, get_db in E. cbn [w_db w_now] in E.
  apply mbind_inv in E as (ys&w1&E&E2). injection E2 as _ <-.
  apply enqueue_groups in E as [Hq Hh].
  - split; [|exact Hh]. apply map_subseteq_spec. intros k m Hm. by apply (proj1 Hq).
  - intros g Hg. apply list_elem_of_In, filter_In in Hg as [_ Hg]. by apply negb_true_iff, bool_decide_eq_false in Hg.
Qed.

Lemma next_notification_Some d n :
  next_notification d = Some n -> deliverable d n = true /\ exists k, notifications d !! k = Some n.
Proof using Type*.
  unfold next_notification. destruct (sort_by _ _) as [|x t] eqn:E; [done|]. intros [= ->].
  apply elem_of_select. rewrite <- (sort_by_perm created_then_id), E. left.
Qed.

(** What one delivery did: nothing, or one notification left PENDING for one of the final states. *)
Inductive delivered (d : Db) (cooldown : Z) (current : instant) : Notification -> Notification -> Prop :=
| delivered_dry_run n :
    delivered d cooldown current n (set_n_status Notification_DRY_RUN (set_n_attempts (n_attempts n + 1) n))
| delivered_suppressed n e :
    delivered d cooldown current n
      (set_n_error e (set_n_status Notification_SUPPRESSED (set_n_attempts (n_attempts n + 1) n)))
| delivered_failed n e :
    delivered d cooldown current n
      (set_n_error e (set_n_status Notification_FAILED (set_n_attempts (n_attempts n + 1) n)))
| delivered_sent n :
    (cooldown = 0 \/ forall k m, notifications d !! k = Some m -> k <> n_id n ->
       recently_sent (n_user_id n) (current - timedelta_seconds cooldown) m = false) ->
    delivered d cooldown current n
      (set_n_error None (set_n_sent_at (Some current)
         (set_n_status Notification_SENT (set_n_attempts (n_attempts n + 1) n)))).

Lemma deliver_next_spec store sender now w b w' :
  notifications_keyed (w_db w) -> (forall k u, users (w_db w) !! k = Some u -> u_id u = k) ->
  deliver_next store sender now w = (Ok b, w') ->
  (b = false /\ w' = w /\ next_notification (w_db w) = None) \/
  (b = true /\ exists n n' values dry_run cooldown,
     next_notification (w_db w) = Some n /\
     notifications (w_db w) !! n_id n = Some n /\ n_status n = Notification_PENDING /\
     (read_many store all_setting_keys w).1 = Ok values /\
     bool_setting (values_get NOTIFY_DRY_RUN values) true = Ok dry_run /\
     (dry_run = false -> int_setting (values_get NOTIFY_COOLDOWN_SECONDS values) 86400 = Ok cooldown) /\
     delivered (w_db w) cooldown (default (w_now w) now) n n' /\
     (n_status n' = Notification_DRY_RUN <-> dry_run = true) /\
     w_db w' = set_notifications (<[n_id n := n']> (notifications (w_db w))) (w_db w) /\
     w_committed w' = w_db w').
Proof using Type*.
  intros Hk Hu. unfold deliver_next, mbind at 1, clock. unfold mbind at 1, get_db.
  destruct (next_notification (w_db w)) as [n|] eqn:En; [|intros [= <- <-]; by left].
  destruct (next_notification_Some _ _ En) as [Hd [k Hn]]. pose proof (Hk _ _ Hn) as Hid. subst k.
  unfold deliverable in Hd. apply andb_true_iff in Hd as [Hst Huser].
  apply bool_decide_eq_true in Hst, Huser. destruct Huser as [user Huser]. rewrite Huser.
  pose proof (Hu _ _ Huser) as Huid. set (n1 := set_n_attempts (n_attempts n + 1) n).
  unfold mbind at 1, put_notification at 1, modify_db, with_db.
  set (w1 := mkWorld (set_notifications _ _) _ _ _).
  assert (Hread : (read_many store all_setting_keys w1).1 = (read_many store all_setting_keys w).1)
    by (by apply read_many_table).
  unfold mbind at 1. destruct (read_many store all_setting_keys w1) as [rv w2] eqn:Er.
  apply read_many_world in Er as ->. cbn [fst] in Hread. destruct rv as [values|]; [|done].
  unfold mbind at 1, lift at 1. destruct (bool_setting _ true) as [dry_run|] eqn:Ed; [|done].
  assert (Hput : forall x r wx,
    (do! put_notification x; do! commit; mret true) w1 = (r, wx) -> n_id x = n_id n ->
    r = Ok true /\ w_db wx = set_notifications (<[n_id n := x]> (notifications (w_db w))) (w_db w)
    /\ w_committed wx = w_db wx).
  { intros x r wx. unfold mbind, put_notification, modify_db, with_db, commit, mret. cbn.
    intros [= <- <-] Hx. cbn. rewrite Hx, insert_insert_eq. done. }
  destruct dry_run.
  { intros Hrun. destruct (Hput _ _ _ Hrun eq_refl) as ([= ->]&Hdb&Hc). right. split; [done|].
    exists n, (set_n_status Notification_DRY_RUN n1), values, true, 0. repeat split; try done.
    apply delivered_dry_run. }
  unfold mbind at 1, lift at 1. destruct (int_setting _ 86400) as [cooldown|] eqn:Ec; [|done].
  unfold mbind at 1, get_db. set (recent := select _ _). destruct (_ && _) eqn:Es.
  { intros Hrun. destruct (Hput _ _ _ Hrun eq_refl) as ([= ->]&Hdb&Hc). right. split; [done|].
    eexists n, _, values, false, cooldown. repeat split; try done; try (cbn; by intros). apply delivered_suppressed. }
  assert (Hrecent : cooldown = 0 \/ forall k m, notifications (w_db w) !! k = Some m -> k <> n_id n ->
    recently_sent (n_user_id n) (default (w_now w) now - timedelta_seconds cooldown) m = false).
  { apply andb_false_iff in Es as [E0|El].
    - left. apply negb_false_iff in E0. by apply Z.eqb_eq in E0.
    - right. intros k m Hm Hne. assert (Hnil : recent = []).
      { destruct recent; [done|]. cbn in El. done. }
      unfold recent in Hnil. rewrite select_nil in Hnil. rewrite <- Huid. apply (Hnil k).
      cbn. by rewrite lookup_insert_ne. }
  destruct (send_mail sender values (u_email user)) as [u|e]; unfold mbind at 1, lift at 1.
  - intros Hrun. destruct (Hput _ _ _ Hrun eq_refl) as ([= ->]&Hdb&Hc). right. split; [done|].
    eexists n, _, values, false, cooldown. repeat split; try done; try (cbn; by intros). by apply delivered_sent.
  - destruct (is_exception e); [|done]. intros Hrun. destruct (Hput _ _ _ Hrun eq_refl) as ([= ->]&Hdb&Hc). right. split; [done|].
    eexists n, _, values, false, cooldown. repeat split; try done; try (cbn; by intros). apply delivered_failed.
Qed.

(** With dry-run on, a delivery is this and nothing else. *)
Lemma deliver_dry_run store sender now w values :
  notifications_keyed (w_db w) ->
  (read_many store all_setting_keys w).1 = Ok values ->
  bool_setting (values_get NOTIFY_DRY_RUN values) true = Ok true ->
  deliver_next store sender now w =
    match next_notification (w_db w) with
    | None => (Ok false, w)
    | Some n =>
        let d := set_notifications (<[n_id n := set_n_status Notification_DRY_RUN
                   (set_n_attempts (n_attempts n + 1) n)]> (notifications (w_db w))) (w_db w) in
        (Ok true, mkWorld d d (w_draws w) (w_now w))
    end.
Proof using Type*.
  intros Hk Hv Hdry. unfold deliver_next, mbind at 1, clock. unfold mbind at 1, get_db.
  destruct (next_notification (w_db w)) as [n|] eqn:En; [|done].
  destruct (next_notification_Some _ _ En) as [Hd [k Hn]]. pose proof (Hk _ _ Hn) as Hid. subst k.
  unfold deliverable in Hd. apply andb_true_iff in Hd as [_ Huser]. apply bool_decide_eq_true in Huser.
  destruct Huser as [user ->]. unfold mbind at 1, put_notification at 1, modify_db, with_db.
  set (w1 := mkWorld _ _ _ _).
  assert (Hread : (read_many store all_setting_keys w1).1 = Ok values)
    by (rewrite <- Hv; by apply read_many_table).
  unfold mbind at 1. destruct (read_many store all_setting_keys w1) as [rv w2] eqn:Er.
  apply read_many_world in Er as ->. cbn [fst] in Hread. subst rv. unfold mbind at 1, lift.
  rewrite Hdry. unfold mbind, put_notification, modify_db, with_db, commit, mret. cbn.
  by rewrite insert_insert_eq.
Qed.

(** Two messages to one user are at least [cooldown] seconds apart. *)
Definition spaced (cooldown : Z) (d : Db) : Prop :=
  forall k1 k2 n1 n2 t1 t2, k1 <> k2 ->
    notifications d !! k1 = Some n1 -> notifications d !! k2 = Some n2 ->
    n_user_id n1 = n_user_id n2 -> n_status n1 = Notification_SENT -> n_status n2 = Notification_SENT ->
    n_sent_at n1 = Some t1 -> n_sent_at n2 = Some t2 ->
    timedelta_seconds cooldown <= Z.abs (t1 - t2).

End NotificationLemmas.

Section Properties.
Context `{Unicode} `{Aead} `{Entropy} `{HeapOrderLaws} `{MailTransport}.

(** under a cooldown of [c] seconds no user is ever sent two messages less than [c] seconds
    apart: each delivery keeps the spacing of all messages marked SENT, whatever the clock does. *)
Theorem deliveries_are_spaced store sender now w b w' values cooldown :
  notifications_keyed (w_db w) -> (forall k u, users (w_db w) !! k = Some u -> u_id u = k) ->
  (read_many store all_setting_keys w).1 = Ok values ->
  int_setting (values_get NOTIFY_COOLDOWN_SECONDS values) 86400 = Ok cooldown ->
  spaced cooldown (w_db w) -> deliver_next store sender now w = (Ok b, w') ->
  spaced cooldown (w_db w').
Proof using Type*.
  intros Hk Hu Hv Hc Hsp Hrun.
  destruct (deliver_next_spec _ _ _ _ _ _ Hk Hu Hrun) as [(_&->&_)|(_&n&n'&values'&dry&c&_&Hn&Hst&Hv'&_&Hc'&Hdel&Hdry&Hdb&_)];
    [done|].
  rewrite Hv in Hv'. injection Hv' as <-.
  assert (Hnew : n_status n' = Notification_SENT ->
    n_user_id n' = n_user_id n /\ n_sent_at n' = Some (default (w_now w) now) /\
    (cooldown = 0 \/ forall k m, notifications (w_db w) !! k = Some m -> k <> n_id n ->
      recently_sent (n_user_id n) (default (w_now w) now - timedelta_seconds cooldown) m = false)).
  { inversion Hdel; subst; try done. intros _. split; [done|]. split; [done|].
    destruct dry; [by destruct Hdry as [_ Hd]; specialize (Hd eq_refl)|].
    rewrite Hc in Hc'. specialize (Hc' eq_refl) as [= ->]. done. }
  assert (Hone : forall k m t1 t2, notifications (w_db w) !! k = Some m -> k <> n_id n ->
    n_user_id m = n_user_id n' -> n_status n' = Notification_SENT -> n_status m = Notification_SENT ->
    n_sent_at n' = Some t1 -> n_sent_at m = Some t2 -> timedelta_seconds cooldown <= Z.abs (t1 - t2)).
  { intros k m t1 t2 Hm Hne Huid Hs Hsm Ht1 Ht2. destruct (Hnew Hs) as (Hui&Hsent&[->|Hrec]).
    - unfold timedelta_seconds. lia.
    - specialize (Hrec k m Hm Hne). unfold recently_sent in Hrec. rewrite Ht2 in Hrec.
      rewrite bool_decide_eq_true_2 in Hrec by congruence. rewrite bool_decide_eq_true_2 in Hrec by done.
      cbn in Hrec. apply Z.ltb_ge in Hrec. assert (t1 = default (w_now w) now) by congruence. lia. }
  intros k1 k2 n1 n2 t1 t2 Hne Hl1 Hl2 Huid Hs1 Hs2 Ht1 Ht2. rewrite Hdb in Hl1, Hl2. cbn in Hl1, Hl2.
  apply lookup_insert_Some in Hl1 as [[<- <-]|[Hk1 Hl1]];
    apply lookup_insert_Some in Hl2 as [[<- <-]|[Hk2 Hl2]]; [done| | |].
  - by eapply (Hone k2 n2).
  - rewrite <- Z.abs_opp. replace (- (t1 - t2)) with (t2 - t1) by lia. by eapply (Hone k1 n1).
  - by eapply (Hsp k1 k2 n1 n2).
Qed.

(** while dry-run is on, which is the default, delivering never contacts a mail server: the
    outcome does not depend on the sender or the transport, and the message ends as DRY_RUN. *)
Theorem dry_run_never_sends store sender sender' now w values :
  notifications_keyed (w_db w) ->
  (read_many store all_setting_keys w).1 = Ok values ->
  bool_setting (values_get NOTIFY_DRY_RUN values) true = Ok true ->
  deliver_next store sender now w = deliver_next store sender' now w /\
  forall k n, notifications (w_db (deliver_next store sender now w).2) !! k = Some n ->
    n_status n = Notification_SENT -> notifications (w_db w) !! k = Some n.
Proof using Type*.
  intros Hk Hv Hdry. rewrite !(deliver_dry_run store _ now w values Hk Hv Hdry). split; [done|].
  destruct (next_notification (w_db w)) as [n0|]; [|done]. cbn.
  intros k n [[<- <-]|[_ Hm]]%lookup_insert_Some Hs; done.
Qed.

(** A stored configuration that is accepted never exposes the login or a message in clear: the
    connection is encrypted, by TLS from the start or by STARTTLS, before either is sent. *)
Theorem smtp_encrypts_before_login values config message before step after :
  smtp_config values = Ok config -> smtp_steps config message = before ++ step :: after ->
  (exists u p, step = Login u p) \/ (exists s m, step = Send_message s m) ->
  Connect_tls (smtp_host config) (smtp_port config) ∈ before \/ Starttls ∈ before.
Proof using Type*.
  unfold smtp_config. destruct (rbind _ _) as [[[[host port] sender] security]|e] eqn:Ep; [|by destruct (_ || _)].
  destruct (_ || _) eqn:E; [done|]. intros [= <-]. cbn [smtp_host smtp_port].
  assert (Hsec : security = py "starttls" \/ security = py "tls").
  { apply orb_false_iff in E as [E _]. apply orb_false_iff in E as [_ E]. apply negb_false_iff in E.
    apply bool_decide_eq_true in E. rewrite !elem_of_cons in E.
    destruct E as [?|[?|E]]; [by left|by right|by apply not_elem_of_nil in E]. }
  unfold smtp_steps. cbn [smtp_security smtp_host smtp_port smtp_username smtp_password smtp_sender].
  intros Hsteps Hstep. destruct Hsec as [-> | ->].
  - right. destruct before as [|b0 [|b1 [|b2 before]]]; cbn in Hsteps.
    all: injection Hsteps; intros; subst; try (by destruct Hstep as [(?&?&?)|(?&?&?)]).
    right; right; left.
  - left. destruct before as [|b0 before]; cbn in Hsteps.
    all: injection Hsteps; intros; subst; try (by destruct Hstep as [(?&?&?)|(?&?&?)]).
    left.
Qed.

End Properties.

(** Two pending messages to one user, dry-run off and the default cooldown; the mail server accepts. *)
Definition accepting : MailTransport := fun _ => Ok tt.
Definition sample_user : User :=
  mkUser 7 (py "ann@example.com") None (py "Ann") None Role_USER true Source_MANUAL 0 None.
Definition sample_notification (id created : Z) : Notification :=
  mkNotification id 7 TEMPLATE [py "x"] Notification_PENDING (be_split 32 id) 0 None created None.
Definition mail_store : PlatformSettingsStore := mkStore (py "0123456789abcdef0123456789abcdef").
Definition mail_world (dry_run : pystr) : World :=
  let d := set_users {[7 := sample_user]} (set_notifications
    {[1 := sample_notification 1 10; 2 := sample_notification 2 20]} empty_db) in
  (@write_many tagged_aead counting_entropy mail_store
     [(NOTIFY_DRY_RUN, Some dry_run); (PUBLIC_BASE_URL, Some (py "https://hub.example.com/"));
      (SMTP_HOST, Some (py "mail.example.com")); (SMTP_PORT, Some (py "465"));
      (SMTP_FROM, Some (py "soc@example.com")); (SMTP_SECURITY, Some (py "tls"))] 8
     (mkWorld d d 0 1700000000000000)).2.
Definition deliver_sample (w : World) : result bool * World :=
  @deliver_next ascii_unicode tagged_aead plain_heap accepting mail_store None None w.

Example one_sent_one_suppressed :
  let w1 := (deliver_sample (mail_world (py "off"))).2 in
  let w2 := (deliver_sample w1).2 in
  (n_status <$> (notifications (w_db w2) !! 1), n_status <$> (notifications (w_db w2) !! 2))
  = (Some Notification_SENT, Some Notification_SUPPRESSED).
Proof. vm_compute. reflexivity. Qed.

Lemma mail_world_keyed dry_run :
  dry_run = py "off" \/ dry_run = py "on" ->
  notifications_keyed (w_db (mail_world dry_run)) /\
  forall k u, users (w_db (mail_world dry_run)) !! k = Some u -> u_id u = k.
Proof.
  intros [-> | ->]; (split; [refine (keyed_check n_id _ _)|refine (keyed_check u_id _ _)]);
    vm_compute; reflexivity.
Qed.

Definition not_sent (_ : Z) (n : Notification) : bool := negb (bool_decide (n_status n = Notification_SENT)).

Lemma nothing_sent_yet k n :
  notifications (w_db (mail_world (py "off"))) !! k = Some n -> n_status n <> Notification_SENT.
Proof.
  intros Hn Hs. assert (Hp : not_sent k n = true).
  { refine (table_check not_sent _ _ k n Hn). vm_compute. reflexivity. }
  unfold not_sent in Hp. by rewrite (bool_decide_eq_true_2 _ Hs) in Hp.
Qed.

Lemma deliveries_are_spaced_witness :
  exists w', deliver_sample (mail_world (py "off")) = (Ok true, w') /\ spaced 86400 (w_db w').
Proof.
  destruct (deliver_sample (mail_world (py "off"))) as [r w'] eqn:E.
  assert (Hr : (deliver_sample (mail_world (py "off"))).1 = Ok true) by (vm_compute; reflexivity).
  rewrite E in Hr. cbn [fst] in Hr. subst r. exists w'. split; [reflexivity|].
  destruct (mail_world_keyed (py "off") (or_introl eq_refl)) as [Hk Hu].
  eapply (@deliveries_are_spaced ascii_unicode tagged_aead plain_heap
    (Build_HeapOrderLaws plain_heap (fun A l => reflexivity l)) accepting mail_store None None
    (mail_world (py "off")) true w'); [exact Hk|exact Hu| | | |exact E].
  - vm_compute. reflexivity.
  - vm_compute. reflexivity.
  - intros k1 k2 n1 n2 t1 t2 _ Hl1 _ _ Hs _ _ _. destruct (nothing_sent_yet k1 n1 Hl1 Hs).
Defined.

Lemma dry_run_never_sends_witness :
  deliver_sample (mail_world (py "on")) =
  @deliver_next ascii_unicode tagged_aead plain_heap accepting mail_store (Some (fun _ => Raise RuntimeError))
    None (mail_world (py "on")).
Proof.
  refine (proj1 (@dry_run_never_sends ascii_unicode tagged_aead plain_heap
    (Build_HeapOrderLaws plain_heap (fun A l => reflexivity l)) accepting mail_store None
    (Some (fun _ => Raise RuntimeError)) None (mail_world (py "on")) _ _ _ _)).
  - apply (mail_world_keyed (py "on") (or_intror eq_refl)).
  - vm_compute. reflexivity.
  - vm_compute. reflexivity.
Defined.

Definition sample_smtp_values : SettingValues :=
  [(SMTP_HOST, py "mail.example.com"); (SMTP_PORT, py "587"); (SMTP_FROM, py "soc@example.com");
   (SMTP_USERNAME, py "soc"); (SMTP_PASSWORD, py "pw")].

Lemma smtp_encrypts_before_login_witness :
  exists config, @smtp_config ascii_unicode sample_smtp_values = Ok config /\
    (Connect_tls (smtp_host config) (smtp_port config) ∈ [Connect_plain (smtp_host config) (smtp_port config); Ehlo; Starttls; Ehlo]
     \/ Starttls ∈ [Connect_plain (smtp_host config) (smtp_port config); Ehlo; Starttls; Ehlo]).
Proof.
  eexists. split; [vm_compute; reflexivity|].
  eapply (@smtp_encrypts_before_login ascii_unicode sample_smtp_values _
    (render_portal_message (py "ann@example.com") (py "https://hub.example.com"))
    _ (Login (py "soc") (py "pw"))); [vm_compute; reflexivity|vm_compute; reflexivity|left; eauto].
Defined.
