(* ===== verification/Alerts.v ===== *)
(** Alerts (app/alerts.py): the deduplicated outbox, the watchlist fan-out, and dispatch with bounded
    retries and dead-lettering. A sink adapter is an interface. *)
From S2P Require Import Prelude PyBase Encoding Hashes Json Config Models Store Notifications.

Definition MAX_ATTEMPTS : Z := 5.

(** [Mapping[AlertSinkName, AlertSink]]: the configured adapters' [send]. *)
Definition AlertSinks : Type := AlertSinkName -> option (list (pystr * json) -> result unit).

Definition alert_dedupe_key (sink : AlertSinkName) (scope : pystr) : result bytes :=
  try! sink_ <- ascii_encode (AlertSinkName_value sink);
  try! scope_ <- ascii_encode scope;
  Ok (sha256 (py "leakcheck/alert-outbox/v1" ++ [0] ++ sink_ ++ [0] ++ scope_)).

Section Alerts.
Context `{Unicode} `{Entropy} `{HeapOrder}.

Definition alert_with_key (key : bytes) (a : AlertOutbox) : bool := bool_decide (ao_dedupe_key a = key).

Definition enqueue_alert (sink : AlertSinkName) (payload : list (pystr * json)) (dedupe_scope : pystr)
  : M unit :=
  let! id <- uuid4;
  let! key <- lift (alert_dedupe_key sink dedupe_scope);
  let! d <- get_db;
  let! now <- clock;
  match find_row (alert_with_key key) (alert_outbox d) with
  | Some _ => mret tt
  | None =>
      let a := mkAlertOutbox id sink payload Alert_PENDING key 0 now None now None in
      let! t <- lift (insert_row (AlertOutbox_ok a) id a (alert_outbox d));
      modify_db (set_alert_outbox t)
  end.

Definition enqueue_test_alert (sink : AlertSinkName) : M unit :=
  let! test_id <- uuid4;
  let! now <- clock;
  enqueue_alert sink
    [(py "schema", JStr (py "leakcheck.alert.v1")); (py "event", JStr (py "test"));
     (py "test_id", JStr (uuid_str test_id)); (py "generated_at", JStr (instant_isoformat now))]
    (py "test:" ++ uuid_str test_id).

(** The enabled entries that watch the subject or its user. *)
Definition watching (subject : Subject) (e : WatchlistEntry) : bool :=
  wl_enabled e
  && (bool_decide (wl_subject_id e = Some (su_id subject))
      || match su_linked_user_id subject with
         | Some u => bool_decide (wl_user_id e = Some u)
         | None => false
         end).

Definition event_of (finding : Finding) : pystr :=
  if bool_decide (f_severity finding = Severity_HIGH) then py "re_leaked" else py "new_finding".

Definition alert_payload (subject : Subject) (finding : Finding) : list (pystr * json) :=
  [(py "schema", JStr (py "leakcheck.alert.v1")); (py "event", JStr (event_of finding));
   (py "finding_id", JStr (uuid_str (f_id finding))); (py "subject_id", JStr (uuid_str (su_id subject)));
   (py "subject_kind", JStr (SubjectKind_value (su_kind subject)));
   (py "subject_value", JStr (su_value_norm subject));
   (py "observed_at", JStr (instant_isoformat (f_last_seen_at finding)))].

(** The body of the loop over findings: the sinks that any entry enables, in order. *)
Definition fanout_one (subject : Subject) (entries : list WatchlistEntry) (queued : Z) (finding : Finding)
  : M Z :=
  let sinks := (if existsb wl_alert_wazuh entries then [Sink_WAZUH] else [])
               ++ (if existsb wl_alert_iris entries then [Sink_DFIR_IRIS] else []) in
  let! _ <- mfor (fun sink => enqueue_alert sink (alert_payload subject finding)
                                (uuid_str (f_id finding) ++ [58] ++ event_of finding)) sinks;
  mret (queued + Z.of_nat (length sinks)).

Definition fanout_watchlisted_findings (subject : Subject) (finding_ids : list uuid) : M Z :=
  match finding_ids with
  | [] => mret 0
  | _ =>
      let! d <- get_db;
      let entries := select (watching subject) (watchlist d) in
      match entries with
      | [] => mret 0
      | _ =>
          let found := select (fun f => bool_decide (f_id f ∈ finding_ids)) (findings d) in
          let! queued <- mfold (fanout_one subject entries) 0 found;
          do! (match su_linked_user_id subject with
               | Some u => if existsb wl_alert_user entries
                           then enqueue_notification u finding_ids TEMPLATE else mret tt
               | None => mret tt
               end);
          mret queued
      end
  end.

(** ** Dispatch *)

Definition alert_due (current : instant) (a : AlertOutbox) : bool :=
  bool_decide (ao_status a = Alert_PENDING) && (ao_next_attempt_at a <=? current).
Definition attempt_then_id (a b : AlertOutbox) : bool :=
  (ao_next_attempt_at a <? ao_next_attempt_at b)
  || ((ao_next_attempt_at a =? ao_next_attempt_at b) && (ao_id a <=? ao_id b)).
Definition next_alert (d : Db) (current : instant) : option AlertOutbox :=
  head (sort_by attempt_then_id (select (alert_due current) (alert_outbox d))).

Definition retry_delay (attempts : Z) : Z := Z.min (15 * 2 ^ (attempts - 1)) (15 * 60).

Definition send_through (sinks : AlertSinks) (a : AlertOutbox) : result unit :=
  match sinks (ao_sink a) with None => Raise LookupError | Some send => send (ao_payload a) end.

(** What an attempt makes of the alert, whose attempt is already counted: the [except Exception], and
    the [else]. *)
Definition after_attempt (sinks : AlertSinks) (current : instant) (a : AlertOutbox) : result AlertOutbox :=
  match send_through sinks a with
  | Raise e =>
      if is_exception e then
        let a := set_ao_last_error (Some (exn_name e)) a in
        Ok (if MAX_ATTEMPTS <=? ao_attempts a then set_ao_status Alert_DEAD_LETTER a
            else set_ao_next_attempt_at (current + timedelta_seconds (retry_delay (ao_attempts a))) a)
      else Raise e
  | Ok _ =>
      Ok (set_ao_last_error None (set_ao_delivered_at (Some current) (set_ao_status Alert_DELIVERED a)))
  end.

Definition put_alert (a : AlertOutbox) : M unit :=
  modify_db (fun d => set_alert_outbox (<[ao_id a := a]> (alert_outbox d)) d).

(** The single dispatcher of the outbox: no other session holds a row's lock, so [SKIP LOCKED] skips
    nothing. The count is on the mapped object before the adapter is called, and durable only with the
    commit at the end. *)
Definition dispatch_next_alert (sinks : AlertSinks) (now : option instant) : M bool :=
  let! wall <- clock;
  let current := default wall now in
  let! d <- get_db;
  match next_alert d current with
  | None => mret false
  | Some alert =>
      let alert := set_ao_attempts (ao_attempts alert + 1) alert in
      do! put_alert alert;
      let! alert <- lift (after_attempt sinks current alert);
      do! put_alert alert;
      do! commit; mret true
  end.

(** ** Lemmas *)

(** The life of an alert: at most five attempts, the fifth failure is the last. *)
Definition alert_wf (a : AlertOutbox) : Prop :=
  0 <= ao_attempts a <= MAX_ATTEMPTS /\
  match ao_status a with
  | Alert_PENDING => ao_attempts a < MAX_ATTEMPTS
  | Alert_DEAD_LETTER => ao_attempts a = MAX_ATTEMPTS
  | Alert_DELIVERED => 1 <= ao_attempts a /\ is_Some (ao_delivered_at a)
  end.
Definition outbox_wf (d : Db) : Prop :=
  forall k a, alert_outbox d !! k = Some a -> ao_id a = k /\ alert_wf a.

(** The alert with one more attempt counted. *)
Definition counted (a : AlertOutbox) : AlertOutbox := set_ao_attempts (ao_attempts a + 1) a.

Lemma after_attempt_id sinks current a a' : after_attempt sinks current a = Ok a' -> ao_id a' = ao_id a.
Proof using Type.
  unfold after_attempt. destruct (send_through _ _) as [u|e]; [by intros [= <-]|].
  destruct (is_exception e); [|done]. destruct (_ <=? _); by intros [= <-].
Qed.

Lemma after_attempt_attempts sinks current a a' :
  after_attempt sinks current a = Ok a' -> ao_attempts a' = ao_attempts a.
Proof using Type.
  unfold after_attempt. destruct (send_through _ _) as [u|e]; [by intros [= <-]|].
  destruct (is_exception e); [|done]. destruct (_ <=? _); by intros [= <-].
Qed.

Lemma after_attempt_wf sinks current a a' : alert_wf a -> ao_status a = Alert_PENDING ->
  after_attempt sinks current (counted a) = Ok a' -> alert_wf a'.
Proof using Type.
  unfold alert_wf, counted. intros [Hb Hs] Hp. rewrite Hp in Hs. unfold after_attempt.
  destruct (send_through _ _) as [u|e].
  - intros [= <-]. cbn. split; [lia|]. split; [lia|eauto].
  - destruct (is_exception e); [|done]. cbn [ao_attempts set_ao_attempts set_ao_last_error].
    destruct (_ <=? _) eqn:E; intros [= <-].
    + apply Z.leb_le in E. cbn. split; lia.
    + apply Z.leb_gt in E. cbn. rewrite Hp. split; lia.
Qed.

Lemma attempt_then_id_total a b : attempt_then_id a b = true \/ attempt_then_id b a = true.
Proof using Type. unfold attempt_then_id. lia. Qed.

Lemma attempt_then_id_trans a b c :
  attempt_then_id a b = true -> attempt_then_id b c = true -> attempt_then_id a c = true.
Proof using Type. unfold attempt_then_id. lia. Qed.

Lemma next_alert_Some `{!HeapOrderLaws} d current a :
  next_alert d current = Some a ->
  alert_due current a = true /\ (exists k, alert_outbox d !! k = Some a) /\
  forall k b, alert_outbox d !! k = Some b -> alert_due current b = true -> attempt_then_id a b = true.
Proof using Type.
  unfold next_alert. destruct (sort_by _ _) as [|x t] eqn:E; [done|]. intros [= ->].
  apply sort_by_head in E as [Hin Hall]; [|apply attempt_then_id_total|apply attempt_then_id_trans].
  apply elem_of_select in Hin as [Hd Hk]. split; [done|]. split; [done|]. intros k b Hb Hdb.
  rewrite Forall_forall in Hall. apply Hall, elem_of_select. eauto.
Qed.

(** One committed dispatch, with whatever adapters are configured and at whatever time. *)
Inductive dispatch_step (w : World) : World -> Prop :=
| step_dispatch sinks now b w' : dispatch_next_alert sinks now w = (Ok b, w') -> dispatch_step w w'.

Lemma dispatch_cases `{!HeapOrderLaws} sinks now w b w' :
  outbox_wf (w_db w) -> dispatch_next_alert sinks now w = (Ok b, w') ->
  (b = false /\ w' = w /\ next_alert (w_db w) (default (w_now w) now) = None) \/
  (exists a a', b = true /\ next_alert (w_db w) (default (w_now w) now) = Some a /\
     alert_outbox (w_db w) !! ao_id a = Some a /\ ao_status a = Alert_PENDING /\ alert_wf a /\
     ao_next_attempt_at a <= default (w_now w) now /\
     after_attempt sinks (default (w_now w) now) (counted a) = Ok a' /\
     w_db w' = set_alert_outbox (<[ao_id a := a']> (alert_outbox (w_db w))) (w_db w)).
Proof using Type.
  intros Hwf. unfold dispatch_next_alert, mbind, clock, get_db, put_alert, modify_db, with_db, commit, mret, lift.
  destruct (next_alert _ _) as [a|] eqn:E; [|intros [= <- <-]; by left].
  destruct (next_alert_Some _ _ _ E) as (Hd&[k Hk]&_). destruct (Hwf _ _ Hk) as [<- Ha].
  cbn [w_db w_now w_committed w_draws]. fold (counted a).
  destruct (after_attempt _ _ (counted a)) as [a'|e] eqn:Ea; [|done]. intros [= <- <-]. right.
  exists a, a'. unfold alert_due in Hd. bools. pose proof (after_attempt_id _ _ _ _ Ea) as Hid.
  do 7 (split; [done|]). cbn [w_db]. rewrite Hid. destruct (w_db w). cbn. by rewrite insert_insert_eq.
Qed.

Lemma dispatch_wf `{!HeapOrderLaws} w w' : outbox_wf (w_db w) -> dispatch_step w w' -> outbox_wf (w_db w').
Proof using Type.
  intros Hwf [sinks now b w'' Hr].
  destruct (dispatch_cases _ _ _ _ _ Hwf Hr) as [(_&->&_)|(a&a'&_&_&Ha&Hp&Hawf&_&Ea&->)]; [done|].
  intros k x Hx. cbn in Hx. apply lookup_insert_Some in Hx as [[<- <-]|[_ Hx]]; [|by apply Hwf].
  split; [by rewrite (after_attempt_id _ _ _ _ Ea)|by eapply after_attempt_wf].
Qed.

End Alerts.

(** *** Draining *)

(** The attempts that the pending alerts may still cost. *)
Definition work_left (a : AlertOutbox) : nat :=
  if bool_decide (ao_status a = Alert_PENDING) then Z.to_nat (MAX_ATTEMPTS - ao_attempts a) else 0%nat.
Definition pending_work (d : Db) : nat := sum_list_with work_left (map_to_list (alert_outbox d)).*2.

(** One dispatch per poll, with the adapters and the time of that poll. *)
Fixpoint poll `{HeapOrder} (sinks : nat -> AlertSinks) (time : nat -> instant) (i n : nat) (w : World) : World :=
  match n with
  | O => w
  | S n => poll sinks time (S i) n (dispatch_next_alert (sinks i) (Some (time i)) w).2
  end.

Section Draining.
Context `{Unicode} `{Entropy} `{HeapOrderLaws}.

Lemma sum_perm {A} (f : A -> nat) l l' : l ≡ₚ l' -> sum_list_with f l = sum_list_with f l'.
Proof using Type. induction 1; cbn; lia. Qed.

Lemma pending_work_at d k a : alert_outbox d !! k = Some a ->
  pending_work d = (work_left a + sum_list_with work_left (map_to_list (delete k (alert_outbox d))).*2)%nat.
Proof using Type.
  intros Hk. unfold pending_work. rewrite (sum_perm work_left _ ((k, a) :: map_to_list (delete k (alert_outbox d))).*2); [done|].
  apply fmap_Permutation. symmetry. by apply map_to_list_delete.
Qed.

Lemma pending_work_put d k a a' : alert_outbox d !! k = Some a -> (work_left a' < work_left a)%nat ->
  (pending_work (set_alert_outbox (<[k := a']> (alert_outbox d)) d) < pending_work d)%nat.
Proof using Type.
  intros Hk Hlt. rewrite (pending_work_at d k a Hk), (pending_work_at _ k a').
  - cbn [alert_outbox set_alert_outbox]. rewrite delete_insert_eq. lia.
  - cbn. apply lookup_insert_eq.
Qed.

Lemma attempt_costs sinks current a a' : alert_wf a -> ao_status a = Alert_PENDING ->
  after_attempt sinks current (counted a) = Ok a' -> (work_left a' < work_left a)%nat.
Proof using Type.
  intros Hwf Hp Ea. pose proof (after_attempt_wf _ _ _ _ Hwf Hp Ea) as Hwf'. destruct Hwf as [Hb Hs]. rewrite Hp in Hs.
  unfold work_left. rewrite (bool_decide_true (ao_status a = _)) by done. case_bool_decide as Hp'; [|lia].
  destruct Hwf' as [Hb' Hs']. rewrite Hp' in Hs'.
  pose proof (after_attempt_attempts _ _ _ _ Ea) as Ha. cbn in Ha. rewrite Ha in *. lia.
Qed.

(** Adapters that answer or raise an ordinary exception: none of [SystemExit]'s kind. *)
Definition ordinary (sinks : AlertSinks) : Prop :=
  forall name send payload e, sinks name = Some send -> send payload = Raise e -> is_exception e = true.

Lemma ordinary_attempt sinks current a : ordinary sinks -> exists a', after_attempt sinks current a = Ok a'.
Proof using Type.
  intros Hs. unfold after_attempt, send_through. destruct (sinks (ao_sink a)) as [send|] eqn:E; [|cbn; eauto].
  destruct (send (ao_payload a)) as [u|e] eqn:Es; [eauto|]. rewrite (Hs _ _ _ _ E Es). eauto.
Qed.

Lemma dispatch_answers sinks now w : ordinary sinks -> exists b w', dispatch_next_alert sinks now w = (Ok b, w').
Proof using Type.
  intros Hs. unfold dispatch_next_alert, mbind, clock, get_db, put_alert, modify_db, lift.
  destruct (next_alert _ _) as [a|]; [|unfold mret; eauto].
  destruct (ordinary_attempt sinks (default (w_now w) now) (set_ao_attempts (ao_attempts a + 1) a) Hs) as [a' ->].
  unfold commit, mret. eauto.
Qed.

(** A poll either spends an attempt or finds nothing due. *)
Lemma dispatch_spends sinks now w : ordinary sinks -> outbox_wf (w_db w) ->
  let w' := (dispatch_next_alert sinks (Some now) w).2 in
  outbox_wf (w_db w') /\
  ((pending_work (w_db w') < pending_work (w_db w))%nat \/
   (w' = w /\ forall k a, alert_outbox (w_db w) !! k = Some a -> ao_status a = Alert_PENDING -> now < ao_next_attempt_at a)).
Proof using Type*.
  intros Hs Hwf w'. destruct (dispatch_answers sinks (Some now) w Hs) as (b&w1&E). unfold w'. rewrite E. cbn [snd].
  split; [apply (dispatch_wf w); [done|by econstructor]|].
  destruct (dispatch_cases _ _ _ _ _ Hwf E) as [(_&->&Hnone)|(a&a'&_&_&Ha&Hp&Hawf&_&Ea&->)].
  - right. split; [done|]. intros k a Ha Hp. change (default (w_now w) (Some now)) with now in Hnone. unfold next_alert in Hnone.
    destruct (sort_by _ _) as [|x t] eqn:Es; [|done]. apply Z.nle_gt. intros Hle.
    assert (Hin : a ∈ sort_by attempt_then_id (select (alert_due now) (alert_outbox (w_db w)))).
    { rewrite (sort_by_perm attempt_then_id). apply elem_of_select. split; [|eauto].
      unfold alert_due. rewrite bool_decide_true by done. lia. }
    rewrite Es in Hin. by apply elem_of_nil in Hin.
  - left. apply (pending_work_put _ _ a); [done|]. by eapply attempt_costs.
Qed.

Lemma poll_drains sinks time m i w : (forall i, ordinary (sinks i)) -> outbox_wf (w_db w) -> (forall t, exists j, forall j', (j <= j')%nat -> t <= time j') ->
  (pending_work (w_db w) <= m)%nat -> exists n, outbox_wf (w_db (poll sinks time i n w)) /\ pending_work (w_db (poll sinks time i n w)) = 0%nat.
Proof using Type*.
  intros Hord Hwf Htime. revert i w Hwf. induction m as [|m IH]; intros i w Hwf Hm; [exists 0%nat; cbn; split; [done|lia]|].
  destruct (decide (pending_work (w_db w) = 0%nat)) as [Hz|Hnz]; [by exists 0%nat|].
  assert (Hsome : exists k a, alert_outbox (w_db w) !! k = Some a /\ ao_status a = Alert_PENDING).
  { destruct (select (fun a => bool_decide (ao_status a = Alert_PENDING)) (alert_outbox (w_db w))) as [|a l] eqn:Es.
    - exfalso. apply Hnz. unfold pending_work. assert (Hall : forall a, a ∈ (map_to_list (alert_outbox (w_db w))).*2 -> work_left a = 0%nat).
      { intros a ([k a']&->&Hk%elem_of_map_to_list)%list_elem_of_fmap. pose proof (proj1 (select_nil _ _) Es k a' Hk) as Hf.
        unfold work_left. cbn in *. by rewrite Hf. }
      induction ((map_to_list (alert_outbox (w_db w))).*2) as [|a l IHl]; [done|]. cbn. rewrite (Hall a) by left.
      apply IHl. intros b Hb. apply Hall. by right.
    - assert (Hin : a ∈ select (fun a => bool_decide (ao_status a = Alert_PENDING)) (alert_outbox (w_db w))) by (rewrite Es; left).
      apply elem_of_select in Hin as [Hp [k Hk]]. apply bool_decide_eq_true in Hp. eauto. }
  destruct Hsome as (k&a&Ha&Hp). destruct (Htime (ao_next_attempt_at a)) as [i0 Hi0].
  assert (Hinner : forall gap i, (i0 <= i + gap)%nat ->
    exists n, outbox_wf (w_db (poll sinks time i n w)) /\ pending_work (w_db (poll sinks time i n w)) = 0%nat); [|apply (Hinner i0); lia].
  clear i. induction gap as [|gap IHgap]; intros i Hgap;
    destruct (dispatch_spends (sinks i) (time i) w (Hord i) Hwf) as [Hwf' [Hlt|[Hsame Hnot]]].
  - destruct (IH (S i) _ Hwf') as (n&Hn); [lia|]. by exists (S n).
  - specialize (Hnot k a Ha Hp). specialize (Hi0 i). lia.
  - destruct (IH (S i) _ Hwf') as (n&Hn); [lia|]. by exists (S n).
  - destruct (IHgap (S i)) as (n&Hn); [lia|]. exists (S n). cbn [poll]. by rewrite Hsame.
Qed.
End Draining.

(** *** The fan-out *)

Section Fanout.
Context `{Unicode} `{Entropy} `{HeapOrderLaws}.

(** The sinks that some watching entry enables. *)
Definition sink_enabled (sink : AlertSinkName) (e : WatchlistEntry) : bool :=
  match sink with Sink_WAZUH => wl_alert_wazuh e | Sink_DFIR_IRIS => wl_alert_iris e end.
Definition watches (subject : Subject) (e : WatchlistEntry) : Prop :=
  wl_enabled e = true /\
  (wl_subject_id e = Some (su_id subject) \/ (is_Some (su_linked_user_id subject) /\ wl_user_id e = su_linked_user_id subject)).
Definition subscribed (d : Db) (subject : Subject) (sink : AlertSinkName) : Prop :=
  exists k e, watchlist d !! k = Some e /\ watches subject e /\ sink_enabled sink e = true.
Definition entry_sinks (entries : list WatchlistEntry) : list AlertSinkName :=
  (if existsb wl_alert_wazuh entries then [Sink_WAZUH] else [])
  ++ (if existsb wl_alert_iris entries then [Sink_DFIR_IRIS] else []).
Definition alert_scope (finding : Finding) : pystr := uuid_str (f_id finding) ++ [58] ++ event_of finding.

Lemma watching_spec subject e : watching subject e = true <-> watches subject e.
Proof using Type.
  unfold watching, watches. rewrite andb_true_iff, orb_true_iff, bool_decide_eq_true.
  destruct (su_linked_user_id subject) as [u|]; [rewrite bool_decide_eq_true|].
  - split; intros [He [Hs|Hu]]; split; try done; [by left|right; by split|by left|right; by destruct Hu].
  - split; intros [He Hs]; split; try done; destruct Hs as [Hs|Hu]; try done; [by left|by left|by destruct Hu as [[? ?] _]].
Qed.

Lemma elem_of_entry_sinks sink d subject :
  sink ∈ entry_sinks (select (watching subject) (watchlist d)) <-> subscribed d subject sink.
Proof using Type*.
  assert (Hx : forall p, existsb p (select (watching subject) (watchlist d)) = true <->
    exists k e, watchlist d !! k = Some e /\ watches subject e /\ p e = true).
  { intros p. rewrite existsb_exists. setoid_rewrite <- list_elem_of_In. setoid_rewrite elem_of_select. setoid_rewrite watching_spec.
    split; [intros (e&[Hw [k Hk]]&Hp); eauto|intros (k&e&Hk&Hw&Hp); eauto]. }
  unfold entry_sinks, subscribed. rewrite elem_of_app.
  destruct sink; cbn [sink_enabled]; rewrite <- Hx; repeat destruct (existsb _ _);
    rewrite ?list_elem_of_singleton, ?elem_of_nil; intuition congruence.
Qed.

(** The outbox has grown by pending alerts that [P] allows. *)
Definition queued_only (P : AlertSinkName -> list (pystr * json) -> Prop) (d d' : Db) : Prop :=
  (forall k a, alert_outbox d !! k = Some a -> alert_outbox d' !! k = Some a) /\
  (forall k a, alert_outbox d' !! k = Some a -> alert_outbox d !! k = Some a \/
     (P (ao_sink a) (ao_payload a) /\ ao_status a = Alert_PENDING /\ ao_attempts a = 0)) /\
  findings d' = findings d /\ watchlist d' = watchlist d /\ subjects d' = subjects d.
Definition has_alert (sink : AlertSinkName) (scope : pystr) (d : Db) : Prop :=
  exists key k a, alert_dedupe_key sink scope = Ok key /\ alert_outbox d !! k = Some a /\ ao_dedupe_key a = key.

Lemma queued_only_refl P d : queued_only P d d.
Proof using Type. split; [done|]. split; [by left|done]. Qed.
Lemma queued_only_trans P d1 d2 d3 : queued_only P d1 d2 -> queued_only P d2 d3 -> queued_only P d1 d3.
Proof using Type.
  intros (Hk1&Hn1&Hf1&Hw1&Hs1) (Hk2&Hn2&Hf2&Hw2&Hs2). split; [auto|]. split; [|by rewrite Hf2, Hw2, Hs2].
  intros k a [Ha|Ha]%Hn2; [by apply Hn1|by right].
Qed.
Lemma queued_only_mono (P Q : AlertSinkName -> list (pystr * json) -> Prop) d d' :
  (forall s p, P s p -> Q s p) -> queued_only P d d' -> queued_only Q d d'.
Proof using Type.
  intros HPQ (Hk&Hn&Hr). split; [done|]. split; [|done]. intros k a [Ha|[Hp Hr']]%Hn; [by left|]. right. by split; [apply HPQ|].
Qed.
Lemma has_alert_grows P sink scope d d' : queued_only P d d' -> has_alert sink scope d -> has_alert sink scope d'.
Proof using Type. intros (Hk&_) (key&k&a&E&Ha&Hkey). exists key, k, a. auto. Qed.

Lemma enqueue_alert_spec sink payload scope w w' :
  enqueue_alert sink payload scope w = (Ok tt, w') ->
  queued_only (fun s p => s = sink /\ p = payload) (w_db w) (w_db w') /\ has_alert sink scope (w_db w').
Proof using Type*.
  unfold enqueue_alert, mbind, uuid4, lift, get_db, clock. destruct (alert_dedupe_key sink scope) as [key|e] eqn:Ek; [|done].
  cbn [w_db w_now]. split_find a Ef.
  - intros [= <-]. cbn. apply find_row_Some in Ef as [Hkey [k Ha]]. unfold alert_with_key in Hkey. bools.
    split; [apply queued_only_refl|]. by exists key, k, a.
  - split_insert t Ei; [|done]. apply insert_row_inv in Ei as (_&Hnew&->). unfold modify_db, with_db. intros [= <-]. cbn.
    split.
    + split; [|split; [|done]].
      * intros k a Ha. cbn. rewrite lookup_insert_ne; [done|]. intros Heq. congruence.
      * intros k a Ha. cbn in Ha. apply lookup_insert_Some in Ha as [[<- <-]|[_ Ha]]; [by right|by left].
    + eexists key, _, _. split; [done|]. split; [apply lookup_insert_eq|done].
Qed.

Lemma fanout_one_spec subject entries queued finding w n w' :
  fanout_one subject entries queued finding w = (Ok n, w') ->
  n = queued + Z.of_nat (length (entry_sinks entries)) /\
  queued_only (fun s p => s ∈ entry_sinks entries /\ p = alert_payload subject finding) (w_db w) (w_db w') /\
  (forall sink, sink ∈ entry_sinks entries -> has_alert sink (alert_scope finding) (w_db w')).
Proof using Type*.
  unfold fanout_one. fold (entry_sinks entries). fold (alert_scope finding). intros (ys&w1&Em&E)%mbind_inv.
  injection E as <- <-. split; [done|]. revert w ys w1 Em. generalize (entry_sinks entries) as sinks.
  induction sinks as [|s sinks IH]; intros w ys w1; cbn [mfor].
  - intros [= <- <-]. split; [apply queued_only_refl|]. intros sink Hin. by apply elem_of_nil in Hin.
  - intros ([]&w2&E1&(ys'&w3&E2&E3)%mbind_inv)%mbind_inv. injection E3 as <- <-.
    apply enqueue_alert_spec in E1 as [Hq Hh]. destruct (IH _ _ _ E2) as [Hq' Hh']. split.
    + eapply queued_only_trans; eapply queued_only_mono; [|exact Hq| |exact Hq'];
        cbn; intros s0 p [Hs ->]; split; try done; [subst s0; left|by right].
    + intros sink [->|Hin]%elem_of_cons; [|by apply Hh']. by eapply has_alert_grows.
Qed.

Lemma fanout_loop subject entries l queued w n w' :
  mfold (fanout_one subject entries) queued l w = (Ok n, w') ->
  n = queued + Z.of_nat (length l * length (entry_sinks entries)) /\
  queued_only (fun s p => s ∈ entry_sinks entries /\ exists f, f ∈ l /\ p = alert_payload subject f) (w_db w) (w_db w') /\
  (forall f sink, f ∈ l -> sink ∈ entry_sinks entries -> has_alert sink (alert_scope f) (w_db w')).
Proof using Type*.
  revert queued w. induction l as [|f l IH]; intros queued w; cbn [mfold].
  - intros [= <- <-]. split; [cbn; lia|]. split; [apply queued_only_refl|]. intros f sink Hin. by apply elem_of_nil in Hin.
  - intros (n1&w1&E1&E2)%mbind_inv. apply fanout_one_spec in E1 as (->&Hq&Hh). apply IH in E2 as (->&Hq'&Hh').
    split; [cbn [length]; lia|]. split.
    + eapply queued_only_trans; eapply queued_only_mono; [|exact Hq| |exact Hq']; cbn.
      * intros s p [Hs ->]. split; [done|]. exists f. split; [left|done].
      * intros s p [Hs (f'&Hf'&->)]. split; [done|]. exists f'. split; [by right|done].
    + intros f' sink [->|Hin]%elem_of_cons Hs; [|by apply Hh']. eapply has_alert_grows; [exact Hq'|]. by apply Hh.
Qed.

Lemma notify_keeps_alerts user ids template w w' x :
  enqueue_notification user ids template w = (x, w') -> alert_outbox (w_db w') = alert_outbox (w_db w).
Proof using Type.
  intros E. assert (Hk : keeps alert_outbox (enqueue_notification user ids template)).
  { unfold enqueue_notification. frame. }
  destruct (Hk w) as [Hd _]. by rewrite E in Hd.
Qed.

End Fanout.

Section Properties.
Context `{Unicode} `{Entropy} `{HeapOrderLaws}.

(** over any run of dispatches every alert keeps a legal life: at most five attempts, pending
    only below five, dead-lettered exactly at five; and once delivered or dead-lettered its row
    never changes again. *)
Theorem alert_life_reachable w w' :
  outbox_wf (w_db w) -> rtc dispatch_step w w' ->
  outbox_wf (w_db w') /\
  forall k a, alert_outbox (w_db w) !! k = Some a -> ao_status a <> Alert_PENDING ->
    alert_outbox (w_db w') !! k = Some a.
Proof using Type*.
  intros Hwf. induction 1 as [|w w1 w' Hstep _ IH]; [done|].
  pose proof (dispatch_wf _ _ Hwf Hstep) as Hwf1. destruct (IH Hwf1) as [Hwf' Hkeep]. split; [done|].
  intros k a Ha Hs. apply Hkeep; [|done]. destruct Hstep as [sinks now b w'' Hr].
  destruct (dispatch_cases _ _ _ _ _ Hwf Hr) as [(_&->&_)|(x&x'&_&_&Hx&Hp&_&_&_&->)]; [done|].
  cbn. rewrite lookup_insert_ne; [done|]. intros <-. congruence.
Qed.

Lemma failed_attempt (a : AlertOutbox) (current : instant) e :
  ao_attempts a < 5 -> 0 <= ao_attempts a <= 5 -> ao_status a = Alert_PENDING ->
  let x := set_ao_last_error (Some (exn_name e)) (set_ao_attempts (ao_attempts a + 1) a) in
  let a' := if 5 <=? ao_attempts x then set_ao_status Alert_DEAD_LETTER x
            else set_ao_next_attempt_at (current + timedelta_seconds (retry_delay (ao_attempts x))) x in
  if ao_attempts a =? 4 then ao_status a' = Alert_DEAD_LETTER
  else ao_status a' = Alert_PENDING /\
    ao_next_attempt_at a' = current + timedelta_seconds (15 * 2 ^ ao_attempts a).
Proof using Type.
  intros Hs Hb Hp. cbn [ao_attempts set_ao_last_error set_ao_attempts]. destruct (ao_attempts a =? 4) eqn:E4.
  - apply Z.eqb_eq in E4. by rewrite E4.
  - apply Z.eqb_neq in E4. destruct (5 <=? ao_attempts a + 1) eqn:E5; [lia|]. cbn. split; [done|].
    unfold retry_delay. rewrite Z.add_simpl_r.
    assert (Hpow : 2 ^ ao_attempts a <= 2 ^ 3) by (apply Z.pow_le_mono_r; lia). rewrite Z.min_l; [done|]. lia.
Qed.

(** One dispatch attempts the earliest due alert, counts the attempt, and then delivers it if its
    adapter accepts it; otherwise it is tried again after 15, 30, 60 and 120 seconds and given up
    after the fifth failure, a missing adapter counting as a failure. *)
Theorem dispatch_attempts_earliest sinks now w w' :
  outbox_wf (w_db w) -> dispatch_next_alert sinks now w = (Ok true, w') ->
  let current := default (w_now w) now in
  exists a a', next_alert (w_db w) current = Some a /\ alert_due current a = true /\
    (forall k b, alert_outbox (w_db w) !! k = Some b -> alert_due current b = true ->
       ao_next_attempt_at a <= ao_next_attempt_at b) /\
    alert_outbox (w_db w') !! ao_id a = Some a' /\ ao_attempts a' = ao_attempts a + 1 /\
    match sinks (ao_sink a) with
    | Some send =>
        match send (ao_payload a) with
        | Ok _ => ao_status a' = Alert_DELIVERED /\ ao_delivered_at a' = Some current
        | Raise _ => if ao_attempts a =? 4 then ao_status a' = Alert_DEAD_LETTER
                     else ao_status a' = Alert_PENDING /\
                       ao_next_attempt_at a' = current + timedelta_seconds (15 * 2 ^ ao_attempts a)
        end
    | None => if ao_attempts a =? 4 then ao_status a' = Alert_DEAD_LETTER
              else ao_status a' = Alert_PENDING /\
                ao_next_attempt_at a' = current + timedelta_seconds (15 * 2 ^ ao_attempts a)
    end.
Proof using Type*.
  intros Hwf Hr. destruct (dispatch_cases _ _ _ _ _ Hwf Hr) as [(Hb&_&_)|(a&a'&_&Hn&Ha&Hp&Hawf&Hdue&Ea&Hdb)]; [done|].
  cbn zeta. exists a, a'. destruct (next_alert_Some _ _ _ Hn) as (Hd&_&Hmin). split; [done|]. split; [done|]. split.
  { intros k b Hb Hdb'. specialize (Hmin k b Hb Hdb'). unfold attempt_then_id in Hmin. lia. }
  rewrite Hdb. cbn [alert_outbox set_alert_outbox]. rewrite lookup_insert_eq. split; [done|].
  split; [apply (after_attempt_attempts _ _ _ _ Ea)|]. destruct Hawf as [Hb Hs]. rewrite Hp in Hs.
  revert Ea. unfold after_attempt, send_through, counted, MAX_ATTEMPTS in *. cbn [ao_sink ao_payload set_ao_attempts].
  destruct (sinks (ao_sink a)) as [send|]; [destruct (send (ao_payload a)) as [u|e]|].
  - by intros [= <-].
  - destruct (is_exception e); [|done]. intros [= <-]. by apply (failed_attempt a _ e).
  - cbn [is_exception]. intros [= <-]. by apply (failed_attempt a _ LookupError).
Qed.

(** C28: The outbox drains.  As long as every adapter answers, or raises an ordinary exception, poll
    after poll, accepting, refusing or missing, and time goes on without bound, polling by a single
    dispatcher reaches a point at which no alert is pending; each one has been delivered, or given up
    after its fifth attempt.  ([SystemExit] and its like are not caught, and count no attempt; an
    adapter that never answers holds its poll for good: there is no time-out.) *)
Theorem outbox_drains sinks time w :
  (forall i, ordinary (sinks i)) ->
  outbox_wf (w_db w) -> (forall t, exists i, forall j, (i <= j)%nat -> t <= time j) ->
  exists n, forall k a, alert_outbox (w_db (poll sinks time 0 n w)) !! k = Some a ->
    (ao_status a = Alert_DELIVERED /\ is_Some (ao_delivered_at a)) \/ (ao_status a = Alert_DEAD_LETTER /\ ao_attempts a = MAX_ATTEMPTS).
Proof using Type*.
  intros Hord Hwf Htime. destruct (poll_drains sinks time (pending_work (w_db w)) 0 w Hord Hwf Htime (Nat.le_refl _)) as (n&Hwf'&Hz).
  exists n. intros k a Ha. destruct (Hwf' _ _ Ha) as [_ [Hb Hs]]. destruct (ao_status a) eqn:Est; [|left|right]; try (by split).
  - exfalso. rewrite (pending_work_at _ k a Ha) in Hz. unfold work_left in Hz. rewrite bool_decide_true in Hz by done. lia.
  - split; [done|]. by destruct Hs.
Qed.

(** Alerts go exactly where the watchlist says.  After a fan-out, every alert that was not queued
    before is pending, carries one of the given findings, and is for a sink that an enabled entry for
    the subject, or for the user it is linked to, has switched on; every such finding is queued for
    every such sink; and no row of the outbox is changed or lost. *)
Theorem fanout_exact subject finding_ids w n w' :
  finding_ids <> [] -> fanout_watchlisted_findings subject finding_ids w = (Ok n, w') ->
  (forall k a, alert_outbox (w_db w) !! k = Some a -> alert_outbox (w_db w') !! k = Some a) /\
  (forall k a, alert_outbox (w_db w') !! k = Some a -> alert_outbox (w_db w) !! k = Some a \/
     (subscribed (w_db w) subject (ao_sink a) /\ ao_status a = Alert_PENDING /\
      exists i f, findings (w_db w) !! i = Some f /\ f_id f ∈ finding_ids /\ ao_payload a = alert_payload subject f)) /\
  (forall sink i f, subscribed (w_db w) subject sink -> findings (w_db w) !! i = Some f -> f_id f ∈ finding_ids ->
     has_alert sink (alert_scope f) (w_db w')).
Proof using Type*.
  intros Hids. unfold fanout_watchlisted_findings. destruct finding_ids as [|i0 ids]; [done|]. clear Hids.
  set (l := i0 :: ids). unfold mbind at 1, get_db.
  destruct (select (watching subject) (watchlist (w_db w))) as [|e0 es] eqn:Esel.
  - intros [= <- <-]. split; [done|]. split; [by left|]. intros sink i f (k&e&Hk&Hw%watching_spec&_).
    rewrite (proj1 (select_nil _ _) Esel k e Hk) in Hw. done.
  - rewrite <- Esel. intros (q&w1&E1&E2)%mbind_inv. apply fanout_loop in E1 as (_&(Hk&Hn&_)&Hh).
    apply mbind_inv in E2 as ([]&w2&E2&E3). injection E3 as <- <-.
    assert (Hd : alert_outbox (w_db w2) = alert_outbox (w_db w1)).
    { destruct (su_linked_user_id subject); [|by injection E2 as <-].
      destruct (existsb _ _); [by eapply notify_keeps_alerts|by injection E2 as <-]. }
    assert (Hin : forall f, f ∈ select (fun f => bool_decide (f_id f ∈ l)) (findings (w_db w)) <->
      f_id f ∈ l /\ exists i, findings (w_db w) !! i = Some f).
    { intros f. by rewrite elem_of_select, bool_decide_eq_true. }
    split; [intros k a Ha; rewrite Hd; auto|]. split.
    + intros k a. rewrite Hd. intros [Ha|([Hs (f&Hf&Hp)]&Hst&_)]%Hn; [by left|right].
      apply elem_of_entry_sinks in Hs. apply Hin in Hf as [Hf [i Hi]]. split; [done|]. split; [done|]. by exists i, f.
    + intros sink i f Hs Hi Hf. destruct (Hh f sink) as (key&k&a&Hkey&Ha&Hak).
      * apply Hin. eauto.
      * by apply elem_of_entry_sinks.
      * exists key, k, a. by rewrite Hd.
Qed.

End Properties.

(** A pending alert with three failed attempts, and an adapter that always fails. *)
Definition sample_alert (attempts : Z) : AlertOutbox :=
  mkAlertOutbox 5 Sink_WAZUH [] Alert_PENDING (be_split 32 5) attempts 100 None 50 None.
Definition alert_world (attempts : Z) : World :=
  let d := set_alert_outbox {[5 := sample_alert attempts]} empty_db in mkWorld d d 0 200.
Definition failing : AlertSinks := fun _ => Some (fun _ => Raise RuntimeError).

Lemma alert_world_wf attempts : 0 <= attempts < 5 -> outbox_wf (w_db (alert_world attempts)).
Proof.
  intros Hb k a Ha. change (({[5 := sample_alert attempts]} : gmap Z AlertOutbox) !! k = Some a) in Ha.
  apply lookup_singleton_Some in Ha as [<- <-]. split; [done|].
  unfold alert_wf, MAX_ATTEMPTS. cbn. lia.
Qed.

Lemma alert_life_reachable_witness :
  let w' := (@dispatch_next_alert plain_heap failing None (alert_world 4)).2 in
  outbox_wf (w_db w') /\ (ao_status <$> (alert_outbox (w_db w') !! 5)) = Some Alert_DEAD_LETTER.
Proof.
  intros w'. split; [|vm_compute; reflexivity].
  refine (proj1 (@alert_life_reachable plain_heap (Build_HeapOrderLaws plain_heap (fun A l => reflexivity l))
    (alert_world 4) w' _ _)).
  - apply alert_world_wf. lia.
  - apply rtc_once. apply (step_dispatch _ failing None true). vm_compute. reflexivity.
Defined.

Lemma dispatch_attempts_earliest_witness :
  exists a', alert_outbox (w_db (@dispatch_next_alert plain_heap failing None (alert_world 2)).2) !! 5 = Some a' /\
    ao_attempts a' = 3 /\ ao_next_attempt_at a' = 200 + timedelta_seconds 60.
Proof.
  destruct (@dispatch_attempts_earliest plain_heap (Build_HeapOrderLaws plain_heap (fun A l => reflexivity l))
    failing None (alert_world 2) (@dispatch_next_alert plain_heap failing None (alert_world 2)).2)
    as (a&a'&Hn&_&_&Hl&Hatt&Hres).
  - apply alert_world_wf. lia.
  - vm_compute. reflexivity.
  - assert (Ha : a = sample_alert 2) by (vm_compute in Hn; injection Hn as <-; reflexivity). subst a.
    exists a'. split; [exact Hl|]. split; [exact Hatt|]. exact (proj2 Hres).
Defined.

(** A subject that one entry watches for one sink. *)
Definition watched_subject : Subject := mkSubject 3 Kind_EMAIL (py "a@b.example") (py "a@b.example") None None None.
Definition watched_finding : Finding :=
  mkFinding 5 3 4 None None None None None None None None None None None [] [] (be_split 32 5) Severity_LOW 10 10
    None None None None None.
Definition watched_world : World :=
  let e := mkWatchlistEntry 9 (Some 3) None true true false true true 7 10 in
  let d := set_watchlist {[9 := e]} (set_findings {[5 := watched_finding]} (set_subjects {[3 := watched_subject]} empty_db)) in
  mkWorld d d 100 200.
Definition fanout_run : result Z * World :=
  @fanout_watchlisted_findings counting_entropy plain_heap watched_subject [5] watched_world.

Lemma fanout_exact_witness :
  has_alert Sink_DFIR_IRIS (alert_scope watched_finding) (w_db fanout_run.2) /\
  forall k a, alert_outbox (w_db fanout_run.2) !! k = Some a -> ao_payload a = alert_payload watched_subject watched_finding.
Proof.
  destruct (@fanout_exact counting_entropy plain_heap (Build_HeapOrderLaws plain_heap (fun A l => reflexivity l))
    watched_subject [5] watched_world 1 fanout_run.2) as (_&Hn&Hall).
  - done.
  - vm_compute. reflexivity.
  - split.
    + apply (Hall Sink_DFIR_IRIS 5 watched_finding); [|reflexivity|left].
      exists 9, (mkWatchlistEntry 9 (Some 3) None true true false true true 7 10). repeat split. by left.
    + intros k a Ha. destruct (Hn k a Ha) as [Ho|(_&_&i&f&Hf&_&->)].
      * change ((∅ : gmap Z AlertOutbox) !! k = Some a) in Ho. by rewrite lookup_empty in Ho.
      * change (({[5 := watched_finding]} : gmap Z Finding) !! i = Some f) in Hf.
        by apply lookup_singleton_Some in Hf as [_ <-].
Defined.

Lemma outbox_drains_witness :
  exists n, forall k a,
    alert_outbox (w_db (@poll plain_heap (fun _ => failing) (fun i => Z.of_nat i) 0 n (alert_world 2))) !! k = Some a ->
    (ao_status a = Alert_DELIVERED /\ is_Some (ao_delivered_at a)) \/ (ao_status a = Alert_DEAD_LETTER /\ ao_attempts a = MAX_ATTEMPTS).
Proof.
  apply (@outbox_drains plain_heap (Build_HeapOrderLaws plain_heap (fun A l => reflexivity l)) (fun _ => failing)
    (fun i => Z.of_nat i) (alert_world 2)).
  - intros i name send payload e [= <-] [= <-]. reflexivity.
  - apply alert_world_wf. lia.
  - intros t. exists (Z.to_nat t). intros j Hj. lia.
Defined.
