(* ===== verification/Batches.v ===== *)
(** Batches and their queue (app/batches.py): target resolution with escaped LIKE patterns, the atomic
    claim, completion accounting, and the interleaving of two completions. *)
From S2P Require Import Prelude PyBase Encoding Hashes Json Config Models Store.

Definition STALE_AFTER : Z := timedelta_seconds (10 * 60).

Record ClaimedWork := mkClaimedWork {
  cw_queue_id : uuid;
  cw_batch_id : uuid;
  cw_subject_id : uuid;
  cw_query : pystr;
}.

(** ** Pattern matching as PostgreSQL's [LIKE] does it, with the backslash as escape character *)

Fixpoint tails (s : pystr) : list pystr :=
  s :: match s with [] => [] | _ :: t => tails t end.

Fixpoint like (pattern : pystr) : pystr -> bool :=
  match pattern with
  | [] => fun s => match s with [] => true | _ => false end
  | c :: p =>
      if c =? 37 then fun s => existsb (like p) (tails s)
      else if c =? 95 then fun s => match s with _ :: t => like p t | [] => false end
      else if c =? 92 then
        match p with
        | d :: p' => fun s => match s with x :: t => (x =? d) && like p' t | [] => false end
        | [] => fun _ => false
        end
      else fun s => match s with x :: t => (x =? c) && like p t | [] => false end
  end.

(** [value.replace("\\", "\\\\").replace("%", "\\%").replace("_", "\\_")] *)
Definition escape_like (value : pystr) : pystr :=
  replace_char 95 [92; 95] (replace_char 37 [92; 37] (replace_char 92 [92; 92] value)).

Definition escaped_ou_prefix (path : pystr) : pystr :=
  escape_like (rstrip_by (Z.eqb 47) path ++ [47]) ++ [37].

Section Batches.
Context `{Unicode} `{Entropy} `{HeapOrder} `{Collation}.

Definition ilike (pattern s : pystr) : bool := like (citext_lower pattern) (citext_lower s).

(** A target is text, or a tuple of user identifiers. *)
Definition TargetValue : Type := pystr + list uuid.

Definition target_filter (target_type : BatchTarget) (target_value : TargetValue)
  : result ((User -> bool) * list (pystr * json)) :=
  match target_type, target_value with
  | Target_OU, inl path =>
      Ok (fun u => match u_ou_path u with
                   | Some p => bool_decide (p = path) || like (escaped_ou_prefix path) p
                   | None => false
                   end, [(py "ou_path", JStr path)])
  | Target_OU, inr _ => Raise ValueError
  | Target_DOMAIN, inl text =>
      let domain := lstrip_by (Z.eqb 64) (casefold text) in
      Ok (fun u => ilike (37 :: 64 :: escape_like domain) (u_email u), [(py "domain", JStr domain)])
  | Target_DOMAIN, inr _ => Raise ValueError
  | Target_SELECTION, inr ids =>
      Ok (fun u => bool_decide (u_id u ∈ ids),
          [(py "user_ids", JList (map (fun i => JStr (uuid_str i)) ids))])
  | Target_SELECTION, inl _ => Raise ValueError
  end.

Definition same_subject (kind : SubjectKind) (value_norm : pystr) (s : Subject) : bool :=
  bool_decide (su_kind s = kind) && bool_decide (su_value_norm s = value_norm).

(** The subject upsert of the loop: an existing row only changes its link. *)
Definition upsert_email_subject (user : User) : M Subject :=
  let! id <- uuid4;
  let! d <- get_db;
  let norm := casefold (u_email user) in
  match find_row (same_subject Kind_EMAIL norm) (subjects d) with
  | Some s =>
      let s := set_su_linked_user_id (Some (u_id user)) s in
      do! modify_db (fun d => set_subjects (<[su_id s := s]> (subjects d)) d);
      mret s
  | None =>
      let s := mkSubject id Kind_EMAIL norm (u_email user) None None (Some (u_id user)) in
      let! t <- lift (insert_row true id s (subjects d));
      do! modify_db (set_subjects t);
      mret s
  end.

Definition queued_for (batch_id subject_id : uuid) (q : ScanQueue) : bool :=
  bool_decide (q_batch_id q = batch_id) && bool_decide (q_subject_id q = subject_id).

Definition enqueue_user (batch_id : uuid) (user : User) : M unit :=
  let! subject <- upsert_email_subject user;
  let! id <- uuid4;
  let! d <- get_db;
  let! now <- clock;
  match find_row (queued_for batch_id (su_id subject)) (scan_queue d) with
  | Some _ => mret tt
  | None =>
      let q := mkScanQueue id batch_id (su_id subject) Queue_QUEUED 0 None None None now None in
      let! t <- lift (insert_row (ScanQueue_ok q) id q (scan_queue d));
      modify_db (set_scan_queue t)
  end.

Definition create_batch (actor_id : uuid) (target_type : BatchTarget) (target_value : TargetValue)
  : M ScanBatch :=
  let! ft <- lift (target_filter target_type target_value);
  let '(matches, target) := ft in
  let! d <- get_db;
  let chosen := sort_by (fun a b => citext_leb (u_email a) (u_email b))
                  (select (fun u => u_is_active u && matches u) (users d)) in
  match chosen with
  | [] => raise ValueError
  | _ =>
      let! id <- uuid4;
      let! now <- clock;
      let batch := mkScanBatch id target_type target Batch_PENDING actor_id
                     (Z.of_nat (length chosen)) 0 0 now None None in
      let! t <- lift (insert_row (ScanBatch_ok batch) id batch (scan_batches d));
      do! modify_db (set_scan_batches t);
      let! _ <- mfor (enqueue_user id) chosen;
      mret batch
  end.

(** ** Claiming *)

Definition claimable (claimed_at : instant) (q : ScanQueue) : bool :=
  bool_decide (q_status q = Queue_QUEUED)
  || (bool_decide (q_status q = Queue_RUNNING)
      && match q_locked_at q with Some t => t <? claimed_at - STALE_AFTER | None => false end).

Definition queue_order (a b : ScanQueue) : bool :=
  (q_created_at a <? q_created_at b)
  || ((q_created_at a =? q_created_at b) && (q_id a <=? q_id b)).

Definition claim_candidate (d : Db) (claimed_at : instant) : option ScanQueue :=
  head (sort_by queue_order (select (claimable claimed_at) (scan_queue d))).

Definition claimed_row (worker_id : pystr) (claimed_at : instant) (q : ScanQueue) : ScanQueue :=
  mkScanQueue (q_id q) (q_batch_id q) (q_subject_id q) Queue_RUNNING (q_attempts q + 1)
    (Some (slice_to 255 worker_id)) (Some claimed_at) None (q_created_at q) (q_finished_at q).

(** [claim_statement]: one [UPDATE ... RETURNING]. *)
Definition claim_statement (worker_id : pystr) (now : option instant) : M (option ScanQueue) :=
  let! wall <- clock;
  let claimed_at := default wall now in
  let! d <- get_db;
  match claim_candidate d claimed_at with
  | None => mret None
  | Some q =>
      let q' := claimed_row worker_id claimed_at q in
      do! modify_db (fun d => set_scan_queue (<[q_id q := q']> (scan_queue d)) d);
      mret (Some q')
  end.

Definition start_batch (now : instant) (b : ScanBatch) : ScanBatch :=
  if bool_decide (sb_status b = Batch_PENDING)
  then set_sb_started_at (Some now) (set_sb_status Batch_RUNNING b) else b.

Definition claim_next (worker_id : pystr) : M (option ClaimedWork) :=
  let! row <- claim_statement worker_id None;
  match row with
  | None => mret None
  | Some q =>
      let! d <- get_db;
      let! subject <- scalar_one (subjects d !! q_subject_id q);
      let! now <- clock;
      do! modify_db (fun d => set_scan_batches
            (alter (start_batch now) (q_batch_id q) (scan_batches d)) d);
      do! commit;
      mret (Some (mkClaimedWork (q_id q) (q_batch_id q) (q_subject_id q) (su_value_norm subject)))
  end.

(** ** Completion, statement by statement *)

Definition finished_row (succeeded : bool) (error : option pystr) (now : instant) (q : ScanQueue)
  : ScanQueue :=
  if bool_decide (q_status q = Queue_RUNNING) then
    mkScanQueue (q_id q) (q_batch_id q) (q_subject_id q)
      (if succeeded then Queue_SUCCEEDED else Queue_FAILED) (q_attempts q) None None
      (if succeeded then None
       else Some (slice_to 255 (match error with None | Some [] => py "scan failed" | Some e => e end)))
      (q_created_at q) (Some now)
  else q.

Definition finish_item (work : ClaimedWork) (succeeded : bool) (error : option pystr) (now : instant)
    (d : Db) : Db :=
  set_scan_queue (alter (finished_row succeeded error now) (cw_queue_id work) (scan_queue d)) d.

Definition count_items (p : ScanQueue -> bool) (batch_id : uuid) (d : Db) : Z :=
  Z.of_nat (length (List.filter (fun q => bool_decide (q_batch_id q = batch_id) && p q)
                      (map_to_list (scan_queue d)).*2)).
Definition is_status (s : QueueStatus) (q : ScanQueue) : bool := bool_decide (q_status q = s).

(** The counts of the batch's items: succeeded, failed, all. *)
Definition batch_counts (batch_id : uuid) (d : Db) : Z * Z * Z :=
  (count_items (is_status Queue_SUCCEEDED) batch_id d, count_items (is_status Queue_FAILED) batch_id d,
   count_items (fun _ => true) batch_id d).

Definition counted_batch (counts : Z * Z * Z) (now : instant) (b : ScanBatch) : ScanBatch :=
  let '(completed, failed, total) := counts in
  let b := set_sb_failed_count failed (set_sb_completed_count completed b) in
  if completed + failed =? total
  then set_sb_finished_at (Some now)
         (set_sb_status (if failed =? 0 then Batch_SUCCEEDED else Batch_PARTIAL) b)
  else b.

Definition finish_batch (work : ClaimedWork) (counts : Z * Z * Z) (now : instant) (d : Db) : Db :=
  set_scan_batches (alter (counted_batch counts now) (cw_batch_id work) (scan_batches d)) d.

Definition finish_work (work : ClaimedWork) (succeeded : bool) (error : option pystr) : M unit :=
  let! now <- clock;
  do! modify_db (finish_item work succeeded error now);
  let! d <- get_db;
  let counts := batch_counts (cw_batch_id work) d in
  do! modify_db (finish_batch work counts now);
  commit.

(** Two completions under READ COMMITTED that count before either commits: each sees its own item
    finished and the other's still running; the batch row is then written one after the other. *)
Definition concurrent_finish (w1 w2 : ClaimedWork) (now : instant) (d : Db) : Db :=
  let counts1 := batch_counts (cw_batch_id w1) (finish_item w1 true None now d) in
  let counts2 := batch_counts (cw_batch_id w2) (finish_item w2 true None now d) in
  finish_batch w2 counts2 now
    (finish_batch w1 counts1 now (finish_item w2 true None now (finish_item w1 true None now d))).

End Batches.

(** ** Lemmas: patterns *)

Definition escape_one (c : Z) : pystr := if (c =? 92) || (c =? 37) || (c =? 95) then [92; c] else [c].

Lemma flat_map_flat_map {A} (f g : A -> list A) l :
  flat_map g (flat_map f l) = flat_map (fun x => flat_map g (f x)) l.
Proof. induction l as [|x l IH]; [done|]. cbn [flat_map]. by rewrite flat_map_app, IH. Qed.

Lemma escape_like_flat v : escape_like v = flat_map escape_one v.
Proof.
  unfold escape_like, replace_char. rewrite !flat_map_flat_map. apply flat_map_ext. intros c.
  unfold escape_one. destruct (c =? 92) eqn:E1; [apply Z.eqb_eq in E1 as ->; reflexivity|].
  cbn [flat_map app orb]. destruct (c =? 37) eqn:E2; [apply Z.eqb_eq in E2 as ->; reflexivity|].
  cbn [flat_map app]. destruct (c =? 95) eqn:E3; [apply Z.eqb_eq in E3 as ->|]; reflexivity.
Qed.

Lemma like_escaped v p s :
  like (flat_map escape_one v ++ p) s = true <-> exists t, s = v ++ t /\ like p t = true.
Proof.
  revert s. induction v as [|c v IH]; intros s; cbn [flat_map app].
  { split; [eauto|by intros (t&->&?)]. }
  assert (Hstep : like (escape_one c ++ flat_map escape_one v ++ p) s
    = match s with x :: t => (x =? c) && like (flat_map escape_one v ++ p) t | [] => false end).
  { unfold escape_one. destruct (_ || _) eqn:E; cbn [app like]; [by destruct s|].
    apply orb_false_iff in E as [E E3]. apply orb_false_iff in E as [E1 E2]. by rewrite E1, E2, E3. }
  rewrite <- app_assoc, Hstep. destruct s as [|x s]; [split; [done|by intros (?&?&_)]|].
  rewrite andb_true_iff, Z.eqb_eq, IH. split.
  - intros [-> (t&->&Ht)]. by exists t.
  - intros (t&[= -> ->]&Ht). split; [done|]. by exists t.
Qed.

Lemma tails_spec s b : b ∈ tails s <-> exists a, s = a ++ b.
Proof.
  induction s as [|c s IH]; cbn [tails].
  - rewrite list_elem_of_singleton. split; [intros ->; by exists []|].
    intros (a&E). symmetry in E. by apply app_eq_nil in E as [_ ->].
  - rewrite elem_of_cons, IH. split.
    + intros [->|(a&->)]; [by exists []|by exists (c :: a)].
    + intros ([|x a]&E); [by left|]. injection E as -> ->. right. by exists a.
Qed.

Lemma like_percent p s : like (37 :: p) s = true <-> exists a b, s = a ++ b /\ like p b = true.
Proof.
  change (like (37 :: p) s) with (existsb (like p) (tails s)). rewrite existsb_exists. split.
  - intros (b&Hin&Hb). apply list_elem_of_In, tails_spec in Hin as [a ->]. by exists a, b.
  - intros (a&b&->&Hb). exists b. split; [|done]. apply list_elem_of_In, tails_spec. by exists a.
Qed.

Lemma like_any s : like [37] s = true.
Proof. apply like_percent. exists s, []. by rewrite app_nil_r. Qed.

Lemma citext_lower_cons `{Collation} c v : citext_lower (c :: v) = citext_char c :: citext_lower v.
Proof. reflexivity. Qed.

Lemma citext_escape `{CollationLaws} v :
  citext_lower (flat_map escape_one v) = flat_map escape_one (citext_lower v).
Proof.
  unfold citext_lower. induction v as [|c v IH]; [done|]. cbn [flat_map map].
  rewrite map_app, IH. f_equal. unfold escape_one at 1.
  destruct ((c =? 92) || (c =? 37) || (c =? 95)) eqn:E.
  - assert (Hc : special_char c) by (unfold special_char; lia).
    cbn [map]. rewrite (citext_special 92), (citext_special c) by (done || unfold special_char; lia).
    unfold escape_one. by rewrite E.
  - cbn [map]. unfold escape_one.
    destruct ((citext_char c =? 92) || (citext_char c =? 37) || (citext_char c =? 95)) eqn:E2; [|done].
    rewrite citext_not_special in E2 by (unfold special_char; lia). congruence.
Qed.

(** ** Lemmas: the queue *)

Lemma queue_order_total a b : queue_order a b = true \/ queue_order b a = true.
Proof. unfold queue_order. lia. Qed.
Lemma queue_order_trans a b c : queue_order a b = true -> queue_order b c = true -> queue_order a c = true.
Proof. unfold queue_order. lia. Qed.

Section QueueLemmas.
Context `{Unicode} `{Entropy} `{HeapOrderLaws} `{Collation}.

Definition queue_keyed (d : Db) : Prop := forall k q, scan_queue d !! k = Some q -> q_id q = k.

Lemma claim_candidate_Some d t q :
  claim_candidate d t = Some q ->
  claimable t q = true /\ (exists k, scan_queue d !! k = Some q) /\
  forall k x, scan_queue d !! k = Some x -> claimable t x = true -> queue_order q x = true.
Proof using Type*.
  unfold claim_candidate. destruct (sort_by _ _) as [|x l] eqn:E; [done|]. intros [= ->].
  apply sort_by_head in E as [Hin Hall]; [|apply queue_order_total|apply queue_order_trans].
  apply elem_of_select in Hin as [Hc Hk]. split; [done|]. split; [done|]. intros k y Hy Hcy.
  rewrite Forall_forall in Hall. apply Hall, elem_of_select. eauto.
Qed.

Lemma claim_candidate_None d t :
  claim_candidate d t = None -> forall k q, scan_queue d !! k = Some q -> claimable t q = false.
Proof using Type*.
  unfold claim_candidate. destruct (sort_by _ _) as [|x l] eqn:E; [|done]. intros _.
  apply select_nil. apply Permutation_nil_r. rewrite <- E. symmetry. apply sort_by_perm.
Qed.

Lemma claim_next_inv worker w r w' :
  queue_keyed (w_db w) -> claim_next worker w = (Ok r, w') ->
  match r with
  | None => w' = w /\ claim_candidate (w_db w) (w_now w) = None
  | Some work =>
      exists q s, claim_candidate (w_db w) (w_now w) = Some q /\
        scan_queue (w_db w) !! q_id q = Some q /\ subjects (w_db w) !! q_subject_id q = Some s /\
        work = mkClaimedWork (q_id q) (q_batch_id q) (q_subject_id q) (su_value_norm s) /\
        scan_queue (w_db w') = <[q_id q := claimed_row worker (w_now w) q]> (scan_queue (w_db w)) /\
        scan_batches (w_db w') = alter (start_batch (w_now w)) (q_batch_id q) (scan_batches (w_db w)) /\
        w_now w' = w_now w /\ w_committed w' = w_db w'
  end.
Proof using Type*.
  intros Hk. unfold claim_next, claim_statement, mbind at 1 2, clock at 1. unfold mbind at 1, get_db at 1.
  cbn [default]. destruct (claim_candidate _ _) as [q|] eqn:E.
  - destruct (claim_candidate_Some _ _ _ E) as (_&[k Hq]&_). pose proof (Hk _ _ Hq) as <-.
    unfold mbind, modify_db, get_db, scalar_one, clock, commit, mret, raise, with_db; cbn.
    destruct (subjects (w_db w) !! q_subject_id q) as [s|] eqn:Es; [|done]. intros [= <- <-].
    exists q, s. by repeat split.
  - unfold mbind, mret. by intros [= <- <-].
Qed.

(** A row that is taken, since [t0] at the earliest, or finished. *)
Definition held (id : uuid) (t0 : instant) (d : Db) : Prop :=
  exists q, scan_queue d !! id = Some q /\
    ((q_status q = Queue_RUNNING /\ exists t, q_locked_at q = Some t /\ t0 <= t) \/
     q_status q = Queue_SUCCEEDED \/ q_status q = Queue_FAILED).

Lemma held_not_claimable id t0 d t q :
  held id t0 d -> t <= t0 + STALE_AFTER -> scan_queue d !! id = Some q -> claimable t q = false.
Proof using Type.
  intros (q'&Hq'&Hst) Ht Hq. rewrite Hq in Hq'. injection Hq' as <-. unfold claimable.
  destruct Hst as [[Hs (u&Hu&Hle)]|[Hs|Hs]]; rewrite Hs; [|done|done].
  rewrite Hu. cbn. apply Z.ltb_ge. lia.
Qed.

Inductive queue_step (w : World) : World -> Prop :=
| step_claim worker r w' : claim_next worker w = (Ok r, w') -> queue_step w w'
| step_finish work ok err w' : finish_work work ok err w = (Ok tt, w') -> queue_step w w'
| step_time t : w_now w <= t -> queue_step w (mkWorld (w_db w) (w_committed w) (w_draws w) t).

Lemma queue_step_keyed w w' : queue_keyed (w_db w) -> queue_step w w' -> queue_keyed (w_db w').
Proof using Type*.
  intros Hk [worker r w'' Hc|work ok err w'' Hf|t _]; [| |done].
  - apply claim_next_inv in Hc; [|done]. destruct r as [work|]; [|by destruct Hc as [-> _]].
    destruct Hc as (q&s&_&_&_&_&Hq&_). intros k x. rewrite Hq.
    intros [[<- <-]|[_ Hx]]%lookup_insert_Some; [done|by apply Hk].
  - revert Hf. unfold finish_work, mbind, clock, modify_db, get_db, commit, with_db. intros [= <-].
    intros k x. cbn. rewrite lookup_alter. destruct (decide _) as [->|]; [|by apply Hk].
    intros (y&Hy&->)%fmap_Some. unfold finished_row. destruct (bool_decide _); by apply (Hk k y).
Qed.

Lemma queue_step_time w w' : queue_keyed (w_db w) -> queue_step w w' -> w_now w <= w_now w'.
Proof using Type*.
  intros Hk [worker r w'' Hc|work ok err w'' Hf|t Ht]; [| |done].
  - apply claim_next_inv in Hc; [|done]. destruct r as [work|]; [|destruct Hc as [-> _]; lia].
    destruct Hc as (q&s&_&_&_&_&_&_&->&_). lia.
  - revert Hf. unfold finish_work, mbind, clock, modify_db, get_db, commit, with_db. intros [= <-]. cbn. lia.
Qed.

Lemma queue_step_held id t0 w w' :
  queue_keyed (w_db w) -> w_now w <= t0 + STALE_AFTER -> held id t0 (w_db w) -> queue_step w w' ->
  held id t0 (w_db w').
Proof using Type*.
  intros Hk Ht Hh [worker r w'' Hc|work ok err w'' Hf|t _]; [| |done].
  - apply claim_next_inv in Hc; [|done]. destruct r as [work|]; [|by destruct Hc as [-> _]].
    destruct Hc as (q&s&Hc&Hq&_&_&Hqs&_). destruct (claim_candidate_Some _ _ _ Hc) as (Hcl&_&_).
    destruct (decide (id = q_id q)) as [->|Hne].
    + rewrite (held_not_claimable _ _ _ _ _ Hh Ht Hq) in Hcl. done.
    + destruct Hh as (x&Hx&Hst). exists x. split; [|done]. rewrite Hqs. by rewrite lookup_insert_ne.
  - revert Hf. unfold finish_work, mbind, clock, modify_db, get_db, commit, with_db. intros [= <-].
    destruct Hh as (x&Hx&Hst). unfold held. cbn. rewrite lookup_alter. destruct (decide _) as [->|].
    + rewrite Hx. eexists. split; [done|]. unfold finished_row.
      destruct (bool_decide _) eqn:E; [|done]. cbn. right. destruct ok; auto.
    + by exists x.
Qed.

(** *** Counting *)

Lemma count_complete {A} (batch a b : A -> bool) (l : list A) :
  (forall x, a x && b x = false) ->
  (length (List.filter (fun x => batch x && a x) l) + length (List.filter (fun x => batch x && b x) l))%nat
    = length (List.filter (fun x => batch x && true) l)
  <-> Forall (fun x => batch x = true -> a x = true \/ b x = true) l.
Proof using Type.
  intros Hdis.
  assert (Hle : forall l, (length (List.filter (fun x => batch x && a x) l)
      + length (List.filter (fun x => batch x && b x) l) <= length (List.filter (fun x => batch x && true) l))%nat).
  { clear l. induction l as [|x l IH]; [done|]. cbn [List.filter]. specialize (Hdis x).
    destruct (batch x), (a x), (b x); cbn in *; (done || lia). }
  induction l as [|x l IH]; [done|]. cbn [List.filter]. rewrite Forall_cons, <- IH.
  specialize (Hle l). specialize (Hdis x).
  destruct (batch x), (a x), (b x); cbn in *; try done; split; try lia.
  all: try (intros Heq; split; [auto|lia]). all: try (intros [Hx Heq]; lia).
  all: intros [Hx Heq]; destruct (Hx eq_refl); done.
Qed.

Definition of_batch (batch_id : uuid) (d : Db) (P : ScanQueue -> Prop) : Prop :=
  forall k q, scan_queue d !! k = Some q -> q_batch_id q = batch_id -> P q.
Definition finished (q : ScanQueue) : Prop := q_status q = Queue_SUCCEEDED \/ q_status q = Queue_FAILED.

Lemma Forall_items batch_id d (P : ScanQueue -> Prop) :
  Forall (fun q => bool_decide (q_batch_id q = batch_id) = true -> P q) (map_to_list (scan_queue d)).*2
  <-> of_batch batch_id d P.
Proof using Type.
  rewrite Forall_forall. split.
  - intros Hall k q Hq Hb. apply Hall; [|by apply bool_decide_eq_true].
    apply list_elem_of_fmap. exists (k, q). by rewrite elem_of_map_to_list.
  - intros Hall q Hin Hb. apply list_elem_of_fmap in Hin as ([k q']&->&Hin).
    apply elem_of_map_to_list in Hin. apply bool_decide_eq_true in Hb. by eapply Hall.
Qed.

Lemma counts_complete batch_id d completed failed total :
  batch_counts batch_id d = (completed, failed, total) ->
  completed + failed = total <-> of_batch batch_id d finished.
Proof using Type.
  unfold batch_counts, count_items. intros [= <- <- <-]. rewrite <- Nat2Z.inj_add, Nat2Z.inj_iff, count_complete.
  - rewrite Forall_items. unfold of_batch, finished, is_status. by setoid_rewrite bool_decide_eq_true.
  - intros q. unfold is_status. destruct (q_status q); reflexivity.
Qed.

Lemma none_failed batch_id d completed failed total :
  batch_counts batch_id d = (completed, failed, total) ->
  failed = 0 <-> of_batch batch_id d (fun q => q_status q <> Queue_FAILED).
Proof using Type.
  unfold batch_counts, count_items. intros [= <- <- <-]. rewrite <- Forall_items. change 0 with (Z.of_nat 0).
  rewrite Nat2Z.inj_iff.
  induction ((map_to_list (scan_queue d)).*2) as [|q l IH]; [done|]. cbn [List.filter].
  rewrite Forall_cons, <- IH. unfold is_status at 1.
  destruct (bool_decide (q_batch_id q = batch_id)), (q_status q); cbn; split;
    try done; try (intros ->; split; [by intros|done]); try (by intros [? ?]);
    intros [Hq _]; by destruct (Hq eq_refl).
Qed.

Lemma finished_row_batch ok err now q : q_batch_id (finished_row ok err now q) = q_batch_id q.
Proof using Type. unfold finished_row. by destruct (bool_decide _). Qed.

End QueueLemmas.

(** ** Lemmas: what creating a batch does *)

Definition subjects_keyed (d : Db) : Prop := forall k s, subjects d !! k = Some s -> su_id s = k.

(** Queueing only adds: users and findings are as they were, batches, items and messages stay, and a
    subject keeps what it names. *)
Record grows (d d' : Db) : Prop := {
  grows_users : users d' = users d;
  grows_findings : findings d' = findings d;
  grows_batches : scan_batches d ⊆ scan_batches d';
  grows_queue : scan_queue d ⊆ scan_queue d';
  grows_notifications : notifications d ⊆ notifications d';
  grows_subjects : forall k s, subjects d !! k = Some s ->
    exists s', subjects d' !! k = Some s' /\ su_kind s' = su_kind s /\ su_value_norm s' = su_value_norm s;
}.

#[export] Instance grows_preorder : PreOrder grows.
Proof.
  split.
  - intros d. split; try done. intros k s Hs. by exists s.
  - intros d1 d2 d3 [Hu Hf Hb Hq Hn Hs] [Hu' Hf' Hb' Hq' Hn' Hs']. split; try congruence.
    + by etransitivity.
    + by etransitivity.
    + by etransitivity.
    + intros k s Hk. destruct (Hs k s Hk) as (s1&H1&Hk1&Hv1). destruct (Hs' k s1 H1) as (s2&H2&Hk2&Hv2).
      exists s2. split; [done|]. split; congruence.
Qed.

(** Creating and queueing touch neither users, findings nor messages. *)
Lemma grows_of d d' :
  users d' = users d -> findings d' = findings d -> notifications d' = notifications d ->
  scan_batches d ⊆ scan_batches d' -> scan_queue d ⊆ scan_queue d' ->
  (forall k s, subjects d !! k = Some s ->
     exists s', subjects d' !! k = Some s' /\ su_kind s' = su_kind s /\ su_value_norm s' = su_value_norm s) ->
  grows d d'.
Proof. intros Hu Hf Hn Hb Hq Hs. split; try done. by rewrite Hn. Qed.

Lemma same_subjects (d d' : Db) : subjects d' = subjects d -> forall k s, subjects d !! k = Some s ->
  exists s', subjects d' !! k = Some s' /\ su_kind s' = su_kind s /\ su_value_norm s' = su_value_norm s.
Proof. intros E k s Hs. exists s. by rewrite E. Qed.

(** The user's address is queued in the batch. *)
Definition user_queued `{Unicode} (batch_id : uuid) (u : User) (d : Db) : Prop :=
  exists k q s, scan_queue d !! k = Some q /\ q_batch_id q = batch_id /\
    subjects d !! q_subject_id q = Some s /\ su_kind s = Kind_EMAIL /\ su_value_norm s = casefold (u_email u).

Lemma user_queued_grows `{Unicode} batch_id u d d' : grows d d' -> user_queued batch_id u d -> user_queued batch_id u d'.
Proof.
  intros Hg (k&q&s&Hq&Hb&Hs&Hk&Hv). destruct (grows_subjects _ _ Hg _ _ Hs) as (s'&Hs'&Hk'&Hv').
  exists k, q, s'. split; [by apply (lookup_weaken _ _ _ _ Hq), Hg|]. split; [done|]. split; [done|]. split; congruence.
Qed.

Section Creation.
Context `{Unicode} `{Entropy} `{HeapOrderLaws} `{Collation}.

Lemma upsert_email_subject_spec u w s w' :
  subjects_keyed (w_db w) -> upsert_email_subject u w = (Ok s, w') ->
  grows (w_db w) (w_db w') /\ subjects_keyed (w_db w') /\ scan_queue (w_db w') = scan_queue (w_db w) /\
  subjects (w_db w') !! su_id s = Some s /\ su_kind s = Kind_EMAIL /\ su_value_norm s = casefold (u_email u).
Proof using Type.
  intros Hk. unfold upsert_email_subject, mbind, uuid4, get_db, lift, modify_db, with_db, mret. cbn [w_db]. split_find s0 Ef.
  - apply find_row_Some in Ef as [Hp [k Hs0]]. pose proof (Hk _ _ Hs0) as <-. unfold same_subject in Hp. bools.
    intros [= <- <-]. cbn. split.
    + apply grows_of; try done. cbn. intros k s Hs. destruct (decide (su_id s0 = k)) as [<-|Hne].
      * eexists. rewrite lookup_insert_eq. split; [done|]. rewrite Hs0 in Hs. by injection Hs as <-.
      * exists s. by rewrite lookup_insert_ne.
    + split; [|split; [done|split; [apply lookup_insert_eq|by split]]].
      intros k s Hs. cbn in Hs. apply lookup_insert_Some in Hs as [[<- <-]|[_ Hs]]; [done|by apply Hk].
  - split_insert t Ei; [|done]. apply insert_row_inv in Ei as (_&Hnew&->). intros [= <- <-]. cbn. split.
    + apply grows_of; try done. cbn. intros k s Hs. exists s. rewrite lookup_insert_ne; [done|]. intros <-. congruence.
    + split; [|split; [done|split; [apply lookup_insert_eq|by split]]].
      intros k s Hs. cbn in Hs. apply lookup_insert_Some in Hs as [[<- <-]|[_ Hs]]; [done|by apply Hk].
Qed.

Lemma enqueue_user_spec batch_id u w w' :
  subjects_keyed (w_db w) -> enqueue_user batch_id u w = (Ok tt, w') ->
  grows (w_db w) (w_db w') /\ subjects_keyed (w_db w') /\ user_queued batch_id u (w_db w').
Proof using Type.
  intros Hk. unfold enqueue_user. intros (s&w1&Eu&E)%mbind_inv.
  apply upsert_email_subject_spec in Eu as (Hg&Hk1&_&Hs&Hkind&Hnorm); [|done].
  unfold mbind, uuid4, get_db, clock in E. cbn [w_db w_now] in E. revert E. split_find q0 Ef.
  - intros [= <-]. cbn. apply find_row_Some in Ef as [Hp [k Hq]]. unfold queued_for in Hp. bools.
    split; [done|]. split; [done|]. exists k, q0, s. by repeat split; try congruence.
  - unfold lift. split_insert t Ei; [|done]. apply insert_row_inv in Ei as (_&Hnew&->).
    unfold modify_db, with_db. intros [= <-]. cbn. split; [etransitivity; [exact Hg|]|].
    + apply grows_of; try done; [|by apply same_subjects]. cbn. by apply insert_subseteq.
    + split; [done|]. eexists _, _, s. split; [apply lookup_insert_eq|]. by repeat split.
Qed.

Lemma enqueue_users_spec batch_id l w ys w' :
  subjects_keyed (w_db w) -> mfor (enqueue_user batch_id) l w = (Ok ys, w') ->
  grows (w_db w) (w_db w') /\ subjects_keyed (w_db w') /\ forall u, u ∈ l -> user_queued batch_id u (w_db w').
Proof using Type.
  revert w ys. induction l as [|u l IH]; intros w ys Hk; cbn [mfor].
  - intros [= <- <-]. split; [reflexivity|]. split; [done|]. intros u Hu. by apply elem_of_nil in Hu.
  - intros ([]&w1&E1&(ys1&w2&E2&E3)%mbind_inv)%mbind_inv. injection E3 as <- <-.
    apply enqueue_user_spec in E1 as (Hg&Hk1&Hu); [|done]. destruct (IH w1 ys1 Hk1 E2) as (Hg'&Hk'&Hall).
    split; [by etransitivity|]. split; [done|]. intros u' [->|Hin]%elem_of_cons; [by eapply user_queued_grows|by apply Hall].
Qed.

Lemma enqueue_users_batches batch_id l : keeps scan_batches (mfor (enqueue_user batch_id) l).
Proof using Type. unfold enqueue_user, upsert_email_subject. frame. Qed.

(** The users of a target that are active. *)
Definition chosen_users (matches : User -> bool) (d : Db) : list User :=
  select (fun u => u_is_active u && matches u) (users d).

(** A batch of [actor] for the target, new in [d'], waiting, with an item for every active user of the
    target. *)
Definition batch_created (actor : uuid) (target_type : BatchTarget) (value : TargetValue) (d d' : Db)
    (batch : ScanBatch) : Prop :=
  exists matches target, target_filter target_type value = Ok (matches, target) /\
    scan_batches d !! sb_id batch = None /\ scan_batches d' !! sb_id batch = Some batch /\
    sb_target_type batch = target_type /\ sb_target batch = target /\ sb_status batch = Batch_PENDING /\
    sb_created_by batch = actor /\ sb_total_count batch = Z.of_nat (length (chosen_users matches d)) /\
    0 < sb_total_count batch /\
    forall u, u ∈ chosen_users matches d -> user_queued (sb_id batch) u d'.

Lemma batch_created_grows actor target_type value d0 d d' d1 batch :
  grows d0 d -> grows d' d1 -> batch_created actor target_type value d d' batch ->
  batch_created actor target_type value d0 d1 batch.
Proof using Type.
  intros Hg Hg' (matches&target&Ht&Hnew&Hb&Ha1&Ha2&Ha3&Ha4&Ha5&Ha6&Ha7). exists matches, target.
  unfold chosen_users in *. rewrite <- (grows_users _ _ Hg).
  split; [done|]. split; [by eapply lookup_weaken_None, Hg|]. split; [by eapply lookup_weaken, Hg'|].
  do 6 (split; [done|]). intros u Hu. eapply user_queued_grows; [exact Hg'|by apply Ha7].
Qed.

Lemma create_batch_spec actor target_type value w batch w' :
  subjects_keyed (w_db w) -> create_batch actor target_type value w = (Ok batch, w') ->
  grows (w_db w) (w_db w') /\ subjects_keyed (w_db w') /\
  batch_created actor target_type value (w_db w) (w_db w') batch /\
  scan_batches (w_db w') = <[sb_id batch := batch]> (scan_batches (w_db w)).
Proof using Type*.
  intros Hk. unfold create_batch. intros ([matches target]&w0&[Ht ->]%lift_inv&E)%mbind_inv.
  unfold mbind at 1, get_db in E. cbn [w_db] in E. fold (chosen_users matches (w_db w)) in E.
  pose proof (sort_by_perm (fun a b => citext_leb (u_email a) (u_email b)) (chosen_users matches (w_db w))) as Hperm.
  destruct (sort_by _ _) as [|u0 l] eqn:El; [done|]. set (chosen := u0 :: l) in *.
  unfold mbind at 1, uuid4 in E. unfold mbind at 1, clock in E. cbn [w_now] in E.
  apply mbind_inv in E as (t&w1&[Ei ->]%lift_inv&E). apply insert_row_inv in Ei as (_&Hnew&->).
  unfold mbind at 1, modify_db, with_db in E. cbn [w_db w_committed w_draws w_now] in E.
  set (batch0 := mkScanBatch _ _ _ _ _ _ _ _ _ _ _) in *. set (w1 := mkWorld _ _ _ _) in E.
  apply mbind_inv in E as (ys&w2&E&E2). injection E2 as <- <-.
  pose proof (enqueue_users_batches (sb_id batch0) chosen w1) as [Hkeep _]. cbn [sb_id batch0] in Hkeep, E. rewrite E in Hkeep.
  apply enqueue_users_spec in E as (Hg&Hk2&Hall); [|exact Hk].
  assert (Hg1 : grows (w_db w) (w_db w1)).
  { apply grows_of; try done; [|by apply same_subjects]. by apply insert_subseteq. }
  split; [by etransitivity|]. split; [done|]. split; [|exact Hkeep]. exists matches, target. split; [done|]. split; [exact Hnew|].
  split; [eapply lookup_weaken; [apply lookup_insert_eq|apply Hg]|]. do 4 (split; [done|]).
  split; [change (Z.of_nat (length chosen) = Z.of_nat (length (chosen_users matches (w_db w)))); by rewrite (Permutation_length Hperm)|]. split; [cbn; lia|].
  intros u Hu. apply Hall. by rewrite Hperm.
Qed.

(** A [ValueError] of [create_batch] for a textual target means that it names no active user, and
    nothing has changed. *)
Lemma create_batch_value_error actor target_type text w e w' :
  target_type <> Target_SELECTION ->
  create_batch actor target_type (inl text) w = (Raise e, w') -> is_value_error e = true ->
  w' = w /\ exists matches target, target_filter target_type (inl text) = Ok (matches, target) /\
    chosen_users matches (w_db w) = [].
Proof using Type*.
  intros Ht E He. unfold create_batch in E.
  assert (Hf : exists matches target, target_filter target_type (inl text) = Ok (matches, target))
    by (destruct target_type; cbn; by eauto). destruct Hf as (matches&target&Hf).
  unfold mbind at 1, lift in E. rewrite Hf in E. unfold mbind at 1, get_db in E. cbn [w_db] in E.
  fold (chosen_users matches (w_db w)) in E.
  pose proof (sort_by_perm (fun a b => citext_leb (u_email a) (u_email b)) (chosen_users matches (w_db w))) as Hperm.
  destruct (sort_by _ _) as [|u0 l] eqn:El.
  - injection E as <- <-. split; [done|]. exists matches, target. split; [done|]. symmetry. by apply Permutation_nil_l.
  - exfalso. match type of E with ?c w = _ => assert (Hr : raises (fun e => is_value_error e = false) c) end.
    { unfold enqueue_user, upsert_email_subject. raises. }
    apply (raises_inv _ _ _ _ _ Hr) in E. congruence.
Qed.

End Creation.

(** ** Properties *)

Section BatchProperties.
Context `{Unicode} `{Entropy} `{HeapOrderLaws} `{CollationLaws}.

(** What a batch target selects.  An organisational-unit target selects the users of that unit
    and of the units below it, whatever LIKE metacharacters its path holds; a domain target selects
    the users whose address, case folded, ends with an at sign and the domain; a selection selects
    its identifiers.  A target whose value has the wrong shape is refused. *)
Theorem target_filter_selects target_type value :
  match target_filter target_type value with
  | Raise e => e = ValueError /\ (target_type = Target_SELECTION <-> exists t, value = inl t)
  | Ok (matches, _) => forall u, matches u = true <->
      match value with
      | inr ids => u_id u ∈ ids
      | inl text => match target_type with
          | Target_OU => exists p, u_ou_path u = Some p /\
              (p = text \/ exists below, p = rstrip_by (Z.eqb 47) text ++ 47 :: below)
          | _ => exists local, citext_lower (u_email u)
              = local ++ 64 :: citext_lower (lstrip_by (Z.eqb 64) (casefold text))
          end
      end
  end.
Proof using Type*.
  destruct target_type, value as [text|ids]; cbn [target_filter].
  2,4,5: split; [done|]; split; try done; try (intros _; by eexists); by intros [? ?].
  - intros u. destruct (u_ou_path u) as [p|]; [|split; [done|by intros (?&?&_)]].
    rewrite orb_true_iff, bool_decide_eq_true. unfold escaped_ou_prefix. rewrite escape_like_flat, like_escaped.
    split.
    + intros [->|(t&->&_)]; eexists; (split; [reflexivity|]); [by left|right]. exists t. by rewrite <- app_assoc.
    + intros (q&[= ->]&[->|(b&->)]); [by left|right]. exists b. rewrite <- app_assoc. split; [done|apply like_any].
  - intros u. unfold ilike. rewrite escape_like_flat.
    rewrite !citext_lower_cons, (citext_special 37), (citext_special 64) by (unfold special_char; lia).
    rewrite citext_escape, like_percent. split.
    + intros (a&b&->&Hb). exists a. destruct b as [|x b]; [done|].
      cbn [like Z.eqb Pos.eqb] in Hb. apply andb_true_iff in Hb as [->%Z.eqb_eq Hb].
      rewrite <- (app_nil_r (flat_map _ _)) in Hb. apply like_escaped in Hb as (t&->&Ht).
      destruct t; [|done]. by rewrite app_nil_r.
    + intros (a&->). eexists a, _. split; [done|]. cbn [like Z.eqb Pos.eqb]. rewrite andb_true_iff. split; [done|].
      rewrite <- (app_nil_r (flat_map _ _)). apply like_escaped. exists []. by rewrite app_nil_r.
  - intros u. apply bool_decide_eq_true.
Qed.

(** C14: Claims are exclusive and first come first served.  A claim takes the oldest claimable row
    of the queue; whatever claims, completions and waiting follow it, no claim returns the same row
    before the claim is stale. *)
Theorem claim_exclusive worker work w w1 w2 :
  queue_keyed (w_db w) -> claim_next worker w = (Ok (Some work), w1) ->
  (exists q, scan_queue (w_db w) !! cw_queue_id work = Some q /\ claimable (w_now w) q = true /\
     forall k x, scan_queue (w_db w) !! k = Some x -> claimable (w_now w) x = true -> queue_order q x = true) /\
  (rtc queue_step w1 w2 -> w_now w2 <= w_now w + STALE_AFTER ->
   forall worker' work' w3, claim_next worker' w2 = (Ok (Some work'), w3) ->
     cw_queue_id work' <> cw_queue_id work).
Proof using Type*.
  intros Hk Hc. pose proof (queue_step_keyed _ _ Hk (step_claim _ _ _ _ Hc)) as Hk1.
  apply claim_next_inv in Hc; [|done].
  destruct Hc as (q&s&Hcand&Hq&_&->&Hqs&_&Hnow&_). cbn [cw_queue_id].
  destruct (claim_candidate_Some _ _ _ Hcand) as (Hcl&_&Hmin). split; [by exists q|].
  intros Hrtc Ht worker' work' w3 Hc' Heq.
  assert (Hh : held (q_id q) (w_now w) (w_db w1)).
  { eexists. rewrite Hqs, lookup_insert_eq. split; [done|]. left. cbn. split; [done|]. eexists. split; [done|lia]. }
  assert (Hinv : queue_keyed (w_db w2) /\ held (q_id q) (w_now w) (w_db w2)).
  { clear Hc' Hnow Hqs. induction Hrtc as [|a b c Hstep Hrtc IH]; [done|].
    assert (Hkb := queue_step_keyed _ _ Hk1 Hstep).
    assert (Hle : w_now b <= w_now c).
    { clear -Hrtc Hkb H2 H0 H1. induction Hrtc as [|x y z Hxy _ IH]; [lia|].
      pose proof (queue_step_time _ _ Hkb Hxy). specialize (IH (queue_step_keyed _ _ Hkb Hxy)). lia. }
    pose proof (queue_step_time _ _ Hk1 Hstep).
    apply IH; [done|done|]. apply (queue_step_held _ _ a); [done|lia|done|done]. }
  destruct Hinv as [Hk2 Hh2]. apply claim_next_inv in Hc'; [|done].
  destruct Hc' as (q'&s'&Hcand'&Hq'&_&->&_). cbn in Heq. rewrite <- Heq in Hh2.
  destruct (claim_candidate_Some _ _ _ Hcand') as (Hcl'&_&_).
  by rewrite (held_not_claimable _ _ _ _ _ Hh2 Ht Hq') in Hcl'.
Qed.

(** The completion of one item brings its batch up to date: the counts are those of the queue
    with the item finished, the batch leaves RUNNING exactly when every item of it has finished, and
    it ends SUCCEEDED only when no item failed. *)
Theorem finish_work_accounts work ok err w b w' :
  scan_batches (w_db w) !! cw_batch_id work = Some b -> sb_status b = Batch_RUNNING ->
  finish_work work ok err w = (Ok tt, w') ->
  let d := w_db w' in
  (forall q, scan_queue (w_db w) !! cw_queue_id work = Some q -> q_status q = Queue_RUNNING ->
     exists q', scan_queue d !! cw_queue_id work = Some q' /\ q_locked_by q' = None /\
       q_status q' = if ok then Queue_SUCCEEDED else Queue_FAILED) /\
  (forall k, k <> cw_queue_id work -> scan_queue d !! k = scan_queue (w_db w) !! k) /\
  exists b', scan_batches d !! cw_batch_id work = Some b' /\
    batch_counts (cw_batch_id work) d
      = (sb_completed_count b', sb_failed_count b', count_items (fun _ => true) (cw_batch_id work) d) /\
    (sb_status b' <> Batch_RUNNING <-> of_batch (cw_batch_id work) d finished) /\
    (sb_status b' = Batch_SUCCEEDED <-> of_batch (cw_batch_id work) d (fun q => q_status q = Queue_SUCCEEDED)) /\
    w_committed w' = d.
Proof using Type*.
  intros Hb Hrun. unfold finish_work, mbind, clock, modify_db, get_db, commit, with_db. intros [= <-]. cbn zeta beta iota.
  cbn [w_db w_committed w_now].
  set (d1 := finish_item _ _ _ _ _). set (d2 := finish_batch _ _ _ d1).
  assert (Hqueue : scan_queue d2 = scan_queue d1) by reflexivity.
  assert (Hcount : batch_counts (cw_batch_id work) d2 = batch_counts (cw_batch_id work) d1) by reflexivity.
  split; [|split].
  - intros q Hq Hst. rewrite Hqueue. subst d1. unfold finish_item; cbn. rewrite lookup_alter_eq, Hq.
    eexists. split; [reflexivity|]. unfold finished_row. rewrite bool_decide_true by done. by cbn.
  - intros k Hk. rewrite Hqueue. subst d1. unfold finish_item; cbn. by rewrite lookup_alter_ne.
  - destruct (batch_counts (cw_batch_id work) d1) as [[c f] t] eqn:Ec.
    pose proof (counts_complete _ _ _ _ _ Ec) as Hall. pose proof (none_failed _ _ _ _ _ Ec) as Hnone.
    exists (counted_batch (c, f, t) (w_now w) b). split; [|split; [|split; [|split; [|reflexivity]]]].
    + subst d2. unfold finish_batch; cbn.
      by rewrite lookup_alter_eq, Hb.
    + rewrite Hcount. assert (Ht : count_items (fun _ => true) (cw_batch_id work) d2 = t)
        by exact (f_equal snd Hcount).
      rewrite Ht. unfold counted_batch. by destruct (_ =? _).
    + unfold of_batch in *. rewrite Hqueue, <- Hall. unfold counted_batch. destruct (c + f =? t) eqn:E.
      * apply Z.eqb_eq in E. split; [done|]. intros _. by destruct (_ =? _).
      * apply Z.eqb_neq in E. cbn. rewrite Hrun. split; [by intros Hn; destruct Hn|done].
    + unfold of_batch in *. rewrite Hqueue. unfold counted_batch. destruct (c + f =? t) eqn:E.
      * apply Z.eqb_eq in E. pose proof (proj1 Hall E) as Hfin. cbn. destruct (f =? 0) eqn:E0; cbn.
        -- apply Z.eqb_eq in E0. pose proof (proj1 Hnone E0) as Hnf. split; [|done]. intros _ k q Hq Hbid.
           destruct (Hfin k q Hq Hbid); [done|]. by destruct (Hnf k q Hq Hbid).
        -- apply Z.eqb_neq in E0. split; [done|]. intros Hs. destruct E0. apply (proj2 Hnone). intros k q Hq Hbid.
           by rewrite (Hs k q Hq Hbid).
      * apply Z.eqb_neq in E. cbn. rewrite Hrun. split; [done|]. intros Hs. destruct E. apply (proj2 Hall).
        intros k q Hq Hbid. left. by apply (Hs k).
Qed.

(** Two completions can lose the completion of their batch.  When the last two running items of
    a batch are finished by transactions that both count before either commits, every item ends
    finished, yet the batch stays RUNNING, and no item is left that would ever update it. *)
Theorem concurrent_finish_loses_completion w1 w2 now d q1 q2 b :
  let bid := cw_batch_id w1 in
  cw_batch_id w2 = bid -> cw_queue_id w1 <> cw_queue_id w2 ->
  scan_queue d !! cw_queue_id w1 = Some q1 -> scan_queue d !! cw_queue_id w2 = Some q2 ->
  q_status q1 = Queue_RUNNING -> q_status q2 = Queue_RUNNING ->
  q_batch_id q1 = bid -> q_batch_id q2 = bid ->
  (forall k q, scan_queue d !! k = Some q -> q_batch_id q = bid ->
     finished q \/ k = cw_queue_id w1 \/ k = cw_queue_id w2) ->
  scan_batches d !! bid = Some b -> sb_status b = Batch_RUNNING ->
  let d' := concurrent_finish w1 w2 now d in
  of_batch bid d' finished /\
  exists b', scan_batches d' !! bid = Some b' /\ sb_status b' = Batch_RUNNING.
Proof using Type*.
  intros bid Hbid Hne Hq1 Hq2 Hs1 Hs2 Hb1 Hb2 Hrest Hb Hrun d'.
  assert (Hopen : forall w q k x, cw_queue_id w <> k -> scan_queue d !! k = Some x -> q_batch_id x = bid ->
            q_status x = Queue_RUNNING -> forall c f t,
            batch_counts bid (finish_item w true q now d) = (c, f, t) -> (c + f =? t) = false).
  { intros w err k x Hk Hx Hxb Hxs c f t Ec. apply Z.eqb_neq. intros E. apply (counts_complete _ _ _ _ _ Ec) in E.
    destruct (E k x) as [Hx'|Hx']; [|done|congruence|congruence]. cbn. by rewrite lookup_alter_ne. }
  split.
  - intros k q. subst d'. unfold concurrent_finish, finish_batch, finish_item; cbn. rewrite !lookup_alter.
    intros Hq Hqb. destruct (decide (cw_queue_id w2 = k)) as [<-|Hk2].
    { rewrite decide_False, Hq2 in Hq by done. injection Hq as <-. unfold finished_row.
      rewrite bool_decide_true by done. by left. }
    destruct (decide (cw_queue_id w1 = k)) as [<-|Hk1].
    { rewrite Hq1 in Hq. injection Hq as <-. unfold finished_row. rewrite bool_decide_true by done. by left. }
    destruct (Hrest k q Hq Hqb) as [|[|]]; [done|congruence|congruence].
  - subst d'. unfold concurrent_finish. rewrite Hbid. fold bid.
    destruct (batch_counts bid (finish_item w1 true None now d)) as [[c1 f1] t1] eqn:E1.
    destruct (batch_counts bid (finish_item w2 true None now d)) as [[c2 f2] t2] eqn:E2.
    unfold finish_batch, finish_item; cbn [scan_batches set_scan_batches set_scan_queue]. rewrite Hbid. fold bid.
    rewrite !lookup_alter_eq, Hb. eexists. split; [reflexivity|]. unfold counted_batch.
    rewrite (Hopen _ _ (cw_queue_id w2) q2 Hne Hq2 Hb2 Hs2 _ _ _ E1).
    rewrite (Hopen _ _ (cw_queue_id w1) q1 (not_eq_sym Hne) Hq1 Hb1 Hs1 _ _ _ E2). done.
Qed.

End BatchProperties.

(** Two users, a queue with two items of one running batch. *)
Definition batch_user (id : uuid) (ou : pystr) : User :=
  mkUser id (py "a%b@Example.com") None [] (Some ou) Role_USER true Source_GOOGLE 0 None.
Definition batch_subject (id : uuid) : Subject :=
  mkSubject id Kind_EMAIL (py "a@example.com") (py "a@example.com") None None None.
Definition batch_item (id : uuid) (created : instant) : ScanQueue :=
  mkScanQueue id 9 id Queue_QUEUED 0 None None None created None.
Definition batch_world : World :=
  let d := set_scan_queue {[1 := batch_item 1 20; 2 := batch_item 2 10]}
    (set_subjects {[1 := batch_subject 1; 2 := batch_subject 2]}
      (set_scan_batches {[9 := mkScanBatch 9 Target_OU [] Batch_PENDING 7 2 0 0 5 None None]} empty_db)) in
  mkWorld d d 0 1000.
Definition running_world : World :=
  (@claim_next plain_heap (py "w2") (@claim_next plain_heap (py "w1") batch_world).2).2.
Definition batch_work (id : uuid) : ClaimedWork := mkClaimedWork id 9 id (py "a@example.com").

Lemma batch_world_keyed : queue_keyed (w_db batch_world).
Proof.
  intros k q Hq. change (({[1 := batch_item 1 20; 2 := batch_item 2 10]} : gmap Z ScanQueue) !! k = Some q) in Hq.
  apply lookup_insert_Some in Hq as [[<- <-]|[_ Hq]]; [done|].
  apply lookup_singleton_Some in Hq as [<- <-]. done.
Qed.

Lemma target_filter_selects_witness :
  match @target_filter ascii_unicode ascii_collation Target_OU (inl (py "/staff_%/")) with
  | Ok (matches, _) => matches (batch_user 3 (py "/staff_%/it")) = true
  | Raise _ => False
  end.
Proof.
  pose proof (@target_filter_selects ascii_unicode ascii_collation ascii_collation_laws Target_OU
    (inl (py "/staff_%/"))) as Hsel.
  destruct (@target_filter ascii_unicode ascii_collation Target_OU (inl (py "/staff_%/"))) as [[matches t]|e].
  - apply Hsel. exists (py "/staff_%/it"). split; [reflexivity|]. right. exists (py "it"). reflexivity.
  - destruct Hsel as [_ [_ Hs]]. discriminate Hs. by eexists.
Defined.

Lemma claim_exclusive_witness :
  let w1 := (@claim_next plain_heap (py "w1") batch_world).2 in
  (@claim_next plain_heap (py "w1") batch_world).1 = Ok (Some (batch_work 2)) /\
  exists work w3, @claim_next plain_heap (py "w2") w1 = (Ok (Some work), w3) /\ cw_queue_id work <> 2.
Proof.
  intros w1. split; [vm_compute; reflexivity|]. exists (batch_work 1), (@claim_next plain_heap (py "w2") w1).2.
  assert (E : @claim_next plain_heap (py "w2") w1
    = (Ok (Some (batch_work 1)), (@claim_next plain_heap (py "w2") w1).2)) by (vm_compute; reflexivity).
  split; [exact E|].
  refine (proj2 (@claim_exclusive plain_heap (Build_HeapOrderLaws plain_heap (fun A l => reflexivity l))
    (py "w1") (batch_work 2) batch_world w1 w1 batch_world_keyed _) _ _ (py "w2") (batch_work 1) _ E).
  - vm_compute. reflexivity.
  - apply rtc_refl.
  - vm_compute. discriminate.
Defined.

Lemma finish_work_accounts_witness :
  exists b', scan_batches (w_db (finish_work (batch_work 1) true None running_world).2) !! 9 = Some b' /\
    sb_completed_count b' = 1.
Proof.
  destruct (finish_work_accounts (batch_work 1) true None running_world
    (mkScanBatch 9 Target_OU [] Batch_RUNNING 7 2 0 0 5 (Some 1000) None)
    (finish_work (batch_work 1) true None running_world).2) as (_&_&b'&Hb&Hcount&_).
  - vm_compute. reflexivity.
  - reflexivity.
  - reflexivity.
  - exists b'. split; [exact Hb|]. apply (f_equal fst), (f_equal fst) in Hcount. cbn [fst] in Hcount.
    rewrite <- Hcount. vm_compute. reflexivity.
Defined.

Lemma concurrent_finish_loses_completion_witness :
  exists b', scan_batches (concurrent_finish (batch_work 1) (batch_work 2) 2000 (w_db running_world)) !! 9
    = Some b' /\ sb_status b' = Batch_RUNNING.
Proof.
  apply (concurrent_finish_loses_completion (batch_work 1) (batch_work 2) 2000 (w_db running_world)
    (claimed_row (py "w2") 1000 (batch_item 1 20)) (claimed_row (py "w1") 1000 (batch_item 2 10))
    (mkScanBatch 9 Target_OU [] Batch_RUNNING 7 2 0 0 5 (Some 1000) None));
    try (vm_compute; reflexivity); [discriminate|].
  intros k q Hq _. right.
  change ((<[1 := claimed_row (py "w2") 1000 (batch_item 1 20)]> (<[2 := claimed_row (py "w1") 1000 (batch_item 2 10)]>
    ({[1 := batch_item 1 20; 2 := batch_item 2 10]} : gmap Z ScanQueue))) !! k = Some q) in Hq.
  apply lookup_insert_Some in Hq as [[<- _]|[Hk1 Hq]]; [by left|].
  apply lookup_insert_Some in Hq as [[<- _]|[Hk2 Hq]]; [by right|].
  rewrite lookup_insert_ne in Hq by done. apply lookup_singleton_Some in Hq as [<- _]. done.
Defined.
