(* ===== verification/Session.v ===== *)
(** Server-side sessions (app/auth/session.py): issue, verify with a sliding idle deadline, revoke,
    and the browser cookie; the life of a session under every interleaving of those operations. *)
From S2P Require Import Prelude PyBase Encoding Hashes Json Models Store Config IpAddress.

Definition SESSION_COOKIE_NAME : pystr := py "__Host-leakcheck-session".
Definition TOKEN_BYTES : nat := 32.

Record IssuedSession := mkIssuedSession { is_token : pystr; is_expires_at : instant }.
Record VerifiedSession := mkVerifiedSession { vs_user : User; vs_expires_at : instant }.
Record SessionManager := mkSessionManager {
  idle_ttl : Z;
  absolute_ttl : Z;
  metadata_key : bytes;
}.

(** The arguments of a [Set-Cookie]: a missing [max_age] leaves a cookie of the browser session. *)
Record Cookie := mkCookie {
  ck_key : pystr;
  ck_value : pystr;
  ck_max_age : option Z;
  ck_path : pystr;
  ck_secure : bool;
  ck_httponly : bool;
  ck_samesite : pystr;
}.

Definition b64url_char (c : Z) : bool := ascii_alnum c || (c =? 45) || (c =? 95).
(** [^[A-Za-z0-9_-]{43}$] *)
Definition token_pattern (s : pystr) : bool := (length s =? 43)%nat && forallb b64url_char s.

(** [base64.urlsafe_b64encode(value).rstrip(b"=")] *)
Definition base64url (value : bytes) : pystr := rstrip_by (Z.eqb 61) (urlsafe_b64encode value).

(** [secrets.token_urlsafe] *)
Definition token_urlsafe `{Entropy} (n : nat) : M pystr :=
  let! b <- token_bytes n; mret (base64url b).

Definition new_session_manager (settings : Settings) : result SessionManager :=
  try! key <- utf8_encode (session_secret settings);
  Ok (mkSessionManager (timedelta_seconds (session_idle_ttl_seconds settings))
        (timedelta_seconds (session_absolute_ttl_seconds settings)) key).

Definition token_hash (token : pystr) : result bytes :=
  try! b <- ascii_encode token; Ok (sha256 b).

Definition validated_token_hash (token : option pystr) : result (option bytes) :=
  match token with
  | None => Ok None
  | Some t => if token_pattern t then try! h <- token_hash t; Ok (Some h) else Ok None
  end.

Definition metadata_hash (manager : SessionManager) (value : pystr) : result bytes :=
  try! b <- utf8_encode value; Ok (hmac_sha256 (metadata_key manager) b).

Definition put_session (s : Session) : M unit :=
  modify_db (fun d => set_sessions (<[se_id_hash s := s]> (sessions d)) d).

Section Session.
Context `{Entropy}.

Definition issue (manager : SessionManager) (user_id : uuid) (client_ip : pystr) (user_agent : option pystr)
    (now : option pydatetime) : M IssuedSession :=
  let! issued_at <- utc_now_m now;
  let! raw_token <- token_urlsafe TOKEN_BYTES;
  let expires_at := issued_at + absolute_ttl manager in
  let! id_hash <- lift (token_hash raw_token);
  let! ip <- lift (canonical_ip client_ip);
  let! ip_hash <- lift (metadata_hash manager ip);
  let! ua_hash <- lift (metadata_hash manager (default [] user_agent));
  let session := mkSession id_hash user_id issued_at expires_at issued_at
                   (Z.min (issued_at + idle_ttl manager) expires_at) ip_hash ua_hash None in
  let! d <- get_db;
  let! t <- lift (insert_row (Session_ok session && bool_decide (is_Some (users d !! user_id)))
                    id_hash session (sessions d));
  do! modify_db (set_sessions t);
  mret (mkIssuedSession raw_token expires_at).

(** The row of the join of sessions and users. *)
Definition session_and_user (token_digest : bytes) (d : Db) : option (Session * User) :=
  match sessions d !! token_digest with
  | Some session => match users d !! se_user_id session with
                    | Some user => Some (session, user)
                    | None => None
                    end
  | None => None
  end.

Definition verify (manager : SessionManager) (token : option pystr) (now : option pydatetime)
  : M (option VerifiedSession) :=
  let! token_digest <- lift (validated_token_hash token);
  match token_digest with
  | None => mret None
  | Some token_digest =>
      let! current_time <- utc_now_m now;
      let! d <- get_db;
      match session_and_user token_digest d with
      | None => mret None
      | Some (session, user) =>
          if bool_decide (is_Some (se_revoked_at session)) || negb (u_is_active user)
             || (se_expires_at session <=? current_time) || (se_idle_expires_at session <=? current_time)
          then mret None
          else
            let session := set_se_idle_expires_at
                (Z.min (se_expires_at session) (current_time + idle_ttl manager))
                (set_se_last_seen_at current_time session) in
            do! put_session session;
            mret (Some (mkVerifiedSession user (se_expires_at session)))
      end
  end.

Definition revoke (token : option pystr) (now : option pydatetime) : M bool :=
  let! token_digest <- lift (validated_token_hash token);
  match token_digest with
  | None => mret false
  | Some token_digest =>
      let! d <- get_db;
      match sessions d !! token_digest with
      | None => mret false
      | Some session =>
          if bool_decide (is_Some (se_revoked_at session)) then mret false
          else
            let! at_ <- utc_now_m now;
            do! put_session (set_se_revoked_at (Some at_) session);
            mret true
      end
  end.

Definition revocable (user_id : uuid) (s : Session) : bool :=
  bool_decide (se_user_id s = user_id) && negb (bool_decide (is_Some (se_revoked_at s))).

Definition revoke_all (user_id : uuid) (now : option pydatetime) : M Z :=
  let! at_ <- utc_now_m now;
  let! d <- get_db;
  do! modify_db (fun d => set_sessions
        ((fun s => if revocable user_id s then set_se_revoked_at (Some at_) s else s) <$> sessions d) d);
  mret (Z.of_nat (length (List.filter (revocable user_id) (map_to_list (sessions d)).*2))).

Definition set_cookie (issued : IssuedSession) (now : option pydatetime) : M Cookie :=
  let! current <- utc_now_m now;
  mret (mkCookie SESSION_COOKIE_NAME (is_token issued)
          (Some (Z.max 0 (Z.quot (is_expires_at issued - current) second))) (py "/") true true (py "lax")).

(** [delete_cookie] sets an empty value that expires at once. *)
Definition clear_cookie : Cookie :=
  mkCookie SESSION_COOKIE_NAME [] (Some 0) (py "/") true true (py "lax").

End Session.

(** ** Lemmas: tokens *)

Lemma b64_char_url d : 0 <= d < 64 -> b64url_char (b64_char d) = true.
Proof.
  intros Hd. unfold b64_char, b64url_char, ascii_alnum, ascii_alpha, ascii_upper, ascii_lowerc, ascii_digit.
  destruct (d <? 26) eqn:?; [lia|]. destruct (d <? 52) eqn:?; [lia|].
  destruct (d <? 62) eqn:?; [|destruct (d =? 62) eqn:?; lia]. lia.
Qed.

Lemma base64_two_left k b :
  length b = (3 * k + 2)%nat -> Forall (fun x => 0 <= x < 256) b ->
  exists t, urlsafe_b64encode b = t ++ [61] /\ length t = (4 * k + 3)%nat /\ forallb b64url_char t = true.
Proof.
  revert b. induction k as [|k IH]; intros b Hl Hb.
  - destruct b as [|x [|y [|]]]; try done. rewrite !Forall_cons in Hb. destruct Hb as (Hx&Hy&_).
    eexists [_; _; _]. split; [reflexivity|]. split; [done|]. cbn [forallb].
    rewrite !b64_char_url; [done| | |]; Z.div_mod_to_equations; lia.
  - destruct b as [|x [|y [|z b]]]; cbn in Hl; try lia. rewrite !Forall_cons in Hb.
    destruct Hb as (Hx&Hy&Hz&Hb). destruct (IH b) as (t&Et&Hlt&Ht); [lia|done|].
    cbn [urlsafe_b64encode]. rewrite Et. eexists (_ :: _ :: _ :: _ :: t). split; [reflexivity|].
    split; [cbn; lia|]. cbn [forallb]. rewrite !b64_char_url, Ht; [done| | | |]; Z.div_mod_to_equations; lia.
Qed.

Lemma b64url_not_pad t : forallb b64url_char t = true -> rstrip_by (Z.eqb 61) (t ++ [61]) = t.
Proof.
  intros Ht. unfold rstrip_by. rewrite rev_app_distr. cbn [rev app lstrip_by]. rewrite Z.eqb_refl.
  destruct (rev t) as [|c r] eqn:E.
  { apply (f_equal (@rev Z)) in E. rewrite rev_involutive in E. by rewrite E. }
  cbn [lstrip_by]. assert (Hc : b64url_char c = true).
  { rewrite List.forallb_forall in Ht. apply Ht. apply in_rev. rewrite E. by left. }
  destruct (61 =? c) eqn:Ec; [apply Z.eqb_eq in Ec; subst c; done|].
  by rewrite <- E, rev_involutive.
Qed.

Lemma base64url_32 b :
  length b = 32%nat -> Forall (fun x => 0 <= x < 256) b -> token_pattern (base64url b) = true.
Proof.
  intros Hl Hb. destruct (base64_two_left 10 b Hl Hb) as (t&Et&Hlt&Ht).
  unfold base64url. rewrite Et, b64url_not_pad by done. unfold token_pattern. by rewrite Hlt, Ht.
Qed.

Lemma token_pattern_ascii t : token_pattern t = true -> isascii t = true.
Proof.
  unfold token_pattern, isascii. intros [_ Ht]%andb_true_iff. rewrite List.forallb_forall in *.
  intros c Hc. specialize (Ht c Hc). revert Ht.
  unfold b64url_char, ascii_alnum, ascii_alpha, ascii_upper, ascii_lowerc, ascii_digit, is_ascii. lia.
Qed.

Lemma validated_token t :
  token_pattern t = true -> validated_token_hash (Some t) = Ok (Some (sha256 t)).
Proof.
  intros Ht. cbn. rewrite Ht. unfold token_hash, ascii_encode. by rewrite (token_pattern_ascii t Ht).
Qed.

Lemma validated_token_inv token h :
  validated_token_hash token = Ok (Some h) ->
  exists t, token = Some t /\ token_pattern t = true /\ h = sha256 t.
Proof.
  destruct token as [t|]; [|done]. cbn. destruct (token_pattern t) eqn:E; [|done].
  unfold token_hash, ascii_encode. rewrite (token_pattern_ascii t E). cbn. intros [= <-]. by exists t.
Qed.

(** ** Lemmas: how the table of sessions changes *)

Definition session_wf (manager : SessionManager) (s : Session) : Prop :=
  se_idle_expires_at s <= se_last_seen_at s + idle_ttl manager /\ se_idle_expires_at s <= se_expires_at s.
Definition sessions_wf (manager : SessionManager) (d : Db) : Prop :=
  forall h s, sessions d !! h = Some s -> se_id_hash s = h /\ session_wf manager s.

(** What no operation changes in a session: its owner, its deadline, and that it is revoked. *)
Definition persists (s s' : Session) : Prop :=
  se_user_id s' = se_user_id s /\ se_expires_at s' = se_expires_at s /\
  (is_Some (se_revoked_at s) -> is_Some (se_revoked_at s')).

Definition sessions_evolve (manager : SessionManager) (d d' : Db) : Prop :=
  sessions_wf manager d ->
  sessions_wf manager d' /\
  forall h s, sessions d !! h = Some s -> exists s', sessions d' !! h = Some s' /\ persists s s'.

Lemma persists_refl s : persists s s.
Proof. by repeat split. Qed.

Lemma sessions_evolve_refl manager d d' : sessions d' = sessions d -> sessions_evolve manager d d'.
Proof.
  intros E Hwf. split; [intros h s; rewrite E; apply Hwf|].
  intros h s Hs. exists s. rewrite E. split; [done|apply persists_refl].
Qed.

Lemma sessions_evolve_trans manager a b c :
  sessions_evolve manager a b -> sessions_evolve manager b c -> sessions_evolve manager a c.
Proof.
  intros Hab Hbc Hwf. destruct (Hab Hwf) as [Hb Hs1]. destruct (Hbc Hb) as [Hc Hs2].
  split; [done|]. intros h s Hs. destruct (Hs1 h s Hs) as (s1&Hl1&Hu1&He1&Hr1).
  destruct (Hs2 h s1 Hl1) as (s2&Hl2&Hu2&He2&Hr2). exists s2. split; [done|].
  split; [congruence|]. split; [congruence|]. auto.
Qed.

(** A row is written: either its key is new, or it continues the row it replaces. *)
Lemma sessions_evolve_put manager d s :
  session_wf manager s ->
  (forall s0, sessions d !! se_id_hash s = Some s0 -> persists s0 s) ->
  sessions_evolve manager d (set_sessions (<[se_id_hash s := s]> (sessions d)) d).
Proof.
  intros Hs Hold Hwf. split.
  - intros h x. cbn. intros [[<- <-]|[_ Hx]]%lookup_insert_Some; [done|by apply Hwf].
  - intros h x Hx. cbn. destruct (decide (se_id_hash s = h)) as [<-|Hne].
    + exists s. rewrite lookup_insert_eq. auto.
    + exists x. rewrite lookup_insert_ne by done. split; [done|apply persists_refl].
Qed.

Section SessionLemmas.
Context `{Entropy} (manager : SessionManager).

Lemma issue_inv user ip ua now w issued w' :
  issue manager user ip ua now w = (Ok issued, w') ->
  exists at_ ip_hash ua_hash,
    let token := base64url (octets_at (w_draws w) TOKEN_BYTES) in
    let s := mkSession (sha256 token) user at_ (at_ + absolute_ttl manager) at_
               (Z.min (at_ + idle_ttl manager) (at_ + absolute_ttl manager)) ip_hash ua_hash None in
    utc_now (w_now w) now = Ok at_ /\ token_hash token = Ok (sha256 token) /\
    issued = mkIssuedSession token (at_ + absolute_ttl manager) /\
    sessions (w_db w) !! sha256 token = None /\
    w_db w' = set_sessions (<[sha256 token := s]> (sessions (w_db w))) (w_db w) /\ w_now w' = w_now w.
Proof using Type.
  unfold issue. intros (at_&w1&E1&E)%mbind_inv. unfold utc_now_m in E1. injection E1 as E1 <-.
  apply mbind_inv in E as (token&w2&E2&E). unfold token_urlsafe, token_bytes, mbind, mret in E2.
  injection E2 as <- <-. apply mbind_inv in E as (h&w3&E3&E). apply lift_inv in E3 as [E3 ->].
  apply mbind_inv in E as (i&w4&E4&E). apply lift_inv in E4 as [_ ->].
  apply mbind_inv in E as (ih&w5&E5&E). apply lift_inv in E5 as [_ ->].
  apply mbind_inv in E as (uh&w6&E6&E). apply lift_inv in E6 as [_ ->].
  apply mbind_inv in E as (d&w7&E7&E). injection E7 as <- <-.
  apply mbind_inv in E as (t&w8&E8&E). apply lift_inv in E8 as [(_&Hnew&->)%insert_row_inv ->].
  unfold mbind, modify_db, mret, with_db in E. injection E as <- <-.
  assert (Hh : h = sha256 (base64url (octets_at (w_draws w) TOKEN_BYTES))).
  { unfold token_hash in E3. apply rbind_Ok in E3 as (b&Hb&[= <-]).
    unfold ascii_encode in Hb. destruct (isascii _); [by injection Hb as <-|done]. }
  subst h. exists at_, ih, uh. by repeat split.
Qed.

Lemma issue_raise user ip ua now w e w' :
  issue manager user ip ua now w = (Raise e, w') -> w_db w' = w_db w.
Proof using Type.
  unfold issue. intros E.
  repeat first
    [ apply mbind_inv_raise in E as [E|(?&?&E1&E)];
      [ first [injection E as _ <-; done | unfold token_urlsafe, token_bytes, mbind, mret in E; discriminate E]
      | first [apply lift_inv in E1 as [_ ->]
              | unfold utc_now_m in E1; injection E1 as _ <-
              | unfold get_db in E1; injection E1 as <- <-
              | unfold token_urlsafe, token_bytes, mbind, mret in E1; injection E1 as <- <-]] ].
  all: try done.
Qed.

Lemma verify_inv token now w r w' :
  verify manager token now w = (r, w') ->
  match r with
  | Ok (Some v) =>
      exists t current s user, token = Some t /\ token_pattern t = true /\ utc_now (w_now w) now = Ok current /\
        sessions (w_db w) !! sha256 t = Some s /\ users (w_db w) !! se_user_id s = Some user /\
        se_revoked_at s = None /\ u_is_active user = true /\
        current < se_expires_at s /\ current < se_idle_expires_at s /\
        v = mkVerifiedSession user (se_expires_at s) /\
        w' = with_db (set_sessions (<[se_id_hash s :=
               set_se_idle_expires_at (Z.min (se_expires_at s) (current + idle_ttl manager))
                 (set_se_last_seen_at current s)]> (sessions (w_db w))) (w_db w)) w
  | _ => w' = w
  end.
Proof using Type.
  unfold verify, mbind at 1, lift at 1. destruct (validated_token_hash token) as [[h|]|] eqn:Eh;
    [|by intros [= <- <-]..].
  apply validated_token_inv in Eh as (t&->&Ht&->). unfold mbind at 1, utc_now_m.
  destruct (utc_now (w_now w) now) as [current|] eqn:Et; [|by intros [= <- <-]].
  unfold mbind at 1, get_db, session_and_user.
  destruct (sessions (w_db w) !! sha256 t) as [s|] eqn:Es; [|by intros [= <- <-]].
  destruct (users (w_db w) !! se_user_id s) as [user|] eqn:Eu; [|by intros [= <- <-]].
  destruct (_ || _ || _ || _) eqn:Ec; [by intros [= <- <-]|].
  apply orb_false_iff in Ec as [Ec Hidle]. apply orb_false_iff in Ec as [Ec Hexp].
  apply orb_false_iff in Ec as [Hrev Hact]. unfold mbind, put_session, modify_db, mret.
  intros [= <- <-]. exists t, current, s, user. apply bool_decide_eq_false, eq_None_not_Some in Hrev.
  apply negb_false_iff in Hact. apply Z.leb_gt in Hexp, Hidle. by repeat split.
Qed.

Lemma verify_accepts t now current w s user :
  token_pattern t = true -> utc_now (w_now w) now = Ok current ->
  sessions (w_db w) !! sha256 t = Some s -> users (w_db w) !! se_user_id s = Some user ->
  se_revoked_at s = None -> u_is_active user = true ->
  current < se_expires_at s -> current < se_idle_expires_at s ->
  (verify manager (Some t) now w).1 = Ok (Some (mkVerifiedSession user (se_expires_at s))).
Proof using Type.
  intros Ht Hnow Hs Hu Hrev Hact Hexp Hidle. unfold verify, mbind at 1, lift at 1.
  rewrite (validated_token t Ht). unfold mbind at 1, utc_now_m. rewrite Hnow.
  unfold mbind at 1, get_db, session_and_user. rewrite Hs, Hu, Hrev, Hact.
  apply Z.leb_gt in Hexp, Hidle. by rewrite Hexp, Hidle.
Qed.

Lemma revoke_inv token now w r w' :
  revoke token now w = (r, w') ->
  match r with
  | Ok true => exists t at_ s, token = Some t /\ sessions (w_db w) !! sha256 t = Some s /\
      w' = with_db (set_sessions (<[se_id_hash s := set_se_revoked_at (Some at_) s]> (sessions (w_db w)))
                      (w_db w)) w
  | _ => w' = w
  end.
Proof using Type.
  unfold revoke, mbind at 1, lift at 1. destruct (validated_token_hash token) as [[h|]|] eqn:Eh;
    [|by intros [= <- <-]..].
  apply validated_token_inv in Eh as (t&->&Ht&->). unfold mbind at 1, get_db.
  destruct (sessions (w_db w) !! sha256 t) as [s|] eqn:Es; [|by intros [= <- <-]].
  destruct (bool_decide _); [by intros [= <- <-]|]. unfold mbind at 1, utc_now_m.
  destruct (utc_now (w_now w) now) as [at_|]; [|by intros [= <- <-]].
  unfold mbind, put_session, modify_db, mret. intros [= <- <-]. by exists t, at_, s.
Qed.

Lemma revoke_all_inv user now w r w' :
  revoke_all user now w = (r, w') ->
  match r with
  | Raise _ => w' = w
  | Ok _ => exists at_, sessions (w_db w') = (fun s => if revocable user s
              then set_se_revoked_at (Some at_) s else s) <$> sessions (w_db w)
  end.
Proof using Type.
  unfold revoke_all, mbind at 1, utc_now_m. destruct (utc_now (w_now w) now) as [at_|]; [|by intros [= <- <-]].
  unfold mbind, get_db, modify_db, mret, with_db. intros [= <- <-]. by exists at_.
Qed.

(** Any operation of the manager by anyone, successful or not, any change of the users, and time. *)
Inductive session_step (w : World) : World -> Prop :=
| step_issue user ip ua now : session_step w (issue manager user ip ua now w).2
| step_verify token now : session_step w (verify manager token now w).2
| step_revoke token now : session_step w (revoke token now w).2
| step_revoke_all user now : session_step w (revoke_all user now w).2
| step_users us t : session_step w (mkWorld (set_users us (w_db w)) (w_committed w) (w_draws w) t).

Lemma session_step_evolve w w' : session_step w w' -> sessions_evolve manager (w_db w) (w_db w').
Proof using Type.
  intros [user ip ua now|token now|token now|user now|us t].
  - destruct (issue manager user ip ua now w) as [[issued|e] w1] eqn:E; cbn.
    + apply issue_inv in E as (at_&ih&uh&_&_&_&Hnew&->&_).
      match goal with |- context [<[_ := ?s]> _] => apply (sessions_evolve_put manager (w_db w) s) end;
        [unfold session_wf; cbn; lia|]. cbn [se_id_hash]. intros s0 Hs0. by rewrite Hnew in Hs0.
    + apply issue_raise in E. apply sessions_evolve_refl. by rewrite E.
  - destruct (verify manager token now w) as [r w1] eqn:E. apply verify_inv in E. cbn.
    destruct r as [[v|]|e]; [|subst w1; by apply sessions_evolve_refl..].
    destruct E as (t&current&s&user&_&_&_&Hs&_&_&_&_&_&_&->). intros Hwf.
    destruct (Hwf _ _ Hs) as [Hid Hs_wf]. revert Hwf. cbn [w_db with_db].
    match goal with |- context [<[_ := ?x]> _] => apply (sessions_evolve_put manager (w_db w) x) end.
    + unfold session_wf; cbn; lia.
    + cbn. rewrite Hid. intros s0 Hs0. rewrite Hs in Hs0. injection Hs0 as <-. by repeat split.
  - destruct (revoke token now w) as [r w1] eqn:E. apply revoke_inv in E. cbn.
    destruct r as [[]|e]; [|subst w1; by apply sessions_evolve_refl..].
    destruct E as (t&at_&s&_&Hs&->). intros Hwf. destruct (Hwf _ _ Hs) as [Hid Hs_wf]. revert Hwf.
    cbn [w_db with_db].
    match goal with |- context [<[_ := ?x]> _] => apply (sessions_evolve_put manager (w_db w) x) end; [done|].
    cbn. rewrite Hid. intros s0 Hs0. rewrite Hs in Hs0. injection Hs0 as <-. by repeat split.
  - destruct (revoke_all user now w) as [r w1] eqn:E. apply revoke_all_inv in E. cbn.
    destruct r as [n|e]; [|subst w1; by apply sessions_evolve_refl]. destruct E as [at_ E]. intros Hwf. split.
    + intros h x. rewrite E, lookup_fmap. intros (s&Hs&->)%fmap_Some. destruct (Hwf h s Hs).
      by destruct (revocable user s).
    + intros h s Hs. eexists. rewrite E, lookup_fmap, Hs. split; [reflexivity|].
      destruct (revocable user s); [|apply persists_refl]. by repeat split.
  - by apply sessions_evolve_refl.
Qed.

Lemma session_steps_evolve w w' : rtc session_step w w' -> sessions_evolve manager (w_db w) (w_db w').
Proof using Type.
  induction 1 as [w|w1 w2 w3 Hs _ IH]; [by apply sessions_evolve_refl|].
  eapply sessions_evolve_trans; [by apply session_step_evolve|done].
Qed.

End SessionLemmas.

Section SessionProperties.
Context `{EntropyLaws} (manager : SessionManager).

(** The life of a session.  A freshly issued token is accepted for its active user up to both
    deadlines.  Whatever operations, changes of users and time follow, it is accepted only before
    the absolute deadline fixed when it was issued, only within the idle time after its last use,
    and only for the active user it was issued to. *)
Theorem issued_session_life user ip ua now at_ issued w0 w1 :
  sessions_wf manager (w_db w0) -> utc_now (w_now w0) now = Ok at_ ->
  issue manager user ip ua now w0 = (Ok issued, w1) ->
  (forall account now' current,
     users (w_db w1) !! user = Some account -> u_is_active account = true ->
     utc_now (w_now w1) now' = Ok current ->
     current < at_ + absolute_ttl manager -> current < at_ + idle_ttl manager ->
     (verify manager (Some (is_token issued)) now' w1).1
       = Ok (Some (mkVerifiedSession account (is_expires_at issued)))) /\
  (forall w2 now' current v w3,
     rtc (session_step manager) w1 w2 -> utc_now (w_now w2) now' = Ok current ->
     verify manager (Some (is_token issued)) now' w2 = (Ok (Some v), w3) ->
     current < at_ + absolute_ttl manager /\ vs_expires_at v = at_ + absolute_ttl manager /\
     users (w_db w2) !! user = Some (vs_user v) /\ u_is_active (vs_user v) = true /\
     exists s, sessions (w_db w2) !! sha256 (is_token issued) = Some s /\
       current < se_last_seen_at s + idle_ttl manager).
Proof using Type*.
  intros Hwf Hnow Hissue. pose proof (session_step_evolve manager w0 _ (step_issue manager w0 user ip ua now)) as Hev.
  rewrite Hissue in Hev. cbn [snd] in Hev. destruct (Hev Hwf) as [Hwf1 _].
  apply issue_inv in Hissue as (at'&ih&uh&Hat&_&->&_&Hdb&_). rewrite Hnow in Hat. injection Hat as <-.
  cbn [is_token is_expires_at] in *. set (token := base64url _) in *.
  assert (Hrow : exists s, sessions (w_db w1) !! sha256 token = Some s /\ se_user_id s = user /\
            se_expires_at s = at_ + absolute_ttl manager /\ se_revoked_at s = None /\
            se_idle_expires_at s = Z.min (at_ + idle_ttl manager) (at_ + absolute_ttl manager)).
  { eexists. rewrite Hdb. cbn [sessions set_sessions]. rewrite lookup_insert_eq. by split. }
  destruct Hrow as (s1&Hs1&Hu1&He1&Hr1&Hi1). split.
  - intros account now' current Hu Hact Hc Habs Hidle. rewrite <- He1.
    apply (verify_accepts manager token now' current); try done; [|congruence|congruence|lia].
    apply base64url_32; [apply octets_at_length|apply octets_at_range].
  - intros w2 now' current v w3 Hsteps Hc Hv.
    destruct (session_steps_evolve manager w1 w2 Hsteps Hwf1) as [Hwf2 Hper].
    destruct (Hper _ _ Hs1) as (s2&Hs2&Hu2&He2&_).
    apply verify_inv in Hv as (t&current'&s&acc&[= <-]&_&Hc'&Hs&Hu&_&Hact&Hexp&Hidle&->&_).
    rewrite Hs2 in Hs. injection Hs as <-. rewrite Hc in Hc'. injection Hc' as <-.
    destruct (Hwf2 _ _ Hs2) as [_ [Hi _]]. cbn. rewrite Hu2, Hu1 in Hu.
    split; [lia|]. split; [lia|]. split; [done|]. split; [done|]. exists s2. split; [done|lia].
Qed.

(** Revocation is final.  Once a token was revoked, or all sessions of its user were, no later
    verification accepts it, whatever operations come in between. *)
Theorem revoked_session_refused token now w w1 w2 now' :
  sessions_wf manager (w_db w) ->
  revoke (Some token) now w = (Ok true, w1) \/
  (exists s n, sessions (w_db w) !! sha256 token = Some s /\ revoke_all (se_user_id s) now w = (Ok n, w1)) ->
  rtc (session_step manager) w1 w2 ->
  match (verify manager (Some token) now' w2).1 with Ok (Some _) => False | _ => True end.
Proof using Type.
  intros Hwf Hrev Hsteps.
  assert (Hrow : sessions_wf manager (w_db w1) /\
            exists s, sessions (w_db w1) !! sha256 token = Some s /\ is_Some (se_revoked_at s)).
  { destruct Hrev as [Hr|(s&n&Hs&Hr)].
    - pose proof (session_step_evolve manager w _ (step_revoke manager w (Some token) now)) as Hev.
      rewrite Hr in Hev. destruct (Hev Hwf) as [Hwf1 _]. split; [done|].
      apply revoke_inv in Hr as (t&at_&s&[= <-]&Hs&->). destruct (Hwf _ _ Hs) as [<- _].
      eexists. cbn. rewrite lookup_insert_eq. by split.
    - pose proof (session_step_evolve manager w _ (step_revoke_all manager w (se_user_id s) now)) as Hev.
      rewrite Hr in Hev. destruct (Hev Hwf) as [Hwf1 _]. split; [done|].
      apply revoke_all_inv in Hr as [at_ E]. eexists. rewrite E, lookup_fmap, Hs. split; [reflexivity|].
      unfold revocable. rewrite bool_decide_true by done. cbn.
      destruct (bool_decide (is_Some (se_revoked_at s))) eqn:Eb; cbn; [|done].
      by apply bool_decide_eq_true in Eb. }
  destruct Hrow as [Hwf1 (s1&Hs1&Hr1)].
  destruct (session_steps_evolve manager w1 w2 Hsteps Hwf1) as [_ Hper].
  destruct (Hper _ _ Hs1) as (s2&Hs2&_&_&Hr2).
  destruct (verify manager (Some token) now' w2) as [[[v|]|e] w3] eqn:E; [|done|done]. cbn.
  apply verify_inv in E as (t&c&s&acc&[= <-]&_&_&Hs&_&Hnone&_). rewrite Hs2 in Hs. injection Hs as <-.
  specialize (Hr2 Hr1). rewrite Hnone in Hr2. by destruct Hr2.
Qed.

End SessionProperties.

(** One active user; sessions of fifteen minutes idle and eight hours at most. *)
Definition session_user : User :=
  mkUser 7 (py "ada@example.com") None (py "Ada") None Role_USER true Source_GOOGLE 0 None.
Definition session_world : World :=
  let d := set_users {[7 := session_user]} empty_db in mkWorld d d 0 1700000000000000.
Definition sample_manager : SessionManager :=
  mkSessionManager (timedelta_seconds 900) (timedelta_seconds 28800) (py "metadata key").
Definition issued_world : result IssuedSession * World :=
  @issue counting_entropy sample_manager 7 (py "10.0.0.1") None None session_world.
Definition sample_token : pystr := py "AAAAAAAAAAAAAAAAAAAAAAAAAAAAAAAAAAAAAAAAAAA".

Lemma issued_world_ok :
  issued_world.1 = Ok (mkIssuedSession sample_token (1700000000000000 + timedelta_seconds 28800)).
Proof. vm_compute. reflexivity. Qed.

Lemma session_world_wf : sessions_wf sample_manager (w_db session_world).
Proof. intros h s Hs. change ((∅ : gmap bytes Session) !! h = Some s) in Hs. by rewrite lookup_empty in Hs. Qed.

Lemma issued_session_life_witness :
  (verify sample_manager (Some sample_token) None issued_world.2).1
    = Ok (Some (mkVerifiedSession session_user (1700000000000000 + timedelta_seconds 28800))).
Proof.
  pose proof issued_world_ok as Hr. unfold issued_world in *.
  destruct (@issue counting_entropy sample_manager 7 (py "10.0.0.1") None None session_world) as [r w1] eqn:E.
  cbn [fst snd] in *. subst r.
  refine (proj1 (@issued_session_life counting_entropy counting_entropy_laws sample_manager 7 (py "10.0.0.1")
    None None 1700000000000000 _ session_world w1 session_world_wf eq_refl E) session_user None
    1700000000000000 _ eq_refl _ _ _).
  - pose proof (issue_inv _ _ _ _ _ _ _ _ E) as (at_&ih&uh&_&_&_&_&Hdb&_). rewrite Hdb. reflexivity.
  - pose proof (issue_inv _ _ _ _ _ _ _ _ E) as (at_&ih&uh&_&_&_&_&_&Hn). unfold utc_now. rewrite Hn. reflexivity.
  - reflexivity.
  - reflexivity.
Defined.

Lemma revoked_session_refused_witness :
  let w := (revoke (Some sample_token) None issued_world.2).2 in
  match (verify sample_manager (Some sample_token) None w).1 with Ok (Some _) => False | _ => True end.
Proof.
  intros w. refine (@revoked_session_refused counting_entropy sample_manager sample_token None
    issued_world.2 w w None _ _ (rtc_refl _ _)).
  - exact (proj1 (session_step_evolve sample_manager session_world issued_world.2
      (step_issue _ _ 7 (py "10.0.0.1") None None) session_world_wf)).
  - left. subst w. assert (Hr : (revoke (Some sample_token) None issued_world.2).1 = Ok true)
      by (vm_compute; reflexivity).
    destruct (revoke (Some sample_token) None issued_world.2) as [r w1]. cbn [fst] in Hr. by rewrite Hr.
Defined.
