(* ===== verification/SessionSpec.v ===== *)
(** What the session manager promises (app/auth/session.py), without rows: a map of live grants.  Issuing adds a
    grant, verification reads it and slides its idle deadline, revocation removes it.  The
    manager over the table of sessions refines it. *)
From S2P Require Import Prelude PyBase Encoding Hashes Json Models Store Config IpAddress Session.

(** ** The abstract store *)

(** A live session: whose it is, and until when. *)
Record Grant := mkGrant { g_owner : uuid; g_deadline : instant; g_idle : instant }.
(** The grants under the digest of their token. *)
Definition Grants : Type := gmap bytes Grant.

(** The user for whom a grant is accepted. *)
Definition accepted (accounts : gmap uuid User) (current : instant) (g : Grant) : option User :=
  match accounts !! g_owner g with
  | Some u => if u_is_active u && (current <? g_deadline g) && (current <? g_idle g) then Some u else None
  | None => None
  end.
Definition grant_of (grants : Grants) (token : option pystr) : option (bytes * Grant) :=
  match token with
  | Some t => if token_pattern t then (fun g => (sha256 t, g)) <$> grants !! sha256 t else None
  | None => None
  end.

Definition spec_verify (manager : SessionManager) (accounts : gmap uuid User) (current : instant) (token : option pystr)
    (grants : Grants) : option (User * instant) * Grants :=
  match grant_of grants token with
  | Some (digest, g) =>
      match accepted accounts current g with
      | Some u => (Some (u, g_deadline g),
                   <[digest := mkGrant (g_owner g) (g_deadline g) (Z.min (g_deadline g) (current + idle_ttl manager))]> grants)
      | None => (None, grants)
      end
  | None => (None, grants)
  end.
Definition spec_revoke (token : option pystr) (grants : Grants) : bool * Grants :=
  match grant_of grants token with Some (digest, _) => (true, delete digest grants) | None => (false, grants) end.
Definition owned_by (user : uuid) (kv : bytes * Grant) : Prop := g_owner kv.2 = user.
#[export] Instance owned_by_dec user kv : Decision (owned_by user kv).
Proof. unfold owned_by. apply _. Defined.
Definition spec_revoke_all (user : uuid) (grants : Grants) : Z * Grants :=
  (Z.of_nat (size (filter (owned_by user) grants)), filter (fun kv => ~ owned_by user kv) grants).

(** What an observer sees of one operation. *)
Inductive Label : Type :=
| L_issue (user : uuid) (token : pystr) (at_ : instant)
| L_verify (accounts : gmap uuid User) (current : instant) (token : option pystr) (answer : option (User * instant))
| L_revoke (token : option pystr) (answer : bool)
| L_revoke_all (user : uuid) (answer : Z)
| L_refused
| L_environment.

Inductive spec_step (manager : SessionManager) (grants : Grants) : Label -> Grants -> Prop :=
| spec_issues user token at_ : grants !! sha256 token = None ->
    spec_step manager grants (L_issue user token at_)
      (<[sha256 token := mkGrant user (at_ + absolute_ttl manager)
           (Z.min (at_ + idle_ttl manager) (at_ + absolute_ttl manager))]> grants)
| spec_verifies accounts current token answer grants' :
    spec_verify manager accounts current token grants = (answer, grants') ->
    spec_step manager grants (L_verify accounts current token answer) grants'
| spec_revokes token answer grants' : spec_revoke token grants = (answer, grants') ->
    spec_step manager grants (L_revoke token answer) grants'
| spec_revokes_all user answer grants' : spec_revoke_all user grants = (answer, grants') ->
    spec_step manager grants (L_revoke_all user answer) grants'
| spec_refuses : spec_step manager grants L_refused grants
| spec_environment : spec_step manager grants L_environment grants.

(** ** The manager over its table *)

Section Manager.
Context `{Entropy} (manager : SessionManager).

(** One operation with what it answers; an exception is a refusal; users and time change freely. *)
Inductive manager_step (w : World) : Label -> World -> Prop :=
| manager_issues user ip ua now at_ issued w' : issue manager user ip ua now w = (Ok issued, w') ->
    utc_now (w_now w) now = Ok at_ -> manager_step w (L_issue user (is_token issued) at_) w'
| manager_verifies token now current v w' : verify manager token now w = (Ok v, w') ->
    utc_now (w_now w) now = Ok current ->
    manager_step w (L_verify (users (w_db w)) current token ((fun v => (vs_user v, vs_expires_at v)) <$> v)) w'
| manager_revokes token now b w' : revoke token now w = (Ok b, w') -> manager_step w (L_revoke token b) w'
| manager_revokes_all user now n w' : revoke_all user now w = (Ok n, w') -> manager_step w (L_revoke_all user n) w'
| manager_refuses_issue user ip ua now e w' : issue manager user ip ua now w = (Raise e, w') -> manager_step w L_refused w'
| manager_refuses_verify token now e w' : verify manager token now w = (Raise e, w') -> manager_step w L_refused w'
| manager_refuses_revoke token now e w' : revoke token now w = (Raise e, w') -> manager_step w L_refused w'
| manager_refuses_revoke_all user now e w' : revoke_all user now w = (Raise e, w') -> manager_step w L_refused w'
| manager_environment us t draws :
    manager_step w L_environment (mkWorld (set_users us (w_db w)) (w_committed w) draws t).

End Manager.

(** A run with its labels. *)
Inductive run {S : Type} (step : S -> Label -> S -> Prop) : S -> list Label -> S -> Prop :=
| run_nil s : run step s [] s
| run_cons s l s1 trace s2 : step s l s1 -> run step s1 trace s2 -> run step s (l :: trace) s2.

(** ** The abstraction *)

Definition grant_of_row (s : Session) : option Grant :=
  match se_revoked_at s with
  | None => Some (mkGrant (se_user_id s) (se_expires_at s) (se_idle_expires_at s))
  | Some _ => None
  end.
Definition grants_of (d : Db) : Grants := omap grant_of_row (sessions d).

Lemma grants_lookup d h : grants_of d !! h = s ← sessions d !! h; grant_of_row s.
Proof. unfold grants_of. apply lookup_omap. Qed.

Lemma grants_put d s g : grant_of_row s = Some g ->
  grants_of (set_sessions (<[se_id_hash s := s]> (sessions d)) d) = <[se_id_hash s := g]> (grants_of d).
Proof. intros Hg. unfold grants_of. cbn. by rewrite (omap_insert_Some _ _ _ _ g). Qed.

Lemma filter_perm_length {V} (p : V -> bool) (l l' : list V) :
  l ≡ₚ l' -> length (List.filter p l) = length (List.filter p l').
Proof.
  induction 1 as [|x l l' _ IH|x y l|l1 l2 l3 _ IH1 _ IH2]; cbn [List.filter]; [done| | |congruence].
  - destruct (p x); cbn [length]; by rewrite IH.
  - by destruct (p x), (p y).
Qed.
Lemma size_filter_values {V} (p : V -> bool) (m : gmap bytes V) :
  length (List.filter p (map_to_list m).*2) = size (filter (fun kv => p kv.2 = true) m).
Proof.
  induction m as [|h s m Hn IH] using map_ind; [by rewrite map_to_list_empty|].
  rewrite (filter_perm_length p _ _ (Permutation_map snd (map_to_list_insert m h s Hn))). cbn [map List.filter snd]. destruct (p s) eqn:Ep.
  - rewrite map_filter_insert_True by done. rewrite map_size_insert_None; [|by apply map_lookup_filter_None_2; left].
    cbn [length]. by rewrite <- IH.
  - rewrite map_filter_insert_False by (cbn; congruence). rewrite delete_id by done. exact IH.
Qed.

Lemma grants_owned user d :
  size (filter (owned_by user) (grants_of d)) = size (filter (fun kv => revocable user kv.2 = true) (sessions d)).
Proof.
  etransitivity; [symmetry; apply (size_dom (D := gset bytes))|].
  etransitivity; [|apply (size_dom (D := gset bytes))]. f_equal.
  apply set_eq. intros h. rewrite !elem_of_dom. unfold is_Some.
  setoid_rewrite map_lookup_filter_Some. setoid_rewrite grants_lookup. unfold owned_by, revocable, grant_of_row. cbn. split.
  - intros (g&Hg&Ho). apply bind_Some in Hg as (s&Hs&Hg). exists s. split; [done|]. destruct (se_revoked_at s); [done|].
    injection Hg as <-. cbn in Ho. by rewrite bool_decide_true.
  - intros (s&Hs&Hr). apply andb_true_iff in Hr as [Ho Hr]. apply bool_decide_eq_true in Ho. rewrite Hs. cbn.
    destruct (se_revoked_at s); [by rewrite bool_decide_true in Hr by eauto|]. eauto.
Qed.

Section Simulation.
Context `{Entropy} (manager : SessionManager).

Lemma grant_of_spec w token : sessions_wf manager (w_db w) ->
  grant_of (grants_of (w_db w)) token =
    match validated_token_hash token with
    | Ok (Some h) => (fun g => (h, g)) <$> (s ← sessions (w_db w) !! h; grant_of_row s)
    | _ => None
    end.
Proof using Type.
  intros _. unfold grant_of. destruct token as [t|]; [|done]. destruct (token_pattern t) eqn:Ep.
  - rewrite (validated_token t Ep). by rewrite grants_lookup.
  - cbn. by rewrite Ep.
Qed.

Lemma verify_refines token now current v w w' :
  sessions_wf manager (w_db w) -> verify manager token now w = (Ok v, w') -> utc_now (w_now w) now = Ok current ->
  spec_verify manager (users (w_db w)) current token (grants_of (w_db w))
    = ((fun v => (vs_user v, vs_expires_at v)) <$> v, grants_of (w_db w')).
Proof using Type.
  intros Hwf E Hnow. unfold spec_verify. rewrite (grant_of_spec w token Hwf). pose proof (verify_inv manager _ _ _ _ _ E) as Hinv.
  revert E. unfold verify, mbind at 1, lift at 1.
  destruct (validated_token_hash token) as [[h|]|e] eqn:Eh; [|by intros [= <- <-]|done].
  unfold mbind at 1, utc_now_m at 1. rewrite Hnow. unfold mbind at 1, get_db, session_and_user.
  destruct (sessions (w_db w) !! h) as [s|] eqn:Es; cbn [base.mbind option_bind fmap option_fmap option_map]; [|by intros [= <- <-]].
  unfold grant_of_row. destruct (users (w_db w) !! se_user_id s) as [u|] eqn:Eu.
  2: { intros [= <- <-]. destruct (se_revoked_at s); [done|]. unfold accepted. cbn. by rewrite Eu. }
  destruct (se_revoked_at s) as [r|] eqn:Er.
  { rewrite bool_decide_true by eauto. by intros [= <- <-]. }
  rewrite bool_decide_false by apply is_Some_None. cbn [orb fmap option_fmap option_map]. unfold accepted. cbn [g_owner g_deadline g_idle]. rewrite Eu.
  destruct (u_is_active u); cbn [negb orb andb]; [|by intros [= <- <-]].
  destruct (Z.leb_spec (se_expires_at s) current), (Z.ltb_spec current (se_expires_at s)); try lia; cbn [orb andb]; [by intros [= <- <-]|].
  destruct (Z.leb_spec (se_idle_expires_at s) current), (Z.ltb_spec current (se_idle_expires_at s)); try lia; [by intros [= <- <-]|].
  unfold mbind, put_session, modify_db, mret, with_db. intros [= <- <-]. cbn [fmap option_fmap option_map vs_user vs_expires_at w_db].
  f_equal. destruct (Hwf _ _ Es) as [Hid _]. rewrite <- Hid.
  symmetry. apply (grants_put (w_db w) (set_se_idle_expires_at _ (set_se_last_seen_at current s))). unfold grant_of_row. cbn. by rewrite Er.
Qed.

Lemma revoke_refines token now b w w' :
  sessions_wf manager (w_db w) -> revoke token now w = (Ok b, w') ->
  spec_revoke token (grants_of (w_db w)) = (b, grants_of (w_db w')).
Proof using Type.
  intros Hwf. unfold spec_revoke. rewrite (grant_of_spec w token Hwf). unfold revoke, mbind at 1, lift at 1.
  destruct (validated_token_hash token) as [[h|]|e] eqn:Eh; [|by intros [= <- <-]|done].
  unfold mbind at 1, get_db. destruct (sessions (w_db w) !! h) as [s|] eqn:Es; cbn [base.mbind option_bind]; [|by intros [= <- <-]].
  unfold grant_of_row. destruct (se_revoked_at s) as [r|] eqn:Er.
  { rewrite bool_decide_true by eauto. by intros [= <- <-]. }
  rewrite bool_decide_false by apply is_Some_None. unfold mbind at 1, utc_now_m. destruct (utc_now (w_now w) now) as [at_|]; [|done].
  unfold mbind, put_session, modify_db, mret, with_db. intros [= <- <-]. cbn [fmap option_fmap option_map w_db]. f_equal.
  destruct (Hwf _ _ Es) as [Hid _]. unfold grants_of. cbn. rewrite Hid. by rewrite omap_insert_None.
Qed.

Lemma revoke_all_refines user now n w w' :
  revoke_all user now w = (Ok n, w') -> spec_revoke_all user (grants_of (w_db w)) = (n, grants_of (w_db w')).
Proof using Type.
  unfold revoke_all, mbind at 1, utc_now_m. destruct (utc_now (w_now w) now) as [at_|]; [|done].
  unfold mbind, get_db, modify_db, mret, with_db. intros [= <- <-]. unfold spec_revoke_all. f_equal.
  - by rewrite grants_owned, size_filter_values.
  - apply map_eq. intros h. rewrite grants_lookup. cbn. rewrite lookup_fmap.
    apply option_eq. intros g. rewrite map_lookup_filter_Some, grants_lookup. unfold owned_by. cbn.
    destruct (sessions (w_db w) !! h) as [s|]; cbn; [|by split; [intros [? _]|]].
    unfold revocable, grant_of_row. destruct (se_revoked_at s) as [r|] eqn:Er.
    + rewrite (bool_decide_true (is_Some (Some r))) by eauto. rewrite andb_false_r, Er. by split; [intros [? _]|].
    + rewrite (bool_decide_false (is_Some None)) by apply is_Some_None. rewrite andb_true_r. case_bool_decide as Hu; cbn.
      * split; [|done]. intros [[= <-] Hn]. by destruct Hn.
      * rewrite Er. split; [by intros [? _]|]. intros [= <-]. by split.
Qed.

Lemma issue_refines user ip ua now at_ issued w w' :
  issue manager user ip ua now w = (Ok issued, w') -> utc_now (w_now w) now = Ok at_ ->
  grants_of (w_db w) !! sha256 (is_token issued) = None /\
  grants_of (w_db w') = <[sha256 (is_token issued) := mkGrant user (at_ + absolute_ttl manager)
    (Z.min (at_ + idle_ttl manager) (at_ + absolute_ttl manager))]> (grants_of (w_db w)).
Proof using Type.
  intros E Hnow. apply issue_inv in E as (at'&ih&uh&Hat&_&->&Hnew&Hdb&_). rewrite Hnow in Hat. injection Hat as <-.
  split; [cbn [is_token]; by rewrite grants_lookup, Hnew|]. rewrite Hdb. cbn [is_token].
  match goal with |- context [set_sessions (<[_ := ?s]> _)] => by apply (grants_put (w_db w) s) end.
Qed.

Lemma manager_step_evolves w l w' : manager_step manager w l w' -> sessions_wf manager (w_db w) -> sessions_wf manager (w_db w').
Proof using Type.
  intros Hs Hwf.
  assert (He : forall w1, session_step manager w w1 -> sessions_wf manager (w_db w1)).
  { intros w1 H1. by apply (session_step_evolve manager w w1 H1 Hwf). }
  destruct Hs as [user ip ua now at_ issued w' E _|token now current v w' E _|token now b w' E|user now n w' E|
    user ip ua now e w' E|token now e w' E|token now e w' E|user now e w' E|us t draws].
  - specialize (He _ (step_issue manager w user ip ua now)). by rewrite E in He.
  - specialize (He _ (step_verify manager w token now)). by rewrite E in He.
  - specialize (He _ (step_revoke manager w token now)). by rewrite E in He.
  - specialize (He _ (step_revoke_all manager w user now)). by rewrite E in He.
  - specialize (He _ (step_issue manager w user ip ua now)). by rewrite E in He.
  - specialize (He _ (step_verify manager w token now)). by rewrite E in He.
  - specialize (He _ (step_revoke manager w token now)). by rewrite E in He.
  - specialize (He _ (step_revoke_all manager w user now)). by rewrite E in He.
  - done.
Qed.

Lemma manager_step_refines w l w' : sessions_wf manager (w_db w) -> manager_step manager w l w' ->
  spec_step manager (grants_of (w_db w)) l (grants_of (w_db w')).
Proof using Type.
  intros Hwf Hs. destruct Hs as [user ip ua now at_ issued w' E Hnow|token now current v w' E Hnow|token now b w' E|user now n w' E|
    user ip ua now e w' E|token now e w' E|token now e w' E|user now e w' E|us t draws].
  - destruct (issue_refines _ _ _ _ _ _ _ _ E Hnow) as [Hn ->]. by constructor.
  - constructor. by eapply verify_refines.
  - constructor. by eapply revoke_refines.
  - constructor. by eapply revoke_all_refines.
  - apply issue_raise in E. rewrite E. constructor.
  - apply verify_inv in E as ->. constructor.
  - apply revoke_inv in E as ->. constructor.
  - apply revoke_all_inv in E as ->. constructor.
  - constructor.
Qed.

End Simulation.

(** ** Property *)

(** C27: The session manager refines a map of grants.  Whatever sequence of issues, verifications and
    revocations is served, by whomever and whenever, with users changing in between and some
    operations failing, every answer is the one that a map of live grants gives: a token is accepted
    while its grant is there, for an active owner, before both deadlines; revoking removes grants
    for good and reports exactly what it removed; a failed operation changes nothing. *)
Theorem session_manager_refines_grants `{Entropy} manager w trace w' :
  sessions_wf manager (w_db w) -> run (manager_step manager) w trace w' ->
  run (spec_step manager) (grants_of (w_db w)) trace (grants_of (w_db w')).
Proof.
  intros Hwf Hrun. induction Hrun as [w|w l w1 trace w2 Hs _ IH]; [constructor|].
  eapply run_cons; [by eapply manager_step_refines|]. apply IH. by eapply manager_step_evolves.
Qed.

Lemma session_manager_refines_grants_witness :
  exists grants, run (spec_step sample_manager) ∅ [L_issue 7 sample_token 1700000000000000; L_revoke_all 7 1; L_revoke (Some sample_token) false] grants
    /\ grants = ∅.
Proof.
  set (w1 := issued_world.2). set (w2 := (revoke_all 7 None w1).2). set (w3 := (revoke (Some sample_token) None w2).2).
  exists (grants_of (w_db w3)). split; [|vm_compute; reflexivity].
  change (∅ : Grants) with (grants_of (w_db session_world)).
  apply (@session_manager_refines_grants counting_entropy sample_manager session_world _ w3 session_world_wf).
  eapply run_cons; [|eapply run_cons; [|eapply run_cons; [|apply run_nil]]].
  - apply (@manager_issues counting_entropy sample_manager session_world 7 (py "10.0.0.1") None None 1700000000000000
      (mkIssuedSession sample_token (1700000000000000 + timedelta_seconds 28800)) w1); [|reflexivity].
    unfold w1. rewrite <- issued_world_ok. apply surjective_pairing.
  - apply (@manager_revokes_all counting_entropy sample_manager w1 7 None 1 w2).
    assert (Hr : (revoke_all 7 None w1).1 = Ok 1) by (vm_compute; reflexivity).
    unfold w2. rewrite <- Hr. apply surjective_pairing.
  - apply (@manager_revokes counting_entropy sample_manager w2 (Some sample_token) None false w3).
    assert (Hr : (revoke (Some sample_token) None w2).1 = Ok false) by (vm_compute; reflexivity).
    unfold w3. rewrite <- Hr. apply surjective_pairing.
Defined.
