(* ===== verification/Csrf.v ===== *)
(** Cross-site request forgery protection (app/auth/csrf.py): signed double-submit tokens bound to
    the browser session, and the middleware that refuses unsafe requests without one. *)
From S2P Require Import Prelude PyBase Encoding Hashes Json Models Store Config Session.

Definition CSRF_COOKIE_NAME : pystr := py "__Host-leakcheck-csrf".
Definition CSRF_HEADER_NAME : pystr := py "X-CSRF-Token".
Definition SAFE_METHODS : list pystr := [py "GET"; py "HEAD"; py "OPTIONS"; py "TRACE"].
Definition CSRF_TOKEN_BYTES : nat := 32.

(** The part of an ASGI scope the middleware looks at; header names are lower case there. *)
Record Scope := mkScope {
  scope_type : pystr;
  scope_method : pystr;
  scope_cookies : gmap pystr pystr;
  scope_headers : gmap pystr pystr;
}.
Record PlainResponse := mkPlainResponse {
  rs_status : Z;
  rs_body : pystr;
  rs_headers : list (pystr * pystr);
}.

Record CSRFProtector := mkCSRFProtector { csrf_key : bytes }.

Definition new_csrf_protector (settings : Settings) : result CSRFProtector :=
  try! secret <- utf8_encode (session_secret settings);
  Ok (mkCSRFProtector (hmac_sha256 secret (py "leakcheck/csrf/v1"))).

(** [^[A-Za-z0-9_-]{43}\.[A-Za-z0-9_-]{43}$] *)
Definition signed_token_pattern (s : pystr) : bool :=
  token_pattern (take 43 s) && match drop 43 s with 46 :: t => token_pattern t | _ => false end.

Definition session_context (session_token : option pystr) : bytes :=
  match session_token with
  | Some t => if token_pattern t then py "session" ++ 0 :: t else py "anonymous"
  | None => py "anonymous"
  end.

Definition csrf_message (nonce : pystr) (session_token : option pystr) : bytes :=
  py "leakcheck/csrf/v1" ++ 0 :: session_context session_token ++ 0 :: nonce.

(** The nonce is ASCII wherever this is called. *)
Definition signature (protector : CSRFProtector) (nonce : pystr) (session_token : option pystr)
  : result pystr :=
  try! n <- ascii_encode nonce;
  Ok (base64url (hmac_sha256 (csrf_key protector) (csrf_message n session_token))).

Definition csrf_cookie (token : pystr) : Cookie :=
  mkCookie CSRF_COOKIE_NAME token None (py "/") true false (py "lax").

Definition issue_csrf `{Entropy} (protector : CSRFProtector) (session_token : option pystr)
  : M (Cookie * pystr) :=
  let! nonce <- token_urlsafe CSRF_TOKEN_BYTES;
  let! s <- lift (signature protector nonce session_token);
  let token := nonce ++ 46 :: s in
  mret (csrf_cookie token, token).

Definition valid (protector : CSRFProtector) (session_token cookie_value supplied_value : option pystr)
  : result bool :=
  match cookie_value, supplied_value with
  | Some c, Some s =>
      if negb (signed_token_pattern c) || negb (signed_token_pattern s) || negb (compare_digest c s)
      then Ok false
      else
        let '(nonce, sig) := split_once 46 c in
        try! expected <- signature protector nonce session_token;
        Ok (compare_digest (default [] sig) expected)
  | _, _ => Ok false
  end.

(** [CSRFMiddleware.__call__]: [app] is the wrapped application, [send] delivers a response. *)
Definition csrf_call {A} (protector : CSRFProtector) (app : Scope -> M A) (send : PlainResponse -> M A)
    (scope : Scope) : M A :=
  if negb (bool_decide (scope_type scope = py "http"))
     || bool_decide (scope_method scope ∈ SAFE_METHODS)
  then app scope
  else
    let! ok <- lift (valid protector (scope_cookies scope !! SESSION_COOKIE_NAME)
                       (scope_cookies scope !! CSRF_COOKIE_NAME)
                       (scope_headers scope !! map to_lower CSRF_HEADER_NAME));
    if ok then app scope
    else send (mkPlainResponse 403 (py "CSRF validation failed.") [(py "Cache-Control", py "no-store")]).

(** ** Lemmas *)

(** Only a nonce that is no ASCII is refused with an exception. *)
Lemma fails_valid (P : exn -> Prop) protector st c s : P UnicodeEncodeError -> fails P (valid protector st c s).
Proof.
  intros HP. unfold valid. destruct c as [c|], s as [s|]; try apply fails_Ok. destruct (_ || _); [apply fails_Ok|].
  destruct (split_once 46 c) as [nonce sig]. apply fails_rbind; [|intros expected; apply fails_Ok].
  unfold signature. apply fails_rbind; [|intros n; apply fails_Ok]. unfold ascii_encode. destruct (isascii nonce); [apply fails_Ok|by apply fails_Raise].
Qed.
Lemma token_pattern_length t : token_pattern t = true -> length t = 43%nat.
Proof. unfold token_pattern. intros [Hl _]%andb_true_iff. by apply Nat.eqb_eq. Qed.

Lemma token_pattern_no_dot t r : token_pattern t = true -> split_once 46 (t ++ 46 :: r) = (t, Some r).
Proof.
  unfold token_pattern. intros [_ Ht]%andb_true_iff. induction t as [|c t IH]; [done|].
  cbn [forallb] in Ht. apply andb_true_iff in Ht as [Hc Ht]. cbn [app split_once].
  destruct (c =? 46) eqn:E; [apply Z.eqb_eq in E; subst c; done|]. by rewrite IH.
Qed.

Lemma signed_token_split s :
  signed_token_pattern s = true ->
  exists nonce sig, s = nonce ++ 46 :: sig /\ token_pattern nonce = true /\ token_pattern sig = true.
Proof.
  unfold signed_token_pattern. intros [Hn Hs]%andb_true_iff.
  destruct (drop 43 s) as [|c t] eqn:E; [done|].
  destruct (decide (c = 46)) as [->|Hne].
  - exists (take 43 s), t. split; [|done]. by rewrite <- E, take_drop.
  - exfalso. revert Hs Hne. clear. destruct c as [|c|c]; try done. do 6 (destruct c as [c|c|]; try done).
Qed.

Lemma signed_token_join nonce sig :
  token_pattern nonce = true -> token_pattern sig = true -> signed_token_pattern (nonce ++ 46 :: sig) = true.
Proof.
  intros Hn Hs. pose proof (token_pattern_length nonce Hn) as Hl. unfold signed_token_pattern.
  rewrite take_app_length', drop_app_length' by done. by rewrite Hn.
Qed.

Lemma signature_ok protector nonce session_token :
  token_pattern nonce = true ->
  signature protector nonce session_token
    = Ok (base64url (hmac_sha256 (csrf_key protector) (csrf_message nonce session_token))).
Proof. intros Hn. unfold signature, ascii_encode. by rewrite (token_pattern_ascii nonce Hn). Qed.

Lemma hmac_sha256_token key m : token_pattern (base64url (hmac_sha256 key m)) = true.
Proof. apply base64url_32; [apply length_hmac_sha256|apply sha256_range]. Qed.

Lemma csrf_message_inj nonce nonce' st st' :
  token_pattern nonce = true -> token_pattern nonce' = true ->
  csrf_message nonce st = csrf_message nonce' st' -> nonce = nonce' /\ session_context st = session_context st'.
Proof.
  intros Hn Hn' E. unfold csrf_message in E. apply app_inv_head in E. injection E as E.
  apply token_pattern_length in Hn, Hn'.
  apply app_inj_2 in E as [Hc E]; [|cbn; lia]. by injection E as ->.
Qed.

Lemma b64_char_inj a b : 0 <= a < 64 -> 0 <= b < 64 -> b64_char a = b64_char b -> a = b.
Proof.
  intros Ha Hb. unfold b64_char.
  repeat match goal with |- context [if ?x then _ else _] => destruct x eqn:? end; lia.
Qed.

Lemma urlsafe_b64encode_inj k a b :
  length a = (3 * k + 2)%nat -> length b = (3 * k + 2)%nat ->
  Forall (fun x => 0 <= x < 256) a -> Forall (fun x => 0 <= x < 256) b ->
  urlsafe_b64encode a = urlsafe_b64encode b -> a = b.
Proof.
  revert a b. induction k as [|k IH]; intros a b Hla Hlb Ha Hb.
  - destruct a as [|x [|y [|]]]; try done. destruct b as [|x' [|y' [|]]]; try done.
    rewrite !Forall_cons in Ha, Hb. destruct Ha as (?&?&_), Hb as (?&?&_).
    cbn [urlsafe_b64encode]. intros [= E1 E2 E3].
    apply b64_char_inj in E1, E2, E3; try (Z.div_mod_to_equations; lia).
    assert (x = x' /\ y = y') as [-> ->] by (Z.div_mod_to_equations; lia). done.
  - destruct a as [|x [|y [|z a]]]; cbn in Hla; try lia. destruct b as [|x' [|y' [|z' b]]]; cbn in Hlb; try lia.
    rewrite !Forall_cons in Ha, Hb. destruct Ha as (?&?&?&Ha), Hb as (?&?&?&Hb).
    cbn [urlsafe_b64encode]. intros [= E1 E2 E3 E4 E5].
    apply b64_char_inj in E1, E2, E3, E4; try (Z.div_mod_to_equations; lia).
    assert (x = x' /\ y = y' /\ z = z') as (->&->&->) by (Z.div_mod_to_equations; lia).
    f_equal. f_equal. f_equal. apply IH; [lia|lia|done|done|done].
Qed.

Lemma base64url_inj a b :
  length a = 32%nat -> length b = 32%nat ->
  Forall (fun x => 0 <= x < 256) a -> Forall (fun x => 0 <= x < 256) b ->
  base64url a = base64url b -> a = b.
Proof.
  intros Hla Hlb Ha Hb E. apply (urlsafe_b64encode_inj 10); try done.
  destruct (base64_two_left 10 a Hla Ha) as (t&Et&_&Ht). destruct (base64_two_left 10 b Hlb Hb) as (u&Eu&_&Hu).
  unfold base64url in E. rewrite Et, Eu in *. rewrite !b64url_not_pad in E by done. by rewrite E.
Qed.

(** The one token of a nonce and a session. *)
Definition token_for (protector : CSRFProtector) (nonce : pystr) (session_token : option pystr) : pystr :=
  nonce ++ 46 :: base64url (hmac_sha256 (csrf_key protector) (csrf_message nonce session_token)).

Lemma valid_spec protector st c s :
  exists b, valid protector st c s = Ok b /\
    (b = true <-> exists nonce, token_pattern nonce = true /\ c = Some (token_for protector nonce st) /\ s = c).
Proof.
  destruct c as [c|]; [|exists false; split; [by destruct s|split; [done|by intros (?&_&?&_)]]].
  destruct s as [s|]; [|exists false; split; [done|split; [done|by intros (?&_&_&?)]]].
  cbn [valid]. destruct (signed_token_pattern c) eqn:Ec; cbn [negb orb].
  2: { exists false. split; [done|]. split; [done|]. intros (n&Hn&[= ->]&_).
       unfold token_for in Ec. by rewrite signed_token_join in Ec by (done || apply hmac_sha256_token). }
  destruct (signed_token_split c Ec) as (nonce&sig&->&Hn&Hs).
  destruct (signed_token_pattern s) eqn:Es; cbn [negb orb].
  2: { exists false. split; [done|]. split; [done|]. intros (n&_&_&[= ->]). congruence. }
  unfold compare_digest at 1. destruct (decide (nonce ++ 46 :: sig = s)) as [<-|Hne].
  - rewrite bool_decide_true by done. cbn [negb orb]. rewrite token_pattern_no_dot by done.
    rewrite signature_ok by done. cbn [rbind]. change (default [] (Some sig)) with sig. eexists. split; [reflexivity|]. unfold compare_digest.
    rewrite bool_decide_eq_true. split; [intros ->; by exists nonce|].
    intros (n&Hn'&[= E]&_). unfold token_for in E.
    apply app_inj_length in E as [-> E]; [by injection E|].
    apply token_pattern_length in Hn, Hn'. congruence.
  - rewrite bool_decide_false by done. exists false. split; [done|]. split; [done|].
    intros (n&_&_&[= ->]). congruence.
Qed.

(** ** Properties *)

(** C11: An unsafe request reaches the application exactly when its cookie and its header carry the
    same signed token of the request's session; otherwise the answer is 403 and the application is
    not called.  Checking never raises. *)
Theorem unsafe_request_needs_token {A} protector (app : Scope -> M A) send scope w :
  scope_type scope = py "http" -> scope_method scope ∉ SAFE_METHODS ->
  let cookie := scope_cookies scope !! CSRF_COOKIE_NAME in
  let carries := exists nonce, token_pattern nonce = true /\
    cookie = Some (token_for protector nonce (scope_cookies scope !! SESSION_COOKIE_NAME)) /\
    scope_headers scope !! py "x-csrf-token" = cookie in
  (carries /\ csrf_call protector app send scope w = app scope w) \/
  (~ carries /\ exists response, rs_status response = 403 /\
     csrf_call protector app send scope w = send response w).
Proof.
  intros Ht Hm cookie carries. unfold csrf_call. rewrite Ht, bool_decide_true by done.
  rewrite bool_decide_false by done. cbn [negb orb]. unfold mbind, lift.
  change (map to_lower CSRF_HEADER_NAME) with (py "x-csrf-token").
  destruct (valid_spec protector (scope_cookies scope !! SESSION_COOKIE_NAME) cookie
    (scope_headers scope !! py "x-csrf-token")) as (b&Hb&Hiff).
  subst cookie. rewrite Hb. destruct b.
  - left. split; [by apply Hiff|done].
  - right. split; [|eexists; split; [|reflexivity]; done]. intros Hc. by apply Hiff in Hc.
Qed.

(** An issued token is accepted for the session it was issued for, and any two session contexts
    that accept one token give two different messages with the same HMAC. *)
Theorem csrf_token_bound_to_session `{EntropyLaws} protector session_token w :
  exists token, (issue_csrf protector session_token w).1 = Ok (csrf_cookie token, token) /\
    valid protector session_token (Some token) (Some token) = Ok true /\
    forall other, valid protector other (Some token) (Some token) = Ok true ->
      session_context other = session_context session_token \/
      exists m m', m <> m' /\ hmac_sha256 (csrf_key protector) m = hmac_sha256 (csrf_key protector) m'.
Proof.
  set (nonce := base64url (octets_at (w_draws w) 32)).
  assert (Hn : token_pattern nonce = true) by (apply base64url_32; [apply octets_at_length|apply octets_at_range]).
  exists (token_for protector nonce session_token). split; [|split].
  - unfold issue_csrf, token_urlsafe, token_bytes, mbind, mret, lift. fold nonce.
    by rewrite signature_ok.
  - destruct (valid_spec protector session_token (Some (token_for protector nonce session_token))
      (Some (token_for protector nonce session_token))) as (b&->&Hb). f_equal. apply Hb. by exists nonce.
  - intros other Hv. destruct (valid_spec protector other (Some (token_for protector nonce session_token))
      (Some (token_for protector nonce session_token))) as (b&Hb&Hiff).
    rewrite Hb in Hv. injection Hv as ->. destruct (proj1 Hiff eq_refl) as (n&Hn'&[= E]&_).
    unfold token_for in E. apply app_inj_length in E as [<- E].
    2: { apply token_pattern_length in Hn, Hn'. congruence. }
    injection E as E. apply base64url_inj in E; [|apply length_hmac_sha256|apply length_hmac_sha256|apply sha256_range..].
    destruct (decide (session_context other = session_context session_token)) as [|Hne]; [by left|right].
    exists (csrf_message nonce session_token), (csrf_message nonce other). split; [|done].
    intros Em. apply csrf_message_inj in Em as [_ Em]; [|done|done]. by destruct Hne.
Qed.

(** A form post without a token is refused; the token of an anonymous visitor is accepted. *)
Definition csrf_sample : CSRFProtector := mkCSRFProtector (be_split 32 77).
Definition post_scope (token : option pystr) : Scope :=
  match token with
  | Some t => mkScope (py "http") (py "POST") {[CSRF_COOKIE_NAME := t]} {[py "x-csrf-token" := t]}
  | None => mkScope (py "http") (py "POST") ∅ ∅
  end.

Lemma unsafe_request_needs_token_witness :
  (csrf_call csrf_sample (fun _ => mret 200) (fun r => mret (rs_status r)) (post_scope None)
     (mkWorld empty_db empty_db 0 0)).1 = Ok 403.
Proof.
  destruct (unsafe_request_needs_token csrf_sample (fun _ => mret 200) (fun r => mret (rs_status r))
    (post_scope None) (mkWorld empty_db empty_db 0 0)) as [[Hc _]|[_ (r&Hr&->)]].
  - reflexivity.
  - cbn [scope_method post_scope]. rewrite list_elem_of_In. vm_compute. intuition discriminate.
  - exfalso. destruct Hc as (n&_&Hc&_). cbn [scope_cookies post_scope] in Hc.
    rewrite lookup_empty in Hc. discriminate Hc.
  - cbn. by rewrite Hr.
Defined.

Lemma csrf_token_bound_to_session_witness :
  exists token, (@issue_csrf counting_entropy csrf_sample None (mkWorld empty_db empty_db 4 0)).1
    = Ok (csrf_cookie token, token) /\ valid csrf_sample None (Some token) (Some token) = Ok true.
Proof.
  destruct (@csrf_token_bound_to_session counting_entropy counting_entropy_laws csrf_sample None
    (mkWorld empty_db empty_db 4 0)) as (t&Ht&Hv&_).
  exists t. by split.
Defined.
