(* ===== verification/Web.v ===== *)
(** What the routes share: requests and responses, form bodies ([urllib.parse.parse_qs]), identifiers
    in text ([uuid.UUID]) and [html.escape]. *)
From S2P Require Import Prelude PyBase Encoding Json Models Store Session.

(** The parts of a request the routes read; header names are lower case. *)
Record WebRequest := mkWebRequest {
  wr_client_host : option pystr;
  wr_cookies : gmap pystr pystr;
  wr_headers : gmap pystr pystr;
  wr_query : list (pystr * pystr);
  wr_body : bytes;
}.
(** A page is its name and the values it interpolates; the files of the pages have its markup. *)
Inductive Body : Type :=
| B_text (text : pystr)
| B_json (value : json)
| B_page (name : string) (values : list pystr)
| B_bytes (data : bytes) (content_type : pystr).
Record WebResponse := mkWebResponse {
  ws_status : Z;
  ws_body : Body;
  ws_headers : list (pystr * pystr);
  ws_cookies : list Cookie;
}.

Definition no_store : pystr * pystr := (py "Cache-Control", py "no-store").
Definition html_response (status : Z) (body : Body) (headers : list (pystr * pystr)) : WebResponse :=
  mkWebResponse status body (no_store :: headers) [].
(** [RedirectResponse(location, status_code=303)] *)
Definition redirect (location : pystr) (cookies : list Cookie) : WebResponse :=
  mkWebResponse 303 (B_text []) [(py "location", location)] cookies.
Definition redirect_no_store (location : pystr) : WebResponse :=
  mkWebResponse 303 (B_text []) [(py "location", location); no_store] [].
Definition json_response (status : Z) (value : json) : WebResponse := mkWebResponse status (B_json value) [] [].
Definition detail (text : string) : json := JDict [(py "detail", JStr (py text))].

(** [request.query_params.get(k, default)]: the last value of a name. *)
Definition query_param (k : string) (default_ : pystr) (r : WebRequest) : pystr :=
  foldl (fun acc kv => if bool_decide (kv.1 = py k) then kv.2 else acc) default_ (wr_query r).

(** ** [bytes.decode("utf-8", errors="replace")] *)

Definition between (lo hi b : Z) : bool := (lo <=? b) && (b <=? hi).
(** The range of the octet after a leading octet of three or four. *)
Definition second_ok (b0 b1 : Z) : bool :=
  if b0 =? 224 then between 160 191 b1
  else if b0 =? 237 then between 128 159 b1
  else if b0 =? 240 then between 144 191 b1
  else if b0 =? 244 then between 128 143 b1
  else between 128 191 b1.

(** One replacement character stands for each maximal prefix of a character that goes wrong. *)
Fixpoint utf8_decode_replace (b : bytes) : pystr :=
  match b with
  | [] => []
  | b0 :: t =>
      if between 0 127 b0 then b0 :: utf8_decode_replace t
      else if between 194 223 b0 then
        match t with
        | b1 :: t1 => if cont b1 then (b0 - 192) * 64 + (b1 - 128) :: utf8_decode_replace t1
                      else 65533 :: utf8_decode_replace t
        | [] => [65533]
        end
      else if between 224 239 b0 then
        match t with
        | b1 :: t1 =>
            if second_ok b0 b1 then
              match t1 with
              | b2 :: t2 => if cont b2 then (b0 - 224) * 4096 + (b1 - 128) * 64 + (b2 - 128) :: utf8_decode_replace t2
                            else 65533 :: utf8_decode_replace t1
              | [] => [65533]
              end
            else 65533 :: utf8_decode_replace t
        | [] => [65533]
        end
      else if between 240 244 b0 then
        match t with
        | b1 :: t1 =>
            if second_ok b0 b1 then
              match t1 with
              | b2 :: t2 =>
                  if cont b2 then
                    match t2 with
                    | b3 :: t3 =>
                        if cont b3 then
                          (b0 - 240) * 262144 + (b1 - 128) * 4096 + (b2 - 128) * 64 + (b3 - 128)
                          :: utf8_decode_replace t3
                        else 65533 :: utf8_decode_replace t2
                    | [] => [65533]
                    end
                  else 65533 :: utf8_decode_replace t1
              | [] => [65533]
              end
            else 65533 :: utf8_decode_replace t
        | [] => [65533]
        end
      else 65533 :: utf8_decode_replace t
  end.

(** ** [urllib.parse.parse_qs] *)

(** [unquote_to_bytes] of an ASCII run: a percent sign not followed by two hexadecimal digits stays. *)
Fixpoint unquote_to_bytes (s : pystr) : bytes :=
  match s with
  | [] => []
  | c :: t =>
      match t with
      | a :: b :: u =>
          if c =? 37 then
            match hex_value a, hex_value b with
            | Some x, Some y => x * 16 + y :: unquote_to_bytes u
            | _, _ => c :: unquote_to_bytes t
            end
          else c :: unquote_to_bytes t
      | _ => c :: unquote_to_bytes t
      end
  end.
(** [unquote(s)]: the ASCII runs are decoded one by one; [run] is the current one, reversed. *)
Fixpoint unquote_runs (run s : pystr) : pystr :=
  match s with
  | [] => utf8_decode_replace (unquote_to_bytes (rev run))
  | c :: t => if is_ascii c then unquote_runs (c :: run) t
              else utf8_decode_replace (unquote_to_bytes (rev run)) ++ c :: unquote_runs [] t
  end.
Definition unquote (s : pystr) : pystr := unquote_runs [] s.
Definition unquote_plus (s : pystr) : pystr := unquote (replace_char 43 [32] s).

Fixpoint parse_fields (keep_blank strict : bool) (fields : list pystr) : result (list (pystr * pystr)) :=
  match fields with
  | [] => Ok []
  | f :: t =>
      match f, strict with
      | [], false => parse_fields keep_blank strict t
      | _, _ =>
          match split_once 61 f with
          | (name, Some value) =>
              try! rest <- parse_fields keep_blank strict t;
              Ok (if negb (bool_decide (value = [])) || keep_blank then (unquote_plus name, unquote_plus value) :: rest
                  else rest)
          | (name, None) =>
              if strict then Raise ValueError
              else try! rest <- parse_fields keep_blank strict t;
                   Ok (if keep_blank then (unquote_plus name, []) :: rest else rest)
          end
      end
  end.
Definition parse_qsl (keep_blank strict : bool) (max_num_fields : option nat) (qs : pystr)
  : result (list (pystr * pystr)) :=
  match qs with
  | [] => Ok []
  | _ => if match max_num_fields with Some n => (n <? S (count_char 38 qs))%nat | None => false end
         then Raise ValueError else parse_fields keep_blank strict (split_char 38 qs)
  end.
(** The values of one name, in order: [parse_qs(...).get(name, [])]. *)
Definition field_values (name : pystr) (fields : list (pystr * pystr)) : list pystr :=
  map snd (List.filter (fun kv => bool_decide (kv.1 = name)) fields).
(** [{key: values[0] ...}.get(name)] *)
Definition field_first (name : string) (fields : list (pystr * pystr)) : option pystr :=
  head (field_values (py name) fields).

(** ** [uuid.UUID(text)] *)

Section Web.
Context `{Unicode}.

Definition hex_digit_value (c : Z) : option Z :=
  match decimal_value c with Some d => Some d | None => hex_value c end.
Fixpoint hex_digits (acc : Z) (after_digit : bool) (s : pystr) : option Z :=
  match s with
  | [] => if after_digit then Some acc else None
  | c :: t => match hex_digit_value c with
              | Some d => hex_digits (acc * 16 + d) true t
              | None => if (c =? 95) && after_digit then hex_digits acc false t else None
              end
  end.
(** [int(s, 16)] *)
Definition py_int16 (s : pystr) : result Z :=
  let '(sign, ds) := match strip s with 45 :: t => (-1, t) | 43 :: t => (1, t) | t => (1, t) end in
  let body := match ds with
              | 48 :: x :: t => if (x =? 120) || (x =? 88)
                                then match t with 95 :: u => u | _ => t end else ds
              | _ => ds
              end in
  match hex_digits 0 false body with Some v => Ok (sign * v) | None => Raise ValueError end.

(** [s.replace(old, "")] *)
Fixpoint remove_text (fuel : nat) (old s : pystr) : pystr :=
  match fuel with
  | O => s
  | S fuel => match s with
              | [] => []
              | c :: t => if startswith s old then remove_text fuel old (drop (length old) s)
                          else c :: remove_text fuel old t
              end
  end.
Definition parse_uuid (text : pystr) : result uuid :=
  let s := remove_text (length text) (py "urn:") text in
  let s := remove_text (length s) (py "uuid:") s in
  let brace c := (c =? 123) || (c =? 125) in
  let s := replace_char 45 [] (rstrip_by brace (lstrip_by brace s)) in
  if negb (length s =? 32)%nat then Raise ValueError
  else try! n <- py_int16 s; if (0 <=? n) && (n <? 2 ^ 128) then Ok n else Raise ValueError.

End Web.

(** ** [html.escape(s, quote=True)] *)

Definition escape_html_char (c : Z) : pystr :=
  if c =? 38 then py "&amp;" else if c =? 60 then py "&lt;" else if c =? 62 then py "&gt;"
  else if c =? 34 then py "&quot;" else if c =? 39 then py "&#x27;" else [c].
Definition html_escape (s : pystr) : pystr := flat_map escape_html_char s.

(** Text with a backtick where the source has a double quote. *)
Definition tpl (s : string) : pystr := map (fun c => if c =? 96 then 34 else c) (py s).

(** ** Examples *)

Example parse_qs_example :
  (try! t <- utf8_decode (py "a=1&b=%C3%A9+x&b=&c"); parse_qsl true false None t)
  = Ok [(py "a", py "1"); (py "b", [233; 32; 120]); (py "b", []); (py "c", [])].
Proof. vm_compute. reflexivity. Qed.
Example unquote_replaces : unquote (py "%ff%e2%82x%zz") = [65533; 65533; 120; 37; 122; 122].
Proof. vm_compute. reflexivity. Qed.
Example parse_uuid_example :
  @parse_uuid ascii_unicode (py "{00000000-0000-0000-0000-0000000000ff}") = Ok 255 /\
  @parse_uuid ascii_unicode (uuid_str 7) = Ok 7 /\ @parse_uuid ascii_unicode (py "7") = Raise ValueError.
Proof. vm_compute. auto. Qed.
