(* ===== verification/Layout.v ===== *)
(** The shell of every signed-in page (app/layout.py), and the skeleton of a page: the characters that
    make up its tags and attributes, which no interpolated value may contribute to. *)
From S2P Require Import Prelude PyBase Encoding Hashes Json Models Web.

(** [html.escape(str(value), quote=True)] of text. *)
Definition esc (value : pystr) : pystr := html_escape value.

Definition STYLESHEET : pystr := py "/static/analyst.css?v=9".
Definition SCRIPT : pystr := py "/static/analyst.js?v=7".

Definition navigation (user : User) : pystr :=
  match u_role user with
  | Role_USER => []
  | role =>
      tpl "<nav aria-label=`Primary`>" ++ tpl "<a href=`/analyst`>Scan</a>" ++
      (if bool_decide (role = Role_SUPER_ADMIN) then
         tpl "<a href=`/admin/settings`>Settings</a>" ++ tpl "<a href=`/admin/audit`>Audit</a>" ++
         tpl "<a href=`/account/profile`>Profile</a>" else []) ++
      tpl "<a href=`/analyst/schedules`>Schedule</a>" ++ tpl "</nav>"
  end.

(** [value.replace("_", " ")] of the role *)
Definition subtitle_ (user : User) : pystr :=
  if bool_decide (u_role user = Role_USER) then py "private account"
  else replace_char 95 [32] (UserRole_value (u_role user)).
(** The middle dot. *)
Definition dot : pystr := [183].

Definition page (title content : pystr) (user : User) (extra_styles extra_scripts : list pystr) : pystr :=
  let is_user := bool_decide (u_role user = Role_USER) in
  let home := if is_user then py "/portal" else py "/analyst" in
  let footer := if is_user then py "Your signed-in identity defines every result on this page"
                else py "Controlled exposure intelligence " ++ dot ++ py " Cleartext credentials are reveal-only" in
  let styles := flat_map (fun path => tpl "<link rel=`stylesheet` href=`" ++ esc path ++ tpl "`>") extra_styles in
  let scripts := flat_map (fun path => tpl "<script src=`" ++ esc path ++ tpl "` defer></script>") extra_scripts in
  tpl "<!doctype html><html lang=`en`><head><meta charset=`utf-8`>" ++
  tpl "<meta name=`viewport` content=`width=device-width,initial-scale=1`>" ++
  tpl "<meta name=`htmx-config` content='" ++
  tpl "{`includeIndicatorStyles`:false,`allowEval`:false,`allowScriptTags`:false}" ++
  tpl "'>" ++
  tpl "<title>" ++ esc title ++ tpl " " ++ dot ++ tpl " LeakCheck Hub</title>" ++
  tpl "<link rel=`stylesheet` href=`" ++ STYLESHEET ++ tpl "`>" ++
  styles ++
  tpl "<script src=`/static/htmx-2.0.10.min.js` defer></script>" ++
  tpl "<script src=`" ++ SCRIPT ++ tpl "` defer></script>" ++
  scripts ++
  tpl "</head><body>" ++
  tpl "<header class=`topbar`><a class=`brand` href=`" ++ home ++ tpl "`>" ++
  tpl "<span class=`brand-mark` aria-hidden=`true`>L</span><span>LeakCheck Hub</span></a>" ++
  navigation user ++
  tpl "<div class=`user-chip`><span>" ++
  esc (u_email user) ++
  tpl "</span><small>" ++
  esc (subtitle_ user) ++
  tpl "</small></div>" ++
  tpl "<button type=`button` id=`sign-out` class=`signout`>Sign out</button>" ++
  tpl "</header><main>" ++
  content ++
  tpl "</main><footer>" ++ footer ++ tpl "</footer>" ++
  tpl "</body></html>".

(** ** Lemmas: the skeleton of a page *)

Definition markup_special (c : Z) : bool := (c =? 60) || (c =? 62) || (c =? 34) || (c =? 39).
(** The angle brackets and quotes of a text, in order. *)
Definition skeleton (s : pystr) : pystr := List.filter markup_special s.
(** A text without any. *)
Definition inert (s : pystr) : Prop := skeleton s = [].

Lemma skeleton_app s t : skeleton (s ++ t) = skeleton s ++ skeleton t.
Proof. apply List.filter_app. Qed.
Lemma skeleton_cons c s : skeleton (c :: s) = if markup_special c then c :: skeleton s else skeleton s.
Proof. done. Qed.
Lemma skeleton_flat_map {A} (f : A -> pystr) l : skeleton (flat_map f l) = flat_map (fun x => skeleton (f x)) l.
Proof. induction l as [|x l IH]; [done|]. cbn [flat_map]. by rewrite skeleton_app, IH. Qed.

Lemma html_escape_inert s : forallb (fun c => negb (markup_special c)) (html_escape s) = true.
Proof.
  unfold html_escape. apply forallb_forall. intros c Hc. apply in_flat_map in Hc as (x&_&Hc).
  unfold escape_html_char in Hc.
  repeat match type of Hc with In _ (if ?b then _ else _) => destruct b eqn:? end;
    try (vm_compute in Hc; repeat (destruct Hc as [<- | Hc]; [reflexivity|]); done).
  destruct Hc as [<-|[]]. unfold markup_special. by rewrite !negb_orb, !andb_true_iff, !negb_true_iff.
Qed.

Lemma inert_forallb s : inert s <-> forallb (fun c => negb (markup_special c)) s = true.
Proof.
  unfold inert. induction s as [|c s IH]; [done|]. cbn [forallb]. rewrite skeleton_cons. destruct (markup_special c); [done|].
  apply IH.
Qed.
Lemma inert_esc s : inert (esc s).
Proof. apply inert_forallb, html_escape_inert. Qed.
Lemma inert_app s t : inert s -> inert t -> inert (s ++ t).
Proof. unfold inert. intros Hs Ht. by rewrite skeleton_app, Hs, Ht. Qed.
Lemma inert_nil : inert [].
Proof. done. Qed.
Lemma inert_if (b : bool) s t : inert s -> inert t -> inert (if b then s else t).
Proof. by destruct b. Qed.
(** Digits, letters and the like. *)
Lemma inert_plain s : Forall (fun c => markup_special c = false) s -> inert s.
Proof. induction 1 as [|c s Hc _ IH]; [done|]. unfold inert. by rewrite skeleton_cons, Hc. Qed.

Definition plain (s : pystr) : Prop := Forall (fun c => markup_special c = false) s.
Lemma plain_app s t : plain s -> plain t -> plain (s ++ t).
Proof. apply Forall_app_2. Qed.
Lemma plain_take n s : plain s -> plain (take n s).
Proof. apply Forall_take. Qed.
Lemma plain_drop n s : plain s -> plain (drop n s).
Proof. apply Forall_drop. Qed.
Lemma plain_digits fuel n acc : plain acc -> plain (digits_of fuel n acc).
Proof.
  revert n acc. induction fuel as [|fuel IH]; intros n acc Ha; [done|]. cbn [digits_of].
  assert (Hc : plain ((48 + n mod 10) :: acc)).
  { constructor; [|done]. pose proof (Z.mod_pos_bound n 10 ltac:(lia)). unfold markup_special. lia. }
  destruct (n <? 10); [done|by apply IH].
Qed.
Lemma plain_str_nat n : plain (str_nat n).
Proof. apply plain_digits. constructor. Qed.
Lemma plain_str_int n : plain (str_int n).
Proof. unfold str_int. destruct (n <? 0); [constructor; [done|]|]; apply plain_str_nat. Qed.
Lemma plain_zfill k s : plain s -> plain (zfill k s).
Proof. intros Hs. apply plain_app; [|done]. by apply Forall_replicate. Qed.
Ltac plain := repeat lazymatch goal with
  | |- plain (_ ++ _) => apply plain_app
  | |- plain (zfill _ _) => apply plain_zfill
  | |- plain (str_nat _) => apply plain_str_nat
  | |- plain (take _ _) => apply plain_take
  | |- plain (drop _ _) => apply plain_drop
  | |- plain (py _) => by apply (bool_decide_unpack _); vm_compute
  | |- plain (_ :: ?t) => apply (Forall_cons_2 _ _ t); [reflexivity|change (plain t)]
  | |- plain [] => constructor
  | |- plain (if ?b then _ else _) => destruct b
  end.
Lemma plain_date d : plain (date_isoformat d).
Proof. unfold date_isoformat. plain. Qed.
Lemma plain_instant t : plain (instant_isoformat t).
Proof. unfold instant_isoformat. cbv zeta. plain. apply plain_date. Qed.
Lemma plain_hex b : Forall (fun x => 0 <= x < 256) b -> plain (hex b).
Proof.
  induction 1 as [|x b Hx _ IH]; [constructor|]. cbn [hex flat_map app].
  assert (Hd : forall d, 0 <= d < 16 -> markup_special (hex_digit d) = false).
  { intros d Hd. unfold hex_digit, markup_special. destruct (Z.ltb_spec d 10); lia. }
  constructor; [|constructor; [|done]]; apply Hd; [|apply Z.mod_pos_bound; lia].
  split; [apply Z.div_pos; lia|apply Z.div_lt_upper_bound; lia].
Qed.
Lemma plain_uuid u : plain (uuid_str u).
Proof.
  assert (Hh : plain (hex (uuid_bytes u))) by apply plain_hex, be_split_range.
  unfold uuid_str. cbv zeta. plain; exact Hh.
Qed.

Lemma inert_str_int n : inert (str_int n).
Proof. apply inert_plain, plain_str_int. Qed.
Lemma inert_date d : inert (date_isoformat d).
Proof. apply inert_plain, plain_date. Qed.
Lemma inert_instant t : inert (instant_isoformat t).
Proof. apply inert_plain, plain_instant. Qed.
Lemma inert_uuid u : inert (uuid_str u).
Proof. apply inert_plain, plain_uuid. Qed.
Lemma inert_space t : inert (replace_char 84 [32] (instant_isoformat t)).
Proof.
  apply inert_plain. unfold replace_char. apply List.Forall_forall. intros c (x&Hx&Hc)%in_flat_map.
  pose proof (plain_instant t) as Hp. unfold plain in Hp. rewrite List.Forall_forall in Hp. specialize (Hp x Hx).
  cbn in Hc. destruct (x =? 84); cbn in Hc; destruct Hc as [<-|[]]; done.
Qed.

Create HintDb markup.
#[export] Hint Resolve inert_esc inert_nil inert_str_int inert_date inert_instant inert_uuid inert_space : markup.
#[export] Hint Extern 2 (inert (_ ++ _)) => apply inert_app : markup.

(** Rewrite the occurrences of a term itself, without unfolding anything to find more. *)
Ltac rewrite_term t E :=
  pattern t; match goal with |- ?P t => refine (eq_ind_r P _ E) end; cbv beta.
(** Drop the values from the skeleton in the goal. *)
Ltac drop_inert :=
  repeat match goal with
  | |- context [skeleton (esc ?s)] => rewrite_term (skeleton (esc s)) (inert_esc s)
  | |- context [skeleton (str_int ?s)] => rewrite_term (skeleton (str_int s)) (inert_str_int s)
  | |- context [skeleton (uuid_str ?s)] => rewrite_term (skeleton (uuid_str s)) (inert_uuid s)
  | |- context [skeleton (date_isoformat ?s)] => rewrite_term (skeleton (date_isoformat s)) (inert_date s)
  | |- context [skeleton (instant_isoformat ?s)] => rewrite_term (skeleton (instant_isoformat s)) (inert_instant s)
  end.

Lemma skeleton_page title content user content' user' styles scripts :
  u_role user = u_role user' -> skeleton content = skeleton content' ->
  skeleton (page title content user styles scripts) = skeleton (page title content' user' styles scripts).
Proof.
  intros Hr Hc. unfold page, navigation, subtitle_. cbv zeta. rewrite Hr.
  rewrite !skeleton_app. drop_inert. by rewrite Hc.
Qed.

(** ** Texts with the same markup *)

(** [a or b] of two texts. *)
Definition or_text (a b : pystr) : pystr := match a with [] => b | _ => a end.
Definition filled (s : pystr) : bool := match s with [] => false | _ => true end.

Definition same_markup (s t : pystr) : Prop := skeleton s = skeleton t.
#[export] Instance same_markup_equivalence : Equivalence same_markup.
Proof. unfold same_markup. split; [done|by intros s t|by intros s t u -> ->]. Qed.
#[export] Instance same_markup_app : Proper (same_markup ==> same_markup ==> same_markup) app.
Proof. intros s s' Hs t t' Ht. unfold same_markup in *. by rewrite !skeleton_app, Hs, Ht. Qed.

Lemma same_markup_inert s t : inert s -> inert t -> same_markup s t.
Proof. unfold same_markup. by intros -> ->. Qed.
Lemma same_markup_esc s t : same_markup (esc s) (esc t).
Proof. apply same_markup_inert; apply inert_esc. Qed.
Lemma same_markup_flat_map {A B} (f : A -> pystr) (g : B -> pystr) l l' :
  Forall2 (fun x y => same_markup (f x) (g y)) l l' -> same_markup (flat_map f l) (flat_map g l').
Proof. induction 1 as [|x y l l' Hxy _ IH]; [done|]. cbn [flat_map]. by rewrite Hxy, IH. Qed.
Lemma same_markup_join sep l l' : Forall2 same_markup l l' -> same_markup (join sep l) (join sep l').
Proof.
  induction 1 as [|x y l l' Hxy Hl IH]; [done|]. destruct Hl as [|x2 y2 l l' Hxy2 Hl]; [exact Hxy|].
  cbn [join] in *. by rewrite Hxy, IH.
Qed.
Lemma same_markup_or a a' b : filled a = filled a' -> same_markup a a' -> same_markup (or_text a b) (or_text a' b).
Proof. destruct a, a'; done. Qed.
(** The rows of a table, or the text for an empty one. *)
Lemma same_markup_rows {A} (f : A -> pystr) l l' b :
  (forall x, filled (f x) = true) -> Forall2 (fun x y => same_markup (f x) (f y)) l l' ->
  same_markup (or_text (flat_map f l) b) (or_text (flat_map f l') b).
Proof.
  intros Hf Hl. apply same_markup_or; [|by apply same_markup_flat_map].
  destruct Hl as [|x y l l' _ _]; [done|]. cbn [flat_map]. pose proof (Hf x) as Hx. pose proof (Hf y) as Hy. by destruct (f x), (f y).
Qed.

Lemma inert_or s t : inert s -> inert t -> inert (or_text s t).
Proof. by destruct s. Qed.
Lemma inert_join sep l : inert sep -> Forall inert l -> inert (join sep l).
Proof.
  intros Hsep. induction 1 as [|x l Hx Hl IH]; [done|]. destruct Hl as [|y l Hy Hl]; [exact Hx|].
  cbn [join] in *. apply inert_app; [done|]. by apply inert_app.
Qed.
Lemma inert_escaped_list l default_ : inert default_ -> inert (or_text (join (tpl ", ") (map esc l)) default_).
Proof.
  intros Hd. apply inert_or; [|done]. apply inert_join; [done|]. apply Forall_fmap, Forall_true. intros x. apply inert_esc.
Qed.

Lemma same_markup_page title title' content content' user user' styles scripts :
  u_role user = u_role user' -> same_markup content content' ->
  same_markup (page title content user styles scripts) (page title' content' user' styles scripts).
Proof.
  intros Hr Hc. unfold same_markup, page, navigation, subtitle_. cbv zeta. rewrite Hr.
  rewrite !skeleton_app. drop_inert. by rewrite Hc.
Qed.

(** Two renderings of one template, piece by piece; terms are compared by their form alone. *)
Ltac markup_step :=
  lazymatch goal with
  | |- same_markup ?s ?t =>
      tryif constr_eq s t then reflexivity else
      lazymatch s with
      | _ ++ _ => apply same_markup_app
      | esc _ => apply same_markup_esc
      | str_int _ => apply same_markup_inert; apply inert_str_int
      | uuid_str _ => apply same_markup_inert; apply inert_uuid
      | instant_isoformat _ => apply same_markup_inert; apply inert_instant
      | if ?b then _ else _ => lazymatch t with if ?c then _ else _ => constr_eq b c; destruct b end
      end
  end.
Ltac markup := repeat markup_step.
