(* ===== verification/Repr.v ===== *)
(** [repr] and [str] of a value read from JSON, and its readable dump with sorted keys. The
    representation of a floating-point number is a parameter. *)
From S2P Require Import Prelude PyBase Encoding Json Store IpAddress.

Section Repr.
Context `{Unicode}.
Variable float_str : pystr -> pystr.

Definition repr_char (quote c : Z) : pystr :=
  if (c =? quote) || (c =? 92) then [92; c]
  else if c =? 10 then [92; 110] else if c =? 13 then [92; 114] else if c =? 9 then [92; 116]
  else if isprintable c then [c]
  else if c <? 256 then [92; 120] ++ hex (be_split 1 c)
  else if c <? 65536 then [92; 117] ++ hex (be_split 2 c)
  else [92; 85] ++ hex (be_split 4 c).
Definition str_repr (s : pystr) : pystr :=
  let quote := if contains_char 39 s && negb (contains_char 34 s) then 34 else 39 in
  quote :: flat_map (repr_char quote) s ++ [quote].
Fixpoint repr (value : json) : pystr :=
  match value with
  | JNull => py "None"
  | JBool b => if b then py "True" else py "False"
  | JInt n => str_int n
  | JFloat t => float_str t
  | JStr s => str_repr s
  | JList l => [91] ++ join (py ", ") (map repr l) ++ [93]
  | JDict d => [123] ++ join (py ", ") (map (fun kv => str_repr kv.1 ++ py ": " ++ repr kv.2) d) ++ [125]
  end.
(** [str(value)] *)
Definition py_str (value : json) : pystr := match value with JStr s => s | _ => repr value end.

End Repr.

(** [json.dumps(value, sort_keys=True)] sorts the keys of every object. *)
Fixpoint sort_keys (j : json) : json :=
  match j with
  | JList l => JList (map sort_keys l)
  | JDict d => JDict (sort_by (fun a b => str_leb a.1 b.1) (map (fun kv => (kv.1, sort_keys kv.2)) d))
  | _ => j
  end.
(** A string with [ensure_ascii=False]: only quotes, backslashes and control characters are escaped. *)
Definition escape_plain_char (c : Z) : pystr := if (32 <=? c) && negb (c =? 34) && negb (c =? 92) then [c] else escape_char c.
Definition dump_plain_str (s : pystr) : pystr := 34 :: flat_map escape_plain_char s ++ [34].
Section DumpText.
Variable float_json : pystr -> pystr.
Fixpoint dump_text (j : json) : pystr :=
  match j with
  | JNull => py "null"
  | JBool b => if b then py "true" else py "false"
  | JInt n => str_int n
  | JFloat t => float_json t
  | JStr s => dump_plain_str s
  | JList l => [91] ++ join (py ", ") (map dump_text l) ++ [93]
  | JDict d => [123] ++ join (py ", ") (map (fun kv => dump_plain_str kv.1 ++ py ": " ++ dump_text kv.2) d) ++ [125]
  end.
(** [json.dumps(value, ensure_ascii=False, sort_keys=True)] *)
Definition dumps_sorted (j : json) : pystr := dump_text (sort_keys j).
End DumpText.

Example repr_example :
  @repr ascii_unicode (fun t => t) (JDict [(py "a'b", JList [JInt (-3); JNull; JStr [233; 9]])])
  = py "{" ++ [34] ++ py "a'b" ++ [34] ++ py ": [-3, None, '" ++ [233] ++ py "\t']}".
Proof. vm_compute. reflexivity. Qed.
