(* ===== verification/Csv.v ===== *)
(** Python's [csv.writer] with minimal quoting, and a reader of that format (RFC 4180) against which
    it is checked. *)
From S2P Require Import Prelude PyBase.

(** A character that makes the writer quote its field: delimiter, quote, or one of the line ending. *)
Definition csv_special (c : Z) : bool := (c =? 44) || (c =? 34) || (c =? 13) || (c =? 10).
Definition csv_quoted (s : pystr) : pystr := 34 :: flat_map (fun c => if c =? 34 then [34; 34] else [c]) s ++ [34].
Definition csv_field (s : pystr) : pystr := if existsb csv_special s then csv_quoted s else s.
(** [writer.writerow(cells)] with the line ending CR LF; a row of one empty field is quoted. *)
Definition csv_row (cells : list pystr) : pystr :=
  match cells with
  | [[]] => [34; 34; 13; 10]
  | _ => join [44] (map csv_field cells) ++ [13; 10]
  end.

(** The reader: what the current field and row hold, and how the field began. *)
Inductive csv_state : Type := Start | Plain | Quoted | QuoteSeen.
Fixpoint csv_read (st : csv_state) (cell : pystr) (row : list pystr) (s : pystr) : list (list pystr) :=
  let delimited c t plain :=
    if c =? 44 then csv_read Start [] (row ++ [cell]) t
    else match t with
         | d :: t' => if (c =? 13) && (d =? 10) then (row ++ [cell]) :: csv_read Start [] [] t' else plain
         | [] => plain
         end in
  match s with
  | [] => match st, row with Start, [] => [] | _, _ => [row ++ [cell]] end
  | c :: t =>
      match st with
      | Start => if c =? 34 then csv_read Quoted [] row t else delimited c t (csv_read Plain (cell ++ [c]) row t)
      | Plain => delimited c t (csv_read Plain (cell ++ [c]) row t)
      | Quoted => if c =? 34 then csv_read QuoteSeen cell row t else csv_read Quoted (cell ++ [c]) row t
      | QuoteSeen => if c =? 34 then csv_read Quoted (cell ++ [34]) row t
                     else delimited c t (csv_read Plain (cell ++ [c]) row t)
      end
  end.
Definition csv_rows (s : pystr) : list (list pystr) := csv_read Start [] [] s.

(** ** Lemmas *)

(** What ends a field: a comma, or the end of its row. *)
Definition field_end (rest : pystr) : Prop := exists t, rest = 44 :: t \/ rest = 13 :: 10 :: t.
Definition after_field (cell : pystr) (row : list pystr) (rest : pystr) : list (list pystr) :=
  match rest with
  | 44 :: t => csv_read Start [] (row ++ [cell]) t
  | _ :: _ :: t => (row ++ [cell]) :: csv_read Start [] [] t
  | _ => []
  end.

Lemma read_end st cell row rest : st <> Quoted -> field_end rest -> csv_read st cell row rest = after_field cell row rest.
Proof. intros Hst [t [-> | ->]]; destruct st; try reflexivity; by destruct Hst. Qed.

Lemma csv_special_false c : csv_special c = false -> c <> 44 /\ c <> 34 /\ c <> 13 /\ c <> 10.
Proof. unfold csv_special. rewrite !orb_false_iff, !Z.eqb_neq. tauto. Qed.

Lemma read_plain s st cell row rest :
  existsb csv_special s = false -> st = Start \/ st = Plain -> field_end rest ->
  csv_read st cell row (s ++ rest) = after_field (cell ++ s) row rest.
Proof.
  revert st cell. induction s as [|c s IH]; intros st cell Hs Hst Hrest.
  - cbn [app]. rewrite app_nil_r. apply read_end; [|done]. by destruct Hst as [-> | ->].
  - cbn [existsb] in Hs. apply orb_false_iff in Hs as [Hc Hs]. apply csv_special_false in Hc as (H1&H2&H3&H4).
    apply Z.eqb_neq in H1, H2, H3. cbn [app csv_read].
    assert (Hgo : csv_read Plain (cell ++ [c]) row (s ++ rest) = after_field (cell ++ c :: s) row rest).
    { rewrite IH by auto. by rewrite <- app_assoc. }
    destruct Hst as [-> | ->]; rewrite ?H2, H1, H3; cbn [andb]; by destruct (s ++ rest).
Qed.

Lemma read_quoted s cell row rest : field_end rest ->
  csv_read Quoted cell row (flat_map (fun c => if c =? 34 then [34; 34] else [c]) s ++ 34 :: rest)
    = after_field (cell ++ s) row rest.
Proof.
  revert cell. induction s as [|c s IH]; intros cell Hrest.
  - cbn [flat_map app csv_read]. rewrite app_nil_r. cbn [Z.eqb Pos.eqb]. by apply read_end.
  - cbn [flat_map]. destruct (c =? 34) eqn:E.
    + apply Z.eqb_eq in E as ->. cbn [app csv_read Z.eqb Pos.eqb]. rewrite IH by done. by rewrite <- app_assoc.
    + cbn [app csv_read]. rewrite E, IH by done. by rewrite <- app_assoc.
Qed.

Lemma read_field s row rest : field_end rest -> csv_read Start [] row (csv_field s ++ rest) = after_field s row rest.
Proof.
  intros Hrest. unfold csv_field. destruct (existsb csv_special s) eqn:E.
  - unfold csv_quoted. cbn [app csv_read Z.eqb Pos.eqb]. rewrite <- app_assoc. exact (read_quoted s [] row rest Hrest).
  - rewrite read_plain by auto. done.
Qed.

Lemma read_cells c cells row t :
  csv_read Start [] row (join [44] (map csv_field (c :: cells)) ++ 13 :: 10 :: t) = (row ++ c :: cells) :: csv_rows t.
Proof.
  revert c row. induction cells as [|d cells IH]; intros c row.
  - cbn [map join]. rewrite read_field; [done|]. exists t. by right.
  - change (join [44] (map csv_field (c :: d :: cells))) with (csv_field c ++ [44] ++ join [44] (map csv_field (d :: cells))).
    rewrite <- !app_assoc. cbn [app]. rewrite read_field by (eexists; by left). cbn [after_field].
    rewrite IH. by rewrite <- app_assoc.
Qed.

Lemma read_row cells t : cells <> [] -> csv_rows (csv_row cells ++ t) = cells :: csv_rows t.
Proof.
  intros Hne. destruct cells as [|c cells]; [done|].
  assert (Hgo : csv_rows ((join [44] (map csv_field (c :: cells)) ++ [13; 10]) ++ t) = (c :: cells) :: csv_rows t).
  { unfold csv_rows at 1. rewrite <- app_assoc. cbn [app]. apply (read_cells c cells []). }
  unfold csv_row. destruct c as [|x c]; [destruct cells as [|d cells]|]; [done|exact Hgo|exact Hgo].
Qed.

(** Reading back what the writer wrote gives the rows. *)
Lemma csv_roundtrip rows : Forall (fun r => r <> []) rows -> csv_rows (concat (map csv_row rows)) = rows.
Proof.
  induction 1 as [|r rows Hr _ IH]; [done|]. cbn [map concat]. by rewrite read_row, IH.
Qed.

Example csv_examples :
  csv_row [py "a"; py "b,c"; []; [34]] = py "a," ++ [34] ++ py "b,c" ++ [34] ++ py ",," ++ [34; 34; 34; 34; 13; 10].
Proof. reflexivity. Qed.
