(* ===== verification/Access.v ===== *)
(** Who may act and what is recorded: session-backed authentication and role guards
    (app/auth/authorization.py), and the append-only audit trail (app/audit.py). *)
From S2P Require Import Prelude PyBase Encoding Hashes Json Models Store Config IpAddress Session.

Section Access.
Context `{Entropy}.

Definition get_current_user (manager : SessionManager) (cookies : gmap pystr pystr) : M User :=
  let! verified <- verify manager (cookies !! SESSION_COOKIE_NAME) None;
  match verified with
  | None => raise (HTTPException 401)
  | Some v => mret (vs_user v)
  end.

(** The returned function is the dependency, given what resolves the current user. *)
Definition require_role (allowed_roles : list UserRole) : result (M User -> M User) :=
  match allowed_roles with
  | [] => Raise ValueError
  | _ => Ok (fun current =>
      let! current_user <- current;
      if bool_decide (u_role current_user ∈ allowed_roles) then mret current_user
      else raise (HTTPException 403))
  end.

(** The address as it enters the fingerprint. *)
Definition audit_ip (client_host : option pystr) : bytes :=
  match (try! a <- ip_address (default [] client_host); ascii_encode (ip_str a)) with
  | Ok b => b
  | Raise _ => py "invalid"
  end.

Definition audit_event (client_host : option pystr) (settings : Settings) (action : pystr)
    (actor_id : option uuid) (target_type target_id : option pystr) (meta : list (pystr * json))
  : M AuditLog :=
  let! secret <- lift (utf8_encode (session_secret settings));
  let key := hmac_sha256 secret (py "leakcheck/audit-ip/v1") in
  let! id <- uuid4;
  let! now <- clock;
  let event := mkAuditLog id actor_id action target_type target_id
                 (hmac_sha256 key (audit_ip client_host)) now meta in
  let! d <- get_db;
  if AuditLog_ok event && match actor_id with Some a => bool_decide (is_Some (users d !! a)) | None => true end
  then do! modify_db (fun d => set_audit_log (audit_log d ++ [event]) d); mret event
  else raise IntegrityError.

End Access.

(** ** Lemmas *)

(** A parser whose only exception is [ValueError]. *)
Definition value_errors {A} (r : result A) : Prop := match r with Ok _ => True | Raise e => e = ValueError end.

Lemma value_errors_bind {A B} (r : result A) (k : A -> result B) :
  value_errors r -> (forall a, value_errors (k a)) -> value_errors (rbind r k).
Proof. destruct r; cbn; auto. Qed.

Lemma value_errors_rmap {A B} (f : A -> result B) l : (forall x, value_errors (f x)) -> value_errors (rmap f l).
Proof.
  intros Hf. induction l as [|x l IH]; [done|]. cbn [rmap].
  apply value_errors_bind; [done|]. intros y. by apply value_errors_bind.
Qed.

Lemma value_errors_ipv4 s : value_errors (parse_ipv4 s).
Proof.
  unfold parse_ipv4. destruct (_ =? _)%nat; [|done]. apply value_errors_bind; [|done].
  apply value_errors_rmap. intros x. unfold parse_octet. by repeat case_match.
Qed.

Lemma value_errors_hextets l : value_errors (rmap parse_hextet l).
Proof.
  apply value_errors_rmap. intros x. unfold parse_hextet. destruct (_ || _); [done|]. by destruct (hex_int 0 x).
Qed.

Lemma value_errors_ipv6_parts l : value_errors (parse_ipv6_parts l).
Proof.
  unfold parse_ipv6_parts. destruct (9 <? length l)%nat; [done|].
  destruct (empty_positions _ _) as [|skip [|]]; [| |done].
  - destruct (_ || _ || _); [done|apply value_errors_hextets].
  - repeat (match goal with |- value_errors (if ?b then Raise _ else _) => destruct b; [done|] end).
    apply value_errors_bind; [apply value_errors_hextets|]. intros high.
    by apply value_errors_bind; [apply value_errors_hextets|].
Qed.

Lemma value_errors_ip s : value_errors (ip_address s).
Proof.
  assert (H6 : forall t, value_errors (parse_ipv6_int t)).
  { intros t. unfold parse_ipv6_int. destruct (_ || _); [done|]. apply value_errors_bind.
    - destruct (contains_char _ _); [|done]. by apply value_errors_bind; [apply value_errors_ipv4|].
    - intros ps. by apply value_errors_bind; [apply value_errors_ipv6_parts|]. }
  unfold ip_address, parse_ipv6. destruct (contains_char 47 s); [done|]. destruct (parse_ipv4 s); [done|].
  destruct (split_once 37 s) as [addr [scope|]]; [destruct (_ || _); [done|]|]; by apply value_errors_bind.
Qed.

Section AccessLemmas.
Context `{Entropy}.

Lemma audit_event_inv host settings action actor tt_ ti meta w r w' :
  audit_event host settings action actor tt_ ti meta w = (r, w') ->
  match r with
  | Ok event => audit_log (w_db w') = audit_log (w_db w) ++ [event] /\ al_action event = action /\
      al_actor_id event = actor /\ al_target_type event = tt_ /\ al_target_id event = ti /\ al_meta event = meta /\
      al_at event = w_now w
  | Raise _ => w_db w' = w_db w
  end.
Proof using Type.
  unfold audit_event, mbind, lift, uuid4, clock, get_db.
  destruct (utf8_encode (session_secret settings)) as [secret|e]; [|by intros [= <- <-]]. cbn [w_db w_now].
  destruct (_ && _); unfold modify_db, mret, raise, with_db; intros [= <- <-]; by repeat split.
Qed.

End AccessLemmas.

(** The cases of a guarded request: the handler runs as a permitted user, or nothing happens. *)
Lemma guarded_cases `{Entropy} {A} manager allowed dependency cookies
    (handler : User -> M A) w :
  require_role allowed = Ok dependency ->
  let route := get_db_session (let! user <- dependency (get_current_user manager cookies); handler user) in
  (exists v w1, verify manager (cookies !! SESSION_COOKIE_NAME) None w = (Ok (Some v), w1) /\
     u_is_active (vs_user v) = true /\ u_role (vs_user v) ∈ allowed /\
     route w = get_db_session (fun _ => handler (vs_user v) w1) w) \/
  (exists status w', route w = (Raise (HTTPException status), w') /\
     w_committed w' = w_committed w /\ w_db w' = w_committed w /\
     match (verify manager (cookies !! SESSION_COOKIE_NAME) None w).1 with
     | Ok (Some v) => status = 403 /\ u_role (vs_user v) ∉ allowed
     | _ => status = 401
     end).
Proof.
  intros Hdep route. destruct allowed as [|r rs]; [done|]. injection Hdep as <-.
  set (allowed := r :: rs) in *. subst route. unfold get_db_session, get_current_user, mbind.
  destruct (verify manager (cookies !! SESSION_COOKIE_NAME) None w) as [[[v|]|e] w1] eqn:E.
  - pose proof (verify_inv _ _ _ _ _ _ E) as (t&c&s&user&_&_&_&_&_&_&Hact&_&_&->&Hw1).
    unfold mret, raise. cbn [vs_user]. destruct (bool_decide (u_role user ∈ allowed)) eqn:Er.
    + left. exists (mkVerifiedSession user (se_expires_at s)), w1. apply bool_decide_eq_true in Er. by repeat split.
    + right. exists 403, (rollback w1).2. apply bool_decide_eq_false in Er. subst w1. by repeat split.
  - right. pose proof (verify_inv _ _ _ _ _ _ E) as ->. exists 401, (rollback w).2. by repeat split.
  - exfalso. revert E. unfold verify, mbind at 1, lift at 1.
    destruct (validated_token_hash (cookies !! SESSION_COOKIE_NAME)) as [[h|]|e'] eqn:Eh.
    + unfold mbind at 1, utc_now_m, utc_now. unfold mbind at 1, get_db. destruct (session_and_user h (w_db w)) as [[s u]|];
        [|done]. by destruct (_ || _ || _ || _).
    + done.
    + intros _. revert Eh. unfold validated_token_hash. destruct (cookies !! _) as [t|]; [|done].
      destruct (token_pattern t) eqn:Et; [|done]. unfold token_hash, ascii_encode.
      by rewrite (token_pattern_ascii t Et).
Qed.

(** ** Properties *)

(** Routes deny by default.  A request behind a role guard either carries a live session of an
    active user with an allowed role, and then the handler runs as that user, or it is answered 401
    (no live session) or 403 (a role that is not allowed): the handler does not run and nothing is
    changed in the database, not even the idle deadline the check had moved. *)
Theorem guarded_route_denies_by_default `{Entropy} {A} manager allowed dependency cookies
    (handler : User -> M A) w :
  require_role allowed = Ok dependency ->
  let route := get_db_session (let! user <- dependency (get_current_user manager cookies); handler user) in
  (exists v w1, verify manager (cookies !! SESSION_COOKIE_NAME) None w = (Ok (Some v), w1) /\
     u_is_active (vs_user v) = true /\ u_role (vs_user v) ∈ allowed /\
     route w = get_db_session (fun _ => handler (vs_user v) w1) w) \/
  (exists status w', route w = (Raise (HTTPException status), w') /\
     w_committed w' = w_committed w /\ w_db w' = w_committed w /\
     match (verify manager (cookies !! SESSION_COOKIE_NAME) None w).1 with
     | Ok (Some v) => status = 403 /\ u_role (vs_user v) ∉ allowed
     | _ => status = 401
     end).
Proof. intros Hdep. by apply guarded_cases. Qed.

(** A user without a session asks for a page of administrators. *)
Lemma guarded_route_denies_by_default_witness :
  exists w', @get_db_session Z (let! user <- (fun current => let! u <- current;
      if bool_decide (u_role u ∈ [Role_SUPER_ADMIN]) then mret u else raise (HTTPException 403))
      (get_current_user sample_manager ∅); mret 200) session_world = (Raise (HTTPException 401), w').
Proof.
  destruct (@guarded_route_denies_by_default counting_entropy Z sample_manager [Role_SUPER_ADMIN] _ ∅
    (fun _ => mret 200) session_world eq_refl) as [(v&w1&E&_)|(status&w'&E&_&_&Hs)].
  - assert (Hn : (verify sample_manager ((∅ : gmap pystr pystr) !! SESSION_COOKIE_NAME) None session_world).1
      = Ok None) by (vm_compute; reflexivity). rewrite E in Hn. discriminate Hn.
  - assert (Hn : (verify sample_manager ((∅ : gmap pystr pystr) !! SESSION_COOKIE_NAME) None session_world).1
      = Ok None) by (vm_compute; reflexivity). rewrite Hn in Hs. subst status. exists w'. exact E.
Defined.
