(* ===== verification/LocalAuth.v ===== *)
(** Local super-admin sign-in (app/auth/local.py): Argon2id passwords behind an interface, RFC 6238
    one-time codes, encrypted seeds, and the durable throttles of the account and of the client. *)
From S2P Require Import Prelude PyBase Encoding Hashes Json Models Store Config Aead IpAddress Access Url.

(** The [argon2] package's [PasswordHasher]: [verify] and [check_needs_rehash] raise on a malformed
    verifier, and [verify] raises rather than answer [False]. *)
Class Argon2 := {
  argon2_hash : bytes -> pystr -> pystr;  (* salt, password *)
  argon2_verify : pystr -> pystr -> result bool;
  argon2_needs_rehash : pystr -> result bool;
}.
Class Argon2Laws `{Argon2} : Prop := {
  argon2_verify_hash : forall salt password, argon2_verify (argon2_hash salt password) password = Ok true;
  argon2_current : forall salt password, argon2_needs_rehash (argon2_hash salt password) = Ok false;
}.

Definition InvalidHashError : exn := OtherException "InvalidHashError"%string.
Definition VerifyMismatchError : exn := OtherException "VerifyMismatchError"%string.
Definition VerificationError : exn := OtherException "VerificationError"%string.

Definition DUMMY_VERIFIER : pystr :=
  py "$argon2id$v=19$m=65536,t=3,p=4$MIIRqgvgQbgj220jfp0MPA$YfwJSVjtjSU0zzV/P3S9nnQ/USre2wvJMjfCIjrTQbg".
Definition TOTP_SECRET_BYTES : nat := 20.
Definition TOTP_DIGITS : nat := 6.
Definition TOTP_PERIOD_SECONDS : Z := 30.
Definition TOTP_VALID_WINDOWS : Z := 1.
Definition TOTP_NONCE_BYTES : nat := 12.
Definition MIN_PASSWORD_BYTES : Z := 15.
Definition MAX_PASSWORD_BYTES : Z := 1024.
Definition MAX_EMAIL_LENGTH : nat := 255.
Definition MAX_DISPLAY_NAME_LENGTH : nat := 255.

(** [[A-Za-z0-9.!#$%&'*+/=?^_`{|}~-]] *)
Definition local_part_char (c : Z) : bool :=
  ascii_alnum c || bool_decide (c ∈ py ".!#$%&'*+/=?^_`{|}~-").
(** [[A-Za-z0-9](?:[A-Za-z0-9-]{0,61}[A-Za-z0-9])?] *)
Definition host_label (s : pystr) : bool :=
  (length s <=? 63)%nat && forallb (fun c => ascii_alnum c || (c =? 45)) s
  && match s with [] => false | c :: _ => ascii_alnum c && ascii_alnum (List.last s c) end.
Definition EMAIL_PATTERN (s : pystr) : bool :=
  match split_once 64 s with
  | (local, Some domain) =>
      negb (bool_decide (local = [])) && forallb local_part_char local
      && (2 <=? length (split_char 46 domain))%nat && forallb host_label (split_char 46 domain)
  | _ => false
  end.

Record LocalAuthenticator := mkLocalAuthenticator {
  la_settings : Settings;
  account_max_failures : Z;
  account_lockout : Z;
  ip_max_failures : Z;
  ip_window : Z;
  ip_lockout : Z;
  ip_key : bytes;
}.

Definition new_local_authenticator (settings : Settings) : result LocalAuthenticator :=
  try! secret <- utf8_encode (session_secret settings);
  Ok (mkLocalAuthenticator settings (admin_login_max_failures settings)
        (timedelta_seconds (admin_login_lockout_seconds settings)) (admin_login_ip_max_failures settings)
        (timedelta_seconds (admin_login_ip_window_seconds settings))
        (timedelta_seconds (admin_login_ip_lockout_seconds settings))
        (hmac_sha256 secret (py "leakcheck/admin-login-ip/v1"))).

(** ** One-time codes *)

Definition totp_key (secret : pystr) : result bytes :=
  if negb (isascii secret) || negb ((16 <=? length secret)%nat && (length secret <=? 128)%nat)
  then Raise LocalAuthenticationError
  else match b32decode (pad_to 8 secret) with
  | Raise BinasciiError => Raise LocalAuthenticationError
  | Raise e => Raise e
  | Ok key => if (length key =? TOTP_SECRET_BYTES)%nat then Ok key else Raise LocalAuthenticationError
  end.

Definition totp_truncate (digest : bytes) : Z :=
  let offset := Z.to_nat (Z.land (List.last digest 0) 15) in
  Z.land (be_combine (take 4 (drop offset digest))) 2147483647.

(** [totp_code] at an instant; [int(timestamp())] drops the fraction. *)
Definition totp_code (secret : pystr) (now : instant) : result pystr :=
  let counter := Z.quot now second / TOTP_PERIOD_SECONDS in
  if counter <? 0 then Raise LocalAuthenticationError
  else
    try! key <- totp_key secret;
    try! message <- to_bytes 8 counter;
    Ok (zfill TOTP_DIGITS (str_nat (totp_truncate (hmac_sha1 key message) mod 10 ^ Z.of_nat TOTP_DIGITS))).

(** [range(-windows, windows + 1)] *)
Definition window_offsets : list Z :=
  map (fun i => Z.of_nat i - TOTP_VALID_WINDOWS) (seq 0 (Z.to_nat (2 * TOTP_VALID_WINDOWS + 1))).

Definition verify_totp (secret supplied_code : pystr) (current : instant) : result bool :=
  if negb (length supplied_code =? TOTP_DIGITS)%nat || negb (isascii supplied_code)
     || negb (forallb ascii_digit supplied_code)
  then Ok false
  else match rmap (fun offset => totp_code secret (current + timedelta_seconds (offset * TOTP_PERIOD_SECONDS)))
               window_offsets with
  | Ok expected_codes => Ok (existsb (compare_digest supplied_code) expected_codes)
  | Raise LocalAuthenticationError => Ok false
  | Raise e => Raise e
  end.

Definition generate_totp_secret `{Entropy} : M pystr :=
  let! b <- token_bytes TOTP_SECRET_BYTES; mret (b32encode_quintets b).

(** ** Stored seeds *)

Definition local_data_key (settings : Settings) : result bytes :=
  match (try! padded <- ascii_encode (pad_to 4 (data_key settings)); b64decode_strict padded) with
  | Ok key => Ok key
  | Raise e => Raise (if is_value_error e then LocalAuthenticationError else e)
  end.

Definition totp_aad (user_id : uuid) : bytes := py "leakcheck/admin-totp/v1/" ++ uuid_bytes user_id.

Section Seeds.
Context `{Aead} `{Entropy}.

Definition encrypt_totp_secret (settings : Settings) (user_id : uuid) (secret : pystr) : M bytes :=
  let! _ <- lift (totp_key secret);
  let! nonce <- token_bytes TOTP_NONCE_BYTES;
  let! key <- lift (try! k <- local_data_key settings; aesgcm k);
  let! plaintext <- lift (ascii_encode secret);
  mret (nonce ++ aes_encrypt key nonce plaintext (totp_aad user_id)).

Definition decrypt_totp_secret (settings : Settings) (user_id : uuid) (encrypted : bytes) : result pystr :=
  if (length encrypted <=? TOTP_NONCE_BYTES)%nat then Raise LocalAuthenticationError
  else
    let attempt :=
      try! key <- (try! k <- local_data_key settings; aesgcm k);
      try! plaintext <- aes_open key (take TOTP_NONCE_BYTES encrypted) (drop TOTP_NONCE_BYTES encrypted)
                          (totp_aad user_id);
      try! secret <- ascii_decode plaintext;
      try! _ <- totp_key secret;
      Ok secret in
    match attempt with
    | Raise (InvalidTag | UnicodeDecodeError | LocalAuthenticationError) => Raise LocalAuthenticationError
    | r => r
    end.

End Seeds.

(** ** Accounts and passwords *)

Section LocalAuth.
Context `{Unicode} `{Collation} `{Argon2} `{Aead} `{Entropy}.

Definition normalise_admin_email (email : pystr) : result pystr :=
  let normalised := lower (strip email) in
  if negb (isascii normalised) || (MAX_EMAIL_LENGTH <? length normalised)%nat
     || negb (EMAIL_PATTERN normalised)
  then Raise LocalAuthenticationError else Ok normalised.

Definition normalise_display_name (display_name : pystr) : result pystr :=
  let normalised := strip display_name in
  if bool_decide (normalised = []) || (MAX_DISPLAY_NAME_LENGTH <? length normalised)%nat
  then Raise LocalAuthenticationError else Ok normalised.

Definition normalise_login_email (email : pystr) : option pystr :=
  match normalise_admin_email email with Ok e => Some e | Raise _ => None end.

Definition validate_new_password (password : pystr) : result unit :=
  match utf8_encode password with
  | Raise _ => Raise LocalAuthenticationError
  | Ok b => let n := Z.of_nat (length b) in
            if (MIN_PASSWORD_BYTES <=? n) && (n <=? MAX_PASSWORD_BYTES) then Ok tt
            else Raise LocalAuthenticationError
  end.

Definition hash_password (password : pystr) : M pystr :=
  do! lift (validate_new_password password);
  let! salt <- token_bytes 16;
  mret (argon2_hash salt password).

Definition verify_password (password_hash password : pystr) : result bool :=
  match argon2_verify password_hash password with
  | Raise e => if bool_decide (e ∈ [InvalidHashError; VerificationError; VerifyMismatchError])
               then Ok false else Raise e
  | r => r
  end.

Definition verify_dummy_password (password : pystr) : result bool := verify_password DUMMY_VERIFIER password.

Definition password_needs_rehash (password_hash : pystr) : result bool :=
  match argon2_needs_rehash password_hash with
  | Raise e => if bool_decide (e = InvalidHashError) then Ok false else Raise e
  | r => r
  end.

Definition user_with_email (email : pystr) (u : User) : bool := citext_eq (u_email u) email.

Definition create_superadmin (email display_name password : pystr) : M User :=
  let! normalised_email <- lift (normalise_admin_email email);
  let! normalised_name <- lift (normalise_display_name display_name);
  let! d <- get_db;
  match find_row (user_with_email normalised_email) (users d) with
  | Some _ => raise SuperAdminAlreadyExistsError
  | None =>
      let! id <- uuid4;
      let! password_hash <- hash_password password;
      let! now <- clock;
      let user := mkUser id normalised_email None normalised_name None Role_SUPER_ADMIN true Source_MANUAL
                    now None in
      let credential := mkAdminCredential id password_hash None None 0 None in
      let! us <- lift (insert_row true id user (users d));
      let! cs <- lift (insert_row (AdminCredential_ok credential) id credential (admin_credentials d));
      do! modify_db (fun d => set_admin_credentials cs (set_users us d));
      mret user
  end.

(** The provisioning URI of a seed; the address is normalised again. *)
Definition build_totp_provisioning_uri (email secret : pystr) : result pystr :=
  try! _ <- totp_key secret;
  let issuer := py "LeakCheck SOC Portal" in
  try! address <- normalise_admin_email email;
  try! label <- quote (issuer ++ 58 :: address);
  try! parameters <- urlencode [(py "secret", secret); (py "issuer", issuer)];
  Ok (py "otpauth://totp/" ++ label ++ 63 :: parameters).

(** ** Throttles *)

Definition reset_ip_limit_if_elapsed (auth : LocalAuthenticator) (now : instant) (rl : AdminLoginRateLimit)
  : AdminLoginRateLimit :=
  if match rl_blocked_until rl with Some t => t <=? now | None => false end
  then set_rl_window_started_at now (set_rl_blocked_until None (set_rl_attempts 0 rl))
  else if rl_window_started_at rl + ip_window auth <=? now
  then set_rl_window_started_at now (set_rl_attempts 0 rl)
  else rl.

Definition record_ip_failure (auth : LocalAuthenticator) (now : instant) (rl : AdminLoginRateLimit)
  : AdminLoginRateLimit :=
  let rl := reset_ip_limit_if_elapsed auth now rl in
  let rl := set_rl_attempts (rl_attempts rl + 1) rl in
  if ip_max_failures auth <=? rl_attempts rl
  then set_rl_blocked_until (Some (now + ip_lockout auth)) rl else rl.

Definition put_rate_limit (rl : AdminLoginRateLimit) : M unit :=
  modify_db (fun d => set_rate_limits (<[rl_ip_hash rl := rl]> (rate_limits d)) d).
Definition put_credential (c : AdminCredential) : M unit :=
  modify_db (fun d => set_admin_credentials (<[ac_user_id c := c]> (admin_credentials d)) d).
Definition put_user (u : User) : M unit :=
  modify_db (fun d => set_users (<[u_id u := u]> (users d)) d).

Definition load_ip_limit (ip_hash : bytes) (now : instant) : M AdminLoginRateLimit :=
  let! d <- get_db;
  match rate_limits d !! ip_hash with
  | Some rl => mret rl
  | None =>
      let rl := mkAdminLoginRateLimit ip_hash now 0 None in
      let! t <- lift (insert_row (AdminLoginRateLimit_ok rl) ip_hash rl (rate_limits d));
      do! modify_db (set_rate_limits t);
      mret rl
  end.

Definition local_ip_hash (auth : LocalAuthenticator) (client_ip : pystr) : result bytes :=
  match ip_address client_ip with
  | Raise e => Raise (if is_value_error e then LocalAuthenticationError else e)
  | Ok a => try! b <- ascii_encode (ip_str a); Ok (hmac_sha256 (ip_key auth) b)
  end.

(** The joined row of an account and its credential. *)
Definition account_row (email : pystr) (d : Db) : option (User * AdminCredential) :=
  match find_row (user_with_email email) (users d) with
  | Some u => match admin_credentials d !! u_id u with Some c => Some (u, c) | None => None end
  | None => None
  end.

(** The second factor of an enrolled account, [LocalAuthenticationError] counting as a wrong code. *)
Definition totp_valid (auth : LocalAuthenticator) (user : User) (credential : AdminCredential)
    (code : option pystr) (current : instant) : result bool :=
  match ac_totp_secret_enc credential, code with
  | Some encrypted, Some c =>
      match (try! secret <- decrypt_totp_secret (la_settings auth) (u_id user) encrypted;
             verify_totp secret c current) with
      | Raise LocalAuthenticationError => Ok false
      | r => r
      end
  | _, _ => Ok false
  end.

(** Both factors: the code is only looked at when the password is right. *)
Definition factors_valid (auth : LocalAuthenticator) (user : User) (credential : AdminCredential)
    (password : pystr) (code : option pystr) (current : instant) : result bool :=
  try! password_valid <- verify_password (ac_password_hash credential) password;
  if password_valid then
    match ac_totp_enabled_at credential with
    | None => Ok true
    | Some _ => totp_valid auth user credential code current
    end
  else Ok false.

Definition record_account_failure (auth : LocalAuthenticator) (current : instant) (c : AdminCredential)
  : AdminCredential :=
  let c := set_ac_failed_attempts (ac_failed_attempts c + 1) c in
  if account_max_failures auth <=? ac_failed_attempts c
  then set_ac_locked_until (Some (current + account_lockout auth)) c else c.

Definition refuse (auth : LocalAuthenticator) (current : instant) (rl : AdminLoginRateLimit) : M (option User) :=
  do! put_rate_limit (record_ip_failure auth current rl); mret None.

(** The attempt on an eligible account whose lock, if any, has elapsed. *)
Definition check_factors (auth : LocalAuthenticator) (user : User) (credential : AdminCredential)
    (password : pystr) (code : option pystr) (current : instant) (rl : AdminLoginRateLimit)
  : M (option User) :=
  let! ok <- lift (factors_valid auth user credential password code current);
  if negb ok then
    do! put_credential (record_account_failure auth current credential);
    refuse auth current rl
  else
    let credential := set_ac_locked_until None (set_ac_failed_attempts 0 credential) in
    let! rehash <- lift (password_needs_rehash (ac_password_hash credential));
    let! credential <- (if rehash
                        then let! h <- hash_password password; mret (set_ac_password_hash h credential)
                        else mret credential);
    do! put_credential credential;
    let user := set_u_last_login_at (Some current) user in
    do! put_user user;
    mret (Some user).

Definition authenticate (auth : LocalAuthenticator) (username password : pystr) (code : option pystr)
    (client_ip : pystr) (now : option pydatetime) : M (option User) :=
  let! current <- utc_now_m now;
  match local_ip_hash auth client_ip with
  | Raise LocalAuthenticationError => mret None
  | Raise e => raise e
  | Ok ip_hash =>
      let! rate_limit <- load_ip_limit ip_hash current;
      if match rl_blocked_until rate_limit with Some t => current <? t | None => false end then mret None
      else
        let rate_limit := reset_ip_limit_if_elapsed auth current rate_limit in
        do! put_rate_limit rate_limit;
        let dummy := let! _ <- lift (verify_dummy_password password); refuse auth current rate_limit in
        match normalise_login_email username with
        | None => dummy
        | Some email =>
            let! d <- get_db;
            match account_row email d with
            | None => dummy
            | Some (user, credential) =>
                if negb (u_is_active user) || negb (bool_decide (u_role user = Role_SUPER_ADMIN)) then dummy
                else match ac_locked_until credential with
                | Some t =>
                    if current <? t then refuse auth current rate_limit
                    else check_factors auth user
                           (set_ac_locked_until None (set_ac_failed_attempts 0 credential))
                           password code current rate_limit
                | None => check_factors auth user credential password code current rate_limit
                end
            end
        end
  end.

End LocalAuth.

(** ** Lemmas: one-time codes *)

(** RFC 4226's value of a counter. *)
Definition hotp (key : bytes) (counter : Z) : pystr :=
  zfill 6 (str_nat (totp_truncate (hmac_sha1 key (be_split 8 counter)) mod 1000000)).

Lemma digits_of_spec fuel n acc k :
  0 <= n < 10 ^ Z.of_nat (S k) ->
  exists ds, digits_of fuel n acc = ds ++ acc /\ (length ds <= S k)%nat /\ forallb ascii_digit ds = true.
Proof.
  revert n acc k. induction fuel as [|f IH]; intros n acc k Hn; [by exists []; split; [done|split; [cbn; lia|]]|].
  cbn [digits_of]. pose proof (Z.mod_pos_bound n 10).
  assert (Hd : ascii_digit (48 + n mod 10) = true) by (unfold ascii_digit; lia).
  destruct (n <? 10) eqn:E.
  - exists [48 + n mod 10]. split; [done|]. split; [cbn; lia|]. cbn. by rewrite Hd.
  - destruct k as [|k]; [cbn in Hn; lia|].
    destruct (IH (n / 10) ((48 + n mod 10) :: acc) k) as (ds&->&Hl&Hds).
    { rewrite (Nat2Z.inj_succ (S k)), Z.pow_succ_r in Hn by lia.
      split; [apply Z.div_pos; lia|]. apply Z.div_lt_upper_bound; lia. }
    exists (ds ++ [48 + n mod 10]). rewrite <- app_assoc, length_app, forallb_app, Hds. cbn. rewrite Hd.
    split; [done|]. split; [lia|done].
Qed.

Lemma hotp_shape key counter :
  length (hotp key counter) = 6%nat /\ forallb ascii_digit (hotp key counter) = true.
Proof.
  unfold hotp. set (v := _ mod 1000000). assert (Hv : 0 <= v < 10 ^ Z.of_nat 6).
  { change (10 ^ Z.of_nat 6) with 1000000. apply Z.mod_pos_bound. lia. }
  destruct (digits_of_spec (S (Z.to_nat (Z.log2 v))) v [] 5 Hv) as (ds&Eds&Hl&Hds).
  unfold str_nat. rewrite Eds, app_nil_r. unfold zfill. rewrite length_app, length_replicate. split; [lia|].
  rewrite forallb_app, Hds, andb_true_r. apply forallb_Forall, Forall_replicate. done.
Qed.

Lemma forallb_digit_ascii s : forallb ascii_digit s = true -> isascii s = true.
Proof.
  unfold isascii. rewrite !List.forallb_forall. intros Hs c Hc. specialize (Hs c Hc).
  unfold ascii_digit, is_ascii in *. lia.
Qed.

Lemma totp_code_hotp secret key t :
  totp_key secret = Ok key -> 0 <= t < 256 ^ 8 ->
  totp_code secret t = Ok (hotp key (t / timedelta_seconds 30)).
Proof.
  intros Hk Ht. unfold totp_code, TOTP_PERIOD_SECONDS, timedelta_seconds, second.
  rewrite Z.quot_div_nonneg, Z.div_div by lia. replace (1000000 * 30) with (30 * 1000000) by done.
  assert (Hc : 0 <= t / (30 * 1000000) <= t) by (split; [apply Z.div_pos|apply Z.div_le_upper_bound]; lia).
  replace (_ <? 0) with false by lia. rewrite Hk. cbn [rbind]. unfold to_bytes.
  replace ((0 <=? _) && _) with true; [done|]. symmetry. change (Z.of_nat 8) with 8. lia.
Qed.

(** ** Lemmas: seeds *)

Lemma totp_aad_inj a b : 0 <= a < 2 ^ 128 -> 0 <= b < 2 ^ 128 -> totp_aad a = totp_aad b -> a = b.
Proof. intros Ha Hb E. unfold totp_aad in E. apply app_inv_head in E. by apply uuid_bytes_inj. Qed.

Lemma validated_local_key `{Unicode} s :
  validate_settings s = Ok s -> exists key, local_data_key s = Ok key /\ aesgcm key = Ok key.
Proof.
  unfold validate_settings. intros (?&_&(?&_&(?&_&(k&Hk&_)%rbind_Ok)%rbind_Ok)%rbind_Ok)%rbind_Ok.
  revert Hk. unfold data_key_must_be_aes_256_key, local_data_key. destruct (placeholder _); [done|].
  destruct (rbind _ _) as [key|] eqn:E; [|done]. destruct (_ =? _)%nat eqn:El; [|done]. intros _.
  exists key. split; [done|]. by apply aesgcm_256, Nat.eqb_eq.
Qed.

Lemma totp_key_ascii secret key : totp_key secret = Ok key -> isascii secret = true /\ (16 <= length secret)%nat.
Proof.
  unfold totp_key. destruct (isascii secret); [|done]. cbn [negb orb].
  destruct (16 <=? length secret)%nat eqn:E; [|done]. intros _. split; [done|]. by apply Nat.leb_le.
Qed.

(** ** Properties: one-time codes *)

(** The test vectors of RFC 6238 for SHA-1, at six digits. *)
Example rfc6238_vectors :
  map (fun t => totp_code (py "GEZDGNBVGY3TQOJQGEZDGNBVGY3TQOJQ") (timedelta_seconds t))
      [59; 1111111109; 1111111111; 1234567890; 2000000000; 20000000000]
  = map Ok [py "287082"; py "081804"; py "050471"; py "005924"; py "279037"; py "353130"].
Proof. vm_compute. reflexivity. Qed.

(** C20: A one-time code is accepted exactly when it is the RFC 4226 value of the current
    thirty-second period or of one of its two neighbours. *)
Theorem verify_totp_windows secret key code now :
  totp_key secret = Ok key -> timedelta_seconds 30 <= now < timedelta_seconds 253402300770 ->
  exists b, verify_totp secret code now = Ok b /\
    (b = true <-> exists k, -1 <= k <= 1 /\ code = hotp key (now / timedelta_seconds 30 + k)).
Proof.
  intros Hk Hnow.
  assert (Hcodes : rmap (fun offset => totp_code secret (now + timedelta_seconds (offset * TOTP_PERIOD_SECONDS)))
            window_offsets = Ok (map (fun k => hotp key (now / timedelta_seconds 30 + k)) [-1; 0; 1])).
  { apply rmap_Forall2. change window_offsets with [-1; 0; 1]. rewrite Forall2_fmap_r. apply Forall_Forall2_diag.
    apply Forall_forall. intros k Hin. assert (-1 <= k <= 1) by (set_unfold; lia).
    rewrite (totp_code_hotp _ key) by (done || unfold timedelta_seconds, second, TOTP_PERIOD_SECONDS in *; lia).
    do 2 f_equal. unfold timedelta_seconds, second, TOTP_PERIOD_SECONDS.
    replace (now + k * 30 * 1000000) with (now + k * (30 * 1000000)) by lia. by rewrite Z.div_add by lia. }
  unfold verify_totp. rewrite Hcodes.
  destruct (negb _ || negb _ || negb _) eqn:E.
  - exists false. split; [done|]. split; [done|]. intros (k&_&->).
    destruct (hotp_shape key (now / timedelta_seconds 30 + k)) as [Hl Hd].
    rewrite Hl, Hd, (forallb_digit_ascii _ Hd) in E. done.
  - eexists. split; [reflexivity|]. unfold compare_digest. rewrite existsb_exists. split.
    + intros (x&Hx&->%bool_decide_eq_true). apply in_map_iff in Hx as (k&<-&Hin).
      exists k. split; [|done]. cbn in Hin. lia.
    + intros (k&Hb&->). eexists. split; [|by apply bool_decide_eq_true]. apply in_map_iff.
      exists k. split; [done|]. cbn. lia.
Qed.

(** Under a validated configuration a seed is stored encrypted and read back for its account;
    read for any other account it is refused, unless the cipher gives two different associated data
    the same ciphertext. *)
Theorem totp_seed_bound_to_account `{Unicode} `{AeadLaws} `{EntropyLaws} settings user other secret key w :
  validate_settings settings = Ok settings -> totp_key secret = Ok key ->
  0 <= user < 2 ^ 128 -> 0 <= other < 2 ^ 128 -> user <> other ->
  exists encrypted w', encrypt_totp_secret settings user secret w = (Ok encrypted, w') /\
    decrypt_totp_secret settings user encrypted = Ok secret /\
    (decrypt_totp_secret settings other encrypted = Raise LocalAuthenticationError \/
     exists k n x y, totp_aad user <> totp_aad other /\
       aes_encrypt k n x (totp_aad user) = aes_encrypt k n y (totp_aad other)).
Proof.
  intros Hs Hk Hu Ho Hne. destruct (validated_local_key settings Hs) as (dk&Hdk&Haes).
  destruct (totp_key_ascii secret key Hk) as [Hascii Hlen].
  set (nonce := octets_at (w_draws w) TOTP_NONCE_BYTES).
  assert (Hn : length nonce = TOTP_NONCE_BYTES) by apply octets_at_length.
  set (ct := aes_encrypt dk nonce secret (totp_aad user)).
  exists (nonce ++ ct). eexists. split.
  { unfold encrypt_totp_secret, mbind, lift, token_bytes, mret, ascii_encode. fold nonce.
    rewrite Hk, Hdk. cbn [rbind]. rewrite Haes, Hascii. reflexivity. }
  unfold decrypt_totp_secret. rewrite Hdk. cbn [rbind]. rewrite Haes. cbn [rbind].
  rewrite take_app_length', drop_app_length' by done.
  assert (Hct : (length (nonce ++ ct) <=? TOTP_NONCE_BYTES)%nat = false).
  { apply Nat.leb_gt. unfold ct. rewrite length_app, Hn, aes_encrypt_length. lia. }
  assert (Hopen : aes_open dk nonce ct (totp_aad user) = Ok secret) by apply aes_open_encrypt.
  rewrite Hct, Hopen. cbn [rbind]. replace (ascii_decode secret) with (Ok secret)
    by (unfold ascii_decode; by rewrite Hascii).
  cbn [rbind]. rewrite Hk. cbn [rbind]. split; [reflexivity|].
  destruct (aes_open dk nonce ct (totp_aad other)) as [y|e] eqn:E.
  - right. exists dk, nonce, secret, y. split; [intros Ea; by apply Hne, totp_aad_inj|].
    by apply aes_open_inv.
  - left. cbn [rbind]. revert E. unfold aes_open. destruct (aes_decrypt _ _ _ _); [done|]. by intros [= <-].
Qed.

(** ** Lemmas: signing in *)

Section SignIn.
Context `{Unicode} `{Collation} `{Argon2} `{Aead} `{Entropy} (auth : LocalAuthenticator).

Definition credentials_keyed (d : Db) : Prop :=
  forall k c, admin_credentials d !! k = Some c -> ac_user_id c = k.

Lemma load_ip_limit_inv h t w r w' :
  load_ip_limit h t w = (r, w') ->
  users (w_db w') = users (w_db w) /\ admin_credentials (w_db w') = admin_credentials (w_db w) /\
  w_now w' = w_now w /\
  forall rl, r = Ok rl -> rate_limits (w_db w) !! h = Some rl \/
    rate_limits (w_db w) !! h = None /\ rl = mkAdminLoginRateLimit h t 0 None.
Proof using Type.
  unfold load_ip_limit, mbind, get_db, lift. destruct (rate_limits (w_db w) !! h) as [rl|] eqn:E.
  - intros [= <- <-]. repeat split. intros rl' [= <-]. by left.
  - destruct (insert_row _ _ _ _) as [t'|e]; intros [= <- <-]; (split; [done|]; split; [done|]; split; [done|]).
    + intros rl' [= <-]. by right.
    + by intros.
Qed.

Definition same_accounts (d d' : Db) : Prop :=
  users d' = users d /\ admin_credentials d' = admin_credentials d.

Lemma hash_password_db p w r w' : hash_password p w = (r, w') -> w_db w' = w_db w /\ w_now w' = w_now w.
Proof using Type.
  unfold hash_password, mbind, lift, token_bytes, mret. destruct (validate_new_password p); by intros [= <- <-].
Qed.

(** What a check of the factors answers and does to the accounts. *)
Definition checked (u : User) (c : AdminCredential) (p : pystr) (code : option pystr) (current : instant)
    (d : Db) (r : result (option User)) (d' : Db) : Prop :=
  match r with
  | Raise _ => same_accounts d d'
  | Ok None => factors_valid auth u c p code current = Ok false /\ users d' = users d /\
      admin_credentials d' = <[ac_user_id c := record_account_failure auth current c]> (admin_credentials d)
  | Ok (Some u') => u' = set_u_last_login_at (Some current) u /\
      factors_valid auth u c p code current = Ok true /\ users d' = <[u_id u := u']> (users d) /\
      exists h, admin_credentials d' = <[ac_user_id c := set_ac_password_hash h
        (set_ac_locked_until None (set_ac_failed_attempts 0 c))]> (admin_credentials d)
  end.

Lemma checked_ext u c p code current d0 d r d' :
  same_accounts d0 d -> checked u c p code current d r d' -> checked u c p code current d0 r d'.
Proof using Type.
  intros [Hu Hc]. unfold checked, same_accounts. rewrite Hu, Hc. done.
Qed.

Lemma record_account_failure_id current c : ac_user_id (record_account_failure auth current c) = ac_user_id c.
Proof using Type. unfold record_account_failure. by destruct (_ <=? _). Qed.

Lemma check_factors_inv user c p code current rl w r w' :
  check_factors auth user c p code current rl w = (r, w') ->
  w_now w' = w_now w /\ checked user c p code current (w_db w) r (w_db w').
Proof using Type.
  unfold check_factors, refuse, put_rate_limit, put_credential, put_user, modify_db, with_db, mret.
  unfold mbind at 1, lift at 1. destruct (factors_valid auth user c p code current) as [[]|e] eqn:Ef; cbn [negb].
  3: { intros [= <- <-]. by repeat split. }
  2: { unfold mbind. intros [= <- <-]. cbn. rewrite record_account_failure_id. by repeat split. }
  unfold mbind at 1, lift at 1. cbn [ac_password_hash set_ac_locked_until set_ac_failed_attempts].
  destruct (password_needs_rehash (ac_password_hash c)) as [[]|e] eqn:Er.
  - unfold mbind at 1. unfold mbind at 1. destruct (hash_password p w) as [[h|e] w1] eqn:Eh;
      destruct (hash_password_db _ _ _ _ Eh) as [Hdb Hnow].
    + unfold mbind. intros [= <- <-]. cbn. rewrite Hdb. split; [done|]. split; [done|]. split; [done|].
      split; [done|]. by exists h.
    + intros [= <- <-]. split; [done|]. cbn. unfold same_accounts. by rewrite Hdb.
  - unfold mbind. intros [= <- <-]. split; [done|]. cbn. split; [done|]. split; [done|].
    split; [done|]. by exists (ac_password_hash c).
  - intros [= <- <-]. by repeat split.
Qed.

(** The credential as an attempt at [current] sees it: an elapsed lock is cleared. *)
Definition unlocked (current : instant) (c : AdminCredential) : option AdminCredential :=
  match ac_locked_until c with
  | None => Some c
  | Some t => if current <? t then None else Some (set_ac_locked_until None (set_ac_failed_attempts 0 c))
  end.

Definition eligible (email : pystr) (d : Db) (u : User) (c : AdminCredential) : Prop :=
  account_row email d = Some (u, c) /\ u_is_active u = true /\ u_role u = Role_SUPER_ADMIN.

Definition client_admitted (ip : pystr) (current : instant) (d : Db) : Prop :=
  exists h, local_ip_hash auth ip = Ok h /\
    forall rl t, rate_limits d !! h = Some rl -> rl_blocked_until rl = Some t -> t <= current.

(** Every outcome of an attempt, and what it does to the accounts. *)
Lemma authenticate_inv username password code ip now current w r w' :
  utc_now (w_now w) now = Ok current ->
  authenticate auth username password code ip now w = (r, w') ->
  w_now w' = w_now w /\
  ((same_accounts (w_db w) (w_db w') /\ forall u, r <> Ok (Some u)) \/
   exists email u c c', normalise_login_email username = Some email /\ eligible email (w_db w) u c /\
     client_admitted ip current (w_db w) /\ unlocked current c = Some c' /\
     checked u c' password code current (w_db w) r (w_db w')).
Proof using Type.
  intros Hnow. unfold authenticate, mbind at 1, utc_now_m. rewrite Hnow.
  destruct (local_ip_hash auth ip) as [h|e] eqn:Eh.
  2: { intros E. assert (w' = w /\ forall u, r <> Ok (Some u)) as [-> Hr].
       { destruct e; unfold raise, mret in E; injection E as <- <-; (split; [done|]); by intros. }
       split; [done|]. left. by repeat split. }
  unfold mbind at 1. destruct (load_ip_limit h current w) as [r1 w1] eqn:El.
  apply load_ip_limit_inv in El as (Hu1&Hc1&Hn1&Hrl). destruct r1 as [rl|e].
  2: { intros [= <- <-]. split; [done|]. left. split; [by split|by intros]. }
  destruct (match rl_blocked_until rl with Some t => current <? t | None => false end) eqn:Eb.
  { intros [= <- <-]. split; [done|]. left. split; [by split|by intros]. }
  assert (Hadm : client_admitted ip current (w_db w)).
  { exists h. split; [done|]. intros rl' t Hl Ht. destruct (Hrl rl eq_refl) as [Hl'|[Hl' _]]; [|congruence].
    rewrite Hl in Hl'. injection Hl' as ->. rewrite Ht in Eb. by apply Z.ltb_ge in Eb. }
  unfold mbind at 1, put_rate_limit at 1, modify_db at 1.
  set (rl' := reset_ip_limit_if_elapsed auth current rl).
  set (w2 := with_db _ w1).
  assert (Hu2 : users (w_db w2) = users (w_db w)) by exact Hu1.
  assert (Hc2 : admin_credentials (w_db w2) = admin_credentials (w_db w)) by exact Hc1.
  assert (Hn2 : w_now w2 = w_now w) by exact Hn1.
  assert (Hrefuse : forall r0 w0, refuse auth current rl' w2 = (r0, w0) ->
            w_now w0 = w_now w /\ same_accounts (w_db w) (w_db w0) /\ forall u, r0 <> Ok (Some u)).
  { unfold refuse, put_rate_limit, modify_db, mbind, mret, with_db. intros r0 w0 [= <- <-].
    split; [done|]. split; [by split|by intros]. }
  assert (Hdummy : forall r0 w0, (let! _ <- lift (verify_dummy_password password); refuse auth current rl') w2 = (r0, w0) ->
            w_now w0 = w_now w /\ same_accounts (w_db w) (w_db w0) /\ forall u, r0 <> Ok (Some u)).
  { intros r0 w0. unfold mbind, lift. destruct (verify_dummy_password password); [apply Hrefuse|].
    intros [= <- <-]. split; [done|]. split; [by split|by intros]. }
  destruct (normalise_login_email username) as [email|] eqn:Ee.
  2: { intros (?&?&?)%Hdummy. split; [done|]. by left. }
  unfold mbind at 1, get_db. assert (Hrow : account_row email (w_db w2) = account_row email (w_db w))
    by (unfold account_row; by rewrite Hu2, Hc2).
  rewrite Hrow. destruct (account_row email (w_db w)) as [[u c]|] eqn:Er.
  2: { intros (?&?&?)%Hdummy. split; [done|]. by left. }
  destruct (negb (u_is_active u) || _) eqn:Ea.
  { intros (?&?&?)%Hdummy. split; [done|]. by left. }
  apply orb_false_iff in Ea as [Hact Hrole]. apply negb_false_iff in Hact, Hrole.
  apply bool_decide_eq_true in Hrole.
  assert (Hcheck : forall c', unlocked current c = Some c' ->
            check_factors auth u c' password code current rl' w2 = (r, w') ->
            w_now w' = w_now w /\ exists email0 u0 c0 c1, Some email = Some email0 /\
              eligible email0 (w_db w) u0 c0 /\ client_admitted ip current (w_db w) /\
              unlocked current c0 = Some c1 /\ checked u0 c1 password code current (w_db w) r (w_db w')).
  { intros c' Hc' (Hn&Hch)%check_factors_inv. split; [congruence|]. exists email, u, c, c'.
    repeat (split; [done|]). by apply (checked_ext _ _ _ _ _ (w_db w) (w_db w2)). }
  unfold unlocked in Hcheck. destruct (ac_locked_until c) as [t|].
  - destruct (current <? t); [intros (?&?&?)%Hrefuse; split; [done|]; by left|].
    intros E. destruct (Hcheck _ eq_refl E) as [Hn Hex]. split; [done|by right].
  - intros E. destruct (Hcheck _ eq_refl E) as [Hn Hex]. split; [done|by right].
Qed.

End SignIn.

(** ** Properties: signing in *)

Section SignInProperties.
Context `{Unicode} `{Collation} `{Argon2} `{Aead} `{Entropy} (auth : LocalAuthenticator).

Lemma verify_password_true h p : verify_password h p = Ok true <-> argon2_verify h p = Ok true.
Proof using Type.
  unfold verify_password. destruct (argon2_verify h p) as [[]|e]; [done|done|].
  by destruct (bool_decide _).
Qed.

(** C5: Whoever is signed in passed every gate: the client's address was not blocked, the name
    belongs to an active super-admin whose account was not locked, the password matches the stored
    verifier, and on an account with MFA the decrypted seed gives the supplied code. *)
Theorem sign_in_passed_every_gate username password code ip now current w user w' :
  utc_now (w_now w) now = Ok current ->
  authenticate auth username password code ip now w = (Ok (Some user), w') ->
  client_admitted auth ip current (w_db w) /\
  exists email u c, normalise_login_email username = Some email /\ eligible email (w_db w) u c /\
    user = set_u_last_login_at (Some current) u /\
    (forall t, ac_locked_until c = Some t -> t <= current) /\
    argon2_verify (ac_password_hash c) password = Ok true /\
    (is_Some (ac_totp_enabled_at c) -> exists encrypted secret supplied,
       ac_totp_secret_enc c = Some encrypted /\ code = Some supplied /\
       decrypt_totp_secret (la_settings auth) (u_id u) encrypted = Ok secret /\
       verify_totp secret supplied current = Ok true).
Proof using Type.
  intros Hnow E. apply (authenticate_inv auth username password code ip now current) in E as [_ E]; [|done].
  destruct E as [[_ Hno]|(email&u&c&c'&He&Hel&Hadm&Hun&Hu&Hf&_)]; [by destruct (Hno user)|].
  split; [done|]. exists email, u, c. split; [done|]. split; [done|]. split; [done|].
  assert (Hsame : ac_password_hash c' = ac_password_hash c /\ ac_totp_enabled_at c' = ac_totp_enabled_at c /\
            ac_totp_secret_enc c' = ac_totp_secret_enc c /\ forall t, ac_locked_until c = Some t -> t <= current).
  { unfold unlocked in Hun. destruct (ac_locked_until c) as [t|].
    - destruct (current <? t) eqn:Et; [done|]. injection Hun as <-. repeat split.
      intros t' [= <-]. by apply Z.ltb_ge in Et.
    - injection Hun as <-. by repeat split. }
  destruct Hsame as (Hp&Ht&Hs&Hlock). split; [done|].
  unfold factors_valid in Hf. apply rbind_Ok in Hf as ([]&Hv&Hf); [|done].
  split; [apply verify_password_true; by rewrite <- Hp|]. rewrite <- Ht. intros [te Hte]. rewrite Hte in Hf.
  unfold totp_valid in Hf. rewrite Hs in Hf. destruct (ac_totp_secret_enc c) as [enc|]; [|done].
  destruct code as [supplied|]; [|done]. exists enc.
  destruct (rbind _ _) as [b|e] eqn:Eb; [|by destruct e]. injection Hf as ->.
  apply rbind_Ok in Eb as (secret&Hd&Hver). by exists secret, supplied.
Qed.

(** Attempts to sign in by anyone as anyone, at any times, that do not sign the account in: the
    counter counts those that were checked against the account and failed. *)
Inductive guessing (id : uuid) : nat -> World -> World -> Prop :=
| guessing_start w : guessing id 0 w w
| guessing_wait n w w1 t : guessing id n w w1 -> w_now w1 <= t ->
    guessing id n w (mkWorld (w_db w1) (w_committed w1) (w_draws w1) t)
| guessing_other n w w1 username password code ip r w2 : guessing id n w w1 ->
    authenticate auth username password code ip None w1 = (r, w2) -> (forall u, r = Ok (Some u) -> u_id u <> id) ->
    admin_credentials (w_db w2) !! id = admin_credentials (w_db w1) !! id -> guessing id n w w2
| guessing_wrong n w w1 username password code ip w2 : guessing id n w w1 ->
    authenticate auth username password code ip None w1 = (Ok None, w2) ->
    admin_credentials (w_db w2) !! id <> admin_credentials (w_db w1) !! id -> guessing id (S n) w w2.

Definition accounts_keyed (d : Db) : Prop :=
  credentials_keyed d /\ forall k u, users d !! k = Some u -> u_id u = k.

Lemma authenticate_keyed username password code ip w r w' :
  accounts_keyed (w_db w) -> authenticate auth username password code ip None w = (r, w') ->
  w_now w' = w_now w /\ accounts_keyed (w_db w').
Proof using Type.
  intros [Hk Hku] E. apply (authenticate_inv auth username password code ip None (w_now w)) in E as [Hn E]; [|done].
  split; [done|]. destruct E as [[[Hu Hc] _]|(email&u&c&c'&_&Hel&_&Hun&E)].
  { split; intros k x; [rewrite Hc; apply Hk|rewrite Hu; apply Hku]. }
  assert (Hid : forall h, ac_user_id (record_account_failure auth (w_now w) c') = ac_user_id c' /\
            ac_user_id (set_ac_password_hash h (set_ac_locked_until None (set_ac_failed_attempts 0 c'))) = ac_user_id c')
    by (split; [apply record_account_failure_id|done]).
  unfold checked in E. destruct r as [[u'|]|e].
  - destruct E as (->&_&Hu&h&Hc). split; intros k x.
    + rewrite Hc. intros [[<- <-]|[_ Hx]]%lookup_insert_Some; [apply (Hid h)|by apply Hk].
    + rewrite Hu. intros [[<- <-]|[_ Hx]]%lookup_insert_Some; [done|by apply Hku].
  - destruct E as (_&Hu&Hc). split; intros k x.
    + rewrite Hc. intros [[<- <-]|[_ Hx]]%lookup_insert_Some; [apply (Hid [])|by apply Hk].
    + rewrite Hu. apply Hku.
  - destruct E as [Hu Hc]. split; intros k x; [rewrite Hc; apply Hk|rewrite Hu; apply Hku].
Qed.

(** The state of an account that was found with [failed] failures at [t0] and guessed [n] times. *)
Definition throttled (t0 : instant) (failed : Z) (n : nat) (c : AdminCredential) : Prop :=
  (ac_locked_until c = None /\ ac_failed_attempts c = failed + Z.of_nat n /\
   failed + Z.of_nat n < account_max_failures auth) \/
  (exists t, ac_locked_until c = Some t /\ t0 + account_lockout auth <= t /\
   failed + Z.of_nat n <= account_max_failures auth).

Lemma wrong_guess_throttled t0 failed n c c' current :
  throttled t0 failed n c -> t0 <= current < t0 + account_lockout auth ->
  unlocked current c = Some c' -> throttled t0 failed (S n) (record_account_failure auth current c').
Proof using Type.
  intros Hthr Ht Hun. unfold unlocked in Hun. destruct Hthr as [(Hl&Hf&Hlt)|(t&Hl&Hle&_)]; rewrite Hl in Hun.
  - injection Hun as <-. unfold record_account_failure, throttled.
    destruct (_ <=? _) eqn:E; cbn in *.
    + right. eexists. split; [reflexivity|]. lia.
    + left. apply Z.leb_gt in E. split; [done|]. lia.
  - replace (current <? t) with true in Hun by lia. done.
Qed.

Lemma guessing_throttled id n w w' c0 :
  guessing id n w w' -> accounts_keyed (w_db w) ->
  admin_credentials (w_db w) !! id = Some c0 -> ac_locked_until c0 = None ->
  ac_failed_attempts c0 < account_max_failures auth -> w_now w' < w_now w + account_lockout auth ->
  w_now w <= w_now w' /\ accounts_keyed (w_db w') /\
  exists c, admin_credentials (w_db w') !! id = Some c /\ throttled (w_now w) (ac_failed_attempts c0) n c.
Proof using Type.
  intros Hg Hk Hc0 Hl0 Hf0. induction Hg as [w|n w w1 t Hg IH Ht|n w w1 us pw code ip r w2 Hg IH E Hne Heq
      |n w w1 us pw code ip w2 Hg IH E Hneq]; intros Hend.
  - split; [lia|]. split; [done|]. exists c0. split; [done|]. left. rewrite Z.add_0_r. auto.
  - cbn in *. destruct (IH Hk Hc0) as (Hm&Hk1&c&Hc&Hthr); [lia|]. split; [lia|]. split; [done|]. by exists c.
  - pose proof E as E'. apply authenticate_keyed in E' as [Hn Hk2];
      [|apply (IH Hk Hc0); pose proof (authenticate_inv auth us pw code ip None (w_now w1) w1 r w2 eq_refl E); lia].
    rewrite Hn in *. destruct (IH Hk Hc0 Hend) as (Hm&Hk1&c&Hc&Hthr). split; [done|]. split; [done|].
    exists c. by rewrite Heq.
  - assert (Hn : w_now w2 = w_now w1) by exact (proj1 (authenticate_inv auth us pw code ip None (w_now w1) w1 _ w2 eq_refl E)).
    rewrite Hn in *. destruct (IH Hk Hc0 Hend) as (Hm&Hk1&c&Hc&Hthr). split; [done|].
    split; [by apply (authenticate_keyed us pw code ip w1 (Ok None) w2)|].
    apply (authenticate_inv auth us pw code ip None (w_now w1)) in E as [_ E]; [|done].
    destruct E as [[[_ Hsame] _]|(email&u&x&x'&_&(Hrow&_)&_&Hun&_&_&Hcs)]; [by rewrite Hsame in Hneq|].
    assert (Hx : admin_credentials (w_db w1) !! ac_user_id x' = Some x).
    { unfold account_row in Hrow. destruct (find_row _ _) as [u0|]; [|done].
      destruct (admin_credentials (w_db w1) !! u_id u0) as [x0|] eqn:Ex; [|done]. injection Hrow as <- <-.
      assert (ac_user_id x' = ac_user_id x0) as ->.
      { unfold unlocked in Hun. destruct (ac_locked_until x0); [destruct (_ <? _); [done|]|]; by injection Hun as <-. }
      by rewrite (proj1 Hk1 _ _ Ex). }
    rewrite Hcs in Hneq |- *. destruct (decide (ac_user_id x' = id)) as [Hid|Hid].
    + rewrite Hid in *. rewrite lookup_insert_eq. eexists. split; [reflexivity|].
      rewrite Hc in Hx. injection Hx as ->. by apply (wrong_guess_throttled _ _ _ x).
    + by rewrite lookup_insert_ne in Hneq.
Qed.

(** C6: A locked-out account bounds guessing.  Starting from an unlocked account, within one lockout
    period and as long as nobody signs in to it, at most as many attempts are checked against its
    factors as failures were left before the lock, whatever else is attempted in between. *)
Theorem lockout_bounds_guessing id n w w' c0 :
  accounts_keyed (w_db w) -> admin_credentials (w_db w) !! id = Some c0 ->
  ac_locked_until c0 = None -> ac_failed_attempts c0 < account_max_failures auth ->
  guessing id n w w' -> w_now w' < w_now w + account_lockout auth ->
  Z.of_nat n <= account_max_failures auth - ac_failed_attempts c0.
Proof using Type.
  intros Hk Hc Hl Hf Hg Hend.
  destruct (guessing_throttled id n w w' c0 Hg Hk Hc Hl Hf Hend) as (_&_&c&_&[(_&_&Hn)|(t&_&_&Hn)]); lia.
Qed.

End SignInProperties.

(** A verifier that stores the password, for evaluation. *)
Definition plain_argon2 : Argon2 := {|
  argon2_hash _ p := py "plain$" ++ p;
  argon2_verify h p := if bool_decide (h = py "plain$" ++ p) then Ok true else Raise VerifyMismatchError;
  argon2_needs_rehash _ := Ok false;
|}.
#[export] Instance plain_argon2_laws : @Argon2Laws plain_argon2.
Proof. constructor; intros salt p; cbn; [by rewrite bool_decide_true|done]. Qed.

Definition admin_user : User :=
  mkUser 7 (py "ada@example.com") None (py "Ada") None Role_SUPER_ADMIN true Source_MANUAL 0 None.
Definition admin_credential : AdminCredential :=
  mkAdminCredential 7 (py "plain$correct horse battery") None None 1 None.
Definition admin_world : World :=
  let d := set_admin_credentials {[7 := admin_credential]} (set_users {[7 := admin_user]} empty_db) in
  mkWorld d d 0 1700000000000000.
Definition sample_authenticator : LocalAuthenticator :=
  mkLocalAuthenticator sample_settings 5 (timedelta_seconds 900) 20 (timedelta_seconds 600)
    (timedelta_seconds 900) (py "ip key").
Definition attempt (password : pystr) (w : World) : result (option User) * World :=
  @authenticate ascii_unicode ascii_collation plain_argon2 tagged_aead counting_entropy sample_authenticator
    (py " Ada@Example.COM") password None (py "10.0.0.1") None w.

Lemma admin_world_keyed : accounts_keyed (w_db admin_world).
Proof.
  split; intros k x Hx.
  - change (({[7 := admin_credential]} : gmap Z AdminCredential) !! k = Some x) in Hx.
    by apply lookup_singleton_Some in Hx as [<- <-].
  - change (({[7 := admin_user]} : gmap Z User) !! k = Some x) in Hx.
    by apply lookup_singleton_Some in Hx as [<- <-].
Qed.

Lemma sign_in_passed_every_gate_witness :
  (attempt (py "correct horse battery") admin_world).1
    = Ok (Some (set_u_last_login_at (Some 1700000000000000) admin_user)) /\
  exists c, argon2_verify (Argon2 := plain_argon2) (ac_password_hash c) (py "correct horse battery") = Ok true.
Proof.
  assert (Hr : (attempt (py "correct horse battery") admin_world).1
    = Ok (Some (set_u_last_login_at (Some 1700000000000000) admin_user))) by (vm_compute; reflexivity).
  split; [exact Hr|]. unfold attempt in Hr.
  destruct (@authenticate ascii_unicode ascii_collation plain_argon2 tagged_aead counting_entropy
    sample_authenticator (py " Ada@Example.COM") (py "correct horse battery") None (py "10.0.0.1") None admin_world)
    as [r w'] eqn:E. cbn [fst] in Hr. subst r.
  destruct (@sign_in_passed_every_gate ascii_unicode ascii_collation plain_argon2 tagged_aead counting_entropy
    sample_authenticator _ _ _ _ None 1700000000000000 admin_world _ _ eq_refl E) as (_&email&u&c&_&_&_&_&Hv&_).
  exists c. exact Hv.
Defined.

Lemma lockout_bounds_guessing_witness :
  exists n w', @guessing ascii_unicode ascii_collation plain_argon2 tagged_aead counting_entropy
      sample_authenticator 7 n admin_world w' /\ n = 1%nat /\ Z.of_nat n <= 5 - 1.
Proof.
  assert (Hr : (attempt (py "wrong") admin_world).1 = Ok None) by (vm_compute; reflexivity).
  assert (Hc : ac_failed_attempts <$> admin_credentials (w_db (attempt (py "wrong") admin_world).2) !! 7 = Some 2)
    by (vm_compute; reflexivity).
  assert (Hn : w_now (attempt (py "wrong") admin_world).2 = 1700000000000000) by (vm_compute; reflexivity).
  unfold attempt in *.
  destruct (@authenticate ascii_unicode ascii_collation plain_argon2 tagged_aead counting_entropy
    sample_authenticator (py " Ada@Example.COM") (py "wrong") None (py "10.0.0.1") None admin_world)
    as [r w'] eqn:E. cbn [fst snd] in *. subst r.
  assert (Hg : @guessing ascii_unicode ascii_collation plain_argon2 tagged_aead counting_entropy
      sample_authenticator 7 1 admin_world w').
  { eapply guessing_wrong; [apply guessing_start|exact E|]. intros Heq. rewrite Heq in Hc. discriminate Hc. }
  exists 1%nat, w'. split; [exact Hg|]. split; [reflexivity|].
  refine (@lockout_bounds_guessing ascii_unicode ascii_collation plain_argon2 tagged_aead counting_entropy
    sample_authenticator 7 1 admin_world w' admin_credential admin_world_keyed _ _ _ Hg _).
  - reflexivity.
  - reflexivity.
  - vm_compute. reflexivity.
  - rewrite Hn. vm_compute. reflexivity.
Defined.

Definition rfc_secret : pystr := py "GEZDGNBVGY3TQOJQGEZDGNBVGY3TQOJQ".

Lemma verify_totp_windows_witness :
  exists b, verify_totp rfc_secret (py "287082") (timedelta_seconds 89) = Ok b /\ b = true.
Proof.
  destruct (verify_totp_windows rfc_secret (py "12345678901234567890") (py "287082") (timedelta_seconds 89))
    as (b&Hb&Hiff).
  - vm_compute. reflexivity.
  - split; vm_compute; [discriminate|reflexivity].
  - exists b. split; [exact Hb|]. apply Hiff. exists (-1). split; [lia|]. vm_compute. reflexivity.
Defined.

Lemma totp_seed_bound_to_account_witness :
  exists encrypted w', @encrypt_totp_secret tagged_aead counting_entropy sample_settings 7 rfc_secret admin_world
      = (Ok encrypted, w') /\ @decrypt_totp_secret tagged_aead sample_settings 7 encrypted = Ok rfc_secret.
Proof.
  destruct (@totp_seed_bound_to_account ascii_unicode tagged_aead tagged_aead_laws counting_entropy
    counting_entropy_laws sample_settings 7 8 rfc_secret (py "12345678901234567890") admin_world)
    as (enc&w'&He&Hd&_).
  - vm_compute. reflexivity.
  - vm_compute. reflexivity.
  - lia.
  - lia.
  - discriminate.
  - exists enc, w'. split; [exact He|exact Hd].
Defined.
