(* ===== verification/OAuth.v ===== *)
(** The sign-in transaction of one browser (OAuthTransaction of app/auth/google.py): its creation, the
    signed cookie that carries it, and reading that cookie back. *)
From S2P Require Import Prelude PyBase Encoding Hashes Json Models Store Config Session Csrf LocalAuth.

Definition OAUTH_TRANSACTION_COOKIE_NAME : pystr := py "__Host-leakcheck-oidc".
Definition OAUTH_TRANSACTION_TTL : Z := timedelta_seconds 600.

Record OAuthTransaction := mkOAuthTransaction {
  tx_state : pystr;
  tx_nonce : pystr;
  tx_code_verifier : pystr;
  tx_expires_at : Z;
}.

(** ** Transactions *)

Definition timestamp_seconds (t : instant) : Z := Z.quot t second.

Definition create_transaction `{Entropy} (now : option pydatetime) : M OAuthTransaction :=
  let! current <- utc_now_m now;
  let! state <- token_urlsafe 32;
  let! nonce <- token_urlsafe 32;
  let! code_verifier <- token_urlsafe 64;
  mret (mkOAuthTransaction state nonce code_verifier (timestamp_seconds (current + OAUTH_TRANSACTION_TTL))).

Definition code_challenge (t : OAuthTransaction) : result pystr :=
  try! b <- ascii_encode (tx_code_verifier t); Ok (base64url (sha256 b)).

(** The payload, its keys in order. *)
Definition transaction_payload (t : OAuthTransaction) : json :=
  JDict [(py "code_verifier", JStr (tx_code_verifier t)); (py "expires_at", JInt (tx_expires_at t));
         (py "nonce", JStr (tx_nonce t)); (py "state", JStr (tx_state t))].

Definition serialize (t : OAuthTransaction) (key : bytes) : result pystr :=
  try! payload <- utf8_encode (dumps (transaction_payload t));
  let encoded := base64url payload in
  try! e <- ascii_encode encoded;
  Ok (encoded ++ 46 :: base64url (hmac_sha256 key e)).

Definition base64url_decode (value : pystr) : result bytes := urlsafe_b64decode (pad_to 4 value).

Definition is_urlsafe_token (value : pystr) (expected_length : nat) : bool :=
  (length value =? expected_length)%nat && forallb b64url_char value.

(** [payload["k"]]: only a dict can be indexed by a string. *)
Definition payload_item (k : string) (payload : json) : result json :=
  match payload with JDict d => of_option (dict_get (py k) d) KeyError | _ => Raise TypeError end.
(** [isinstance(v, int)], which holds of booleans too. *)
Definition json_int (v : json) : option Z :=
  match v with JInt n => Some n | JBool b => Some (Z.b2z b) | _ => None end.

(** The signed part of a cookie, when its signature is right. *)
Definition authentic_payload (value : pystr) (key : bytes) : option pystr :=
  if negb (count_char 46 value =? 1)%nat || (2048 <? length value)%nat then None
  else match split_once 46 value with
  | (encoded, Some supplied_signature) =>
      if negb (isascii encoded) || negb (isascii supplied_signature) then None
      else if compare_digest supplied_signature (base64url (hmac_sha256 key encoded)) then Some encoded
      else None
  | _ => None
  end.

(** The four items of the payload; any decoding error is a rejected cookie. *)
Definition parse_transaction `{Unicode} (encoded : pystr) : result (json * json * json * json) :=
  try! octets <- base64url_decode encoded;
  try! payload <- json_loads_bytes octets;
  try! state <- payload_item "state" payload;
  try! nonce <- payload_item "nonce" payload;
  try! code_verifier <- payload_item "code_verifier" payload;
  try! expires_at <- payload_item "expires_at" payload;
  Ok (state, nonce, code_verifier, expires_at).

Definition deserialize `{Unicode} (value : option pystr) (key : bytes) (now : option pydatetime)
  : M (option OAuthTransaction) :=
  match value with
  | None => mret None
  | Some value =>
      match authentic_payload value key with
      | None => mret None
      | Some encoded =>
          match parse_transaction encoded with
          | Raise e => if is_value_error e || bool_decide (e = KeyError) || bool_decide (e = TypeError)
                       then mret None else raise e
          | Ok (JStr state, JStr nonce, JStr code_verifier, expires) =>
              match json_int expires with
              | None => mret None
              | Some expires_at =>
                  if negb (is_urlsafe_token state 43) || negb (is_urlsafe_token nonce 43)
                     || negb (is_urlsafe_token code_verifier 86)
                  then mret None
                  else
                    let! current <- utc_now_m now;
                    if expires_at <=? timestamp_seconds current then mret None
                    else mret (Some (mkOAuthTransaction state nonce code_verifier expires_at))
              end
          | Ok _ => mret None
          end
      end
  end.

(** ** Lemmas: base64 *)

Lemma triple_ind {A} (P : list A -> Prop) :
  P [] -> (forall x, P [x]) -> (forall x y, P [x; y]) -> (forall x y z t, P t -> P (x :: y :: z :: t)) ->
  forall l, P l.
Proof.
  intros H0 H1 H2 H3 l. assert (Hn : forall n l, (length l <= n)%nat -> P l); [|by apply (Hn (length l))].
  induction n as [|n IH]; intros [|x [|y [|z t]]] Hl; cbn in Hl; try lia; auto. apply H3, IH. lia.
Qed.

Lemma b64_value_char d : 0 <= d < 64 -> b64_value (b64_char d) = Some d /\ (b64_char d =? 61) = false.
Proof.
  intros Hd. unfold b64_char, b64_value, ascii_upper, ascii_lowerc, ascii_digit.
  destruct (d <? 26) eqn:E1.
  { split; [|lia]. replace ((65 <=? 65 + d) && (65 + d <=? 90)) with true by lia. f_equal. lia. }
  destruct (d <? 52) eqn:E2.
  { split; [|lia]. replace ((65 <=? 71 + d) && (71 + d <=? 90)) with false by lia.
    replace ((97 <=? 71 + d) && (71 + d <=? 122)) with true by lia. f_equal. lia. }
  destruct (d <? 62) eqn:E3.
  { split; [|lia]. replace ((65 <=? d - 4) && (d - 4 <=? 90)) with false by lia.
    replace ((97 <=? d - 4) && (d - 4 <=? 122)) with false by lia.
    replace ((48 <=? d - 4) && (d - 4 <=? 57)) with true by lia. f_equal. lia. }
  destruct (d =? 62) eqn:E4; (split; [|done]); cbn; f_equal; lia.
Qed.

Lemma a2b_char strict quad left pads started d t : 0 <= d < 64 -> strict && started = false ->
  a2b_base64 strict quad left pads started (b64_char d :: t) =
  match quad with
  | O => a2b_base64 strict 1 d 0 started t
  | 1%nat => try! r <- a2b_base64 strict 2 (d mod 16) 0 started t; Ok (left * 4 + d / 16 :: r)
  | 2%nat => try! r <- a2b_base64 strict 3 (d mod 4) 0 started t; Ok (left * 16 + d / 4 :: r)
  | _ => try! r <- a2b_base64 strict 0 0 0 started t; Ok (left * 64 + d :: r)
  end.
Proof. intros Hd Hs. destruct (b64_value_char d Hd) as [Hv He]. cbn [a2b_base64]. by rewrite He, Hv, Hs. Qed.

Ltac octets := repeat match goal with H : Forall _ (_ :: _) |- _ => apply Forall_cons in H as [? H] end;
  Z.div_mod_to_equations; lia.

Lemma a2b_b64encode strict b :
  Forall (fun x => 0 <= x < 256) b -> a2b_base64 strict 0 0 0 false (urlsafe_b64encode b) = Ok b.
Proof.
  assert (Hs : strict && false = false) by (by destruct strict).
  induction b as [|x|x y|x y z t IH] using triple_ind; intros Hb; [done| | |].
  - cbn [urlsafe_b64encode]. rewrite !a2b_char by (first [done|octets]). cbn -[Z.div Z.modulo].
    destruct strict; cbn -[Z.div Z.modulo]; repeat f_equal; octets.
  - cbn [urlsafe_b64encode]. rewrite !a2b_char by (first [done|octets]). cbn -[Z.div Z.modulo].
    destruct strict; cbn -[Z.div Z.modulo]; repeat f_equal; octets.
  - assert (Ht : Forall (fun x => 0 <= x < 256) t) by (rewrite !Forall_cons in Hb; tauto).
    cbn [urlsafe_b64encode]. rewrite !a2b_char by (first [done|octets]). rewrite (IH Ht). cbn [rbind].
    repeat f_equal; octets.
Qed.

(** The padded encoding: digits, then at most two pads that complete a quadruple. *)
Lemma b64encode_shape b : Forall (fun x => 0 <= x < 256) b ->
  exists t k, urlsafe_b64encode b = t ++ replicate k 61 /\ forallb b64url_char t = true /\ (k <= 2)%nat /\
    (length t + k = 4 * ((length b + 2) / 3))%nat /\ ((length b + k) mod 3 = 0)%nat.
Proof.
  induction b as [|x|x y|x y z t IH] using triple_ind; intros Hb.
  - exists [], 0%nat. repeat split; cbn; lia.
  - exists [b64_char (x / 4); b64_char (x mod 4 * 16)], 2%nat. split; [done|]. cbn [forallb].
    rewrite !b64_char_url by octets. repeat split; cbn; lia.
  - exists [b64_char (x / 4); b64_char (x mod 4 * 16 + y / 16); b64_char (y mod 16 * 4)], 1%nat. split; [done|].
    cbn [forallb]. rewrite !b64_char_url by octets. repeat split; cbn; lia.
  - assert (Ht : Forall (fun x => 0 <= x < 256) t) by (rewrite !Forall_cons in Hb; tauto).
    destruct (IH Ht) as (u&k&E&Hu&Hk&Hl&Hm). cbn [urlsafe_b64encode]. rewrite E.
    eexists (_ :: _ :: _ :: _ :: u), k. split; [reflexivity|]. cbn [forallb length].
    rewrite !b64_char_url, Hu by octets. split; [done|]. split; [done|].
    replace (S (S (S (length t))) + 2)%nat with (length t + 2 + 1 * 3)%nat by lia.
    rewrite Nat.div_add by done. split; [lia|].
    replace (S (S (S (length t))) + k)%nat with (length t + k + 1 * 3)%nat by lia. by rewrite Nat.Div0.mod_add.
Qed.

Lemma b64url_strip t k : forallb b64url_char t = true -> rstrip_by (Z.eqb 61) (t ++ replicate k 61) = t.
Proof.
  intros Ht. induction k as [|k IH].
  - rewrite app_nil_r. apply rstrip_by_fixed. intros c u ->. rewrite forallb_app in Ht. cbn in Ht.
    apply andb_true_iff in Ht as [_ Hc]. destruct (61 =? c) eqn:E; [|done]. apply Z.eqb_eq in E. by subst c.
  - rewrite replicate_S_end, app_assoc. unfold rstrip_by in *. rewrite rev_app_distr. done.
Qed.

Lemma base64url_shape b : Forall (fun x => 0 <= x < 256) b ->
  forallb b64url_char (base64url b) = true /\ (length (base64url b) <= 4 * ((length b + 2) / 3))%nat /\
  pad_to 4 (base64url b) = urlsafe_b64encode b.
Proof.
  intros Hb. destruct (b64encode_shape b Hb) as (t&k&E&Ht&Hk&Hl&_). unfold base64url. rewrite E, b64url_strip by done.
  split; [done|]. split; [lia|]. unfold pad_to. do 2 f_equal.
  assert (Hm : - Z.of_nat (length t) = Z.of_nat k + (- Z.of_nat ((length b + 2) / 3)) * 4) by lia.
  rewrite Hm, Z.mod_add, Z.mod_small by lia. lia.
Qed.

Lemma b64url_ascii s : forallb b64url_char s = true -> isascii s = true.
Proof.
  unfold isascii. rewrite !List.forallb_forall. intros Hs c Hc. specialize (Hs c Hc). revert Hs.
  unfold b64url_char, ascii_alnum, ascii_alpha, ascii_upper, ascii_lowerc, ascii_digit, is_ascii. lia.
Qed.

Lemma base64url_roundtrip b : Forall (fun x => 0 <= x < 256) b -> base64url_decode (base64url b) = Ok b.
Proof.
  intros Hb. destruct (base64url_shape b Hb) as (_&_&E0). unfold base64url_decode, urlsafe_b64decode. rewrite E0.
  destruct (b64encode_shape b Hb) as (t&k&E&Ht&_). replace (isascii (urlsafe_b64encode b)) with true.
  - by apply a2b_b64encode.
  - rewrite E. symmetry. unfold isascii. rewrite forallb_app. fold (isascii t). rewrite (b64url_ascii t Ht).
    apply forallb_Forall, Forall_replicate. done.
Qed.

(** ** Lemmas: transactions *)

Definition byte (x : Z) : Prop := 0 <= x < 256.

Lemma utf8_char_bytes c b : utf8_char c = Ok b -> Forall byte b.
Proof.
  unfold utf8_char. pose proof (Z.mod_pos_bound c 64 ltac:(lia)).
  pose proof (Z.mod_pos_bound (c / 64) 64 ltac:(lia)). pose proof (Z.mod_pos_bound (c / 4096) 64 ltac:(lia)).
  repeat (match goal with |- context[if ?x then _ else _] => destruct x eqn:? end; [try done|]); try done.
  all: try (intros [= <-]; repeat constructor; unfold byte; Z.div_mod_to_equations; lia).
Qed.
Lemma utf8_encode_bytes s b : utf8_encode s = Ok b -> Forall byte b.
Proof.
  revert b. induction s as [|c s IH]; intros b; [by intros [= <-]|]. cbn.
  intros (x&Hx%utf8_char_bytes&(r&Hr&[= <-])%rbind_Ok)%rbind_Ok. apply Forall_app. eauto.
Qed.

Lemma base64url_64 b : length b = 64%nat -> Forall byte b -> is_urlsafe_token (base64url b) 86 = true.
Proof.
  intros Hlb Hb. destruct (b64encode_shape b Hb) as (t&k&E&Ht&Hk&Hl&Hm). unfold base64url.
  rewrite E, b64url_strip by done. unfold is_urlsafe_token. rewrite Ht, andb_true_r. apply Nat.eqb_eq.
  rewrite Hlb in *. change ((64 + 2) / 3)%nat with 22%nat in Hl.
  destruct k as [|[|[|k]]]; cbn in Hm; try done; lia.
Qed.

Lemma escape_url s : forallb b64url_char s = true -> flat_map escape_char s = s.
Proof.
  induction s as [|c s IH]; [done|]. cbn [forallb flat_map]. intros [Hc Hs]%andb_true_iff. rewrite (IH Hs).
  assert (E : escape_char c = [c]); [|by rewrite E]. unfold escape_char. revert Hc.
  unfold b64url_char, ascii_alnum, ascii_alpha, ascii_upper, ascii_lowerc, ascii_digit. intros Hc.
  repeat (match goal with |- context[if c =? ?k then _ else _] => replace (c =? k) with false by lia end).
  by replace ((32 <=? c) && (c <=? 126)) with true by lia.
Qed.

Lemma url_scalar s : forallb b64url_char s = true -> Forall scalar s.
Proof.
  intros Hs%b64url_ascii. unfold isascii in Hs. apply forallb_Forall in Hs. eapply Forall_impl; [exact Hs|].
  unfold is_ascii, scalar. cbn. lia.
Qed.

Lemma url_token s n : is_urlsafe_token s n = true -> length s = n /\ forallb b64url_char s = true.
Proof. unfold is_urlsafe_token. intros [Hl Hs]%andb_true_iff. apply Nat.eqb_eq in Hl. done. Qed.

Definition transaction_ok (t : OAuthTransaction) : Prop :=
  is_urlsafe_token (tx_state t) 43 = true /\ is_urlsafe_token (tx_nonce t) 43 = true /\
  is_urlsafe_token (tx_code_verifier t) 86 = true /\ 0 <= tx_expires_at t < 10 ^ 12.

Lemma py_scalar s : Forall scalar (py s).
Proof. eapply Forall_impl; [apply py_ascii|]. unfold scalar. cbn. lia. Qed.

Lemma json_ok_payload t : transaction_ok t -> json_ok (transaction_payload t).
Proof.
  intros (Hs&Hn&Hv&He).
  assert (Hfit : int_fits (tx_expires_at t)).
  { unfold int_fits, str_nat. rewrite Z.abs_eq by lia.
    destruct (digits_of_spec (S (Z.to_nat (Z.log2 (tx_expires_at t)))) (tx_expires_at t) [] 11) as (ds&Eds&Hld&_); [exact He|].
    rewrite Eds, app_nil_r. unfold MAX_STR_DIGITS. lia. }
  apply url_token in Hs as [_ Hs%url_scalar], Hn as [_ Hn%url_scalar], Hv as [_ Hv%url_scalar].
  split; [|split].
  - apply (bool_decide_unpack _). vm_compute. exact I.
  - repeat (apply Forall_cons; split; [apply py_scalar|]). by apply Forall_nil.
  - by split_and!.
Qed.

Lemma isascii_app s t : isascii (s ++ t) = isascii s && isascii t.
Proof. apply forallb_app. Qed.

Lemma isascii_cons c s : isascii (c :: s) = is_ascii c && isascii s.
Proof. done. Qed.

(** The dumped payload: ASCII, and short. *)
Lemma dumps_payload t : transaction_ok t ->
  isascii (dumps (transaction_payload t)) = true /\ (length (dumps (transaction_payload t)) <= 300)%nat /\
  exists r, dumps (transaction_payload t) = 123 :: r.
Proof.
  intros (Hs&Hn&Hv&He). apply url_token in Hs as [Hls Hs], Hn as [Hln Hn], Hv as [Hlv Hv].
  destruct (digits_of_spec (S (Z.to_nat (Z.log2 (tx_expires_at t)))) (tx_expires_at t) [] 11) as (ds&Eds&Hld&Hds);
    [exact He|].
  assert (Ei : str_int (tx_expires_at t) = ds).
  { unfold str_int. replace (tx_expires_at t <? 0) with false by lia. unfold str_nat. by rewrite Eds, app_nil_r. }
  cbn [transaction_payload dumps map fst snd join]. unfold dump_str. rewrite Ei, !escape_url by done.
  split; [|split; [|by eexists]].
  - repeat (rewrite isascii_cons || rewrite isascii_app).
    rewrite (b64url_ascii _ Hs), (b64url_ascii _ Hn), (b64url_ascii _ Hv), (forallb_digit_ascii ds) by done.
    by vm_compute.
  - repeat (rewrite length_app || cbn [length]).
    change (length (py "code_verifier")) with 13%nat. change (length (py "expires_at")) with 10%nat.
    change (length (py "nonce")) with 5%nat. change (length (py "state")) with 5%nat. lia.
Qed.

Lemma count_dot_url s : forallb b64url_char s = true -> count_char 46 s = 0%nat.
Proof.
  intros Hs%forallb_Forall. apply count_char_0. eapply Forall_impl; [exact Hs|]. by intros x Hx ->.
Qed.

Lemma split_dot_url s r : forallb b64url_char s = true -> split_once 46 (s ++ 46 :: r) = (s, Some r).
Proof.
  induction s as [|c s IH]; [done|]. cbn [forallb app split_once]. intros [Hc Hs]%andb_true_iff.
  destruct (c =? 46) eqn:E; [apply Z.eqb_eq in E; by subst c|]. by rewrite IH.
Qed.

(** The cookie of a transaction, and what reading it back finds. *)
Definition encoded_payload (t : OAuthTransaction) : pystr := base64url (dumps (transaction_payload t)).
Definition cookie_of (t : OAuthTransaction) (key : bytes) : pystr :=
  encoded_payload t ++ 46 :: base64url (hmac_sha256 key (encoded_payload t)).

Lemma bytes_ascii s : isascii s = true -> Forall byte s.
Proof. unfold isascii. intros Hs%forallb_Forall. eapply Forall_impl; [exact Hs|]. unfold is_ascii, byte. cbn. lia. Qed.

Lemma encoded_payload_url t : transaction_ok t ->
  forallb b64url_char (encoded_payload t) = true /\ (length (encoded_payload t) <= 404)%nat /\
  base64url_decode (encoded_payload t) = Ok (dumps (transaction_payload t)).
Proof.
  intros Ht. destruct (dumps_payload t Ht) as (Ha&Hl&_). pose proof (bytes_ascii _ Ha) as Hb.
  destruct (base64url_shape _ Hb) as (Hu&Hle&_). split; [done|]. split.
  - unfold encoded_payload. etransitivity; [exact Hle|].
    assert ((length (dumps (transaction_payload t)) + 2) / 3 <= 302 / 3)%nat by (apply Nat.Div0.div_le_mono; lia).
    change (302 / 3)%nat with 100%nat in *. lia.
  - by apply base64url_roundtrip.
Qed.

Lemma serialize_ok t key : transaction_ok t -> serialize t key = Ok (cookie_of t key).
Proof.
  intros Ht. destruct (dumps_payload t Ht) as (Ha&_). destruct (encoded_payload_url t Ht) as (Hu&_).
  unfold serialize. rewrite (utf8_encode_ascii _ Ha). cbn [rbind]. unfold ascii_encode.
  fold (encoded_payload t). by rewrite (b64url_ascii _ Hu).
Qed.

Lemma authentic_join encoded sig key :
  forallb b64url_char encoded = true -> (length encoded <= 404)%nat -> token_pattern sig = true ->
  sig = base64url (hmac_sha256 key encoded) -> authentic_payload (encoded ++ 46 :: sig) key = Some encoded.
Proof.
  intros Hu Hl Hsig Heq. unfold authentic_payload.
  pose proof (token_pattern_length _ Hsig) as Hsl. pose proof (token_pattern_ascii _ Hsig) as Hsa.
  assert (Hsu : forallb b64url_char sig = true) by (unfold token_pattern in Hsig; by apply andb_true_iff in Hsig as [_ ?]).
  rewrite count_char_app, (count_dot_url _ Hu), split_dot_url by done.
  assert (Hc : count_char 46 (46 :: sig) = 1%nat) by (pose proof (count_dot_url _ Hsu) as E; unfold count_char in *; cbn; by rewrite E).
  rewrite Hc, length_app. cbn [length]. replace (2048 <? _)%nat with false by (symmetry; apply Nat.ltb_ge; lia).
  rewrite (b64url_ascii _ Hu), Hsa, <- Heq. unfold compare_digest. by rewrite bool_decide_true.
Qed.

Lemma authentic_cookie t key : transaction_ok t -> authentic_payload (cookie_of t key) key = Some (encoded_payload t).
Proof.
  intros Ht. destruct (encoded_payload_url t Ht) as (Hu&Hl&_).
  exact (authentic_join _ _ _ Hu Hl (hmac_sha256_token key (encoded_payload t)) eq_refl).
Qed.

Lemma parse_cookie `{UnicodeLaws} t : transaction_ok t ->
  parse_transaction (encoded_payload t)
    = Ok (JStr (tx_state t), JStr (tx_nonce t), JStr (tx_code_verifier t), JInt (tx_expires_at t)).
Proof.
  intros Ht. destruct (encoded_payload_url t Ht) as (_&_&E).
  unfold parse_transaction. rewrite E. cbn [rbind]. pose proof json_nesting_min.
  rewrite json_loads_bytes_dumps; [reflexivity|by apply json_ok_payload|]. cbn. lia.
Qed.

Lemma deserialize_cookie `{UnicodeLaws} t key now current w : transaction_ok t -> utc_now (w_now w) now = Ok current ->
  deserialize (Some (cookie_of t key)) key now w
    = (Ok (if tx_expires_at t <=? timestamp_seconds current then None else Some t), w).
Proof.
  intros Ht Hnow. unfold deserialize. rewrite authentic_cookie, parse_cookie by done.
  destruct Ht as (Hs&Hn&Hv&_). cbn [json_int]. rewrite Hs, Hn, Hv. cbn [negb orb].
  unfold mbind, utc_now_m. rewrite Hnow. destruct (_ <=? _); [done|]. by destruct t.
Qed.

Lemma authentic_payload_inv value key encoded :
  authentic_payload value key = Some encoded -> value = encoded ++ 46 :: base64url (hmac_sha256 key encoded).
Proof.
  unfold authentic_payload. destruct (_ || _); [done|]. destruct (split_once 46 value) as [e [sig|]] eqn:E; [|done].
  destruct (_ || _); [done|]. unfold compare_digest. destruct (bool_decide _) eqn:Eb; [|done].
  intros [= ->]. apply bool_decide_eq_true in Eb as ->. by apply split_once_Some in E as [-> _].
Qed.

Lemma deserialize_world `{Unicode} value key now w r w' : deserialize value key now w = (r, w') -> w' = w.
Proof.
  unfold deserialize. destruct value as [v|]; [|by intros [= <- <-]].
  destruct (authentic_payload v key) as [encoded|]; [|by intros [= <- <-]].
  destruct (parse_transaction encoded) as [[[[st no] ve] ex]|e]; [|destruct (_ || _); by intros [= <- <-]].
  unfold mbind, utc_now_m, lift, mret, raise. intros E. by repeat (case_match; try by injection E as <- <-).
Qed.
Lemma deserialize_inv `{Unicode} value key now w t w' :
  deserialize value key now w = (Ok (Some t), w') ->
  w' = w /\ exists v encoded current, value = Some v /\ authentic_payload v key = Some encoded /\
    utc_now (w_now w) now = Ok current /\ timestamp_seconds current < tx_expires_at t /\
    is_urlsafe_token (tx_state t) 43 = true /\ is_urlsafe_token (tx_nonce t) 43 = true /\
    is_urlsafe_token (tx_code_verifier t) 86 = true.
Proof.
  unfold deserialize. destruct value as [v|]; [|done]. destruct (authentic_payload v key) as [encoded|] eqn:Ea; [|done].
  destruct (parse_transaction encoded) as [[[[st no] ve] ex]|e]; [|by destruct (_ || _)].
  destruct st as [| | | |st| |]; try done. destruct no as [| | | |no| |]; try done.
  destruct ve as [| | | |ve| |]; try done. destruct (json_int ex) as [x|]; [|done].
  destruct (negb _ || negb _ || negb _) eqn:Eu; [done|]. unfold mbind, utc_now_m.
  destruct (utc_now (w_now w) now) as [current|] eqn:En; [|done]. destruct (x <=? _) eqn:Ex; [done|].
  intros [= <- <-]. split; [done|]. rewrite !orb_false_iff, !negb_false_iff in Eu. destruct Eu as [[? ?] ?].
  exists v, encoded, current. cbn. repeat split; try done. lia.
Qed.

Lemma create_transaction_inv `{EntropyLaws} now w t w1 :
  create_transaction now w = (Ok t, w1) ->
  exists current, utc_now (w_now w) now = Ok current /\
    tx_expires_at t = timestamp_seconds (current + OAUTH_TRANSACTION_TTL) /\
    is_urlsafe_token (tx_state t) 43 = true /\ is_urlsafe_token (tx_nonce t) 43 = true /\
    is_urlsafe_token (tx_code_verifier t) 86 = true.
Proof.
  unfold create_transaction, mbind, utc_now_m, token_urlsafe, token_bytes, mret.
  destruct (utc_now (w_now w) now) as [current|] eqn:En; [|done]. cbn [mbind w_draws].
  intros [= <- <-]. exists current. cbn [tx_state tx_nonce tx_code_verifier tx_expires_at].
  split; [done|]. split; [done|].
  pose proof (fun n => octets_at_length n 32) as H32. pose proof (fun n => octets_at_range n 32) as R32.
  split; [|split]; [by apply base64url_32..|]. apply base64url_64; [apply octets_at_length|apply octets_at_range].
Qed.

Lemma length_signature key m : length (base64url (hmac_sha256 key m)) = 43%nat.
Proof. apply token_pattern_length, hmac_sha256_token. Qed.
Lemma signature_inj key key' m m' :
  base64url (hmac_sha256 key m) = base64url (hmac_sha256 key' m') -> hmac_sha256 key m = hmac_sha256 key' m'.
Proof. intros E. apply base64url_inj in E; [done|apply length_hmac_sha256..|apply sha256_range|apply sha256_range]. Qed.
Lemma joined_inj (a b s t : pystr) : length s = 43%nat -> length t = 43%nat -> a ++ 46 :: s = b ++ 46 :: t -> a = b /\ s = t.
Proof. intros Hs Ht E. apply app_inj_2 in E as [-> E]; [by injection E|]. cbn. by rewrite Hs, Ht. Qed.

(** ** Properties *)

(** A sign-in transaction is one browser's for ten minutes.  The cookie of a new transaction is
    read back as that transaction until its deadline and not from then on; what is accepted under a
    key carries the HMAC of its payload under that key, so under another key the cookie is accepted
    only where two HMACs collide. *)
Theorem oauth_transaction_life `{UnicodeLaws} `{EntropyLaws} now w t w1 key :
  0 <= w_now w < 10 ^ 17 -> (forall d, now = Some d -> 0 <= wall d - default 0 (utcoffset d) < 10 ^ 17) ->
  create_transaction now w = (Ok t, w1) ->
  exists cookie current, serialize t key = Ok cookie /\ utc_now (w_now w) now = Ok current /\
    (forall later instant_ w2, utc_now (w_now w2) later = Ok instant_ ->
       deserialize (Some cookie) key later w2
         = (Ok (if timestamp_seconds (current + OAUTH_TRANSACTION_TTL) <=? timestamp_seconds instant_
                then None else Some t), w2)) /\
    (forall key' later w2 t' w3, deserialize (Some cookie) key' later w2 = (Ok (Some t'), w3) ->
       exists payload, hmac_sha256 key' payload = hmac_sha256 key payload /\
         cookie = payload ++ 46 :: base64url (hmac_sha256 key payload)).
Proof.
  intros Hw Hd (current&Hnow&Hexp&Hs&Hn&Hv)%create_transaction_inv.
  assert (Hcur : 0 <= current < 10 ^ 17).
  { revert Hnow. unfold utc_now. destruct now as [d|]; [|by intros [= <-]]. specialize (Hd d eq_refl).
    destruct (utcoffset d) as [off|]; [|done]. by intros [= <-]. }
  assert (Ht : transaction_ok t).
  { split; [done|]. split; [done|]. split; [done|]. rewrite Hexp. unfold timestamp_seconds, OAUTH_TRANSACTION_TTL,
      timedelta_seconds, second. rewrite Z.quot_div_nonneg by lia. split; [apply Z.div_pos; lia|].
    apply Z.div_lt_upper_bound; lia. }
  exists (cookie_of t key), current. split; [by apply serialize_ok|]. split; [done|]. split.
  - intros later i w2 Hi. rewrite (deserialize_cookie t key later i w2 Ht Hi). by rewrite Hexp.
  - intros key' later w2 t' w3 (_&v&encoded&i&[= <-]&Ha&_)%deserialize_inv.
    apply authentic_payload_inv in Ha. exists (encoded_payload t). unfold cookie_of in *.
    split; [|done]. apply joined_inj in Ha as [<- Ha]; [|apply length_signature..].
    symmetry. exact (signature_inj _ _ _ _ Ha).
Qed.

Definition oauth_world : World := mkWorld empty_db empty_db 0 (10 ^ 15).

Lemma oauth_transaction_life_witness :
  exists t cookie, (@create_transaction counting_entropy None oauth_world).1 = Ok t /\
    serialize t (py "key") = Ok cookie /\
    @deserialize ascii_unicode (Some cookie) (py "key") None oauth_world = (Ok (Some t), oauth_world).
Proof.
  assert (Hr : exists t, (@create_transaction counting_entropy None oauth_world).1 = Ok t)
    by (eexists; vm_compute; reflexivity).
  destruct (@create_transaction counting_entropy None oauth_world) as [r w1] eqn:E. cbn [fst] in *.
  destruct Hr as [t ->].
  destruct (@oauth_transaction_life ascii_unicode ascii_unicode_laws counting_entropy counting_entropy_laws None oauth_world t w1 (py "key"))
    as (cookie&current&Hs&Hc&Hlife&_); [split; vm_compute; [discriminate|reflexivity]|intros d; discriminate|exact E|].
  exists t, cookie. split; [reflexivity|]. split; [exact Hs|].
  rewrite (Hlife None (10 ^ 15) oauth_world eq_refl). injection Hc as <-. vm_compute. reflexivity.
Defined.
