(* ===== verification/Google.v ===== *)
(** Google sign-in (app/auth/google.py): the cached provider documents, the code exchange, the
    checks of an ID token and its claims, and the provisioning of accounts. The HTTP transport and the JWT library are interfaces. *)
From S2P Require Import Prelude PyBase Encoding Hashes Json Models Store Config Url Session Csrf LocalAuth OAuth.

Definition GOOGLE_DISCOVERY_URL : pystr := py "https://accounts.google.com/.well-known/openid-configuration".
Definition GOOGLE_ISSUERS : list pystr := [py "https://accounts.google.com"; py "accounts.google.com"].
Definition GOOGLE_ENDPOINT_HOSTS : list pystr :=
  [py "accounts.google.com"; py "oauth2.googleapis.com"; py "www.googleapis.com"].
Definition ID_TOKEN_MAX_LENGTH : nat := Z.to_nat (16 * 1024).

Abbreviation dict := (list (pystr * json)) (only parsing).

Record ProviderMetadata := mkMetadata {
  issuer : pystr;
  authorization_endpoint : pystr;
  token_endpoint : pystr;
  jwks_uri : pystr;
}.
Record GoogleIdentity := mkIdentity {
  gi_subject : pystr;
  gi_email : pystr;
  gi_display_name : pystr;
  gi_hosted_domain : pystr;
}.
Record GoogleOIDCConfiguration := mkOIDCConfiguration {
  oc_client_id : pystr;
  oc_client_secret : pystr;
  oc_redirect_uri : pystr;
  oc_allowed_domains : list pystr;
}.
Record GoogleOIDC := mkGoogleOIDC {
  go_configuration : GoogleOIDCConfiguration;
  go_transaction_key : bytes;
}.

Record HttpRequest := mkHttpRequest { rq_method : pystr; rq_url : pystr; rq_data : option (list (pystr * pystr)) }.
Record HttpResponse := mkHttpResponse { hs_status : Z; hs_body : bytes; hs_cache_control : option pystr }.

(** The transport: the answer to the [n]-th request of a client ([None] is an [httpx.HTTPError]), and
    the microseconds it takes. Redirects are not followed. *)
Class GoogleHttp := {
  http_reply : nat -> HttpRequest -> option HttpResponse;
  http_latency : nat -> Z;
}.
Class GoogleHttpLaws `{GoogleHttp} : Prop := { http_latency_nonneg : forall n, 0 <= http_latency n }.

(** The JWT library. [signed_by key token claims] says that the token is a JWS of the claims whose
    signature the key verifies, and [expiry] reads the integer of an expiry claim. *)
Class Jwt := {
  RSAPublicKey : Type;
  get_unverified_header : pystr -> result dict;
  rsa_from_jwk : dict -> result RSAPublicKey;
  jwt_decode : pystr -> RSAPublicKey -> pystr -> list pystr -> Z -> list pystr -> instant -> result dict;
  signed_by : RSAPublicKey -> pystr -> dict -> Prop;
  expiry : dict -> Z;
}.
(** What [jwt.decode] verifies before it returns the claims. *)
Class JwtLaws `{Jwt} : Prop := {
  decode_signed token key audience issuers leeway required now claims :
    jwt_decode token key audience issuers leeway required now = Ok claims -> signed_by key token claims;
  decode_audience token key audience issuers leeway required now claims :
    jwt_decode token key audience issuers leeway required now = Ok claims ->
    dict_get (py "aud") claims = Some (JStr audience) \/
    exists l, dict_get (py "aud") claims = Some (JList l) /\ JStr audience ∈ l;
  decode_issuer token key audience issuers leeway required now claims :
    jwt_decode token key audience issuers leeway required now = Ok claims ->
    exists i, dict_get (py "iss") claims = Some (JStr i) /\ i ∈ issuers;
  decode_expiry token key audience issuers leeway required now claims :
    py "exp" ∈ required -> jwt_decode token key audience issuers leeway required now = Ok claims ->
    now < (expiry claims + leeway) * second;
}.

(** What one [GoogleOIDC] object remembers, with the world its calls run in. *)
Record GState := mkGState {
  g_world : World;
  g_metadata_cache : option (ProviderMetadata * instant);
  g_jwks_cache : option (gmap pystr (list (pystr * json)) * instant);
  g_sent : list HttpRequest;
}.
Definition G : Type -> Type := ST GState.
Definition on_world {A} (c : M A) : G A := fun s =>
  let '(r, w) := c (g_world s) in (r, mkGState w (g_metadata_cache s) (g_jwks_cache s) (g_sent s)).
Definition set_metadata_cache (c : option (ProviderMetadata * instant)) : G unit := fun s =>
  (Ok tt, mkGState (g_world s) c (g_jwks_cache s) (g_sent s)).
Definition set_jwks_cache (c : option (gmap pystr (list (pystr * json)) * instant)) : G unit := fun s =>
  (Ok tt, mkGState (g_world s) (g_metadata_cache s) c (g_sent s)).
Definition get_state : G GState := fun s => (Ok s, s).

Definition new_google_oidc (settings : Settings) (configuration : GoogleOIDCConfiguration) : result GoogleOIDC :=
  try! secret <- utf8_encode (session_secret settings);
  Ok (mkGoogleOIDC configuration (hmac_sha256 secret (py "leakcheck/google-oidc-transaction/v1"))).

Definition transaction_cookie (google : GoogleOIDC) (t : OAuthTransaction) : result pystr :=
  serialize t (go_transaction_key google).
Definition read_transaction_cookie `{Unicode} (google : GoogleOIDC) (value : option pystr) (now : option pydatetime)
  : M (option OAuthTransaction) := deserialize value (go_transaction_key google) now.

(** ** Provider documents *)

Section Provider.
Context `{Unicode} `{GoogleHttp}.

Definition trusted_google_endpoint (value : pystr) : bool :=
  match urlsplit value with
  | Raise _ => false
  | Ok parsed =>
      bool_decide (url_scheme parsed = py "https")
      && match url_hostname parsed with Some h => bool_decide (h ∈ GOOGLE_ENDPOINT_HOSTS) | None => false end
      && bool_decide (url_userinfo parsed = (None, None))
      && bool_decide (url_query parsed = []) && bool_decide (url_fragment parsed = [])
  end.

Definition metadata_from_payload (payload : json) : result ProviderMetadata :=
  match payload with
  | JDict d =>
      match jget "issuer" d, jget "authorization_endpoint" d, jget "token_endpoint" d, jget "jwks_uri" d with
      | JStr i, JStr a, JStr t, JStr j =>
          if bool_decide (i ∈ GOOGLE_ISSUERS) && forallb trusted_google_endpoint [a; t; j]
          then Ok (mkMetadata i a t j) else Raise GoogleOIDCError
      | _, _, _, _ => Raise GoogleOIDCError
      end
  | _ => Raise GoogleOIDCError
  end.

Definition json_payload (response : HttpResponse) : result json :=
  match json_loads_bytes (hs_body response) with
  | Raise JSONDecodeError => Raise GoogleOIDCError
  | r => r
  end.

(** [\s*max-age=(\d+)\s*(?:,|$)], ignoring case, at the head of a text: the digits. *)
Fixpoint span_decimal (s : pystr) : pystr * pystr :=
  match s with
  | c :: t => if bool_decide (is_Some (decimal_value c))
              then let '(d, r) := span_decimal t in (c :: d, r) else ([], s)
  | [] => ([], [])
  end.
Definition max_age_here (s : pystr) : option pystr :=
  let s := lstrip s in
  if bool_decide (map to_lower (take 8 s) = py "max-age=") then
    match span_decimal (drop 8 s) with
    | ([], _) => None
    | (digits, r) => match lstrip r with
                     | [] => Some digits
                     | c :: _ => if c =? 44 then Some digits else None
                     end
    end
  else None.
(** The first match after a comma. *)
Fixpoint max_age_after (s : pystr) : option pystr :=
  match s with
  | [] => None
  | c :: t => if c =? 44 then match max_age_here t with Some d => Some d | None => max_age_after t end
              else max_age_after t
  end.
Definition max_age_search (s : pystr) : option pystr :=
  match max_age_here s with Some d => Some d | None => max_age_after s end.

Definition cache_expiry (response : HttpResponse) (default_seconds : Z) (now : instant) : result instant :=
  try! seconds <- match max_age_search (default [] (hs_cache_control response)) with
                  | Some digits => py_int digits
                  | None => Ok default_seconds
                  end;
  Ok (now + timedelta_seconds (Z.min (Z.max seconds 0) (24 * 60 * 60))).

Definition request_ (r : HttpRequest) : G HttpResponse := fun s =>
  let n := length (g_sent s) in
  let w := g_world s in
  let s' := mkGState (mkWorld (w_db w) (w_committed w) (w_draws w) (w_now w + http_latency n))
              (g_metadata_cache s) (g_jwks_cache s) (g_sent s ++ [r]) in
  match http_reply n r with
  | Some response => if (200 <=? hs_status response) && (hs_status response <? 300)
                     then (Ok response, s') else (Raise GoogleOIDCError, s')
  | None => (Raise GoogleOIDCError, s')
  end.

Definition metadata_ : G ProviderMetadata :=
  let! current <- on_world clock;
  let! s <- get_state;
  let fetch :=
    let! response <- request_ (mkHttpRequest (py "GET") GOOGLE_DISCOVERY_URL None);
    let! payload <- lift (json_payload response);
    let! metadata <- lift (metadata_from_payload payload);
    let! now <- on_world clock;
    let! expires <- lift (cache_expiry response 3600 now);
    do! set_metadata_cache (Some (metadata, expires));
    mret metadata in
  match g_metadata_cache s with
  | Some (metadata, expires) => if current <? expires then mret metadata else fetch
  | None => fetch
  end.

(** [d.get(k) == v] for a string [v]. *)
Definition str_is (k v : string) (d : list (pystr * json)) : bool :=
  match dict_get (py k) d with Some (JStr s) => bool_decide (s = py v) | _ => false end.

(** The usable signing keys of a key set, by identifier; a later key replaces an earlier one. *)
Definition signing_key (value : json) : option (pystr * list (pystr * json)) :=
  match value with
  | JDict d =>
      match jget "kid" d with
      | JStr kid => if str_is "kty" "RSA" d && str_is "use" "sig" d && str_is "alg" "RS256" d
                    then Some (kid, d) else None
      | _ => None
      end
  | _ => None
  end.
Definition collect_keys (values : list json) : gmap pystr (list (pystr * json)) :=
  foldl (fun keys value => match signing_key value with Some (kid, d) => <[kid := d]> keys | None => keys end)
    ∅ values.

Definition jwks_ : G (gmap pystr (list (pystr * json))) :=
  let! current <- on_world clock;
  let! s <- get_state;
  let fetch :=
    let! metadata <- metadata_;
    let! response <- request_ (mkHttpRequest (py "GET") (jwks_uri metadata) None);
    let! payload <- lift (json_payload response);
    let! values <- lift match payload with
                        | JDict d => match jget "keys" d with JList l => Ok l | _ => Raise GoogleOIDCError end
                        | _ => Raise GoogleOIDCError
                        end;
    let keys := collect_keys values in
    if (size keys =? 0)%nat then raise GoogleOIDCError
    else
      let! now <- on_world clock;
      let! expires <- lift (cache_expiry response 300 now);
      do! set_jwks_cache (Some (keys, expires));
      mret keys in
  match g_jwks_cache s with
  | Some (keys, expires) => if current <? expires then mret keys else fetch
  | None => fetch
  end.

(** An unknown key is looked up once more in a fresh key set. *)
Definition find_jwk (kid : pystr) : G (list (pystr * json)) :=
  let! keys <- jwks_;
  match keys !! kid with
  | Some key => mret key
  | None =>
      do! set_jwks_cache None;
      let! keys <- jwks_;
      match keys !! kid with Some key => mret key | None => raise GoogleOIDCError end
  end.

(** [frozenset(configuration.allowed_domains)] *)
Definition allowed_domains (google : GoogleOIDC) : list pystr :=
  remove_dups (oc_allowed_domains (go_configuration google)).

Definition authorization_url (google : GoogleOIDC) (t : OAuthTransaction) : G pystr :=
  let! metadata <- metadata_;
  let c := go_configuration google in
  let! challenge <- lift (code_challenge t);
  let parameters :=
    [(py "client_id", oc_client_id c); (py "code_challenge", challenge);
     (py "code_challenge_method", py "S256"); (py "nonce", tx_nonce t);
     (py "redirect_uri", oc_redirect_uri c); (py "response_type", py "code");
     (py "scope", py "openid email profile"); (py "state", tx_state t)] ++
    match allowed_domains google with [hd] => [(py "hd", hd)] | _ => [] end in
  let! encoded <- lift (urlencode parameters);
  mret (authorization_endpoint metadata ++ 63 :: encoded).

Definition token_exchange (google : GoogleOIDC) (metadata : ProviderMetadata) (code code_verifier : pystr)
  : G (list (pystr * json)) :=
  let c := go_configuration google in
  let! response <- request_ (mkHttpRequest (py "POST") (token_endpoint metadata) (Some
    [(py "client_id", oc_client_id c); (py "client_secret", oc_client_secret c); (py "code", code);
     (py "code_verifier", code_verifier); (py "grant_type", py "authorization_code");
     (py "redirect_uri", oc_redirect_uri c)]));
  let! payload <- lift (json_payload response);
  match payload with JDict d => mret d | _ => raise GoogleOIDCError end.

End Provider.

(** ** ID tokens and identities *)

Section Identity.
Context `{Unicode} `{GoogleHttp} `{Jwt}.

(** [hmac.compare_digest] of two strings, which must be ASCII. *)
Definition compare_digest_str (a b : pystr) : result bool :=
  if isascii a && isascii b then Ok (compare_digest a b) else Raise TypeError.

(** [except (InvalidTokenError, ValueError, TypeError)] *)
Definition token_error (e : exn) : bool :=
  bool_decide (e = InvalidTokenError) || is_value_error e || bool_decide (e = TypeError).

(** The key identifier of an acceptable header. *)
Definition header_kid (header : list (pystr * json)) : option pystr :=
  match jget "kid" header with
  | JStr kid =>
      if str_is "alg" "RS256" header && negb (bool_decide (kid = [])) && (length kid <=? 128)%nat
      then Some kid else None
  | _ => None
  end.

Definition check_nonce (claims : list (pystr * json)) (nonce : pystr) : result unit :=
  match jget "nonce" claims with
  | JStr token_nonce =>
      if negb (isascii token_nonce) then Raise GoogleOIDCError
      else try! same <- compare_digest_str token_nonce nonce; guard_or same GoogleOIDCError
  | _ => Raise GoogleOIDCError
  end.
(** A token for several audiences must be authorised for this client. *)
Definition check_party (claims : list (pystr * json)) (client_id : pystr) : result unit :=
  match jget "aud" claims with
  | JList _ =>
      match jget "azp" claims with
      | JStr azp => try! same <- compare_digest_str azp client_id; guard_or same GoogleOIDCError
      | _ => Raise GoogleOIDCError
      end
  | _ => Ok tt
  end.

Definition verify_id_token (google : GoogleOIDC) (id_token nonce : pystr) : G (list (pystr * json)) :=
  let client_id := oc_client_id (go_configuration google) in
  let! header <- lift match get_unverified_header id_token with
                      | Raise InvalidTokenError => Raise GoogleOIDCError
                      | r => r
                      end;
  match header_kid header with
  | None => raise GoogleOIDCError
  | Some kid =>
      let! jwk <- find_jwk kid;
      let! now <- on_world clock;
      let! claims <- lift match (try! public_key <- rsa_from_jwk jwk;
                                 jwt_decode id_token public_key client_id GOOGLE_ISSUERS 60
                                   [py "aud"; py "exp"; py "iss"; py "nonce"; py "sub"] now) with
                          | Raise e => Raise (if token_error e then GoogleOIDCError else e)
                          | r => r
                          end;
      do! lift (check_nonce claims nonce);
      do! lift (check_party claims client_id);
      mret claims
  end.

Definition valid_email (value : pystr) : bool :=
  (3 <=? length value)%nat && (length value <=? 320)%nat && (count_char 64 value =? 1)%nat
  && forallb (fun c => negb (isspace c) && isprintable c) value.

Definition hosted (domain : pystr) : pystr := rstrip_by (Z.eqb 46) (casefold domain).

Definition identity_from_claims (google : GoogleOIDC) (claims : list (pystr * json)) : result GoogleIdentity :=
  match jget "sub" claims, jget "email" claims, jget "hd" claims with
  | JStr subject, JStr email, JStr hosted_domain =>
      if bool_decide (subject = []) || (255 <? length subject)%nat || negb (valid_email email)
         || negb match jget "email_verified" claims with JBool b => b | _ => false end
         || negb (bool_decide (hosted hosted_domain ∈ allowed_domains google))
      then Raise GoogleOIDCError
      else
        let local := (split_once 64 email).1 in
        let display_name := match jget "name" claims with
                            | JStr n => if bool_decide (strip n = []) then local else strip n
                            | _ => local
                            end in
        if (255 <? length display_name)%nat then Raise GoogleOIDCError
        else Ok (mkIdentity subject (casefold email) display_name (hosted hosted_domain))
  | _, _, _ => Raise GoogleOIDCError
  end.

Definition exchange_and_verify (google : GoogleOIDC) (code : pystr) (t : OAuthTransaction) : G GoogleIdentity :=
  if bool_decide (code = []) || (2048 <? length code)%nat then raise GoogleOIDCError
  else
    let! metadata <- metadata_;
    let! payload <- token_exchange google metadata code (tx_code_verifier t);
    match jget "id_token" payload with
    | JStr id_token =>
        if bool_decide (id_token = []) || (ID_TOKEN_MAX_LENGTH <? length id_token)%nat then raise GoogleOIDCError
        else
          let! claims <- verify_id_token google id_token (tx_nonce t);
          lift (identity_from_claims google claims)
    | _ => raise GoogleOIDCError
    end.

End Identity.

(** ** Accounts *)

Section Provisioning.
Context `{Collation} `{Entropy}.

Definition user_with_sub (sub : pystr) (u : User) : bool := bool_decide (u_google_sub u = Some sub).

Definition provision_google_user (identity : GoogleIdentity) : M User :=
  let! d <- get_db;
  let email_user := find_row (user_with_email (gi_email identity)) (users d) in
  match find_row (user_with_sub (gi_subject identity)) (users d) with
  | Some user =>
      if match email_user with Some e => negb (bool_decide (u_id e = u_id user)) | None => false end
      then raise GoogleOIDCError
      else
        let user := set_u_display_name (gi_display_name identity) (set_u_email (gi_email identity) user) in
        do! put_user user;
        mret user
  | None =>
      match email_user with
      | Some user =>
          if match u_google_sub user with Some s => negb (bool_decide (s = gi_subject identity)) | None => false end
          then raise GoogleOIDCError
          else
            let user := set_u_display_name (gi_display_name identity)
                          (set_u_google_sub (Some (gi_subject identity)) user) in
            do! put_user user;
            mret user
      | None =>
          let! id <- uuid4;
          let! now <- clock;
          let user := mkUser id (gi_email identity) (Some (gi_subject identity)) (gi_display_name identity) None
                        Role_USER true Source_GOOGLE now None in
          let! t <- lift (insert_row true id user (users d));
          do! modify_db (set_users t);
          mret user
      end
  end.

End Provisioning.

(** ** Lemmas: the client *)

Section ClientLemmas.
Context `{Unicode} `{GoogleHttpLaws} `{JwtLaws}.

(** A request to the discovery document, or to an endpoint on one of Google's hosts. *)
Definition trusted_request (r : HttpRequest) : Prop :=
  (rq_url r = GOOGLE_DISCOVERY_URL /\ rq_data r = None) \/ trusted_google_endpoint (rq_url r) = true.
Definition metadata_ok (m : ProviderMetadata) : Prop :=
  issuer m ∈ GOOGLE_ISSUERS /\ trusted_google_endpoint (authorization_endpoint m) = true /\
  trusted_google_endpoint (token_endpoint m) = true /\ trusted_google_endpoint (jwks_uri m) = true.

(** The key set that a trusted endpoint answered holds the key under that identifier. *)
Definition published (kid : pystr) (jwk : list (pystr * json)) : Prop :=
  exists n url response d values v,
    http_reply n (mkHttpRequest (py "GET") url None) = Some response /\ trusted_google_endpoint url = true /\
    json_loads_bytes (hs_body response) = Ok (JDict d) /\ jget "keys" d = JList values /\ v ∈ values /\
    signing_key v = Some (kid, jwk).

(** What every operation maintains: the database is untouched, requests and caches are trusted, and
    time goes on. *)
Definition google_ok (start : World) (s : GState) : Prop :=
  (w_db (g_world s) = w_db start /\ w_committed (g_world s) = w_committed start /\
   w_now start <= w_now (g_world s)) /\ Forall trusted_request (g_sent s) /\
  (forall m e, g_metadata_cache s = Some (m, e) -> metadata_ok m) /\
  (forall keys e, g_jwks_cache s = Some (keys, e) -> forall kid k, keys !! kid = Some k -> published kid k).

Lemma metadata_from_payload_ok payload m : metadata_from_payload payload = Ok m -> metadata_ok m.
Proof using Type.
  unfold metadata_from_payload. destruct payload as [| | | | | |d]; try done.
  destruct (jget "issuer" d); try done. destruct (jget "authorization_endpoint" d); try done.
  destruct (jget "token_endpoint" d); try done. destruct (jget "jwks_uri" d); try done.
  destruct (_ && _) eqn:E; [|done]. intros [= <-]. apply andb_true_iff in E as [Hi E].
  cbn [forallb] in E. rewrite andb_true_r, !andb_true_iff in E. apply bool_decide_eq_true in Hi.
  unfold metadata_ok. cbn. tauto.
Qed.

Lemma collect_keys_spec values : forall kid k,
  collect_keys values !! kid = Some k -> exists v, v ∈ values /\ signing_key v = Some (kid, k).
Proof using Type.
  unfold collect_keys.
  assert (Hg : forall (m : gmap pystr (list (pystr * json))) kid k, foldl (fun keys value =>
      match signing_key value with Some (kid, d) => <[kid := d]> keys | None => keys end) m values !! kid = Some k ->
    m !! kid = Some k \/ exists v, v ∈ values /\ signing_key v = Some (kid, k)).
  { induction values as [|v values IH]; intros m kid k; cbn [foldl]; [by left|]. intros [Hm|(v'&Hv&Hs)]%IH.
    - destruct (signing_key v) as [[kid' d]|] eqn:E; [|by left].
      apply lookup_insert_Some in Hm as [[-> ->]|[_ Hm]]; [|by left]. right. exists v. split; [left|done].
    - right. exists v'. split; [by right|done]. }
  intros kid k Hk. destruct (Hg _ _ _ Hk) as [Hn|]; [|done]. by rewrite lookup_empty in Hn.
Qed.

Lemma holds_request start r :
  trusted_request r ->
  holds (google_ok start) (request_ r) (fun response => exists n, http_reply n r = Some response).
Proof using Type*.
  intros Hr s (Ht&Hs&Hm&Hk). unfold request_. set (n := length (g_sent s)).
  pose proof (http_latency_nonneg n).
  assert (Hok : google_ok start (mkGState (mkWorld (w_db (g_world s)) (w_committed (g_world s)) (w_draws (g_world s))
      (w_now (g_world s) + http_latency n)) (g_metadata_cache s) (g_jwks_cache s) (g_sent s ++ [r]))).
  { destruct Ht as (?&?&?). split; [cbn; repeat split; try done; lia|]. split; [|split]; [|exact Hm|exact Hk]. apply Forall_app. split; [done|].
    by apply Forall_singleton. }
  destruct (http_reply n r) as [response|] eqn:E; [destruct (_ && _)|]; (split; [exact Hok|]); try done.
  intros a [= <-]. by exists n.
Qed.

Lemma holds_clock start : holds (google_ok start) (on_world clock) (fun now => w_now start <= now).
Proof using Type. intros s Hs. split; [exact Hs|]. intros a [= <-]. apply Hs. Qed.

Lemma holds_state start : holds (google_ok start) get_state (google_ok start).
Proof using Type. intros s Hs. split; [exact Hs|]. by intros a [= <-]. Qed.

Lemma holds_metadata start : holds (google_ok start) metadata_ metadata_ok.
Proof using Type*.
  unfold metadata_. eapply holds_bind; [apply holds_clock|]. intros current _.
  eapply holds_bind; [apply holds_state|]. intros s Hs.
  set (fetch := mbind (request_ _) _). assert (Hf : holds (google_ok start) fetch metadata_ok).
  { eapply holds_bind; [apply holds_request; by left|]. intros response _.
    eapply holds_bind; [apply holds_lift; intros ? Hp; exact Hp|]. intros payload _.
    eapply holds_bind; [apply holds_lift; apply metadata_from_payload_ok|]. intros m Hm.
    eapply holds_bind; [apply holds_clock|]. intros now _.
    eapply holds_bind; [apply holds_lift; intros ? Hp; exact Hp|]. intros expires _.
    eapply (holds_bind _ _ _ (fun _ => True)); [|intros _ _; by apply holds_mret].
    intros s' (Ht&Hr&Hc&Hk). split; [|done]. split; [done|]. split; [done|]. split; [|done].
    by intros m' e [= <- _]. }
  destruct (g_metadata_cache s) as [[m e]|] eqn:E; [|done]. destruct (current <? e); [|done].
  apply holds_mret. by apply Hs in E.
Qed.

Lemma holds_cache_keys start c :
  (forall keys e, c = Some (keys, e) -> forall kid k, keys !! kid = Some k -> published kid k) ->
  holds (google_ok start) (set_jwks_cache c) (fun _ => True).
Proof using Type. intros Hc s (Ht&Hr&Hm&_). split; [|done]. split; [done|]. split; [done|]. by split. Qed.

Lemma holds_jwks start :
  holds (google_ok start) jwks_ (fun keys => forall kid k, keys !! kid = Some k -> published kid k).
Proof using Type*.
  unfold jwks_. eapply holds_bind; [apply holds_clock|]. intros current _.
  eapply holds_bind; [apply holds_state|]. intros s Hs.
  set (fetch := mbind metadata_ _).
  assert (Hf : holds (google_ok start) fetch (fun keys => forall kid k, keys !! kid = Some k -> published kid k)).
  { eapply holds_bind; [apply holds_metadata|]. intros m (_&_&_&Hm).
    eapply holds_bind; [apply holds_request; by right|]. intros response [n Hn].
    eapply holds_bind; [apply holds_lift; intros ? Hp; exact Hp|]. intros payload Hp.
    eapply (holds_bind _ _ _ (fun values => exists d, payload = JDict d /\ jget "keys" d = JList values)).
    { apply holds_lift. intros values Hv. destruct payload as [| | | | | |d]; try done. exists d. split; [done|].
      destruct (jget "keys" d); try done. by injection Hv as ->. }
    intros values (d&->&Hd). destruct (size (collect_keys values) =? 0)%nat; [apply holds_raise|].
    assert (Hk : forall kid k, collect_keys values !! kid = Some k -> published kid k).
    { intros kid k (v&Hv&Hs')%collect_keys_spec. exists n, (jwks_uri m), response, d, values, v. repeat split; try done.
      revert Hp. unfold json_payload. destruct (json_loads_bytes _) as [j|e]; [by intros [= ->]|by destruct e]. }
    eapply holds_bind; [apply holds_clock|]. intros now _.
    eapply holds_bind; [apply holds_lift; intros ? He; exact He|]. intros expires _.
    eapply holds_bind; [apply holds_cache_keys; intros ? ? [= <- _]; exact Hk|]. intros _ _. by apply holds_mret. }
  destruct (g_jwks_cache s) as [[keys e]|] eqn:E; [|done]. destruct (current <? e); [|done].
  apply holds_mret. destruct Hs as (_&_&_&Hs). by eapply Hs.
Qed.

Lemma holds_find_jwk start kid : holds (google_ok start) (find_jwk kid) (published kid).
Proof using Type*.
  unfold find_jwk. eapply holds_bind; [apply holds_jwks|]. intros keys Hk.
  destruct (keys !! kid) as [k|] eqn:E; [apply holds_mret; auto|].
  eapply holds_bind; [by apply holds_cache_keys|]. intros _ _.
  eapply holds_bind; [apply holds_jwks|]. intros keys' Hk'.
  destruct (keys' !! kid) as [k|] eqn:E'; [apply holds_mret; auto|apply holds_raise].
Qed.

Lemma holds_token_exchange start google m code verifier : metadata_ok m ->
  holds (google_ok start) (token_exchange google m code verifier) (fun _ => True).
Proof using Type*.
  intros (_&_&Hm&_). unfold token_exchange. eapply holds_bind; [apply holds_request; by right|]. intros response _.
  eapply holds_bind; [apply holds_lift; intros ? Hp; exact Hp|]. intros payload _.
  destruct payload; try apply holds_raise. by apply holds_mret.
Qed.

(** What an accepted ID token has passed: a signature of a published key, its audience, issuer,
    expiry and nonce. *)
Definition token_verified (start : instant) (google : GoogleOIDC) (id_token nonce : pystr)
    (claims : list (pystr * json)) : Prop :=
  let client_id := oc_client_id (go_configuration google) in
  (exists kid jwk key, published kid jwk /\ rsa_from_jwk jwk = Ok key /\ signed_by key id_token claims) /\
  (dict_get (py "aud") claims = Some (JStr client_id) \/
   exists l, dict_get (py "aud") claims = Some (JList l) /\ JStr client_id ∈ l /\
     jget "azp" claims = JStr client_id) /\
  (exists i, dict_get (py "iss") claims = Some (JStr i) /\ i ∈ GOOGLE_ISSUERS) /\
  start < (expiry claims + 60) * second /\
  jget "nonce" claims = JStr nonce.

Lemma check_nonce_ok claims nonce u : check_nonce claims nonce = Ok u -> jget "nonce" claims = JStr nonce.
Proof using Type.
  unfold check_nonce, compare_digest_str, compare_digest. destruct (jget "nonce" claims) as [| | | |n| |]; try done.
  destruct (isascii n); [|done]. cbn [negb andb]. destruct (isascii nonce); [|done]. cbn [rbind].
  unfold guard_or. destruct (bool_decide _) eqn:E; [|done]. by apply bool_decide_eq_true in E as ->.
Qed.

Lemma check_party_ok claims client_id u l :
  check_party claims client_id = Ok u -> dict_get (py "aud") claims = Some (JList l) ->
  jget "azp" claims = JStr client_id.
Proof using Type.
  unfold check_party. intros Hc Hl. assert (E : jget "aud" claims = JList l) by (unfold jget; by rewrite Hl).
  rewrite E in Hc. destruct (jget "azp" claims) as [| | | |a| |]; try done. revert Hc.
  unfold compare_digest_str, compare_digest. destruct (_ && _); [|done]. cbn [rbind]. unfold guard_or.
  destruct (bool_decide _) eqn:Eb; [|done]. by apply bool_decide_eq_true in Eb as ->.
Qed.

Lemma holds_verify start google id_token nonce :
  holds (google_ok start) (verify_id_token google id_token nonce) (token_verified (w_now start) google id_token nonce).
Proof using Type*.
  unfold verify_id_token. cbv zeta. set (client_id := oc_client_id _).
  eapply holds_bind; [apply holds_lift; intros ? Hp; exact Hp|]. intros header _.
  destruct (header_kid header) as [kid|]; [|apply holds_raise].
  eapply holds_bind; [apply holds_find_jwk|]. intros jwk Hj.
  eapply holds_bind; [apply holds_clock|]. intros now Hnow.
  eapply (holds_bind _ _ _ (fun claims => exists key, rsa_from_jwk jwk = Ok key /\
    jwt_decode id_token key client_id GOOGLE_ISSUERS 60 [py "aud"; py "exp"; py "iss"; py "nonce"; py "sub"] now
      = Ok claims)).
  { apply holds_lift. intros claims. destruct (rsa_from_jwk jwk) as [key|e]; cbn [rbind]; [|done].
    destruct (jwt_decode _ _ _ _ _ _ _) eqn:E; [|done]. intros [= <-]. by exists key. }
  intros claims (key&Hkey&Hd).
  eapply holds_bind; [apply holds_lift; intros ? Hp; exact Hp|]. intros [] Hn.
  eapply holds_bind; [apply holds_lift; intros ? Hp; exact Hp|]. intros [] Hp.
  apply holds_mret. split; [by exists kid, jwk, key; split; [|split; [|eapply decode_signed]]|].
  split; [|split; [by eapply decode_issuer|split]].
  - destruct (decode_audience _ _ _ _ _ _ _ _ Hd) as [Ha|(l&Ha&Hl)]; [by left|]. right. exists l.
    split; [done|]. split; [done|]. by eapply check_party_ok.
  - apply decode_expiry in Hd; [|right; left]. eapply Z.le_lt_trans; [exact Hnow|exact Hd].
  - by eapply check_nonce_ok.
Qed.

(** The identity that a verified token's claims give. *)
Definition identity_of (google : GoogleOIDC) (claims : list (pystr * json)) (identity : GoogleIdentity) : Prop :=
  exists email domain, jget "sub" claims = JStr (gi_subject identity) /\ gi_subject identity <> [] /\
    jget "email" claims = JStr email /\ valid_email email = true /\ gi_email identity = casefold email /\
    jget "email_verified" claims = JBool true /\ jget "hd" claims = JStr domain /\
    gi_hosted_domain identity = hosted domain /\
    gi_hosted_domain identity ∈ oc_allowed_domains (go_configuration google).

Lemma identity_from_claims_ok google claims identity :
  identity_from_claims google claims = Ok identity -> identity_of google claims identity.
Proof using Type.
  unfold identity_from_claims. destruct (jget "sub" claims) as [| | | |sub| |] eqn:Es; try done.
  destruct (jget "email" claims) as [| | | |email| |] eqn:Ee; try done.
  destruct (jget "hd" claims) as [| | | |domain| |] eqn:Eh; try done.
  destruct (_ || _ || _ || _ || _) eqn:E; [done|]. cbv zeta. match goal with |- (if ?b then _ else _) = _ -> _ => destruct b end; [done|]. intros [= <-].
  rewrite !orb_false_iff, !negb_false_iff in E. destruct E as [[[[Hs _] Hv] Hev] Hd].
  apply bool_decide_eq_false in Hs. apply bool_decide_eq_true in Hd.
  exists email, domain. cbn [gi_subject gi_email gi_hosted_domain]. repeat split; try done.
  - by destruct (jget "email_verified" claims) as [|[]| | | | |].
  - unfold allowed_domains in Hd. exact (proj1 (elem_of_remove_dups _ _) Hd).
Qed.

Lemma holds_exchange start google code t :
  holds (google_ok start) (exchange_and_verify google code t) (fun identity =>
    exists id_token claims, token_verified (w_now start) google id_token (tx_nonce t) claims /\
      identity_of google claims identity).
Proof using Type*.
  unfold exchange_and_verify. destruct (_ || _); [apply holds_raise|].
  eapply holds_bind; [apply holds_metadata|]. intros m Hm.
  eapply holds_bind; [by apply holds_token_exchange|]. intros payload _.
  destruct (jget "id_token" payload) as [| | | |id_token| |]; try apply holds_raise.
  destruct (_ || _); [apply holds_raise|].
  eapply holds_bind; [apply holds_verify|]. intros claims Hc.
  apply holds_lift. intros identity Hi. exists id_token, claims. split; [done|]. by apply identity_from_claims_ok.
Qed.

Lemma holds_authorization_url start google t :
  holds (google_ok start) (authorization_url google t) (fun url => exists m q,
    metadata_ok m /\ url = authorization_endpoint m ++ 63 :: q).
Proof using Type*.
  unfold authorization_url. eapply holds_bind; [apply holds_metadata|]. intros m Hm. cbv zeta.
  eapply holds_bind; [apply holds_lift; intros ? Hp; exact Hp|]. intros challenge _.
  eapply holds_bind; [apply holds_lift; intros ? Hp; exact Hp|]. intros encoded _.
  apply holds_mret. by exists m, encoded.
Qed.

End ClientLemmas.

(** ** Lemmas: accounts *)

(** The unique constraints of the table of users: identifiers, Google subjects, addresses. *)
Definition accounts_ok `{Collation} (d : Db) : Prop :=
  (forall k u, users d !! k = Some u -> u_id u = k) /\
  (forall k k' u u', users d !! k = Some u -> users d !! k' = Some u' ->
     (is_Some (u_google_sub u) /\ u_google_sub u = u_google_sub u') \/
     citext_lower (u_email u) = citext_lower (u_email u') -> k = k').

Section AccountLemmas.
Context `{Collation} `{Entropy}.

(** A row is written that neither its subject nor its address gives to another row. *)
Lemma accounts_put d u :
  accounts_ok d ->
  (forall k x, users d !! k = Some x -> k <> u_id u ->
     ~ (is_Some (u_google_sub x) /\ u_google_sub x = u_google_sub u) /\
     citext_lower (u_email x) <> citext_lower (u_email u)) ->
  accounts_ok (set_users (<[u_id u := u]> (users d)) d).
Proof using Type.
  intros [Hk Hu] Hnew. split; cbn [users set_users].
  - intros k x [[<- <-]|[_ Hx]]%lookup_insert_Some; [done|by apply Hk].
  - intros k k' x x' [[<- <-]|[Hne Hx]]%lookup_insert_Some [[<- <-]|[Hne' Hx']]%lookup_insert_Some.
    + done.
    + intros HE. destruct (Hnew k' x' Hx' (not_eq_sym Hne')) as [H1 H2]. destruct HE as [[Hs HE]|HE].
      * destruct H1. rewrite <- HE. done.
      * by destruct H2.
    + intros HE. destruct (Hnew k x Hx (not_eq_sym Hne)) as [H1 H2]. by destruct HE.
    + intros HE. by eapply Hu.
Qed.

Lemma find_email_None email d :
  find_row (user_with_email email) (users d) = None ->
  forall k x, users d !! k = Some x -> citext_lower (u_email x) <> citext_lower email.
Proof using Type.
  intros Hf k x Hx E. pose proof (proj1 (find_row_None _ _) Hf k x Hx) as Hn. unfold user_with_email, citext_eq in Hn.
  by apply bool_decide_eq_false in Hn.
Qed.
Lemma find_sub_None sub d :
  find_row (user_with_sub sub) (users d) = None ->
  forall k x, users d !! k = Some x -> u_google_sub x <> Some sub.
Proof using Type.
  intros Hf k x Hx E. pose proof (proj1 (find_row_None _ _) Hf k x Hx) as Hn. unfold user_with_sub in Hn.
  by apply bool_decide_eq_false in Hn.
Qed.

Lemma find_email_Some email d u :
  accounts_ok d -> find_row (user_with_email email) (users d) = Some u ->
  users d !! u_id u = Some u /\ citext_lower (u_email u) = citext_lower email.
Proof using Type.
  intros [Hk _] [Hp [k Hu]]%find_row_Some. unfold user_with_email, citext_eq in Hp. apply bool_decide_eq_true in Hp.
  split; [|done]. by rewrite (Hk k u Hu).
Qed.
Lemma find_sub_Some sub d u :
  accounts_ok d -> find_row (user_with_sub sub) (users d) = Some u ->
  users d !! u_id u = Some u /\ u_google_sub u = Some sub.
Proof using Type.
  intros [Hk _] [Hp [k Hu]]%find_row_Some. unfold user_with_sub in Hp. apply bool_decide_eq_true in Hp.
  split; [|done]. by rewrite (Hk k u Hu).
Qed.

(** The outcome of provisioning: the one row that is written. *)
Definition provisioned (identity : GoogleIdentity) (d : Db) (u : User) : Prop :=
  u_google_sub u = Some (gi_subject identity) /\ citext_lower (u_email u) = citext_lower (gi_email identity) /\
  u_display_name u = gi_display_name identity /\
  match users d !! u_id u with
  | Some u0 => u_role u = u_role u0 /\ u_is_active u = u_is_active u0 /\ u_source u = u_source u0 /\
      (u_google_sub u0 = None \/ u_google_sub u0 = Some (gi_subject identity))
  | None => u_role u = Role_USER /\ u_source u = Source_GOOGLE /\ u_is_active u = true
  end.

Lemma provision_inv identity w r w' :
  accounts_ok (w_db w) -> provision_google_user identity w = (r, w') ->
  match r with
  | Ok u => w_db w' = set_users (<[u_id u := u]> (users (w_db w))) (w_db w) /\ provisioned identity (w_db w) u /\
      forall k x, users (w_db w) !! k = Some x -> k <> u_id u ->
        u_google_sub x <> Some (gi_subject identity) /\ citext_lower (u_email x) <> citext_lower (gi_email identity)
  | Raise e => w_db w' = w_db w /\ (e = GoogleOIDCError ->
      exists k x, users (w_db w) !! k = Some x /\ citext_lower (u_email x) = citext_lower (gi_email identity) /\
        u_google_sub x <> Some (gi_subject identity))
  end.
Proof using Type.
  intros Hok. pose proof Hok as [Hkey Huniq]. unfold provision_google_user, mbind at 1, get_db. cbv zeta.
  destruct (find_row (user_with_sub (gi_subject identity)) (users (w_db w))) as [u|] eqn:Es;
    destruct (find_row (user_with_email (gi_email identity)) (users (w_db w))) as [e|] eqn:Ee.
  - apply (find_sub_Some _ _ _ Hok) in Es as [Hu Hs]. apply (find_email_Some _ _ _ Hok) in Ee as [He Hl].
    destruct (bool_decide (u_id e = u_id u)) eqn:Eb; cbn [negb].
    + apply bool_decide_eq_true in Eb. rewrite Eb, Hu in He. injection He as <-. intros [= <- <-].
      split; [done|]. split.
      * split; [done|]. split; [done|]. split; [done|]. cbn [u_id set_u_display_name set_u_email]. rewrite Hu. auto.
      * intros k x Hx Hne. cbn in Hne. split; [intros E|intros E]; apply Hne.
        -- apply (Huniq k (u_id u) x u Hx Hu). left. rewrite E, Hs. by split.
        -- apply (Huniq k (u_id u) x u Hx Hu). right. by rewrite E.
    + apply bool_decide_eq_false in Eb. intros [= <- <-]. split; [done|]. intros _. exists (u_id e), e.
      split; [done|]. split; [done|]. intros E. apply Eb. eapply Huniq; [exact He|exact Hu|]. left. by rewrite E, Hs.
  - apply (find_sub_Some _ _ _ Hok) in Es as [Hu Hs]. intros [= <- <-]. split; [done|]. split.
    + split; [done|]. split; [done|]. split; [done|]. cbn [u_id set_u_display_name set_u_email]. rewrite Hu. auto.
    + intros k x Hx Hne. cbn in Hne. split; [intros E|by eapply find_email_None]. apply Hne.
      apply (Huniq k (u_id u) x u Hx Hu). left. rewrite E, Hs. by split.
  - apply (find_email_Some _ _ _ Hok) in Ee as [He Hl]. pose proof (find_sub_None _ _ Es) as Hns.
    destruct (u_google_sub e) as [s|] eqn:Eg.
    + assert (Hne : s <> gi_subject identity) by (intros ->; by apply (Hns _ _ He)).
      rewrite bool_decide_false by done. intros [= <- <-]. split; [done|]. intros _. exists (u_id e), e.
      split; [done|]. split; [done|]. rewrite Eg. congruence.
    + intros [= <- <-]. split; [done|]. split.
      * split; [done|]. split; [done|]. split; [done|]. cbn [u_id set_u_display_name set_u_google_sub]. rewrite He. auto.
      * intros k x Hx Hne. cbn in Hne. split; [by eapply Hns|intros E]. apply Hne.
        apply (Huniq k (u_id e) x e Hx He). right. by rewrite E.
  - pose proof (find_sub_None _ _ Es) as Hns. pose proof (find_email_None _ _ Ee) as Hne.
    unfold mbind, uuid4, clock, lift. cbn [w_db w_draws w_now].
    destruct (insert_row _ _ _ _) as [t|x] eqn:Ei.
    + apply insert_row_inv in Ei as (_&Hnone&->). intros [= <- <-]. split; [done|]. split.
      * split; [done|]. split; [done|]. split; [done|]. cbn [u_id]. by rewrite Hnone.
      * intros k x Hx _. split; [by eapply Hns|by eapply Hne].
    + intros [= <- <-]. split; [done|]. intros ->. revert Ei. unfold insert_row. by destruct (users (w_db w) !! _).
Qed.

End AccountLemmas.

(** ** Properties *)

(** C9: What a Google sign-in proves.  From a client that remembers only trusted documents, the
    exchange of a code sends requests to Google's endpoints only, whatever the answers are, and
    remembers only trusted documents again; when it returns an identity, there is an ID token that a
    key published by Google signed for this client, from a Google issuer, with the nonce of this
    transaction, not expired more than a minute before the exchange began, and the identity is the
    token's verified address in an allowed domain. *)
Theorem verified_google_identity `{Unicode} `{GoogleHttpLaws} `{JwtLaws} google code t s r s' :
  google_ok (g_world s) s -> exchange_and_verify google code t s = (r, s') ->
  google_ok (g_world s) s' /\
  forall identity, r = Ok identity ->
    exists id_token claims, token_verified (w_now (g_world s)) google id_token (tx_nonce t) claims /\
      identity_of google claims identity.
Proof.
  intros Hok E. pose proof (holds_exchange (g_world s) google code t s Hok) as [Hs HQ].
  rewrite E in Hs, HQ. by split.
Qed.

(** Provisioning links one account and grants nothing.  It writes exactly the row of the account
    that carries the Google subject or, failing that, the address: an existing account keeps its
    role, source and state, and a new one is a plain user. Subjects, addresses and identifiers stay
    unique, and a refusal changes nothing and happens only because the address belongs to an account
    without this subject. *)
Theorem provision_least_privilege `{Collation} `{Entropy} identity w r w' :
  accounts_ok (w_db w) -> provision_google_user identity w = (r, w') ->
  accounts_ok (w_db w') /\
  match r with
  | Ok u => w_db w' = set_users (<[u_id u := u]> (users (w_db w))) (w_db w) /\ provisioned identity (w_db w) u
  | Raise e => w_db w' = w_db w /\ (e = GoogleOIDCError ->
      exists k x, users (w_db w) !! k = Some x /\ citext_lower (u_email x) = citext_lower (gi_email identity) /\
        u_google_sub x <> Some (gi_subject identity))
  end.
Proof.
  intros Hok E. pose proof (provision_inv identity w r w' Hok E) as Hp. destruct r as [u|e].
  - destruct Hp as (->&Hp&Hother). split; [|done]. apply accounts_put; [done|]. intros k x Hx Hne.
    destruct (Hother k x Hx Hne) as [Hs He]. destruct Hp as (Hu&Hm&_). split; [|congruence].
    intros [_ Heq]. apply Hs. by rewrite Heq.
  - destruct Hp as [-> Hp]. by split.
Qed.

(** A toy signature for evaluation: a token is the key, a dot and the claims. *)
Definition toy_jwt : Jwt := {|
  RSAPublicKey := list Z;
  get_unverified_header _ := Ok [(py "alg", JStr (py "RS256")); (py "kid", JStr (py "k1"))];
  rsa_from_jwk d := match jget "n" d with JStr n => Ok n | _ => Raise ValueError end;
  jwt_decode token key audience issuers leeway _ now :=
    match split_once 46 token with
    | (k, Some text) =>
        match @json_loads ascii_unicode text with
        | Ok (JDict claims) =>
            match jget "iss" claims, jget "aud" claims, jget "exp" claims with
            | JStr i, JStr a, JInt n =>
                if bool_decide (k = key) && bool_decide (i ∈ issuers) && bool_decide (a = audience)
                   && (now <? (n + leeway) * second)
                then Ok claims else Raise InvalidTokenError
            | _, _, _ => Raise InvalidTokenError
            end
        | _ => Raise InvalidTokenError
        end
    | _ => Raise InvalidTokenError
    end;
  signed_by key token claims := exists text, token = key ++ 46 :: text /\ @json_loads ascii_unicode text = Ok (JDict claims);
  expiry claims := match jget "exp" claims with JInt n => n | _ => 0 end;
|}.

Lemma toy_decode_inv token key audience issuers leeway required now claims :
  @jwt_decode toy_jwt token key audience issuers leeway required now = Ok claims ->
  (exists text, token = key ++ 46 :: text /\ @json_loads ascii_unicode text = Ok (JDict claims)) /\
  jget "aud" claims = JStr audience /\ (exists i, jget "iss" claims = JStr i /\ i ∈ issuers) /\
  exists n, jget "exp" claims = JInt n /\ now < (n + leeway) * second.
Proof.
  cbn [jwt_decode toy_jwt]. destruct (split_once 46 token) as [k [text|]] eqn:Es; [|done].
  apply split_once_Some in Es as [-> _]. destruct (@json_loads ascii_unicode text) as [[| | | | | |d]|] eqn:Ej; try done.
  destruct (jget "iss" d) as [| | | |i| |] eqn:Ei; try done. destruct (jget "aud" d) as [| | | |a| |] eqn:Ea; try done.
  destruct (jget "exp" d) as [| |n| | | |] eqn:En; try done. destruct (_ && _ && _ && _) eqn:E; [|done]. intros [= <-].
  rewrite !andb_true_iff, !bool_decide_eq_true in E. destruct E as [[[-> Hi] ->] Hn].
  split; [by exists text|]. split; [done|]. split; [by exists i|]. exists n. split; [done|]. by apply Z.ltb_lt.
Qed.

Lemma jget_str k d s : jget k d = JStr s -> dict_get (py k) d = Some (JStr s).
Proof. unfold jget. destruct (dict_get (py k) d); cbn; [by intros ->|done]. Qed.

#[export] Instance toy_jwt_laws : @JwtLaws toy_jwt.
Proof.
  constructor; intros token key audience issuers leeway required now claims; [| | |intros _];
    intros (Hs&Ha&(i&Hi&Hin)&n&Hn&Hlt)%toy_decode_inv.
  - exact Hs.
  - left. by apply jget_str.
  - exists i. split; [by apply jget_str|done].
  - cbn. by rewrite Hn.
Qed.

Definition oidc_bodies (nonce : pystr) : list json :=
  [JDict [(py "issuer", JStr (py "https://accounts.google.com"));
          (py "authorization_endpoint", JStr (py "https://accounts.google.com/o/oauth2/v2/auth"));
          (py "token_endpoint", JStr (py "https://oauth2.googleapis.com/token"));
          (py "jwks_uri", JStr (py "https://www.googleapis.com/oauth2/v3/certs"))];
   JDict [(py "id_token", JStr (py "key." ++ dumps (JDict
      [(py "iss", JStr (py "accounts.google.com")); (py "aud", JStr (py "client")); (py "exp", JInt 2000000000);
       (py "nonce", JStr nonce); (py "sub", JStr (py "42")); (py "email", JStr (py "Ann@Example.com"));
       (py "email_verified", JBool true); (py "hd", JStr (py "example.com"))])))];
   JDict [(py "keys", JList [JDict [(py "kid", JStr (py "k1")); (py "kty", JStr (py "RSA")); (py "use", JStr (py "sig"));
      (py "alg", JStr (py "RS256")); (py "n", JStr (py "key"))]])]].
Definition oidc_http_for (nonce : pystr) : GoogleHttp := {|
  http_reply n _ := match oidc_bodies nonce !! n with
                    | Some j => Some (mkHttpResponse 200 (dumps j) (Some (py "public, max-age=600")))
                    | None => None
                    end;
  http_latency _ := 1000;
|}.
#[export] Instance oidc_http_laws nonce : @GoogleHttpLaws (oidc_http_for nonce).
Proof. constructor. intros n. cbn. lia. Qed.
Definition oidc_http : GoogleHttp := oidc_http_for (py "nonce").

Definition oidc_google : GoogleOIDC :=
  mkGoogleOIDC (mkOIDCConfiguration (py "client") (py "secret") (py "https://portal/auth/google/callback") [py "example.com"])
    (py "key").
Definition oidc_state : GState := mkGState (mkWorld empty_db empty_db 0 (10 ^ 15)) None None [].
Definition oidc_transaction : OAuthTransaction := mkOAuthTransaction (py "state") (py "nonce") (py "verifier") 0.

Lemma oidc_state_ok : forall `{Unicode} nonce, @google_ok _ (oidc_http_for nonce) (g_world oidc_state) oidc_state.
Proof. intros U nonce. split; [by repeat split|]. split; [constructor|]. by split. Qed.

Lemma verified_google_identity_witness :
  let run := @exchange_and_verify ascii_unicode oidc_http toy_jwt oidc_google (py "code") oidc_transaction oidc_state in
  run.1 = Ok (mkIdentity (py "42") (py "ann@example.com") (py "Ann") (py "example.com")) /\
  exists id_token claims, @token_verified ascii_unicode oidc_http toy_jwt (10 ^ 15) oidc_google id_token (py "nonce") claims.
Proof.
  intros run. assert (Hr : run.1 = Ok (mkIdentity (py "42") (py "ann@example.com") (py "Ann") (py "example.com")))
    by (vm_compute; reflexivity).
  split; [exact Hr|].
  destruct run as [r s'] eqn:E. cbn [fst] in Hr.
  destruct (@verified_google_identity ascii_unicode oidc_http (oidc_http_laws _) toy_jwt toy_jwt_laws oidc_google (py "code")
    oidc_transaction oidc_state r s' (@oidc_state_ok ascii_unicode _) E) as [_ HQ].
  destruct (HQ _ Hr) as (tok&claims&Ht&_). exists tok, claims. exact Ht.
Defined.

Definition linked_user : User :=
  mkUser 7 (py "ANN@example.com") None (py "Ann") None Role_ANALYST true Source_MANUAL 0 None.
Definition link_world : World := mkWorld (set_users {[7 := linked_user]} empty_db) empty_db 0 1000.
Definition ann : GoogleIdentity := mkIdentity (py "42") (py "ann@example.com") (py "Ann") (py "example.com").

Lemma link_world_ok : @accounts_ok ascii_collation (w_db link_world).
Proof.
  split; intros k; cbn [w_db link_world users set_users].
  - by intros u [<- <-]%lookup_singleton_Some.
  - by intros k' u u' [<- <-]%lookup_singleton_Some [<- <-]%lookup_singleton_Some.
Qed.

Lemma provision_least_privilege_witness :
  exists u w', @provision_google_user ascii_collation counting_entropy ann link_world = (Ok u, w') /\
    u_google_sub u = Some (py "42") /\ u_role u = Role_ANALYST /\ @accounts_ok ascii_collation (w_db w').
Proof.
  destruct (@provision_google_user ascii_collation counting_entropy ann link_world) as [r w'] eqn:E.
  destruct (@provision_least_privilege ascii_collation counting_entropy ann link_world r w' link_world_ok E) as [Hok Hp].
  assert (Hr : (@provision_google_user ascii_collation counting_entropy ann link_world).1
    = Ok (set_u_display_name (py "Ann") (set_u_google_sub (Some (py "42")) linked_user))) by (vm_compute; reflexivity).
  rewrite E in Hr. cbn [fst] in Hr. subst r. destruct Hp as (_&Hs&_). eexists _, w'. split; [reflexivity|].
  split; [exact Hs|]. split; [reflexivity|exact Hok].
Defined.
