(* ===== verification/Branding.v ===== *)
(** The organisation's name and logo (app/branding.py): what an uploaded logo must look like, and the
    one row that holds both. *)
From S2P Require Import Prelude PyBase Encoding Hashes Json Models Store.

Definition MAX_LOGO_BYTES : Z := 1024 * 1024.

(** Magic prefix, offset, content type. *)
Definition SIGNATURES : list (bytes * nat * pystr) :=
  [(137 :: py "PNG" ++ [13; 10; 26; 10], 0%nat, py "image/png");
   ([255; 216; 255], 0%nat, py "image/jpeg");
   (py "GIF87a", 0%nat, py "image/gif");
   (py "GIF89a", 0%nat, py "image/gif");
   (py "WEBP", 8%nat, py "image/webp")].

Record OrganisationBranding := mkOrganisationBranding {
  ob_name : option pystr;
  ob_has_logo : bool;
  ob_logo_sha256 : option pystr;
}.
Definition display_name (b : OrganisationBranding) : pystr :=
  match ob_name b with Some (c :: t) => c :: t | _ => py "LeakCheck Hub" end.

Definition signature_matches (data : bytes) (s : bytes * nat * pystr) : bool :=
  let '(prefix, offset, _) := s in bool_decide (take (length prefix) (drop offset data) = prefix).

Definition detect_content_type (data : bytes) : result pystr :=
  if bool_decide (data = []) then Raise LogoRejected
  else if MAX_LOGO_BYTES <? Z.of_nat (length data) then Raise LogoRejected
  else match List.find (signature_matches data) SIGNATURES with
  | Some (_, _, content_type) => Ok content_type
  | None => Raise LogoRejected
  end.

Definition load_branding : M OrganisationBranding :=
  let! d <- get_db;
  mret match branding d with
       | None => mkOrganisationBranding None false None
       | Some row => mkOrganisationBranding (br_organization_name row) (bool_decide (is_Some (br_logo row)))
                       (br_logo_sha256 row)
       end.

Definition load_logo : M (option (bytes * pystr * pystr)) :=
  let! d <- get_db;
  mret match branding d with
       | Some row =>
           match br_logo row with
           | Some logo =>
               Some (logo, match br_logo_content_type row with
                           | Some (c :: t) => c :: t
                           | _ => py "application/octet-stream"
                           end, default [] (br_logo_sha256 row))
           | None => None
           end
       | None => None
       end.

(** The row, created when there is none; [update] stores the changed row and checks it. *)
Definition branding_row : M Branding :=
  let! d <- get_db;
  let! now <- clock;
  mret match branding d with Some row => row | None => mkBranding 1 None None None None now end.
Definition flush_branding (row : Branding) : M unit :=
  if Branding_ok row then modify_db (set_branding (Some row)) else raise IntegrityError.

Definition set_name `{Unicode} (name : option pystr) : M unit :=
  let! row <- branding_row;
  let cleaned := strip (default [] name) in
  flush_branding (set_br_organization_name (if bool_decide (cleaned = []) then None else Some cleaned) row).

Definition set_logo (data : bytes) : M pystr :=
  let! content_type <- lift (detect_content_type data);
  let! row <- branding_row;
  do! flush_branding (set_br_logo_sha256 (Some (sha256_hex data))
        (set_br_logo_content_type (Some content_type) (set_br_logo (Some data) row)));
  mret content_type.

Definition clear_logo : M unit :=
  let! row <- branding_row;
  flush_branding (set_br_logo_sha256 None (set_br_logo_content_type None (set_br_logo None row))).

(** ** Lemmas *)

Lemma detect_content_type_inv data t : detect_content_type data = Ok t ->
  data <> [] /\ Z.of_nat (length data) <= MAX_LOGO_BYTES /\
  exists prefix offset rest, (prefix, offset, t) ∈ SIGNATURES /\ drop offset data = prefix ++ rest.
Proof.
  unfold detect_content_type. destruct (bool_decide (data = [])) eqn:En; [done|]. apply bool_decide_eq_false in En.
  destruct (MAX_LOGO_BYTES <? _) eqn:El; [done|]. apply Z.ltb_ge in El.
  destruct (List.find _ _) as [[[prefix offset] u]|] eqn:Ef; [|done]. intros [= ->].
  apply List.find_some in Ef as [Hin Hm]. apply list_elem_of_In in Hin. unfold signature_matches in Hm.
  apply bool_decide_eq_true in Hm. split; [done|]. split; [done|].
  exists prefix, offset, (drop (length prefix) (drop offset data)). split; [done|].
  by rewrite <- (take_drop (length prefix) (drop offset data)) at 1; rewrite Hm.
Qed.

Lemma flush_branding_inv row w r w' : flush_branding row w = (r, w') ->
  match r with
  | Ok _ => Branding_ok row = true /\ w' = with_db (set_branding (Some row) (w_db w)) w
  | Raise e => e = IntegrityError /\ w' = w
  end.
Proof. unfold flush_branding. destruct (Branding_ok row); by intros [= <- <-]. Qed.

(** ** Properties *)

(** A stored logo is the uploaded one.  An upload that is accepted is not empty, at most a
    megabyte and carries the signature of the image type it is given; until the next change the logo
    route serves exactly those octets with that type and their SHA-256 digest, also when the name is
    changed, and nothing once the logo is cleared. An upload that is refused changes nothing. *)
Theorem stored_logo_is_uploaded `{Unicode} data w r w' :
  set_logo data w = (r, w') ->
  match r with
  | Ok content_type =>
      data <> [] /\ Z.of_nat (length data) <= MAX_LOGO_BYTES /\
      (exists prefix offset rest, (prefix, offset, content_type) ∈ SIGNATURES /\ drop offset data = prefix ++ rest) /\
      load_logo w' = (Ok (Some (data, content_type, sha256_hex data)), w') /\
      (forall name x w1, set_name name w' = (x, w1) ->
         load_logo w1 = (Ok (Some (data, content_type, sha256_hex data)), w1)) /\
      (forall w1, clear_logo w' = (Ok tt, w1) -> load_logo w1 = (Ok None, w1))
  | Raise e => w' = w /\ (e = LogoRejected \/ e = IntegrityError)
  end.
Proof.
  unfold set_logo. unfold mbind at 1, lift. destruct (detect_content_type data) as [t|e] eqn:Ed.
  2: { intros [= <- <-]. split; [done|]. left. unfold detect_content_type in Ed. repeat case_match; congruence. }
  unfold branding_row. unfold mbind at 1, get_db, clock, mbind at 1, mbind at 1, mret at 1. set (row := match branding (w_db w) with Some _ => _ | None => _ end).
  unfold mbind. destruct (flush_branding _ w) as [[[]|e] w1] eqn:Ef; apply flush_branding_inv in Ef.
  2: { destruct Ef as [-> ->]. intros [= <- <-]. split; [done|by right]. }
  destruct Ef as [Hok ->]. intros [= <- <-]. apply detect_content_type_inv in Ed as (Hn&Hl&p&o&rest&Hs&Hd).
  split; [done|]. split; [done|]. split; [by exists p, o, rest|].
  assert (Ht : exists c u, t = c :: u).
  { unfold SIGNATURES in Hs. rewrite !elem_of_cons, elem_of_nil in Hs.
    destruct Hs as [[= _ _ ->]|[[= _ _ ->]|[[= _ _ ->]|[[= _ _ ->]|[[= _ _ ->]|[]]]]]]; vm_compute; by eexists _, _. }
  destruct Ht as (c&u&->).
  split; [done|]. split.
  - intros name x w1. unfold set_name, branding_row, mbind, get_db, clock, mret. cbn [w_db with_db branding set_branding].
    destruct (flush_branding _ _) as [y w2] eqn:Ef. apply flush_branding_inv in Ef. intros [= <- <-].
    destruct y as [[]|e]; [destruct Ef as [_ ->]|destruct Ef as [_ ->]]; done.
  - intros w1. unfold clear_logo, branding_row, mbind, get_db, clock, mret. cbn [w_db with_db branding set_branding].
    intros [_ ->]%flush_branding_inv. done.
Qed.

(** Text with a marker in the right place passes for an image. *)
Example webp_marker_is_enough : detect_content_type (py "<script>WEBP</script>") = Ok (py "image/webp").
Proof. vm_compute. reflexivity. Qed.

Definition logo_world : World := mkWorld empty_db empty_db 0 1000.

Lemma stored_logo_is_uploaded_witness :
  let run := set_logo (py "GIF89a...") logo_world in
  load_logo run.2 = (Ok (Some (py "GIF89a...", py "image/gif", sha256_hex (py "GIF89a..."))), run.2).
Proof.
  intros run. assert (Hr : run.1 = Ok (py "image/gif")) by (vm_compute; reflexivity).
  destruct run as [r w'] eqn:E. cbn [fst snd] in *. subst r.
  exact (proj1 (proj2 (proj2 (proj2 (@stored_logo_is_uploaded ascii_unicode _ _ _ _ E))))).
Defined.
