(* ===== verification/SignIn.v ===== *)
(** The sign-in routes (app/routers/auth.py): the Google flow, local sign-in, one-time-code
    enrolment, password change, sign-out and the landing page. *)
From S2P Require Import Prelude PyBase Encoding Hashes Json Models Store Config Aead PlatformSettings.
From S2P Require Import IpAddress Session Csrf Access LocalAuth OAuth Google Web Branding.

Definition MAX_LOCAL_LOGIN_BODY_BYTES : Z := 4096.

(** What [app.state] holds for these routes. *)
Record PortalState := mkPortalState {
  po_settings : Settings;
  po_sessions : SessionManager;
  po_csrf : CSRFProtector;
  po_local : LocalAuthenticator;
  po_store : PlatformSettingsStore;
  po_google : option GoogleOIDC;
}.

Definition session_cookie (r : WebRequest) : option pystr := wr_cookies r !! SESSION_COOKIE_NAME.

Definition clear_transaction_cookie : Cookie :=
  mkCookie OAUTH_TRANSACTION_COOKIE_NAME [] (Some 0) (py "/") true true (py "lax").
Definition authentication_failed (status : Z) : WebResponse :=
  mkWebResponse status (B_text (py "Google authentication failed.")) [no_store] [clear_transaction_cookie].
Definition local_authentication_failed : WebResponse :=
  mkWebResponse 401 (B_text (py "Local authentication failed.")) [no_store] [].

Section SignIn.
Context `{Unicode} `{Collation} `{Argon2} `{Aead} `{Entropy} `{GoogleHttp} `{Jwt}.

Definition audit (po : PortalState) (r : WebRequest) (action : string) (actor_id : option uuid)
    (target_type target_id : option pystr) (meta : list (pystr * json)) : M unit :=
  let! _ <- audit_event (wr_client_host r) (po_settings po) (py action) actor_id target_type target_id meta;
  mret tt.
Definition audit_user (po : PortalState) (r : WebRequest) (action : string) (user_id : uuid) : M unit :=
  audit po r action (Some user_id) (Some (py "user")) (Some (uuid_str user_id)) [].

(** ** Google *)

Definition OIDC_KEYS : list SettingKey :=
  [GOOGLE_CLIENT_ID; GOOGLE_CLIENT_SECRET; GOOGLE_REDIRECT_URI; GOOGLE_WORKSPACE_DOMAINS].

Definition load_google_oidc (po : PortalState) : M (option GoogleOIDC) :=
  let! values <- read_many (po_store po) OIDC_KEYS;
  match values_get GOOGLE_CLIENT_ID values, values_get GOOGLE_CLIENT_SECRET values,
        values_get GOOGLE_REDIRECT_URI values, values_get GOOGLE_WORKSPACE_DOMAINS values with
  | Some client_id, Some client_secret, Some redirect_uri, Some domains =>
      let! allowed <- lift (decode_domains domains);
      let! google <- lift (new_google_oidc (po_settings po)
                             (mkOIDCConfiguration client_id client_secret redirect_uri allowed));
      mret (Some google)
  | _, _, _, _ => mret None
  end.

Definition configured_google_oidc (po : PortalState) : M (option GoogleOIDC) :=
  match po_google po with Some google => mret (Some google) | None => load_google_oidc po end.

Definition google_error (e : exn) : bool := bool_decide (e = GoogleOIDCError).

Definition unconfigured (po : PortalState) (r : WebRequest) : G WebResponse :=
  do! on_world (audit po r "auth.google_failed" None None None [(py "reason", JStr (py "unconfigured"))]);
  mret (authentication_failed 503).

Definition start_google_login (po : PortalState) (r : WebRequest) : G WebResponse :=
  let! google <- on_world (configured_google_oidc po);
  match google with
  | None => unconfigured po r
  | Some google =>
      let! transaction <- on_world (create_transaction None);
      let! url <- try_except (let! u <- authorization_url google transaction; mret (Some u)) google_error
                    (fun _ => do! on_world (audit po r "auth.google_failed" None None None []); mret None);
      match url with
      | None => mret (authentication_failed 503)
      | Some authorization_url =>
          do! on_world (audit po r "auth.google_started" None None None []);
          let! value <- lift (transaction_cookie google transaction);
          let! now <- on_world clock;
          let response := redirect authorization_url
            [mkCookie OAUTH_TRANSACTION_COOKIE_NAME value
               (Some (tx_expires_at transaction - timestamp_seconds now)) (py "/") true true (py "lax")] in
          mret (mkWebResponse (ws_status response) (ws_body response) (ws_headers response ++ [no_store])
                  (ws_cookies response))
      end
  end.

(** The parameters of the callback. *)
Record Callback := mkCallback { cb_code : option pystr; cb_state : option pystr; cb_error : option pystr }.

(** The exchange to run, when the browser's transaction and the callback agree. *)
Definition callback_code (r : WebRequest) (cb : Callback) (transaction : option OAuthTransaction)
  : result (option (pystr * OAuthTransaction * pystr)) :=
  match cb_error cb, transaction, cb_state cb, cb_code cb with
  | None, Some t, Some state, Some code =>
      if negb (isascii state) || negb (length state =? length (tx_state t))%nat then Ok None
      else
        try! a <- ascii_encode state;
        try! b <- ascii_encode (tx_state t);
        if compare_digest a b then Ok match wr_client_host r with
                                      | Some host => Some (code, t, host)
                                      | None => None
                                      end
        else Ok None
  | _, _, _, _ => Ok None
  end.

(** Revoke the browser's previous session and issue one to the user. *)
Definition rotate_session (po : PortalState) (r : WebRequest) (host : pystr) (user : User) : M IssuedSession :=
  let! _ <- revoke (session_cookie r) None;
  let! issued <- issue (po_sessions po) (u_id user) host (wr_headers r !! py "user-agent") None;
  let! now <- clock;
  do! put_user (set_u_last_login_at (Some now) user);
  mret issued.

Definition signed_in (po : PortalState) (issued : IssuedSession) (more : list Cookie) : M WebResponse :=
  let! session <- set_cookie issued None;
  let! csrf <- issue_csrf (po_csrf po) (Some (is_token issued));
  mret (mkWebResponse 303 (B_text []) [(py "location", py "/"); no_store] (session :: csrf.1 :: more)).

(** [None] refuses an inactive account. *)
Definition exchange_and_sign_in (po : PortalState) (r : WebRequest) (google : GoogleOIDC) (code : pystr)
    (t : OAuthTransaction) (host : pystr) : G (option IssuedSession) :=
  let! identity <- exchange_and_verify google code t;
  let! user <- on_world (provision_google_user identity);
  if negb (u_is_active user) then mret None
  else
    let! issued <- on_world (rotate_session po r host user);
    do! on_world (audit_user po r "auth.google_succeeded" (u_id user));
    mret (Some issued).

Definition finish_google_login (po : PortalState) (r : WebRequest) (cb : Callback) : G WebResponse :=
  let! google <- on_world (configured_google_oidc po);
  match google with
  | None => unconfigured po r
  | Some google =>
      let! transaction <- on_world (read_transaction_cookie google
                                      (wr_cookies r !! OAUTH_TRANSACTION_COOKIE_NAME) None);
      let! exchange <- lift (callback_code r cb transaction);
      match exchange with
      | None =>
          do! on_world (audit po r "auth.google_failed" None None None []);
          mret (authentication_failed 400)
      | Some (code, t, host) =>
          let! outcome <- try_except (let! i <- exchange_and_sign_in po r google code t host; mret (inr i))
                            google_error
                            (fun _ => do! on_world (audit po r "auth.google_failed" None None None []);
                                      mret (inl (authentication_failed 400)));
          match outcome with
          | inl response => mret response
          | inr None => mret (authentication_failed 403)
          | inr (Some issued) => on_world (signed_in po issued [clear_transaction_cookie])
          end
      end
  end.

(** ** Local sign-in *)

(** [None] for a body that is too large or a [Content-Length] that says so. *)
Definition content_length_ok (limit : Z) (r : WebRequest) : bool :=
  match wr_headers r !! py "content-length" with
  | None => true
  | Some text => match py_int text with Ok n => n <=? limit | Raise _ => false end
  end.

Definition decode_error (e : exn) : bool :=
  match e with UnicodeDecodeError | JSONDecodeError => true | _ => false end.

Definition read_local_login_credentials (r : WebRequest) : result (option (pystr * pystr * option pystr)) :=
  if negb (content_length_ok MAX_LOCAL_LOGIN_BODY_BYTES r) then Ok None
  else if MAX_LOCAL_LOGIN_BODY_BYTES <? Z.of_nat (length (wr_body r)) then Ok None
  else match json_loads_bytes (wr_body r) with
  | Raise e => if decode_error e then Ok None else Raise e
  | Ok (JDict d) =>
      match dict_get (py "username") d, dict_get (py "password") d with
      | Some username, Some password =>
          if negb (forallb (fun k => bool_decide (k ∈ [py "username"; py "password"; py "totp_code"])) d.*1)
          then Ok None
          else
            let totp_code := jget "totp_code" d in
            match username, password with
            | JStr username, JStr password =>
                match utf8_encode password with
                | Raise UnicodeEncodeError => Ok None
                | Raise e => Raise e
                | Ok octets =>
                    if (255 <? length username)%nat || (1024 <? length octets)%nat then Ok None
                    else if json_truthy totp_code then
                      match totp_code with
                      | JStr code => Ok (if (16 <? length code)%nat then None
                                         else Some (username, password, Some code))
                      | _ => Ok None
                      end
                    else Ok (Some (username, password, None))
                end
            | _, _ => Ok None
            end
      | _, _ => Ok None
      end
  | Ok _ => Ok None
  end.

Definition finish_local_login (po : PortalState) (r : WebRequest) : M WebResponse :=
  let failed := do! audit po r "auth.local_failed" None None None []; mret local_authentication_failed in
  let! credentials <- lift (read_local_login_credentials r);
  match credentials, wr_client_host r with
  | Some (username, password, totp_code), Some host =>
      let! user <- authenticate (po_local po) username password totp_code host None;
      match user with
      | None => failed
      | Some user =>
          let! issued <- rotate_session po r host user;
          do! audit_user po r "auth.local_succeeded" (u_id user);
          signed_in po issued []
      end
  | _, _ => failed
  end.

(** ** The signed-in user's own account *)

Definition logout (po : PortalState) (r : WebRequest) (current_user : User) : M WebResponse :=
  let! _ <- revoke (session_cookie r) None;
  do! audit_user po r "auth.logout" (u_id current_user);
  mret (mkWebResponse 204 (B_text []) [no_store] [clear_cookie]).


(** The pending seed: stored one, or a new one that is stored. *)
Definition pending_secret (po : PortalState) (current_user : User) (credential : AdminCredential) : M pystr :=
  match ac_totp_secret_enc credential with
  | None =>
      let! secret <- generate_totp_secret;
      let! encrypted <- encrypt_totp_secret (po_settings po) (u_id current_user) secret;
      do! put_credential (set_ac_totp_secret_enc (Some encrypted) credential);
      mret secret
  | Some encrypted => lift (decrypt_totp_secret (po_settings po) (u_id current_user) encrypted)
  end.

Definition mfa_setup_page (po : PortalState) (current_user : User) : M WebResponse :=
  let! d <- get_db;
  match admin_credentials d !! u_id current_user with
  | None => mret (mkWebResponse 400 (B_text (py "MFA is managed by your sign-in provider.")) [] [])
  | Some credential =>
      match ac_totp_enabled_at credential with
      | Some _ => mret (html_response 200 (B_page "MFA is enabled" []) [])
      | None =>
          let! secret <- try_except (let! s <- pending_secret po current_user credential; mret (Some s))
                           (fun e => bool_decide (e = LocalAuthenticationError)) (fun _ => mret None);
          match secret with
          | None => mret (mkWebResponse 500 (B_text (py "MFA setup could not be initialized.")) [] [])
          | Some secret =>
              let! uri <- lift (build_totp_provisioning_uri (u_email current_user) secret);
              mret (html_response 200 (B_page "Set up MFA" [uri; secret]) [])
          end
      end
  end.

Definition read_mfa_code (r : WebRequest) : result (option pystr) :=
  match json_loads_bytes (wr_body r) with
  | Raise e => if decode_error e then Ok None else Raise e
  | Ok (JDict [(k, JStr code)]) =>
      Ok (if bool_decide (k = py "totp_code") && (length code <=? 16)%nat then Some code else None)
  | Ok _ => Ok None
  end.

Definition not_ready : WebResponse := json_response 400 (detail "MFA setup is not ready.").

Definition enable_mfa (po : PortalState) (r : WebRequest) (current_user : User) : M WebResponse :=
  let! code <- lift (read_mfa_code r);
  let! d <- get_db;
  match admin_credentials d !! u_id current_user with
  | None => mret not_ready
  | Some credential =>
      match ac_totp_secret_enc credential, code with
      | Some encrypted, Some code =>
          match decrypt_totp_secret (po_settings po) (u_id current_user) encrypted with
          | Raise LocalAuthenticationError => mret not_ready
          | Raise e => raise e
          | Ok secret =>
              let! now <- clock;
              let! accepted <- lift (verify_totp secret code now);
              if negb accepted
              then mret (json_response 422 (detail "The authenticator code was not accepted."))
              else
                do! put_credential (set_ac_totp_enabled_at (Some now) credential);
                do! audit_user po r "auth.mfa_enabled" (u_id current_user);
                mret (json_response 200 (JDict [(py "enabled", JBool true)]))
          end
      | _, _ => mret not_ready
      end
  end.

Definition profile_page (current_user : User) : M WebResponse :=
  let! d <- get_db;
  match admin_credentials d !! u_id current_user with
  | Some credential =>
      if bool_decide (u_role current_user = Role_SUPER_ADMIN)
      then mret (html_response 200 (B_page "Profile" [u_email current_user;
             if bool_decide (is_Some (ac_totp_enabled_at credential)) then py "Enabled" else py "Not enabled"]) [])
      else mret (mkWebResponse 400 (B_text (py "Profile security is managed by your sign-in provider.")) [] [])
  | None => mret (mkWebResponse 400 (B_text (py "Profile security is managed by your sign-in provider.")) [] [])
  end.

(** The three texts of a password change, in the order current, new, confirmation. *)
Definition read_password_change (r : WebRequest) : result (option (pystr * pystr * pystr)) :=
  if MAX_LOCAL_LOGIN_BODY_BYTES <? Z.of_nat (length (wr_body r)) then Ok None
  else match json_loads_bytes (wr_body r) with
  | Raise e => if decode_error e then Ok None else Raise e
  | Ok (JDict d) =>
      if negb (length d =? 3)%nat then Ok None
      else match dict_get (py "current_password") d, dict_get (py "new_password") d,
                 dict_get (py "confirmation") d with
      | Some (JStr c), Some (JStr n), Some (JStr f) =>
          Ok (if forallb (fun s => match utf8_encode s with Ok b => (length b <=? 1024)%nat | Raise _ => false end)
                   [c; n; f]
              then Some (c, n, f) else None)
      | _, _, _ => Ok None
      end
  | Ok _ => Ok None
  end.

Definition change_password (po : PortalState) (r : WebRequest) (current_user : User) : M WebResponse :=
  let! passwords <- lift (read_password_change r);
  match passwords with
  | None => mret (json_response 400 (detail "Invalid password change request."))
  | Some (current_password, new_password, confirmation) =>
      let refused := json_response 422 (detail "Current password was not accepted.") in
      let! d <- get_db;
      match admin_credentials d !! u_id current_user with
      | None => mret refused
      | Some credential =>
          let! known <- lift (verify_password (ac_password_hash credential) current_password);
          if negb known then mret refused
          else if negb (bool_decide (new_password = confirmation))
          then mret (json_response 422 (detail "New passwords do not match."))
          else
            let! hashed <- try_except (let! h <- hash_password new_password; mret (Some h))
                             (fun e => bool_decide (e = LocalAuthenticationError)) (fun _ => mret None);
            match hashed with
            | None => mret (json_response 422 (detail "New password must contain at least 15 valid characters."))
            | Some h =>
                do! put_credential (set_ac_password_hash h credential);
                do! audit_user po r "auth.password_changed" (u_id current_user);
                mret (json_response 200 (JDict [(py "changed", JBool true)]))
            end
      end
  end.

(** ** Public pages *)

Definition role_home (role : UserRole) : pystr :=
  match role with
  | Role_SUPER_ADMIN => py "/admin/settings"
  | Role_ANALYST => py "/analyst"
  | Role_USER => py "/portal"
  end.

Definition landing_page (po : PortalState) (r : WebRequest) : M WebResponse :=
  let! verified <- verify (po_sessions po) (session_cookie r) None;
  match verified with
  | Some v => mret (redirect (role_home (u_role (vs_user v))) [])
  | None =>
      let! brand <- load_branding;
      mret (html_response 200 (B_page "Sign in" [display_name brand; default [] (ob_logo_sha256 brand)]) [])
  end.

Definition issue_csrf_token (po : PortalState) (r : WebRequest) : M WebResponse :=
  let! csrf <- issue_csrf (po_csrf po) (session_cookie r);
  mret (mkWebResponse 204 (B_text []) [no_store] [csrf.1]).

Definition branding_logo (r : WebRequest) : M WebResponse :=
  let! stored <- load_logo;
  match stored with
  | None => mret (mkWebResponse 404 (B_text []) [] [])
  | Some (data, content_type, digest) =>
      let etag := if bool_decide (digest = []) then None else Some (34 :: digest ++ [34]) in
      let etag_header := match etag with Some e => [(py "ETag", e)] | None => [] end in
      if match etag with Some e => bool_decide (wr_headers r !! py "if-none-match" = Some e) | None => false end
      then mret (mkWebResponse 304 (B_text []) etag_header [])
      else mret (mkWebResponse 200 (B_bytes data content_type)
             ([(py "Cache-Control", py "public, max-age=0, must-revalidate");
               (py "Content-Security-Policy", py "default-src 'none'; sandbox");
               (py "X-Content-Type-Options", py "nosniff")] ++ etag_header) [])
  end.

End SignIn.

(** ** Lemmas: the pieces of a sign-in *)

Lemma on_world_inv {A} (c : M A) s r s' : on_world c s = (r, s') ->
  exists w, c (g_world s) = (r, w) /\ s' = mkGState w (g_metadata_cache s) (g_jwks_cache s) (g_sent s).
Proof. unfold on_world. destruct (c (g_world s)) as [r0 w]. intros [= <- <-]. by exists w. Qed.

Section SignInLemmas.
Context `{Unicode} `{Collation} `{Argon2} `{Aead} `{Entropy} `{GoogleHttpLaws} `{JwtLaws}.

(** The client may run in any world: what it remembers is trusted. *)
Lemma google_ok_rebase start s w : google_ok start s ->
  google_ok w (mkGState w (g_metadata_cache s) (g_jwks_cache s) (g_sent s)).
Proof using Type. intros (_&Hs&Hm&Hj). split; [split; [done|split; [done|]]; cbn; lia|done]. Qed.

Lemma configured_world po w r w' : configured_google_oidc po w = (r, w') -> w' = w.
Proof using Type.
  unfold configured_google_oidc, load_google_oidc. destruct (po_google po); [by intros [= <- <-]|].
  unfold mbind at 1. destruct (read_many (po_store po) OIDC_KEYS w) as [rv w1] eqn:Er.
  apply read_many_world in Er as ->. destruct rv as [values|]; [|by intros [= <- <-]].
  repeat (match goal with |- context [match values_get ?k values with _ => _ end] =>
    destruct (values_get k values) end; [|by intros [= <- <-]]).
  unfold mbind, lift. destruct (decode_domains _); [|by intros [= <- <-]].
  destruct (new_google_oidc _ _); by intros [= <- <-].
Qed.

Lemma keeps_audit {T} (part : Db -> T) po r action actor tt_ ti meta :
  (forall d l, part (set_audit_log l d) = part d) -> keeps part (audit po r action actor tt_ ti meta).
Proof using Type. intros Hp. unfold audit, audit_event. frame. apply keeps_modify. intros d. apply Hp. Qed.

Lemma audit_inv po r action actor tt_ ti meta w x w' : audit po r action actor tt_ ti meta w = (x, w') ->
  sessions (w_db w') = sessions (w_db w) /\ users (w_db w') = users (w_db w) /\
  admin_credentials (w_db w') = admin_credentials (w_db w).
Proof using Type.
  intros E. assert (Hk : forall T (part : Db -> T), (forall d l, part (set_audit_log l d) = part d) ->
    part (w_db w') = part (w_db w)).
  { intros T part Hp. pose proof (keeps_audit part po r action actor tt_ ti meta Hp w) as [Hk _]. by rewrite E in Hk. }
  split; [|split]; by apply Hk.
Qed.

(** What one audit record changes. *)
Definition audited (action : string) (actor : option uuid) (tt_ ti : option pystr) (meta : list (pystr * json))
    (at_ : instant) (d d' : Db) : Prop :=
  exists e, d' = set_audit_log (audit_log d ++ [e]) d /\ al_action e = py action /\ al_actor_id e = actor /\
    al_target_type e = tt_ /\ al_target_id e = ti /\ al_meta e = meta /\ al_at e = at_.
Lemma audit_db po r action actor tt_ ti meta w x w' : audit po r action actor tt_ ti meta w = (x, w') ->
  w_committed w' = w_committed w /\ w_now w' = w_now w /\
  match x with
  | Ok _ => audited action actor tt_ ti meta (w_now w) (w_db w) (w_db w')
  | Raise _ => w_db w' = w_db w
  end.
Proof using Type.
  unfold audit, audit_event, mbind, lift, uuid4, clock, get_db.
  destruct (utf8_encode (session_secret (po_settings po))) as [secret|e]; [|by intros [= <- <-]]. cbn [w_db w_now].
  destruct (_ && _); unfold modify_db, mret, raise, with_db; intros [= <- <-]; [|done].
  split; [done|]. split; [done|]. eexists. split; [reflexivity|done].
Qed.

Lemma audit_inv_db po r action actor tt_ ti meta w x w' : audit po r action actor tt_ ti meta w = (x, w') ->
  findings (w_db w') = findings (w_db w).
Proof using Type.
  intros E. pose proof (keeps_audit findings po r action actor tt_ ti meta (fun _ _ => eq_refl) w) as [Hk _]. by rewrite E in Hk.
Qed.

(** After a revocation that returns, the browser's session is revoked; others persist. *)
Lemma revoked_after manager token w b w' :
  sessions_wf manager (w_db w) -> revoke token None w = (Ok b, w') ->
  users (w_db w') = users (w_db w) /\ admin_credentials (w_db w') = admin_credentials (w_db w) /\
  sessions_wf manager (w_db w') /\ (forall h, sessions (w_db w') !! h = None <-> sessions (w_db w) !! h = None) /\
  forall h s0, sessions (w_db w) !! h = Some s0 -> exists s1, sessions (w_db w') !! h = Some s1 /\ persists s0 s1 /\
    (forall t, token = Some t -> token_pattern t = true -> h = sha256 t -> is_Some (se_revoked_at s1)).
Proof using Type.
  intros Hwf E. pose proof (revoke_inv token None w (Ok b) w' E) as Hr. destruct b.
  - destruct Hr as (t&at_&s&->&Hs&->). cbn [w_db with_db sessions users admin_credentials set_sessions].
    destruct (Hwf _ _ Hs) as [Hid Hsw]. split; [done|]. split; [done|]. split.
    { intros h x. cbn. intros [[<- <-]|[_ Hx]]%lookup_insert_Some; [done|by apply Hwf]. }
    split.
    { intros h. rewrite lookup_insert_None. split; [by intros [? _]|]. intros Hn. split; [done|]. intros <-. congruence. }
    intros h s0 Hs0. destruct (decide (se_id_hash s = h)) as [<-|Hne].
    + rewrite lookup_insert_eq. eexists. split; [reflexivity|]. rewrite Hid, Hs in Hs0. injection Hs0 as <-.
      split; [|by intros; eexists]. split; [done|]. split; [done|]. intros _. by eexists.
    + rewrite lookup_insert_ne by done. exists s0. split; [done|]. split; [apply persists_refl|].
      intros t' [= <-] _ ->. by destruct Hne.
  - subst w'. split; [done|]. split; [done|]. split; [done|]. split; [done|]. intros h s0 Hs0. exists s0. split; [done|].
    split; [apply persists_refl|]. intros t -> Ht ->. revert E. unfold revoke, mbind at 1, lift at 1.
    rewrite (validated_token t Ht). unfold mbind at 1, get_db. rewrite Hs0.
    destruct (bool_decide _) eqn:Eb; [by apply bool_decide_eq_true in Eb|].
    unfold mbind, utc_now_m, put_session, modify_db, mret. by destruct (utc_now _ _).
Qed.

(** One session is new and the user's; the browser's own is revoked; every other goes on. *)
Definition session_rotated (r : WebRequest) (user : uuid) (token : pystr) (d d' : Db) : Prop :=
  sessions d !! sha256 token = None /\
  (exists s, sessions d' !! sha256 token = Some s /\ se_user_id s = user /\ se_revoked_at s = None) /\
  (forall h, h <> sha256 token -> sessions d' !! h = None <-> sessions d !! h = None) /\
  forall h s0, sessions d !! h = Some s0 -> exists s1, sessions d' !! h = Some s1 /\ persists s0 s1 /\
    (forall t, session_cookie r = Some t -> token_pattern t = true -> h = sha256 t -> is_Some (se_revoked_at s1)).

Lemma rotate_session_inv po r host user w issued w' :
  sessions_wf (po_sessions po) (w_db w) -> rotate_session po r host user w = (Ok issued, w') ->
  session_rotated r (u_id user) (is_token issued) (w_db w) (w_db w') /\
  admin_credentials (w_db w') = admin_credentials (w_db w) /\
  exists at_, users (w_db w') = <[u_id user := set_u_last_login_at (Some at_) user]> (users (w_db w)).
Proof using Type.
  unfold rotate_session. intros Hwf (b&w1&E1&E)%mbind_inv.
  destruct (revoked_after _ _ _ _ _ Hwf E1) as (Hu&Hc&Hwf1&Hnone&Hr).
  apply mbind_inv in E as (i&w2&E2&E). apply issue_inv in E2 as (at_&iph&uah&_&_&->&Hnew&Hdb&_).
  unfold mbind, clock, put_user, modify_db, mret, with_db in E. injection E as <- <-.
  cbn [w_db is_token]. rewrite Hdb. cbn [users sessions set_users set_sessions admin_credentials]. rewrite Hu, Hc.
  split; [|split; [done|]; eexists; reflexivity]. unfold session_rotated. cbn [sessions set_users set_sessions].
  split; [by apply Hnone|]. split; [rewrite lookup_insert_eq; eexists; split; [reflexivity|done]|]. split.
  - intros h Hh. rewrite lookup_insert_ne by (intros E; by apply Hh). apply Hnone.
  - intros h s0 Hs0. rewrite lookup_insert_ne; [by apply Hr|]. intros <-.
    apply Hnone in Hnew. congruence.
Qed.

Lemma signed_in_inv po issued more w resp w' : signed_in po issued more w = (Ok resp, w') ->
  ws_status resp = 303 /\ w_db w' = w_db w /\
  exists c cs, ws_cookies resp = c :: cs /\ ck_key c = SESSION_COOKIE_NAME /\ ck_value c = is_token issued.
Proof using Type.
  unfold signed_in, set_cookie, issue_csrf, token_urlsafe, mbind, utc_now_m, token_bytes, lift, mret.
  cbn. destruct (signature _ _ _); [|done]. intros [= <- <-]. cbn. split; [done|]. split; [done|].
  eexists _, _. by split.
Qed.

(** The callback that starts an exchange presents the state of the browser's own transaction. *)
Lemma callback_code_inv r cb transaction code t host :
  callback_code r cb transaction = Ok (Some (code, t, host)) ->
  cb = mkCallback (Some code) (Some (tx_state t)) None /\ transaction = Some t /\ wr_client_host r = Some host.
Proof using Type.
  unfold callback_code. destruct cb as [code0 state0 [err|]]; cbn; [done|].
  destruct transaction as [t0|]; [|done]. destruct state0 as [st|]; [|done]. destruct code0 as [c|]; [|done].
  destruct (_ || _); [done|]. unfold ascii_encode, compare_digest. destruct (isascii st); [|done]. cbn [rbind].
  destruct (isascii (tx_state t0)); [|done]. cbn [rbind]. destruct (bool_decide _) eqn:Eb; [|done].
  apply bool_decide_eq_true in Eb. destruct (wr_client_host r) as [h|]; [|done]. intros [= <- <- <-]. by subst.
Qed.

(** Nothing after the provisioning raises the exception that the callback handles. *)
Lemma audit_no_google po r action actor tt_ ti meta :
  raises (fun e => e <> GoogleOIDCError) (audit po r action actor tt_ ti meta).
Proof using Type. unfold audit, audit_event. raises. Qed.
Lemma rotate_no_google po r host user : raises (fun e => e <> GoogleOIDCError) (rotate_session po r host user).
Proof using Type.
  unfold rotate_session, revoke, issue, put_session, put_user, token_urlsafe, validated_token_hash, token_hash, metadata_hash,
    ascii_encode, canonical_ip. raises.
  intros e He ->. pose proof (value_errors_ip host) as Hv. by rewrite He in Hv.
Qed.

(** What the sign-in that a callback started has verified. *)
Definition google_gates (start : World) (google : GoogleOIDC) (t : OAuthTransaction) (user : User) : Prop :=
  exists id_token claims identity, token_verified (w_now start) google id_token (tx_nonce t) claims /\
    identity_of google claims identity /\ provisioned identity (w_db start) user /\ u_is_active user = true.

Lemma exchange_and_sign_in_inv po r google code t host s x s' :
  google_ok (g_world s) s -> accounts_ok (w_db (g_world s)) -> sessions_wf (po_sessions po) (w_db (g_world s)) ->
  exchange_and_sign_in po r google code t host s = (x, s') ->
  match x with
  | Ok (Some issued) => exists user, google_gates (g_world s) google t user /\
      session_rotated r (u_id user) (is_token issued) (w_db (g_world s)) (w_db (g_world s'))
  | Ok None => sessions (w_db (g_world s')) = sessions (w_db (g_world s))
  | Raise e => e = GoogleOIDCError -> sessions (w_db (g_world s')) = sessions (w_db (g_world s))
  end.
Proof using Type*.
  intros Hok Hacc Hwf. unfold exchange_and_sign_in, mbind at 1.
  pose proof (holds_exchange (g_world s) google code t s Hok) as [((Hdb&_)&_) HQ].
  destruct (exchange_and_verify google code t s) as [[identity|e] s1] eqn:E1; cbn [fst snd] in *;
    [|intros [= <- <-] _; by rewrite Hdb].
  destruct (HQ identity eq_refl) as (id_token&claims&Hv&Hid). unfold mbind at 1, on_world at 1.
  destruct (provision_google_user identity (g_world s1)) as [rp w2] eqn:E2.
  apply provision_inv in E2; [|by rewrite Hdb]. rewrite Hdb in E2.
  destruct rp as [user|e]; [|destruct E2 as [E2 _]; intros [= <- <-] _; cbn; by rewrite E2].
  destruct E2 as (Hw2&Hp&_). cbn iota beta. destruct (u_is_active user) eqn:Ha; cbn [negb].
  2: { intros [= <- <-]. cbn. by rewrite Hw2. }
  unfold mbind at 1, on_world at 1. cbn [g_world].
  destruct (rotate_session po r host user w2) as [[issued|e] w3] eqn:E3.
  - apply rotate_session_inv in E3 as (Hr&_&_); [|by rewrite Hw2].
    unfold mbind, on_world, audit_user. cbn [g_world].
    destruct (audit _ _ _ _ _ _ _ w3) as [[u|e] w4] eqn:E4; intros [= <- <-].
    + exists user. split; [by exists id_token, claims, identity|]. apply audit_inv in E4 as [E4 _].
      unfold session_rotated in *. cbn [g_world]. rewrite E4. rewrite Hw2 in Hr. exact Hr.
    + intros ->. by destruct (raises_inv _ _ _ _ _ (audit_no_google _ _ _ _ _ _ _) E4).
  - intros [= <- <-] ->. by destruct (raises_inv _ _ _ _ _ (rotate_no_google _ _ _ _) E3).
Qed.

End SignInLemmas.

(** ** Properties *)

(** C7: Only the browser that began a Google sign-in finishes it.  Of a client that remembers only
    trusted documents, a callback answered 303 had no error, carried the state of the transaction in
    this browser's cookie, authentic under the key of the configured client and not expired; the
    code was exchanged for an ID token verified for that transaction; its identity is the account's,
    which is active; then one new session is that account's, the answer sets it, the browser's
    previous session is revoked and every other one goes on. Every other answer is 400, 403 or 503 and leaves the
    table of sessions as it was. *)
Theorem google_callback_gates `{Unicode} `{Collation} `{Aead} `{Entropy} `{GoogleHttpLaws} `{JwtLaws} po r cb s resp s' :
  let start := g_world s in
  google_ok start s -> accounts_ok (w_db start) -> sessions_wf (po_sessions po) (w_db start) ->
  finish_google_login po r cb s = (Ok resp, s') ->
  (ws_status resp = 303 /\ exists google code t v encoded user token c cs,
     (configured_google_oidc po start).1 = Ok (Some google) /\
     cb = mkCallback (Some code) (Some (tx_state t)) None /\
     wr_cookies r !! OAUTH_TRANSACTION_COOKIE_NAME = Some v /\
     authentic_payload v (go_transaction_key google) = Some encoded /\
     timestamp_seconds (w_now start) < tx_expires_at t /\
     google_gates start google t user /\
     session_rotated r (u_id user) token (w_db start) (w_db (g_world s')) /\
     ws_cookies resp = c :: cs /\ ck_key c = SESSION_COOKIE_NAME /\ ck_value c = token) \/
  (ws_status resp ∈ [400; 403; 503] /\ sessions (w_db (g_world s')) = sessions (w_db start)).
Proof.
  cbv zeta. intros Hok Hacc Hwf. unfold finish_google_login.
  intros (google&s1&E1&E)%mbind_inv. apply on_world_inv in E1 as (w1&E1&->). pose proof E1 as ->%configured_world.
  destruct google as [google|].
  2: { right. unfold unconfigured in E. apply mbind_inv in E as (u&s2&(w2&E2&->)%on_world_inv&E).
       apply audit_inv in E2 as [E2 _]. injection E as <- <-. split; [set_solver|done]. }
  apply mbind_inv in E as (transaction&s2&(w2&E2&->)%on_world_inv&E).
  apply mbind_inv in E as (exchange&s3&E3&E). apply lift_inv in E3 as [E3 ->]. unfold read_transaction_cookie in E2.
  destruct exchange as [[[code t] host]|].
  2: { right. apply mbind_inv in E as (u&s4&(w4&E4&->)%on_world_inv&E). apply audit_inv in E4 as [E4 _].
       injection E as <- <-. split; [set_solver|]. cbn. rewrite E4. cbn. apply deserialize_world in E2. by rewrite E2. }
  apply callback_code_inv in E3 as (->&->&Hhost).
  apply deserialize_inv in E2 as (->&v&encoded&now&Hv&Ha&[= <-]&Hexp&_).
  apply mbind_inv in E as (outcome&s4&E4&E). unfold try_except, mbind at 1 in E4.
  destruct (exchange_and_sign_in po r google code t host _) as [x s5] eqn:Ex.
  apply exchange_and_sign_in_inv in Ex; [|done..]. cbn [g_world g_metadata_cache g_jwks_cache g_sent] in *.
  destruct x as [[issued|]|e]; cbn [google_error] in E4.
  - injection E4 as <- <-. apply on_world_inv in E as (w6&E6&->). apply signed_in_inv in E6 as (Hst&Hdb&c&cs&Hc).
    left. split; [done|]. destruct Ex as (user&Hg&Hr).
    exists google, code, t, v, encoded, user, (is_token issued), c, cs. rewrite E1. unfold session_rotated in *.
    cbn [g_world]. rewrite Hdb. auto 20.
  - injection E4 as <- <-. right. injection E as <- <-. split; [set_solver|done].
  - unfold google_error in E4. destruct (bool_decide _) eqn:Eb; [|done]. apply bool_decide_eq_true in Eb. right.
    apply mbind_inv in E4 as (u&s7&(w7&E7&->)%on_world_inv&E4). injection E4 as <- <-. injection E as <- <-.
    apply audit_inv in E7 as [E7 _]. split; [set_solver|]. cbn. rewrite E7. by apply Ex.
Qed.

Definition sample_portal : PortalState :=
  mkPortalState sample_settings sample_manager csrf_sample sample_authenticator (mkStore (py "0123456789abcdef0123456789abcdef")) (Some oidc_google).
Definition callback_transaction : OAuthTransaction :=
  mkOAuthTransaction sample_token sample_token (sample_token ++ sample_token) (10 ^ 9 + 600).
Definition callback_request : WebRequest :=
  mkWebRequest (Some (py "10.0.0.1"))
    {[OAUTH_TRANSACTION_COOKIE_NAME := match transaction_cookie oidc_google callback_transaction with
                                       | Ok c => c | Raise _ => [] end]} ∅ [] [].
Definition callback_parameters : Callback := mkCallback (Some (py "code")) (Some sample_token) None.
Definition callback_run : result WebResponse * GState :=
  @finish_google_login ascii_unicode ascii_collation tagged_aead counting_entropy (oidc_http_for sample_token) toy_jwt
    sample_portal callback_request callback_parameters oidc_state.

Lemma callback_run_status : match callback_run.1 with Ok resp => ws_status resp = 303 | Raise _ => False end.
Proof. vm_compute. reflexivity. Qed.

Lemma oidc_state_accounts : @accounts_ok ascii_collation (w_db (g_world oidc_state)).
Proof. split; intros k; [intros u Hu|intros k' u u' Hu]; change ((∅ : gmap uuid User) !! k = Some u) in Hu; by rewrite lookup_empty in Hu. Qed.

Lemma google_callback_gates_witness :
  exists resp s' user token, callback_run = (Ok resp, s') /\ ws_status resp = 303 /\ u_is_active user = true /\
    session_rotated callback_request (u_id user) token empty_db (w_db (g_world s')).
Proof.
  pose proof callback_run_status as Hr. destruct callback_run as [r s'] eqn:E. cbn [fst] in Hr.
  destruct r as [resp|e]; [|destruct Hr].
  assert (Hwf : sessions_wf (po_sessions sample_portal) (w_db (g_world oidc_state)))
    by exact (session_world_wf).
  destruct (@google_callback_gates ascii_unicode ascii_collation tagged_aead counting_entropy (oidc_http_for sample_token)
    (oidc_http_laws _) toy_jwt toy_jwt_laws sample_portal callback_request callback_parameters oidc_state resp s'
    (oidc_state_ok _) oidc_state_accounts Hwf E)
    as [(Hst&google&code&t&v&encoded&user&token&c&cs&_&_&_&_&_&(?&?&?&_&_&_&Ha)&Hrot&_)|[Hst _]].
  - exists resp, s', user, token. split; [reflexivity|]. split; [exact Hst|]. split; [exact Ha|exact Hrot].
  - rewrite Hr in Hst. clear -Hst. exfalso. rewrite !elem_of_cons, elem_of_nil in Hst. lia.
Defined.
