(* ===== verification/Enrolment.v ===== *)
(** The one-time-code enrolment and the password of a local administrator, over the sign-in routes
    (app/routers/auth.py) in any order: what each change needs, and what no route undoes. *)
From S2P Require Import Prelude PyBase Encoding Hashes Json Models Store Config Aead PlatformSettings.
From S2P Require Import IpAddress Session Csrf Access LocalAuth OAuth Google Web Branding SignIn.

(** ** Lemmas: how the table of credentials changes *)

(** A credential keeps its account; once its one-time codes are enabled they stay, with their seed. *)
Definition steady (c0 c : AdminCredential) : Prop :=
  ac_user_id c = ac_user_id c0 /\
  (is_Some (ac_totp_enabled_at c0) ->
     ac_totp_secret_enc c = ac_totp_secret_enc c0 /\ is_Some (ac_totp_enabled_at c)).
Definition credentials_evolve (d d' : Db) : Prop :=
  credentials_keyed d ->
  credentials_keyed d' /\
  forall id c0, admin_credentials d !! id = Some c0 -> exists c, admin_credentials d' !! id = Some c /\ steady c0 c.

Lemma steady_refl c : steady c c.
Proof. by split. Qed.

Lemma credentials_evolve_refl d d' : admin_credentials d' = admin_credentials d -> credentials_evolve d d'.
Proof.
  intros E Hk. unfold credentials_keyed. rewrite E. split; [done|]. intros id c Hc. exists c.
  split; [done|apply steady_refl].
Qed.

Lemma credentials_evolve_trans a b c : credentials_evolve a b -> credentials_evolve b c -> credentials_evolve a c.
Proof.
  intros Hab Hbc Hk. destruct (Hab Hk) as [Hkb H1]. destruct (Hbc Hkb) as [Hkc H2]. split; [done|].
  intros id c0 Hc0. destruct (H1 id c0 Hc0) as (c1&Hc1&Hid1&Hs1). destruct (H2 id c1 Hc1) as (c2&Hc2&Hid2&Hs2).
  exists c2. split; [done|]. split; [congruence|]. intros He. destruct (Hs1 He) as [E1 He1].
  destruct (Hs2 He1) as [E2 He2]. split; [congruence|done].
Qed.

Lemma credentials_evolve_put d d' id c0 c :
  admin_credentials d !! id = Some c0 -> steady c0 c ->
  admin_credentials d' = <[ac_user_id c := c]> (admin_credentials d) -> credentials_evolve d d'.
Proof.
  intros Hc0 Hs E Hk. pose proof (Hk _ _ Hc0) as Hid. rewrite <- (proj1 Hs) in Hid. subst id.
  unfold credentials_keyed. rewrite E. split.
  - intros k x [[<- <-]|[_ Hx]]%lookup_insert_Some; [done|by apply Hk].
  - intros id x Hx. destruct (decide (ac_user_id c = id)) as [<-|Hne].
    + rewrite lookup_insert_eq. exists c. split; [done|]. by simplify_eq.
    + rewrite lookup_insert_ne by done. exists x. split; [done|apply steady_refl].
Qed.

Section Enrolment.
Context `{Unicode} `{Collation} `{Argon2} `{Aead} `{Entropy} `{GoogleHttpLaws} `{JwtLaws} (po : PortalState).

(** One route of these, by any browser as any account, or the end of a request's database session,
    or time. *)
Inductive route_step (s : GState) : GState -> Prop :=
| route_google_login r : route_step s (start_google_login po r s).2
| route_google_callback r cb : route_step s (finish_google_login po r cb s).2
| route_local_login r : route_step s (on_world (finish_local_login po r) s).2
| route_logout r user : route_step s (on_world (logout po r user) s).2
| route_mfa_setup user : route_step s (on_world (mfa_setup_page po user) s).2
| route_enable_mfa r user : route_step s (on_world (enable_mfa po r user) s).2
| route_profile user : route_step s (on_world (profile_page user) s).2
| route_change_password r user : route_step s (on_world (change_password po r user) s).2
| route_landing r : route_step s (on_world (landing_page po r) s).2
| route_csrf r : route_step s (on_world (issue_csrf_token po r) s).2
| route_logo r : route_step s (on_world (branding_logo r) s).2
| route_commit : route_step s (on_world commit s).2
| route_rollback : route_step s (on_world rollback s).2
| route_wait t : w_now (g_world s) <= t ->
    route_step s (mkGState (mkWorld (w_db (g_world s)) (w_committed (g_world s)) (w_draws (g_world s)) t)
                    (g_metadata_cache s) (g_jwks_cache s) (g_sent s)).

(** *** Routes that do not touch the credentials *)

Lemma keeps_on_world {A} (c : M A) (w w' : World) r :
  keeps admin_credentials c -> c w = (r, w') ->
  credentials_evolve (w_db w) (w_db w') /\ w_committed w' = w_committed w.
Proof using Type. intros Hc E. destruct (Hc w) as [Hd Hw]. rewrite E in Hd, Hw. split; [|done]. by apply credentials_evolve_refl. Qed.

Lemma keeps_audit_credentials po' r action actor tt_ ti meta :
  keeps admin_credentials (audit po' r action actor tt_ ti meta).
Proof using Type. by apply keeps_audit. Qed.

Lemma keeps_revoke token now : keeps admin_credentials (revoke token now).
Proof using Type. unfold revoke, put_session. frame. Qed.
Lemma keeps_issue manager user ip ua now : keeps admin_credentials (issue manager user ip ua now).
Proof using Type. unfold issue, token_urlsafe. frame. Qed.
Lemma keeps_rotate r host user : keeps admin_credentials (rotate_session po r host user).
Proof using Type. unfold rotate_session, put_user. frame. Qed.
Lemma keeps_signed_in issued more : keeps admin_credentials (signed_in po issued more).
Proof using Type. unfold signed_in, set_cookie, issue_csrf, token_urlsafe. frame. Qed.
Lemma keeps_logout r user : keeps admin_credentials (logout po r user).
Proof using Type. unfold logout, audit_user. frame. Qed.
Lemma keeps_provision identity : keeps admin_credentials (provision_google_user identity).
Proof using Type. unfold provision_google_user, put_user. frame. Qed.
Lemma keeps_configured : keeps admin_credentials (configured_google_oidc po).
Proof using Type.
  intros w. destruct (configured_google_oidc po w) as [r w'] eqn:E. by apply configured_world in E as ->.
Qed.
Lemma keeps_branding : keeps admin_credentials load_branding.
Proof using Type. unfold load_branding. frame. Qed.
Lemma keeps_landing r : keeps admin_credentials (landing_page po r).
Proof using Type. unfold landing_page, verify, put_session. frame. Qed.
Lemma keeps_csrf r : keeps admin_credentials (issue_csrf_token po r).
Proof using Type. unfold issue_csrf_token, issue_csrf, token_urlsafe. frame. Qed.
Lemma keeps_logo r : keeps admin_credentials (branding_logo r).
Proof using Type. unfold branding_logo, load_logo. frame. Qed.
Lemma keeps_profile user : keeps admin_credentials (profile_page user).
Proof using Type. unfold profile_page. frame. Qed.

(** *** Routes that change a credential *)

Lemma enable_mfa_inv r user w x w' : enable_mfa po r user w = (x, w') ->
  w_committed w' = w_committed w /\
  ((exists c encrypted secret code, admin_credentials (w_db w) !! u_id user = Some c /\
      ac_totp_secret_enc c = Some encrypted /\
      decrypt_totp_secret (po_settings po) (u_id user) encrypted = Ok secret /\
      read_mfa_code r = Ok (Some code) /\ verify_totp secret code (w_now w) = Ok true /\
      (forall resp, x = Ok resp -> ws_status resp = 200) /\
      admin_credentials (w_db w') =
        <[ac_user_id c := set_ac_totp_enabled_at (Some (w_now w)) c]> (admin_credentials (w_db w))) \/
   (w_db w' = w_db w /\ forall resp, x = Ok resp -> ws_status resp = 400 \/ ws_status resp = 422)).
Proof using Type.
  unfold enable_mfa. unfold mbind at 1, lift at 1. destruct (read_mfa_code r) as [code|e] eqn:Er.
  2: { intros [= <- <-]. split; [done|]. right. by split. }
  unfold mbind at 1, get_db. destruct (admin_credentials (w_db w) !! u_id user) as [c|] eqn:Ec.
  2: { intros [= <- <-]. split; [done|]. right. split; [done|]. intros resp [= <-]. by left. }
  destruct (ac_totp_secret_enc c) as [encrypted|] eqn:Es; [destruct code as [code|]|].
  2,3: intros [= <- <-]; (split; [done|]); right; split; [done|]; intros resp [= <-]; by left.
  destruct (decrypt_totp_secret _ _ _) as [secret|e] eqn:Ed.
  2: { intros E. assert (w' = w /\ forall resp, x = Ok resp -> resp = not_ready) as [-> Hx].
       { destruct e; unfold raise, mret in E; injection E as <- <-; (split; [done|]); by intros resp [= <-]. }
       split; [done|]. right. split; [done|]. intros resp ->. rewrite (Hx _ eq_refl). by left. }
  unfold mbind at 1, clock. unfold mbind at 1, lift. destruct (verify_totp secret code (w_now w)) as [[]|e] eqn:Ev;
    cbn [negb].
  2: { intros [= <- <-]. split; [done|]. right. split; [done|]. intros resp [= <-]. by right. }
  2: { intros [= <- <-]. split; [done|]. right. by split. }
  unfold mbind at 1, put_credential at 1, modify_db, with_db. set (w1 := mkWorld _ _ _ _).
  unfold mbind. destruct (audit_user po r _ (u_id user) w1) as [ra w2] eqn:Ea.
  pose proof (keeps_audit_credentials po r "auth.mfa_enabled" (Some (u_id user)) (Some (py "user"))
    (Some (uuid_str (u_id user))) [] w1) as [Hcr Hcm]. unfold audit_user in Ea. rewrite Ea in Hcr, Hcm.
  assert (Hfin : w_committed w2 = w_committed w /\ admin_credentials (w_db w2) =
    <[ac_user_id c := set_ac_totp_enabled_at (Some (w_now w)) c]> (admin_credentials (w_db w))) by done.
  destruct Hfin as [Hcm2 Hcr2].
  destruct ra as [u|e]; intros [= <- <-]; (split; [done|]); left; exists c, encrypted, secret, code;
    repeat (split; [first [done|by intros resp [= <-]]|]); exact Hcr2.
Qed.

Lemma change_password_inv r user w x w' : change_password po r user w = (x, w') ->
  w_committed w' = w_committed w /\
  ((exists c current_password new_password h, admin_credentials (w_db w) !! u_id user = Some c /\
      read_password_change r = Ok (Some (current_password, new_password, new_password)) /\
      argon2_verify (ac_password_hash c) current_password = Ok true /\
      validate_new_password new_password = Ok tt /\ (exists salt, h = argon2_hash salt new_password) /\
      (forall resp, x = Ok resp -> ws_status resp = 200) /\
      admin_credentials (w_db w') =
        <[ac_user_id c := set_ac_password_hash h c]> (admin_credentials (w_db w))) \/
   (w_db w' = w_db w /\ forall resp, x = Ok resp -> ws_status resp = 400 \/ ws_status resp = 422)).
Proof using Type.
  unfold change_password. unfold mbind at 1, lift at 1.
  assert (Hnone : forall (w0 : World) y wy, (Raise y, w0) = (x, wy) -> wy = w0 /\ forall resp, x <> Ok resp) by (by intros ? ? ? [= <- <-]).
  destruct (read_password_change r) as [[[[current_password new_password] confirmation]|]|e] eqn:Er.
  3: { intros [-> Hx]%Hnone. split; [done|]. right. split; [done|]. intros resp ->. by destruct (Hx resp). }
  2: { intros [= <- <-]. split; [done|]. right. split; [done|]. intros resp [= <-]. by left. }
  unfold mbind at 1, get_db. destruct (admin_credentials (w_db w) !! u_id user) as [c|] eqn:Ec.
  2: { intros [= <- <-]. split; [done|]. right. split; [done|]. intros resp [= <-]. by right. }
  unfold mbind at 1, lift. destruct (verify_password _ current_password) as [[]|e] eqn:Ev; cbn [negb].
  3: { intros [-> Hx]%Hnone. split; [done|]. right. split; [done|]. intros resp ->. by destruct (Hx resp). }
  2: { intros [= <- <-]. split; [done|]. right. split; [done|]. intros resp [= <-]. by right. }
  destruct (bool_decide (new_password = confirmation)) eqn:Eb; cbn [negb].
  2: { intros [= <- <-]. split; [done|]. right. split; [done|]. intros resp [= <-]. by right. }
  apply bool_decide_eq_true in Eb as <-.
  unfold mbind at 1, try_except, hash_password, mbind at 1, mbind at 1, lift at 1, token_bytes.
  destruct (validate_new_password new_password) as [[]|e] eqn:En.
  2: { destruct (bool_decide _); cbn iota beta; intros E.
       - injection E as <- <-. split; [done|]. right. split; [done|]. intros resp [= <-]. by right.
       - apply Hnone in E as [-> Hx]. split; [done|]. right. split; [done|]. intros resp ->. by destruct (Hx resp). }
  unfold mbind at 1. unfold mret at 1 2. cbn iota beta zeta. set (h := argon2_hash _ new_password).
  unfold mbind at 1, put_credential at 1, modify_db, with_db. cbn [w_db w_committed w_draws w_now].
  set (w1 := mkWorld (set_admin_credentials _ _) _ _ _).
  unfold mbind. destruct (audit_user po r _ (u_id user) w1) as [ra w2] eqn:Ea.
  pose proof (keeps_audit_credentials po r "auth.password_changed" (Some (u_id user)) (Some (py "user"))
    (Some (uuid_str (u_id user))) [] w1) as [Hcr Hcm]. unfold audit_user in Ea. rewrite Ea in Hcr, Hcm.
  assert (Hcr2 : admin_credentials (w_db w2) = <[ac_user_id c := set_ac_password_hash h c]> (admin_credentials (w_db w)))
    by exact Hcr. assert (Hcm2 : w_committed w2 = w_committed w) by exact Hcm.
  apply verify_password_true in Ev.
  destruct ra as [u|e]; intros [= <- <-]; (split; [done|]); left; exists c, current_password, new_password, h;
    repeat (split; [first [done|by intros resp [= <-]|by eexists]|]); exact Hcr2.
Qed.

Lemma unlocked_steady current c c' : unlocked current c = Some c' -> steady c c'.
Proof using Type.
  unfold unlocked. destruct (ac_locked_until c); [destruct (_ <? _); [done|]|]; intros [= <-]; by split.
Qed.

Lemma authenticate_evolve username password code ip w x w' :
  authenticate (po_local po) username password code ip None w = (x, w') ->
  credentials_evolve (w_db w) (w_db w') /\ w_committed w' = w_committed w.
Proof using Type.
  intros E. split.
  - apply (authenticate_inv (po_local po) _ _ _ _ None (w_now w)) in E as [_ E]; [|done].
    destruct E as [[[_ Hc] _]|(email&u&c&c'&_&(Hrow&_)&_&Hun&E)]; [by apply credentials_evolve_refl|].
    apply unlocked_steady in Hun as Hs. unfold account_row in Hrow.
    destruct (find_row _ _) as [u0|]; [|done]. destruct (admin_credentials _ !! u_id u0) as [c0|] eqn:Ec; [|done].
    injection Hrow as -> ->. unfold checked in E. destruct x as [[u'|]|e].
    + destruct E as (_&_&_&h&E). by eapply credentials_evolve_put; [exact Ec| |exact E].
    + destruct E as (_&_&E). eapply credentials_evolve_put; [exact Ec| |].
      2: { rewrite E, <- (record_account_failure_id (po_local po) (w_now w) c'). reflexivity. }
      unfold record_account_failure. by destruct (_ <=? _).
    + destruct E as [_ E]. by apply credentials_evolve_refl.
  - assert (Hk : keeps (fun _ => tt) (authenticate (po_local po) username password code ip None)).
    { unfold authenticate, load_ip_limit, refuse, check_factors, hash_password, put_user, put_credential, put_rate_limit. frame. }
    destruct (Hk w) as [_ Hw]. by rewrite E in Hw.
Qed.

(** *** Every route *)

(** The computation lets the credentials evolve and commits nothing. *)
Definition evolves {A} (c : M A) : Prop := forall w,
  credentials_evolve (w_db w) (w_db (c w).2) /\ w_committed (c w).2 = w_committed w.

Lemma evolves_keeps {A} (c : M A) : keeps admin_credentials c -> evolves c.
Proof using Type. intros Hc w. destruct (Hc w). split; [by apply credentials_evolve_refl|done]. Qed.
Lemma evolves_bind {A B} (c : M A) (k : A -> M B) : evolves c -> (forall a, evolves (k a)) -> evolves (mbind c k).
Proof using Type.
  intros Hc Hk w. destruct (Hc w) as [Ha1 Ha2]. unfold mbind. destruct (c w) as [[a|e] w1]; [|done]. cbn in Ha1, Ha2.
  destruct (Hk a w1) as [Ha3 Ha4]. split; [by eapply credentials_evolve_trans|congruence].
Qed.
Lemma evolves_inv {A} (c : M A) : (forall w x w', c w = (x, w') ->
  credentials_evolve (w_db w) (w_db w') /\ w_committed w' = w_committed w) -> evolves c.
Proof using Type. intros Hc w. by destruct (c w) as [x w'] eqn:E; apply Hc in E. Qed.

Lemma evolves_enable_mfa r user : evolves (enable_mfa po r user).
Proof using Type.
  apply evolves_inv. intros w x w' [Hcm [(c&encrypted&secret&code&Hc&_&_&_&_&_&E)|[E _]]]%enable_mfa_inv; (split; [|done]).
  - eapply credentials_evolve_put; [exact Hc| |exact E]. by split.
  - rewrite E. by apply credentials_evolve_refl.
Qed.
Lemma evolves_change_password r user : evolves (change_password po r user).
Proof using Type.
  apply evolves_inv. intros w x w' [Hcm [(c&cur&new&h&Hc&_&_&_&_&_&E)|[E _]]]%change_password_inv; (split; [|done]).
  - eapply credentials_evolve_put; [exact Hc| |exact E]. by split.
  - rewrite E. by apply credentials_evolve_refl.
Qed.
Lemma evolves_local_login r : evolves (finish_local_login po r).
Proof using Type.
  unfold finish_local_login. apply evolves_bind; [by apply evolves_keeps; frame|]. intros credentials. cbv zeta.
  assert (Hfail : evolves (do! audit po r "auth.local_failed" None None None []; mret local_authentication_failed))
    by (apply evolves_keeps; frame).
  destruct credentials as [[[username password] totp]|]; [|done]. destruct (wr_client_host r) as [host|]; [|done].
  apply evolves_bind; [apply evolves_inv; intros w x w'; apply authenticate_evolve|]. intros [user|]; [|done].
  apply evolves_bind; [apply evolves_keeps, keeps_rotate|]. intros issued.
  apply evolves_bind; [apply evolves_keeps; unfold audit_user; frame|]. intros _. apply evolves_keeps, keeps_signed_in.
Qed.
Lemma evolves_mfa_setup user : evolves (mfa_setup_page po user).
Proof using Type.
  apply evolves_inv. intros w x w'. unfold mfa_setup_page, mbind at 1, get_db.
  destruct (admin_credentials (w_db w) !! u_id user) as [c|] eqn:Ec; [destruct (ac_totp_enabled_at c) eqn:Ee|].
  1,3: intros [= <- <-]; by split; [apply credentials_evolve_refl|].
  assert (Hp : forall y w1, pending_secret po user c w = (y, w1) ->
            credentials_evolve (w_db w) (w_db w1) /\ w_committed w1 = w_committed w).
  { intros y w1. unfold pending_secret. destruct (ac_totp_secret_enc c);
      [intros [= <- <-]; by split; [apply credentials_evolve_refl|]|].
    unfold mbind at 1, generate_totp_secret, mbind at 1, token_bytes, mret at 1. set (secret := b32encode_quintets _).
    unfold mbind at 1. set (w2 := mkWorld _ _ _ _).
    destruct (encrypt_totp_secret (po_settings po) (u_id user) secret w2) as [ye w3] eqn:E3.
    assert (Hk : keeps id (encrypt_totp_secret (po_settings po) (u_id user) secret)) by (unfold encrypt_totp_secret; frame).
    destruct (Hk w2) as [Hd Hc]. rewrite E3 in Hd, Hc. cbn in Hd, Hc. unfold id in Hd.
    destruct ye as [encrypted|e].
    - unfold mbind, put_credential, modify_db, with_db, mret. intros [= <- <-]. split; [|done].
      apply (credentials_evolve_put _ _ (u_id user) c (set_ac_totp_secret_enc (Some encrypted) c)); [exact Ec| |].
      + split; [done|]. rewrite Ee. by intros [? ?].
      + cbn. by rewrite Hd.
    - intros [= <- <-]. split; [|done]. rewrite Hd. by apply credentials_evolve_refl. }
  unfold mbind at 1, try_except, mbind at 1. destruct (pending_secret po user c w) as [y w1] eqn:Ep.
  destruct (Hp _ _ eq_refl) as [Hev Hcm]. unfold mbind, lift, mret.
  intros E. assert (w' = w1) as ->; [|done]. by repeat case_match; simplify_eq.
Qed.

(** What every route maintains from a world on: the client's trust, and the evolution of the credentials. *)
Definition route_inv (w0 : World) (s : GState) : Prop :=
  google_ok (g_world s) s /\ credentials_evolve (w_db w0) (w_db (g_world s)) /\
  w_committed (g_world s) = w_committed w0.

Lemma holds_on_world {A} w0 (c : M A) : evolves c -> holds (route_inv w0) (on_world c) (fun _ => True).
Proof using Type.
  intros Hc s (Hok&Hev&Hcm). unfold on_world. destruct (Hc (g_world s)) as [Ha1 Ha2].
  destruct (c (g_world s)) as [x w'] eqn:E. cbn in *. split; [|done].
  split; [by eapply google_ok_rebase|]. split; [by eapply credentials_evolve_trans|]. cbn. congruence.
Qed.
Lemma holds_client {A} w0 (c : G A) (Q : World -> A -> Prop) :
  (forall start, holds (google_ok start) c (Q start)) -> holds (route_inv w0) c (fun _ => True).
Proof using Type.
  intros Hc s (Hok&Hev&Hcm). destruct (Hc (g_world s) s Hok) as [((Hd&Hw&Ht)&Hs) _]. split; [|done].
  split; [by split|]. split; [by rewrite Hd|]. by rewrite Hw.
Qed.

Lemma holds_google_login w0 r : holds (route_inv w0) (start_google_login po r) (fun _ => True).
Proof using Type*.
  assert (Haudit : forall meta action, holds (route_inv w0) (on_world (audit po r action None None None meta)) (fun _ => True))
    by (intros; apply holds_on_world, evolves_keeps, keeps_audit_credentials).
  unfold start_google_login. eapply holds_bind; [apply holds_on_world, evolves_keeps, keeps_configured|]. intros [google|] _.
  - eapply holds_bind; [apply holds_on_world, evolves_keeps; unfold create_transaction, token_urlsafe; frame|]. intros t _.
    eapply holds_bind with (Q := fun _ => True).
    + apply holds_try.
      * eapply holds_bind; [apply (holds_client _ _ _ (fun start => holds_authorization_url start google t))|].
        intros u _. by apply holds_mret.
      * intros _. eapply holds_bind; [apply Haudit|]. intros _ _. by apply holds_mret.
    + intros [url|] _; [|by apply holds_mret]. eapply holds_bind; [apply Haudit|]. intros _ _.
      eapply holds_bind; [by apply (holds_lift _ _ (fun _ => True))|]. intros value _.
      eapply holds_bind; [apply holds_on_world, evolves_keeps; frame|]. intros now _. by apply holds_mret.
  - unfold unconfigured. eapply holds_bind; [apply Haudit|]. intros _ _. by apply holds_mret.
Qed.

Lemma holds_google_callback w0 r cb : holds (route_inv w0) (finish_google_login po r cb) (fun _ => True).
Proof using Type*.
  assert (Haudit : forall meta action, holds (route_inv w0) (on_world (audit po r action None None None meta)) (fun _ => True))
    by (intros; apply holds_on_world, evolves_keeps, keeps_audit_credentials).
  unfold finish_google_login. eapply holds_bind; [apply holds_on_world, evolves_keeps, keeps_configured|]. intros [google|] _.
  2: { unfold unconfigured. eapply holds_bind; [apply Haudit|]. intros _ _. by apply holds_mret. }
  eapply holds_bind; [apply holds_on_world, evolves_keeps; intros w; unfold read_transaction_cookie;
    destruct (deserialize _ _ _ w) as [y w'] eqn:E; by apply deserialize_world in E as ->|]. intros t _.
  eapply holds_bind; [by apply (holds_lift _ _ (fun _ => True))|]. intros [[[code t'] host]|] _.
  2: { eapply holds_bind; [apply Haudit|]. intros _ _. by apply holds_mret. }
  eapply holds_bind with (Q := fun _ => True).
  - apply holds_try; [|intros _; eapply holds_bind; [apply Haudit|]; intros _ _; by apply holds_mret].
    unfold exchange_and_sign_in. eapply holds_bind with (Q := fun _ => True); [|intros; by apply holds_mret].
    eapply holds_bind; [apply (holds_client _ _ _ (fun start => holds_exchange start google code t'))|]. intros identity _.
    eapply holds_bind; [apply holds_on_world, evolves_keeps, keeps_provision|]. intros user _.
    destruct (negb _); [by apply holds_mret|].
    eapply holds_bind; [apply holds_on_world, evolves_keeps, keeps_rotate|]. intros issued _.
    eapply holds_bind; [apply holds_on_world, evolves_keeps, keeps_audit_credentials|]. intros _ _. by apply holds_mret.
  - intros [resp|[issued|]] _; [by apply holds_mret| |by apply holds_mret].
    apply holds_on_world, evolves_keeps, keeps_signed_in.
Qed.

(** The enrolment of an account, and the state in which every route starts. *)
Definition enrolled (id : uuid) (secret : bytes) (d : Db) : Prop :=
  exists c, admin_credentials d !! id = Some c /\ ac_totp_secret_enc c = Some secret /\
    is_Some (ac_totp_enabled_at c).
Definition ready (P : Db -> Prop) (s : GState) : Prop :=
  google_ok (g_world s) s /\ (credentials_keyed (w_db (g_world s)) /\ P (w_db (g_world s))) /\
  (credentials_keyed (w_committed (g_world s)) /\ P (w_committed (g_world s))).

Lemma evolve_enrolled id secret d d' : credentials_evolve d d' ->
  credentials_keyed d /\ enrolled id secret d -> credentials_keyed d' /\ enrolled id secret d'.
Proof using Type.
  intros Hev [Hk (c0&Hc0&Hs&He)]. destruct (Hev Hk) as [Hk' Hrow]. split; [done|].
  destruct (Hrow _ _ Hc0) as (c&Hc&_&Hst). destruct (Hst He) as [E1 E2]. exists c. split; [done|]. by rewrite E1.
Qed.

Lemma route_ready id secret s s' : route_step s s' -> ready (enrolled id secret) s -> ready (enrolled id secret) s'.
Proof using Type*.
  intros Hst (Hok&Hd&Hc).
  assert (Hfrom : route_inv (g_world s) s' -> ready (enrolled id secret) s').
  { intros (Hok'&Hev&Hcm). split; [done|]. split; [by apply (evolve_enrolled id secret _ _ Hev)|]. by rewrite Hcm. }
  assert (Hinit : route_inv (g_world s) s) by (split; [done|]; split; [by apply credentials_evolve_refl|done]).
  assert (Hm : forall A (c : M A), evolves c -> route_inv (g_world s) (on_world c s).2)
    by (intros A c Hc'; by apply holds_on_world).
  destruct Hst.
  - apply Hfrom. by apply holds_google_login.
  - apply Hfrom. by apply holds_google_callback.
  - apply Hfrom, Hm, evolves_local_login.
  - apply Hfrom, Hm, evolves_keeps, keeps_logout.
  - apply Hfrom, Hm, evolves_mfa_setup.
  - apply Hfrom, Hm, evolves_enable_mfa.
  - apply Hfrom, Hm, evolves_keeps, keeps_profile.
  - apply Hfrom, Hm, evolves_change_password.
  - apply Hfrom, Hm, evolves_keeps, keeps_landing.
  - apply Hfrom, Hm, evolves_keeps, keeps_csrf.
  - apply Hfrom, Hm, evolves_keeps, keeps_logo.
  - split; [by eapply google_ok_rebase|split; [exact Hd|exact Hd]].
  - split; [by eapply google_ok_rebase|split; [exact Hc|exact Hc]].
  - split; [by eapply google_ok_rebase|split; [exact Hd|exact Hc]].
Qed.

End Enrolment.

(** ** Properties *)

(** What a change of an administrator's factors needs.  A request to enable one-time codes
    changes the credential only when the stored seed decrypts for this account and the code in the
    request verifies under it now, and a request to change the password only when it carries the
    current password and twice a new one of 15 to 1024 bytes, and then what is stored is a hash of the new one; both
    answer 200 then. Every other answer is 400 or 422 and leaves the database as it was. *)
Theorem factor_changes_need_proof `{Unicode} `{Argon2} `{Aead} `{Entropy} po r user w resp w' :
  (enable_mfa po r user w = (Ok resp, w') ->
   (exists c encrypted secret code, admin_credentials (w_db w) !! u_id user = Some c /\
      ac_totp_secret_enc c = Some encrypted /\
      decrypt_totp_secret (po_settings po) (u_id user) encrypted = Ok secret /\
      read_mfa_code r = Ok (Some code) /\ verify_totp secret code (w_now w) = Ok true /\ ws_status resp = 200 /\
      admin_credentials (w_db w') =
        <[ac_user_id c := set_ac_totp_enabled_at (Some (w_now w)) c]> (admin_credentials (w_db w))) \/
   (w_db w' = w_db w /\ ws_status resp ∈ [400; 422])) /\
  (change_password po r user w = (Ok resp, w') ->
   (exists c current_password new_password h salt, admin_credentials (w_db w) !! u_id user = Some c /\
      read_password_change r = Ok (Some (current_password, new_password, new_password)) /\
      argon2_verify (ac_password_hash c) current_password = Ok true /\
      validate_new_password new_password = Ok tt /\ h = argon2_hash salt new_password /\ ws_status resp = 200 /\
      admin_credentials (w_db w') =
        <[ac_user_id c := set_ac_password_hash h c]> (admin_credentials (w_db w))) \/
   (w_db w' = w_db w /\ ws_status resp ∈ [400; 422])).
Proof.
  split.
  - intros [_ [(c&encrypted&secret&code&Hc&He&Hd&Hr&Hv&Hst&E)|[E Hst]]]%enable_mfa_inv; [left|right].
    + exists c, encrypted, secret, code. auto 10.
    + split; [done|]. destruct (Hst resp eq_refl) as [-> | ->]; set_solver.
  - intros [_ [(c&cur&new&h&Hc&Hr&Hv&Hn&[salt Hs]&Hst&E)|[E Hst]]]%change_password_inv; [left|right].
    + exists c, cur, new, h, salt. auto 10.
    + split; [done|]. destruct (Hst resp eq_refl) as [-> | ->]; set_solver.
Qed.

(** C8: An enrolment lasts.  Once one-time codes are enabled for an account under a seed, no sequence
    of sign-ins by either method, enrolment pages, activations, password changes, sign-outs and
    public pages, by any browsers as any accounts, answered or failed, with commits, roll-backs and
    time in between, disables them or replaces the seed. *)
Theorem enrolment_lasts `{Unicode} `{Collation} `{Argon2} `{Aead} `{Entropy} `{GoogleHttpLaws} `{JwtLaws} po id secret s s' :
  ready (enrolled id secret) s -> rtc (route_step po) s s' ->
  enrolled id secret (w_db (g_world s')) /\ enrolled id secret (w_committed (g_world s')).
Proof.
  intros Hr Hs. assert (Hr' : ready (enrolled id secret) s').
  { induction Hs as [|x y z Hxy Hyz IH]; [done|]. apply IH. by eapply route_ready. }
  by destruct Hr' as (_&[_ ?]&[_ ?]).
Qed.

Definition new_password_request : WebRequest :=
  mkWebRequest (Some (py "10.0.0.1")) ∅ ∅ []
    (dumps (JDict [(py "current_password", JStr (py "correct horse battery"));
                   (py "new_password", JStr (py "staple staple staple"));
                   (py "confirmation", JStr (py "staple staple staple"))])).
Definition password_run : result WebResponse * World :=
  @change_password ascii_unicode plain_argon2 counting_entropy sample_portal new_password_request admin_user admin_world.

Lemma password_run_status : match password_run.1 with Ok resp => ws_status resp = 200 | Raise _ => False end.
Proof. vm_compute. reflexivity. Qed.

Lemma factor_changes_need_proof_witness :
  exists resp w' h salt, password_run = (Ok resp, w') /\ h = argon2_hash (Argon2 := plain_argon2) salt (py "staple staple staple") /\
    ac_password_hash <$> admin_credentials (w_db w') !! 7 = Some h.
Proof.
  pose proof password_run_status as Hr. destruct password_run as [r w'] eqn:E. cbn [fst] in Hr.
  destruct r as [resp|e]; [|destruct Hr].
  destruct (proj2 (@factor_changes_need_proof ascii_unicode plain_argon2 tagged_aead counting_entropy sample_portal
    new_password_request admin_user admin_world resp w') E)
    as [(c&cur&new&h&salt&Hc&Hp&_&_&Hh&_&Hcr)|[_ Hst]].
  - exists resp, w', h, salt. split; [reflexivity|].
    assert (Hn : @read_password_change ascii_unicode new_password_request
      = Ok (Some (py "correct horse battery", py "staple staple staple", py "staple staple staple")))
      by (vm_compute; reflexivity).
    rewrite Hn in Hp. injection Hp as <- <-. split; [exact Hh|]. rewrite Hcr.
    assert (Hid : ac_user_id c = 7) by (injection Hc as <-; reflexivity).
    change (ac_user_id (set_ac_password_hash h c)) with (ac_user_id c). rewrite Hid, lookup_insert_eq. reflexivity.
  - clear -Hst Hr. exfalso. rewrite !elem_of_cons, elem_of_nil in Hst. lia.
Defined.

(** An account whose one-time codes are enabled. *)
Definition enrolled_credential : AdminCredential :=
  set_ac_totp_enabled_at (Some 5) (set_ac_totp_secret_enc (Some (py "seed")) admin_credential).
Definition enrolled_db : Db := set_admin_credentials {[7 := enrolled_credential]} (w_db admin_world).
Definition enrolled_state : GState := mkGState (mkWorld enrolled_db enrolled_db 0 (10 ^ 15)) None None [].

Lemma enrolled_state_ready : @ready ascii_unicode oidc_http (enrolled 7 (py "seed")) enrolled_state.
Proof.
  assert (Hd : credentials_keyed enrolled_db /\ enrolled 7 (py "seed") enrolled_db).
  { split.
    - intros k c Hc. change (({[7 := enrolled_credential]} : gmap Z AdminCredential) !! k = Some c) in Hc.
      by apply lookup_singleton_Some in Hc as [<- <-].
    - exists enrolled_credential. split; [reflexivity|]. split; [reflexivity|]. by eexists. }
  split; [|by split]. split; [by repeat split|]. split; [constructor|]. by split.
Qed.

Lemma enrolment_lasts_witness :
  let s' := (on_world (@change_password ascii_unicode plain_argon2 counting_entropy sample_portal new_password_request admin_user)
               enrolled_state).2 in
  enrolled 7 (py "seed") (w_db (g_world s')) /\ enrolled 7 (py "seed") (w_committed (g_world s')).
Proof.
  intros s'. apply (@enrolment_lasts ascii_unicode ascii_collation plain_argon2 tagged_aead counting_entropy oidc_http
    (oidc_http_laws _) toy_jwt toy_jwt_laws sample_portal 7 (py "seed") enrolled_state s').
  - exact enrolled_state_ready.
  - apply rtc_once. apply (route_change_password sample_portal enrolled_state new_password_request admin_user).
Defined.
