(* ===== verification/Headers.v ===== *)
(** The security headers of every response (app/middleware.py), over Starlette's header list with
    lower-case names. *)
From S2P Require Import Prelude PyBase Encoding Hashes Json Models Store Config Session Web Branding SignIn.

Definition CSP : pystr := py "default-src 'self'; base-uri 'none'; connect-src 'self'; font-src 'self'; form-action 'self'; frame-ancestors 'none'; img-src 'self' data:; object-src 'none'; script-src 'self'; style-src 'self'".

(** Starlette's [MutableHeaders]: what assigning a header leaves in the raw list, names in lower case.
    Documented: the header then has that one value, and the others keep theirs in order. *)
Class HeaderList := { set_header : pystr -> pystr -> list (pystr * pystr) -> list (pystr * pystr) }.

Definition header_values (name : pystr) (headers : list (pystr * pystr)) : list pystr :=
  map snd (List.filter (fun kv => bool_decide (kv.1 = name)) headers).

Class HeaderListLaws `{HeaderList} : Prop := {
  set_header_values : forall name key value headers,
    header_values name (set_header key value headers) = if bool_decide (name = key) then [value] else header_values name headers
}.

Definition security_headers (environment : Environment) : list (pystr * pystr) :=
  [(py "content-security-policy", CSP);
   (py "cross-origin-opener-policy", py "same-origin");
   (py "cross-origin-resource-policy", py "same-origin");
   (py "permissions-policy", py "camera=(), geolocation=(), microphone=(), payment=(), usb=()");
   (py "referrer-policy", py "no-referrer");
   (py "x-content-type-options", py "nosniff");
   (py "x-frame-options", py "DENY")] ++
  (if bool_decide (environment = PRODUCTION)
   then [(py "strict-transport-security", py "max-age=63072000; includeSubDomains")] else []).

(** [send_with_security_headers] for a [http.response.start] message. *)
Definition with_security_headers `{HeaderList} (environment : Environment) (headers : list (pystr * pystr)) : list (pystr * pystr) :=
  foldl (fun hs kv => set_header kv.1 kv.2 hs) headers (security_headers environment).

(** A response as it leaves the application. *)
Definition sent `{HeaderList} (environment : Environment) (r : WebResponse) : list (pystr * pystr) :=
  with_security_headers environment (map (fun kv => (map to_lower kv.1, kv.2)) (ws_headers r)).

(** ** Lemmas *)

Lemma header_values_cons name k v t :
  header_values name ((k, v) :: t) = (if bool_decide (k = name) then [v] else []) ++ header_values name t.
Proof. unfold header_values. cbn. by destruct (bool_decide _). Qed.

Lemma header_values_absent name headers : name ∉ headers.*1 -> header_values name headers = [].
Proof.
  induction headers as [|[k v] t IH]; [done|]. cbn [fmap list_fmap fst]. intros [Hne Hni]%not_elem_of_cons.
  rewrite header_values_cons, IH, bool_decide_false by congruence. done.
Qed.

Lemma header_values_policy `{HeaderListLaws} name policy headers : NoDup policy.*1 ->
  header_values name (foldl (fun hs kv => set_header kv.1 kv.2 hs) headers policy)
    = match header_values name policy with [] => header_values name headers | v :: _ => [v] end.
Proof.
  revert headers. induction policy as [|[k v] policy IH]; intros headers Hnd; [done|].
  cbn [foldl fst snd]. cbn in Hnd. apply NoDup_cons in Hnd as [Hni Hnd]. rewrite IH, set_header_values, header_values_cons by done.
  destruct (decide (name = k)) as [->|Hn]; [|by rewrite !bool_decide_false].
  rewrite !bool_decide_true by done. cbn [app].
  by rewrite header_values_absent.
Qed.

Lemma sent_values `{HeaderListLaws} environment r name :
  header_values name (sent environment r) =
    match header_values name (security_headers environment) with
    | v :: _ => [v]
    | [] => header_values name (map (fun kv => (map to_lower kv.1, kv.2)) (ws_headers r))
    end.
Proof.
  unfold sent, with_security_headers. apply header_values_policy.
  apply (bool_decide_unpack (NoDup ((security_headers environment).*1))). destruct environment; vm_compute; exact I.
Qed.

(** One list that has the laws: the other headers, then the assigned one. *)
#[local] Instance plain_headers : HeaderList :=
  {| set_header key value headers := List.filter (fun kv => negb (bool_decide (kv.1 = key))) headers ++ [(key, value)] |}.

#[local] Instance plain_headers_laws : HeaderListLaws.
Proof.
  constructor. intros name key value headers. cbn [set_header plain_headers].
  induction headers as [|[k v] t IH]; cbn [List.filter fst app].
  - rewrite header_values_cons. cbn. rewrite app_nil_r.
    destruct (decide (name = key)) as [->|Hn]; [by rewrite !bool_decide_true|]. by rewrite !bool_decide_false.
  - destruct (decide (k = key)) as [->|Hk].
    + rewrite (bool_decide_true (key = key)) by done. cbn [negb]. rewrite IH, header_values_cons.
      case_bool_decide as Hn; [done|]. by rewrite (bool_decide_false (key = name)) by congruence.
    + rewrite (bool_decide_false (k = key)) by done. cbn [negb app]. rewrite !header_values_cons, IH.
      case_bool_decide as Hn; [|done]. subst. by rewrite (bool_decide_false (k = key)) by done.
Qed.

(** ** Properties *)

(** The policy is on every response.  Whatever headers a route sets, the response that leaves
    carries each header of the security policy exactly once with the policy's value, transport
    security in production only unless the route itself set it; every other header is sent as the
    route set it. *)
Theorem policy_on_every_response `{HeaderListLaws} environment r name :
  header_values name (sent environment r) =
    match header_values name (security_headers environment) with
    | v :: _ => [v]
    | [] => header_values name (map (fun kv => (map to_lower kv.1, kv.2)) (ws_headers r))
    end.
Proof. apply sent_values. Qed.

Example policy_on_every_response_witness :
  header_values (py "strict-transport-security")
    (sent PRODUCTION (mkWebResponse 200 (B_text []) [(py "X-Frame-Options", py "SAMEORIGIN")] []))
    = [py "max-age=63072000; includeSubDomains"].
Proof. exact (policy_on_every_response PRODUCTION _ (py "strict-transport-security")). Defined.

(** The logo route asks for a sandbox of its own; what is sent is the policy of the pages. *)
Theorem logo_sandbox_is_overwritten `{HeaderListLaws} environment r w resp w' :
  branding_logo r w = (Ok resp, w') -> header_values (py "content-security-policy") (sent environment resp) = [CSP].
Proof. intros _. rewrite sent_values. by destruct environment. Qed.
