(* ===== verification/Scheduling.v ===== *)
(** Recurring batches and digests (app/scheduling.py): the next occurrence of a cron expression, and
    the leader's tick that dispatches what is due and advances every schedule it touches. *)
From S2P Require Import Prelude PyBase Encoding Hashes Json Models Store Notifications Batches.

Definition LEADER_LOCK_ID : Z := 5114293001.

(** [CronTrigger.from_crontab(cron, timezone=ZoneInfo(timezone))] of APScheduler and the time zone
    database: [None] for an invalid expression or zone, otherwise [get_next_fire_time(None, now)]. *)
Class Cron := crontab : pystr -> pystr -> option (instant -> option instant).
(** The next fire time is never before the reference. *)
Class CronLaws `{Cron} : Prop := {
  crontab_forward : forall cron zone trigger reference next,
    crontab cron zone = Some trigger -> trigger reference = Some next -> reference <= next;
}.

Section Scheduling.
Context `{Unicode} `{Entropy} `{HeapOrder} `{Collation} `{Cron}.
(** [str(exc)]: the model's exceptions carry no text. *)
Variable exn_text : exn -> pystr.

Definition next_fire_time (cron timezone : pystr) (now : instant) : result instant :=
  match crontab cron timezone with
  | None => Raise ScheduleValidationError
  | Some trigger =>
      match trigger (now + 1) with
      | None => Raise ScheduleValidationError
      | Some next_run => Ok next_run
      end
  end.

Definition modify_schedule (id : uuid) (f : Schedule -> Schedule) : M unit :=
  modify_db (fun d => set_schedules (alter f id (schedules d)) d).

Definition schedule_due (tick : instant) (s : Schedule) : bool := sd_enabled s && (sd_next_run_at s <=? tick).
Definition schedule_order (a b : Schedule) : bool :=
  (sd_next_run_at a <? sd_next_run_at b)
  || ((sd_next_run_at a =? sd_next_run_at b) && (sd_id a <=? sd_id b)).

(** The work of one schedule. *)
Definition run_schedule (tick : instant) (s : Schedule) : M unit :=
  if bool_decide (sd_kind s = Schedule_DIGEST) then
    let! _ <- enqueue_digest_notifications (Some tick); mret tt
  else
    let target_type := if bool_decide (sd_kind s = Schedule_SCAN_OU) then Target_OU else Target_DOMAIN in
    let! batch <- create_batch (sd_created_by s) target_type (inl (sd_target s));
    modify_schedule (sd_id s) (set_sd_last_batch_id (Some (sb_id batch))).

(** The body of the loop; the accumulator counts what was dispatched. *)
Definition dispatch_one (tick : instant) (dispatched : Z) (s : Schedule) : M Z :=
  let scheduled_for := sd_next_run_at s in
  let! next <- lift (next_fire_time (sd_cron s) (sd_timezone s) tick);
  do! modify_schedule (sd_id s) (set_sd_next_run_at next);
  if timedelta_seconds (sd_misfire_grace_seconds s) <? tick - scheduled_for then
    do! modify_schedule (sd_id s) (set_sd_last_error (Some (py "misfire grace exceeded")));
    mret dispatched
  else
    let! ok <- try_except (do! run_schedule tick s; mret true) is_value_error
                 (fun e => do! modify_schedule (sd_id s) (set_sd_last_error (Some (slice_to 255 (exn_text e))));
                           mret false);
    if ok then
      do! modify_schedule (sd_id s) (fun s => set_sd_last_error None (set_sd_last_run_at (Some tick) s));
      mret (dispatched + 1)
    else mret dispatched.

(** [leader] is the answer of [pg_try_advisory_xact_lock(LEADER_LOCK_ID)], [locked] the rows that another
    transaction holds, which [SKIP LOCKED] passes over. *)
Definition dispatch_due_schedules (leader : bool) (locked : uuid -> bool) (now : option instant) : M Z :=
  let! wall <- clock;
  let tick := default wall now in
  if negb leader then do! rollback; mret 0
  else
    let! d <- get_db;
    let due := sort_by schedule_order (select (fun s => schedule_due tick s && negb (locked (sd_id s))) (schedules d)) in
    let! dispatched <- mfold (dispatch_one tick) 0 due;
    do! commit;
    mret dispatched.

End Scheduling.

(** ** Lemmas *)

Section SchedulingLemmas.
Context `{Unicode} `{Entropy} `{HeapOrderLaws} `{Collation} `{CronLaws} (exn_text : exn -> pystr).

Lemma next_fire_time_after cron zone now next : next_fire_time cron zone now = Ok next -> now < next.
Proof using Type*.
  unfold next_fire_time. destruct (crontab cron zone) as [trigger|] eqn:Ec; [|done].
  destruct (trigger (now + 1)) as [n|] eqn:En; [|done]. intros [= <-].
  pose proof (crontab_forward _ _ _ _ _ Ec En). lia.
Qed.

Lemma enqueue_notification_keeps user ids template : keeps schedules (enqueue_notification user ids template).
Proof using Type. unfold enqueue_notification. frame. Qed.

Lemma digest_keeps now : keeps schedules (enqueue_digest_notifications now).
Proof using Type. unfold enqueue_digest_notifications. frame. apply enqueue_notification_keeps. Qed.

Lemma create_batch_keeps actor tt_ value : keeps schedules (create_batch actor tt_ value).
Proof using Type. unfold create_batch, enqueue_user, upsert_email_subject. frame. Qed.

Lemma create_batch_notifications actor tt_ value : keeps notifications (create_batch actor tt_ value).
Proof using Type. unfold create_batch, enqueue_user, upsert_email_subject. frame. Qed.

(** What the work of a schedule leaves: a digest queues the message of the day for every active user with
    open findings, as the database is at the schedule's turn; a scan creates a batch of its target for
    its owner, with an item for every active user of the target, and records it. *)
Definition schedule_target (s : Schedule) : BatchTarget :=
  if bool_decide (sd_kind s = Schedule_SCAN_OU) then Target_OU else Target_DOMAIN.
Definition work_done (tick : instant) (d0 d1 : Db) (s : Schedule) (last_batch : option uuid) : Prop :=
  match sd_kind s with
  | Schedule_DIGEST =>
      last_batch = sd_last_batch_id s /\
      exists d, grows d0 d /\ grows d d1 /\
        forall g, g ∈ digest_groups d -> has_notification g.1 g.2 (digest_template tick) d1
  | _ =>
      exists batch, last_batch = Some (sb_id batch) /\
        batch_created (sd_created_by s) (schedule_target s) (inl (sd_target s)) d0 d1 batch
  end.

(** The target of a scan names no active user. *)
Definition target_empty (d : Db) (s : Schedule) : Prop :=
  sd_kind s <> Schedule_DIGEST /\ exists matches target,
    target_filter (schedule_target s) (inl (sd_target s)) = Ok (matches, target) /\ chosen_users matches d = [].

(** What a tick does to a due schedule, between the databases before and after it. *)
Definition dispatched_as (tick : instant) (d0 d1 : Db) (s s' : Schedule) : Prop :=
  tick < sd_next_run_at s' /\ sd_enabled s' = sd_enabled s /\ sd_id s' = sd_id s /\
  if timedelta_seconds (sd_misfire_grace_seconds s) <? tick - sd_next_run_at s
  then sd_last_error s' = Some (py "misfire grace exceeded") /\ sd_last_run_at s' = sd_last_run_at s /\
       sd_last_batch_id s' = sd_last_batch_id s
  else (sd_last_run_at s' = Some tick /\ sd_last_error s' = None /\ work_done tick d0 d1 s (sd_last_batch_id s')) \/
       (sd_last_run_at s' = sd_last_run_at s /\ sd_last_batch_id s' = sd_last_batch_id s /\ target_empty d0 s /\
        exists e, is_value_error e = true /\ sd_last_error s' = Some (slice_to 255 (exn_text e))).

Definition on_time (tick : instant) (s : Schedule) : Prop :=
  (timedelta_seconds (sd_misfire_grace_seconds s) <? tick - sd_next_run_at s) = false.

(** What a schedule adds between two databases: a batch only as its recorded one, a message only as a
    digest. *)
Definition adds (d0 d1 : Db) (s : Schedule) (last_batch : option uuid) : Prop :=
  (forall k, is_Some (scan_batches d1 !! k) ->
     is_Some (scan_batches d0 !! k) \/ sd_kind s <> Schedule_DIGEST /\ last_batch = Some k) /\
  (notifications d1 = notifications d0 \/ sd_kind s = Schedule_DIGEST).
Lemma adds_nothing d0 d1 s b :
  scan_batches d1 = scan_batches d0 -> notifications d1 = notifications d0 -> adds d0 d1 s b.
Proof using Type. intros Hb Hn. split; [rewrite Hb; by left|by left]. Qed.

Lemma has_notification_grows u ids template d d' :
  grows d d' -> has_notification u ids template d -> has_notification u ids template d'.
Proof using Type.
  intros Hg (key&k&n&Hkey&Hn&Hd). exists key, k, n. split; [done|]. split; [|done]. by eapply lookup_weaken, Hg.
Qed.

Lemma work_done_grows tick d0 d d' d1 s b :
  grows d0 d -> grows d' d1 -> work_done tick d d' s b -> work_done tick d0 d1 s b.
Proof using Type.
  intros Hg Hg' Hw. unfold work_done in *. destruct (sd_kind s).
  3: { destruct Hw as (Hb&dm&H1d&H2d&Hall). split; [done|]. exists dm. split; [by etransitivity|].
       split; [by etransitivity|]. intros g Hin. eapply has_notification_grows; [exact Hg'|by apply Hall]. }
  all: destruct Hw as (batch&Hb&Hc); exists batch; split; [done|]; by eapply batch_created_grows.
Qed.

Lemma dispatched_as_grows tick d0 d d' d1 s s' :
  grows d0 d -> grows d' d1 -> dispatched_as tick d d' s s' -> dispatched_as tick d0 d1 s s'.
Proof using Type.
  intros Hg Hg' (Hn&He&Hi&Hc). do 3 (split; [done|]). destruct (_ <? _); [done|].
  destruct Hc as [(Hr&Hl&Hw)|(Hr&Hl&(Hk&matches&target&Ht&Hnone)&He')]; [left|right].
  - split; [done|]. split; [done|]. by eapply work_done_grows.
  - split; [done|]. split; [done|]. split; [|done]. split; [done|]. exists matches, target. split; [done|].
    unfold chosen_users in *. by rewrite <- (grows_users _ _ Hg).
Qed.

Lemma grows_messages d d' :
  not_messages d' = not_messages d -> notifications d ⊆ notifications d' -> grows d d'.
Proof using Type.
  unfold not_messages. intros [= Hu Hf Hs _ _ Hb Hq] Hn. split; try done; [by rewrite Hb|by rewrite Hq|by apply same_subjects].
Qed.

Lemma run_schedule_inv tick s s0 w r w' :
  subjects_keyed (w_db w) -> run_schedule tick s w = (r, w') -> schedules (w_db w) !! sd_id s = Some s0 ->
  sd_last_batch_id s0 = sd_last_batch_id s ->
  match r with
  | Ok _ => exists b, schedules (w_db w') = <[sd_id s := set_sd_last_batch_id b s0]> (schedules (w_db w)) /\
      grows (w_db w) (w_db w') /\ subjects_keyed (w_db w') /\ work_done tick (w_db w) (w_db w') s b /\
      adds (w_db w) (w_db w') s b
  | Raise e => is_value_error e = true -> w_db w' = w_db w /\ target_empty (w_db w) s
  end.
Proof using Type*.
  intros Hkey E Hs Hb0. unfold run_schedule in E. unfold work_done, target_empty. case_bool_decide as Hkind.
  - rewrite Hkind. unfold mbind in E. destruct (enqueue_digest_notifications (Some tick) w) as [[n|e] w1] eqn:Ed.
    + injection E as <- <-. apply digest_spec in Ed as (Hm&Hn&Hall). pose proof (grows_messages _ _ Hm Hn) as Hg.
      exists (sd_last_batch_id s0). unfold not_messages in Hm. injection Hm as _ _ Hsub _ Hsch Hbat _.
      split; [rewrite Hsch; symmetry; apply insert_id; rewrite Hs; by destruct s0|]. split; [done|].
      split; [unfold subjects_keyed; by rewrite Hsub|]. split; [|split; [rewrite Hbat; by left|by right]].
      split; [done|]. exists (w_db w). split; [reflexivity|]. by split.
    + injection E as <- <-. intros He. pose proof (raises_inv _ _ _ _ _ (digest_raises (Some tick)) Ed). congruence.
  - fold (schedule_target s) in E.
    pose proof (create_batch_keeps (sd_created_by s) (schedule_target s) (inl (sd_target s)) w) as [Hd _].
    unfold mbind in E. destruct (create_batch _ _ _ w) as [[batch|e] w1] eqn:Ec; cbn in Hd.
    + assert (Hnotes : notifications (w_db w1) = notifications (w_db w)).
      { match type of Ec with create_batch ?a ?t ?v _ = _ => pose proof (create_batch_notifications a t v w) as [Hn _] end.
        by rewrite Ec in Hn. }
      apply create_batch_spec in Ec as (Hg&Hk1&Hc&Hbat); [|done]. unfold modify_schedule, modify_db, with_db in E.
      injection E as <- <-. exists (Some (sb_id batch)). cbn [w_db schedules set_schedules]. rewrite Hd.
      split; [by apply alter_at|].
      assert (Hg2 : forall f, grows (w_db w1) (set_schedules f (w_db w1))).
      { intros f. apply grows_of; try done. by apply same_subjects. }
      split; [etransitivity; [exact Hg|apply Hg2]|]. split; [exact Hk1|].
      split; cycle 1.
      { split; [|by left]. intros k. cbn [scan_batches set_schedules]. rewrite Hbat.
        destruct (decide (sb_id batch = k)) as [<-|Hne]; [by right|rewrite lookup_insert_ne by done; by left]. }
      destruct (sd_kind s); try done; (exists batch; split; [done|]; eapply batch_created_grows; [reflexivity|apply Hg2|done]).
    + injection E as <- <-. intros He. apply create_batch_value_error in Ec as [-> Hnone]; [by split| |done].
      unfold schedule_target. by destruct (bool_decide _).
Qed.

Lemma grows_schedules d f : grows d (set_schedules f d).
Proof using Type. apply grows_of; try done. by apply same_subjects. Qed.

Lemma dispatch_one_inv tick k s w n w' :
  subjects_keyed (w_db w) ->
  schedules (w_db w) !! sd_id s = Some s -> dispatch_one exn_text tick k s w = (Ok n, w') ->
  exists s', schedules (w_db w') = <[sd_id s := s']> (schedules (w_db w)) /\
    grows (w_db w) (w_db w') /\ subjects_keyed (w_db w') /\ dispatched_as tick (w_db w) (w_db w') s s' /\
    (adds (w_db w) (w_db w') s (sd_last_batch_id s') /\ on_time tick s \/
     scan_batches (w_db w') = scan_batches (w_db w) /\ notifications (w_db w') = notifications (w_db w)).
Proof using Type*.
  intros Hkey Hs. unfold dispatch_one. intros (next&w1&E1&E)%mbind_inv. apply lift_inv in E1 as [Hnext ->].
  apply next_fire_time_after in Hnext. unfold mbind at 1, modify_schedule at 1, modify_db at 1 in E.
  set (s1 := set_sd_next_run_at next s). set (w1 := with_db _ w) in E.
  assert (Hs1 : schedules (w_db w1) = <[sd_id s := s1]> (schedules (w_db w))) by (by apply alter_at).
  assert (Hl1 : schedules (w_db w1) !! sd_id s = Some s1) by (rewrite Hs1; apply lookup_insert_eq).
  assert (Hg1 : grows (w_db w) (w_db w1)) by apply grows_schedules.
  assert (Halt : forall f w2 x, schedules (w_db w2) = <[sd_id s := x]> (schedules (w_db w)) ->
            alter f (sd_id s) (schedules (w_db w2)) = <[sd_id s := f x]> (schedules (w_db w))).
  { intros f w2 x Hw2. rewrite (alter_at f _ x), Hw2 by (rewrite Hw2; apply lookup_insert_eq).
    apply insert_insert_eq. }
  unfold dispatched_as, on_time. destruct (timedelta_seconds _ <? _).
  { unfold mbind, modify_schedule, modify_db, mret in E. injection E as <- <-. eexists.
    split; [by apply (Halt _ w1 s1)|]. split; [etransitivity; [exact Hg1|apply grows_schedules]|].
    split; [exact Hkey|]. split; [by repeat split|by right]. }
  apply mbind_inv in E as (ok&w2&Etry&E). unfold try_except, mbind at 1 in Etry.
  destruct (run_schedule tick s w1) as [r w3] eqn:Er.
  pose proof (run_schedule_inv tick s s1 w1 r w3 Hkey Er Hl1 eq_refl) as Hr.
  destruct r as [u|e].
  - unfold mret in Etry. injection Etry as <- <-. destruct Hr as (b&Hb&Hg3&Hk3&Hw&Hadd). rewrite Hs1, insert_insert_eq in Hb.
    unfold mbind, modify_schedule, modify_db, mret in E. injection E as <- <-. eexists.
    split; [by apply (Halt _ w3 _ Hb)|]. cbn [w_db with_db].
    assert (Hgs : grows (w_db w3) (set_schedules (alter (fun s => set_sd_last_error None (set_sd_last_run_at (Some tick) s))
      (sd_id s) (schedules (w_db w3))) (w_db w3))) by apply grows_schedules.
    split; [etransitivity; [exact Hg1|]; etransitivity; [exact Hg3|exact Hgs]|]. split; [exact Hk3|].
    split; [|by left; split; [exact Hadd|done]].
    split; [done|]. split; [done|]. split; [done|]. left. split; [done|]. split; [done|].
    cbn [sd_last_batch_id set_sd_last_error set_sd_last_run_at set_sd_last_batch_id].
    by apply (work_done_grows tick (w_db w) (w_db w1) (w_db w3)).
  - destruct (is_value_error e) eqn:Ee; [|done]. destruct (Hr eq_refl) as [Hdb Hempty].
    unfold mbind, modify_schedule, modify_db, mret in Etry.
    injection Etry as <- <-. unfold mret in E. injection E as <- <-. eexists.
    assert (Hw3 : schedules (w_db w3) = <[sd_id s := s1]> (schedules (w_db w))) by by rewrite Hdb.
    split; [by apply (Halt _ w3 s1 Hw3)|]. cbn [w_db with_db]. rewrite Hdb.
    split; [etransitivity; [exact Hg1|apply grows_schedules]|]. split; [exact Hkey|].
    split; [|by right].
    split; [done|]. split; [done|]. split; [done|]. right. split; [done|]. split; [done|]. split; [exact Hempty|].
    by exists e.
Qed.

Lemma dispatch_all_inv tick l k w n w' :
  subjects_keyed (w_db w) ->
  NoDup (map sd_id l) -> (forall s, s ∈ l -> schedules (w_db w) !! sd_id s = Some s) ->
  mfold (dispatch_one exn_text tick) k l w = (Ok n, w') ->
  grows (w_db w) (w_db w') /\
  (forall i, i ∉ map sd_id l -> schedules (w_db w') !! i = schedules (w_db w) !! i) /\
  (forall s, s ∈ l -> exists s', schedules (w_db w') !! sd_id s = Some s' /\
     dispatched_as tick (w_db w) (w_db w') s s') /\
  (forall k, is_Some (scan_batches (w_db w') !! k) -> is_Some (scan_batches (w_db w) !! k) \/
     exists s s', s ∈ l /\ schedules (w_db w') !! sd_id s = Some s' /\ on_time tick s /\
       sd_kind s <> Schedule_DIGEST /\ sd_last_batch_id s' = Some k) /\
  (notifications (w_db w') = notifications (w_db w) \/
     exists s, s ∈ l /\ on_time tick s /\ sd_kind s = Schedule_DIGEST).
Proof using Type*.
  revert k w. induction l as [|s l IH]; intros k w Hkey Hnd Hin; cbn [mfold].
  { intros [= <- <-]. split; [reflexivity|]. split; [done|]. split; [intros s Hs; by apply elem_of_nil in Hs|].
    split; [by left|by left]. }
  intros (k1&w1&E1&E)%mbind_inv. cbn [map] in Hnd. apply NoDup_cons in Hnd as [Hnotin Hnd].
  apply dispatch_one_inv in E1 as (s'&Hw1&Hg1&Hkey1&Hd&Hadd); [|done|apply Hin; left].
  assert (Hkeep : forall x, x ∈ l -> schedules (w_db w1) !! sd_id x = Some x).
  { intros x Hx. rewrite Hw1, lookup_insert_ne; [apply Hin; by right|]. intros Heq. apply Hnotin. rewrite Heq.
    apply list_elem_of_fmap. by exists x. }
  destruct (IH k1 w1 Hkey1 Hnd Hkeep E) as (Hg&Hother&Hall&Hbat&Hnote). split; [by etransitivity|].
  assert (Hs' : schedules (w_db w') !! sd_id s = Some s') by (rewrite (Hother _ Hnotin), Hw1; apply lookup_insert_eq).
  split; [|split; [|split]].
  - cbn [map]. intros i Hi. apply not_elem_of_cons in Hi as [Hi1 Hi2]. by rewrite (Hother i Hi2), Hw1, lookup_insert_ne.
  - intros x [->|Hx]%elem_of_cons.
    + exists s'. split; [done|]. by eapply dispatched_as_grows; [reflexivity|exact Hg|].
    + destruct (Hall x Hx) as (x'&Hx'&Hdx). exists x'. split; [done|]. by eapply dispatched_as_grows; [exact Hg1|reflexivity|].
  - intros i [Hi|(x&x'&Hx&Hrest)]%Hbat; [|right; exists x, x'; split; [by right|done]].
    destruct Hadd as [[[Hb _] Ht]|[Hb _]]; [|left; by rewrite Hb in Hi].
    apply Hb in Hi as [Hi|[Hk Hl]]; [by left|right]. exists s, s'. split; [left|by repeat split].
  - destruct Hnote as [Hn|(x&Hx&Hrest)]; [|right; exists x; split; [by right|done]]. rewrite Hn.
    destruct Hadd as [[[_ [Hb|Hk]] Ht]|[_ Hb]]; [by left| |by left]. right. exists s. split; [left|by split].
Qed.

Definition schedules_keyed (d : Db) : Prop := forall k s, schedules d !! k = Some s -> sd_id s = k.

Lemma due_nodup p d : schedules_keyed d -> NoDup (map sd_id (sort_by schedule_order (select p (schedules d)))).
Proof using Type*. intros Hk. rewrite (sort_by_perm schedule_order). by apply select_nodup. Qed.

End SchedulingLemmas.

(** ** Properties *)

Section SchedulingProperties.
Context `{Unicode} `{Entropy} `{HeapOrderLaws} `{Collation} `{CronLaws} (exn_text : exn -> pystr).

(** C15: A tick of the leader that returns handles every due schedule exactly once.  Each enabled
    schedule that is due, and whose row no other transaction holds, ends with its next occurrence after
    the tick.  One that is later than its grace is only marked as a misfire.  Every other one either
    has run at the tick, which for a digest means the message of the day to every active user with
    open findings, and for a scan a new batch of its target, for its owner, with an item for every
    active user of the target, recorded on the schedule; or its target names no active user, and it
    carries the error.  Nothing else adds a batch or a message, the other schedules keep their rows,
    and everything is committed.  A second dispatch at the same tick that finds those rows held still,
    by any worker, dispatches nothing and changes nothing. *)
Theorem dispatch_once_per_tick locked tick w n w1 :
  schedules_keyed (w_db w) -> subjects_keyed (w_db w) ->
  dispatch_due_schedules exn_text true locked (Some tick) w = (Ok n, w1) ->
  (forall k s, schedules (w_db w) !! k = Some s ->
     if schedule_due tick s && negb (locked k)
     then exists s', schedules (w_db w1) !! k = Some s' /\ dispatched_as exn_text tick (w_db w) (w_db w1) s s'
     else schedules (w_db w1) !! k = Some s) /\
  (forall k, is_Some (scan_batches (w_db w1) !! k) -> is_Some (scan_batches (w_db w) !! k) \/
     exists s s', schedules (w_db w) !! sd_id s = Some s /\ schedule_due tick s = true /\ on_time tick s /\
       sd_kind s <> Schedule_DIGEST /\ schedules (w_db w1) !! sd_id s = Some s' /\ sd_last_batch_id s' = Some k) /\
  (notifications (w_db w1) = notifications (w_db w) \/
     exists s, schedules (w_db w) !! sd_id s = Some s /\ schedule_due tick s = true /\ on_time tick s /\
       sd_kind s = Schedule_DIGEST) /\
  w_committed w1 = w_db w1 /\
  forall leader locked', (forall k, locked k = true -> locked' k = true) ->
    exists w2, dispatch_due_schedules exn_text leader locked' (Some tick) w1 = (Ok 0, w2) /\
    w_db w2 = w_db w1 /\ w_committed w2 = w_committed w1.
Proof using Type*.
  intros Hk Hsub. unfold dispatch_due_schedules at 1. unfold mbind at 1, clock at 1. cbn [negb].
  change (default (w_now w) (Some tick)) with tick.
  unfold mbind at 1, get_db at 1. set (due := sort_by _ _). intros (m&w2&E&E2)%mbind_inv.
  unfold mbind, commit, mret in E2. injection E2 as <- <-. cbn [w_db w_committed].
  assert (Hdue : forall s, s ∈ due <-> schedule_due tick s && negb (locked (sd_id s)) = true /\
                                     exists k, schedules (w_db w) !! k = Some s).
  { intros s. unfold due. rewrite (sort_by_perm schedule_order), elem_of_select. done. }
  assert (Hat : forall s, s ∈ due -> schedules (w_db w) !! sd_id s = Some s /\ schedule_due tick s = true).
  { intros s [Hd [k Hs]]%Hdue. rewrite (Hk k s Hs). apply andb_true_iff in Hd as [Hd _]. by split. }
  destruct (dispatch_all_inv exn_text tick due 0 w m w2) as (Hg&Hother&Hall&Hbat&Hnote);
    [done|by apply due_nodup|intros s Hs; by apply Hat|done|].
  assert (Hrows : forall k s, schedules (w_db w) !! k = Some s ->
     if schedule_due tick s && negb (locked k)
     then exists s', schedules (w_db w2) !! k = Some s' /\ dispatched_as exn_text tick (w_db w) (w_db w2) s s'
     else schedules (w_db w2) !! k = Some s).
  { intros k s Hs. pose proof (Hk k s Hs) as Hid. destruct (_ && _) eqn:Ed.
    - rewrite <- Hid. apply Hall, Hdue. rewrite Hid. eauto.
    - rewrite Hother; [done|]. intros Hin. apply list_elem_of_fmap in Hin as (x&Hx&Hin).
      apply Hdue in Hin as [Hd [k' Hx']]. pose proof (Hk k' x Hx'). assert (k' = k) as -> by congruence. congruence. }
  split; [done|]. split.
  { intros k [Hi|(s&s'&Hin&Hs'&Ht&Hkd&Hl)]%Hbat; [by left|right]. destruct (Hat s Hin). by exists s, s'. }
  split.
  { destruct Hnote as [Hn|(s&Hin&Ht&Hkd)]; [by left|right]. destruct (Hat s Hin). by exists s. }
  split; [done|]. intros leader locked' Hlock. unfold dispatch_due_schedules, mbind at 1, clock.
  destruct leader; cbn [negb].
  2: { eexists. split; [reflexivity|]. by split. }
  unfold mbind at 1, get_db. cbn [w_db default].
  assert (Hnone : select (fun s => schedule_due tick s && negb (locked' (sd_id s))) (schedules (w_db w2)) = []).
  { apply select_nil. intros k s' Hs'. apply andb_false_iff. destruct (schedule_due tick s') eqn:Ed'; [right|by left].
    apply negb_false_iff, Hlock. unfold schedule_due in Ed'. apply andb_true_iff in Ed' as [Hen Hle].
    assert (Hnew : schedules (w_db w2) !! k = schedules (w_db w) !! k -> locked (sd_id s') = true).
    { intros Hsame. rewrite Hs' in Hsame. symmetry in Hsame. pose proof (Hk k s' Hsame) as ->.
      specialize (Hrows k s' Hsame). unfold schedule_due in Hrows. rewrite Hen, Hle in Hrows. cbn in Hrows.
      destruct (locked k); [done|]. cbn in Hrows. destruct Hrows as (s2&Hs2&Hlt&_). rewrite Hs' in Hs2.
      injection Hs2 as <-. apply Z.leb_le in Hle. lia. }
    destruct (schedules (w_db w) !! k) as [s|] eqn:Hs.
    - specialize (Hrows k s Hs). destruct (_ && _) eqn:Ed.
      + destruct Hrows as (s2&Hs2&Hlt&_). rewrite Hs' in Hs2. injection Hs2 as <-. apply Z.leb_le in Hle. lia.
      + apply Hnew. by rewrite Hrows.
    - exfalso. rewrite Hother in Hs'; [congruence|]. intros Hin. apply list_elem_of_fmap in Hin as (x&Hx&Hin).
      apply Hdue in Hin as [_ [k' Hx']]. pose proof (Hk k' x Hx'). congruence. }
  match goal with |- context [select ?p ?t] => change (select p t) with
    (select (fun s => schedule_due tick s && negb (locked' (sd_id s))) (schedules (w_db w2))) end.
  rewrite Hnone. cbn [sort_by mfold]. unfold mbind, mret, commit. eexists. split; [reflexivity|]. by split.
Qed.

End SchedulingProperties.

(** A trigger that fires on every full minute, and two overdue schedules: one within its grace, one
    beyond it. *)
Definition every_minute : Cron := fun _ _ => Some (fun reference => Some (- (- reference / 60000000) * 60000000)).
#[export] Instance every_minute_laws : @CronLaws every_minute.
Proof.
  constructor. intros cron zone trigger reference next [= <-] [= <-]. Z.div_mod_to_equations. lia.
Qed.
Definition sample_schedule (id : uuid) (kind : ScheduleKind) (target : pystr) (next : instant) : Schedule :=
  mkSchedule id kind target (py "* * * * *") (py "UTC") true 300 None None next None 7 0.
Definition schedule_world : World :=
  let d := set_users {[7 := batch_user 7 (py "/staff")]}
    (set_schedules {[1 := sample_schedule 1 Schedule_DIGEST [] 1000000000;
                     2 := sample_schedule 2 Schedule_DIGEST [] 100000000;
                     3 := sample_schedule 3 Schedule_SCAN_OU (py "/staff") 1000000000]} empty_db) in
  mkWorld d d 0 1000000000.
Definition schedule_tick : result Z * World :=
  @dispatch_due_schedules ascii_unicode counting_entropy plain_heap ascii_collation every_minute
    exn_name true (fun _ => false) (Some 1000000000) schedule_world.

Lemma dispatch_once_per_tick_witness :
  (exists s', schedules (w_db schedule_tick.2) !! 2 = Some s' /\ sd_last_error s' = Some (py "misfire grace exceeded")) /\
  exists s' batch, schedules (w_db schedule_tick.2) !! 3 = Some s' /\ sd_last_batch_id s' = Some (sb_id batch) /\
    scan_batches (w_db schedule_tick.2) !! sb_id batch = Some batch /\ sb_target_type batch = Target_OU.
Proof.
  assert (Hr : schedule_tick.1 = Ok 2) by (vm_compute; reflexivity).
  assert (Herr : (sd_last_error <$> schedules (w_db schedule_tick.2) !! 3) = Some None) by (vm_compute; reflexivity).
  destruct schedule_tick as [r w1] eqn:E. cbn [fst snd] in *. subst r. unfold schedule_tick in E.
  destruct (@dispatch_once_per_tick ascii_unicode counting_entropy plain_heap
    (Build_HeapOrderLaws plain_heap (fun A l => reflexivity l)) ascii_collation every_minute every_minute_laws
    exn_name (fun _ => false) 1000000000 schedule_world 2 w1) as (Hrows&_).
  - refine (keyed_check sd_id _ _). vm_compute. reflexivity.
  - refine (keyed_check su_id _ _). vm_compute. reflexivity.
  - exact E.
  - split.
    + destruct (Hrows 2 (sample_schedule 2 Schedule_DIGEST [] 100000000) eq_refl) as (s'&Hs'&_&_&_&He&_).
      exists s'. split; [exact Hs'|exact He].
    + destruct (Hrows 3 (sample_schedule 3 Schedule_SCAN_OU (py "/staff") 1000000000) eq_refl) as (s'&Hs'&_&_&_&Hcase).
      cbn in Hcase. destruct Hcase as [(_&_&batch&Hl&matches&target&_&_&Hb&Ht&_)|(_&_&_&e&_&He)].
      * exists s', batch. split; [exact Hs'|]. split; [exact Hl|]. split; [exact Hb|exact Ht].
      * exfalso. rewrite Hs' in Herr. injection Herr as Herr. rewrite He in Herr. discriminate Herr.
Defined.
