(* ===== verification/Scans.v ===== *)
(** Scans: one query ingested and accounted (app/scans.py), the task that runs it after the response
    and what it leaves behind when anything fails (app/scan_runtime.py). *)
From S2P Require Import Prelude PyBase Encoding Hashes Json Models Store Normalization Config Aead.
From S2P Require Import FindingCrypto PlatformSettings Retention LeakCheck Ingest Notifications Alerts Batches Scheduling.
From Stdlib Require Import QArith.QArith_base.
Local Open Scope Z_scope.

(** What the scan asks of its client: an answer or an exception, and no access to the database. *)
Class QueryClient := client_query : QueryType -> pystr -> M QueryResult.
Class QueryClientLaws `{QueryClient} : Prop := {
  client_query_keeps : forall T (part : Db -> T) query_type query, keeps part (client_query query_type query);
}.

Definition all_query_types : list QueryType :=
  [Query_EMAIL; Query_DOMAIN; Query_USERNAME; Query_PHONE; Query_ORIGIN; Query_PASSWORD].
(** [QueryType(value)] *)
Definition QueryType_of (value : pystr) : result QueryType :=
  of_option (List.find (fun q => bool_decide (QueryType_value q = value)) all_query_types) ValueError.

Definition aware (t : instant) : pydatetime := mkDatetime t (Some 0).

Section Scans.
Context `{Unicode} `{Aead} `{Entropy} `{HeapOrder}.

(** Assignments to the attributes of a loaded row. *)
Definition modify_scan (id : uuid) (f : Scan -> Scan) : M unit :=
  modify_db (fun d => set_scans (alter f id (scans d)) d).
Definition modify_subject (id : uuid) (f : Subject -> Subject) : M unit :=
  modify_db (fun d => set_subjects (alter f id (subjects d)) d).

Definition started (at_ : instant) (s : Scan) : Scan :=
  set_sc_started_at (Some at_) (set_sc_status Scan_RUNNING s).
Definition first_scanned (at_ : instant) (s : Subject) : Subject :=
  match su_first_scanned_at s with None => set_su_first_scanned_at (Some at_) s | Some _ => s end.
Definition failed (at_ : instant) (e : exn) (s : Scan) : Scan :=
  set_sc_error (Some (exn_name e)) (set_sc_finished_at (Some at_) (set_sc_status Scan_FAILED s)).
Definition completed (result : QueryResult) (summary : IngestSummary) (at_ : instant) (s : Scan) : Scan :=
  set_sc_error None (set_sc_truncated (qr_truncated result) (set_sc_quota (qr_quota result)
    (set_sc_new_count (is_new_count summary) (set_sc_result_count (Z.of_nat (length (qr_records result)))
      (set_sc_finished_at (Some at_) (set_sc_status Scan_SUCCEEDED s)))))).

Definition complete_scan (scan_id subject_id : uuid) (result : QueryResult) (summary : IngestSummary)
    (at_ : instant) : M unit :=
  do! modify_scan scan_id (completed result summary at_);
  modify_subject subject_id (set_su_last_scanned_at (Some at_)).

Definition run_scan `{QueryClient} `{IngestRepository} (settings : Settings) (scan : Scan) (subject : Subject)
    (query : pystr) (now : option pydatetime) : M IngestSummary :=
  let! started_at <- utc_now_m now;
  do! modify_scan (sc_id scan) (started started_at);
  do! modify_subject (su_id subject) (first_scanned started_at);
  let! rs <- try_except
    (let! query_type <- lift (QueryType_of (SubjectKind_value (su_kind subject)));
     let! result <- client_query query_type query;
     let! summary <- ingest_records settings subject (qr_records result) (sc_requested_by scan)
                       (Some (aware started_at));
     mret (result, summary))
    is_exception
    (fun e => do! modify_scan (sc_id scan) (failed started_at e);
              do! modify_subject (su_id subject) (set_su_last_scanned_at (Some started_at));
              raise e);
  let '(result, summary) := rs in
  do! complete_scan (sc_id scan) (su_id subject) result summary started_at;
  mret summary.

(** ** The background task *)

(** The flush of the scan's assignments. When the database refuses the row (a quota that its [INTEGER]
    column cannot hold), the transaction is rolled back and the session is inactive, which [false] says:
    until it is rolled back, everything but a rollback raises. *)
Definition flush_scan (scan_id : uuid) : M bool :=
  let! d <- get_db;
  match scans d !! scan_id with
  | Some scan => if Scan_ok scan then mret true else do! rollback; mret false
  | None => mret true
  end.

(** The queueing after a scan, whose failure is only logged; whether the session is still active.
    [begin_nested] flushes before it sets its savepoint, so a refused row fails inside the [try], and
    its exception is swallowed like the others. *)
Definition post_scan (scan_id : uuid) (subject : Subject) (summary : IngestSummary) : M bool :=
  let! active <- flush_scan scan_id;
  if active then
    do! try_except
      (begin_nested
        (do! enqueue_new_findings subject (is_new_finding_ids summary);
         let! _ <- fanout_watchlisted_findings subject (is_new_finding_ids summary);
         mret tt))
      is_exception (fun _ => mret tt);
    mret true
  else mret false.

Definition record_scan_failure (scan_id subject_id : uuid) (e : exn) : M unit :=
  do! rollback;
  let! failed_at <- clock;
  do! modify_scan scan_id (failed failed_at e);
  do! modify_subject subject_id (set_su_last_scanned_at (Some failed_at));
  commit.

Definition execute_scan `{QueryClient} (settings : Settings) (scan_id subject_id : uuid) (query : pystr)
  : M unit :=
  session_scope (
    let! d <- get_db;
    match scans d !! scan_id, subjects d !! subject_id with
    | Some scan, Some subject =>
        let! started_at <- clock;
        do! modify_scan scan_id (started started_at);
        do! modify_subject subject_id (first_scanned started_at);
        do! commit;
        let! active <- try_except
          (let! summary <- @run_scan _ SQLAlchemyIngestRepository settings scan subject query None;
           let! active <- post_scan scan_id subject summary;
           mret (Some active))
          is_exception
          (fun e => do! record_scan_failure scan_id subject_id e; mret None);
        match active with
        | Some true => commit
        | Some false => raise PendingRollbackError  (* [commit] in an inactive session *)
        | None => mret tt
        end
    | _, _ => mret tt
    end).

(** The upsert of an interactive scan's subject. *)
Definition resolve_subject (normalized : NormalizedSubject) (linked_user_id : option uuid) : M Subject :=
  let! id <- uuid4;
  let! d <- get_db;
  match find_row (same_subject (ns_kind normalized) (ns_value_norm normalized)) (subjects d) with
  | Some s =>
      let s := set_su_value_display (ns_value_display normalized) s in
      let s := match linked_user_id with Some _ => set_su_linked_user_id linked_user_id s | None => s end in
      do! modify_db (fun d => set_subjects (<[su_id s := s]> (subjects d)) d);
      mret s
  | None =>
      let s := mkSubject id (ns_kind normalized) (ns_value_norm normalized) (ns_value_display normalized)
                 None None linked_user_id in
      let! t <- lift (insert_row true id s (subjects d));
      do! modify_db (set_subjects t);
      mret s
  end.

Definition actor_scan_lock (actor_id : uuid) : Z :=
  from_bytes_signed (take 8 (sha256 (py "leakcheck/interactive-scan/v1" ++ 0 :: uuid_bytes actor_id))).

(** The row of a new scan; its subject must exist. *)
Definition insert_scan (scan : Scan) : M unit :=
  let! d <- get_db;
  let! t <- lift (insert_row (Scan_ok scan && bool_decide (is_Some (subjects d !! sc_subject_id scan)))
                    (sc_id scan) scan (scans d));
  modify_db (set_scans t).

(** ** Clients from settings *)

Definition CLIENT_KEYS : list SettingKey :=
  [LEAKCHECK_API_KEY; LEAKCHECK_RPS; LEAKCHECK_CONCURRENCY; LEAKCHECK_MAX_RESPONSE_BYTES].

Definition setting_int (values : SettingValues) (key : SettingKey) (default_ minimum maximum : Z) : result Z :=
  try! value <- match values_get key values with None => Ok default_ | Some raw => py_int raw end;
  if (minimum <=? value) && (value <=? maximum) then Ok value else Raise PlatformSettingError.

Definition client_from_platform_values (values : SettingValues) : result (LeakCheckClient * ClientState) :=
  try! requests_per_second <- setting_int values LEAKCHECK_RPS 3 1 20;
  try! concurrency <- setting_int values LEAKCHECK_CONCURRENCY 3 1 50;
  try! max_response_bytes <- setting_int values LEAKCHECK_MAX_RESPONSE_BYTES (32 * 1024 * 1024) 1024
                               (128 * 1024 * 1024);
  make_client (default [] (values_get LEAKCHECK_API_KEY values)) (inject_Z requests_per_second) concurrency
    max_response_bytes 3 100 5 (inject_Z 30).

(** The keys are ordered by their value. *)
Definition client_config_digest (values : SettingValues) : result bytes :=
  try! parts <- rmap (fun key =>
      try! encoded <- utf8_encode (default [] (values_get key values));
      try! name <- ascii_encode (SettingKey_value key);
      try! len <- to_bytes 4 (Z.of_nat (length encoded));
      Ok (name ++ len ++ encoded))
    [LEAKCHECK_API_KEY; LEAKCHECK_CONCURRENCY; LEAKCHECK_MAX_RESPONSE_BYTES; LEAKCHECK_RPS];
  Ok (sha256 (concat parts)).

(** The cached client of a web process and the digest it was built from. *)
Definition configured_client (store : PlatformSettingsStore)
    (cached : option ((LeakCheckClient * ClientState) * bytes)) : M ((LeakCheckClient * ClientState) * bytes) :=
  let! values <- read_many store CLIENT_KEYS;
  let! digest <- lift (client_config_digest values);
  match cached with
  | Some (client, d) =>
      if bool_decide (d = digest) then mret (client, d)
      else let! c <- lift (client_from_platform_values values); mret (c, digest)
  | None => let! c <- lift (client_from_platform_values values); mret (c, digest)
  end.

End Scans.

(** ** Lemmas *)

(** The tables that ingest and queueing leave alone. *)
Definition scan_rows (d : Db)
  : gmap uuid Scan * gmap uuid Subject * (gmap uuid ScanQueue * gmap uuid ScanBatch * gmap uuid Schedule) :=
  (scans d, subjects d, (scan_queue d, scan_batches d, schedules d)).

Section ScanLemmas.
Context `{Unicode} `{Aead} `{Entropy} `{HeapOrder} `{QueryClientLaws}.
#[local] Existing Instance SQLAlchemyIngestRepository.

Lemma protect_password_keeps {T} (part : Db -> T) settings id p : keeps part (protect_password settings id p).
Proof using Type. unfold protect_password. frame. Qed.

Lemma ingest_keeps settings subject records actor now :
  keeps scan_rows (ingest_records settings subject records actor now).
Proof using Type.
  unfold ingest_records, ingest_record, build_finding_draft. cbn [resolve_source upsert_finding
    find_remediated_predecessor link_releak add_event SQLAlchemyIngestRepository].
  unfold sql_resolve_source, sql_upsert_finding, sql_find_remediated_predecessor, sql_link_releak, sql_add_event.
  frame; apply protect_password_keeps.
Qed.

Definition queueing (subject : Subject) (summary : IngestSummary) : M unit :=
  try_except
    (begin_nested
      (do! enqueue_new_findings subject (is_new_finding_ids summary);
       let! _ <- fanout_watchlisted_findings subject (is_new_finding_ids summary);
       mret tt))
    is_exception (fun _ => mret tt).

Lemma queueing_keeps subject summary : keeps scan_rows (queueing subject summary).
Proof using Type.
  unfold queueing, enqueue_new_findings, fanout_watchlisted_findings, fanout_one, enqueue_alert, enqueue_notification.
  frame.
Qed.

(** The rows of a scan are kept and the session is active, or the row does not fit and everything since
    the last commit is gone. *)
Lemma post_scan_inv scan_id subject summary w r w' scan :
  post_scan scan_id subject summary w = (r, w') -> scans (w_db w) !! scan_id = Some scan ->
  w_committed w' = w_committed w /\
  match r with
  | Ok active => active = Scan_ok scan /\ if active then scan_rows (w_db w') = scan_rows (w_db w) else w_db w' = w_committed w
  | Raise _ => True
  end.
Proof using Type.
  intros E Hs. unfold post_scan, flush_scan in E. fold (queueing subject summary) in E.
  unfold mbind at 1 2, get_db at 1 in E. rewrite Hs in E. destruct (Scan_ok scan) eqn:Hok.
  - pose proof (queueing_keeps subject summary w) as [Hk Hc]. unfold mret, mbind in E.
    destruct (queueing subject summary w) as [[u|e] w1]; injection E as <- <-; cbn in Hk, Hc; by split.
  - unfold mret, mbind, rollback in E. injection E as <- <-. by split.
Qed.

Lemma scan_attempt_keeps settings subject actor query at_ :
  keeps scan_rows
    (let! query_type <- lift (QueryType_of (SubjectKind_value (su_kind subject)));
     let! result <- client_query query_type query;
     let! summary <- ingest_records settings subject (qr_records result) actor (Some (aware at_));
     mret (result, summary)).
Proof using Type*.
  apply keeps_bind; [apply keeps_lift|intros query_type].
  apply keeps_bind; [apply client_query_keeps|intros result].
  apply keeps_bind; [apply ingest_keeps|intros summary; apply keeps_mret].
Qed.

(** The rows of a scan and its subject, somewhere in the database. *)
Definition rows (scan_id subject_id : uuid) (scan : Scan) (subject : Subject) (d : Db) : Prop :=
  scans d !! scan_id = Some scan /\ subjects d !! subject_id = Some subject.

Lemma rows_modify sid bid s b f g d :
  rows sid bid s b d ->
  rows sid bid (f s) (g b)
    (set_subjects (alter g bid (subjects d)) (set_scans (alter f sid (scans d)) d)).
Proof using Type. intros [Hs Hb]. split; cbn; rewrite lookup_alter_eq; [by rewrite Hs|by rewrite Hb]. Qed.

Lemma rows_same sid bid s b d d' : scan_rows d' = scan_rows d -> rows sid bid s b d -> rows sid bid s b d'.
Proof using Type. unfold scan_rows, rows. intros [= -> -> _ _ _]. done. Qed.

(** What the client answered to the scan of [query], and what the ingest made of the answer. *)
Definition answered (settings : Settings) (scan : Scan) (subject : Subject) (query : pystr) (at_ : instant)
    (result : QueryResult) (summary : IngestSummary) : Prop :=
  exists query_type v v1 v2, QueryType_of (SubjectKind_value (su_kind subject)) = Ok query_type /\
    client_query query_type query v = (Ok result, v1) /\
    ingest_records settings subject (qr_records result) (sc_requested_by scan) (Some (aware at_)) v1 = (Ok summary, v2).

Lemma run_scan_inv settings scan subject query w r w' s b :
  run_scan settings scan subject query None w = (r, w') ->
  rows (sc_id scan) (su_id subject) s b (w_db w) ->
  w_committed w' = w_committed w /\
  match r with
  | Ok summary => exists result at_, answered settings scan subject query at_ result summary /\
      rows (sc_id scan) (su_id subject) (completed result summary at_ (started at_ s))
        (set_su_last_scanned_at (Some at_) (first_scanned at_ b)) (w_db w')
  | Raise _ => True
  end.
Proof using Type*.
  intros E Hrows. unfold run_scan in E. unfold mbind at 1, utc_now_m, utc_now in E. set (at_ := w_now w) in E.
  unfold mbind at 1, modify_scan at 1, modify_db at 1 in E. unfold mbind at 1, modify_subject at 1, modify_db at 1 in E.
  match type of E with mbind _ _ ?w0 = _ => set (w1 := w0) in E end.
  assert (Hr1 : rows (sc_id scan) (su_id subject) (started at_ s) (first_scanned at_ b) (w_db w1))
    by exact (rows_modify _ _ _ _ (started at_) (first_scanned at_) (w_db w) Hrows).
  assert (Hc1 : w_committed w1 = w_committed w) by done. clearbody w1.
  pose proof (scan_attempt_keeps settings subject (sc_requested_by scan) query at_ w1) as [Hk Hc].
  unfold mbind at 1, try_except in E.
  match type of Hk with context [(?c w1).2] => set (attempt := c) in *; destruct (attempt w1) as [[[result summary]|e] w2] eqn:Ea end.
  - cbn [snd] in Hk, Hc. unfold complete_scan, modify_scan, modify_subject, modify_db, mbind, mret, with_db in E.
    injection E as <- <-. cbn. split; [congruence|]. exists result, at_. split.
    + unfold attempt in Ea. apply mbind_inv in Ea as (qt&v&[Hqt ->]%lift_inv&Ea).
      apply mbind_inv in Ea as (res&v1&Hq&Ea). apply mbind_inv in Ea as (sm&v2&Hi&Ea).
      injection Ea as <- <- _. by exists qt, w1, v1, v2.
    + refine (rows_modify (sc_id scan) (su_id subject) _ _ (completed result summary at_)
        (set_su_last_scanned_at (Some at_)) (w_db w2) _).
      by apply (rows_same _ _ _ _ (w_db w1)).
  - cbn [snd] in Hk, Hc. destruct (is_exception e).
    + unfold modify_scan, modify_subject, modify_db, mbind, raise, with_db in E. injection E as <- <-. cbn.
      split; [congruence|done].
    + injection E as <- <-. split; [congruence|done].
Qed.

Lemma record_failure_eq sid bid e w :
  exists w', record_scan_failure sid bid e w = (Ok tt, w') /\ w_committed w' = w_db w' /\
    w_db w' = set_subjects (alter (set_su_last_scanned_at (Some (w_now w))) bid (subjects (w_committed w)))
                (set_scans (alter (failed (w_now w) e) sid (scans (w_committed w))) (w_committed w)).
Proof using Type.
  unfold record_scan_failure, mbind, rollback, clock, modify_scan, modify_subject, modify_db, commit, with_db. cbn.
  eexists. split; [reflexivity|]. by split.
Qed.

Lemma started_again a b s : started a (started b s) = started a s.
Proof using Type. by destruct s. Qed.

(** The block of the task that an exception sends to [record_scan_failure]. *)
Lemma scan_block_inv settings scan subject query w r w' s b :
  (let! summary <- run_scan settings scan subject query None;
   let! active <- post_scan (sc_id scan) subject summary;
   mret (Some active)) w = (r, w') ->
  rows (sc_id scan) (su_id subject) s b (w_db w) ->
  w_committed w' = w_committed w /\
  match r with
  | Ok active => exists result summary at_, answered settings scan subject query at_ result summary /\
      let scan' := completed result summary at_ (started at_ s) in
      active = Some (Scan_ok scan') /\
      if Scan_ok scan' then rows (sc_id scan) (su_id subject) scan'
        (set_su_last_scanned_at (Some at_) (first_scanned at_ b)) (w_db w')
      else w_db w' = w_committed w
  | Raise _ => True
  end.
Proof using Type*.
  intros E Hrows. unfold mbind at 1 in E.
  destruct (run_scan settings scan subject query None w) as [r1 w1] eqn:Er.
  destruct (run_scan_inv _ _ _ _ _ _ _ _ _ Er Hrows) as [Hc Hr].
  destruct r1 as [summary|e]; [|injection E as <- <-; by split].
  destruct Hr as (result&at_&Hans&Hr). unfold mbind in E.
  destruct (post_scan (sc_id scan) subject summary w1) as [r2 w2] eqn:Ep.
  destruct (post_scan_inv _ _ _ _ _ _ _ Ep (proj1 Hr)) as [Hc2 Hp].
  destruct r2 as [active|e]; injection E as <- <-; [|split; [congruence|done]].
  destruct Hp as [Ha Hp]. split; [congruence|]. exists result, summary, at_. split; [done|]. cbv zeta.
  split; [by rewrite Ha|]. rewrite <- Ha. destruct active; [by apply (rows_same _ _ _ _ (w_db w1))|congruence].
Qed.

(** The database when the task has marked the scan as running. *)
Definition begun (scan_id subject_id : uuid) (scan : Scan) (subject : Subject) (at_ : instant) (d : Db) : Db :=
  set_subjects (<[subject_id := first_scanned at_ subject]> (subjects d))
    (set_scans (<[scan_id := started at_ scan]> (scans d)) d).

Lemma begun_eq sid bid s b at_ d :
  rows sid bid s b d ->
  set_subjects (alter (first_scanned at_) bid (subjects d)) (set_scans (alter (started at_) sid (scans d)) d)
    = begun sid bid s b at_ d.
Proof using Type. intros [Hs Hb]. unfold begun. by rewrite (alter_at _ _ _ _ Hs), (alter_at _ _ _ _ Hb). Qed.

Lemma begun_rows sid bid s b at_ d : rows sid bid (started at_ s) (first_scanned at_ b) (begun sid bid s b at_ d).
Proof using Type. split; cbn; apply lookup_insert_eq. Qed.

Lemma failed_begun sid bid s b at_ t e d :
  set_subjects (alter (set_su_last_scanned_at (Some t)) bid (subjects (begun sid bid s b at_ d)))
    (set_scans (alter (failed t e) sid (scans (begun sid bid s b at_ d))) (begun sid bid s b at_ d))
  = set_subjects (<[bid := set_su_last_scanned_at (Some t) (first_scanned at_ b)]> (subjects d))
      (set_scans (<[sid := failed t e (started at_ s)]> (scans d)) d).
Proof using Type.
  destruct (begun_rows sid bid s b at_ d) as [Hs Hb].
  rewrite (alter_at _ _ _ _ Hs), (alter_at _ _ _ _ Hb). unfold begun. cbn. by rewrite !insert_insert_eq.
Qed.

Lemma first_scanned_is at_ b : is_Some (su_first_scanned_at (first_scanned at_ b)).
Proof using Type. unfold first_scanned. destruct (su_first_scanned_at b) eqn:E; [by rewrite E|by eexists]. Qed.

Lemma first_scanned_again a at_ b : first_scanned a (first_scanned at_ b) = first_scanned at_ b.
Proof using Type.
  unfold first_scanned at 1. destruct (first_scanned_is at_ b) as [t Ht]. by rewrite Ht.
Qed.

(** The task from its first commit on: it is stopped; or both rows end as a success or a failure leaves
    them; or the answer does not fit its row, and the scan is left running. *)
Lemma execute_scan_outcome settings query w r w' scan subject :
  rows (sc_id scan) (su_id subject) scan subject (w_committed w) ->
  execute_scan settings (sc_id scan) (su_id subject) query w = (r, w') ->
  (exists e, r = Raise e /\ is_exception e = false) \/
  (r = Ok tt /\ exists at_,
     let subject' := set_su_last_scanned_at (Some at_) (first_scanned (w_now w) subject) in
     (exists result summary, let scan' := completed result summary at_ (started at_ scan) in
        answered settings scan subject query at_ result summary /\ Scan_ok scan' = true /\
        rows (sc_id scan) (su_id subject) scan' subject' (w_committed w')) \/
     (exists e, w_committed w' = set_subjects (<[su_id subject := subject']> (subjects (w_committed w)))
        (set_scans (<[sc_id scan := failed at_ e (started (w_now w) scan)]> (scans (w_committed w))) (w_committed w)))) \/
  (r = Raise PendingRollbackError /\
   w_committed w' = begun (sc_id scan) (su_id subject) scan subject (w_now w) (w_committed w) /\
   exists result summary at_, answered settings scan subject query at_ result summary /\
     Scan_ok (completed result summary at_ (started at_ scan)) = false).
Proof using Type*.
  intros Hrows. unfold execute_scan, session_scope. set (w0 := mkWorld _ _ _ _).
  set (at0 := w_now w). pose proof (begun_eq _ _ _ _ at0 _ Hrows) as Hbegun.
  pose proof (begun_rows (sc_id scan) (su_id subject) scan subject at0 (w_committed w)) as Hb1.
  set (C1 := begun _ _ _ _ _ _) in *.
  unfold mbind at 1, get_db at 1. destruct Hrows as [Hs Hb]. cbn [w_db w0]. rewrite Hs, Hb.
  unfold mbind at 1, clock at 1, modify_scan at 1. unfold mbind at 1, modify_db at 1.
  unfold mbind at 1, modify_subject at 1, modify_db at 1. unfold mbind at 1, commit at 1.
  match goal with |- context [mbind _ _ ?w2] => set (w1 := w2) end.
  assert (Hw1 : w_db w1 = C1) by exact Hbegun. assert (Hc1 : w_committed w1 = C1) by exact Hbegun. clearbody w1.
  unfold mbind at 1, try_except. match goal with |- context [(?c w1)] => destruct (c w1) as [r1 w2] eqn:E end.
  apply (scan_block_inv settings scan subject query w1 r1 w2 (started at0 scan) (first_scanned at0 subject)) in E as [Hc2 Hr]; [|by rewrite Hw1].
  destruct r1 as [active|e].
  - destruct Hr as (result&summary&at_&Hans&->&Hr). rewrite started_again, first_scanned_again in Hr.
    destruct (Scan_ok _) eqn:Hok in Hr; rewrite started_again, Hok; cbv beta iota zeta.
    + unfold commit. intros [= <- <-]. right. left. split; [done|]. exists at_. left. by exists result, summary.
    + unfold raise. intros [= <- <-]. right. right. split; [done|]. cbn. split; [congruence|]. by exists result, summary, at_.
  - destruct (is_exception e) eqn:Ee; [|intros [= <- <-]; left; by exists e].
    unfold mbind at 1. destruct (record_failure_eq (sc_id scan) (su_id subject) e w2) as (w3&->&Hw3&Hw3').
    unfold mret. intros [= <- <-]. right. left. split; [done|]. exists (w_now w2). right. exists e. cbn [w_committed rollback snd].
    rewrite Hw3, Hw3', Hc2, Hc1. apply failed_begun.
Qed.

End ScanLemmas.

(** ** Properties *)

Section ScanProperties.
Context `{Unicode} `{Aead} `{Entropy} `{HeapOrder} `{QueryClientLaws}.

(** C2: A background scan whose answer fits its row always ends.  Whatever the client, the ingest or the
    queueing does short of stopping the process, the task returns with the scan durably finished and
    its subject marked as scanned then: either it succeeded, with the counts, quota and truncation of
    what the client answered and the ingest made of it, and no error; or it failed with the name of the
    exception, and then nothing but the rows of the scan and its subject has changed in the database.
    The exception is an answer whose counts or quota exceed the four octets of their columns: the task
    then raises [PendingRollbackError], and what is durable is the scan as running. *)
Theorem execute_scan_finishes settings scan_id subject_id query w r w' scan subject :
  rows scan_id subject_id scan subject (w_committed w) -> sc_id scan = scan_id -> su_id subject = subject_id ->
  execute_scan settings scan_id subject_id query w = (r, w') ->
  (exists e, r = Raise e /\ is_exception e = false) \/
  (r = Ok tt /\ exists scan' subject' at_, rows scan_id subject_id scan' subject' (w_committed w') /\
     sc_finished_at scan' = Some at_ /\ su_last_scanned_at subject' = Some at_ /\
     is_Some (su_first_scanned_at subject') /\ sc_requested_by scan' = sc_requested_by scan /\
     ((exists result summary, answered settings scan subject query at_ result summary /\ Scan_ok scan' = true /\
         scan' = completed result summary at_ (started at_ scan)) \/
      (exists e, sc_status scan' = Scan_FAILED /\ sc_error scan' = Some (exn_name e) /\
         w_committed w' = set_subjects (<[subject_id := subject']> (subjects (w_committed w)))
                            (set_scans (<[scan_id := scan']> (scans (w_committed w))) (w_committed w))))) \/
  (r = Raise PendingRollbackError /\
   w_committed w' = begun scan_id subject_id scan subject (w_now w) (w_committed w) /\
   exists result summary at_, answered settings scan subject query at_ result summary /\
     Scan_ok (completed result summary at_ (started at_ scan)) = false).
Proof using Type*.
  intros Hrows <- <- E.
  destruct (execute_scan_outcome _ _ _ _ _ _ _ Hrows E) as [He|[[-> (at_&[(result&summary&Hans&Hok&Hr)|(e&Hc)])]|Hstuck]];
    [by left| | |by right; right].
  - right. left. split; [done|]. eexists _, _, at_. split; [exact Hr|]. do 2 (split; [done|]). split; [apply first_scanned_is|].
    split; [done|]. left. by exists result, summary.
  - right. left. split; [done|]. eexists _, _, at_. rewrite Hc. split; [split; cbn; apply lookup_insert_eq|].
    do 2 (split; [done|]). split; [apply first_scanned_is|]. split; [done|]. right. exists e. by repeat split.
Qed.

End ScanProperties.

(** A client whose service is down, and a pending scan of one subject. *)
Definition down_client : QueryClient := fun _ _ => raise LeakCheckUnavailable.
#[export] Instance down_client_laws : @QueryClientLaws down_client.
Proof. constructor. intros T part query_type query. apply keeps_raise. Qed.
Definition sample_scan_subject : Subject :=
  mkSubject 3 Kind_EMAIL (py "ada@example.com") (py "Ada@Example.com") None None None.
Definition pending_scan : Scan :=
  mkScan 4 3 (Some 7) Trigger_MANUAL Scan_PENDING None None 0 0 None false None.
Definition scan_world : World :=
  let d := set_scans {[4 := pending_scan]} (set_subjects {[3 := sample_scan_subject]} empty_db) in
  mkWorld d d 0 1700000000000000.

Lemma execute_scan_finishes_witness :
  exists scan', scans (w_committed (@execute_scan ascii_unicode tagged_aead counting_entropy plain_heap down_client
      sample_settings 4 3 (py "ada@example.com") scan_world).2) !! 4 = Some scan' /\
    sc_finished_at scan' = Some 1700000000000000.
Proof.
  assert (Hr : (@execute_scan ascii_unicode tagged_aead counting_entropy plain_heap down_client
      sample_settings 4 3 (py "ada@example.com") scan_world).1 = Ok tt) by (vm_compute; reflexivity).
  assert (Hn : w_now (@execute_scan ascii_unicode tagged_aead counting_entropy plain_heap down_client
      sample_settings 4 3 (py "ada@example.com") scan_world).2 = 1700000000000000) by (vm_compute; reflexivity).
  assert (Hf : (sc_finished_at <$> scans (w_committed (@execute_scan ascii_unicode tagged_aead counting_entropy
      plain_heap down_client sample_settings 4 3 (py "ada@example.com") scan_world).2) !! 4)
      = Some (Some 1700000000000000)) by (vm_compute; reflexivity).
  destruct (@execute_scan ascii_unicode tagged_aead counting_entropy plain_heap down_client
      sample_settings 4 3 (py "ada@example.com") scan_world) as [r w'] eqn:E. cbn [fst snd] in *. subst r.
  destruct (@execute_scan_finishes ascii_unicode tagged_aead counting_entropy plain_heap down_client
    down_client_laws sample_settings 4 3 (py "ada@example.com") scan_world (Ok tt) w' pending_scan
    sample_scan_subject) as [(e&He&_)|[(_&scan'&subject'&at_&[Hs _]&Hfin&_)|[He _]]].
  - split; reflexivity.
  - reflexivity.
  - reflexivity.
  - exact E.
  - discriminate He.
  - exists scan'. split; [exact Hs|]. rewrite Hs in Hf. injection Hf as Hf. exact Hf.
  - discriminate He.
Defined.

(** A service that answers without a record and with a quota of five octets. *)
Definition generous_client : QueryClient := fun query_type _ => mret (mkQueryResult query_type [] (Some (2 ^ 31)) 0 false).

(** The scan is left running: the answer's quota does not fit its column, the failed flush is swallowed
    with the queueing's exceptions, and the last commit raises. *)
Lemma oversized_quota_leaves_running :
  let out := @execute_scan ascii_unicode tagged_aead counting_entropy plain_heap generous_client
               sample_settings 4 3 (py "ada@example.com") scan_world in
  out.1 = Raise PendingRollbackError /\
  (sc_status <$> scans (w_committed out.2) !! 4) = Some Scan_RUNNING.
Proof. vm_compute. split; reflexivity. Qed.

