(* ===== verification/Worker.v ===== *)
(** The standalone worker (app/worker.py): one pass of its loop, the work of one claimed item, and
    what repeated passes make of a queue. *)
From S2P Require Import Prelude PyBase Encoding Hashes Models Store Config Aead.
From S2P Require Import FindingCrypto PlatformSettings Retention LeakCheck Ingest Notifications Batches Scheduling Scans.
Local Open Scope Z_scope.

Section Worker.
Context `{Unicode} `{Aead} `{Entropy} `{HeapOrder}.

(** The row of the scan that an item of the queue gets. *)
Definition batch_scan (scan_id subject_id : uuid) : Scan :=
  mkScan scan_id subject_id None Trigger_BATCH Scan_PENDING None None 0 0 None false None.

(** The work of one claimed item. *)
Definition process_work (settings : Settings) (client : QueryClient) (work : ClaimedWork) : M unit :=
  let! scan_id <- uuid4;
  do! session_scope (do! insert_scan (batch_scan scan_id (cw_subject_id work)); commit);
  do! @execute_scan _ _ _ _ client settings scan_id (cw_subject_id work) (cw_query work);
  session_scope
    (let! d <- get_db;
     let! scan <- scalar_one (scans d !! scan_id);
     finish_work work (bool_decide (sc_status scan = Scan_SUCCEEDED)) (sc_error scan)).

Section Iteration.
Context `{Collation} `{Cron} `{MailTransport}.
Variable exn_text : exn -> pystr.
(** The client object over the state [client_from_platform_values] builds. *)
Variable as_query_client : LeakCheckClient * ClientState -> QueryClient.

(** Schedules, one notification and retention. *)
Definition housekeeping (store : PlatformSettingsStore) (leader : bool) (locked : uuid -> bool) : M unit :=
  let! _ <- session_scope (dispatch_due_schedules exn_text leader locked None);
  let! _ <- session_scope (deliver_next store None None);
  session_scope (let! _ <- purge_expired_findings store None 500; commit).

Definition build_client (store : PlatformSettingsStore) : M QueryClient :=
  let! values <- read_many store CLIENT_KEYS;
  let! c <- lift (client_from_platform_values values);
  mret (as_query_client c).

(** One turn of the loop: the housekeeping, then one item of the queue; the client is built once
    and kept.  An idle turn sleeps, which the model leaves to the clock. *)
Definition worker_iteration (settings : Settings) (store : PlatformSettingsStore) (worker_id : pystr)
    (leader : bool) (locked : uuid -> bool) (client : option QueryClient) : M (option QueryClient) :=
  do! housekeeping store leader locked;
  let! work <- session_scope (claim_next worker_id);
  match work with
  | None => mret client
  | Some work =>
      let! client <- match client with
        | Some c => mret c
        | None => session_scope (build_client store)
        end;
      do! process_work settings client work;
      mret (Some client)
  end.

(** [n] turns of the loop, with the client that the turns before have built. Between the turns the rest
    of the program does what it does: requests, other processes, time; [leader i] is whether the turn
    gets the lock of the schedules, [locked i] which of their rows are held. *)
Fixpoint worker_turns (settings : Settings) (store : PlatformSettingsStore) (worker_id : pystr)
    (leader : nat -> bool) (locked : nat -> uuid -> bool) (others : nat -> World -> World) (n : nat) (client : option QueryClient)
  : M (option QueryClient) :=
  match n with
  | O => mret client
  | S n => fun w =>
      (let! client <- worker_iteration settings store worker_id (leader n) (locked n) client;
       worker_turns settings store worker_id leader locked others n client) (others n w)
  end.

End Iteration.
End Worker.

(** ** What the queue promises *)

(** The status of a batch agrees with its items. *)
Definition batch_accounted (d : Db) (batch_id : uuid) (b : ScanBatch) : Prop :=
  match sb_status b with
  | Batch_PENDING | Batch_RUNNING => ~ of_batch batch_id d finished
  | Batch_SUCCEEDED => of_batch batch_id d (fun q => q_status q = Queue_SUCCEEDED)
  | Batch_PARTIAL => of_batch batch_id d finished /\ ~ of_batch batch_id d (fun q => q_status q = Queue_SUCCEEDED)
  | Batch_FAILED => False
  end.

(** Between the passes of a single worker: every item waits or is finished, and has its subject and
    its batch. *)
Record queue_ready (d : Db) : Prop := {
  ready_keyed : queue_keyed d;
  ready_subjects : subjects_keyed d;
  ready_items : forall k q, scan_queue d !! k = Some q ->
    (q_status q = Queue_QUEUED \/ finished q) /\ is_Some (subjects d !! q_subject_id q) /\
    exists b, scan_batches d !! q_batch_id q = Some b /\ batch_accounted d (q_batch_id q) b;
}.

(** The items that wait. *)
Definition waiting (d : Db) : nat :=
  size (filter (fun kq : uuid * ScanQueue => q_status kq.2 = Queue_QUEUED) (scan_queue d)).

(** Every scan of a batch is still what it was. *)
Definition batch_scans_stay (d d' : Db) : Prop :=
  forall k scan, scans d !! k = Some scan -> sc_trigger scan = Trigger_BATCH -> scans d' !! k = Some scan.

(** No schedule is enabled, so that no turn adds a batch. *)
Definition schedules_idle (d : Db) : Prop := forall k s, schedules d !! k = Some s -> sd_enabled s = false.

(** The rest of the program leaves the queue, the batches and their scans alone, deletes no subject and
    enables no schedule. *)
Definition leaves_queue (d d' : Db) : Prop :=
  scan_queue d' = scan_queue d /\ scan_batches d' = scan_batches d /\ (subjects_keyed d -> subjects_keyed d') /\
  (forall k, is_Some (subjects d !! k) -> is_Some (subjects d' !! k)) /\ batch_scans_stay d d' /\
  (schedules_idle d -> schedules_idle d').

(** A scan of a batch that is over. *)
Definition batch_scan_done (subject_id : uuid) (scan : Scan) : Prop :=
  sc_trigger scan = Trigger_BATCH /\ sc_subject_id scan = subject_id /\ is_Some (sc_finished_at scan) /\
  ((sc_status scan = Scan_SUCCEEDED /\ sc_error scan = None) \/ (sc_status scan = Scan_FAILED /\ is_Some (sc_error scan))).

(** An item that is finished as a scan of its subject went. *)
Definition item_scanned (d : Db) (q : ScanQueue) : Prop :=
  finished q /\ exists id scan, scans d !! id = Some scan /\ batch_scan_done (q_subject_id q) scan /\
    (q_status q = Queue_SUCCEEDED <-> sc_status scan = Scan_SUCCEEDED).

(** From [d] to [d'] every item stays as it is, or it waited and was scanned. *)
Definition items_advance (d d' : Db) : Prop := forall k q, scan_queue d !! k = Some q ->
  exists q', scan_queue d' !! k = Some q' /\ q_batch_id q' = q_batch_id q /\ q_subject_id q' = q_subject_id q /\
    (q' = q \/ q_status q = Queue_QUEUED /\ item_scanned d' q').

(** ** Lemmas *)

Section WorkerLemmas.
Context `{Unicode} `{Aead} `{Entropy} `{HeapOrderLaws} `{QueryClientLaws}.

(** *** A scan leaves the queue alone *)

(** What is not the scan [id]: the queue, the batches, which subjects there are, the other scans, the
    schedules. *)
Definition queue_part (id : uuid) (d : Db)
  : gmap uuid ScanQueue * gmap uuid ScanBatch * gmap uuid uuid * gmap uuid Scan * gmap uuid Schedule :=
  (scan_queue d, scan_batches d, su_id <$> subjects d, delete id (scans d), schedules d).
Definition queue_is (id : uuid) (d0 d : Db) : Prop :=
  queue_part id d = queue_part id d0 /\ forall s, scans d !! id = Some s -> sc_id s = id.

Lemma scan_rows_queue id d0 {A} (c : M A) : keeps scan_rows c -> holds (both (queue_is id d0)) c (fun _ => True).
Proof using Type.
  apply holds_of_keeps. unfold scan_rows, queue_is, queue_part. intros d d' [= Hc Hs Hq Hb Hd]. by rewrite Hc, Hs, Hq, Hb, Hd.
Qed.

Lemma holds_get_db (P : Db -> Prop) : holds (both P) get_db P.
Proof using Type. intros w [Hd Hc]. split; [by split|]. by intros ? [= <-]. Qed.

Lemma holds_modify_scan id d0 f : (forall s, sc_id (f s) = sc_id s) ->
  holds (both (queue_is id d0)) (modify_scan id f) (fun _ => True).
Proof using Type.
  intros Hf. apply holds_modify. intros d [Hd Hid]. split.
  - rewrite <- Hd. unfold queue_part. cbn. do 2 f_equal. apply map_eq. intros k. rewrite !lookup_delete, lookup_alter.
    by destruct (decide _).
  - intros s. cbn. rewrite lookup_alter_eq. intros (s0&Hs0&->)%fmap_Some. rewrite Hf. by apply Hid.
Qed.

Lemma holds_modify_subject id d0 sid f : (forall s, su_id (f s) = su_id s) ->
  holds (both (queue_is id d0)) (modify_subject sid f) (fun _ => True).
Proof using Type.
  intros Hf. apply holds_modify. intros d [Hd Hid]. split; [|exact Hid]. rewrite <- Hd. unfold queue_part. cbn. do 3 f_equal.
  apply map_eq. intros k. rewrite !lookup_fmap, lookup_alter. destruct (decide _) as [->|]; [|done].
  destruct (subjects d !! k) as [s|]; [|done]. cbn. by rewrite Hf.
Qed.

Lemma first_scanned_id at_ s : su_id (first_scanned at_ s) = su_id s.
Proof using Type. unfold first_scanned. by destruct (su_first_scanned_at s). Qed.

Lemma run_scan_queue d0 settings scan subject query :
  holds (both (queue_is (sc_id scan) d0)) (@run_scan _ _ _ _ SQLAlchemyIngestRepository settings scan subject query None) (fun _ => True).
Proof using Type*.
  unfold run_scan. eapply holds_bind; [apply scan_rows_queue, keeps_utc_now|]. intros at_ _.
  eapply holds_bind; [by apply holds_modify_scan|]. intros _ _.
  eapply holds_bind; [apply holds_modify_subject, first_scanned_id|]. intros _ _.
  eapply (holds_bind _ _ _ (fun _ => True)).
  - apply holds_try; [apply scan_rows_queue, scan_attempt_keeps|]. intros e.
    eapply holds_bind; [by apply holds_modify_scan|]. intros _ _.
    eapply holds_bind; [by apply holds_modify_subject|]. intros _ _. apply holds_raise.
  - intros [result summary] _. eapply holds_bind; [|intros _ _; by apply holds_mret]. unfold complete_scan.
    eapply holds_bind; [by apply holds_modify_scan|]. intros _ _. by apply holds_modify_subject.
Qed.

Lemma post_scan_queue id d0 scan_id subject summary :
  holds (both (queue_is id d0)) (post_scan scan_id subject summary) (fun _ => True).
Proof using Type*.
  unfold post_scan, flush_scan. eapply (holds_bind _ _ _ (fun _ => True)).
  - eapply holds_bind; [apply holds_get_db|]. intros d _. destruct (scans d !! scan_id) as [scan|]; [|by apply holds_mret].
    destruct (Scan_ok scan); [by apply holds_mret|]. eapply holds_bind; [apply holds_rollback|]. intros _ _. by apply holds_mret.
  - intros [|] _; [|by apply holds_mret]. eapply holds_bind; [apply scan_rows_queue, queueing_keeps|].
    intros _ _. by apply holds_mret.
Qed.

Lemma execute_scan_queue d0 settings scan_id subject_id query :
  holds (both (queue_is scan_id d0)) (execute_scan settings scan_id subject_id query) (fun _ => True).
Proof using Type*.
  unfold execute_scan. apply holds_scope. eapply holds_bind; [apply holds_get_db|]. intros d [_ Hid].
  destruct (scans d !! scan_id) as [scan|]; [|by apply holds_mret]. specialize (Hid scan eq_refl) as <-.
  destruct (subjects d !! subject_id) as [subject|]; [|by apply holds_mret].
  eapply holds_bind; [apply scan_rows_queue, keeps_clock|]. intros at_ _.
  eapply holds_bind; [by apply holds_modify_scan|]. intros _ _.
  eapply holds_bind; [apply holds_modify_subject, first_scanned_id|]. intros _ _.
  eapply holds_bind; [apply holds_commit|]. intros _ _.
  eapply (holds_bind _ _ _ (fun _ => True)).
  - apply holds_try.
    + eapply holds_bind; [apply run_scan_queue|]. intros summary _.
      eapply holds_bind; [apply post_scan_queue|]. intros active _. by apply holds_mret.
    + intros e. eapply holds_bind; [|intros _ _; by apply holds_mret]. unfold record_scan_failure.
      eapply holds_bind; [apply holds_rollback|]. intros _ _.
      eapply holds_bind; [apply scan_rows_queue, keeps_clock|]. intros failed_at _.
      eapply holds_bind; [by apply holds_modify_scan|]. intros _ _.
      eapply holds_bind; [by apply holds_modify_subject|]. intros _ _. apply holds_commit.
  - intros [[|]|] _; [apply holds_commit|apply holds_raise|by apply holds_mret].
Qed.

(** *** The work of one item *)

(** The item of [work] finished as its scan went, and its batch counted again. *)
Definition settled (work : ClaimedWork) (scan : Scan) (now : instant) (d : Db) : Db :=
  let d := finish_item work (bool_decide (sc_status scan = Scan_SUCCEEDED)) (sc_error scan) now d in
  finish_batch work (batch_counts (cw_batch_id work) d) now d.

Lemma insert_scan_scope scan w :
  Scan_ok scan = true -> is_Some (subjects (w_committed w) !! sc_subject_id scan) ->
  match scans (w_committed w) !! sc_id scan with
  | Some _ => session_scope (do! insert_scan scan; commit) w
      = (Raise IntegrityError, mkWorld (w_committed w) (w_committed w) (w_draws w) (w_now w))
  | None => let d := set_scans (<[sc_id scan := scan]> (scans (w_committed w))) (w_committed w) in
      session_scope (do! insert_scan scan; commit) w = (Ok tt, mkWorld d d (w_draws w) (w_now w))
  end.
Proof using Type.
  intros Hok Hs. unfold session_scope, insert_scan, insert_row, mbind, get_db, lift, modify_db, commit, with_db. cbn [w_db].
  rewrite Hok, (bool_decide_true _ Hs). cbn [andb]. by destruct (scans (w_committed w) !! sc_id scan).
Qed.

(** How work ends otherwise than with its item settled: the process is stopped; or the identifier drawn
    last is already that of a scan; or an answer does not fit the row of its scan, which stays as
    running. *)
Definition work_lost (e : exn) (w' : World) : Prop :=
  is_exception e = false \/
  (e = IntegrityError /\ exists k, w_draws w' = S k /\ is_Some (scans (w_committed w') !! uuid_at k)) \/
  (e = PendingRollbackError /\ exists k scan result summary at_, scans (w_committed w') !! k = Some scan /\
     sc_trigger scan = Trigger_BATCH /\ sc_status scan = Scan_RUNNING /\
     Scan_ok (completed result summary at_ scan) = false).

Lemma process_work_settles settings work w r w' s :
  subjects (w_committed w) !! cw_subject_id work = Some s -> su_id s = cw_subject_id work ->
  process_work settings client_query work w = (r, w') ->
  (exists e, r = Raise e /\ work_lost e w') \/
  (r = Ok tt /\ exists scan now d, scans (w_committed w) !! sc_id scan = None /\
     queue_part (sc_id scan) d = queue_part (sc_id scan) (w_committed w) /\ scans d !! sc_id scan = Some scan /\
     batch_scan_done (cw_subject_id work) scan /\
     w_committed w' = settled work scan now d).
Proof using Type*.
  intros Hs Hid. unfold process_work, mbind at 1, uuid4. cbv zeta.
  set (scan0 := batch_scan _ _). set (w0 := mkWorld _ _ _ _). set (C1 := set_scans (<[sc_id scan0 := scan0]> (scans (w_committed w))) (w_committed w)).
  pose proof (insert_scan_scope scan0 w0 eq_refl (mk_is_Some _ _ Hs)) as Hins. cbn [w_committed w0] in Hins.
  unfold mbind at 1. destruct (scans (w_committed w) !! sc_id scan0) as [taken|] eqn:Hfresh.
  { rewrite Hins. intros [= <- <-]. left. exists IntegrityError. split; [done|]. right. left. split; [done|].
    exists (w_draws w). split; [done|]. by exists taken. }
  cbv zeta in Hins. rewrite Hins. clear Hins. fold C1. set (w1 := mkWorld _ _ _ _).
  assert (Hrows : rows (sc_id scan0) (su_id s) scan0 s (w_committed w1)).
  { split; [apply lookup_insert_eq|]. rewrite Hid. exact Hs. }
  unfold mbind at 1. change (uuid_at (w_draws w)) with (sc_id scan0). rewrite <- Hid.
  assert (Hpre : queue_is (sc_id scan0) (w_committed w) C1).
  { split; [|intros x; cbn; rewrite lookup_insert_eq; by intros [= <-]]. unfold queue_part. cbn. do 2 f_equal. apply delete_insert_eq. }
  pose proof (execute_scan_queue (w_committed w) settings (sc_id scan0) (su_id s) (cw_query work) w1 (conj Hpre Hpre)) as [[_ [Hq _]] _].
  destruct (execute_scan settings (sc_id scan0) (su_id s) (cw_query work) w1) as [r1 w2] eqn:E. cbn [snd] in Hq.
  destruct (execute_scan_outcome _ _ _ _ _ _ _ Hrows E) as [(e&->&He)|[[-> (at_&Hend)]|(->&Hc&result&summary&at_&_&Hbad)]].
  { intros [= <- <-]. left. exists e. split; [done|]. by left. }
  2: { intros [= <- <-]. left. eexists. split; [reflexivity|]. right. right. split; [done|].
       exists (sc_id scan0), (started (w_now w1) scan0), result, summary, at_. rewrite Hc. unfold begun. cbn [scans set_subjects set_scans].
       split; [apply lookup_insert_eq|]. split; [done|]. split; [done|exact Hbad]. }
  assert (Hscan : exists scan, scans (w_committed w2) !! sc_id scan0 = Some scan /\ sc_id scan = sc_id scan0 /\
                    batch_scan_done (cw_subject_id work) scan).
  { destruct Hend as [(result&summary&_&_&Hsc&_)|(e&->)].
    - eexists. split; [exact Hsc|]. split; [done|]. repeat split; [by eexists|by left].
    - eexists. split; [apply lookup_insert_eq|]. split; [done|]. repeat split; [by eexists|right; split; [done|by eexists]]. }
  destruct Hscan as (scan&Hscan&Hsid&Hdone). intros Hfin. right.
  unfold session_scope, mbind, get_db, scalar_one, finish_work, clock, modify_db, commit, with_db in Hfin. cbn [w_db] in Hfin.
  rewrite Hscan in Hfin. cbn in Hfin. injection Hfin as <- <-. split; [done|]. exists scan, (w_now w2), (w_committed w2).
  rewrite Hsid. split; [exact Hfresh|]. split; [exact Hq|]. split; [exact Hscan|]. split; [|done]. by rewrite Hid.
Qed.

(** *** The queue between passes *)

Lemma waiting_none d : waiting d = 0%nat -> forall k q, scan_queue d !! k = Some q -> q_status q <> Queue_QUEUED.
Proof using Type.
  unfold waiting. intros Hn k q Hq Hs. apply map_size_empty_inv in Hn.
  assert (Hin : filter (fun kq : uuid * ScanQueue => q_status kq.2 = Queue_QUEUED) (scan_queue d) !! k = Some q).
  { by apply map_lookup_filter_Some. }
  by rewrite Hn, lookup_empty in Hin.
Qed.

(** An item that waited and is finished waits no more. *)
Lemma waiting_finished d d' k q q' :
  scan_queue d !! k = Some q -> q_status q = Queue_QUEUED -> finished q' -> scan_queue d' = <[k := q']> (scan_queue d) ->
  waiting d = S (waiting d').
Proof using Type.
  intros Hq Hs Hf E. unfold waiting. rewrite E, map_filter_insert_False by (cbn; destruct Hf; congruence).
  rewrite map_filter_delete, map_size_delete.
  assert (Hin : filter (fun kq : uuid * ScanQueue => q_status kq.2 = Queue_QUEUED) (scan_queue d) !! k = Some q)
    by (by apply map_lookup_filter_Some).
  rewrite Hin. cbn. pose proof (map_size_non_empty_iff (filter (fun kq : uuid * ScanQueue => q_status kq.2 = Queue_QUEUED) (scan_queue d))) as Hne.
  enough (size (filter (fun kq : uuid * ScanQueue => q_status kq.2 = Queue_QUEUED) (scan_queue d)) <> 0%nat) by lia.
  apply Hne. intros Hemp. by rewrite Hemp, lookup_empty in Hin.
Qed.

Lemma of_batch_other d d' k q q' bid P :
  scan_queue d !! k = Some q -> q_batch_id q <> bid -> q_batch_id q' = q_batch_id q ->
  scan_queue d' = <[k := q']> (scan_queue d) -> of_batch bid d' P <-> of_batch bid d P.
Proof using Type.
  intros Hq Hne Hsame E. unfold of_batch. rewrite E. split; intros Hall i x Hx Hb.
  - apply (Hall i); [|done]. rewrite lookup_insert_ne; [done|]. intros ->. by rewrite Hq in Hx; injection Hx as <-.
  - apply lookup_insert_Some in Hx as [[<- <-]|[_ Hx]]; [congruence|by apply (Hall i)].
Qed.

Lemma batch_accounted_other d d' k q q' bid b :
  scan_queue d !! k = Some q -> q_batch_id q <> bid -> q_batch_id q' = q_batch_id q ->
  scan_queue d' = <[k := q']> (scan_queue d) -> batch_accounted d bid b -> batch_accounted d' bid b.
Proof using Type.
  intros Hq Hne Hsame E. unfold batch_accounted.
  destruct (sb_status b); by rewrite ?(of_batch_other d d' k q q' bid) by done.
Qed.

(** The count of a batch that is under way accounts for it. *)
Lemma counted_accounted d bid now b :
  sb_status b = Batch_RUNNING -> batch_accounted d bid (counted_batch (batch_counts bid d) now b).
Proof using Type.
  intros Hb. destruct (batch_counts bid d) as [[c f] t] eqn:Ec. pose proof (counts_complete _ _ _ _ _ Ec) as Hall.
  pose proof (none_failed _ _ _ _ _ Ec) as Hnone. unfold counted_batch, batch_accounted.
  destruct (c + f =? t) eqn:E; cbn.
  - apply Z.eqb_eq, Hall in E. destruct (f =? 0) eqn:E0; cbn.
    + apply Z.eqb_eq, Hnone in E0. intros k q Hq Hbid. destruct (E k q Hq Hbid); [done|]. by destruct (E0 k q Hq Hbid).
    + apply Z.eqb_neq in E0. split; [done|]. intros Hs. destruct E0. apply Hnone. intros k q Hq Hbid.
      by rewrite (Hs k q Hq Hbid).
  - rewrite Hb. rewrite <- Hall. by apply Z.eqb_neq.
Qed.

Lemma start_batch_running d bid now b : batch_accounted d bid b -> ~ of_batch bid d finished ->
  sb_status (start_batch now b) = Batch_RUNNING.
Proof using Type.
  unfold batch_accounted, start_batch. intros Ha Hopen. destruct (sb_status b) eqn:E; try done.
  - destruct Hopen. intros k q Hq Hb. left. by apply (Ha k).
  - by destruct Ha.
Qed.

Lemma finished_row_done ok err now q : q_status q = Queue_RUNNING -> finished (finished_row ok err now q).
Proof using Type.
  intros Hq. unfold finished_row. rewrite bool_decide_true by done. unfold finished. destruct ok; [by left|by right].
Qed.

(** The database after a claim of [q] at [t]. *)
Definition claimed (worker_id : pystr) (t : instant) (q : ScanQueue) (d : Db) : Db :=
  set_scan_batches (alter (start_batch t) (q_batch_id q) (scan_batches d))
    (set_scan_queue (<[q_id q := claimed_row worker_id t q]> (scan_queue d)) d).
Definition work_of (q : ScanQueue) (s : Subject) : ClaimedWork :=
  mkClaimedWork (q_id q) (q_batch_id q) (q_subject_id q) (su_value_norm s).

(** A claim from a ready queue returns: nothing exactly when no item waits. *)
Lemma claim_ready worker_id w :
  queue_ready (w_committed w) ->
  (exists w', session_scope (claim_next worker_id) w = (Ok None, w') /\ w_committed w' = w_committed w /\
     waiting (w_committed w) = 0%nat) \/
  (exists q s w', session_scope (claim_next worker_id) w = (Ok (Some (work_of q s)), w') /\
     scan_queue (w_committed w) !! q_id q = Some q /\ q_status q = Queue_QUEUED /\
     subjects (w_committed w) !! q_subject_id q = Some s /\ w_committed w' = claimed worker_id (w_now w) q (w_committed w)).
Proof using Type*.
  intros [Hk _ Hitems]. unfold session_scope, claim_next, claim_statement, mbind, clock, get_db. cbn [w_db w_now default].
  destruct (claim_candidate (w_committed w) (w_now w)) as [q|] eqn:Ec.
  - right. destruct (claim_candidate_Some _ _ _ Ec) as (Hcl&[k Hq]&_). pose proof (Hk _ _ Hq) as <-.
    destruct (Hitems _ _ Hq) as (Hst&[s Hs]&_). exists q, s.
    unfold modify_db, with_db, scalar_one, commit, mret. cbn [w_db w_committed w_draws w_now q_subject_id claimed_row].
    cbn [subjects set_scan_queue]. rewrite Hs. eexists. split; [reflexivity|]. split; [done|]. split; [|by split].
    unfold claimable in Hcl. by destruct Hst as [|[E|E]]; rewrite ?E in Hcl.
  - left. eexists. split; [reflexivity|]. split; [done|].
    pose proof (claim_candidate_None _ _ Ec) as Hnone. unfold waiting. apply map_size_empty_iff, map_empty.
    intros k. apply map_lookup_filter_None. right. intros q Hq Hs. cbn in Hs. specialize (Hnone k q Hq).
    unfold claimable in Hnone. by rewrite Hs in Hnone.
Qed.

Lemma same_subject d d' k s : su_id <$> subjects d' = su_id <$> subjects d -> subjects d !! k = Some s -> is_Some (subjects d' !! k).
Proof using Type.
  intros E Hs. apply (f_equal (fun m => m !! k)) in E. rewrite !lookup_fmap, Hs in E.
  destruct (subjects d' !! k); [by eexists|done].
Qed.

Lemma same_subjects_keyed d d' : su_id <$> subjects d' = su_id <$> subjects d -> subjects_keyed d -> subjects_keyed d'.
Proof using Type.
  intros E Hk k s Hs. apply (f_equal (fun m => m !! k)) in E. rewrite !lookup_fmap, Hs in E.
  destruct (subjects d !! k) as [s0|] eqn:E0; [|done]. cbn in E. injection E as ->. by apply Hk.
Qed.

(** The item of [q] when it is claimed at [t] and its scan is over. *)
Definition settled_row (worker_id : pystr) (t : instant) (scan : Scan) (now : instant) (q : ScanQueue) : ScanQueue :=
  finished_row (bool_decide (sc_status scan = Scan_SUCCEEDED)) (sc_error scan) now (claimed_row worker_id t q).

Lemma settled_row_is worker_id t scan now q :
  let q' := settled_row worker_id t scan now q in
  q_id q' = q_id q /\ q_batch_id q' = q_batch_id q /\ q_subject_id q' = q_subject_id q /\ finished q' /\
  (q_status q' = Queue_SUCCEEDED <-> sc_status scan = Scan_SUCCEEDED).
Proof using Type.
  cbv zeta. unfold settled_row. do 3 (split; [reflexivity|]). split; [by apply finished_row_done|].
  unfold finished_row. cbn. destruct (decide (sc_status scan = Scan_SUCCEEDED)) as [E|E];
    [by rewrite (bool_decide_true _ E)|by rewrite (bool_decide_false _ E)].
Qed.

Lemma settled_queue worker_id t q s scan now d d2 :
  scan_queue d2 = scan_queue (claimed worker_id t q d) ->
  scan_queue (settled (work_of q s) scan now d2) = <[q_id q := settled_row worker_id t scan now q]> (scan_queue d).
Proof using Type.
  intros EQ. unfold settled, finish_batch, finish_item. cbn.
  rewrite EQ, (alter_at _ _ (claimed_row worker_id t q)) by apply lookup_insert_eq. apply insert_insert_eq.
Qed.

(** A claim and the settlement of its work make the queue ready again, with one item less to do. *)
Lemma settled_ready worker_id t q s scan now d d2 :
  queue_ready d -> scan_queue d !! q_id q = Some q -> q_status q = Queue_QUEUED ->
  queue_part (sc_id scan) d2 = queue_part (sc_id scan) (claimed worker_id t q d) ->
  let d' := settled (work_of q s) scan now d2 in
  queue_ready d' /\ waiting d = S (waiting d').
Proof using Type.
  intros [Hk Hsk Hitems] Hq Hqs [= EQ EB ES _ _]. cbv zeta. destruct (Hitems _ _ Hq) as (_&Hqsub&b&Hb&Hacc).
  pose proof (settled_queue worker_id t q s scan now d d2 EQ) as EQ'. set (d' := settled _ _ _ _) in *.
  set (q2 := settled_row worker_id t scan now q) in *. set (bid := q_batch_id q) in *.
  destruct (settled_row_is worker_id t scan now q) as (Hid2&Hb2&Hs2&Hfin&_). fold q2 bid in Hid2, Hb2, Hs2, Hfin.
  assert (EB' : scan_batches d' = <[bid := counted_batch (batch_counts bid d') now (start_batch t b)]> (scan_batches d)).
  { unfold d' at 1, settled, finish_batch. cbn. fold bid. rewrite EB. cbn. fold bid. rewrite (alter_at (start_batch t) bid b _ Hb).
    rewrite (alter_at _ bid (start_batch t b)) by apply lookup_insert_eq. apply insert_insert_eq. }
  assert (Hopen : ~ of_batch bid d finished) by (intros Hall; destruct (Hall _ _ Hq eq_refl); congruence).
  split; [|by eapply waiting_finished]. split.
  - intros k x. rewrite EQ'. intros [[<- <-]|[_ Hx]]%lookup_insert_Some; [done|by apply Hk].
  - exact (same_subjects_keyed d d' ES Hsk).
  - assert (Hitem : forall k x, scan_queue d !! k = Some x -> is_Some (subjects d' !! q_subject_id x) /\
      exists b', scan_batches d' !! q_batch_id x = Some b' /\ batch_accounted d' (q_batch_id x) b').
    { intros k x Hx. destruct (Hitems _ _ Hx) as (_&[sx Hsx]&bx&Hbx&Hax).
      split; [exact (same_subject d d' _ sx ES Hsx)|]. rewrite EB'. destruct (decide (bid = q_batch_id x)) as [<-|Hne].
      - eexists. split; [apply lookup_insert_eq|]. apply counted_accounted. exact (start_batch_running d bid t b Hacc Hopen).
      - exists bx. rewrite lookup_insert_ne by done. split; [done|].
        exact (batch_accounted_other d d' (q_id q) q q2 _ bx Hq Hne Hb2 EQ' Hax). }
    intros k x. rewrite EQ'. intros [[<- <-]|[_ Hx]]%lookup_insert_Some.
    + split; [by right|]. rewrite Hb2, Hs2. by apply (Hitem (q_id q)).
    + split; [by apply (Hitems k)|by apply (Hitem k)].
Qed.

(** *** What becomes of the items *)

Lemma settled_advance worker_id t q s scan now d d2 :
  scan_queue d !! q_id q = Some q -> q_status q = Queue_QUEUED ->
  queue_part (sc_id scan) d2 = queue_part (sc_id scan) (claimed worker_id t q d) ->
  scans d !! sc_id scan = None -> scans d2 !! sc_id scan = Some scan -> batch_scan_done (q_subject_id q) scan ->
  let d' := settled (work_of q s) scan now d2 in items_advance d d' /\ batch_scans_stay d d'.
Proof using Type.
  intros Hq Hqs [= EQ _ _ Escans _] Hnew Hscan Hdone. cbv zeta.
  pose proof (settled_queue worker_id t q s scan now d d2 EQ) as EQ'.
  destruct (settled_row_is worker_id t scan now q) as (_&Hb2&Hs2&Hfin&Hiff). split.
  - intros k x Hx. rewrite EQ'. destruct (decide (q_id q = k)) as [<-|Hne].
    + rewrite Hq in Hx. injection Hx as <-. eexists. split; [apply lookup_insert_eq|]. split; [done|]. split; [done|].
      right. split; [done|]. split; [done|]. exists (sc_id scan), scan. split; [exact Hscan|]. by rewrite Hs2.
    + exists x. rewrite lookup_insert_ne by done. split; [done|]. split; [done|]. split; [done|]. by left.
  - intros k x Hx _. change (scans d2 !! k = Some x).
    assert (Hne : sc_id scan <> k) by (intros <-; congruence). apply (f_equal (fun m => m !! k)) in Escans.
    by rewrite !lookup_delete_ne, Hx in Escans by done.
Qed.

Lemma advance_refl d d' : scan_queue d' = scan_queue d -> items_advance d d'.
Proof using Type. intros E k q Hq. exists q. rewrite E. split; [done|]. split; [done|]. split; [done|]. by left. Qed.

Lemma advance_trans d1 d2 d3 : items_advance d1 d2 -> items_advance d2 d3 -> batch_scans_stay d2 d3 -> items_advance d1 d3.
Proof using Type.
  intros H12 H23 Hstay k q Hq. destruct (H12 k q Hq) as (q1&Hq1&Hb1&Hs1&Hfirst).
  destruct (H23 k q1 Hq1) as (q2&Hq2&Hb2&Hs2&Hcase). exists q2. split; [done|]. split; [congruence|]. split; [congruence|].
  destruct Hfirst as [->|(Hw&Hf&id&scan&Hscan&Hdone&Hiff)]; [done|]. destruct Hcase as [->|[Hw1 _]].
  - right. split; [done|]. split; [done|]. exists id, scan. split; [|done]. apply Hstay; [done|apply Hdone].
  - destruct Hf; congruence.
Qed.

Lemma leaves_ready d d' : leaves_queue d d' -> queue_ready d -> queue_ready d' /\ waiting d' = waiting d.
Proof using Type.
  intros (EQ&EB&Hsk&Hs&_&_) [Hk Hsub Hitems]. split; [|unfold waiting; by rewrite EQ]. split.
  - unfold queue_keyed. by rewrite EQ.
  - by apply Hsk.
  - rewrite EQ, EB. intros k q Hq. destruct (Hitems k q Hq) as (Hst&Hsq&b&Hb&Ha). split; [done|]. split; [by apply Hs|].
    exists b. split; [done|]. unfold batch_accounted, of_batch. by rewrite EQ.
Qed.

(** The work that follows a claim. *)
Lemma work_ready settings worker_id q s w w1 r w' :
  queue_ready (w_committed w) ->
  scan_queue (w_committed w) !! q_id q = Some q -> q_status q = Queue_QUEUED ->
  subjects (w_committed w) !! q_subject_id q = Some s ->
  w_committed w1 = claimed worker_id (w_now w) q (w_committed w) ->
  process_work settings client_query (work_of q s) w1 = (r, w') ->
  (exists e, r = Raise e /\ work_lost e w') \/
  (r = Ok tt /\ queue_ready (w_committed w') /\ waiting (w_committed w) = S (waiting (w_committed w')) /\
   schedules (w_committed w') = schedules (w_committed w) /\
   items_advance (w_committed w) (w_committed w') /\ batch_scans_stay (w_committed w) (w_committed w')).
Proof using Type*.
  intros Hready Hq Hqs Hs Hc E.
  assert (Hs1 : subjects (w_committed w1) !! cw_subject_id (work_of q s) = Some s) by by rewrite Hc.
  destruct (process_work_settles settings (work_of q s) w1 r w' s Hs1 (ready_subjects _ Hready _ _ Hs) E)
    as [He|[-> (scan&now&d&Hnew&Hpart&Hscan&Hdone&Hw2)]]; [by left|].
  right. split; [done|]. rewrite Hc in Hpart, Hnew. rewrite Hw2.
  destruct (settled_ready worker_id (w_now w) q s scan now _ d Hready Hq Hqs Hpart) as [Hr Hwait].
  split; [exact Hr|]. split; [exact Hwait|]. split; [by injection Hpart|].
  exact (settled_advance worker_id (w_now w) q s scan now _ d Hq Hqs Hpart Hnew Hscan Hdone).
Qed.

Lemma stay_trans d1 d2 d3 : batch_scans_stay d1 d2 -> batch_scans_stay d2 d3 -> batch_scans_stay d1 d3.
Proof using Type. intros H12 H23 k scan Hk Ht. apply H23; [by apply H12|done]. Qed.

End WorkerLemmas.

(** *** Turns of the loop *)

Section Turns.
Context `{Unicode} `{Aead} `{Entropy} `{HeapOrderLaws} `{Collation} `{Cron} `{MailTransport}.
Variable exn_text : exn -> pystr.
Variable as_query_client : LeakCheckClient * ClientState -> QueryClient.
Hypothesis built_clients : forall c, @QueryClientLaws (as_query_client c).

(** The housekeeping of a worker without an enabled schedule leaves the queue alone, however it ends. *)
Definition rows_are (d0 d : Db) : Prop := scan_rows d = scan_rows d0.

Lemma rows_of_keeps d0 {A} (c : M A) : keeps scan_rows c -> holds (both (rows_are d0)) c (fun _ => True).
Proof using Type. apply holds_of_keeps. unfold rows_are. congruence. Qed.

Lemma read_many_keeps {T} (part : Db -> T) store keys : keeps part (read_many store keys).
Proof using Type. intros w. destruct (read_many store keys w) as [r w'] eqn:E. by apply read_many_world in E as ->. Qed.

Lemma idle_dispatch d0 leader locked : schedules_idle d0 ->
  holds (both (rows_are d0)) (dispatch_due_schedules exn_text leader locked None) (fun _ => True).
Proof using Type*.
  intros Hidle. unfold dispatch_due_schedules. eapply holds_bind; [apply rows_of_keeps, keeps_clock|]. intros wall _.
  destruct leader; cbn [negb].
  - eapply holds_bind; [apply holds_get_db|]. intros d Hd.
    assert (Hnone : select (fun s => schedule_due (default wall None) s && negb (locked (sd_id s))) (schedules d) = []).
    { apply select_nil. intros k s Hs. unfold schedule_due. unfold rows_are, scan_rows in Hd. injection Hd as _ _ _ _ Hd.
      rewrite Hd in Hs. by rewrite (Hidle k s Hs). }
    cbn [default] in *. rewrite Hnone. cbn [sort_by mfold].
    eapply (holds_bind _ _ _ (fun _ => True)); [by apply holds_mret|]. intros n _.
    eapply holds_bind; [apply holds_commit|]. intros _ _. by apply holds_mret.
  - eapply holds_bind; [apply holds_rollback|]. intros _ _. by apply holds_mret.
Qed.

Lemma delivery_rows d0 store : holds (both (rows_are d0)) (deliver_next store None None) (fun _ => True).
Proof using Type*.
  unfold deliver_next. eapply holds_bind; [apply rows_of_keeps, keeps_clock|]. intros wall _. cbv zeta.
  eapply holds_bind; [apply rows_of_keeps, keeps_get_db|]. intros d _.
  assert (Hput : forall n, holds (both (rows_are d0)) (do! put_notification n; do! commit; mret true) (fun _ => True)).
  { intros n. eapply holds_bind; [apply rows_of_keeps; unfold put_notification; frame|]. intros _ _.
    eapply holds_bind; [apply holds_commit|]. intros _ _. by apply holds_mret. }
  destruct (next_notification d) as [row|]; [|by apply holds_mret].
  destruct (users d !! n_user_id row) as [user|]; [|by apply holds_mret].
  eapply holds_bind; [apply rows_of_keeps; unfold put_notification; frame|]. intros _ _.
  eapply holds_bind; [apply rows_of_keeps, read_many_keeps|]. intros values _.
  eapply holds_bind; [apply rows_of_keeps, keeps_lift|]. intros dry_run _. destruct dry_run; [apply Hput|].
  eapply holds_bind; [apply rows_of_keeps, keeps_lift|]. intros cooldown _.
  eapply holds_bind; [apply rows_of_keeps, keeps_get_db|]. intros d' _. destruct (_ && _); [apply Hput|].
  eapply holds_bind; [apply rows_of_keeps, keeps_lift|]. intros n _. apply Hput.
Qed.

Lemma purge_keeps store limit : keeps scan_rows (purge_expired_findings store None limit).
Proof using Type*.
  unfold purge_expired_findings, load_policy. apply keeps_bind; [apply keeps_bind; [apply read_many_keeps|frame]|].
  intros policy. destruct (negb _); [frame|]. apply keeps_bind; [frame|intros wall]. apply keeps_bind; [frame|intros cut].
  apply keeps_bind; [frame|intros d]. destruct (map f_id _) as [|i ids] eqn:Ei; [frame|].
  intros w. unfold mbind, modify_db, get_db, lift, mret, with_db, delete_findings. cbn [w_db].
  destruct (_ || _); cbn; by split.
Qed.

Lemma housekeeping_quiet d0 store leader locked : schedules_idle d0 ->
  holds (both (rows_are d0)) (housekeeping exn_text store leader locked) (fun _ => True).
Proof using Type*.
  intros Hidle. unfold housekeeping. eapply holds_bind; [apply holds_scope, idle_dispatch, Hidle|]. intros _ _.
  eapply holds_bind; [apply holds_scope, delivery_rows|]. intros _ _. apply holds_scope.
  eapply holds_bind; [apply rows_of_keeps, purge_keeps|]. intros _ _. apply holds_commit.
Qed.

(** A session starts from what is durable. *)
Lemma housekeeping_committed store leader locked w : schedules_idle (w_committed w) ->
  rows_are (w_committed w) (w_committed (housekeeping exn_text store leader locked w).2).
Proof using Type*.
  intros Hidle. set (w0 := mkWorld (w_committed w) (w_committed w) (w_draws w) (w_now w)).
  change (housekeeping exn_text store leader locked w) with (housekeeping exn_text store leader locked w0).
  by apply (housekeeping_quiet (w_committed w) store leader locked Hidle w0).
Qed.

Lemma build_client_same store w c w' : session_scope (build_client as_query_client store) w = (Ok c, w') ->
  w_committed w' = w_committed w /\ exists x, c = as_query_client x.
Proof using Type*.
  unfold session_scope, build_client. set (w0 := mkWorld _ _ _ _). unfold mbind at 1.
  destruct (read_many store CLIENT_KEYS w0) as [[values|e] w1] eqn:E; [|done]. apply read_many_world in E as ->.
  unfold mbind, lift. destruct (client_from_platform_values values) as [x|e]; [|done]. unfold mret. intros [= <- <-].
  split; [done|]. by exists x.
Qed.

(** Rows that are the same serve the queue as well. *)
Lemma rows_are_ready d d' : rows_are d d' -> queue_ready d ->
  queue_ready d' /\ waiting d' = waiting d /\ items_advance d d' /\ batch_scans_stay d d'.
Proof using Type.
  unfold rows_are, scan_rows. intros [= Hsc Hsu Hq Hb _] [Hk Hsk Hitems].
  split; [|split; [unfold waiting; by rewrite Hq|split; [by apply advance_refl|intros k scan; by rewrite Hsc]]]. split.
  - unfold queue_keyed. by rewrite Hq.
  - unfold subjects_keyed. by rewrite Hsu.
  - rewrite Hq, Hb, Hsu. unfold batch_accounted, of_batch. rewrite Hq. exact Hitems.
Qed.

(** Why a turn raises: its housekeeping does, and the queue is as it was; the client cannot be built from
    the stored settings; or the work is lost. *)
Definition turn_fails (store : PlatformSettingsStore) (e : exn) (w' : World) : Prop :=
  (queue_ready (w_committed w') /\ exists leader locked v, housekeeping exn_text store leader locked v = (Raise e, w')) \/
  (exists v, session_scope (build_client as_query_client store) v = (Raise e, w')) \/
  work_lost e w'.

Definition client_ok (client : option QueryClient) : Prop := forall c, client = Some c -> @QueryClientLaws c.

Lemma turn_ready settings store worker_id leader locked client w r w' :
  client_ok client -> queue_ready (w_committed w) -> schedules_idle (w_committed w) ->
  worker_iteration exn_text as_query_client settings store worker_id leader locked client w = (r, w') ->
  (exists e, r = Raise e /\ turn_fails store e w') \/
  (exists client', r = Ok client' /\ client_ok client' /\ queue_ready (w_committed w') /\
   schedules_idle (w_committed w') /\ (waiting (w_committed w') <= pred (waiting (w_committed w)))%nat /\
   items_advance (w_committed w) (w_committed w') /\ batch_scans_stay (w_committed w) (w_committed w')).
Proof using Type*.
  intros Hclient Hready Hidle. unfold worker_iteration, mbind at 1.
  pose proof (housekeeping_committed store leader locked w Hidle) as Hkeep. destruct (housekeeping exn_text store leader locked w) as [[u|e] w1] eqn:Eh; cbn [snd] in Hkeep.
  2: { intros [= <- <-]. left. exists e. split; [done|]. left. split; [by apply (rows_are_ready _ _ Hkeep)|].
       by exists leader, locked, w. }
  destruct (rows_are_ready _ _ Hkeep Hready) as (Hready1&Hw1&Hadv1&Hstay1).
  assert (Hidle1 : schedules_idle (w_committed w1)).
  { unfold rows_are, scan_rows in Hkeep. injection Hkeep as _ _ _ _ Hs. unfold schedules_idle. by rewrite Hs. }
  unfold mbind at 1.
  destruct (claim_ready worker_id w1 Hready1) as [(w2&->&Hc&Hn)|(q&s&w2&->&Hq&Hqs&Hs&Hc)].
  { unfold mret. intros [= <- <-]. right. exists client. rewrite Hc. split; [done|]. split; [done|]. split; [done|].
    split; [done|]. split; [lia|]. by split. }
  assert (Hwork : forall c v r v', @QueryClientLaws c -> w_committed v = w_committed w2 ->
    (do! process_work settings c (work_of q s); mret (Some c)) v = (r, v') ->
    (exists e, r = Raise e /\ turn_fails store e v') \/
    (exists client', r = Ok client' /\ client_ok client' /\ queue_ready (w_committed v') /\
     schedules_idle (w_committed v') /\ (waiting (w_committed v') <= pred (waiting (w_committed w)))%nat /\
     items_advance (w_committed w) (w_committed v') /\ batch_scans_stay (w_committed w) (w_committed v'))).
  { intros c v r0 v' Hlaws Hv. unfold mbind. destruct (process_work settings c (work_of q s) v) as [r1 v1] eqn:E.
    rewrite Hc in Hv.
    destruct (work_ready settings worker_id q s w1 v r1 v1 Hready1 Hq Hqs Hs Hv E)
      as [(e&->&He)|(->&Hr2&Hwait&Hsch&Hadv&Hstay)].
    - intros [= <- <-]. left. exists e. split; [done|]. by right; right.
    - unfold mret. intros [= <- <-]. right. exists (Some c). split; [done|]. split; [by intros ? [= <-]|]. split; [done|].
      split; [unfold schedules_idle; by rewrite Hsch|]. split; [lia|].
      split; [by apply (advance_trans _ (w_committed w1))|by apply (stay_trans _ (w_committed w1))]. }
  unfold mbind at 1. destruct client as [c|].
  - unfold mret at 1. intros E. by apply (Hwork c w2 r w' (Hclient c eq_refl) eq_refl).
  - destruct (session_scope (build_client as_query_client store) w2) as [[c|e] w3] eqn:Eb.
    + apply build_client_same in Eb as [Hw3 [x ->]]. intros E. by apply (Hwork _ w3 r w' (built_clients x) Hw3).
    + intros [= <- <-]. left. exists e. split; [done|]. right. left. by exists w2.
Qed.

Lemma turns_ready settings store worker_id leader locked others n client w r w' :
  client_ok client -> (forall i v, leaves_queue (w_committed v) (w_committed (others i v))) ->
  queue_ready (w_committed w) -> schedules_idle (w_committed w) -> (waiting (w_committed w) <= n)%nat ->
  worker_turns exn_text as_query_client settings store worker_id leader locked others n client w = (r, w') ->
  (exists e, r = Raise e /\ turn_fails store e w') \/
  (exists client', r = Ok client' /\ queue_ready (w_committed w') /\ waiting (w_committed w') = 0%nat /\
   items_advance (w_committed w) (w_committed w')).
Proof using Type*.
  intros Hclient Hothers Hready Hidle Hn E.
  enough (Hgen : (exists e, r = Raise e /\ turn_fails store e w') \/
    (exists client', r = Ok client' /\ queue_ready (w_committed w') /\ waiting (w_committed w') = 0%nat /\
     items_advance (w_committed w) (w_committed w') /\ batch_scans_stay (w_committed w) (w_committed w'))).
  { destruct Hgen as [He|(client'&?&?&?&?&_)]; [by left|right; by exists client']. }
  revert client w Hclient Hready Hidle Hn E. induction n as [|n IH]; intros client w Hclient Hready Hidle Hn.
  { intros [= <- <-]. right. exists client. split; [done|]. split; [done|]. split; [lia|]. split; [by apply advance_refl|].
    by intros k scan. }
  cbn [worker_turns]. pose proof (Hothers n w) as Hleaves. destruct (leaves_ready _ _ Hleaves Hready) as [Hready1 Hw1].
  destruct Hleaves as (EQ&_&_&_&Hstay&Hidle1). specialize (Hidle1 Hidle). set (w1 := others n w) in *. unfold mbind.
  destruct (worker_iteration _ _ _ _ _ _ _ client w1) as [r1 w2] eqn:E.
  destruct (turn_ready _ _ _ _ _ _ _ _ _ Hclient Hready1 Hidle1 E)
    as [(e&->&He)|(client1&->&Hclient1&Hready2&Hidle2&Hwait&Hadv&Hstay2)].
  - intros [= <- <-]. left. by exists e.
  - intros Ed. destruct (IH client1 w2 Hclient1 Hready2 Hidle2 ltac:(lia) Ed) as [He|(client'&->&Hr&Hzero&Hrest&Hstay3)]; [by left|].
    right. exists client'. split; [done|]. split; [done|]. split; [done|].
    pose proof (stay_trans _ _ _ Hstay2 Hstay3) as Hstay13. split; [|by eapply stay_trans].
    apply (advance_trans _ (w_committed w1)); [by apply advance_refl|by apply (advance_trans _ (w_committed w2))|done].
Qed.

End Turns.

(** ** Properties *)

Section WorkerProperties.
Context `{Unicode} `{Aead} `{Entropy} `{HeapOrderLaws} `{Collation} `{Cron} `{MailTransport}.
Context (exn_text : exn -> pystr) (as_query_client : LeakCheckClient * ClientState -> QueryClient).
Hypothesis built_clients : forall c, @QueryClientLaws (as_query_client c).

(** C3: The worker drains its queue.  Take a queue whose items wait or are finished, and a database
    without an enabled schedule. Then as many turns of the loop as items wait, with their housekeeping,
    whatever the breach service answers and whatever the rest of the program does between the turns but
    touch the queue or enable a schedule, leave every item finished and every batch of an item closed:
    as succeeded when all its items succeeded, as partial otherwise.  Each item that waited has a
    finished scan of its subject, and succeeded exactly when that scan did.  Otherwise a turn raised,
    which ends the worker: its housekeeping did, and the queue is ready for the next worker; or its
    client could not be built from the stored settings; or the work of an item was lost, to the end of
    the process, an identifier that is already a scan's, or an answer that does not fit its row. *)
Theorem worker_drains_queue settings store worker_id leader locked others n client w r w' :
  client_ok client -> (forall i v, leaves_queue (w_committed v) (w_committed (others i v))) ->
  queue_ready (w_committed w) -> schedules_idle (w_committed w) -> (waiting (w_committed w) <= n)%nat ->
  worker_turns exn_text as_query_client settings store worker_id leader locked others n client w = (r, w') ->
  (exists e, r = Raise e /\ turn_fails exn_text as_query_client store e w') \/
  ((exists client', r = Ok client') /\ forall k q, scan_queue (w_committed w) !! k = Some q ->
     (exists q', scan_queue (w_committed w') !! k = Some q' /\ q_batch_id q' = q_batch_id q /\
        q_subject_id q' = q_subject_id q /\ finished q' /\
        (q_status q = Queue_QUEUED -> item_scanned (w_committed w') q')) /\
     exists b, scan_batches (w_committed w') !! q_batch_id q = Some b /\
       (sb_status b = Batch_SUCCEEDED \/ sb_status b = Batch_PARTIAL) /\
       (sb_status b = Batch_SUCCEEDED <->
        of_batch (q_batch_id q) (w_committed w') (fun q => q_status q = Queue_SUCCEEDED))).
Proof using Type*.
  intros Hclient Hothers Hready Hidle Hn E.
  destruct (turns_ready exn_text as_query_client built_clients _ _ _ _ _ _ _ _ _ _ _ Hclient Hothers Hready Hidle Hn E)
    as [He|(client'&->&Hready'&Hzero&Hitems)]; [by left|]. right. split; [by eexists|].
  assert (Hfin : forall k q, scan_queue (w_committed w') !! k = Some q -> finished q).
  { intros k q Hq. destruct (ready_items _ Hready' k q Hq) as ([Hw|Hf]&_); [|done]. by destruct (waiting_none _ Hzero k q Hq). }
  intros k q Hq. destruct (Hitems k q Hq) as (q'&Hq'&Hb'&Hs'&Hcase). pose proof (Hfin k q' Hq') as Hf'. split.
  { exists q'. split; [done|]. split; [done|]. split; [done|]. split; [done|]. intros Hw.
    destruct Hcase as [->|[_ Hscanned]]; [destruct Hf'; congruence|done]. }
  destruct (ready_items _ Hready' k q' Hq') as (_&_&b&Hb&Ha). rewrite Hb' in Hb, Ha. exists b. split; [done|].
  unfold batch_accounted in Ha. destruct (sb_status b); try done.
  - destruct Ha. intros i x Hx _. by apply (Hfin i).
  - destruct Ha. intros i x Hx _. by apply (Hfin i).
  - split; [by left|done].
  - split; [by right|]. split; [done|]. intros Hs. by destruct Ha.
Qed.

End WorkerProperties.

(** The queue of two waiting items, and a service that is down. *)
Lemma batch_world_ready : queue_ready (w_committed batch_world).
Proof.
  split.
  - exact batch_world_keyed.
  - intros k s Hs. change (({[1 := batch_subject 1; 2 := batch_subject 2]} : gmap Z Subject) !! k = Some s) in Hs.
    apply lookup_insert_Some in Hs as [[<- <-]|[_ Hs]]; [done|]. by apply lookup_singleton_Some in Hs as [<- <-].
  - intros k q Hq. change (({[1 := batch_item 1 20; 2 := batch_item 2 10]} : gmap Z ScanQueue) !! k = Some q) in Hq.
    assert (Hopen : ~ of_batch 9 (w_committed batch_world) finished).
    { intros Hall. by destruct (Hall 1 (batch_item 1 20) eq_refl eq_refl). }
    apply lookup_insert_Some in Hq as [[<- <-]|[_ [<- <-]%lookup_singleton_Some]];
      (split; [by left|]; split; [by eexists|]; eexists; split; [reflexivity|exact Hopen]).
Qed.

(** The same with a stored key of the service, and a worker that has not built its client yet. *)
Definition worker_world : World :=
  ((do! @write_many tagged_aead counting_entropy sample_store [(LEAKCHECK_API_KEY, Some (py "key"))] 8; commit)
     batch_world).2.
Definition worker_run : result (option QueryClient) * World :=
  @worker_turns ascii_unicode tagged_aead counting_entropy plain_heap ascii_collation every_minute accepting exn_name
    (fun _ => down_client) sample_settings sample_store (py "w1") (fun _ => true) (fun _ _ => false) (fun _ w => w) 2 None
    worker_world.

Lemma worker_world_rows : rows_are (w_committed batch_world) (w_committed worker_world).
Proof. vm_compute. reflexivity. Qed.

Lemma worker_drains_queue_witness :
  exists b, scan_batches (w_committed worker_run.2) !! 9 = Some b /\ sb_status b = Batch_PARTIAL.
Proof.
  assert (Hr : match worker_run.1 with Ok (Some _) => true | _ => false end = true) by (vm_compute; reflexivity).
  assert (Hf : (sb_status <$> scan_batches (w_committed worker_run.2) !! 9) = Some Batch_PARTIAL) by (vm_compute; reflexivity).
  destruct worker_run as [r w'] eqn:E. cbn [fst snd] in *. unfold worker_run in E.
  destruct (@worker_drains_queue ascii_unicode tagged_aead counting_entropy plain_heap
    (Build_HeapOrderLaws plain_heap (fun A l => reflexivity l)) ascii_collation every_minute accepting exn_name
    (fun _ => down_client) (fun _ => down_client_laws) sample_settings sample_store (py "w1") (fun _ => true)
    (fun _ _ => false) (fun _ w => w) 2 None worker_world r w') as [(e&He&_)|[_ Hall]].
  - discriminate.
  - intros i v. split; [reflexivity|]. split; [reflexivity|]. split; [exact (fun H => H)|].
    split; [exact (fun k H => H)|]. split; [exact (fun k scan H _ => H)|exact (fun H => H)].
  - exact (proj1 (rows_are_ready _ _ worker_world_rows batch_world_ready)).
  - intros k s Hs. exfalso. assert (Hnone : schedules (w_committed worker_world) = ∅) by (vm_compute; reflexivity).
    rewrite Hnone in Hs. discriminate Hs.
  - apply Nat.leb_le. vm_compute. reflexivity.
  - exact E.
  - rewrite He in Hr. discriminate Hr.
  - destruct (Hall 1 (batch_item 1 20)) as [_ (b&Hb&_)].
    + assert (Hrows : scan_queue (w_committed worker_world) = scan_queue (w_committed batch_world)) by (vm_compute; reflexivity).
      rewrite Hrows. reflexivity.
    + exists b. split; [exact Hb|].
      change (q_batch_id (batch_item 1 20)) with 9 in Hb. rewrite Hb in Hf. injection Hf as Hf. exact Hf.
Defined.
