(* ===== verification/Reencrypt.v ===== *)
(** Rotation of the root data key (app/reencrypt.py): every stored ciphertext decrypted under the old
    key and encrypted under the new one, with its nonce and associated data, in one transaction. *)
From S2P Require Import Prelude PyBase Encoding Hashes Json Models Store.
From S2P Require Import Config Aead FindingCrypto PlatformSettings LocalAuth.

Record RotationReport := mkReport {
  rr_findings : Z;
  rr_settings : Z;
  rr_totp_secrets : Z;
  rr_failures : list pystr;
}.

(** [report.summary()] *)
Definition summary (r : RotationReport) : pystr :=
  py "findings=" ++ str_int (rr_findings r) ++ py " settings=" ++ str_int (rr_settings r)
  ++ py " totp_secrets=" ++ str_int (rr_totp_secrets r)
  ++ py " failures=" ++ str_int (Z.of_nat (length (rr_failures r))).

Definition decode_key (value : pystr) : result bytes :=
  try! raw <- decode_data_key value;
  if (length raw =? 32)%nat then Ok raw else Raise ValueError.

Definition generate_key `{Entropy} : M pystr :=
  let! b <- token_bytes 32; mret (rstrip_by (Z.eqb 61) (urlsafe_b64encode b)).

Section Reencrypt.
Context `{Aead} `{HeapOrder}.

Definition recrypt (old new nonce ciphertext aad : bytes) : result bytes :=
  try! plaintext <- aes_open old nonce ciphertext aad;
  Ok (aes_encrypt new nonce plaintext aad).

Definition counted_finding (r : RotationReport) : RotationReport :=
  mkReport (rr_findings r + 1) (rr_settings r) (rr_totp_secrets r) (rr_failures r).
Definition counted_setting (r : RotationReport) : RotationReport :=
  mkReport (rr_findings r) (rr_settings r + 1) (rr_totp_secrets r) (rr_failures r).
Definition counted_totp (r : RotationReport) : RotationReport :=
  mkReport (rr_findings r) (rr_settings r) (rr_totp_secrets r + 1) (rr_failures r).
Definition with_failure (label : pystr) (r : RotationReport) : RotationReport :=
  mkReport (rr_findings r) (rr_settings r) (rr_totp_secrets r) (rr_failures r ++ [label]).

(** [try] ... [except InvalidTag]: the new ciphertext is stored and counted, or the row is reported. *)
Definition recrypt_row (attempt : result bytes) (store : bytes -> Db -> Db)
    (counted : RotationReport -> RotationReport) (label : pystr) (report : RotationReport) : M RotationReport :=
  match attempt with
  | Ok ciphertext => do! modify_db (store ciphertext); mret (counted report)
  | Raise InvalidTag => mret (with_failure label report)
  | Raise e => raise e
  end.

(** Reading a column that its mapping declares [deferred] with [deferred_raiseload]: it is there only when
    the query undefers it; otherwise the access raises instead of loading it. *)
Definition deferred_column {A} (undefer : bool) (value : A) : M A :=
  if undefer then mret value else raise InvalidRequestError.

(** The selections of this module undefer nothing. *)
Definition UNDEFER : bool := false.

Definition rotate_finding (old new : bytes) (report : RotationReport) (f : Finding) : M RotationReport :=
  let! ciphertext <- deferred_column UNDEFER (f_password_ciphertext f);
  let! nonce <- deferred_column UNDEFER (f_password_nonce f);
  match ciphertext, nonce with
  | Some ciphertext, Some nonce =>
      recrypt_row (recrypt old new nonce ciphertext (aad_ (f_id f)))
        (fun c d => set_findings (<[f_id f := set_f_password_ciphertext (Some c) f]> (findings d)) d)
        counted_finding (py "finding:" ++ uuid_str (f_id f)) report
  | _, _ => mret report
  end.

(** The column [updated_at] follows every update of its row. *)
Definition rewritten_setting (now : instant) (ciphertext : bytes) (row : PlatformSetting) : PlatformSetting :=
  mkPlatformSetting (ps_key row) ciphertext (ps_nonce row) (ps_schema_version row) now (ps_updated_by row).

Definition rotate_setting (old new : bytes) (report : RotationReport) (row : PlatformSetting)
  : M RotationReport :=
  let! key <- lift (SettingKey_of (ps_key row));
  let! aad <- lift (setting_aad key (ps_schema_version row));
  let! now <- clock;
  recrypt_row (recrypt old new (ps_nonce row) (ps_ciphertext row) aad)
    (fun c d => set_platform_settings (<[ps_key row := rewritten_setting now c row]> (platform_settings d)) d)
    counted_setting (py "platform_setting:" ++ ps_key row) report.

Definition rotate_credential (old new : bytes) (report : RotationReport) (c : AdminCredential)
  : M RotationReport :=
  let! blob <- deferred_column UNDEFER (ac_totp_secret_enc c);
  match blob with
  | Some blob =>
      if (length blob <=? TOTP_NONCE_BYTES)%nat then mret report
      else
        let nonce := take TOTP_NONCE_BYTES blob in
        recrypt_row (recrypt old new nonce (drop TOTP_NONCE_BYTES blob) (totp_aad (ac_user_id c)))
          (fun ct d => set_admin_credentials
             (<[ac_user_id c := set_ac_totp_secret_enc (Some (nonce ++ ct)) c]> (admin_credentials d)) d)
          counted_totp (py "admin_credential:" ++ uuid_str (ac_user_id c)) report
  | None => mret report
  end.

Definition has_ciphertext (f : Finding) : bool := bool_decide (is_Some (f_password_ciphertext f)).
Definition has_totp (c : AdminCredential) : bool := bool_decide (is_Some (ac_totp_secret_enc c)).

Definition rotate (old_key new_key : bytes) : M RotationReport :=
  let! old <- lift (aesgcm old_key);
  let! new <- lift (aesgcm new_key);
  let! d <- get_db;
  let! report <- mfold (rotate_finding old new) (mkReport 0 0 0 []) (select has_ciphertext (findings d));
  let! d <- get_db;
  let! report <- mfold (rotate_setting old new) report (select (fun _ => true) (platform_settings d));
  let! d <- get_db;
  mfold (rotate_credential old new) report (select has_totp (admin_credentials d)).

(** [_run] *)
Definition run_rotation (settings : Settings) (new_key_value : pystr) (dry_run : bool) : M RotationReport :=
  let! old_key <- lift (decode_key (data_key settings));
  let! new_key <- lift (decode_key new_key_value);
  if bool_decide (old_key = new_key) then raise SystemExit
  else session_scope (
    let! report <- rotate old_key new_key;
    do! (if negb (bool_decide (rr_failures report = [])) then rollback
         else if dry_run then rollback else commit);
    mret report).

End Reencrypt.

(** ** Lemmas *)

Section ReencryptLemmas.
Context `{AeadLaws} `{HeapOrderLaws} (old new : bytes).

Definition no_failures (r : RotationReport) : Prop := rr_failures r = [].

(** The two ciphertexts open, under their keys, to one plaintext. *)
Definition same_secret (nonce aad c c' : bytes) : Prop :=
  exists p, aes_open old nonce c aad = Ok p /\ aes_open new nonce c' aad = Ok p.

Definition setting_rotated (r r' : PlatformSetting) : Prop :=
  exists key aad now c', SettingKey_of (ps_key r) = Ok key /\ setting_aad key (ps_schema_version r) = Ok aad /\
    r' = rewritten_setting now c' r /\ same_secret (ps_nonce r) aad (ps_ciphertext r) c'.
Lemma recrypt_ok nonce c aad c' : recrypt old new nonce c aad = Ok c' -> same_secret nonce aad c c'.
Proof using Type*.
  intros (p&Hp&[= <-])%rbind_Ok. exists p. split; [done|]. apply aes_open_encrypt.
Qed.

Lemma recrypt_row_inv attempt store counted label r w r' w' :
  (forall x, rr_failures (counted x) = rr_failures x) ->
  recrypt_row attempt store counted label r w = (Ok r', w') ->
  (exists c, attempt = Ok c /\ w' = with_db (store c (w_db w)) w /\ (no_failures r' -> no_failures r)) \/
  (w' = w /\ ~ no_failures r').
Proof using Type.
  intros Hcount. unfold recrypt_row. destruct attempt as [c|e].
  - unfold mbind, modify_db, mret. intros [= <- <-]. left. exists c. unfold no_failures. by rewrite Hcount.
  - destruct e; try (unfold raise; by intros [=]). unfold mret. intros [= <- <-]. right. split; [done|].
    unfold no_failures, with_failure. cbn. by destruct (rr_failures r).
Qed.

(** A row that a loop reaches through an unloaded column ends it. *)
Lemma unloaded_stops {V} (step : RotationReport -> V -> M RotationReport) l r w :
  (forall r x w, step r x w = (Raise InvalidRequestError, w)) ->
  mfold step r l w = match l with [] => (Ok r, w) | _ => (Raise InvalidRequestError, w) end.
Proof using Type. intros Hs. destruct l as [|x l]; [done|]. cbn [mfold]. unfold mbind. by rewrite Hs. Qed.

Lemma rotate_finding_raises r f w : rotate_finding old new r f w = (Raise InvalidRequestError, w).
Proof using Type. done. Qed.
Lemma rotate_credential_raises r c w : rotate_credential old new r c w = (Raise InvalidRequestError, w).
Proof using Type. done. Qed.

Lemma rotate_setting_row r x w r' w' :
  platform_settings (w_db w) !! ps_key x = Some x -> rotate_setting old new r x w = (Ok r', w') ->
  exists x', platform_settings (w_db w') = <[ps_key x := x']> (platform_settings (w_db w)) /\
    (no_failures r' -> no_failures r /\ setting_rotated x x').
Proof using Type*.
  intros Hx. unfold rotate_setting, setting_rotated.
  intros (key&w1&E1&(aad&w2&E2&(now&w3&E3&E)%mbind_inv)%mbind_inv)%mbind_inv. injection E3 as <- <-.
  apply lift_inv in E1 as [Hkey ->]. apply lift_inv in E2 as [Haad ->].
  apply recrypt_row_inv in E as [(c'&Ha&->&Hok)|[-> Hbad]]; [| |done].
  - eexists. split; [reflexivity|]. intros Hr. split; [by apply Hok|]. eexists key, aad, _, c'.
    repeat (split; [done|]). by apply recrypt_ok.
  - exists x. rewrite insert_id by done. by split.
Qed.

Lemma recrypt_row_keeps {T} (part : Db -> T) attempt store counted label r :
  (forall c d, part (store c d) = part d) -> keeps part (recrypt_row attempt store counted label r).
Proof using Type.
  intros Hs. unfold recrypt_row. destruct attempt as [c|e].
  - apply keeps_bind; [apply keeps_modify, Hs|]. intros []. apply keeps_mret.
  - destruct e; first [apply keeps_raise|apply keeps_mret].
Qed.

Lemma rotate_setting_keeps r x :
  keeps (fun d => set_platform_settings ∅ d) (rotate_setting old new r x).
Proof using Type. unfold rotate_setting. frame. by apply recrypt_row_keeps. Qed.
End ReencryptLemmas.

(** ** Properties *)

Section ReencryptProperties.
Context `{AeadLaws} `{HeapOrderLaws}.

Definition settings_keyed (d : Db) : Prop := forall k r, platform_settings d !! k = Some r -> ps_key r = k.

(** No finding has a stored password, no credential a stored seed. *)
Definition no_password (d : Db) : Prop := forall k f, findings d !! k = Some f -> f_password_ciphertext f = None.
Definition no_seed (d : Db) : Prop := forall k c, admin_credentials d !! k = Some c -> ac_totp_secret_enc c = None.

(** The one database differs from the other in its platform settings, each of which opens in the other,
    under the new key, to what it was under the old one; there is no other secret. *)
Definition rotated (old new : bytes) (d d' : Db) : Prop :=
  no_password d /\ no_seed d /\ d' = set_platform_settings (platform_settings d') d /\
  forall k r, platform_settings d !! k = Some r ->
    exists r', platform_settings d' !! k = Some r' /\ setting_rotated old new r r'.

Lemma no_password_spec d : no_password d <-> select has_ciphertext (findings d) = [].
Proof using Type*.
  rewrite select_nil. unfold has_ciphertext. split; intros Hall k f Hf; specialize (Hall k f Hf).
  - apply bool_decide_eq_false. rewrite Hall. by intros [? ?].
  - by apply bool_decide_eq_false, eq_None_not_Some in Hall.
Qed.
Lemma no_seed_spec d : no_seed d <-> select has_totp (admin_credentials d) = [].
Proof using Type*.
  rewrite select_nil. unfold has_totp. split; intros Hall k f Hf; specialize (Hall k f Hf).
  - apply bool_decide_eq_false. rewrite Hall. by intros [? ?].
  - by apply bool_decide_eq_false, eq_None_not_Some in Hall.
Qed.

(** A loop over the selected rows of a table rotates the table when the rows left out need nothing. *)
Lemma rotate_table `{Countable K} {V} (key : V -> K) (table : Db -> gmap K V) step
    (P : V -> V -> Prop) (p : V -> bool) r w r' w' :
  (forall s x w s' w', table (w_db w) !! key x = Some x -> step s x w = (Ok s', w') ->
     exists x', table (w_db w') = <[key x := x']> (table (w_db w)) /\ (no_failures s' -> no_failures s /\ P x x')) ->
  (forall k v, table (w_db w) !! k = Some v -> key v = k) ->
  (forall x, p x = false -> P x x) ->
  mfold step r (select p (table (w_db w))) w = (Ok r', w') -> no_failures r' ->
  no_failures r /\ forall k v, table (w_db w) !! k = Some v -> exists v', table (w_db w') !! k = Some v' /\ P v v'.
Proof using H2.
  intros Hstep Hk Hskip E Hr'.
  destruct (mfold_rows key table step P no_failures Hstep (select p (table (w_db w))) r w r' w') as [Hother Hall].
  - by apply select_nodup.
  - intros x Hx. apply elem_of_select in Hx as [_ [k Hx]]. by rewrite (Hk k x Hx).
  - done.
  - destruct (Hall Hr') as [Hr Hrows]. split; [done|]. intros k v Hv. destruct (p v) eqn:Ep.
    + rewrite <- (Hk k v Hv). apply Hrows, elem_of_select. eauto.
    + exists v. split; [|by apply Hskip]. rewrite Hother; [done|]. intros Hin.
      apply list_elem_of_fmap in Hin as (x&Hx&Hin). apply elem_of_select in Hin as [Hp [k' Hx']].
      assert (k = k') as <- by (rewrite Hx; by apply Hk). congruence.
Qed.

Lemma rotate_inv old new w r w' :
  settings_keyed (w_db w) -> length old = 32%nat -> length new = 32%nat ->
  rotate old new w = (r, w') ->
  match r with
  | Ok report => no_failures report -> rotated old new (w_db w) (w_db w')
  | Raise e => no_password (w_db w) \/ e = InvalidRequestError
  end /\ (no_password (w_db w) /\ no_seed (w_db w) \/ exists e, r = Raise e).
Proof using Type*.
  intros Hkp Ho Hn E. unfold rotate in E. rewrite (aesgcm_256 old Ho), (aesgcm_256 new Hn) in E.
  unfold mbind at 1, lift at 1 in E. unfold mbind at 1, lift at 1 in E. unfold mbind at 1, get_db at 1 in E.
  unfold mbind at 1 in E. rewrite (unloaded_stops (rotate_finding old new)) in E by done.
  destruct (select has_ciphertext (findings (w_db w))) as [|f fs] eqn:Ef.
  2: { injection E as <- <-. split; [by right|right; by eexists]. }
  apply no_password_spec in Ef. unfold mbind at 1, get_db at 1 in E. unfold mbind at 1 in E.
  destruct (keeps_mfold _ (rotate_setting old new) (select (fun _ => true) (platform_settings (w_db w))) (mkReport 0 0 0 [])
    (rotate_setting_keeps old new) w) as [Hp _].
  destruct (mfold (rotate_setting old new) _ _ w) as [[r2|e] w2] eqn:E2; cbn [snd] in Hp.
  2: { injection E as <- <-. split; [by left|right; by eexists]. }
  unfold mbind at 1, get_db at 1 in E. rewrite (unloaded_stops (rotate_credential old new)) in E by done.
  assert (Hrest : w_db w2 = set_platform_settings (platform_settings (w_db w2)) (w_db w)).
  { destruct (w_db w) eqn:Ew, (w_db w2) eqn:Ew2. cbn in Hp. by simplify_eq. }
  assert (Hseed : no_seed (w_db w2) <-> no_seed (w_db w)).
  { unfold no_seed. by rewrite Hrest. }
  destruct (select has_totp (admin_credentials (w_db w2))) as [|c cs] eqn:Ec.
  2: { injection E as <- <-. split; [by left|right; by eexists]. }
  apply no_seed_spec, Hseed in Ec. injection E as <- <-. split; [|by left]. intros Hok.
  split; [done|]. split; [done|]. split; [exact Hrest|].
  apply (rotate_table ps_key platform_settings _ (setting_rotated old new)) in E2 as [_ Hps];
    [exact Hps|apply rotate_setting_row|exact Hkp|done|exact Hok].
Qed.

Lemma rotate_commits_nothing old new w : w_committed (rotate old new w).2 = w_committed w.
Proof using Type.
  assert (Hk : keeps (fun _ => tt) (rotate old new)); [|apply Hk].
  unfold rotate, rotate_finding, rotate_setting, rotate_credential. frame; by apply recrypt_row_keeps.
Qed.

(** What a run leaves behind, by how it ends. *)
Lemma run_rotation_outcome settings new_key_value dry_run w r w' :
  settings_keyed (w_committed w) -> run_rotation settings new_key_value dry_run w = (r, w') ->
  match r with
  | Ok report =>
      if bool_decide (rr_failures report = []) && negb dry_run
      then exists old new, decode_key (data_key settings) = Ok old /\ decode_key new_key_value = Ok new /\ old <> new /\
             rotated old new (w_committed w) (w_committed w')
      else w_committed w' = w_committed w
  | Raise _ => w_committed w' = w_committed w
  end /\
  (forall old new, decode_key (data_key settings) = Ok old -> decode_key new_key_value = Ok new -> old <> new ->
     (no_password (w_committed w) \/ r = Raise InvalidRequestError) /\
     (no_password (w_committed w) /\ no_seed (w_committed w) \/ exists e, r = Raise e)).
Proof using Type*.
  intros Hk. unfold run_rotation, mbind at 1, lift at 1.
  destruct (decode_key (data_key settings)) as [old|e] eqn:Eo; [|intros [= <- <-]; split; [done|by intros o n [=]]].
  unfold mbind at 1, lift at 1. destruct (decode_key new_key_value) as [new|e] eqn:En; [|intros [= <- <-]; split; [done|by intros o n _ [=]]].
  assert (Hlen : forall v k, decode_key v = Ok k -> length k = 32%nat).
  { intros v k (b&_&Hb)%rbind_Ok. destruct (length b =? 32)%nat eqn:El; [|done]. injection Hb as <-.
    by apply Nat.eqb_eq. }
  destruct (bool_decide (old = new)) eqn:Eeq.
  { intros [= <- <-]. split; [done|]. intros o n [= <-] [= <-] Hne. by apply bool_decide_eq_true in Eeq. }
  apply bool_decide_eq_false in Eeq.
  unfold session_scope. set (w0 := mkWorld _ _ _ _). unfold mbind at 1.
  destruct (rotate old new w0) as [r0 w1] eqn:Er.
  pose proof (rotate_commits_nothing old new w0) as Hc; rewrite Er in Hc; cbn [snd w0 w_committed] in Hc.
  destruct (rotate_inv old new w0 r0 w1 Hk (Hlen _ _ Eo) (Hlen _ _ En) Er) as [Hr Hall]. cbn [w0 w_db] in Hr, Hall.
  destruct r0 as [report|e].
  2: { unfold rollback. intros [= <- <-]. split; [done|]. intros o n _ _ _. split; [|right; by eexists].
       destruct Hr as [Hr| ->]; [by left|by right]. }
  destruct Hall as [[Hp Hs]|[e He]]; [|done].
  unfold mbind, mret. intros E.
  split; [|intros o n _ _ _; by split; left].
  destruct (bool_decide (rr_failures report = [])) eqn:Ef; cbn [negb] in E.
  2: { unfold rollback in E. injection E as <- <-. by rewrite Ef. }
  pose proof Ef as Hno. apply bool_decide_eq_true in Hno.
  destruct dry_run; unfold rollback, commit in E; injection E as <- <-; rewrite Ef; cbn [andb negb]; [done|].
  exists old, new. repeat (split; [done|]). cbn [w_committed]. by apply Hr.
Qed.

(** C12: A key rotation is all or nothing, and cannot rotate what it was written for.  Either nothing durable
    changes, or every platform setting opens under the new key, for its own row, to what it was under the
    old one, nothing else has changed, and there was no other secret to rotate.  For the password columns
    and the seed column are deferred with [raiseload], and the command's queries do not undefer them: with
    two usable and different keys, a stored finding password makes it raise [InvalidRequestError], and a
    stored password or TOTP seed makes it raise, and then nothing durable has changed. *)
Theorem rotation_all_or_nothing settings new_key_value dry_run w r w' :
  settings_keyed (w_committed w) ->
  run_rotation settings new_key_value dry_run w = (r, w') ->
  (w_committed w' = w_committed w \/
   (dry_run = false /\ exists report old new, r = Ok report /\ rr_failures report = [] /\
      decode_key (data_key settings) = Ok old /\ decode_key new_key_value = Ok new /\ old <> new /\
      rotated old new (w_committed w) (w_committed w'))) /\
  forall old new, decode_key (data_key settings) = Ok old -> decode_key new_key_value = Ok new -> old <> new ->
    (no_password (w_committed w) \/ r = Raise InvalidRequestError /\ w_committed w' = w_committed w) /\
    (no_password (w_committed w) /\ no_seed (w_committed w) \/ exists e, r = Raise e /\ w_committed w' = w_committed w).
Proof using Type*.
  intros Hk E. apply run_rotation_outcome in E as [E Hraise]; [|done]. split.
  - destruct r as [report|e]; [|by left].
    destruct (bool_decide (rr_failures report = [])) eqn:Ef, dry_run; cbn [andb negb] in E; try (by left). right.
    apply bool_decide_eq_true in Ef. destruct E as (old&new&Ho&Hn&Hne&Hrot). split; [done|]. by exists report, old, new.
  - intros old new Ho Hn Hne. destruct (Hraise old new Ho Hn Hne) as [Hp Hs]. split.
    + destruct Hp as [Hp| ->]; [by left|by right].
    + destruct Hs as [Hs|[e ->]]; [by left|right; by exists e].
Qed.

End ReencryptProperties.

(** One stored setting, one protected finding, and a new key. *)
Definition rotation_key : pystr := py "AgICAgICAgICAgICAgICAgICAgICAgICAgICAgICAgI".
Definition current_key : bytes := match decode_key (data_key sample_settings) with Ok k => k | Raise _ => [] end.
Definition setting_world : World :=
  ((do! @write_many tagged_aead counting_entropy (mkStore current_key) [(SMTP_HOST, Some (py "mail.example.com"))] 8; commit)
     (mkWorld empty_db empty_db 0 0)).2.
Definition password_world : World :=
  let f := mkFinding 5 3 2 None None None None None
    (Some (@aes_encrypt tagged_aead current_key (be_split 12 9) (py "hunter22") (aad_ 5)))
    (Some (be_split 12 9)) None None None None [] [] (be_split 32 1) Severity_MEDIUM 0 0 None None None None None in
  let d := set_findings {[5 := f]} empty_db in mkWorld d d 0 0.
Definition rotation_of (w : World) : result RotationReport * World :=
  @run_rotation tagged_aead plain_heap sample_settings rotation_key false w.

Lemma rotation_all_or_nothing_witness :
  exists k r', platform_settings (w_committed (rotation_of setting_world).2) !! k = Some r' /\
    ~ platform_settings (w_committed setting_world) !! k = Some r'.
Proof.
  assert (Hcount : (rr_settings <$> (match (rotation_of setting_world).1 with Ok r => Some r | Raise _ => None end)) = Some 1)
    by (vm_compute; reflexivity).
  assert (Hne : bool_decide ((ps_ciphertext <$> platform_settings (w_committed (rotation_of setting_world).2) !! py "smtp_host")
      = (ps_ciphertext <$> platform_settings (w_committed setting_world) !! py "smtp_host")) = false) by (vm_compute; reflexivity).
  assert (Hold : bool_decide (is_Some (platform_settings (w_committed setting_world) !! py "smtp_host")) = true)
    by (vm_compute; reflexivity).
  apply bool_decide_eq_false in Hne. apply bool_decide_eq_true in Hold. destruct Hold as [row Hrow].
  destruct (rotation_of setting_world) as [r w'] eqn:E. cbn [fst snd] in *. unfold rotation_of in E.
  destruct (@rotation_all_or_nothing tagged_aead tagged_aead_laws plain_heap
    (Build_HeapOrderLaws plain_heap (fun A l => reflexivity l)) sample_settings rotation_key false setting_world r w')
    as [[Hsame|(_&report&old&new&_&_&_&_&_&_&_&_&Hrot)] _].
  - assert (Hkeys : forallb (fun kx : pystr * PlatformSetting => bool_decide (ps_key kx.2 = kx.1))
      (map_to_list (platform_settings (w_committed setting_world))) = true) by (vm_compute; reflexivity).
    intros k x Hx. pose proof (table_check (fun k x => bool_decide (ps_key x = k)) _ Hkeys k x Hx) as Hb.
    cbv beta in Hb. by apply bool_decide_eq_true in Hb.
  - exact E.
  - exfalso. apply Hne. by rewrite Hsame.
  - destruct (Hrot _ _ Hrow) as (r'&Hr'&_). exists (py "smtp_host"), r'. split; [exact Hr'|].
    intros Hsame. apply Hne. by rewrite Hr', Hsame.
Defined.

(** The command cannot rotate a stored password. *)
Lemma stored_password_stops_rotation :
  (rotation_of password_world).1 = Raise InvalidRequestError /\
  (f_password_ciphertext <$> findings (w_committed (rotation_of password_world).2) !! 5) =
  (f_password_ciphertext <$> findings (w_committed password_world) !! 5).
Proof. vm_compute. split; reflexivity. Qed.
