(* ===== verification/Users.v ===== *)
(** The accounts of the portal: changes by a super-admin (the user routes of app/routers/admin.py),
    with the guard that keeps the last super-admin, and the directory sync (sync_workspace_users of
    app/google_workspace.py). *)
From S2P Require Import Prelude PyBase Encoding Hashes Json Models Store Config Aead IpAddress Access LocalAuth.

Record UserUpdate := mkUserUpdate {
  uu_display_name : option pystr;
  uu_role : option UserRole;
  uu_is_active : option bool;
}.
Record UserCreate := mkUserCreate { uc_email : pystr; uc_display_name : pystr; uc_role : UserRole }.

Record WorkspaceUser := mkWorkspaceUser {
  wu_external_id : pystr;
  wu_email : pystr;
  wu_display_name : pystr;
  wu_ou_path : pystr;
  wu_suspended : bool;
}.
Record SyncResult := mkSyncResult { sy_seen : Z; sy_deactivated : Z }.

Section Users.
Context `{Unicode} `{Collation} `{Entropy} `{HeapOrder}.

Definition active_super_admin (u : User) : bool :=
  bool_decide (u_role u = Role_SUPER_ADMIN) && u_is_active u.

Definition remaining_super_admins (d : Db) (excluding : uuid) : Z :=
  Z.of_nat (length (select (fun u => active_super_admin u && negb (bool_decide (u_id u = excluding))) (users d))).

(** [payload.role is not None and payload.role is not UserRole.SUPER_ADMIN], [payload.is_active is False] *)
Definition demoted (payload : UserUpdate) : bool :=
  match uu_role payload with Some r => negb (bool_decide (r = Role_SUPER_ADMIN)) | None => false end.
Definition deactivated (payload : UserUpdate) : bool := bool_decide (uu_is_active payload = Some false).

(** The two guards of the route: 409 for one's own access and for the last active super-admin. *)
Definition update_guard (d : Db) (current_user_id : uuid) (user : User) (payload : UserUpdate) : result unit :=
  if bool_decide (u_id user = current_user_id) && (demoted payload || deactivated payload)
  then Raise (HTTPException 409)
  else if bool_decide (u_role user = Role_SUPER_ADMIN) && (demoted payload || deactivated payload)
          && (remaining_super_admins d (u_id user) =? 0)
  then Raise (HTTPException 409)
  else Ok tt.

Definition apply_update (payload : UserUpdate) (user : User) : result User :=
  try! name <- match uu_display_name payload with
               | Some n => normalise_display_name n
               | None => Ok (u_display_name user)
               end;
  let user := set_u_display_name name user in
  let user := match uu_role payload with Some r => set_u_role r user | None => user end in
  Ok (match uu_is_active payload with Some b => set_u_is_active b user | None => user end).

Definition user_state (u : User) : json :=
  JDict [(py "display_name", JStr (u_display_name u)); (py "role", JStr (UserRole_value (u_role u)));
         (py "active", JBool (u_is_active u))].

Definition update_user (settings : Settings) (client_host : option pystr) (current_user_id user_id : uuid)
    (payload : UserUpdate) : M User :=
  let! d <- get_db;
  match users d !! user_id with
  | None => raise (HTTPException 404)
  | Some user =>
      do! lift (update_guard d current_user_id user payload);
      let! user' <- lift (apply_update payload user);
      do! put_user user';
      let! _ <- audit_event client_host settings (py "admin.user_updated") (Some current_user_id)
                  (Some (py "user")) (Some (uuid_str (u_id user)))
                  [(py "before", user_state user); (py "after", user_state user')];
      mret user'
  end.

Definition create_user (settings : Settings) (client_host : option pystr) (current_user_id : uuid)
    (payload : UserCreate) : M User :=
  let! email <- lift (normalise_admin_email (uc_email payload));
  let! name <- lift (normalise_display_name (uc_display_name payload));
  let! d <- get_db;
  match find_row (user_with_email email) (users d) with
  | Some _ => raise (HTTPException 409)
  | None =>
      let! id <- uuid4;
      let! now <- clock;
      let user := mkUser id email None name None (uc_role payload) true Source_MANUAL now None in
      let! t <- lift (insert_row true id user (users d));
      do! modify_db (set_users t);
      let! _ <- audit_event client_host settings (py "admin.user_created") (Some current_user_id)
                  (Some (py "user")) (Some (uuid_str id)) [(py "role", JStr (UserRole_value (uc_role payload)))];
      mret user
  end.

(** ** The directory sync *)

Definition other_with_sub (sub : pystr) (id : uuid) (u : User) : bool :=
  bool_decide (u_google_sub u = Some sub) && negb (bool_decide (u_id u = id)).

(** The upsert of one directory user; a Google subject may belong to one account only. *)
Definition sync_one (item : WorkspaceUser) : M unit :=
  let email := casefold (wu_email item) in
  let! id <- uuid4;
  let! now <- clock;
  let! d <- get_db;
  let taken id := bool_decide (is_Some (find_row (other_with_sub (wu_external_id item) id) (users d))) in
  match find_row (user_with_email email) (users d) with
  | Some u =>
      if taken (u_id u) then raise IntegrityError
      else put_user (set_u_google_sub (Some (wu_external_id item)) (set_u_is_active (negb (wu_suspended item))
                       (set_u_ou_path (Some (wu_ou_path item)) (set_u_display_name (wu_display_name item) u))))
  | None =>
      let user := mkUser id email (Some (wu_external_id item)) (wu_display_name item) (Some (wu_ou_path item))
                    Role_USER (negb (wu_suspended item)) Source_WORKSPACE_SYNC now None in
      let! t <- lift (insert_row (negb (taken id)) id user (users d));
      modify_db (set_users t)
  end.

Definition departed (active_emails : list pystr) (u : User) : bool :=
  bool_decide (u_source u = Source_WORKSPACE_SYNC) && u_is_active u
  && negb (existsb (citext_eq (u_email u)) active_emails).

Definition sync_workspace_users (items : list WorkspaceUser) : M SyncResult :=
  let! _ <- mfor sync_one items;
  let active_emails := map (fun i => casefold (wu_email i)) items in
  let! d <- get_db;
  do! modify_db (fun d => set_users
        ((fun u => if departed active_emails u then set_u_is_active false u else u) <$> users d) d);
  mret (mkSyncResult (Z.of_nat (length items))
          (Z.of_nat (length (List.filter (departed active_emails) (map_to_list (users d)).*2)))).

(** Two updates whose guards both read the database before either commits: only the row of the
    changed user is locked. *)
Definition concurrent_updates (actor1 id1 actor2 id2 : uuid) (payload : UserUpdate) (d : Db) : result Db :=
  try! u1 <- of_option (users d !! id1) (HTTPException 404);
  try! u2 <- of_option (users d !! id2) (HTTPException 404);
  try! _ <- update_guard d actor1 u1 payload;
  try! _ <- update_guard d actor2 u2 payload;
  try! u1' <- apply_update payload u1;
  try! u2' <- apply_update payload u2;
  Ok (set_users (<[u_id u2' := u2']> (<[u_id u1' := u1']> (users d))) d).

End Users.

(** ** Lemmas *)

Section UserLemmas.
Context `{Unicode} `{Collation} `{Entropy} `{HeapOrderLaws}.

Definition users_keyed (d : Db) : Prop := forall k u, users d !! k = Some u -> u_id u = k.
Definition has_super_admin (d : Db) : Prop :=
  exists k u, users d !! k = Some u /\ active_super_admin u = true.

Lemma remaining_0 d id :
  users_keyed d ->
  remaining_super_admins d id = 0 <->
  forall k u, users d !! k = Some u -> active_super_admin u = true -> k = id.
Proof using Type*.
  intros Hk. unfold remaining_super_admins. rewrite (Nat2Z.inj_iff _ 0), length_zero_iff_nil, select_nil. split.
  - intros Hall k u Hu Ha. specialize (Hall k u Hu). rewrite Ha in Hall. cbn in Hall.
    apply negb_false_iff, bool_decide_eq_true in Hall. by rewrite <- (Hk k u Hu).
  - intros Hall k u Hu. destruct (active_super_admin u) eqn:Ea; [cbn|done].
    apply negb_false_iff, bool_decide_eq_true. by rewrite (Hk k u Hu), (Hall k u Hu Ea).
Qed.

Lemma apply_update_inv payload u u' :
  apply_update payload u = Ok u' ->
  u_id u' = u_id u /\ u_role u' = default (u_role u) (uu_role payload) /\
  u_is_active u' = default (u_is_active u) (uu_is_active payload).
Proof using Type.
  unfold apply_update. intros (n&_&[= <-])%rbind_Ok. destruct (uu_role payload), (uu_is_active payload); by repeat split.
Qed.

Lemma audit_event_users host settings action actor tt_ ti meta w r w' :
  audit_event host settings action actor tt_ ti meta w = (r, w') -> users (w_db w') = users (w_db w).
Proof using Type.
  unfold audit_event, mbind, lift, uuid4, clock, get_db.
  destruct (utf8_encode (session_secret settings)); [|by intros [= <- <-]].
  destruct (_ && _); unfold modify_db, mret, raise, with_db; by intros [= <- <-].
Qed.

Lemma update_user_inv settings host actor id payload w r w' :
  update_user settings host actor id payload w = (r, w') ->
  users (w_db w') = users (w_db w) \/
  exists u u', users (w_db w) !! id = Some u /\ update_guard (w_db w) actor u payload = Ok tt /\
    apply_update payload u = Ok u' /\ users (w_db w') = <[u_id u' := u']> (users (w_db w)).
Proof using Type.
  unfold update_user, mbind at 1, get_db. destruct (users (w_db w) !! id) as [u|] eqn:Eu;
    [|intros [= <- <-]; by left].
  unfold mbind at 1, lift at 1. destruct (update_guard (w_db w) actor u payload) as [[]|e] eqn:Eg;
    [|intros [= <- <-]; by left].
  unfold mbind at 1, lift at 1. destruct (apply_update payload u) as [u'|e] eqn:Ea; [|intros [= <- <-]; by left].
  unfold mbind at 1, put_user, modify_db. intros E. right. exists u, u'. repeat (split; [done|]).
  unfold mbind at 1 in E. destruct (audit_event _ _ _ _ _ _ _ _) as [[ev|e] w1] eqn:Eev;
    apply audit_event_users in Eev; [unfold mret in E|]; by injection E as <- <-.
Qed.

(** A change that passes the guards leaves an active super-admin. *)
Lemma guarded_update_keeps d actor id u u' payload :
  users_keyed d -> has_super_admin d -> users d !! id = Some u -> update_guard d actor u payload = Ok tt ->
  apply_update payload u = Ok u' -> has_super_admin (set_users (<[u_id u' := u']> (users d)) d).
Proof using Type*.
  intros Hk (k&a&Ha&Hact) Hu Hg (Hid&Hrole&Hactive)%apply_update_inv. rewrite Hid, (Hk id u Hu) in *.
  destruct (decide (k = id)) as [->|Hne].
  2: { exists k, a. cbn. by rewrite lookup_insert_ne. }
  rewrite Hu in Ha. injection Ha as <-. unfold active_super_admin in Hact. apply andb_true_iff in Hact as [Hr Hac].
  destruct (demoted payload || deactivated payload) eqn:Elose.
  - unfold update_guard in Hg. rewrite Hr, (Hk id u Hu), Elose in Hg. cbn [andb] in Hg.
    destruct (bool_decide (id = actor)); cbn [andb] in Hg; [done|]. destruct (_ =? 0) eqn:E0; [done|].
    apply Z.eqb_neq in E0. rewrite (remaining_0 d id Hk) in E0.
    destruct (select (fun u => active_super_admin u && negb (bool_decide (u_id u = id))) (users d)) as [|x l] eqn:Es.
    + destruct E0. intros k x Hx Hax. rewrite select_nil in Es. specialize (Es k x Hx). rewrite Hax in Es.
      cbn in Es. apply negb_false_iff, bool_decide_eq_true in Es. by rewrite <- (Hk k x Hx).
    + assert (Hin : x ∈ x :: l) by left. rewrite <- Es in Hin. apply elem_of_select in Hin as [Hx [k Hkx]].
      apply andb_true_iff in Hx as [Hax Hxid]. apply negb_true_iff, bool_decide_eq_false in Hxid.
      exists k, x. cbn. rewrite lookup_insert_ne; [done|]. intros <-. by apply Hxid, Hk.
  - apply orb_false_iff in Elose as [Hd Hda]. exists id, u'. cbn. rewrite lookup_insert_eq. split; [done|].
    unfold active_super_admin. rewrite Hrole, Hactive. unfold demoted, deactivated in *. apply andb_true_iff. split.
    + destruct (uu_role payload) as [r|]; cbn; [by apply negb_false_iff in Hd|done].
    + destruct (uu_is_active payload) as [[]|]; cbn in *; done.
Qed.

(** Any administrator's update of any user, successful or not. *)
Inductive user_step (w : World) : World -> Prop :=
| step_update settings host actor id payload :
    user_step w (update_user settings host actor id payload w).2
| step_create settings host actor payload : user_step w (create_user settings host actor payload w).2.

Lemma create_user_inv settings host actor payload w r w' :
  create_user settings host actor payload w = (r, w') ->
  users (w_db w') = users (w_db w) \/
  exists id u, users (w_db w) !! id = None /\ u_id u = id /\ users (w_db w') = <[id := u]> (users (w_db w)).
Proof using Type.
  unfold create_user, mbind at 1, lift at 1. destruct (normalise_admin_email _) as [email|]; [|intros [= <- <-]; by left].
  unfold mbind at 1, lift at 1. destruct (normalise_display_name _) as [name|]; [|intros [= <- <-]; by left].
  unfold mbind at 1, get_db. destruct (find_row _ _); [intros [= <- <-]; by left|].
  unfold mbind at 1, uuid4. unfold mbind at 1, clock. unfold mbind at 1, lift at 1.
  destruct (insert_row _ _ _ _) as [t|e] eqn:Ei; [|intros [= <- <-]; by left].
  apply insert_row_inv in Ei as (_&Hnew&->). unfold mbind at 1, modify_db. intros E. right.
  exists (uuid_at (w_draws w)), (mkUser (uuid_at (w_draws w)) email None name None (uc_role payload) true
    Source_MANUAL (w_now w) None).
  split; [exact Hnew|]. split; [reflexivity|].
  unfold mbind at 1 in E. destruct (audit_event _ _ _ _ _ _ _ _) as [[ev|e] w1] eqn:Eev;
    apply audit_event_users in Eev; [unfold mret in E|]; by injection E as <- <-.
Qed.

Lemma user_step_inv w w' :
  user_step w w' -> users_keyed (w_db w) -> has_super_admin (w_db w) ->
  users_keyed (w_db w') /\ has_super_admin (w_db w').
Proof using Type*.
  intros Hstep Hk Hadm.
  assert (Hsame : users (w_db w') = users (w_db w) -> users_keyed (w_db w') /\ has_super_admin (w_db w')).
  { intros E. unfold users_keyed, has_super_admin. by rewrite E. }
  destruct Hstep as [settings host actor id payload|settings host actor payload].
  - destruct (update_user settings host actor id payload w) as [r w1] eqn:E. cbn [snd] in *.
    apply update_user_inv in E as [E|(u&u'&Hu&Hg&Ha&E)]; [by apply Hsame|].
    pose proof (guarded_update_keeps _ _ _ _ _ _ Hk Hadm Hu Hg Ha) as (k&x&Hx&Hact). split.
    + intros j y. rewrite E. intros [[<- <-]|[_ Hy]]%lookup_insert_Some; [done|by apply Hk].
    + exists k, x. by rewrite E.
  - destruct (create_user settings host actor payload w) as [r w1] eqn:E. cbn [snd] in *.
    apply create_user_inv in E as [E|(id&u&Hnew&Hid&E)]; [by apply Hsame|]. split.
    + intros j y. rewrite E. intros [[<- <-]|[_ Hy]]%lookup_insert_Some; [done|by apply Hk].
    + destruct Hadm as (k&x&Hx&Hact). exists k, x. rewrite E. split; [|done].
      rewrite lookup_insert_ne; [done|]. intros ->. congruence.
Qed.

(** What a sync keeps of an account. *)
Definition same_account (u u' : User) : Prop :=
  u_id u' = u_id u /\ u_email u' = u_email u /\ u_role u' = u_role u /\ u_source u' = u_source u.

(** The last entry of a listing for an address, if any. *)
Definition names (i : WorkspaceUser) (email : pystr) : bool := citext_eq email (casefold (wu_email i)).
Fixpoint last_listed (items : list WorkspaceUser) (email : pystr) : option WorkspaceUser :=
  match items with
  | [] => None
  | i :: t => match last_listed t email with Some j => Some j | None => if names i email then Some i else None end
  end.

(** The account carries what the entry says. *)
Definition as_listed (i : WorkspaceUser) (u : User) : Prop :=
  u_google_sub u = Some (wu_external_id i) /\ u_display_name u = wu_display_name i /\
  u_ou_path u = Some (wu_ou_path i) /\ u_is_active u = negb (wu_suspended i).
Definition listed_as (i : WorkspaceUser) (u : User) : User :=
  set_u_google_sub (Some (wu_external_id i)) (set_u_is_active (negb (wu_suspended i))
    (set_u_ou_path (Some (wu_ou_path i)) (set_u_display_name (wu_display_name i) u))).
Definition updated (items : list WorkspaceUser) (u : User) : User :=
  match last_listed items (u_email u) with Some i => listed_as i u | None => u end.

(** One account per address: the constraint [uq_users_email]. *)
Definition emails_unique (d : Db) : Prop := forall k k' u u',
  users d !! k = Some u -> users d !! k' = Some u' -> citext_eq (u_email u) (u_email u') = true -> k = k'.

Lemma citext_eq_spec a b : citext_eq a b = true <-> citext_lower a = citext_lower b.
Proof using Type. apply bool_decide_eq_true. Qed.

Lemma listed_as_email i u : u_email (listed_as i u) = u_email u.
Proof using Type. done. Qed.
Lemma listed_as_listed i u : as_listed i (listed_as i u) /\ same_account u (listed_as i u).
Proof using Type. by repeat split. Qed.
Lemma listed_as_twice i j u : listed_as i (listed_as j u) = listed_as i u.
Proof using Type. by destruct u. Qed.

Lemma last_listed_In items email i : last_listed items email = Some i -> i ∈ items /\ names i email = true.
Proof using Type.
  induction items as [|j items IH]; [done|]. cbn [last_listed]. destruct (last_listed items email) as [x|].
  - intros [= ->]. destruct (IH eq_refl). split; [by right|done].
  - destruct (names j email) eqn:E; [|done]. intros [= <-]. split; [left|done].
Qed.
Lemma last_listed_None items email : last_listed items email = None <-> forall i, i ∈ items -> names i email = false.
Proof using Type.
  induction items as [|j items IH]; cbn [last_listed]; [split; [by intros _ i Hi%elem_of_nil|done]|].
  split.
  - destruct (last_listed items email); [done|]. destruct (names j email) eqn:E; [done|]. intros _ i [->|Hi]%elem_of_cons; [done|].
    by apply IH.
  - intros Hall. rewrite (proj2 IH) by (intros i Hi; apply Hall; by right). by rewrite (Hall j) by left.
Qed.

(** What the upserts of a listing make of the accounts. *)
Record synced (items : list WorkspaceUser) (d d' : Db) : Prop := {
  synced_keyed : users_keyed d';
  synced_unique : emails_unique d';
  synced_old : forall k u, users d !! k = Some u -> users d' !! k = Some (updated items u);
  synced_new : forall k u', users d' !! k = Some u' -> users d !! k = None ->
    u_role u' = Role_USER /\ u_source u' = Source_WORKSPACE_SYNC /\
    (exists i, last_listed items (u_email u') = Some i /\ as_listed i u') /\
    exists j, j ∈ items /\ u_email u' = casefold (wu_email j);
  synced_all : forall i, i ∈ items -> exists k u', users d' !! k = Some u' /\ names i (u_email u') = true;
}.

Lemma sync_one_synced item w w' :
  users_keyed (w_db w) -> emails_unique (w_db w) -> sync_one item w = (Ok tt, w') -> synced [item] (w_db w) (w_db w').
Proof using Type.
  intros Hk Hun. unfold sync_one, mbind at 1, uuid4. unfold mbind at 1, clock. unfold mbind at 1, get_db. cbn [w_db].
  destruct (find_row (user_with_email (casefold (wu_email item))) (users (w_db w))) as [u|] eqn:Ef.
  - destruct (bool_decide _); [done|]. unfold put_user, modify_db, with_db. fold (listed_as item u). intros [= <-]. cbn [w_db].
    apply find_row_Some in Ef as [Hm [k Hu]]. pose proof (Hk k u Hu) as Hid. cbn [u_id listed_as set_u_google_sub
      set_u_is_active set_u_ou_path set_u_display_name]. rewrite Hid.
    assert (Hother : forall j x, users (w_db w) !! j = Some x -> k <> j -> names item (u_email x) = false).
    { intros j x Hx Hne. destruct (names item (u_email x)) eqn:E; [|done]. destruct Hne. apply (Hun k j u x Hu Hx).
      apply citext_eq_spec. apply citext_eq_spec in E. apply citext_eq_spec in Hm. congruence. }
    split.
    + intros j x. cbn. intros [[<- <-]|[_ Hx]]%lookup_insert_Some; [done|by apply Hk].
    + intros j j' x x'. cbn. intros [[<- <-]|[Hn Hx]]%lookup_insert_Some [[<- <-]|[Hn' Hx']]%lookup_insert_Some; [done| | |by apply Hun].
      * intros E. by apply (Hun k j' u x').
      * intros E. by apply (Hun j k x u).
    + intros j x Hx. cbn. unfold updated. cbn [last_listed]. destruct (decide (k = j)) as [<-|Hne].
      * rewrite lookup_insert_eq. rewrite Hu in Hx. injection Hx as <-. unfold names. unfold user_with_email in Hm. by rewrite Hm.
      * rewrite lookup_insert_ne by done. by rewrite (Hother j x).
    + intros j x. cbn. intros [[<- <-]|[_ Hx]]%lookup_insert_Some; congruence.
    + intros i ->%list_elem_of_singleton. exists k, (listed_as item u). cbn. split; [apply lookup_insert_eq|exact Hm].
  - unfold mbind, lift. destruct (insert_row _ _ _ _) as [t|e] eqn:Ei; [|done].
    apply insert_row_inv in Ei as (_&Hnew&->). unfold modify_db, with_db. intros [= <-]. cbn [w_db].
    pose proof (proj1 (find_row_None _ _) Ef) as Hnone. set (id := uuid_at _) in *.
    assert (Hself : names item (casefold (wu_email item)) = true) by (by apply citext_eq_spec).
    split.
    + intros j x. cbn. intros [[<- <-]|[_ Hx]]%lookup_insert_Some; [done|by apply Hk].
    + intros j j' x x'. cbn. intros [[<- <-]|[Hn Hx]]%lookup_insert_Some [[<- <-]|[Hn' Hx']]%lookup_insert_Some; [done| | |by apply Hun].
      * cbn. intros E. specialize (Hnone j' x' Hx'). unfold user_with_email in Hnone. apply citext_eq_spec in E.
        assert (citext_eq (u_email x') (casefold (wu_email item)) = true) by (by apply citext_eq_spec). congruence.
      * cbn. intros E. specialize (Hnone j x Hx). unfold user_with_email in Hnone. congruence.
    + intros j x Hx. cbn. rewrite lookup_insert_ne; [|intros <-; congruence]. unfold updated. cbn [last_listed].
      unfold names. specialize (Hnone j x Hx). unfold user_with_email in Hnone. by rewrite Hnone.
    + intros j x. cbn. intros [[<- <-]|[_ Hx]]%lookup_insert_Some; [|congruence]. intros _. split; [done|]. split; [done|].
      cbn [u_email last_listed]. rewrite Hself. split; [|exists item; split; [left|done]]. exists item. by repeat split.
    + intros i ->%list_elem_of_singleton. eexists id, _. cbn. split; [apply lookup_insert_eq|exact Hself].
Qed.

Lemma updated_cons i items u : updated (i :: items) u = updated items (updated [i] u).
Proof using Type.
  assert (He : u_email (updated [i] u) = u_email u) by (unfold updated; by destruct (last_listed _ _)).
  unfold updated at 1 2. rewrite He. cbn [last_listed]. destruct (last_listed items (u_email u)) as [j|].
  - unfold updated. destruct (last_listed _ _); [by rewrite listed_as_twice|done].
  - unfold updated. cbn [last_listed]. by destruct (names i (u_email u)).
Qed.

Lemma synced_cons i items a b c : synced [i] a b -> synced items b c -> synced (i :: items) a c.
Proof using Type.
  intros [_ _ Hold1 Hnew1 Hall1] [Hk Hun Hold2 Hnew2 Hall2]. split; [done|done| | |].
  - intros k u Hu. rewrite updated_cons. by apply Hold2, Hold1.
  - intros k u2 Hu2 Ha. destruct (users b !! k) as [u1|] eqn:Hu1.
    + pose proof (Hold2 k u1 Hu1) as Hx. rewrite Hu2 in Hx. injection Hx as ->.
      destruct (Hnew1 k u1 Hu1 Ha) as (Hr&Hs&(x&Hx&Hl)&(j&->%list_elem_of_singleton&He)).
      assert (Hsame : same_account u1 (updated items u1)).
      { unfold updated. destruct (last_listed items (u_email u1)); [apply listed_as_listed|by repeat split]. }
      destruct Hsame as (_&Hem&Hro&Hso). split; [congruence|]. split; [congruence|]. rewrite Hem.
      split; [|exists i; split; [left|done]]. apply last_listed_In in Hx as Hin. destruct Hin as [->%list_elem_of_singleton Hn].
      cbn [last_listed]. unfold updated. destruct (last_listed items (u_email u1)) as [y|].
      * exists y. split; [done|apply listed_as_listed].
      * exists i. rewrite Hn. by split.
    + destruct (Hnew2 k u2 Hu2 Hu1) as (Hr&Hs&(x&Hx&Hl)&(j&Hj&He)). split; [done|]. split; [done|].
      cbn [last_listed]. rewrite Hx. split; [by exists x|]. exists j. split; [by right|done].
  - intros x [->|Hx]%elem_of_cons; [|by apply Hall2]. destruct (Hall1 i) as (k&u&Hu&Hn); [left|].
    exists k, (updated items u). split; [by apply Hold2|]. unfold updated. by destruct (last_listed _ _).
Qed.

Lemma sync_all_synced items w r w' :
  users_keyed (w_db w) -> emails_unique (w_db w) -> mfor sync_one items w = (Ok r, w') -> synced items (w_db w) (w_db w').
Proof using Type.
  revert w r. induction items as [|i items IH]; intros w r Hk Hun; cbn [mfor].
  - intros [= _ <-]. split; try done; [congruence|]. by intros i Hi%elem_of_nil.
  - intros (u&w1&E1&E)%mbind_inv. destruct u. apply sync_one_synced in E1; [|done|done].
    apply mbind_inv in E as (rs&w2&E2&E3). injection E3 as _ <-.
    eapply synced_cons; [done|]. apply (IH w1 rs); [apply E1|apply E1|done].
Qed.

End UserLemmas.

(** ** Properties *)

Section UserProperties.
Context `{Unicode} `{Collation} `{Entropy} `{HeapOrderLaws}.

(** C16: The portal stays administrable.  Whatever users administrators create and change, one request
    after the other, an active super-admin remains. *)
Theorem last_super_admin_kept w w' :
  users_keyed (w_db w) -> has_super_admin (w_db w) -> rtc user_step w w' -> has_super_admin (w_db w').
Proof using Type*.
  intros Hk Hadm Hsteps. assert (Hboth : users_keyed (w_db w') /\ has_super_admin (w_db w')); [|by apply Hboth].
  induction Hsteps as [|a b c Hab _ IH]; [done|]. apply user_step_inv in Hab as [Hkb Hab]; auto.
Qed.

(** Two requests at once can defeat that guard.  When the only two active super-admins take the
    role from each other, or deactivate each other, and both guards read the database before either
    change is committed, both changes are accepted and no active super-admin is left. *)
Theorem concurrent_updates_lose_last_super_admin d a b ua ub payload :
  users_keyed d -> users d !! a = Some ua -> users d !! b = Some ub -> a <> b ->
  active_super_admin ua = true -> active_super_admin ub = true ->
  (forall k u, users d !! k = Some u -> active_super_admin u = true -> k = a \/ k = b) ->
  demoted payload || deactivated payload = true -> uu_display_name payload = None ->
  exists d', concurrent_updates b a a b payload d = Ok d' /\ ~ has_super_admin d'.
Proof using Type*.
  intros Hk Ha Hb Hne Haa Hab Honly Hlose Hname.
  assert (Hguard : forall x y ux uy, users d !! x = Some ux -> users d !! y = Some uy -> x <> y ->
            active_super_admin uy = true -> update_guard d y ux payload = Ok tt).
  { intros x y ux uy Hx Hy Hxy Hay. unfold update_guard. rewrite (Hk x ux Hx).
    rewrite bool_decide_false by done. cbn [andb]. destruct (remaining_super_admins d x =? 0) eqn:E0.
    - apply Z.eqb_eq in E0. rewrite (remaining_0 d x Hk) in E0. by destruct Hxy; rewrite (E0 y uy Hy Hay).
    - by rewrite andb_false_r. }
  assert (Happly : forall u, exists u', apply_update payload u = Ok u').
  { intros u. unfold apply_update. rewrite Hname. cbn. eauto. }
  destruct (Happly ua) as [ua' Hua'], (Happly ub) as [ub' Hub'].
  assert (Hlost : forall u u', apply_update payload u = Ok u' -> active_super_admin u' = false).
  { intros u u' (_&Hr&Hac)%apply_update_inv. unfold active_super_admin. rewrite Hr, Hac.
    unfold demoted, deactivated in Hlose. apply orb_true_iff in Hlose as [Hd|Hd].
    - destruct (uu_role payload) as [r|]; [cbn|done]. apply negb_true_iff in Hd. by rewrite Hd.
    - apply bool_decide_eq_true in Hd. rewrite Hd. apply andb_false_r. }
  eexists. split.
  - unfold concurrent_updates. rewrite Ha, Hb. cbn [of_option rbind].
    rewrite (Hguard a b ua ub), (Hguard b a ub ua) by auto. cbn [rbind]. rewrite Hua', Hub'. reflexivity.
  - intros (k&u&Hu&Hact). cbn in Hu.
    apply apply_update_inv in Hua' as Hida. apply apply_update_inv in Hub' as Hidb.
    rewrite (proj1 Hida), (proj1 Hidb), (Hk a ua Ha), (Hk b ub Hb) in Hu.
    apply lookup_insert_Some in Hu as [[_ <-]|[Hkb Hu]]; [by rewrite (Hlost _ _ Hub') in Hact|].
    apply lookup_insert_Some in Hu as [[_ <-]|[Hka Hu]]; [by rewrite (Hlost _ _ Hua') in Hact|].
    destruct (Honly k u Hu Hact); congruence.
Qed.

(** An account that the listing lacks: deactivated when it came from the directory and is active. *)
Definition unlisted (u : User) : User :=
  if bool_decide (u_source u = Source_WORKSPACE_SYNC) && u_is_active u then set_u_is_active false u else u.

(** The accounts are as the listing says: nobody is deleted, and every account keeps its address, role and
    origin; an account that is listed carries the identity, name, unit and status of its last entry; one
    that is not is deactivated when it came from the directory, and otherwise as it was; new accounts
    are plain users of listed addresses, as their last entry says; and every entry has an account. *)
Definition as_directory_says (items : list WorkspaceUser) (d d' : Db) : Prop :=
  (forall k u, users d !! k = Some u -> exists u', users d' !! k = Some u' /\ same_account u u' /\
     match last_listed items (u_email u) with Some i => as_listed i u' | None => u' = unlisted u end) /\
  (forall k u', users d' !! k = Some u' -> users d !! k = None ->
     u_role u' = Role_USER /\ u_source u' = Source_WORKSPACE_SYNC /\
     (exists i, last_listed items (u_email u') = Some i /\ as_listed i u') /\
     exists j, j ∈ items /\ u_email u' = casefold (wu_email j)) /\
  (forall i, i ∈ items -> exists k u', users d' !! k = Some u' /\ names i (u_email u') = true).

Lemma departed_last_listed items u :
  departed (map (fun i => casefold (wu_email i)) items) u =
  match last_listed items (u_email u) with
  | Some _ => false
  | None => bool_decide (u_source u = Source_WORKSPACE_SYNC) && u_is_active u
  end.
Proof using Type.
  unfold departed. destruct (existsb _ _) eqn:E; cbn [negb].
  - rewrite andb_false_r. apply existsb_exists in E as (e&He&Hc). apply list_elem_of_In, list_elem_of_fmap in He as (i&->&Hi).
    destruct (last_listed items (u_email u)) eqn:El; [done|]. pose proof (proj1 (last_listed_None _ _) El i Hi) as Hn.
    unfold names in Hn. congruence.
  - rewrite andb_true_r. destruct (last_listed items (u_email u)) as [i|] eqn:El; [|done].
    apply last_listed_In in El as [Hi Hn]. rewrite existsb_false_Forall, Forall_forall in E.
    unfold names in Hn. rewrite E in Hn; [done|]. apply list_elem_of_fmap. by exists i.
Qed.

(** A directory sync that succeeds leaves the accounts as the directory says. *)
Theorem sync_follows_directory items w r w' :
  users_keyed (w_db w) -> emails_unique (w_db w) -> sync_workspace_users items w = (Ok r, w') ->
  as_directory_says items (w_db w) (w_db w').
Proof using Type.
  intros Hk Hun. unfold sync_workspace_users. intros (us&w1&E1&E)%mbind_inv.
  apply sync_all_synced in E1 as [_ _ Hold Hnew Hall]; [|done|done].
  unfold mbind, get_db, modify_db, mret, with_db in E. injection E as _ <-. cbn [w_db]. split; [|split]; cbn [users set_users].
  - intros k u Hu. rewrite lookup_fmap, (Hold k u Hu). eexists. split; [reflexivity|]. rewrite departed_last_listed.
    assert (He : u_email (updated items u) = u_email u) by (unfold updated; by destruct (last_listed _ _)).
    rewrite He. unfold updated. destruct (last_listed items (u_email u)) as [i|].
    + split; apply listed_as_listed.
    + unfold unlisted. destruct (_ && _); by repeat split.
  - intros k u'. rewrite lookup_fmap. intros (x&Hx&->)%fmap_Some Hnone.
    destruct (Hnew k x Hx Hnone) as (Hr&Hs&(i&Hi&Hl)&Hj). rewrite departed_last_listed, Hi.
    split; [done|]. split; [done|]. split; [|done]. by exists i.
  - intros i Hi. destruct (Hall i Hi) as (k&u&Hu&Hn). exists k. rewrite lookup_fmap, Hu. eexists. split; [reflexivity|].
    by destruct (departed _ u).
Qed.

End UserProperties.

(** Two super-admins, and a directory that lists one of them as suspended. *)
Definition second_admin : User :=
  mkUser 8 (py "bob@example.com") None (py "Bob") None Role_SUPER_ADMIN true Source_MANUAL 0 None.
Definition two_admins : Db := set_users {[7 := admin_user; 8 := second_admin]} empty_db.
Definition demotion : UserUpdate := mkUserUpdate None (Some Role_USER) None.

Lemma two_admins_keyed : users_keyed two_admins.
Proof. refine (keyed_check u_id _ _). vm_compute. reflexivity. Qed.

Lemma last_super_admin_kept_witness :
  has_super_admin (w_db (@update_user ascii_unicode counting_entropy plain_heap sample_settings None 8 7 demotion
    (mkWorld two_admins two_admins 0 0)).2).
Proof.
  refine (@last_super_admin_kept ascii_unicode ascii_collation counting_entropy plain_heap
    (Build_HeapOrderLaws plain_heap (fun A l => reflexivity l)) (mkWorld two_admins two_admins 0 0) _
    two_admins_keyed _ (rtc_once _ _ (step_update _ sample_settings None 8 7 demotion))).
  exists 7, admin_user. split; reflexivity.
Defined.

Lemma concurrent_updates_lose_last_super_admin_witness :
  exists d', @concurrent_updates ascii_unicode plain_heap 8 7 7 8 demotion two_admins = Ok d' /\ ~ has_super_admin d'.
Proof.
  refine (@concurrent_updates_lose_last_super_admin ascii_unicode plain_heap
    (Build_HeapOrderLaws plain_heap (fun A l => reflexivity l)) two_admins 7 8 admin_user second_admin demotion
    two_admins_keyed _ _ _ _ _ _ _ _).
  - reflexivity.
  - reflexivity.
  - discriminate.
  - reflexivity.
  - reflexivity.
  - intros k u Hu _. change (({[7 := admin_user; 8 := second_admin]} : gmap Z User) !! k = Some u) in Hu.
    apply lookup_insert_Some in Hu as [[<- _]|[_ Hu]]; [by left|].
    apply lookup_singleton_Some in Hu as [<- _]. by right.
  - reflexivity.
  - reflexivity.
Defined.

Definition suspended_item : WorkspaceUser :=
  mkWorkspaceUser (py "g-8") (py "Bob@example.com") (py "Bob") (py "/") true.

Lemma two_admins_unique : @emails_unique ascii_collation two_admins.
Proof.
  intros k k' u u' Hu Hu'. change (({[7 := admin_user; 8 := second_admin]} : gmap Z User) !! k = Some u) in Hu.
  change (({[7 := admin_user; 8 := second_admin]} : gmap Z User) !! k' = Some u') in Hu'.
  apply lookup_insert_Some in Hu as [[<- <-]|[_ [<- <-]%lookup_singleton_Some]];
    apply lookup_insert_Some in Hu' as [[<- <-]|[_ [<- <-]%lookup_singleton_Some]]; vm_compute; congruence.
Qed.

Lemma sync_follows_directory_witness :
  exists u', users (w_db (@sync_workspace_users ascii_unicode ascii_collation counting_entropy [suspended_item]
      (mkWorld two_admins two_admins 0 0)).2) !! 8 = Some u' /\ u_role u' = Role_SUPER_ADMIN /\ u_is_active u' = false.
Proof.
  assert (Hr : (@sync_workspace_users ascii_unicode ascii_collation counting_entropy [suspended_item]
      (mkWorld two_admins two_admins 0 0)).1 = Ok (mkSyncResult 1 0)) by (vm_compute; reflexivity).
  destruct (@sync_workspace_users ascii_unicode ascii_collation counting_entropy [suspended_item]
      (mkWorld two_admins two_admins 0 0)) as [r w'] eqn:E. cbn [fst snd] in *. subst r.
  destruct (@sync_follows_directory ascii_unicode ascii_collation counting_entropy [suspended_item]
    (mkWorld two_admins two_admins 0 0) (mkSyncResult 1 0) w' two_admins_keyed two_admins_unique E) as [Hold _].
  destruct (Hold 8 second_admin eq_refl) as (u'&Hu'&(_&_&Hrole&_)&_&_&_&Hact).
  exists u'. split; [exact Hu'|]. split; [exact Hrole|exact Hact].
Defined.
