(* ===== verification/Workspace.v ===== *)
(** The Workspace Directory client (app/google_workspace.py): the service-account assertion, the cached
    access token, and the paginated listing of users and organisational units. *)
From S2P Require Import Prelude PyBase Encoding Hashes Json Models Store Config Aead Normalization PlatformSettings Session Google Users Repr.

Definition USER_READONLY : pystr := py "https://www.googleapis.com/auth/admin.directory.user.readonly".
Definition ORGUNIT_READONLY : pystr := py "https://www.googleapis.com/auth/admin.directory.orgunit.readonly".
Definition DIRECTORY_ROOT : pystr := py "https://admin.googleapis.com/admin/directory/v1".
Definition MAX_DIRECTORY_BYTES : Z := 8 * 1024 * 1024.
Definition MAX_PAGES : nat := Z.to_nat 10000.

Record WorkspaceOrgUnit := mkWorkspaceOrgUnit { ou_unit_path : pystr; ou_unit_name : pystr }.

Record DirectoryRequest := mkDirectoryRequest {
  dr_method : pystr;
  dr_url : pystr;
  dr_params : list (pystr * pystr);  (* query parameters, or the form of a POST *)
  dr_bearer : option pystr;
}.

(** The transport: the reply to the [n]-th request ([None] is an [httpx.HTTPError]) and its duration.
    Redirects are not followed. *)
Class DirectoryHttp := {
  directory_reply : nat -> DirectoryRequest -> option HttpResponse;
  directory_latency : nat -> Z;
}.
(** Loading a PEM key and signing with RS256: [None] when the key cannot be loaded or is not RSA. *)
Class RsaSigner := { sign_rs256 : pystr -> bytes -> option bytes }.
(** Floating-point numbers of JSON: [str(x)] and [int(x)]. *)
Class Floats := { float_str : pystr -> pystr; float_int : pystr -> result Z }.

Record GoogleWorkspaceClient := mkWorkspaceClient {
  wc_client_email : pystr;
  wc_private_key : pystr;
  wc_private_key_id : pystr;
  wc_token_uri : pystr;
  wc_subject : pystr;
}.
(** The client's cached token with its expiry, the clock, and the requests sent. *)
Record DirectoryState := mkDirectoryState {
  ds_now : instant;
  ds_access_token : option (pystr * instant);
  ds_sent : list DirectoryRequest;
}.
Definition D : Type -> Type := ST DirectoryState.

Section Workspace.
Context `{Unicode} `{Floats} `{DirectoryHttp} `{RsaSigner}.

Definition directory_str (value : json) : pystr := py_str float_str value.

(** [int(value)] *)
Definition json_int (value : json) : result Z :=
  match value with
  | JInt n => Ok n
  | JBool b => Ok (if b then 1 else 0)
  | JFloat t => float_int t
  | JStr s => py_int s
  | JNull | JList _ | JDict _ => Raise TypeError
  end.

Definition new_workspace_client (service_account_json delegated_admin : pystr) : result GoogleWorkspaceClient :=
  let parsed :=
    try! info <- json_loads service_account_json;
    match info with
    | JDict d =>
        try! email <- of_option (dict_get (py "client_email") d) KeyError;
        try! key <- of_option (dict_get (py "private_key") d) KeyError;
        try! key_id <- of_option (dict_get (py "private_key_id") d) KeyError;
        Ok (directory_str email, directory_str key, directory_str key_id,
            match dict_get (py "token_uri") d with Some u => directory_str u | None => py "https://oauth2.googleapis.com/token" end)
    | _ => Raise TypeError
    end in
  match parsed with
  | Raise e => Raise (if bool_decide (e = KeyError) || bool_decide (e = TypeError) || is_value_error e
                      then WorkspaceConfigurationError else e)
  | Ok (email, key, key_id, token_uri) =>
      if bool_decide (strip delegated_admin = []) || negb (startswith token_uri (py "https://"))
      then Raise WorkspaceConfigurationError
      else Ok (mkWorkspaceClient email key key_id token_uri (casefold (strip delegated_admin)))
  end.

Definition http_ (r : DirectoryRequest) : D HttpResponse := fun s =>
  let n := length (ds_sent s) in
  let s' := mkDirectoryState (ds_now s + directory_latency n) (ds_access_token s) (ds_sent s ++ [r]) in
  match directory_reply n r with Some response => (Ok response, s') | None => (Raise (OtherException "HTTPError"), s') end.
Definition time_ : D instant := fun s => (Ok (ds_now s), s).
Definition cached_token : D (option (pystr * instant)) := fun s => (Ok (ds_access_token s), s).
Definition set_token (t : pystr * instant) : D unit := fun s =>
  (Ok tt, mkDirectoryState (ds_now s) (Some t) (ds_sent s)).

(** [_b64_json]: compact JSON with sorted keys, base64url without padding. *)
Definition b64_json (value : list (pystr * json)) : pystr :=
  base64url (dumps (JDict (sort_by (fun a b => str_leb a.1 b.1) value))).

Definition assertion (c : GoogleWorkspaceClient) (now : Z) : result pystr :=
  let header := [(py "alg", JStr (py "RS256")); (py "typ", JStr (py "JWT")); (py "kid", JStr (wc_private_key_id c))] in
  let claims := [(py "iss", JStr (wc_client_email c)); (py "sub", JStr (wc_subject c)); (py "aud", JStr (wc_token_uri c));
                 (py "iat", JInt now); (py "exp", JInt (now + 3600));
                 (py "scope", JStr (USER_READONLY ++ [32] ++ ORGUNIT_READONLY))] in
  let unsigned := b64_json header ++ [46] ++ b64_json claims in
  match sign_rs256 (wc_private_key c) unsigned with
  | Some signature => Ok (unsigned ++ [46] ++ base64url signature)
  | None => Raise WorkspaceConfigurationError
  end.

Definition TOKEN_MAX_BYTES : Z := 64 * 1024.
(** The access token and its lifetime, from the body of the token endpoint. *)
Definition token_reply (body : bytes) : result (json * Z) :=
  try! data <- json_loads_bytes body;
  match data with
  | JDict d =>
      try! token <- of_option (dict_get (py "access_token") d) KeyError;
      try! expires_in <- json_int (default (JInt 3600) (dict_get (py "expires_in") d));
      Ok (token, expires_in)
  | _ => Raise TypeError
  end.

Definition request_token (c : GoogleWorkspaceClient) (now : instant) : D pystr :=
  let! signed <- lift (assertion c (now / second));
  let! response <- http_ (mkDirectoryRequest (py "POST") (wc_token_uri c)
    [(py "grant_type", py "urn:ietf:params:oauth:grant-type:jwt-bearer"); (py "assertion", signed)] None);
  if negb (hs_status response =? 200) || (TOKEN_MAX_BYTES <? Z.of_nat (length (hs_body response)))
  then raise WorkspaceAPIError
  else
    match token_reply (hs_body response) with
    | Raise e => raise (if bool_decide (e = KeyError) || bool_decide (e = TypeError) || is_value_error e
                        then WorkspaceAPIError else e)
    | Ok (JStr (ch :: t), expires_in) =>
        do! set_token (ch :: t, now + timedelta_seconds (Z.max 60 (Z.min expires_in 3600)));
        mret (ch :: t)
    | Ok _ => raise WorkspaceAPIError
    end.
Definition token_ (c : GoogleWorkspaceClient) : D pystr :=
  let! now <- time_;
  let! cached <- cached_token;
  match cached with
  | Some (token, expires_at) => if now <? expires_at - timedelta_seconds 60 then mret token else request_token c now
  | None => request_token c now
  end.

Definition get_json (c : GoogleWorkspaceClient) (url : pystr) (params : list (pystr * pystr)) : D (list (pystr * json)) :=
  let! token <- token_ c;
  let! response <- http_ (mkDirectoryRequest (py "GET") url params (Some token));
  if negb (hs_status response =? 200) then raise WorkspaceAPIError
  else if MAX_DIRECTORY_BYTES <? Z.of_nat (length (hs_body response)) then raise WorkspaceAPIError
  else
    match json_loads_bytes (hs_body response) with
    | Raise e => raise (if is_value_error e then WorkspaceAPIError else e)
    | Ok (JDict d) => mret d
    | Ok _ => raise WorkspaceAPIError
    end.

Definition org_unit (raw : json) : list WorkspaceOrgUnit :=
  match raw with
  | JDict d => match jget "orgUnitPath" d with
               | JStr path => [mkWorkspaceOrgUnit path (directory_str (default (JStr []) (dict_get (py "name") d)))]
               | _ => []
               end
  | _ => []
  end.
Definition list_org_units (c : GoogleWorkspaceClient) (customer : pystr) : D (list WorkspaceOrgUnit) :=
  let! data <- get_json c (DIRECTORY_ROOT ++ py "/customer/" ++ customer ++ py "/orgunits") [(py "type", py "ALL")];
  match default (JList []) (dict_get (py "organizationUnits") data) with
  | JList raw_units => mret (flat_map org_unit raw_units)
  | _ => raise WorkspaceAPIError
  end.

(** [_parse_user]: [None] for an entry without identifier or with an address that does not normalise. *)
Definition parse_user (raw : json) : result (option WorkspaceUser) :=
  match raw with
  | JDict d =>
      match jget "id" d, jget "primaryEmail" d with
      | JStr external_id, JStr email =>
          let display := match jget "name" d with JDict n => jget "fullName" n | _ => JNull end in
          match normalize_email email with
          | Raise NormalizationError => Ok None
          | Raise e => Raise e
          | Ok normalized =>
              Ok (Some (mkWorkspaceUser external_id normalized
                (match display with JStr (ch :: t) => ch :: t | _ => email end)
                (directory_str (default (JStr (py "/")) (dict_get (py "orgUnitPath") d)))
                (match jget "suspended" d with JBool b => b | _ => false end)))
          end
      | _, _ => Ok None
      end
  | _ => Ok None
  end.
Definition options {A} (l : list (option A)) : list A := flat_map (fun o => match o with Some a => [a] | None => [] end) l.

Definition user_params (customer : pystr) (page_token : option pystr) : list (pystr * pystr) :=
  [(py "customer", customer); (py "maxResults", py "500"); (py "orderBy", py "email"); (py "projection", py "basic");
   (py "viewType", py "admin_view")] ++
  match page_token with Some t => [(py "pageToken", t)] | None => [] end.

(** The users of one page, and the token of the next. *)
Definition page_users (data : list (pystr * json)) : result (list WorkspaceUser) :=
  match default (JList []) (dict_get (py "users") data) with
  | JList raw_users => try! parsed <- rmap parse_user raw_users; Ok (options parsed)
  | _ => Raise WorkspaceAPIError
  end.
Definition next_page (data : list (pystr * json)) (page_token : option pystr) : result (option pystr) :=
  match jget "nextPageToken" data with
  | JNull => Ok None
  | JStr (ch :: t) => if bool_decide (Some (ch :: t) = page_token) then Raise WorkspaceAPIError else Ok (Some (ch :: t))
  | _ => Raise WorkspaceAPIError
  end.

(** The loop, with the passes that are left. *)
Fixpoint user_pages (passes : nat) (c : GoogleWorkspaceClient) (customer : pystr) (page_token : option pystr)
    (users : list WorkspaceUser) : D (list WorkspaceUser) :=
  match passes with
  | O => raise WorkspaceAPIError
  | S passes =>
      let! data <- get_json c (DIRECTORY_ROOT ++ py "/users") (user_params customer page_token);
      let! parsed <- lift (page_users data);
      let users := users ++ parsed in
      let! next_token <- lift (next_page data page_token);
      match next_token with
      | None => mret users
      | Some t => user_pages passes c customer (Some t) users
      end
  end.
Definition list_users (c : GoogleWorkspaceClient) (customer : pystr) : D (list WorkspaceUser) :=
  user_pages MAX_PAGES c customer None [].

End Workspace.

Definition WORKSPACE_KEYS : list SettingKey := [GOOGLE_WORKSPACE_SERVICE_ACCOUNT_JSON; GOOGLE_WORKSPACE_DELEGATED_ADMIN].
Definition configured_workspace_client `{Unicode} `{Floats} `{Aead} (store : PlatformSettingsStore) : M GoogleWorkspaceClient :=
  let! values <- read_many store WORKSPACE_KEYS;
  match values_get GOOGLE_WORKSPACE_SERVICE_ACCOUNT_JSON values, values_get GOOGLE_WORKSPACE_DELEGATED_ADMIN values with
  | Some (a :: b), Some (x :: y) => lift (new_workspace_client (a :: b) (x :: y))
  | _, _ => raise PlatformSettingError
  end.

(** ** Lemmas *)

Section WorkspaceLemmas.
Context `{Unicode} `{Floats} `{DirectoryHttp} `{RsaSigner}.

Definition token_post (c : GoogleWorkspaceClient) (r : DirectoryRequest) : Prop :=
  dr_method r = py "POST" /\ dr_url r = wc_token_uri c /\ dr_bearer r = None.
(** A token that the endpoint itself returned, to a request of this client. *)
Definition granted (c : GoogleWorkspaceClient) (token : pystr) : Prop :=
  token <> [] /\ exists n r response expires_in, token_post c r /\ directory_reply n r = Some response /\
    hs_status response = 200 /\ token_reply (hs_body response) = Ok (JStr token, expires_in).
Definition cached_granted (c : GoogleWorkspaceClient) (s : DirectoryState) : Prop :=
  match ds_access_token s with Some (token, _) => granted c token | None => True end.

Lemma request_token_inv c now s r s' : request_token c now s = (r, s') -> cached_granted c s ->
  cached_granted c s' /\
  (exists posts, ds_sent s' = ds_sent s ++ posts /\ Forall (token_post c) posts /\ (length posts <= 1)%nat) /\
  forall token, r = Ok token -> granted c token.
Proof using Type.
  intros E Hc. unfold request_token, mbind at 1, lift in E. destruct (assertion c (now / second)) as [signed|e].
  2: { injection E as <- <-. split; [done|]. split; [exists []; by rewrite app_nil_r; repeat split; auto|done]. }
  unfold mbind at 1, http_ in E. set (q := mkDirectoryRequest _ _ _ _) in E. set (n := length (ds_sent s)) in E.
  assert (Hq : token_post c q) by done.
  destruct (directory_reply n q) as [response|] eqn:Er.
  2: { injection E as <- <-. split; [done|]. split; [exists [q]; repeat split; auto|done]. }
  assert (Hposts : exists posts, ds_sent s ++ [q] = ds_sent s ++ posts /\ Forall (token_post c) posts /\ (length posts <= 1)%nat).
  { exists [q]. repeat split; auto. }
  destruct (negb (hs_status response =? 200) || _) eqn:Est; [injection E as <- <-; by split|].
  apply orb_false_iff in Est as [Est _]. apply negb_false_iff, Z.eqb_eq in Est.
  destruct (token_reply (hs_body response)) as [[[| | | |[|ch t]| |] expires_in]|e] eqn:Et; try (injection E as <- <-; by split).
  unfold mbind, set_token, mret in E. injection E as <- <-.
  assert (Hg : granted c (ch :: t)). { split; [done|]. by exists n, q, response, expires_in. }
  split; [exact Hg|]. split; [exact Hposts|]. by intros token [= <-].
Qed.

Lemma token_inv c s r s' : token_ c s = (r, s') -> cached_granted c s ->
  cached_granted c s' /\
  (exists posts, ds_sent s' = ds_sent s ++ posts /\ Forall (token_post c) posts /\ (length posts <= 1)%nat) /\
  forall token, r = Ok token -> granted c token.
Proof using Type.
  intros E Hc. unfold token_, mbind at 1, time_ in E. unfold mbind at 1, cached_token in E. unfold cached_granted in Hc.
  destruct (ds_access_token s) as [[token expires_at]|] eqn:Ea.
  2: { eapply request_token_inv; [exact E|]. unfold cached_granted. by rewrite Ea. }
  destruct (_ <? _).
  - injection E as <- <-. split; [unfold cached_granted; by rewrite Ea|].
    split; [exists []; by rewrite app_nil_r; repeat split; auto|]. by intros t [= <-].
  - eapply request_token_inv; [exact E|]. unfold cached_granted. by rewrite Ea.
Qed.

(** One document: at most one token request, then one authorised request; the document is the reply. *)
Definition served (q : DirectoryRequest) (data : list (pystr * json)) : Prop :=
  exists n response, directory_reply n q = Some response /\ hs_status response = 200 /\
    Z.of_nat (length (hs_body response)) <= MAX_DIRECTORY_BYTES /\ json_loads_bytes (hs_body response) = Ok (JDict data).
Definition asks (c : GoogleWorkspaceClient) (url : pystr) (params : list (pystr * pystr)) (q : DirectoryRequest) : Prop :=
  exists token, granted c token /\ q = mkDirectoryRequest (py "GET") url params (Some token).

Lemma get_json_inv c url params s r s' : get_json c url params s = (r, s') -> cached_granted c s ->
  cached_granted c s' /\
  exists posts gets, ds_sent s' = ds_sent s ++ posts ++ gets /\ Forall (token_post c) posts /\ (length posts <= 1)%nat /\
    Forall (asks c url params) gets /\ (length gets <= 1)%nat /\
    forall data, r = Ok data -> exists q, gets = [q] /\ served q data.
Proof using Type.
  intros E Hc. unfold get_json, mbind at 1 in E. destruct (token_ c s) as [rt s1] eqn:Et.
  destruct (token_inv _ _ _ _ Et Hc) as (Hc1&(posts&Hs1&Hp&Hlp)&Hg). destruct rt as [token|e].
  2: { injection E as <- <-. split; [done|]. exists posts, []. rewrite app_nil_r. repeat split; auto. done. }
  specialize (Hg token eq_refl). unfold mbind at 1, http_ in E. set (q := mkDirectoryRequest _ _ _ _) in E.
  set (n := length (ds_sent s1)) in E.
  assert (Hq : asks c url params q) by (by exists token).
  assert (Hgets : forall rr s2, ds_sent s2 = ds_sent s1 ++ [q] -> ds_access_token s2 = ds_access_token s1 ->
    (forall data, rr = Ok data -> served q data) -> (rr, s2) = (r, s') ->
    cached_granted c s' /\
    exists posts gets, ds_sent s' = ds_sent s ++ posts ++ gets /\ Forall (token_post c) posts /\ (length posts <= 1)%nat /\
      Forall (asks c url params) gets /\ (length gets <= 1)%nat /\
      forall data, r = Ok data -> exists q, gets = [q] /\ served q data).
  { intros rr s2 Hs2 Ha Hserved [= <- <-]. split; [unfold cached_granted in *; by rewrite Ha|].
    exists posts, [q]. rewrite Hs2, Hs1, <- app_assoc. repeat split; auto. intros data Hd. exists q. split; [done|]. by apply Hserved. }
  destruct (directory_reply n q) as [response|] eqn:Er; [|by eapply Hgets; [| | |exact E]].
  destruct (hs_status response =? 200) eqn:Est; cbn [negb] in E; [|by eapply Hgets; [| | |exact E]].
  destruct (_ <? Z.of_nat (length (hs_body response))) eqn:El; [by eapply Hgets; [| | |exact E]|].
  destruct (json_loads_bytes (hs_body response)) as [[| | | | | |data]|e] eqn:Ej; try (by eapply Hgets; [| | |exact E]).
  eapply Hgets; [| | |exact E]; [done..|]. intros d [= <-]. exists n, response. repeat split; try done; lia.
Qed.

(** The pages behind a listing: each was asked for with the token that the one before named. *)
Fixpoint pages_linked (page_token : option pystr) (pages : list (option pystr * list (pystr * json))) : Prop :=
  match pages with
  | [] => False
  | [(t, data)] => t = page_token /\ next_page data page_token = Ok None
  | (t, data) :: rest => t = page_token /\ exists t', next_page data page_token = Ok (Some t') /\ pages_linked (Some t') rest
  end.
Definition get_request (r : DirectoryRequest) : bool := bool_decide (dr_method r = py "GET").
Definition page_request (c : GoogleWorkspaceClient) (customer : pystr) (page : option pystr * list (pystr * json)) (q : DirectoryRequest) : Prop :=
  asks c (DIRECTORY_ROOT ++ py "/users") (user_params customer page.1) q /\ served q page.2.

Lemma filter_posts c posts : Forall (token_post c) posts -> List.filter get_request posts = [].
Proof using Type.
  induction 1 as [|r posts Hr _ IH]; [done|]. cbn [List.filter]. unfold get_request at 1. destruct Hr as (Hm&_&_). rewrite Hm. exact IH.
Qed.

Lemma user_pages_inv passes c customer page_token users s result s' :
  user_pages passes c customer page_token users s = (Ok result, s') -> cached_granted c s ->
  exists pages gets sent, ds_sent s' = ds_sent s ++ sent /\ List.filter get_request sent = gets /\
    pages_linked page_token pages /\ (length pages <= passes)%nat /\ Forall2 (page_request c customer) pages gets /\
    exists parts, Forall2 (fun page part => page_users page.2 = Ok part) pages parts /\ result = users ++ concat parts.
Proof using Type.
  revert page_token users s. induction passes as [|passes IH]; intros page_token users s; [done|]. cbn [user_pages].
  intros (data&s1&E1&E)%mbind_inv Hc. apply get_json_inv in E1 as (Hc1&posts&gets&Hs1&Hp&_&Hg&_&Hd); [|done].
  destruct (Hd data eq_refl) as (q&->&Hq). apply mbind_inv in E as (part&s2&E2&E). apply lift_inv in E2 as [Hpart ->].
  apply mbind_inv in E as (next&s2&E2&E). apply lift_inv in E2 as [Hnext ->].
  assert (Hreq : page_request c customer (page_token, data) q).
  { split; [|done]. by apply Forall_cons in Hg as [Hg _]. }
  assert (Hfilter : List.filter get_request (posts ++ [q]) = [q]).
  { rewrite List.filter_app, (filter_posts c) by done. destruct Hreq as [(token&_&->) _]. done. }
  destruct next as [t|].
  - apply IH in E as (pages&gets&sent&Hs'&Hf&Hl&Hlen&Hr&parts&Hparts&->); [|done].
    exists ((page_token, data) :: pages), (q :: gets), ((posts ++ [q]) ++ sent).
    split; [rewrite Hs', Hs1; by rewrite <- !app_assoc|]. split; [by rewrite List.filter_app, Hfilter, Hf|].
    split; [|split; [cbn; lia|split; [by constructor|]]].
    + destruct pages as [|p pages]; [done|]. cbn. split; [done|]. by exists t.
    + exists (part :: parts). split; [by constructor|]. cbn [concat]. by rewrite app_assoc.
  - injection E as <- <-. exists [(page_token, data)], [q], (posts ++ [q]).
    split; [done|]. split; [done|]. split; [done|]. split; [cbn; lia|].
    split; [constructor; [exact Hreq|constructor]|]. exists [part]. split; [by repeat constructor|]. cbn [concat]. by rewrite app_nil_r.
Qed.

(** Every request of a listing, whatever becomes of it. *)
Definition scoped (c : GoogleWorkspaceClient) (q : DirectoryRequest) : Prop :=
  token_post c q \/ (exists params, asks c (DIRECTORY_ROOT ++ py "/users") params q).

Lemma user_pages_scoped passes c customer page_token users s r s' :
  user_pages passes c customer page_token users s = (r, s') -> cached_granted c s ->
  exists sent, ds_sent s' = ds_sent s ++ sent /\ Forall (scoped c) sent /\ (length sent <= 2 * passes)%nat.
Proof using Type.
  revert page_token users s. induction passes as [|passes IH]; intros page_token users s; cbn [user_pages].
  { intros [= <- <-] _. exists []. by rewrite app_nil_r; repeat split. }
  unfold mbind at 1. intros E Hc. destruct (get_json c _ _ s) as [rg s1] eqn:Eg.
  apply get_json_inv in Eg as (Hc1&posts&gets&Hs1&Hp&Hlp&Hg&Hlg&_); [|done].
  assert (Hhere : Forall (scoped c) (posts ++ gets)).
  { apply Forall_app. split; [by eapply Forall_impl; [exact Hp|]; intros; left|].
    eapply Forall_impl; [exact Hg|]. intros q Hq. right. eauto. }
  assert (Hstop : forall rr : result (list WorkspaceUser), (rr, s1) = (r, s') ->
    exists sent, ds_sent s' = ds_sent s ++ sent /\ Forall (scoped c) sent /\ (length sent <= 2 * S passes)%nat).
  { intros rr [= _ <-]. exists (posts ++ gets). rewrite length_app. repeat split; [done|done|lia]. }
  destruct rg as [data|e]; [|by eapply Hstop]. unfold mbind at 1, lift at 1 in E.
  destruct (page_users data) as [part|e]; [|by eapply Hstop]. unfold mbind at 1, lift at 1 in E.
  destruct (next_page data page_token) as [[t|]|e]; [|by eapply Hstop..].
  apply IH in E as (sent&Hs'&Hsc&Hl); [|done]. exists ((posts ++ gets) ++ sent).
  rewrite Hs', Hs1, <- app_assoc. split; [done|]. split; [by apply Forall_app|]. rewrite !length_app in *. lia.
Qed.
End WorkspaceLemmas.

(** ** Properties *)

Section WorkspaceProperties.
Context `{Unicode} `{Floats} `{DirectoryHttp} `{RsaSigner}.

(** A listing of the directory is complete.  When it returns, it returns the usable entries of a
    chain of at most 10,000 pages, in order: each page is the body of a reply of at most 8 MiB to a
    request that names the page token of the page before it, the first names none, the last offers
    none, and no page was asked for twice in a row. *)
Theorem directory_listing_complete c customer s users s' :
  cached_granted c s -> list_users c customer s = (Ok users, s') ->
  exists pages gets sent, ds_sent s' = ds_sent s ++ sent /\ List.filter get_request sent = gets /\
    pages_linked None pages /\ Z.of_nat (length pages) <= 10000 /\ Forall2 (page_request c customer) pages gets /\
    exists parts, Forall2 (fun page part => page_users page.2 = Ok part) pages parts /\ users = concat parts.
Proof using Type.
  intros Hc E. apply user_pages_inv in E as (pages&gets&sent&H1'&H2'&H3'&H4'&H5'&parts&H6'&H7'); [|done].
  exists pages, gets, sent. repeat (split; [done|]). unfold MAX_PAGES in H4'. split; [lia|]. split; [done|]. by exists parts.
Qed.

(** The client talks to two places only.  Every request that a listing sends, whatever replies it
    gets and however it ends, is a request for a token to the https address of the service account,
    carrying the signed assertion and no token, or a request for users under the Directory API's own
    address, authorised by a token which that endpoint returned; there are at most 20,000. *)
Theorem directory_requests_scoped service_account delegated_admin c customer now r s' :
  new_workspace_client service_account delegated_admin = Ok c ->
  list_users c customer (mkDirectoryState now None []) = (r, s') ->
  startswith (wc_token_uri c) (py "https://") = true /\
  Forall (fun q => (dr_method q = py "POST" /\ dr_url q = wc_token_uri c /\ dr_bearer q = None) \/
                   (dr_method q = py "GET" /\ dr_url q = DIRECTORY_ROOT ++ py "/users" /\
                    exists token, dr_bearer q = Some token /\ granted c token)) (ds_sent s') /\
  Z.of_nat (length (ds_sent s')) <= 20000.
Proof using Type.
  intros Hn E. split.
  - unfold new_workspace_client in Hn. destruct (rbind _ _) as [[[[email key] key_id] token_uri]|e]; [|done].
    destruct (_ || _) eqn:Eo; [done|]. injection Hn as <-. cbn. apply orb_false_iff in Eo as [_ Eo]. by apply negb_false_iff in Eo.
  - apply user_pages_scoped in E as (sent&Hs&Hsc&Hl); [|done]. cbn [ds_sent] in Hs. rewrite Hs. split.
    + eapply Forall_impl; [exact Hsc|]. intros q [Hp|(params&token&Hg&->)]; [by left|right]. repeat split. by exists token.
    + unfold MAX_PAGES in Hl. cbn [app]. lia.
Qed.
End WorkspaceProperties.

(** A directory of two pages: the token, a page that names the next, the last page. *)
Definition sample_entry (id email : string) : json :=
  JDict [(py "id", JStr (py id)); (py "primaryEmail", JStr (py email)); (py "orgUnitPath", JStr (py "/Staff"))].
Definition sample_bodies : list json :=
  [JDict [(py "access_token", JStr (py "tok")); (py "expires_in", JInt 3600)];
   JDict [(py "users", JList [sample_entry "1" "Ana@example.test"; JInt 7]); (py "nextPageToken", JStr (py "two"))];
   JDict [(py "users", JList [sample_entry "2" "bob@example.test"])]].
Definition sample_directory : DirectoryHttp := {|
  directory_reply n _ := match sample_bodies !! n with
                         | Some j => Some (mkHttpResponse 200 (dumps j) None)
                         | None => None
                         end;
  directory_latency _ := 1000;
|}.
Definition sample_signer : RsaSigner := {| sign_rs256 key message := Some (key ++ message) |}.
Definition plain_floats : Floats := {| float_str t := t; float_int _ := Ok 0 |}.
Definition sample_account : pystr :=
  dumps (JDict [(py "client_email", JStr (py "svc@example.test")); (py "private_key", JStr (py "key"));
                (py "private_key_id", JStr (py "k1")); (py "token_uri", JStr (py "https://oauth2.test/token"))]).
Definition sample_workspace_client : GoogleWorkspaceClient :=
  mkWorkspaceClient (py "svc@example.test") (py "key") (py "k1") (py "https://oauth2.test/token") (py "admin@example.test").
Definition fresh_directory : DirectoryState := mkDirectoryState 1000000 None [].
Definition sample_listing : result (list WorkspaceUser) * DirectoryState :=
  @list_users ascii_unicode plain_floats sample_directory sample_signer sample_workspace_client (py "my_customer") fresh_directory.

Lemma sample_listing_ok : sample_listing.1 =
  Ok [mkWorkspaceUser (py "1") (py "ana@example.test") (py "Ana@example.test") (py "/Staff") false;
      mkWorkspaceUser (py "2") (py "bob@example.test") (py "bob@example.test") (py "/Staff") false].
Proof. vm_compute. reflexivity. Qed.
Lemma sample_client_ok :
  @new_workspace_client ascii_unicode plain_floats sample_account (py " Admin@example.test") = Ok sample_workspace_client.
Proof. vm_compute. reflexivity. Qed.

Lemma directory_listing_complete_witness :
  exists pages gets, length (ds_sent sample_listing.2) = 3%nat /\
    List.filter get_request (ds_sent sample_listing.2) = gets /\ pages_linked None pages /\ length pages = length gets.
Proof.
  destruct (@directory_listing_complete ascii_unicode plain_floats sample_directory sample_signer sample_workspace_client
    (py "my_customer") fresh_directory _ sample_listing.2 I
    (eq_trans (surjective_pairing sample_listing) (f_equal (fun r => (r, sample_listing.2)) sample_listing_ok)))
    as (pages&gets&sent&Hs&Hf&Hl&_&Hr&_).
  exists pages, gets. split; [vm_compute; reflexivity|]. rewrite Hs. split; [exact Hf|]. split; [exact Hl|].
  exact (Forall2_length _ _ _ Hr).
Defined.

Lemma directory_requests_scoped_witness :
  startswith (wc_token_uri sample_workspace_client) (py "https://") = true /\
  (0 < length (ds_sent sample_listing.2))%nat /\ Z.of_nat (length (ds_sent sample_listing.2)) <= 20000.
Proof.
  destruct (@directory_requests_scoped ascii_unicode plain_floats sample_directory sample_signer sample_account
    (py " Admin@example.test") sample_workspace_client (py "my_customer") 1000000 sample_listing.1 sample_listing.2
    sample_client_ok (surjective_pairing sample_listing)) as (Hu&_&Hn).
  split; [exact Hu|]. split; [vm_compute; lia|exact Hn].
Defined.
