(* ===== verification/Admin.v ===== *)
(** The other routes of the administrators (app/routers/admin.py): accounts, branding, sessions, the
    directory sync and the test alerts. *)
From S2P Require Import Prelude PyBase Encoding Hashes Json Models Store Config Aead Url PlatformSettings Alerts Session Access LocalAuth Web OAuth Google Branding SignIn Users Workspace SettingsForm.

(** A payload that does not validate: nothing turns the exception into a response. *)
Definition ValidationError : exn := OtherException "ValidationError".

Section AdminPayloads.
Context `{Unicode} `{Pydantic}.

Definition of_checked {A} (c : pystr + A) : result A := match c with inl _ => Raise ValidationError | inr a => Ok a end.
Definition bounded_str (minimum maximum : nat) (j : json) : result pystr :=
  try! s <- of_checked (as_str j);
  if (length s <? minimum)%nat || (maximum <? length s)%nat then Raise ValidationError else Ok s.
(** An optional field: absent or [null] is [None]. *)
Definition optional {A} (f : json -> result A) (name : string) (d : list (pystr * json)) : result (option A) :=
  match dict_get (py name) d with
  | None | Some JNull => Ok None
  | Some j => try! a <- f j; Ok (Some a)
  end.
Definition role_of_json (j : json) : result UserRole :=
  match j with
  | JStr s => of_option (List.find (fun r => bool_decide (UserRole_value r = s)) [Role_USER; Role_ANALYST; Role_SUPER_ADMIN]) ValidationError
  | _ => Raise ValidationError
  end.

(** [UserCreate.model_validate], [UserUpdate.model_validate] *)
Definition user_create (body : json) : result UserCreate :=
  match body with
  | JDict d =>
      try! email <- rbind (of_option (dict_get (py "email") d) ValidationError) (bounded_str 3 255);
      try! name <- rbind (of_option (dict_get (py "display_name") d) ValidationError) (bounded_str 1 255);
      try! role <- match dict_get (py "role") d with None => Ok Role_USER | Some j => role_of_json j end;
      Ok (mkUserCreate email name role)
  | _ => Raise ValidationError
  end.
Definition user_update (body : json) : result UserUpdate :=
  match body with
  | JDict d =>
      try! name <- optional (bounded_str 1 255) "display_name" d;
      try! role <- optional role_of_json "role" d;
      try! active <- optional (fun j => of_checked (as_bool j)) "is_active" d;
      Ok (mkUserUpdate name role active)
  | _ => Raise ValidationError
  end.

Record BrandingUpdate := mkBrandingUpdate {
  bu_organization_name : option pystr;
  bu_logo_base64 : option pystr;
  bu_clear_logo : bool;
}.
Definition branding_update (body : json) : result BrandingUpdate :=
  match body with
  | JDict d =>
      try! name <- optional (bounded_str 0 120) "organization_name" d;
      try! logo <- optional (bounded_str 0 (Z.to_nat (2 * 1024 * 1024))) "logo_base64" d;
      try! clear <- match dict_get (py "clear_logo") d with None => Ok false | Some j => of_checked (as_bool j) end;
      Ok (mkBrandingUpdate name logo clear)
  | _ => Raise ValidationError
  end.
End AdminPayloads.

Section AdminRoutes.
Context `{Unicode} `{Pydantic} `{Aead} `{Entropy} `{Collation} `{HeapOrder}.

Definition create_user_route (po : PortalState) (r : WebRequest) (current_user : User) : M WebResponse :=
  let! body <- lift (json_body MAX_BODY_BYTES r);
  let! payload <- lift (user_create body);
  let! user <- create_user (po_settings po) (wr_client_host r) (u_id current_user) payload;
  mret (json_response 201 (JDict
    [(py "id", JStr (uuid_str (u_id user))); (py "email", JStr (u_email user)); (py "role", JStr (UserRole_value (u_role user)))])).
Definition update_user_route (po : PortalState) (user_id : uuid) (r : WebRequest) (current_user : User) : M WebResponse :=
  let! body <- lift (json_body MAX_BODY_BYTES r);
  let! payload <- lift (user_update body);
  let! user <- update_user (po_settings po) (wr_client_host r) (u_id current_user) user_id payload;
  mret (json_response 200 (JDict
    [(py "id", JStr (uuid_str (u_id user))); (py "role", JStr (UserRole_value (u_role user))); (py "is_active", JBool (u_is_active user))])).

(** The branch of [update_branding] for the logo, and what it adds to [changed]. *)
Definition update_logo (payload : BrandingUpdate) : M (list pystr) :=
  if bu_clear_logo payload then do! clear_logo; mret [py "logo_cleared"]
  else
    match bu_logo_base64 payload with
    | Some (c :: t) =>
        match b64decode_strict (c :: t) with
        | Raise e => raise (if bool_decide (e = BinasciiError) || is_value_error e then HTTPException 422 else e)
        | Ok raw =>
            let! _ <- try_except (set_logo raw) (fun e => bool_decide (e = LogoRejected)) (fun _ => raise (HTTPException 422));
            mret [py "logo"]
        end
    | _ => mret []
    end.
Definition update_name (payload : BrandingUpdate) : M (list pystr) :=
  match bu_organization_name payload with
  | Some name => do! set_name (Some name); mret [py "organization_name"]
  | None => mret []
  end.
Definition update_branding (po : PortalState) (r : WebRequest) (current_user : User) : M WebResponse :=
  let! body <- lift (json_body MAX_LOGO_BODY_BYTES r);
  let! payload <- lift (branding_update body);
  let! named <- update_name payload;
  let! pictured <- update_logo payload;
  let changed := named ++ pictured in
  if bool_decide (changed = []) then raise (HTTPException 422)
  else
    do! audit po r "admin.branding_updated" (Some (u_id current_user)) (Some (py "branding")) None
          [(py "changed", JList (map JStr changed))];
    let! current <- load_branding;
    let text o := match o with Some s => JStr s | None => JNull end in
    mret (json_response 200 (JDict
      [(py "changed", JList (map JStr changed)); (py "organization_name", text (ob_name current));
       (py "has_logo", JBool (ob_has_logo current)); (py "logo_sha256", text (ob_logo_sha256 current))])).

Definition revoke_user_sessions (po : PortalState) (user_id : uuid) (r : WebRequest) (current_user : User) : M WebResponse :=
  let! d <- get_db;
  match users d !! user_id with
  | None => raise (HTTPException 404)
  | Some user =>
      let! revoked <- revoke_all (u_id user) None;
      do! audit po r "admin.sessions_revoked" (Some (u_id current_user)) (Some (py "user")) (Some (uuid_str (u_id user)))
            [(py "revoked", JInt revoked)];
      mret (json_response 200 (JDict [(py "revoked", JInt revoked)]))
  end.

Definition queue_test_alert (po : PortalState) (sink : AlertSinkName) (r : WebRequest) (current_user : User) : M WebResponse :=
  do! enqueue_test_alert sink;
  do! audit po r "admin.test_alert_queued" (Some (u_id current_user)) (Some (py "alert_sink"))
        (Some (AlertSinkName_value sink)) [];
  mret (json_response 202 (JDict [(py "queued", JStr (AlertSinkName_value sink))])).
End AdminRoutes.

(** ** The sync *)

(** The request's database session and the directory client it creates. *)
Record SyncState := mkSyncState { sn_world : World; sn_directory : DirectoryState }.
Definition Y : Type -> Type := ST SyncState.
Definition in_session {A} (c : M A) : Y A := fun s =>
  let '(r, w) := c (sn_world s) in (r, mkSyncState w (sn_directory s)).
Definition in_directory {A} (c : D A) : Y A := fun s =>
  let '(r, ds) := c (sn_directory s) in (r, mkSyncState (sn_world s) ds).

Section Sync.
Context `{Unicode} `{Floats} `{DirectoryHttp} `{RsaSigner} `{Aead} `{Entropy} `{Collation} `{HeapOrder}.

Definition sync_failure (e : exn) : bool := bool_decide (e ∈ [PlatformSettingError; WorkspaceAPIError; WorkspaceConfigurationError]).
Definition directory_users (po : PortalState) : Y (list WorkspaceUser) :=
  let! client <- in_session (configured_workspace_client (po_store po));
  in_directory (list_users client (py "my_customer")).
Definition sync_workspace (po : PortalState) (r : WebRequest) (current_user : User) : Y WebResponse :=
  let! users <- try_except (directory_users po) sync_failure (fun e =>
    do! in_session (audit po r "admin.workspace_sync_failed" (Some (u_id current_user)) (Some (py "workspace")) None
          [(py "reason", JStr (exn_name e))]);
    raise (HTTPException 502));
  let! result <- in_session (sync_workspace_users users);
  let counts := [(py "seen", JInt (sy_seen result)); (py "deactivated", JInt (sy_deactivated result))] in
  do! in_session (audit po r "admin.workspace_synced" (Some (u_id current_user)) (Some (py "workspace")) None counts);
  mret (json_response 200 (JDict counts)).
(** The request: [get_db_session] around the handler, with a client that has no token yet. *)
Definition sync_request (po : PortalState) (r : WebRequest) (current_user : User) : Y WebResponse := fun s =>
  let '(x, s') := sync_workspace po r current_user (mkSyncState (sn_world s) (mkDirectoryState (ds_now (sn_directory s)) None [])) in
  match x with
  | Ok _ => (x, mkSyncState (commit (sn_world s')).2 (sn_directory s'))
  | Raise e => (x, mkSyncState (if is_exception e then (rollback (sn_world s')).2 else sn_world s') (sn_directory s'))
  end.
End Sync.

(** ** Lemmas *)

(** Nothing is committed on the way. *)
Definition commits_nothing {A} (c : Y A) : Prop := forall s, w_committed (sn_world (c s).2) = w_committed (sn_world s).

Section CommitsNothing.
Lemma commits_nothing_mret {A} (a : A) : commits_nothing (mret a).
Proof. done. Qed.
Lemma commits_nothing_raise {A} e : commits_nothing (@raise SyncState A e).
Proof. done. Qed.
Lemma commits_nothing_session {T A} (part : Db -> T) (c : M A) : keeps part c -> commits_nothing (in_session c).
Proof. intros Hc s. destruct (Hc (sn_world s)) as [_ Hw]. unfold in_session. by destruct (c (sn_world s)) as [x w]. Qed.
Lemma commits_nothing_directory {A} (c : D A) : commits_nothing (in_directory c).
Proof. intros s. unfold in_directory. by destruct (c (sn_directory s)) as [x ds]. Qed.
Lemma commits_nothing_bind {A B} (c : Y A) (k : A -> Y B) :
  commits_nothing c -> (forall a, commits_nothing (k a)) -> commits_nothing (mbind c k).
Proof. intros Hc Hk s. specialize (Hc s). unfold mbind. destruct (c s) as [[a|e] s1]; [|done]. by rewrite Hk. Qed.
Lemma commits_nothing_try {A} (c : Y A) handled (h : exn -> Y A) :
  commits_nothing c -> (forall e, commits_nothing (h e)) -> commits_nothing (try_except c handled h).
Proof.
  intros Hc Hh s. specialize (Hc s). unfold try_except. destruct (c s) as [[a|e] s1]; [done|].
  destruct (handled e); [by rewrite Hh|done].
Qed.
End CommitsNothing.

Section SyncLemmas.
Context `{Unicode} `{Floats} `{DirectoryHttp} `{RsaSigner} `{Aead} `{Entropy} `{Collation} `{HeapOrder}.

Lemma keeps_nothing_audit po r action actor tt_ ti meta : keeps (fun _ => tt) (audit po r action actor tt_ ti meta).
Proof using Type. by apply keeps_audit. Qed.
Lemma keeps_nothing_client store : keeps (fun _ => tt) (configured_workspace_client store).
Proof using Type.
  unfold configured_workspace_client. apply keeps_bind; [|intros values; frame].
  intros w. destruct (read_many store WORKSPACE_KEYS w) as [x w'] eqn:E. by apply read_many_world in E as ->.
Qed.
Lemma keeps_nothing_sync items : keeps (fun _ => tt) (sync_workspace_users items).
Proof using Type. unfold sync_workspace_users, sync_one, put_user. frame. Qed.

Lemma sync_commits_nothing po r user : commits_nothing (sync_workspace po r user).
Proof using Type.
  unfold sync_workspace, directory_users.
  repeat first [apply commits_nothing_bind; [|intros ?] | apply commits_nothing_try; [|intros ?]
    | apply commits_nothing_mret | apply commits_nothing_raise | apply commits_nothing_directory
    | apply (commits_nothing_session (fun _ => tt)); [..]; first [apply keeps_nothing_client|apply keeps_nothing_sync|apply keeps_nothing_audit]].
Qed.

Lemma directory_users_inv po s users s' : directory_users po s = (Ok users, s') ->
  sn_world s' = sn_world s /\ exists client, list_users client (py "my_customer") (sn_directory s) = (Ok users, sn_directory s').
Proof using Type.
  unfold directory_users. intros (client&s1&E1&E2)%mbind_inv.
  assert (Hs1 : s1 = s).
  { unfold in_session in E1. destruct (configured_workspace_client (po_store po) (sn_world s)) as [x w] eqn:Ec. injection E1 as -> <-.
    assert (Hw : w = sn_world s); [|subst; by destruct s]. revert Ec. unfold configured_workspace_client, mbind.
    destruct (read_many (po_store po) WORKSPACE_KEYS (sn_world s)) as [[values|e] w1] eqn:Er; apply read_many_world in Er as ->; [|done].
    destruct (values_get _ values) as [[|c t]|]; try done. destruct (values_get _ values) as [[|c' t']|]; try done.
    unfold lift. by intros [= _ <-]. }
  subst s1. unfold in_directory in E2. destruct (list_users client (py "my_customer") (sn_directory s)) as [x ds] eqn:El.
  injection E2 as -> <-. split; [done|]. by exists client.
Qed.
End SyncLemmas.

(** ** Properties *)

Section AdminProperties.
Context `{Unicode} `{Floats} `{DirectoryHttp} `{RsaSigner} `{Aead} `{Entropy} `{Collation} `{HeapOrder}.

(** C32: A directory sync changes accounts only on the strength of a complete listing.  When the request
    succeeds, the listing it used is the usable content of a chain of pages, each named by the one
    before it and the last naming none; and then the accounts are as that listing says: nobody is
    deleted, every account keeps its address, role and origin; an account that is listed carries the
    identity, name, unit and status of its last entry; one that is not is deactivated when it came from
    the directory and is otherwise as it was; new accounts are plain users of listed addresses; and
    every entry has an account. When the request fails, however far it came, nothing durable has
    changed. *)
Theorem sync_needs_complete_listing po r user s x s' :
  users_keyed (w_db (sn_world s)) -> emails_unique (w_db (sn_world s)) -> sync_request po r user s = (x, s') ->
  match x with
  | Ok _ =>
      exists client items pages gets parts,
        List.filter get_request (ds_sent (sn_directory s')) = gets /\ pages_linked None pages /\
        Forall2 (page_request client (py "my_customer")) pages gets /\
        Forall2 (fun page part => page_users page.2 = Ok part) pages parts /\ items = concat parts /\
        as_directory_says items (w_db (sn_world s)) (w_committed (sn_world s'))
  | Raise _ => w_committed (sn_world s') = w_committed (sn_world s)
  end.
Proof using Type.
  intros Hk Hun. unfold sync_request. set (s0 := mkSyncState _ _).
  pose proof (sync_commits_nothing po r user s0) as Hc. destruct (sync_workspace po r user s0) as [y s1] eqn:E.
  cbn [snd s0 sn_world] in Hc. destruct y as [resp|e]; intros [= <- <-].
  2: { cbn [sn_world]. by destruct (is_exception e). }
  unfold sync_workspace in E. apply mbind_inv in E as (items&s2&Ed&E). apply mbind_inv in E as (result&s3&Es&E).
  apply mbind_inv in E as (u&s4&Ea&E). injection E as _ <-.
  assert (Ed' : directory_users po s0 = (Ok items, s2)).
  { unfold try_except in Ed. destruct (directory_users po s0) as [[l|e] s5] eqn:El; [done|].
    destruct (sync_failure e); [|done]. by apply mbind_inv in Ed as (?&?&_&?). }
  apply directory_users_inv in Ed' as (Hw&client&El).
  apply directory_listing_complete in El as (pages&gets&sent&Hsent&Hget&Hlinked&_&Hreq&parts&Hparts&Hitems); [|done].
  unfold in_session in Es, Ea. destruct (sync_workspace_users items (sn_world s2)) as [y w3] eqn:Esync. injection Es as -> <-.
  cbn [sn_world sn_directory] in Ea.
  match type of Ea with (let '(_, _) := ?c in _) = _ => destruct c as [y w4] eqn:Eaud end. injection Ea as -> <-.
  apply audit_db in Eaud as (_&_&ev&Hdb&_). rewrite Hw in Esync. apply sync_follows_directory in Esync; [|exact Hk|exact Hun].
  exists client, items, pages, gets, parts. cbn [sn_directory sn_world commit snd w_committed].
  assert (Hu : users (w_db w4) = users (w_db w3)) by (by rewrite Hdb).
  cbn in Hsent. rewrite Hsent. do 5 (split; [done|]). unfold as_directory_says. by rewrite Hu.
Qed.
End AdminProperties.

(** A portal with a configured directory, and a directory that cannot be reached. *)
Definition configured_world : World :=
  (get_db_session (@write_many tagged_aead counting_entropy (po_store sample_portal)
    [(GOOGLE_WORKSPACE_SERVICE_ACCOUNT_JSON, Some sample_account); (GOOGLE_WORKSPACE_DELEGATED_ADMIN, Some (py "admin@example.test"))] 7)
    (mkWorld (w_db admin_world) (w_db admin_world) 0 1700000000000000)).2.
Definition dead_directory : DirectoryHttp := {| directory_reply _ _ := None; directory_latency _ := 1000 |}.
Definition sync_with (http : DirectoryHttp) : result WebResponse * SyncState :=
  @sync_request ascii_unicode plain_floats http sample_signer tagged_aead counting_entropy ascii_collation sample_portal
    (mkWebRequest None ∅ ∅ [] []) admin_user (mkSyncState configured_world fresh_directory).
Definition synced_run : result WebResponse * SyncState := sync_with sample_directory.
Lemma synced_run_ok : exists resp, synced_run.1 = Ok resp.
Proof. eexists. vm_compute. reflexivity. Qed.
(** A transport error is none of the exceptions that the route answers. *)
Theorem transport_error_escapes : (sync_with dead_directory).1 = Raise (OtherException "HTTPError").
Proof. vm_compute. reflexivity. Qed.

Lemma sync_needs_complete_listing_witness :
  exists pages, length pages = 2%nat /\ pages_linked None pages /\
    exists u, users (w_committed (sn_world synced_run.2)) !! 7 = Some u /\ u_role u = Role_SUPER_ADMIN.
Proof.
  destruct synced_run_ok as [resp Hok].
  pose proof (surjective_pairing synced_run) as E. rewrite Hok in E. unfold synced_run at 1, sync_with in E.
  assert (Hk : users_keyed (w_db configured_world)) by (intros k u; apply keyed_check; vm_compute; reflexivity).
  assert (Hun : @emails_unique ascii_collation (w_db configured_world)).
  { assert (Hu : users (w_db configured_world) = users (w_db admin_world)) by (vm_compute; reflexivity).
    intros k k' u u'. rewrite Hu. intros Ha Hb. change (({[7 := admin_user]} : gmap Z User) !! k = Some u) in Ha.
    change (({[7 := admin_user]} : gmap Z User) !! k' = Some u') in Hb.
    apply lookup_singleton_Some in Ha as [<- _]. by apply lookup_singleton_Some in Hb as [<- _]. }
  pose proof (@sync_needs_complete_listing ascii_unicode plain_floats sample_directory sample_signer tagged_aead
    counting_entropy ascii_collation sample_portal (mkWebRequest None ∅ ∅ [] []) admin_user
    (mkSyncState configured_world fresh_directory) (Ok resp) synced_run.2 Hk Hun E) as Hsync. cbv beta iota in Hsync.
  destruct Hsync as (client&items&pages&gets&parts&Hg&Hl&Hr&_&_&(Hold&_)).
  exists pages. split; [|split; [exact Hl|]].
  - rewrite (Forall2_length _ _ _ Hr), <- Hg. vm_compute. reflexivity.
  - destruct (Hold 7 admin_user) as (u&Hu&(_&_&Hrole&_)&_); [vm_compute; reflexivity|]. exists u. split; [exact Hu|exact Hrole].
Defined.

(** A directory that lists the last super-admin as suspended leaves the portal without one. *)
Definition suspended_admin : WorkspaceUser := mkWorkspaceUser (py "g-7") (py "ada@example.com") (py "Ada") (py "/") true.
Theorem sync_can_remove_last_super_admin :
  existsb active_super_admin (map_to_list (users (w_db admin_world))).*2 = true /\
  existsb active_super_admin (map_to_list (users (w_db
    (@sync_workspace_users ascii_unicode ascii_collation counting_entropy [suspended_admin] admin_world).2))).*2 = false.
Proof. vm_compute. auto. Qed.
