(* ===== verification/Analyst.v ===== *)
(** The analyst's routes (app/routers/analyst.py): starting a scan, the history of a subject with its
    filters, the reveal of a stored password, remediation and the CSV export. *)
From S2P Require Import Prelude PyBase Encoding Hashes Json Models Store Config Aead Normalization FindingCrypto.
From S2P Require Import PlatformSettings Remediation LeakCheck Scans Access Web Layout SignIn Csv.

Definition MAX_FORM_BYTES : Z := 8 * 1024.
Definition MAX_RESULTS : nat := Z.to_nat 2000.

(** [{"Cache-Control": "no-store", **headers}] *)
Definition html_ (body : Body) (status : Z) (headers : list (pystr * pystr)) : WebResponse :=
  html_response status body headers.

(** What a route hands to [background_tasks.add_task(execute_scan, ...)]: the client with the digest
    of the settings it was built from, the rows and the query. *)
Record BackgroundScan := mkBackgroundScan {
  bg_client : (LeakCheckClient * ClientState) * bytes;
  bg_scan_id : uuid;
  bg_subject_id : uuid;
  bg_query : pystr;
}.

Definition in_progress (s : Scan) : bool := bool_decide (sc_status s = Scan_PENDING \/ sc_status s = Scan_RUNNING).
Definition requested_by (user : uuid) (s : Scan) : bool := bool_decide (sc_requested_by s = Some user).

(** The settings cannot be read, or no client can be built from them. *)
Definition misconfigured (e : exn) : bool :=
  bool_decide (e = PlatformSettingError) || bool_decide (e = LeakCheckConfigurationError) || is_value_error e.

(** ** Filters *)

Inductive StateFilter : Type := All | Unremediated | Remediated | Releaked.
#[export] Instance StateFilter_eq_dec : EqDecision StateFilter.
Proof. solve_decision. Defined.
Definition state_filter (text : pystr) : option StateFilter :=
  if bool_decide (text = py "all") then Some All
  else if bool_decide (text = py "unremediated") then Some Unremediated
  else if bool_decide (text = py "remediated") then Some Remediated
  else if bool_decide (text = py "releaked") then Some Releaked else None.
Definition state_text (f : StateFilter) : pystr :=
  match f with
  | All => py "all" | Unremediated => py "unremediated" | Remediated => py "remediated" | Releaked => py "releaked"
  end.

Record FindingFilters := mkFindingFilters {
  ff_state : StateFilter;
  ff_source : pystr;
  ff_date_from : option date;
  ff_date_to : option date;
}.

Definition parse_filter_date (value : pystr) : result (option date) :=
  if bool_decide (value = []) then Ok None
  else match fromisoformat value with
       | Ok d => Ok (Some d)
       | Raise e => Raise (if is_value_error e then HTTPException 422 else e)
       end.

Section Filters.
Context `{Unicode}.

Definition filters_from_request (r : WebRequest) : result FindingFilters :=
  match state_filter (query_param "state" (py "all") r) with
  | None => Raise (HTTPException 422)
  | Some state =>
      let source := strip (query_param "source" [] r) in
      if (1024 <? length source)%nat || existsb (fun c => negb (isprintable c)) source then Raise (HTTPException 422)
      else
        try! date_from <- parse_filter_date (query_param "date_from" [] r);
        try! date_to <- parse_filter_date (query_param "date_to" [] r);
        if match date_from, date_to with Some a, Some b => negb (date_leb a b) | _, _ => false end
        then Raise (HTTPException 422)
        else Ok (mkFindingFilters state source date_from date_to)
  end.

Definition filter_meta (f : FindingFilters) : list (pystr * json) :=
  let date_json d := match d with Some d => JStr (date_isoformat d) | None => JNull end in
  [(py "state", JStr (state_text (ff_state f))); (py "source", JStr (ff_source f));
   (py "date_from", date_json (ff_date_from f)); (py "date_to", date_json (ff_date_to f))].

(** The [WHERE] clauses; a comparison with a NULL date is not true. *)
Definition apply_filters (f : FindingFilters) (row : Finding * BreachSource) : bool :=
  let '(finding, source) := row in
  match ff_state f with
  | All => true
  | Unremediated => bool_decide (f_remediated_at finding = None)
  | Remediated => bool_decide (is_Some (f_remediated_at finding))
  | Releaked => bool_decide (f_severity finding = Severity_HIGH)
  end
  && match ff_date_from f with
     | Some d => match bs_breach_date source with Some b => date_leb d b | None => false end
     | None => true
     end
  && match ff_date_to f with
     | Some d => match bs_breach_date source with Some b => date_leb b d | None => false end
     | None => true
     end.

(** ** Views of raw vendor records *)

Definition raw_origin (value : json) : option pystr :=
  match value with
  | JStr s => Some s
  | JList l =>
      let origins := flat_map (fun item => match item with
                                           | JStr s => if bool_decide (strip s = []) then [] else [strip s]
                                           | _ => []
                                           end) l in
      match join (py ", ") origins with [] => None | s => Some s end
  | _ => None
  end.
Definition raw_url (raw : list (pystr * json)) : option pystr :=
  match raw_origin (jget "url" raw) with
  | Some (c :: t) => Some (c :: t)
  | _ => match raw_origin (jget "URL" raw) with Some (c :: t) => Some (c :: t) | _ => None end
  end.
Definition raw_date (value : json) : option date :=
  match value with
  | JStr s => match fromisoformat (slice_to 10 s) with Ok d => Some d | Raise _ => None end
  | _ => None
  end.

(** A year, a year and a month, or a full date; kept as the vendor wrote it. *)
Definition breach_date_text (value : pystr) : bool :=
  let valid {A} (r : result A) := match r with Ok _ => true | Raise _ => false end in
  match split_char 45 value with
  | [y] => (length y =? 4)%nat && valid (try! n <- py_int y; make_date n 1 1)
  | [y; m] => (length y =? 4)%nat && (length m =? 2)%nat
              && valid (try! n <- py_int y; try! k <- py_int m; make_date n k 1)
  | [_; _; _] => valid (fromisoformat value)
  | _ => false
  end.
Definition raw_breach_date (raw extra : list (pystr * json)) : option pystr :=
  let raw_value := match jget "source" raw with JDict d => jget "breach_date" d | _ => JNull end in
  let usable v := match v with JStr s => if breach_date_text s then Some s else None | _ => None end in
  match usable raw_value with
  | Some s => Some s
  | None => usable (jget "vendor_breach_date" extra)
  end.

(** [str(value)] of the leaves; [float_str] is the representation of a floating-point number. *)
Variable float_str : pystr -> pystr.
Fixpoint raw_value_text (value : json) : pystr :=
  match value with
  | JDict d => join [32] (map (fun kv => raw_value_text kv.2) d)
  | JList l => join [32] (map raw_value_text l)
  | JNull => []
  | JBool b => if b then py "True" else py "False"
  | JInt n => str_int n
  | JFloat t => float_str t
  | JStr s => s
  end.

End Filters.

(** ** The history of a subject *)

Record FindingView := mkFindingView {
  fv_id : uuid;
  fv_source : pystr;
  fv_breach_date : option date;
  fv_breach_date_text : option pystr;
  fv_collected_date : option date;
  fv_fields : list pystr;
  fv_email : option pystr;
  fv_username : option pystr;
  fv_phone : option pystr;
  fv_origin : option pystr;
  fv_url : option pystr;
  fv_password_mask : option pystr;
  fv_has_password : bool;
  fv_remediated_at : option instant;
  fv_re_leaked : bool;
  fv_first_seen_at : instant;
  fv_last_seen_at : instant;
  fv_raw : list (pystr * json);
}.
Record EventView := mkEventView {
  ev_event : FindingEventType;
  ev_at : instant;
  ev_actor : option pystr;
  ev_meta : list (pystr * json);
}.
Record RecentSubject := mkRecentSubject {
  rs_subject : Subject;
  rs_actor : option pystr;
  rs_trigger : option ScanTrigger;
}.

(** [ORDER BY x DESC NULLS LAST], and [ORDER BY x DESC], which puts NULL first. *)
Definition desc_nulls_last {A} (leb : A -> A -> bool) (a b : option A) : bool :=
  match a, b with Some x, Some y => leb y x | Some _, None => true | None, Some _ => false | None, None => true end.
Definition desc_nulls_first {A} (leb : A -> A -> bool) (a b : option A) : bool :=
  match a, b with Some x, Some y => leb y x | None, _ => true | Some _, None => false end.
Definition finding_order (a b : Finding * BreachSource) : bool :=
  let da := bs_breach_date a.2 in
  let db := bs_breach_date b.2 in
  if bool_decide (da = db) then f_first_seen_at b.1 <=? f_first_seen_at a.1 else desc_nulls_last date_leb da db.

Section Analyst.
Context `{Unicode} `{Aead} `{Entropy} `{HeapOrder}.
Variable float_str : pystr -> pystr.

(** The inner join of findings and their sources. *)
Definition findings_with_sources (keep : Finding -> bool) (d : Db) : list (Finding * BreachSource) :=
  flat_map (fun f => match breach_sources d !! f_source_id f with Some s => [(f, s)] | None => [] end)
    (select keep (findings d)).

Definition finding_view (row : Finding * BreachSource) : FindingView :=
  let '(f, s) := row in
  mkFindingView (f_id f) (bs_name s) (bs_breach_date s) (raw_breach_date (f_raw f) (bs_extra s))
    (raw_date (jget "collected" (f_raw f))) (f_fields f) (f_email f) (f_username f) (f_phone f)
    (match f_origin f with Some (c :: t) => Some (c :: t) | _ => raw_origin (jget "origin" (f_raw f)) end)
    (raw_url (f_raw f)) (f_password_mask f) (bool_decide (is_Some (f_password_sha256 f))) (f_remediated_at f)
    (bool_decide (f_severity f = Severity_HIGH)) (f_first_seen_at f) (f_last_seen_at f) (f_raw f).

Definition subject_rows (subject_id : uuid) (filters : FindingFilters) (d : Db) : list (Finding * BreachSource) :=
  sort_by finding_order (List.filter (apply_filters filters)
    (findings_with_sources (fun f => bool_decide (f_subject_id f = subject_id)) d)).

(** The needle of the source filter, in the text of a finding's raw record. *)
Definition source_matches (filters : FindingFilters) (v : FindingView) : bool :=
  contains (casefold (raw_value_text float_str (JDict (fv_raw v)))) (casefold (ff_source filters)).
Definition finding_views (subject_id : uuid) (filters : FindingFilters) : M (list FindingView) :=
  let! d <- get_db;
  let views := map finding_view (take MAX_RESULTS (subject_rows subject_id filters d)) in
  mret (if bool_decide (ff_source filters = []) then views else List.filter (source_matches filters) views).

Definition event_views (subject_id : uuid) : M (list EventView) :=
  let! d <- get_db;
  let of_subject e := match findings d !! fe_finding_id e with
                      | Some f => bool_decide (f_subject_id f = subject_id)
                      | None => false
                      end in
  let actor e := match fe_actor_id e with Some a => u_display_name <$> users d !! a | None => None end in
  mret (map (fun e => mkEventView (fe_event e) (fe_at e) (actor e) (fe_meta e))
    (sort_by (fun a b => fe_at b <=? fe_at a) (heap_order _ (List.filter of_subject (finding_events d))))).

Definition subject_or_404 (subject_id : uuid) : M Subject :=
  let! d <- get_db;
  match subjects d !! subject_id with Some s => mret s | None => raise (HTTPException 404) end.
Definition scan_or_404 (scan_id : uuid) : M (Scan * Subject) :=
  let! d <- get_db;
  match scans d !! scan_id with
  | Some scan => match subjects d !! sc_subject_id scan with
                 | Some subject => mret (scan, subject)
                 | None => raise (HTTPException 404)
                 end
  | None => raise (HTTPException 404)
  end.

(** The arguments of [subject_history_page]. *)
Record SubjectHistory := mkSubjectHistory {
  sh_user : User;
  sh_subject : Subject;
  sh_findings : list FindingView;
  sh_events : list EventView;
  sh_filters : FindingFilters;
}.
Definition subject_history (subject_id : uuid) (r : WebRequest) (current_user : User) : M SubjectHistory :=
  let! subject <- subject_or_404 subject_id;
  let! filters <- lift (filters_from_request r);
  let! findings <- finding_views subject_id filters;
  let! events <- event_views subject_id;
  mret (mkSubjectHistory current_user subject findings events filters).

(** The most recent scan of a subject ([DISTINCT ON]), with the address of who asked for it. *)
Definition latest_scan (d : Db) (subject_id : uuid) : option Scan :=
  head (sort_by (fun a b => desc_nulls_first Z.leb (sc_started_at a) (sc_started_at b))
          (select (fun s => bool_decide (sc_subject_id s = subject_id)) (scans d))).
Definition dashboard : M (list RecentSubject) :=
  let! d <- get_db;
  let recent s :=
    let scan := latest_scan d (su_id s) in
    let actor := match scan with
                 | Some scan => match sc_requested_by scan with Some u => u_email <$> users d !! u | None => None end
                 | None => None
                 end in
    mkRecentSubject s actor (sc_trigger <$> scan) in
  mret (map recent (take 20 (sort_by (fun a b => desc_nulls_last Z.leb (su_last_scanned_at a) (su_last_scanned_at b))
                               (select (fun _ => true) (subjects d))))).
Definition attribution (r : RecentSubject) : pystr :=
  match rs_actor r with
  | Some (c :: t) => c :: t
  | _ => match rs_trigger r with
         | Some Trigger_SCHEDULED => py "scheduled scan"
         | Some Trigger_BATCH => py "batch scan"
         | Some Trigger_SELF => py "self-check"
         | _ => py "unknown"
         end
  end.

(** ** Starting a scan *)

Definition query_from_form (r : WebRequest) : result pystr :=
  let content_type := strip (split_once 59 (default [] (wr_headers r !! py "content-type"))).1 in
  if negb (bool_decide (content_type = py "application/x-www-form-urlencoded")) then Raise (HTTPException 415)
  else
    try! _ <- match wr_headers r !! py "content-length" with
              | None | Some [] => Ok tt
              | Some text => match py_int text with
                             | Ok n => if MAX_FORM_BYTES <? n then Raise (HTTPException 413) else Ok tt
                             | Raise e => Raise (if is_value_error e then HTTPException 400 else e)
                             end
              end;
    if MAX_FORM_BYTES <? Z.of_nat (length (wr_body r)) then Raise (HTTPException 413)
    else
      match (try! text <- utf8_decode (wr_body r); parse_qsl true true (Some 2%nat) text) with
      | Raise e => Raise (if is_value_error e then HTTPException 400 else e)
      | Ok fields => match field_values (py "query") fields with
                     | [q] => Ok q
                     | _ => Raise (HTTPException 422)
                     end
      end.

(** The pending row of an interactive scan. *)
Definition add_scan (subject_id : uuid) (user : uuid) (trigger : ScanTrigger) : M Scan :=
  let! id <- uuid4;
  let scan := mkScan id subject_id (Some user) trigger Scan_PENDING None None 0 0 None false None in
  do! insert_scan scan;
  mret scan.

(** The answer to a started scan: HTMX follows a header, a browser a redirect. *)
Definition scan_started (r : WebRequest) (location : pystr) : WebResponse :=
  if bool_decide (wr_headers r !! py "hx-request" = Some (py "true"))
  then html_ (B_text []) 200 [(py "HX-Redirect", location)]
  else redirect_no_store location.

Definition run_analyst_scan (po : PortalState) (cached : option ((LeakCheckClient * ClientState) * bytes))
    (kind : SubjectKind) (r : WebRequest) (current_user : User) : M (WebResponse * option BackgroundScan) :=
  let! query <- lift (query_from_form r);
  match normalize_subject kind query with
  | Raise NormalizationError => mret (html_ (B_page "normalization error" []) 422 [], None)
  | Raise e => raise e
  | Ok normalized =>
      let! d <- get_db;
      if existsb (fun s => requested_by (u_id current_user) s && in_progress s) (map_to_list (scans d)).*2
      then mret (html_ (B_text (py "You already have a check in progress.")) 409 [], None)
      else
        let! subject <- resolve_subject normalized None;
        let! client <- try_except (let! c <- configured_client (po_store po) cached; mret (inr c)) misconfigured
          (fun e =>
             do! audit po r "analyst.scan_rejected" (Some (u_id current_user)) (Some (py "subject"))
                   (Some (uuid_str (su_id subject)))
                   [(py "kind", JStr (SubjectKind_value kind)); (py "reason", JStr (exn_name e))];
             mret (inl (html_ (B_text (py
               "LeakCheck is not configured. Ask a super-admin to review Platform settings.")) 503 [])));
        match client with
        | inl response => mret (response, None)
        | inr client =>
            let! scan <- add_scan (su_id subject) (u_id current_user) Trigger_MANUAL;
            do! audit po r "analyst.scan_requested" (Some (u_id current_user)) (Some (py "scan"))
                  (Some (uuid_str (sc_id scan))) [(py "kind", JStr (SubjectKind_value kind))];
            do! commit;
            mret (scan_started r (py "/analyst/scans/" ++ uuid_str (sc_id scan)),
                  Some (mkBackgroundScan client (sc_id scan) (su_id subject) query))
        end
  end.

(** The page of a scan, or where it leads once it succeeded. *)
Definition scan_progress (scan_id : uuid) (current_user : User) : M WebResponse :=
  let! p <- scan_or_404 scan_id;
  let '(scan, subject) := p in
  mret (if bool_decide (sc_status scan = Scan_SUCCEEDED)
        then redirect_no_store (py "/analyst/subjects/" ++ uuid_str (su_id subject))
        else html_ (B_page "scan progress" [ScanStatus_value (sc_status scan); su_value_display subject]) 200 []).
Definition scan_progress_status (scan_id : uuid) : M WebResponse :=
  let! p <- scan_or_404 scan_id;
  let '(scan, subject) := p in
  mret (if bool_decide (sc_status scan = Scan_SUCCEEDED)
        then html_ (B_text []) 200 [(py "HX-Redirect", py "/analyst/subjects/" ++ uuid_str (su_id subject))]
        else html_ (B_page "scan status" [ScanStatus_value (sc_status scan)]) 200 []).

(** ** Findings *)

Definition revealed_markup (password : pystr) : pystr :=
  tpl "<button type=`button` class=`revealed-password copy-value` data-copy-value=`" ++ html_escape password ++
  tpl "` title=`Copy password`>" ++ html_escape password ++ tpl "</button>".

Definition reveal_finding_password (po : PortalState) (finding_id : uuid) (r : WebRequest) (current_user : User)
  : M WebResponse :=
  let! d <- get_db;
  match findings d !! finding_id with
  | None => raise (HTTPException 404)
  | Some finding =>
      match f_password_ciphertext finding, f_password_nonce finding with
      | Some ciphertext, Some nonce =>
          match reveal_password (po_settings po) (f_id finding) ciphertext nonce with
          | Raise FindingCryptoError => raise (HTTPException 409)
          | Raise e => raise e
          | Ok password =>
              let! id <- uuid4;
              let! now <- clock;
              do! modify_db (fun d => set_finding_events (finding_events d ++
                    [mkFindingEvent id (f_id finding) Event_PASSWORD_VIEWED (Some (u_id current_user)) now []]) d);
              do! audit po r "finding.password_viewed" (Some (u_id current_user)) (Some (py "finding"))
                    (Some (uuid_str (f_id finding))) [];
              mret (html_ (B_text (revealed_markup password)) 200 [(py "Pragma", py "no-cache")])
          end
      | _, _ => raise (HTTPException 404)
      end
  end.

(** [FindingNotFoundError] becomes 404. *)
Definition or_404 {A} (c : M A) : M A :=
  try_except c (fun e => bool_decide (e = FindingNotFoundError)) (fun _ => raise (HTTPException 404)).

Definition mark_remediated (po : PortalState) (finding_id : uuid) (r : WebRequest) (current_user : User) : M WebResponse :=
  let! finding <- or_404 (remediate_finding finding_id (u_id current_user) None None);
  do! audit po r "finding.remediated" (Some (u_id current_user)) (Some (py "finding"))
        (Some (uuid_str (f_id finding))) [];
  mret (html_ (B_page "remediation" [uuid_str (f_id finding); py "remediated"]) 200 []).
Definition mark_unremediated (po : PortalState) (finding_id : uuid) (r : WebRequest) (current_user : User) : M WebResponse :=
  let! finding <- or_404 (unremediate_finding finding_id (u_id current_user) None);
  do! audit po r "finding.unremediated" (Some (u_id current_user)) (Some (py "finding"))
        (Some (uuid_str (f_id finding))) [];
  mret (html_ (B_page "remediation" [uuid_str (f_id finding); py "unremediated"]) 200 []).

(** ** The CSV export *)

Definition csv_cell (value : pystr) : pystr :=
  match value with
  | c :: _ => if bool_decide (c ∈ [61; 43; 45; 64; 9; 13]) then 39 :: value else value
  | [] => value
  end.
Definition csv_header : list pystr :=
  [py "source"; py "breach_date"; py "collected_date"; py "email"; py "username"; py "phone"; py "origin"; py "url";
   py "fields"; py "password_mask"; py "state"; py "re_leaked"; py "first_seen_at"; py "last_seen_at"].
Definition csv_values (v : FindingView) : list pystr :=
  [fv_source v;
   match fv_breach_date v with Some d => date_isoformat d | None => default [] (fv_breach_date_text v) end;
   match fv_collected_date v with Some d => date_isoformat d | None => [] end;
   default [] (fv_email v); default [] (fv_username v); default [] (fv_phone v); default [] (fv_origin v);
   default [] (fv_url v); join (py ", ") (fv_fields v); default [] (fv_password_mask v);
   match fv_remediated_at v with Some _ => py "remediated" | None => py "unremediated" end;
   if fv_re_leaked v then py "true" else py "false";
   instant_isoformat (fv_first_seen_at v); instant_isoformat (fv_last_seen_at v)].
Definition export_text (views : list FindingView) : pystr :=
  concat (map csv_row (csv_header :: map (fun v => map csv_cell (csv_values v)) views)).

Definition export_subject_csv (po : PortalState) (subject_id : uuid) (r : WebRequest) (current_user : User)
  : M WebResponse :=
  let! subject <- subject_or_404 subject_id;
  let! filters <- lift (filters_from_request r);
  let! views <- finding_views subject_id filters;
  do! audit po r "findings.csv_exported" (Some (u_id current_user)) (Some (py "subject"))
        (Some (uuid_str (su_id subject)))
        (filter_meta filters ++ [(py "row_count", JInt (Z.of_nat (length views)))]);
  mret (mkWebResponse 200 (B_text (export_text views))
    [no_store; (py "Content-Disposition",
                tpl "attachment; filename=`leakcheck-" ++ SubjectKind_value (su_kind subject) ++ tpl "-findings.csv`");
     (py "X-Content-Type-Options", py "nosniff")] []).
End Analyst.

(** ** Lemmas: markup and exported cells *)

Definition formula_start (s : pystr) : bool :=
  match s with c :: _ => bool_decide (c ∈ [61; 43; 45; 64; 9; 13]) | [] => false end.
Lemma csv_cell_inert s : formula_start (csv_cell s) = false /\ (csv_cell s = s \/ csv_cell s = 39 :: s).
Proof.
  destruct s as [|c s]; [by split; [|left]|]. unfold csv_cell. destruct (bool_decide _) eqn:E; [by split; [|right]|].
  split; [|by left]. unfold formula_start. exact E.
Qed.

Lemma export_text_rows views :
  csv_rows (export_text views) = csv_header :: map (fun v => map csv_cell (csv_values v)) views.
Proof.
  unfold export_text. apply csv_roundtrip. constructor; [done|]. apply List.Forall_forall.
  intros row (v&<-&_)%in_map_iff. done.
Qed.

Section AnalystLemmas.
Context `{Unicode} `{Aead} `{Entropy} `{HeapOrderLaws}.
Variable float_str : pystr -> pystr.

(** *** Reveal *)

(** One event of a finding is appended. *)
Definition viewed (finding_id user : uuid) (at_ : instant) (d d' : Db) : Prop :=
  exists e, d' = set_finding_events (finding_events d ++ [e]) d /\ fe_finding_id e = finding_id /\
    fe_event e = Event_PASSWORD_VIEWED /\ fe_actor_id e = Some user /\ fe_at e = at_.

Lemma reveal_inv po finding_id r user w resp w' :
  reveal_finding_password po finding_id r user w = (Ok resp, w') ->
  exists finding ciphertext nonce password d,
    findings (w_db w) !! finding_id = Some finding /\
    f_password_ciphertext finding = Some ciphertext /\ f_password_nonce finding = Some nonce /\
    reveal_password (po_settings po) (f_id finding) ciphertext nonce = Ok password /\
    ws_body resp = B_text (revealed_markup password) /\ ws_status resp = 200 /\ no_store ∈ ws_headers resp /\
    viewed (f_id finding) (u_id user) (w_now w) (w_db w) d /\
    audited "finding.password_viewed" (Some (u_id user)) (Some (py "finding")) (Some (uuid_str (f_id finding))) []
      (w_now w) d (w_db w').
Proof using Type.
  unfold reveal_finding_password, mbind at 1, get_db.
  destruct (findings (w_db w) !! finding_id) as [f|] eqn:Ef; [|done].
  destruct (f_password_ciphertext f) as [ct|] eqn:Ec; [destruct (f_password_nonce f) as [nonce|] eqn:En|]; [|done..].
  destruct (reveal_password _ _ ct nonce) as [password|e] eqn:Er; [|by destruct e].
  unfold mbind at 1, uuid4. unfold mbind at 1, clock. unfold mbind at 1, modify_db, with_db. cbn [w_db w_committed w_draws w_now].
  set (w1 := mkWorld (set_finding_events _ _) _ _ _). unfold mbind. destruct (audit po r _ _ _ _ _ w1) as [[u|e] w2] eqn:Ea; [|done].
  apply audit_db in Ea as (_&_&Ha). intros [= <- <-]. exists f, ct, nonce, password, (w_db w1). subst w1. cbn in *.
  repeat (split; [done|]). split; [by left|]. split; [|done]. by eexists.
Qed.

(** *** The history *)

Lemma elem_of_rows subject_id filters d f s :
  (f, s) ∈ subject_rows subject_id filters d <->
  (exists k, findings d !! k = Some f) /\ f_subject_id f = subject_id /\
  breach_sources d !! f_source_id f = Some s /\ apply_filters filters (f, s) = true.
Proof using Type*.
  unfold subject_rows. rewrite sort_by_perm. rewrite list_elem_of_In, filter_In. unfold findings_with_sources.
  rewrite in_flat_map. setoid_rewrite <- list_elem_of_In. setoid_rewrite elem_of_select. split.
  - intros [(f'&[Hb Hk]&Hin) Hf]. destruct (breach_sources d !! f_source_id f') as [s'|] eqn:Es; [|by apply elem_of_nil in Hin].
    apply list_elem_of_singleton in Hin as [= <- <-]. apply bool_decide_eq_true in Hb. auto.
  - intros (Hk&Hb&Hs&Hf). split; [|done]. exists f. split; [by rewrite bool_decide_true|]. rewrite Hs.
    by apply list_elem_of_singleton.
Qed.

Ltac dates := unfold date_leb; cbn [year month day]; repeat match goal with
  | |- context [if ?a =? ?b then _ else _] => destruct (Z.eqb_spec a b)
  end; try lia.
Lemma date_leb_total a b : date_leb a b = true \/ date_leb b a = true.
Proof using Type. destruct a, b. dates. Qed.
Lemma date_leb_trans a b c : date_leb a b = true -> date_leb b c = true -> date_leb a c = true.
Proof using Type. destruct a, b, c. dates. Qed.
Lemma date_leb_antisym a b : date_leb a b = true -> date_leb b a = true -> a = b.
Proof using Type. destruct a, b. dates; intros; f_equal; lia. Qed.

Lemma finding_order_total a b : finding_order a b = true \/ finding_order b a = true.
Proof using Type.
  unfold finding_order. destruct (bool_decide (bs_breach_date a.2 = bs_breach_date b.2)) eqn:E.
  - apply bool_decide_eq_true in E. rewrite E, bool_decide_true by done. lia.
  - apply bool_decide_eq_false in E. rewrite bool_decide_false by congruence.
    destruct (bs_breach_date a.2) as [x|], (bs_breach_date b.2) as [y|]; cbn; auto. apply date_leb_total.
Qed.
Lemma finding_order_trans a b c : finding_order a b = true -> finding_order b c = true -> finding_order a c = true.
Proof using Type.
  unfold finding_order. destruct a as [fa sa], b as [fb sb], c as [fc sc]. cbn [fst snd].
  destruct (bs_breach_date sa) as [x|], (bs_breach_date sb) as [y|], (bs_breach_date sc) as [z|]; cbn;
    repeat case_bool_decide; simplify_eq; try done; try lia; intros Hab Hbc.
  - by rewrite (date_leb_antisym _ _ Hab Hbc) in *.
  - by eapply date_leb_trans.
Qed.
End AnalystLemmas.

(** ** Properties *)

(** C23: A password is shown only on the record.  When the reveal route answers, the finding exists,
    the page shows the decryption of that finding's stored ciphertext, escaped and not cacheable, and what the request
    durably changes is exactly one view event and one audit event, both of this actor, this finding
    and this time; a request that fails with an exception leaves no trace and shows nothing. *)
Theorem reveal_is_recorded `{Aead} `{Entropy} po finding_id r user w x w' :
  w_committed w = w_db w -> get_db_session (reveal_finding_password po finding_id r user) w = (x, w') ->
  match x with
  | Ok resp => exists finding ciphertext nonce password d,
      findings (w_db w) !! finding_id = Some finding /\
      f_password_ciphertext finding = Some ciphertext /\ f_password_nonce finding = Some nonce /\
      reveal_password (po_settings po) (f_id finding) ciphertext nonce = Ok password /\
      ws_body resp = B_text (revealed_markup password) /\ ws_status resp = 200 /\ no_store ∈ ws_headers resp /\
      viewed (f_id finding) (u_id user) (w_now w) (w_db w) d /\
      audited "finding.password_viewed" (Some (u_id user)) (Some (py "finding")) (Some (uuid_str (f_id finding))) []
        (w_now w) d (w_db w') /\
      w_committed w' = w_db w' /\ forallb (fun c => negb (markup_special c)) (html_escape password) = true
  | Raise e => is_exception e = true -> w_db w' = w_db w /\ w_committed w' = w_db w
  end.
Proof.
  intros Hc. unfold get_db_session. destruct (reveal_finding_password po finding_id r user w) as [[resp|e] w1] eqn:E.
  - intros [= <- <-]. apply reveal_inv in E as (f&ct&no&p&d&E1&E2&E3&E4&E5&E6&E7&E8&E9).
    exists f, ct, no, p, d. do 8 (split; [done|]). split; [done|]. split; [done|]. apply html_escape_inert.
  - assert (Hk : keeps (fun _ => tt) (reveal_finding_password po finding_id r user))
      by (unfold reveal_finding_password; frame).
    destruct (Hk w) as [_ Hw]. rewrite E in Hw. cbn in Hw.
    destruct (is_exception e) eqn:Ee; intros [= <- <-]; [intros _; cbn; by rewrite Hw|congruence].
Qed.

(** The history of a subject is what its filters ask for.  The findings listed are findings of
    that subject that pass the state and date filters and, with a source filter, whose raw record
    contains the text; they come by breach date and then by first sight, newest first and undated last; and as long as at most 2000
    findings pass the state and date filters, every finding that passes all is listed. *)
Theorem history_filters_exact `{Unicode} `{HeapOrderLaws} float_str subject_id filters w :
  let keep v := ff_source filters = [] \/ source_matches float_str filters v = true in
  let listed f s := (exists k, findings (w_db w) !! k = Some f) /\ f_subject_id f = subject_id /\
    breach_sources (w_db w) !! f_source_id f = Some s /\ apply_filters filters (f, s) = true /\ keep (finding_view (f, s)) in
  exists rows, finding_views float_str subject_id filters w = (Ok (map finding_view rows), w) /\
    (forall f s, (f, s) ∈ rows -> listed f s) /\
    StronglySorted (fun a b => finding_order a b = true) rows /\
    ((length (subject_rows subject_id filters (w_db w)) <= MAX_RESULTS)%nat -> forall f s, listed f s -> (f, s) ∈ rows).
Proof.
  intros keep listed. set (p := fun row => if bool_decide (ff_source filters = []) then true
                                           else source_matches float_str filters (finding_view row)).
  exists (List.filter p (take MAX_RESULTS (subject_rows subject_id filters (w_db w)))).
  assert (Hp : forall row, p row = true <-> keep (finding_view row)).
  { intros row. unfold p, keep. case_bool_decide; [by split; [left|]|]. split; [by right|by intros [?|?]]. }
  split; [|split; [|split]].
  - unfold finding_views, mbind, get_db, mret. f_equal. f_equal. unfold p. case_bool_decide as Hs.
    + f_equal. symmetry. by apply filter_true.
    + induction (take _ _) as [|row l IH]; [done|]. cbn [map List.filter]. destruct (source_matches _ _ _); cbn; by rewrite IH.
  - intros f s Hin. apply list_elem_of_In, filter_In in Hin as [Hin Hk]. apply list_elem_of_In in Hin.
    apply elem_of_take in Hin as (i&Hin%list_elem_of_lookup_2&_). apply elem_of_rows in Hin as (H1'&H2'&H3'&H4'). unfold listed. by rewrite <- (Hp (f, s)).
  - apply sorted_filter, sorted_take. apply sort_by_sorted; [apply finding_order_total|apply finding_order_trans].
  - intros Hlen f s (H1'&H2'&H3'&H4'&H5'). apply list_elem_of_In, filter_In. split; [|by apply Hp].
    rewrite take_ge by done. apply list_elem_of_In. by apply elem_of_rows.
Qed.

(** C24: The export reads back and runs nothing.  Read as CSV, the exported text is the header and one
    row per finding listed; each cell is the finding's text, or that text behind a quote, and no cell
    begins with a character that makes a spreadsheet take it for a formula. *)
Theorem export_reads_back views :
  exists rows, csv_rows (export_text views) = csv_header :: rows /\
    Forall2 (fun v row => Forall2 (fun value cell => cell = value \/ cell = 39 :: value) (csv_values v) row) views rows /\
    Forall (Forall (fun cell => formula_start cell = false)) rows.
Proof.
  exists (map (fun v => map csv_cell (csv_values v)) views). split; [apply export_text_rows|]. split.
  - apply Forall2_fmap_r, Forall_Forall2_diag, List.Forall_forall. intros v _.
    apply Forall2_fmap_r, Forall_Forall2_diag, List.Forall_forall. intros value _. apply csv_cell_inert.
  - apply List.Forall_forall. intros row (v&<-&_)%in_map_iff. apply List.Forall_forall.
    intros cell (value&<-&_)%in_map_iff. apply csv_cell_inert.
Qed.

(** A finding with a stored password, and an analyst. *)
Definition stored_password : ProtectedPassword :=
  match (@protect_password ascii_unicode tagged_aead counting_entropy sample_settings 5 (py "<b>") sample_world).1 with
  | Ok p => p
  | Raise _ => mkProtected [] [] [] [] 0 []
  end.
Definition password_finding : Finding :=
  mkFinding 5 1 2 (Some (py "ann@example.com")) None None None None (Some (pp_ciphertext stored_password))
    (Some (pp_nonce stored_password)) (Some (pp_sha256 stored_password)) None None None [py "password"]
    [(py "url", JStr (py "=cmd"))] [] Severity_HIGH 10 20 None None None None None.
Definition analyst_user : User :=
  mkUser 7 (py "ann@example.com") None (py "Ann") None Role_ANALYST true Source_MANUAL 0 None.
Definition analyst_world : World :=
  let d := set_findings {[5 := password_finding]} (set_users {[7 := analyst_user]}
    (set_breach_sources {[2 := mkBreachSource 2 (py "Forum") (py "forum") (Some (mkDate 2020 5 1)) (mkDate 2020 5 1) None None None []]}
       empty_db)) in
  mkWorld d d 0 (10 ^ 15).
Definition reveal_run : result WebResponse * World :=
  get_db_session (@reveal_finding_password tagged_aead counting_entropy sample_portal 5 callback_request analyst_user) analyst_world.

Lemma reveal_run_ok : match reveal_run.1 with Ok resp => ws_status resp = 200 | Raise _ => False end.
Proof. vm_compute. reflexivity. Qed.

Lemma reveal_is_recorded_witness :
  exists resp w', reveal_run = (Ok resp, w') /\ w_committed w' = w_db w' /\ length (finding_events (w_db w')) = 1%nat.
Proof.
  pose proof reveal_run_ok as Hr. destruct reveal_run as [x w'] eqn:E. cbn [fst] in Hr.
  destruct x as [resp|e]; [|destruct Hr].
  destruct (@reveal_is_recorded tagged_aead counting_entropy sample_portal 5 callback_request analyst_user analyst_world
    (Ok resp) w' eq_refl E) as (f&ct&no&p&d&_&_&_&_&_&_&_&(e&Hd&_)&(a&Ha&_)&Hc&_).
  exists resp, w'. split; [reflexivity|]. split; [exact Hc|]. rewrite Ha, Hd. reflexivity.
Defined.

Definition releaked_filter : FindingFilters := mkFindingFilters Releaked (py "CMD") (Some (mkDate 2020 1 1)) None.

Lemma history_filters_exact_witness :
  exists views, @finding_views ascii_unicode plain_heap (fun t => t) 1 releaked_filter analyst_world = (Ok views, analyst_world) /\
    map fv_id views = [5].
Proof.
  destruct (@history_filters_exact ascii_unicode plain_heap (Build_HeapOrderLaws plain_heap (fun A l => reflexivity l))
    (fun t => t) 1 releaked_filter analyst_world) as (rows&E&_&_&_).
  exists (map (@finding_view ascii_unicode) rows). split; [exact E|].
  assert (Hr : match (@finding_views ascii_unicode plain_heap (fun t => t) 1 releaked_filter analyst_world).1 with
               | Ok v => map fv_id v = [5] | Raise _ => False end) by (vm_compute; reflexivity).
  rewrite E in Hr. exact Hr.
Defined.
