(* ===== verification/Portal.v ===== *)
(** The user's portal (app/routers/user.py, app/user_views.py): own findings only, masked, with their
    remediation, and the self-check with its cooldown. *)
From S2P Require Import Prelude PyBase Encoding Hashes Json Models Store Config Aead Normalization.
From S2P Require Import PlatformSettings Remediation LeakCheck Scans Access Web SignIn Analyst.

Definition DEFAULT_COOLDOWN_SECONDS : Z := 24 * 60 * 60.
Definition MAX_COOLDOWN_SECONDS : Z := 30 * 24 * 60 * 60.

(** ** What an ordinary user may see of a finding *)

Record UserFindingProjection := mkProjection {
  up_id : uuid;
  up_source : pystr;
  up_breach_date : option date;
  up_fields : list pystr;
  up_origin : option pystr;
  up_password_mask : option pystr;
  up_remediated_at : option instant;
  up_re_leaked : bool;
  up_first_seen_at : instant;
  up_last_seen_at : instant;
}.

Section Views.
Context `{Unicode}.

Definition remediation_guidance (item : UserFindingProjection) : pystr :=
  match up_password_mask item with
  | Some (_ :: _) =>
      py "Change this password anywhere it was reused, enable MFA, then mark the exposure fixed."
  | _ =>
      if existsb (fun f => bool_decide (casefold f ∈ [py "email"; py "phone"; py "address"; py "name"])) (up_fields item)
      then py "Treat unexpected messages as suspicious and verify requests through a known channel."
      else py "Review the exposed fields and follow your security team's remediation guidance."
  end.

(** [isoformat(timespec="seconds")] of a UTC instant *)
Definition isoformat_seconds (t : instant) : pystr := instant_isoformat (t - t mod second).
Definition or_null_str (v : option pystr) : json := match v with Some s => JStr s | None => JNull end.

Definition serialize_user_finding (item : UserFindingProjection) : list (pystr * json) :=
  [(py "id", JStr (uuid_str (up_id item)));
   (py "source", JStr (up_source item));
   (py "breach_date", match up_breach_date item with Some d => JStr (date_isoformat d) | None => JNull end);
   (py "fields", JList (map JStr (up_fields item)));
   (py "origin", or_null_str (up_origin item));
   (py "password_mask", or_null_str (up_password_mask item));
   (py "remediated", JBool (bool_decide (is_Some (up_remediated_at item))));
   (py "re_leaked", JBool (up_re_leaked item));
   (py "first_seen_at", JStr (isoformat_seconds (up_first_seen_at item)));
   (py "last_seen_at", JStr (isoformat_seconds (up_last_seen_at item)));
   (py "guidance", JStr (remediation_guidance item))].

End Views.

(** Seconds until the next self-check; a subtraction of instants is truncated to whole seconds. *)
Definition cooldown_remaining (scan : option Scan) (cooldown_seconds : Z) (now : instant) : Z :=
  match scan with
  | Some s => match sc_started_at s with
              | Some started => Z.max 0 (cooldown_seconds - Z.max 0 (Z.quot (now - started) second))
              | None => 0
              end
  | None => 0
  end.

Section Portal.
Context `{Unicode} `{Aead} `{Entropy} `{HeapOrder}.

(** The subject of the session's own address. *)
Definition current_subject (user : User) : result NormalizedSubject := normalize_subject Kind_EMAIL (u_email user).

(** The subject row that a finding belongs to is the user's own address. *)
Definition own_subject (normalized : NormalizedSubject) (d : Db) (f : Finding) : bool :=
  match subjects d !! f_subject_id f with
  | Some s => bool_decide (su_kind s = Kind_EMAIL) && bool_decide (su_value_norm s = ns_value_norm normalized)
  | None => false
  end.

Definition projection (row : Finding * BreachSource) : UserFindingProjection :=
  let '(f, s) := row in
  mkProjection (f_id f) (bs_name s) (bs_breach_date s) (f_fields f) (f_origin f) (f_password_mask f)
    (f_remediated_at f) (bool_decide (f_severity f = Severity_HIGH)) (f_first_seen_at f) (f_last_seen_at f).
Definition user_findings (normalized : NormalizedSubject) : M (list UserFindingProjection) :=
  let! d <- get_db;
  mret (map projection (take 1000 (sort_by (fun a b => f_first_seen_at b.1 <=? f_first_seen_at a.1)
    (findings_with_sources (own_subject normalized d) d)))).

Definition self_scan (user : uuid) (s : Scan) : bool :=
  requested_by user s && bool_decide (sc_trigger s = Trigger_SELF).
Definition latest_self_scan (user : uuid) (d : Db) : option Scan :=
  head (sort_by (fun a b => desc_nulls_first Z.leb (sc_started_at a) (sc_started_at b))
          (select (fun s => self_scan user s && bool_decide (is_Some (sc_started_at s))) (scans d))).
Definition active_self_scan (user : uuid) (d : Db) : option Scan :=
  head (select (fun s => self_scan user s && in_progress s) (scans d)).
Definition owned_scan_or_404 (scan_id user : uuid) : M Scan :=
  let! d <- get_db;
  match scans d !! scan_id with
  | Some s => if self_scan user s then mret s else raise (HTTPException 404)
  | None => raise (HTTPException 404)
  end.

Definition cooldown_seconds (store : PlatformSettingsStore) : M Z :=
  let! raw <- read store SELF_CHECK_COOLDOWN_SECONDS;
  let! value <- lift match raw with
                     | None => Ok DEFAULT_COOLDOWN_SECONDS
                     | Some text => match py_int text with
                                    | Ok n => Ok n
                                    | Raise e => Raise (if is_value_error e then HTTPException 503 else e)
                                    end
                     end;
  if (60 <=? value) && (value <=? MAX_COOLDOWN_SECONDS) then mret value else raise (HTTPException 503).

(** The arguments of [dashboard_page]. *)
Definition user_dashboard (po : PortalState) (current_user : User) : M (list (list (pystr * json)) * bool) :=
  let! normalized <- lift (current_subject current_user);
  let! findings <- user_findings normalized;
  let! cooldown <- cooldown_seconds (po_store po);
  let! d <- get_db;
  let! now <- clock;
  let can_check := bool_decide (active_self_scan (u_id current_user) d = None)
                   && (cooldown_remaining (latest_self_scan (u_id current_user) d) cooldown now =? 0) in
  mret (map serialize_user_finding findings, can_check).

Definition self_check (po : PortalState) (cached : option ((LeakCheckClient * ClientState) * bytes))
    (r : WebRequest) (current_user : User) : M (WebResponse * option BackgroundScan) :=
  let! normalized <- lift (current_subject current_user);
  let! d <- get_db;
  let active := active_self_scan (u_id current_user) d in
  let latest := latest_self_scan (u_id current_user) d in
  let! cooldown <- cooldown_seconds (po_store po);
  let! now <- clock;
  let remaining := cooldown_remaining latest cooldown now in
  match active with
  | Some _ => mret (html_ (B_text (py "Your existing self-check is still in progress.")) 409 [], None)
  | None =>
      if 0 <? remaining then
        mret (html_ (B_text (py "Your self-check is in cooldown. Existing findings remain available below.")) 429
                [(py "Retry-After", str_int remaining)], None)
      else
        let! subject <- resolve_subject normalized (Some (u_id current_user));
        let! client <- try_except (let! c <- configured_client (po_store po) cached; mret (inr c)) misconfigured
          (fun e =>
             do! audit po r "self.scan_rejected" (Some (u_id current_user)) (Some (py "user"))
                   (Some (uuid_str (u_id current_user))) [(py "reason", JStr (exn_name e))];
             mret (inl (html_ (B_text (py "Self-check is not configured. Contact your security team.")) 503 [])));
        match client with
        | inl response => mret (response, None)
        | inr client =>
            let! scan <- add_scan (su_id subject) (u_id current_user) Trigger_SELF;
            do! audit po r "self.scan_requested" (Some (u_id current_user)) (Some (py "scan"))
                  (Some (uuid_str (sc_id scan))) [(py "kind", JStr (SubjectKind_value Kind_EMAIL))];
            do! commit;
            mret (scan_started r (py "/portal/scans/" ++ uuid_str (sc_id scan)),
                  Some (mkBackgroundScan client (sc_id scan) (su_id subject) (u_email current_user)))
        end
  end.

Definition self_scan_progress (scan_id : uuid) (current_user : User) : M WebResponse :=
  let! scan <- owned_scan_or_404 scan_id (u_id current_user);
  mret (if bool_decide (sc_status scan = Scan_SUCCEEDED) then redirect_no_store (py "/portal")
        else html_ (B_page "self-check progress" [ScanStatus_value (sc_status scan)]) 200 []).
Definition self_scan_status (scan_id : uuid) (current_user : User) : M WebResponse :=
  let! scan <- owned_scan_or_404 scan_id (u_id current_user);
  mret (if bool_decide (sc_status scan = Scan_SUCCEEDED) then html_ (B_text []) 200 [(py "HX-Redirect", py "/portal")]
        else html_ (B_page "self-check status" [ScanStatus_value (sc_status scan)]) 200 []).

Definition self_remediate (po : PortalState) (finding_id : uuid) (r : WebRequest) (current_user : User) : M WebResponse :=
  let! normalized <- lift (current_subject current_user);
  let! d <- get_db;
  if match findings d !! finding_id with Some f => own_subject normalized d f | None => false end then
    let! finding <- or_404 (remediate_finding finding_id (u_id current_user)
                              (Some (py "Marked fixed by the affected user")) None);
    do! audit po r "self.finding_remediated" (Some (u_id current_user)) (Some (py "finding"))
          (Some (uuid_str (f_id finding))) [];
    mret (html_ (B_page "remediation complete" [uuid_str (f_id finding)]) 200 [])
  else raise (HTTPException 404).

End Portal.

(** ** Lemmas *)

Section PortalLemmas.
Context `{Unicode} `{Aead} `{Entropy} `{HeapOrderLaws}.

(** A finding of the address that the user's own address normalises to. *)
Definition owned (user : User) (d : Db) (f : Finding) : Prop :=
  exists normalized subject, current_subject user = Ok normalized /\ subjects d !! f_subject_id f = Some subject /\
    su_kind subject = Kind_EMAIL /\ su_value_norm subject = ns_value_norm normalized.

(** A self-check that the user requested, and what its two pages answer. *)
Definition own_scan (user : User) (scan_id : uuid) (d : Db) (s : Scan) : Prop :=
  scans d !! scan_id = Some s /\ sc_requested_by s = Some (u_id user) /\ sc_trigger s = Trigger_SELF.
Definition scan_page (s : Scan) : WebResponse :=
  if bool_decide (sc_status s = Scan_SUCCEEDED) then redirect_no_store (py "/portal")
  else html_ (B_page "self-check progress" [ScanStatus_value (sc_status s)]) 200 [].
Definition scan_fragment (s : Scan) : WebResponse :=
  if bool_decide (sc_status s = Scan_SUCCEEDED) then html_ (B_text []) 200 [(py "HX-Redirect", py "/portal")]
  else html_ (B_page "self-check status" [ScanStatus_value (sc_status s)]) 200 [].

Lemma own_subject_spec user normalized d f : current_subject user = Ok normalized ->
  own_subject normalized d f = true <-> owned user d f.
Proof using Type.
  intros Hn. unfold own_subject, owned. split.
  - destruct (subjects d !! f_subject_id f) as [s|]; [|done]. rewrite andb_true_iff, !bool_decide_eq_true.
    intros [? ?]. by exists normalized, s.
  - intros (n&s&Hn'&->&Hk&Hv). rewrite Hn in Hn'. injection Hn' as <-. by rewrite Hk, Hv, !bool_decide_true.
Qed.

Lemma cooldown_world store w : (cooldown_seconds store w).2 = w.
Proof using Type.
  unfold cooldown_seconds, mbind at 1. destruct (read store SELF_CHECK_COOLDOWN_SECONDS w) as [r w'] eqn:E.
  assert (w' = w) as ->.
  { revert E. unfold read, mbind, get_db, lift, mret. intros E. by repeat case_match; simplify_eq. }
  destruct r as [raw|e]; [|done]. unfold mbind, lift. destruct (match raw with Some _ => _ | None => _ end); [|done].
  by destruct (_ && _).
Qed.

Lemma self_remediate_inv po finding_id r user w resp w' :
  self_remediate po finding_id r user w = (Ok resp, w') ->
  exists f, findings (w_db w) !! finding_id = Some f /\ owned user (w_db w) f /\ ws_status resp = 200 /\
    ((is_Some (f_remediated_at f) /\ findings (w_db w') = findings (w_db w)) \/
     (f_remediated_at f = None /\ findings (w_db w') = <[f_id f :=
        set_f_remediation_note (Some (py "Marked fixed by the affected user")) (set_f_remediated_by (Some (u_id user))
          (set_f_remediated_at (Some (w_now w)) f))]> (findings (w_db w)))).
Proof using Type.
  unfold self_remediate, mbind at 1, lift at 1. destruct (current_subject user) as [normalized|e] eqn:En; [|done].
  unfold mbind at 1, get_db. destruct (findings (w_db w) !! finding_id) as [f|] eqn:Ef; [|done].
  destruct (own_subject normalized (w_db w) f) eqn:Eo; [|done]. apply (own_subject_spec user) in Eo; [|done].
  intros (f1&w1&E1&E)%mbind_inv. apply mbind_inv in E as (u&w2&E2&E). injection E as <- <-.
  apply audit_inv_db in E2. exists f. unfold or_404, try_except in E1.
  destruct (remediate_finding finding_id (u_id user) _ None w) as [[f2|e] w3] eqn:Er; [|by destruct (bool_decide _)].
  injection E1 as <- <-. unfold remediate_finding, locked_finding, mbind, get_db in Er. rewrite Ef in Er.
  unfold mret at 1 in Er. cbn iota beta in Er.
  destruct (f_remediated_at f) as [t|] eqn:Et.
  - injection Er as <- <-. split; [done|]. split; [done|]. split; [done|]. left. split; [by eexists|done].
  - unfold utc_now_m, put_finding, add_event_, modify_db, with_db, uuid4, mret, mbind in Er. cbn in Er.
    injection Er as <- <-. split; [done|]. split; [done|]. split; [done|]. right. split; [done|]. by rewrite E2.
Qed.
End PortalLemmas.

(** ** Properties *)

(** C22: The portal is one account's.  Whatever the request, every row that a user's dashboard shows is
    the allow-listed projection of a finding of the user's own normalised address, which carries the
    mask and no stored credential, identity or raw record; a finding that the user marks as fixed is such a
    finding, it is the only one that changes, and it is recorded as remediated by this user now; and the
    two pages that follow a scan show the status of a self-check that this user requested, and answer
    404 for every other scan as for none. *)
Theorem portal_is_own_account `{Unicode} `{Aead} `{Entropy} `{HeapOrderLaws} po user w :
  (forall rows can_check w', user_dashboard po user w = (Ok (rows, can_check), w') ->
     w' = w /\ forall row, row ∈ rows -> exists f source k, findings (w_db w) !! k = Some f /\ owned user (w_db w) f /\
       breach_sources (w_db w) !! f_source_id f = Some source /\ row = serialize_user_finding (projection (f, source)) /\
       row.*1 = [py "id"; py "source"; py "breach_date"; py "fields"; py "origin"; py "password_mask"; py "remediated";
                 py "re_leaked"; py "first_seen_at"; py "last_seen_at"; py "guidance"]) /\
  (forall finding_id r resp w', self_remediate po finding_id r user w = (Ok resp, w') ->
     exists f, findings (w_db w) !! finding_id = Some f /\ owned user (w_db w) f /\ ws_status resp = 200 /\
       ((is_Some (f_remediated_at f) /\ findings (w_db w') = findings (w_db w)) \/
        (f_remediated_at f = None /\ findings (w_db w') = <[f_id f :=
           set_f_remediation_note (Some (py "Marked fixed by the affected user")) (set_f_remediated_by (Some (u_id user))
             (set_f_remediated_at (Some (w_now w)) f))]> (findings (w_db w)))))  /\
  (forall scan_id, (exists s, own_scan user scan_id (w_db w) s /\
       self_scan_progress scan_id user w = (Ok (scan_page s), w) /\ self_scan_status scan_id user w = (Ok (scan_fragment s), w)) \/
     ((forall s, ~ own_scan user scan_id (w_db w) s) /\
      self_scan_progress scan_id user w = (Raise (HTTPException 404), w) /\
      self_scan_status scan_id user w = (Raise (HTTPException 404), w))).
Proof.
  split; [|split].
  - intros rows can_check w'. unfold user_dashboard, mbind at 1, lift at 1.
    destruct (current_subject user) as [normalized|e] eqn:En; [|done].
    unfold user_findings, mbind at 1, mbind at 1, get_db, mret at 1. unfold mbind at 1.
    destruct (cooldown_seconds (po_store po) w) as [[c|e] w1] eqn:Ec; [|done].
    pose proof (cooldown_world (po_store po) w) as Hw. rewrite Ec in Hw. cbn in Hw. subst w1.
    unfold mbind, clock, mret. intros [= <- <- <-]. split; [done|].
    intros row (p&->&(fs&->&Hin)%list_elem_of_fmap)%list_elem_of_fmap. destruct fs as [f source].
    apply elem_of_take in Hin as (i&Hin%list_elem_of_lookup_2&_). rewrite sort_by_perm in Hin.
    unfold findings_with_sources in Hin. rewrite list_elem_of_In, in_flat_map in Hin. destruct Hin as (f'&Hin&Hf).
    apply list_elem_of_In, elem_of_select in Hin as [Hown [k Hk]].
    destruct (breach_sources (w_db w) !! f_source_id f') as [s'|] eqn:Es; [|destruct Hf]. destruct Hf as [[= -> ->]|[]].
    exists f, source, k. split; [done|]. split; [by eapply own_subject_spec|]. done.
  - intros finding_id r resp w'. apply self_remediate_inv.
  - intros scan_id. unfold self_scan_progress, self_scan_status, owned_scan_or_404, mbind, get_db, own_scan.
    destruct (scans (w_db w) !! scan_id) as [s|]; [|right; split; [by intros s [? _]|by split]].
    destruct (self_scan (u_id user) s) eqn:Es; unfold self_scan, requested_by in Es.
    + left. exists s. bools. split; [by repeat split|by split].
    + right. split; [|by split]. intros x ([= <-]&Hu&Ht). by rewrite Hu, Ht, !bool_decide_true in Es.
Qed.

(** The analyst world with the subject of the finding, which is the user's own address. *)
Definition portal_world : World :=
  let d := set_subjects {[1 := mkSubject 1 Kind_EMAIL (py "ann@example.com") (py "ann@example.com") None None None]}
             (w_db analyst_world) in
  mkWorld d d 0 (10 ^ 15).
Definition dashboard_run : result (list (list (pystr * json)) * bool) * World :=
  @user_dashboard ascii_unicode tagged_aead plain_heap sample_portal analyst_user portal_world.

Lemma dashboard_run_ok : match dashboard_run.1 with Ok p => length p.1 = 1%nat | Raise _ => False end.
Proof. vm_compute. reflexivity. Qed.

Lemma portal_is_own_account_witness :
  exists rows can_check w' f, dashboard_run = (Ok (rows, can_check), w') /\ length rows = 1%nat /\
    @owned ascii_unicode analyst_user (w_db portal_world) f.
Proof.
  pose proof dashboard_run_ok as Hr. destruct dashboard_run as [x w'] eqn:E. cbn [fst] in Hr.
  destruct x as [[rows can]|e]; [|destruct Hr]. cbn [fst] in Hr. destruct rows as [|row rows]; [discriminate Hr|].
  destruct (proj1 (@portal_is_own_account ascii_unicode tagged_aead counting_entropy plain_heap
    (Build_HeapOrderLaws plain_heap (fun A l => reflexivity l)) sample_portal analyst_user portal_world) (row :: rows) can w' E)
    as [_ Hrows].
  destruct (Hrows row (list_elem_of_here _ _)) as (f&source&k&_&Ho&_).
  exists (row :: rows), can, w', f. split; [reflexivity|]. split; [exact Hr|exact Ho].
Defined.
