(* ===== verification/Interactive.v ===== *)
(** Interactive scans together (app/routers/analyst.py, app/routers/user.py, app/scan_runtime.py): how
    many one user has in progress, and how far apart the self-checks of one user are. *)
From S2P Require Import Prelude PyBase Encoding Hashes Json Models Store Config Aead Normalization.
From S2P Require Import PlatformSettings Remediation LeakCheck Scans Access Web SignIn Analyst Portal.

(** ** Lemmas: what a request to start a scan does to the table of scans *)

Section Requests.
Context `{Unicode} `{Aead} `{Entropy} `{HeapOrderLaws}.

(** Nothing was inserted, or a pending scan under a new identifier. *)
Definition no_scan (w w' : World) : Prop :=
  w_now w' = w_now w /\ scans (w_db w') = scans (w_db w) /\ w_committed w' = w_committed w.
Definition one_scan (user : uuid) (trigger : ScanTrigger) (w w' : World) : Prop :=
  exists scan, w_now w' = w_now w /\ scans (w_db w) !! sc_id scan = None /\
    scans (w_db w') = <[sc_id scan := scan]> (scans (w_db w)) /\
    sc_requested_by scan = Some user /\ sc_trigger scan = trigger /\ sc_status scan = Scan_PENDING /\
    sc_started_at scan = None /\ (w_committed w' = w_committed w \/ w_committed w' = w_db w').

Lemma no_scan_then {A} (c : M A) w r w1 : keeps scans c -> timeless c -> c w = (r, w1) -> no_scan w w1.
Proof using Type.
  intros Hk Ht E. pose proof (Hk w) as [Hs Hc]. pose proof (Ht w) as Hn. rewrite E in Hs, Hc, Hn. done.
Qed.
Lemma no_scan_trans w w1 w2 : no_scan w w1 -> no_scan w1 w2 -> no_scan w w2.
Proof using Type. intros (?&?&?) (?&?&?). split; [congruence|]. split; congruence. Qed.
Lemma one_scan_after user trigger w w1 w2 : no_scan w w1 -> one_scan user trigger w1 w2 -> one_scan user trigger w w2.
Proof using Type.
  intros (Hn&Hs&Hc) (scan&?&?&?&?&?&?&?&?). exists scan. rewrite <- Hs, <- Hn, <- Hc. auto 10.
Qed.

Lemma keeps_resolve normalized linked : keeps scans (resolve_subject normalized linked).
Proof using Type. unfold resolve_subject. frame. Qed.
Lemma timeless_resolve normalized linked : timeless (resolve_subject normalized linked).
Proof using Type. unfold resolve_subject. timeless. Qed.

Lemma read_many_same store keys w : (read_many store keys w).2 = w.
Proof using Type. destruct (read_many store keys w) as [r w'] eqn:E. by apply read_many_world in E as ->. Qed.
Lemma keeps_client store cached : keeps scans (configured_client store cached).
Proof using Type. unfold configured_client. apply keeps_bind; [intros w; by rewrite read_many_same|]. intros values. frame. Qed.
Lemma timeless_client store cached : timeless (configured_client store cached).
Proof using Type. unfold configured_client. apply timeless_bind; [intros w; by rewrite read_many_same|]. intros values. timeless. Qed.

Lemma add_scan_inv subject user trigger w x w' : add_scan subject user trigger w = (x, w') ->
  w_committed w' = w_committed w /\ match x with Ok _ => one_scan user trigger w w' | Raise _ => no_scan w w' end.
Proof using Type.
  unfold add_scan, insert_scan. unfold mbind at 1, uuid4. cbv zeta. set (scan := mkScan _ _ _ _ _ _ _ _ _ _ _ _).
  unfold mbind, get_db, lift. cbn [w_db w_committed w_draws w_now].
  match goal with |- context [insert_row ?a ?b ?c ?d] => destruct (insert_row a b c d) as [t|e] eqn:Ei end.
  - apply insert_row_inv in Ei as (_&Hnone&->). unfold modify_db, with_db, mret. intros [= <- <-]. split; [done|].
    exists scan. cbn. repeat (split; [done|]). by left.
  - intros [= <- <-]. done.
Qed.

Lemma timeless_audit po r action actor tt_ ti meta : timeless (audit po r action actor tt_ ti meta).
Proof using Type. unfold audit, audit_event. timeless. Qed.

(** The end of both routes: the row, its audit event, the commit and the answer. *)
Lemma start_inv po r subject user trigger action meta (answer : Scan -> WebResponse * option BackgroundScan) w x w' :
  (let! scan <- add_scan subject user trigger;
   do! audit po r action (Some user) (Some (py "scan")) (Some (uuid_str (sc_id scan))) meta;
   do! commit;
   mret (answer scan)) w = (x, w') -> no_scan w w' \/ one_scan user trigger w w'.
Proof using Type.
  unfold mbind at 1. destruct (add_scan subject user trigger w) as [[scan|e] w1] eqn:E1; apply add_scan_inv in E1 as [Hcm E1];
    [|intros [= <- <-]; by left].
  unfold mbind, commit. intros E. right.
  pose proof (keeps_audit scans po r action (Some user) (Some (py "scan")) (Some (uuid_str (sc_id scan))) meta
    (fun _ _ => eq_refl) w1) as [Hs Hc].
  pose proof (timeless_audit po r action (Some user) (Some (py "scan")) (Some (uuid_str (sc_id scan))) meta w1) as Hn.
  destruct (audit _ _ _ _ _ _ _ w1) as [[u|e] w2]; cbn in Hs, Hc, Hn; injection E as <- <-;
    destruct E1 as (s&?&?&?&?&?&?&?&_); exists s; cbn; rewrite ?Hn, ?Hs, ?Hc;
    repeat (split; [done|]); first [by right|by left].
Qed.

(** What the guard of a self-check has seen. *)
Definition self_check_allowed (po : PortalState) (user : uuid) (w : World) : Prop :=
  exists cooldown, (cooldown_seconds (po_store po) w).1 = Ok cooldown /\
    active_self_scan user (w_db w) = None /\
    cooldown_remaining (latest_self_scan user (w_db w)) cooldown (w_now w) <= 0.

Lemma self_check_inv po cached r user w x w' : self_check po cached r user w = (x, w') ->
  no_scan w w' \/ (self_check_allowed po (u_id user) w /\ one_scan (u_id user) Trigger_SELF w w').
Proof using Type.
  unfold self_check. unfold mbind at 1, lift at 1. destruct (current_subject user) as [normalized|e]; [|intros [= <- <-]; by left].
  unfold mbind at 1, get_db. unfold mbind at 1. destruct (cooldown_seconds (po_store po) w) as [rc w0] eqn:Ec.
  pose proof (cooldown_world (po_store po) w) as Hw. rewrite Ec in Hw. cbn in Hw. subst w0.
  destruct rc as [cooldown|e]; [|intros [= <- <-]; by left].
  unfold mbind at 1, clock. destruct (active_self_scan (u_id user) (w_db w)) as [s|] eqn:Ea; [intros [= <- <-]; by left|].
  destruct (0 <? _) eqn:Er; [intros [= <- <-]; by left|]. apply Z.ltb_ge in Er.
  assert (Hallowed : self_check_allowed po (u_id user) w) by (exists cooldown; by rewrite Ec).
  unfold mbind at 1. destruct (resolve_subject normalized (Some (u_id user)) w) as [rs w1] eqn:Es.
  apply (no_scan_then _ _ _ _ (keeps_resolve _ _) (timeless_resolve _ _)) in Es.
  destruct rs as [subject|e]; [|intros [= <- <-]; by left].
  unfold mbind at 1. destruct (try_except _ _ _ w1) as [rt w2] eqn:Et.
  apply no_scan_then in Et; [|apply keeps_try; [apply keeps_bind; [apply keeps_client|done]|intros e; frame]|
    apply timeless_try; [apply timeless_bind; [apply timeless_client|done]|intros e; timeless; apply timeless_audit]].
  pose proof (no_scan_trans _ _ _ Es Et) as Hn.
  destruct rt as [[resp|client]|e]; [intros [= <- <-]; by left| |intros [= <- <-]; by left].
  intros E. apply (start_inv po r (su_id subject) (u_id user)) in E as [E|E].
  - left. by eapply no_scan_trans.
  - right. split; [done|]. by eapply one_scan_after.
Qed.

Lemma analyst_scan_inv po cached kind r user w x w' : run_analyst_scan po cached kind r user w = (x, w') ->
  no_scan w w' \/
  ((forall k s, scans (w_db w) !! k = Some s -> sc_requested_by s = Some (u_id user) -> in_progress s = false) /\
   one_scan (u_id user) Trigger_MANUAL w w').
Proof using Type.
  unfold run_analyst_scan. unfold mbind at 1, lift at 1. destruct (query_from_form r) as [query|e]; [|intros [= <- <-]; by left].
  destruct (normalize_subject kind query) as [normalized|e].
  2: { intros E. assert (w' = w) as -> by (destruct e; unfold mret, raise in E; by injection E). by left. }
  unfold mbind at 1, get_db. destruct (existsb _ _) eqn:Ea; [intros [= <- <-]; by left|].
  assert (Hnone : forall k s, scans (w_db w) !! k = Some s -> sc_requested_by s = Some (u_id user) -> in_progress s = false).
  { intros k s Hk%elem_of_map_to_list Hu. destruct (in_progress s) eqn:Ep; [|done].
    assert (Ht : existsb (fun s => requested_by (u_id user) s && in_progress s) (map_to_list (scans (w_db w))).*2 = true).
    { apply existsb_exists. exists s. split.
      - apply list_elem_of_In, list_elem_of_fmap. by exists (k, s).
      - unfold requested_by. by rewrite Hu, Ep, bool_decide_true. }
    congruence. }
  unfold mbind at 1. destruct (resolve_subject normalized None w) as [rs w1] eqn:Es.
  apply (no_scan_then _ _ _ _ (keeps_resolve _ _) (timeless_resolve _ _)) in Es.
  destruct rs as [subject|e]; [|intros [= <- <-]; by left].
  unfold mbind at 1. destruct (try_except _ _ _ w1) as [rt w2] eqn:Et.
  apply no_scan_then in Et; [|apply keeps_try; [apply keeps_bind; [apply keeps_client|done]|intros e; frame]|
    apply timeless_try; [apply timeless_bind; [apply timeless_client|done]|intros e; timeless; apply timeless_audit]].
  pose proof (no_scan_trans _ _ _ Es Et) as Hn.
  destruct rt as [[resp|client]|e]; [intros [= <- <-]; by left| |intros [= <- <-]; by left].
  intros E. apply (start_inv po r (su_id subject) (u_id user)) in E as [E|E].
  - left. by eapply no_scan_trans.
  - right. split; [done|]. by eapply one_scan_after.
Qed.

(** ** Lemmas: pacing *)

Lemma newest_total (a b : Scan) : desc_nulls_first Z.leb (sc_started_at a) (sc_started_at b) = true \/
  desc_nulls_first Z.leb (sc_started_at b) (sc_started_at a) = true.
Proof using Type. destruct (sc_started_at a), (sc_started_at b); cbn; lia. Qed.
Lemma newest_trans (a b c : Scan) : desc_nulls_first Z.leb (sc_started_at a) (sc_started_at b) = true ->
  desc_nulls_first Z.leb (sc_started_at b) (sc_started_at c) = true ->
  desc_nulls_first Z.leb (sc_started_at a) (sc_started_at c) = true.
Proof using Type. destruct (sc_started_at a), (sc_started_at b), (sc_started_at c); cbn; try done; lia. Qed.

(** An allowed self-check comes [m] seconds after every earlier start, with none in progress. *)
Lemma allowed_spaced po user m w :
  self_check_allowed po user w -> (forall c, (cooldown_seconds (po_store po) w).1 = Ok c -> m <= c) -> 0 < m ->
  forall k s, scans (w_db w) !! k = Some s -> sc_requested_by s = Some user -> sc_trigger s = Trigger_SELF ->
    in_progress s = false /\ forall b, sc_started_at s = Some b -> b + m * second <= w_now w.
Proof using Type*.
  intros (c&Hc&Hactive&Hrem) Hm Hpos k s Hk Hu Ht. apply Hm in Hc.
  assert (Hself : self_scan user s = true) by (unfold self_scan, requested_by; by rewrite Hu, Ht, !bool_decide_true).
  split.
  - unfold active_self_scan in Hactive. destruct (select _ (scans (w_db w))) as [|x l] eqn:Es; [|done].
    pose proof (proj1 (select_nil _ _) Es k s Hk) as Hp. cbn in Hp. by rewrite Hself in Hp.
  - intros b Hb. unfold latest_self_scan in Hrem. destruct (sort_by _ _) as [|l rest] eqn:Es.
    + exfalso. assert (Hin : s ∈ @nil Scan); [|by apply elem_of_nil in Hin]. rewrite <- Es, sort_by_perm.
      apply elem_of_select. split; [|by exists k]. by rewrite Hself, Hb, bool_decide_true.
    + apply sort_by_head in Es as [Hl Hmax]; [|apply newest_total|apply newest_trans].
      assert (Hs : s ∈ select (fun s => self_scan user s && bool_decide (is_Some (sc_started_at s))) (scans (w_db w))).
      { apply elem_of_select. split; [|by exists k]. by rewrite Hself, Hb, bool_decide_true. }
      rewrite Forall_forall in Hmax. specialize (Hmax s Hs). apply elem_of_select in Hl as [Hl _].
      apply andb_true_iff in Hl as [_ Hl]. apply bool_decide_eq_true in Hl as [a Ha].
      cbn [head] in Hrem. unfold cooldown_remaining in Hrem. rewrite Ha in Hrem, Hmax. rewrite Hb in Hmax. cbn in Hmax.
      apply Z.leb_le in Hmax. unfold second in *.
      assert (Hq : c <= Z.quot (w_now w - a) 1000000) by lia.
      assert (Hge : c * 1000000 <= w_now w - a); [|lia].
      pose proof (Z.quot_rem' (w_now w - a) 1000000). destruct (Z_le_gt_dec 0 (w_now w - a)) as [Hs0|Hs0].
      * pose proof (Z.rem_bound_pos (w_now w - a) 1000000 Hs0 ltac:(lia)). lia.
      * pose proof (Z.rem_bound_abs (w_now w - a) 1000000 ltac:(lia)). lia.
Qed.

(** The scans that one user requested: under their own identifiers; at most one of a kind in
    progress; self-checks started [m] seconds apart, and a pending one [m] seconds after the others. *)
Definition paced (m : Z) (now : instant) (d : Db) : Prop :=
  forall user,
  (forall k s, scans d !! k = Some s -> sc_requested_by s = Some user ->
     sc_id s = k /\ (sc_status s = Scan_PENDING -> sc_started_at s = None)) /\
  (forall k k' s s', scans d !! k = Some s -> scans d !! k' = Some s' ->
     sc_requested_by s = Some user -> sc_requested_by s' = Some user -> sc_trigger s = sc_trigger s' ->
     in_progress s = true -> in_progress s' = true -> k = k') /\
  (forall k k' s s', scans d !! k = Some s -> scans d !! k' = Some s' -> k <> k' ->
     sc_requested_by s = Some user -> sc_requested_by s' = Some user ->
     sc_trigger s = Trigger_SELF -> sc_trigger s' = Trigger_SELF ->
     (forall a b, sc_started_at s = Some a -> sc_started_at s' = Some b ->
        a + m * second <= b \/ b + m * second <= a) /\
     (forall b, sc_status s = Scan_PENDING -> sc_started_at s' = Some b -> b + m * second <= now)).

Lemma paced_later m now now' d d' :
  now <= now' -> (forall k s, is_Some (sc_requested_by s) -> scans d' !! k = Some s -> scans d !! k = Some s) ->
  paced m now d -> paced m now' d'.
Proof using Type.
  intros Hn Hrows Hp user. destruct (Hp user) as (H1'&H2'&H3'). split; [|split].
  - intros k s Hk Hu. apply H1'; [|done]. apply Hrows; [|done]. by rewrite Hu.
  - intros k k' s s' Hk Hk' Hu Hu'. apply H2'; try done; apply Hrows; try done; by rewrite ?Hu, ?Hu'.
  - intros k k' s s' Hk Hk' Hne Hu Hu' Ht Ht'.
    destruct (H3' k k' s s') as [Ha Hb]; try done; [apply Hrows; try done; by rewrite Hu|apply Hrows; try done; by rewrite Hu'|].
    split; [done|]. intros b Hs Hb'. specialize (Hb b Hs Hb'). lia.
Qed.

(** A pending scan is inserted that no other of its kind is in progress beside. *)
Lemma paced_insert m now d d' scan :
  paced m now d -> scans d !! sc_id scan = None -> scans d' = <[sc_id scan := scan]> (scans d) ->
  sc_status scan = Scan_PENDING -> sc_started_at scan = None ->
  (forall k s, scans d !! k = Some s -> sc_requested_by s = sc_requested_by scan -> sc_trigger s = sc_trigger scan ->
     in_progress s = false /\
     (sc_trigger scan = Trigger_SELF -> forall b, sc_started_at s = Some b -> b + m * second <= now)) ->
  paced m now d'.
Proof using Type.
  intros Hp Hnew Hd Hst Hsa Hothers user. destruct (Hp user) as (H1'&H2'&H3'). rewrite Hd. split; [|split].
  - intros k s [[<- <-]|[_ Hk]]%lookup_insert_Some Hu; [done|by apply H1'].
  - intros k k' s s' [[<- <-]|[Hne Hk]]%lookup_insert_Some [[<- <-]|[Hne' Hk']]%lookup_insert_Some Hu Hu' Ht Hi Hi'.
    + done.
    + destruct (Hothers k' s') as [Hf _]; [done|congruence|done|congruence].
    + destruct (Hothers k s) as [Hf _]; [done|congruence|done|congruence].
    + by eapply H2'.
  - intros k k' s s' [[<- <-]|[Hne Hk]]%lookup_insert_Some [[<- <-]|[Hne' Hk']]%lookup_insert_Some Hkk Hu Hu' Ht Ht'.
    + done.
    + destruct (Hothers k' s') as [_ Hf]; [done|congruence|congruence|]. split; [by rewrite Hsa|]. auto.
    + destruct (Hothers k s) as [_ Hf]; [done|congruence|congruence|]. rewrite Hsa. split; [by intros|by intros].
    + by apply (H3' k k' s s').
Qed.

(** A scan changes its state: it starts now, or it stops being in progress. *)
Lemma paced_alter m now d d' id f :
  paced m now d -> 0 < m -> scans d' = alter f id (scans d) ->
  (forall s, scans d !! id = Some s -> sc_id (f s) = sc_id s /\ sc_requested_by (f s) = sc_requested_by s /\
     sc_trigger (f s) = sc_trigger s /\ (in_progress (f s) = true -> in_progress s = true) /\
     sc_status (f s) <> Scan_PENDING /\
     (sc_started_at (f s) = sc_started_at s \/ (sc_status s = Scan_PENDING /\ sc_started_at (f s) = Some now))) ->
  paced m now d'.
Proof using Type.
  intros Hp Hm Hd Hf user. destruct (Hp user) as (H1'&H2'&H3').
  assert (Hrow : forall k s', scans d' !! k = Some s' -> exists s, scans d !! k = Some s /\
            sc_id s' = sc_id s /\ sc_requested_by s' = sc_requested_by s /\ sc_trigger s' = sc_trigger s /\
            (in_progress s' = true -> in_progress s = true) /\
            (sc_status s' = Scan_PENDING -> s' = s /\ k <> id) /\
            (sc_started_at s' = sc_started_at s \/ (k = id /\ sc_status s = Scan_PENDING /\ sc_started_at s' = Some now))).
  { intros k s'. rewrite Hd, lookup_alter. destruct (decide (id = k)) as [<-|Hne].
    - destruct (scans d !! id) as [s|] eqn:Es; [|done]. intros [= <-]. destruct (Hf s eq_refl) as (?&?&?&?&?&Hst).
      exists s. do 5 (split; [done|]). split; [done|]. destruct Hst as [?|[? ?]]; auto.
    - intros Hs. exists s'. repeat split; auto. }
  split; [|split].
  - intros k s' Hk Hu. destruct (Hrow k s' Hk) as (s&Hs&Hid&Hr&_&_&Hpend&_).
    destruct (H1' k s Hs) as [Hi Hn]; [congruence|]. split; [congruence|].
    intros Hp'. destruct (Hpend Hp') as [-> _]. by apply Hn.
  - intros k k' s s' Hk Hk' Hu Hu' Ht Hi Hi'. destruct (Hrow _ _ Hk) as (x&Hx&_&Hr&Htr&Hpr&_).
    destruct (Hrow _ _ Hk') as (x'&Hx'&_&Hr'&Htr'&Hpr'&_). apply (H2' k k' x x'); try done; try congruence; auto.
  - intros k k' s s' Hk Hk' Hne Hu Hu' Ht Ht'. destruct (Hrow _ _ Hk) as (x&Hx&_&Hr&Htr&_&Hpend&Hst).
    destruct (Hrow _ _ Hk') as (x'&Hx'&_&Hr'&Htr'&Hpr'&Hpend'&Hst').
    destruct (H3' k k' x x') as [Hab Hpb]; try done; try congruence.
    destruct (H3' k' k x' x) as [Hba Hpa]; try done; try congruence. split.
    + intros a b Ha Hb. destruct Hst as [E|(Ek&Ep&E)], Hst' as [E'|(Ek'&Ep'&E')]; rewrite Ha in E; rewrite Hb in E'.
      * by apply Hab.
      * injection E' as <-. left. by apply Hpa.
      * injection E as <-. right. by apply Hpb.
      * congruence.
    + intros b Hs Hb. destruct (Hpend Hs) as [-> Hkid]. destruct Hst' as [E'|(Ek'&Ep'&E')].
      * apply Hpb; [done|congruence].
      * exfalso. apply Hkid. rewrite <- Ek'. apply (H2' k k' x x'); try done; try congruence;
          unfold in_progress; apply bool_decide_eq_true; by left.
Qed.

(** Any request to start a scan, any scan that starts or ends in the background, commits and
    roll-backs, and anything else, as long as it leaves the requested scans alone and time goes on. *)
Inductive scan_step (po : PortalState) (m : Z) (w : World) : World -> Prop :=
| step_self_check cached r user : (forall c, (cooldown_seconds (po_store po) w).1 = Ok c -> m <= c) ->
    scan_step po m w (self_check po cached r user w).2
| step_analyst cached kind r user : scan_step po m w (run_analyst_scan po cached kind r user w).2
| step_begin scan_id s : scans (w_db w) !! scan_id = Some s -> sc_status s = Scan_PENDING ->
    scan_step po m w (modify_scan scan_id (started (w_now w)) w).2
| step_fail scan_id e : scan_step po m w (modify_scan scan_id (failed (w_now w) e) w).2
| step_succeed scan_id result summary :
    scan_step po m w (modify_scan scan_id (completed result summary (w_now w)) w).2
| step_commit : scan_step po m w (commit w).2
| step_rollback : scan_step po m w (rollback w).2
| step_elsewhere w' : w_now w <= w_now w' ->
    (forall k s, is_Some (sc_requested_by s) -> scans (w_db w') !! k = Some s -> scans (w_db w) !! k = Some s) ->
    w_committed w' = w_committed w -> scan_step po m w w'.

Definition paced_world (m : Z) (w : World) : Prop := paced m (w_now w) (w_db w) /\ paced m (w_now w) (w_committed w).

Lemma one_scan_paced m user trigger w w' :
  paced_world m w -> one_scan user trigger w w' ->
  (forall k s, scans (w_db w) !! k = Some s -> sc_requested_by s = Some user -> sc_trigger s = trigger ->
     in_progress s = false /\
     (trigger = Trigger_SELF -> forall b, sc_started_at s = Some b -> b + m * second <= w_now w)) ->
  paced_world m w'.
Proof using Type.
  intros [Hd Hc] (scan&Hn&Hnew&Hins&Hu&Ht&Hst&Hsa&Hcm) Hothers. unfold paced_world. rewrite Hn.
  assert (Hp : paced m (w_now w) (w_db w')).
  { apply (paced_insert m (w_now w) (w_db w) (w_db w') scan); try done. intros k s Hk Hr Htr. rewrite Hu in Hr. rewrite Ht in Htr |- *. by apply (Hothers k s). }
  split; [done|]. by destruct Hcm as [-> | ->].
Qed.

Lemma no_scan_paced m w w' : paced_world m w -> no_scan w w' -> paced_world m w'.
Proof using Type.
  intros [Hd Hc] (Hn&Hs&Hcm). unfold paced_world. rewrite Hn, Hcm. split; [|done].
  eapply paced_later; [reflexivity| |exact Hd]. intros k s _. by rewrite Hs.
Qed.

Lemma alter_paced m w scan_id f : paced_world m w -> 0 < m ->
  (forall s, scans (w_db w) !! scan_id = Some s -> sc_id (f s) = sc_id s /\ sc_requested_by (f s) = sc_requested_by s /\
     sc_trigger (f s) = sc_trigger s /\ (in_progress (f s) = true -> in_progress s = true) /\
     sc_status (f s) <> Scan_PENDING /\
     (sc_started_at (f s) = sc_started_at s \/ (sc_status s = Scan_PENDING /\ sc_started_at (f s) = Some (w_now w)))) ->
  paced_world m (modify_scan scan_id f w).2.
Proof using Type.
  intros [Hd Hc] Hm Hf. split; [|done]. eapply paced_alter; [exact Hd|done|reflexivity|done].
Qed.

Lemma step_paced po m w w' : 0 < m -> scan_step po m w w' -> paced_world m w -> paced_world m w'.
Proof using Type*.
  intros Hm Hst Hp. destruct Hst as [cached r user Hcool|cached kind r user|scan_id s Hs Hst|scan_id e|scan_id result summary| | |w' Hn Hrows Hcm].
  - destruct (self_check po cached r user w) as [x w'] eqn:E. apply self_check_inv in E as [E|[Hall E]]; [by eapply no_scan_paced|].
    eapply one_scan_paced; [done|exact E|]. intros k s Hk Hu Ht.
    destruct (allowed_spaced po _ m w Hall Hcool Hm k s Hk Hu Ht) as [Ha Hb]. auto.
  - destruct (run_analyst_scan po cached kind r user w) as [x w'] eqn:E.
    apply analyst_scan_inv in E as [E|[Hnone E]]; [by eapply no_scan_paced|].
    eapply one_scan_paced; [done|exact E|]. intros k s Hk Hu Ht. split; [by eapply Hnone|done].
  - apply alter_paced; [done|done|]. intros s' Hs'. rewrite Hs in Hs'. injection Hs' as <-.
    do 3 (split; [done|]). split; [|split; [done|by right]]. intros _. unfold in_progress. apply bool_decide_eq_true. by left.
  - apply alter_paced; [done|done|]. intros s' Hs'. do 3 (split; [done|]). split; [done|]. split; [done|by left].
  - apply alter_paced; [done|done|]. intros s' Hs'. do 3 (split; [done|]). split; [done|]. split; [done|by left].
  - by destruct Hp.
  - by destruct Hp.
  - destruct Hp as [Hd Hc]. split; [by eapply paced_later|]. rewrite Hcm. by eapply paced_later.
Qed.

End Requests.

(** ** Properties *)

(** C21: Self-checks are paced, and a user has one scan of a kind in progress.  Let every cooldown that
    is read be at least [m] seconds (the guard admits none below 60). Then from no scans on, however
    requests for self-checks and analyst scans, failures of any of them, starts and ends of background
    scans, commits, roll-backs and everything else that leaves requested scans alone interleave, two
    scans of one trigger that one user requested are never in progress together, and the self-checks
    of one user start at least [m] seconds apart. *)
Theorem interactive_scans_paced `{Unicode} `{Aead} `{Entropy} `{HeapOrderLaws} po m w w' :
  0 < m -> scans (w_db w) = ∅ -> scans (w_committed w) = ∅ -> rtc (scan_step po m) w w' ->
  forall k k' s s' user, scans (w_db w') !! k = Some s -> scans (w_db w') !! k' = Some s' -> k <> k' ->
    sc_requested_by s = Some user -> sc_requested_by s' = Some user -> sc_trigger s = sc_trigger s' ->
    (in_progress s = true -> in_progress s' = true -> False) /\
    (sc_trigger s = Trigger_SELF -> forall a b, sc_started_at s = Some a -> sc_started_at s' = Some b ->
       a + m * second <= b \/ b + m * second <= a).
Proof.
  intros Hm Hd Hc Hst.
  assert (Hp : paced_world m w').
  { assert (H0' : paced_world m w).
    { split; intros u; [rewrite Hd|rewrite Hc]; split; [|split| |split]; intros *; by rewrite lookup_empty. }
    clear Hd Hc. induction Hst as [|x y z Hxy Hyz IH]; [done|]. apply IH. by eapply step_paced. }
  intros k k' s s' user Hk Hk' Hne Hu Hu' Ht. destruct (proj1 Hp user) as (_&H2'&H3'). split.
  - intros Hi Hi'. apply Hne. by eapply H2'.
  - intros Hself. apply (H3' k k' s s'); try done. by rewrite <- Ht.
Qed.

(** A background scan that never ran, because the process ended first, keeps its row pending; at
    whatever time the user asks again, the answer is that a check is in progress. *)
Theorem lost_scan_blocks_its_user `{Unicode} `{Aead} `{Entropy} `{HeapOrderLaws} po cached r user k s w response task w' :
  scans (w_db w) !! k = Some s -> sc_requested_by s = Some (u_id user) -> in_progress s = true ->
  (sc_trigger s = Trigger_SELF -> self_check po cached r user w = (Ok (response, task), w') ->
     ws_status response = 409 /\ task = None) /\
  (forall kind, run_analyst_scan po cached kind r user w = (Ok (response, task), w') ->
     ws_status response ∈ [409; 422] /\ task = None).
Proof.
  intros Hk Hu Hp. split.
  - intros Ht. unfold self_check, mbind at 1, lift at 1. destruct (current_subject user) as [normalized|e]; [|done].
    unfold mbind at 1, get_db. unfold mbind at 1. destruct (cooldown_seconds (po_store po) w) as [[c|e] w0] eqn:Ec; [|done].
    unfold mbind at 1, clock. destruct (active_self_scan (u_id user) (w_db w)) as [x|] eqn:Ea; [by intros [= <- <- <-]|].
    unfold active_self_scan in Ea. destruct (select _ (scans (w_db w))) as [|x l] eqn:Es; [|done].
    pose proof (proj1 (select_nil _ _) Es k s Hk) as Hn. cbn in Hn. unfold self_scan, requested_by in Hn.
    by rewrite Hu, Ht, Hp, !bool_decide_true in Hn.
  - intros kind. unfold run_analyst_scan, mbind at 1, lift at 1. destruct (query_from_form r) as [query|e]; [|done].
    destruct (normalize_subject kind query) as [normalized|e].
    2: { destruct e; try done. intros [= <- <- <-]. split; [set_solver|done]. }
    unfold mbind at 1, get_db. destruct (existsb _ _) eqn:Ea; [intros [= <- <- <-]; split; [set_solver|done]|].
    exfalso. assert (Ht : existsb (fun s => requested_by (u_id user) s && in_progress s) (map_to_list (scans (w_db w))).*2 = true).
    { apply existsb_exists. exists s. split.
      - apply list_elem_of_In, list_elem_of_fmap. exists (k, s). split; [done|by apply elem_of_map_to_list].
      - unfold requested_by. by rewrite Hu, Hp, bool_decide_true. }
    congruence.
Qed.

(** A configured hub with one user, who checks, and checks again two days later. *)
Definition checks_start : World :=
  let d := set_users {[7 := analyst_user]} empty_db in
  (commit (@write_many tagged_aead counting_entropy (po_store sample_portal) [(LEAKCHECK_API_KEY, Some (py "key"))] 7
    (mkWorld d d 0 (10 ^ 15))).2).2.
Definition check_now (w : World) : World :=
  (@self_check ascii_unicode tagged_aead counting_entropy plain_heap sample_portal None callback_request analyst_user w).2.
Definition first_scan_id : uuid := 2.
Definition checks_1 : World := check_now checks_start.
Definition checks_2 : World := (modify_scan first_scan_id (started (w_now checks_1)) checks_1).2.
Definition checks_3 : World := (modify_scan first_scan_id (failed (w_now checks_2) LeakCheckUnavailable) checks_2).2.
Definition checks_4 : World :=
  mkWorld (w_db checks_3) (w_committed checks_3) (w_draws checks_3) (w_now checks_3 + 2 * 86400 * second).
Definition checks_5 : World := check_now checks_4.
Definition second_scan_id : uuid := 5.
Definition checks_6 : World := (modify_scan second_scan_id (started (w_now checks_5)) checks_5).2.

(** The row of a scan, by evaluation. *)
Definition pending_at (w : World) (id : uuid) : bool :=
  match scans (w_db w) !! id with Some s => bool_decide (sc_status s = Scan_PENDING) | None => false end.
Lemma pending_row w id : pending_at w id = true -> exists s, scans (w_db w) !! id = Some s /\ sc_status s = Scan_PENDING.
Proof. unfold pending_at. destruct (scans (w_db w) !! id) as [s|]; [|done]. intros E. exists s. by apply bool_decide_eq_true in E. Qed.

Lemma cooldown_at_least store w :
  forall c, (@cooldown_seconds ascii_unicode tagged_aead store w).1 = Ok c -> 60 <= c.
Proof.
  intros c. unfold cooldown_seconds, mbind. destruct (read _ _ w) as [[raw|e] w1]; [|done]. unfold lift.
  destruct (match raw with Some _ => _ | None => _ end) as [v|e]; [|done].
  destruct (60 <=? v) eqn:E; [|done]. cbn [andb]. destruct (v <=? _); [|done]. unfold mret. intros [= <-]. by apply Z.leb_le.
Qed.

Lemma step_wait `{Unicode} `{Aead} `{Entropy} `{HeapOrder} po m w d : 0 <= d ->
  scan_step po m w (mkWorld (w_db w) (w_committed w) (w_draws w) (w_now w + d)).
Proof. intros Hd. apply step_elsewhere; [cbn; lia|done|done]. Qed.

Lemma checks_steps : rtc (@scan_step ascii_unicode tagged_aead counting_entropy plain_heap sample_portal 60) checks_start checks_6.
Proof.
  eapply rtc_l; [exact (step_self_check sample_portal 60 checks_start None callback_request analyst_user (cooldown_at_least _ _))|].
  destruct (pending_row checks_1 first_scan_id ltac:(vm_compute; reflexivity)) as (s&Hs&Hp).
  eapply rtc_l; [exact (step_begin sample_portal 60 checks_1 first_scan_id s Hs Hp)|].
  eapply rtc_l; [exact (step_fail sample_portal 60 checks_2 first_scan_id LeakCheckUnavailable)|].
  eapply rtc_l; [exact (@step_wait ascii_unicode tagged_aead counting_entropy plain_heap sample_portal 60 checks_3 (2 * 86400 * second) ltac:(vm_compute; discriminate))|].
  eapply rtc_l; [exact (step_self_check sample_portal 60 checks_4 None callback_request analyst_user (cooldown_at_least _ _))|].
  destruct (pending_row checks_5 second_scan_id ltac:(vm_compute; reflexivity)) as (s'&Hs'&Hp').
  eapply rtc_l; [exact (step_begin sample_portal 60 checks_5 second_scan_id s' Hs' Hp')|].
  apply rtc_refl.
Qed.

(** Two self-checks of the user, started at these instants. *)
Definition self_started (w : World) (id : uuid) (at_ : instant) : bool :=
  match scans (w_db w) !! id with
  | Some s => bool_decide (sc_requested_by s = Some 7) && bool_decide (sc_trigger s = Trigger_SELF)
              && bool_decide (sc_started_at s = Some at_)
  | None => false
  end.

Lemma self_started_row w id at_ : self_started w id at_ = true ->
  exists s, scans (w_db w) !! id = Some s /\ sc_requested_by s = Some 7 /\ sc_trigger s = Trigger_SELF /\ sc_started_at s = Some at_.
Proof.
  unfold self_started. destruct (scans (w_db w) !! id) as [s|]; [|done]. rewrite !andb_true_iff, !bool_decide_eq_true.
  intros [[? ?] ?]. by exists s.
Qed.

Lemma interactive_scans_paced_witness :
  10 ^ 15 + 60 * second <= 10 ^ 15 + 2 * 86400 * second \/ 10 ^ 15 + 2 * 86400 * second + 60 * second <= 10 ^ 15.
Proof.
  destruct (self_started_row checks_6 first_scan_id (10 ^ 15) ltac:(vm_compute; reflexivity)) as (s&Hs&Hu&Ht&Ha).
  destruct (self_started_row checks_6 second_scan_id (10 ^ 15 + 2 * 86400 * second) ltac:(vm_compute; reflexivity))
    as (s'&Hs'&Hu'&Ht'&Hb).
  assert (He : scans (w_db checks_start) = ∅) by (vm_compute; reflexivity).
  assert (Hc : scans (w_committed checks_start) = ∅) by (vm_compute; reflexivity).
  refine (proj2 (@interactive_scans_paced ascii_unicode tagged_aead counting_entropy plain_heap
    (Build_HeapOrderLaws plain_heap (fun A l => reflexivity l)) sample_portal 60 checks_start checks_6 _ He Hc checks_steps
    first_scan_id second_scan_id s s' 7 Hs Hs' _ Hu Hu' _) Ht _ _ Ha Hb); [lia|discriminate|congruence].
Defined.
