(* ===== verification/Watchlist.v ===== *)
(** The watchlist routes (app/routers/watchlist.py): entries for users and subjects, their alert
    channels, and the form every small page of the analysts shares. *)
From S2P Require Import Prelude PyBase Encoding Hashes Json Models Store Config Normalization Remediation Notifications Alerts Session Access LocalAuth Web SignIn Analyst.

(** ** The form of a small page *)

Definition MAX_FORM : Z := 8 * 1024.

(** [_form(request)]: 413 above the limit, 422 for octets that are not UTF-8, otherwise the fields in
    order; the first value of a name counts. *)
Definition read_form (limit : Z) (r : WebRequest) : result (list (pystr * pystr)) :=
  if limit <? Z.of_nat (length (wr_body r)) then Raise (HTTPException 413)
  else
    match utf8_decode (wr_body r) with
    | Raise UnicodeDecodeError => Raise (HTTPException 422)
    | Raise e => Raise e
    | Ok text => parse_qsl true false None text
    end.
Definition has_field (name : string) (form : list (pystr * pystr)) : bool :=
  bool_decide (is_Some (field_first name form)).
Definition form_get (name : string) (default_ : pystr) (form : list (pystr * pystr)) : pystr :=
  default default_ (field_first name form).

(** The schedule and batch pages answer [HTMLResponse(body, headers={"Cache-Control": "no-store"})]. *)
Definition see_other (location : string) : WebResponse := redirect (py location) [].

(** ** Channels *)

Inductive Channel : Type := alert_soc | alert_user | alert_wazuh | alert_iris | enabled.
#[export] Instance Channel_eq_dec : EqDecision Channel.
Proof. solve_decision. Defined.
Definition Channel_name (c : Channel) : pystr :=
  match c with
  | alert_soc => py "alert_soc" | alert_user => py "alert_user" | alert_wazuh => py "alert_wazuh"
  | alert_iris => py "alert_iris" | enabled => py "enabled"
  end.
Definition CHANNELS : list Channel := [alert_soc; alert_user; alert_wazuh; alert_iris; enabled].
Definition channel_named (name : pystr) : option Channel :=
  List.find (fun c => bool_decide (Channel_name c = name)) CHANNELS.
(** [getattr(entry, channel)] and [setattr(entry, channel, value)] *)
Definition get_channel (c : Channel) (e : WatchlistEntry) : bool :=
  match c with
  | alert_soc => wl_alert_soc e | alert_user => wl_alert_user e | alert_wazuh => wl_alert_wazuh e
  | alert_iris => wl_alert_iris e | enabled => wl_enabled e
  end.
Definition set_channel (c : Channel) (v : bool) (e : WatchlistEntry) : WatchlistEntry :=
  match c with
  | alert_soc => set_wl_alert_soc v e | alert_user => set_wl_alert_user v e | alert_wazuh => set_wl_alert_wazuh v e
  | alert_iris => set_wl_alert_iris v e | enabled => set_wl_enabled v e
  end.

Record WatchlistView := mkWatchlistView { wv_entry : WatchlistEntry; wv_target_label : pystr }.

(** ** Routes *)

Section Watchlist.
Context `{Unicode} `{Entropy} `{HeapOrder} `{Collation}.

(** [str(target or entry.user_id)] for a user's entry, with the subject's display value otherwise. *)
Definition target_label (d : Db) (e : WatchlistEntry) : pystr :=
  let label target id := match target with Some (c :: t) => c :: t | _ => match id with Some i => uuid_str i | None => py "None" end end in
  match wl_user_id e with
  | Some u => label (u_email <$> users d !! u) (Some u)
  | None => label (s ← wl_subject_id e; su_value_display <$> subjects d !! s) (wl_subject_id e)
  end.

Definition list_watchlist : M (list WatchlistView) :=
  let! d <- get_db;
  mret (map (fun e => mkWatchlistView e (target_label d e))
    (sort_by (fun a b => wl_created_at a <=? wl_created_at b) (select (fun _ => true) (watchlist d)))).

(** The user or subject that the form names. *)
Definition form_target (d : Db) (form : list (pystr * pystr)) : result (option uuid * option uuid) :=
  let target_type := form_get "target_type" [] form in
  let target := strip (form_get "target" [] form) in
  if bool_decide (target_type = py "user") then
    match normalize_email target with
    | Raise NormalizationError => Raise (HTTPException 422)
    | Raise e => Raise e
    | Ok email => match find_row (user_with_email email) (users d) with
                  | Some u => Ok (Some (u_id u), None)
                  | None => Raise (HTTPException 404)
                  end
    end
  else if bool_decide (target_type = py "subject") then
    match parse_uuid target with
    | Raise e => Raise (if is_value_error e then HTTPException 422 else e)
    | Ok id => match subjects d !! id with
               | Some _ => Ok (None, Some id)
               | None => Raise (HTTPException 404)
               end
    end
  else Raise (HTTPException 422).

(** [WatchlistEntry.user_id == user_id if user_id is not None else WatchlistEntry.subject_id == subject_id] *)
Definition same_target (user_id subject_id : option uuid) (e : WatchlistEntry) : bool :=
  match user_id with
  | Some _ => bool_decide (wl_user_id e = user_id)
  | None => bool_decide (wl_subject_id e = subject_id)
  end.

Definition watch_audit (po : PortalState) (r : WebRequest) (actor : User) (entry_id : uuid) (action : string)
    (channel : option pystr) : M unit :=
  audit po r action (Some (u_id actor)) (Some (py "watchlist")) (Some (uuid_str entry_id))
    (match channel with Some c => [(py "channel", JStr c)] | None => [] end).

Definition add_watchlist_entry (po : PortalState) (r : WebRequest) (current_user : User) : M WebResponse :=
  let! form <- lift (read_form MAX_FORM r);
  let! d <- get_db;
  let! (user_id, subject_id) <- lift (form_target d form);
  match find_row (same_target user_id subject_id) (watchlist d) with
  | Some _ => raise (HTTPException 409)
  | None =>
      let! id <- uuid4;
      let! now <- clock;
      let entry := mkWatchlistEntry id subject_id user_id (has_field "alert_soc" form) (has_field "alert_user" form)
                     (has_field "alert_wazuh" form) (has_field "alert_iris" form) true (u_id current_user) now in
      let! t <- lift (insert_row (WatchlistEntry_ok entry) id entry (watchlist d));
      do! modify_db (set_watchlist t);
      do! watch_audit po r current_user id "watchlist.created" None;
      mret (see_other "/analyst/watchlist")
  end.

Definition remove_watchlist_entry (po : PortalState) (entry_id : uuid) (r : WebRequest) (current_user : User) : M WebResponse :=
  let! d <- get_db;
  match watchlist d !! entry_id with
  | None => raise (HTTPException 404)
  | Some _ =>
      do! watch_audit po r current_user entry_id "watchlist.deleted" None;
      do! modify_db (fun d => set_watchlist (delete entry_id (watchlist d)) d);
      mret (see_other "/analyst/watchlist")
  end.

Definition toggle_watchlist_channel (po : PortalState) (entry_id : uuid) (channel : pystr) (r : WebRequest) (current_user : User)
  : M WebResponse :=
  match channel_named channel with
  | None => raise (HTTPException 404)
  | Some c =>
      let! d <- get_db;
      match watchlist d !! entry_id with
      | None => raise (HTTPException 404)
      | Some entry =>
          do! modify_db (fun d => set_watchlist (<[entry_id := set_channel c (negb (get_channel c entry)) entry]> (watchlist d)) d);
          do! watch_audit po r current_user (wl_id entry) "watchlist.channel_toggled" (Some channel);
          mret (see_other "/analyst/watchlist")
      end
  end.

End Watchlist.

(** ** Lemmas *)

(** The table as its constraints want it: rows under their identifiers, one target each, targets that
    exist, and no target twice. *)
Definition watchlist_ok (d : Db) : Prop :=
  (forall k u, users d !! k = Some u -> u_id u = k) /\
  forall k e, watchlist d !! k = Some e ->
    wl_id e = k /\ WatchlistEntry_ok e = true /\
    (forall u, wl_user_id e = Some u -> is_Some (users d !! u)) /\
    (forall s, wl_subject_id e = Some s -> is_Some (subjects d !! s)) /\
    forall k' e', watchlist d !! k' = Some e' ->
      (is_Some (wl_user_id e) /\ wl_user_id e' = wl_user_id e) \/
      (is_Some (wl_subject_id e) /\ wl_subject_id e' = wl_subject_id e) -> k' = k.

Lemma channel_named_spec name c : channel_named name = Some c <-> Channel_name c = name.
Proof.
  unfold channel_named. split.
  - intros [_ E]%find_some. by apply bool_decide_eq_true in E.
  - intros <-. by destruct c.
Qed.

Lemma set_channel_same c v e :
  wl_id (set_channel c v e) = wl_id e /\ wl_user_id (set_channel c v e) = wl_user_id e /\
  wl_subject_id (set_channel c v e) = wl_subject_id e /\
  get_channel c (set_channel c v e) = v /\ (forall c', c' <> c -> get_channel c' (set_channel c v e) = get_channel c' e).
Proof. destruct c; repeat split; intros []; done. Qed.

Lemma set_channel_twice c v e : set_channel c (get_channel c e) (set_channel c v e) = e.
Proof. by destruct e, c. Qed.

Lemma set_channel_ok c v d k e : watchlist d !! k = Some e -> watchlist_ok d ->
  watchlist_ok (set_watchlist (<[k := set_channel c v e]> (watchlist d)) d).
Proof.
  intros Hk [Hu Hok]. destruct (set_channel_same c v e) as (Hi&Hus&Hsu&_). split; [done|]. intros k1 e1 H1. cbn in *.
  assert (H1' : exists e0, watchlist d !! k1 = Some e0 /\ wl_id e1 = wl_id e0 /\ wl_user_id e1 = wl_user_id e0 /\ wl_subject_id e1 = wl_subject_id e0).
  { apply lookup_insert_Some in H1 as [[<- <-]|[_ H1]]; eauto. }
  destruct H1' as (e0&H0&E1&E2&E3). destruct (Hok _ _ H0) as (Ha&Hb&Hc&Hd&He).
  unfold WatchlistEntry_ok in *. rewrite E1, E2, E3. repeat (split; [done|]). intros k2 e2 H2 Hs.
  assert (H2' : exists e0, watchlist d !! k2 = Some e0 /\ wl_user_id e2 = wl_user_id e0 /\ wl_subject_id e2 = wl_subject_id e0).
  { apply lookup_insert_Some in H2 as [[<- <-]|[_ H2]]; eauto. }
  destruct H2' as (e3&H3&E4&E5). apply (He _ _ H3). by rewrite <- E4, <- E5.
Qed.

Lemma delete_ok d k : watchlist_ok d -> watchlist_ok (set_watchlist (delete k (watchlist d)) d).
Proof.
  intros [Hu Hok]. split; [done|]. intros k1 e1 H1. cbn in *. apply lookup_delete_Some in H1 as [_ H1].
  destruct (Hok _ _ H1) as (Ha&Hb&Hc&Hd&He). repeat (split; [done|]). intros k2 e2 [_ H2]%lookup_delete_Some. by apply He.
Qed.

(** A target that no entry has yet can be added. *)
Lemma insert_ok d e : watchlist d !! wl_id e = None -> WatchlistEntry_ok e = true ->
  (forall u, wl_user_id e = Some u -> is_Some (users d !! u)) -> (forall s, wl_subject_id e = Some s -> is_Some (subjects d !! s)) ->
  find_row (same_target (wl_user_id e) (wl_subject_id e)) (watchlist d) = None ->
  watchlist_ok d -> watchlist_ok (set_watchlist (<[wl_id e := e]> (watchlist d)) d).
Proof.
  intros Hnew Hchk Hus Hsu Hno [Hu Hok]. pose proof (proj1 (find_row_None _ _) Hno) as Hn.
  assert (Hother : forall k' e', watchlist d !! k' = Some e' ->
    ~ ((is_Some (wl_user_id e) /\ wl_user_id e' = wl_user_id e) \/ (is_Some (wl_subject_id e) /\ wl_subject_id e' = wl_subject_id e))).
  { intros k' e' Hk' Hs. specialize (Hn _ _ Hk'). unfold same_target in Hn. unfold WatchlistEntry_ok in Hchk.
    destruct (wl_user_id e) as [u|], (wl_subject_id e) as [s|]; try done; apply bool_decide_eq_false in Hn;
      destruct Hs as [[Hi Heq]|[Hi Heq]]; try congruence; by destruct Hi. }
  split; [done|]. intros k1 e1 H1. cbn in *. apply lookup_insert_Some in H1 as [[<- <-]|[Hne H1]].
  - repeat (split; [done|]). intros k2 e2 H2 Hs. apply lookup_insert_Some in H2 as [[<- _]|[_ H2]]; [done|].
    destruct (Hother _ _ H2 Hs).
  - destruct (Hok _ _ H1) as (Ha&Hb&Hc&Hd&He). repeat (split; [done|]). intros k2 e2 H2 Hs.
    apply lookup_insert_Some in H2 as [[<- <-]|[_ H2]]; [|by eapply He]. destruct (Hother _ _ H1).
    destruct Hs as [[Hi Heq]|[Hi Heq]]; [left|right]; by rewrite Heq.
Qed.

Lemma watchlist_ok_audit l d : watchlist_ok d -> watchlist_ok (set_audit_log l d).
Proof. done. Qed.

Section WatchlistLemmas.
Context `{Unicode} `{Entropy} `{HeapOrderLaws} `{Collation}.

Lemma holds_audit po r action actor tt_ ti meta :
  holds (both watchlist_ok) (audit po r action actor tt_ ti meta) (fun _ => True).
Proof using Type.
  intros w [Hd Hc]. destruct (audit po r action actor tt_ ti meta w) as [x w'] eqn:E. apply audit_db in E as (Ec&_&Ex).
  split; [|done]. split; [|cbn; by rewrite Ec]. cbn. destruct x; [|by rewrite Ex].
  destruct Ex as (e&->&_). by apply watchlist_ok_audit.
Qed.

Lemma form_target_inv d form u s : form_target d form = Ok (u, s) ->
  (exists x k, u = Some (u_id x) /\ s = None /\ users d !! k = Some x) \/
  (exists i, u = None /\ s = Some i /\ is_Some (subjects d !! i)).
Proof using Type.
  unfold form_target. destruct (bool_decide _).
  - destruct (normalize_email _) as [email|[]]; try done. split_find x Ef; [|done]. intros [= <- <-]. left.
    apply find_row_Some in Ef as [_ [k Hk]]. eauto.
  - destruct (bool_decide _); [|done]. destruct (parse_uuid _) as [i|e]; [|done].
    destruct (subjects d !! i) eqn:Es; [|done]. intros [= <- <-]. right. exists i. rewrite Es. eauto.
Qed.

(** What the addition of an entry does before its audit event. *)
Lemma add_entry_inv po r user w x w' : add_watchlist_entry po r user w = (x, w') ->
  (exists e, x = Raise e /\ w_db w' = w_db w /\ w_committed w' = w_committed w) \/
  (exists form u s id w1, read_form MAX_FORM r = Ok form /\ form_target (w_db w) form = Ok (u, s) /\
     let e := mkWatchlistEntry id s u (has_field "alert_soc" form) (has_field "alert_user" form)
                (has_field "alert_wazuh" form) (has_field "alert_iris" form) true (u_id user) (w_now w) in
     find_row (same_target u s) (watchlist (w_db w)) = None /\ WatchlistEntry_ok e = true /\ watchlist (w_db w) !! id = None /\
     w_db w1 = set_watchlist (<[id := e]> (watchlist (w_db w))) (w_db w) /\ w_committed w1 = w_committed w /\ w_now w1 = w_now w /\
     (do! watch_audit po r user id "watchlist.created" None; mret (see_other "/analyst/watchlist")) w1 = (x, w')).
Proof using Type.
  unfold add_watchlist_entry, mbind at 1, lift at 1. destruct (read_form MAX_FORM r) as [form|e].
  2: { intros [= <- <-]. left. by eexists. }
  unfold mbind at 1, get_db. unfold mbind at 1, lift at 1. destruct (form_target (w_db w) form) as [[u s]|e] eqn:Et.
  2: { intros [= <- <-]. left. by eexists. }
  split_find e0 Ef; [intros [= <- <-]; left; by eexists|]. unfold mbind at 1, uuid4. unfold mbind at 1, clock.
  unfold mbind at 1, lift. split_insert t Ei; [|intros [= <- <-]; left; by eexists].
  apply insert_row_inv in Ei as (Hchk&Hnew&->). unfold mbind at 1, modify_db, with_db. cbn [w_db w_committed w_draws w_now].
  intros E. right. exists form, u, s, (uuid_at (w_draws w)), (mkWorld (set_watchlist
    (<[uuid_at (w_draws w) := mkWatchlistEntry (uuid_at (w_draws w)) s u (has_field "alert_soc" form) (has_field "alert_user" form)
       (has_field "alert_wazuh" form) (has_field "alert_iris" form) true (u_id user) (w_now w)]> (watchlist (w_db w))) (w_db w))
    (w_committed w) (S (w_draws w)) (w_now w)).
  repeat (split; [done|]). done.
Qed.

Lemma holds_add po r user : holds (both watchlist_ok) (add_watchlist_entry po r user) (fun _ => True).
Proof using Type*.
  intros w [Hd Hc]. split; [|done]. destruct (add_watchlist_entry po r user w) as [x w'] eqn:E. cbn.
  apply add_entry_inv in E as [(e&_&E1&E2)|(form&u&s&id&w1&_&Ht&Hno&Hchk&Hnew&Hdb&Hcm&_&E)].
  { split; [by rewrite E1|by rewrite E2]. }
  assert (Hok : both watchlist_ok w1).
  { split; [|by rewrite Hcm]. rewrite Hdb.
    match type of Hchk with WatchlistEntry_ok ?e = _ => apply (insert_ok _ e); try done end.
    - cbn. intros i Hi. destruct (form_target_inv _ _ _ _ Ht) as [(y&k&Hy&_&Hk)|(j&Hy&_&_)]; [|congruence].
      rewrite Hy in Hi. injection Hi as <-. rewrite (proj1 Hd _ _ Hk). eauto.
    - cbn. intros i Hi. destruct (form_target_inv _ _ _ _ Ht) as [(y&k&_&Hy&_)|(j&_&Hy&Hj)]; [congruence|].
      rewrite Hy in Hi. by injection Hi as <-. }
  assert (Hh : holds (both watchlist_ok)
    (do! watch_audit po r user id "watchlist.created" None; mret (see_other "/analyst/watchlist")) (fun _ => True)).
  { eapply holds_bind; [apply holds_audit|]. intros. by apply holds_mret. }
  destruct (Hh w1 Hok) as [Hb _]. by rewrite E in Hb.
Qed.

Lemma holds_remove po id r user : holds (both watchlist_ok) (remove_watchlist_entry po id r user) (fun _ => True).
Proof using Type.
  intros w Hw. unfold remove_watchlist_entry, mbind at 1, get_db. destruct (watchlist (w_db w) !! id); [|by split].
  match goal with |- both _ (?c w).2 /\ _ => enough (Hh : holds (both watchlist_ok) c (fun _ => True)) by (split; [apply (Hh w Hw)|done]) end.
  eapply holds_bind; [apply holds_audit|]. intros _ _. eapply holds_bind; [|intros; by apply holds_mret].
  apply holds_modify. intros d. apply delete_ok.
Qed.
Lemma holds_toggle po id channel r user :
  holds (both watchlist_ok) (toggle_watchlist_channel po id channel r user) (fun _ => True).
Proof using Type.
  unfold toggle_watchlist_channel. destruct (channel_named channel) as [c|]; [|by apply holds_raise].
  intros w Hw. unfold mbind at 1, get_db. destruct (watchlist (w_db w) !! id) as [e|] eqn:Ee; [|by split].
  unfold mbind at 1, modify_db, with_db.
  match goal with |- both _ (?c ?w1).2 /\ _ => enough (Hh : holds (both watchlist_ok) c (fun _ => True)); [split; [apply (Hh w1)|done]|] end.
  - destruct Hw as [Hd Hc]. split; [|done]. cbn. by apply set_channel_ok.
  - eapply holds_bind; [apply holds_audit|]. intros. by apply holds_mret.
Qed.
End WatchlistLemmas.

(** ** Properties *)

Section Properties.
Context `{Unicode} `{Entropy} `{HeapOrderLaws} `{Collation}.

(** The requests of any analysts, and anything else that keeps the entries and what they refer to. *)
Inductive watch_step (po : PortalState) (w : World) : World -> Prop :=
| watch_add r user : watch_step po w (get_db_session (add_watchlist_entry po r user) w).2
| watch_remove id r user : watch_step po w (get_db_session (remove_watchlist_entry po id r user) w).2
| watch_toggle id channel r user : watch_step po w (get_db_session (toggle_watchlist_channel po id channel r user) w).2
| watch_list : watch_step po w (get_db_session list_watchlist w).2
| watch_elsewhere w' :
    (forall d d', (d, d') ∈ [(w_db w, w_db w'); (w_committed w, w_committed w')] ->
       watchlist d' = watchlist d /\ (forall k u, users d' !! k = Some u -> u_id u = k) /\
       (forall k, is_Some (users d !! k) -> is_Some (users d' !! k)) /\
       (forall k, is_Some (subjects d !! k) -> is_Some (subjects d' !! k))) -> watch_step po w w'.

(** C25: The watchlist stays well typed.  Whatever forms are posted to its routes, in whatever order and
    with whatever outcome, every stored entry keeps its own identifier and exactly one target, the
    user or subject it names exists, and no user and no subject is named twice. *)
Theorem watchlist_stays_well_typed po w w' :
  both watchlist_ok w -> rtc (watch_step po) w w' -> both watchlist_ok w'.
Proof using Type*.
  intros Hw Hst. induction Hst as [|x y z Hxy _ IH]; [done|]. apply IH.
  assert (Hr : forall A (c : M A), holds (both watchlist_ok) c (fun _ => True) -> both watchlist_ok (get_db_session c x).2).
  { intros A c Hc. by apply (holds_session _ c _ Hc x Hw). }
  destruct Hxy as [r user|id r user|id channel r user| |w1 Hkeep].
  - apply Hr, holds_add.
  - apply Hr, holds_remove.
  - apply Hr, holds_toggle.
  - apply Hr. by intros v Hv.
  - assert (Hone : forall d d', (d, d') ∈ [(w_db x, w_db w1); (w_committed x, w_committed w1)] -> watchlist_ok d -> watchlist_ok d').
    { intros d d' Hin [_ Hok]. destruct (Hkeep _ _ Hin) as (Hwl&Hu&Hus&Hsu). split; [done|]. rewrite Hwl. intros k e Hk.
      destruct (Hok _ _ Hk) as (Ha&Hb&Hc&Hd&He). repeat split; auto. }
    destruct Hw as [Hd Hc]. split; [apply (Hone (w_db x)); [left|done]|apply (Hone (w_committed x)); [right; left|done]].
Qed.

(** What each route does when it answers: the form's target is watched on the form's channels; exactly
    the entry is gone; exactly the named channel of the entry is switched, and switching it again
    restores the table. *)
Theorem watchlist_routes_exact po user w :
  (forall r resp w', add_watchlist_entry po r user w = (Ok resp, w') ->
     exists form u s id, read_form MAX_FORM r = Ok form /\ form_target (w_db w) form = Ok (u, s) /\
       watchlist (w_db w) !! id = None /\ find_row (same_target u s) (watchlist (w_db w)) = None /\
       watchlist (w_db w') = <[id := mkWatchlistEntry id s u (has_field "alert_soc" form) (has_field "alert_user" form)
         (has_field "alert_wazuh" form) (has_field "alert_iris" form) true (u_id user) (w_now w)]> (watchlist (w_db w))) /\
  (forall id r resp w', remove_watchlist_entry po id r user w = (Ok resp, w') ->
     is_Some (watchlist (w_db w) !! id) /\ watchlist (w_db w') = delete id (watchlist (w_db w))) /\
  (forall id channel r resp w', toggle_watchlist_channel po id channel r user w = (Ok resp, w') ->
     exists c e, Channel_name c = channel /\ watchlist (w_db w) !! id = Some e /\
       watchlist (w_db w') = <[id := set_channel c (negb (get_channel c e)) e]> (watchlist (w_db w)) /\
       forall r' resp' w'', toggle_watchlist_channel po id channel r' user w' = (Ok resp', w'') ->
         watchlist (w_db w'') = watchlist (w_db w)).
Proof using Type.
  assert (Haud : forall id action ch v x v', watch_audit po id user ch action v x = v' -> watchlist (w_db v'.2) = watchlist (w_db x)).
  { intros id action ch v x v' <-. unfold watch_audit.
    apply (keeps_audit watchlist po id action (Some (u_id user)) _ _ _ (fun _ _ => eq_refl) x). }
  split; [|split].
  - intros r resp w' E. apply add_entry_inv in E as [(e&?&_)|(form&u&s&id&w1&Hf&Ht&Hno&_&Hnew&Hdb&_&_&E)]; [done|].
    exists form, u, s, id. repeat (split; [done|]). apply mbind_inv in E as (y&w2&E1&E2). injection E2 as _ <-.
    apply Haud in E1. cbn in E1. rewrite E1, Hdb. done.
  - intros id r resp w' E. unfold remove_watchlist_entry, mbind at 1, get_db in E.
    destruct (watchlist (w_db w) !! id) eqn:Ek; [|done]. split; [eauto|]. apply mbind_inv in E as (y&w2&E1&E2).
    apply Haud in E1. cbn in E1. unfold mbind, modify_db, mret, with_db in E2. injection E2 as _ <-. cbn. by rewrite E1.
  - assert (Ht : forall id channel r resp x x', toggle_watchlist_channel po id channel r user x = (Ok resp, x') ->
      exists c e, channel_named channel = Some c /\ watchlist (w_db x) !! id = Some e /\
        watchlist (w_db x') = <[id := set_channel c (negb (get_channel c e)) e]> (watchlist (w_db x))).
    { intros id channel r resp x x'. unfold toggle_watchlist_channel. destruct (channel_named channel) as [c|]; [|done].
      unfold mbind at 1, get_db. destruct (watchlist (w_db x) !! id) as [e|] eqn:Ee; [|done]. unfold mbind at 1, modify_db.
      intros (y&w2&E1&E2)%mbind_inv. apply Haud in E1. cbn in E1. injection E2 as _ <-. exists c, e. by rewrite E1. }
    intros id channel r resp w' E. apply Ht in E as (c&e&Hc&He&Hw'). exists c, e. split; [by apply channel_named_spec|].
    split; [done|]. split; [done|]. intros r' resp' w'' (c2&e2&Hc2&He2&Hw'')%Ht. rewrite Hc in Hc2. injection Hc2 as <-.
    rewrite Hw', lookup_insert_eq in He2. injection He2 as <-.
    destruct (set_channel_same c (negb (get_channel c e)) e) as (_&_&_&Hg&_).
    rewrite Hw'', Hw', Hg, negb_involutive, set_channel_twice, insert_insert_eq. by apply insert_id.
Qed.
End Properties.

(** ** The channel that nothing reads *)

Section SocChannel.
Context `{Unicode} `{Entropy} `{HeapOrderLaws}.

Definition with_watchlist (t : gmap uuid WatchlistEntry) (w : World) : World := with_db (set_watchlist t (w_db w)) w.
(** The computation neither reads nor writes the watchlist. *)
Definition blind {A} (c : M A) : Prop := forall t w, c (with_watchlist t w) = ((c w).1, with_watchlist t (c w).2).

Lemma blind_bind {A B} (c : M A) (k : A -> M B) : blind c -> (forall a, blind (k a)) -> blind (mbind c k).
Proof using Type.
  intros Hc Hk t w. unfold mbind. rewrite Hc. destruct (c w) as [[a|e] w1]; cbn; [apply Hk|done].
Qed.
Lemma blind_mfor {A B} (f : A -> M B) l : (forall x, blind (f x)) -> blind (mfor f l).
Proof using Type.
  intros Hf. induction l as [|x l IH]; [done|]. cbn [mfor]. apply blind_bind; [done|]. intros y.
  by apply blind_bind.
Qed.
Lemma blind_mfold {A S} (f : S -> A -> M S) l s : (forall s x, blind (f s x)) -> blind (mfold f s l).
Proof using Type. intros Hf. revert s. induction l as [|x l IH]; intros s; [done|]. cbn [mfold]. by apply blind_bind. Qed.
Lemma blind_enqueue_alert sink payload scope : blind (enqueue_alert sink payload scope).
Proof using Type.
  intros t w. unfold enqueue_alert, mbind, uuid4, lift, get_db, clock. destruct (alert_dedupe_key sink scope); [|done].
  cbn. destruct (find_row _ _); [done|]. by destruct (insert_row _ _ _ _).
Qed.
Lemma blind_enqueue_notification user ids template : blind (enqueue_notification user ids template).
Proof using Type.
  intros t w. unfold enqueue_notification, mbind, uuid4, lift, get_db, clock. destruct (sorted_ids ids); [done|].
  destruct (notification_dedupe_key _ _ _); [|done]. cbn. destruct (find_row _ _); [done|]. by destruct (insert_row _ _ _ _).
Qed.

(** Switching the SOC channel of an entry changes nothing of what a fan-out queues: no alert, no
    message, no count. *)
Theorem soc_channel_is_ignored subject ids k e v w :
  watchlist (w_db w) !! k = Some e ->
  let w' := with_watchlist (<[k := set_channel alert_soc v e]> (watchlist (w_db w))) w in
  (fanout_watchlisted_findings subject ids w').1 = (fanout_watchlisted_findings subject ids w).1 /\
  alert_outbox (w_db (fanout_watchlisted_findings subject ids w').2) = alert_outbox (w_db (fanout_watchlisted_findings subject ids w).2) /\
  notifications (w_db (fanout_watchlisted_findings subject ids w').2) = notifications (w_db (fanout_watchlisted_findings subject ids w).2).
Proof using Type*.
  intros Hk w'. unfold fanout_watchlisted_findings. destruct ids as [|i ids]; [done|]. unfold mbind at 1 4 7 10 13 16, get_db.
  assert (Hex : forall p, (forall x, p (set_channel alert_soc v x) = p x) ->
    existsb p (select (watching subject) (watchlist (w_db w'))) = existsb p (select (watching subject) (watchlist (w_db w)))).
  { intros p Hp. apply eq_true_iff_eq. rewrite !existsb_exists. setoid_rewrite <- list_elem_of_In.
    setoid_rewrite elem_of_select. split.
    - intros (x&[Hx [j Hj]]&Hpx). cbn in Hj. apply lookup_insert_Some in Hj as [[<- <-]|[_ Hj]]; [|eauto].
      exists e. rewrite Hp in Hpx. split; [|done]. split; [done|eauto].
    - intros (x&[Hx [j Hj]]&Hpx). destruct (decide (j = k)) as [->|Hne].
      + rewrite Hk in Hj. injection Hj as <-. exists (set_channel alert_soc v e). rewrite Hp. split; [|done]. split; [done|].
        exists k. cbn. apply lookup_insert_eq.
      + exists x. split; [|done]. split; [done|]. exists j. cbn. by rewrite lookup_insert_ne. }
  assert (Hnil : select (watching subject) (watchlist (w_db w')) = [] <-> select (watching subject) (watchlist (w_db w)) = []).
  { pose proof (Hex (fun _ => true) (fun _ => eq_refl)) as Ht. split; intros E; rewrite E in Ht;
      [destruct (select (watching subject) (watchlist (w_db w))) eqn:E'|
       destruct (select (watching subject) (watchlist (w_db w'))) eqn:E']; try done; rewrite E' in Ht; discriminate Ht. }
  destruct (select (watching subject) (watchlist (w_db w))) as [|e0 es] eqn:E0;
    [by rewrite (proj2 Hnil eq_refl)|]. destruct (select (watching subject) (watchlist (w_db w'))) as [|e1 es1] eqn:E1;
    [by pose proof (proj1 Hnil eq_refl)|]. clear Hnil.
  assert (Hone : fanout_one subject (e1 :: es1) = fanout_one subject (e0 :: es)).
  { unfold fanout_one. by rewrite (Hex wl_alert_wazuh), (Hex wl_alert_iris). }
  rewrite Hone, (Hex wl_alert_user) by done. change (findings (w_db w')) with (findings (w_db w)).
  match goal with |- (?c w').1 = _ /\ _ => assert (Hb : blind c) end.
  { apply blind_bind.
    - apply blind_mfold. intros q f. apply blind_bind; [|done]. apply blind_mfor. intros s. apply blind_enqueue_alert.
    - intros q. apply blind_bind; [|done]. destruct (su_linked_user_id subject); [|done]. destruct (existsb _ _); [|done].
      apply blind_enqueue_notification. }
  unfold w'. rewrite Hb. done.
Qed.
End SocChannel.

(** ** Witnesses *)

(** An analyst, a subject, and a form that watches it. *)
Definition watch_user : User :=
  mkUser 7 (py "analyst@corp.example") None (py "Analyst") None Role_ANALYST true Source_MANUAL 0 None.
Definition watch_world : World :=
  let d := set_subjects {[3 := watched_subject]} (set_users {[7 := watch_user]} empty_db) in mkWorld d d 100 200.
Definition watch_request : WebRequest :=
  mkWebRequest None ∅ ∅ [] (py "target_type=subject&target=00000000-0000-0000-0000-000000000003&alert_iris=true").
Definition watch_run : World :=
  (get_db_session (@add_watchlist_entry ascii_unicode counting_entropy ascii_collation sample_portal watch_request watch_user) watch_world).2.

Lemma watchlist_stays_well_typed_witness :
  watchlist_ok (w_committed watch_run) /\
  map (fun e => (wl_subject_id e, wl_alert_soc e, wl_alert_iris e)) (map_to_list (watchlist (w_committed watch_run))).*2
    = [(Some 3, false, true)].
Proof.
  split; [|vm_compute; reflexivity].
  refine (proj2 (@watchlist_stays_well_typed ascii_unicode counting_entropy plain_heap
    (Build_HeapOrderLaws plain_heap (fun A l => reflexivity l)) ascii_collation sample_portal watch_world watch_run _ _)).
  - split; (split; [|intros k e He; change ((∅ : gmap Z WatchlistEntry) !! k = Some e) in He; by rewrite lookup_empty in He]);
      apply (keyed_check u_id); vm_compute; reflexivity.
  - apply rtc_once. apply (watch_add sample_portal watch_world watch_request watch_user).
Defined.
