(* ===== verification/Schedules.v ===== *)
(** The schedule routes (app/routers/schedules.py) and what they and the leader's tick keep of every
    stored schedule. *)
From S2P Require Import Prelude PyBase Encoding Hashes Json Models Store Config Notifications Batches Scheduling Access Web SignIn Analyst Watchlist.

Section Schedules.
Context `{Unicode} `{Entropy} `{HeapOrder} `{Collation} `{Cron}.

Definition list_schedules : M (list Schedule) :=
  let! d <- get_db;
  mret (sort_by (fun a b => sd_created_at b <=? sd_created_at a) (select (fun _ => true) (schedules d))).

(** The fragment is the ISO form of the next run, or the text of the validation error. *)
Definition preview_schedule (r : WebRequest) : M WebResponse :=
  let! now <- clock;
  match next_fire_time (query_param "cron" [] r) (query_param "timezone" [] r) now with
  | Raise ScheduleValidationError => mret (html_ (B_page "schedule error" []) 422 [])
  | Raise e => raise e
  | Ok next_run => mret (html_ (B_page "schedule preview" [instant_isoformat next_run]) 200 [])
  end.

Definition schedule_kind (text : pystr) : result ScheduleKind :=
  if bool_decide (text = ScheduleKind_value Schedule_SCAN_OU) then Ok Schedule_SCAN_OU
  else if bool_decide (text = ScheduleKind_value Schedule_SCAN_DOMAIN) then Ok Schedule_SCAN_DOMAIN
  else if bool_decide (text = ScheduleKind_value Schedule_DIGEST) then Ok Schedule_DIGEST
  else Raise ValueError.

Record ScheduleForm := mkScheduleForm {
  sf_kind : ScheduleKind; sf_target : pystr; sf_cron : pystr; sf_timezone : pystr; sf_grace : Z; sf_next_run : instant }.

(** The block that reads and checks the form. *)
Definition schedule_form (now : instant) (form : list (pystr * pystr)) : result ScheduleForm :=
  try! kind_text <- of_option (field_first "kind" form) KeyError;
  try! kind <- schedule_kind kind_text;
  try! target <- of_option (field_first "target" form) KeyError;
  let target := strip target in
  try! cron <- of_option (field_first "cron" form) KeyError;
  let cron := strip cron in
  try! timezone <- of_option (field_first "timezone" form) KeyError;
  let timezone := strip timezone in
  try! grace <- py_int (form_get "misfire_grace_seconds" (py "300") form);
  if bool_decide (target = []) || (1024 <? length target)%nat || negb ((0 <=? grace) && (grace <=? 86400))
  then Raise ValueError
  else try! next_run <- next_fire_time cron timezone now;
       Ok (mkScheduleForm kind target cron timezone grace next_run).
Definition form_error (e : exn) : bool :=
  bool_decide (e = KeyError) || is_value_error e || bool_decide (e = ScheduleValidationError).

Definition schedule_audit (po : PortalState) (r : WebRequest) (actor : User) (s : Schedule) (action : string) : M unit :=
  audit po r action (Some (u_id actor)) (Some (py "schedule")) (Some (uuid_str (sd_id s)))
    [(py "kind", JStr (ScheduleKind_value (sd_kind s)))].

Definition create_schedule (po : PortalState) (r : WebRequest) (current_user : User) : M WebResponse :=
  let! form <- lift (read_form MAX_FORM r);
  let! now <- clock;
  match schedule_form now form with
  | Raise e => raise (if form_error e then HTTPException 422 else e)
  | Ok f =>
      let! id <- uuid4;
      let! d <- get_db;
      let s := mkSchedule id (sf_kind f) (sf_target f) (sf_cron f) (sf_timezone f) true (sf_grace f) None None
                 (sf_next_run f) None (u_id current_user) now in
      let! t <- lift (insert_row (Schedule_ok s) id s (schedules d));
      do! modify_db (set_schedules t);
      do! schedule_audit po r current_user s "schedule.created";
      mret (see_other "/analyst/schedules")
  end.

Definition schedule_or_404 (id : uuid) : M Schedule :=
  let! d <- get_db;
  match schedules d !! id with Some s => mret s | None => raise (HTTPException 404) end.

Definition toggle_schedule (po : PortalState) (id : uuid) (r : WebRequest) (current_user : User) : M WebResponse :=
  let! s <- schedule_or_404 id;
  do! modify_schedule id (set_sd_enabled (negb (sd_enabled s)));
  do! (if negb (sd_enabled s) then
         let! now <- clock;
         let! next_run <- lift (next_fire_time (sd_cron s) (sd_timezone s) now);
         modify_schedule id (set_sd_next_run_at next_run)
       else mret tt);
  do! schedule_audit po r current_user s "schedule.toggled";
  mret (see_other "/analyst/schedules").

Definition remove_schedule (po : PortalState) (id : uuid) (r : WebRequest) (current_user : User) : M WebResponse :=
  let! s <- schedule_or_404 id;
  do! schedule_audit po r current_user s "schedule.deleted";
  do! modify_db (fun d => set_schedules (delete (sd_id s) (schedules d)) d);
  mret (see_other "/analyst/schedules").

End Schedules.

(** ** Lemmas *)

(** What the form admitted and the tick preserves: a target, a grace of at most a day, and an expression and
    zone that parse. *)
Definition schedule_valid `{Cron} (k : uuid) (s : Schedule) : Prop :=
  sd_id s = k /\ (0 < length (sd_target s) <= 1024)%nat /\ 0 <= sd_misfire_grace_seconds s <= 86400 /\
  is_Some (crontab (sd_cron s) (sd_timezone s)).
Definition schedules_valid `{Cron} (d : Db) : Prop := forall k s, schedules d !! k = Some s -> schedule_valid k s.

Section ScheduleLemmas.
Context `{Unicode} `{Entropy} `{HeapOrder} `{Collation} `{Cron} (exn_text : exn -> pystr).

Lemma holds_schedule_audit po r actor s action :
  holds (both schedules_valid) (schedule_audit po r actor s action) (fun _ => True).
Proof using Type.
  intros w [Hd Hc]. unfold schedule_audit. destruct (audit _ _ _ _ _ _ _ w) as [x w'] eqn:E. apply audit_db in E as (Ec&_&Ex).
  split; [|done]. split; [|cbn; by rewrite Ec]. cbn. destruct x; [|by rewrite Ex]. by destruct Ex as (e&->&_).
Qed.

Lemma holds_keeps {A} (c : M A) : keeps schedules c -> holds (both schedules_valid) c (fun _ => True).
Proof using Type.
  apply holds_of_keeps. intros d d' E. unfold schedules_valid. by rewrite E.
Qed.

(** A change of the columns that the validity does not mention. *)
Lemma holds_modify_schedule id f :
  (forall s, sd_id (f s) = sd_id s /\ sd_target (f s) = sd_target s /\ sd_cron (f s) = sd_cron s /\
     sd_timezone (f s) = sd_timezone s /\ sd_misfire_grace_seconds (f s) = sd_misfire_grace_seconds s) ->
  holds (both schedules_valid) (modify_schedule id f) (fun _ => True).
Proof using Type.
  intros Hf. apply holds_modify. intros d Hd k s Hk. cbn in Hk. apply lookup_alter_Some in Hk as [(<-&s0&Hs&->)|[_ Hk]]; [|by apply Hd].
  destruct (Hf s0) as (E1&E2&E3&E4&E5). unfold schedule_valid. rewrite E1, E2, E3, E4, E5. by apply Hd.
Qed.

Lemma holds_run_schedule tick s : holds (both schedules_valid) (run_schedule tick s) (fun _ => True).
Proof using Type.
  unfold run_schedule. destruct (bool_decide _).
  - eapply holds_bind; [apply holds_keeps, digest_keeps|]. intros. by apply holds_mret.
  - eapply holds_bind; [apply holds_keeps, create_batch_keeps|]. intros. by apply holds_modify_schedule.
Qed.

Lemma holds_dispatch_one tick k s : holds (both schedules_valid) (dispatch_one exn_text tick k s) (fun _ => True).
Proof using Type.
  unfold dispatch_one. eapply holds_bind; [by apply (holds_lift _ _ (fun _ => True))|]. intros next _.
  eapply holds_bind; [by apply holds_modify_schedule|]. intros _ _. destruct (_ <? _).
  - eapply holds_bind; [by apply holds_modify_schedule|]. intros. by apply holds_mret.
  - eapply (holds_bind _ _ _ (fun _ => True)).
    + apply holds_try.
      * eapply holds_bind; [apply holds_run_schedule|]. intros. by apply holds_mret.
      * intros e. eapply holds_bind; [by apply holds_modify_schedule|]. intros. by apply holds_mret.
    + intros ok _. destruct ok; [|by apply holds_mret].
      eapply holds_bind; [by apply holds_modify_schedule|]. intros. by apply holds_mret.
Qed.

Lemma holds_dispatch leader locked now :
  holds (both schedules_valid) (dispatch_due_schedules exn_text leader locked now) (fun _ => True).
Proof using Type.
  unfold dispatch_due_schedules. eapply (holds_bind _ _ _ (fun _ => True)); [by intros w Hw|]. intros wall _. destruct leader; cbn [negb].
  - eapply (holds_bind _ _ _ (fun _ => True)); [by intros w Hw|]. intros d _.
    eapply (holds_bind _ _ _ (fun _ => True)).
    + intros w Hw. split; [|done]. generalize 0 as n. revert w Hw. generalize (sort_by schedule_order (select (fun s => schedule_due (default wall now) s && negb (locked (sd_id s))) (schedules d))) as l.
      induction l as [|s l IH]; intros w Hw n; [done|]. cbn [mfold]. unfold mbind.
      destruct (holds_dispatch_one (default wall now) n s w Hw) as [Hone _]. destruct (dispatch_one _ _ _ _ w) as [[m|e] w1]; [by apply IH|done].
    + intros m _. eapply (holds_bind _ _ _ (fun _ => True)); [|intros; by apply holds_mret]. intros w [Hd Hc]. by split.
  - eapply (holds_bind _ _ _ (fun _ => True)); [|intros; by apply holds_mret]. intros w [Hd Hc]. by split.
Qed.

Lemma schedule_form_inv now form f : schedule_form now form = Ok f ->
  (0 < length (sf_target f) <= 1024)%nat /\ 0 <= sf_grace f <= 86400 /\
  next_fire_time (sf_cron f) (sf_timezone f) now = Ok (sf_next_run f).
Proof using Type.
  unfold schedule_form, rbind. destruct (of_option (field_first "kind" form) _); [|done]. destruct (schedule_kind _); [|done].
  destruct (of_option (field_first "target" form) _) as [t|]; [|done]. destruct (of_option (field_first "cron" form) _) as [c|]; [|done].
  destruct (of_option (field_first "timezone" form) _) as [z|]; [|done]. destruct (py_int _) as [g|]; [|done].
  destruct (_ || _) eqn:Eg; [done|]. destruct (next_fire_time (strip c) (strip z) now) as [n|] eqn:En; [|done].
  intros [= <-]. cbn. apply orb_false_iff in Eg as [[Ht Hl]%orb_false_iff Hg]. apply bool_decide_eq_false in Ht. apply Nat.ltb_ge in Hl.
  destruct (strip t); [done|]. cbn in *. split; [lia|]. split; [lia|done].
Qed.

Lemma next_fire_parses cron zone now next : next_fire_time cron zone now = Ok next -> is_Some (crontab cron zone).
Proof using Type. unfold next_fire_time. destruct (crontab cron zone); [eauto|done]. Qed.

(** What the creation of a schedule does. *)
Lemma create_schedule_inv po r user w x w' : create_schedule po r user w = (x, w') ->
  (exists e, x = Raise e /\ w_db w' = w_db w /\ w_committed w' = w_committed w) \/
  (exists f id w1, let s := mkSchedule id (sf_kind f) (sf_target f) (sf_cron f) (sf_timezone f) true (sf_grace f) None None
        (sf_next_run f) None (u_id user) (w_now w) in
     (try! form <- read_form MAX_FORM r; schedule_form (w_now w) form) = Ok f /\ schedules (w_db w) !! id = None /\
     w_db w1 = set_schedules (<[id := s]> (schedules (w_db w))) (w_db w) /\ w_committed w1 = w_committed w /\ w_now w1 = w_now w /\
     (do! schedule_audit po r user s "schedule.created"; mret (see_other "/analyst/schedules")) w1 = (x, w')).
Proof using Type.
  unfold create_schedule, mbind at 1, lift at 1. destruct (read_form MAX_FORM r) as [form|e].
  2: { intros [= <- <-]. left. by eexists. }
  unfold mbind at 1, clock. destruct (schedule_form (w_now w) form) as [f|e] eqn:Ef.
  2: { intros [= <- <-]. left. by eexists. }
  unfold mbind at 1, uuid4. unfold mbind at 1, get_db. cbn [w_db]. unfold mbind at 1, lift.
  split_insert t Ei; [|intros [= <- <-]; left; by eexists]. apply insert_row_inv in Ei as (_&Hnew&->).
  unfold mbind at 1, modify_db, with_db. cbn [w_db w_committed w_draws w_now]. intros E. right.
  eexists f, (uuid_at (w_draws w)), _. cbn [rbind]. split; [done|]. split; [done|].
  split; [|split; [|split; [|exact E]]]; reflexivity.
Qed.

Lemma holds_create po r user : holds (both schedules_valid) (create_schedule po r user) (fun _ => True).
Proof using Type.
  intros w [Hd Hc]. split; [|done]. destruct (create_schedule po r user w) as [x w'] eqn:E. cbn.
  apply create_schedule_inv in E as [(e&_&E1&E2)|(f&id&w1&Hf&Hnew&Hdb&Hcm&_&E)].
  { split; [by rewrite E1|by rewrite E2]. }
  destruct (read_form MAX_FORM r) as [form|]; [|done]. cbn [rbind] in Hf. apply schedule_form_inv in Hf as (Ht&Hg&Hn).
  assert (Hw1 : both schedules_valid w1).
  { split; [|by rewrite Hcm]. rewrite Hdb. intros k s Hk. cbn in Hk. apply lookup_insert_Some in Hk as [[<- <-]|[_ Hk]]; [|by apply Hd].
    repeat (split; [done|]). by eapply next_fire_parses. }
  assert (Hh : forall s, holds (both schedules_valid)
    (do! schedule_audit po r user s "schedule.created"; mret (see_other "/analyst/schedules")) (fun _ => True)).
  { intros s. eapply holds_bind; [apply holds_schedule_audit|]. intros. by apply holds_mret. }
  match type of E with (mbind (schedule_audit _ _ _ ?s _) _) _ = _ => destruct (Hh s w1 Hw1) as [Hb _] end. by rewrite E in Hb.
Qed.

Lemma holds_toggle_schedule po id r user : holds (both schedules_valid) (toggle_schedule po id r user) (fun _ => True).
Proof using Type.
  unfold toggle_schedule, schedule_or_404. eapply (holds_bind _ _ _ (fun _ => True)).
  { intros w Hw. unfold mbind, get_db. by destruct (schedules (w_db w) !! id). }
  intros s _. eapply holds_bind; [by apply holds_modify_schedule|]. intros _ _. eapply (holds_bind _ _ _ (fun _ => True)).
  - destruct (negb _); [|by apply holds_mret]. eapply (holds_bind _ _ _ (fun _ => True)); [by intros w Hw|]. intros now _.
    eapply (holds_bind _ _ _ (fun _ => True)); [by apply (holds_lift _ _ (fun _ => True))|]. intros. by apply holds_modify_schedule.
  - intros _ _. eapply holds_bind; [apply holds_schedule_audit|]. intros. by apply holds_mret.
Qed.

Lemma holds_remove_schedule po id r user : holds (both schedules_valid) (remove_schedule po id r user) (fun _ => True).
Proof using Type.
  unfold remove_schedule, schedule_or_404. eapply (holds_bind _ _ _ (fun _ => True)).
  { intros w Hw. unfold mbind, get_db. by destruct (schedules (w_db w) !! id). }
  intros s _. eapply holds_bind; [apply holds_schedule_audit|]. intros _ _.
  eapply holds_bind; [|intros; by apply holds_mret]. apply holds_modify. intros d Hd k x Hk. cbn in Hk.
  apply lookup_delete_Some in Hk as [_ Hk]. by apply Hd.
Qed.
End ScheduleLemmas.

(** ** Properties *)

Section Properties.
Context `{Unicode} `{Entropy} `{HeapOrder} `{Collation} `{CronLaws} (exn_text : exn -> pystr).

(** Requests to the schedule routes, ticks of any worker, and whatever leaves the schedules alone. *)
Inductive schedule_step (po : PortalState) (w : World) : World -> Prop :=
| schedule_create r user : schedule_step po w (get_db_session (create_schedule po r user) w).2
| schedule_toggle id r user : schedule_step po w (get_db_session (toggle_schedule po id r user) w).2
| schedule_remove id r user : schedule_step po w (get_db_session (remove_schedule po id r user) w).2
| schedule_preview r : schedule_step po w (get_db_session (preview_schedule r) w).2
| schedule_tick leader locked now : schedule_step po w (dispatch_due_schedules exn_text leader locked now w).2
| schedule_elsewhere w' : schedules (w_db w') = schedules (w_db w) -> schedules (w_committed w') = schedules (w_committed w) ->
    schedule_step po w w'.

(** No schedule goes stale.  Under any sequence of requests to the schedule routes, with whatever
    forms, and of ticks of the worker, every stored schedule has a target that fits, a grace of at most a day,
    and a cron expression and time zone that parse; so the only schedule that can stop a tick is one
    whose expression has no further occurrence. *)
Theorem schedules_stay_valid po w w' :
  both schedules_valid w -> rtc (schedule_step po) w w' ->
  both schedules_valid w' /\
  forall k s now, schedules (w_db w') !! k = Some s ->
    match next_fire_time (sd_cron s) (sd_timezone s) now with
    | Ok next_run => now < next_run
    | Raise e => e = ScheduleValidationError /\
        exists trigger, crontab (sd_cron s) (sd_timezone s) = Some trigger /\ trigger (now + 1) = None
    end.
Proof using Type*.
  intros Hw Hst. assert (Hw' : both schedules_valid w').
  { induction Hst as [|x y z Hxy _ IH]; [done|]. apply IH.
    assert (Hr : forall A (c : M A), holds (both schedules_valid) c (fun _ => True) -> both schedules_valid (get_db_session c x).2).
    { intros A c Hc. by apply (holds_session _ c _ Hc x Hw). }
    destruct Hxy as [r user|id r user|id r user|r|leader locked now|w1 Hd Hc].
    - apply Hr, holds_create.
    - apply Hr, holds_toggle_schedule.
    - apply Hr, holds_remove_schedule.
    - apply Hr. apply holds_keeps. unfold preview_schedule. frame.
    - by apply (holds_dispatch exn_text leader locked now x Hw).
    - destruct Hw as [Hw1 Hw2]. unfold both, schedules_valid in *. by rewrite Hd, Hc. }
  split; [done|]. intros k s now Hk. destruct Hw' as [Hv _]. destruct (Hv _ _ Hk) as (_&_&_&[trigger Ht]).
  destruct (next_fire_time (sd_cron s) (sd_timezone s) now) as [n|e] eqn:En; [by eapply next_fire_time_after|].
  unfold next_fire_time in En. rewrite Ht in En. destruct (trigger (now + 1)) eqn:Etr; [done|]. injection En as <-. eauto.
Qed.

(** A schedule that is created or switched on waits for its next occurrence.  It is enabled, its
    next run is the next occurrence of its own expression and strictly later than now, so that no
    tick at this time dispatches it; switching off changes nothing but the flag; and no other
    schedule changes. *)
Theorem enabled_schedule_waits po user w :
  (forall r resp w', create_schedule po r user w = (Ok resp, w') ->
     exists s, schedules (w_db w) !! sd_id s = None /\ schedules (w_db w') = <[sd_id s := s]> (schedules (w_db w)) /\
       sd_enabled s = true /\ sd_created_by s = u_id user /\
       next_fire_time (sd_cron s) (sd_timezone s) (w_now w) = Ok (sd_next_run_at s) /\ schedule_due (w_now w) s = false) /\
  (forall id r resp w', toggle_schedule po id r user w = (Ok resp, w') ->
     exists s s', schedules (w_db w) !! id = Some s /\ schedules (w_db w') = <[id := s']> (schedules (w_db w)) /\
       if sd_enabled s then s' = set_sd_enabled false s
       else exists next_run, next_fire_time (sd_cron s) (sd_timezone s) (w_now w) = Ok next_run /\
         s' = set_sd_next_run_at next_run (set_sd_enabled true s) /\ schedule_due (w_now w) s' = false).
Proof using Type*.
  assert (Haud : forall r s action v x v', schedule_audit po r user s action v = (x, v') -> schedules (w_db v') = schedules (w_db v)).
  { intros r s action v x v' E. pose proof (keeps_audit schedules po r action (Some (u_id user)) (Some (py "schedule"))
      (Some (uuid_str (sd_id s))) [(py "kind", JStr (ScheduleKind_value (sd_kind s)))] (fun _ _ => eq_refl) v) as [Hk _].
    unfold schedule_audit in E. by rewrite E in Hk. }
  assert (Hdue : forall s next_run, sd_next_run_at s = next_run -> w_now w < next_run -> schedule_due (w_now w) s = false).
  { intros s n <- Hlt. unfold schedule_due. apply andb_false_iff. right. lia. }
  split.
  - intros r resp w' E. apply create_schedule_inv in E as [(e&?&_)|(f&id&w1&Hf&Hnew&Hdb&_&_&E)]; [done|].
    apply mbind_inv in E as (u&w2&E1&E2). injection E2 as _ <-. apply Haud in E1. rewrite Hdb in E1.
    destruct (read_form MAX_FORM r) as [form|]; [|done]. cbn [rbind] in Hf. apply schedule_form_inv in Hf as (_&_&Hn).
    eexists. split; [|split; [exact E1|]]; [done|]. repeat (split; [done|]).
    apply (Hdue _ (sf_next_run f)); [done|]. by eapply next_fire_time_after.
  - intros id r resp w' E. unfold toggle_schedule, schedule_or_404, modify_schedule in E. unfold mbind at 1 2, get_db at 1 in E.
    destruct (schedules (w_db w) !! id) as [s|] eqn:Es; [|done]. unfold mret at 1, mbind at 1, modify_db at 1 in E.
    destruct (sd_enabled s) eqn:Een; cbn [negb] in E.
    + unfold mbind at 1, mret at 1 in E. apply mbind_inv in E as (u&w2&E1&E2). injection E2 as _ <-. apply Haud in E1.
      exists s, (set_sd_enabled false s). split; [done|]. split; [|by rewrite Een].
      rewrite E1. cbn. by apply alter_at.
    + unfold mbind at 1 2, clock at 1 in E. cbn [w_now with_db] in E. unfold mbind at 1, lift in E.
      destruct (next_fire_time _ _ _) as [n|e] eqn:En; [|done]. unfold modify_db, with_db in E. cbn [w_db w_committed w_draws w_now] in E.
      apply mbind_inv in E as (u&w2&E1&E2). injection E2 as _ <-. apply Haud in E1. cbn in E1.
      exists s, (set_sd_next_run_at n (set_sd_enabled true s)). split; [done|]. rewrite Een. split.
      * rewrite E1, (alter_at (set_sd_enabled true) id s (schedules (w_db w)) Es). rewrite (alter_at _ id (set_sd_enabled true s)) by apply lookup_insert_eq.
        by rewrite insert_insert_eq.
      * exists n. split; [done|]. split; [done|]. apply (Hdue _ n); [done|]. by eapply next_fire_time_after.
Qed.
End Properties.

(** ** Witnesses *)

Definition schedule_request : WebRequest :=
  mkWebRequest None ∅ ∅ [] (py "kind=scan_domain&target=corp.example&cron=0+2+*+*+*&timezone=UTC&misfire_grace_seconds=60").
Definition created_schedule : World :=
  (get_db_session (@create_schedule ascii_unicode counting_entropy every_minute sample_portal schedule_request watch_user) watch_world).2.

Lemma schedules_stay_valid_witness :
  both (@schedules_valid every_minute) created_schedule /\
  map (fun s => (sd_target s, sd_misfire_grace_seconds s)) (map_to_list (schedules (w_committed created_schedule))).*2
    = [(py "corp.example", 60)].
Proof.
  split; [|vm_compute; reflexivity].
  refine (proj1 (@schedules_stay_valid ascii_unicode counting_entropy plain_heap ascii_collation every_minute every_minute_laws
    exn_name sample_portal watch_world created_schedule _ _)).
  - split; intros k s Hk; change ((∅ : gmap Z Schedule) !! k = Some s) in Hk; by rewrite lookup_empty in Hk.
  - apply rtc_once. apply (schedule_create exn_name sample_portal watch_world schedule_request watch_user).
Defined.

Lemma enabled_schedule_waits_witness :
  exists s, schedules (w_db (@create_schedule ascii_unicode counting_entropy every_minute sample_portal schedule_request watch_user
              watch_world).2) !! sd_id s = Some s /\ sd_enabled s = true /\ schedule_due 200 s = false.
Proof.
  destruct (@create_schedule ascii_unicode counting_entropy every_minute sample_portal schedule_request watch_user watch_world)
    as [[resp|e] w'] eqn:E.
  - destruct (proj1 (@enabled_schedule_waits ascii_unicode counting_entropy every_minute every_minute_laws sample_portal watch_user
      watch_world) schedule_request resp w' E) as (s&_&Hs&He&_&_&Hd).
    exists s. split; [|by split]. cbn [snd]. rewrite Hs. apply lookup_insert_eq.
  - exfalso. assert (Hok : match (@create_schedule ascii_unicode counting_entropy every_minute sample_portal schedule_request
      watch_user watch_world).1 with Ok _ => True | Raise _ => False end) by (vm_compute; exact I). by rewrite E in Hok.
Defined.
