(* ===== verification/Campaigns.v ===== *)
(** The batch routes (app/routers/batches.py), the notification campaigns (app/routers/notifications.py)
    and the remediation API (app/routers/findings.py). *)
From S2P Require Import Prelude PyBase Encoding Hashes Json Models Store Config Normalization Remediation Notifications Alerts Batches Access LocalAuth Web SignIn Analyst Watchlist.

Definition MAX_TARGET_FORM : Z := 12 * 1024.

(** ** Batches *)

Section BatchRoutes.
Context `{Unicode} `{Entropy} `{HeapOrder} `{Collation}.

(** [tuple(uuid.UUID(item.strip()) for item in text.split(",") if item.strip())] *)
Definition parse_selection (text : pystr) : result (list uuid) :=
  rmap parse_uuid (List.filter (fun item => negb (bool_decide (item = []))) (map strip (split_char 44 text))).

Definition batch_target (text : pystr) : result BatchTarget :=
  if bool_decide (text = BatchTarget_value Target_OU) then Ok Target_OU
  else if bool_decide (text = BatchTarget_value Target_DOMAIN) then Ok Target_DOMAIN
  else if bool_decide (text = BatchTarget_value Target_SELECTION) then Ok Target_SELECTION
  else Raise ValueError.

Definition target_of_form (form : list (pystr * pystr)) : result (BatchTarget * TargetValue) :=
  try! target_type <- batch_target (form_get "target_type" [] form);
  let raw_target := strip (form_get "target" [] form) in
  if bool_decide (target_type = Target_SELECTION) then
    try! ids <- parse_selection raw_target;
    if bool_decide (ids = []) then Raise ValueError else Ok (target_type, inr ids)
  else if bool_decide (raw_target = []) then Raise ValueError
  else Ok (target_type, inl raw_target).

Definition value_error_422 {A} (r : result A) : result A :=
  match r with Raise e => Raise (if is_value_error e then HTTPException 422 else e) | Ok a => Ok a end.

Definition add_batch (po : PortalState) (r : WebRequest) (current_user : User) : M WebResponse :=
  if MAX_TARGET_FORM <? Z.of_nat (length (wr_body r)) then raise (HTTPException 413)
  else
    let! text <- lift (utf8_decode (wr_body r));
    let! form <- lift (parse_qsl true false None text);
    let! (target_type, target) <- lift (value_error_422 (target_of_form form));
    let! batch <- try_except (create_batch (u_id current_user) target_type target) is_value_error
                    (fun _ => raise (HTTPException 422));
    do! audit po r "batch.created" (Some (u_id current_user)) (Some (py "scan_batch")) (Some (uuid_str (sb_id batch)))
          [(py "target_type", JStr (BatchTarget_value target_type)); (py "total_count", JInt (sb_total_count batch))];
    do! commit;
    mret (redirect (py "/analyst/batches/" ++ uuid_str (sb_id batch)) []).

Definition list_batches : M (list ScanBatch) :=
  let! d <- get_db;
  mret (take 50 (sort_by (fun a b => sb_created_at b <=? sb_created_at a) (select (fun _ => true) (scan_batches d)))).
Definition batch_or_404 (batch_id : uuid) : M ScanBatch :=
  let! d <- get_db;
  match scan_batches d !! batch_id with Some b => mret b | None => raise (HTTPException 404) end.
Definition batch_progress (batch_id : uuid) : M ScanBatch := batch_or_404 batch_id.
Definition batch_status (batch_id : uuid) : M ScanBatch := batch_or_404 batch_id.

(** ** Campaigns *)

Definition TARGET_TYPES : list pystr := [py "user"; py "ou"; py "domain"; py "selection"].

Definition list_notifications : M (list Notification) :=
  let! d <- get_db;
  mret (take 100 (sort_by (fun a b => n_created_at b <=? n_created_at a) (select (fun _ => true) (notifications d)))).

Definition campaign_target (r : WebRequest) : result (pystr * pystr) :=
  try! form <- read_form MAX_TARGET_FORM r;
  let target_type := form_get "target_type" [] form in
  let target := strip (form_get "target" [] form) in
  if negb (bool_decide (target_type ∈ TARGET_TYPES)) || bool_decide (target = []) then Raise (HTTPException 422)
  else Ok (target_type, target).

(** Which active users a target names. *)
Definition recipient_filter (target_type target : pystr) : result (User -> bool) :=
  if bool_decide (target_type = py "user") then Ok (fun u => citext_eq (u_email u) (casefold target))
  else if bool_decide (target_type = py "ou") then
    Ok (fun u => match u_ou_path u with
                 | Some p => bool_decide (p = target) || like (escaped_ou_prefix target) p
                 | None => false
                 end)
  else if bool_decide (target_type = py "domain") then
    Ok (fun u => ilike (37 :: 64 :: escape_like (lstrip_by (Z.eqb 64) (casefold target))) (u_email u))
  else try! ids <- value_error_422 (parse_selection target); Ok (fun u => bool_decide (u_id u ∈ ids)).

(** The joined rows by user and finding, grouped by user. *)
Definition recipient_findings (target_type target : pystr) : M (list (uuid * list uuid)) :=
  let! matches <- lift (recipient_filter target_type target);
  let! d <- get_db;
  mret (List.filter (fun g => negb (bool_decide (g.2 = [])))
    (map (fun u => (u, open_findings_of d u))
       (sort_by Z.leb (map u_id (select (fun u => u_is_active u && matches u) (users d)))))).

(** The confirmation page shows the target and the number of recipients. *)
Definition preview_notifications (r : WebRequest) : M (pystr * pystr * Z) :=
  let! (target_type, target) <- lift (campaign_target r);
  let! recipients <- recipient_findings target_type target;
  mret (target_type, target, Z.of_nat (length recipients)).

Definition confirm_notifications (po : PortalState) (r : WebRequest) (current_user : User) : M WebResponse :=
  let! (target_type, target) <- lift (campaign_target r);
  let! recipients <- recipient_findings target_type target;
  let! _ <- mfor (fun g => enqueue_notification g.1 g.2 TEMPLATE) recipients;
  do! audit po r "notifications.campaign_queued" (Some (u_id current_user)) (Some (py "notification_campaign")) None
        [(py "target_type", JStr target_type); (py "recipient_count", JInt (Z.of_nat (length recipients)))];
  mret (see_other "/analyst/notifications").

(** ** The remediation API *)

Record RemediationRequest := mkRemediationRequest { rq_note : option pystr }.
(** The validated body: [note] is optional text of at most 2000 characters. *)
Definition remediation_request (body : json) : result RemediationRequest :=
  match body with
  | JDict fields =>
      match dict_get (py "note") fields with
      | None | Some JNull => Ok (mkRemediationRequest None)
      | Some (JStr s) => if (length s <=? Z.to_nat 2000)%nat then Ok (mkRemediationRequest (Some s)) else Raise (HTTPException 422)
      | Some _ => Raise (HTTPException 422)
      end
  | _ => Raise (HTTPException 422)
  end.
Definition finding_state (id : uuid) (state : string) : json := JDict [(py "id", JStr (uuid_str id)); (py "state", JStr (py state))].

Definition remediate (po : PortalState) (finding_id : uuid) (body : json) (r : WebRequest) (current_user : User) : M WebResponse :=
  let! payload <- lift (remediation_request body);
  let! finding <- or_404 (remediate_finding finding_id (u_id current_user) (rq_note payload) None);
  do! audit po r "finding.remediated" (Some (u_id current_user)) (Some (py "finding")) (Some (uuid_str (f_id finding))) [];
  mret (json_response 200 (finding_state (f_id finding) "remediated")).
Definition unremediate (po : PortalState) (finding_id : uuid) (r : WebRequest) (current_user : User) : M WebResponse :=
  let! finding <- or_404 (unremediate_finding finding_id (u_id current_user) None);
  do! audit po r "finding.unremediated" (Some (u_id current_user)) (Some (py "finding")) (Some (uuid_str (f_id finding))) [];
  mret (json_response 200 (finding_state (f_id finding) "unremediated")).

End BatchRoutes.

(** ** Lemmas *)

Section CampaignLemmas.
Context `{Unicode} `{Entropy} `{HeapOrderLaws} `{Collation}.

Lemma recipient_findings_inv target_type target w groups w' :
  recipient_findings target_type target w = (Ok groups, w') ->
  w' = w /\ exists matches, recipient_filter target_type target = Ok matches /\
    forall g, g ∈ groups <-> g.2 = open_findings_of (w_db w) g.1 /\ g.2 <> [] /\
      exists k x, users (w_db w) !! k = Some x /\ u_id x = g.1 /\ u_is_active x = true /\ matches x = true.
Proof using Type*.
  unfold recipient_findings, mbind, lift, get_db. destruct (recipient_filter target_type target) as [matches|e]; [|done].
  intros [= <- <-]. split; [done|]. exists matches. split; [done|]. intros g.
  rewrite list_elem_of_In, filter_In, in_map_iff, negb_true_iff, bool_decide_eq_false.
  setoid_rewrite <- list_elem_of_In. setoid_rewrite (elem_of_sort_by Z.leb).
  setoid_rewrite list_elem_of_fmap. setoid_rewrite elem_of_select. setoid_rewrite andb_true_iff. split.
  - intros [(u&<-&x&->&[Ha Hm]&k&Hk) Hne]. cbn. split; [done|]. split; [done|]. by exists k, x.
  - intros (Hg&Hne&k&x&Hk&Hid&Ha&Hm). split; [|done]. exists g.1. split; [by rewrite <- Hg; destruct g|].
    exists x. split; [done|]. split; [by split|eauto].
Qed.

End CampaignLemmas.

(** ** Properties *)

Section CampaignProperties.
Context `{Unicode} `{Entropy} `{HeapOrderLaws} `{Collation}.

(** A campaign reaches exactly the people its target names.  When a campaign is confirmed, every
    notification it adds is pending and for an active user whom the target matches, and lists
    exactly that user's open findings; every active matching user with an open finding has a
    notification for those findings afterwards; no other notification is touched; and the preview of
    the same form in the same state shows the number of recipients that the audit event records. *)
Theorem campaign_reaches_target po r user w resp w' :
  confirm_notifications po r user w = (Ok resp, w') ->
  exists target_type target matches n,
    campaign_target r = Ok (target_type, target) /\ recipient_filter target_type target = Ok matches /\
    let recipient id := exists k x, users (w_db w) !! k = Some x /\ u_id x = id /\ u_is_active x = true /\ matches x = true in
    (forall k m, notifications (w_db w) !! k = Some m -> notifications (w_db w') !! k = Some m) /\
    (forall k m, notifications (w_db w') !! k = Some m -> notifications (w_db w) !! k = Some m \/
       (recipient (n_user_id m) /\ n_template m = TEMPLATE /\ n_status m = Notification_PENDING /\
        open_findings_of (w_db w) (n_user_id m) <> [] /\
        n_finding_ids m = sorted_ids (open_findings_of (w_db w) (n_user_id m)))) /\
    (forall id, recipient id -> open_findings_of (w_db w) id <> [] ->
       has_notification id (open_findings_of (w_db w) id) TEMPLATE (w_db w')) /\
    preview_notifications r w = (Ok (target_type, target, n), w) /\
    exists e, audit_log (w_db w') = audit_log (w_db w) ++ [e] /\ al_actor_id e = Some (u_id user) /\
      al_meta e = [(py "target_type", JStr target_type); (py "recipient_count", JInt n)].
Proof using Type*.
  unfold confirm_notifications, mbind at 1, lift at 1. destruct (campaign_target r) as [[target_type target]|e] eqn:Ec; [|done].
  intros (groups&w0&Er&E)%mbind_inv. pose proof Er as Er0. apply recipient_findings_inv in Er as (->&matches&Hm&Hg).
  apply mbind_inv in E as (ys&w1&Eq&E). apply mbind_inv in E as (u&w2&Ea&E). injection E as _ <-.
  assert (Hlog : audit_log (w_db w1) = audit_log (w_db w)).
  { assert (Hkeep : keeps audit_log (mfor (fun g => enqueue_notification g.1 g.2 TEMPLATE) groups))
      by (apply keeps_mfor; intros g; unfold enqueue_notification; frame).
    specialize (Hkeep w). rewrite Eq in Hkeep. apply Hkeep. }
  apply enqueue_groups in Eq as [[Hk Hn] Hh]; [|intros g Hin; by apply Hg in Hin as (_&?&_)].
  apply audit_db in Ea as (_&_&ev&Hdb&_&Hact&_&_&Hmeta&_).
  assert (Hnot : notifications (w_db w2) = notifications (w_db w1)) by (by rewrite Hdb).
  exists target_type, target, matches, (Z.of_nat (length groups)). split; [done|]. split; [done|]. cbn zeta.
  split; [intros k m Hm0; rewrite Hnot; auto|]. split; [|split; [|split]].
  - intros k m. rewrite Hnot. intros [Hm0|((g&Hin&Hu&Ht&Hl)&Hs&_)]%Hn; [by left|right].
    apply Hg in Hin as (Hgf&Hne&Hx). rewrite Hu, <- Hgf. repeat (split; [done|]). done.
  - intros id Hrec Hopen. destruct (Hh (id, open_findings_of (w_db w) id)) as (key&k&m&Hkey&Hm0&Hd).
    + apply Hg. by repeat split.
    + exists key, k, m. by rewrite Hnot.
  - unfold preview_notifications, mbind at 1, lift at 1. rewrite Ec. unfold mbind. by rewrite Er0.
  - exists ev. rewrite Hdb, Hlog. done.
Qed.

(** A batch form that is not UTF-8 is not refused but fails: the decoding stands outside the block
    that turns its exception into 422. *)
Theorem batch_form_decoding_escapes po r user w :
  Z.of_nat (length (wr_body r)) <= MAX_TARGET_FORM -> utf8_decode (wr_body r) = Raise UnicodeDecodeError ->
  add_batch po r user w = (Raise UnicodeDecodeError, w).
Proof using Type.
  intros Hl Hd. unfold add_batch. destruct (Z.ltb_spec MAX_TARGET_FORM (Z.of_nat (length (wr_body r)))); [lia|].
  unfold mbind at 1, lift. by rewrite Hd.
Qed.
Example batch_form_decoding_example : utf8_decode [255] = Raise UnicodeDecodeError.
Proof. reflexivity. Qed.

(** The API and the analyst's page mark a finding in the same way. *)
Theorem api_agrees_with_page po id body r user w :
  remediation_request body = Ok (mkRemediationRequest None) ->
  (remediate po id body r user w).2 = (mark_remediated po id r user w).2.
Proof using Type.
  intros Hb. unfold remediate, mark_remediated. unfold mbind at 1, lift at 1. rewrite Hb. cbn [rq_note]. unfold mbind at 1 3.
  destruct (or_404 _ w) as [[f|e] w1]; [|done]. unfold mbind.
  destruct (audit po r _ _ _ _ _ w1) as [[u|e] w2]; done.
Qed.
End CampaignProperties.

(** ** Witness *)

Definition affected_user : User :=
  mkUser 8 (py "user@corp.example") None (py "User") None Role_USER true Source_MANUAL 0 None.
Definition campaign_world : World :=
  let subject := mkSubject 3 Kind_EMAIL (py "user@corp.example") (py "user@corp.example") None None (Some 8) in
  let d := set_findings {[5 := watched_finding]} (set_subjects {[3 := subject]}
             (set_users {[7 := watch_user; 8 := affected_user]} empty_db)) in mkWorld d d 100 200.
Definition campaign_request : WebRequest := mkWebRequest None ∅ ∅ [] (py "target_type=domain&target=%40Corp.example").
Definition campaign_run : result WebResponse * World :=
  @confirm_notifications ascii_unicode counting_entropy plain_heap ascii_collation sample_portal campaign_request watch_user campaign_world.
Lemma campaign_answers : match campaign_run.1 with Ok _ => True | Raise _ => False end.
Proof. vm_compute. exact I. Qed.

Lemma campaign_reaches_target_witness :
  exists k n, notifications (w_db campaign_run.2) !! k = Some n /\
    (n_user_id n = 8 -> n_finding_ids n = sorted_ids (@open_findings_of plain_heap (w_db campaign_world) 8)) /\
    has_notification 8 (@open_findings_of plain_heap (w_db campaign_world) 8) TEMPLATE (w_db campaign_run.2).
Proof.
  pose proof campaign_answers as Hok. destruct campaign_run as [[resp|e] w'] eqn:E; [|done].
  destruct (@campaign_reaches_target ascii_unicode counting_entropy plain_heap
    (Build_HeapOrderLaws plain_heap (fun A l => reflexivity l)) ascii_collation sample_portal campaign_request watch_user
    campaign_world resp w' E) as (target_type&target&matches&n&Hc&Hm&_&Hnew&Hall&_).
  assert (Hopen : @open_findings_of plain_heap (w_db campaign_world) 8 = [5]) by (vm_compute; reflexivity).
  assert (Hrec : exists k x, users (w_db campaign_world) !! k = Some x /\ u_id x = 8 /\ u_is_active x = true /\ matches x = true).
  { exists 8, affected_user. split; [reflexivity|]. split; [done|]. split; [done|].
    assert (Ht : @campaign_target ascii_unicode campaign_request = Ok (py "domain", py "@Corp.example")) by (vm_compute; reflexivity).
    rewrite Ht in Hc. injection Hc as <- <-. injection Hm as <-. vm_compute. reflexivity. }
  destruct (Hall 8 Hrec) as (key&k&m&Hkey&Hk&Hd); [by rewrite Hopen|].
  exists k, m. split; [exact Hk|]. split; [|by exists key, k, m].
  intros H8. destruct (Hnew k m Hk) as [Hold|(_&_&_&_&Hl)].
  - change ((∅ : gmap Z Notification) !! k = Some m) in Hold. by rewrite lookup_empty in Hold.
  - by rewrite H8 in Hl.
Defined.
