(* ===== verification/AuditPages.v ===== *)
(** The audit-log viewer (app/routers/audit.py): its filters, its pages and its markup. *)
From S2P Require Import Prelude PyBase Encoding Hashes Json Models Store Config Batches Access Web LocalAuth Layout Repr SignIn.

Definition PAGE_SIZE : nat := 50.
Definition MAX_PAGE : Z := 1000.

(** The validated query: [Query(max_length=128)], [Query(max_length=255)], [Query(ge=1, le=_MAX_PAGE)]. *)
Record AuditQuery := mkAuditQuery {
  aq_action : option pystr;
  aq_actor : option pystr;
  aq_since : option (instant * pystr);  (* with its ISO form in minutes *)
  aq_until : option (instant * pystr);
  aq_page_number : Z;
}.
Definition audit_query_ok (q : AuditQuery) : bool :=
  null_or (fun s => Z.of_nat (length s) <=? 128) (aq_action q) && null_or (fun s => Z.of_nat (length s) <=? 255) (aq_actor q)
  && (1 <=? aq_page_number q) && (aq_page_number q <=? MAX_PAGE).

Section AuditPages.
Context `{Unicode} `{HeapOrder} `{Collation}.

(** *** The rows *)

(** The event with the address of its actor, from the outer join. *)
Definition with_actor (d : Db) (e : AuditLog) : AuditLog * option pystr :=
  (e, a ← al_actor_id e; u_email <$> users d !! a).

Definition text_filter (wanted : option pystr) (value : option pystr) : bool :=
  match wanted with
  | Some (c :: s) => match value with Some v => ilike (37 :: (c :: s) ++ [37]) v | None => false end
  | _ => true
  end.
Definition filtered (q : AuditQuery) (row : AuditLog * option pystr) : bool :=
  text_filter (aq_action q) (Some (al_action row.1)) && text_filter (aq_actor q) row.2
  && null_or (fun t => t.1 <=? al_at row.1) (aq_since q) && null_or (fun t => al_at row.1 <=? t.1) (aq_until q).

Definition newest_first (a b : AuditLog * option pystr) : bool := al_at b.1 <=? al_at a.1.
Definition audit_rows (q : AuditQuery) (d : Db) : list (AuditLog * option pystr) :=
  sort_by newest_first (List.filter (filtered q) (map (with_actor d) (heap_order AuditLog (audit_log d)))).
(** [OFFSET (page - 1) * 50 LIMIT 51] *)
Definition found_rows (q : AuditQuery) (d : Db) : list (AuditLog * option pystr) :=
  take (S PAGE_SIZE) (drop ((Z.to_nat (aq_page_number q) - 1) * PAGE_SIZE) (audit_rows q d)).
Definition has_more (q : AuditQuery) (d : Db) : bool := (PAGE_SIZE <? length (found_rows q d))%nat.
Definition page_entries (q : AuditQuery) (d : Db) : list (AuditLog * option pystr) := take PAGE_SIZE (found_rows q d).

Variable float_str : pystr -> pystr.

Definition summarise (meta : list (pystr * json)) : pystr :=
  match meta with
  | [] => py "-"
  | _ => let rendered := join (py ", ") (map (fun kv => kv.1 ++ [61] ++ repr float_str kv.2) (sort_by (fun a b => str_leb a.1 b.1) meta)) in
         if (length rendered <=? 300)%nat then rendered else take 297 rendered ++ py "..."
  end.

(** *** The markup *)

Definition or_default (default_ : pystr) (value : option pystr) : pystr :=
  match value with Some (c :: s) => c :: s | _ => default_ end.
Definition truthy (value : option pystr) : list pystr := match value with Some (c :: s) => [c :: s] | _ => [] end.

Definition audit_row (row : AuditLog * option pystr) : pystr :=
  let '(entry, actor_email) := row in
  let target := join [32] (truthy (al_target_type entry) ++ truthy (al_target_id entry)) in
  tpl "<tr><td>" ++ esc (replace_char 84 [32] (instant_isoformat (al_at entry - al_at entry mod second))) ++
  tpl "</td><td>" ++ esc (or_default (py "system") actor_email) ++
  tpl "</td><td>" ++ esc (al_action entry) ++
  tpl "</td><td>" ++ esc (or_default (py "-") (Some target)) ++
  tpl "</td><td><code>" ++ esc (summarise (al_meta entry)) ++ tpl "</code></td></tr>".
Definition rows_markup (entries : list (AuditLog * option pystr)) : pystr :=
  match entries with
  | [] => tpl "<tr><td colspan=`5`>No audit entries match these filters.</td></tr>"
  | _ => flat_map audit_row entries
  end.

Fixpoint set_param (k v : pystr) (params : list (pystr * pystr)) : list (pystr * pystr) :=
  match params with
  | [] => [(k, v)]
  | (k', v') :: t => if bool_decide (k' = k) then (k, v) :: t else (k', v') :: set_param k v t
  end.
(** [dict(request.query_params)]: a repeated name keeps its first place and its last value. *)
Definition query_dict (query : list (pystr * pystr)) : list (pystr * pystr) :=
  foldl (fun d kv => set_param kv.1 kv.2 d) [] query.
Definition page_query (r : WebRequest) (target : Z) : pystr :=
  join [38] (map (fun kv => html_escape kv.1 ++ [61] ++ html_escape kv.2)
    (set_param (py "page") (str_int target) (query_dict (wr_query r)))).
Definition page_link (r : WebRequest) (target : Z) (label : string) : pystr :=
  tpl "<a href=`/admin/audit?" ++ page_query r target ++ tpl "`>" ++ py label ++ tpl "</a>".
Definition pager (page_number : Z) (more : bool) (r : WebRequest) : pystr :=
  tpl "<p class=`pager`>" ++
  join [32] ((if 1 <? page_number then [page_link r (page_number - 1) "Previous"] else []) ++
             [tpl "<span>Page " ++ str_int page_number ++ tpl "</span>"] ++
             (if more then [page_link r (page_number + 1) "Next"] else [])) ++
  tpl "</p>".

Definition audit_content (q : AuditQuery) (entries : list (AuditLog * option pystr)) (more : bool) (r : WebRequest) : pystr :=
  tpl "<section class=`hero compact`><p class=`eyebrow`>Administration</p>" ++
  tpl "<h1>Audit log</h1><p>Every human action and authentication event, newest first. " ++
  tpl "Client addresses are stored only as a keyed hash and are never shown.</p></section>" ++
  tpl "<form class=`panel` method=`get` action=`/admin/audit`>" ++
  tpl "<label>Action <input name=`action` value=`" ++
  esc (or_default [] (aq_action q)) ++
  tpl "`></label>" ++
  tpl "<label>Actor email <input name=`actor` value=`" ++
  esc (or_default [] (aq_actor q)) ++
  tpl "`></label>" ++
  tpl "<label>From <input type=`datetime-local` name=`since` value=`" ++
  esc (default [] (snd <$> aq_since q)) ++
  tpl "`></label>" ++
  tpl "<label>To <input type=`datetime-local` name=`until` value=`" ++
  esc (default [] (snd <$> aq_until q)) ++
  tpl "`></label>" ++
  tpl "<button type=`submit`>Filter</button> " ++
  tpl "<a href=`/admin/audit`>Clear</a></form>" ++
  tpl "<section class=`panel`><div class=`table-wrap`><table><thead><tr>" ++
  tpl "<th>When</th><th>Actor</th><th>Action</th><th>Target</th><th>Detail</th>" ++
  tpl "</tr></thead><tbody>" ++
  rows_markup entries ++
  tpl "</tbody></table></div>" ++
  pager (aq_page_number q) more r ++
  tpl "</section>".

Definition audit_page (q : AuditQuery) (r : WebRequest) (current_user : User) : M WebResponse :=
  if negb (audit_query_ok q) then raise (HTTPException 422)
  else
    let! d <- get_db;
    mret (html_response 200 (B_text (page (py "Audit log") (audit_content q (page_entries q d) (has_more q d) r)
            current_user [py "/static/admin-settings.css?v=7"] [])) []).

End AuditPages.

(** ** Lemmas *)

Definition at_page (n : Z) (q : AuditQuery) : AuditQuery :=
  mkAuditQuery (aq_action q) (aq_actor q) (aq_since q) (aq_until q) n.

Lemma newest_first_total a b : newest_first a b = true \/ newest_first b a = true.
Proof. unfold newest_first. lia. Qed.
Lemma newest_first_trans a b c : newest_first a b = true -> newest_first b c = true -> newest_first a c = true.
Proof. unfold newest_first. lia. Qed.

(** Consecutive pages of a list. *)
Lemma concat_pages {A} (k n : nat) (l : list A) :
  concat (map (fun i => take k (drop ((i - 1) * k) l)) (seq 1 n)) = take (n * k) l.
Proof.
  induction n as [|n IH]; [done|]. rewrite seq_S, map_app, concat_app, IH. cbn [map concat].
  rewrite app_nil_r. replace (1 + n - 1)%nat with n by lia. replace (S n * k)%nat with (n * k + k)%nat by lia.
  by rewrite take_take_drop.
Qed.

Section AuditLemmas.
Context `{Unicode} `{HeapOrderLaws} `{Collation}.

Lemma elem_of_audit_rows q d row :
  row ∈ audit_rows q d <-> filtered q row = true /\ exists e, e ∈ audit_log d /\ row = with_actor d e.
Proof using Type*.
  unfold audit_rows. rewrite (sort_by_perm newest_first), list_elem_of_In, filter_In, in_map_iff.
  setoid_rewrite <- list_elem_of_In. setoid_rewrite (heap_order_perm AuditLog). split.
  - intros [(e&<-&He) Hf]. eauto.
  - intros [Hf (e&He&->)]. split; [by exists e|done].
Qed.

Lemma page_entries_at q d (i : nat) : (1 <= i)%nat ->
  page_entries (at_page (Z.of_nat i) q) d = take PAGE_SIZE (drop ((i - 1) * PAGE_SIZE) (audit_rows q d)).
Proof using Type.
  intros Hi. unfold page_entries, found_rows. cbn [aq_page_number at_page]. rewrite Nat2Z.id, take_take.
  change (audit_rows (at_page (Z.of_nat i) q) d) with (audit_rows q d). f_equal; lia.
Qed.
Lemma has_more_at q d (i : nat) : (1 <= i)%nat ->
  has_more (at_page (Z.of_nat i) q) d = true <-> (i * PAGE_SIZE < length (audit_rows q d))%nat.
Proof using Type.
  intros Hi. unfold has_more, found_rows. cbn [aq_page_number at_page]. rewrite Nat2Z.id.
  change (audit_rows (at_page (Z.of_nat i) q) d) with (audit_rows q d).
  rewrite Nat.ltb_lt, length_take, length_drop. unfold PAGE_SIZE. lia.
Qed.

Variable float_str : pystr -> pystr.

Lemma skeleton_audit_row row : skeleton (audit_row float_str row) = skeleton (tpl "<tr><td></td><td></td><td></td><td></td><td><code></code></td></tr>").
Proof using Type. destruct row as [e a]. unfold audit_row. cbv zeta. rewrite !skeleton_app. drop_inert. reflexivity. Qed.

Lemma skeleton_rows entries entries' : length entries = length entries' ->
  skeleton (rows_markup float_str entries) = skeleton (rows_markup float_str entries').
Proof using Type.
  intros Hl. destruct entries as [|x es], entries' as [|y es']; try done. unfold rows_markup.
  revert Hl. generalize (x :: es) as l. generalize (y :: es') as l'. clear. intros l' l. revert l'.
  induction l as [|a l IH]; intros [|b l'] Hl; try done. cbn [flat_map]. rewrite !skeleton_app, !skeleton_audit_row.
  f_equal. apply IH. by injection Hl.
Qed.

Lemma inert_page_query r target : inert (page_query r target).
Proof using Type.
  unfold page_query. generalize (set_param (py "page") (str_int target) (query_dict (wr_query r))) as l.
  induction l as [|[k v] l IH]; [done|]. cbn [map fst snd].
  assert (Hkv : inert (html_escape k ++ [61] ++ html_escape v)).
  { apply inert_app; [apply (inert_esc k)|]. apply inert_app; [done|apply (inert_esc v)]. }
  destruct l as [|kv l]; [exact Hkv|]. cbn [map join] in *. apply inert_app; [exact Hkv|]. apply inert_app; [done|exact IH].
Qed.
Lemma skeleton_link r target label : skeleton (page_link r target label) = skeleton (tpl "<a href=``>" ++ py label ++ tpl "</a>").
Proof using Type.
  unfold page_link. rewrite (skeleton_app (tpl _)), (skeleton_app (page_query r target)).
  rewrite_term (skeleton (page_query r target)) (inert_page_query r target). rewrite !skeleton_app. reflexivity.
Qed.

Lemma skeleton_pager p p' more r r' : (1 <? p) = (1 <? p') -> skeleton (pager p more r) = skeleton (pager p' more r').
Proof using Type.
  intros Hp. unfold pager. rewrite Hp. destruct (1 <? p'), more; cbn [app join];
    repeat first [rewrite skeleton_link | rewrite (skeleton_cons 32) | rewrite skeleton_app]; drop_inert; reflexivity.
Qed.
End AuditLemmas.

(** ** Properties *)

Section AuditProperties.
Context `{Unicode} `{HeapOrderLaws} `{Collation}.

(** The pages of the audit log partition it.  The rows behind the pages are exactly the logged
    events that pass the filters, newest first; the first [n] pages together show the first
    [50 * n] of them, each once and in order; and a page offers a next one exactly when rows are left. *)
Theorem audit_pages_partition q d :
  (forall row, row ∈ audit_rows q d <-> filtered q row = true /\ exists e, e ∈ audit_log d /\ row = with_actor d e) /\
  StronglySorted (fun a b => al_at b.1 <= al_at a.1) (audit_rows q d) /\
  (length (audit_rows q d) <= length (audit_log d))%nat /\
  (forall n, concat (map (fun i => page_entries (at_page (Z.of_nat i) q) d) (seq 1 n)) = take (n * PAGE_SIZE) (audit_rows q d)) /\
  (forall i, (1 <= i)%nat -> has_more (at_page (Z.of_nat i) q) d = true <-> (i * PAGE_SIZE < length (audit_rows q d))%nat).
Proof using Type*.
  split; [apply elem_of_audit_rows|]. split; [|split; [|split]].
  - pose proof (sort_by_sorted newest_first newest_first_total newest_first_trans
      (List.filter (filtered q) (map (with_actor d) (heap_order AuditLog (audit_log d))))) as Hs.
    unfold audit_rows. induction Hs as [|x l _ IH Hx]; constructor; [done|]. eapply Forall_impl; [exact Hx|].
    intros y. unfold newest_first. lia.
  - unfold audit_rows. rewrite (sort_by_perm newest_first). etransitivity; [apply filter_length_le|].
    rewrite length_map. by rewrite (heap_order_perm AuditLog).
  - intros n. rewrite <- (concat_pages PAGE_SIZE n). f_equal. apply map_ext_in. intros i [Hi _]%in_seq. by apply page_entries_at.
  - intros i. apply has_more_at.
Qed.

(** The markup of the page's content depends on the number of rows and on which links there are. *)
Lemma same_audit_content float_str q q' entries entries' more r r' :
  length entries = length entries' -> (1 <? aq_page_number q) = (1 <? aq_page_number q') ->
  same_markup (audit_content float_str q entries more r) (audit_content float_str q' entries' more r').
Proof using Type.
  intros Hl Hp. unfold audit_content. markup.
  - exact (skeleton_rows float_str _ _ Hl).
  - exact (skeleton_pager _ _ more r r' Hp).
Qed.

(** The detail column is short, whatever was logged. *)
Theorem summarise_bounded float_str meta : (length (summarise float_str meta) <= 300)%nat.
Proof using Type.
  unfold summarise. destruct meta as [|kv meta]; [vm_compute; lia|].
  match goal with |- context [join ?s ?l] => set (rendered := join s l) end. destruct (Nat.leb_spec (length rendered) 300); [done|].
  rewrite length_app, length_take. assert (Hd : length (py "...") = 3%nat) by done. lia.
Qed.

(** A page link carries the filter unencoded, so a plus sign of the filter comes back as a space. *)
Theorem page_link_changes_filter :
  let r := mkWebRequest None ∅ ∅ [(py "action", py "a+b")] [] in
  page_query r 2 = py "action=a+b&page=2" /\
  parse_qsl true false None (page_query r 2) = Ok [(py "action", py "a b"); (py "page", py "2")].
Proof using Type. vm_compute. auto. Qed.
(** The last page that the route admits links to one that it refuses. *)
Theorem last_page_links_beyond q : audit_query_ok (at_page (MAX_PAGE + 1) q) = false /\
  forall r, exists a, pager MAX_PAGE true r = a ++ [32] ++ page_link r (MAX_PAGE + 1) "Next" ++ tpl "</p>".
Proof using Type.
  split; [unfold audit_query_ok; cbn [aq_page_number at_page]; unfold MAX_PAGE; lia|]. intros r.
  exists (tpl "<p class=`pager`>" ++ page_link r (MAX_PAGE - 1) "Previous" ++ [32] ++ tpl "<span>Page " ++ str_int MAX_PAGE ++ tpl "</span>").
  unfold pager. change (1 <? MAX_PAGE) with true. cbn [app join]. rewrite <- !app_assoc. done.
Qed.
End AuditProperties.

Definition logged (i : Z) : AuditLog := mkAuditLog i (Some 1) (py "user.updated") None None [] i [].
Lemma audit_pages_partition_witness :
  let d := set_audit_log (map logged (map Z.of_nat (seq 0 60))) empty_db in
  let q := mkAuditQuery (Some (py "UPDATED")) None None None 1 in
  concat (map (fun i => @page_entries plain_heap ascii_collation (at_page (Z.of_nat i) q) d) (seq 1 2))
    = map (with_actor d) (rev (audit_log d)).
Proof.
  intros d q.
  destruct (@audit_pages_partition plain_heap (Build_HeapOrderLaws plain_heap (fun A l => reflexivity l))
    ascii_collation q d) as (_&_&_&Hpages&_).
  rewrite (Hpages 2%nat). vm_compute. reflexivity.
Defined.
