(* ===== verification/OperationPages.v ===== *)
(** The pages for the analysts' background work: the watchlist (app/watchlist_ui.py), schedules
    (app/schedule_ui.py), notification campaigns (app/notification_ui.py) and batches (app/batch_ui.py). *)
From S2P Require Import Prelude PyBase Encoding Hashes Json Models Store IpAddress Web Layout Repr Watchlist.

(** ** The watchlist *)

Definition checkbox (name label : pystr) (checked : bool) : pystr :=
  let marker := (if checked then tpl " checked" else []) in
  tpl "<label><input type=`checkbox` name=`" ++
  name ++
  tpl "` value=`true`" ++
  marker ++
  tpl "> " ++
  esc (label) ++
  tpl "</label>".

Definition toggle_cell (entry_id : uuid) (channel : pystr) (value : bool) : pystr :=
  tpl "<td><form method=`post` action=`/analyst/watchlist/" ++
  uuid_str entry_id ++
  tpl "/toggle/" ++
  channel ++
  tpl "`><button type=`submit` class=`link-button`>" ++
  (if value then tpl "yes" else tpl "no") ++
  tpl "</button></form></td>".

Definition watchlist_row (view : WatchlistView) : pystr :=
  let entry := wv_entry view in
  let cells := flat_map (fun '(channel, value) => toggle_cell (wl_id entry) channel value) 
    [(py "alert_soc", wl_alert_soc entry); (py "alert_user", wl_alert_user entry); (py "alert_wazuh", wl_alert_wazuh entry);
     (py "alert_iris", wl_alert_iris entry); (py "enabled", wl_enabled entry)] in
  tpl "<tr><td>" ++
  esc (wv_target_label view) ++
  tpl "</td>" ++
  cells ++
  tpl "<td><form method=`post` action=`/analyst/watchlist/" ++
  uuid_str (wl_id entry) ++
  tpl "/delete`><button type=`submit` class=`secondary`>Remove</button></form></td></tr>".

Definition watchlist_page (user : User) (entries : list WatchlistView) : pystr :=
  let rows := (or_text (flat_map (fun view => watchlist_row view) entries) (tpl "<tr><td colspan=`7` class=`empty`>No watchlist entries.</td></tr>")) in
  let content := tpl "<section class=`hero compact`><p class=`eyebrow`>High-value identities</p>" ++
    tpl "<h1>Watchlist</h1><p>New and re-leaked findings are copied to the durable " ++
    tpl "alert outbox. SIEM adapters remain inactive until their live contracts are " ++
    tpl "verified.</p>" ++
    tpl "</section><section class=`panel`><h2>Add entry</h2>" ++
    tpl "<form method=`post` action=`/analyst/watchlist`>" ++
    tpl "<label>Target type<select name=`target_type`><option value=`user`>User email</option>" ++
    tpl "<option value=`subject`>Subject UUID</option></select></label>" ++
    tpl "<label>Target<input name=`target` maxlength=`320` required></label>" ++
    checkbox (py "alert_soc") (py "SOC email") true ++
    checkbox (py "alert_user") (py "User email") true ++
    checkbox (py "alert_wazuh") (py "Wazuh") true ++
    checkbox (py "alert_iris") (py "DFIR-IRIS") true ++
    tpl "<button type=`submit`>Add to watchlist</button></form></section>" ++
    tpl "<section class=`panel`><h2>Entries</h2><div class=`table-wrap`><table>" ++
    tpl "<thead><tr><th>Target</th><th>SOC</th><th>User</th><th>Wazuh</th>" ++
    tpl "<th>IRIS</th><th>Enabled</th><th>Action</th></tr></thead><tbody>" ++
    rows ++
    tpl "</tbody>" ++
    tpl "</table></div></section>" in
  page (py "Watchlist") content user [] [].

(** ** Schedules *)

Definition preview_fragment (next_run : instant) : pystr :=
  tpl "Next run: <strong>" ++
  esc (instant_isoformat next_run) ++
  tpl "</strong>".

Definition schedule_row (schedule : Schedule) : pystr :=
  let action := (if sd_enabled schedule then tpl "Disable" else tpl "Enable") in
  let error := match sd_last_error schedule with
               | Some (c :: t) => tpl "<br><small>" ++ esc (c :: t) ++ tpl "</small>"
               | _ => []
               end in
  let latest := match sd_last_batch_id schedule with
                | Some id => tpl "<a href=`/analyst/batches/" ++ uuid_str id ++ tpl "`>View latest results</a>"
                | None => tpl "Not run yet"
                end in
  tpl "<tr><td>" ++
  esc (ScheduleKind_value (sd_kind schedule)) ++
  tpl "</td><td>" ++
  esc (sd_target schedule) ++
  tpl "</td>" ++
  tpl "<td><code>" ++
  esc (sd_cron schedule) ++
  tpl "</code></td><td>" ++
  esc (sd_timezone schedule) ++
  tpl "</td>" ++
  tpl "<td>" ++
  esc (instant_isoformat (sd_next_run_at schedule)) ++
  error ++
  tpl "</td>" ++
  tpl "<td>" ++
  latest ++
  tpl "</td><td>" ++
  (if sd_enabled schedule then tpl "enabled" else tpl "disabled") ++
  tpl "</td><td>" ++
  tpl "<form method=`post` action=`/analyst/schedules/" ++
  uuid_str (sd_id schedule) ++
  tpl "/toggle`>" ++
  tpl "<button type=`submit`>" ++
  action ++
  tpl "</button></form>" ++
  tpl "<form method=`post` action=`/analyst/schedules/" ++
  uuid_str (sd_id schedule) ++
  tpl "/delete`>" ++
  tpl "<button type=`submit` class=`secondary`>Delete</button></form></td></tr>".

Definition schedules_page (user : User) (schedules : list Schedule) : pystr :=
  let rows := (or_text (flat_map (fun schedule => schedule_row schedule) schedules) (tpl "<tr><td colspan=`8` class=`empty`>No schedules configured.</td></tr>")) in
  let content := tpl "<section class=`hero compact`><p class=`eyebrow`>Recurring operations</p>" ++
    tpl "<h1>Schedules</h1><p>Cron times use the selected IANA timezone. " ++
    tpl "Runs are persisted and dispatched by one advisory-lock leader.</p></section>" ++
    tpl "<section class=`panel`><h2>Create schedule</h2>" ++
    tpl "<form method=`post` action=`/analyst/schedules`>" ++
    tpl "<label>Kind<select name=`kind`><option value=`scan_ou`>OU scan</option>" ++
    tpl "<option value=`scan_domain`>Domain scan</option>" ++
    tpl "<option value=`digest`>Unremediated findings digest</option></select></label>" ++
    tpl "<label>OU path or domain<input name=`target` maxlength=`1024` required></label>" ++
    tpl "<label>Cron<input name=`cron` value=`0 2 * * *` maxlength=`255` required></label>" ++
    tpl "<label>Timezone<input name=`timezone` value=`UTC` maxlength=`255` required " ++
    tpl "hx-get=`/analyst/schedules/preview` hx-trigger=`change delay:300ms` " ++
    tpl "hx-include=`closest form` hx-target=`#next-preview`></label>" ++
    tpl "<label>Misfire grace (seconds)<input type=`number` name=`misfire_grace_seconds` " ++
    tpl "value=`300` min=`0` max=`86400`></label>" ++
    tpl "<p id=`next-preview`>Enter a valid cron and timezone to preview the next run.</p>" ++
    tpl "<button type=`submit`>Create schedule</button></form></section>" ++
    tpl "<section class=`panel`><h2>Configured schedules</h2><div class=`table-wrap`>" ++
    tpl "<table><thead><tr><th>Kind</th><th>Target</th><th>Cron</th><th>Timezone</th>" ++
    tpl "<th>Next run</th><th>Latest results</th><th>Status</th><th>Actions</th></tr></thead>" ++
    tpl "<tbody>" ++
    rows ++
    tpl "</tbody></table></div></section>" in
  page (py "Schedules") content user [] [].

(** ** Notifications *)

Definition notification_row (item : Notification) : pystr :=
  tpl "<tr><td>" ++
  instant_isoformat (n_created_at item) ++
  tpl "</td><td>" ++
  esc (n_template item) ++
  tpl "</td><td>" ++
  esc (NotificationStatus_value (n_status item)) ++
  tpl "</td><td>" ++
  str_int (Z.of_nat (length (n_finding_ids item))) ++
  tpl "</td></tr>".

Definition notifications_page (user : User) (notifications : list Notification) : pystr :=
  let rows := (or_text (flat_map notification_row notifications) (tpl "<tr><td colspan=`4` class=`empty`>No notification attempts.</td></tr>")) in
  let content := tpl "<section class=`hero compact`><p class=`eyebrow`>Safe outreach</p>" ++
    tpl "<h1>User notifications</h1><p>Messages contain only a portal link. " ++
    tpl "Dry-run is enabled unless a super-admin explicitly disables it.</p></section>" ++
    tpl "<section class=`panel`><h2>Prepare campaign</h2>" ++
    tpl "<form method=`post` action=`/analyst/notifications/preview`>" ++
    tpl "<label>Target type<select name=`target_type`><option value=`user`>User email</option>" ++
    tpl "<option value=`ou`>Organizational unit</option>" ++
    tpl "<option value=`domain`>Domain</option>" ++
    tpl "<option value=`selection`>Selected user UUIDs</option></select></label>" ++
    tpl "<label>Email, OU path, domain, or comma-separated UUIDs" ++
    tpl "<input name=`target` maxlength=`8192` required></label>" ++
    tpl "<button type=`submit`>Preview recipients</button></form></section>" ++
    tpl "<section class=`panel`><h2>Recent attempts</h2><div class=`table-wrap`>" ++
    tpl "<table><thead><tr><th>Created</th><th>Template</th><th>Status</th>" ++
    tpl "<th>Findings</th></tr></thead><tbody>" ++
    rows ++
    tpl "</tbody></table></div></section>" in
  page (py "Notifications") content user [] [].

Definition confirmation_page (user : User) (target_type target : pystr) (recipient_count : Z) : pystr :=
  let content := tpl "<section class=`hero compact`><p class=`eyebrow`>Explicit confirmation</p>" ++
    tpl "<h1>Confirm notification campaign</h1></section><section class=`panel`>" ++
    tpl "<p><strong>" ++
    str_int recipient_count ++
    tpl "</strong> active users with open findings " ++
    tpl "match this target.</p>" ++
    tpl "<p>Email bodies will contain only a link to the authenticated portal.</p>" ++
    tpl "<form method=`post` action=`/analyst/notifications/confirm`>" ++
    tpl "<input type=`hidden` name=`target_type` value=`" ++
    esc (target_type) ++
    tpl "`>" ++
    tpl "<input type=`hidden` name=`target` value=`" ++
    esc (target) ++
    tpl "`>" ++
    tpl "<button type=`submit`>Confirm and queue</button>" ++
    tpl "<a class=`button secondary` href=`/analyst/notifications`>Cancel</a></form></section>" in
  page (py "Confirm notifications") content user [] [].

(** ** Batches *)

(** [str.title] of an ASCII word. *)
Definition to_upper (c : Z) : Z := if ascii_lowerc c then c - 32 else c.
Fixpoint title_words (inside : bool) (s : pystr) : pystr :=
  match s with
  | [] => []
  | c :: t => (if ascii_alpha c then if inside then to_lower c else to_upper c else c) :: title_words (ascii_alpha c) t
  end.
Definition title (s : pystr) : pystr := title_words false s.

Section Batches.
Context `{Unicode}.
Variable float_str : pystr -> pystr.

Definition batch_row (batch : ScanBatch) : pystr :=
  tpl "<tr><td><a href=`/analyst/batches/" ++
  uuid_str (sb_id batch) ++
  tpl "`>" ++
  esc (BatchTarget_value (sb_target_type batch)) ++
  tpl "</a></td><td>" ++
  esc (py_str float_str (JDict (sb_target batch))) ++
  tpl "</td><td>" ++
  esc (BatchStatus_value (sb_status batch)) ++
  tpl "</td><td>" ++
  str_int (sb_completed_count batch + sb_failed_count batch) ++
  tpl " / " ++
  str_int (sb_total_count batch) ++
  tpl "</td></tr>".

Definition batch_builder_page (user : User) (batches : list ScanBatch) : pystr :=
  let rows := (or_text (flat_map batch_row batches) (tpl "<tr><td colspan=`4` class=`empty`>No batches yet.</td></tr>")) in
  let content := tpl "<section class=`hero compact`><p class=`eyebrow`>Background operations</p>" ++
    tpl "<h1>Workspace batch scans</h1><p>Targets are resolved from active synced users. " ++
    tpl "The worker processes each email under the platform rate limit.</p></section>" ++
    tpl "<section class=`panel`><h2>Create batch</h2>" ++
    tpl "<form method=`post` action=`/analyst/batches`>" ++
    tpl "<label>Target type<select name=`target_type`>" ++
    tpl "<option value=`ou`>Organizational unit</option>" ++
    tpl "<option value=`domain`>Domain</option>" ++
    tpl "<option value=`selection`>Selected user UUIDs</option></select></label>" ++
    tpl "<label>OU path, domain, or comma-separated user UUIDs" ++
    tpl "<input name=`target` maxlength=`8192` required></label>" ++
    tpl "<button type=`submit`>Queue background batch</button></form></section>" ++
    tpl "<section class=`panel`><h2>Recent batches</h2><div class=`table-wrap`>" ++
    tpl "<table><thead><tr><th>Type</th><th>Target</th><th>Status</th>" ++
    tpl "<th>Progress</th></tr></thead><tbody>" ++
    rows ++
    tpl "</tbody></table></div></section>" in
  page (py "Batch scans") content user [] [].

Definition batch_progress_fragment (batch : ScanBatch) : pystr :=
  let done := sb_completed_count batch + sb_failed_count batch in
  let terminal := bool_decide (sb_status batch ∈ [Batch_SUCCEEDED; Batch_PARTIAL; Batch_FAILED]) in
  let polling := (if terminal then [] else tpl " hx-get=`/analyst/batches/" ++ uuid_str (sb_id batch) ++ tpl "/status` hx-trigger=`load delay:2s` hx-swap=`outerHTML`") in
  tpl "<div class=`scan-state`" ++
  polling ++
  tpl "><h2>" ++
  esc (title (BatchStatus_value (sb_status batch))) ++
  tpl "</h2><p>" ++
  str_int done ++
  tpl " of " ++
  str_int (sb_total_count batch) ++
  tpl " processed; " ++
  str_int (sb_failed_count batch) ++
  tpl " failed.</p><progress value=`" ++
  str_int done ++
  tpl "` max=`" ++
  str_int (Z.max (sb_total_count batch) 1) ++
  tpl "`>" ++
  str_int done ++
  tpl "</progress></div>".

Definition batch_progress_page (user : User) (batch : ScanBatch) : pystr :=
  page (py "Batch progress")
    (tpl "<section class=`hero compact`><p class=`eyebrow`>Durable background batch</p><h1>" ++
     esc (BatchTarget_value (sb_target_type batch)) ++
     tpl " scan</h1></section><section class=`panel` aria-live=`polite`>" ++
     batch_progress_fragment batch ++
     tpl "</section>") user [] [].

End Batches.

(** ** Lemmas: two renderings of the same shape *)

Lemma same_checkbox name label label' checked : same_markup (checkbox name label checked) (checkbox name label' checked).
Proof. unfold checkbox. cbv zeta. markup. Qed.
Lemma same_toggle_cell id id' channel value value' : same_markup (toggle_cell id channel value) (toggle_cell id' channel value').
Proof. unfold toggle_cell. markup. destruct value, value'; first [reflexivity|apply same_markup_inert; reflexivity]. Qed.
Lemma same_watchlist_row view view' : same_markup (watchlist_row view) (watchlist_row view').
Proof.
  unfold watchlist_row. cbv zeta. markup. apply same_markup_flat_map.
  repeat (apply Forall2_cons; split; [apply same_toggle_cell|]). apply Forall2_nil_2.
Qed.
Lemma filled_watchlist_row view : filled (watchlist_row view) = true.
Proof. reflexivity. Qed.

(** What the markup of a schedule's row depends on. *)
Definition schedule_shape (s s' : Schedule) : Prop :=
  sd_enabled s = sd_enabled s'
  /\ filled (default [] (sd_last_error s)) = filled (default [] (sd_last_error s'))
  /\ bool_decide (is_Some (sd_last_batch_id s)) = bool_decide (is_Some (sd_last_batch_id s')).
Lemma same_schedule_row s s' : schedule_shape s s' -> same_markup (schedule_row s) (schedule_row s').
Proof.
  intros (He&Herr&Hb). unfold schedule_row. cbv zeta. rewrite He. markup.
  - destruct (sd_last_error s) as [[|c t]|], (sd_last_error s') as [[|c' t']|]; first [discriminate Herr|markup].
  - destruct (sd_last_batch_id s), (sd_last_batch_id s'); first [discriminate Hb|markup].
Qed.
Lemma filled_schedule_row s : filled (schedule_row s) = true.
Proof. reflexivity. Qed.

Lemma same_notification_row n n' : same_markup (notification_row n) (notification_row n').
Proof. unfold notification_row. markup. Qed.
Lemma filled_notification_row n : filled (notification_row n) = true.
Proof. reflexivity. Qed.

Section BatchMarkup.
Context `{Unicode}.
Variable float_str : pystr -> pystr.
Lemma same_batch_row b b' : same_markup (batch_row float_str b) (batch_row float_str b').
Proof using Type. unfold batch_row. markup. Qed.
Lemma filled_batch_row b : filled (batch_row float_str b) = true.
Proof using Type. reflexivity. Qed.
Lemma same_batch_progress b b' : sb_status b = sb_status b' -> same_markup (batch_progress_fragment b) (batch_progress_fragment b').
Proof using Type. intros Hs. unfold batch_progress_fragment. cbv zeta. rewrite Hs. markup. Qed.
End BatchMarkup.

Section PagePairs.
Context `{Unicode}.
Variable float_str : pystr -> pystr.
Variables user user' : User.
Hypothesis same_role : u_role user = u_role user'.

Lemma same_watchlist_page views views' : length views = length views' ->
  same_markup (watchlist_page user views) (watchlist_page user' views').
Proof using same_role.
  intros Hl. unfold watchlist_page. cbv zeta. apply same_markup_page; [done|]. markup.
  apply same_markup_rows; [apply filled_watchlist_row|]. apply Forall2_same_length in Hl.
  eapply Forall2_impl; [exact Hl|]. intros; apply same_watchlist_row.
Qed.
Lemma same_schedules_page l l' : Forall2 schedule_shape l l' -> same_markup (schedules_page user l) (schedules_page user' l').
Proof using same_role.
  intros Hl. unfold schedules_page. cbv zeta. apply same_markup_page; [done|]. markup.
  apply same_markup_rows; [apply filled_schedule_row|]. eapply Forall2_impl; [exact Hl|]. apply same_schedule_row.
Qed.
Lemma same_notifications_page l l' : length l = length l' -> same_markup (notifications_page user l) (notifications_page user' l').
Proof using same_role.
  intros Hl. unfold notifications_page. cbv zeta. apply same_markup_page; [done|]. markup.
  apply same_markup_rows; [apply filled_notification_row|]. apply Forall2_same_length in Hl.
  eapply Forall2_impl; [exact Hl|]. intros; apply same_notification_row.
Qed.
Lemma same_confirmation_page ty ty' t t' n n' : same_markup (confirmation_page user ty t n) (confirmation_page user' ty' t' n').
Proof using same_role. unfold confirmation_page. cbv zeta. apply same_markup_page; [done|]. markup. Qed.
Lemma same_batch_builder_page l l' : length l = length l' ->
  same_markup (batch_builder_page float_str user l) (batch_builder_page float_str user' l').
Proof using same_role.
  intros Hl. unfold batch_builder_page. cbv zeta. apply same_markup_page; [done|]. markup.
  apply same_markup_rows; [apply filled_batch_row|]. apply Forall2_same_length in Hl.
  eapply Forall2_impl; [exact Hl|]. intros; apply same_batch_row.
Qed.
Lemma same_batch_progress_page b b' : sb_status b = sb_status b' ->
  same_markup (batch_progress_page user b) (batch_progress_page user' b').
Proof using same_role.
  intros Hs. unfold batch_progress_page. apply same_markup_page; [done|]. markup. by apply same_batch_progress.
Qed.
End PagePairs.
