(* ===== verification/UserPages.v ===== *)
(** The pages of the self-service portal (app/user_ui.py). *)
From S2P Require Import Prelude PyBase Encoding Hashes Json Models Store IpAddress Web Layout Repr.

Definition progress_fragment (scan : Scan) : pystr :=
  if bool_decide (sc_status scan = Scan_SUCCEEDED) then
    tpl "<p class=`scan-state success-text`>Complete. Loading your results" ++ [8230] ++ tpl "</p>"
  else if bool_decide (sc_status scan = Scan_FAILED) then
    tpl "<div class=`scan-state`><span class=`badge danger`>Failed</span>" ++
    tpl "<h2>The check could not be completed</h2>" ++
    tpl "<p>No credential or vendor error detail was retained.</p>" ++
    tpl "<a class=`button secondary` href=`/portal`>Back to dashboard</a></div>"
  else let label := (if bool_decide (sc_status scan = Scan_RUNNING) then tpl "Running" else tpl "Queued") in
  tpl "<div class=`scan-state` hx-get=`/portal/scans/" ++
  uuid_str (sc_id scan) ++
  tpl "/status` " ++
  tpl "hx-trigger=`load delay:1s` hx-swap=`outerHTML`><span class=`pulse` " ++
  tpl "aria-hidden=`true`></span>" ++
  tpl "<h2>" ++
  esc (label) ++
  tpl " private check</h2>" ++
  tpl "<p>This page will update when the bounded scan finishes.</p></div>".

Definition progress_page (user : User) (scan : Scan) : pystr :=
  let content := tpl "<section class=`hero compact`><p class=`eyebrow`>Private self-check</p>" ++
    tpl "<h1>Checking your work email</h1><p>The submitted identifier came from your " ++
    tpl "signed-in " ++
    tpl "account and is not accepted from page parameters.</p></section>" ++
    tpl "<section class=`panel` aria-live=`polite`>" ++
    progress_fragment scan ++
    tpl "</section>" in
  page (py "Self-check progress") content user [] [].

Definition remediation_complete (finding_id : pystr) : pystr :=
  tpl "<div class=`remediation-control`><span class=`badge success`>Marked fixed</span><span class=`sr-only`>Finding " ++
  esc (finding_id) ++
  tpl "</span></div>".

Section Portal.
Context `{Unicode}.
Variable float_str : pystr -> pystr.

(** [str(value)], and [value or default] of an item of the serialised finding. *)
Definition text (value : json) : pystr := py_str float_str value.
Definition text_or (value : json) (default_ : pystr) : pystr := if json_truthy value then text value else default_.

Definition finding_card (item : list (pystr * json)) : pystr :=
  let finding_id := esc (text (jget "id" item)) in
  let state := (if json_truthy (jget "remediated" item) then tpl "<span class=`badge success`>Fixed</span>" else tpl "<span class=`badge warning`>Action needed</span>") in
  let releak := (if json_truthy (jget "re_leaked" item) then tpl "<span class=`badge danger`>Re-leaked</span>" else []) in
  let action :=
    if negb (json_truthy (jget "remediated" item)) then
      tpl "<div class=`remediation-control`>" ++
      tpl "<button type=`button` hx-post=`/portal/findings/" ++
      finding_id ++
      tpl "/remediate` " ++
      tpl "hx-target=`closest .remediation-control` hx-swap=`outerHTML`>" ++
      tpl "I have fixed this</button></div>"
    else [] in
  let field_items := match jget "fields" item with JList l => l | _ => [] end in
  let fields := (or_text (join (tpl ", ") (map (fun value => esc (text value)) field_items)) (tpl "Not specified")) in
  tpl "<article class=`panel user-finding`><header><div><p class=`eyebrow`>" ++
  esc (text_or (jget "breach_date" item) (tpl "Unknown date")) ++
  tpl "</p><h2>" ++
  esc (text (jget "source" item)) ++
  tpl "</h2></div><div>" ++
  state ++
  releak ++
  tpl "</div></header><dl><div><dt>Exposed fields</dt><dd>" ++
  fields ++
  tpl "</dd></div><div><dt>Service origin</dt><dd>" ++
  esc (text_or (jget "origin" item) (tpl "Not provided")) ++
  tpl "</dd></div><div><dt>Password hint</dt><dd>" ++
  esc (text_or (jget "password_mask" item) (tpl "No password in this record")) ++
  tpl "</dd></div></dl><p class=`guidance`>" ++
  esc (text (jget "guidance" item)) ++
  tpl "</p>" ++
  action ++
  tpl "</article>".

Definition dashboard_page (user : User) (findings : list (list (pystr * json))) (can_check : bool) : pystr :=
  let cards := flat_map (fun item => finding_card item) findings in
  let cards := or_text cards
    (tpl "<section class=`panel empty-state`><h2>No known exposures</h2><p>Your portal has no stored findings for this email address.</p></section>") in
  let button := (if can_check then tpl "<button type=`submit`>Scan now</button>" else tpl "<button type=`button` disabled>Scan available after cooldown</button>") in
  let content := tpl "<section class=`hero user-portal-hero`><p class=`eyebrow`>Signed in as</p><h1>" ++
    esc (u_email user) ++
    tpl "</h1><p>Results are limited to this email address. " ++
    tpl "Passwords are always masked here.</p>" ++
    tpl "<form action=`/portal/check` method=`post` hx-post=`/portal/check` " ++
    tpl "hx-target=`#self-check-message` hx-swap=`innerHTML`>" ++
    button ++
    tpl "<output id=`self-check-message` class=`form-error` aria-live=`polite`></output>" ++
    tpl "</form></section><section class=`user-findings`>" ++
    cards ++
    tpl "</section>" in
  page (py "My exposure dashboard") content user [] [].

End Portal.

(** ** Lemmas: two renderings of the same shape *)

Lemma same_progress_fragment scan scan' : sc_status scan = sc_status scan' -> same_markup (progress_fragment scan) (progress_fragment scan').
Proof. intros E. unfold progress_fragment. cbv zeta. rewrite E. markup. Qed.

(** What the markup of a card depends on. *)
Definition card_shape (item item' : list (pystr * json)) : Prop :=
  json_truthy (jget "remediated" item) = json_truthy (jget "remediated" item')
  /\ json_truthy (jget "re_leaked" item) = json_truthy (jget "re_leaked" item').

Section CardMarkup.
Context `{Unicode}.
Variable float_str : pystr -> pystr.

Lemma same_finding_card item item' : card_shape item item' -> same_markup (finding_card float_str item) (finding_card float_str item').
Proof using Type.
  intros (Hr&Hl). unfold finding_card. cbv zeta. rewrite Hr, Hl. markup.
  apply same_markup_inert; rewrite <- (map_map (text float_str) esc); by apply inert_escaped_list.
Qed.
Lemma filled_finding_card item : filled (finding_card float_str item) = true.
Proof using Type. reflexivity. Qed.

Variables user user' : User.
Hypothesis same_role : u_role user = u_role user'.

Lemma same_dashboard_page l l' can_check : Forall2 card_shape l l' ->
  same_markup (dashboard_page float_str user l can_check) (dashboard_page float_str user' l' can_check).
Proof using same_role.
  intros Hl. unfold dashboard_page. cbv zeta. apply same_markup_page; [done|]. markup.
  apply same_markup_rows; [apply filled_finding_card|]. eapply Forall2_impl; [exact Hl|]. apply same_finding_card.
Qed.
Lemma same_progress_page scan scan' : sc_status scan = sc_status scan' ->
  same_markup (progress_page user scan) (progress_page user' scan').
Proof using same_role.
  intros Hs. unfold progress_page. cbv zeta. apply same_markup_page; [done|]. markup. by apply same_progress_fragment.
Qed.
End CardMarkup.
