(* ===== verification/AnalystPages.v ===== *)
(** The pages of the analyst's workflow (app/analyst_ui.py): the checks, a scan's progress and the history
    of a subject with its findings and events. *)
From S2P Require Import Prelude PyBase Encoding Hashes Json Models Store Config Aead IpAddress Url Access Web LocalAuth Layout Repr SignIn Analyst OperationPages.

Definition KINDS : list SubjectKind := [Kind_DOMAIN; Kind_EMAIL; Kind_PASSWORD; Kind_USERNAME; Kind_ORIGIN; Kind_PHONE].

Definition dt (value : instant) : pystr :=
  let us := value mod (86400 * second) in
  let s := us / second in
  let d := date_of_instant value in
  esc (zfill 2 (str_nat (day d)) ++ [45] ++ zfill 2 (str_nat (month d)) ++ [45] ++ str_nat (year d) ++ [32] ++
       zfill 2 (str_nat (s / 3600)) ++ [58] ++ zfill 2 (str_nat (s / 60 mod 60))).

Definition option_ (value label selected : pystr) : pystr :=
  let marker := (if bool_decide (value = selected) then tpl " selected" else []) in
  tpl "<option value=`" ++
  esc (value) ++
  tpl "`" ++
  marker ++
  tpl ">" ++
  esc (label) ++
  tpl "</option>".

(** *** The form of one kind *)

Definition descriptions (kind : SubjectKind) : pystr :=
  match kind with
  | Kind_DOMAIN => tpl "Review exposure across a company domain."
  | Kind_EMAIL => tpl "Investigate one exact mailbox identity."
  | Kind_PASSWORD => tpl "Search a credential without storing the query. The cleartext is sent to LeakCheck; " ++
      tpl "use their phash workflow instead when you already have a hash."
  | Kind_USERNAME => tpl "Find reused handles across breach sources."
  | Kind_ORIGIN => tpl "Trace records associated with a service origin."
  | Kind_PHONE => tpl "Check an international E.164 telephone number."
  end.
Definition placeholder (kind : SubjectKind) : pystr :=
  match kind with
  | Kind_DOMAIN => tpl "example.com"
  | Kind_EMAIL => tpl "person@example.com"
  | Kind_PASSWORD => tpl "Enter password"
  | Kind_USERNAME => tpl "username"
  | Kind_ORIGIN => tpl "https://service.example.com"
  | Kind_PHONE => tpl "+85512345678"
  end.
Definition check_card (kind : SubjectKind) : pystr :=
  let input_type := (if bool_decide (kind = Kind_PASSWORD) then tpl "password" else tpl "text") in
  let autocomplete := (if bool_decide (kind = Kind_PASSWORD) then tpl "new-password" else tpl "off") in
  let label := title (SubjectKind_value kind) in
  tpl "<article class=`check-card`><div><span class=`kind`>" ++
  esc (SubjectKind_value kind) ++
  tpl "</span><h2>" ++
  esc (label) ++
  tpl "</h2><p>" ++
  esc (descriptions kind) ++
  tpl "</p></div>" ++
  tpl "<form action=`/analyst/scans/" ++
  SubjectKind_value kind ++
  tpl "` method=`post` hx-post=`/analyst/scans/" ++
  SubjectKind_value kind ++
  tpl "` hx-target=`find .form-error` hx-swap=`innerHTML` hx-indicator=`closest article`>" ++
  tpl "<label for=`query-" ++
  SubjectKind_value kind ++
  tpl "`>" ++
  esc (label) ++
  tpl " value</label>" ++
  tpl "<input id=`query-" ++
  SubjectKind_value kind ++
  tpl "` name=`query` type=`" ++
  input_type ++
  tpl "` placeholder=`" ++
  esc (placeholder kind) ++
  tpl "` autocomplete=`" ++
  autocomplete ++
  tpl "` required maxlength=`4096`>" ++
  tpl "<button type=`submit`>Run check</button><span class=`htmx-indicator`>Checking" ++ [8230] ++ tpl "</span>" ++
  tpl "<output class=`form-error` aria-live=`polite`></output></form></article>".

Definition recent_item (item : RecentSubject) : pystr :=
  tpl "<li><a href=`/analyst/subjects/" ++
  uuid_str (su_id (rs_subject item)) ++
  tpl "`><span class=`kind`>" ++
  esc (SubjectKind_value (su_kind (rs_subject item))) ++
  tpl "</span> " ++
  esc (su_value_display (rs_subject item)) ++
  tpl "</a><span class=`searched-by`>searched by " ++
  esc (attribution item) ++
  tpl "</span></li>".
Definition analyst_dashboard (user : User) (recent_subjects : list RecentSubject) : pystr :=
  let cards := flat_map check_card KINDS in
  let recent := or_text (flat_map recent_item recent_subjects) (tpl "<li class=`empty`>No scans have been run yet.</li>") in
  let content := tpl "<section class=`hero`><p class=`eyebrow`>Exposure intelligence</p>" ++
    tpl "<h1>Run a controlled check</h1>" ++
    tpl "<p>Choose an identifier type. Queries are normalized before scanning, and searched " ++
    tpl "passwords are never stored in cleartext.</p></section>" ++
    tpl "<section class=`check-grid` aria-label=`Leak checks`>" ++
    cards ++
    tpl "</section>" ++
    tpl "<section class=`panel recent`><div class=`section-heading`><div>" ++
    tpl "<p class=`eyebrow`>Investigation trail</p><h2>Recent subjects</h2></div></div>" ++
    tpl "<ul class=`recent-list`>" ++
    recent ++
    tpl "</ul></section>" in
  page (py "Analyst checks") content user [] [].

(** *** A scan's progress *)

Definition scan_status_fragment (scan : Scan) : pystr :=
  if bool_decide (sc_status scan = Scan_SUCCEEDED) then
    tpl "<p class=`scan-state success-text`>Complete. Loading findings" ++ [8230] ++ tpl "</p>"
  else if bool_decide (sc_status scan = Scan_FAILED) then
    tpl "<div class=`scan-state`><span class=`badge danger`>Failed</span>" ++
    tpl "<h2>The check could not be completed</h2>" ++
    tpl "<p>No query value or vendor response was retained. Return to checks and " ++
    tpl "try again.</p>" ++
    tpl "<a class=`button secondary` href=`/analyst`>Back to checks</a></div>"
  else let label := (if bool_decide (sc_status scan = Scan_RUNNING) then tpl "Running" else tpl "Queued") in
  tpl "<div class=`scan-state` hx-get=`/analyst/scans/" ++
  uuid_str (sc_id scan) ++
  tpl "/status` " ++
  tpl "hx-trigger=`load delay:1s` hx-swap=`outerHTML`>" ++
  tpl "<span class=`pulse` aria-hidden=`true`></span>" ++
  tpl "<h2>" ++
  esc (label) ++
  tpl " controlled check</h2>" ++
  tpl "<p>Waiting for the bounded LeakCheck request and local ingest to finish" ++ [8230] ++ tpl "</p></div>".

Definition scan_progress_page (user : User) (scan : Scan) (subject : Subject) : pystr :=
  let content := tpl "<section class=`hero compact`><p class=`eyebrow`>Scan in progress</p><h1>" ++
    esc (su_value_display subject) ++
    tpl "</h1><p>Large lookups can take up to two minutes. This page updates without " ++
    tpl "holding the original request open.</p></section>" ++
    tpl "<section class=`panel` aria-live=`polite`>" ++
    scan_status_fragment scan ++
    tpl "</section>" in
  page (py "Scan progress") content user [] [].

(** *** The cells of a finding *)

Definition date_cell (value : option date) : pystr :=
  let sort_value := match value with Some d => date_isoformat d | None => [] end in
  let display := match value with
                 | Some d => zfill 2 (str_nat (day d)) ++ [45] ++ zfill 2 (str_nat (month d)) ++ [45] ++ str_nat (year d)
                 | None => tpl "Unknown"
                 end in
  tpl "<td data-sort-value=`" ++
  sort_value ++
  tpl "`>" ++
  display ++
  tpl "</td>".
Definition breach_date_cell (item : FindingView) : pystr :=
  match fv_breach_date item with
  | Some d => date_cell (Some d)
  | None =>
      match fv_breach_date_text item with
      | None => date_cell None
      | Some value =>
          let display := match split_char 45 value with
                         | [first; second] => second ++ tpl "-" ++ first
                         | _ => value
                         end in
          tpl "<td data-sort-value=`" ++
          esc value ++
          tpl "`>" ++
          esc display ++
          tpl "</td>"
      end
  end.
Definition status_sort (item : FindingView) : pystr :=
  if fv_re_leaked item then tpl "re-leaked"
  else match fv_remediated_at item with Some _ => tpl "remediated" | None => tpl "open" end.

Definition remediation_markup (finding_id : uuid) (remediated : bool) : pystr :=
  if remediated then
    tpl "<div class=`remediation-control`><span class=`badge success`>Remediated</span>" ++
    tpl "<button type=`button` class=`link-button` hx-post=`/analyst/findings/" ++
    uuid_str finding_id ++
    tpl "/unremediate` " ++
    tpl "hx-target=`closest .remediation-control` hx-swap=`outerHTML`>" ++
    tpl "Reopen</button></div>"
  else
  tpl "<div class=`remediation-control`><span class=`badge warning`>Open</span>" ++
  tpl "<button type=`button` class=`link-button` hx-post=`/analyst/findings/" ++
  uuid_str finding_id ++
  tpl "/remediate` " ++
  tpl "hx-target=`closest .remediation-control` hx-swap=`outerHTML`>" ++
  tpl "Mark remediated</button></div>".
Definition remediation_control (item : FindingView) : pystr :=
  remediation_markup (fv_id item) (bool_decide (is_Some (fv_remediated_at item))).

Definition sort_header (label : pystr) (column : Z) (kind : pystr) : pystr :=
  tpl "<th><button type=`button` class=`sort-button` data-sort-column=`" ++
  str_int column ++
  tpl "` data-sort-kind=`" ++
  esc (kind) ++
  tpl "`>" ++
  esc (label) ++
  tpl " <span aria-hidden=`true`>" ++ [8597] ++ tpl "</span></button><span class=`column-resizer` data-resize-handle aria-hidden=`true`></span></th>".

Definition column_labels : list pystr :=
  map py ["Source"; "Breached"; "Collected"; "Identity"; "Fields"; "Origin"; "URL"; "Password"; "First / last seen"; "Status"; "Actions"]%string.
Definition column_control (index : nat) (label : pystr) : pystr :=
  tpl "<label><input type=`checkbox` value=`" ++
  str_int (Z.of_nat index) ++
  tpl "` data-column-toggle checked> " ++
  esc label ++
  tpl "</label>".
Definition column_picker : pystr :=
  tpl "<details class=`column-picker`><summary class=`button secondary`>Columns</summary><fieldset><legend>Show columns</legend>" ++
  concat (imap column_control column_labels) ++
  tpl "</fieldset></details>".

(** *** The export link *)

Definition export_url (subject_id : uuid) (state source date_from date_to : pystr) : result pystr :=
  try! query <- urlencode [(py "state", state); (py "source", source); (py "date_from", date_from); (py "date_to", date_to)];
  Ok (esc (tpl "/analyst/subjects/" ++ uuid_str subject_id ++ tpl "/export.csv?" ++ query)).

Section Findings.
Context `{Unicode}.
(** [str] and [json.dumps] of a floating-point number, and the text of a time as a floating-point timestamp. *)
Variables float_str float_json : pystr -> pystr.
Variable timestamp_str : instant -> pystr.

Definition copy_value (value label : pystr) : pystr :=
  let escaped := esc (value) in
  tpl "<button type=`button` class=`copy-value` data-copy-value=`" ++
  escaped ++
  tpl "` title=`Copy " ++
  casefold label ++
  tpl "`>" ++
  escaped ++
  tpl "</button>".
Definition identity_value (label value : pystr) (copy : bool) : pystr :=
  let rendered := (if copy then copy_value value label else esc (value)) in
  tpl "<span><strong>" ++
  esc (label) ++
  tpl "</strong> " ++
  rendered ++
  tpl "</span>".
(** The values that are set. *)
Definition given (l : list (option pystr)) : list pystr :=
  flat_map (fun v => match v with Some (c :: s) => [c :: s] | _ => [] end) l.
Definition identity_sort (item : FindingView) : pystr :=
  casefold (join (tpl " ") (given [fv_email item; fv_username item; fv_phone item])).
Definition identities (item : FindingView) : list pystr :=
  flat_map (fun '(label, value) => match value with
                                   | Some v => [identity_value label v (bool_decide (label = py "Email"))]
                                   | None => []
                                   end)
    [(py "Email", fv_email item); (py "User", fv_username item); (py "Phone", fv_phone item)].

Definition password_cell (item : FindingView) : pystr :=
  (match fv_password_mask item with Some mask => esc mask | None => [8212] end) ++
  (if fv_has_password item then
     tpl "<div id=`password-" ++ uuid_str (fv_id item) ++ tpl "` class=`password-slot`>" ++
     tpl "<button type=`button` class=`link-button` " ++
     tpl "hx-post=`/analyst/findings/" ++ uuid_str (fv_id item) ++ tpl "/reveal` " ++
     tpl "hx-target=`#password-" ++ uuid_str (fv_id item) ++ tpl "` hx-swap=`innerHTML`>Reveal once</button></div>"
   else []).

Definition finding_row (item : FindingView) : pystr :=
  let row_class := (if fv_re_leaked item then tpl "releaked" else []) in
  let badge := (if fv_re_leaked item then tpl "<span class=`badge danger`>Re-leaked</span>" else []) in
  let identity := or_text (join (tpl "<br>") (identities item)) [8212] in
  let fields := or_text (join (tpl ", ") (map esc (fv_fields item))) [8212] in
  let raw := esc (dumps_sorted float_json (JDict (fv_raw item))) in
  let search_values := esc (casefold (raw_value_text float_str (JDict (fv_raw item)))) in
  let password := password_cell item in
  tpl "<tr class=`" ++
  row_class ++
  tpl "` data-search-values=`" ++
  search_values ++
  tpl "`>" ++
  tpl "<td data-sort-value=`" ++
  esc (casefold (fv_source item)) ++
  tpl "`><strong>" ++
  esc (fv_source item) ++
  tpl "</strong>" ++
  badge ++
  tpl "</td>" ++
  breach_date_cell item ++
  date_cell (fv_collected_date item) ++
  tpl "<td data-sort-value=`" ++
  esc (identity_sort item) ++
  tpl "`>" ++
  identity ++
  tpl "</td>" ++
  tpl "<td data-sort-value=`" ++
  esc (casefold (join (tpl ", ") (fv_fields item))) ++
  tpl "`>" ++
  fields ++
  tpl "<details><summary>Raw fields</summary><pre>" ++
  raw ++
  tpl "</pre></details></td>" ++
  tpl "<td data-sort-value=`" ++
  esc (casefold (default [] (fv_origin item))) ++
  tpl "`>" ++
  match fv_origin item with Some (c :: s) => esc (c :: s) | _ => [8212] end ++
  tpl "</td>" ++
  tpl "<td data-sort-value=`" ++
  esc (casefold (default [] (fv_url item))) ++
  tpl "`>" ++
  match fv_url item with Some (c :: s) => copy_value (c :: s) (py "URL") | _ => [8212] end ++
  tpl "</td>" ++
  tpl "<td class=`password-cell` data-sort-value=`" ++
  esc (default [] (fv_password_mask item)) ++
  tpl "`>" ++
  password ++
  tpl "</td>" ++
  tpl "<td data-sort-value=`" ++
  timestamp_str (fv_first_seen_at item) ++
  tpl "`>" ++
  tpl "<span class=`seen-label`>First</span> " ++
  dt (fv_first_seen_at item) ++
  tpl "<br>" ++
  tpl "<span class=`seen-label`>Last</span> " ++
  dt (fv_last_seen_at item) ++
  tpl "</td>" ++
  tpl "<td class=`status-cell` data-sort-value=`" ++
  status_sort item ++
  tpl "`>" ++
  remediation_control item ++
  tpl "</td><td><a href=`#events`>Event trail</a></td></tr>".

Definition event_item (event : EventView) : pystr :=
  let actor := match ev_actor event with Some (c :: s) => tpl " by " ++ esc (c :: s) | _ => [] end in
  let meta := esc (dumps_sorted float_json (JDict (ev_meta event))) in
  tpl "<li><span class=`event-dot` aria-hidden=`true`></span><div>" ++
  tpl "<strong>" ++
  esc (title (replace_char 95 [32] (FindingEventType_value (ev_event event)))) ++
  tpl "</strong>" ++
  actor ++
  tpl "<time>" ++
  dt (ev_at event) ++
  tpl "</time>" ++
  tpl "<details><summary>Metadata</summary><pre>" ++
  meta ++
  tpl "</pre></details></div></li>".

Definition filter_form (export state source date_from date_to : pystr) : pystr :=
  tpl "<form class=`filters` method=`get`>" ++
    tpl "<label>State<select name=`state`>" ++
    option_ (py "all") (py "All") state ++
    option_ (py "unremediated") (py "Unremediated") state ++
    option_ (py "remediated") (py "Remediated") state ++
    option_ (py "releaked") (py "Re-leaked") state ++
    tpl "</select></label>" ++
    tpl "<label>Search raw values<input type=`search` id=`result-search` name=`source` value=`" ++
    esc (source) ++
    tpl "` maxlength=`1024` placeholder=`Email, origin, date, source" ++ [8230] ++ tpl "`></label>" ++
    tpl "<label>From<input type=`date` name=`date_from` value=`" ++
    esc (date_from) ++
    tpl "`></label><label>To<input type=`date` name=`date_to` value=`" ++
    esc (date_to) ++
    tpl "`></label><button type=`submit`>Apply filters</button>" ++
    tpl "<a class=`button secondary` href=`" ++
    export ++
    tpl "`>Export CSV</a></form>".

Definition history_content (subject : Subject) (findings : list FindingView) (events : list EventView) (form : pystr) : pystr :=
  let rows := or_text (flat_map finding_row findings) (tpl "<tr><td colspan=`11` class=`empty`>No findings match these filters.</td></tr>") in
  let event_items := or_text (flat_map event_item events) (tpl "<li class=`empty`>No recorded finding events.</li>") in
  tpl "<header class=`subject-header`><div><p class=`eyebrow`>" ++
    esc (SubjectKind_value (su_kind subject)) ++
    tpl " investigation</p><h1>" ++
    esc (su_value_display subject) ++
    tpl "</h1></div><a class=`button secondary` href=`/analyst`>New check</a></header>" ++
    tpl "<section class=`panel`><div class=`section-heading`><div><p class=`eyebrow`>" ++
    tpl "Evidence</p><h2>Findings</h2></div><span class=`count` id=`findings-count` " ++
    tpl "data-total=`" ++
    str_int (Z.of_nat (length findings)) ++
    tpl "`>" ++
    str_int (Z.of_nat (length findings)) ++
    tpl " shown</span></div>" ++
    form ++
    tpl "<div class=`table-tools`><div class=`table-config`><label>Rows per page" ++
    tpl "<select id=`findings-page-size`>" ++
    tpl "<option value=`10` selected>10</option><option value=`20`>20</option>" ++
    tpl "<option value=`50`>50</option><option value=`100`>100</option>" ++
    tpl "<option value=`all`>All</option></select></label>" ++
    column_picker ++
    tpl "</div><div class=`pagination`>" ++
    tpl "<button type=`button` id=`findings-prev` class=`button secondary`>Previous</button>" ++
    tpl "<span id=`findings-page-status`>Page 1 of 1</span>" ++
    tpl "<button type=`button` id=`findings-next` class=`button secondary`>Next</button>" ++
    tpl "</div></div><div class=`table-wrap`><table id=`findings-table` " ++
    tpl "class=`resizable-table`><colgroup>" ++
    tpl "<col style=`width:11rem`><col style=`width:8rem`><col style=`width:8rem`>" ++
    tpl "<col style=`width:18rem`><col style=`width:15rem`><col style=`width:12rem`>" ++
    tpl "<col style=`width:18rem`><col style=`width:12rem`><col style=`width:14rem`>" ++
    tpl "<col style=`width:10rem`><col style=`width:7rem`></colgroup><thead><tr>" ++
    sort_header (py "Source") 0 (py "text") ++
    sort_header (py "Breached") 1 (py "date") ++
    sort_header (py "Collected") 2 (py "date") ++
    sort_header (py "Identity") 3 (py "text") ++
    sort_header (py "Fields") 4 (py "text") ++
    sort_header (py "Origin") 5 (py "text") ++
    sort_header (py "URL") 6 (py "text") ++
    sort_header (py "Password") 7 (py "text") ++
    sort_header (py "First / last seen") 8 (py "date") ++
    sort_header (py "Status") 9 (py "text") ++
    tpl "<th>Actions<span class=`column-resizer` data-resize-handle aria-hidden=`true`></span>" ++
    tpl "</th></tr></thead><tbody data-findings-body>" ++
    rows ++
    tpl "</tbody></table></div></section>" ++
    tpl "<section id=`events` class=`panel timeline`><div class=`section-heading`><div>" ++
    tpl "<p class=`eyebrow`>Immutable history</p><h2>Event trail</h2></div></div>" ++
    tpl "<ol class=`event-list`>" ++
    event_items ++
    tpl "</ol></section>".
Definition subject_history_page (user : User) (subject : Subject) (findings : list FindingView) (events : list EventView)
    (state source date_from date_to : pystr) : result pystr :=
  try! export <- export_url (su_id subject) state source date_from date_to;
  Ok (page (py "History " ++ dot ++ py " " ++ su_value_display subject)
        (history_content subject findings events (filter_form export state source date_from date_to)) user [] []).

(** The page of the history route. *)
Definition history_response (h : SubjectHistory) : result pystr :=
  let filters := sh_filters h in
  let date_text d := match d with Some d => date_isoformat d | None => [] end in
  subject_history_page (sh_user h) (sh_subject h) (sh_findings h) (sh_events h) (state_text (ff_state filters))
    (ff_source filters) (date_text (ff_date_from filters)) (date_text (ff_date_to filters)).
End Findings.

(** ** Lemmas: two renderings of the same shape *)

Lemma same_option value label label' selected selected' :
  bool_decide (value = selected) = bool_decide (value = selected') ->
  same_markup (option_ value label selected) (option_ value label' selected').
Proof. intros E. unfold option_. cbv zeta. rewrite E. markup. Qed.
Lemma inert_option_marker (b : bool) : inert (if b then tpl " selected" else []).
Proof. by destruct b. Qed.
Lemma same_option_any value value' label label' selected selected' :
  same_markup (option_ value label selected) (option_ value' label' selected').
Proof. unfold option_. cbv zeta. markup. apply same_markup_inert; apply inert_option_marker. Qed.
Lemma same_dt t t' : same_markup (dt t) (dt t').
Proof. apply same_markup_esc. Qed.

Lemma same_recent_item item item' : same_markup (recent_item item) (recent_item item').
Proof. unfold recent_item. markup. Qed.
Lemma filled_recent_item item : filled (recent_item item) = true.
Proof. reflexivity. Qed.

Lemma same_scan_status scan scan' : sc_status scan = sc_status scan' -> same_markup (scan_status_fragment scan) (scan_status_fragment scan').
Proof. intros E. unfold scan_status_fragment. cbv zeta. rewrite E. markup. Qed.

Lemma inert_option_date (d : option date) : inert match d with Some d => date_isoformat d | None => [] end.
Proof. destruct d; [apply inert_date|done]. Qed.
Lemma inert_display_date (d : option date) :
  inert match d with
        | Some d => zfill 2 (str_nat (day d)) ++ [45] ++ zfill 2 (str_nat (month d)) ++ [45] ++ str_nat (year d)
        | None => tpl "Unknown"
        end.
Proof. destruct d; [|done]. apply inert_plain; match goal with |- Forall _ ?s => change (plain s) end; plain. Qed.
Lemma same_date_cell d d' : same_markup (date_cell d) (date_cell d').
Proof.
  unfold date_cell. cbv zeta. markup.
  - apply same_markup_inert; apply inert_option_date.
  - apply same_markup_inert; apply inert_display_date.
Qed.
(** The cell of a breach date has the markup of an empty one, whatever its text. *)
Lemma empty_breach_cell item : same_markup (breach_date_cell item) (date_cell None).
Proof.
  unfold breach_date_cell. destruct (fv_breach_date item); [apply same_date_cell|].
  destruct (fv_breach_date_text item); [|apply same_date_cell]. cbv zeta. unfold date_cell. markup.
  all: apply same_markup_inert; first [apply inert_esc|exact inert_nil|exact (inert_display_date None)].
Qed.
Lemma same_breach_cell item item' : same_markup (breach_date_cell item) (breach_date_cell item').
Proof. transitivity (date_cell None); [|symmetry]; apply empty_breach_cell. Qed.
Lemma inert_status_sort item : inert (status_sort item).
Proof. unfold status_sort. destruct (fv_re_leaked item); [done|]. by destruct (fv_remediated_at item). Qed.
Lemma same_remediation_markup id id' b : same_markup (remediation_markup id b) (remediation_markup id' b).
Proof. unfold remediation_markup. markup. Qed.

(** What the markup of a finding's row depends on. *)
Definition both_set {A} (a b : option A) : Prop := bool_decide (is_Some a) = bool_decide (is_Some b).
Definition finding_shape (v v' : FindingView) : Prop :=
  fv_re_leaked v = fv_re_leaked v' /\ fv_has_password v = fv_has_password v'
  /\ both_set (fv_remediated_at v) (fv_remediated_at v') /\ both_set (fv_email v) (fv_email v')
  /\ both_set (fv_username v) (fv_username v') /\ both_set (fv_phone v) (fv_phone v')
  /\ filled (default [] (fv_url v)) = filled (default [] (fv_url v')).

Section RowMarkup.
Context `{Unicode}.
Variables float_str float_json : pystr -> pystr.
Variable timestamp_str : instant -> pystr.
Hypothesis timestamp_inert : forall t, inert (timestamp_str t).

Lemma same_copy_value value value' label : same_markup (copy_value value label) (copy_value value' label).
Proof using Type. unfold copy_value. cbv zeta. markup. Qed.
Lemma same_identity_value label value value' copy : same_markup (identity_value label value copy) (identity_value label value' copy).
Proof using Type. unfold identity_value. cbv zeta. markup. apply same_copy_value. Qed.
Lemma same_identities v v' : finding_shape v v' -> Forall2 same_markup (identities v) (identities v').
Proof using Type.
  intros (_&_&_&He&Hu&Hp&_). unfold identities. cbn [flat_map].
  repeat apply Forall2_app; try apply Forall2_nil_2.
  - destruct (fv_email v), (fv_email v'); try done. constructor; [apply same_identity_value|constructor].
  - destruct (fv_username v), (fv_username v'); try done. constructor; [apply same_identity_value|constructor].
  - destruct (fv_phone v), (fv_phone v'); try done. constructor; [apply same_identity_value|constructor].
Qed.
Lemma filled_identity label value copy : filled (identity_value label value copy) = true.
Proof using Type. reflexivity. Qed.

Lemma same_password_cell v v' : finding_shape v v' -> same_markup (password_cell v) (password_cell v').
Proof using Type.
  intros (_&Hp&_). unfold password_cell. rewrite Hp. apply same_markup_app; [|markup].
  apply same_markup_inert; [destruct (fv_password_mask v)|destruct (fv_password_mask v')]; first [apply inert_esc|done].
Qed.

Lemma filled_join sep l : Forall (fun s => filled s = true) l -> filled (join sep l) = match l with [] => false | _ => true end.
Proof using Type. destruct 1 as [|x l Hx Hl]; [done|]. destruct x; [discriminate Hx|]. by destruct l. Qed.
Lemma filled_identities v : Forall (fun s => filled s = true) (identities v).
Proof using Type.
  unfold identities. cbn [flat_map]. rewrite !Forall_app.
  destruct (fv_email v), (fv_username v), (fv_phone v); repeat split; repeat constructor.
Qed.
Lemma same_identity_cell v v' : finding_shape v v' ->
  same_markup (or_text (join (tpl "<br>") (identities v)) [8212]) (or_text (join (tpl "<br>") (identities v')) [8212]).
Proof using Type.
  intros Hs%same_identities. apply same_markup_or; [|by apply same_markup_join].
  rewrite !filled_join by apply filled_identities. by destruct Hs.
Qed.
Lemma inert_origin_cell o : inert match o with Some (c :: s) => esc (c :: s) | _ => [8212] end.
Proof using Type. destruct o as [[|c s]|]; [done|apply inert_esc|done]. Qed.
Lemma same_url_cell u u' : filled (default [] u) = filled (default [] u') ->
  same_markup match u with Some (c :: s) => copy_value (c :: s) (py "URL") | _ => [8212] end
              match u' with Some (c :: s) => copy_value (c :: s) (py "URL") | _ => [8212] end.
Proof using Type.
  intros E. destruct u as [[|c s]|], u' as [[|c' s']|]; try discriminate E; first [apply same_copy_value|reflexivity].
Qed.

Lemma same_finding_row v v' : finding_shape v v' ->
  same_markup (finding_row float_str float_json timestamp_str v) (finding_row float_str float_json timestamp_str v').
Proof using timestamp_inert.
  intros Hs. pose proof Hs as (Hr&_&Hm&_&_&_&Hu). unfold finding_row, remediation_control. cbv zeta. rewrite Hr. unfold both_set in Hm.
  rewrite Hm. markup.
  all: first [apply same_breach_cell|apply same_date_cell|by apply same_identity_cell|by apply same_url_cell
             |by apply same_password_cell|apply same_dt|apply same_remediation_markup|apply same_markup_inert].
  all: first [apply inert_origin_cell|apply inert_status_sort|apply timestamp_inert|by apply inert_escaped_list].
Qed.
Lemma filled_finding_row v : filled (finding_row float_str float_json timestamp_str v) = true.
Proof using Type. reflexivity. Qed.

Lemma inert_actor (actor : option pystr) : inert match actor with Some (c :: s) => tpl " by " ++ esc (c :: s) | _ => [] end.
Proof using Type. destruct actor as [[|c s]|]; [done| |done]. apply inert_app; [done|apply inert_esc]. Qed.
Lemma same_event_item e e' : same_markup (event_item float_json e) (event_item float_json e').
Proof using Type.
  unfold event_item. cbv zeta. markup; first [apply same_dt|apply same_markup_inert; apply inert_actor].
Qed.
Lemma filled_event_item e : filled (event_item float_json e) = true.
Proof using Type. reflexivity. Qed.

(** The link to the export is one escaped text. *)
Lemma inert_export_url id state source date_from date_to url : export_url id state source date_from date_to = Ok url -> inert url.
Proof using Type.
  intros E. change (match Ok url with Ok u => inert u | Raise _ => True end). rewrite <- E. unfold export_url.
  destruct (urlencode _); [apply inert_esc|done].
Qed.
Lemma same_filter_form export export' state state' source source' date_from date_from' date_to date_to' :
  inert export -> inert export' ->
  same_markup (filter_form export state source date_from date_to) (filter_form export' state' source' date_from' date_to').
Proof using Type.
  intros He He'. unfold filter_form. markup; first [apply same_option_any|by apply same_markup_inert].
Qed.
End RowMarkup.

Section PagePairs.
Context `{Unicode}.
Variables float_str float_json : pystr -> pystr.
Variable timestamp_str : instant -> pystr.
Hypothesis timestamp_inert : forall t, inert (timestamp_str t).
Variables user user' : User.
Hypothesis same_role : u_role user = u_role user'.

Lemma same_analyst_dashboard l l' : length l = length l' ->
  same_markup (analyst_dashboard user l) (analyst_dashboard user' l').
Proof using same_role.
  intros Hl. unfold analyst_dashboard. cbv zeta. apply same_markup_page; [done|]. markup.
  apply same_markup_rows; [apply filled_recent_item|]. apply Forall2_same_length in Hl.
  eapply Forall2_impl; [exact Hl|]. intros; apply same_recent_item.
Qed.
Lemma same_scan_progress_page scan scan' subject subject' : sc_status scan = sc_status scan' ->
  same_markup (scan_progress_page user scan subject) (scan_progress_page user' scan' subject').
Proof using same_role.
  intros Hs. unfold scan_progress_page. cbv zeta. apply same_markup_page; [done|]. markup. by apply same_scan_status.
Qed.

Lemma same_history_content subject subject' findings findings' events events' form form' :
  Forall2 finding_shape findings findings' -> length events = length events' -> same_markup form form' ->
  same_markup (history_content float_str float_json timestamp_str subject findings events form)
              (history_content float_str float_json timestamp_str subject' findings' events' form').
Proof using timestamp_inert.
  intros Hf He Hform. unfold history_content. cbv zeta. markup; [exact Hform| |].
  - apply same_markup_rows; [intros; apply filled_finding_row|]. eapply Forall2_impl; [exact Hf|].
    intros; by apply same_finding_row.
  - apply same_markup_rows; [intros; apply filled_event_item|]. apply Forall2_same_length in He.
    eapply Forall2_impl; [exact He|]. intros; apply same_event_item.
Qed.
Lemma same_history_page subject subject' findings findings' events events' state state' source source' from from' to_ to_' p p' :
  Forall2 finding_shape findings findings' -> length events = length events' ->
  subject_history_page float_str float_json timestamp_str user subject findings events state source from to_ = Ok p ->
  subject_history_page float_str float_json timestamp_str user' subject' findings' events' state' source' from' to_' = Ok p' ->
  same_markup p p'.
Proof using timestamp_inert same_role.
  intros Hf He. unfold subject_history_page.
  destruct (export_url (su_id subject) _ _ _ _) as [x|] eqn:Hx; [|discriminate]. intros [= <-].
  destruct (export_url (su_id subject') _ _ _ _) as [x'|] eqn:Hx'; [|discriminate]. intros [= <-].
  apply inert_export_url in Hx, Hx'. apply same_markup_page; [done|]. apply same_history_content; [done|done|].
  by apply same_filter_form.
Qed.
End PagePairs.
