(* ===== verification/Schema.v ===== *)
(** The data definition language of PostgreSQL that the migrations use (through alembic's operations): a
    database's types, tables, constraints, indexes, roles and privileges, and the rows of the one table whose
    rows a migration reads. An operation that PostgreSQL refuses raises [ProgrammingError]. *)
From Stdlib Require Import Ascii.
From S2P Require Import Prelude PyBase Encoding Hashes Json Models Store.

Definition ProgrammingError : exn := OtherException "ProgrammingError".

(** *** Columns and constraints *)

Inductive SqlType : Type :=
| T_UUID | T_CITEXT | T_String (length : Z) | T_Text | T_Boolean | T_Integer | T_DateTime | T_Date | T_LargeBinary | T_JSONB
| T_Enum (name : string).
#[export] Instance SqlType_eq_dec : EqDecision SqlType.
Proof. solve_decision. Defined.

(** [server_default=text(...)], an SQL expression, and [server_default="..."], a string constant. *)
Inductive ServerDefault : Type := D_text (sql : string) | D_string (value : string).
#[export] Instance ServerDefault_eq_dec : EqDecision ServerDefault.
Proof. solve_decision. Defined.

Record Column := mkColumn {
  c_type : SqlType;
  c_nullable : bool;
  c_default : option ServerDefault;
}.
#[export] Instance Column_eq_dec : EqDecision Column.
Proof. solve_decision. Defined.

Inductive TableConstraint : Type :=
| PrimaryKey (columns : list string)
| Unique (columns : list string)
| ForeignKey (columns : list string) (table : string) (referred : list string) (ondelete : option string)
| Check_ (sql : string).
#[export] Instance TableConstraint_eq_dec : EqDecision TableConstraint.
Proof. solve_decision. Defined.

Record Table := mkTable {
  t_columns : gmap string Column;
  t_constraints : gmap string TableConstraint;
}.
#[export] Instance Table_eq_dec : EqDecision Table.
Proof. solve_decision. Defined.
Definition set_t_columns (c : gmap string Column) (t : Table) : Table := mkTable c (t_constraints t).
Definition set_t_constraints (c : gmap string TableConstraint) (t : Table) : Table := mkTable (t_columns t) c.

Record IndexDef := mkIndexDef { i_table : string; i_columns : list string; i_unique : bool }.
#[export] Instance IndexDef_eq_dec : EqDecision IndexDef.
Proof. solve_decision. Defined.

(** A string constant in an SQL expression, with a cast or without: the text between the quotes. *)
Fixpoint upto_quote (s : string) : string :=
  match s with
  | EmptyString => EmptyString
  | String c t => if Ascii.eqb c "'"%char then EmptyString else String c (upto_quote t)
  end.
Fixpoint is_call (s : string) : bool :=
  match s with EmptyString => false | String c t => Ascii.eqb c "("%char || is_call t end.
(** What the catalogue keeps of a default: a call, or the constant it denotes. *)
Definition stored_default (d : ServerDefault) : ServerDefault :=
  match d with
  | D_string v => D_string v
  | D_text (String "'"%char t) => D_string (upto_quote t)
  | D_text s => if is_call s then D_text s else D_string s
  end.

(** *** Roles and privileges *)

Inductive Privilege : Type := SELECT | INSERT | UPDATE | DELETE | TRUNCATE | CREATE | CONNECT | USAGE.
#[export] Instance Privilege_eq_dec : EqDecision Privilege.
Proof. solve_decision. Defined.
Inductive SqlObject : Type := OnTable (table : string) | OnDatabase | OnSchemaPublic.
#[export] Instance SqlObject_eq_dec : EqDecision SqlObject.
Proof. solve_decision. Defined.
Record Grant := mkGrant { g_role : string; g_object : SqlObject; g_privilege : Privilege }.
#[export] Instance Grant_eq_dec : EqDecision Grant.
Proof. solve_decision. Defined.
(** [CREATE ROLE ... LOGIN NOSUPERUSER ...]: the attributes that are switched off, and the password. *)
Record Role := mkRole { r_login : bool; r_superuser : bool; r_createdb : bool; r_createrole : bool; r_password : pystr }.

Record Database := mkDatabase {
  db_extensions : gset string;
  db_enums : gmap string (list string);
  db_tables : gmap string Table;
  db_indexes : gmap string IndexDef;
  db_roles : gmap string Role;
  db_owners : gmap string string;       (* the role that owns each table *)
  db_grants : list Grant;               (* without repetitions *)
  db_public_create : bool;              (* CREATE on the schema public for everyone *)
  db_credentials : list AdminCredential; (* the rows of admin_credentials *)
  db_user : string;                     (* the role of the connection *)
  db_version : option string;           (* the row of alembic_version *)
}.
Definition set_db_extensions v d := mkDatabase v (db_enums d) (db_tables d) (db_indexes d) (db_roles d) (db_owners d) (db_grants d) (db_public_create d) (db_credentials d) (db_user d) (db_version d).
Definition set_db_enums v d := mkDatabase (db_extensions d) v (db_tables d) (db_indexes d) (db_roles d) (db_owners d) (db_grants d) (db_public_create d) (db_credentials d) (db_user d) (db_version d).
Definition set_db_tables v d := mkDatabase (db_extensions d) (db_enums d) v (db_indexes d) (db_roles d) (db_owners d) (db_grants d) (db_public_create d) (db_credentials d) (db_user d) (db_version d).
Definition set_db_indexes v d := mkDatabase (db_extensions d) (db_enums d) (db_tables d) v (db_roles d) (db_owners d) (db_grants d) (db_public_create d) (db_credentials d) (db_user d) (db_version d).
Definition set_db_roles v d := mkDatabase (db_extensions d) (db_enums d) (db_tables d) (db_indexes d) v (db_owners d) (db_grants d) (db_public_create d) (db_credentials d) (db_user d) (db_version d).
Definition set_db_owners v d := mkDatabase (db_extensions d) (db_enums d) (db_tables d) (db_indexes d) (db_roles d) v (db_grants d) (db_public_create d) (db_credentials d) (db_user d) (db_version d).
Definition set_db_grants v d := mkDatabase (db_extensions d) (db_enums d) (db_tables d) (db_indexes d) (db_roles d) (db_owners d) v (db_public_create d) (db_credentials d) (db_user d) (db_version d).
Definition set_db_public_create v d := mkDatabase (db_extensions d) (db_enums d) (db_tables d) (db_indexes d) (db_roles d) (db_owners d) (db_grants d) v (db_credentials d) (db_user d) (db_version d).
Definition set_db_credentials v d := mkDatabase (db_extensions d) (db_enums d) (db_tables d) (db_indexes d) (db_roles d) (db_owners d) (db_grants d) (db_public_create d) v (db_user d) (db_version d).
Definition set_db_user v d := mkDatabase (db_extensions d) (db_enums d) (db_tables d) (db_indexes d) (db_roles d) (db_owners d) (db_grants d) (db_public_create d) (db_credentials d) v (db_version d).
Definition set_db_version v d := mkDatabase (db_extensions d) (db_enums d) (db_tables d) (db_indexes d) (db_roles d) (db_owners d) (db_grants d) (db_public_create d) (db_credentials d) (db_user d) v.

(** *** Operations *)

Definition Mig : Type -> Type := ST Database.
Definition get_state : Mig Database := fun d => (Ok d, d).
Definition modify (f : Database -> Database) : Mig unit := fun d => (Ok tt, f d).
Definition require (b : bool) : Mig unit := if b then mret tt else raise ProgrammingError.

(** What the role of the connection may do: [postgres] is the superuser. *)
Definition superuser (d : Database) : bool := bool_decide (db_user d = "postgres"%string).
Definition holds (d : Database) (o : SqlObject) (p : Privilege) : bool :=
  superuser d || bool_decide (mkGrant (db_user d) o p ∈ db_grants d).
Definition owns (d : Database) (table : string) : bool :=
  superuser d || bool_decide (db_owners d !! table = Some (db_user d)).

(** The names that tables, indexes and the indexes behind constraints share. *)
Definition constraint_indexes (t : Table) : list string :=
  flat_map (fun kc => match kc.2 with PrimaryKey _ | Unique _ => [kc.1] | _ => [] end) (map_to_list (t_constraints t)).
Definition relation_names (d : Database) : list string :=
  (map_to_list (db_tables d)).*1 ++ (map_to_list (db_indexes d)).*1 ++ flat_map (fun kt => constraint_indexes kt.2) (map_to_list (db_tables d)).
Definition fresh_names (new old : list string) : bool := forallb (fun n => negb (existsb (String.eqb n) old)) new.
Definition type_known (d : Database) (t : SqlType) : bool :=
  match t with
  | T_Enum name => bool_decide (is_Some (db_enums d !! name))
  | T_CITEXT => bool_decide ("citext"%string ∈ db_extensions d)
  | _ => true
  end.
Definition has_columns (columns : list string) (t : Table) : bool :=
  forallb (fun c => bool_decide (is_Some (t_columns t !! c))) columns.
(** Columns that a key of the table makes unique. *)
Definition is_key (columns : list string) (t : Table) : bool :=
  existsb (fun kc => match kc.2 with PrimaryKey cs | Unique cs => bool_decide (cs = columns) | _ => false end) (map_to_list (t_constraints t)).
(** A constraint on a table, which may refer to itself. *)
Definition constraint_ok (d : Database) (name : string) (t : Table) (c : TableConstraint) : bool :=
  match c with
  | PrimaryKey cs | Unique cs => has_columns cs t
  | ForeignKey cs other referred _ =>
      has_columns cs t && bool_decide (length cs = length referred)
      && (if bool_decide (other = name) then is_key referred t
          else match db_tables d !! other with Some t' => is_key referred t' && owns d other | None => false end)
  | Check_ _ => true
  end.

(** [postgresql.ENUM(..., create_type=False).create(bind, checkfirst=True)] and its [drop]. *)
Definition create_enum (name : string) (labels : list string) : Mig unit :=
  let! d <- get_state;
  if bool_decide (is_Some (db_enums d !! name)) then mret tt
  else do! require (holds d OnSchemaPublic CREATE); modify (set_db_enums (<[name := labels]> (db_enums d))).
Definition uses_type (name : string) (t : Table) : bool :=
  existsb (fun kc => bool_decide (c_type kc.2 = T_Enum name)) (map_to_list (t_columns t)).
Definition drop_enum (name : string) : Mig unit :=
  let! d <- get_state;
  if bool_decide (is_Some (db_enums d !! name)) then
    do! require (negb (existsb (fun kt => uses_type name kt.2) (map_to_list (db_tables d))));
    modify (set_db_enums (delete name (db_enums d)))
  else mret tt.
(** [ALTER TYPE ... ADD VALUE IF NOT EXISTS ...] *)
Definition add_enum_value (name label : string) : Mig unit :=
  let! d <- get_state;
  match db_enums d !! name with
  | None => raise ProgrammingError
  | Some labels => modify (set_db_enums (<[name := if bool_decide (label ∈ labels) then labels else labels ++ [label]]> (db_enums d)))
  end.
(** [CREATE EXTENSION IF NOT EXISTS] of a trusted extension. *)
Definition create_extension (name : string) : Mig unit :=
  let! d <- get_state;
  if bool_decide (name ∈ db_extensions d) then mret tt
  else do! require (holds d OnDatabase CREATE); modify (set_db_extensions ({[name]} ∪ db_extensions d)).

(** [sa.Column(name, type, server_default=..., nullable=...)] *)
Definition column (name : string) (type : SqlType) (default_ : option ServerDefault) (nullable : bool) : string * Column :=
  (name, mkColumn type nullable (stored_default <$> default_)).
Definition create_table (name : string) (columns : list (string * Column)) (constraints : list (string * TableConstraint)) : Mig unit :=
  let! d <- get_state;
  let t := mkTable (list_to_map columns) (list_to_map constraints) in
  do! require (holds d OnSchemaPublic CREATE && bool_decide (NoDup columns.*1) && bool_decide (NoDup constraints.*1)
               && forallb (fun c => type_known d (c_type c.2)) columns
               && forallb (fun c => constraint_ok d name t c.2) constraints
               && bool_decide (NoDup (name :: constraint_indexes t))
               && fresh_names (name :: constraint_indexes t) (relation_names d));
  modify (fun d => set_db_tables (<[name := t]> (db_tables d)) (set_db_owners (<[name := db_user d]> (db_owners d)) d)).
(** A foreign key of another table. *)
Definition refers_to (name : string) (t : Table) : bool :=
  existsb (fun kc => match kc.2 with ForeignKey _ other _ _ => bool_decide (other = name) | _ => false end) (map_to_list (t_constraints t)).
Definition drop_table (name : string) : Mig unit :=
  let! d <- get_state;
  do! require (bool_decide (is_Some (db_tables d !! name)) && owns d name
               && negb (existsb (fun kt => negb (bool_decide (kt.1 = name)) && refers_to name kt.2) (map_to_list (db_tables d))));
  modify (fun d => set_db_tables (delete name (db_tables d))
    (set_db_indexes (filter (fun ki => i_table ki.2 <> name) (db_indexes d))
      (set_db_owners (delete name (db_owners d))
        (set_db_grants (List.filter (fun g => negb (bool_decide (g_object g = OnTable name))) (db_grants d))
          (set_db_credentials (if bool_decide (name = "admin_credentials"%string) then [] else db_credentials d) d))))).

Definition create_index (name table : string) (columns : list string) : Mig unit :=
  let! d <- get_state;
  do! require (fresh_names [name] (relation_names d) && owns d table
               && match db_tables d !! table with Some t => has_columns columns t | None => false end);
  modify (set_db_indexes (<[name := mkIndexDef table columns false]> (db_indexes d))).
Definition drop_index (name : string) : Mig unit :=
  let! d <- get_state;
  do! require (match db_indexes d !! name with Some i => owns d (i_table i) | None => false end);
  modify (set_db_indexes (delete name (db_indexes d))).

Definition on_table (name : string) (f : Table -> Mig Table) : Mig unit :=
  let! d <- get_state;
  match db_tables d !! name with
  | None => raise ProgrammingError
  | Some t => do! require (owns d name); let! t' <- f t; modify (fun d => set_db_tables (<[name := t']> (db_tables d)) d)
  end.
(** The one column whose rows matter here; a new column is null in every row. *)
Definition set_enabled (v : option instant) (r : AdminCredential) : AdminCredential :=
  mkAdminCredential (ac_user_id r) (ac_password_hash r) (ac_totp_secret_enc r) v (ac_failed_attempts r) (ac_locked_until r).
Definition blank_column (table name : string) (d : Database) : Database :=
  if bool_decide (table = "admin_credentials"%string /\ name = "totp_enabled_at"%string)
  then set_db_credentials (map (set_enabled None) (db_credentials d)) d else d.
Definition has_nulls (table name : string) (d : Database) : bool :=
  bool_decide (table = "admin_credentials"%string /\ name = "totp_secret_enc"%string)
  && existsb (fun r => bool_decide (ac_totp_secret_enc r = None)) (db_credentials d).
(** A column without a default that may be null, as the migrations add them. *)
Definition add_column (table : string) (c : string * Column) : Mig unit :=
  do! on_table table (fun t =>
    let! d <- get_state;
    do! require (negb (bool_decide (is_Some (t_columns t !! c.1))) && type_known d (c_type c.2) && c_nullable c.2);
    mret (set_t_columns (<[c.1 := c.2]> (t_columns t)) t));
  modify (blank_column table c.1).
Definition names_column (c : string) (k : TableConstraint) : bool :=
  match k with PrimaryKey cs | Unique cs | ForeignKey cs _ _ _ => bool_decide (c ∈ cs) | Check_ _ => false end.
(** The constraints and indexes over a dropped column go with it. *)
Definition drop_column (table name : string) : Mig unit :=
  do! on_table table (fun t =>
    do! require (bool_decide (is_Some (t_columns t !! name)));
    mret (mkTable (delete name (t_columns t)) (filter (fun kc => names_column name kc.2 = false) (t_constraints t))));
  modify (fun d => blank_column table name (set_db_indexes (filter (fun ki => ~ (i_table ki.2 = table /\ name ∈ i_columns ki.2)) (db_indexes d)) d)).
Definition set_nullable (table name : string) (nullable : bool) : Mig unit :=
  on_table table (fun t =>
    match t_columns t !! name with
    | None => raise ProgrammingError
    | Some c =>
        let! d <- get_state;
        do! require (nullable || negb (has_nulls table name d));
        mret (set_t_columns (<[name := mkColumn (c_type c) nullable (c_default c)]> (t_columns t)) t)
    end).
Definition create_foreign_key (name source referent : string) (local_cols remote_cols : list string) (ondelete : option string) : Mig unit :=
  on_table source (fun t =>
    let! d <- get_state;
    let c := ForeignKey local_cols referent remote_cols ondelete in
    do! require (negb (bool_decide (is_Some (t_constraints t !! name))) && constraint_ok d source t c);
    mret (set_t_constraints (<[name := c]> (t_constraints t)) t)).
Definition drop_constraint (name table : string) : Mig unit :=
  on_table table (fun t =>
    do! require (bool_decide (is_Some (t_constraints t !! name)));
    mret (set_t_constraints (delete name (t_constraints t)) t)).

(** [GRANT privileges ON object TO role], and [REVOKE]. *)
Definition object_known (d : Database) (o : SqlObject) : bool :=
  match o with OnTable t => bool_decide (is_Some (db_tables d !! t)) | _ => true end.
Definition grantor (d : Database) (o : SqlObject) : bool := match o with OnTable t => owns d t | _ => superuser d end.
Definition grant (privileges : list Privilege) (object : SqlObject) (role : string) : Mig unit :=
  let! d <- get_state;
  do! require (object_known d object && grantor d object && bool_decide (is_Some (db_roles d !! role)));
  let granted := map (mkGrant role object) privileges in
  modify (set_db_grants (db_grants d ++ List.filter (fun g => negb (bool_decide (g ∈ db_grants d))) granted)).
Definition revoke_privileges (privileges : list Privilege) (object : SqlObject) (role : string) : Mig unit :=
  let! d <- get_state;
  do! require (object_known d object && grantor d object && bool_decide (is_Some (db_roles d !! role)));
  modify (set_db_grants (List.filter (fun g => negb (bool_decide (g_role g = role) && bool_decide (g_object g = object) && bool_decide (g_privilege g ∈ privileges))) (db_grants d))).
Definition ALL : list Privilege := [SELECT; INSERT; UPDATE; DELETE; TRUNCATE].
Definition grant_tables (privileges : list Privilege) (tables : list string) (role : string) : Mig unit :=
  do! mfor (fun t => grant privileges (OnTable t) role) tables; mret tt.
Definition revoke_tables (privileges : list Privilege) (tables : list string) (role : string) : Mig unit :=
  do! mfor (fun t => revoke_privileges privileges (OnTable t) role) tables; mret tt.

(** [DROP ROLE IF EXISTS]: refused while the role owns something or holds a privilege. *)
Definition drop_role (role : string) : Mig unit :=
  let! d <- get_state;
  if bool_decide (is_Some (db_roles d !! role)) then
    do! require (superuser d && negb (existsb (fun to => bool_decide (to.2 = role)) (map_to_list (db_owners d)))
                 && negb (existsb (fun g => bool_decide (g_role g = role)) (db_grants d)));
    modify (set_db_roles (delete role (db_roles d)))
  else mret tt.
Definition set_owner (table role : string) : Mig unit :=
  let! d <- get_state;
  do! require (object_known d (OnTable table) && superuser d && bool_decide (is_Some (db_roles d !! role)));
  modify (set_db_owners (<[table := role]> (db_owners d))).
