(* ===== verification/Migrations.v ===== *)
(** The migrations (migrations/versions/*.py), one pair of definitions per revision, and how alembic runs
    them (migrations/env.py): in the order of their links, in one transaction. *)
From S2P Require Import Prelude PyBase Encoding Hashes Json Models Store Schema.
Local Open Scope string_scope.

(** *** 0002_auth_models.py *)

Definition upgrade_0002 : Mig unit :=
  do! create_extension "citext";
  do! create_enum "user_role" ["user"; "analyst"; "super_admin"];
  do! create_enum "user_source" ["google"; "workspace_sync"; "manual"];
  do! create_table "users"
    [column "id" T_UUID None false;
     column "email" T_CITEXT None false;
     column "google_sub" (T_String 255) None true;
     column "display_name" (T_String 255) None false;
     column "ou_path" (T_String 1024) None true;
     column "role" (T_Enum "user_role") (Some (D_text "'user'::user_role")) false;
     column "is_active" T_Boolean (Some (D_text "true")) false;
     column "source" (T_Enum "user_source") None false;
     column "created_at" T_DateTime (Some (D_text "now()")) false;
     column "last_login_at" T_DateTime None true]
    [("pk_users", PrimaryKey ["id"]);
     ("uq_users_email", Unique ["email"]);
     ("uq_users_google_sub", Unique ["google_sub"])];
  do! create_table "admin_credentials"
    [column "user_id" T_UUID None false;
     column "password_hash" T_Text None false;
     column "totp_secret_enc" T_LargeBinary None false;
     column "failed_attempts" T_Integer (Some (D_text "0")) false;
     column "locked_until" T_DateTime None true]
    [("ck_admin_credentials_attempts", Check_ "failed_attempts >= 0");
     ("fk_admin_credentials_user_id", ForeignKey ["user_id"] "users" ["id"] None);
     ("pk_admin_credentials", PrimaryKey ["user_id"])];
  do! create_table "sessions"
    [column "id_hash" T_LargeBinary None false;
     column "user_id" T_UUID None false;
     column "created_at" T_DateTime (Some (D_text "now()")) false;
     column "expires_at" T_DateTime None false;
     column "last_seen_at" T_DateTime (Some (D_text "now()")) false;
     column "idle_expires_at" T_DateTime None false;
     column "ip_hash" T_LargeBinary None false;
     column "ua_hash" T_LargeBinary None false;
     column "revoked_at" T_DateTime None true]
    [("ck_sessions_expires_after_created", Check_ "expires_at > created_at");
     ("ck_sessions_idle_expires_after_created", Check_ "idle_expires_at > created_at");
     ("ck_sessions_id_hash_length", Check_ "octet_length(id_hash) = 32");
     ("ck_sessions_ip_hash_length", Check_ "octet_length(ip_hash) = 32");
     ("ck_sessions_ua_hash_length", Check_ "octet_length(ua_hash) = 32");
     ("fk_sessions_user_id", ForeignKey ["user_id"] "users" ["id"] None);
     ("pk_sessions", PrimaryKey ["id_hash"])];
  do! create_index "ix_sessions_user_id" "sessions" ["user_id"];
  do! grant_tables [SELECT; INSERT; UPDATE] ["users"] "leakcheck_runtime";
  do! grant_tables [SELECT; INSERT; UPDATE] ["admin_credentials"] "leakcheck_runtime";
  grant_tables [SELECT; INSERT; UPDATE] ["sessions"] "leakcheck_runtime".
Definition downgrade_0002 : Mig unit :=
  do! revoke_tables ALL ["sessions"] "leakcheck_runtime";
  do! revoke_tables ALL ["admin_credentials"] "leakcheck_runtime";
  do! revoke_tables ALL ["users"] "leakcheck_runtime";
  do! drop_index "ix_sessions_user_id";
  do! drop_table "sessions";
  do! drop_table "admin_credentials";
  do! drop_table "users";
  do! drop_enum "user_source";
  drop_enum "user_role".

(** *** 0003_admin_login_rate_limits.py *)

Definition upgrade_0003 : Mig unit :=
  do! create_table "admin_login_rate_limits"
    [column "ip_hash" T_LargeBinary None false;
     column "window_started_at" T_DateTime None false;
     column "attempts" T_Integer (Some (D_text "0")) false;
     column "blocked_until" T_DateTime None true]
    [("ck_admin_login_rate_limits_attempts", Check_ "attempts >= 0");
     ("ck_admin_login_rate_limits_ip_hash_length", Check_ "octet_length(ip_hash) = 32");
     ("pk_admin_login_rate_limits", PrimaryKey ["ip_hash"])];
  grant_tables [SELECT; INSERT; UPDATE] ["admin_login_rate_limits"] "leakcheck_runtime".
Definition downgrade_0003 : Mig unit :=
  do! revoke_tables ALL ["admin_login_rate_limits"] "leakcheck_runtime";
  drop_table "admin_login_rate_limits".

(** *** 0004_platform_settings_audit.py *)

Definition upgrade_0004 : Mig unit :=
  do! create_table "platform_settings"
    [column "key" (T_String 64) None false;
     column "ciphertext" T_LargeBinary None false;
     column "nonce" T_LargeBinary None false;
     column "schema_version" T_Integer (Some (D_string "1")) false;
     column "updated_at" T_DateTime (Some (D_text "now()")) false;
     column "updated_by" T_UUID None false]
    [("ck_platform_settings_nonce_length", Check_ "octet_length(nonce) = 12");
     ("ck_platform_settings_schema_version", Check_ "schema_version > 0");
     ("fk_platform_settings_updated_by", ForeignKey ["updated_by"] "users" ["id"] None);
     ("pk_platform_settings", PrimaryKey ["key"])];
  do! create_table "audit_log"
    [column "id" T_UUID None false;
     column "actor_id" T_UUID None true;
     column "action" (T_String 128) None false;
     column "target_type" (T_String 64) None true;
     column "target_id" (T_String 255) None true;
     column "ip_hash" T_LargeBinary None false;
     column "at" T_DateTime (Some (D_text "now()")) false;
     column "meta" T_JSONB (Some (D_string "{}")) false]
    [("ck_audit_log_ip_hash_length", Check_ "octet_length(ip_hash) = 32");
     ("fk_audit_log_actor_id", ForeignKey ["actor_id"] "users" ["id"] None);
     ("pk_audit_log", PrimaryKey ["id"])];
  do! create_index "ix_audit_log_action" "audit_log" ["action"];
  do! create_index "ix_audit_log_actor_id" "audit_log" ["actor_id"];
  do! grant_tables [SELECT; INSERT; UPDATE] ["platform_settings"] "leakcheck_runtime";
  do! grant_tables [SELECT; INSERT] ["audit_log"] "leakcheck_runtime";
  revoke_tables [UPDATE; DELETE; TRUNCATE] ["audit_log"] "leakcheck_runtime".
Definition downgrade_0004 : Mig unit :=
  do! revoke_tables ALL ["audit_log"] "leakcheck_runtime";
  do! revoke_tables ALL ["platform_settings"] "leakcheck_runtime";
  do! drop_index "ix_audit_log_actor_id";
  do! drop_index "ix_audit_log_action";
  do! drop_table "audit_log";
  drop_table "platform_settings".

(** *** 0005_ingest_core.py *)

Definition upgrade_0005 : Mig unit :=
  do! create_enum "subject_kind" ["email"; "domain"; "username"; "phone"; "origin"; "password"];
  do! create_enum "scan_trigger" ["manual"; "self"; "batch"; "scheduled"];
  do! create_enum "scan_status" ["pending"; "running"; "succeeded"; "failed"];
  do! create_enum "finding_severity" ["low"; "medium"; "high"];
  do! create_enum "finding_event_type" ["discovered"; "remediated"; "unremediated"; "re_leaked"; "password_viewed"; "notified"; "alerted"];
  do! create_table "subjects"
    [column "id" T_UUID None false;
     column "kind" (T_Enum "subject_kind") None false;
     column "value_norm" (T_String 4096) None false;
     column "value_display" (T_String 4096) None false;
     column "first_scanned_at" T_DateTime None true;
     column "last_scanned_at" T_DateTime None true;
     column "linked_user_id" T_UUID None true]
    [("fk_subjects_linked_user_id", ForeignKey ["linked_user_id"] "users" ["id"] None);
     ("pk_subjects", PrimaryKey ["id"]);
     ("uq_subjects_kind_value_norm", Unique ["kind"; "value_norm"])];
  do! create_index "ix_subjects_linked_user_id" "subjects" ["linked_user_id"];
  do! create_table "scans"
    [column "id" T_UUID None false;
     column "subject_id" T_UUID None false;
     column "requested_by" T_UUID None true;
     column "trigger" (T_Enum "scan_trigger") None false;
     column "status" (T_Enum "scan_status") (Some (D_string "pending")) false;
     column "started_at" T_DateTime None true;
     column "finished_at" T_DateTime None true;
     column "result_count" T_Integer (Some (D_string "0")) false;
     column "new_count" T_Integer (Some (D_string "0")) false;
     column "quota" T_Integer None true;
     column "truncated" T_Boolean (Some (D_string "false")) false;
     column "error" T_Text None true]
    [("ck_scans_result_count", Check_ "result_count >= 0");
     ("ck_scans_new_count", Check_ "new_count >= 0");
     ("ck_scans_quota", Check_ "quota IS NULL OR quota >= 0");
     ("fk_scans_requested_by", ForeignKey ["requested_by"] "users" ["id"] None);
     ("fk_scans_subject_id", ForeignKey ["subject_id"] "subjects" ["id"] None);
     ("pk_scans", PrimaryKey ["id"])];
  do! create_index "ix_scans_requested_by" "scans" ["requested_by"];
  do! create_index "ix_scans_subject_id" "scans" ["subject_id"];
  do! create_table "breach_sources"
    [column "id" T_UUID None false;
     column "name" (T_String 1024) None false;
     column "name_norm" (T_String 1024) None false;
     column "breach_date" T_Date None true;
     column "breach_date_norm" T_Date None false;
     column "unverified" T_Boolean None true;
     column "passwordless" T_Boolean None true;
     column "compilation" T_Boolean None true;
     column "extra" T_JSONB (Some (D_string "{}")) false]
    [("pk_breach_sources", PrimaryKey ["id"]);
     ("uq_breach_sources_identity", Unique ["name_norm"; "breach_date_norm"])];
  do! create_table "findings"
    [column "id" T_UUID None false;
     column "subject_id" T_UUID None false;
     column "source_id" T_UUID None false;
     column "email" (T_String 320) None true;
     column "username" (T_String 1024) None true;
     column "phone" (T_String 64) None true;
     column "origin" (T_String 4096) None true;
     column "identity_key" T_LargeBinary None true;
     column "password_ciphertext" T_LargeBinary None true;
     column "password_nonce" T_LargeBinary None true;
     column "password_sha256" T_LargeBinary None true;
     column "password_mask" (T_String 1024) None true;
     column "password_len" T_Integer None true;
     column "password_charset" (T_String 255) None true;
     column "fields" T_JSONB (Some (D_string "[]")) false;
     column "raw" T_JSONB (Some (D_string "{}")) false;
     column "fingerprint" T_LargeBinary None false;
     column "severity" (T_Enum "finding_severity") (Some (D_string "medium")) false;
     column "first_seen_at" T_DateTime (Some (D_text "now()")) false;
     column "last_seen_at" T_DateTime (Some (D_text "now()")) false;
     column "remediated_at" T_DateTime None true;
     column "remediated_by" T_UUID None true;
     column "remediation_note" T_Text None true;
     column "superseded_by_id" T_UUID None true;
     column "notified_at" T_DateTime None true]
    [("ck_findings_fingerprint_length", Check_ "octet_length(fingerprint) = 32");
     ("ck_findings_identity_key_length", Check_ "identity_key IS NULL OR octet_length(identity_key) = 32");
     ("ck_findings_password_sha256_length", Check_ "password_sha256 IS NULL OR octet_length(password_sha256) = 32");
     ("ck_findings_password_nonce_length", Check_ "password_nonce IS NULL OR octet_length(password_nonce) = 12");
     ("ck_findings_password_len", Check_ "password_len IS NULL OR password_len >= 0");
     ("fk_findings_remediated_by", ForeignKey ["remediated_by"] "users" ["id"] None);
     ("fk_findings_source_id", ForeignKey ["source_id"] "breach_sources" ["id"] None);
     ("fk_findings_subject_id", ForeignKey ["subject_id"] "subjects" ["id"] None);
     ("fk_findings_superseded_by_id", ForeignKey ["superseded_by_id"] "findings" ["id"] None);
     ("pk_findings", PrimaryKey ["id"]);
     ("uq_findings_fingerprint", Unique ["fingerprint"])];
  do! create_index "ix_findings_source_id" "findings" ["source_id"];
  do! create_index "ix_findings_subject_id" "findings" ["subject_id"];
  do! create_index "ix_findings_subject_remediation" "findings" ["subject_id"; "remediated_at"];
  do! create_table "finding_events"
    [column "id" T_UUID None false;
     column "finding_id" T_UUID None false;
     column "event" (T_Enum "finding_event_type") None false;
     column "actor_id" T_UUID None true;
     column "at" T_DateTime (Some (D_text "now()")) false;
     column "meta" T_JSONB (Some (D_string "{}")) false]
    [("fk_finding_events_actor_id", ForeignKey ["actor_id"] "users" ["id"] None);
     ("fk_finding_events_finding_id", ForeignKey ["finding_id"] "findings" ["id"] None);
     ("pk_finding_events", PrimaryKey ["id"])];
  do! create_index "ix_finding_events_finding_id" "finding_events" ["finding_id"];
  do! grant_tables [SELECT; INSERT; UPDATE] ["subjects"; "scans"; "breach_sources"; "findings"] "leakcheck_runtime";
  do! grant_tables [SELECT; INSERT] ["finding_events"] "leakcheck_runtime";
  revoke_tables [UPDATE; DELETE; TRUNCATE] ["finding_events"] "leakcheck_runtime".
Definition downgrade_0005 : Mig unit :=
  do! revoke_tables ALL ["finding_events"; "findings"; "breach_sources"; "scans"; "subjects"] "leakcheck_runtime";
  do! drop_index "ix_finding_events_finding_id";
  do! drop_table "finding_events";
  do! drop_index "ix_findings_subject_remediation";
  do! drop_index "ix_findings_subject_id";
  do! drop_index "ix_findings_source_id";
  do! drop_table "findings";
  do! drop_table "breach_sources";
  do! drop_index "ix_scans_subject_id";
  do! drop_index "ix_scans_requested_by";
  do! drop_table "scans";
  do! drop_index "ix_subjects_linked_user_id";
  do! drop_table "subjects";
  do! drop_enum "finding_event_type";
  do! drop_enum "finding_severity";
  do! drop_enum "scan_status";
  do! drop_enum "scan_trigger";
  drop_enum "subject_kind".

(** *** 0006_workspace_batches.py *)

Definition upgrade_0006 : Mig unit :=
  do! create_enum "batch_target" ["ou"; "domain"; "selection"];
  do! create_enum "batch_status" ["pending"; "running"; "succeeded"; "partial"; "failed"];
  do! create_enum "queue_status" ["queued"; "running"; "succeeded"; "failed"];
  do! create_table "scan_batches"
    [column "id" T_UUID None false;
     column "target_type" (T_Enum "batch_target") None false;
     column "target" T_JSONB None false;
     column "status" (T_Enum "batch_status") (Some (D_string "pending")) false;
     column "created_by" T_UUID None false;
     column "total_count" T_Integer (Some (D_string "0")) false;
     column "completed_count" T_Integer (Some (D_string "0")) false;
     column "failed_count" T_Integer (Some (D_string "0")) false;
     column "created_at" T_DateTime (Some (D_text "now()")) false;
     column "started_at" T_DateTime None true;
     column "finished_at" T_DateTime None true]
    [("ck_scan_batches_total_count", Check_ "total_count >= 0");
     ("ck_scan_batches_completed_count", Check_ "completed_count >= 0");
     ("ck_scan_batches_failed_count", Check_ "failed_count >= 0");
     ("fk_scan_batches_created_by", ForeignKey ["created_by"] "users" ["id"] None);
     ("pk_scan_batches", PrimaryKey ["id"])];
  do! create_index "ix_scan_batches_created_by" "scan_batches" ["created_by"];
  do! create_table "scan_queue"
    [column "id" T_UUID None false;
     column "batch_id" T_UUID None false;
     column "subject_id" T_UUID None false;
     column "status" (T_Enum "queue_status") (Some (D_string "queued")) false;
     column "attempts" T_Integer (Some (D_string "0")) false;
     column "locked_by" (T_String 255) None true;
     column "locked_at" T_DateTime None true;
     column "last_error" (T_String 255) None true;
     column "created_at" T_DateTime (Some (D_text "now()")) false;
     column "finished_at" T_DateTime None true]
    [("ck_scan_queue_attempts", Check_ "attempts >= 0");
     ("fk_scan_queue_batch_id", ForeignKey ["batch_id"] "scan_batches" ["id"] None);
     ("fk_scan_queue_subject_id", ForeignKey ["subject_id"] "subjects" ["id"] None);
     ("pk_scan_queue", PrimaryKey ["id"]);
     ("uq_scan_queue_batch_subject", Unique ["batch_id"; "subject_id"])];
  do! create_index "ix_scan_queue_batch_id" "scan_queue" ["batch_id"];
  do! create_index "ix_scan_queue_subject_id" "scan_queue" ["subject_id"];
  do! create_index "ix_scan_queue_claim" "scan_queue" ["status"; "created_at"];
  grant_tables [SELECT; INSERT; UPDATE] ["scan_batches"; "scan_queue"] "leakcheck_runtime".
Definition downgrade_0006 : Mig unit :=
  do! revoke_tables ALL ["scan_queue"; "scan_batches"] "leakcheck_runtime";
  do! drop_index "ix_scan_queue_claim";
  do! drop_index "ix_scan_queue_subject_id";
  do! drop_index "ix_scan_queue_batch_id";
  do! drop_table "scan_queue";
  do! drop_index "ix_scan_batches_created_by";
  do! drop_table "scan_batches";
  do! mfor drop_enum ["queue_status"; "batch_status"; "batch_target"];
  mret tt.

(** *** 0007_scheduling.py *)

Definition upgrade_0007 : Mig unit :=
  do! create_enum "schedule_kind" ["scan_ou"; "scan_domain"];
  do! create_table "schedules"
    [column "id" T_UUID None false;
     column "kind" (T_Enum "schedule_kind") None false;
     column "target" (T_String 1024) None false;
     column "cron" (T_String 255) None false;
     column "timezone" (T_String 255) None false;
     column "enabled" T_Boolean (Some (D_string "true")) false;
     column "misfire_grace_seconds" T_Integer (Some (D_string "300")) false;
     column "last_run_at" T_DateTime None true;
     column "next_run_at" T_DateTime None false;
     column "last_error" (T_String 255) None true;
     column "created_by" T_UUID None false;
     column "created_at" T_DateTime (Some (D_text "now()")) false]
    [("ck_schedules_misfire_grace", Check_ "misfire_grace_seconds >= 0");
     ("fk_schedules_created_by", ForeignKey ["created_by"] "users" ["id"] None);
     ("pk_schedules", PrimaryKey ["id"])];
  do! create_index "ix_schedules_created_by" "schedules" ["created_by"];
  do! create_index "ix_schedules_due" "schedules" ["enabled"; "next_run_at"];
  grant_tables [SELECT; INSERT; UPDATE; DELETE] ["schedules"] "leakcheck_runtime".
Definition downgrade_0007 : Mig unit :=
  do! revoke_tables ALL ["schedules"] "leakcheck_runtime";
  do! drop_index "ix_schedules_due";
  do! drop_index "ix_schedules_created_by";
  do! drop_table "schedules";
  drop_enum "schedule_kind".

(** *** 0008_notifications.py *)

Definition upgrade_0008 : Mig unit :=
  do! add_enum_value "schedule_kind" "digest";
  do! create_enum "notification_status" ["pending"; "dry_run"; "sent"; "suppressed"; "failed"];
  do! create_table "notifications"
    [column "id" T_UUID None false;
     column "user_id" T_UUID None false;
     column "template" (T_String 64) None false;
     column "finding_ids" T_JSONB (Some (D_string "[]")) false;
     column "status" (T_Enum "notification_status") (Some (D_string "pending")) false;
     column "dedupe_key" T_LargeBinary None false;
     column "attempts" T_Integer (Some (D_string "0")) false;
     column "error" (T_String 255) None true;
     column "created_at" T_DateTime (Some (D_text "now()")) false;
     column "sent_at" T_DateTime None true]
    [("ck_notifications_dedupe_key", Check_ "octet_length(dedupe_key) = 32");
     ("ck_notifications_attempts", Check_ "attempts >= 0");
     ("fk_notifications_user_id", ForeignKey ["user_id"] "users" ["id"] None);
     ("pk_notifications", PrimaryKey ["id"]);
     ("uq_notifications_dedupe_key", Unique ["dedupe_key"])];
  do! create_index "ix_notifications_user_id" "notifications" ["user_id"];
  do! create_index "ix_notifications_claim" "notifications" ["status"; "created_at"];
  do! create_index "ix_notifications_user_sent" "notifications" ["user_id"; "sent_at"];
  grant_tables [SELECT; INSERT; UPDATE] ["notifications"] "leakcheck_runtime".
Definition downgrade_0008 : Mig unit :=
  do! revoke_tables ALL ["notifications"] "leakcheck_runtime";
  do! drop_index "ix_notifications_user_sent";
  do! drop_index "ix_notifications_claim";
  do! drop_index "ix_notifications_user_id";
  do! drop_table "notifications";
  drop_enum "notification_status".

(** *** 0009_alert_foundation.py *)

Definition upgrade_0009 : Mig unit :=
  do! create_enum "alert_sink_name" ["wazuh"; "dfir_iris"];
  do! create_enum "alert_outbox_status" ["pending"; "delivered"; "dead_letter"];
  do! create_table "watchlist"
    [column "id" T_UUID None false;
     column "subject_id" T_UUID None true;
     column "user_id" T_UUID None true;
     column "alert_soc" T_Boolean (Some (D_string "true")) false;
     column "alert_user" T_Boolean (Some (D_string "true")) false;
     column "alert_wazuh" T_Boolean (Some (D_string "true")) false;
     column "alert_iris" T_Boolean (Some (D_string "true")) false;
     column "enabled" T_Boolean (Some (D_string "true")) false;
     column "created_by" T_UUID None false;
     column "created_at" T_DateTime (Some (D_text "now()")) false]
    [("ck_watchlist_exactly_one_target", Check_ "(subject_id IS NOT NULL) <> (user_id IS NOT NULL)");
     ("fk_watchlist_subject_id", ForeignKey ["subject_id"] "subjects" ["id"] None);
     ("fk_watchlist_user_id", ForeignKey ["user_id"] "users" ["id"] None);
     ("fk_watchlist_created_by", ForeignKey ["created_by"] "users" ["id"] None);
     ("pk_watchlist", PrimaryKey ["id"]);
     ("uq_watchlist_subject_id", Unique ["subject_id"]);
     ("uq_watchlist_user_id", Unique ["user_id"])];
  do! create_index "ix_watchlist_created_by" "watchlist" ["created_by"];
  do! create_table "alert_outbox"
    [column "id" T_UUID None false;
     column "sink" (T_Enum "alert_sink_name") None false;
     column "payload" T_JSONB None false;
     column "status" (T_Enum "alert_outbox_status") (Some (D_string "pending")) false;
     column "dedupe_key" T_LargeBinary None false;
     column "attempts" T_Integer (Some (D_string "0")) false;
     column "next_attempt_at" T_DateTime (Some (D_text "now()")) false;
     column "last_error" (T_String 255) None true;
     column "created_at" T_DateTime (Some (D_text "now()")) false;
     column "delivered_at" T_DateTime None true]
    [("ck_alert_outbox_dedupe_key", Check_ "octet_length(dedupe_key) = 32");
     ("ck_alert_outbox_attempts", Check_ "attempts >= 0");
     ("pk_alert_outbox", PrimaryKey ["id"]);
     ("uq_alert_outbox_dedupe_key", Unique ["dedupe_key"])];
  do! create_index "ix_alert_outbox_due" "alert_outbox" ["status"; "next_attempt_at"];
  do! grant_tables [SELECT; INSERT; UPDATE; DELETE] ["watchlist"] "leakcheck_runtime";
  grant_tables [SELECT; INSERT; UPDATE] ["alert_outbox"] "leakcheck_runtime".
Definition downgrade_0009 : Mig unit :=
  do! revoke_tables ALL ["alert_outbox"; "watchlist"] "leakcheck_runtime";
  do! drop_index "ix_alert_outbox_due";
  do! drop_table "alert_outbox";
  do! drop_index "ix_watchlist_created_by";
  do! drop_table "watchlist";
  do! drop_enum "alert_outbox_status";
  drop_enum "alert_sink_name".

(** *** 0010_optional_mfa_enrollment.py *)

(** The update of that revision: a seeded account counts as enrolled from now on. *)
Definition enrol_seeded (now : instant) (r : AdminCredential) : AdminCredential :=
  match ac_totp_secret_enc r with Some _ => set_enabled (Some now) r | None => r end.
Definition upgrade_0010 (now : instant) : Mig unit :=
  do! add_column "admin_credentials" (column "totp_enabled_at" T_DateTime None true);
  do! modify (fun d => set_db_credentials (map (enrol_seeded now) (db_credentials d)) d);
  set_nullable "admin_credentials" "totp_secret_enc" true.
Definition downgrade_0010 : Mig unit :=
  let! d <- get_state;
  do! (if existsb (fun r => bool_decide (ac_totp_secret_enc r = None)) (db_credentials d) then raise RuntimeError else mret tt);
  do! set_nullable "admin_credentials" "totp_secret_enc" false;
  drop_column "admin_credentials" "totp_enabled_at".

(** *** 0011_schedule_latest_batch.py *)

Definition upgrade_0011 : Mig unit :=
  do! add_column "schedules" (column "last_batch_id" T_UUID None true);
  do! create_foreign_key "fk_schedules_last_batch_id" "schedules" "scan_batches" ["last_batch_id"] ["id"] (Some "SET NULL");
  create_index "ix_schedules_last_batch_id" "schedules" ["last_batch_id"].
Definition downgrade_0011 : Mig unit :=
  do! drop_index "ix_schedules_last_batch_id";
  do! drop_constraint "fk_schedules_last_batch_id" "schedules";
  drop_column "schedules" "last_batch_id".

(** *** 0012_branding.py *)

Definition upgrade_0012 : Mig unit :=
  create_table "branding"
    [column "id" T_Integer None false;
     column "organization_name" (T_String 120) None true;
     column "logo" T_LargeBinary None true;
     column "logo_content_type" (T_String 64) None true;
     column "logo_sha256" (T_String 64) None true;
     column "updated_at" T_DateTime (Some (D_text "now()")) false]
    [("pk_branding", PrimaryKey ["id"]);
     ("ck_branding_single_row", Check_ "id = 1");
     ("ck_branding_logo_size", Check_ "logo IS NULL OR octet_length(logo) <= 1048576")].
Definition downgrade_0012 : Mig unit :=
  drop_table "branding".

(** *** 0013_branding_grants.py *)

Definition upgrade_0013 : Mig unit :=
  do! grant_tables [SELECT; INSERT; UPDATE] ["branding"] "leakcheck_runtime";
  do! grant_tables [DELETE] ["findings"] "leakcheck_runtime";
  grant_tables [DELETE] ["finding_events"] "leakcheck_runtime".
Definition downgrade_0013 : Mig unit :=
  do! revoke_tables [DELETE] ["finding_events"] "leakcheck_runtime";
  do! revoke_tables [DELETE] ["findings"] "leakcheck_runtime";
  revoke_tables [SELECT; INSERT; UPDATE] ["branding"] "leakcheck_runtime".

Local Close Scope string_scope.

(** *** 0001_bootstrap_database_roles.py *)

Section Bootstrap.
(** The process's environment, the name of the database, and the effect of any other SQL text. *)
Variable environ : gmap string pystr.
Variable database_name : pystr.
Variable other_sql : pystr -> Mig unit.

Definition identifier_start (c : Z) : bool := ascii_alpha c || (c =? 95).
Definition identifier (s : pystr) : bool :=
  match s with [] => false | c :: t => identifier_start c && forallb (fun c => identifier_start c || ascii_digit c) t end.
Definition bootstrap_password (name : string) : result pystr :=
  match environ !! name with
  | None => Raise RuntimeError
  | Some value => if (length value <? 32)%nat || startswith value (py "replace-with-") then Raise RuntimeError
                  else Ok (replace_char 39 [39; 39] value)
  end.
Definition quote_identifier (name : pystr) : result pystr :=
  if identifier name then Ok ([34] ++ name ++ [34]) else Raise RuntimeError.

Definition create_role_sql (role : string) (password : pystr) : pystr :=
  (py "IF NOT EXISTS (SELECT 1 FROM pg_roles WHERE rolname = '" ++ py role ++ py "') THEN CREATE ROLE " ++ py role ++
   py " LOGIN NOSUPERUSER NOCREATEDB NOCREATEROLE NOINHERIT NOREPLICATION NOBYPASSRLS PASSWORD '" ++ password ++ py "'; END IF; ").
Definition roles_body (migrator_password runtime_password : pystr) : pystr :=
  (py " BEGIN " ++ create_role_sql "leakcheck_migrator" migrator_password ++ create_role_sql "leakcheck_runtime" runtime_password ++ py "END ").
Definition roles_sql (migrator_password runtime_password : pystr) : pystr :=
  (py "DO $$" ++ roles_body migrator_password runtime_password ++ py "$$").

(** PostgreSQL's reading of [DO $$...$$]: the body ends at the first pair of dollars. *)
Fixpoint until_dollars (s : pystr) : option (pystr * pystr) :=
  match s with
  | c :: (d :: t) as rest =>
      if (c =? 36) && (d =? 36) then Some ([], t)
      else match until_dollars rest with Some (body, after) => Some (c :: body, after) | None => None end
  | _ => None
  end.
(** ... and of a constant after its opening quote: a doubled quote is one, a single one ends it. *)
Fixpoint sql_literal (s : pystr) : option (pystr * pystr) :=
  match s with
  | [] => None
  | c :: t =>
      if c =? 39 then
        match t with
        | d :: t' => if d =? 39 then match sql_literal t' with Some (v, after) => Some (39 :: v, after) | None => None end
                     else Some ([], t)
        | [] => Some ([], [])
        end
      else match sql_literal t with Some (v, after) => Some (c :: v, after) | None => None end
  end.
Definition create_role (role : string) (escaped : pystr) : Mig unit :=
  let! d <- get_state;
  if bool_decide (is_Some (db_roles d !! role)) then mret tt
  else match sql_literal (escaped ++ py "'; END IF; ") with
       | Some (password, _) => modify (set_db_roles (<[role := mkRole true false false false password]> (db_roles d)))
       | None => raise ProgrammingError
       end.
(** The statement does what it says when its body is the one intended. *)
Definition run_roles_sql (migrator_password runtime_password : pystr) : Mig unit :=
  if bool_decide (until_dollars (roles_body migrator_password runtime_password ++ py "$$")
                  = Some (roles_body migrator_password runtime_password, []))
  then do! create_role "leakcheck_migrator" migrator_password; create_role "leakcheck_runtime" runtime_password
  else other_sql (roles_sql migrator_password runtime_password).

Definition upgrade_0001 : Mig unit :=
  do! lift (quote_identifier database_name);
  let! migrator_password <- lift (bootstrap_password "LC_MIGRATOR_DB_PASSWORD");
  let! runtime_password <- lift (bootstrap_password "LC_RUNTIME_DB_PASSWORD");
  do! (let! d <- get_state; require (superuser d));
  do! run_roles_sql migrator_password runtime_password;
  do! grant [CONNECT] OnDatabase "leakcheck_migrator";
  do! grant [CREATE] OnDatabase "leakcheck_migrator";
  do! grant [CONNECT] OnDatabase "leakcheck_runtime";
  do! modify (set_db_public_create false);
  do! grant [USAGE; CREATE] OnSchemaPublic "leakcheck_migrator";
  do! grant [USAGE] OnSchemaPublic "leakcheck_runtime";
  do! set_owner "alembic_version" "leakcheck_migrator";
  grant [SELECT] (OnTable "alembic_version") "leakcheck_runtime".
Definition downgrade_0001 : Mig unit := do! drop_role "leakcheck_runtime"; drop_role "leakcheck_migrator".

(** *** The chain of revisions *)

Record Revision := mkRevision {
  rv_id : string;
  rv_down : option string;
  rv_upgrade : instant -> Mig unit;
  rv_downgrade : Mig unit;
}.
Definition revisions : list Revision :=
  [mkRevision "0001_bootstrap_roles" None (fun _ => upgrade_0001) downgrade_0001;
   mkRevision "0002_auth_models" (Some "0001_bootstrap_roles"%string) (fun _ => upgrade_0002) downgrade_0002;
   mkRevision "0003_admin_login_rate_limits" (Some "0002_auth_models"%string) (fun _ => upgrade_0003) downgrade_0003;
   mkRevision "0004_platform_settings_audit" (Some "0003_admin_login_rate_limits"%string) (fun _ => upgrade_0004) downgrade_0004;
   mkRevision "0005_ingest_core" (Some "0004_platform_settings_audit"%string) (fun _ => upgrade_0005) downgrade_0005;
   mkRevision "0006_workspace_batches" (Some "0005_ingest_core"%string) (fun _ => upgrade_0006) downgrade_0006;
   mkRevision "0007_scheduling" (Some "0006_workspace_batches"%string) (fun _ => upgrade_0007) downgrade_0007;
   mkRevision "0008_notifications" (Some "0007_scheduling"%string) (fun _ => upgrade_0008) downgrade_0008;
   mkRevision "0009_alert_foundation" (Some "0008_notifications"%string) (fun _ => upgrade_0009) downgrade_0009;
   mkRevision "0010_optional_mfa_enrollment" (Some "0009_alert_foundation"%string) upgrade_0010 downgrade_0010;
   mkRevision "0011_schedule_latest_batch" (Some "0010_optional_mfa_enrollment"%string) (fun _ => upgrade_0011) downgrade_0011;
   mkRevision "0012_branding" (Some "0011_schedule_latest_batch"%string) (fun _ => upgrade_0012) downgrade_0012;
   mkRevision "0013_branding_grants" (Some "0012_branding"%string) (fun _ => upgrade_0013) downgrade_0013].

Definition transaction {A} (c : Mig A) : Mig A := fun d => match c d with (Raise e, _) => (Raise e, d) | r => r end.
(** Alembic's own table, made by whoever runs the first migration. *)
Definition ensure_version_table : Mig unit :=
  let! d <- get_state;
  if bool_decide (is_Some (db_tables d !! "alembic_version"%string)) then mret tt
  else create_table "alembic_version" [column "version_num" (T_String 32) None false] [("alembic_version_pkc"%string, PrimaryKey ["version_num"%string])].
Definition stamp (version : option string) : Mig unit :=
  let! d <- get_state;
  do! require (owns d "alembic_version");
  modify (set_db_version version).
Definition next_revision (current : option string) : option Revision :=
  List.find (fun r => bool_decide (rv_down r = current)) revisions.
(** [alembic upgrade <target>]: revision after revision until the target is reached, or, for [head], until
    there is no other. *)
Fixpoint upgrade_steps (fuel : nat) (now : instant) (target : option string) : Mig unit :=
  let! d <- get_state;
  if bool_decide (is_Some target /\ db_version d = target) then mret tt
  else match fuel, next_revision (db_version d) with
       | S fuel, Some r => do! rv_upgrade r now; do! stamp (Some (rv_id r)); upgrade_steps fuel now target
       | _, _ => mret tt
       end.
Definition upgrade (now : instant) (target : option string) : Mig unit :=
  transaction (do! ensure_version_table; upgrade_steps (length revisions) now target).
(** [alembic downgrade -1] *)
Definition downgrade : Mig unit :=
  transaction (let! d <- get_state;
    match List.find (fun r => bool_decide (Some (rv_id r) = db_version d)) revisions with
    | Some r => do! rv_downgrade r; stamp (rv_down r)
    | None => mret tt
    end).

(** *** bootstrap_database.py *)

Definition MIGRATION_URL_SCHEME : pystr := py "postgresql+asyncpg://".
Definition migration_url : result pystr :=
  let url := default [] (environ !! "LC_MIGRATION_DATABASE_URL"%string) in
  if startswith url MIGRATION_URL_SCHEME then Ok url else Raise RuntimeError.
Definition bootstrap_required (d : Database) : bool :=
  negb (bool_decide (is_Some (db_tables d !! "alembic_version"%string))) || bool_decide (db_version d = None).
(** [main], over the connection of that URL. *)
Definition bootstrap_database (now : instant) : Mig unit :=
  do! lift migration_url;
  let! d <- get_state;
  if bootstrap_required d then upgrade now (Some "0001_bootstrap_roles"%string) else mret tt.
End Bootstrap.
