(* ===== verification/ModelSchema.v ===== *)
(** The schema that the mapped classes declare (app/models.py), for comparison with what the migrations
    build. A primary key has no name there; an index over one column is named after the table and the
    column. *)
From S2P Require Import Prelude PyBase Encoding Hashes Json Models Store Schema.
Local Open Scope string_scope.

Definition mapped_table (columns : list (string * Column)) (constraints : list (string * TableConstraint)) : Table :=
  mkTable (list_to_map columns) (list_to_map constraints).

Definition users_model : Table * list (string * IndexDef) :=
  (mapped_table
    [column "id" T_UUID None false;
     column "email" T_CITEXT None false;
     column "google_sub" (T_String 255) None true;
     column "display_name" (T_String 255) None false;
     column "ou_path" (T_String 1024) None true;
     column "role" (T_Enum "user_role") (Some (D_string "user")) false;
     column "is_active" T_Boolean (Some (D_string "true")) false;
     column "source" (T_Enum "user_source") None false;
     column "created_at" T_DateTime (Some (D_text "now()")) false;
     column "last_login_at" T_DateTime None true]
    [("", PrimaryKey ["id"]);
     ("uq_users_email", Unique ["email"]);
     ("uq_users_google_sub", Unique ["google_sub"])],
   []).
Definition admin_credentials_model : Table * list (string * IndexDef) :=
  (mapped_table
    [column "user_id" T_UUID None false;
     column "password_hash" T_Text None false;
     column "totp_secret_enc" T_LargeBinary None true;
     column "totp_enabled_at" T_DateTime None true;
     column "failed_attempts" T_Integer (Some (D_string "0")) false;
     column "locked_until" T_DateTime None true]
    [("", PrimaryKey ["user_id"]);
     ("ck_admin_credentials_attempts", Check_ "failed_attempts >= 0");
     ("fk_admin_credentials_user_id", ForeignKey ["user_id"] "users" ["id"] None)],
   []).
Definition admin_login_rate_limits_model : Table * list (string * IndexDef) :=
  (mapped_table
    [column "ip_hash" T_LargeBinary None false;
     column "window_started_at" T_DateTime None false;
     column "attempts" T_Integer (Some (D_string "0")) false;
     column "blocked_until" T_DateTime None true]
    [("", PrimaryKey ["ip_hash"]);
     ("ck_admin_login_rate_limits_attempts", Check_ "attempts >= 0");
     ("ck_admin_login_rate_limits_ip_hash_length", Check_ "octet_length(ip_hash) = 32")],
   []).
Definition sessions_model : Table * list (string * IndexDef) :=
  (mapped_table
    [column "id_hash" T_LargeBinary None false;
     column "user_id" T_UUID None false;
     column "created_at" T_DateTime (Some (D_text "now()")) false;
     column "expires_at" T_DateTime None false;
     column "last_seen_at" T_DateTime (Some (D_text "now()")) false;
     column "idle_expires_at" T_DateTime None false;
     column "ip_hash" T_LargeBinary None false;
     column "ua_hash" T_LargeBinary None false;
     column "revoked_at" T_DateTime None true]
    [("", PrimaryKey ["id_hash"]);
     ("ck_sessions_expires_after_created", Check_ "expires_at > created_at");
     ("ck_sessions_idle_expires_after_created", Check_ "idle_expires_at > created_at");
     ("ck_sessions_id_hash_length", Check_ "octet_length(id_hash) = 32");
     ("ck_sessions_ip_hash_length", Check_ "octet_length(ip_hash) = 32");
     ("ck_sessions_ua_hash_length", Check_ "octet_length(ua_hash) = 32");
     ("fk_sessions_user_id", ForeignKey ["user_id"] "users" ["id"] None)],
   [("ix_sessions_user_id", mkIndexDef "sessions" ["user_id"] false)]).
Definition platform_settings_model : Table * list (string * IndexDef) :=
  (mapped_table
    [column "key" (T_String 64) None false;
     column "ciphertext" T_LargeBinary None false;
     column "nonce" T_LargeBinary None false;
     column "schema_version" T_Integer (Some (D_string "1")) false;
     column "updated_at" T_DateTime (Some (D_text "now()")) false;
     column "updated_by" T_UUID None false]
    [("", PrimaryKey ["key"]);
     ("ck_platform_settings_nonce_length", Check_ "octet_length(nonce) = 12");
     ("ck_platform_settings_schema_version", Check_ "schema_version > 0");
     ("fk_platform_settings_updated_by", ForeignKey ["updated_by"] "users" ["id"] None)],
   []).
Definition audit_log_model : Table * list (string * IndexDef) :=
  (mapped_table
    [column "id" T_UUID None false;
     column "actor_id" T_UUID None true;
     column "action" (T_String 128) None false;
     column "target_type" (T_String 64) None true;
     column "target_id" (T_String 255) None true;
     column "ip_hash" T_LargeBinary None false;
     column "at" T_DateTime (Some (D_text "now()")) false;
     column "meta" T_JSONB (Some (D_string "{}")) false]
    [("", PrimaryKey ["id"]);
     ("ck_audit_log_ip_hash_length", Check_ "octet_length(ip_hash) = 32");
     ("fk_audit_log_actor_id", ForeignKey ["actor_id"] "users" ["id"] None)],
   [("ix_audit_log_actor_id", mkIndexDef "audit_log" ["actor_id"] false); ("ix_audit_log_action", mkIndexDef "audit_log" ["action"] false)]).
Definition subjects_model : Table * list (string * IndexDef) :=
  (mapped_table
    [column "id" T_UUID None false;
     column "kind" (T_Enum "subject_kind") None false;
     column "value_norm" (T_String 4096) None false;
     column "value_display" (T_String 4096) None false;
     column "first_scanned_at" T_DateTime None true;
     column "last_scanned_at" T_DateTime None true;
     column "linked_user_id" T_UUID None true]
    [("", PrimaryKey ["id"]);
     ("uq_subjects_kind_value_norm", Unique ["kind"; "value_norm"]);
     ("fk_subjects_linked_user_id", ForeignKey ["linked_user_id"] "users" ["id"] None)],
   [("ix_subjects_linked_user_id", mkIndexDef "subjects" ["linked_user_id"] false)]).
Definition scans_model : Table * list (string * IndexDef) :=
  (mapped_table
    [column "id" T_UUID None false;
     column "subject_id" T_UUID None false;
     column "requested_by" T_UUID None true;
     column "trigger" (T_Enum "scan_trigger") None false;
     column "status" (T_Enum "scan_status") (Some (D_string "pending")) false;
     column "started_at" T_DateTime None true;
     column "finished_at" T_DateTime None true;
     column "result_count" T_Integer (Some (D_string "0")) false;
     column "new_count" T_Integer (Some (D_string "0")) false;
     column "quota" T_Integer None true;
     column "truncated" T_Boolean (Some (D_string "false")) false;
     column "error" T_Text None true]
    [("", PrimaryKey ["id"]);
     ("ck_scans_result_count", Check_ "result_count >= 0");
     ("ck_scans_new_count", Check_ "new_count >= 0");
     ("ck_scans_quota", Check_ "quota IS NULL OR quota >= 0");
     ("fk_scans_subject_id", ForeignKey ["subject_id"] "subjects" ["id"] None);
     ("fk_scans_requested_by", ForeignKey ["requested_by"] "users" ["id"] None)],
   [("ix_scans_subject_id", mkIndexDef "scans" ["subject_id"] false); ("ix_scans_requested_by", mkIndexDef "scans" ["requested_by"] false)]).
Definition breach_sources_model : Table * list (string * IndexDef) :=
  (mapped_table
    [column "id" T_UUID None false;
     column "name" (T_String 1024) None false;
     column "name_norm" (T_String 1024) None false;
     column "breach_date" T_Date None true;
     column "breach_date_norm" T_Date None false;
     column "unverified" T_Boolean None true;
     column "passwordless" T_Boolean None true;
     column "compilation" T_Boolean None true;
     column "extra" T_JSONB (Some (D_string "{}")) false]
    [("", PrimaryKey ["id"]);
     ("uq_breach_sources_identity", Unique ["name_norm"; "breach_date_norm"])],
   []).
Definition findings_model : Table * list (string * IndexDef) :=
  (mapped_table
    [column "id" T_UUID None false;
     column "subject_id" T_UUID None false;
     column "source_id" T_UUID None false;
     column "email" (T_String 320) None true;
     column "username" (T_String 1024) None true;
     column "phone" (T_String 64) None true;
     column "origin" (T_String 4096) None true;
     column "identity_key" T_LargeBinary None true;
     column "password_ciphertext" T_LargeBinary None true;
     column "password_nonce" T_LargeBinary None true;
     column "password_sha256" T_LargeBinary None true;
     column "password_mask" (T_String 1024) None true;
     column "password_len" T_Integer None true;
     column "password_charset" (T_String 255) None true;
     column "fields" T_JSONB (Some (D_string "[]")) false;
     column "raw" T_JSONB (Some (D_string "{}")) false;
     column "fingerprint" T_LargeBinary None false;
     column "severity" (T_Enum "finding_severity") (Some (D_string "medium")) false;
     column "first_seen_at" T_DateTime (Some (D_text "now()")) false;
     column "last_seen_at" T_DateTime (Some (D_text "now()")) false;
     column "remediated_at" T_DateTime None true;
     column "remediated_by" T_UUID None true;
     column "remediation_note" T_Text None true;
     column "superseded_by_id" T_UUID None true;
     column "notified_at" T_DateTime None true]
    [("", PrimaryKey ["id"]);
     ("uq_findings_fingerprint", Unique ["fingerprint"]);
     ("ck_findings_fingerprint_length", Check_ "octet_length(fingerprint) = 32");
     ("ck_findings_identity_key_length", Check_ "identity_key IS NULL OR octet_length(identity_key) = 32");
     ("ck_findings_password_sha256_length", Check_ "password_sha256 IS NULL OR octet_length(password_sha256) = 32");
     ("ck_findings_password_nonce_length", Check_ "password_nonce IS NULL OR octet_length(password_nonce) = 12");
     ("ck_findings_password_len", Check_ "password_len IS NULL OR password_len >= 0");
     ("fk_findings_subject_id", ForeignKey ["subject_id"] "subjects" ["id"] None);
     ("fk_findings_source_id", ForeignKey ["source_id"] "breach_sources" ["id"] None);
     ("fk_findings_remediated_by", ForeignKey ["remediated_by"] "users" ["id"] None);
     ("fk_findings_superseded_by_id", ForeignKey ["superseded_by_id"] "findings" ["id"] None)],
   [("ix_findings_subject_remediation", mkIndexDef "findings" ["subject_id"; "remediated_at"] false); ("ix_findings_subject_id", mkIndexDef "findings" ["subject_id"] false); ("ix_findings_source_id", mkIndexDef "findings" ["source_id"] false)]).
Definition finding_events_model : Table * list (string * IndexDef) :=
  (mapped_table
    [column "id" T_UUID None false;
     column "finding_id" T_UUID None false;
     column "event" (T_Enum "finding_event_type") None false;
     column "actor_id" T_UUID None true;
     column "at" T_DateTime (Some (D_text "now()")) false;
     column "meta" T_JSONB (Some (D_string "{}")) false]
    [("", PrimaryKey ["id"]);
     ("fk_finding_events_finding_id", ForeignKey ["finding_id"] "findings" ["id"] None);
     ("fk_finding_events_actor_id", ForeignKey ["actor_id"] "users" ["id"] None)],
   [("ix_finding_events_finding_id", mkIndexDef "finding_events" ["finding_id"] false)]).
Definition scan_batches_model : Table * list (string * IndexDef) :=
  (mapped_table
    [column "id" T_UUID None false;
     column "target_type" (T_Enum "batch_target") None false;
     column "target" T_JSONB None false;
     column "status" (T_Enum "batch_status") (Some (D_string "pending")) false;
     column "created_by" T_UUID None false;
     column "total_count" T_Integer (Some (D_string "0")) false;
     column "completed_count" T_Integer (Some (D_string "0")) false;
     column "failed_count" T_Integer (Some (D_string "0")) false;
     column "created_at" T_DateTime (Some (D_text "now()")) false;
     column "started_at" T_DateTime None true;
     column "finished_at" T_DateTime None true]
    [("", PrimaryKey ["id"]);
     ("ck_scan_batches_total_count", Check_ "total_count >= 0");
     ("ck_scan_batches_completed_count", Check_ "completed_count >= 0");
     ("ck_scan_batches_failed_count", Check_ "failed_count >= 0");
     ("fk_scan_batches_created_by", ForeignKey ["created_by"] "users" ["id"] None)],
   [("ix_scan_batches_created_by", mkIndexDef "scan_batches" ["created_by"] false)]).
Definition scan_queue_model : Table * list (string * IndexDef) :=
  (mapped_table
    [column "id" T_UUID None false;
     column "batch_id" T_UUID None false;
     column "subject_id" T_UUID None false;
     column "status" (T_Enum "queue_status") (Some (D_string "queued")) false;
     column "attempts" T_Integer (Some (D_string "0")) false;
     column "locked_by" (T_String 255) None true;
     column "locked_at" T_DateTime None true;
     column "last_error" (T_String 255) None true;
     column "created_at" T_DateTime (Some (D_text "now()")) false;
     column "finished_at" T_DateTime None true]
    [("", PrimaryKey ["id"]);
     ("uq_scan_queue_batch_subject", Unique ["batch_id"; "subject_id"]);
     ("ck_scan_queue_attempts", Check_ "attempts >= 0");
     ("fk_scan_queue_batch_id", ForeignKey ["batch_id"] "scan_batches" ["id"] None);
     ("fk_scan_queue_subject_id", ForeignKey ["subject_id"] "subjects" ["id"] None)],
   [("ix_scan_queue_claim", mkIndexDef "scan_queue" ["status"; "created_at"] false); ("ix_scan_queue_batch_id", mkIndexDef "scan_queue" ["batch_id"] false); ("ix_scan_queue_subject_id", mkIndexDef "scan_queue" ["subject_id"] false)]).
Definition schedules_model : Table * list (string * IndexDef) :=
  (mapped_table
    [column "id" T_UUID None false;
     column "kind" (T_Enum "schedule_kind") None false;
     column "target" (T_String 1024) None false;
     column "cron" (T_String 255) None false;
     column "timezone" (T_String 255) None false;
     column "enabled" T_Boolean (Some (D_string "true")) false;
     column "misfire_grace_seconds" T_Integer (Some (D_string "300")) false;
     column "last_run_at" T_DateTime None true;
     column "last_batch_id" T_UUID None true;
     column "next_run_at" T_DateTime None false;
     column "last_error" (T_String 255) None true;
     column "created_by" T_UUID None false;
     column "created_at" T_DateTime (Some (D_text "now()")) false]
    [("", PrimaryKey ["id"]);
     ("ck_schedules_misfire_grace", Check_ "misfire_grace_seconds >= 0");
     ("fk_schedules_last_batch_id", ForeignKey ["last_batch_id"] "scan_batches" ["id"] (Some "SET NULL"));
     ("fk_schedules_created_by", ForeignKey ["created_by"] "users" ["id"] None)],
   [("ix_schedules_due", mkIndexDef "schedules" ["enabled"; "next_run_at"] false); ("ix_schedules_last_batch_id", mkIndexDef "schedules" ["last_batch_id"] false); ("ix_schedules_created_by", mkIndexDef "schedules" ["created_by"] false)]).
Definition notifications_model : Table * list (string * IndexDef) :=
  (mapped_table
    [column "id" T_UUID None false;
     column "user_id" T_UUID None false;
     column "template" (T_String 64) None false;
     column "finding_ids" T_JSONB None false;
     column "status" (T_Enum "notification_status") (Some (D_string "pending")) false;
     column "dedupe_key" T_LargeBinary None false;
     column "attempts" T_Integer (Some (D_string "0")) false;
     column "error" (T_String 255) None true;
     column "created_at" T_DateTime (Some (D_text "now()")) false;
     column "sent_at" T_DateTime None true]
    [("", PrimaryKey ["id"]);
     ("uq_notifications_dedupe_key", Unique ["dedupe_key"]);
     ("ck_notifications_dedupe_key", Check_ "octet_length(dedupe_key) = 32");
     ("ck_notifications_attempts", Check_ "attempts >= 0");
     ("fk_notifications_user_id", ForeignKey ["user_id"] "users" ["id"] None)],
   [("ix_notifications_claim", mkIndexDef "notifications" ["status"; "created_at"] false); ("ix_notifications_user_sent", mkIndexDef "notifications" ["user_id"; "sent_at"] false); ("ix_notifications_user_id", mkIndexDef "notifications" ["user_id"] false)]).
Definition watchlist_model : Table * list (string * IndexDef) :=
  (mapped_table
    [column "id" T_UUID None false;
     column "subject_id" T_UUID None true;
     column "user_id" T_UUID None true;
     column "alert_soc" T_Boolean (Some (D_string "true")) false;
     column "alert_user" T_Boolean (Some (D_string "true")) false;
     column "alert_wazuh" T_Boolean (Some (D_string "true")) false;
     column "alert_iris" T_Boolean (Some (D_string "true")) false;
     column "enabled" T_Boolean (Some (D_string "true")) false;
     column "created_by" T_UUID None false;
     column "created_at" T_DateTime (Some (D_text "now()")) false]
    [("", PrimaryKey ["id"]);
     ("ck_watchlist_exactly_one_target", Check_ "(subject_id IS NOT NULL) <> (user_id IS NOT NULL)");
     ("uq_watchlist_subject_id", Unique ["subject_id"]);
     ("uq_watchlist_user_id", Unique ["user_id"]);
     ("fk_watchlist_subject_id", ForeignKey ["subject_id"] "subjects" ["id"] None);
     ("fk_watchlist_user_id", ForeignKey ["user_id"] "users" ["id"] None);
     ("fk_watchlist_created_by", ForeignKey ["created_by"] "users" ["id"] None)],
   [("ix_watchlist_created_by", mkIndexDef "watchlist" ["created_by"] false)]).
Definition alert_outbox_model : Table * list (string * IndexDef) :=
  (mapped_table
    [column "id" T_UUID None false;
     column "sink" (T_Enum "alert_sink_name") None false;
     column "payload" T_JSONB None false;
     column "status" (T_Enum "alert_outbox_status") (Some (D_string "pending")) false;
     column "dedupe_key" T_LargeBinary None false;
     column "attempts" T_Integer (Some (D_string "0")) false;
     column "next_attempt_at" T_DateTime (Some (D_text "now()")) false;
     column "last_error" (T_String 255) None true;
     column "created_at" T_DateTime (Some (D_text "now()")) false;
     column "delivered_at" T_DateTime None true]
    [("", PrimaryKey ["id"]);
     ("uq_alert_outbox_dedupe_key", Unique ["dedupe_key"]);
     ("ck_alert_outbox_dedupe_key", Check_ "octet_length(dedupe_key) = 32");
     ("ck_alert_outbox_attempts", Check_ "attempts >= 0")],
   [("ix_alert_outbox_due", mkIndexDef "alert_outbox" ["status"; "next_attempt_at"] false)]).
Definition branding_model : Table * list (string * IndexDef) :=
  (mapped_table
    [column "id" T_Integer None false;
     column "organization_name" (T_String 120) None true;
     column "logo" T_LargeBinary None true;
     column "logo_content_type" (T_String 64) None true;
     column "logo_sha256" (T_String 64) None true;
     column "updated_at" T_DateTime (Some (D_text "now()")) false]
    [("", PrimaryKey ["id"]);
     ("ck_branding_single_row", Check_ "id = 1");
     ("ck_branding_logo_size", Check_ "logo IS NULL OR octet_length(logo) <= 1048576")],
   []).
Definition model_tables : list (string * (Table * list (string * IndexDef))) :=
  [("users", users_model);
   ("admin_credentials", admin_credentials_model);
   ("admin_login_rate_limits", admin_login_rate_limits_model);
   ("sessions", sessions_model);
   ("platform_settings", platform_settings_model);
   ("audit_log", audit_log_model);
   ("subjects", subjects_model);
   ("scans", scans_model);
   ("breach_sources", breach_sources_model);
   ("findings", findings_model);
   ("finding_events", finding_events_model);
   ("scan_batches", scan_batches_model);
   ("scan_queue", scan_queue_model);
   ("schedules", schedules_model);
   ("notifications", notifications_model);
   ("watchlist", watchlist_model);
   ("alert_outbox", alert_outbox_model);
   ("branding", branding_model)].
(** [_enum_values]: the stored values of each enumeration, in the order of its members. *)
Definition model_enums : gmap string (list string) :=
  list_to_map [("user_role", ["user"; "analyst"; "super_admin"]);
   ("user_source", ["google"; "workspace_sync"; "manual"]);
   ("subject_kind", ["email"; "domain"; "username"; "phone"; "origin"; "password"]);
   ("scan_trigger", ["manual"; "self"; "batch"; "scheduled"]);
   ("scan_status", ["pending"; "running"; "succeeded"; "failed"]);
   ("finding_severity", ["low"; "medium"; "high"]);
   ("finding_event_type", ["discovered"; "remediated"; "unremediated"; "re_leaked"; "password_viewed"; "notified"; "alerted"]);
   ("batch_target", ["ou"; "domain"; "selection"]);
   ("batch_status", ["pending"; "running"; "succeeded"; "partial"; "failed"]);
   ("queue_status", ["queued"; "running"; "succeeded"; "failed"]);
   ("schedule_kind", ["scan_ou"; "scan_domain"; "digest"]);
   ("notification_status", ["pending"; "dry_run"; "sent"; "suppressed"; "failed"]);
   ("alert_sink_name", ["wazuh"; "dfir_iris"]);
   ("alert_outbox_status", ["pending"; "delivered"; "dead_letter"])].
