(* ===== verification/SchemaContract.v ===== *)
(** What the migrations build: the schema that the mapped classes declare, with the least privileges the
    application needs; and what undoing them gives back. *)
From S2P Require Import Prelude PyBase Encoding Hashes Json Models Store Schema Migrations ModelSchema.

(** A new database: nothing in it, and the superuser connected. *)
Definition fresh_database : Database := mkDatabase ∅ ∅ ∅ ∅ ∅ ∅ [] true [] "postgres" None.

(** *** The schema of the mapped classes *)

Definition is_primary (c : TableConstraint) : bool := match c with PrimaryKey _ => true | _ => false end.
Definition primary_keys (t : Table) : list (list string) :=
  flat_map (fun kc => match kc.2 with PrimaryKey cs => [cs] | _ => [] end) (map_to_list (t_constraints t)).
Definition named_constraints (t : Table) : gmap string TableConstraint :=
  filter (fun kc => is_primary kc.2 = false) (t_constraints t).
(** Equal but for the name of the primary key. *)
Definition same_table (t t' : Table) : Prop :=
  t_columns t = t_columns t' /\ named_constraints t = named_constraints t' /\ primary_keys t = primary_keys t'.
#[export] Instance same_table_dec t t' : Decision (same_table t t').
Proof. unfold same_table. apply _. Defined.

(** The one difference: the column of a notification's findings has a default in the database only. *)
Definition with_database_default (name : string) (t : Table) : Table :=
  if bool_decide (name = "notifications"%string)
  then set_t_columns (<["finding_ids"%string := mkColumn T_JSONB false (Some (D_string "[]"))]> (t_columns t)) t
  else t.
Definition built_as_declared (d : Database) (entry : string * (Table * list (string * IndexDef))) : Prop :=
  match db_tables d !! entry.1 with Some t => same_table (with_database_default entry.1 entry.2.1) t | None => False end.
#[export] Instance built_as_declared_dec d entry : Decision (built_as_declared d entry).
Proof. unfold built_as_declared. destruct (_ !! _); apply _. Defined.
Definition builds_models (d : Database) : Prop :=
  db_enums d = model_enums
  /\ dom (db_tables d) = list_to_set ("alembic_version"%string :: model_tables.*1)
  /\ Forall (built_as_declared d) model_tables
  /\ db_indexes d = list_to_map (concat (map (fun entry => entry.2.2) model_tables)).
#[export] Instance builds_models_dec d : Decision (builds_models d).
Proof. unfold builds_models. apply _. Defined.

(** *** The privileges of the application's role *)

Definition RUNTIME : string := "leakcheck_runtime".
(** What it may do with a table: read and add everywhere, change all but the two trails, delete only where a
    feature deletes - retention, schedules and the watchlist - and only look at alembic's version. *)
Definition runtime_privileges (t : string) : list Privilege :=
  if bool_decide (t = "alembic_version"%string) then [SELECT]
  else if bool_decide (t ∈ model_tables.*1) then
    [SELECT; INSERT]
    ++ (if bool_decide (t ∈ ["audit_log"; "finding_events"]%string) then [] else [UPDATE])
    ++ (if bool_decide (t ∈ ["findings"; "finding_events"; "schedules"; "watchlist"]%string) then [DELETE] else [])
  else [].
Definition runtime_allowed (o : SqlObject) (p : Privilege) : Prop :=
  match o with OnDatabase => p = CONNECT | OnSchemaPublic => p = USAGE | OnTable t => p ∈ runtime_privileges t end.
#[export] Instance runtime_allowed_dec o p : Decision (runtime_allowed o p).
Proof. destruct o; cbn; apply _. Defined.

(** *** Going back *)

(** All of a database but its rows, its roles and who is connected. *)
Definition schema_parts (d : Database) :=
  (db_extensions d, db_enums d, db_tables d, (db_indexes d, db_owners d, db_grants d, db_public_create d, db_version d)).
(** What a downgrade leaves behind: the extension of the second revision, and the label that the eighth adds
    to an existing type. *)
Definition residue (id : string) (d : Database) : Database :=
  if bool_decide (id = "0002_auth_models"%string) then set_db_extensions ({["citext"%string]} ∪ db_extensions d) d
  else if bool_decide (id = "0008_notifications"%string)
  then set_db_enums (<["schedule_kind"%string := ["scan_ou"; "scan_domain"; "digest"]%string]> (db_enums d)) d
  else d.

(** *** Passwords of roles *)

(** A usable password: long enough, no placeholder, and no pair of dollars. *)
Fixpoint has_dollars (s : pystr) : bool :=
  match s with c :: (d :: _) as t => ((c =? 36) && (d =? 36)) || has_dollars t | _ => false end.
Definition usable (environ : gmap string pystr) (name : string) (password : pystr) : Prop :=
  environ !! name = Some password /\ (32 <= length password)%nat /\ startswith password (py "replace-with-") = false
  /\ has_dollars password = false.

(** The database after the bootstrap, for two passwords. *)
Definition bootstrapped (migrator runtime : pystr) : Database :=
  let table := mkTable {["version_num"%string := mkColumn (T_String 32) false None]} {["alembic_version_pkc"%string := PrimaryKey ["version_num"%string]]} in
  let role := mkRole true false false false in
  let m := "leakcheck_migrator"%string in
  let r := "leakcheck_runtime"%string in
  mkDatabase ∅ ∅ {["alembic_version"%string := table]} ∅ (<[r := role runtime]> {[m := role migrator]})
    (<["alembic_version"%string := m]> {["alembic_version"%string := "postgres"%string]})
    [mkGrant m OnDatabase CONNECT; mkGrant m OnDatabase CREATE; mkGrant r OnDatabase CONNECT;
     mkGrant m OnSchemaPublic USAGE; mkGrant m OnSchemaPublic CREATE; mkGrant r OnSchemaPublic USAGE;
     mkGrant r (OnTable "alembic_version") SELECT]
    false [] "postgres" (Some "0001_bootstrap_roles"%string).

(** ** Lemmas *)

Lemma sql_literal_escaped v after : match after with d :: _ => d <> 39 | [] => True end ->
  sql_literal (replace_char 39 [39; 39] v ++ 39 :: after) = Some (v, after).
Proof.
  intros Ha. unfold replace_char. induction v as [|c v IH]; cbn [flat_map app].
  - cbn [sql_literal]. destruct after as [|d after]; [done|]. change (39 =? 39) with true.
    destruct (Z.eqb_spec d 39) as [->|_]; [by destruct Ha|done].
  - destruct (Z.eqb_spec c 39) as [->|Hc]; cbn [app].
    + cbn [sql_literal]. change (39 =? 39) with true. cbv iota. by rewrite IH.
    + cbn [sql_literal]. destruct (Z.eqb_spec c 39); [done|]. by rewrite IH.
Qed.

(** Dollars in a row are in one of two texts, or around their meeting point. *)
Lemma has_dollars_app s t : has_dollars s = false -> has_dollars t = false -> last s <> Some 36 \/ head t <> Some 36 ->
  has_dollars (s ++ t) = false.
Proof.
  intros Hs Ht Hm. induction s as [|c s IH]; [done|]. destruct s as [|d s].
  - destruct t as [|d t]; [done|]. cbn [app has_dollars] in *. rewrite Ht, orb_false_r.
    destruct (Z.eqb_spec c 36) as [->|]; [|done]. destruct (Z.eqb_spec d 36) as [->|]; [|done].
    by destruct Hm as [Hm|Hm]; [cbn in Hm|cbn in Hm].
  - cbn [app has_dollars] in *. apply orb_false_iff in Hs as [Hc Hs]. rewrite Hc. apply IH; [done|].
    destruct Hm as [Hm|Hm]; [left; exact Hm|by right].
Qed.
Lemma until_dollars_exact s after : has_dollars (s ++ [36]) = false -> until_dollars (s ++ 36 :: 36 :: after) = Some (s, after).
Proof.
  induction s as [|c s IH]; intros Hs; [done|]. destruct s as [|d s].
  - cbn [app has_dollars] in Hs. cbn [app until_dollars]. destruct (Z.eqb_spec c 36) as [->|]; [done|]. done.
  - cbn [app has_dollars] in Hs, IH |- *. apply orb_false_iff in Hs as [Hc Hs].
    cbn [until_dollars]. rewrite Hc. specialize (IH Hs). cbn [until_dollars app] in IH. by rewrite IH.
Qed.
Lemma has_dollars_escaped v : has_dollars v = false -> has_dollars (replace_char 39 [39; 39] v) = false.
Proof.
  unfold replace_char. induction v as [|c v IH]; [done|]. intros Hv. cbn [flat_map].
  assert (Hv' : has_dollars v = false) by (destruct v; [done|]; cbn [has_dollars] in Hv; by apply orb_false_iff in Hv as [_ ?]).
  specialize (IH Hv'). destruct (Z.eqb_spec c 39) as [->|Hc].
  - apply has_dollars_app; [done|exact IH|by left].
  - apply has_dollars_app; [done|exact IH|]. destruct (Z.eqb_spec c 36) as [->|]; [right|left; cbn; congruence].
    destruct v as [|d v]; [done|]. cbn [has_dollars] in Hv. cbn [flat_map]. destruct (Z.eqb_spec d 39) as [->|]; [done|].
    cbn. intros [= ->]. done.
Qed.

(** A role's statement around a password without a pair of dollars. *)
Definition role_prefix (role : string) : pystr :=
  py "IF NOT EXISTS (SELECT 1 FROM pg_roles WHERE rolname = '" ++ py role ++ py "') THEN CREATE ROLE " ++ py role ++
  py " LOGIN NOSUPERUSER NOCREATEDB NOCREATEROLE NOINHERIT NOREPLICATION NOBYPASSRLS PASSWORD '".
Lemma create_role_sql_parts role password : create_role_sql role password = role_prefix role ++ password ++ py "'; END IF; ".
Proof. unfold create_role_sql, role_prefix. by rewrite <- !app_assoc. Qed.
Lemma has_dollars_role role password after :
  has_dollars (role_prefix role) = false -> last (role_prefix role) = Some 39 -> has_dollars password = false ->
  has_dollars after = false -> has_dollars (create_role_sql role password ++ after) = false.
Proof.
  intros Hp Hl Hw Ha. rewrite create_role_sql_parts, <- !app_assoc.
  apply has_dollars_app; [done| |left; by rewrite Hl].
  apply has_dollars_app; [done| |by right].
  apply has_dollars_app; [done|done|left; done].
Qed.
Lemma roles_body_read m r : has_dollars m = false -> has_dollars r = false ->
  until_dollars (roles_body m r ++ py "$$") = Some (roles_body m r, []).
Proof.
  intros Hm Hr. change (py "$$") with [36; 36]. apply until_dollars_exact. unfold roles_body. rewrite <- !app_assoc.
  apply has_dollars_app; [done| |by left].
  apply has_dollars_role; [vm_compute; reflexivity|vm_compute; reflexivity|done|].
  apply has_dollars_role; [vm_compute; reflexivity|vm_compute; reflexivity|done|vm_compute; reflexivity].
Qed.

Lemma bootstrap_password_usable environ name v : usable environ name v -> bootstrap_password environ name = Ok (replace_char 39 [39; 39] v).
Proof.
  intros (He&Hl&Hs&_). unfold bootstrap_password. rewrite He, Hs, orb_false_r. by destruct (Nat.ltb_spec (length v) 32); [lia|].
Qed.
Lemma quote_identifier_ok name : identifier name = true -> exists q, quote_identifier name = Ok q.
Proof. intros E. unfold quote_identifier. rewrite E. eauto. Qed.
Lemma create_role_run role v d : db_roles d !! role = None ->
  create_role role (replace_char 39 [39; 39] v) d = (Ok tt, set_db_roles (<[role := mkRole true false false false v]> (db_roles d)) d).
Proof.
  intros Hr. unfold create_role, mbind, get_state. cbn. rewrite Hr. rewrite bool_decide_false by (by intros [? ?]).
  change (py "'; END IF; ") with (39 :: py "; END IF; "). by rewrite sql_literal_escaped.
Qed.
Lemma run_roles_sql_run other m r d :
  has_dollars m = false -> has_dollars r = false -> db_roles d = ∅ ->
  run_roles_sql other (replace_char 39 [39; 39] m) (replace_char 39 [39; 39] r) d
  = (Ok tt, set_db_roles (<["leakcheck_runtime"%string := mkRole true false false false r]>
                            {["leakcheck_migrator"%string := mkRole true false false false m]}) d).
Proof.
  intros Hm Hr Hd. unfold run_roles_sql. rewrite bool_decide_true by (apply roles_body_read; by apply has_dollars_escaped).
  unfold mbind. rewrite create_role_run by (by rewrite Hd). rewrite create_role_run; [by rewrite Hd|].
  cbn [set_db_roles db_roles]. rewrite Hd. by rewrite lookup_insert_ne, lookup_empty.
Qed.

(** *** The bootstrap *)

Section BootstrapRun.
Variable environ : gmap string pystr.
Variable database_name : pystr.
Variable other_sql : pystr -> Mig unit.
Variables m r : pystr.
Hypothesis migrator_usable : usable environ "LC_MIGRATOR_DB_PASSWORD" m.
Hypothesis runtime_usable : usable environ "LC_RUNTIME_DB_PASSWORD" r.
Hypothesis name_ok : identifier database_name = true.

Definition two_roles : gmap string Role :=
  <["leakcheck_runtime"%string := mkRole true false false false r]> {["leakcheck_migrator"%string := mkRole true false false false m]}.
(** The statements after the roles exist. *)
Definition bootstrap_grants : Mig unit :=
  do! grant [CONNECT] OnDatabase "leakcheck_migrator";
  do! grant [CREATE] OnDatabase "leakcheck_migrator";
  do! grant [CONNECT] OnDatabase "leakcheck_runtime";
  do! modify (set_db_public_create false);
  do! grant [USAGE; CREATE] OnSchemaPublic "leakcheck_migrator";
  do! grant [USAGE] OnSchemaPublic "leakcheck_runtime";
  do! set_owner "alembic_version" "leakcheck_migrator";
  grant [SELECT] (OnTable "alembic_version") "leakcheck_runtime".
Lemma upgrade_0001_run d : db_roles d = ∅ -> superuser d = true ->
  upgrade_0001 environ database_name other_sql d = bootstrap_grants (set_db_roles two_roles d).
Proof using migrator_usable runtime_usable name_ok.
  intros Hd Hs. destruct (quote_identifier_ok _ name_ok) as (q&Hq).
  pose proof migrator_usable as (_&_&_&Hm). pose proof runtime_usable as (_&_&_&Hr).
  unfold upgrade_0001. rewrite (mbind_ok (lift (quote_identifier database_name)) _ d q d) by (unfold lift; by rewrite Hq).
  rewrite (mbind_ok (lift (bootstrap_password environ "LC_MIGRATOR_DB_PASSWORD")) _ d (replace_char 39 [39; 39] m) d)
    by (unfold lift; by rewrite (bootstrap_password_usable _ _ _ migrator_usable)).
  rewrite (mbind_ok (lift (bootstrap_password environ "LC_RUNTIME_DB_PASSWORD")) _ d (replace_char 39 [39; 39] r) d)
    by (unfold lift; by rewrite (bootstrap_password_usable _ _ _ runtime_usable)).
  rewrite (mbind_ok _ _ d tt d) by (unfold mbind, get_state; by rewrite Hs).
  rewrite (mbind_ok _ _ d tt (set_db_roles two_roles d)) by (by apply run_roles_sql_run). reflexivity.
Qed.

Definition versioned_database : Database :=
  match ensure_version_table fresh_database with (_, d) => d end.
Lemma upgrade_steps_next fuel now target d rv d1 d2 :
  db_version d <> target -> next_revision environ database_name other_sql (db_version d) = Some rv ->
  rv_upgrade rv now d = (Ok tt, d1) -> stamp (Some (rv_id rv)) d1 = (Ok tt, d2) ->
  upgrade_steps environ database_name other_sql (S fuel) now target d
  = upgrade_steps environ database_name other_sql fuel now target d2.
Proof using Type.
  intros Ht Hn Hu Hs. cbn [upgrade_steps]. rewrite (mbind_ok get_state _ d d d) by reflexivity.
  destruct (bool_decide (is_Some target /\ db_version d = target)) eqn:E; [by apply bool_decide_eq_true in E as [_ E]|].
  rewrite Hn. rewrite (mbind_ok _ _ _ _ _ Hu). by rewrite (mbind_ok _ _ _ _ _ Hs).
Qed.
Lemma upgrade_steps_stop fuel now target d :
  is_Some target -> db_version d = target -> upgrade_steps environ database_name other_sql fuel now target d = (Ok tt, d).
Proof using Type.
  intros Ht Hv. destruct fuel; cbn [upgrade_steps]; rewrite (mbind_ok get_state _ d d d) by reflexivity;
    (destruct (bool_decide (is_Some target /\ db_version d = target)) eqn:E; [done|by apply bool_decide_eq_false in E; destruct E]).
Qed.
Lemma bootstrap_upgrade now : upgrade environ database_name other_sql now (Some "0001_bootstrap_roles"%string) fresh_database
  = (Ok tt, bootstrapped m r).
Proof using migrator_usable runtime_usable name_ok.
  unfold upgrade, transaction.
  rewrite (mbind_ok ensure_version_table _ fresh_database tt versioned_database) by (vm_compute; reflexivity).
  assert (Hl : length (revisions environ database_name other_sql) = 13%nat) by reflexivity. rewrite Hl.
  assert (Hv : db_version versioned_database = None) by (vm_compute; reflexivity).
  rewrite (upgrade_steps_next 12 now _ versioned_database
    (mkRevision "0001_bootstrap_roles" None (fun _ => upgrade_0001 environ database_name other_sql) downgrade_0001)
    (set_db_version None (bootstrapped m r)) (bootstrapped m r)).
  - rewrite upgrade_steps_stop; [reflexivity|by eexists|reflexivity].
  - by rewrite Hv.
  - rewrite Hv. reflexivity.
  - cbn [rv_upgrade]. rewrite upgrade_0001_run by (vm_compute; reflexivity). vm_compute. reflexivity.
  - vm_compute. reflexivity.
Qed.
End BootstrapRun.

(** *** The other revisions, run by the migrator *)

(** Past the first revision nothing depends on the environment. *)
Section LaterRevisions.
Variables environ environ' : gmap string pystr.
Variables database_name database_name' : pystr.
Variables other_sql other_sql' : pystr -> Mig unit.
Lemma next_revision_later v : next_revision environ database_name other_sql (Some v) = next_revision environ' database_name' other_sql' (Some v).
Proof using Type. unfold next_revision, revisions. cbn [List.find rv_down]. rewrite bool_decide_false by discriminate. reflexivity. Qed.
Lemma stamp_version v d d' : stamp v d = (Ok tt, d') -> db_version d' = v.
Proof using Type.
  unfold stamp. intros (d0&d1&[= <- <-]%eq_sym&H)%mbind_inv. apply mbind_inv in H as (u&d2&_&H). by injection H as <-.
Qed.
Lemma upgrade_steps_later fuel now target d : is_Some (db_version d) ->
  upgrade_steps environ database_name other_sql fuel now target d
  = upgrade_steps environ' database_name' other_sql' fuel now target d.
Proof using Type.
  revert d. induction fuel as [|fuel IH]; intros d [v Hv]; [reflexivity|]. cbn [upgrade_steps].
  rewrite !(mbind_ok get_state _ d d d) by reflexivity. destruct (bool_decide _); [done|].
  rewrite Hv, next_revision_later. destruct (next_revision _ _ _ _) as [rv|]; [|done].
  unfold mbind at 1 3. destruct (rv_upgrade rv now d) as [[u|e] d1]; [|done].
  unfold mbind. destruct (stamp (Some (rv_id rv)) d1) as [[[]|e] d2] eqn:E; [|done].
  apply IH. rewrite (stamp_version _ _ _ E). by eexists.
Qed.
Lemma upgrade_later now target d : is_Some (db_version d) -> is_Some (db_tables d !! "alembic_version"%string) ->
  upgrade environ database_name other_sql now target d = upgrade environ' database_name' other_sql' now target d.
Proof using Type.
  intros Hv Ht. unfold upgrade, transaction.
  assert (E : ensure_version_table d = (Ok tt, d)).
  { unfold ensure_version_table, mbind, get_state. rewrite bool_decide_true by exact Ht. reflexivity. }
  rewrite !(mbind_ok _ _ _ _ _ E). change (length (revisions environ database_name other_sql)) with 13%nat.
  change (length (revisions environ' database_name' other_sql')) with 13%nat. by rewrite (upgrade_steps_later _ _ _ _ Hv).
Qed.
End LaterRevisions.

(** The database that [bootstrap_database] makes of a new one, in whatever environment that has the usable
    passwords [m] and [r]. *)
Definition bootstrap_makes (m r : pystr) (d : Database) : Prop :=
  forall environ database_name other_sql now,
    usable environ "LC_MIGRATOR_DB_PASSWORD" m -> usable environ "LC_RUNTIME_DB_PASSWORD" r -> identifier database_name = true ->
    startswith (default [] (environ !! "LC_MIGRATION_DATABASE_URL"%string)) MIGRATION_URL_SCHEME = true ->
    bootstrap_database environ database_name other_sql now fresh_database = (Ok tt, d).
Definition as_migrator : Database -> Database := set_db_user "leakcheck_migrator".
Definition migrate (now : instant) (target : option string) (d : Database) : result unit * Database :=
  upgrade ∅ [] (fun _ => mret tt) now target d.
Definition head_database (now : instant) (m r : pystr) : Database := (migrate now None (as_migrator (bootstrapped m r))).2.
Lemma head_run now m r : (migrate now None (as_migrator (bootstrapped m r))).1 = Ok tt.
Proof. vm_compute. reflexivity. Qed.
Lemma head_upgrade environ database_name other_sql now m r :
  upgrade environ database_name other_sql now None (as_migrator (bootstrapped m r)) = (Ok tt, head_database now m r).
Proof.
  rewrite (upgrade_later environ ∅ database_name [] other_sql (fun _ => mret tt)) by (eexists; reflexivity).
  fold (migrate now None (as_migrator (bootstrapped m r))). rewrite (surjective_pairing (migrate _ _ _)). by rewrite head_run.
Qed.
Lemma head_builds_models now m r : builds_models (head_database now m r).
Proof. apply (bool_decide_unpack _). vm_compute. exact I. Qed.
Lemma head_version now m r : db_version (head_database now m r) = Some "0013_branding_grants"%string.
Proof. vm_compute. reflexivity. Qed.
Lemma head_tables now m r : is_Some (db_tables (head_database now m r) !! "alembic_version"%string).
Proof. apply (bool_decide_unpack _). vm_compute. exact I. Qed.

(** The bootstrap of a new database, and of one that has a version already. *)
Section BootstrapMain.
Variable environ : gmap string pystr.
Variable database_name : pystr.
Variable other_sql : pystr -> Mig unit.
Hypothesis url_ok : startswith (default [] (environ !! "LC_MIGRATION_DATABASE_URL"%string)) MIGRATION_URL_SCHEME = true.
Lemma migration_url_run (d : Database) : lift (migration_url environ) d = (Ok (default [] (environ !! "LC_MIGRATION_DATABASE_URL"%string)), d).
Proof using url_ok. unfold lift, migration_url. by rewrite url_ok. Qed.
Lemma bootstrap_run m r now :
  usable environ "LC_MIGRATOR_DB_PASSWORD" m -> usable environ "LC_RUNTIME_DB_PASSWORD" r -> identifier database_name = true ->
  bootstrap_database environ database_name other_sql now fresh_database = (Ok tt, bootstrapped m r).
Proof using url_ok.
  intros Hm Hr Hn. unfold bootstrap_database. rewrite (mbind_ok _ _ _ _ _ (migration_url_run _)). rewrite (mbind_ok get_state _ _ _ _ eq_refl).
  assert (Hb : bootstrap_required fresh_database = true) by (vm_compute; reflexivity). rewrite Hb. by apply bootstrap_upgrade.
Qed.
Lemma bootstrap_skipped now d : is_Some (db_tables d !! "alembic_version"%string) -> is_Some (db_version d) ->
  bootstrap_database environ database_name other_sql now d = (Ok tt, d).
Proof using url_ok.
  intros Ht [v Hv]. unfold bootstrap_database. rewrite (mbind_ok _ _ _ _ _ (migration_url_run _)). rewrite (mbind_ok get_state _ _ _ _ eq_refl).
  unfold bootstrap_required. rewrite bool_decide_true by done. by rewrite Hv.
Qed.
(** Nothing comes after the last revision. *)
Lemma upgrade_at_head now d : is_Some (db_tables d !! "alembic_version"%string) -> db_version d = Some "0013_branding_grants"%string ->
  upgrade environ database_name other_sql now None d = (Ok tt, d).
Proof using Type.
  intros Ht Hv. unfold upgrade, transaction.
  assert (E : ensure_version_table d = (Ok tt, d)) by (unfold ensure_version_table, mbind, get_state; by rewrite bool_decide_true).
  rewrite (mbind_ok _ _ _ _ _ E). change (length (revisions environ database_name other_sql)) with 13%nat. cbn [upgrade_steps].
  rewrite (mbind_ok get_state _ d d d) by reflexivity. rewrite bool_decide_false by (intros [[] _]; done). rewrite Hv. reflexivity.
Qed.
End BootstrapMain.

(** *** Privileges *)

Definition runtime_grant_ok (g : Grant) : bool :=
  negb (bool_decide (g_role g = RUNTIME)) || bool_decide (runtime_allowed (g_object g) (g_privilege g)).
Definition runtime_grants_present (d : Database) (t : string) : bool :=
  forallb (fun p => bool_decide (mkGrant RUNTIME (OnTable t) p ∈ db_grants d)) (runtime_privileges t).
Lemma runtime_grants_exact d :
  forallb runtime_grant_ok (db_grants d) = true ->
  bool_decide (mkGrant RUNTIME OnDatabase CONNECT ∈ db_grants d) = true ->
  bool_decide (mkGrant RUNTIME OnSchemaPublic USAGE ∈ db_grants d) = true ->
  forallb (runtime_grants_present d) ("alembic_version"%string :: model_tables.*1) = true ->
  forall o p, mkGrant RUNTIME o p ∈ db_grants d <-> runtime_allowed o p.
Proof.
  intros Hall Hdb Hs Ht o p. rewrite List.forallb_forall in Hall. bools. split.
  - intros Hin. specialize (Hall _ (proj1 (list_elem_of_In _ _) Hin)). unfold runtime_grant_ok in Hall. cbn in Hall.
    apply orb_true_iff in Hall as [Hall|Hall]; by bools.
  - destruct o as [t| |]; cbn [runtime_allowed]; [|by intros ->|by intros ->]. intros Hp. rewrite List.forallb_forall in Ht.
    assert (Hin : In t ("alembic_version"%string :: model_tables.*1)).
    { apply list_elem_of_In. unfold runtime_privileges in Hp. case_bool_decide as E; [subst t; by left|].
      case_bool_decide; [by right|by apply not_elem_of_nil in Hp]. }
    specialize (Ht t Hin). unfold runtime_grants_present in Ht. rewrite List.forallb_forall in Ht.
    specialize (Ht p (proj1 (list_elem_of_In _ _) Hp)). by bools.
Qed.
Lemma head_grants now m r o p :
  mkGrant RUNTIME o p ∈ db_grants (head_database now m r) <-> runtime_allowed o p.
Proof. apply runtime_grants_exact; vm_compute; reflexivity. Qed.
Lemma head_owners now m r : Forall (fun to => to.2 = "leakcheck_migrator"%string) (map_to_list (db_owners (head_database now m r))).
Proof. apply (bool_decide_unpack _). vm_compute. exact I. Qed.

(** *** Undoing a revision *)

Lemma downgrade_later environ database_name other_sql v d : db_version d = Some v -> v <> "0001_bootstrap_roles"%string ->
  downgrade environ database_name other_sql d = downgrade ∅ [] (fun _ => mret tt) d.
Proof.
  intros Hv Hne. unfold downgrade, transaction. rewrite !(mbind_ok get_state _ d d d) by reflexivity. rewrite Hv.
  unfold revisions. cbn [List.find rv_id]. rewrite bool_decide_false by congruence. reflexivity.
Qed.
Definition succeeded {A} (r : result A) : bool := match r with Ok _ => true | Raise _ => false end.
(** The identifiers after the first revision, and the database after the first [n] of them. *)
Definition LATER : list string := tail (map rv_id (revisions ∅ [] (fun _ => mret tt))).
Definition after_revisions (now : instant) (d : Database) (ids : list string) : Database :=
  foldl (fun d id => (migrate now (Some id) d).2) d ids.
(** Up by one revision and down again. *)
Definition undo_ok (now : instant) (d : Database) (id : string) : bool :=
  let up := migrate now (Some id) d in
  let down := downgrade ∅ [] (fun _ => mret tt) up.2 in
  succeeded up.1 && succeeded down.1 && bool_decide (db_version up.2 = Some id)
  && bool_decide (schema_parts down.2 = schema_parts (residue id d)).
Fixpoint walk (now : instant) (d : Database) (ids : list string) : bool :=
  match ids with
  | [] => true
  | id :: rest => undo_ok now d id && walk now (migrate now (Some id) d).2 rest
  end.
Lemma walk_spec now d ids : walk now d ids = true -> forall n id, ids !! n = Some id ->
  undo_ok now (after_revisions now d (take n ids)) id = true.
Proof.
  revert d. induction ids as [|id0 ids IH]; intros d Hw n id Hn; [done|]. cbn [walk] in Hw. apply andb_true_iff in Hw as [H0 Hw].
  destruct n as [|n]; [by injection Hn as <-|]. exact (IH _ Hw n id Hn).
Qed.
Lemma later_undone now m r : walk now (as_migrator (bootstrapped m r)) LATER = true.
Proof. vm_compute. reflexivity. Qed.

(** *** The enrolments *)

Definition BEFORE_ENROLMENT : list string := take 8 LATER.
Definition unseeded (c : AdminCredential) : bool := bool_decide (ac_totp_secret_enc c = None).
(** The schema of the tenth revision with some accounts. *)
Definition enrolment_schema (now : instant) (m r : pystr) (rows : list AdminCredential) : Database :=
  set_db_credentials rows (migrate now (Some "0010_optional_mfa_enrollment"%string)
    (after_revisions now (as_migrator (bootstrapped m r)) BEFORE_ENROLMENT)).2.
Lemma downgrade_0010_refused d : existsb unseeded (db_credentials d) = true -> downgrade_0010 d = (Raise RuntimeError, d).
Proof. intros E. unfold downgrade_0010. rewrite (mbind_ok get_state _ d d d) by reflexivity. unfold unseeded in E. by rewrite E. Qed.
Lemma set_not_null_run d t c : db_tables d !! "admin_credentials"%string = Some t -> owns d "admin_credentials" = true ->
  t_columns t !! "totp_secret_enc"%string = Some c -> existsb unseeded (db_credentials d) = false ->
  set_nullable "admin_credentials" "totp_secret_enc" false d
  = (Ok tt, set_db_tables (<["admin_credentials"%string := set_t_columns (<["totp_secret_enc"%string := mkColumn (c_type c) false (c_default c)]> (t_columns t)) t]> (db_tables d)) d).
Proof.
  intros Ht Ho Hc He. unfold set_nullable, on_table. rewrite (mbind_ok get_state _ d d d) by reflexivity. rewrite Ht, Ho.
  rewrite (mbind_ok (require true) _ d tt d) by reflexivity. rewrite Hc.
  assert (Hn : has_nulls "admin_credentials" "totp_secret_enc" d = false) by (unfold has_nulls; unfold unseeded in He; by rewrite He, andb_false_r).
  assert (Hr : (let! d0 <- get_state; do! require (false || negb (has_nulls "admin_credentials" "totp_secret_enc" d0));
                mret (set_t_columns (<["totp_secret_enc"%string := mkColumn (c_type c) false (c_default c)]> (t_columns t)) t))%py d
               = (Ok (set_t_columns (<["totp_secret_enc"%string := mkColumn (c_type c) false (c_default c)]> (t_columns t)) t), d)).
  { rewrite (mbind_ok get_state _ d d d) by reflexivity. by rewrite Hn. }
  by rewrite (mbind_ok _ _ _ _ _ Hr).
Qed.
Definition back_from_enrolment : Mig unit := do! downgrade_0010; stamp (Some "0009_alert_foundation"%string).
Lemma downgrade_at_0010 d : db_version d = Some "0010_optional_mfa_enrollment"%string ->
  downgrade ∅ [] (fun _ => mret tt) d = transaction back_from_enrolment d.
Proof.
  intros Hv. unfold downgrade, transaction. rewrite (mbind_ok get_state _ d d d) by reflexivity. rewrite Hv. reflexivity.
Qed.
Lemma enrolment_schema_version now m r rows : db_version (enrolment_schema now m r rows) = Some "0010_optional_mfa_enrollment"%string.
Proof. vm_compute. reflexivity. Qed.
Definition credentials_table (now : instant) (m r : pystr) (rows : list AdminCredential) : Table :=
  default (mkTable ∅ ∅) (db_tables (enrolment_schema now m r rows) !! "admin_credentials"%string).
Definition nullable_secret : Column := mkColumn T_LargeBinary true None.
Lemma back_from_enrolment_steps d d1 : existsb unseeded (db_credentials d) = false ->
  set_nullable "admin_credentials" "totp_secret_enc" false d = (Ok tt, d1) ->
  back_from_enrolment d = mbind (drop_column "admin_credentials" "totp_enabled_at") (fun _ => stamp (Some "0009_alert_foundation"%string)) d1.
Proof.
  intros He E. unfold back_from_enrolment. unfold mbind at 1 2.
  assert (Hd : downgrade_0010 d = drop_column "admin_credentials" "totp_enabled_at" d1).
  { unfold downgrade_0010. rewrite (mbind_ok get_state _ d d d) by reflexivity. unfold unseeded in He. rewrite He.
    rewrite (mbind_ok (mret tt) _ d tt d) by reflexivity. by rewrite (mbind_ok _ _ _ _ _ E). }
  by rewrite Hd.
Qed.
Lemma back_from_enrolment_run now m r rows : existsb unseeded rows = false ->
  (back_from_enrolment (enrolment_schema now m r rows)).1 = Ok tt
  /\ db_credentials (back_from_enrolment (enrolment_schema now m r rows)).2 = map (set_enabled None) rows.
Proof.
  intros He. assert (Hd : db_credentials (enrolment_schema now m r rows) = rows) by (unfold enrolment_schema; reflexivity).
  assert (E := set_not_null_run (enrolment_schema now m r rows) (credentials_table now m r rows) nullable_secret
    ltac:(vm_compute; reflexivity) ltac:(vm_compute; reflexivity) ltac:(vm_compute; reflexivity) ltac:(rewrite Hd; exact He)).
  rewrite (back_from_enrolment_steps _ _ ltac:(rewrite Hd; exact He) E). split; vm_compute; reflexivity.
Qed.

(** ** Properties *)

(** C33: On a new database the migrations build exactly what the application expects.  With any two usable
    passwords in the environment - long, no placeholder, no pair of dollars, quotes allowed - the bootstrap
    succeeds and gives the two roles those very passwords and nothing of the superuser's; then the migrator,
    which is no superuser, runs the other twelve revisions, and the result is the schema that the mapped
    classes declare: the same enumerations with their values in order, the same tables with their columns,
    types, defaults and constraints, the same indexes, and alembic's table besides (the default of one column
    excepted).  Bootstrapping again changes nothing. *)
Theorem migrations_build_models environ database_name other_sql m r now :
  usable environ "LC_MIGRATOR_DB_PASSWORD" m -> usable environ "LC_RUNTIME_DB_PASSWORD" r ->
  identifier database_name = true -> startswith (default [] (environ !! "LC_MIGRATION_DATABASE_URL"%string)) MIGRATION_URL_SCHEME = true ->
  exists d head,
    bootstrap_database environ database_name other_sql now fresh_database = (Ok tt, d)
    /\ db_roles d = two_roles m r
    /\ superuser (as_migrator d) = false
    /\ upgrade environ database_name other_sql now None (as_migrator d) = (Ok tt, head)
    /\ builds_models head /\ db_version head = Some "0013_branding_grants"%string
    /\ bootstrap_database environ database_name other_sql now head = (Ok tt, head).
Proof.
  intros Hm Hr Hn Hu. exists (bootstrapped m r), (head_database now m r).
  split_and!; [by apply bootstrap_run|vm_compute; reflexivity|vm_compute; reflexivity|apply head_upgrade|apply head_builds_models|apply head_version|].
  apply bootstrap_skipped; [done|apply head_tables|by rewrite head_version].
Qed.

(** C34: The application's own role has the least privileges.  After the bootstrap of a new database and all
    migrations it may do with each table
    exactly what [runtime_privileges] says, connect to the database and use the schema, and nothing else:
    whatever object and privilege one takes, the role holds it if and only if it is allowed.  In particular
    the audit trail can only be read and appended to, and nothing but findings, their events, schedules and
    watchlist entries can be deleted.  The role owns no table, is no superuser, can create neither databases
    nor roles, and nobody but the migrator may create anything in the schema. *)
Theorem runtime_role_is_least_privileged now m r :
  let head := head_database now m r in
  bootstrap_makes m r (bootstrapped m r)
  /\ migrate now None (as_migrator (bootstrapped m r)) = (Ok tt, head)
  /\ (forall o p, mkGrant RUNTIME o p ∈ db_grants head <-> runtime_allowed o p)
  /\ (forall p, runtime_allowed (OnTable "audit_log") p -> p = SELECT \/ p = INSERT)
  /\ (forall t, runtime_allowed (OnTable t) DELETE -> t ∈ ["findings"; "finding_events"; "schedules"; "watchlist"]%string)
  /\ Forall (fun to => to.2 <> RUNTIME) (map_to_list (db_owners head))
  /\ db_roles head !! RUNTIME = Some (mkRole true false false false r)
  /\ db_public_create head = false.
Proof.
  split_and!; [by intros environ name other_sql now' Hm Hr Hn Hu; apply bootstrap_run|apply head_upgrade|intros; apply head_grants| | | |vm_compute; reflexivity|vm_compute; reflexivity].
  - intros p Hp. change (p ∈ runtime_privileges "audit_log") in Hp.
    assert (E : runtime_privileges "audit_log" = [SELECT; INSERT]) by (vm_compute; reflexivity).
    rewrite E, !elem_of_cons, elem_of_nil in Hp. destruct Hp as [->|[->|[]]]; auto.
  - intros t Ht. change (DELETE ∈ runtime_privileges t) in Ht. unfold runtime_privileges in Ht.
    assert (Hno : DELETE ∈ [SELECT] -> False) by (rewrite elem_of_cons, elem_of_nil; by intros [[=]|[]]).
    destruct (bool_decide (t = _)); [by destruct (Hno Ht)|].
    destruct (bool_decide (t ∈ model_tables.*1)); [|by apply not_elem_of_nil in Ht]. rewrite !elem_of_app in Ht.
    destruct Ht as [Ht|[Ht|Ht]].
    + rewrite !elem_of_cons, elem_of_nil in Ht. by destruct Ht as [[=]|[[=]|[]]].
    + destruct (bool_decide _); [by apply not_elem_of_nil in Ht|]. rewrite elem_of_cons, elem_of_nil in Ht. by destruct Ht as [[=]|[]].
    + case_bool_decide as E; [exact E|by apply not_elem_of_nil in Ht].
  - eapply Forall_impl; [apply head_owners|]. intros to E. cbn in E. rewrite E. discriminate.
Qed.

(** C35: Every revision but the first can be undone.  From what the bootstrap makes of a new database, upgrading
    by one revision from any point of the chain and
    downgrading again succeeds and gives back every table, column, constraint, index, type, owner and
    privilege, but for the extension that the second revision leaves installed and the label that the eighth
    leaves in the type of schedules.  Around the tenth, which makes the second factor optional, the accounts
    are treated right: upgrading enrols exactly those that have a seed and loses none; downgrading is refused,
    without changing anything, while some account has no seed, and succeeds otherwise. *)
Theorem migrations_round_trip now m r :
  bootstrap_makes m r (bootstrapped m r)
  /\ (forall n id, LATER !! n = Some id ->
     let before := after_revisions now (as_migrator (bootstrapped m r)) (take n LATER) in
     let up := migrate now (Some id) before in
     let down := downgrade ∅ [] (fun _ => mret tt) up.2 in
     up.1 = Ok tt /\ down.1 = Ok tt /\ schema_parts down.2 = schema_parts (residue id before))
  /\ (forall rows,
     let before := set_db_credentials rows (after_revisions now (as_migrator (bootstrapped m r)) BEFORE_ENROLMENT) in
     let up := migrate now (Some "0010_optional_mfa_enrollment"%string) before in
     up.1 = Ok tt /\ db_credentials up.2 = map (fun c => set_enabled ((fun _ => now) <$> ac_totp_secret_enc c) c) rows)
  /\ (forall rows,
     let d := enrolment_schema now m r rows in
     let down := downgrade ∅ [] (fun _ => mret tt) d in
     if existsb unseeded rows then down = (Raise RuntimeError, d)
     else down.1 = Ok tt /\ db_credentials down.2 = map (set_enabled None) rows).
Proof.
  split_and!; [by intros environ name other_sql now' Hm Hr Hn Hu; apply bootstrap_run| | |].
  - intros n id Hid. pose proof (walk_spec _ _ _ (later_undone now m r) n id Hid) as Hu. unfold undo_ok in Hu. cbv zeta in *. bools.
    split_and!; [| |assumption].
    + destruct (migrate now (Some id) _) as [[[]|e] d]; done.
    + destruct (downgrade _ _ _ _) as [[[]|e] d]; done.
  - intros rows before up. subst before up. split; [vm_compute; reflexivity|].
    transitivity (map (enrol_seeded now) (map (set_enabled None) rows)); [vm_compute; reflexivity|].
    rewrite map_map. apply map_ext. intros [i h s t f l]. destruct s; reflexivity.
  - intros rows. cbv zeta. rewrite downgrade_at_0010 by apply enrolment_schema_version.
    destruct (existsb unseeded rows) eqn:E.
    + unfold transaction, back_from_enrolment. rewrite (mbind_raise downgrade_0010 _ _ RuntimeError (enrolment_schema now m r rows)); [done|].
      apply downgrade_0010_refused. exact E.
    + destruct (back_from_enrolment_run now m r rows E) as (Hok&Hc). unfold transaction.
      destruct (back_from_enrolment (enrolment_schema now m r rows)) as [x d]. cbn in Hok, Hc. by subst x.
Qed.

(** The first revision cannot be undone: PostgreSQL drops no role that still holds privileges or owns tables,
    and the revision granted some. *)
Theorem bootstrap_cannot_be_undone environ database_name other_sql m r :
  downgrade environ database_name other_sql (bootstrapped m r) = (Raise ProgrammingError, bootstrapped m r).
Proof. vm_compute. reflexivity. Qed.
(** A pair of dollars in a password ends the statement's body early. *)
Theorem dollars_end_the_body m r : has_dollars m = true ->
  exists body after, until_dollars (roles_body m r ++ py "$$") = Some (body, after) /\ (length body < length (roles_body m r))%nat.
Proof.
  intros Hm. assert (Hgen : forall s t, has_dollars s = true ->
    exists body after, until_dollars (s ++ t) = Some (body, after) /\ (length body < length s)%nat).
  { intros s t. induction s as [|c [|d s] IH]; [done|done|]. cbn [has_dollars app until_dollars].
    destruct ((c =? 36) && (d =? 36)) eqn:E; [intros _; eexists _, _; split; [reflexivity|cbn; lia]|]. cbn [orb].
    intros Hs. destruct (IH Hs) as (body&after&Hu&Hl). cbn [app until_dollars] in Hu. rewrite Hu. eexists _, _.
    split; [reflexivity|cbn [length] in *; lia]. }
  assert (Happ : forall s t, has_dollars t = true -> has_dollars (s ++ t) = true).
  { induction s as [|c s IH]; intros t Ht; [done|]. specialize (IH t Ht). cbn [app]. destruct (s ++ t) as [|d l]; [done|].
    cbn [has_dollars] in *. by rewrite IH, orb_true_r. }
  assert (Hleft : forall s t, has_dollars s = true -> has_dollars (s ++ t) = true).
  { intros s t. induction s as [|c [|d s] IH]; [done|done|]. intros Hs.
    change (((c =? 36) && (d =? 36)) || has_dollars (d :: s) = true) in Hs.
    change (((c =? 36) && (d =? 36)) || has_dollars ((d :: s) ++ t) = true).
    apply orb_true_iff in Hs as [->|Hs]; [done|]. by rewrite (IH Hs), orb_true_r. }
  apply Hgen. unfold roles_body. apply Happ. rewrite create_role_sql_parts, <- !app_assoc. apply Happ, Hleft, Hm.
Qed.

Definition sample_environment : gmap string pystr := list_to_map
  [("LC_MIGRATOR_DB_PASSWORD"%string, py "it's a password of the migrator, and long"); ("LC_RUNTIME_DB_PASSWORD"%string, replicate 40 98);
   ("LC_MIGRATION_DATABASE_URL"%string, py "postgresql+asyncpg://postgres@postgres/leakcheck")].
Lemma migrations_build_models_witness :
  exists d, bootstrap_database sample_environment (py "leakcheck") (fun _ => mret tt) 5 fresh_database = (Ok tt, d)
    /\ (r_password <$> db_roles d !! "leakcheck_migrator"%string) = Some (py "it's a password of the migrator, and long").
Proof.
  destruct (migrations_build_models sample_environment (py "leakcheck") (fun _ => mret tt)
    (py "it's a password of the migrator, and long") (replicate 40 98) 5) as (d&head&Hb&Hr&_).
  - split_and!; [vm_compute; reflexivity|apply (Nat.leb_le 32); vm_compute; reflexivity|vm_compute; reflexivity|vm_compute; reflexivity].
  - split_and!; [vm_compute; reflexivity|apply (Nat.leb_le 32); vm_compute; reflexivity|vm_compute; reflexivity|vm_compute; reflexivity].
  - vm_compute. reflexivity.
  - vm_compute. reflexivity.
  - exists d. split; [exact Hb|]. rewrite Hr. vm_compute. reflexivity.
Defined.
