(* ===== verification/BootstrapSecrets.v ===== *)
(** The zero-input deployment (app/bootstrap_secrets.py): the generated secrets and their files, the settings
    made of them (app/config.py, [get_settings]), the migrations run with privileged credentials, the wait for
    the database, and the command that serves. *)
From S2P Require Import Prelude PyBase Encoding Hashes Json Models Store Config Session OAuth Schema Migrations.

Definition OSError : exn := OtherException "OSError".
Definition FileExistsError : exn := OtherException "FileExistsError".
Definition FileNotFoundError : exn := OtherException "FileNotFoundError".
Definition PermissionError : exn := OtherException "PermissionError".
Definition gaierror : exn := OtherException "gaierror".

(** *** The host *)

(** What a name in the secrets directory is: a regular file with its octets, its mode and whether the process
    may read it, or anything else - a directory, a symbolic link. *)
Inductive Entry : Type := Regular (content : bytes) (mode : Z) (readable : bool) | Irregular.
#[export] Instance Entry_eq_dec : EqDecision Entry.
Proof. solve_decision. Defined.
Record Directory := mkDirectory { d_entries : gmap string Entry; d_writable : bool; d_owned : bool; d_mode : Z }.
(** What there is at the directory's path. *)
Inductive Place : Type := Missing (creatable : bool) | Occupied | Folder (d : Directory).

Record Host := mkHost {
  h_place : Place;
  h_past : list Place;              (* what it was before each change so far, the latest first *)
  h_space : nat;                    (* octets the disk has left *)
  h_draws : nat;
  h_environ : gmap string pystr;    (* os.environ *)
  h_clock : instant;
  h_attempts : nat;                 (* connections tried so far *)
  h_database : Database;
  h_cached : option Settings;       (* what get_settings has cached *)
  h_served : list Settings;         (* the settings of each application served *)
  h_output : list pystr;            (* lines printed, the latest first *)
}.
Definition Sys : Type -> Type := ST Host.
Definition get_host : Sys Host := fun h => (Ok h, h).
Definition set_place (p : Place) : Sys unit := fun h =>
  (Ok tt, mkHost p (h_place h :: h_past h) (h_space h) (h_draws h) (h_environ h) (h_clock h) (h_attempts h) (h_database h) (h_cached h) (h_served h) (h_output h)).
Definition set_space (n : nat) : Sys unit := fun h =>
  (Ok tt, mkHost (h_place h) (h_past h) n (h_draws h) (h_environ h) (h_clock h) (h_attempts h) (h_database h) (h_cached h) (h_served h) (h_output h)).
Definition set_environ (f : gmap string pystr -> gmap string pystr) : Sys unit := fun h =>
  (Ok tt, mkHost (h_place h) (h_past h) (h_space h) (h_draws h) (f (h_environ h)) (h_clock h) (h_attempts h) (h_database h) (h_cached h) (h_served h) (h_output h)).
Definition advance (dt : Z) : Sys unit := fun h =>
  (Ok tt, mkHost (h_place h) (h_past h) (h_space h) (h_draws h) (h_environ h) (h_clock h + dt) (h_attempts h) (h_database h) (h_cached h) (h_served h) (h_output h)).
Definition set_database (d : Database) : Sys unit := fun h =>
  (Ok tt, mkHost (h_place h) (h_past h) (h_space h) (h_draws h) (h_environ h) (h_clock h) (h_attempts h) d (h_cached h) (h_served h) (h_output h)).
Definition set_cached (s : Settings) : Sys unit := fun h =>
  (Ok tt, mkHost (h_place h) (h_past h) (h_space h) (h_draws h) (h_environ h) (h_clock h) (h_attempts h) (h_database h) (Some s) (h_served h) (h_output h)).
Definition add_served (s : Settings) : Sys unit := fun h =>
  (Ok tt, mkHost (h_place h) (h_past h) (h_space h) (h_draws h) (h_environ h) (h_clock h) (h_attempts h) (h_database h) (h_cached h) (s :: h_served h) (h_output h)).
Definition print_line (line : pystr) : Sys unit := fun h =>
  (Ok tt, mkHost (h_place h) (h_past h) (h_space h) (h_draws h) (h_environ h) (h_clock h) (h_attempts h) (h_database h) (h_cached h) (h_served h) (line :: h_output h)).
Definition random_octets `{Entropy} (n : nat) : Sys bytes := fun h =>
  (Ok (octets_at (h_draws h) n),
   mkHost (h_place h) (h_past h) (h_space h) (S (h_draws h)) (h_environ h) (h_clock h) (h_attempts h) (h_database h) (h_cached h) (h_served h) (h_output h)).

(** [try: c / finally: cleanup]; the cleanup raises nothing. *)
Definition finally {A} (c : Sys A) (cleanup : Sys unit) : Sys A := fun h => match c h with (r, h') => (r, (cleanup h').2) end.

(** *** Files *)

Definition entries_of (p : Place) : gmap string Entry := match p with Folder d => d_entries d | _ => ∅ end.
Definition entry (file : string) : Sys (option Entry) := fun h => (Ok (entries_of (h_place h) !! file), h).
Definition set_entry (file : string) (e : Entry) : Sys unit :=
  let! h <- get_host;
  match h_place h with
  | Folder d => set_place (Folder (mkDirectory (<[file := e]> (d_entries d)) (d_writable d) (d_owned d) (d_mode d)))
  | _ => raise FileNotFoundError
  end.
(** Modes: the owner's read and write bits. *)
Definition owner_reads (mode : Z) : bool := Z.testbit mode 8.
Definition owner_writes (mode : Z) : bool := Z.testbit mode 7.
Definition MODE_0755 : Z := 493.
Definition MODE_0444 : Z := 292.
Definition MODE_0400 : Z := 256.

(** Reading text turns every line ending into one newline. *)
Fixpoint universal_newlines (s : pystr) : pystr :=
  match s with
  | c :: t =>
      if c =? 13 then 10 :: match t with d :: t' => if d =? 10 then universal_newlines t' else universal_newlines t | [] => [] end
      else c :: universal_newlines t
  | [] => []
  end.

(** [os.open(path, O_WRONLY | O_CREAT | O_EXCL | O_NOFOLLOW, 0o400)]: whatever has the name already, be it a
    dangling link, is in the way. *)
Definition open_new (umask : Z) (file : string) : Sys unit :=
  let! e <- entry file;
  match e with
  | Some _ => raise FileExistsError
  | None => let mode := Z.ldiff MODE_0400 umask in set_entry file (Regular [] mode (owner_reads mode))
  end.
(** [os.write]: as many octets as the disk has room for, and an error when that is none. *)
Definition write_file (file : string) (content : bytes) : Sys unit :=
  let! h <- get_host;
  let n := Nat.min (length content) (h_space h) in
  if (n =? 0)%nat then raise OSError
  else
    do! set_space (h_space h - n);
    let! e <- entry file;
    match e with
    | Some (Regular old mode readable) => set_entry file (Regular (old ++ take n content) mode readable)
    | _ => raise OSError
    end.
(** [path.chmod] of one's own file. *)
Definition chmod (file : string) (mode : Z) : Sys unit :=
  let! e <- entry file;
  match e with
  | Some (Regular content _ _) => set_entry file (Regular content mode (owner_reads mode))
  | Some Irregular => mret tt
  | None => raise FileNotFoundError
  end.

(** *** Generated secrets *)

Definition SECRET_FILES : list (string * string) :=
  [("postgres_password", "postgres-password");
   ("migrator_password", "migrator-password");
   ("runtime_password", "runtime-password");
   ("session_secret", "session-secret");
   ("data_key", "data-key")]%string.

Section Secrets.
Context `{Unicode} `{Entropy}.
Variable umask : Z.

Definition new_secret (name : string) : Sys pystr :=
  let! octets <- random_octets 32;
  mret (if bool_decide (name = "data_key"%string) then base64url octets else hex octets).

(** What [_read_secret] makes of a directory entry. *)
Definition secret_of (e : option Entry) : result pystr :=
  match e with
  | None => Raise FileNotFoundError
  | Some Irregular => Raise RuntimeError
  | Some (Regular content _ false) => Raise PermissionError
  | Some (Regular content _ true) =>
      try! text <- ascii_decode content;
      let value := strip (universal_newlines text) in
      if (length value <? 32)%nat || bool_decide (10 ∈ value) || bool_decide (13 ∈ value) then Raise RuntimeError else Ok value
  end.
Definition read_secret (file : string) : Sys pystr := let! e <- entry file; lift (secret_of e).

(** One turn of the loop. *)
Definition ensure_secret (secret : string * string) : Sys unit :=
  let '(name, file) := secret in
  let! created <- try_except (do! open_new umask file; mret true) (fun e => bool_decide (e = FileExistsError)) (fun _ => mret false);
  if created then
    do! (let! value <- new_secret name; let! encoded <- lift (ascii_encode (value ++ [10])); write_file file encoded);
    chmod file MODE_0444
  else do! read_secret file; mret tt.
Definition make_directory : Sys unit :=
  let! h <- get_host;
  match h_place h with
  | Missing true => let mode := Z.ldiff MODE_0755 umask in set_place (Folder (mkDirectory ∅ (owner_writes mode) true mode))
  | Missing false => raise PermissionError
  | Occupied => raise FileExistsError
  | Folder _ => mret tt
  end.
Definition prepare_directory : Sys unit :=
  do! make_directory;
  let! h <- get_host;
  match h_place h with
  | Folder d =>
      if negb (d_writable d) then raise RuntimeError
      else if d_owned d then set_place (Folder (mkDirectory (d_entries d) (owner_writes MODE_0755) true MODE_0755)) else mret tt
  | _ => raise FileNotFoundError
  end.
Definition initialize_bootstrap_secrets : Sys unit :=
  do! prepare_directory; do! mfor ensure_secret SECRET_FILES; mret tt.

Definition load_bootstrap_secrets : Sys (list (string * pystr)) :=
  mfor (fun secret => let! value <- read_secret secret.2; mret (secret.1, value)) SECRET_FILES.
Definition item (values : list (string * pystr)) (name : string) : result pystr :=
  match List.find (fun kv => bool_decide (kv.1 = name)) values with Some kv => Ok kv.2 | None => Raise KeyError end.
Definition bootstrap_secrets_available : Sys bool := let! h <- get_host; mret (match h_place h with Folder _ => true | _ => false end).

Definition connection_url (username : string) (password : pystr) : pystr :=
  py "postgresql+asyncpg://" ++ py username ++ py ":" ++ password ++ py "@postgres:5432/leakcheck".

(** *** Settings (config.py) *)

(** What [runtime_settings] gives; the rest has a default or comes from the environment. *)
Record Generated := mkGenerated {
  gen_environment : Environment; gen_database_url : pystr; gen_session_secret : pystr; gen_data_key : pystr;
  gen_trusted_hosts : list pystr; gen_allow_unconfigured_hosts : bool; gen_run_inprocess_worker : bool;
}.
Definition runtime_settings : Sys Generated :=
  let! values <- load_bootstrap_secrets;
  let! password <- lift (item values "runtime_password");
  let! secret <- lift (item values "session_secret");
  let! key <- lift (item values "data_key");
  mret (mkGenerated PRODUCTION (connection_url "leakcheck_runtime" password) secret key [py "*"] true true).
(** The fields' defaults. *)
Definition with_defaults (g : Generated) : Settings :=
  mkSettings (gen_environment g) (gen_database_url g) (gen_session_secret g) (60 * 60) (12 * 60 * 60) 5 (15 * 60) 10 (15 * 60) (15 * 60)
    (gen_data_key g) (gen_trusted_hosts g) (gen_allow_unconfigured_hosts g) (gen_run_inprocess_worker g).

(** pydantic-settings: the text of [.env] in the working directory, and the values of the fields from what is
    given, the environment, that file and the defaults. *)
Class SettingsSource := {
  env_file : option pystr;
  settings_values : gmap string pystr -> option Generated -> result Settings;
}.
(** What is given comes first; an environment without a name in LC_ - whatever the case of its letters - and
    no [.env] say nothing, so the rest has its defaults. *)
Definition no_settings (environ : gmap string pystr) : Prop :=
  forall name, is_Some (environ !! name) -> startswith (lower (py name)) (py "lc_") = false.
Class SettingsSourceLaws `{SettingsSource} : Prop :=
  given_values : forall environ g, env_file = None -> no_settings environ -> settings_values environ (Some g) = Ok (with_defaults g).
Context `{SettingsSource}.

Definition get_settings : Sys Settings :=
  let! h <- get_host;
  match h_cached h with
  | Some s => mret s
  | None =>
      let! available <- bootstrap_secrets_available;
      let! s <- (if available then let! g <- runtime_settings; lift (try! s <- settings_values (h_environ h) (Some g); validate_settings s)
                 else lift (try! s <- settings_values (h_environ h) None; validate_settings s));
      do! set_cached s; mret s
  end.

(** *** Migrations *)

(** The database server: which attempt is answered, how long one takes, how much longer than asked a sleep is;
    the role a connection gets; the name of the database; and the effect of SQL that is not the migrations'. *)
Class Postgres := {
  probe_at : nat -> pystr -> result unit;
  probe_lasts : nat -> Z;
  oversleep : nat -> Z;
  connect : pystr -> Database -> result string;
  superuser_password : pystr;
  database_name : pystr;
  other_sql : pystr -> Mig unit;
}.
Context `{Postgres}.
(** The password a role signs in with. *)
Definition password_of (d : Database) (user : string) : option pystr :=
  if bool_decide (user = "postgres"%string) then Some superuser_password
  else match db_roles d !! user with Some role => if r_login role then Some (r_password role) else None | None => None end.
Class PostgresLaws : Prop := {
  probe_lasts_nonneg : forall n, 0 <= probe_lasts n;
  oversleep_nonneg : forall n, 0 <= oversleep n;
  database_name_ok : identifier database_name = true;
  connect_login : forall user password d, user ∈ ["postgres"; "leakcheck_migrator"; "leakcheck_runtime"]%string ->
    forallb b64url_char password = true -> password_of d user = Some password -> connect (connection_url user password) d = Ok user;
}.

Definition migration_environment (role : string) : Sys (list (string * pystr)) :=
  let! values <- load_bootstrap_secrets;
  let! login <- (if bool_decide (role = "bootstrap"%string) then let! p <- lift (item values "postgres_password"); mret ("postgres"%string, p)
                 else if bool_decide (role = "migrate"%string) then let! p <- lift (item values "migrator_password"); mret ("leakcheck_migrator"%string, p)
                 else raise RuntimeError);
  let environment := [("LC_MIGRATION_DATABASE_URL"%string, connection_url login.1 login.2)] in
  if bool_decide (role = "bootstrap"%string) then
    let! m <- lift (item values "migrator_password");
    let! r <- lift (item values "runtime_password");
    mret (environment ++ [("LC_MIGRATOR_DB_PASSWORD"%string, m); ("LC_RUNTIME_DB_PASSWORD"%string, r)])
  else mret environment.

(** A migration over the connection of the environment's URL. *)
Definition over_connection (c : gmap string pystr -> instant -> Mig unit) : Sys unit :=
  let! h <- get_host;
  let! url <- lift (migration_url (h_environ h));
  let! user <- lift (connect url (h_database h));
  let '(r, d) := c (h_environ h) (h_clock h) (set_db_user user (h_database h)) in
  do! set_database d; lift r.
Definition run_migration (role : string) : Sys unit :=
  let! environment <- migration_environment role;
  do! set_environ (fun environ => list_to_map environment ∪ environ);
  finally (if bool_decide (role = "bootstrap"%string)
           then over_connection (fun environ now => bootstrap_database environ database_name other_sql now)
           else over_connection (fun environ now => upgrade environ database_name other_sql now None))
          (set_environ (fun environ => foldr (fun kv => delete kv.1) environ environment)).

(** *** Waiting for the database *)

(** SQLAlchemyError, OSError and their subclasses. *)
Definition UNREACHABLE : list exn :=
  [OSError; gaierror; FileNotFoundError; PermissionError; OtherException "ConnectionRefusedError"; OtherException "ConnectionResetError";
   OtherException "TimeoutError"; OtherException "OperationalError"; OtherException "InterfaceError"; OtherException "DBAPIError";
   ProgrammingError; IntegrityError; NoResultFound].
Definition unreachable (e : exn) : bool := bool_decide (e ∈ UNREACHABLE).
Definition DATABASE_WAIT : Z := 180 * 1000000.
Definition DATABASE_RETRY : Z := 3 * 1000000.

Definition probe (url : pystr) : Sys unit := fun h =>
  (probe_at (h_attempts h) url,
   mkHost (h_place h) (h_past h) (h_space h) (h_draws h) (h_environ h) (h_clock h + probe_lasts (h_attempts h)) (S (h_attempts h)) (h_database h) (h_cached h) (h_served h) (h_output h)).
Definition sleep (dt : Z) : Sys unit := let! h <- get_host; advance (dt + oversleep (h_attempts h)).
(** One turn of the loop: whether the database has answered. *)
Definition wait_once (url : pystr) (deadline : Z) (attempt : Z) : Sys bool :=
  try_except
    (do! probe url;
     do! (if 1 <? attempt then print_line (py "database reachable after " ++ str_int attempt ++ py " attempts") else mret tt);
     mret true)
    unreachable
    (fun e =>
      let! h <- get_host;
      if deadline <=? h_clock h then raise SystemExit
      else
        do! print_line (py "waiting for the database (" ++ exn_name e ++ py "); retrying in 3.0s");
        do! sleep DATABASE_RETRY; mret false).
(** The loop, for as many attempts as the fuel; [None]: the fuel ran out. *)
Fixpoint wait_loop (fuel : nat) (url : pystr) (deadline : Z) (attempt : Z) : Sys (option unit) :=
  match fuel with
  | O => mret None
  | S fuel =>
      let attempt := attempt + 1 in
      let! answered <- wait_once url deadline attempt;
      if (answered : bool) then mret (Some tt) else wait_loop fuel url deadline attempt
  end.
Definition WAIT_ATTEMPTS : nat := 61.
Definition wait_for_database : Sys (option unit) :=
  let! values <- load_bootstrap_secrets;
  let! password <- lift (item values "postgres_password");
  let! h <- get_host;
  wait_loop WAIT_ATTEMPTS (connection_url "postgres" password) (h_clock h + DATABASE_WAIT) 0.

(** *** The commands *)

(** [uvicorn.run("app.main:create_app", factory=True, ...)]: the application is made with the settings. *)
Definition run_application : Sys unit := let! s <- get_settings; add_served s.
Definition serve : Sys unit :=
  let! answered <- wait_for_database;
  match answered with
  | Some _ => do! run_migration "bootstrap"; do! run_migration "migrate"; run_application
  | None => raise RuntimeError
  end.
Definition main (arguments : list string) : Sys unit :=
  let action := match arguments with [action] => action | _ => ""%string end in
  if bool_decide (action = "init"%string) then initialize_bootstrap_secrets
  else if bool_decide (action ∈ ["bootstrap"; "migrate"]%string) then run_migration action
  else if bool_decide (action = "serve"%string) then serve
  else raise SystemExit.
End Secrets.
