(* ===== verification/Deployment.v ===== *)
(** What the zero-input deployment promises: generated secrets are written once and read back, the wait for
    the database ends, privileged credentials do not outlive a migration, and a first start reaches a served
    application over a database in its final schema. *)
From S2P Require Import Prelude PyBase Encoding Hashes Json Models Config Session OAuth Schema Migrations ModelSchema SchemaContract Store BootstrapSecrets.

(** The names of the secret files. *)
Definition secret_files : list string := SECRET_FILES.*2.

(** [p] still has all that [p0] had, unchanged, and nothing new but secret files. *)
Definition grown (p0 p : Place) : Prop :=
  (forall file e, entries_of p0 !! file = Some e -> entries_of p !! file = Some e)
  /\ (forall file, entries_of p0 !! file = None -> is_Some (entries_of p !! file) -> file ∈ secret_files).
(** ... now and at every moment since the observations began. *)
Definition always_grown (p0 : Place) (h : Host) : Prop := Forall (grown p0) (h_place h :: h_past h).
(** Observations begin. *)
Definition observed (h : Host) : Host :=
  mkHost (h_place h) [] (h_space h) (h_draws h) (h_environ h) (h_clock h) (h_attempts h) (h_database h) (h_cached h) (h_served h) (h_output h).

(** What initialization leaves alone. *)
Definition rest (h : Host) := (h_environ h, h_clock h, h_attempts h, (h_database h, h_cached h, h_served h, h_output h)).

(** The keys that a migration step adds to the environment. *)
Definition privileged_keys (role : string) : list string :=
  if bool_decide (role = "bootstrap"%string)
  then ["LC_MIGRATION_DATABASE_URL"; "LC_MIGRATOR_DB_PASSWORD"; "LC_RUNTIME_DB_PASSWORD"]%string
  else ["LC_MIGRATION_DATABASE_URL"%string].

(** ** Lemmas: files *)

Lemma grown_refl p : grown p p.
Proof. split; [done|]. intros file Hn [e He]. congruence. Qed.
Lemma always_grown_place p0 p h : always_grown p0 h -> grown p0 p -> always_grown p0 (set_place p h).2.
Proof. intros Hh Hp. by constructor. Qed.

(** A change of a file that was not there before. *)
Lemma grown_set p0 d file e : grown p0 (Folder d) -> entries_of p0 !! file = None -> file ∈ secret_files ->
  grown p0 (Folder (mkDirectory (<[file := e]> (d_entries d)) (d_writable d) (d_owned d) (d_mode d))).
Proof.
  intros [Hk Hn] Hnone Hin. split; cbn.
  - intros f e' He. rewrite lookup_insert_ne; [by apply Hk|]. intros ->. congruence.
  - intros f Hf. destruct (decide (file = f)) as [->|]; [done|]. rewrite lookup_insert_ne by done. by apply Hn.
Qed.

Lemma holds_set_entry p0 file e : entries_of p0 !! file = None -> file ∈ secret_files ->
  holds (always_grown p0) (set_entry file e) (fun _ => True).
Proof.
  intros Hn Hin h Hh. unfold set_entry, mbind, get_host. destruct (h_place h) as [| |d] eqn:E; [done|done|].
  split; [|done]. apply always_grown_place; [done|]. apply grown_set; [|done|done].
  rewrite <- E. by inversion Hh.
Qed.
Lemma holds_entry p0 file : holds (always_grown p0) (entry file) (fun _ => True).
Proof. by intros h Hh. Qed.
Lemma holds_same {A} p0 (c : Sys A) : (forall h, h_place (c h).2 = h_place h /\ h_past (c h).2 = h_past h) -> holds (always_grown p0) c (fun _ => True).
Proof. intros Hc h Hh. destruct (Hc h) as [Hp Hq]. split; [|done]. unfold always_grown. by rewrite Hp, Hq. Qed.

Section SecretLemmas.
Context `{UnicodeLaws} `{EntropyLaws}.
Variable umask : Z.

Lemma holds_write p0 file content : entries_of p0 !! file = None -> file ∈ secret_files ->
  holds (always_grown p0) (write_file file content) (fun _ => True).
Proof using Type.
  intros Hn Hin. unfold write_file. apply (holds_bind _ _ _ (fun _ => True)); [by apply holds_same|]. intros h _.
  destruct (_ =? 0)%nat; [apply holds_raise|]. apply (holds_bind _ _ _ (fun _ => True)); [by apply holds_same|]. intros _ _.
  apply (holds_bind _ _ _ (fun _ => True)); [apply holds_entry|]. intros [[]|] _; try apply holds_raise. by apply holds_set_entry.
Qed.
Lemma holds_chmod p0 file mode : entries_of p0 !! file = None -> file ∈ secret_files ->
  holds (always_grown p0) (chmod file mode) (fun _ => True).
Proof using Type.
  intros Hn Hin. unfold chmod. apply (holds_bind _ _ _ (fun _ => True)); [apply holds_entry|].
  intros [[]|] _; [by apply holds_set_entry|by apply holds_mret|apply holds_raise].
Qed.

(** A file is opened as a new one only when it was not there at the beginning. *)
Lemma open_new_fresh p0 file h : always_grown p0 h -> (open_new umask file h).1 = Ok tt -> entries_of p0 !! file = None.
Proof using Type.
  intros Hh. inversion Hh as [|p l [Hk _] Hl]; subst. unfold open_new, mbind, entry.
  destruct (entries_of (h_place h) !! file) eqn:E; [done|]. intros _. destruct (entries_of p0 !! file) as [e|] eqn:E0; [|done].
  apply Hk in E0. congruence.
Qed.
Lemma holds_open p0 file : file ∈ secret_files -> holds (always_grown p0) (open_new umask file) (fun _ => entries_of p0 !! file = None).
Proof using Type.
  intros Hin h Hh. split; [|intros [] Ho; by apply (open_new_fresh _ _ h)].
  unfold open_new, mbind, entry. destruct (entries_of (h_place h) !! file) eqn:E; [done|].
  apply (holds_set_entry p0); [|done|done]. destruct (entries_of p0 !! file) as [e|] eqn:E0; [|done].
  inversion Hh as [|p l [Hk _] Hl]; subst. apply Hk in E0. congruence.
Qed.
Lemma holds_read p0 file : holds (always_grown p0) (read_secret file) (fun _ => True).
Proof using Type. intros h Hh. by split. Qed.

Lemma holds_ensure p0 secret : secret.2 ∈ secret_files -> holds (always_grown p0) (ensure_secret umask secret) (fun _ => True).
Proof using Type.
  destruct secret as [name file]. cbn. intros Hin.
  apply (holds_bind _ _ _ (fun created => created = true -> entries_of p0 !! file = None)).
  - apply holds_try; [|intros e; by apply holds_mret]. eapply holds_bind; [by apply holds_open|]. intros [] Hn. by apply holds_mret.
  - intros [] Hn.
    + apply (holds_bind _ _ _ (fun _ => True)); [|intros ? _; by apply holds_chmod; auto].
      apply (holds_bind _ _ _ (fun _ => True)); [by apply holds_same|]. intros value _.
      apply (holds_bind _ _ _ (fun _ => True)); [by apply holds_same|]. intros encoded _. by apply holds_write; auto.
    + apply (holds_bind _ _ _ (fun _ => True)); [apply holds_read|]. intros _ _. by apply holds_mret.
Qed.
Lemma holds_mfor {A} p0 (f : A -> Sys unit) l : (forall x, x ∈ l -> holds (always_grown p0) (f x) (fun _ => True)) ->
  holds (always_grown p0) (mfor f l) (fun _ => True).
Proof using Type.
  induction l as [|x l IH]; intros Hf; cbn [mfor]; [by apply holds_mret|].
  apply (holds_bind _ _ _ (fun _ => True)); [apply Hf; left|]. intros y _.
  apply (holds_bind _ _ _ (fun _ => True)); [apply IH; intros z Hz; apply Hf; by right|]. intros ys _. by apply holds_mret.
Qed.
Lemma holds_prepare p0 : holds (always_grown p0) (prepare_directory umask) (fun _ => True).
Proof using Type.
  intros h Hh. pose proof Hh as Hh'. inversion Hh as [|p l Hg Hl]; subst. unfold prepare_directory, make_directory, mbind, get_host.
  destruct (h_place h) as [[]| |d] eqn:E; cbn -[owner_writes]; [|by split|by split|].
  - assert (Hd : forall w o m, grown p0 (Folder (mkDirectory ∅ w o m))).
    { intros w o m. destruct Hg as [Hk Hn]. split; cbn; [intros f e He; by apply Hk in He|]. intros f _ [e He]. done. }
    destruct (owner_writes _); (split; [|done]); cbn -[owner_writes].
    + by repeat (constructor; [first [apply Hd|done]|]).
    + by repeat (constructor; [first [apply Hd|done]|]).
  - rewrite E. destruct (d_writable d); cbn -[owner_writes]; [|by split]. destruct (d_owned d); [|by split]. split; [|done].
    apply always_grown_place; [done|]. destruct Hg as [Hk Hn]. by split.
Qed.

Lemma holds_initialize p0 : holds (always_grown p0) (initialize_bootstrap_secrets umask) (fun _ => True).
Proof using Type.
  unfold initialize_bootstrap_secrets. apply (holds_bind _ _ _ (fun _ => True)); [apply holds_prepare|]. intros _ _.
  apply (holds_bind _ _ _ (fun _ => True)); [|intros _ _; by apply holds_mret].
  apply holds_mfor. intros secret Hin. apply holds_ensure. unfold secret_files. by apply list_elem_of_fmap_2.
Qed.
End SecretLemmas.

(** ** Lemmas: the generated values *)

Lemma hex_url octets : Forall (fun x => 0 <= x < 256) octets -> forallb b64url_char (hex octets) = true.
Proof.
  induction 1 as [|x l Hx _ IH]; [done|]. unfold hex. cbn [flat_map app]. fold (hex l). cbn [forallb].
  assert (Hd : forall d, 0 <= d < 16 -> b64url_char (hex_digit d) = true).
  { intros d Hd. unfold hex_digit, b64url_char, ascii_alnum, ascii_alpha, ascii_upper, ascii_lowerc, ascii_digit.
    destruct (d <? 10) eqn:E; bools; lia. }
  rewrite IH, !Hd; [done| |]; Z.div_mod_to_equations; lia.
Qed.

Lemma base64url_length octets : Forall (fun x => 0 <= x < 256) octets -> length octets = 32%nat -> length (base64url octets) = 43%nat.
Proof.
  intros Hr Hl. destruct (b64encode_shape _ Hr) as (t&k&E&Ht&Hk&Hlen&Hm). unfold base64url. rewrite E, b64url_strip by done.
  rewrite Hl in *. assert (E34 : ((32 + 2) / 3 = 11)%nat) by reflexivity. rewrite E34 in Hlen.
  destruct k as [|[|[|k]]]; cbn in Hm; lia.
Qed.

(** A value of letters, digits, dashes and underscores with a newline after it is read back without it. *)
Lemma url_char_cases c : b64url_char c = true -> is_ascii c = true /\ c <> 10 /\ c <> 13 /\ ascii_space c = false.
Proof.
  unfold b64url_char, ascii_alnum, ascii_alpha, ascii_upper, ascii_lowerc, ascii_digit, is_ascii, ascii_space.
  intros Hc. split_and!; lia.
Qed.
Lemma newlines_plain s : Forall (fun c => c <> 13) s -> universal_newlines s = s.
Proof. induction 1 as [|c s Hc _ IH]; [done|]. cbn. destruct (c =? 13) eqn:E; [by apply Z.eqb_eq in E|]. by rewrite IH. Qed.

(** The value of a fresh draw. *)
Definition fresh_value `{Entropy} (name : string) (draw : nat) : pystr :=
  if bool_decide (name = "data_key"%string) then base64url (octets_at draw 32) else hex (octets_at draw 32).
Lemma fresh_value_shape `{EntropyLaws} name draw :
  forallb b64url_char (fresh_value name draw) = true /\ (32 <= length (fresh_value name draw) <= 64)%nat.
Proof.
  pose proof (octets_at_range draw 32) as Hr. pose proof (octets_at_length draw 32) as Hl. unfold fresh_value.
  destruct (bool_decide _).
  - split; [by apply base64url_shape|]. rewrite base64url_length by done. lia.
  - split; [by apply hex_url|]. rewrite length_hex, Hl. lia.
Qed.

Section Reading.
Context `{UnicodeLaws}.
Lemma url_char_space c : b64url_char c = true -> isspace c = false.
Proof using Type*. intros Hc. apply url_char_cases in Hc as (Ha&_&_&Hs). by rewrite isspace_ascii. Qed.
Lemma strip_line value : forallb b64url_char value = true -> strip (value ++ [10]) = value.
Proof using Type*.
  intros Hv. assert (Hsp : Forall (fun c => isspace c = false) value).
  { apply forallb_Forall in Hv. eapply Forall_impl; [exact Hv|]. intros c. apply url_char_space. }
  assert (Hr : rstrip (value ++ [10]) = value).
  { unfold rstrip, rstrip_by. rewrite rev_app_distr. cbn [rev app lstrip_by]. rewrite isspace_ascii by done. cbn [ascii_space].
    change (rev (lstrip_by isspace (rev value)) = value). apply (rstrip_by_fixed isspace). intros c t ->.
    apply Forall_app in Hsp as [_ Hc]. by inversion Hc. }
  unfold strip. destruct value as [|c t].
  - cbn. rewrite isspace_ascii by done. done.
  - replace (lstrip ((c :: t) ++ [10])) with ((c :: t) ++ [10]); [done|]. symmetry. apply lstrip_by_fixed.
    intros c' t' [= <- _]. by inversion Hsp.
Qed.
Lemma secret_of_line value mode : forallb b64url_char value = true -> (32 <= length value)%nat ->
  secret_of (Some (Regular (value ++ [10]) mode true)) = Ok value.
Proof using Type*.
  intros Hv Hl. pose proof Hv as Hf. apply forallb_Forall in Hf.
  assert (Ha : isascii (value ++ [10]) = true) by (unfold isascii; rewrite forallb_app; fold (isascii value); by rewrite (b64url_ascii value Hv)).
  unfold secret_of, ascii_decode. rewrite Ha. cbn [rbind].
  rewrite newlines_plain.
  - rewrite strip_line by done. replace (length value <? 32)%nat with false by (symmetry; apply Nat.ltb_ge; lia).
    assert (Hn : forall c, c ∈ value -> c <> 10 /\ c <> 13).
    { intros c Hc. rewrite Forall_forall in Hf. by apply Hf, url_char_cases in Hc as (_&?&?&_). }
    rewrite !bool_decide_false by (intros Hin; by apply Hn in Hin as [? ?]). done.
  - apply Forall_app. split; [|by repeat constructor]. eapply Forall_impl; [exact Hf|]. intros c Hc. by apply url_char_cases in Hc as (_&_&?&_).
Qed.
End Reading.

(** ** Lemmas: one secret *)

Definition with_entry (file : string) (e : Entry) (d : Directory) : Directory :=
  mkDirectory (<[file := e]> (d_entries d)) (d_writable d) (d_owned d) (d_mode d).
Lemma set_entry_run file e h d : h_place h = Folder d -> set_entry file e h = set_place (Folder (with_entry file e d)) h.
Proof. intros Hd. unfold set_entry, mbind, get_host. by rewrite Hd. Qed.
Lemma entry_run file h d : h_place h = Folder d -> entry file h = (Ok (d_entries d !! file), h).
Proof. intros Hd. unfold entry. by rewrite Hd. Qed.
Lemma with_entry_twice file e e' d : with_entry file e (with_entry file e' d) = with_entry file e d.
Proof. unfold with_entry. cbn. by rewrite insert_insert_eq. Qed.
Lemma with_entry_at file e d : d_entries (with_entry file e d) !! file = Some e.
Proof. cbn. by rewrite lookup_insert_eq. Qed.

Section OneSecret.
Context `{UnicodeLaws} `{EntropyLaws}.
Variable umask : Z.

Definition has_secret (d : Directory) (file : string) : Prop := exists v, secret_of (d_entries d !! file) = Ok v.
(** The file is there and valid, or is not there. *)
Definition file_ok (d : Directory) (file : string) : Prop := d_entries d !! file = None \/ has_secret d file.
(** A generated file: its value on a line, readable by everyone. *)
Definition generated (name : string) (draw : nat) : Entry := Regular (fresh_value name draw ++ [10]) MODE_0444 true.

Lemma generated_secret name draw : secret_of (Some (generated name draw)) = Ok (fresh_value name draw).
Proof using Type*. destruct (fresh_value_shape name draw) as [Hc Hl]. by apply secret_of_line; [|lia]. Qed.

(** The steps after the file has been opened. *)
Lemma fill_run name file h d r : h_place h = Folder d -> d_entries d !! file = Some (Regular [] r (owner_reads r)) -> (65 <= h_space h)%nat ->
  exists h1, (do! (let! value <- new_secret name; let! encoded <- lift (ascii_encode (value ++ [10])); write_file file encoded); chmod file MODE_0444) h
             = (Ok tt, h1)
    /\ h_place h1 = Folder (with_entry file (generated name (h_draws h)) d) /\ (h_space h <= h_space h1 + 65)%nat /\ rest h1 = rest h.
Proof using Type*.
  intros Hd He Hs. destruct (fresh_value_shape name (h_draws h)) as [Hc Hl]. set (value := fresh_value name (h_draws h)) in *.
  set (ha := (random_octets 32 h).2).
  assert (Ea : new_secret name h = (Ok value, ha)) by reflexivity.
  assert (Eb : ascii_encode (value ++ [10]) = Ok (value ++ [10])).
  { unfold ascii_encode, isascii. rewrite forallb_app. fold (isascii value). by rewrite (b64url_ascii value Hc). }
  assert (Hlen : length (value ++ [10]) = S (length value)) by (rewrite length_app; cbn; lia).
  set (hb := (set_space (h_space h - S (length value)) ha).2).
  set (d1 := with_entry file (Regular (value ++ [10]) r (owner_reads r)) d).
  assert (Ew : write_file file (value ++ [10]) ha = (Ok tt, (set_place (Folder d1) hb).2)).
  { unfold write_file. rewrite (mbind_ok get_host _ ha ha ha) by reflexivity. rewrite Hlen.
    assert (Hmin : Nat.min (S (length value)) (h_space ha) = S (length value)) by (change (h_space ha) with (h_space h); lia).
    rewrite Hmin. cbn [Nat.eqb]. rewrite (mbind_ok _ _ ha tt hb) by reflexivity.
    rewrite (mbind_ok _ _ _ _ _ (entry_run file hb d Hd)), He.
    rewrite (set_entry_run file _ hb d Hd). rewrite take_ge by lia. reflexivity. }
  set (hc := (set_place (Folder d1) hb).2) in *.
  exists (set_place (Folder (with_entry file (generated name (h_draws h)) d)) hc).2. split_and!.
  - erewrite mbind_ok; [|rewrite (mbind_ok _ _ _ _ _ Ea), (mbind_ok _ _ ha _ ha (f_equal (fun r => (r, ha)) Eb)); exact Ew].
    unfold chmod. rewrite (mbind_ok _ _ _ _ _ (entry_run file hc d1 eq_refl)). unfold d1 at 1. rewrite with_entry_at.
    rewrite (set_entry_run file _ hc d1 eq_refl). unfold d1. rewrite with_entry_twice. reflexivity.
  - reflexivity.
  - cbn. lia.
  - reflexivity.
Qed.

Lemma ensure_new_run name file h d : h_place h = Folder d -> d_entries d !! file = None -> (65 <= h_space h)%nat ->
  exists h1, ensure_secret umask (name, file) h = (Ok tt, h1)
    /\ h_place h1 = Folder (with_entry file (generated name (h_draws h)) d) /\ (h_space h <= h_space h1 + 65)%nat /\ rest h1 = rest h.
Proof using Type*.
  intros Hd He Hs. set (mode := Z.ldiff MODE_0400 umask). set (d1 := with_entry file (Regular [] mode (owner_reads mode)) d).
  set (ha := (set_place (Folder d1) h).2).
  assert (Eo : try_except (do! open_new umask file; mret true) (fun e => bool_decide (e = FileExistsError)) (fun _ => mret false) h = (Ok true, ha)).
  { unfold try_except, mbind, open_new. unfold mbind. rewrite (entry_run file h d Hd), He. rewrite (set_entry_run file _ h d Hd). reflexivity. }
  destruct (fill_run name file ha d1 mode eq_refl (with_entry_at _ _ _) Hs) as (h1&Ef&Hp&Hsp&Hr).
  exists h1. unfold ensure_secret. rewrite (mbind_ok _ _ _ _ _ Eo). split; [exact Ef|]. split; [|done].
  rewrite Hp. unfold d1. by rewrite with_entry_twice.
Qed.

Lemma ensure_old_run name file h d v : h_place h = Folder d -> secret_of (d_entries d !! file) = Ok v ->
  ensure_secret umask (name, file) h = (Ok tt, h).
Proof using Type.
  intros Hd Hv. unfold ensure_secret.
  assert (Eo : try_except (do! open_new umask file; mret true) (fun e => bool_decide (e = FileExistsError)) (fun _ => mret false) h = (Ok false, h)).
  { unfold try_except, mbind, open_new. unfold mbind. rewrite (entry_run file h d Hd). by destruct (d_entries d !! file). }
  rewrite (mbind_ok _ _ _ _ _ Eo).
  assert (Er : read_secret file h = (Ok v, h)) by (unfold read_secret; rewrite (mbind_ok _ _ _ _ _ (entry_run file h d Hd)); by rewrite Hv).
  rewrite (mbind_ok _ _ _ _ _ Er). reflexivity.
Qed.
End OneSecret.

(** ** Lemmas: all secrets *)

Section AllSecrets.
Context `{UnicodeLaws} `{EntropyLaws}.
Variable umask : Z.

(** From [d] to [d1]: what was there stays, the secrets of [l] that were missing are generated, no more. *)
Definition filled (l : list (string * string)) (d d1 : Directory) : Prop :=
  (d_writable d1, d_owned d1, d_mode d1) = (d_writable d, d_owned d, d_mode d)
  /\ (forall file e, d_entries d !! file = Some e -> d_entries d1 !! file = Some e)
  /\ (forall secret, secret ∈ l -> d_entries d !! secret.2 = None -> exists draw, d_entries d1 !! secret.2 = Some (generated secret.1 draw))
  /\ (forall file, file ∉ l.*2 -> d_entries d1 !! file = d_entries d !! file).
Lemma filled_refl d : filled [] d d.
Proof using Type. split_and!; [done|done| |done]. intros secret Hin. by apply elem_of_nil in Hin. Qed.

Lemma filled_old name file l d d1 e : d_entries d !! file = Some e -> filled l d d1 -> filled ((name, file) :: l) d d1.
Proof using Type.
  intros He (Ha&Hk&Hg&Ho). split_and!; [done|done| |].
  - intros secret [->|Hin]%elem_of_cons Hn; [cbn in Hn; congruence|by apply Hg].
  - intros f Hf. apply Ho. intros Hin. apply Hf. by right.
Qed.
Lemma filled_new name file l d d1 draw : d_entries d !! file = None -> file ∉ l.*2 ->
  filled l (with_entry file (generated name draw) d) d1 -> filled ((name, file) :: l) d d1.
Proof using Type.
  intros Hn Hin (Ha&Hk&Hg&Ho). split_and!; [done| | |].
  - intros f e He. apply Hk. cbn. rewrite lookup_insert_ne; [done|]. intros ->. congruence.
  - intros secret [->|Hs]%elem_of_cons Hf; [exists draw; cbn; apply Hk, with_entry_at|]. apply Hg; [done|].
    cbn. rewrite lookup_insert_ne; [done|]. intros ->. apply Hin. by apply list_elem_of_fmap_2.
  - intros f Hf. rewrite fmap_cons, not_elem_of_cons in Hf. destruct Hf as [Hne Hf]. rewrite Ho by done. cbn. by rewrite lookup_insert_ne.
Qed.

Lemma ensure_all_run l : NoDup l.*2 -> forall h d, h_place h = Folder d -> Forall (file_ok d) l.*2 -> (65 * length l <= h_space h)%nat ->
  exists us h1 d1, mfor (ensure_secret umask) l h = (Ok us, h1) /\ h_place h1 = Folder d1 /\ filled l d d1 /\ rest h1 = rest h.
Proof using Type*.
  induction l as [|[name file] l IH]; intros Hnd h d Hd Hok Hs.
  { exists [], h, d. split_and!; [done|done|apply filled_refl|done]. }
  cbn in Hnd, Hok, Hs. apply NoDup_cons in Hnd as [Hin Hnd]. apply Forall_cons in Hok as [Hf Hok].
  assert (Hstep : exists h1 d1, ensure_secret umask (name, file) h = (Ok tt, h1) /\ h_place h1 = Folder d1 /\ (h_space h <= h_space h1 + 65)%nat
    /\ rest h1 = rest h /\ Forall (file_ok d1) l.*2 /\ forall d2, filled l d1 d2 -> filled ((name, file) :: l) d d2).
  { destruct (d_entries d !! file) as [e|] eqn:Ee.
    - destruct Hf as [Hf|[v Hv]]; [congruence|]. exists h, d. split_and!; [by apply (ensure_old_run _ _ _ _ d v)|done|lia|done|done|].
      intros d2. by apply filled_old with e.
    - destruct (ensure_new_run umask name file h d Hd Ee ltac:(lia)) as (h1&Er&Hp&Hsp&Hr).
      exists h1, (with_entry file (generated name (h_draws h)) d). split_and!; [done|done|done|done| |].
      + rewrite Forall_forall in Hok |- *. intros f Hfi. specialize (Hok f Hfi). unfold file_ok, has_secret in *. cbn.
        rewrite lookup_insert_ne; [done|]. by intros ->.
      + intros d2. by apply filled_new. }
  destruct Hstep as (h1&d1&E1&Hp1&Hs1&Hr1&Hok1&Hfill). destruct (IH Hnd h1 d1 Hp1 Hok1 ltac:(lia)) as (us&h2&d2&E2&Hp2&Hf2&Hr2).
  exists (tt :: us), h2, d2. cbn [mfor]. rewrite (mbind_ok _ _ _ _ _ E1), (mbind_ok _ _ _ _ _ E2).
  split_and!; [done|done|by apply Hfill|by rewrite Hr2].
Qed.

(** What initialization needs: a directory to make or to write to, valid secrets where there are any, and
    room for five. *)
Definition ready (h : Host) : Prop :=
  match h_place h with
  | Missing creatable => creatable = true /\ owner_writes (Z.ldiff MODE_0755 umask) = true
  | Occupied => False
  | Folder d => d_writable d = true /\ Forall (file_ok d) secret_files
  end /\ (325 <= h_space h)%nat.
(** The directory as initialization leaves it. *)
Definition settled (d : Directory) : Prop :=
  d_writable d = true /\ (d_owned d = true -> d_mode d = MODE_0755) /\ Forall (has_secret d) secret_files.

Lemma prepare_run h : ready h -> exists h1 d, prepare_directory umask h = (Ok tt, h1) /\ h_place h1 = Folder d
  /\ d_entries d = entries_of (h_place h) /\ d_writable d = true /\ (d_owned d = true -> d_mode d = MODE_0755)
  /\ Forall (file_ok d) secret_files /\ h_space h1 = h_space h /\ rest h1 = rest h.
Proof using Type.
  intros [Hp Hs]. unfold prepare_directory, make_directory, mbind, get_host. destruct (h_place h) as [c| |d] eqn:E; [|done|].
  - destruct Hp as [-> Hw]. cbn -[owner_writes Z.ldiff]. rewrite Hw. cbn.
    eexists _, _. split_and!; [reflexivity|reflexivity|done|done|done| |done|done]. apply Forall_forall. intros f _. by left.
  - destruct Hp as [Hw Hok]. cbn. rewrite E, Hw. cbn. destruct (d_owned d) eqn:Eo.
    + eexists _, _. split_and!; [reflexivity|reflexivity|done|done|done|done|done|done].
    + eexists _, _. split_and!; [reflexivity|exact E|done|done|congruence|done|done|done].
Qed.

Lemma SECRET_FILES_NoDup : NoDup SECRET_FILES.*2.
Proof using Type. apply (bool_decide_unpack _). vm_compute. exact I. Qed.

Lemma filled_secrets l d d1 : Forall (file_ok d) l.*2 -> filled l d d1 -> Forall (has_secret d1) l.*2.
Proof using Type*.
  intros Hok (_&Hk&Hg&_). rewrite Forall_forall in Hok |- *. intros file Hin. apply list_elem_of_fmap in Hin as (secret&->&Hin).
  destruct (Hok secret.2 ltac:(by apply list_elem_of_fmap_2)) as [Hn|[v Hv]].
  - destruct (Hg secret Hin Hn) as [draw Hd]. eexists. rewrite Hd. apply generated_secret.
  - destruct (d_entries d !! secret.2) as [e|] eqn:Ee; [|done]. exists v. by rewrite (Hk _ _ Ee).
Qed.

Lemma initialize_run h : ready h -> exists h1 d0 d1, initialize_bootstrap_secrets umask h = (Ok tt, h1) /\ h_place h1 = Folder d1
  /\ d_entries d0 = entries_of (h_place h) /\ filled SECRET_FILES d0 d1 /\ settled d1 /\ rest h1 = rest h.
Proof using Type*.
  intros Hr. destruct (prepare_run h Hr) as (h1&d&Ep&Hp&He&Hw&Hm&Hok&Hs&Hrest). destruct Hr as [_ Hspace].
  destruct (ensure_all_run SECRET_FILES SECRET_FILES_NoDup h1 d Hp Hok ltac:(rewrite Hs; cbn; lia)) as (us&h2&d2&Ef&Hp2&Hf&Hr2).
  exists h2, d, d2. unfold initialize_bootstrap_secrets. rewrite (mbind_ok _ _ _ _ _ Ep), (mbind_ok _ _ _ _ _ Ef).
  split_and!; [done|done|done|done| |by rewrite Hr2].
  pose proof (filled_secrets _ _ _ Hok Hf) as Hall. destruct Hf as ([= Ha Hb Hc]&_). split_and!; [congruence|intros Ho; rewrite Hc; apply Hm; congruence|done].
Qed.

(** Reading a settled directory back. *)
Lemma load_run h d : h_place h = Folder d -> Forall (has_secret d) secret_files ->
  exists values, load_bootstrap_secrets h = (Ok values, h) /\ values.*1 = SECRET_FILES.*1
    /\ Forall2 (fun secret kv => secret_of (d_entries d !! secret.2) = Ok kv.2) SECRET_FILES values.
Proof using Type.
  intros Hd. unfold load_bootstrap_secrets, secret_files. generalize SECRET_FILES. intros l. induction l as [|[name file] l IH]; intros Hall.
  { exists []. split_and!; done. }
  apply Forall_cons in Hall as [[v Hv] Hall]. destruct (IH Hall) as (values&El&Hn&Hf2). exists ((name, v) :: values). cbn [mfor].
  assert (Er : (let! value <- read_secret (name, file).2; mret ((name, file).1, value)) h = (Ok (name, v), h)).
  { unfold read_secret. rewrite (mbind_ok _ _ h v h); [done|]. cbn [snd] in Hv |- *. rewrite (mbind_ok _ _ _ _ _ (entry_run file h d Hd)). by rewrite Hv. }
  rewrite (mbind_ok _ _ _ _ _ Er), (mbind_ok _ _ _ _ _ El). split_and!; [done| |by constructor]. cbn. by rewrite Hn.
Qed.

(** A second initialization changes nothing. *)
Lemma initialize_again h d : h_place h = Folder d -> settled d ->
  exists h1, initialize_bootstrap_secrets umask h = (Ok tt, h1) /\ h_place h1 = Folder d /\ rest h1 = rest h.
Proof using Type.
  intros Hd (Hw&Hm&Hall).
  assert (Ep : exists h1, prepare_directory umask h = (Ok tt, h1) /\ h_place h1 = Folder d /\ rest h1 = rest h).
  { unfold prepare_directory, make_directory, mbind, get_host. rewrite Hd. cbn. rewrite Hd, Hw. cbn. destruct (d_owned d) eqn:Eo.
    - eexists. split_and!; [reflexivity| |done]. cbn. f_equal. destruct d; cbn in *. by rewrite <- (Hm eq_refl), Eo, Hw.
    - eexists. by split_and!. }
  destruct Ep as (h1&Ep&Hp1&Hr1). exists h1. split_and!; [|done|done].
  unfold initialize_bootstrap_secrets. rewrite (mbind_ok _ _ _ _ _ Ep).
  assert (Em : forall l, Forall (has_secret d) l.*2 -> exists us, mfor (ensure_secret umask) l h1 = (Ok us, h1)).
  { intros l. induction l as [|[name file] l IH]; intros Hl; [by exists []|]. apply Forall_cons in Hl as [[v Hv] Hl].
    destruct (IH Hl) as [us Eu]. exists (tt :: us). cbn [mfor]. by rewrite (mbind_ok _ _ _ _ _ (ensure_old_run umask name file h1 d v Hp1 Hv)), (mbind_ok _ _ _ _ _ Eu). }
  destruct (Em _ Hall) as [us Eu]. by rewrite (mbind_ok _ _ _ _ _ Eu).
Qed.
End AllSecrets.

(** ** Lemmas: the settings of generated secrets *)

Section GeneratedSettings.
Context `{UnicodeLaws} `{EntropyLaws}.

Lemma utf8_url value : forallb b64url_char value = true -> utf8_encode value = Ok value.
Proof using Type. intros Hv. apply utf8_encode_ascii. by apply b64url_ascii. Qed.
Lemma not_known value : forallb b64url_char value = true -> length value ∉ map length KNOWN_PLACEHOLDERS -> casefold value ∉ KNOWN_PLACEHOLDERS.
Proof using Type*.
  intros Hv Hl Hin. apply Hl. rewrite (casefold_ascii value (b64url_ascii value Hv)) in Hin.
  apply list_elem_of_In. rewrite <- (length_map to_lower value). apply List.in_map. by apply list_elem_of_In.
Qed.
Lemma hex_not_r octets : Forall (fun x => 0 <= x < 256) octets -> startswith (hex octets) (py "replace-with-") = false.
Proof using Type.
  destruct 1 as [|x l Hx _]; [done|]. change (startswith (hex_digit (x / 16) :: (hex_digit (x mod 16) :: hex l)) (py "replace-with-") = false).
  cbn [startswith py]. assert (E : (114 =? hex_digit (x / 16)) = false); [|change (py "replace-with-") with (114 :: tail (py "replace-with-")); cbn [startswith]; by rewrite E].
  unfold hex_digit. destruct (x / 16 <? 10) eqn:E; apply Z.eqb_neq; bools; Z.div_mod_to_equations; lia.
Qed.

Lemma session_secret_strong draw :
  session_secret_must_be_strong (fresh_value "session_secret" draw) = Ok (fresh_value "session_secret" draw).
Proof using Type*.
  destruct (fresh_value_shape "session_secret" draw) as [Hc Hl].
  assert (Hlen : length (fresh_value "session_secret" draw) = 64%nat) by (change (length (hex (octets_at draw 32)) = 64%nat); by rewrite length_hex, octets_at_length).
  unfold session_secret_must_be_strong, placeholder. rewrite bool_decide_false.
  - change (startswith (fresh_value "session_secret" draw) (py "replace-with-")) with (startswith (hex (octets_at draw 32)) (py "replace-with-")).
    rewrite (hex_not_r (octets_at draw 32) (octets_at_range draw 32)). cbn [orb].
    rewrite (utf8_url _ Hc). cbn [rbind]. by rewrite Hlen.
  - apply not_known; [done|]. rewrite Hlen. apply (bool_decide_unpack _). vm_compute. exact I.
Qed.

Lemma data_key_valid draw : startswith (base64url (octets_at draw 32)) (py "replace-with-") = false ->
  data_key_must_be_aes_256_key (fresh_value "data_key" draw) = Ok (fresh_value "data_key" draw).
Proof using Type*.
  intros Hp. pose proof (octets_at_range draw 32) as Hr. pose proof (octets_at_length draw 32) as Hl.
  assert (Ev : fresh_value "data_key" draw = base64url (octets_at draw 32)) by reflexivity. rewrite Ev.
  destruct (base64url_shape _ Hr) as (Hc&_&Hpad). pose proof (base64url_length _ Hr Hl) as Hlen.
  unfold data_key_must_be_aes_256_key, placeholder. rewrite bool_decide_false.
  - rewrite Hp. cbn [orb]. rewrite Hpad. destruct (b64encode_shape _ Hr) as (t&k&E&Ht&_).
    assert (Ha : isascii (urlsafe_b64encode (octets_at draw 32)) = true).
    { rewrite E. unfold isascii. rewrite forallb_app. fold (isascii t). rewrite (b64url_ascii t Ht). apply forallb_Forall, Forall_replicate. done. }
    unfold ascii_encode. rewrite Ha. cbn [rbind]. unfold b64decode_strict.
    assert (Es : startswith (urlsafe_b64encode (octets_at draw 32)) [61] = false).
    { rewrite <- Hpad. destruct (base64url (octets_at draw 32)) as [|c u]; [done|]. cbn [forallb] in Hc. apply andb_true_iff in Hc as [Hc _].
      unfold pad_to. cbn [app startswith]. destruct (61 =? c) eqn:E61; [|done]. apply Z.eqb_eq in E61. by subst c. }
    rewrite Es, (a2b_b64encode true _ Hr), Hl. reflexivity.
  - apply not_known; [done|]. rewrite Hlen. apply (bool_decide_unpack _). vm_compute. exact I.
Qed.

(** The settings made of a runtime password, and of generated secrets. *)
Definition deployment_settings (password secret key : pystr) : Settings :=
  with_defaults (mkGenerated PRODUCTION (connection_url "leakcheck_runtime" password) secret key [py "*"] true true).
Lemma deployment_settings_valid password i j : startswith (base64url (octets_at j 32)) (py "replace-with-") = false ->
  validate_settings (deployment_settings password (fresh_value "session_secret" i) (fresh_value "data_key" j))
  = Ok (deployment_settings password (fresh_value "session_secret" i) (fresh_value "data_key" j)).
Proof using Type*.
  intros Hp. set (s := fresh_value "session_secret" i). set (k := fresh_value "data_key" j).
  unfold validate_settings. change (Config.database_url (deployment_settings password s k)) with (connection_url "leakcheck_runtime" password).
  change (session_secret (deployment_settings password s k)) with s. change (data_key (deployment_settings password s k)) with k.
  assert (Eu : database_url_must_be_async_postgres (connection_url "leakcheck_runtime" password) = Ok (connection_url "leakcheck_runtime" password)) by reflexivity.
  rewrite Eu. cbn [rbind]. unfold s, k. rewrite session_secret_strong. cbn [rbind].
  assert (El : limits_ok (deployment_settings password (fresh_value "session_secret" i) (fresh_value "data_key" j)) = true) by reflexivity.
  rewrite El. cbn [guard_or rbind]. rewrite (data_key_valid j Hp). reflexivity.
Qed.
End GeneratedSettings.

(** ** Lemmas: the wait for the database *)

Section Waiting.
Context `{Unicode} `{PostgresLaws}.

(** What the wait can change: the clock, the count of attempts and the output. *)
Definition untouched (h : Host) := (h_place h, h_past h, h_space h, (h_draws h, h_environ h, h_database h, h_cached h, h_served h)).

Lemma wait_once_spec url deadline attempt h : exists r h1, wait_once url deadline attempt h = (r, h1)
  /\ h_attempts h1 = S (h_attempts h) /\ untouched h1 = untouched h
  /\ match r with
     | Ok true => probe_at (h_attempts h) url = Ok tt
     | Ok false => h_clock h < deadline /\ h_clock h + DATABASE_RETRY <= h_clock h1
     | Raise x => x = SystemExit /\ deadline <= h_clock h1 \/ unreachable x = false /\ probe_at (h_attempts h) url = Raise x
     end.
Proof using Type*.
  pose proof (probe_lasts_nonneg (h_attempts h)) as Hl. pose proof (oversleep_nonneg (S (h_attempts h))) as Ho.
  unfold wait_once, try_except, mbind, probe, get_host. destruct (probe_at (h_attempts h) url) as [[]|x] eqn:Ee.
  - destruct (1 <? attempt); eexists _, _; split_and!; try reflexivity.
  - destruct (unreachable x) eqn:Ex; cbn [h_clock].
    + destruct (deadline <=? h_clock h + probe_lasts (h_attempts h)) eqn:Ed; (eexists _, _; split; [reflexivity|]; split; [reflexivity|]; split; [reflexivity|]).
      * left. split; [done|]. by apply Z.leb_le.
      * apply Z.leb_gt in Ed. cbn. split; lia.
    + eexists _, _; split; [reflexivity|]; split; [reflexivity|]; split; [reflexivity|]. by right.
Qed.

(** Enough fuel: what is left of the time divided by the pause, and one more. *)
Lemma wait_ends fuel url deadline : forall attempt h, deadline <= h_clock h + DATABASE_RETRY * Z.of_nat fuel ->
  exists r h', (forall k, wait_loop (S fuel + k) url deadline attempt h = (r, h')) /\ r <> Ok None
    /\ (h_attempts h' <= h_attempts h + S fuel)%nat /\ untouched h' = untouched h
    /\ (r = Ok (Some tt) -> exists n, h_attempts h' = S n /\ probe_at n url = Ok tt)
    /\ (forall x, r = Raise x -> x = SystemExit /\ deadline <= h_clock h'
         \/ unreachable x = false /\ exists n, h_attempts h' = S n /\ probe_at n url = Raise x).
Proof using Type*.
  induction fuel as [|fuel IH]; intros attempt h Hd; destruct (wait_once_spec url deadline (attempt + 1) h) as (r&h1&E&Ha&Hu&Hr).
  all: destruct r as [[]|x];
    [exists (Ok (Some tt)), h1; split_and!; [intros k; cbn [wait_loop Nat.add]; by rewrite (mbind_ok _ _ _ _ _ E)|done|lia|done|intros _; by exists (h_attempts h)|done]
    | |exists (Raise x), h1; split_and!; [intros k; cbn [wait_loop Nat.add]; by apply mbind_raise|done|lia|done|done|intros y [= <-]];
       destruct Hr as [Hr|[Hx Hp]]; [by left|right; split; [done|by exists (h_attempts h)]]].
  - lia.
  - destruct Hr as [_ Hc]. destruct (IH (attempt + 1) h1 ltac:(unfold DATABASE_RETRY in *; lia)) as (r&h'&El&Hn&Hat&Hu'&Hok&Hex).
    exists r, h'. split_and!; [|done|lia|by rewrite Hu'|done|done].
    intros k. change (S (S fuel) + k)%nat with (S (S fuel + k)). cbn [wait_loop]. rewrite (mbind_ok _ _ _ _ _ E). apply El.
Qed.
End Waiting.

(** ** Lemmas: migrations *)

Lemma delete_all_spec (environment : list (string * pystr)) (m : gmap string pystr) key :
  foldr (fun kv => delete kv.1) m environment !! key = if bool_decide (key ∈ environment.*1) then None else m !! key.
Proof.
  induction environment as [|kv l IH]; [done|]. cbn [foldr]. destruct (decide (kv.1 = key)) as [<-|Hne].
  - rewrite lookup_delete_eq, bool_decide_true; [done|]. by left.
  - rewrite lookup_delete_ne by done. rewrite IH.
    rewrite (bool_decide_ext (key ∈ (kv :: l).*1) (key ∈ l.*1)); [done|]. rewrite fmap_cons, elem_of_cons.
    split; [intros [E|?]; [congruence|done]|by right].
Qed.

(** A computation that only looks. *)
Definition reads {A} (c : Sys A) : Prop := forall h, (c h).2 = h.
Lemma reads_bind {A B} (c : Sys A) (k : A -> Sys B) : reads c -> (forall a, reads (k a)) -> reads (mbind c k).
Proof. intros Hc Hk h. specialize (Hc h). unfold mbind. destruct (c h) as [[a|e] h1]; cbn in *; [rewrite Hk|]; done. Qed.
Lemma reads_mfor {A B} (f : A -> Sys B) l : (forall x, reads (f x)) -> reads (mfor f l).
Proof.
  intros Hf. induction l as [|x l IH]; [done|]. cbn [mfor]. apply reads_bind; [done|]. intros y. by apply reads_bind.
Qed.

Lemma mfor_elsewhere {A B} (f : A -> Sys B) l h h' : (forall x, f x h' = ((f x h).1, h')) -> (forall x, (f x h).2 = h) ->
  mfor f l h' = ((mfor f l h).1, h').
Proof.
  intros Hf Hr. induction l as [|x l IH]; [done|]. cbn [mfor]. unfold mbind. rewrite Hf. specialize (Hr x).
  destruct (f x h) as [[v|e] h1]; [|done]. cbn in Hr |- *. subst h1. rewrite IH. by destruct (mfor f l h) as [[vs|e] h1].
Qed.

Section MigrationLemmas.
Context `{Unicode} `{Postgres}.

Lemma reads_load : reads load_bootstrap_secrets.
Proof using Type. apply reads_mfor. intros secret. by apply reads_bind. Qed.
Lemma reads_environment role : reads (migration_environment role).
Proof using Type.
  apply reads_bind; [apply reads_load|]. intros values. apply reads_bind.
  - destruct (bool_decide _); [by apply reads_bind|]. destruct (bool_decide _); [by apply reads_bind|done].
  - intros login. destruct (bool_decide _); [|done]. apply reads_bind; [done|]. intros m. by apply reads_bind.
Qed.
Lemma environment_keys role h environment h' : migration_environment role h = (Ok environment, h') -> environment.*1 = privileged_keys role.
Proof using Type.
  unfold migration_environment, privileged_keys. intros (values&h1&_&E)%mbind_inv. apply mbind_inv in E as (login&h2&_&E).
  destruct (bool_decide (role = "bootstrap"%string)); [|by injection E as <- _].
  apply mbind_inv in E as (m&h3&_&E). apply mbind_inv in E as (r&h4&_&E). by injection E as <- _.
Qed.
Lemma over_connection_environ c h : h_environ (over_connection c h).2 = h_environ h.
Proof using Type.
  unfold over_connection, mbind, get_host, lift. destruct (migration_url (h_environ h)) as [url|]; [|done].
  destruct (connect url (h_database h)) as [user|]; [|done]. by destruct (c (h_environ h) (h_clock h) _) as [r d].
Qed.

(** The environment after a step, however it ends. *)
Lemma run_migration_environment role h :
  (exists e, run_migration role h = (Raise e, h))
  \/ forall key, h_environ (run_migration role h).2 !! key = if bool_decide (key ∈ privileged_keys role) then None else h_environ h !! key.
Proof using Type.
  unfold run_migration. destruct (migration_environment role h) as [[environment|e] h1] eqn:E.
  - right. intros key. pose proof (reads_environment role h) as Hr. rewrite E in Hr. cbn in Hr. subst h1.
    pose proof (environment_keys _ _ _ _ E) as Hkeys. rewrite (mbind_ok _ _ _ _ _ E).
    unfold mbind at 1. cbn [set_environ]. unfold finally. set (h1 := mkHost _ _ _ _ _ _ _ _ _ _ _).
    assert (He : forall c, h_environ (set_environ (fun environ => foldr (fun kv => delete kv.1) environ environment) (over_connection c h1).2).2 !! key
                 = if bool_decide (key ∈ privileged_keys role) then None else h_environ h !! key).
    { intros c. cbn [set_environ snd h_environ]. rewrite over_connection_environ, delete_all_spec, Hkeys. unfold h1. cbn [h_environ].
      destruct (bool_decide (key ∈ _)) eqn:Ek; [done|]. apply bool_decide_eq_false in Ek. apply lookup_union_r, not_elem_of_list_to_map_1. by rewrite Hkeys. }
    destruct (bool_decide (role = "bootstrap"%string));
      match goal with |- context [over_connection ?c h1] => specialize (He c); destruct (over_connection c h1) as [r h2] eqn:Eo end; exact He.
  - left. exists e. pose proof (reads_environment role h) as Hr. rewrite E in Hr. cbn in Hr. subst h1. by apply mbind_raise.
Qed.
End MigrationLemmas.

(** ** Lemmas: a start *)

Section Start.
Context `{UnicodeLaws} `{SettingsSource} `{!SettingsSourceLaws} `{PostgresLaws}.
Variables p m r s k : pystr.

Definition secret_values : list (string * pystr) :=
  [("postgres_password"%string, p); ("migrator_password"%string, m); ("runtime_password"%string, r);
   ("session_secret"%string, s); ("data_key"%string, k)].
Definition loaded (h : Host) : Prop := load_bootstrap_secrets h = (Ok secret_values, h).
Lemma load_place h h' : h_place h' = h_place h -> loaded h -> loaded h'.
Proof using Type.
  intros Hp Hl. unfold loaded, load_bootstrap_secrets in *. rewrite (mfor_elsewhere _ _ h h'); [by rewrite Hl| |].
  - intros secret. unfold read_secret, mbind, entry, lift. rewrite Hp. by destruct (secret_of _).
  - intros secret. unfold read_secret, mbind, entry, lift. by destruct (secret_of _).
Qed.

(** What a migration step leaves alone. *)
Definition beside (h : Host) := (h_place h, h_clock h, h_attempts h, (h_cached h, h_served h, h_draws h)).

Lemma over_connection_run c h url user d1 : migration_url (h_environ h) = Ok url -> connect url (h_database h) = Ok user ->
  c (h_environ h) (h_clock h) (set_db_user user (h_database h)) = (Ok tt, d1) -> over_connection c h = set_database d1 h.
Proof using Type.
  intros Hu Hc Hd. unfold over_connection, mbind, get_host, lift. rewrite Hu, Hc, Hd. reflexivity.
Qed.
Lemma connection_url_migration environ user password :
  environ !! "LC_MIGRATION_DATABASE_URL"%string = Some (connection_url user password) -> migration_url environ = Ok (connection_url user password).
Proof using Type. intros He. unfold migration_url. rewrite He. cbn [default from_option id]. replace (startswith _ _) with true; [done|]. symmetry. apply startswith_spec. by eexists. Qed.

Lemma run_bootstrap_step h d1 : loaded h -> connect (connection_url "postgres" p) (h_database h) = Ok "postgres"%string ->
  (forall environ, environ !! "LC_MIGRATION_DATABASE_URL"%string = Some (connection_url "postgres" p) ->
     environ !! "LC_MIGRATOR_DB_PASSWORD"%string = Some m -> environ !! "LC_RUNTIME_DB_PASSWORD"%string = Some r ->
     bootstrap_database environ database_name other_sql (h_clock h) (set_db_user "postgres" (h_database h)) = (Ok tt, d1)) ->
  exists h1, run_migration "bootstrap" h = (Ok tt, h1) /\ h_database h1 = d1 /\ beside h1 = beside h.
Proof using Type.
  intros Hl Hc Hb.
  set (environment := [("LC_MIGRATION_DATABASE_URL"%string, connection_url "postgres" p); ("LC_MIGRATOR_DB_PASSWORD"%string, m); ("LC_RUNTIME_DB_PASSWORD"%string, r)]).
  assert (Ee : migration_environment "bootstrap" h = (Ok environment, h)) by (unfold migration_environment; rewrite (mbind_ok _ _ _ _ _ Hl); reflexivity).
  set (ha := (set_environ (fun environ => list_to_map environment ∪ environ) h).2).
  assert (Ho : over_connection (fun environ now => bootstrap_database environ database_name other_sql now) ha = set_database d1 ha).
  { apply (over_connection_run _ _ (connection_url "postgres" p) "postgres"); [|exact Hc|].
    - apply connection_url_migration. apply lookup_union_Some_l. reflexivity.
    - apply Hb; apply lookup_union_Some_l; reflexivity. }
  exists (set_environ (fun environ => foldr (fun kv => delete kv.1) environ environment) (set_database d1 ha).2).2. split; [|by split].
  unfold run_migration. rewrite (mbind_ok _ _ _ _ _ Ee), (mbind_ok _ _ h tt ha) by reflexivity.
  rewrite bool_decide_true by reflexivity. unfold finally. rewrite Ho. reflexivity.
Qed.
Lemma run_migrate_step h d1 : loaded h -> connect (connection_url "leakcheck_migrator" m) (h_database h) = Ok "leakcheck_migrator"%string ->
  (forall environ, upgrade environ database_name other_sql (h_clock h) None (set_db_user "leakcheck_migrator" (h_database h)) = (Ok tt, d1)) ->
  exists h1, run_migration "migrate" h = (Ok tt, h1) /\ h_database h1 = d1 /\ beside h1 = beside h.
Proof using Type.
  intros Hl Hc Hb. set (environment := [("LC_MIGRATION_DATABASE_URL"%string, connection_url "leakcheck_migrator" m)]).
  assert (Ee : migration_environment "migrate" h = (Ok environment, h)) by (unfold migration_environment; rewrite (mbind_ok _ _ _ _ _ Hl); reflexivity).
  set (ha := (set_environ (fun environ => list_to_map environment ∪ environ) h).2).
  assert (Ho : over_connection (fun environ now => upgrade environ database_name other_sql now None) ha = set_database d1 ha).
  { apply (over_connection_run _ _ (connection_url "leakcheck_migrator" m) "leakcheck_migrator"); [|exact Hc|apply Hb].
    apply connection_url_migration. apply lookup_union_Some_l. reflexivity. }
  exists (set_environ (fun environ => foldr (fun kv => delete kv.1) environ environment) (set_database d1 ha).2).2. split; [|by split].
  unfold run_migration. rewrite (mbind_ok _ _ _ _ _ Ee), (mbind_ok _ _ h tt ha) by reflexivity.
  rewrite bool_decide_false by discriminate. unfold finally. rewrite Ho. reflexivity.
Qed.

(** The application starts with the settings of the secrets. *)
Lemma run_application_step h : loaded h -> h_cached h = None -> env_file = None -> no_settings (h_environ h) ->
  validate_settings (deployment_settings r s k) = Ok (deployment_settings r s k) ->
  exists h1, run_application h = (Ok tt, h1) /\ h_served h1 = deployment_settings r s k :: h_served h
    /\ h_database h1 = h_database h /\ h_place h1 = h_place h /\ h_environ h1 = h_environ h.
Proof using Type*.
  intros Hl Hc He Hn Hv.
  assert (Hp : bootstrap_secrets_available h = (Ok true, h)).
  { unfold bootstrap_secrets_available, mbind, get_host, mret. destruct (h_place h) as [c| |d] eqn:Ep; [| |done]; exfalso;
      cbv [loaded load_bootstrap_secrets SECRET_FILES mfor mbind read_secret entry] in Hl; rewrite Ep in Hl; discriminate. }
  assert (Eg : runtime_settings h = (Ok (mkGenerated PRODUCTION (connection_url "leakcheck_runtime" r) s k [py "*"] true true), h))
    by (unfold runtime_settings; rewrite (mbind_ok _ _ _ _ _ Hl); reflexivity).
  set (ha := (set_cached (deployment_settings r s k) h).2).
  assert (Es : get_settings h = (Ok (deployment_settings r s k), ha)).
  { unfold get_settings. rewrite (mbind_ok get_host _ h h h) by reflexivity. rewrite Hc, (mbind_ok _ _ _ _ _ Hp).
    rewrite (mbind_ok _ _ h (deployment_settings r s k) h); [reflexivity|]. rewrite (mbind_ok _ _ _ _ _ Eg). unfold lift.
    rewrite (given_values _ _ He Hn). cbn [rbind]. fold (deployment_settings r s k). by rewrite Hv. }
  exists (add_served (deployment_settings r s k) ha).2. split; [|done].
  unfold run_application. by rewrite (mbind_ok _ _ _ _ _ Es).
Qed.

(** The whole of [_serve], for a database that the two steps bring to [d1] and [d2]. *)
Lemma serve_run h d1 d2 : loaded h -> h_cached h = None -> env_file = None -> no_settings (h_environ h) ->
  validate_settings (deployment_settings r s k) = Ok (deployment_settings r s k) ->
  probe_at (h_attempts h) (connection_url "postgres" p) = Ok tt ->
  connect (connection_url "postgres" p) (h_database h) = Ok "postgres"%string ->
  (forall environ now, environ !! "LC_MIGRATION_DATABASE_URL"%string = Some (connection_url "postgres" p) ->
     environ !! "LC_MIGRATOR_DB_PASSWORD"%string = Some m -> environ !! "LC_RUNTIME_DB_PASSWORD"%string = Some r ->
     bootstrap_database environ database_name other_sql now (set_db_user "postgres" (h_database h)) = (Ok tt, d1)) ->
  connect (connection_url "leakcheck_migrator" m) d1 = Ok "leakcheck_migrator"%string ->
  (forall environ now, now = h_clock h + probe_lasts (h_attempts h) -> upgrade environ database_name other_sql now None (set_db_user "leakcheck_migrator" d1) = (Ok tt, d2)) ->
  exists h1, serve h = (Ok tt, h1) /\ h_served h1 = deployment_settings r s k :: h_served h /\ h_database h1 = d2 /\ h_place h1 = h_place h
    /\ (forall key, h_environ h1 !! key = if bool_decide (key ∈ privileged_keys "bootstrap") then None else h_environ h !! key).
Proof using Type*.
  intros Hl Hca Hfile Hn Hv Hpr Hc1 Hb Hc2 Hm. set (ha := (probe (connection_url "postgres" p) h).2).
  assert (Ew : wait_for_database h = (Ok (Some tt), ha)).
  { unfold wait_for_database. rewrite (mbind_ok _ _ _ _ _ Hl), (mbind_ok _ _ h p h), (mbind_ok get_host _ h h h) by reflexivity.
    unfold WAIT_ATTEMPTS. cbn [wait_loop]. rewrite (mbind_ok _ _ h true ha); [done|].
    unfold wait_once, try_except, mbind, probe. by rewrite Hpr. }
  assert (Hla : loaded ha) by (by apply (load_place h)).
  destruct (run_bootstrap_step ha d1 Hla Hc1 ltac:(auto)) as (hb&E1&Hd1&Hs1).
  assert (Hlb : loaded hb) by (apply (load_place ha); [by injection Hs1|done]).
  assert (Hclock : h_clock hb = h_clock h + probe_lasts (h_attempts h)) by (by injection Hs1).
  destruct (run_migrate_step hb d2 Hlb ltac:(by rewrite Hd1) ltac:(intros environ; rewrite Hd1; by apply Hm)) as (hc&E2&Hd2&Hs2).
  assert (Henv : forall key, h_environ hc !! key = if bool_decide (key ∈ privileged_keys "bootstrap") then None else h_environ h !! key).
  { intros key. destruct (run_migration_environment "migrate" hb) as [[e He]|Hkm]; [congruence|].
    destruct (run_migration_environment "bootstrap" ha) as [[e He]|Hkb]; [congruence|].
    rewrite E2 in Hkm. rewrite E1 in Hkb. cbn [snd] in Hkm, Hkb. rewrite Hkm, Hkb. change (h_environ ha) with (h_environ h).
    destruct (bool_decide (key ∈ privileged_keys "migrate")) eqn:Ek; [|done]. apply bool_decide_eq_true in Ek.
    rewrite bool_decide_true; [done|]. apply list_elem_of_singleton in Ek as ->. left. }
  assert (Hlc : loaded hc) by (apply (load_place hb); [by injection Hs2|done]).
  assert (Hcc : h_cached hc = None) by (injection Hs2; injection Hs1; intros; congruence).
  destruct (run_application_step hc Hlc Hcc Hfile) as (hd&E3&Hse&Hdb&Hpl&Hen).
  { intros name [v Hnm]. apply Hn. rewrite Henv in Hnm. destruct (bool_decide _); [done|by exists v]. }
  { exact Hv. }
  exists hd. split_and!.
  - unfold serve. by rewrite (mbind_ok _ _ _ _ _ Ew), (mbind_ok _ _ _ _ _ E1), (mbind_ok _ _ _ _ _ E2).
  - rewrite Hse. f_equal. injection Hs2; injection Hs1; intros; congruence.
  - by rewrite Hdb.
  - rewrite Hpl. injection Hs2; injection Hs1; intros; congruence.
  - intros key. by rewrite Hen.
Qed.
End Start.

Section FirstStart.
Context `{UnicodeLaws} `{EntropyLaws} `{SettingsSource} `{!SettingsSourceLaws} `{PostgresLaws}.
Variable umask : Z.

Lemma loaded_entries h d p m r s k : h_place h = Folder d ->
  secret_of (d_entries d !! "postgres-password"%string) = Ok p -> secret_of (d_entries d !! "migrator-password"%string) = Ok m ->
  secret_of (d_entries d !! "runtime-password"%string) = Ok r -> secret_of (d_entries d !! "session-secret"%string) = Ok s ->
  secret_of (d_entries d !! "data-key"%string) = Ok k -> loaded p m r s k h.
Proof using Type.
  intros Hd Hp Hm Hr Hs Hk. cbv [loaded load_bootstrap_secrets SECRET_FILES mfor mbind read_secret entry lift mret snd fst].
  repeat (rewrite Hd; cbn [entries_of]; first [rewrite Hp|rewrite Hm|rewrite Hr|rewrite Hs|rewrite Hk]; cbv beta iota). reflexivity.
Qed.

(** Nothing but generated values, after a first initialization. *)
Lemma first_secrets h h1 : ready umask h -> (forall file, file ∈ secret_files -> entries_of (h_place h) !! file = None) ->
  initialize_bootstrap_secrets umask h = (Ok tt, h1) ->
  exists d i1 i2 i3 i4 i5, h_place h1 = Folder d /\ settled d /\ rest h1 = rest h
    /\ loaded (fresh_value "postgres_password" i1) (fresh_value "migrator_password" i2) (fresh_value "runtime_password" i3)
         (fresh_value "session_secret" i4) (fresh_value "data_key" i5) h1.
Proof using H0 H2.
  intros Hr Hnone Hi. destruct (initialize_run umask h Hr) as (h1'&d0&d&E&Hd&He&(_&_&Hg&_)&Hset&Hrest).
  rewrite Hi in E. injection E as <-.
  assert (Hsec : forall secret, secret ∈ SECRET_FILES -> exists i, secret_of (d_entries d !! secret.2) = Ok (fresh_value secret.1 i)).
  { intros secret Hin. destruct (Hg secret Hin) as [i Hi']; [rewrite He; apply Hnone; unfold secret_files; by apply list_elem_of_fmap_2|].
    exists i. rewrite Hi'. apply generated_secret. }
  assert (Hall : Forall (fun secret => exists i, secret_of (d_entries d !! secret.2) = Ok (fresh_value secret.1 i)) SECRET_FILES) by (by apply Forall_forall).
  repeat (apply Forall_cons in Hall as [[? ?] Hall]). do 6 eexists. split_and!; [exact Hd|exact Hset|exact Hrest|by eapply loaded_entries].
Qed.

Lemma usable_fresh name environ key i : environ !! key = Some (fresh_value name i) -> name <> "data_key"%string -> usable environ key (fresh_value name i).
Proof using H2.
  intros He Hn. destruct (fresh_value_shape name i) as [Hc Hl]. split_and!; [done|lia| |].
  - unfold fresh_value. rewrite bool_decide_false by done. apply hex_not_r, octets_at_range.
  - clear -Hc. induction (fresh_value name i) as [|c t IH]; [done|]. cbn [forallb] in Hc. apply andb_true_iff in Hc as [Hc Ht].
    cbn [has_dollars]. destruct t as [|d t]; [done|]. rewrite (IH Ht), orb_false_r. destruct (c =? 36) eqn:E; [|done]. apply Z.eqb_eq in E. by subst c.
Qed.
Lemma fresh_url name i : forallb b64url_char (fresh_value name i) = true.
Proof using H2. by destruct (fresh_value_shape name i). Qed.

(** The process of a later start: the volume and the database are what they were. *)
Definition restarted (environ : gmap string pystr) (h : Host) : Host :=
  mkHost (h_place h) (h_past h) (h_space h) (h_draws h) environ (h_clock h) (h_attempts h) (h_database h) None [] [].

(** *** The two starts *)

Lemma url_scheme user password : startswith (default [] (Some (connection_url user password))) MIGRATION_URL_SCHEME = true.
Proof using Type. apply startswith_spec. by eexists. Qed.
Lemma head_user now m r : db_user (head_database now m r) = "leakcheck_migrator"%string.
Proof using Type. vm_compute. reflexivity. Qed.
Lemma set_user_back d u : db_user d = u -> set_db_user u d = d.
Proof using Type. intros <-. by destruct d. Qed.
Lemma head_password now m r user v : db_roles (head_database now m r) !! user = Some (mkRole true false false false v) -> user <> "postgres"%string ->
  password_of (head_database now m r) user = Some v.
Proof using Type. intros Hu Hne. unfold password_of. rewrite bool_decide_false by done. by rewrite Hu. Qed.
Lemma head_migrator now m r : db_roles (head_database now m r) !! "leakcheck_migrator"%string = Some (mkRole true false false false m).
Proof using Type. vm_compute. reflexivity. Qed.
Lemma head_runtime now m r : db_roles (head_database now m r) !! "leakcheck_runtime"%string = Some (mkRole true false false false r).
Proof using Type. vm_compute. reflexivity. Qed.

Variables i1 i2 i3 i4 i5 : nat.
Let p := fresh_value "postgres_password" i1.
Let m := fresh_value "migrator_password" i2.
Let r := fresh_value "runtime_password" i3.
Let s := fresh_value "session_secret" i4.
Let k := fresh_value "data_key" i5.
Hypothesis superuser : superuser_password = p.
Hypothesis answers : forall n, probe_at n (connection_url "postgres" superuser_password) = Ok tt.
Hypothesis key_plain : startswith k (py "replace-with-") = false.

Lemma connect_postgres d : connect (connection_url "postgres" p) d = Ok "postgres"%string.
Proof using H2 H6 superuser.
  apply connect_login; [left|apply fresh_url|]. unfold password_of. rewrite bool_decide_true by reflexivity. by rewrite superuser.
Qed.
Lemma serve_fresh h : loaded p m r s k h -> h_database h = fresh_database -> h_cached h = None -> env_file = None -> no_settings (h_environ h) ->
  exists h1 now, serve h = (Ok tt, h1) /\ h_served h1 = deployment_settings r s k :: h_served h /\ h_database h1 = head_database now m r /\ h_place h1 = h_place h
    /\ (forall key, h_environ h1 !! key = if bool_decide (key ∈ privileged_keys "bootstrap") then None else h_environ h !! key).
Proof using H0 H2 H4 H6 superuser answers key_plain.
  intros Hl Hdb Hc Hfile Hn. set (now := h_clock h + probe_lasts (h_attempts h)).
  destruct (serve_run p m r s k h (bootstrapped m r) (head_database now m r) Hl Hc Hfile Hn) as (h1&E&Hs&Hd&Hp&He).
  - by apply deployment_settings_valid.
  - rewrite <- superuser. apply answers.
  - apply connect_postgres.
  - intros environ now' Hu Hm Hr. rewrite Hdb. change (set_db_user "postgres" fresh_database) with fresh_database.
    apply bootstrap_run; [by rewrite Hu; apply url_scheme|by apply usable_fresh|by apply usable_fresh|apply database_name_ok].
  - apply connect_login; [right; left|apply fresh_url|reflexivity].
  - intros environ now' ->. apply head_upgrade.
  - exists h1, now. exact (conj E (conj Hs (conj Hd (conj Hp He)))).
Qed.
(** ... and a later one, whose database is at the last revision. *)
Lemma serve_later h head : loaded p m r s k h -> h_database h = head -> h_cached h = None -> env_file = None -> no_settings (h_environ h) ->
  db_user head = "leakcheck_migrator"%string -> db_version head = Some "0013_branding_grants"%string ->
  is_Some (db_tables head !! "alembic_version"%string) -> db_roles head !! "leakcheck_migrator"%string = Some (mkRole true false false false m) ->
  exists h1, serve h = (Ok tt, h1) /\ h_served h1 = deployment_settings r s k :: h_served h /\ h_database h1 = head.
Proof using H0 H2 H4 H6 superuser answers key_plain.
  intros Hl Hdb Hc Hfile Hn Huser Hv Ht Hrole.
  destruct (serve_run p m r s k h (set_db_user "postgres" head) head Hl Hc Hfile Hn) as (h1&E&Hs&Hd&Hp&He).
  - by apply deployment_settings_valid.
  - rewrite <- superuser. apply answers.
  - apply connect_postgres.
  - intros environ now' Hu _ _. rewrite Hdb. apply bootstrap_skipped; [by rewrite Hu; apply url_scheme|exact Ht|].
    change (is_Some (db_version head)). by rewrite Hv.
  - apply connect_login; [right; left|apply fresh_url|]. unfold password_of. rewrite bool_decide_false by discriminate.
    change (db_roles (set_db_user "postgres" head)) with (db_roles head). by rewrite Hrole.
  - intros environ now' _. change (set_db_user "leakcheck_migrator" (set_db_user "postgres" head)) with (set_db_user "leakcheck_migrator" head).
    rewrite (set_user_back head _ Huser). by apply upgrade_at_head.
  - exists h1. exact (conj E (conj Hs Hd)).
Qed.
End FirstStart.

(** ** Properties *)

(** C36: Generated secrets are written once.  At every moment of an initialization - so also when the process is
    killed in the middle, or a disk fills up - whatever was in the directory is still there unchanged, and
    nothing is new but secret files.  And where the directory can be made or written to, the secrets that are
    there are valid and the disk has room, initialization succeeds whatever the umask: every secret is then
    read back by [load_bootstrap_secrets], an old one with its old value, a new one from a file that everyone
    may read; and a second initialization changes nothing. *)
Theorem bootstrap_secrets_kept `{UnicodeLaws} `{EntropyLaws} umask h :
  always_grown (h_place h) (initialize_bootstrap_secrets umask (observed h)).2
  /\ (ready umask h ->
      exists h1 values, initialize_bootstrap_secrets umask h = (Ok tt, h1)
        /\ load_bootstrap_secrets h1 = (Ok values, h1) /\ values.*1 = SECRET_FILES.*1
        /\ Forall2 (fun secret kv => forall v, secret_of (entries_of (h_place h) !! secret.2) = Ok v -> kv.2 = v) SECRET_FILES values
        /\ Forall (fun file => entries_of (h_place h) !! file = None ->
             exists content, entries_of (h_place h1) !! file = Some (Regular content MODE_0444 true)) secret_files
        /\ exists h2, initialize_bootstrap_secrets umask h1 = (Ok tt, h2) /\ h_place h2 = h_place h1).
Proof.
  split.
  - destruct (holds_initialize umask (h_place h) (observed h)) as [Hi _]; [|exact Hi]. constructor; [apply grown_refl|constructor].
  - intros Hr. destruct (initialize_run umask h Hr) as (h1&d0&d&E&Hd&He&(_&Hk&Hg&_)&Hset&_).
    pose proof Hset as (_&_&Hall). destruct (load_run h1 d Hd Hall) as (values&El&Hn&Hf). exists h1, values. rewrite <- He. split_and!; [done|done|done| | |].
    + eapply Forall2_impl; [exact Hf|]. cbn. intros secret kv Hkv v Hv.
      destruct (d_entries d0 !! secret.2) as [e|] eqn:Ee; [|done]. rewrite (Hk _ _ Ee) in Hkv. congruence.
    + apply Forall_forall. intros file Hin Hnone. apply list_elem_of_fmap in Hin as (secret&->&Hin).
      destruct (Hg secret Hin Hnone) as [i Hi]. eexists. rewrite Hd. exact Hi.
    + destruct (initialize_again umask h1 d Hd Hset) as (h2&E2&Hp2&_). exists h2. split; [done|]. by rewrite Hp2.
Qed.

(** C37: The wait for the database ends.  Whatever the server does and however long each attempt takes, the loop
    makes at most 61 attempts - three minutes at three seconds each, and one more - and more fuel than that
    changes nothing.  It returns only after an attempt that was answered; it exits only after three minutes;
    any other exception is that of its last attempt and no failure to connect.  It leaves the files, the
    environment and the database alone. *)
Theorem database_wait_ends `{Unicode} `{PostgresLaws} url h :
  exists r h', wait_loop WAIT_ATTEMPTS url (h_clock h + DATABASE_WAIT) 0 h = (r, h')
    /\ (forall k, wait_loop (WAIT_ATTEMPTS + k) url (h_clock h + DATABASE_WAIT) 0 h = (r, h'))
    /\ r <> Ok None /\ (h_attempts h' <= h_attempts h + 61)%nat /\ untouched h' = untouched h
    /\ (r = Ok (Some tt) -> exists n, h_attempts h' = S n /\ probe_at n url = Ok tt)
    /\ (forall x, r = Raise x -> x = SystemExit /\ h_clock h + 180 * 1000000 <= h_clock h'
         \/ unreachable x = false /\ exists n, h_attempts h' = S n /\ probe_at n url = Raise x).
Proof.
  destruct (wait_ends 60 url (h_clock h + DATABASE_WAIT) 0 h) as (r&h'&Ek&Hn&Ha&Hu&Hok&Hex); [unfold DATABASE_WAIT, DATABASE_RETRY; lia|].
  exists r, h'. split_and!; [apply (Ek 0%nat)|exact Ek|done|done|done|done|done].
Qed.

(** C38: Privileged database credentials do not outlive a migration step.  However a step ends - in success, with a
    refused connection, with an error of the migration itself - either it stopped before it changed anything,
    because the secrets could not be read or the role is unknown, or none of the variables it sets is left in
    the environment and every other variable is what it was. *)
Theorem credentials_do_not_outlive_migration `{Unicode} `{Postgres} role h :
  (exists e, run_migration role h = (Raise e, h))
  \/ forall key, h_environ (run_migration role h).2 !! key = if bool_decide (key ∈ privileged_keys role) then None else h_environ h !! key.
Proof. apply run_migration_environment. Qed.

(** C10: A first start succeeds from nothing.  On a host with an empty volume, an environment without a name in
    LC_ (in any case of letters) and no [.env] file, and with a database server that answers every attempt and holds a
    new database whose superuser has the generated password: after the initialization [serve] waits,
    bootstraps the roles, migrates and starts the application.  The settings it starts with are valid (unless
    the key happened to look like a placeholder), the database has the schema of the mapped classes, the
    application's connection is that of the least privileged role, and no privileged credential is left in
    the environment.  A later start of the same volume and database serves the same settings and leaves the
    database as it is. *)
Theorem first_deployment `{UnicodeLaws} `{EntropyLaws} `{SettingsSource} `{!SettingsSourceLaws} `{PostgresLaws} umask h h1 values key :
  ready umask h -> (forall file, file ∈ secret_files -> entries_of (h_place h) !! file = None) ->
  h_database h = fresh_database -> h_cached h = None -> env_file = None -> no_settings (h_environ h) ->
  (forall n, probe_at n (connection_url "postgres" superuser_password) = Ok tt) ->
  initialize_bootstrap_secrets umask h = (Ok tt, h1) -> load_bootstrap_secrets h1 = (Ok values, h1) ->
  item values "postgres_password" = Ok superuser_password ->
  item values "data_key" = Ok key -> startswith key (py "replace-with-") = false ->
  exists h2 s, serve h1 = (Ok tt, h2) /\ h_served h2 = s :: h_served h /\ validate_settings s = Ok s
    /\ builds_models (h_database h2) /\ connect (Config.database_url s) (h_database h2) = Ok RUNTIME
    /\ (forall key, key ∈ privileged_keys "bootstrap" -> h_environ h2 !! key = None)
    /\ exists h3 h4, initialize_bootstrap_secrets umask (restarted (h_environ h) h2) = (Ok tt, h3) /\ serve h3 = (Ok tt, h4)
         /\ h_served h4 = [s] /\ h_database h4 = h_database h2.
Proof.
  intros Hr Hnone Hdb Hca Hfile Hns Hpr Hi Hv Hsu Hk Hkey.
  destruct (first_secrets umask h h1 Hr Hnone Hi) as (d&i1&i2&i3&i4&i5&Hd&Hset&[= Hre Hrc Hra Hrd Hrca Hrs Hro]&Hl).
  rewrite Hl in Hv. injection Hv as <-. injection Hsu as Hp. symmetry in Hp. injection Hk as <-. rewrite <- Hrd in Hdb. rewrite <- Hrca in Hca. rewrite <- Hre in Hns.
  destruct (serve_fresh i1 i2 i3 i4 i5 Hp Hpr Hkey h1 Hl Hdb Hca Hfile Hns) as (h2&now&E&Hs&Hd2&Hp2&He).
  exists h2. eexists. split_and!; [exact E|by rewrite Hs, Hrs|by apply deployment_settings_valid|rewrite Hd2; apply head_builds_models| | |].
  - rewrite Hd2. apply connect_login; [by right; right; left|apply fresh_url|]. apply head_password; [apply head_runtime|done].
  - intros key Hkin. rewrite He. by rewrite bool_decide_true.
  - destruct (initialize_again umask (restarted (h_environ h) h2) d ltac:(by rewrite <- Hd, <- Hp2) Hset) as (h3&E3&Hp3&[= Hre3 _ _ Hrd3 Hrca3 Hrs3 _]).
    assert (Hl3 : loaded _ _ _ _ _ h3) by (apply (load_place _ _ _ _ _ h1); [by rewrite Hp3|exact Hl]).
    destruct (serve_later i1 i2 i3 i4 i5 Hp Hpr Hkey h3 (h_database h2) Hl3) as (h4&E4&Hs4&Hd4);
      [exact Hrd3|by rewrite Hrca3|exact Hfile|by rewrite Hre3, <- Hre|rewrite Hd2; apply head_user|rewrite Hd2; apply head_version
      |rewrite Hd2; apply head_tables|rewrite Hd2; apply head_migrator|].
    exists h3, h4. split_and!; [exact E3|exact E4|by rewrite Hs4, Hrs3|exact Hd4].
Qed.

(** *** Concrete servers and hosts *)

(** A source of settings for evaluation: without generated secrets the required values are missing. *)
#[local] Instance plain_source : SettingsSource := {|
  env_file := None;
  settings_values _ given := match given with Some g => Ok (with_defaults g) | None => Raise ValueError end;
|}.
#[local] Instance plain_source_laws : @SettingsSourceLaws ascii_unicode plain_source.
Proof. by intros environ g _ _. Qed.

(** A server that knows its roles and answers from a certain attempt on. *)
Definition LOGINS : list string := ["postgres"; "leakcheck_migrator"; "leakcheck_runtime"]%string.
Definition server (answers_from : nat) (password : pystr) : Postgres := {|
  probe_at n _ := if (n <? answers_from)%nat then Raise OSError else Ok tt;
  probe_lasts _ := 250000;
  oversleep _ := 1000;
  connect url d :=
    match List.find (fun user => match (if bool_decide (user = "postgres"%string) then Some password
                                        else match db_roles d !! user with Some role => if r_login role then Some (r_password role) else None | None => None end) with
                                 | Some v => bool_decide (url = connection_url user v) | None => false end) LOGINS with
    | Some user => Ok user
    | None => Raise (OtherException "InvalidPasswordError")
    end;
  superuser_password := password;
  database_name := py "leakcheck";
  other_sql _ := mret tt;
|}.
#[local] Instance server_laws n password : @PostgresLaws (server n password).
Proof.
  constructor; [done|done|done|]. intros user v d Hin _ Hp. unfold password_of in Hp. cbn [superuser_password server] in Hp.
  unfold connect, server, LOGINS. cbn [List.find].
  repeat (apply elem_of_cons in Hin as [->|Hin]); [| | |by apply elem_of_nil in Hin].
  - rewrite Hp. by rewrite bool_decide_true.
  - rewrite (bool_decide_true ("postgres"%string = "postgres"%string)) by done.
    rewrite bool_decide_false by (unfold connection_url; intros E; vm_compute in E; discriminate E). rewrite Hp. by rewrite bool_decide_true.
  - rewrite (bool_decide_true ("postgres"%string = "postgres"%string)) by done.
    rewrite bool_decide_false by (unfold connection_url; intros E; vm_compute in E; discriminate E).
    rewrite (bool_decide_false ("leakcheck_migrator"%string = "postgres"%string)) by done.
    assert (Hne : forall q, bool_decide (connection_url "leakcheck_runtime" v = connection_url "leakcheck_migrator" q) = false)
      by (intros q; apply bool_decide_false; unfold connection_url; intros E; vm_compute in E; discriminate E).
    destruct (db_roles d !! "leakcheck_migrator"%string) as [role|]; [destruct (r_login role); [rewrite Hne|]|]; rewrite Hp; by rewrite bool_decide_true.
Qed.

#[local] Existing Instance ascii_unicode.
#[local] Existing Instance counting_entropy.
(** A new volume and a new database. *)
Definition new_host (space : nat) : Host :=
  mkHost (Missing true) [] space 0 {["PATH"%string := py "/usr/bin"]} 0 0 fresh_database None [] [].
Definition initialized (space : nat) : Host := (initialize_bootstrap_secrets 18 (new_host space)).2.
Definition first_password : pystr := fresh_value "postgres_password" 0.

Lemma run_pair {A} (c : Sys A) h a : (c h).1 = Ok a -> c h = (Ok a, (c h).2).
Proof. destruct (c h) as [r h1]. cbn. by intros ->. Qed.
Lemma run_reads {A} (c : Sys A) h a : reads c -> (c h).1 = Ok a -> c h = (Ok a, h).
Proof. intros Hr. specialize (Hr h). destruct (c h) as [r h1]. cbn in *. subst h1. by intros ->. Qed.

Definition first_values : list (string * pystr) :=
  Eval vm_compute in match (load_bootstrap_secrets (initialized 400)).1 with Ok v => v | Raise _ => [] end.
Lemma first_loaded : load_bootstrap_secrets (initialized 400) = (Ok first_values, initialized 400).
Proof.
  assert (E : (load_bootstrap_secrets (initialized 400)).1 = Ok first_values) by (vm_compute; reflexivity).
  exact (run_reads load_bootstrap_secrets (initialized 400) first_values reads_load E).
Qed.
Lemma first_initialized : initialize_bootstrap_secrets 18 (new_host 400) = (Ok tt, initialized 400).
Proof.
  assert (E : (initialize_bootstrap_secrets 18 (new_host 400)).1 = Ok tt) by (vm_compute; reflexivity).
  exact (run_pair (initialize_bootstrap_secrets 18) (new_host 400) tt E).
Qed.

Lemma bootstrap_secrets_kept_witness :
  exists h1 values, initialize_bootstrap_secrets 18 (new_host 400) = (Ok tt, h1) /\ load_bootstrap_secrets h1 = (Ok values, h1)
    /\ values.*1 = SECRET_FILES.*1.
Proof.
  destruct (@bootstrap_secrets_kept ascii_unicode ascii_unicode_laws counting_entropy counting_entropy_laws 18 (new_host 400)) as [_ H].
  destruct H as (h1&values&E&El&Hn&_).
  - split; [by split|]. apply Nat.leb_le. vm_compute. reflexivity.
  - exists h1, values. exact (conj E (conj El Hn)).
Defined.

Lemma database_wait_ends_witness :
  exists h', @wait_loop (server 4 []) WAIT_ATTEMPTS [] DATABASE_WAIT 0 (new_host 400) = (Ok (Some tt), h') /\ (h_attempts h' <= 61)%nat.
Proof.
  destruct (@database_wait_ends ascii_unicode (server 4 []) (server_laws 4 []) [] (new_host 400)) as (r&h'&E&_&_&Ha&_).
  exists h'. split; [|exact Ha].
  assert (Er : r = Ok (Some tt)) by (apply (f_equal fst) in E; vm_compute in E; by symmetry). subst r. exact E.
Defined.

Lemma first_deployment_witness :
  exists h2 s, @serve ascii_unicode plain_source (server 0 first_password) (initialized 400) = (Ok tt, h2) /\ validate_settings s = Ok s
    /\ builds_models (h_database h2).
Proof.
  destruct (@first_deployment ascii_unicode ascii_unicode_laws counting_entropy counting_entropy_laws plain_source plain_source_laws
    (server 0 first_password) (server_laws 0 first_password) 18 (new_host 400) (initialized 400)
    first_values (fresh_value "data_key" 4)) as (h2&s&E&_&Hs&Hb&_).
  - split; [by split|]. apply Nat.leb_le. vm_compute. reflexivity.
  - intros file _. reflexivity.
  - reflexivity.
  - reflexivity.
  - reflexivity.
  - intros name [v Hv]. cbn [h_environ new_host] in Hv. apply lookup_singleton_Some in Hv as [<- _]. vm_compute. reflexivity.
  - reflexivity.
  - exact first_initialized.
  - exact first_loaded.
  - vm_compute. reflexivity.
  - vm_compute. reflexivity.
  - vm_compute. reflexivity.
  - exists h2, s. exact (conj E (conj Hs Hb)).
Defined.

(** *** What does not hold *)

(** A process that is killed after a file has been made and before it has been written leaves an empty file,
    and no later initialization gets past it. *)
Theorem interrupted_initialization_refuses :
  exists place, place ∈ h_past (initialized 400)
    /\ (initialize_bootstrap_secrets 18 (mkHost place [] 400 0 ∅ 0 0 fresh_database None [] [])).1 = Raise RuntimeError.
Proof.
  exists (default Occupied (h_past (initialized 400) !! 1%nat)). split.
  - apply (list_elem_of_lookup_2 _ 1). vm_compute. reflexivity.
  - vm_compute. reflexivity.
Qed.

(** A disk that has room for a part of a secret: the file is cut short, and initialization reports success. *)
Theorem short_write_is_unnoticed :
  (initialize_bootstrap_secrets 18 (new_host 280)).1 = Ok tt
  /\ (load_bootstrap_secrets (initialized 280)).1 = Raise RuntimeError.
Proof. vm_compute. split; reflexivity. Qed.

(** An error that is neither SQLAlchemy's nor the operating system's ends the wait at the first attempt. *)
Theorem other_errors_end_the_wait `{Unicode} `{Postgres} fuel url deadline h e :
  probe_at (h_attempts h) url = Raise e -> unreachable e = false -> (wait_loop (S fuel) url deadline 0 h).1 = Raise e.
Proof.
  intros He Hu. cbn [wait_loop]. unfold mbind, wait_once, try_except, mbind, probe. by rewrite He, Hu.
Qed.
