(* ===== verification/AccountPages.v ===== *)
(** The pages around an account (app/routers/auth.py): signing in, enrolling a second factor and the
    profile. The encoder of QR codes (app/totp_qr.py calls segno) is a parameter. *)
From S2P Require Import Prelude PyBase Encoding Hashes Json Models Store IpAddress Branding Web Layout.

Definition landing_logo (brand : OrganisationBranding) : pystr :=
  let name := esc (display_name brand) in
  if ob_has_logo brand then
    tpl "<img class=`org-logo` alt=`" ++ name ++ tpl "` src=`/branding/logo?v=" ++ esc (default [] (ob_logo_sha256 brand)) ++ tpl "`>"
  else tpl "<div class=`brand-mark` aria-hidden=`true`>LC</div>".
Definition landing_markup (brand : OrganisationBranding) : pystr :=
  let name := esc (display_name brand) in
  let logo := landing_logo brand in
  tpl "<!doctype html><html lang=`en`><head><meta charset=`utf-8`>" ++
  tpl "<meta name=`viewport` content=`width=device-width,initial-scale=1`>" ++
  tpl "<title>Sign in " ++ [183] ++ tpl " " ++
  name ++
  tpl "</title>" ++
  tpl "<link rel=`stylesheet` href=`/static/auth.css?v=3`></head>" ++
  tpl "<body class=`auth-page landing`><main class=`landing-shell`>" ++
  tpl "<div class=`org-identity`>" ++
  logo ++
  tpl "<p class=`org-name`>" ++
  name ++
  tpl "</p></div>" ++
  tpl "<h1>Sign in with Google to scan your email for leaked credentials.</h1>" ++
  tpl "<a class=`google-button primary` href=`/auth/google/login`>" ++
  tpl "<span class=`google-glyph` aria-hidden=`true`>G</span>" ++
  tpl "Sign in with Google</a>" ++
  tpl "<output id=`login-result` class=`form-status`></output>" ++
  tpl "</main>" ++
  tpl "<button type=`button` id=`admin-toggle` class=`admin-corner` " ++
  tpl "aria-expanded=`false` aria-controls=`admin-login`>Super Admin Sign In</button>" ++
  tpl "<dialog id=`admin-login` class=`admin-dialog`>" ++
  tpl "<form id=`local-login` class=`auth-form` method=`dialog`>" ++
  tpl "<h2>Super Admin Sign In</h2>" ++
  tpl "<label>Email address" ++
  tpl "<input name=`username` type=`email` autocomplete=`username` required></label>" ++
  tpl "<label>Password" ++
  tpl "<input name=`password` type=`password` autocomplete=`current-password` " ++
  tpl "required></label>" ++
  tpl "<label>Authenticator code <span class=`optional`>Once MFA is enabled</span>" ++
  tpl "<input name=`totp_code` inputmode=`numeric` autocomplete=`one-time-code` " ++
  tpl "maxlength=`6` placeholder=`000000`></label>" ++
  tpl "<div class=`dialog-actions`><button type=`submit`>Sign in</button>" ++
  tpl "<button type=`button` id=`admin-close`>Cancel</button></div></form>" ++
  tpl "</dialog>" ++
  tpl "<script src=`/static/login.js?v=3` defer></script></body></html>".

Definition mfa_enabled_page (user : User) : pystr :=
  page (py "Profile " ++ dot ++ py " MFA")
  (tpl "<section class=`hero compact`><p class=`eyebrow`>Account security</p><h1>MFA is enabled</h1><p>Your authenticator code is required at sign-in.</p><a class=`button secondary` href=`/account/profile`>Back to Profile</a></section>") user [] [].

Section Enrolment.
Variable provisioning_qr_svg : pystr -> pystr.
Definition mfa_setup_content (uri secret : pystr) : pystr :=
  tpl "<section class=`hero compact`><p class=`eyebrow`>Account security</p>" ++
  tpl "<h1>Set up MFA</h1><p>Scan this code with your authenticator, then enter a generated " ++
  tpl "code to enable MFA.</p></section><section class=`panel profile-panel`>" ++
  tpl "<figure class=`totp-qr`>" ++
  provisioning_qr_svg uri ++
  tpl "</figure>" ++
  tpl "<p><a class=`button secondary` href=`" ++
  esc (uri) ++
  tpl "`>" ++
  tpl "Open in authenticator</a></p>" ++
  tpl "<p>Can't scan? Manual setup key: <code>" ++
  esc (secret) ++
  tpl "</code></p>" ++
  tpl "<form id=`mfa-form`><label>Authenticator code <input name=`totp_code` " ++
  tpl "inputmode=`numeric` autocomplete=`one-time-code` required></label>" ++
  tpl "<button type=`submit`>Enable MFA</button></form><output id=`mfa-result`></output>" ++
  tpl "</section>".
Definition mfa_setup_markup (user : User) (uri secret : pystr) : pystr :=
  page (py "Profile " ++ dot ++ py " MFA") (mfa_setup_content uri secret) user [] [py "/static/mfa-setup.js?v=3"].
End Enrolment.

Definition profile_content (user : User) (mfa_enabled : bool) : pystr :=
  let mfa_status := if mfa_enabled then tpl "Enabled" else tpl "Not enabled" in
  let mfa_action := if mfa_enabled then tpl "<span class=`badge success`>Enabled</span>" else tpl "<a class=`button` href=`/account/mfa`>Enable MFA</a>" in
  tpl "<section class=`hero compact`><p class=`eyebrow`>Administrator account</p>" ++
  tpl "<h1>" ++
  esc (u_email user) ++
  tpl "</h1>" ++
  tpl "<p>Manage the security controls for this local administrator.</p></section>" ++
  tpl "<section class=`profile-grid`><article class=`panel profile-panel`><h2>MFA</h2>" ++
  tpl "<p>Status: " ++
  mfa_status ++
  tpl "</p>" ++
  mfa_action ++
  tpl "</article>" ++
  tpl "<article class=`panel profile-panel`><h2>Change password</h2>" ++
  tpl "<form id=`password-form`><label>Current password" ++
  tpl "<input type=`password` name=`current_password` autocomplete=`current-password` " ++
  tpl "required>" ++
  tpl "</label><label>New password<input type=`password` name=`new_password` " ++
  tpl "autocomplete=`new-password` minlength=`15` required></label>" ++
  tpl "<label>Confirm new password<input type=`password` name=`confirmation` " ++
  tpl "autocomplete=`new-password` minlength=`15` required></label>" ++
  tpl "<button type=`submit`>Change password</button></form>" ++
  tpl "<output id=`profile-result` class=`form-error`></output></article></section>".
Definition profile_markup (user : User) (mfa_enabled : bool) : pystr :=
  page (py "Profile") (profile_content user mfa_enabled) user [] [py "/static/profile.js?v=3"].

(** ** Lemmas: two renderings of the same shape *)

Lemma same_landing_logo b b' : ob_has_logo b = ob_has_logo b' -> same_markup (landing_logo b) (landing_logo b').
Proof. intros E. unfold landing_logo. cbv zeta. rewrite E. markup. Qed.
Lemma same_landing b b' : ob_has_logo b = ob_has_logo b' -> same_markup (landing_markup b) (landing_markup b').
Proof. intros E. unfold landing_markup. cbv zeta. markup. by apply same_landing_logo. Qed.
Lemma same_mfa_enabled user user' : u_role user = u_role user' -> same_markup (mfa_enabled_page user) (mfa_enabled_page user').
Proof. intros Hr. unfold mfa_enabled_page. apply same_markup_page; [done|]. reflexivity. Qed.
Lemma same_mfa_setup qr user user' uri uri' secret secret' : u_role user = u_role user' -> same_markup (qr uri) (qr uri') ->
  same_markup (mfa_setup_markup qr user uri secret) (mfa_setup_markup qr user' uri' secret').
Proof. intros Hr Hq. unfold mfa_setup_markup. apply same_markup_page; [done|]. unfold mfa_setup_content. markup. exact Hq. Qed.
Lemma same_profile user user' enabled : u_role user = u_role user' -> same_markup (profile_markup user enabled) (profile_markup user' enabled).
Proof. intros Hr. unfold profile_markup. apply same_markup_page; [done|]. unfold profile_content. cbv zeta. markup. Qed.
