(* ===== verification/SettingsPage.v ===== *)
(** The settings page of the administrators (app/routers/admin.py): what it reads, its panels, and that it
    shows of a stored setting only whether there is one. *)
From S2P Require Import Prelude PyBase Encoding Hashes Json Models Store Config Aead IpAddress PlatformSettings Retention Branding Access LocalAuth Web Layout Repr SignIn Analyst OperationPages SettingsForm.

Definition GOOGLE_OIDC_KEYS : list SettingKey :=
  [GOOGLE_CLIENT_ID; GOOGLE_CLIENT_SECRET; GOOGLE_REDIRECT_URI; GOOGLE_WORKSPACE_DOMAINS].
Definition GOOGLE_WORKSPACE_KEYS : list SettingKey :=
  [GOOGLE_WORKSPACE_SERVICE_ACCOUNT_JSON; GOOGLE_WORKSPACE_DELEGATED_ADMIN].

(** *** The selects *)

Definition role_label (role : UserRole) : pystr :=
  match role with Role_USER => py "User" | Role_ANALYST => py "Analyst" | Role_SUPER_ADMIN => py "Super admin" end.
Definition role_options (selected : UserRole) : pystr :=
  flat_map (fun role => tpl "<option value=`" ++ UserRole_value role ++ tpl "`" ++
                        (if bool_decide (role = selected) then tpl " selected" else []) ++ tpl ">" ++ role_label role ++ tpl "</option>")
    [Role_USER; Role_ANALYST; Role_SUPER_ADMIN].
Definition retention_labels : list (pystr * pystr) :=
  [(py "indefinite", py "Keep indefinitely"); (py "none", py "Delete on remediation"); (py "days", py "Delete after N days")].
Definition retention_options (selected : pystr) : pystr :=
  flat_map (fun '(value, label) => tpl "<option value=`" ++ value ++ tpl "`" ++
                                   (if bool_decide (value = selected) then tpl " selected" else []) ++ tpl ">" ++ label ++ tpl "</option>")
    retention_labels.

Definition logo_preview (brand : OrganisationBranding) : pystr :=
  if negb (ob_has_logo brand) then tpl "<p id=`logo-preview`>No logo uploaded.</p>"
  else
    tpl "<p id=`logo-preview`><img class=`logo-preview` alt=`Current organisation logo` src=`/branding/logo?v=" ++
    esc (default [] (ob_logo_sha256 brand)) ++
    tpl "`></p>".

(** *** The quota *)

(** [f"{n:,}"]: a comma before every third digit from the right. *)
Fixpoint group_digits (k : nat) (reversed : pystr) : pystr :=
  match reversed with
  | [] => []
  | c :: t => match k with 3%nat => 44 :: c :: group_digits 1 t | _ => c :: group_digits (S k) t end
  end.
Definition thousands (n : Z) : pystr :=
  (if n <? 0 then [45] else []) ++ rev (group_digits 0 (rev (str_nat (Z.abs n)))).
(** [str] of a time, or of [None]. *)
Definition str_instant (t : option instant) : pystr :=
  match t with Some t => replace_char 84 [32] (instant_isoformat t) | None => py "None" end.
Definition quota_panel (row : option (Z * option instant)) : pystr :=
  match row with
  | None => tpl "<p>No quota has been observed yet. Run a scan to record one.</p>"
  | Some (quota, observed_at) =>
      tpl "<p><strong>" ++
      esc (thousands quota) ++
      tpl "</strong> units remaining, observed " ++
      esc (str_instant observed_at) ++
      tpl ".</p>" ++
      tpl "<p>The vendor reports quota one request behind, and queries returning no results " ++
      tpl "cost nothing, so treat this as approximate.</p>"
  end.

(** *** The users *)

Definition user_row (current_user : User) (sessions : uuid -> nat) (user : User) : pystr :=
  let is_self := bool_decide (u_id user = u_id current_user) in
  let self_note := if is_self then tpl " <span class=`badge`>you</span>" else [] in
  let lock := if is_self then tpl " disabled" else [] in
  tpl "<tr data-user-id=`" ++
  esc (uuid_str (u_id user)) ++
  tpl "`>" ++
  tpl "<td>" ++
  esc (u_email user) ++
  self_note ++
  tpl "</td>" ++
  tpl "<td><input name=`display_name` value=`" ++
  esc (u_display_name user) ++
  tpl "`></td>" ++
  tpl "<td><select name=`role`" ++
  lock ++
  tpl ">" ++
  role_options (u_role user) ++
  tpl "</select></td>" ++
  tpl "<td><input type=`checkbox` name=`is_active`" ++
  (if u_is_active user then tpl " checked" else []) ++
  lock ++
  tpl "></td>" ++
  tpl "<td>" ++
  str_int (Z.of_nat (sessions (u_id user))) ++
  tpl "</td>" ++
  tpl "<td><button type=`button` data-save-user>Save</button> " ++
  tpl "<button type=`button` data-revoke-sessions>Sign out</button></td></tr>".
Definition user_rows (users : list User) (current_user : User) (sessions : uuid -> nat) : pystr :=
  match users with
  | [] => tpl "<tr><td colspan=`6`>No users yet.</td></tr>"
  | _ => flat_map (user_row current_user sessions) users
  end.

(** *** One setting *)

Definition setting_label (key : SettingKey) : pystr :=
  default (title (replace_char 95 [32] (SettingKey_value key))) (label_of key SETTING_LABELS).
Definition setting_input (key : SettingKey) (configured : bool) : pystr :=
  let secret := bool_decide (key ∈ SECRET_KEYS) in
  let input_type := (if secret then tpl "password" else tpl "text") in
  let placeholder := (if secret && configured then tpl "configured " ++ [8212] ++ tpl " leave blank to keep" else []) in
  let escaped_key := esc (SettingKey_value key) in
  let label := esc (setting_label key) in
  if bool_decide (key = NOTIFY_DRY_RUN) then
    tpl "<label>" ++
    label ++
    tpl " <select name=`" ++
    escaped_key ++
    tpl "`><option value=`true` selected>Enabled (safe default)</option><option value=`false`>Disabled " ++ [8212] ++ tpl " send mail</option></select></label><br>"
  else if bool_decide (key = SMTP_SECURITY) then
    tpl "<label>" ++
    label ++
    tpl " <select name=`" ++
    escaped_key ++
    tpl "`><option value=`starttls`>STARTTLS</option><option value=`tls`>Implicit TLS</option></select></label><br>"
  else if bool_decide (key = GOOGLE_WORKSPACE_SERVICE_ACCOUNT_JSON) then
    tpl "<label>" ++
    label ++
    tpl "<br><textarea name=`" ++
    escaped_key ++
    tpl "` rows=`8` cols=`72` data-setting-input=`" ++
    escaped_key ++
    tpl "` placeholder=`" ++
    esc (placeholder) ++
    tpl "` autocomplete=`off`></textarea></label><br>"
  else
  tpl "<label>" ++
  label ++
  tpl " <input type=`" ++
  input_type ++
  tpl "` name=`" ++
  escaped_key ++
  tpl "` data-setting-input=`" ++
  escaped_key ++
  tpl "` placeholder=`" ++
  esc (placeholder) ++
  tpl "` autocomplete=`off`></label><br>".

Definition setting_row (configured : SettingKey -> bool) (key : SettingKey) : pystr :=
  tpl "<tr><td>" ++
  esc (SettingKey_value key) ++
  tpl "</td><td data-setting-status=`" ++
  esc (SettingKey_value key) ++
  tpl "`>" ++
  (if configured key then tpl "configured" else tpl "blank") ++
  tpl "</td></tr>".
Definition setting_inputs (configured : SettingKey -> bool) (keys : list SettingKey) : pystr :=
  flat_map (fun key => setting_input key (configured key)) keys.
Definition OTHER_KEYS : list SettingKey :=
  List.filter (fun key => negb (bool_decide (key ∈ GOOGLE_OIDC_KEYS)) && negb (bool_decide (key ∈ GOOGLE_WORKSPACE_KEYS))) all_setting_keys.

Definition workspace_help_dialog : pystr :=
  tpl "<dialog id=`google-workspace-help` aria-labelledby=`workspace-help-title`>" ++
  tpl "<h2 id=`workspace-help-title`>Set up Google Workspace OU access</h2>" ++
  tpl "<ol>" ++
  tpl "<li>In Google Cloud Console, select or create the project used by LeakCheck.</li>" ++
  tpl "<li>Open APIs &amp; Services, then enable the <strong>Admin SDK API</strong>.</li>" ++
  tpl "<li>Open IAM &amp; Admin " ++ [8594] ++ tpl " Service Accounts and create a dedicated service " ++
  tpl "account.</li>" ++
  tpl "<li>Open that account, enable domain-wide delegation, and copy its numeric OAuth " ++
  tpl "client ID.</li>" ++
  tpl "<li>Open Keys " ++ [8594] ++ tpl " Add key " ++ [8594] ++ tpl " Create new key " ++ [8594] ++ tpl " JSON. Download it once and keep it " ++
  tpl "private.</li>" ++
  tpl "<li>In the Google Admin console, open Security " ++ [8594] ++ tpl " Access and data control " ++ [8594] ++ tpl " API " ++
  tpl "controls " ++ [8594] ++ tpl " Manage Domain Wide Delegation, then add the service account client " ++
  tpl "ID.</li>" ++
  tpl "<li>Authorize exactly these comma-separated scopes:<br><code>" ++
  tpl "https://www.googleapis.com/auth/admin.directory.user.readonly," ++
  tpl "https://www.googleapis.com/auth/admin.directory.orgunit.readonly" ++
  tpl "</code></li>" ++
  tpl "<li>Enter a dedicated Workspace admin account that the service account will " ++
  tpl "impersonate. It needs permission to read users and organizational units.</li>" ++
  tpl "<li>Paste the <strong>entire downloaded JSON document</strong> into Service-account " ++
  tpl "JSON" ++ [8212] ++ tpl "not only the private_key value. LeakCheck validates it, encrypts it, and never " ++
  tpl "displays it again.</li>" ++
  tpl "</ol>" ++
  tpl "<p>The expected file starts with <code>{`type`:`service_account`," ++
  tpl "`project_id`:`" ++ [8230] ++ tpl "`,`private_key_id`:`" ++ [8230] ++ tpl "`,`private_key`:`" ++ [8230] ++ tpl "`," ++
  tpl "`client_email`:`" ++ [8230] ++ tpl "`,`client_id`:`" ++ [8230] ++ tpl "`}</code>. Do not paste a real key " ++
  tpl "into chat, tickets, or documentation.</p>" ++
  tpl "<form method=`dialog`><button type=`submit`>Close</button></form></dialog>".

(** *** The page *)

Definition settings_content (configured : SettingKey -> bool) (retention : RetentionPolicy) (brand : OrganisationBranding)
    (latest_quota : option (Z * option instant)) (users : list User) (active_sessions : uuid -> nat) (current_user : User) : pystr :=
  tpl "<section class=`hero compact`><p class=`eyebrow`>Administration</p>" ++
  tpl "<h1>Settings</h1><p>Configure platform integrations and user access. " ++
  tpl "Secrets are encrypted at rest and are never displayed.</p></section>" ++
  tpl "<form id=`settings-form` class=`settings-stack`><section class=`panel`>" ++
  tpl "<h2>Google sign-in</h2>" ++
  setting_inputs configured GOOGLE_OIDC_KEYS ++
  tpl "<p class=`panel-actions`><button type=`submit`>Save</button><small>Saves every settings panel; blank fields are left unchanged.</small></p>" ++
  tpl "</section><section class=`panel`><h2>Google Workspace OU sync " ++
  tpl "<button type=`button` class=`help-button` " ++
  tpl "aria-label=`How to configure Google Workspace OU sync` " ++
  tpl "data-dialog-open=`google-workspace-help`>?</button></h2>" ++
  tpl "<p>Read-only Directory access using domain-wide delegation.</p>" ++
  setting_inputs configured GOOGLE_WORKSPACE_KEYS ++
  tpl "<p class=`panel-actions`><button type=`submit`>Save</button><small>Saves every settings panel; blank fields are left unchanged.</small></p>" ++
  tpl "<p><button type=`button` id=`workspace-sync`>Sync Workspace users now</button></p>" ++
  tpl "</section><section class=`panel`><h2>Other integrations</h2>" ++
  setting_inputs configured OTHER_KEYS ++
  tpl "<p class=`panel-actions`><button type=`submit`>Save</button><small>Saves every settings panel; blank fields are left unchanged.</small></p>" ++
  tpl "</section></form>" ++
  tpl "<section class=`panel`><h2>SIEM test alerts</h2>" ++
  tpl "<p>These queue a contract-neutral test event. Delivery remains inactive until " ++
  tpl "the corresponding live API contract has been verified.</p>" ++
  tpl "<button type=`button` data-test-alert=`wazuh`>Queue Wazuh test</button>" ++
  tpl "<button type=`button` data-test-alert=`dfir_iris`>Queue DFIR-IRIS test</button>" ++
  tpl "</section>" ++
  workspace_help_dialog ++
  tpl "<section class=`panel`><h2>Data retention</h2>" ++
  tpl "<p>" ++
  esc (describe retention) ++
  tpl "</p>" ++
  tpl "<label>Policy <select name=`retention_mode` form=`settings-form`>" ++
  retention_options (rp_mode retention) ++
  tpl "</select></label>" ++
  tpl "<label>Days <input type=`number` name=`retention_days` min=`1` max=`3650` " ++
  tpl "form=`settings-form` value=`" ++
  esc (match rp_days retention with Some n => if n =? 0 then [] else str_int n | None => [] end) ++
  tpl "`></label>" ++
  tpl "<p>Only remediated findings are deleted; an open exposure is never removed " ++
  tpl "automatically. Deletion is permanent and is not written to the event trail.</p>" ++
  tpl "<p class=`panel-actions`><button type=`submit` form=`settings-form`>Save</button></p>" ++
  tpl "</section>" ++
  tpl "<section class=`panel`><h2>Organisation branding</h2>" ++
  tpl "<p>Shown on the sign-in page. PNG, JPEG, GIF, or WebP up to 1 MB; SVG is not " ++
  tpl "accepted because it can carry script.</p>" ++
  tpl "<form id=`branding-form`>" ++
  tpl "<label>Organisation name <input name=`organization_name` maxlength=`120` value=`" ++
  esc (default [] (ob_name brand)) ++
  tpl "`></label>" ++
  tpl "<label>Logo <input type=`file` id=`logo-file` accept=`image/png,image/jpeg,image/gif,image/webp`></label>" ++
  logo_preview brand ++
  tpl "<p class=`panel-actions`><button type=`submit`>Save branding</button>" ++
  tpl "<button type=`button` id=`clear-logo`>Remove logo</button></p>" ++
  tpl "</form></section>" ++
  tpl "<section class=`panel`><h2>LeakCheck quota</h2>" ++
  quota_panel latest_quota ++
  tpl "</section>" ++
  tpl "<section class=`panel`><h2>Configuration status</h2><div class=`table-wrap`>" ++
  tpl "<table><thead><tr>" ++
  tpl "<th>Setting</th><th>Status</th></tr></thead><tbody>" ++
  flat_map (setting_row configured) all_setting_keys ++
  tpl "</tbody></table></div>" ++
  tpl "</section><section class=`panel`><h2>Users</h2>" ++
  tpl "<p>Change a name, role, or access, then save the row. Granting super-admin here does " ++
  tpl "not create a local password or TOTP; that account signs in through Google. Use " ++
  tpl "<code>python -m app.create_superadmin</code> to add break-glass local " ++
  tpl "credentials.</p>" ++
  tpl "<div class=`table-wrap`><table><thead><tr><th>Email</th><th>Name</th>" ++
  tpl "<th>Role</th><th>Active</th><th>Sessions</th><th></th>" ++
  tpl "</tr></thead><tbody>" ++
  user_rows users current_user active_sessions ++
  tpl "</tbody></table></div></section>" ++
  tpl "<section class=`panel`><h2>Add user</h2><form id=`user-form`>" ++
  tpl "<label>Email <input name=`email` required></label>" ++
  tpl "<label>Name <input name=`display_name` required></label>" ++
  tpl "<label>Role <select name=`role`><option value=`user`>User</option>" ++
  tpl "<option value=`analyst`>Analyst</option>" ++
  tpl "<option value=`super_admin`>Super admin</option></select></label>" ++
  tpl "<button type=`submit`>Add user</button></form>" ++
  tpl "<output id=`result`></output></section>".

Section SettingsPage.
Context `{Unicode} `{Aead} `{Collation} `{HeapOrder}.

(** The newest observation of the quota. *)
Definition latest_quota (d : Db) : option (Z * option instant) :=
  head (flat_map (fun s => match sc_quota s with Some q => [(q, sc_started_at s)] | None => [] end)
    (sort_by (fun a b => desc_nulls_first Z.leb (sc_started_at a) (sc_started_at b))
       (select (fun s => bool_decide (is_Some (sc_quota s))) (scans d)))).
(** The sessions of a user that are neither revoked nor past their end. *)
Definition live_sessions (now : instant) (d : Db) (user_id : uuid) : nat :=
  length (select (fun s => bool_decide (se_revoked_at s = None) && (now <? se_expires_at s) && bool_decide (se_user_id s = user_id)) (sessions d)).

Definition settings_page (po : PortalState) (current_user : User) : M WebResponse :=
  let! state <- configured_state;
  let! d <- get_db;
  let users := sort_by (fun a b => citext_leb (u_email a) (u_email b)) (select (fun _ => true) (users d)) in
  let! retention <- load_policy (po_store po);
  let! brand <- load_branding;
  let! now <- clock;
  let configured key := existsb (fun kv => bool_decide (kv.1 = SettingKey_value key) && kv.2) state in
  mret (html_response 200 (B_text (page (py "Settings")
    (settings_content configured retention brand (latest_quota d) users (live_sessions now d) current_user) current_user
    [py "/static/admin-settings.css?v=7"] [py "/static/admin-settings.js?v=7"])) []).
End SettingsPage.

(** ** Lemmas *)

Section SettingsPageLemmas.
Context `{Unicode} `{Aead} `{Collation} `{HeapOrder}.

Lemma load_policy_world store w : (load_policy store w).2 = w.
Proof using Type.
  unfold load_policy, mbind. destruct (read_many store RETENTION_KEYS w) as [[values|e] w'] eqn:E;
    by apply read_many_world in E as ->.
Qed.
(** What the policy depends on. *)
Lemma load_policy_same store w w' :
  (forall key, key ∈ RETENTION_KEYS -> (read store key w).1 = (read store key w').1) ->
  (load_policy store w).1 = (load_policy store w').1.
Proof using Type.
  intros Hr. assert (Hm : (read_many store RETENTION_KEYS w).1 = (read_many store RETENTION_KEYS w').1).
  { revert Hr. generalize RETENTION_KEYS. induction l as [|key l IH]; intros Hr; [done|]. cbn [read_many]. unfold mbind.
    pose proof (Hr key ltac:(constructor)) as Hk. specialize (IH (fun k Hin => Hr k ltac:(by constructor))).
    destruct (read store key w) as [v w1] eqn:E, (read store key w') as [v' w1'] eqn:E'. cbn in Hk. subst v'.
    apply read_value_world in E as ->. apply read_value_world in E' as ->. destruct v as [v|e]; [|done].
    destruct (read_many store l w) as [vs w2], (read_many store l w') as [vs' w2']. cbn in IH. subst vs'. by destruct vs. }
  unfold load_policy, mbind. destruct (read_many store RETENTION_KEYS w) as [vs w2], (read_many store RETENTION_KEYS w') as [vs' w2'].
  cbn in Hm. subst vs'. by destruct vs.
Qed.

Lemma load_branding_run w : exists b, forall w', branding (w_db w') = branding (w_db w) -> load_branding w' = (Ok b, w').
Proof using Type. unfold load_branding, mbind, get_db, mret. eexists. intros w' ->. reflexivity. Qed.
Lemma configured_state_run w : exists state,
  forall w', (forall key, is_Some (platform_settings (w_db w') !! SettingKey_value key) <-> is_Some (platform_settings (w_db w) !! SettingKey_value key)) ->
  configured_state w' = (Ok state, w').
Proof using Type.
  exists (map (fun k => (SettingKey_value k, bool_decide (is_Some (platform_settings (w_db w) !! SettingKey_value k)))) all_setting_keys).
  intros w' Hs. unfold configured_state, mbind, get_db, mret. apply (f_equal (fun l => (Ok l, w'))), map_ext. intros key. f_equal.
  apply bool_decide_ext, Hs.
Qed.
End SettingsPageLemmas.

(** *** Two renderings of the same shape *)

Lemma inert_role_value role : inert (UserRole_value role).
Proof. by destruct role. Qed.
Lemma same_role_options r r' : same_markup (role_options r) (role_options r').
Proof.
  unfold role_options. apply same_markup_flat_map. repeat (apply Forall2_cons; split; [|]); try apply Forall2_nil_2.
  all: markup; apply same_markup_inert; apply inert_if; apply inert_nil || reflexivity.
Qed.
Lemma same_retention_options m m' : same_markup (retention_options m) (retention_options m').
Proof.
  unfold retention_options, retention_labels. apply same_markup_flat_map. repeat (apply Forall2_cons; split; [|]); try apply Forall2_nil_2.
  all: markup; apply same_markup_inert; apply inert_if; apply inert_nil || reflexivity.
Qed.
Lemma same_setting_input key c c' : same_markup (setting_input key c) (setting_input key c').
Proof. unfold setting_input. cbv zeta. markup. Qed.
Lemma same_setting_inputs c c' keys : same_markup (setting_inputs c keys) (setting_inputs c' keys).
Proof.
  apply same_markup_flat_map. induction keys; constructor; [apply same_setting_input|done].
Qed.
Lemma same_setting_row c c' key : same_markup (setting_row c key) (setting_row c' key).
Proof. unfold setting_row. markup. apply same_markup_inert; apply inert_if; reflexivity. Qed.
Lemma same_setting_rows c c' keys : same_markup (flat_map (setting_row c) keys) (flat_map (setting_row c') keys).
Proof. apply same_markup_flat_map. induction keys; constructor; [apply same_setting_row|done]. Qed.
Lemma same_logo_preview b b' : ob_has_logo b = ob_has_logo b' -> same_markup (logo_preview b) (logo_preview b').
Proof. intros E. unfold logo_preview. rewrite E. markup. Qed.
Lemma same_quota_panel q q' : bool_decide (is_Some q) = bool_decide (is_Some q') -> same_markup (quota_panel q) (quota_panel q').
Proof. destruct q as [[q t]|], q' as [[q' t']|]; intros E; first [discriminate E|unfold quota_panel; markup]. Qed.

(** The row of the reader is marked. *)
Definition user_shape (me me' u u' : User) : Prop := bool_decide (u_id u = u_id me) = bool_decide (u_id u' = u_id me').
Lemma same_user_row me me' n n' u u' : user_shape me me' u u' -> same_markup (user_row me n u) (user_row me' n' u').
Proof.
  unfold user_shape. intros E. unfold user_row. cbv zeta. rewrite E. markup; [apply same_role_options|].
  apply same_markup_inert; apply inert_if; apply inert_nil || reflexivity.
Qed.
Lemma same_user_rows me me' n n' l l' : Forall2 (user_shape me me') l l' -> same_markup (user_rows l me n) (user_rows l' me' n').
Proof.
  intros Hl. destruct Hl as [|u u' l l' Hu Hl]; [reflexivity|]. unfold user_rows. apply same_markup_flat_map.
  constructor; [by apply same_user_row|]. eapply Forall2_impl; [exact Hl|]. intros; by apply same_user_row.
Qed.
Lemma same_settings_content c c' p p' b b' q q' l l' n n' me me' :
  ob_has_logo b = ob_has_logo b' -> bool_decide (is_Some q) = bool_decide (is_Some q') -> Forall2 (user_shape me me') l l' ->
  same_markup (settings_content c p b q l n me) (settings_content c' p' b' q' l' n' me').
Proof.
  intros Hb Hq Hl. unfold settings_content. markup.
  all: first [apply same_setting_inputs|apply same_retention_options|by apply same_logo_preview|by apply same_quota_panel
             |apply same_setting_rows|by apply same_user_rows].
Qed.
Lemma same_settings_page c c' p p' b b' q q' l l' n n' me me' styles scripts :
  u_role me = u_role me' ->
  ob_has_logo b = ob_has_logo b' -> bool_decide (is_Some q) = bool_decide (is_Some q') -> Forall2 (user_shape me me') l l' ->
  same_markup (page (py "Settings") (settings_content c p b q l n me) me styles scripts)
              (page (py "Settings") (settings_content c' p' b' q' l' n' me') me' styles scripts).
Proof. intros Hr Hb Hq Hl. apply same_markup_page; [done|]. by apply same_settings_content. Qed.

(** ** Properties *)

Section SettingsPageProperty.
Context `{Unicode} `{Aead} `{Collation} `{HeapOrder}.

(** C29: The settings page shows of a stored setting at most whether there is one, the retention policy
    excepted.  Two databases that differ in the rows of the settings table alone - in the values stored, the
    keys and nonces they are encrypted under, who wrote them and when - get the very same page, provided the
    same settings are present and the two retention settings read the same; and rendering it changes
    nothing. *)
Theorem settings_page_hides_values po current_user w w' :
  w_db w' = set_platform_settings (platform_settings (w_db w')) (w_db w) -> w_now w' = w_now w ->
  (forall key, is_Some (platform_settings (w_db w') !! SettingKey_value key) <-> is_Some (platform_settings (w_db w) !! SettingKey_value key)) ->
  (forall key, key ∈ RETENTION_KEYS -> (read (po_store po) key w').1 = (read (po_store po) key w).1) ->
  (settings_page po current_user w').1 = (settings_page po current_user w).1 /\ (settings_page po current_user w').2 = w'.
Proof.
  intros Hd Hnow Hs Hr. destruct (configured_state_run w) as (state&Hstate). destruct (load_branding_run w) as (b&Hb).
  pose proof (load_policy_same _ _ _ Hr) as Hp. pose proof (load_policy_world (po_store po) w) as Hw.
  pose proof (load_policy_world (po_store po) w') as Hw'.
  unfold settings_page, mbind. rewrite (Hstate w' Hs), (Hstate w) by done. cbn [get_db].
  destruct (load_policy (po_store po) w') as [q' x'], (load_policy (po_store po) w) as [q x]. cbn in Hp, Hw, Hw'. subst q' x x'.
  destruct q as [policy|e]; [|done]. rewrite (Hb w') by (by rewrite Hd). rewrite (Hb w) by done. unfold clock. cbn [mret].
  rewrite Hnow, Hd. done.
Qed.
End SettingsPageProperty.

(** Two databases with different passwords for the mail server. *)
Definition with_password (password : string) : World :=
  (@write_one tagged_aead counting_entropy (po_store sample_portal) 9 (SMTP_PASSWORD, Some (py password)) admin_world).2.
Lemma settings_page_hides_values_witness :
  (@read tagged_aead (po_store sample_portal) SMTP_PASSWORD (with_password "one")).1 = Ok (Some (py "one")) /\
  (@read tagged_aead (po_store sample_portal) SMTP_PASSWORD (with_password "two")).1 = Ok (Some (py "two")) /\
  (@settings_page ascii_unicode tagged_aead ascii_collation plain_heap sample_portal admin_user (with_password "two")).1
  = (@settings_page ascii_unicode tagged_aead ascii_collation plain_heap sample_portal admin_user (with_password "one")).1.
Proof.
  split; [vm_compute; reflexivity|]. split; [vm_compute; reflexivity|].
  pose proof (@settings_page_hides_values ascii_unicode tagged_aead ascii_collation plain_heap sample_portal admin_user
    (with_password "one") (with_password "two")) as X; cbv zeta in X.
  refine (proj1 (X _ _ _ _)).
  - vm_compute. reflexivity.
  - vm_compute. reflexivity.
  - intros key. destruct key; vm_compute; split; intros [row E]; first [discriminate E|eexists; reflexivity].
  - intros key Hk. apply list_elem_of_In in Hk as [<-|[<-|[]]]; vm_compute; reflexivity.
Defined.

(** The two selects ignore the stored value: each save of the page sends their first options. *)
Theorem selects_ignore_stored configured configured' :
  setting_input NOTIFY_DRY_RUN configured = setting_input NOTIFY_DRY_RUN configured' /\
  setting_input SMTP_SECURITY configured = setting_input SMTP_SECURITY configured'.
Proof. split; reflexivity. Qed.
