(* ===== verification/Pages.v ===== *)
(** Every page of the application, and that no value can change the markup of any of them. *)
From S2P Require Import Prelude PyBase Encoding Hashes Json Models Store Config Aead IpAddress Url PlatformSettings Retention Branding Access LocalAuth Web Layout Repr SignIn Analyst Portal Watchlist AuditPages OperationPages UserPages AnalystPages AccountPages SettingsPage.

Section Pages.
Context `{Unicode}.
(** The texts of floating-point numbers and timestamps, and the QR code of a provisioning URI. *)
Variables float_str float_json : pystr -> pystr.
Variable timestamp_str : instant -> pystr.
Variable provisioning_qr_svg : pystr -> pystr.

(** Two renderings of one page, or of one fragment, for readers of the same role and data of the same shape:
    as many rows, the same flags, the same fields present.  Every text - names, addresses, vendor values,
    filters, query strings, file names, metadata - is arbitrary on either side. *)
Inductive renderings : pystr -> pystr -> Prop :=
(* routers/auth.py *)
| R_landing b b' : ob_has_logo b = ob_has_logo b' -> renderings (landing_markup b) (landing_markup b')
| R_mfa_enabled u u' : u_role u = u_role u' -> renderings (mfa_enabled_page u) (mfa_enabled_page u')
| R_mfa_setup u u' uri uri' secret secret' :
    u_role u = u_role u' -> same_markup (provisioning_qr_svg uri) (provisioning_qr_svg uri') ->
    renderings (mfa_setup_markup provisioning_qr_svg u uri secret) (mfa_setup_markup provisioning_qr_svg u' uri' secret')
| R_profile u u' enabled : u_role u = u_role u' -> renderings (profile_markup u enabled) (profile_markup u' enabled)
(* routers/admin.py *)
| R_settings c c' p p' b b' q q' l l' n n' me me' :
    u_role me = u_role me' -> ob_has_logo b = ob_has_logo b' -> bool_decide (is_Some q) = bool_decide (is_Some q') ->
    Forall2 (user_shape me me') l l' ->
    let styles := [py "/static/admin-settings.css?v=7"] in let scripts := [py "/static/admin-settings.js?v=7"] in
    renderings (page (py "Settings") (settings_content c p b q l n me) me styles scripts)
               (page (py "Settings") (settings_content c' p' b' q' l' n' me') me' styles scripts)
(* routers/audit.py *)
| R_audit u u' q q' entries entries' more r r' :
    u_role u = u_role u' -> length entries = length entries' -> (1 <? aq_page_number q) = (1 <? aq_page_number q') ->
    let styles := [py "/static/admin-settings.css?v=7"] in
    renderings (page (py "Audit log") (audit_content float_str q entries more r) u styles [])
               (page (py "Audit log") (audit_content float_str q' entries' more r') u' styles [])
(* watchlist_ui.py, schedule_ui.py, notification_ui.py, batch_ui.py *)
| R_watchlist u u' l l' : u_role u = u_role u' -> length l = length l' -> renderings (watchlist_page u l) (watchlist_page u' l')
| R_schedules u u' l l' : u_role u = u_role u' -> Forall2 schedule_shape l l' -> renderings (schedules_page u l) (schedules_page u' l')
| R_preview t t' : renderings (preview_fragment t) (preview_fragment t')
| R_notifications u u' l l' : u_role u = u_role u' -> length l = length l' -> renderings (notifications_page u l) (notifications_page u' l')
| R_confirmation u u' ty ty' t t' n n' : u_role u = u_role u' -> renderings (confirmation_page u ty t n) (confirmation_page u' ty' t' n')
| R_batches u u' l l' : u_role u = u_role u' -> length l = length l' -> renderings (batch_builder_page float_str u l) (batch_builder_page float_str u' l')
| R_batch u u' b b' : u_role u = u_role u' -> sb_status b = sb_status b' -> renderings (batch_progress_page u b) (batch_progress_page u' b')
| R_batch_fragment b b' : sb_status b = sb_status b' -> renderings (batch_progress_fragment b) (batch_progress_fragment b')
(* user_ui.py *)
| R_portal u u' l l' can_check : u_role u = u_role u' -> Forall2 card_shape l l' -> renderings (dashboard_page float_str u l can_check) (dashboard_page float_str u' l' can_check)
| R_self_check u u' s s' : u_role u = u_role u' -> sc_status s = sc_status s' -> renderings (progress_page u s) (progress_page u' s')
| R_self_check_fragment s s' : sc_status s = sc_status s' -> renderings (progress_fragment s) (progress_fragment s')
| R_fixed id id' : renderings (remediation_complete id) (remediation_complete id')
(* analyst_ui.py *)
| R_dashboard u u' l l' : u_role u = u_role u' -> length l = length l' -> renderings (analyst_dashboard u l) (analyst_dashboard u' l')
| R_scan u u' s s' subject subject' : u_role u = u_role u' -> sc_status s = sc_status s' -> renderings (scan_progress_page u s subject) (scan_progress_page u' s' subject')
| R_scan_fragment s s' : sc_status s = sc_status s' -> renderings (scan_status_fragment s) (scan_status_fragment s')
| R_history h h' p p' :
    u_role (sh_user h) = u_role (sh_user h') -> Forall2 finding_shape (sh_findings h) (sh_findings h') ->
    length (sh_events h) = length (sh_events h') ->
    history_response float_str float_json timestamp_str h = Ok p -> history_response float_str float_json timestamp_str h' = Ok p' ->
    renderings p p'
| R_remediation id id' b : renderings (remediation_markup id b) (remediation_markup id' b)
| R_revealed password password' : renderings (revealed_markup password) (revealed_markup password').

(** ** Properties *)

Lemma same_audit_page u u' q q' entries entries' more r r' styles :
  u_role u = u_role u' -> length entries = length entries' -> (1 <? aq_page_number q) = (1 <? aq_page_number q') ->
  same_markup (page (py "Audit log") (audit_content float_str q entries more r) u styles [])
              (page (py "Audit log") (audit_content float_str q' entries' more r') u' styles []).
Proof using Type. intros Hr Hl Hp. apply same_markup_page; [done|]. by apply same_audit_content. Qed.
Lemma same_preview t t' : same_markup (preview_fragment t) (preview_fragment t').
Proof using Type. unfold preview_fragment. markup. Qed.
Lemma same_remediation_complete id id' : same_markup (remediation_complete id) (remediation_complete id').
Proof using Type. unfold remediation_complete. markup. Qed.
Lemma same_revealed password password' : same_markup (revealed_markup password) (revealed_markup password').
Proof using Type. unfold revealed_markup. change html_escape with esc. markup. Qed.

Lemma same_history h h' p p' : (forall t, inert (timestamp_str t)) ->
  u_role (sh_user h) = u_role (sh_user h') -> Forall2 finding_shape (sh_findings h) (sh_findings h') ->
  length (sh_events h) = length (sh_events h') ->
  history_response float_str float_json timestamp_str h = Ok p -> history_response float_str float_json timestamp_str h' = Ok p' ->
  same_markup p p'.
Proof using Type.
  intros Ht Hr Hf He. unfold history_response. cbv zeta.
  exact (same_history_page _ _ _ Ht _ _ Hr _ _ _ _ _ _ _ _ _ _ _ _ _ _ _ _ Hf He).
Qed.

(** C26: No value can change the markup of a page.  Whatever texts reach a page or a fragment - what users
    typed, what the vendor sent, what the directory lists, what the log keeps - the tags, the attributes and
    the quotations of the result are those of any other rendering with the same shape: the two have the very
    same sequence of angle brackets and quotes.  So no stored or submitted text can add an element or an
    attribute, close one, or end a quotation. *)
Theorem pages_are_inert p p' : (forall t, inert (timestamp_str t)) -> renderings p p' -> skeleton p = skeleton p'.
Proof using Type.
  intros Ht Hr. change (same_markup p p').
  destruct Hr;
    [apply same_landing; assumption|apply same_mfa_enabled; assumption|apply same_mfa_setup; assumption|apply same_profile; assumption
    |apply same_settings_page; assumption|apply same_audit_page; assumption|apply same_watchlist_page; assumption|apply same_schedules_page; assumption
    |apply same_preview|apply same_notifications_page; assumption|apply same_confirmation_page; assumption|apply same_batch_builder_page; assumption
    |apply same_batch_progress_page; assumption|apply same_batch_progress; assumption|apply same_dashboard_page; assumption|apply same_progress_page; assumption
    |apply same_progress_fragment; assumption|apply same_remediation_complete|apply same_analyst_dashboard; assumption
    |apply same_scan_progress_page; assumption|apply same_scan_status; assumption|eapply same_history; eassumption
    |apply same_remediation_markup|apply same_revealed].
Qed.
End Pages.

(** A vendor record full of markup, and an ordinary one. *)
Definition portal_item (source : pystr) (remediated : bool) : list (pystr * json) :=
  [(py "id", JStr (py "f1")); (py "remediated", JBool remediated); (py "re_leaked", JBool false); (py "source", JStr source);
   (py "fields", JList [JStr source; JInt 3]); (py "origin", JStr source); (py "guidance", JStr source)].
Lemma pages_are_inert_witness :
  let card source := @dashboard_page ascii_unicode (fun t => t) admin_user [portal_item source false] true in
  contains (card (tpl "<img src=x onerror=`'>")) (tpl "&lt;img src=x onerror=&quot;&#x27;&gt;") = true /\
  skeleton (card (tpl "<img src=x onerror=`'>")) = skeleton (card (py "Forum")).
Proof.
  intros card. split; [vm_compute; reflexivity|]. unfold card.
  refine (@pages_are_inert ascii_unicode (fun t => t) (fun t => t) str_int (fun t => t) _ _ inert_str_int
    (@R_portal ascii_unicode (fun t => t) (fun t => t) str_int (fun t => t) admin_user admin_user
       [portal_item (tpl "<img src=x onerror=`'>") false] [portal_item (py "Forum") false] true eq_refl _)).
  apply Forall2_cons; split; [split; vm_compute; reflexivity|apply Forall2_nil_2].
Defined.
