(* ===== verification/Application.v ===== *)
(** The assembled application (app/main.py): the routes of every router with their guards, how a request finds
    its route, the middleware around them, and the task that keeps the worker running. *)
From S2P Require Import Prelude PyBase Encoding Hashes Json Models Store Config PlatformSettings Session Csrf Web Access Branding LocalAuth SignIn Headers.

(** *** Routes *)

(** The function behind each route. *)
Inductive Endpoint : Type :=
| At_landing_page | At_branding_logo | At_issue_csrf_token | At_start_google_login | At_finish_google_login | At_finish_local_login
| At_mfa_setup_page | At_enable_mfa | At_profile_page | At_change_password | At_logout | At_settings_page
| At_update_settings | At_create_user | At_update_user | At_update_branding | At_revoke_user_sessions | At_sync_workspace
| At_queue_test_alert | At_audit_page | At_dashboard | At_run_analyst_scan | At_scan_progress | At_scan_progress_status
| At_subject_history | At_reveal_finding_password | At_mark_remediated | At_mark_unremediated | At_export_subject_csv | At_list_batches
| At_add_batch | At_batch_progress | At_batch_status | At_list_schedules | At_preview_schedule | At_create_schedule
| At_toggle_schedule | At_remove_schedule | At_list_notifications | At_preview_notifications | At_confirm_notifications | At_list_watchlist
| At_add_watchlist_entry | At_remove_watchlist_entry | At_toggle_watchlist_channel | At_remediate | At_unremediate | At_user_dashboard
| At_self_check | At_self_scan_progress | At_self_scan_status | At_self_remediate | At_healthz.
#[export] Instance Endpoint_eq_dec : EqDecision Endpoint.
Proof. solve_decision. Defined.

(** A route: its method, its path with a name in braces for a variable segment, the roles of its guard
    (none: public), and its function. *)
Record Route := mkRoute { rt_method : string; rt_path : string; rt_guard : list UserRole; rt_endpoint : Endpoint }.

Definition ADMIN_GUARD : list UserRole := [Role_SUPER_ADMIN].
Definition ANALYST_GUARD : list UserRole := [Role_ANALYST; Role_SUPER_ADMIN].
Definition ALL_ROLES_GUARD : list UserRole := [Role_USER; Role_ANALYST; Role_SUPER_ADMIN].
Local Open Scope string_scope.
Definition auth_router : list Route :=
  [mkRoute "GET" "/" [] At_landing_page;
   mkRoute "GET" "/branding/logo" [] At_branding_logo;
   mkRoute "GET" "/auth/csrf" [] At_issue_csrf_token;
   mkRoute "GET" "/auth/google/login" [] At_start_google_login;
   mkRoute "GET" "/auth/google/callback" [] At_finish_google_login;
   mkRoute "POST" "/auth/local/login" [] At_finish_local_login;
   mkRoute "GET" "/account/mfa" ALL_ROLES_GUARD At_mfa_setup_page;
   mkRoute "POST" "/account/mfa/enable" ALL_ROLES_GUARD At_enable_mfa;
   mkRoute "GET" "/account/profile" ALL_ROLES_GUARD At_profile_page;
   mkRoute "POST" "/account/profile/password" ALL_ROLES_GUARD At_change_password;
   mkRoute "POST" "/auth/logout" ALL_ROLES_GUARD At_logout].
Definition admin_router : list Route :=
  [mkRoute "GET" "/admin/settings" ADMIN_GUARD At_settings_page;
   mkRoute "POST" "/admin/settings" ADMIN_GUARD At_update_settings;
   mkRoute "POST" "/admin/users" ADMIN_GUARD At_create_user;
   mkRoute "POST" "/admin/users/{user_id}" ADMIN_GUARD At_update_user;
   mkRoute "POST" "/admin/branding" ADMIN_GUARD At_update_branding;
   mkRoute "POST" "/admin/users/{user_id}/sessions/revoke" ADMIN_GUARD At_revoke_user_sessions;
   mkRoute "POST" "/admin/workspace/sync" ADMIN_GUARD At_sync_workspace;
   mkRoute "POST" "/admin/alerts/test/{sink}" ADMIN_GUARD At_queue_test_alert].
Definition audit_router : list Route :=
  [mkRoute "GET" "/admin/audit" ADMIN_GUARD At_audit_page].
Definition analyst_router : list Route :=
  [mkRoute "GET" "/analyst" ANALYST_GUARD At_dashboard;
   mkRoute "POST" "/analyst/scans/{kind}" ANALYST_GUARD At_run_analyst_scan;
   mkRoute "GET" "/analyst/scans/{scan_id}" ANALYST_GUARD At_scan_progress;
   mkRoute "GET" "/analyst/scans/{scan_id}/status" ANALYST_GUARD At_scan_progress_status;
   mkRoute "GET" "/analyst/subjects/{subject_id}" ANALYST_GUARD At_subject_history;
   mkRoute "POST" "/analyst/findings/{finding_id}/reveal" ANALYST_GUARD At_reveal_finding_password;
   mkRoute "POST" "/analyst/findings/{finding_id}/remediate" ANALYST_GUARD At_mark_remediated;
   mkRoute "POST" "/analyst/findings/{finding_id}/unremediate" ANALYST_GUARD At_mark_unremediated;
   mkRoute "GET" "/analyst/subjects/{subject_id}/export.csv" ANALYST_GUARD At_export_subject_csv].
Definition batches_router : list Route :=
  [mkRoute "GET" "/analyst/batches" ANALYST_GUARD At_list_batches;
   mkRoute "POST" "/analyst/batches" ANALYST_GUARD At_add_batch;
   mkRoute "GET" "/analyst/batches/{batch_id}" ANALYST_GUARD At_batch_progress;
   mkRoute "GET" "/analyst/batches/{batch_id}/status" ANALYST_GUARD At_batch_status].
Definition schedules_router : list Route :=
  [mkRoute "GET" "/analyst/schedules" ANALYST_GUARD At_list_schedules;
   mkRoute "GET" "/analyst/schedules/preview" ANALYST_GUARD At_preview_schedule;
   mkRoute "POST" "/analyst/schedules" ANALYST_GUARD At_create_schedule;
   mkRoute "POST" "/analyst/schedules/{schedule_id}/toggle" ANALYST_GUARD At_toggle_schedule;
   mkRoute "POST" "/analyst/schedules/{schedule_id}/delete" ANALYST_GUARD At_remove_schedule].
Definition notifications_router : list Route :=
  [mkRoute "GET" "/analyst/notifications" ANALYST_GUARD At_list_notifications;
   mkRoute "POST" "/analyst/notifications/preview" ANALYST_GUARD At_preview_notifications;
   mkRoute "POST" "/analyst/notifications/confirm" ANALYST_GUARD At_confirm_notifications].
Definition watchlist_router : list Route :=
  [mkRoute "GET" "/analyst/watchlist" ANALYST_GUARD At_list_watchlist;
   mkRoute "POST" "/analyst/watchlist" ANALYST_GUARD At_add_watchlist_entry;
   mkRoute "POST" "/analyst/watchlist/{entry_id}/delete" ANALYST_GUARD At_remove_watchlist_entry;
   mkRoute "POST" "/analyst/watchlist/{entry_id}/toggle/{channel}" ANALYST_GUARD At_toggle_watchlist_channel].
Definition findings_router : list Route :=
  [mkRoute "POST" "/api/findings/{finding_id}/remediate" ANALYST_GUARD At_remediate;
   mkRoute "POST" "/api/findings/{finding_id}/unremediate" ANALYST_GUARD At_unremediate].
Definition user_router : list Route :=
  [mkRoute "GET" "/portal" ALL_ROLES_GUARD At_user_dashboard;
   mkRoute "POST" "/portal/check" ALL_ROLES_GUARD At_self_check;
   mkRoute "GET" "/portal/scans/{scan_id}" ALL_ROLES_GUARD At_self_scan_progress;
   mkRoute "GET" "/portal/scans/{scan_id}/status" ALL_ROLES_GUARD At_self_scan_status;
   mkRoute "POST" "/portal/findings/{finding_id}/remediate" ALL_ROLES_GUARD At_self_remediate].
Definition health_router : list Route :=
  [mkRoute "GET" "/healthz" [] At_healthz].
Local Close Scope string_scope.
(** In the order in which the application includes them. *)
Definition routes : list Route :=
  auth_router ++ admin_router ++ audit_router ++ analyst_router ++ batches_router ++ schedules_router ++
  notifications_router ++ watchlist_router ++ findings_router ++ user_router ++ health_router.

(** Starlette's matching: the whole path, segment by segment; a variable one is any that is not empty. *)
Definition variable (segment : pystr) : bool := startswith segment (py "{").
Fixpoint match_segments (template path : list pystr) : option (list pystr) :=
  match template, path with
  | [], [] => Some []
  | t :: template, s :: path =>
      if variable t then if bool_decide (s = []) then None else cons s <$> match_segments template path
      else if bool_decide (t = s) then match_segments template path else None
  | _, _ => None
  end.
Definition match_path (template : string) (path : pystr) : option (list pystr) :=
  match_segments (split_char 47 (py template)) (split_char 47 path).
(** The first route of the method and the path, with the variable segments. *)
Fixpoint find_route (rs : list Route) (method path : pystr) : option (Route * list pystr) :=
  match rs with
  | [] => None
  | r :: rs =>
      match match_path (rt_path r) path with
      | Some params => if bool_decide (py (rt_method r) = method) then Some (r, params) else find_route rs method path
      | None => find_route rs method path
      end
  end.
Definition path_known (path : pystr) : bool := existsb (fun r => bool_decide (is_Some (match_path (rt_path r) path))) routes.
(** A path with its last slash taken away, or given one. *)
Definition other_slash (path : pystr) : pystr := if endswith path [47] then rstrip_by (Z.eqb 47) path else path ++ [47].

(** What is wrong with the body of a request whose function takes a model of it. *)
Inductive BodyRefusal : Type := Unreadable | NotJson.
(** ... and the status of its refusal. *)
Definition refusal_status (b : BodyRefusal) : Z := match b with Unreadable => 400 | NotJson => 422 end.

(** What the server gets of a request: what was sent, and the exception that the application ended with. *)
Record Served := mkServed { sv_response : option WebResponse; sv_raised : option exn }.

(** What the framework does besides: it refuses a body that it cannot read or that is no JSON before it looks at
    any dependency, it refuses a foreign host, it serves the static files, it renders an [HTTPException], and
    around everything it deals with an exception that nothing handled. *)
Class Framework := {
  body_refused : Endpoint -> WebRequest -> option BodyRefusal;
  refuse_host : list pystr -> Scope -> option WebResponse;
  serve_static : pystr -> pystr -> result WebResponse;
  error_response : Z -> WebResponse;
  serve_errors : result WebResponse -> Served;
}.
(** An answer is sent as it is; for an exception a page with status 500 is sent and the exception is raised again;
    what is no [Exception] is not caught. *)
Class FrameworkLaws `{Framework} : Prop := {
  serve_answer : forall resp, serve_errors (Ok resp) = mkServed (Some resp) None;
  serve_exception : forall e, is_exception e = true ->
    exists page, serve_errors (Raise e) = mkServed (Some page) (Some e) /\ ws_status page = 500;
  serve_exit : forall e, is_exception e = false -> serve_errors (Raise e) = mkServed None (Some e);
}.

Section Application.
Context `{Entropy} `{HeaderList} `{Framework}.
(** What each endpoint does with its path parameters, the current user and the request. *)
Variable endpoint : Endpoint -> list pystr -> option User -> WebRequest -> M WebResponse.
Variable manager : SessionManager.

(** A request of a route: its dependencies, its function, and the commit or roll-back of its session. *)
Definition run_route (route : Route) (params : list pystr) (r : WebRequest) : M WebResponse :=
  match body_refused (rt_endpoint route) r with
  | Some refusal => raise (HTTPException (refusal_status refusal))
  | None =>
      get_db_session
        match require_role (rt_guard route) with
        | Raise _ => endpoint (rt_endpoint route) params None r
        | Ok dependency =>
            let! user <- dependency (get_current_user manager (wr_cookies r));
            endpoint (rt_endpoint route) params (Some user) r
        end
  end.

Definition STATIC_PREFIX : pystr := py "/static/".
Definition dispatch (method path : pystr) (r : WebRequest) : M WebResponse :=
  match find_route routes method path with
  | Some (route, params) => run_route route params r
  | None =>
      if path_known path then raise (HTTPException 405)
      else if startswith path STATIC_PREFIX then lift (serve_static method (drop (length STATIC_PREFIX) path))
      else if negb (bool_decide (path = [47])) && path_known (other_slash path)
      then mret (mkWebResponse 307 (B_text []) [(py "location", other_slash path)] [])
      else raise (HTTPException 404)
  end.

(** *** Middleware *)

(** A request as the server hands it on. *)
Record Call := mkCall { call_scope : Scope; call_path : pystr; call_request : WebRequest }.
Definition Asgi : Type := Call -> M WebResponse.

(** An [HTTPException] is answered with its status; an invalid parameter is one of 422. *)
Definition exception_middleware (app : Asgi) : Asgi := fun c =>
  try_except (app c) (fun e => match e with HTTPException _ => true | _ => false end)
    (fun e => mret (error_response (match e with HTTPException status => status | _ => 500 end))).
Definition trusted_host_middleware (allowed_hosts : list pystr) (app : Asgi) : Asgi := fun c =>
  match refuse_host allowed_hosts (call_scope c) with Some refusal => mret refusal | None => app c end.
Definition csrf_middleware (protector : CSRFProtector) (app : Asgi) : Asgi := fun c =>
  csrf_call protector (fun _ => app c)
    (fun refusal => mret (mkWebResponse (rs_status refusal) (B_text (rs_body refusal)) (rs_headers refusal) []))
    (call_scope c).
Definition security_headers_middleware (environment : Environment) (app : Asgi) : Asgi := fun c =>
  let! r <- app c;
  mret (mkWebResponse (ws_status r) (ws_body r) (sent environment r) (ws_cookies r)).

Inductive Middleware : Type :=
| TrustedHostMiddleware (allowed_hosts : list pystr)
| CSRFMiddleware (protector : CSRFProtector)
| SecurityHeadersMiddleware (environment : Environment).
Definition apply_middleware (m : Middleware) : Asgi -> Asgi :=
  match m with
  | TrustedHostMiddleware hosts => trusted_host_middleware hosts
  | CSRFMiddleware protector => csrf_middleware protector
  | SecurityHeadersMiddleware environment => security_headers_middleware environment
  end.
(** [app.add_middleware] puts the new one in front. *)
Definition add_middleware (m : Middleware) (stack : list Middleware) : list Middleware := m :: stack.
Definition layers (stack : list Middleware) (app : Asgi) : Asgi := foldr apply_middleware (exception_middleware app) stack.
(** Outermost is the framework's own handling of errors. *)
Definition build_stack (stack : list Middleware) (app : Asgi) (c : Call) (w : World) : Served * World :=
  let '(r, w') := layers stack app c w in (serve_errors r, w').

(** The application: what the routes find in its state, and its middleware. *)
Record App := mkApp { app_state : PortalState; app_stack : list Middleware }.
Definition create_app (settings : Settings) : result App :=
  try! protector <- new_csrf_protector settings;
  try! store <- open_store settings;
  try! authenticator <- new_local_authenticator settings;
  try! sessions <- new_session_manager settings;
  Ok (mkApp (mkPortalState settings sessions protector authenticator store None)
       (add_middleware (SecurityHeadersMiddleware (environment settings))
         (add_middleware (CSRFMiddleware protector)
           (add_middleware (TrustedHostMiddleware (trusted_hosts settings)) [])))).
End Application.

(** A request to an application, whose guards use the sessions of its state. *)
Definition routed `{Entropy} `{Framework} (endpoint : Endpoint -> list pystr -> option User -> WebRequest -> M WebResponse)
    (app : App) : Asgi :=
  fun c => dispatch endpoint (po_sessions (app_state app)) (scope_method (call_scope c)) (call_path c) (call_request c).
Definition application `{Entropy} `{HeaderList} `{Framework} (endpoint : Endpoint -> list pystr -> option User -> WebRequest -> M WebResponse)
    (app : App) : Call -> World -> Served * World :=
  build_stack (app_stack app) (routed endpoint app).

(** *** The supervised worker *)

(** How one run of the worker ends. *)
Inductive WorkerEnd : Type := Cancelled | Crashed (e : exn) | Returned.
Definition WORKER_RESTART_DELAY : Z := timedelta_seconds 5.
(** [_supervise_worker], for as many runs as the fuel: when the runs began, and whether it was cancelled; a run
    starts at a time and lasts a while. *)
Fixpoint supervise_worker (fuel : nat) (runs : nat -> WorkerEnd * Z) (n : nat) (now : instant) : list instant * bool :=
  match fuel with
  | O => ([], false)
  | S fuel =>
      let '(ending, lasted) := runs n in
      match ending with
      | Cancelled => ([now], true)
      | Crashed _ => let '(starts, cancelled) := supervise_worker fuel runs (S n) (now + lasted + WORKER_RESTART_DELAY) in (now :: starts, cancelled)
      | Returned => let '(starts, cancelled) := supervise_worker fuel runs (S n) (now + lasted) in (now :: starts, cancelled)
      end
  end.

(** *** Who may ask for what *)

(** The pages that anyone may see. *)
Definition PUBLIC_PATHS : list string :=
  ["/"; "/auth/csrf"; "/auth/google/login"; "/auth/google/callback"; "/auth/local/login"; "/branding/logo"; "/healthz"]%string.
(** The roles for an area of the application, by the first segment of the path. *)
Definition area_of (segments : list pystr) : list UserRole :=
  match segments with
  | _ :: segment :: _ =>
      if bool_decide (segment = py "admin") then ADMIN_GUARD
      else if bool_decide (segment = py "analyst") || bool_decide (segment = py "api") then ANALYST_GUARD
      else ALL_ROLES_GUARD
  | _ => ALL_ROLES_GUARD
  end.
Definition area (path : pystr) : list UserRole := area_of (split_char 47 path).

(** A route of the table: public under one of the public paths, or guarded as its area is. *)
Definition route_ok (r : Route) : bool :=
  let segments := split_char 47 (py (rt_path r)) in
  (bool_decide (rt_path r ∈ PUBLIC_PATHS) && bool_decide (rt_guard r = []) && forallb (fun t => negb (variable t)) segments)
  || (negb (bool_decide (rt_path r ∈ PUBLIC_PATHS)) && bool_decide (rt_guard r = area_of segments)
      && match segments with _ :: t :: _ => negb (variable t) | _ => false end).
(** Two templates that some path could match. *)
Fixpoint overlap (t u : list pystr) : bool :=
  match t, u with
  | [], [] => true
  | a :: t, b :: u => (variable a || variable b || bool_decide (a = b)) && overlap t u
  | _, _ => false
  end.
#[export] Instance Route_eq_dec : EqDecision Route.
Proof. solve_decision. Defined.
Definition told_apart (r1 r2 : Route) : bool :=
  bool_decide (r1 = r2) || negb (bool_decide (rt_method r1 = rt_method r2))
  || negb (overlap (split_char 47 (py (rt_path r1))) (split_char 47 (py (rt_path r2)))).

(** ** Lemmas: routing *)

Lemma match_literal t p ps : forallb (fun s => negb (variable s)) t = true -> match_segments t p = Some ps -> p = t.
Proof.
  revert p ps. induction t as [|a t IH]; intros [|b p] ps Ht; cbn [match_segments]; try done.
  cbn [forallb] in Ht. apply andb_true_iff in Ht as [Ha Ht]. destruct (variable a); [done|].
  destruct (bool_decide (a = b)) eqn:E; [|done]. apply bool_decide_eq_true in E as ->. intros Hm. by rewrite (IH p ps Ht Hm).
Qed.
Lemma match_head a t p ps : variable a = false -> match_segments (a :: t) p = Some ps -> exists p', p = a :: p' /\ match_segments t p' = Some ps.
Proof.
  intros Ha. destruct p as [|b p]; [done|]. cbn [match_segments]. rewrite Ha. destruct (bool_decide (a = b)) eqn:E; [|done].
  apply bool_decide_eq_true in E as ->. intros Hm. by exists p.
Qed.
Lemma match_tail a t p ps : match_segments (a :: t) p = Some ps -> exists b p' ps', p = b :: p' /\ match_segments t p' = Some ps'.
Proof.
  destruct p as [|b p]; [done|]. cbn [match_segments]. destruct (variable a).
  - destruct (bool_decide (b = [])); [done|]. destruct (match_segments t p) as [qs|] eqn:E; [|done]. intros _. by exists b, p, qs.
  - destruct (bool_decide (a = b)); [|done]. intros Hm. by exists b, p, ps.
Qed.
Lemma match_area t p ps : match t with _ :: s :: _ => variable s = false | _ => False end -> match_segments t p = Some ps -> area_of p = area_of t.
Proof.
  destruct t as [|a [|s t]]; [done|done|]. intros Hs (b&p1&qs&->&Hm)%match_tail. apply match_head in Hm as (p2&->&_); [|done]. reflexivity.
Qed.
Lemma match_overlap t u p ps qs : match_segments t p = Some ps -> match_segments u p = Some qs -> overlap t u = true.
Proof.
  revert u p ps qs. induction t as [|a t IH]; intros [|b u] [|c p] ps qs; cbn [match_segments overlap]; try done; try (by intros ? [=]).
  destruct (variable a) eqn:Ea, (variable b) eqn:Eb; cbn [orb andb].
  - destruct (bool_decide (c = [])); [done|]. destruct (match_segments t p) eqn:E1; [|done]. destruct (match_segments u p) eqn:E2; [|done].
      intros _ _. by eapply IH.
  - destruct (bool_decide (c = [])); [done|]. destruct (match_segments t p) eqn:E1; [|done]. destruct (bool_decide (b = c)); [|done].
      intros _ E2. by eapply IH.
  - destruct (bool_decide (a = c)); [|done]. intros E1. destruct (bool_decide (c = [])); [done|]. destruct (match_segments u p) eqn:E2; [|done].
      intros _. by eapply IH.
  - destruct (bool_decide (a = c)) eqn:E1; [|done]. destruct (bool_decide (b = c)) eqn:E2; [|done].
      apply bool_decide_eq_true in E1, E2. subst. rewrite bool_decide_true by done. cbn [andb]. by apply IH.
Qed.

Lemma find_route_inv rs method path r ps : find_route rs method path = Some (r, ps) ->
  r ∈ rs /\ match_path (rt_path r) path = Some ps /\ py (rt_method r) = method.
Proof.
  induction rs as [|r0 rs IH]; [done|]. cbn [find_route]. destruct (match_path (rt_path r0) path) as [qs|] eqn:Em.
  - destruct (bool_decide (py (rt_method r0) = method)) eqn:Eb.
    + intros [= <- <-]. apply bool_decide_eq_true in Eb. by split; [left|].
    + intros Hf. destruct (IH Hf) as (?&?&?). by split; [right|].
  - intros Hf. destruct (IH Hf) as (?&?&?). by split; [right|].
Qed.

Lemma routes_ok : Forall (fun r => route_ok r = true) routes.
Proof. apply forallb_Forall. vm_compute. reflexivity. Qed.
Lemma routes_apart : Forall (fun r1 => Forall (fun r2 => told_apart r1 r2 = true) routes) routes.
Proof.
  eapply Forall_impl; [apply (proj1 (forallb_Forall (fun r1 => forallb (told_apart r1) routes) routes)); vm_compute; reflexivity|].
  intros r1. apply forallb_Forall.
Qed.

(** A matching route is public under a public path, or guarded as the path's area. *)
Lemma route_guard r path ps : r ∈ routes -> match_path (rt_path r) path = Some ps ->
  (exists public, public ∈ PUBLIC_PATHS /\ path = py public /\ rt_guard r = []) \/ rt_guard r = area path.
Proof.
  intros Hin Hm. pose proof routes_ok as Hok. rewrite Forall_forall in Hok. specialize (Hok r Hin). unfold route_ok in Hok.
  apply orb_true_iff in Hok as [Hok|Hok]; apply andb_true_iff in Hok as [Hok Hseg]; apply andb_true_iff in Hok as [Hp Hg]; apply bool_decide_eq_true in Hg.
  - left. exists (rt_path r). split; [by apply bool_decide_eq_true in Hp|]. split; [|done].
    apply match_literal in Hm; [|done]. rewrite <- (join_split_char 47 path), Hm. by rewrite join_split_char.
  - right. rewrite Hg. symmetry. eapply match_area; [|exact Hm]. destruct (split_char 47 (py (rt_path r))) as [|? [|s l]]; [done|done|].
    by apply negb_true_iff in Hseg.
Qed.

(** A value of a list that both are given. *)
Ltac listed := apply (bool_decide_unpack _); vm_compute; exact I.

Lemma no_public_guard path : area path <> [].
Proof. unfold area, area_of. destruct (split_char 47 path) as [|? [|s l]]; [done|done|]. destruct (bool_decide _); [done|]. by destruct (_ || _). Qed.

Section Middlewares.
Context `{Entropy} `{HeaderListLaws} `{Framework}.
Variable endpoint : Endpoint -> list pystr -> option User -> WebRequest -> M WebResponse.
Variable manager : SessionManager.

(** What comes out of the policy's middleware carries the policy. *)
Definition carries_policy (environment : Environment) (r : WebResponse) : Prop :=
  forall name value, (name, value) ∈ security_headers environment -> header_values name (ws_headers r) = [value].
Lemma policy_value environment name value : (name, value) ∈ security_headers environment ->
  header_values name (security_headers environment) = [value].
Proof using Type.
  intros Hin.
  assert (Hall : Forall (fun kv => header_values kv.1 (security_headers environment) = [kv.2]) (security_headers environment)).
  { destruct environment; repeat (apply Forall_cons; split; [vm_compute; reflexivity|]); by apply Forall_nil. }
  rewrite Forall_forall in Hall. exact (Hall _ Hin).
Qed.
Lemma policy_middleware environment (app : Asgi) c w resp w' :
  security_headers_middleware environment app c w = (Ok resp, w') -> carries_policy environment resp.
Proof using Type*.
  unfold security_headers_middleware. intros (r&w1&_&[= -> _]%eq_sym)%mbind_inv name value Hin. cbn [ws_headers].
  by rewrite sent_values, (policy_value _ _ _ Hin).
Qed.
(** No [HTTPException] gets past the middleware: all of them are answered. *)
Definition not_http (e : exn) : Prop := forall status, e <> HTTPException status.
Lemma exception_middleware_raises (app : Asgi) c : raises not_http (exception_middleware app c).
Proof using Type.
  intros w e. unfold exception_middleware, try_except. destruct (app c w) as [[resp|x] w1]; [done|].
  destruct x; cbn [fst]; (intros [=]; fail) || (intros [= <-] status; discriminate).
Qed.
Lemma layers_raise stack (app : Asgi) c : raises not_http (layers stack app c).
Proof using Type.
  induction stack as [|m stack IH]; [apply exception_middleware_raises|]. unfold layers in *. cbn [foldr].
  destruct m; cbn [apply_middleware].
  - unfold trusted_host_middleware. destruct (refuse_host _ _); [by intros ? ?|done].
  - unfold csrf_middleware, csrf_call. destruct (_ || _); [done|]. apply raises_bind.
    + intros w. apply fails_valid. by intros status.
    + intros []; [done|by intros w e].
  - unfold security_headers_middleware. apply raises_bind; [done|by intros resp w e].
Qed.

(** The stack as it is built. *)
Lemma create_app_stack settings app : create_app settings = Ok app ->
  exists protector, new_csrf_protector settings = Ok protector
    /\ app_stack app = [SecurityHeadersMiddleware (environment settings); CSRFMiddleware protector; TrustedHostMiddleware (trusted_hosts settings)].
Proof using Type.
  unfold create_app. intros (protector&Hp&E)%rbind_Ok. apply rbind_Ok in E as (store&_&E). apply rbind_Ok in E as (auth&_&E).
  apply rbind_Ok in E as (sessions&_&[= <-]). by exists protector.
Qed.
(** Validated settings make an application. *)
Lemma create_app_validated `{Unicode} settings : validate_settings settings = Ok settings -> exists app, create_app settings = Ok app.
Proof using Type.
  intros Hs. destruct (open_store_validated settings Hs) as (store&Es&_). destruct (validated_session_secret settings Hs) as (secret&Ek&_).
  unfold create_app, new_csrf_protector, new_local_authenticator, new_session_manager. rewrite Ek. cbn [rbind]. rewrite Es. cbn [rbind]. by eexists.
Qed.
End Middlewares.

(** The worker is started again after every end that is no cancellation, five seconds after a crash. *)
Lemma worker_is_kept_running fuel runs n now : (forall k, (runs k).1 <> Cancelled) ->
  length (supervise_worker fuel runs n now).1 = fuel /\ (supervise_worker fuel runs n now).2 = false.
Proof.
  intros Hr. revert n now. induction fuel as [|fuel IH]; intros n now; [done|]. cbn [supervise_worker].
  specialize (Hr n). destruct (runs n) as [[|e|] lasted]; [done| |].
  - destruct (IH (S n) (now + lasted + WORKER_RESTART_DELAY)) as [Hl Hc]. destruct (supervise_worker _ _ _ _) as [starts c]. cbn in *. by split; [f_equal|].
  - destruct (IH (S n) (now + lasted)) as [Hl Hc]. destruct (supervise_worker _ _ _ _) as [starts c]. cbn in *. by split; [f_equal|].
Qed.

(** ** Properties *)

(** C4: The whole application denies by default.  Take any request whose path is none of the seven public ones and
    not a static file, and let the endpoints do whatever they do.  Either an endpoint runs, and then as the active
    user of a live session whose role is one of those for the area - super-admins under /admin, analysts and
    super-admins under /analyst and /api, any role elsewhere; or the request is answered 400, 401, 403, 404,
    405 or 422, or redirected to the path with another slash, and the database is unchanged.  And the table of routes is
    unambiguous: at most one route of a method matches a path, in whatever order the routers are included. *)
Theorem application_denies_by_default `{Entropy} `{Framework} endpoint manager method path r w :
  path ∉ map py PUBLIC_PATHS -> startswith path STATIC_PREFIX = false ->
  ((exists v w1 e params, verify manager (wr_cookies r !! SESSION_COOKIE_NAME) None w = (Ok (Some v), w1)
      /\ u_is_active (vs_user v) = true /\ u_role (vs_user v) ∈ area path
      /\ dispatch endpoint manager method path r w = get_db_session (fun _ => endpoint e params (Some (vs_user v)) r w1) w)
   \/ (exists status w', dispatch endpoint manager method path r w = (Raise (HTTPException status), w')
      /\ status ∈ [400; 401; 403; 404; 405; 422] /\ w_committed w' = w_committed w /\ (w_db w' = w_db w \/ w_db w' = w_committed w))
   \/ exists resp, dispatch endpoint manager method path r w = (Ok resp, w) /\ ws_status resp = 307)
  /\ (forall r1 r2 ps qs, r1 ∈ routes -> r2 ∈ routes -> rt_method r1 = rt_method r2 ->
        match_path (rt_path r1) path = Some ps -> match_path (rt_path r2) path = Some qs -> r1 = r2).
Proof.
  intros Hpub Hst. split.
  - unfold dispatch. destruct (find_route routes method path) as [[route params]|] eqn:Ef.
    + apply find_route_inv in Ef as (Hin&Hm&_). destruct (route_guard _ _ _ Hin Hm) as [(p&Hp&->&_)|Hg].
      { exfalso. apply Hpub. apply list_elem_of_In, List.in_map. by apply list_elem_of_In. }
      unfold run_route. destruct (body_refused _ _) as [refusal|].
      { right. left. exists (refusal_status refusal), w. split_and!; [done|destruct refusal; listed|done|by left]. }
      rewrite Hg. pose proof (no_public_guard path) as Hne. destruct (require_role (area path)) as [dependency|e] eqn:Er; [|by destruct (area path)].
      destruct (guarded_cases manager (area path) dependency (wr_cookies r)
        (fun user => endpoint (rt_endpoint route) params (Some user) r) w Er) as [(v&w1&Ev&Ha&Hr&E)|(status&w'&E&Hc&Hd&Hs)].
      * left. by exists v, w1, (rt_endpoint route), params.
      * right. left. exists status, w'. split_and!; [done| |done|by right].
        destruct (verify manager _ None w).1 as [[v|]|e]; [destruct Hs as [-> _]|subst status|subst status]; listed.
    + destruct (path_known path); [right; left; exists 405, w; split_and!; [done|listed|done|by left]|].
      rewrite Hst. destruct (negb _ && _); [right; right; eexists; by split|].
      right. left. exists 404, w. split_and!; [done|listed|done|by left].
  - intros r1 r2 ps qs H1 H2 Hmeth Hm1 Hm2. pose proof routes_apart as Ha. rewrite Forall_forall in Ha. specialize (Ha r1 H1).
    rewrite Forall_forall in Ha. specialize (Ha r2 H2). unfold told_apart in Ha. rewrite (match_overlap _ _ _ _ _ Hm1 Hm2) in Ha.
    rewrite (bool_decide_true (rt_method r1 = rt_method r2)) in Ha by done. cbn [negb orb] in Ha. rewrite !orb_false_r in Ha. by apply bool_decide_eq_true in Ha.
Qed.

(** C39: Every request passes the middleware.  Whatever the endpoints do with an HTTP request, one of two things
    happens.  Either one answer is sent, it carries every header of the security policy with the policy's value,
    and no exception is left; or an exception came through all of the middleware - never an [HTTPException],
    which is always answered - and reaches the server, after an error page with status 500 unless it ends the
    process.  An unsafe request whose token is not valid gets 403, and one whose host is refused gets that
    refusal, and in both cases nothing at all is changed. *)
Theorem requests_pass_the_middleware `{Entropy} `{HeaderListLaws} `{FrameworkLaws} endpoint settings app c w served w' :
  create_app settings = Ok app -> scope_type (call_scope c) = py "http" -> application endpoint app c w = (served, w') ->
  ((exists resp, served = mkServed (Some resp) None /\ carries_policy (environment settings) resp)
   \/ exists e, layers (app_stack app) (routed endpoint app) c w = (Raise e, w') /\ sv_raised served = Some e
        /\ (forall status, e <> HTTPException status)
        /\ if is_exception e then exists page, sv_response served = Some page /\ ws_status page = 500 else sv_response served = None)
  /\ exists protector, new_csrf_protector settings = Ok protector
    /\ let token_ok := valid protector (scope_cookies (call_scope c) !! SESSION_COOKIE_NAME) (scope_cookies (call_scope c) !! CSRF_COOKIE_NAME)
                         (scope_headers (call_scope c) !! map to_lower CSRF_HEADER_NAME) in
       (scope_method (call_scope c) ∉ SAFE_METHODS -> token_ok = Ok false ->
          w' = w /\ exists resp, served = mkServed (Some resp) None /\ ws_status resp = 403)
       /\ (forall refusal, scope_method (call_scope c) ∈ SAFE_METHODS \/ token_ok = Ok true ->
             refuse_host (trusted_hosts settings) (call_scope c) = Some refusal ->
             w' = w /\ exists resp, served = mkServed (Some resp) None /\ ws_status resp = ws_status refusal).
Proof.
  intros Hs Ht Ha. destruct (create_app_stack _ _ Hs) as (protector&Hp&Est). unfold application, build_stack in Ha.
  destruct (layers (app_stack app) (routed endpoint app) c w) as [r w1] eqn:El. injection Ha as <- <-. split.
  - destruct r as [resp|e].
    + left. exists resp. split; [apply serve_answer|]. rewrite Est in El. by apply policy_middleware in El.
    + right. exists e. split; [done|]. pose proof (layers_raise (app_stack app) (routed endpoint app) c w e) as Hh. rewrite El in Hh.
      destruct (is_exception e) eqn:Ee.
      * destruct (serve_exception e Ee) as (page&->&Hpage). split_and!; [done|by apply Hh|by exists page].
      * rewrite (serve_exit e Ee). split_and!; [done|by apply Hh|done].
  - exists protector. split; [done|]. intros token_ok. rewrite Est in El. unfold layers in El. cbn [foldr apply_middleware] in El.
    set (inner := exception_middleware _) in El.
    assert (Happ : forall answer, csrf_middleware protector (trusted_host_middleware (trusted_hosts settings) inner) c w = (Ok answer, w) ->
                   w1 = w /\ exists resp, serve_errors r = mkServed (Some resp) None /\ ws_status resp = ws_status answer).
    { intros answer E. unfold security_headers_middleware in El. rewrite (mbind_ok _ _ _ _ _ E) in El. injection El as <- <-.
      split; [done|]. eexists. split; [apply serve_answer|done]. }
    unfold csrf_middleware, csrf_call in Happ. rewrite Ht, bool_decide_true in Happ by done. cbn [negb orb] in Happ. split.
    + intros Hm Hv. rewrite (bool_decide_false _ Hm) in Happ. apply (Happ (mkWebResponse 403 (B_text (py "CSRF validation failed.")) [(py "Cache-Control", py "no-store")] [])).
      unfold mbind, lift. fold token_ok. rewrite Hv. reflexivity.
    + intros refusal Hok Href. apply (Happ refusal). destruct (bool_decide (scope_method (call_scope c) ∈ SAFE_METHODS)) eqn:Em.
      * unfold trusted_host_middleware. by rewrite Href.
      * apply bool_decide_eq_false in Em. destruct Hok as [Hok|Hok]; [done|]. unfold mbind, lift. fold token_ok. rewrite Hok.
        unfold trusted_host_middleware. by rewrite Href.
Qed.

(** The page for an exception that nothing handled is the framework's own, whatever headers that has: the
    middleware that sets the policy's headers is passed by. *)
Theorem error_page_is_the_frameworks `{Entropy} `{HeaderList} `{Framework} endpoint app c w e w' :
  layers (app_stack app) (routed endpoint app) c w = (Raise e, w') ->
  application endpoint app c w = (serve_errors (Raise e), w').
Proof. intros E. unfold application, build_stack. by rewrite E. Qed.

(** *** A framework for evaluation *)

#[local] Instance plain_framework : Framework := {|
  body_refused _ _ := None;
  refuse_host hosts scope :=
    if existsb (fun h => bool_decide (h = py "*") || bool_decide (scope_headers scope !! py "host" = Some h)) hosts then None
    else Some (mkWebResponse 400 (B_text (py "Invalid host header")) [] []);
  serve_static _ _ := Raise (HTTPException 404);
  error_response status := mkWebResponse status (B_text []) [] [];
  serve_errors r :=
    match r with
    | Ok resp => mkServed (Some resp) None
    | Raise e => mkServed (if is_exception e then Some (mkWebResponse 500 (B_text (py "Internal Server Error")) [] []) else None) (Some e)
    end;
|}.
#[local] Instance plain_framework_laws : FrameworkLaws.
Proof.
  constructor; [done| |]; intros e He; cbn [serve_errors plain_framework]; rewrite He; [by eexists|done].
Qed.
#[local] Existing Instance plain_headers.
#[local] Existing Instance plain_headers_laws.
#[local] Existing Instance counting_entropy.
(** Endpoints that answer everything. *)
Definition answering : Endpoint -> list pystr -> option User -> WebRequest -> M WebResponse :=
  fun _ _ _ _ => mret (mkWebResponse 200 (B_text []) [] []).
Definition anonymous_request : WebRequest := mkWebRequest None ∅ ∅ [] [].

(** Somebody without a session asks for the audit log. *)
Lemma application_denies_by_default_witness :
  exists status w', dispatch answering sample_manager (py "GET") (py "/admin/audit") anonymous_request session_world
      = (Raise (HTTPException status), w') /\ status ∈ [400; 401; 403; 404; 405; 422].
Proof.
  destruct (application_denies_by_default answering sample_manager (py "GET") (py "/admin/audit") anonymous_request session_world)
    as [[(v&w1&e&params&E&_)|[(status&w'&E&Hs&_)|(resp&E&_)]] _].
  - apply (bool_decide_unpack _). vm_compute. exact I.
  - reflexivity.
  - exfalso. apply (f_equal fst) in E. vm_compute in E. discriminate E.
  - exists status, w'. exact (conj E Hs).
  - exfalso. apply (f_equal fst) in E. vm_compute in E. discriminate E.
Defined.

(** A sign-in attempt without a token. *)
Definition tokenless_call : Call :=
  mkCall (mkScope (py "http") (py "POST") ∅ {[py "host" := py "localhost"]}) (py "/auth/local/login") anonymous_request.
Definition sample_app : App := Eval vm_compute in
  match create_app sample_settings with Ok app => app | Raise _ => mkApp (mkPortalState sample_settings sample_manager (mkCSRFProtector []) sample_authenticator (mkStore []) None) [] end.
Definition tokenless_run : Served * World := application answering sample_app tokenless_call session_world.
Lemma requests_pass_the_middleware_witness :
  exists resp, tokenless_run.1 = mkServed (Some resp) None /\ ws_status resp = 403 /\ carries_policy DEVELOPMENT resp.
Proof.
  destruct (requests_pass_the_middleware answering sample_settings sample_app tokenless_call session_world
    tokenless_run.1 tokenless_run.2) as [Hr (protector&Hp&Hno&_)].
  - vm_compute. reflexivity.
  - reflexivity.
  - apply surjective_pairing.
  - destruct Hno as (_&resp&E&Hs).
    + apply (bool_decide_unpack _). vm_compute. exact I.
    + reflexivity.
    + exists resp. split; [exact E|]. split; [exact Hs|]. destruct Hr as [(resp'&E'&Hpol)|(e&_&Hra&_)].
      * rewrite E in E'. injection E' as <-. exact Hpol.
      * exfalso. rewrite E in Hra. discriminate Hra.
Defined.
