(* ===== verification/CommandLine.v ===== *)
(** The operator's commands: the one that creates a local super-admin (app/create_superadmin.py) and the one that
    rotates the root key (the entry point of app/reencrypt.py) - what they ask, how they end, and what they
    leave in the database. *)
From S2P Require Import Prelude PyBase Encoding Hashes Json Models Store Config Aead Normalization LocalAuth.
From S2P Require Import Session OAuth Reencrypt.

(** How the command ends: it exits with a status and a message, or it prints its lines. *)
Inductive CommandEnd : Type :=
| Exit (code : Z) (message : pystr)
| Done (user : User) (lines : list pystr).

Definition CANCELLED : pystr := 10 :: py "Super-admin creation cancelled." ++ [10].
Definition MISMATCH : pystr := py "Passwords did not match; no account was created." ++ [10].
Definition INVALID : pystr := py "Invalid account details or password; no account was created." ++ [10].
Definition EXISTING : pystr := py "An account with that email already exists; no account was changed." ++ [10].

(** A prompt takes the next answer; [None] is the end of the input or an interrupt. *)
Definition ask (answers : list (option pystr)) : option (pystr * list (option pystr)) :=
  match answers with Some a :: rest => Some (a, rest) | _ => None end.
(** [argument or input(...)] *)
Definition argument_or_ask (argument : option pystr) (answers : list (option pystr)) : option (pystr * list (option pystr)) :=
  match argument with
  | Some (c :: a) => Some (c :: a, answers)
  | _ => ask answers
  end.
(** Everything the command asks, in order: email, name, password, password again. *)
Definition ask_all (email display_name : option pystr) (answers : list (option pystr)) : option (pystr * pystr * pystr * pystr) :=
  match argument_or_ask email answers with
  | None => None
  | Some (e, answers) =>
      match argument_or_ask display_name answers with
      | None => None
      | Some (n, answers) =>
          match ask answers with
          | None => None
          | Some (password, answers) => match ask answers with Some (confirmation, _) => Some (e, n, password, confirmation) | None => None end
          end
      end
  end.

Section CommandLine.
Context `{Unicode} `{Collation} `{Argon2} `{Entropy}.
(** What [get_settings] gives. *)
Variable settings : result Settings.

(** [_create]: one transaction of its own. *)
Definition create_in_transaction (email display_name password : pystr) : M User :=
  do! lift settings;
  session_scope (get_db_session (create_superadmin email display_name password)).

Definition create_superadmin_main (email display_name : option pystr) (answers : list (option pystr)) : M CommandEnd :=
  match ask_all email display_name answers with
  | None => mret (Exit 1 CANCELLED)
  | Some (e, n, password, confirmation) =>
      if negb (bool_decide (password = confirmation)) then mret (Exit 1 MISMATCH)
      else
        try_except
          (try_except
            (let! created <- create_in_transaction e n password;
             mret (Done created [py "Created super-admin account for " ++ u_email created ++ py ".";
                                 py "Sign in with the password, then enroll MFA from Account security."]))
            (fun x => bool_decide (x = LocalAuthenticationError)) (fun _ => mret (Exit 1 INVALID)))
          (fun x => bool_decide (x = SuperAdminAlreadyExistsError)) (fun _ => mret (Exit 1 EXISTING))
  end.

(** ** Lemmas *)

Lemma create_superadmin_inv email display_name password w user w' :
  create_superadmin email display_name password w = (Ok user, w') ->
  normalise_admin_email email = Ok (u_email user) /\ normalise_display_name display_name = Ok (u_display_name user)
  /\ validate_new_password password = Ok tt
  /\ find_row (user_with_email (u_email user)) (users (w_db w)) = None
  /\ u_role user = Role_SUPER_ADMIN /\ u_is_active user = true /\ u_source user = Source_MANUAL
  /\ users (w_db w) !! u_id user = None
  /\ exists salt, w_db w' = set_admin_credentials
       (<[u_id user := mkAdminCredential (u_id user) (argon2_hash salt password) None None 0 None]> (admin_credentials (w_db w)))
       (set_users (<[u_id user := user]> (users (w_db w))) (w_db w)).
Proof using Type.
  unfold create_superadmin, hash_password. intros (e&w1&[= He ->]%eq_sym&E)%mbind_inv.
  apply mbind_inv in E as (n&w2&[= Hn ->]%eq_sym&E). apply mbind_inv in E as (d&w3&[= -> ->]%eq_sym&E).
  destruct (find_row (user_with_email e) (users (w_db w))) eqn:Ef; [done|].
  apply mbind_inv in E as (id&w4&[= Hid ->]%eq_sym&E). apply mbind_inv in E as (hash&w5&Eh&E).
  apply mbind_inv in Eh as ([]&w6&[= Hp ->]%eq_sym&Eh). apply mbind_inv in Eh as (salt&w7&[= Hsalt ->]%eq_sym&[= -> ->]%eq_sym).
  apply mbind_inv in E as (now&w8&[= Hnow ->]%eq_sym&E). apply mbind_inv in E as (us&w9&[= Eu ->]%eq_sym&E).
  apply mbind_inv in E as (cs&w10&[= Ec ->]%eq_sym&E). apply mbind_inv in E as ([]&w11&[= ->]%eq_sym&[= -> ->]%eq_sym).
  symmetry in Eu, Ec, He, Hn, Hp. apply insert_row_inv in Eu as (_&Hu&->). apply insert_row_inv in Ec as (_&_&->).
  cbn in *. split_and!; try done. by exists salt.
Qed.

Lemma create_superadmin_keeps_committed email display_name password w :
  w_committed (create_superadmin email display_name password w).2 = w_committed w.
Proof using Type.
  unfold create_superadmin, hash_password, mbind, lift, get_db, uuid4, token_bytes, clock, modify_db, mret, raise, with_db.
  repeat (case_match; simplify_eq; try done).
Qed.
Lemma create_in_transaction_inv email display_name password w r w' :
  create_in_transaction email display_name password w = (r, w') ->
  match r with
  | Ok user => exists w1, create_superadmin email display_name password (mkWorld (w_committed w) (w_committed w) (w_draws w) (w_now w)) = (Ok user, w1)
      /\ w_committed w' = w_db w1 /\ w_db w' = w_db w1
  | Raise e => w_committed w' = w_committed w
  end.
Proof using Type.
  unfold create_in_transaction. destruct settings as [s|e] eqn:Es; [|unfold mbind, lift; by intros [= <- <-]].
  rewrite (mbind_ok _ _ w s w) by reflexivity. unfold session_scope, get_db_session.
  destruct (create_superadmin email display_name password _) as [[u|e] w1] eqn:E.
  - intros [= <- <-]. by exists w1.
  - pose proof (create_superadmin_keeps_committed email display_name password) as Hk.
    specialize (Hk (mkWorld (w_committed w) (w_committed w) (w_draws w) (w_now w))). rewrite E in Hk. cbn in Hk.
    destruct (is_exception e); intros [= <- <-]; cbn; done.
Qed.
End CommandLine.

(** ** The rotation of the root key *)

(** How that command ends: an interrupted prompt leaves it as an exception, or it exits with a status after the
    lines it printed to the two outputs. *)
Inductive RotationEnd : Type :=
| Interrupted
| Finished (status : Z) (out err : list pystr).

(** What is printed of a report, and the status. *)
Definition report_end (dry_run : bool) (report : RotationReport) : RotationEnd :=
  match rr_failures report with
  | [] => Finished 0
      (((if dry_run then py "would rotate" else py "rotated") ++ py ": " ++ summary report)
       :: if dry_run then [] else [py "Update LC_DATA_KEY (or the data-key bootstrap secret) before restarting the app."]) []
  | failures => Finished 1 []
      (py "rotation aborted; nothing was written" :: map (fun f => py "  could not decrypt " ++ f) (take 20 failures))
  end.

Section RotationCommand.
Context `{Unicode} `{Aead} `{Entropy} `{HeapOrder}.
Variable settings : result Settings.

(** [main] of reencrypt.py, with its two options. *)
Definition reencrypt_main (generate dry_run : bool) (answers : list (option pystr)) : M RotationEnd :=
  if generate then let! key <- generate_key; mret (Finished 0 [key] [])
  else
    match ask answers with
    | None => mret Interrupted
    | Some (value, answers) =>
        let value := strip value in
        if bool_decide (value = []) then mret (Finished 1 [] [py "no key supplied"])
        else
          match ask answers with
          | None => mret Interrupted
          | Some (again, _) =>
              if negb (bool_decide (strip again = value)) then mret (Finished 1 [] [py "the two keys did not match"])
              else
                let! settings <- lift settings;
                let! report <- run_rotation settings value dry_run;
                mret (report_end dry_run report)
          end
    end.
End RotationCommand.

Section RotationLemmas.
Context `{Unicode} `{AeadLaws} `{EntropyLaws} `{HeapOrderLaws}.

(** A generated key is a key. *)
Lemma generated_key_decodes w key w' : generate_key w = (Ok key, w') ->
  w_committed w' = w_committed w /\ exists raw, decode_key key = Ok raw.
Proof using Type*.
  unfold generate_key, mbind, token_bytes, mret. intros [= <- <-]. split; [done|]. exists (octets_at (w_draws w) 32).
  pose proof (octets_at_range (w_draws w) 32) as Hr. unfold decode_key.
  change (decode_data_key _) with (base64url_decode (base64url (octets_at (w_draws w) 32))).
  rewrite (base64url_roundtrip _ Hr). cbn [rbind]. by rewrite octets_at_length.
Qed.

Lemma report_end_status dry_run report status out err :
  report_end dry_run report = Finished status out err -> status = 0 <-> rr_failures report = [].
Proof using Type. unfold report_end. destruct (rr_failures report); by intros [= <- _ _]. Qed.

(** What the command does.  With status 0 it printed a usable key and touched nothing, or it rotated every
    stored setting, there being no other secret, to the key that was typed twice, which is another one than the one
    of the settings, or it was
    a dry run that left everything as it was.  However else it ends, nothing durable has changed. *)
Theorem rotation_command_outcomes settings generate dry_run answers w r w' :
  settings_keyed (w_committed w) -> reencrypt_main settings generate dry_run answers w = (r, w') ->
  match r with
  | Ok (Finished 0 out err) =>
      if generate then w_committed w' = w_committed w /\ exists key raw, out = [key] /\ decode_key key = Ok raw
      else exists s first second rest report, settings = Ok s /\ answers = Some first :: Some second :: rest /\
             strip first = strip second /\ rr_failures report = [] /\ Finished 0 out err = report_end dry_run report /\
             if dry_run then w_committed w' = w_committed w
             else exists old new, decode_key (data_key s) = Ok old /\ decode_key (strip first) = Ok new /\ old <> new /\
                    rotated old new (w_committed w) (w_committed w')
  | _ => w_committed w' = w_committed w
  end.
Proof using Type*.
  intros Hk. unfold reencrypt_main. destruct generate.
  { unfold mbind. destruct (generate_key w) as [[key|e] w1] eqn:E; [|by unfold generate_key, mbind, token_bytes, mret in E].
    intros [= <- <-]. apply generated_key_decodes in E as (Hc&raw&Hraw). split; [done|]. by exists key, raw. }
  destruct answers as [|[first|] answers]; cbn [ask]; [by intros [= <- <-]| |by intros [= <- <-]]. cbv zeta.
  destruct (bool_decide (strip first = [])); [by intros [= <- <-]|].
  destruct answers as [|[second|] rest]; cbn [ask]; [by intros [= <- <-]| |by intros [= <- <-]].
  destruct (bool_decide (strip second = strip first)) eqn:Es; cbn [negb]; [|by intros [= <- <-]]. apply bool_decide_eq_true in Es.
  destruct settings as [s|e]; unfold mbind, lift; [|by intros [= <- <-]].
  destruct (run_rotation s (strip first) dry_run w) as [[report|e] w1] eqn:E; apply run_rotation_outcome in E as [E _]; try done; [|by intros [= <- <-]].
  intros [= <- <-]. destruct (rr_failures report) eqn:Ef.
  - unfold report_end at 1. rewrite Ef. exists s, first, second, rest, report. do 4 (split; [done|]). split; [unfold report_end; by rewrite Ef|].
    rewrite bool_decide_true in E by done. by destruct dry_run.
  - unfold report_end. rewrite Ef. cbn. rewrite bool_decide_false in E by done. exact E.
Qed.
End RotationLemmas.

(** ** Properties *)

(** C40: What the operator's command does.  It ends in one of three ways.  It is done: then every prompt was
    answered, the two passwords were the same and acceptable, no account had the normalised address, and the
    durable database has exactly one more user - an active manual super-admin with that address and name - with
    exactly one more credential, of that password and without a second factor.  It exits with status 1 and a message
    that names no value: then nothing durable has changed, and the message says why - a prompt was cancelled,
    the passwords differ, the details were refused, or the account exists.  Or an exception leaves it, neither of the
    two it answers, and nothing durable has changed either. *)
Theorem superadmin_command_outcomes `{Unicode} `{Collation} `{Argon2} `{Entropy} settings email display_name answers w r w' :
  create_superadmin_main settings email display_name answers w = (r, w') ->
  match r with
  | Ok (Done user _) =>
      exists e n password salt, ask_all email display_name answers = Some (e, n, password, password)
        /\ normalise_admin_email e = Ok (u_email user) /\ normalise_display_name n = Ok (u_display_name user)
        /\ validate_new_password password = Ok tt
        /\ (forall k u, users (w_committed w) !! k = Some u -> user_with_email (u_email user) u = false)
        /\ u_role user = Role_SUPER_ADMIN /\ u_is_active user = true /\ u_source user = Source_MANUAL
        /\ users (w_committed w) !! u_id user = None
        /\ w_committed w' = set_admin_credentials
             (<[u_id user := mkAdminCredential (u_id user) (argon2_hash salt password) None None 0 None]> (admin_credentials (w_committed w)))
             (set_users (<[u_id user := user]> (users (w_committed w))) (w_committed w))
  | Ok (Exit code message) =>
      w_committed w' = w_committed w /\ code = 1
      /\ ((message = CANCELLED /\ ask_all email display_name answers = None)
          \/ (message = MISMATCH /\ exists e n p q, ask_all email display_name answers = Some (e, n, p, q) /\ p <> q)
          \/ exists e n p, ask_all email display_name answers = Some (e, n, p, p)
               /\ ((message = INVALID /\ (create_in_transaction settings e n p w).1 = Raise LocalAuthenticationError)
                   \/ (message = EXISTING /\ (create_in_transaction settings e n p w).1 = Raise SuperAdminAlreadyExistsError)))
  | Raise x => w_committed w' = w_committed w /\ x <> LocalAuthenticationError /\ x <> SuperAdminAlreadyExistsError
  end.
Proof.
  unfold create_superadmin_main. destruct (ask_all email display_name answers) as [[[[e n] p] q]|]; [|intros [= <- <-]; split_and!; auto].
  destruct (bool_decide (p = q)) eqn:Epq; cbn [negb].
  2: { apply bool_decide_eq_false in Epq. intros [= <- <-]. split_and!; [done|done|]. right. left. split; [done|]. by exists e, n, p, q. }
  apply bool_decide_eq_true in Epq as <-. unfold try_except, mbind. destruct (create_in_transaction settings e n p w) as [[user|x] w1] eqn:E.
  - intros [= <- <-]. apply create_in_transaction_inv in E as (w2&E&Hc&_). apply create_superadmin_inv in E as (He&Hn&Hp&Hf&Hr&Ha&Hs&Hu&salt&Hd).
    rewrite find_row_None in Hf. exists e, n, p, salt. split_and!; try done. by rewrite Hc, Hd.
  - apply create_in_transaction_inv in E as Hc. destruct (bool_decide (x = LocalAuthenticationError)) eqn:E1.
    { apply bool_decide_eq_true in E1 as ->. intros [= <- <-]. split_and!; [done|done|]. right. right. exists e, n, p. split; [done|]. left. by rewrite E. }
    destruct (bool_decide (x = SuperAdminAlreadyExistsError)) eqn:E2.
    { apply bool_decide_eq_true in E2 as ->. intros [= <- <-]. split_and!; [done|done|]. right. right. exists e, n, p. split; [done|]. right. by rewrite E. }
    apply bool_decide_eq_false in E1, E2. by intros [= <- <-].
Qed.

(** An operator gives the name as an argument and answers the other prompts. *)
Definition operator_answers : list (option pystr) :=
  [Some (py "Root@Corp.example"); Some (py "a long enough password"); Some (py "a long enough password")].
Definition operator_run : result CommandEnd * World :=
  @create_superadmin_main ascii_unicode ascii_collation plain_argon2 counting_entropy (Ok sample_settings) None (Some (py "Root"))
    operator_answers (mkWorld empty_db empty_db 0 1700000000000000).
Lemma superadmin_command_outcomes_witness :
  exists user lines, operator_run.1 = Ok (Done user lines) /\ u_role user = Role_SUPER_ADMIN /\ u_email user = py "root@corp.example".
Proof.
  pose proof (@superadmin_command_outcomes ascii_unicode ascii_collation plain_argon2 counting_entropy (Ok sample_settings) None (Some (py "Root"))
    operator_answers (mkWorld empty_db empty_db 0 1700000000000000) operator_run.1 operator_run.2 (surjective_pairing operator_run)) as H.
  destruct operator_run.1 as [[code message|user lines]|x] eqn:E.
  - exfalso. vm_compute in E. discriminate E.
  - destruct H as (e&n&p&salt&_&_&_&_&_&Hr&_). exists user, lines. split; [reflexivity|]. split; [exact Hr|].
    vm_compute in E. injection E as <- _. reflexivity.
  - exfalso. vm_compute in E. discriminate E.
Defined.
