(* ===== verification/SettingsContract.v ===== *)
(** What the settings form promises to the components that read the settings: whatever it accepts, the
    portal, the purge, the mailer, the LeakCheck client and the Google sign-in read without an error. *)
From S2P Require Import Prelude PyBase Encoding Hashes Json Models Store Config Aead Normalization PlatformSettings Retention LeakCheck Notifications Session Access LocalAuth Web SignIn Scans SettingsForm Portal.
From Stdlib Require Import QArith.QArith_base.
Local Open Scope Z_scope.

Section Contract.
Context `{Unicode} `{Aead}.

(** The stored value of a key. *)
Definition stored (store : PlatformSettingsStore) (w : World) (key : SettingKey) : option pystr :=
  match (read store key w).1 with Ok r => r | Raise _ => None end.
(** What a stored value looks like, by the rule of its field. *)
Definition stored_ok (key : SettingKey) (v : pystr) : Prop :=
  match field_rule key with
  | R_str _ => True
  | R_pattern choices => v ∈ map py choices
  | R_int ge le => exists n, v = str_int n /\ ge <= n <= le
  | R_bool => v = py "True" \/ v = py "False"
  | R_list _ => exists l, l <> [] /\ decode_domains v = Ok l
  end.
(** Every setting can be deciphered and looks like that, and a policy by days has its days. *)
Definition settings_ok (store : PlatformSettingsStore) (w : World) : Prop :=
  (forall key, (read store key w).1 = Ok (stored store w key)) /\
  (forall key v, stored store w key = Some v -> stored_ok key v) /\
  (stored store w RETENTION_MODE = Some MODE_DAYS -> is_Some (stored store w RETENTION_DAYS)).

(** The number a reader gets: the stored one, or its default where none is stored. *)
Definition number_of (text : option pystr) (default_ n : Z) : Prop :=
  match text with None => n = default_ | Some t => t = str_int n end.

(** The retention policy is the stored one, and one by days has its days. *)
Definition policy_as_stored (store : PlatformSettingsStore) (w : World) (p : RetentionPolicy) : Prop :=
  rp_mode p = default MODE_INDEFINITE (stored store w RETENTION_MODE) /\
  match stored store w RETENTION_DAYS with
  | None => rp_days p = None
  | Some t => exists n, t = str_int n /\ rp_days p = Some n /\ 1 <= n <= 3650
  end /\
  (rp_mode p = MODE_DAYS -> is_Some (rp_days p)).

(** The mailer's values: its switches are read; its server is the stored one, unless the host, the port or
    the sender is missing or blank; the link is the stored address, unless that is not an https one. *)
Definition mail_as_stored (store : PlatformSettingsStore) (w : World) (values : SettingValues) : Prop :=
  bool_setting (values_get NOTIFY_DRY_RUN values) true
    = Ok (match stored store w NOTIFY_DRY_RUN with None => true | Some t => bool_decide (t = py "True") end) /\
  (exists seconds, int_setting (values_get NOTIFY_COOLDOWN_SECONDS values) 86400 = Ok seconds /\
     number_of (stored store w NOTIFY_COOLDOWN_SECONDS) 86400 seconds) /\
  match stored store w SMTP_HOST, stored store w SMTP_PORT, stored store w SMTP_FROM with
  | Some (a :: host), Some port_text, Some (b :: sender) =>
      exists port, port_text = str_int port /\
        smtp_config values = Ok (mkSMTPConfig (a :: host) port (stored store w SMTP_USERNAME) (stored store w SMTP_PASSWORD)
                                   (b :: sender) (default (py "starttls") (stored store w SMTP_SECURITY)))
  | _, _, _ => smtp_config values = Raise NotificationConfigurationError
  end /\
  let link := rstrip_by (Z.eqb 47) (default [] (stored store w PUBLIC_BASE_URL)) in
  base_url_setting values = if startswith link (py "https://") then Ok link else Raise NotificationConfigurationError.

(** What the readers get. *)
Definition settings_readable (store : PlatformSettingsStore) (w : World) : Prop :=
  (exists n, cooldown_seconds store w = (Ok n, w) /\
     number_of (stored store w SELF_CHECK_COOLDOWN_SECONDS) DEFAULT_COOLDOWN_SECONDS n) /\
  (exists p, load_policy store w = (Ok p, w) /\ policy_as_stored store w p) /\
  (exists values, read_many store all_setting_keys w = (Ok values, w) /\ mail_as_stored store w values) /\
  (exists values rps concurrency size, read_many store CLIENT_KEYS w = (Ok values, w) /\
     number_of (stored store w LEAKCHECK_RPS) 3 rps /\ number_of (stored store w LEAKCHECK_CONCURRENCY) 3 concurrency /\
     number_of (stored store w LEAKCHECK_MAX_RESPONSE_BYTES) (32 * 1024 * 1024) size /\
     client_from_platform_values values
       = make_client (default [] (stored store w LEAKCHECK_API_KEY)) (inject_Z rps) concurrency size 3 100 5 (inject_Z 30)) /\
  (forall text, stored store w GOOGLE_WORKSPACE_DOMAINS = Some text ->
     exists domains, decode_domains text = Ok domains /\ domains <> []).

End Contract.

(** ** Lemmas: numbers in text *)

Section Numbers.
Context `{UnicodeLaws}.

Lemma int_digits_ascii s : forallb ascii_digit s = true -> forall acc b, (s = [] -> b = true) ->
  int_digits acc b s = digits_value acc s.
Proof.
  induction s as [|c s IH]; intros Hs acc b Hb; cbn [int_digits digits_value]; [by rewrite (Hb eq_refl)|].
  cbn [forallb] in Hs. apply andb_true_iff in Hs as [Hc Hs].
  rewrite decimal_ascii by (unfold ascii_digit, is_ascii in *; lia). rewrite Hc. by apply IH.
Qed.

Lemma small_fits n : 0 <= n < 10 ^ 12 -> int_fits n.
Proof using Type.
  intros Hn. unfold int_fits, str_nat. rewrite Z.abs_eq by lia.
  destruct (digits_of_spec (S (Z.to_nat (Z.log2 n))) n [] 11) as (ds&Eds&Hld&_); [exact Hn|].
  rewrite Eds, app_nil_r. unfold MAX_STR_DIGITS. lia.
Qed.

Lemma py_int_str n : 0 <= n < 10 ^ 12 -> py_int (str_int n) = Ok n.
Proof.
  intros [Hn Hsmall]. pose proof (small_fits n (conj Hn Hsmall)) as Hfit. unfold int_fits in Hfit. rewrite Z.abs_eq in Hfit by done.
  unfold str_int. replace (n <? 0) with false by lia.
  destruct (str_nat_value n Hn) as (c&ds&Hstr&Hds&_&Hv). rewrite Hstr. unfold py_int.
  assert (Hdig : Forall (fun x => ascii_digit x = true) (c :: ds)) by (by apply List.Forall_forall, forallb_forall).
  rewrite strip_fixed.
  2: { apply Forall_trimmed. eapply Forall_impl; [exact Hdig|]. intros x Hx. cbv beta in Hx.
       rewrite isspace_ascii by (unfold ascii_digit, is_ascii in *; lia). unfold ascii_digit, ascii_space in *. lia. }
  pose proof (int_digits_ascii (c :: ds) Hds 0 false ltac:(done)) as Hi. rewrite Hv in Hi.
  assert (Hlen : (MAX_STR_DIGITS <? length (List.filter (fun x => negb (x =? 95)%Z) (c :: ds)))%nat = false).
  { apply Nat.ltb_ge. etransitivity; [apply List.filter_length_le|]. rewrite Hstr in Hfit. exact Hfit. }
  apply Forall_cons in Hdig as [Hc _]. apply ascii_digit_cases in Hc.
  repeat destruct Hc as [->|Hc]; try subst c; rewrite Hlen; cbn [int_digits] in Hi |- *; rewrite Hi; by rewrite Z.mul_1_l.
Qed.
End Numbers.

(** ** Lemmas: reading *)

Section Reading.
Context `{Unicode} `{AeadLaws} `{Entropy}.

Lemma read_stored store w key : settings_ok store w -> read store key w = (Ok (stored store w key), w).
Proof.
  intros (Hr&_). specialize (Hr key). destruct (read store key w) as [r w'] eqn:E.
  apply read_value_world in E as ->. cbn in Hr. by rewrite Hr.
Qed.

Lemma read_many_stored store w keys : settings_ok store w ->
  exists values, read_many store keys w = (Ok values, w) /\
    forall key, key ∈ keys -> values_get key values = stored store w key.
Proof.
  intros Hok. induction keys as [|k keys (values&IH&Hv)]; [exists []; split; [done|intros key Hk; inversion Hk]|].
  cbn [read_many]. unfold mbind. rewrite (read_stored _ _ _ Hok), IH. eexists. split; [reflexivity|].
  intros key Hk. destruct (decide (key = k)) as [->|Hne].
  - destruct (stored store w k) as [v|] eqn:E.
    + cbn [values_get]. by rewrite bool_decide_true.
    + destruct (decide (k ∈ keys)) as [Hin|Hnin]; [by rewrite (Hv k Hin)|].
      clear -Hnin IH. revert values IH. induction keys as [|k' keys IHk]; intros values; cbn [read_many].
      * by intros [= <-].
      * apply not_elem_of_cons in Hnin as [Hne Hnin]. unfold mbind. destruct (read store k' w) as [[[v|]|e] w1] eqn:E1; [| |done];
          apply read_value_world in E1 as ->; destruct (read_many store keys w) as [[rest|e] w2] eqn:E2; try done;
          intros [= <- <-]; cbn [values_get]; [rewrite bool_decide_false by done|]; by apply IHk.
  - apply elem_of_cons in Hk as [->|Hk]; [done|].
    destruct (stored store w k) as [v|]; cbn [values_get]; [rewrite bool_decide_false by done|]; by apply Hv.
Qed.
End Reading.

(** ** Lemmas: what the form accepts *)

Lemma elem_of_dict_fromkeys x l : x ∈ dict_fromkeys l <-> x ∈ l.
Proof.
  induction l as [|y l IH]; [done|]. cbn [dict_fromkeys]. rewrite !elem_of_cons, list_elem_of_In, filter_In, <- list_elem_of_In, IH.
  rewrite negb_true_iff, bool_decide_eq_false. destruct (decide (x = y)); tauto.
Qed.

Lemma DOMAIN_scalar d : DOMAIN d = true -> Forall scalar d.
Proof.
  unfold DOMAIN. rewrite andb_true_iff. intros [_ Hl]. rewrite forallb_forall in Hl.
  assert (Hs : Forall (Forall (fun c => domain_alnum c || (c =? 45) = true)) (split_char 46 d)).
  { apply List.Forall_forall. intros l Hin. specialize (Hl l Hin). unfold DOMAIN_LABEL in Hl.
    rewrite !andb_true_iff, forallb_forall in Hl. apply List.Forall_forall. apply Hl. }
  apply split_char_Forall in Hs. eapply Forall_impl; [exact Hs|]. intros c. cbv beta.
  unfold domain_alnum, ascii_digit, scalar. lia.
Qed.

Lemma decode_encode_domains `{UnicodeLaws} l : Forall (Forall scalar) l -> decode_domains (encode_domains l) = Ok l.
Proof.
  intros Hl. unfold decode_domains, encode_domains. rewrite json_loads_dumps.
  - clear Hl. induction l as [|x l IH]; [done|]. cbn [map rmap rbind] in *. by rewrite IH.
  - cbn. induction Hl as [|x l Hx _ IH]; [done|]. by split.
  - pose proof json_nesting_min. assert (json_depth (JList (map JStr l)) <= 1)%nat; [|lia].
    cbn [json_depth]. clear Hl. induction l as [|x l IH]; [done|]. cbn in *. lia.
Qed.

Section Accepted.
Context `{UnicodeLaws} `{Pydantic}.

Lemma cbind_inv {A B} (c : Checked A) (k : A -> Checked B) b : cbind c k = Accepted b -> exists a, c = Accepted a /\ k a = Accepted b.
Proof using Type. destruct c; [eauto|done..]. Qed.

Lemma validate_domains_inv l l' : validate_domains l = Accepted l' -> l' <> [] /\ Forall (fun d => DOMAIN d = true) l'.
Proof using Type.
  unfold validate_domains. intros (ds&Hn&E)%cbind_inv. case_bool_decide as Hne; [done|]. injection E as <-.
  assert (Hds : Forall (fun d => DOMAIN d = true) ds).
  { clear Hne. revert ds Hn. induction l as [|item l IH]; cbn [normalise_domains]; [by intros ds [= <-]|].
    intros ds (d&_&E)%cbind_inv. destruct (DOMAIN d) eqn:Ed; [|done]. cbn in E. apply cbind_inv in E as (rest&Hr&E). injection E as <-.
    constructor; [done|by apply IH]. }
  split; [by destruct ds|]. rewrite Forall_forall in Hds |- *. intros d Hd. exact (Hds d (proj1 (elem_of_dict_fromkeys d ds) Hd)).
Qed.

(** An accepted field is stored as its rule says. *)
Lemma accepted_ok key j v t : validate_field key j = Accepted v -> setting_text key v = Some t -> stored_ok key t.
Proof using Type*.
  unfold validate_field, stored_ok. intros E Ht. assert (E' : v = F_none \/ match field_rule key with
      | R_str n => cbind (coerced (as_str j)) (fun s => if (n <? length s)%nat then Rejected [too_long n]
                     else cbind (validate_text key s) (fun s => Accepted (F_str s)))
      | R_pattern choices => cbind (coerced (as_str j)) (fun s =>
          if bool_decide (s ∈ map py choices) then Accepted (F_str s) else Rejected [pattern_mismatch choices])
      | R_int ge le => cbind (coerced (as_int j)) (fun n =>
          if n <? ge then Rejected [below_minimum ge] else if le <? n then Rejected [above_maximum le] else Accepted (F_int n))
      | R_bool => cbind (coerced (as_bool j)) (fun b => Accepted (F_bool b))
      | R_list n => match as_str_list n j with
                    | inl messages => Rejected messages
                    | inr l => cbind (validate_domains l) (fun l => Accepted (F_list l))
                    end
      end = Accepted v) by (destruct j; [left; congruence|right; exact E..]). clear E.
  destruct E' as [->|E']; [done|].
  destruct (field_rule key).
  - done.
  - apply cbind_inv in E' as (s&_&E). case_bool_decide; [|done]. injection E as <-. by injection Ht as <-.
  - apply cbind_inv in E' as (n&_&E). destruct (n <? ge) eqn:E1; [done|]. destruct (le <? n) eqn:E2; [done|].
    injection E as <-. injection Ht as <-. exists n. split; [done|lia].
  - apply cbind_inv in E' as (b&_&E). injection E as <-. injection Ht as <-. destruct b; auto.
  - destruct (as_str_list _ _) as [|l]; [done|]. apply cbind_inv in E' as (l'&Hl&E). injection E as <-. injection Ht as <-.
    apply validate_domains_inv in Hl as [Hne Hd]. exists l'. split; [done|]. apply decode_encode_domains.
    eapply Forall_impl; [exact Hd|]. apply DOMAIN_scalar.
Qed.
End Accepted.

Section Form.
Context `{Unicode} `{Pydantic}.

Lemma add_field_inv key c rest fields : add_field key c rest = Valid fields ->
  exists v fields', c = Accepted v /\ rest = Valid fields' /\ fields = (key, v) :: fields'.
Proof using Type. destruct c, rest; cbn; try done. intros [= <-]. eauto. Qed.

Lemma validate_fields_inv keys d fields : NoDup keys -> validate_fields keys d = Valid fields ->
  NoDup fields.*1 /\ (forall kv, kv ∈ fields -> kv.1 ∈ keys /\ exists j, validate_field kv.1 j = Accepted kv.2).
Proof using Type.
  intros Hk. revert fields. induction Hk as [|key keys Hkey _ IH]; intros fields; cbn [validate_fields].
  { intros [= <-]. split; [constructor|]. intros kv Hin. inversion Hin. }
  destruct (dict_get _ d) as [j|].
  - intros (v&rest&Hv&Hr&->)%add_field_inv. destruct (IH rest Hr) as [Hnd Hall]. split.
    + rewrite fmap_cons. constructor; [|done]. intros (kv&E&Hin)%list_elem_of_fmap. apply Hall in Hin as [Hin _].
      by rewrite <- E in Hin.
    + intros kv [->|Hin]%elem_of_cons; [split; [left|eauto]|]. destruct (Hall kv Hin) as [? ?]. split; [by right|done].
  - intros Hv. destruct (IH _ Hv) as [Hnd Hall]. split; [done|]. intros kv Hin. destruct (Hall kv Hin) as [? ?]. split; [by right|done].
Qed.

Lemma all_setting_keys_NoDup : NoDup all_setting_keys.
Proof using Type. apply (bool_decide_unpack (NoDup all_setting_keys)). vm_compute. exact I. Qed.

Lemma settings_update_inv body fields : settings_update body = Valid fields ->
  NoDup fields.*1 /\ (forall kv, kv ∈ fields -> exists j, validate_field kv.1 j = Accepted kv.2) /\
  retention_days_required_for_a_day_based_policy fields = true.
Proof using Type.
  unfold settings_update. destruct body as [| | | | | |d]; try done. destruct (validate_fields all_setting_keys d) as [f| |] eqn:E; try done.
  destruct (retention_days_required_for_a_day_based_policy f) eqn:Er; [|done]. intros [= <-].
  apply validate_fields_inv in E as [Hnd Hall]; [|apply all_setting_keys_NoDup]. split; [done|]. split; [|done].
  intros kv Hin. by apply Hall.
Qed.

Lemma field_get_In key v fields : NoDup fields.*1 -> (key, v) ∈ fields -> field_get key fields = v.
Proof using Type.
  induction fields as [|[k x] fields IH]; [intros _ Hin; inversion Hin|]. rewrite fmap_cons.
  intros [Hk Hnd]%NoDup_cons [[= <- <-]|Hin]%elem_of_cons; cbn [field_get]; [by rewrite bool_decide_true|].
  rewrite bool_decide_false; [by apply IH|]. intros ->. apply Hk, list_elem_of_fmap. by exists (key, v).
Qed.
Lemma update_values_keys fields : (update_values fields).*1 = fields.*1.
Proof using Type. induction fields as [|kv fields IH]; [done|]. cbn. f_equal. exact IH. Qed.
Lemma field_get_find key fields :
  match List.find (fun kv => bool_decide (kv.1 = key)) (update_values fields) with Some (_, o) => o | None => None end
  = setting_text key (field_get key fields).
Proof using Type.
  induction fields as [|[k v] fields IH]; [done|]. cbn [update_values map List.find field_get fst snd].
  destruct (decide (k = key)) as [->|Hne]; [by rewrite bool_decide_true|]. rewrite !bool_decide_false by done. exact IH.
Qed.
End Form.

(** Every text that an accepted form stores is as its rule says, and a policy by days names its days. *)
Lemma parsed_settings_inv `{UnicodeLaws} `{Pydantic} r fields : parsed_settings r = Ok fields ->
  (forall key t, setting_text key (field_get key fields) = Some t -> stored_ok key t) /\
  (setting_text RETENTION_DAYS (field_get RETENTION_DAYS fields) = None ->
   setting_text RETENTION_MODE (field_get RETENTION_MODE fields) <> Some MODE_DAYS).
Proof.
  unfold parsed_settings. destruct (json_body _ r) as [body|]; [|done]. cbn [rbind].
  destruct (settings_update body) as [f| |] eqn:Es; try done. intros [= <-].
  apply settings_update_inv in Es as (Hnd&Hall&Hdays).
  assert (Hacc : forall key t, setting_text key (field_get key f) = Some t ->
    exists j, validate_field key j = Accepted (field_get key f)).
  { intros key t Ht. apply (Hall (key, field_get key f)). clear -Ht.
    induction f as [|[k v] f IH]; [done|]. cbn [field_get] in *. case_bool_decide as Hk; [subst; left|right; auto]. }
  split; [intros key t Ht; destruct (Hacc key t Ht) as [j Hj]; by eapply accepted_ok|].
  intros Hn Hm. destruct (Hacc _ _ Hm) as [j Hj]. unfold retention_days_required_for_a_day_based_policy in Hdays.
  destruct (field_get RETENTION_DAYS f); try done. destruct (field_get RETENTION_MODE f) as [|m| | |]; [done| |exfalso..].
  { cbn in Hm. injection Hm as ->. done. }
  all: destruct j; cbn in Hj; try done; apply cbind_inv in Hj as (x&_&Hx); by case_bool_decide.
Qed.

(** ** Lemmas: the update *)

Section Update.
Context `{UnicodeLaws} `{Pydantic} `{AeadLaws} `{Entropy} `{Collation}.

Lemma read_table store w w' key : platform_settings (w_db w') = platform_settings (w_db w) ->
  (read store key w').1 = (read store key w).1.
Proof using Type. intros Ht. unfold read, mbind, get_db. rewrite Ht. destruct (_ !! _); [|done]. unfold lift. by destruct (decrypt_row _ _ _). Qed.

(** The values after an accepted form: its own, otherwise those before; a blank secret is no value. *)
Lemma update_settings_inv po r user w resp w' : update_settings po r user w = (Ok resp, w') ->
  exists fields, parsed_settings r = Ok fields /\ forall key,
    (read (po_store po) key w').1 =
      match setting_text key (field_get key fields) with
      | Some t => if skipped key (Some t) then (read (po_store po) key w).1 else Ok (Some t)
      | None => (read (po_store po) key w).1
      end.
Proof using Type*.
  unfold update_settings, mbind at 1, lift at 1. destruct (parsed_settings r) as [fields|e] eqn:Ef; [|done].
  intros (u1&w1&Ew&E)%mbind_inv. apply mbind_inv in E as (u2&w2&Ea&E). apply mbind_inv in E as (c&w3&Ec&E).
  injection E as _ <-. injection Ec as _ <-. exists fields. split; [done|]. intros key.
  assert (Hnd : NoDup fields.*1).
  { unfold parsed_settings in Ef. destruct (json_body _ r) as [body|]; [|done]. cbn [rbind] in Ef.
    destruct (settings_update body) as [f| |] eqn:Es; try done. injection Ef as <-. apply settings_update_inv in Es as [Hnd _]. exact Hnd. }
  rewrite (read_table (po_store po) w1).
  2: { apply audit_db in Ea as (_&_&Hd). destruct Hd as (ev&Hd&_). by rewrite Hd. }
  assert (Hk : (update_values fields).*1 = fields.*1) by apply update_values_keys.
  rewrite (write_many_then_read _ _ _ _ _ _ ltac:(rewrite Hk; exact Hnd) Ew key).
  pose proof (field_get_find key fields) as Hf. destruct (List.find _ _) as [[k [t|]]|]; by rewrite <- Hf.
Qed.
End Update.

(** ** Properties *)

Section ContractProperties.
Context `{UnicodeLaws} `{Pydantic} `{AeadLaws} `{Entropy} `{Collation}.

(** The rules whose values are numbers: none is negative or of more than twelve digits. *)
Lemma stored_int store w key ge le : settings_ok store w -> field_rule key = R_int ge le -> 0 <= ge -> le < 10 ^ 12 ->
  stored store w key = None \/
  exists m, stored store w key = Some (str_int m) /\ py_int (str_int m) = Ok m /\ ge <= m <= le.
Proof using Type*.
  intros (_&Hv&_) Hrule Hge Hle. destruct (stored store w key) as [raw|] eqn:E; [|by left]. right.
  specialize (Hv key raw E). unfold stored_ok in Hv. rewrite Hrule in Hv. destruct Hv as (m&->&Hm). exists m.
  split; [done|]. split; [apply py_int_str; lia|done].
Qed.

Lemma cooldown_readable store w : settings_ok store w -> exists n, cooldown_seconds store w = (Ok n, w) /\
  number_of (stored store w SELF_CHECK_COOLDOWN_SECONDS) DEFAULT_COOLDOWN_SECONDS n.
Proof using Type*.
  intros Hok. unfold cooldown_seconds, mbind. rewrite (read_stored _ _ _ Hok).
  destruct (stored_int _ _ SELF_CHECK_COOLDOWN_SECONDS _ _ Hok eq_refl ltac:(lia) ltac:(lia)) as [E|(m&E&Ep&Hm)]; rewrite E; unfold lift.
  - by eexists.
  - rewrite Ep. exists m. unfold MAX_COOLDOWN_SECONDS. replace (60 <=? m) with true by lia.
    replace (m <=? _) with true by lia. done.
Qed.

Lemma mode_stripped m : m ∈ [MODE_INDEFINITE; MODE_NONE; MODE_DAYS] -> strip m = m.
Proof using Type*.
  intros Hm. apply strip_fixed, Forall_trimmed.
  assert (Hl : Forall (fun c => ascii_lowerc c = true) m).
  { apply (bool_decide_unpack _). rewrite !elem_of_cons, elem_of_nil in Hm.
    destruct Hm as [->|[->|[->|[]]]]; vm_compute; exact I. }
  eapply Forall_impl; [exact Hl|]. intros c Hc. cbv beta in Hc.
  rewrite isspace_ascii; unfold ascii_lowerc, is_ascii, ascii_space in *; lia.
Qed.

Lemma policy_readable store w : settings_ok store w ->
  exists p, load_policy store w = (Ok p, w) /\ policy_as_stored store w p.
Proof using Type*.
  intros Hok. destruct (read_many_stored store w RETENTION_KEYS Hok) as (values&Hr&Hg). pose proof Hok as (_&Hv&Hd).
  exists (policy_of values). unfold load_policy, mbind. rewrite Hr. split; [done|].
  assert (Hmode : default MODE_INDEFINITE (stored store w RETENTION_MODE) ∈ [MODE_INDEFINITE; MODE_NONE; MODE_DAYS]).
  { destruct (stored store w RETENTION_MODE) as [m|] eqn:E; [exact (Hv _ _ E)|left]. }
  unfold policy_as_stored, policy_of.
  rewrite (Hg RETENTION_MODE), (Hg RETENTION_DAYS) by (apply (bool_decide_unpack _); vm_compute; exact I).
  set (mode := default MODE_INDEFINITE (stored store w RETENTION_MODE)) in *.
  replace (match stored store w RETENTION_MODE with None | Some [] => MODE_INDEFINITE | Some m => m end) with mode.
  2: { subst mode. destruct (stored store w RETENTION_MODE) as [[|c m]|]; try done. cbn in Hmode.
       rewrite !elem_of_cons, elem_of_nil in Hmode. by destruct Hmode as [|[|[|]]]. }
  rewrite (mode_stripped mode Hmode), (bool_decide_true (mode ∈ _)) by done. cbn [negb].
  assert (Hdays : mode = MODE_DAYS -> is_Some (stored store w RETENTION_DAYS)).
  { intros E. apply Hd. subst mode. destruct (stored store w RETENTION_MODE); [by cbn in E; subst|done]. }
  destruct (stored_int _ _ RETENTION_DAYS _ _ Hok eq_refl ltac:(lia) ltac:(lia)) as [E|(m&E&Ep&Hm)]; rewrite E in Hdays |- *.
  - rewrite (bool_decide_false (mode = MODE_DAYS)) by (by intros [? ?]%Hdays). cbn [rp_mode rp_days].
    split; [done|]. split; [done|]. by intros [? ?]%Hdays.
  - rewrite Ep. replace (m <? 1) with false by lia. rewrite andb_false_r. cbn [rp_mode rp_days].
    split; [done|]. split; [by exists m|]. intros _. by eexists.
Qed.

Lemma mail_readable store w : settings_ok store w ->
  exists values, read_many store all_setting_keys w = (Ok values, w) /\ mail_as_stored store w values.
Proof using Type*.
  intros Hok. destruct (read_many_stored store w all_setting_keys Hok) as (values&Hr&Hg).
  exists values. split; [done|].
  assert (Hin : forall key, key ∈ all_setting_keys) by (intros key; apply (bool_decide_unpack _); by destruct key; vm_compute).
  assert (Hv : forall key v, stored store w key = Some v -> stored_ok key v) by apply Hok.
  unfold mail_as_stored, smtp_config, base_url_setting. rewrite !(Hg _ (Hin _)). split_and!; [| | |done].
  - destruct (stored store w NOTIFY_DRY_RUN) as [v|] eqn:E; [|done].
    unfold bool_setting. destruct (Hv _ _ E) as [->| ->]; rewrite casefold_ascii by done; vm_compute; reflexivity.
  - destruct (stored_int _ _ NOTIFY_COOLDOWN_SECONDS _ _ Hok eq_refl ltac:(lia) ltac:(lia)) as [E|(m&E&Ep&Hm)]; rewrite E; [by eexists|].
    unfold int_setting. rewrite Ep. cbn [rbind]. exists m. replace (0 <=? m) with true by lia. by replace (m <=? _) with true by lia.
  - assert (Hsec : bool_decide (default (py "starttls") (stored store w SMTP_SECURITY) ∈ [py "starttls"; py "tls"]) = true).
    { apply bool_decide_true. destruct (stored store w SMTP_SECURITY) as [v|] eqn:E; [exact (Hv _ _ E)|left]. }
    destruct (stored store w SMTP_HOST) as [host|]; [|done]. cbn [of_option rbind].
    destruct (stored_int _ _ SMTP_PORT _ _ Hok eq_refl ltac:(lia) ltac:(lia)) as [E|(m&E&Ep&Hm)]; rewrite E; cbn [of_option rbind];
      [by destruct host|]. rewrite Ep. cbn [rbind].
    destruct (stored store w SMTP_FROM) as [sender|]; cbn [of_option rbind]; [|by destruct host].
    destruct host as [|a host]; [done|]. destruct sender as [|b sender]; [by rewrite (bool_decide_true ([] = []))|].
    rewrite Hsec, !bool_decide_false by done. exists m. split; [done|].
    by replace ((1 <=? m) && (m <=? 65535)) with true by lia.
Qed.

Lemma limit_readable store w values key ge le n : settings_ok store w -> field_rule key = R_int ge le -> 0 <= ge -> le < 10 ^ 12 ->
  ge <= n <= le -> values_get key values = stored store w key ->
  exists m, setting_int values key n ge le = Ok m /\ number_of (stored store w key) n m.
Proof using Type*.
  intros Hok Hrule Hge Hle Hn Hg. unfold setting_int. rewrite Hg.
  destruct (stored_int _ _ key _ _ Hok Hrule Hge Hle) as [E|(m&E&Ep&Hm)]; rewrite E; [exists n|rewrite Ep; exists m]; cbn [rbind];
    by rewrite (proj2 (Z.leb_le _ _)), (proj2 (Z.leb_le _ _)) by lia.
Qed.

Lemma limits_readable store w : settings_ok store w ->
  exists values rps concurrency size, read_many store CLIENT_KEYS w = (Ok values, w) /\
     number_of (stored store w LEAKCHECK_RPS) 3 rps /\ number_of (stored store w LEAKCHECK_CONCURRENCY) 3 concurrency /\
     number_of (stored store w LEAKCHECK_MAX_RESPONSE_BYTES) (32 * 1024 * 1024) size /\
     client_from_platform_values values
       = make_client (default [] (stored store w LEAKCHECK_API_KEY)) (inject_Z rps) concurrency size 3 100 5 (inject_Z 30).
Proof using Type*.
  intros Hok. destruct (read_many_stored store w CLIENT_KEYS Hok) as (values&Hr&Hg).
  assert (Hin : [LEAKCHECK_RPS; LEAKCHECK_CONCURRENCY; LEAKCHECK_MAX_RESPONSE_BYTES; LEAKCHECK_API_KEY] ⊆ CLIENT_KEYS)
    by (unfold CLIENT_KEYS; set_solver).
  destruct (limit_readable store w values LEAKCHECK_RPS 1 20 3 Hok) as (a&Ha&Na); [done|lia|lia|lia|apply Hg; set_solver|].
  destruct (limit_readable store w values LEAKCHECK_CONCURRENCY 1 50 3 Hok) as (b&Hb&Nb); [done|lia|lia|lia|apply Hg; set_solver|].
  destruct (limit_readable store w values LEAKCHECK_MAX_RESPONSE_BYTES 1024 (128 * 1024 * 1024) (32 * 1024 * 1024) Hok) as (c&Hc&Nc);
    [done|lia|lia|lia|apply Hg; set_solver|].
  exists values, a, b, c. split_and!; try done. unfold client_from_platform_values. rewrite Ha, Hb, Hc. cbn [rbind].
  by rewrite (Hg LEAKCHECK_API_KEY) by set_solver.
Qed.

Lemma settings_ok_readable store w : settings_ok store w -> settings_readable store w.
Proof using Type*.
  intros Hok. split; [by apply cooldown_readable|]. split; [by apply policy_readable|]. split; [by apply mail_readable|].
  split; [by apply limits_readable|]. intros text E. pose proof Hok as (_&Hv&_).
  destruct (Hv _ _ E) as (l&Hne&Hl). by exists l.
Qed.

(** C30: The settings form keeps the contract of its readers.  Where every stored setting is
    readable, an accepted form leaves every setting readable: each field of it reads back as its
    text (a blank secret, like a field that is left out, as before).  Of the components that read them, the
    portal gets the stored cooldown; the purge the stored policy with exactly the stored days, never the
    silent default; the mailer its stored switches, the stored server - unless its host, port or sender is
    missing or blank - and the stored link when that is an https one, and otherwise refuses with its
    configuration error (the form itself also takes a blank or an http address); the LeakCheck client is made
    with the stored key and the stored limits; the sign-in gets its list of domains.  The Directory client,
    which reads the service account again, is not among these readers. *)
Theorem settings_form_keeps_readers po r user w resp w' :
  settings_ok (po_store po) w -> update_settings po r user w = (Ok resp, w') ->
  settings_ok (po_store po) w' /\ settings_readable (po_store po) w' /\
  exists fields, parsed_settings r = Ok fields /\ forall key,
    stored (po_store po) w' key =
      match setting_text key (field_get key fields) with
      | Some t => if skipped key (Some t) then stored (po_store po) w key else Some t
      | None => stored (po_store po) w key
      end.
Proof using Type*.
  intros Hok Hu. apply update_settings_inv in Hu as (fields&Hf&Hr). set (store := po_store po) in *.
  assert (Hs : forall key, stored store w' key =
      match setting_text key (field_get key fields) with
      | Some t => if skipped key (Some t) then stored store w key else Some t
      | None => stored store w key
      end).
  { intros key. unfold stored at 1. rewrite Hr. destruct (setting_text key (field_get key fields)) as [t|]; [|done].
    by destruct (skipped key (Some t)). }
  assert (Hok' : settings_ok store w').
  { pose proof Hok as (Hread&Hv&Hd). destruct (parsed_settings_inv r fields Hf) as (Hacc&Hdays). split; [|split].
    - intros key. rewrite Hs, Hr. destruct (setting_text key (field_get key fields)) as [t|]; [destruct (skipped key (Some t))|]; done.
    - intros key v. rewrite Hs. destruct (setting_text key (field_get key fields)) as [t|] eqn:Et; [|apply Hv].
      destruct (skipped key (Some t)); [apply Hv|]. intros [= <-]. by eapply Hacc.
    - rewrite !Hs. intros Hmode.
      assert (Hskip : forall key t, key = RETENTION_MODE \/ key = RETENTION_DAYS -> skipped key (Some t) = false)
        by (intros key t [->| ->]; reflexivity).
      destruct (setting_text RETENTION_DAYS (field_get RETENTION_DAYS fields)) as [t|] eqn:Et; [by rewrite Hskip by auto|].
      destruct (setting_text RETENTION_MODE (field_get RETENTION_MODE fields)) as [m|] eqn:Em; [|by apply Hd]. rewrite Hskip in Hmode by auto.
      injection Hmode as ->. exfalso. by apply Hdays. }
  split; [exact Hok'|]. split; [by apply settings_ok_readable|]. by exists fields.
Qed.

End ContractProperties.

(** A first form on an empty store. *)
Definition first_form : bytes :=
  dumps (JDict [(py "retention_mode", JStr (py "days")); (py "retention_days", JInt 30); (py "notify_dry_run", JBool false);
                (py "google_workspace_domains", JList [JStr (py " Corp.Example. "); JStr (py "corp.example")]);
                (py "smtp_password", JStr []); (py "smtp_port", JInt 587)]).
Definition form_world : World :=
  let d := set_users {[7 := admin_user]} empty_db in mkWorld d d 0 1700000000000000.
Definition form_request : WebRequest := mkWebRequest None ∅ ∅ [] first_form.
Definition form_run : result WebResponse * World :=
  @update_settings ascii_unicode plain_pydantic tagged_aead counting_entropy sample_portal form_request admin_user form_world.
Lemma form_accepted : exists resp, form_run.1 = Ok resp.
Proof. eexists. vm_compute. reflexivity. Qed.
Lemma empty_settings_ok `{Unicode} `{Aead} store w : platform_settings (w_db w) = ∅ -> settings_ok store w.
Proof.
  intros He. assert (Hr : forall key, (read store key w).1 = Ok None).
  { intros key. unfold read, mbind, get_db. rewrite He. done. }
  split; [|split]; unfold stored; [intros key; by rewrite Hr|intros key v; by rewrite Hr|by rewrite Hr].
Qed.

Lemma settings_form_keeps_readers_witness :
  @settings_ok ascii_unicode tagged_aead (po_store sample_portal) form_run.2 /\
  @settings_readable ascii_unicode tagged_aead (po_store sample_portal) form_run.2.
Proof.
  destruct form_accepted as [resp Ha].
  assert (E : form_run = (Ok resp, form_run.2)) by (rewrite <- Ha; apply surjective_pairing).
  destruct (@settings_form_keeps_readers ascii_unicode ascii_unicode_laws plain_pydantic tagged_aead _ counting_entropy
    sample_portal form_request admin_user form_world resp form_run.2
    (@empty_settings_ok ascii_unicode tagged_aead (po_store sample_portal) form_world eq_refl) E) as (Hok&Hr&_).
  exact (conj Hok Hr).
Defined.
Lemma form_read_back :
  map (@stored tagged_aead (po_store sample_portal) form_run.2)
    [RETENTION_MODE; RETENTION_DAYS; NOTIFY_DRY_RUN; GOOGLE_WORKSPACE_DOMAINS; SMTP_PASSWORD]
  = [Some (py "days"); Some (py "30"); Some (py "False"); Some (tpl "[`corp.example`]"); None].
Proof. vm_compute. reflexivity. Qed.
